(* ===== verification/_CoqProject ===== *)
-Q . S2P
Prelude.v
Crc32.v
Fifo.v
RingBuffer.v
DmxBuffer.v
DemuxState.v
SwFilter.v
SectionFilter.v
Sample.v
Reassembly.v
SectionStream.v
SectionSafety.v
SwFrames.v
TransportStream.v
Feeds.v
FeedsInv.v
FilterSpec.v
Dmxdev.v
DmxdevRead.v
DmxdevStream.v
DmxdevBugs.v
DvbFilter.v
DvbNet.v
DvbNetSpec.v
AviaFilter.v
AviaFilterSpec.v
AviaUcode.v
AviaSectionMap.v
AviaUcodeSpec.v
AviaQueue.v
AviaQueueSpec.v
AviaGt.v
AviaAccel.v
AviaPcr.v
AviaDmx.v
AviaDmxSpec.v
AviaDmxInit.v
AviaTask.v
AviaNapi.v
AviaNapiSpec.v
AviaIrq.v
DvbDev.v
DvbDevSpec.v
DvbI2c.v
DvbI2cSpec.v
DvbFrontend.v
DvbFrontendSpec.v
EventRing.v
DvbFrontendEvents.v
DvbFrontendThread.v
AvCore.v
AvCoreSpec.v
AvCoreState.v
AvCoreLive.v
AvNapi.v
AvNapiSpec.v
TxtCode.v
TxtCodeSpec.v
TxtCache.v
TxtThread.v
TxtControl.v
TxtPageSpec.v
TxtPackSpec.v
TxtP28Spec.v
TxtInv.v
TxtSafety.v
TxtFrame.v
TxtControlSpec.v
TxtReceive.v
TxtFindings.v
TxtObject.v
TxtRow.v
TxtPage.v
TxtObjectSpec.v
TxtRowSpec.v
TxtDecodeSpec.v
