(* ===== verification/Prelude.v ===== *)
(** * The DVB core, the AVIA chips and the teletext cache of the dbox2

    This library verifies the part of the repository that moves television data
    from the transport stream to the programs of the receiver: the DVB core
    of the kernel (src/driver/dvb/drivers/media/dvb/dvb-core, "dvb-core/"
    below: demultiplexer, device files, front ends, I2C buses) and the drivers
    of the demultiplexer chip and of the video and audio decoder under it
    (src/driver/dvb/drivers/media/dvb/avia, "avia/"); and, of the programs that
    get the data, the teletext library
    (src/apps/tuxbox/libs/libtuxtxt, "libtuxtxt/").  All of it is C; the
    definitions are shallow: a C function is a function of the same name.

    ** How the program works

    The chip puts the packets, PES data or sections of each PID into one of 32
    circular queues in its memory and raises an interrupt.  The interrupt
    handler notes the write position; a bottom half then calls the callback of
    the demultiplexer driver, which takes the data out of the queue and hands
    it to the client of the feed: sections that the microcode of the chip has
    filtered already, or whole packets that go through the software filter of
    the demux core.  Clients are the demux device (a process that reads
    sections or streams) and the network interface (datagrams in sections).
    In the other direction a process sets a filter on the device; the device
    allocates a feed and filters from the core; the core asks the driver to
    start the feed; the driver translates the filters for the microcode.

    Pictures and sound go from the demultiplexer chip to the decoder, a second
    chip that has a processor of its own: the driver loads its microcode,
    gives it commands through a mailbox in its memory and is interrupted by it.
    The video and audio device files drive it; programs can also write packets
    that they have recorded, which go through a queue of the demultiplexer.

    Before data comes the tuner has to be locked.  Adapters (cards) register
    with the device layer, their I2C buses with the bus layer, which tries
    every front-end driver on every bus; a driver that finds its chip
    registers a front end, which gets a device file and, while it is open for
    writing, a thread that watches the lock, tunes again and queues events for
    the readers of the file.

    Teletext is one of the streams that a program reads from the demux device:
    PES packets of four lines each.  A thread of the library decodes the lines
    (a header, rows of text, links, data for level 2.5), for each of eight
    magazines independently, and keeps every page packed in a table, with
    tables of the links between pages.  Programs start and stop the thread,
    look pages, subpages and the next page of a group up, and have a page
    decoded: unpacked, its spacing attributes made attributes of the cells, the
    enhancements of level 2.5 applied (triplets of the page and of objects that
    it invokes from other pages), the colours of boxes resolved.

    ** How code is modelled

    - Integers are [Z]; conversions to a width are written out ([u8], [u16],
      [u32], [s16], [s32], [u64]) where the code can reach them.
    - Memory is a list of bytes; [memcpy_to], [slice], [rd] and [at_] read and
      write it.  Leaving an object is the outcome [Fault].
    - Outcomes are [res]: [Ok], [Fault], [Block] (waiting for a semaphore that
      nobody will release), [Diverge] (fuel used up).
    - Code with state is in [M S A := S -> res (A * S)], with the notations
      [let! x := m in k] and [m ;;; k] (scope [dvb_scope]); [let?] sequences
      outcomes.  Records have setters made by [setter!].
    - Pointers into arrays of the program are indices.  Callbacks into other
      parts are type classes: [DemuxClient], [DemuxDriver], [CrcHooks]
      (DemuxState), [ByteQueue] (Fifo), [GtClients] (AviaDmx), [NapiPeers]
      (AviaNapi), [I2cDrivers] (DvbI2c), [FeDrivers] (DvbFrontend), [NapiPcm]
      (AvNapi).  Where one driver is called back by another on shared state,
      the state of the first is a part of the world of the second ([napi_bus]
      in AvNapi).
    - Where a task sleeps while others run, what the others do is an argument
      ([others] in DvbFrontend); theorems about all of them quantify over it,
      theorems about a race name it.  A pending signal is part of the state or
      an argument.  Memory that may be freed while others still use it is a
      map from pointers ([heap] in DvbFrontend); using what is not in it is a
      [Fault].
    - Hardware is a parameter: [GtBus] with the laws [GtRegisters] (registers
      keep what is written to them; the queue registers are a window on half
      of the queues, as the comments of avia_gt_enx.h and avia_gt_dmx.c say),
      and [GtAccel] with the laws [CrcEngine] (one command of the CRC engine).
      The decoder is [AvBus], its seven bytes of registers and the time around
      it, with the laws [AvWindow] (the bytes are a window on the words of the
      chip; plain words keep what is written), [AvReady] and [AvAnswers] (it
      takes commands).  Each has an instance, on which the examples run.
    - The microcode that reads the tables is not in the sources: it is a
      parameter of the theorem about it ([microcode_spec]: it evaluates the
      table entries, [AviaFilterSpec.entries_pass]).

    ** The files

    Foundation:
    - Prelude: outcomes, the monad, integers, memory, the lemmas and tactics
      all files share ([mrun], [case_if], [zl], the hint databases).
    - Fifo: circular buffers and the interface [ByteQueue] with its laws.
      DmxBuffer implements it; DmxdevRead is proved against it; RingBuffer
      and AviaQueueSpec use its lemmas on circular buffers.
    - Crc32: dvb_compat.c; the table-driven CRC is bit-serial division.

    The demux core (dvb-core/dvb_demux.c, .h, demux.h):
    - DemuxState: structures, constants, interfaces.
    - SwFilter (section reassembly, filters), SwFrames (bytes to packets),
      Feeds (the API: allocation, start, stop, front ends).
    - SectionFilter, FilterSpec: what a filter selects.  Reassembly,
      SectionStream, TransportStream: the filter refines the abstract
      multiplex, for packets, streams of one PID, whole transport streams in
      pieces.  SectionSafety: memory safety, and where it ends.  FeedsInv:
      the invariant of the API.  Sample: inputs for examples.

    Clients of the core:
    - RingBuffer (dvb_ringbuffer.c); DmxBuffer (the buffer of dmxdev.c, with
      readers that sleep while producers write).
    - Dmxdev (dmxdev.c); DmxdevRead, DmxdevStream: a reader gets exactly the
      sections its filter selects, from the stream to the read call;
      DmxdevBugs: runs that go wrong.
    - DvbFilter (dvb_filter.c): PES to packets and back, the AC3 header.
    - DvbNet, DvbNetSpec (dvb_net.c): datagrams, address filters.

    Devices, buses and front ends (dvb-core/):
    - DvbDev (dvbdev.c, dvb_functions.c), DvbDevSpec: the registry refines a
      table from minor numbers to devices and stays well formed; limits of
      opening; the race of two registrations; the copying of arguments.
    - DvbI2c (dvb_i2c.c), DvbI2cSpec: clients and use counts of modules after
      any calls; which data a driver is detached with; failures of memory.
    - DvbFrontend (dvb_frontend.c): the model.  DvbFrontendSpec: the bending
      of frequencies, the search for a drifted LNB, the delay of the thread.
      DvbFrontendEvents: the ring of events refines a bounded queue (EventRing,
      shared with the decoder).
      DvbFrontendThread: a turn of the thread, ioctls, notifiers, and the
      runs in which a semaphore or a freed device is misused.

    The chip (avia/):
    - AviaFilter (the translation in avia_gt_ucode.c of section filters to
      table entries) and AviaFilterSpec (it loses nothing, under conditions;
      and what it loses otherwise).
    - AviaUcode (the tables of the microcode, feeds, keys), AviaSectionMap
      (the search for table entries), AviaUcodeSpec.
    - AviaQueue, AviaQueueSpec: the contents of one queue (avia_gt_dmx.c).
    - AviaGt: registers, interrupt table, memory map (avia_gt_core.c,
      avia_gt_enx.c, avia_gt_gtx.c).  AviaAccel: the CRC engine.  AviaPcr:
      clock recovery.
    - AviaDmx: everything else of avia_gt_dmx.c and the message queue;
      AviaDmxSpec (positions, checksums, clients), AviaDmxInit (memory
      layout), AviaTask (bottom half, messages), AviaIrq (the interrupt
      handler keeps the queues well formed).
    - AviaNapi, AviaNapiSpec: avia_gt_napi.c, the driver between chip and
      core: its CRC hooks keep the contract of the core, its callbacks
      deliver what the queues hold.

    The decoder (avia/):
    - AvCore (avia_av_core.c, avia_av_event.c): registers, microcode, commands,
      start and standby, interrupt, playing, clock, watchdog.  AvCoreSpec: the
      microcode gets into the chip as the file says, commands into the
      mailbox, time stamps into the clock.  AvCoreState: what every call keeps
      ([av_closed], [av_kept]), the ranges of the variables, the transitions
      of the play states.  AvCoreLive: every call returns on a chip that
      answers; what happens on one that does not.
    - AvNapi (avia_av_napi.c), AvNapiSpec: the device files; the decoder is in
      step with its users; playing from memory; the events of the pictures.

    Teletext (libtuxtxt/tuxtxt_common.h, tuxtxt_def.h, libtuxtxt.c):
    - TxtCode: Hamming 8/4, parity and Hamming 24/18, by table and bit by bit.
      TxtCodeSpec: what is corrected and detected; the two decoders agree.
    - TxtCache: the data, page numbers, packing, TOP tables, clearing,
      packets 28 and 29.  TxtPageSpec (page numbers, subpages, searches),
      TxtPackSpec (unpacking gives the text back), TxtP28Spec (the fields of
      packets 28 and 29).
    - TxtThread: what the thread does with a packet.  TxtInv, TxtSafety: the
      invariant of the cache and that packets keep it; TxtFrame: what a
      packet leaves alone; TxtReceive: the text of a page is the rows that
      were sent for it, whatever comes between.
    - TxtControl, TxtControlSpec: init, start, stop, close and the life of the
      thread; sessions are safe; a start that succeeds receives; the thread
      that begins late.  TxtFindings: runs that go wrong.
    - TxtObject (triplets and objects of level 2.5, tuxtxt_eval_object and
      what it calls), TxtRow (spacing attributes, rows, boxes: the loops of
      tuxtxt_DecodePage), TxtPage (tuxtxt_DecodePage, tuxtxt_eval_l25, links of
      the magazine organization table).
    - TxtRowSpec: decoding in place is one pass over each received row, and
      where colours take effect.  TxtObjectSpec: enhancements that invoke
      nothing stay on the page and end; where a colour reaches; an object
      outside the page, and one that invokes itself.  TxtDecodeSpec: a whole
      page of level 1, from the cache to the cells.

    ** Loops and fuel

    Loops over data take fuel computed from the data (the bytes that wait, the
    length of a list), and the theorems about them show that it is enough:
    the results are equations with [Ok].  Examples: [hw_translate_total] (the
    merging of filters), [buffer_read_total] (a reader that sleeps),
    [crc_gtx_loop_total], [dump_queue_run], [napi_sections_delivered].  The
    bending of frequencies recurs at most eleven times, as its own counter
    says ([bend_frequency_spec]); the search for the number of an adapter
    skips at most as many numbers as there are adapters
    ([register_adapter_least]); removing all clients of a bus takes a round
    per client ([i2c_bus_detaches_all]).  The
    loops that wait for the hardware ([read_stable], [wait_room]) take
    [hw_fuel] = 1000 rounds; with registers that keep their values two rounds
    of the first are enough ([queue_write_pos_roundtrip]), the second ends
    when the decoder has read enough, about which nothing is assumed.  The
    waits of the decoder's driver take [wait_fuel] = 1000 rounds, more than the
    200 ticks and the 350 sleeps that bound them ([status_loop_ends],
    [stays_complete]).  Its commands nest when a chip is restarted: they take
    the [depth] of nested calls as an argument, and the theorems hold for
    every depth; one is enough on a chip that answers ([av_playing_returns]),
    none on a chip that starts and then stays silent
    ([deaf_chip_never_returns]).  The searches of
    the teletext cache take fuel as an argument: 0x7a turns are enough for a
    subpage ([GetSubPage_finds]; from subpages that it does not pass none are,
    [GetSubPage_loops_forever]), 0x800 for a hexadecimal page
    ([next_hex_ends]), 802 for TOP ([toptext_getnext_ends]).  The rows of a page
    take 26 turns ([page_is_scanned]); an object takes one for each triplet and
    one for each object that it invokes: 509 are enough for a page's own 507
    triplets when they invoke nothing ([x26_stays_on_page]), none when an object
    invokes itself ([local_object_recurses]).

    ** Not modelled

    - printk and debugging output; memory barriers; the spin locks that only
      keep interrupts out of straight-line code.
    - dvb_i2c_bridge.c, which passes transfers on to the I2C subsystem of the
      kernel; the devfs entries of devices, which are only names; the
      registration of the character device when the module is loaded.
    - Wake-ups: a sleep ends when the argument [others] returns; scheduling is
      not modelled.
    - The start of the AVIA drivers (mapping of memory, registration) except
      for avia_gt_dmx_init; avia_gt_accel_copy; the watchdog thread.
    - The on-screen display and the proc files of the decoder; the
      framebuffer, sound and infrared drivers and the front end drivers:
      register programming.  The other applications: user space programs,
      largely C++ and printing.  Boot loader and build system.
    - In the teletext library: the locks, freed memory (pointers to it are
      simply gone), calls of several tasks at once, the other two variants of
      packing; after decoding, the choice and drawing of characters, and HTML.
      The pointer to the table of colours is the table.
    - The C interface of microcode 0xc001, which the sources name and do not
      contain; the microcode itself. *)

From Stdlib Require Export ZArith Lia.
From stdpp Require Export base list list_numbers option numbers.

#[global] Open Scope Z_scope.

Declare Scope dvb_scope.
Delimit Scope dvb_scope with dvb.

(** ** Outcomes of C code

    [Ok a]: the code ran to its return.  [Fault]: it read or wrote outside an
    object or followed a null pointer.  [Block]: it waits for a semaphore that
    nobody will release (it holds it itself) and no signal is pending.
    [Diverge]: a loop used up its fuel. *)

Inductive res (A : Type) : Type :=
| Ok (a : A)
| Fault
| Block
| Diverge.
Arguments Ok {A} a.
Arguments Fault {A}.
Arguments Block {A}.
Arguments Diverge {A}.

Definition res_bind {A B} (m : res A) (f : A -> res B) : res B :=
  match m with
  | Ok a => f a
  | Fault => Fault
  | Block => Block
  | Diverge => Diverge
  end.

(** Stateful code: a function from the state to an outcome that carries the
    result and the new state. *)

Definition M (S A : Type) : Type := S -> res (A * S).

Definition mret_ {S A} (a : A) : M S A := fun s => Ok (a, s).
Definition mbind_ {S A B} (m : M S A) (f : A -> M S B) : M S B :=
  fun s => res_bind (m s) (fun p => f p.1 p.2).
Definition mget {S} : M S S := fun s => Ok (s, s).
Definition mput {S} (s' : S) : M S unit := fun _ => Ok (tt, s').
Definition mmodify {S} (f : S -> S) : M S unit := fun s => Ok (tt, f s).
Definition mgets {S A} (f : S -> A) : M S A := fun s => Ok (f s, s).
Definition mfault {S A} : M S A := fun _ => Fault.
Definition mlift {S A} (r : res A) : M S A := fun s => res_bind r (fun a => Ok (a, s)).

Notation "'let!' x ':=' m 'in' k" := (mbind_ m (fun x => k))
  (at level 10, x binder, m at level 100, k at level 200) : dvb_scope.
Notation "'let?' x ':=' m 'in' k" := (res_bind m (fun x => k))
  (at level 10, x binder, m at level 100, k at level 200) : dvb_scope.
Notation "m ';;;' k" := (mbind_ m (fun _ => k))
  (at level 100, k at level 200, right associativity) : dvb_scope.
#[global] Open Scope dvb_scope.

(** ** Fixed-width integers *)

Definition u8 (z : Z) : Z := z mod 2 ^ 8.
Definition u16 (z : Z) : Z := z mod 2 ^ 16.
Definition u32 (z : Z) : Z := z mod 2 ^ 32.
Definition s16 (z : Z) : Z := (z + 2 ^ 15) mod 2 ^ 16 - 2 ^ 15.
Definition s32 (z : Z) : Z := (z + 2 ^ 31) mod 2 ^ 32 - 2 ^ 31.
Definition u64 (z : Z) : Z := z mod 2 ^ 64.

(** C truth values. *)
Definition c_bool (b : bool) : Z := if b then 1 else 0.

Definition is_byte (z : Z) : Prop := 0 <= z < 256.
Definition bytes (l : list Z) : Prop := Forall is_byte l.

(** ** Error numbers (asm/errno.h) *)

Definition EINTR := 4.
Definition EAGAIN := 11.
Definition ENOMEM := 12.
Definition EFAULT := 14.
Definition EBUSY := 16.
Definition ENODEV := 19.
Definition EINVAL := 22.
Definition ENFILE := 23.
Definition EMFILE := 24.
Definition ENOSYS := 38.
Definition EOVERFLOW := 75.
Definition EUSERS := 87.
Definition EOPNOTSUPP := 95.
Definition ETIMEDOUT := 110.
Definition ERESTARTSYS := 512.
Definition ENOIOCTLCMD := 515.
Definition EWOULDBLOCK := EAGAIN.
Definition EPERM := 1.

(** ** Arrays of bytes *)

Definition zlen {A} (l : list A) : Z := Z.of_nat (length l).

(** A read at a fixed offset that the caller's contract covers. *)
Definition at_ (l : list Z) (i : Z) : Z := nth (Z.to_nat i) l 0.

(** A read at a computed offset. *)
Definition rd (l : list Z) (i : Z) : res Z :=
  if (0 <=? i) && (i <? zlen l) then Ok (at_ l i) else Fault.

(** [slice l off len]: the bytes that [memcpy (_, l + off, len)] reads. *)
Definition slice (l : list Z) (off len : Z) : res (list Z) :=
  if (0 <=? off) && (0 <=? len) && (off + len <=? zlen l)
  then Ok (take (Z.to_nat len) (drop (Z.to_nat off) l)) else Fault.

(** [memcpy_to dst off src]: the object [dst] after [memcpy (dst + off, src)]. *)
Definition memcpy_to (dst : list Z) (off : Z) (src : list Z) : res (list Z) :=
  if (0 <=? off) && (off + zlen src <=? zlen dst)
  then Ok (take (Z.to_nat off) dst ++ src ++ drop (Z.to_nat (off + zlen src)) dst)
  else Fault.

(** A value in the byte order of the (big-endian) processor. *)
Definition be_value (l : list Z) : Z := fold_left (fun v b => Z.lor (Z.shiftl v 8) b) l 0.

(** ** Tactics

    [rif] decides the conditions of the [if]s of the goal that linear
    arithmetic can decide, and reduces them; [rres] also runs the monadic
    binds on outcomes that are already known. *)

Ltac rif_step :=
  match goal with
  | |- context [if ?c then _ else _] =>
      first [ replace c with true by (symmetry; lia)
            | replace c with false by (symmetry; lia) ]
  end.
Ltac rif := repeat (rif_step; cbv iota).

Ltac case_if :=
  match goal with
  | |- context [if ?c then _ else _] => let E := fresh "Ec" in destruct c eqn:E
  end.

Ltac case_if_in H :=
  match type of H with
  | context [if ?c then _ else _] => let E := fresh "Ec" in destruct c eqn:E
  end.

(** Case analysis on every [if] of the goal and the hypotheses, then [lia]. *)
Ltac case_lia :=
  repeat match goal with H : context [if _ then _ else _] |- _ => revert H end;
  repeat case_if; intros; lia.

(** Splits every hypothesis that is a conjunction of booleans or of
    propositions. *)
Ltac split_bools :=
  repeat match goal with
  | H : _ /\ _ |- _ => destruct H
  | H : _ && _ = true |- _ => apply andb_true_iff in H; destruct H
  | H : _ || _ = false |- _ => apply orb_false_iff in H; destruct H
  | H : negb _ = true |- _ => apply negb_true_iff in H
  | H : negb _ = false |- _ => apply negb_false_iff in H
  end.

Lemma res_bind_Ok {A B} (m : res A) (f : A -> res B) b :
  res_bind m f = Ok b <-> exists a, m = Ok a /\ f a = Ok b.
Proof.
  destruct m; simpl; (split; [intros Hx; try discriminate; eauto | intros (x & Hx & Hy)]);
    by simplify_eq.
Qed.

Ltac inv_res H :=
  repeat match type of H with
  | res_bind _ _ = Ok _ =>
      let a := fresh "r" in let Ha := fresh "Hr" in
      apply res_bind_Ok in H; destruct H as (a & Ha & H); simpl in H
  end.

(** Running a bind whose first part is known. *)
Lemma mbind_Ok {S A B} (m : M S A) (k : A -> M S B) s a s' :
  m s = Ok (a, s') -> mbind_ m k s = k a s'.
Proof. intros E. unfold mbind_. by rewrite E. Qed.

Lemma mret_bind {S A B} (a : A) (k : A -> M S B) s : mbind_ (mret_ a) k s = k a s.
Proof. done. Qed.
Lemma mget_bind {S B} (k : S -> M S B) s : mbind_ mget k s = k s s.
Proof. done. Qed.
Lemma mgets_bind {S A B} (f : S -> A) (k : A -> M S B) s : mbind_ (mgets f) k s = k (f s) s.
Proof. done. Qed.
Lemma mmodify_bind {S B} (f : S -> S) (k : unit -> M S B) s : mbind_ (mmodify f) k s = k tt (f s).
Proof. done. Qed.
Lemma mlift_bind {S A B} (a : A) (k : A -> M S B) s : mbind_ (mlift (Ok a)) k s = k a s.
Proof. done. Qed.
Lemma mbind_bind {S A B E} (m : M S A) (k : A -> M S B) (g : B -> M S E) s :
  mbind_ (mbind_ m k) g s = mbind_ m (fun a => mbind_ (k a) g) s.
Proof. unfold mbind_. by destruct (m s). Qed.
Lemma mbind_ret_r {S A} (m : M S A) s : mbind_ m mret_ s = m s.
Proof. unfold mbind_, mret_. by destruct (m s) as [[]| | |]. Qed.

Create Rewrite HintDb monad.
#[export] Hint Rewrite @mret_bind @mget_bind @mgets_bind @mmodify_bind @mlift_bind @mbind_bind : monad.
Ltac mrun := repeat progress (cbn [fst snd negb]; autorewrite with monad); cbn [fst snd negb].

(** ** Reasoning about stateful code

    [runs m s Q]: from [s] the code returns, and [Q] holds of the result and the
    new state.  [ends m s Q]: if it returns, then [Q] holds.  [keeps I m]: it
    keeps the invariant [I], if it returns. *)

Definition runs {S A} (m : M S A) (s : S) (Q : A -> S -> Prop) : Prop :=
  exists a s', m s = Ok (a, s') /\ Q a s'.
Definition ends {S A} (m : M S A) (s : S) (Q : A -> S -> Prop) : Prop :=
  forall a s', m s = Ok (a, s') -> Q a s'.
Definition keeps {S A} (I : S -> Prop) (m : M S A) : Prop :=
  forall s, I s -> ends m s (fun _ s' => I s').

Section Logic.
Context {S : Type}.

Lemma runs_ret {A} (a : A) (s : S) (Q : A -> S -> Prop) : Q a s -> runs (mret_ a) s Q.
Proof. intros. by exists a, s. Qed.
Lemma runs_bind {A B} (m : M S A) (k : A -> M S B) s R Q :
  runs m s R -> (forall a s', R a s' -> runs (k a) s' Q) -> runs (mbind_ m k) s Q.
Proof.
  intros (a & s' & E & H) Hk. destruct (Hk a s' H) as (b & s'' & E' & H').
  exists b, s''. split; [|done]. by rewrite (mbind_Ok _ _ _ _ _ E).
Qed.
Lemma runs_weaken {A} (m : M S A) s (R Q : A -> S -> Prop) :
  runs m s R -> (forall a s', R a s' -> Q a s') -> runs m s Q.
Proof. intros (a & s' & E & H) HQ. exists a, s'. auto. Qed.

Lemma ends_ret {A} (a : A) (s : S) (Q : A -> S -> Prop) : Q a s -> ends (mret_ a) s Q.
Proof. intros H b s' E. by injection E as -> ->. Qed.
Lemma ends_bind {A B} (m : M S A) (k : A -> M S B) s R Q :
  ends m s R -> (forall a s', R a s' -> ends (k a) s' Q) -> ends (mbind_ m k) s Q.
Proof.
  intros Hm Hk b s'' E. unfold mbind_ in E. apply res_bind_Ok in E as ([a s'] & E & E').
  eapply Hk; [by eapply Hm|done].
Qed.
Lemma ends_weaken {A} (m : M S A) s (R Q : A -> S -> Prop) :
  ends m s R -> (forall a s', R a s' -> Q a s') -> ends m s Q.
Proof. intros H HQ a s' E. eauto. Qed.

Context (I : S -> Prop).
Lemma keeps_ret {A} (a : A) : keeps I (mret_ a).
Proof. intros s H. by apply ends_ret. Qed.
Lemma keeps_bind {A B} (m : M S A) (k : A -> M S B) :
  keeps I m -> (forall a, keeps I (k a)) -> keeps I (mbind_ m k).
Proof. intros Hm Hk s H. eapply ends_bind; [by apply Hm|]. intros a s' H'. by apply Hk. Qed.
Lemma keeps_get_bind {B} (k : S -> M S B) :
  (forall s, I s -> ends (k s) s (fun _ s' => I s')) -> keeps I (mbind_ mget k).
Proof. intros Hk s H. by apply Hk. Qed.
Lemma keeps_get : keeps I mget.
Proof. intros s H a s' E. by injection E as -> ->. Qed.
Lemma keeps_gets {A} (f : S -> A) : keeps I (mgets f).
Proof. intros s H a s' E. by injection E as _ ->. Qed.
Lemma keeps_modify (f : S -> S) : (forall s, I s -> I (f s)) -> keeps I (mmodify f).
Proof. intros Hf s H a s' E. injection E as _ <-. auto. Qed.
Lemma keeps_fault {A} : keeps I (@mfault S A).
Proof. by intros s H a s'. Qed.
Lemma keeps_lift {A} (r : res A) : keeps I (mlift r).
Proof. intros s H a s' E. unfold mlift in E. apply res_bind_Ok in E as (? & _ & E). by injection E as _ <-. Qed.
Lemma keeps_diverge {A} : keeps I (fun _ => @Diverge (A * S)).
Proof. by intros s H a s'. Qed.
End Logic.

Create HintDb keeps.
#[export] Hint Resolve keeps_ret keeps_get keeps_gets keeps_fault keeps_lift keeps_diverge : keeps.

(** Runs through code that keeps an invariant; the calls are solved by the
    hints of [keeps]. *)
Ltac keeps_step :=
  first
    [ progress (intros; cbv zeta)
    | solve [eauto with keeps]
    | apply keeps_bind; [|intros]
    | case_match
    | apply keeps_modify ].
Ltac keeps_run := repeat keeps_step.

(** ** Lengths *)

Lemma zlen_nonneg {A} (l : list A) : 0 <= zlen l.
Proof. unfold zlen. lia. Qed.

Lemma zlen_app {A} (l k : list A) : zlen (l ++ k) = zlen l + zlen k.
Proof. unfold zlen. rewrite length_app. lia. Qed.

Lemma zlen_cons {A} (a : A) l : zlen (a :: l) = 1 + zlen l.
Proof. unfold zlen. simpl. lia. Qed.

Lemma zlen_nil {A} : zlen (@nil A) = 0.
Proof. done. Qed.

Lemma zlen_take {A} n (l : list A) : (n <= length l)%nat -> zlen (take n l) = Z.of_nat n.
Proof. unfold zlen. rewrite length_take. lia. Qed.

Lemma zlen_drop {A} n (l : list A) : (n <= length l)%nat -> zlen (drop n l) = zlen l - Z.of_nat n.
Proof. unfold zlen. rewrite length_drop. lia. Qed.

Lemma zlen_replicate {A} n (a : A) : zlen (replicate n a) = Z.of_nat n.
Proof. unfold zlen. by rewrite length_replicate. Qed.

Create Rewrite HintDb zlen.
#[export] Hint Rewrite @zlen_app @zlen_cons @zlen_nil @zlen_replicate : zlen.

(** [zl] normalises lengths in the whole context and calls [lia]. *)
Ltac zl :=
  unfold zlen in *;
  repeat (rewrite length_app in * || rewrite length_take in * || rewrite length_drop in *
          || rewrite length_replicate in * || rewrite length_insert in *
          || rewrite length_map in * );
  simpl length in *; lia.

(** ** Reads and copies *)

Lemma at_lookup l i : 0 <= i < zlen l -> l !! Z.to_nat i = Some (at_ l i).
Proof.
  intros H. unfold at_. destruct (lookup_lt_is_Some_2 l (Z.to_nat i)) as [x Hx]; [zl|].
  rewrite Hx. f_equal. symmetry. by apply nth_lookup_Some.
Qed.

Lemma at_app_l l k i : 0 <= i < zlen l -> at_ (l ++ k) i = at_ l i.
Proof. intros H. unfold at_. rewrite app_nth1; [done|]. zl. Qed.

Lemma at_app_r l k i : zlen l <= i -> at_ (l ++ k) i = at_ k (i - zlen l).
Proof.
  intros H. unfold at_. rewrite app_nth2; [|zl]. f_equal. zl.
Qed.

Lemma at_cons_0 a l : at_ (a :: l) 0 = a.
Proof. done. Qed.

Lemma at_cons_S a l i : 0 < i -> at_ (a :: l) i = at_ l (i - 1).
Proof.
  intros H. unfold at_. replace (Z.to_nat i) with (S (Z.to_nat (i - 1))) by lia. done.
Qed.

Lemma at_drop l n i : 0 <= n -> 0 <= i -> at_ (drop (Z.to_nat n) l) i = at_ l (n + i).
Proof.
  intros. unfold at_. rewrite !nth_lookup. rewrite lookup_drop. do 2 f_equal. lia.
Qed.

Lemma at_take l n i : 0 <= i < n -> at_ (take (Z.to_nat n) l) i = at_ l i.
Proof.
  intros. unfold at_. rewrite !nth_lookup. rewrite lookup_take. case_decide; [done|lia].
Qed.

Lemma rd_ok l i : 0 <= i < zlen l -> rd l i = Ok (at_ l i).
Proof. intros. unfold rd. by rif. Qed.

Lemma bytes_at l i : bytes l -> 0 <= i < zlen l -> is_byte (at_ l i).
Proof.
  intros Hb Hi. eapply (Forall_lookup_1 _ _ _ _ Hb). by apply at_lookup.
Qed.

Lemma slice_ok l off len :
  0 <= off -> 0 <= len -> off + len <= zlen l ->
  slice l off len = Ok (take (Z.to_nat len) (drop (Z.to_nat off) l)).
Proof. intros. unfold slice. by rif. Qed.

Lemma memcpy_to_ok dst off src :
  0 <= off -> off + zlen src <= zlen dst ->
  memcpy_to dst off src =
    Ok (take (Z.to_nat off) dst ++ src ++ drop (Z.to_nat (off + zlen src)) dst).
Proof. intros. unfold memcpy_to. by rif. Qed.

Lemma memcpy_to_some dst off src :
  0 <= off -> off + zlen src <= zlen dst -> exists b, memcpy_to dst off src = Ok b.
Proof. intros. rewrite memcpy_to_ok by done. eauto. Qed.

Lemma memcpy_to_inv dst off src dst' :
  memcpy_to dst off src = Ok dst' ->
  0 <= off /\ off + zlen src <= zlen dst /\
  dst' = take (Z.to_nat off) dst ++ src ++ drop (Z.to_nat (off + zlen src)) dst.
Proof. unfold memcpy_to. intros H. case_if_in H; [|done]. simplify_eq. split_and!; lia || done. Qed.

Lemma memcpy_to_length dst off src dst' :
  memcpy_to dst off src = Ok dst' -> length dst' = length dst.
Proof. intros (? & ? & ->)%memcpy_to_inv. zl. Qed.

Lemma slice_inv l off len r :
  slice l off len = Ok r ->
  0 <= off /\ 0 <= len /\ off + len <= zlen l /\
  r = take (Z.to_nat len) (drop (Z.to_nat off) l).
Proof. unfold slice. intros H. case_if_in H; [|done]. simplify_eq. split_and!; lia || done. Qed.

Lemma slice_zlen l off len r : slice l off len = Ok r -> zlen r = len.
Proof. intros (? & ? & ? & ->)%slice_inv. zl. Qed.

(** The bytes written by a copy, read back, and a copy that continues one. *)
Lemma memcpy_take dst off src dst' :
  memcpy_to dst off src = Ok dst' ->
  take (Z.to_nat (off + zlen src)) dst' = take (Z.to_nat off) dst ++ src.
Proof.
  intros (? & ? & ->)%memcpy_to_inv. rewrite app_assoc. rewrite take_app_length'; [done|].
  zl.
Qed.

Lemma memcpy_take_0 dst src dst' :
  memcpy_to dst 0 src = Ok dst' -> take (length src) dst' = src.
Proof.
  intros H%memcpy_take. rewrite Z.add_0_l in H. unfold zlen in H. rewrite Nat2Z.id in H. done.
Qed.

Lemma bytes_app l k : bytes (l ++ k) <-> bytes l /\ bytes k.
Proof. apply Forall_app. Qed.
Lemma bytes_take n l : bytes l -> bytes (take n l).
Proof. apply Forall_take. Qed.
Lemma bytes_drop n l : bytes l -> bytes (drop n l).
Proof. apply Forall_drop. Qed.
Lemma u8_byte z : is_byte (u8 z).
Proof. unfold u8, is_byte. apply Z.mod_pos_bound. lia. Qed.
Lemma u8_id z : is_byte z -> u8 z = z.
Proof. apply Z.mod_small. Qed.

#[export] Hint Resolve bytes_take bytes_drop u8_byte : core.

(** ** Bits *)

Lemma land_ones_255 z : Z.land z 0xff = u8 z.
Proof. change 0xff with (Z.ones 8). by rewrite Z.land_ones. Qed.

Lemma bits_small z n i : 0 <= z < 2 ^ n -> n <= i -> Z.testbit z i = false.
Proof.
  intros [Hz Hn] Hi. destruct (decide (z = 0)) as [->|]; [apply Z.bits_0|].
  apply Z.bits_above_log2; [done|]. apply Z.log2_lt_pow2; [lia|].
  eapply Z.lt_le_trans; [done|]. apply Z.pow_le_mono_r; lia.
Qed.

Lemma byte_eq_bits a b : is_byte a -> is_byte b ->
  (forall n, (n < 8)%nat -> Z.testbit a (Z.of_nat n) = Z.testbit b (Z.of_nat n)) -> a = b.
Proof.
  intros Ha Hb H. apply Z.bits_inj'. intros n Hn. destruct (Z.ltb_spec n 8).
  - specialize (H (Z.to_nat n)). rewrite Z2Nat.id in H by done. apply H. lia.
  - rewrite (bits_small a 8), (bits_small b 8) by (unfold is_byte in *; lia). done.
Qed.

Lemma lxor_bound a b n : 0 <= n -> 0 <= a < 2 ^ n -> 0 <= b < 2 ^ n -> 0 <= Z.lxor a b < 2 ^ n.
Proof.
  intros Hn Ha Hb. assert (0 <= Z.lxor a b) as Hx by (apply Z.lxor_nonneg; lia).
  split; [done|]. rewrite <- (Z.mod_small (Z.lxor a b) (2 ^ n)) at 1.
  - apply Z.mod_pos_bound. lia.
  - split; [done|]. destruct (decide (Z.lxor a b = 0)) as [->|]; [lia|].
    apply Z.log2_lt_pow2; [lia|].
    destruct (decide (Z.log2 (Z.lxor a b) < n)); [done|].
    assert (Z.testbit (Z.lxor a b) (Z.log2 (Z.lxor a b)) = true) as Ht
      by (apply Z.bit_log2; lia).
    rewrite Z.lxor_spec, (bits_small a n), (bits_small b n) in Ht by lia. done.
Qed.

Lemma u8_testbit z i : 0 <= i -> Z.testbit (u8 z) i = (i <? 8) && Z.testbit z i.
Proof.
  intros. unfold u8. destruct (Z.ltb_spec i 8).
  - rewrite Z.mod_pow2_bits_low by lia. done.
  - rewrite Z.mod_pow2_bits_high by lia. done.
Qed.

Lemma u32_testbit z i : 0 <= i -> Z.testbit (u32 z) i = (i <? 32) && Z.testbit z i.
Proof.
  intros. unfold u32. destruct (Z.ltb_spec i 32).
  - rewrite Z.mod_pow2_bits_low by lia. done.
  - rewrite Z.mod_pow2_bits_high by lia. done.
Qed.

Lemma u32_range z : 0 <= u32 z < 2 ^ 32.
Proof. apply Z.mod_pos_bound. lia. Qed.

Lemma u32_lxor a b : u32 (Z.lxor a b) = Z.lxor (u32 a) (u32 b).
Proof.
  apply Z.bits_inj'. intros i Hi. rewrite Z.lxor_spec, !u32_testbit, Z.lxor_spec by done.
  destruct (i <? 32); simpl; [done|]. by destruct (Z.testbit a i), (Z.testbit b i).
Qed.

Lemma shiftl_lxor a b n : Z.shiftl (Z.lxor a b) n = Z.lxor (Z.shiftl a n) (Z.shiftl b n).
Proof. apply Z.shiftl_lxor. Qed.

Lemma lor_shiftl_add a b n : 0 <= n -> 0 <= b < 2 ^ n -> Z.lor (Z.shiftl a n) b = a * 2 ^ n + b.
Proof.
  intros Hn Hb. rewrite <- Z.shiftl_mul_pow2 by done.
  assert (Z.land (Z.shiftl a n) b = 0) as Hz; [|rewrite <- Z.add_lor_land, Hz; lia].
  apply Z.bits_inj'. intros i Hi. rewrite Z.land_spec, Z.bits_0.
  destruct (Z.ltb_spec i n).
  - by rewrite Z.shiftl_spec_low.
  - rewrite (bits_small b n i) by lia. apply andb_false_r.
Qed.

(** A property of all the elements of a finite range, by computation. *)
Lemma forall_range (P : Z -> bool) (n : nat) :
  forallb (fun k => P (Z.of_nat k)) (seq 0 n) = true ->
  forall z, 0 <= z < Z.of_nat n -> P z = true.
Proof.
  intros H z Hz. rewrite forallb_forall in H.
  specialize (H (Z.to_nat z)). rewrite Z2Nat.id in H by lia. apply H.
  apply in_seq. lia.
Qed.

(** ** Pointwise description of copies *)

Lemma memcpy_at dst off src dst' i :
  memcpy_to dst off src = Ok dst' -> 0 <= i < zlen dst ->
  at_ dst' i = if (off <=? i) && (i <? off + zlen src) then at_ src (i - off) else at_ dst i.
Proof.
  intros (Ho & Hl & ->)%memcpy_to_inv Hi.
  pose proof (zlen_nonneg src).
  assert (zlen (take (Z.to_nat off) dst) = off) as Ht by zl.
  destruct (Z.ltb_spec i off).
  - rif. rewrite at_app_l by lia. apply at_take. lia.
  - destruct (Z.ltb_spec i (off + zlen src)).
    + rif. rewrite at_app_r, Ht by lia. apply at_app_l. lia.
    + rif. rewrite at_app_r, Ht by lia. rewrite at_app_r by lia.
      rewrite at_drop by lia. f_equal. lia.
Qed.

Lemma slice_at l off len r i :
  slice l off len = Ok r -> 0 <= i < len -> at_ r i = at_ l (off + i).
Proof.
  intros (? & ? & ? & ->)%slice_inv Hi. rewrite at_take by lia. apply at_drop; lia.
Qed.

Lemma list_eq_at l k : zlen l = zlen k -> (forall i, 0 <= i < zlen l -> at_ l i = at_ k i) -> l = k.
Proof.
  intros Hl H. apply (list_eq_same_length _ _ (length l)); [zl|done|].
  intros i x y Hi Hx Hy.
  specialize (H (Z.of_nat i)). unfold at_ in H. rewrite Nat2Z.id in H.
  rewrite (nth_lookup_Some _ _ _ _ Hx), (nth_lookup_Some _ _ _ _ Hy) in H. apply H. zl.
Qed.

(** C's [%] with a zero divisor is undefined. *)
Definition c_rem (a b : Z) : res Z := if b =? 0 then Fault else Ok (Z.rem a b).

Lemma c_rem_ok a b : 0 <= a -> 0 < b -> c_rem a b = Ok (a mod b).
Proof. intros. unfold c_rem. rif. by rewrite Z.rem_mod_nonneg by lia. Qed.

Lemma zlen_takeZ {A} k (l : list A) : 0 <= k <= zlen l -> zlen (take (Z.to_nat k) l) = k.
Proof. intros. unfold zlen in *. rewrite length_take. lia. Qed.

Lemma zlen_dropZ {A} k (l : list A) : 0 <= k <= zlen l -> zlen (drop (Z.to_nat k) l) = zlen l - k.
Proof. intros. unfold zlen in *. rewrite length_drop. lia. Qed.

(** ** Record updates

    Each record of the development declares its [Eta] instance, the identity
    written with its constructor, and one setter per field that the code
    assigns: [set_f v r] is [r] with field [f] changed to [v]. *)

Class Eta (R : Type) := eta : R -> R.

Ltac setter proj :=
  match type of proj with
  | ?R -> ?T =>
      let e := constr:(_ : Eta R) in
      let e := eval hnf in e in
      match eval pattern proj in e with
      | ?g _ =>
          let s := eval cbv beta in (fun (v : T) (r : R) => g (fun _ => v) r) in
          exact s
      end
  end.
Notation "'setter!' p" := ltac:(setter p) (at level 10, only parsing).

(** ** Suffixes *)

Lemma slice_prefix (buf : list Z) p s rest :
  drop (Z.to_nat p) buf = s ++ rest -> 0 <= p <= zlen buf -> slice buf p (zlen s) = Ok s.
Proof.
  intros Hd Hp. assert (zlen (drop (Z.to_nat p) buf) = zlen s + zlen rest) as Hl
    by (by rewrite Hd, zlen_app).
  rewrite zlen_dropZ in Hl by lia. pose proof (zlen_nonneg rest). pose proof (zlen_nonneg s).
  rewrite slice_ok by lia. f_equal. rewrite Hd. unfold zlen. rewrite Nat2Z.id.
  apply take_app_length.
Qed.

Lemma drop_suffix (buf : list Z) p s rest :
  drop (Z.to_nat p) buf = s ++ rest -> 0 <= p -> drop (Z.to_nat (p + zlen s)) buf = rest.
Proof.
  intros Hd Hp. rewrite Z2Nat.inj_add by (try apply zlen_nonneg; lia).
  rewrite <- drop_drop, Hd. unfold zlen. rewrite Nat2Z.id. apply drop_app_length.
Qed.

Lemma suffix_zlen (buf : list Z) p s :
  drop (Z.to_nat p) buf = s -> 0 <= p <= zlen buf -> zlen s = zlen buf - p.
Proof. intros <- Hp. by apply zlen_dropZ. Qed.

Lemma at_suffix (buf : list Z) p s i : 0 <= p -> 0 <= i -> drop (Z.to_nat p) buf = s -> at_ s i = at_ buf (p + i).
Proof. intros Hp Hi <-. by apply at_drop. Qed.

Lemma decide_bytes l : forallb (fun x => (0 <=? x) && (x <? 256)) l = true -> bytes l.
Proof.
  intros H. apply List.Forall_forall. intros x Hx. rewrite forallb_forall in H.
  specialize (H x Hx). unfold is_byte. lia.
Qed.
