(* ===== verification/Crc32.v ===== *)
(** * The section CRC (dvb-core/dvb_compat.c, dvb_demux.c)

    [crc32_be] and its table, [dvb_set_crc32], which appends the checksum to a
    section, and the theorems that make the section check meaningful: the table
    driven routine is bit-serial division by the MPEG-2 polynomial, a section
    that [dvb_set_crc32] closed divides to zero and no other trailer does, and
    a single corrupted byte is always seen. *)

From S2P Require Import Prelude.

(** ** The code *)

Definition crc32_table : list Z :=
  [
   0x00000000; 0x04c11db7; 0x09823b6e; 0x0d4326d9; 0x130476dc; 0x17c56b6b;
   0x1a864db2; 0x1e475005; 0x2608edb8; 0x22c9f00f; 0x2f8ad6d6; 0x2b4bcb61;
   0x350c9b64; 0x31cd86d3; 0x3c8ea00a; 0x384fbdbd; 0x4c11db70; 0x48d0c6c7;
   0x4593e01e; 0x4152fda9; 0x5f15adac; 0x5bd4b01b; 0x569796c2; 0x52568b75;
   0x6a1936c8; 0x6ed82b7f; 0x639b0da6; 0x675a1011; 0x791d4014; 0x7ddc5da3;
   0x709f7b7a; 0x745e66cd; 0x9823b6e0; 0x9ce2ab57; 0x91a18d8e; 0x95609039;
   0x8b27c03c; 0x8fe6dd8b; 0x82a5fb52; 0x8664e6e5; 0xbe2b5b58; 0xbaea46ef;
   0xb7a96036; 0xb3687d81; 0xad2f2d84; 0xa9ee3033; 0xa4ad16ea; 0xa06c0b5d;
   0xd4326d90; 0xd0f37027; 0xddb056fe; 0xd9714b49; 0xc7361b4c; 0xc3f706fb;
   0xceb42022; 0xca753d95; 0xf23a8028; 0xf6fb9d9f; 0xfbb8bb46; 0xff79a6f1;
   0xe13ef6f4; 0xe5ffeb43; 0xe8bccd9a; 0xec7dd02d; 0x34867077; 0x30476dc0;
   0x3d044b19; 0x39c556ae; 0x278206ab; 0x23431b1c; 0x2e003dc5; 0x2ac12072;
   0x128e9dcf; 0x164f8078; 0x1b0ca6a1; 0x1fcdbb16; 0x018aeb13; 0x054bf6a4;
   0x0808d07d; 0x0cc9cdca; 0x7897ab07; 0x7c56b6b0; 0x71159069; 0x75d48dde;
   0x6b93dddb; 0x6f52c06c; 0x6211e6b5; 0x66d0fb02; 0x5e9f46bf; 0x5a5e5b08;
   0x571d7dd1; 0x53dc6066; 0x4d9b3063; 0x495a2dd4; 0x44190b0d; 0x40d816ba;
   0xaca5c697; 0xa864db20; 0xa527fdf9; 0xa1e6e04e; 0xbfa1b04b; 0xbb60adfc;
   0xb6238b25; 0xb2e29692; 0x8aad2b2f; 0x8e6c3698; 0x832f1041; 0x87ee0df6;
   0x99a95df3; 0x9d684044; 0x902b669d; 0x94ea7b2a; 0xe0b41de7; 0xe4750050;
   0xe9362689; 0xedf73b3e; 0xf3b06b3b; 0xf771768c; 0xfa325055; 0xfef34de2;
   0xc6bcf05f; 0xc27dede8; 0xcf3ecb31; 0xcbffd686; 0xd5b88683; 0xd1799b34;
   0xdc3abded; 0xd8fba05a; 0x690ce0ee; 0x6dcdfd59; 0x608edb80; 0x644fc637;
   0x7a089632; 0x7ec98b85; 0x738aad5c; 0x774bb0eb; 0x4f040d56; 0x4bc510e1;
   0x46863638; 0x42472b8f; 0x5c007b8a; 0x58c1663d; 0x558240e4; 0x51435d53;
   0x251d3b9e; 0x21dc2629; 0x2c9f00f0; 0x285e1d47; 0x36194d42; 0x32d850f5;
   0x3f9b762c; 0x3b5a6b9b; 0x0315d626; 0x07d4cb91; 0x0a97ed48; 0x0e56f0ff;
   0x1011a0fa; 0x14d0bd4d; 0x19939b94; 0x1d528623; 0xf12f560e; 0xf5ee4bb9;
   0xf8ad6d60; 0xfc6c70d7; 0xe22b20d2; 0xe6ea3d65; 0xeba91bbc; 0xef68060b;
   0xd727bbb6; 0xd3e6a601; 0xdea580d8; 0xda649d6f; 0xc423cd6a; 0xc0e2d0dd;
   0xcda1f604; 0xc960ebb3; 0xbd3e8d7e; 0xb9ff90c9; 0xb4bcb610; 0xb07daba7;
   0xae3afba2; 0xaafbe615; 0xa7b8c0cc; 0xa379dd7b; 0x9b3660c6; 0x9ff77d71;
   0x92b45ba8; 0x9675461f; 0x8832161a; 0x8cf30bad; 0x81b02d74; 0x857130c3;
   0x5d8a9099; 0x594b8d2e; 0x5408abf7; 0x50c9b640; 0x4e8ee645; 0x4a4ffbf2;
   0x470cdd2b; 0x43cdc09c; 0x7b827d21; 0x7f436096; 0x7200464f; 0x76c15bf8;
   0x68860bfd; 0x6c47164a; 0x61043093; 0x65c52d24; 0x119b4be9; 0x155a565e;
   0x18197087; 0x1cd86d30; 0x029f3d35; 0x065e2082; 0x0b1d065b; 0x0fdc1bec;
   0x3793a651; 0x3352bbe6; 0x3e119d3f; 0x3ad08088; 0x2497d08d; 0x2056cd3a;
   0x2d15ebe3; 0x29d4f654; 0xc5a92679; 0xc1683bce; 0xcc2b1d17; 0xc8ea00a0;
   0xd6ad50a5; 0xd26c4d12; 0xdf2f6bcb; 0xdbee767c; 0xe3a1cbc1; 0xe760d676;
   0xea23f0af; 0xeee2ed18; 0xf0a5bd1d; 0xf464a0aa; 0xf9278673; 0xfde69bc4;
   0x89b8fd09; 0x8d79e0be; 0x803ac667; 0x84fbdbd0; 0x9abc8bd5; 0x9e7d9662;
   0x933eb0bb; 0x97ffad0c; 0xafb010b1; 0xab710d06; 0xa6322bdf; 0xa2f33668;
   0xbcb4666d; 0xb8757bda; 0xb5365d03; 0xb1f740b4].

(** One turn of the loop of [crc32_be]; the [u32] variable drops the high
    byte of the shift. *)
Definition crc32_byte (crc b : Z) : Z :=
  Z.lxor (u32 (Z.shiftl crc 8))
         (at_ crc32_table (Z.land (Z.lxor (Z.shiftr crc 24) b) 0xff)).

Definition crc32_be (crc : Z) (data : list Z) : Z := fold_left crc32_byte data crc.

(** [~0] in a [u32]. *)
Definition crc_init : Z := 0xffffffff.

Definition crc_trailer (crc : Z) : list Z :=
  [Z.land (Z.shiftr crc 24) 0xff; Z.land (Z.shiftr crc 16) 0xff;
   Z.land (Z.shiftr crc 8) 0xff; Z.land crc 0xff].

(** [dvb_set_crc32 (data, length)] writes the four bytes at [data + length]. *)
Definition dvb_set_crc32 (data : list Z) (length_ : Z) : res (list Z) :=
  let? d := slice data 0 length_ in
  memcpy_to data length_ (crc_trailer (crc32_be crc_init d)).

(** ** Reference: bit-serial division *)

Definition poly : Z := 0x04c11db7.

Definition bit_step (c : Z) : Z :=
  if Z.testbit c 31 then Z.lxor (u32 (Z.shiftl c 1)) poly else u32 (Z.shiftl c 1).

Definition crc_byte_bitwise (c b : Z) : Z :=
  Nat.iter 8 bit_step (Z.lxor c (Z.shiftl b 24)).

Definition crc32_bitwise (c : Z) (data : list Z) : Z := fold_left crc_byte_bitwise data c.

Definition crc_state (c : Z) : Prop := 0 <= c < 2 ^ 32.

(** ** Table facts, by computation *)

Lemma table_length : length crc32_table = 256%nat.
Proof. reflexivity. Qed.

Lemma table_entry_bitwise h :
  0 <= h < 256 -> Nat.iter 8 bit_step (Z.shiftl h 24) = at_ crc32_table h.
Proof.
  intros Hh. apply Z.eqb_eq. revert h Hh.
  apply (forall_range (fun h => Nat.iter 8 bit_step (Z.shiftl h 24) =? at_ crc32_table h) 256).
  vm_compute. reflexivity.
Qed.

Lemma table_range h : 0 <= h < 256 -> 0 <= at_ crc32_table h < 2 ^ 32.
Proof.
  intros Hh. assert ((0 <=? at_ crc32_table h) && (at_ crc32_table h <? 2 ^ 32) = true); [|lia].
  revert h Hh.
  apply (forall_range (fun h => (0 <=? at_ crc32_table h) && (at_ crc32_table h <? 2 ^ 32)) 256).
  vm_compute. reflexivity.
Qed.

(** The low bytes of the table are a permutation of 0..255. *)
Definition low_byte_pos (v : Z) : Z :=
  Z.of_nat (default 0%nat (fst <$> list_find (fun t => u8 t = v) crc32_table)).

Lemma table_low_inv h : 0 <= h < 256 -> low_byte_pos (u8 (at_ crc32_table h)) = h.
Proof.
  intros Hh. apply Z.eqb_eq. revert h Hh.
  apply (forall_range (fun h => low_byte_pos (u8 (at_ crc32_table h)) =? h) 256).
  vm_compute. reflexivity.
Qed.

Lemma table_low_inj h k :
  0 <= h < 256 -> 0 <= k < 256 ->
  u8 (at_ crc32_table h) = u8 (at_ crc32_table k) -> h = k.
Proof. intros Hh Hk E. rewrite <- (table_low_inv h), <- (table_low_inv k), E; done. Qed.

(** ** Linearity of the bit-serial step *)

Lemma bit_step_lxor a b : bit_step (Z.lxor a b) = Z.lxor (bit_step a) (bit_step b).
Proof.
  unfold bit_step. rewrite Z.lxor_spec, shiftl_lxor, u32_lxor.
  destruct (Z.testbit a 31), (Z.testbit b 31); simpl;
    apply Z.bits_inj'; intros i Hi; rewrite !Z.lxor_spec;
    destruct (Z.testbit (u32 (Z.shiftl a 1)) i), (Z.testbit (u32 (Z.shiftl b 1)) i),
      (Z.testbit poly i); reflexivity.
Qed.

Lemma iter_bit_step_lxor n a b :
  Nat.iter n bit_step (Z.lxor a b) = Z.lxor (Nat.iter n bit_step a) (Nat.iter n bit_step b).
Proof. induction n as [|n IH]; simpl; [done|]. by rewrite IH, bit_step_lxor. Qed.

Lemma iter_bit_step_low n c :
  Z.of_nat n <= 32 -> 0 <= c < 2 ^ (32 - Z.of_nat n) ->
  Nat.iter n bit_step c = Z.shiftl c (Z.of_nat n).
Proof.
  induction n as [|n IH]; intros Hn Hc; [by rewrite Z.shiftl_0_r|].
  assert (c < 2 ^ (32 - Z.of_nat n)).
  { eapply Z.lt_le_trans; [apply Hc|]. apply Z.pow_le_mono_r; lia. }
  simpl Nat.iter. rewrite IH by lia. unfold bit_step.
  assert (Z.testbit (Z.shiftl c (Z.of_nat n)) 31 = false) as ->.
  { rewrite Z.shiftl_spec by lia. apply (bits_small _ (32 - Z.of_nat (S n))); lia. }
  rewrite Z.shiftl_shiftl by lia. replace (Z.of_nat n + 1) with (Z.of_nat (S n)) by lia.
  unfold u32. apply Z.mod_small. rewrite Z.shiftl_mul_pow2 by lia.
  replace 32 with ((32 - Z.of_nat (S n)) + Z.of_nat (S n)) by lia.
  rewrite Z.pow_add_r by lia. split; [nia|]. apply Z.mul_lt_mono_pos_r; lia.
Qed.

Lemma crc_index_range crc b : 0 <= Z.land (Z.lxor (Z.shiftr crc 24) b) 0xff < 256.
Proof. rewrite land_ones_255. apply u8_byte. Qed.

Lemma crc_split c b :
  crc_state c -> is_byte b ->
  Z.lxor c (Z.shiftl b 24) =
  Z.lxor (Z.shiftl (Z.land (Z.lxor (Z.shiftr c 24) b) 0xff) 24) (c mod 2 ^ 24).
Proof.
  intros Hc Hb. rewrite land_ones_255. apply Z.bits_inj'. intros i Hi.
  rewrite !Z.lxor_spec, !Z.shiftl_spec by lia.
  destruct (Z.ltb_spec i 24).
  - rewrite !(Z.testbit_neg_r _ (i - 24)), Z.mod_pow2_bits_low by lia.
    by destruct (Z.testbit c i).
  - rewrite u8_testbit, Z.lxor_spec, Z.shiftr_spec, (Z.mod_pow2_bits_high c) by lia.
    replace (i - 24 + 24) with i by lia. destruct (Z.ltb_spec (i - 24) 8); simpl.
    + by destruct (Z.testbit c i), (Z.testbit b (i - 24)).
    + rewrite (bits_small c 32), (bits_small b 8) by (unfold is_byte, crc_state in *; lia). done.
Qed.

Lemma crc32_byte_bitwise c b :
  crc_state c -> is_byte b -> crc_byte_bitwise c b = crc32_byte c b.
Proof.
  intros Hc Hb. unfold crc_byte_bitwise, crc32_byte.
  rewrite crc_split, iter_bit_step_lxor, table_entry_bitwise by (done || apply crc_index_range).
  rewrite Z.lxor_comm. f_equal.
  rewrite iter_bit_step_low by (simpl; apply Z.mod_pos_bound || lia; lia).
  change (Z.of_nat 8) with 8. apply Z.bits_inj'. intros i Hi.
  rewrite u32_testbit, !Z.shiftl_spec by lia.
  destruct (Z.ltb_spec i 32); simpl.
  - destruct (Z.ltb_spec (i - 8) 0); [by rewrite !Z.testbit_neg_r by lia|].
    by rewrite Z.mod_pow2_bits_low by lia.
  - by rewrite Z.mod_pow2_bits_high by lia.
Qed.

Lemma crc32_byte_state c b : crc_state (crc32_byte c b).
Proof.
  apply lxor_bound; [lia|apply u32_range|]. apply table_range, crc_index_range.
Qed.

(** ** The state after a byte determines the byte, and the state before *)

Lemma crc_byte_low c b :
  u8 (crc32_byte c b) = u8 (at_ crc32_table (Z.land (Z.lxor (Z.shiftr c 24) b) 0xff)).
Proof.
  unfold crc32_byte. apply Z.bits_inj'. intros i Hi.
  rewrite !u8_testbit, Z.lxor_spec, u32_testbit, Z.shiftl_spec by lia.
  destruct (Z.ltb_spec i 8); simpl; [|done].
  rewrite (Z.testbit_neg_r c (i - 8)) by lia. by rewrite andb_false_r, xorb_false_l.
Qed.

Lemma crc_byte_same_index c b c' b' :
  crc32_byte c b = crc32_byte c' b' ->
  Z.land (Z.lxor (Z.shiftr c 24) b) 0xff = Z.land (Z.lxor (Z.shiftr c' 24) b') 0xff.
Proof.
  intros E. apply table_low_inj; try apply crc_index_range.
  by rewrite <- !crc_byte_low, E.
Qed.

Lemma crc_shift_recover c c' :
  crc_state c -> crc_state c' ->
  u32 (Z.shiftl c 8) = u32 (Z.shiftl c' 8) -> Z.shiftr c 24 = Z.shiftr c' 24 -> c = c'.
Proof.
  intros Hc Hc' E1 E2. apply Z.bits_inj'. intros i Hi.
  destruct (Z.ltb_spec i 24).
  - assert (Z.testbit (u32 (Z.shiftl c 8)) (i + 8) = Z.testbit (u32 (Z.shiftl c' 8)) (i + 8))
      as E by by rewrite E1.
    rewrite !u32_testbit, !Z.shiftl_spec in E by lia.
    replace (i + 8 - 8) with i in E by lia. destruct (Z.ltb_spec (i + 8) 32); [done|lia].
  - assert (Z.testbit (Z.shiftr c 24) (i - 24) = Z.testbit (Z.shiftr c' 24) (i - 24))
      as E by by rewrite E2.
    rewrite !Z.shiftr_spec in E by lia. by replace (i - 24 + 24) with i in E by lia.
Qed.

Lemma crc_top_byte c : crc_state c -> is_byte (Z.shiftr c 24).
Proof.
  unfold crc_state, is_byte. rewrite Z.shiftr_div_pow2 by lia. intros. split.
  - apply Z.div_pos; lia.
  - apply Z.div_lt_upper_bound; lia.
Qed.

Lemma lxor_byte_index x b : is_byte x -> is_byte b -> Z.land (Z.lxor x b) 0xff = Z.lxor x b.
Proof.
  intros Hx Hb. rewrite land_ones_255. apply u8_id.
  apply (lxor_bound _ _ 8); unfold is_byte in *; lia.
Qed.

Lemma lxor_cancel_r a b c : Z.lxor a c = Z.lxor b c -> a = b.
Proof.
  intros E. rewrite <- (Z.lxor_0_r a), <- (Z.lxor_0_r b), <- (Z.lxor_nilpotent c).
  rewrite <- !Z.lxor_assoc. by rewrite E.
Qed.

Lemma crc_byte_inj_state c c' b :
  crc_state c -> crc_state c' -> is_byte b -> crc32_byte c b = crc32_byte c' b -> c = c'.
Proof.
  intros Hc Hc' Hb E. pose proof (crc_byte_same_index _ _ _ _ E) as Ei.
  rewrite !lxor_byte_index in Ei by auto using crc_top_byte.
  apply crc_shift_recover; try done; [|by eapply lxor_cancel_r].
  unfold crc32_byte in E. rewrite !lxor_byte_index in E by auto using crc_top_byte.
  rewrite Ei in E. by eapply lxor_cancel_r.
Qed.

Lemma crc_byte_inj_byte c b b' :
  crc_state c -> is_byte b -> is_byte b' -> crc32_byte c b = crc32_byte c b' -> b = b'.
Proof.
  intros Hc Hb Hb' E%crc_byte_same_index.
  rewrite !lxor_byte_index in E by auto using crc_top_byte.
  rewrite !(Z.lxor_comm (Z.shiftr c 24)) in E. by eapply lxor_cancel_r.
Qed.

Lemma crc32_be_state c data : crc_state c -> crc_state (crc32_be c data).
Proof.
  unfold crc32_be. revert c. induction data as [|b data IH]; intros c Hc; simpl; [done|].
  apply IH, crc32_byte_state.
Qed.

Lemma crc32_be_app c d e : crc32_be c (d ++ e) = crc32_be (crc32_be c d) e.
Proof. apply fold_left_app. Qed.

Lemma crc32_be_inj c c' data :
  crc_state c -> crc_state c' -> bytes data -> crc32_be c data = crc32_be c' data -> c = c'.
Proof.
  unfold crc32_be. revert c c'.
  induction data as [|b data IH]; intros c c' Hc Hc' Hd E; simpl in E; [done|].
  apply Forall_cons_1 in Hd as [Hb Hd].
  apply (crc_byte_inj_state c c' b); try done. apply IH; auto using crc32_byte_state.
Qed.

(** The trailer is read back most significant byte first. *)
Lemma crc_byte_shift c : crc_state c -> crc32_byte c (Z.shiftr c 24) = u32 (Z.shiftl c 8).
Proof.
  intros Hc. unfold crc32_byte. rewrite Z.lxor_nilpotent. simpl. apply Z.lxor_0_r.
Qed.

Lemma crc_byte_low_0 c b :
  crc_state c -> is_byte b -> u8 (crc32_byte c b) = 0 ->
  b = Z.shiftr c 24 /\ crc32_byte c b = u32 (Z.shiftl c 8).
Proof.
  intros Hc Hb E. assert (b = Z.shiftr c 24) as Eb.
  { rewrite crc_byte_low in E. change 0 with (u8 (at_ crc32_table 0)) in E.
    apply table_low_inj in E; [|apply crc_index_range|lia].
    rewrite lxor_byte_index in E by auto using crc_top_byte.
    apply Z.lxor_eq in E. done. }
  split; [done|]. rewrite Eb. by apply crc_byte_shift.
Qed.

Lemma shiftr_u32_shiftl c n :
  crc_state c -> 0 <= n <= 24 ->
  Z.shiftr (u32 (Z.shiftl c n)) 24 = Z.land (Z.shiftr c (24 - n)) 0xff.
Proof.
  intros Hc Hn. rewrite land_ones_255. apply Z.bits_inj'. intros i Hi.
  rewrite Z.shiftr_spec, u32_testbit, Z.shiftl_spec, u8_testbit, Z.shiftr_spec by lia.
  replace (i + 24 - n) with (i + (24 - n)) by lia.
  destruct (Z.ltb_spec (i + 24) 32), (Z.ltb_spec i 8); lia || done.
Qed.

Lemma u32_shiftl_shiftl c n m :
  0 <= n -> 0 <= m -> u32 (Z.shiftl (u32 (Z.shiftl c n)) m) = u32 (Z.shiftl c (n + m)).
Proof.
  intros Hn Hm. apply Z.bits_inj'. intros i Hi. rewrite !u32_testbit, !Z.shiftl_spec by lia.
  destruct (Z.ltb_spec i 32); simpl; [|done].
  destruct (Z.ltb_spec (i - m) 0).
  - rewrite !Z.testbit_neg_r by lia. done.
  - rewrite u32_testbit, Z.shiftl_spec by lia.
    destruct (Z.ltb_spec (i - m) 32); [|lia]. simpl. f_equal. lia.
Qed.

Lemma u32_shiftl_32 c : u32 (Z.shiftl c 32) = 0.
Proof.
  apply Z.bits_inj'. intros i Hi. rewrite u32_testbit, Z.shiftl_spec, Z.bits_0 by lia.
  destruct (Z.ltb_spec i 32); simpl; [|done]. apply Z.testbit_neg_r. lia.
Qed.

Lemma u32_state c : crc_state c -> u32 (Z.shiftl c 0) = c.
Proof. intros. rewrite Z.shiftl_0_r. by apply Z.mod_small. Qed.

(** The four trailer bytes are the successive top bytes of the state. *)
Lemma crc_over_trailer c : crc_state c -> crc32_be c (crc_trailer c) = 0.
Proof.
  intros Hc. unfold crc32_be, crc_trailer, fold_left.
  rewrite <- (Z.shiftr_0_r c) at 5.
  change 16 with (24 - 8). change 8 with (24 - 16) at 2. change 0 with (24 - 24) at 1.
  rewrite <- !shiftr_u32_shiftl by (done || lia).
  replace (Z.land (Z.shiftr c 24) 0xff) with (Z.shiftr c 24).
  2: { rewrite land_ones_255. symmetry. by apply u8_id, crc_top_byte. }
  rewrite (crc_byte_shift c Hc).
  repeat (rewrite crc_byte_shift by apply u32_range; rewrite u32_shiftl_shiftl by lia).
  apply u32_shiftl_32.
Qed.

Lemma crc_trailer_bytes c : bytes (crc_trailer c).
Proof. unfold crc_trailer. rewrite !land_ones_255. repeat constructor; apply u8_byte. Qed.

(** A four byte trailer that divides to zero is the checksum. *)
Lemma crc_trailer_unique c t :
  crc_state c -> bytes t -> length t = 4%nat -> crc32_be c t = 0 -> t = crc_trailer c.
Proof.
  intros Hc Ht Hl E.
  destruct t as [|b0 [|b1 [|b2 [|b3 [|]]]]]; try discriminate. clear Hl.
  assert (is_byte b0 /\ is_byte b1 /\ is_byte b2 /\ is_byte b3) as (H0 & H1 & H2 & H3).
  { repeat (apply Forall_cons_1 in Ht as [? Ht]). done. }
  unfold crc32_be, fold_left in E.
  set (c1 := crc32_byte c b0) in *. set (c2 := crc32_byte c1 b1) in *.
  set (c3 := crc32_byte c2 b2) in *.
  assert (crc_state c1 /\ crc_state c2 /\ crc_state c3) as (S1 & S2 & S3)
    by (split_and!; apply crc32_byte_state).
  destruct (crc_byte_low_0 c3 b3) as [B3 N3]; try done; [by rewrite E|].
  rewrite E in N3.
  assert (forall x n, 0 <= n <= 24 -> u32 (Z.shiftl x n) = 0 -> u8 x = 0) as Low.
  { intros x n Hn Hx. apply Z.bits_inj'. intros i Hi. rewrite u8_testbit, Z.bits_0 by done.
    destruct (Z.ltb_spec i 8); simpl; [|done].
    assert (Z.testbit (u32 (Z.shiftl x n)) (i + n) = false) as Hb by (by rewrite Hx, Z.bits_0).
    rewrite u32_testbit, Z.shiftl_spec in Hb by lia.
    replace (i + n - n) with i in Hb by lia. destruct (Z.ltb_spec (i + n) 32); [done|lia]. }
  destruct (crc_byte_low_0 c2 b2) as [B2 N2]; try done; [by apply (Low _ 8)|].
  fold c3 in N2. rewrite N2, u32_shiftl_shiftl in N3 by lia.
  destruct (crc_byte_low_0 c1 b1) as [B1 N1]; try done; [by apply (Low _ 16)|].
  fold c2 in N1. rewrite N1, u32_shiftl_shiftl in N3 by lia.
  destruct (crc_byte_low_0 c b0) as [B0 N0]; try done; [by apply (Low _ 24)|].
  fold c1 in N0. rewrite N0 in N1. rewrite N1 in N2.
  rewrite u32_shiftl_shiftl in N1 by lia. rewrite u32_shiftl_shiftl in N2 by lia.
  rewrite u32_shiftl_shiftl in N2 by lia.
  rewrite B0, B1, B2, B3, N0, N1, N2. rewrite !shiftr_u32_shiftl by (done || lia).
  unfold crc_trailer. repeat f_equal; simpl; rewrite ?Z.shiftr_0_r; try done.
  rewrite land_ones_255. symmetry. by apply u8_id, crc_top_byte.
Qed.

(** ** Theorems *)

(** C34: the table-driven [crc32_be] computes, for every byte string and every
    32-bit seed, the bit-serial remainder by the polynomial 0x04c11db7. *)
Theorem crc32_be_is_bitwise data c :
  bytes data -> crc_state c -> crc32_be c data = crc32_bitwise c data.
Proof.
  unfold crc32_be, crc32_bitwise. revert c.
  induction data as [|b data IH]; intros c Hd Hc; simpl; [done|].
  apply Forall_cons_1 in Hd as [Hb Hd].
  rewrite crc32_byte_bitwise by done. apply IH; [done|]. apply crc32_byte_state.
Qed.

Lemma crc32_be_is_bitwise_witness :
  crc32_be crc_init [0; 0xb0; 0x0d] = crc32_bitwise crc_init [0; 0xb0; 0x0d].
Proof.
  apply crc32_be_is_bitwise; [repeat constructor|split]; (unfold is_byte; lia) || done.
Defined.

(** The section check accepts exactly the checksum [dvb_set_crc32] writes:
    a body followed by a four byte trailer divides to zero if and only if the
    trailer is the big-endian CRC of the body. *)
Theorem crc_check_iff body t :
  bytes body -> bytes t -> length t = 4%nat ->
  crc32_be crc_init (body ++ t) = 0 <-> t = crc_trailer (crc32_be crc_init body).
Proof.
  intros Hb Ht Hl. assert (crc_state (crc32_be crc_init body)) as Hs
    by (apply crc32_be_state; unfold crc_state, crc_init; lia).
  rewrite crc32_be_app. split.
  - intros E. by apply crc_trailer_unique.
  - intros ->. by apply crc_over_trailer.
Qed.

Lemma crc_check_iff_witness :
  crc32_be crc_init ([0x70; 0x70; 0x05] ++ [1; 2; 3; 4]) = 0 <->
  [1; 2; 3; 4] = crc_trailer (crc32_be crc_init [0x70; 0x70; 0x05]).
Proof. apply crc_check_iff; [repeat constructor; unfold is_byte; lia ..|done]. Defined.

(** [dvb_set_crc32] on a buffer that holds [length + 4] bytes leaves the
    first [length] bytes alone, makes the first [length + 4] divide to zero,
    and touches nothing behind them. *)
Theorem dvb_set_crc32_closes data n :
  bytes data -> 0 <= n -> n + 4 <= zlen data ->
  exists data', dvb_set_crc32 data n = Ok data' /\
    take (Z.to_nat n) data' = take (Z.to_nat n) data /\
    drop (Z.to_nat (n + 4)) data' = drop (Z.to_nat (n + 4)) data /\
    crc32_be crc_init (take (Z.to_nat (n + 4)) data') = 0.
Proof.
  intros Hb Hn Hl. unfold dvb_set_crc32. rewrite slice_ok by lia. simpl res_bind.
  set (t := crc_trailer _). assert (zlen t = 4) as Ht by done.
  rewrite memcpy_to_ok by lia. eexists; split; [done|].
  rewrite Ht. set (d := take (Z.to_nat n) data).
  assert (length d = Z.to_nat n) as Hd by (unfold d; zl).
  split_and!.
  - by rewrite take_app_length' by done.
  - rewrite app_assoc, drop_app_length'; [done|]. zl.
  - rewrite app_assoc, take_app_length'; [|zl].
    rewrite crc32_be_app. subst t. rewrite drop_0. apply crc_over_trailer, crc32_be_state.
    unfold crc_state, crc_init. lia.
Qed.

Lemma dvb_set_crc32_closes_witness :
  exists data', dvb_set_crc32 [0x70; 0x70; 5; 0; 0; 0; 0; 9] 3 = Ok data' /\
    take (Z.to_nat 3) data' = take (Z.to_nat 3) [0x70; 0x70; 5; 0; 0; 0; 0; 9] /\
    drop (Z.to_nat (3 + 4)) data' = drop (Z.to_nat (3 + 4)) [0x70; 0x70; 5; 0; 0; 0; 0; 9] /\
    crc32_be crc_init (take (Z.to_nat (3 + 4)) data') = 0.
Proof.
  apply dvb_set_crc32_closes; [repeat constructor; unfold is_byte; lia|lia|unfold zlen; simpl; lia].
Defined.

(** A section in which exactly one byte was changed no longer passes the
    check. *)
Theorem crc_detects_byte_error pre b b' post :
  bytes pre -> bytes post -> is_byte b -> is_byte b' -> b <> b' ->
  crc32_be crc_init (pre ++ b :: post) = 0 -> crc32_be crc_init (pre ++ b' :: post) <> 0.
Proof.
  intros Hpre Hpost Hb Hb' Hne E E'. apply Hne.
  rewrite crc32_be_app in E, E'. set (c := crc32_be crc_init pre) in *.
  assert (crc_state c) as Hc
    by (apply crc32_be_state; unfold crc_state, crc_init; lia).
  apply (crc_byte_inj_byte c); try done.
  apply (crc32_be_inj _ _ post); try apply crc32_byte_state; [done|].
  unfold crc32_be in *. simpl in E, E'. congruence.
Qed.

Lemma crc_detects_byte_error_witness :
  crc32_be crc_init ([] ++ 1 :: crc_trailer (crc32_be crc_init [1])) = 0 /\
  crc32_be crc_init ([] ++ 2 :: crc_trailer (crc32_be crc_init [1])) <> 0.
Proof.
  assert (crc32_be crc_init ([] ++ 1 :: crc_trailer (crc32_be crc_init [1])) = 0) as E
    by (vm_compute; reflexivity).
  split; [exact E|].
  apply (crc_detects_byte_error [] 1 2); try exact E; try (unfold is_byte; lia).
  - constructor.
  - apply crc_trailer_bytes.
Defined.
