(* ===== verification/Fifo.v ===== *)
(** * Byte queues

    The interface between the producers of a stream (the demultiplexer's
    callbacks, the interrupt handlers) and its readers: a bounded first-in
    first-out queue of bytes.  [ByteQueue] has the operations, [ByteQueueLaws]
    what they promise; [DmxBuffer] implements it, and the client theorem at the
    end is proved against it.  The first section describes what
    a circular buffer holds, for every implementation. *)

From S2P Require Import Prelude.

(** ** Contents of a circular buffer *)

Lemma mod_eq_small s x y : 0 <= x - y < s -> x mod s = y mod s -> x = y.
Proof.
  intros Hd E. assert ((x - y) mod s = 0) as H.
  { rewrite Zminus_mod, E, Z.sub_diag. apply Zmod_0_l. }
  rewrite Z.mod_small in H by lia. lia.
Qed.

Lemma ring_pos_add s r a j : ((r + a) mod s + j) mod s = (r + (a + j)) mod s.
Proof. rewrite Zplus_mod_idemp_l. f_equal. lia. Qed.

(** The position of a byte written behind the contents is not one of the
    contents. *)
Lemma ring_disjoint s r a i j :
  0 <= i < a -> 0 <= j -> a + j < s -> (r + i) mod s <> (r + a + j) mod s.
Proof.
  intros Hi Hj Hs E. symmetry in E. apply mod_eq_small in E; lia.
Qed.

Section Ring.
Context (size : Z).

(** The [n] bytes from position [r] on, wrapping at [size]. *)
Definition ring_contents (data : list Z) (r n : Z) : list Z :=
  map (fun i => at_ data ((r + i) mod size)) (seqZ 0 n).

Lemma ring_zlen data r n : 0 <= n -> zlen (ring_contents data r n) = n.
Proof. intros. unfold ring_contents, zlen. rewrite length_map, length_seqZ. lia. Qed.

Lemma ring_at data r n i :
  0 <= i < n -> at_ (ring_contents data r n) i = at_ data ((r + i) mod size).
Proof.
  intros Hi. unfold ring_contents, at_ at 1. apply nth_lookup_Some.
  apply list_lookup_fmap_Some. exists i. split; [done|].
  apply lookup_seqZ. lia.
Qed.

Lemma ring_0 data r : ring_contents data r 0 = [].
Proof. done. Qed.

(** Bytes written behind the contents extend them. *)
Lemma ring_push data data' r n src :
  0 <= n -> n + zlen src <= size ->
  (forall j, 0 <= j < zlen src -> at_ data' ((r + n + j) mod size) = at_ src j) ->
  (forall i, 0 <= i < n -> at_ data' ((r + i) mod size) = at_ data ((r + i) mod size)) ->
  ring_contents data' r (n + zlen src) = ring_contents data r n ++ src.
Proof.
  intros Hn Hl Hnew Hold. pose proof (zlen_nonneg src).
  apply list_eq_at; [rewrite zlen_app, !ring_zlen by lia; done|].
  intros i Hi. rewrite ring_zlen in Hi by lia. rewrite ring_at by lia.
  destruct (Z.ltb_spec i n).
  - rewrite at_app_l by (rewrite ring_zlen by lia; lia). rewrite ring_at by lia. apply Hold; lia.
  - rewrite at_app_r by (rewrite ring_zlen by lia; lia). rewrite ring_zlen by lia.
    rewrite <- Hnew by lia. do 2 f_equal. lia.
Qed.

(** Moving the read position forward drops the first bytes. *)
Lemma ring_pop data r n k :
  0 <= k <= n ->
  ring_contents data ((r + k) mod size) (n - k) = drop (Z.to_nat k) (ring_contents data r n).
Proof.
  intros Hk. apply list_eq_at.
  - rewrite zlen_dropZ, !ring_zlen by (rewrite ?ring_zlen; lia). lia.
  - intros i Hi. rewrite ring_zlen in Hi by lia. rewrite at_drop, !ring_at by lia.
    f_equal. rewrite Zplus_mod_idemp_l. f_equal. lia.
Qed.

Lemma ring_take data r n k :
  0 <= k <= n -> take (Z.to_nat k) (ring_contents data r n) = ring_contents data r k.
Proof.
  intros Hk. apply list_eq_at.
  - rewrite zlen_takeZ, ring_zlen by (rewrite ?ring_zlen; lia). lia.
  - intros i Hi. rewrite zlen_takeZ in Hi by (rewrite ring_zlen; lia).
    rewrite at_take by lia. rewrite !ring_at by lia. done.
Qed.

(** A run that does not wrap is a slice of the store; two runs meet. *)
Lemma ring_slice data r n :
  zlen data = size -> 0 <= r -> 0 <= n -> r + n <= size ->
  slice data r n = Ok (ring_contents data r n).
Proof.
  intros Hd Hr Hn Hl. rewrite slice_ok by lia. f_equal. apply list_eq_at.
  - rewrite ring_zlen by lia. zl.
  - intros i Hi. assert (i < n) by zl. rewrite at_take, at_drop, ring_at by lia.
    by rewrite Z.mod_small by lia.
Qed.

Lemma ring_app data r n m :
  0 <= n -> 0 <= m ->
  ring_contents data r (n + m) = ring_contents data r n ++ ring_contents data ((r + n) mod size) m.
Proof.
  intros Hn Hm. apply list_eq_at; [rewrite zlen_app, !ring_zlen by lia; done|].
  intros i Hi. rewrite ring_zlen in Hi by lia. rewrite ring_at by lia.
  destruct (Z.ltb_spec i n).
  - rewrite at_app_l by (rewrite ring_zlen by lia; lia). by rewrite ring_at by lia.
  - rewrite at_app_r, ring_zlen by (rewrite ?ring_zlen by lia; lia). rewrite ring_at by lia.
    f_equal. rewrite Zplus_mod_idemp_l. f_equal. lia.
Qed.

(** [d] is [data] with [src] written from [w] on, wrapping. *)
Definition ring_written (data d : list Z) (w : Z) (src : list Z) : Prop :=
  zlen d = zlen data /\
  (forall j, 0 <= j < zlen src -> at_ d ((w + j) mod size) = at_ src j) /\
  (forall k, 0 <= k < size ->
     (forall j, 0 <= j < zlen src -> k <> (w + j) mod size) -> at_ d k = at_ data k).

Lemma ring_written_one data w src d :
  zlen data = size -> 0 <= w < size -> w + zlen src <= size ->
  memcpy_to data w src = Ok d -> ring_written data d w src.
Proof.
  intros Hd Hw Hl Hm. pose proof (memcpy_to_length _ _ _ _ Hm) as Hlen.
  split_and!; [zl|..].
  - intros j Hj. rewrite Z.mod_small by lia.
    rewrite (memcpy_at _ _ _ _ _ Hm) by lia. rif. f_equal. lia.
  - intros k Hk Hne. rewrite (memcpy_at _ _ _ _ _ Hm) by lia. case_if; [|done].
    destruct (Hne (k - w)); [lia|]. rewrite Z.mod_small by lia. lia.
Qed.

Lemma ring_written_two data w s1 s2 d1 d2 :
  zlen data = size -> 0 <= w < size -> w + zlen s1 = size -> zlen s1 + zlen s2 <= size ->
  memcpy_to data w s1 = Ok d1 -> memcpy_to d1 0 s2 = Ok d2 ->
  ring_written data d2 w (s1 ++ s2).
Proof.
  intros Hd Hw Hs1 Hl Hm1 Hm2. pose proof (zlen_nonneg s2). pose proof (zlen_nonneg s1).
  pose proof (memcpy_to_length _ _ _ _ Hm1) as Hl1.
  pose proof (memcpy_to_length _ _ _ _ Hm2) as Hl2.
  assert (zlen d1 = size) by zl.
  assert (forall j, zlen s1 <= j < zlen s1 + zlen s2 -> (w + j) mod size = j - zlen s1) as Hwrap.
  { intros j Hj. symmetry. apply Z.mod_unique with 1; lia. }
  split_and!; [zl|..]; rewrite zlen_app.
  - intros j Hj. destruct (Z.ltb_spec j (zlen s1)).
    + rewrite Z.mod_small, at_app_l by lia.
      rewrite (memcpy_at _ _ _ _ _ Hm2), (memcpy_at _ _ _ _ _ Hm1) by lia. rif. f_equal. lia.
    + rewrite Hwrap, at_app_r by lia. rewrite (memcpy_at _ _ _ _ _ Hm2) by lia.
      rif. f_equal. lia.
  - intros k Hk Hne.
    rewrite (memcpy_at _ _ _ _ _ Hm2), (memcpy_at _ _ _ _ _ Hm1) by lia.
    case_if; [|case_if; [|done]].
    + destruct (Hne (k + zlen s1)); [lia|]. rewrite Hwrap by lia. lia.
    + destruct (Hne (k - w)); [lia|]. rewrite Z.mod_small by lia. lia.
Qed.

(** Contents of length [n] from [r], extended by what is written behind
    them. *)
Lemma ring_push_written data d r n src :
  0 < size -> 0 <= n -> n + zlen src < size ->
  ring_written data d ((r + n) mod size) src ->
  ring_contents d r (n + zlen src) = ring_contents data r n ++ src.
Proof.
  intros Hs Hn Hl (Hd & Hnew & Hold). apply ring_push; [lia|lia| |].
  - intros j Hj. specialize (Hnew j Hj). by rewrite ring_pos_add, Z.add_assoc in Hnew.
  - intros i Hi. apply Hold; [apply Z.mod_pos_bound; lia|].
    intros j Hj. rewrite ring_pos_add, Z.add_assoc. apply ring_disjoint; lia.
Qed.
End Ring.

(** ** Read and write positions

    [fill size r w] is how many bytes lie between the positions. *)

Definition fill (size r w : Z) : Z := if w - r <? 0 then w - r + size else w - r.

Section Positions.
Context (size r w : Z) (Hs : 0 < size) (Hr : 0 <= r < size) (Hw : 0 <= w < size).

Lemma fill_range : 0 <= fill size r w < size.
Proof using Hs Hr Hw. unfold fill. case_if; lia. Qed.

Lemma fill_pos : w = (r + fill size r w) mod size.
Proof using Hs Hr Hw.
  unfold fill. case_if; [apply Z.mod_unique with 1|apply Z.mod_unique with 0]; lia.
Qed.

Lemma fill_unique x : 0 <= x < size -> w = (r + x) mod size -> fill size r w = x.
Proof using Hs Hr Hw.
  intros Hx E. pose proof fill_range. rewrite fill_pos in E.
  destruct (Z.leb_spec (fill size r w) x).
  - symmetry in E. apply mod_eq_small in E; lia.
  - apply mod_eq_small in E; lia.
Qed.
End Positions.

(** The positions after [n] bytes were written, or read. *)
Lemma fill_push size r w n :
  0 < size -> 0 <= r < size -> 0 <= w < size -> 0 <= n -> fill size r w + n < size ->
  fill size r ((w + n) mod size) = fill size r w + n.
Proof.
  intros. pose proof (fill_range size r w). apply fill_unique; try lia.
  - apply Z.mod_pos_bound; lia.
  - rewrite (fill_pos size r w) at 1 by lia. by rewrite ring_pos_add.
Qed.

Lemma fill_pop size r w n :
  0 < size -> 0 <= r < size -> 0 <= w < size -> 0 <= n <= fill size r w ->
  fill size ((r + n) mod size) w = fill size r w - n.
Proof.
  intros. pose proof (fill_range size r w). apply fill_unique; try lia.
  - apply Z.mod_pos_bound; lia.
  - rewrite ring_pos_add, (fill_pos size r w) at 1 by lia. f_equal. lia.
Qed.

(** ** The interface *)

Class ByteQueue (B : Type) := {
  bq_wf : B -> Prop;                                (** representation invariant *)
  bq_contents : B -> list Z;                        (** bytes waiting, oldest first *)
  bq_room : B -> Z;                                 (** bytes that can be added *)
  bq_push : list Z -> B -> res (Z * B);             (** result as the code returns it *)
  bq_pop : Z -> B -> res (list Z * B);              (** the next [n] bytes *)
}.

Class ByteQueueLaws (B : Type) {Q : ByteQueue B} := {
  bq_push_fits b src :
    bq_wf b -> zlen src <= bq_room b ->
    exists b', bq_push src b = Ok (zlen src, b') /\ bq_wf b' /\
      bq_contents b' = bq_contents b ++ src /\ bq_room b' = bq_room b - zlen src;
  bq_pop_avail b n :
    bq_wf b -> 0 <= n <= zlen (bq_contents b) ->
    exists b', bq_pop n b = Ok (take (Z.to_nat n) (bq_contents b), b') /\ bq_wf b' /\
      bq_contents b' = drop (Z.to_nat n) (bq_contents b) /\ bq_room b' = bq_room b + n;
}.

(** ** A client: an interleaving of a producer and a consumer *)

Inductive queue_op := Push (src : list Z) | Pop (n : Z).

Section Client.
Context {B : Type} `{ByteQueueLaws B}.

(** Runs the operations; returns everything that was read. *)
Fixpoint run_queue (ops : list queue_op) (b : B) : res (list Z * B) :=
  match ops with
  | [] => Ok ([], b)
  | Push src :: ops =>
      let? p := bq_push src b in run_queue ops p.2
  | Pop n :: ops =>
      let? p := bq_pop n b in
      let? q := run_queue ops p.2 in
      Ok (p.1 ++ q.1, q.2)
  end.

Definition pushed (ops : list queue_op) : list Z :=
  flat_map (fun o => match o with Push s => s | Pop _ => [] end) ops.

(** The producer checks the room and the consumer what is available. *)
Fixpoint polite (ops : list queue_op) (room avail : Z) : bool :=
  match ops with
  | [] => true
  | Push s :: ops => (zlen s <=? room) && polite ops (room - zlen s) (avail + zlen s)
  | Pop n :: ops => (0 <=? n) && (n <=? avail) && polite ops (room + n) (avail - n)
  end.

(** Whatever the interleaving, what was read followed by what is still
    waiting is what waited before followed by what was written. *)
Lemma queue_fifo ops b :
  bq_wf b -> polite ops (bq_room b) (zlen (bq_contents b)) = true ->
  exists out b', run_queue ops b = Ok (out, b') /\ bq_wf b' /\
    out ++ bq_contents b' = bq_contents b ++ pushed ops.
Proof.
  revert b. induction ops as [|[src|n] ops IH]; intros b Hwf Hp; simpl in *; split_bools.
  - exists [], b. by rewrite app_nil_r.
  - destruct (bq_push_fits b src) as (b1 & -> & Hwf1 & Hc & Hr); [done|lia|].
    destruct (IH b1) as (out & b' & Hrun & Hwf' & Ho); [done| |].
    { by rewrite Hr, Hc, zlen_app. }
    exists out, b'. simpl. split_and!; [done..|]. by rewrite Ho, Hc, app_assoc.
  - destruct (bq_pop_avail b n) as (b1 & -> & Hwf1 & Hc & Hr); [done|lia|].
    destruct (IH b1) as (out & b' & Hrun & Hwf' & Ho); [done| |].
    { by rewrite Hr, Hc, zlen_dropZ by lia. }
    simpl. rewrite Hrun. simpl. eexists _, b'. split_and!; [done..|].
    by rewrite <- app_assoc, Ho, Hc, app_assoc, take_drop.
Qed.
End Client.
