(* ===== verification/RingBuffer.v ===== *)
(** * The generic ring buffer (dvb-core/dvb_ringbuffer.c)

    The record, its seven operations and the two copying loops.  Transfers that
    do not cross the end of the store behave as a queue; a transfer that does
    leaves the position at [len % size] instead of [len - split], because the
    position was already reset to 0 when the first part was copied. *)

From S2P Require Import Prelude Fifo.

Record dvb_ringbuffer := {
  rb_data : list Z;
  rb_size : Z;
  rb_pread : Z;
  rb_pwrite : Z;
}.

Definition dvb_ringbuffer_init (data : list Z) (len : Z) : dvb_ringbuffer :=
  {| rb_data := data; rb_size := len; rb_pread := 0; rb_pwrite := 0 |}.

Definition dvb_ringbuffer_empty (rbuf : dvb_ringbuffer) : bool :=
  rb_pread rbuf =? rb_pwrite rbuf.

Definition dvb_ringbuffer_free (rbuf : dvb_ringbuffer) : Z :=
  let free := rb_pread rbuf - rb_pwrite rbuf in
  let free := if free <=? 0 then free + rb_size rbuf else free in
  free - 1.

Definition dvb_ringbuffer_avail (rbuf : dvb_ringbuffer) : Z :=
  let avail := rb_pwrite rbuf - rb_pread rbuf in
  if avail <? 0 then avail + rb_size rbuf else avail.

Definition set_pread (rbuf : dvb_ringbuffer) (p : Z) : dvb_ringbuffer :=
  {| rb_data := rb_data rbuf; rb_size := rb_size rbuf; rb_pread := p;
     rb_pwrite := rb_pwrite rbuf |}.

Definition set_pwrite (rbuf : dvb_ringbuffer) (data : list Z) (p : Z) : dvb_ringbuffer :=
  {| rb_data := data; rb_size := rb_size rbuf; rb_pread := rb_pread rbuf; rb_pwrite := p |}.

Definition dvb_ringbuffer_flush (rbuf : dvb_ringbuffer) : dvb_ringbuffer :=
  set_pread rbuf (rb_pwrite rbuf).

(** The flag says that the waiters were woken. *)
Definition dvb_ringbuffer_flush_spinlock_wakeup (rbuf : dvb_ringbuffer) : dvb_ringbuffer * bool :=
  (dvb_ringbuffer_flush rbuf, true).

(** [usermem] selects [copy_to_user] / [copy_from_user]; [ucopy off len] says
    whether the [len] bytes at [off] of the user's buffer are accessible.
    [size_t] arithmetic is unsigned, 32 bits wide.  The result pairs the
    returned value with the bytes that reached [buf]. *)
Definition dvb_ringbuffer_read (rbuf : dvb_ringbuffer) (len : Z) (usermem : bool)
    (ucopy : Z -> Z -> bool) : res (Z * list Z * dvb_ringbuffer) :=
  let split := if u32 (rb_pread rbuf + len) >? u32 (rb_size rbuf)
               then u32 (rb_size rbuf - rb_pread rbuf) else 0 in
  let second (rbuf : dvb_ringbuffer) (out : list Z) (todo : Z) :=
    if usermem && negb (ucopy (zlen out) todo) then Ok (- EFAULT, out, rbuf)
    else
      let? b2 := slice (rb_data rbuf) (rb_pread rbuf) todo in
      let? p := c_rem (u32 (rb_pread rbuf + len)) (u32 (rb_size rbuf)) in
      Ok (len, out ++ b2, set_pread rbuf p) in
  if split >? 0 then
    if usermem && negb (ucopy 0 split) then Ok (- EFAULT, [], rbuf)
    else
      let? b1 := slice (rb_data rbuf) (rb_pread rbuf) split in
      second (set_pread rbuf 0) b1 (u32 (len - split))
  else second rbuf [] len.

(** Here the bytes come from [buf]. *)
Definition dvb_ringbuffer_write (rbuf : dvb_ringbuffer) (buf : list Z) (usermem : bool)
    (ucopy : Z -> Z -> bool) : res (Z * dvb_ringbuffer) :=
  let len := zlen buf in
  let split := if u32 (rb_pwrite rbuf + len) >? u32 (rb_size rbuf)
               then u32 (rb_size rbuf - rb_pwrite rbuf) else 0 in
  let second (rbuf : dvb_ringbuffer) (off todo : Z) :=
    if usermem && negb (ucopy off todo) then Ok (- EFAULT, rbuf)
    else
      let? src := slice buf off todo in
      let? d := memcpy_to (rb_data rbuf) (rb_pwrite rbuf) src in
      let? p := c_rem (u32 (rb_pwrite rbuf + len)) (u32 (rb_size rbuf)) in
      Ok (len, set_pwrite rbuf d p) in
  if split >? 0 then
    if usermem && negb (ucopy 0 split) then Ok (- EFAULT, rbuf)
    else
      let? src := slice buf 0 split in
      let? d := memcpy_to (rb_data rbuf) (rb_pwrite rbuf) src in
      second (set_pwrite rbuf d 0) split (u32 (len - split))
  else second rbuf 0 len.

(** ** Invariant and contents *)

Definition rb_wf (rbuf : dvb_ringbuffer) : Prop :=
  0 < rb_size rbuf < 2 ^ 31 /\ zlen (rb_data rbuf) = rb_size rbuf /\
  0 <= rb_pread rbuf < rb_size rbuf /\ 0 <= rb_pwrite rbuf < rb_size rbuf.

Definition rb_contents (rbuf : dvb_ringbuffer) : list Z :=
  ring_contents (rb_size rbuf) (rb_data rbuf) (rb_pread rbuf) (dvb_ringbuffer_avail rbuf).

Lemma avail_fill rbuf :
  dvb_ringbuffer_avail rbuf = fill (rb_size rbuf) (rb_pread rbuf) (rb_pwrite rbuf).
Proof. done. Qed.

Lemma avail_range rbuf : rb_wf rbuf -> 0 <= dvb_ringbuffer_avail rbuf < rb_size rbuf.
Proof. intros (? & ? & ? & ?). apply fill_range; lia. Qed.

Lemma rb_contents_zlen rbuf : rb_wf rbuf -> zlen (rb_contents rbuf) = dvb_ringbuffer_avail rbuf.
Proof. intros H. apply ring_zlen. pose proof (avail_range _ H). lia. Qed.

Lemma u32_small z : 0 <= z < 2 ^ 32 -> u32 z = z.
Proof. apply Z.mod_small. Qed.

(** ** Theorems *)

(** Free and available always sum to one less than the size, and the
    buffer is empty exactly when nothing is available. *)
Theorem rb_free_avail rbuf :
  rb_wf rbuf ->
  dvb_ringbuffer_free rbuf + dvb_ringbuffer_avail rbuf = rb_size rbuf - 1 /\
  (dvb_ringbuffer_empty rbuf = true <-> dvb_ringbuffer_avail rbuf = 0).
Proof.
  intros (? & ? & ? & ?).
  unfold dvb_ringbuffer_free, dvb_ringbuffer_avail, dvb_ringbuffer_empty.
  destruct (Z.leb_spec (rb_pread rbuf - rb_pwrite rbuf) 0),
    (Z.ltb_spec (rb_pwrite rbuf - rb_pread rbuf) 0); lia.
Qed.

Lemma rb_free_avail_witness :
  let b := {| rb_data := [1; 2; 3; 4]; rb_size := 4; rb_pread := 3; rb_pwrite := 1 |} in
  dvb_ringbuffer_free b + dvb_ringbuffer_avail b = rb_size b - 1 /\
  (dvb_ringbuffer_empty b = true <-> dvb_ringbuffer_avail b = 0).
Proof. apply rb_free_avail. unfold rb_wf, zlen. simpl. lia. Defined.

(** A write that fits the free space and ends inside the store appends its
    bytes to the contents and keeps the invariant. *)
Theorem rb_write_nowrap rbuf buf usermem ucopy :
  rb_wf rbuf -> zlen buf <= dvb_ringbuffer_free rbuf ->
  rb_pwrite rbuf + zlen buf <= rb_size rbuf ->
  (usermem = true -> forall o l, ucopy o l = true) ->
  exists rbuf', dvb_ringbuffer_write rbuf buf usermem ucopy = Ok (zlen buf, rbuf') /\
    rb_wf rbuf' /\ rb_contents rbuf' = rb_contents rbuf ++ buf.
Proof.
  intros Hwf Hfree Hfit Hcopy. pose proof (rb_free_avail _ Hwf) as [Hfa _].
  pose proof (avail_range _ Hwf) as Ha. pose proof (zlen_nonneg buf).
  destruct Hwf as (Hs & Hd & Hr & Hp).
  unfold dvb_ringbuffer_write. rewrite !u32_small by lia. rif.
  assert (usermem && negb (ucopy 0 (zlen buf)) = false) as ->.
  { destruct usermem; [|done]. by rewrite Hcopy. }
  rewrite slice_ok by lia. cbn [res_bind]. rewrite drop_0, take_ge by zl.
  destruct (memcpy_to (rb_data rbuf) (rb_pwrite rbuf) buf) as [d| | |] eqn:Hm;
    try (rewrite memcpy_to_ok in Hm by lia; discriminate).
  cbn [res_bind]. rewrite c_rem_ok by lia. eexists; split; [done|].
  pose proof (memcpy_to_length _ _ _ _ Hm) as Hdl.
  assert (0 <= (rb_pwrite rbuf + zlen buf) mod rb_size rbuf < rb_size rbuf)
    by (apply Z.mod_pos_bound; lia).
  split; [unfold rb_wf; simpl; zl|].
  unfold rb_contents. rewrite !avail_fill in *. simpl. rewrite fill_push by lia.
  apply ring_push_written; [lia..|]. rewrite <- fill_pos by lia.
  apply ring_written_one; lia || done.
Qed.

Lemma rb_write_nowrap_witness :
  let b := dvb_ringbuffer_init [0; 0; 0; 0] 4 in
  exists b', dvb_ringbuffer_write b [7; 8] false (fun _ _ => true) = Ok (zlen [7; 8], b') /\
    rb_wf b' /\ rb_contents b' = rb_contents b ++ [7; 8].
Proof.
  apply rb_write_nowrap; [unfold rb_wf, zlen; simpl; lia|vm_compute; discriminate
    |vm_compute; discriminate|discriminate].
Defined.

(** A read of available bytes that ends inside the store returns the oldest
    bytes in order, and leaves the rest. *)
Theorem rb_read_nowrap rbuf len usermem ucopy :
  rb_wf rbuf -> 0 <= len <= dvb_ringbuffer_avail rbuf ->
  rb_pread rbuf + len <= rb_size rbuf ->
  (usermem = true -> forall o l, ucopy o l = true) ->
  exists rbuf', dvb_ringbuffer_read rbuf len usermem ucopy
      = Ok (len, take (Z.to_nat len) (rb_contents rbuf), rbuf') /\
    rb_wf rbuf' /\ rb_contents rbuf' = drop (Z.to_nat len) (rb_contents rbuf).
Proof.
  intros Hwf Hlen Hfit Hcopy. pose proof (avail_range _ Hwf) as Ha.
  destruct Hwf as (Hs & Hd & Hr & Hp).
  unfold dvb_ringbuffer_read. rewrite !u32_small by lia. rif.
  rewrite zlen_nil. assert (usermem && negb (ucopy 0 len) = false) as ->.
  { destruct usermem; [|done]. by rewrite Hcopy. }
  rewrite (ring_slice (rb_size rbuf)), c_rem_ok by lia. simpl res_bind.
  unfold rb_contents at 1. rewrite ring_take by lia.
  eexists; split; [done|].
  assert (0 <= (rb_pread rbuf + len) mod rb_size rbuf < rb_size rbuf)
    by (apply Z.mod_pos_bound; lia).
  split; [unfold rb_wf; simpl; lia|].
  unfold rb_contents. rewrite !avail_fill in *. simpl. rewrite fill_pop by lia.
  apply ring_pop. lia.
Qed.

Lemma rb_read_nowrap_witness :
  let b := {| rb_data := [7; 8; 9; 0]; rb_size := 4; rb_pread := 0; rb_pwrite := 3 |} in
  exists b', dvb_ringbuffer_read b 2 false (fun _ _ => true)
      = Ok (2, take (Z.to_nat 2) (rb_contents b), b') /\
    rb_wf b' /\ rb_contents b' = drop (Z.to_nat 2) (rb_contents b).
Proof.
  apply rb_read_nowrap; [unfold rb_wf, zlen; simpl; lia|vm_compute; split; discriminate
    |vm_compute; discriminate|discriminate].
Defined.

(** A read that crosses the end of the store does return the right bytes,
    but leaves the read position at [len] instead of wrapping it from where it
    was, so the bytes that follow are not the rest of the contents. *)
Theorem rb_read_wrapped_misplaced rbuf len usermem ucopy :
  rb_wf rbuf -> 0 <= len <= dvb_ringbuffer_avail rbuf ->
  rb_size rbuf < rb_pread rbuf + len ->
  (usermem = true -> forall o l, ucopy o l = true) ->
  exists rbuf', dvb_ringbuffer_read rbuf len usermem ucopy
      = Ok (len, take (Z.to_nat len) (rb_contents rbuf), rbuf') /\
    rb_pread rbuf' = len /\
    rb_pread rbuf' <> (rb_pread rbuf + len) mod rb_size rbuf /\
    dvb_ringbuffer_avail rbuf' <> dvb_ringbuffer_avail rbuf - len.
Proof.
  intros Hwf Hlen Hwrap Hcopy. pose proof (avail_range _ Hwf) as Ha.
  destruct Hwf as (Hs & Hd & Hr & Hp).
  assert (forall a b, usermem && negb (ucopy a b) = false) as Hok.
  { intros. destruct usermem; [|done]. by rewrite Hcopy. }
  unfold dvb_ringbuffer_read. rewrite !u32_small by lia. rif. rewrite !Hok.
  rewrite (ring_slice (rb_size rbuf)) by lia. cbn [res_bind]. rewrite Hok.
  cbn [rb_data rb_pread rb_size set_pread]. rewrite !Z.add_0_l, !u32_small by lia.
  rewrite (ring_slice (rb_size rbuf)) by lia. rewrite c_rem_ok by lia. cbn [res_bind].
  rewrite (Z.mod_small len) by lia. eexists; split; [repeat f_equal|].
  - unfold rb_contents. rewrite ring_take by lia.
    replace len with ((rb_size rbuf - rb_pread rbuf) + (len - (rb_size rbuf - rb_pread rbuf)))
      at 2 by lia.
    rewrite ring_app by lia. do 2 f_equal.
    replace (rb_pread rbuf + _) with (rb_size rbuf) by lia. by rewrite Z_mod_same_full.
  - simpl. assert ((rb_pread rbuf + len) mod rb_size rbuf = rb_pread rbuf + len - rb_size rbuf)
      as -> by (symmetry; apply Z.mod_unique with 1; lia).
    unfold dvb_ringbuffer_avail in *. simpl.
    destruct (Z.ltb_spec (rb_pwrite rbuf - rb_pread rbuf) 0), (Z.ltb_spec (rb_pwrite rbuf - len) 0);
      lia.
Qed.

Lemma rb_read_wrapped_misplaced_witness :
  let b := {| rb_data := [3; 4; 5; 6; 0; 0; 1; 2]; rb_size := 8; rb_pread := 6; rb_pwrite := 4 |} in
  exists b', dvb_ringbuffer_read b 4 false (fun _ _ => true)
      = Ok (4, take (Z.to_nat 4) (rb_contents b), b') /\
    rb_pread b' = 4 /\ rb_pread b' <> (rb_pread b + 4) mod rb_size b /\
    dvb_ringbuffer_avail b' <> dvb_ringbuffer_avail b - 4.
Proof.
  apply rb_read_wrapped_misplaced; [unfold rb_wf, zlen; simpl; lia|vm_compute; split; discriminate
    |vm_compute; reflexivity|discriminate].
Defined.
