(* ===== verification/DmxBuffer.v ===== *)
(** * The demux device's buffer (dvb-core/dmxdev.c, lines 55 to 157)

    [dvb_dmxdev_buffer_write] is called by the demultiplexer's callbacks in
    interrupt context, [dvb_dmxdev_buffer_read] by the reading process, which
    may sleep in between: what happens while it sleeps is an explicit list of
    events, and the producers among them run the write routine itself. *)

From S2P Require Import Prelude Fifo.

Record dmxdev_buffer := {
  data : option (list Z);      (* NULL, or [size] bytes *)
  size : Z;
  pread : Z;
  pwrite : Z;
  error : Z;
}.

Definition dvb_dmxdev_buffer_init : dmxdev_buffer :=
  {| data := None; size := 8192; pread := 0; pwrite := 0; error := 0 |}.

Definition buf_store (d : list Z) (pw : Z) (b : dmxdev_buffer) : dmxdev_buffer :=
  {| data := Some d; size := size b; pread := pread b; pwrite := pw; error := error b |}.
Definition buf_set_pread (p : Z) (b : dmxdev_buffer) : dmxdev_buffer :=
  {| data := data b; size := size b; pread := p; pwrite := pwrite b; error := error b |}.
Definition buf_set_data (d : option (list Z)) (b : dmxdev_buffer) : dmxdev_buffer :=
  {| data := d; size := size b; pread := pread b; pwrite := pwrite b; error := error b |}.
(** [buffer->pwrite = buffer->pread = 0] *)
Definition buf_rewind (b : dmxdev_buffer) : dmxdev_buffer :=
  {| data := data b; size := size b; pread := 0; pwrite := 0; error := error b |}.
(** [buffer->pwrite = buffer->pread] with an error code to report, or none. *)
Definition buf_flush (e : Z) (b : dmxdev_buffer) : dmxdev_buffer :=
  {| data := data b; size := size b; pread := pread b; pwrite := pread b; error := e |}.
Definition buf_set_error (e : Z) (b : dmxdev_buffer) : dmxdev_buffer :=
  {| data := data b; size := size b; pread := pread b; pwrite := pwrite b; error := e |}.

Definition dvb_dmxdev_buffer_write (buf : dmxdev_buffer) (src : list Z) : res (Z * dmxdev_buffer) :=
  let len := zlen src in
  if len =? 0 then Ok (0, buf) else
  match data buf with
  | None => Ok (0, buf)
  | Some d =>
      let free := pread buf - pwrite buf in
      let wrap := free <=? 0 in
      let split := if wrap then size buf - pwrite buf else 0 in
      let free := if wrap then free + size buf else free in
      if len >=? free then Ok (-1, buf) else
      let split := if split >=? len then 0 else split in
      let todo := len - split in
      let? st :=
        if split =? 0 then Ok (d, pwrite buf) else
          let? s := slice src 0 split in
          let? d1 := memcpy_to d (pwrite buf) s in Ok (d1, 0) in
      let? s := slice src split todo in
      let? d2 := memcpy_to st.1 st.2 s in
      let? p := c_rem (st.2 + todo) (size buf) in
      Ok (len, buf_store d2 p buf)
  end.

(** What both callbacks do with a received block, given in one or two parts
    ([dvb_dmxdev_section_callback] 370-377, [dvb_dmxdev_ts_callback] 408-414): an
    overflow empties the buffer and leaves an error for the reader. *)
Definition buffer_deliver (b : dmxdev_buffer) (buffer1 buffer2 : list Z) : res dmxdev_buffer :=
  let? r := dvb_dmxdev_buffer_write b buffer1 in
  let? r := if r.1 =? zlen buffer1 then dvb_dmxdev_buffer_write r.2 buffer2 else Ok r in
  Ok (if r.1 <? 0 then buf_flush (- EOVERFLOW) r.2 else r.2).

(** What can happen while the reader sleeps on the buffer's wait queue. *)
Inductive wakeup :=
| Signal                        (* a signal for the reading process *)
| Producer (src : list Z)       (* a callback delivers a block *)
| Failure (e : Z).              (* the time out handler: [buffer->error = e] *)

(** [wait_event_interruptible (queue, pread != pwrite || error)]; the flag says
    that a signal interrupted the sleep. *)
Fixpoint wait_event (evs : list wakeup) (b : dmxdev_buffer)
    : res (bool * dmxdev_buffer * list wakeup) :=
  if negb (pread b =? pwrite b) || negb (error b =? 0) then Ok (false, b, evs) else
  match evs with
  | [] => Block
  | Signal :: evs => Ok (true, b, evs)
  | Producer src :: evs => let? b := buffer_deliver b src [] in wait_event evs b
  | Failure e :: evs => wait_event evs (buf_set_error e b)
  end.

Record read_result := { rr_ret : Z; rr_out : list Z; rr_buf : dmxdev_buffer; rr_evs : list wakeup }.

(** One turn of the loop after the sleep: the bytes copied to user space. *)
Definition read_chunk (b : dmxdev_buffer) (d : list Z) (todo off : Z) (ucopy : Z -> Z -> bool)
    : res (bool * list Z * dmxdev_buffer) :=
  let avail := pwrite b - pread b in
  let split := if avail <? 0 then size b - pread b else size b in
  let avail := if avail <? 0 then avail + size b else avail in
  let avail := if avail >? todo then todo else avail in
  let? st :=
    if split <? avail then
      if negb (ucopy off split) then Ok (false, [], b, avail)
      else let? s := slice d (pread b) split in Ok (true, s, buf_set_pread 0 b, avail - split)
    else Ok (true, [], b, avail) in
  let '(ok, out, b, avail) := st in
  if negb ok then Ok (false, [], b)
  else if avail =? 0 then Ok (true, out, b)
  else if negb (ucopy (off + zlen out) avail) then Ok (false, out, b)
  else
    let? s := slice d (pread b) avail in
    let? p := c_rem (pread b + avail) (size b) in
    Ok (true, out ++ s, buf_set_pread p b).

Fixpoint read_loop (fuel : nat) (non_blocking : bool) (ucopy : Z -> Z -> bool) (count : Z)
    (b : dmxdev_buffer) (out : list Z) (evs : list wakeup) : res read_result :=
  let todo := count - zlen out in
  if todo <=? 0 then Ok {| rr_ret := count; rr_out := out; rr_buf := b; rr_evs := evs |} else
  match fuel with
  | O => Diverge
  | S fuel =>
      if non_blocking && (pwrite b =? pread b) then
        Ok {| rr_ret := if count - todo =? 0 then - EWOULDBLOCK else count - todo;
              rr_out := out; rr_buf := b; rr_evs := evs |}
      else
        let? w := wait_event evs b in
        let '(interrupted, b, evs) := w in
        if interrupted : bool then
          Ok {| rr_ret := count - todo; rr_out := out; rr_buf := b; rr_evs := evs |}
        else if negb (error b =? 0) then
          Ok {| rr_ret := error b; rr_out := out; rr_buf := buf_flush 0 b; rr_evs := evs |}
        else
          match data b with
          | None => Fault
          | Some d =>
              let? c := read_chunk b d todo (zlen out) ucopy in
              let '(ok, s, b) := c in
              if negb ok then
                Ok {| rr_ret := - EFAULT; rr_out := out ++ s; rr_buf := b; rr_evs := evs |}
              else read_loop fuel non_blocking ucopy count b (out ++ s) evs
          end
  end.

Definition dvb_dmxdev_buffer_read (src : dmxdev_buffer) (non_blocking : bool)
    (ucopy : Z -> Z -> bool) (count : Z) (evs : list wakeup) : res read_result :=
  match data src with
  | None => Ok {| rr_ret := 0; rr_out := []; rr_buf := src; rr_evs := evs |}
  | Some _ =>
      if negb (error src =? 0) then
        Ok {| rr_ret := error src; rr_out := []; rr_buf := buf_flush 0 src; rr_evs := evs |}
      else if non_blocking && (pwrite src =? pread src) then
        Ok {| rr_ret := - EWOULDBLOCK; rr_out := []; rr_buf := src; rr_evs := evs |}
      else read_loop (Z.to_nat count) non_blocking ucopy count src [] evs
  end.

(** ** Invariant and contents *)

Definition db_wf (b : dmxdev_buffer) : Prop :=
  exists d, data b = Some d /\ 0 < size b /\ zlen d = size b /\
    0 <= pread b < size b /\ 0 <= pwrite b < size b.

Definition db_fill (b : dmxdev_buffer) : Z := fill (size b) (pread b) (pwrite b).

Definition db_contents (b : dmxdev_buffer) : list Z :=
  match data b with
  | Some d => ring_contents (size b) d (pread b) (db_fill b)
  | None => []
  end.

Definition db_room (b : dmxdev_buffer) : Z := size b - 1 - db_fill b.

Lemma db_fill_range b : db_wf b -> 0 <= db_fill b < size b.
Proof. intros (d & ? & ? & ? & ? & ?). apply fill_range; lia. Qed.

Lemma db_contents_zlen b : db_wf b -> zlen (db_contents b) = db_fill b.
Proof.
  intros Hwf. pose proof (db_fill_range b Hwf). destruct Hwf as (d & Hd & _).
  unfold db_contents. rewrite Hd. apply ring_zlen. lia.
Qed.

Lemma db_empty b : db_wf b -> db_contents b = [] <-> pwrite b = pread b.
Proof.
  intros Hwf. pose proof (db_contents_zlen b Hwf) as Hz.
  destruct Hwf as (d & ? & ? & ? & ? & ?). unfold db_fill, fill in Hz. split.
  - intros E. rewrite E, zlen_nil in Hz. case_if_in Hz; lia.
  - intros E. apply nil_length_inv. case_if_in Hz; zl.
Qed.

(** The store after the write routine's one or two copies. *)
Lemma buffer_write_copies d sz w free src :
  zlen d = sz -> 0 <= w < sz -> 0 < zlen src -> zlen src <= free -> free <= sz ->
  forall wrap : bool,
  (wrap = true -> free <= sz) -> (wrap = false -> w + free < sz) ->
  let split := if wrap then sz - w else 0 in
  let split := if split >=? zlen src then 0 else split in
  exists d2,
    (let? st := if split =? 0 then Ok (d, w) else
       let? s := slice src 0 split in let? d1 := memcpy_to d w s in Ok (d1, 0) in
     let? s := slice src split (zlen src - split) in
     let? d2 := memcpy_to st.1 st.2 s in
     let? p := c_rem (st.2 + (zlen src - split)) sz in Ok (d2, p))
    = Ok (d2, (w + zlen src) mod sz) /\ ring_written sz d d2 w src.
Proof.
  intros Hd Hw Hl Hf Hs wrap Ht Hfa. cbv zeta.
  set (sp := if wrap then sz - w else 0).
  assert (wrap = true /\ sp = sz - w \/ wrap = false /\ sp = 0 /\ w + free < sz) as Hsp
    by (subst sp; destruct wrap; [left|right]; auto).
  destruct (Z.geb_spec sp (zlen src)).
  - simpl (0 =? 0). cbv iota. rewrite slice_ok by lia. cbn [res_bind fst snd].
    rewrite Z.sub_0_r, drop_0, take_ge by zl.
    destruct (memcpy_to d w src) as [d2| | |] eqn:Hm;
      try (rewrite memcpy_to_ok in Hm by lia; discriminate).
    cbn [res_bind]. rewrite c_rem_ok by lia. exists d2. split; [done|].
    apply ring_written_one; lia || done.
  - destruct (Z.eqb_spec sp 0) as [Hz|Hz].
    + rewrite Hz, slice_ok by lia. cbn [res_bind fst snd].
      rewrite Z.sub_0_r, drop_0, take_ge by zl.
      destruct (memcpy_to d w src) as [d2| | |] eqn:Hm;
        try (rewrite memcpy_to_ok in Hm by lia; discriminate).
      cbn [res_bind]. rewrite c_rem_ok by lia. exists d2. split; [done|].
      apply ring_written_one; lia || done.
    + rewrite slice_ok by lia. cbn [res_bind]. rewrite drop_0.
      set (s1 := take (Z.to_nat sp) src). assert (zlen s1 = sp) by (apply zlen_takeZ; lia).
      destruct (memcpy_to d w s1) as [d1| | |] eqn:Hm1;
        try (rewrite memcpy_to_ok in Hm1 by lia; discriminate).
      pose proof (memcpy_to_length _ _ _ _ Hm1).
      cbn [res_bind fst snd]. rewrite slice_ok by lia. cbn [res_bind].
      assert (zlen (drop (Z.to_nat sp) src) = zlen src - sp) as Hz2 by (apply zlen_dropZ; lia).
      rewrite (take_ge (drop _ _)) by zl. set (s2 := drop (Z.to_nat sp) src) in *.
      destruct (memcpy_to d1 0 s2) as [d2| | |] eqn:Hm2;
        try (rewrite memcpy_to_ok in Hm2 by zl; discriminate).
      cbn [res_bind]. rewrite c_rem_ok by lia. exists d2. split.
      * do 2 f_equal. replace (w + zlen src) with (0 + (zlen src - sp) + 1 * sz) by lia.
        by rewrite Z_mod_plus_full.
      * replace src with (s1 ++ s2) by apply take_drop.
        apply (ring_written_two sz d w s1 s2 d1 d2); lia || done.
Qed.

Lemma buffer_write_fits b src :
  db_wf b -> zlen src <= db_room b ->
  exists b', dvb_dmxdev_buffer_write b src = Ok (zlen src, b') /\ db_wf b' /\
    db_contents b' = db_contents b ++ src /\ db_room b' = db_room b - zlen src /\
    error b' = error b.
Proof.
  intros Hwf Hroom. pose proof (db_fill_range b Hwf) as Hf. pose proof (zlen_nonneg src).
  unfold dvb_dmxdev_buffer_write. destruct (Z.eqb_spec (zlen src) 0) as [Hz|Hz].
  { exists b. assert (src = []) as -> by (apply nil_length_inv; zl).
    rewrite app_nil_r. split_and!; try done. zl. }
  destruct Hwf as (d & Hd & Hs & Hl & Hr & Hw). rewrite Hd.
  unfold db_room in *. unfold db_fill in Hroom, Hf. unfold fill in Hroom, Hf.
  set (wrap := pread b - pwrite b <=? 0).
  set (free := if wrap then _ else _).
  assert (free = size b - (if pwrite b - pread b <? 0 then pwrite b - pread b + size b
                           else pwrite b - pread b) /\ (wrap = false -> pwrite b + free < size b))
    as [Hfree Hnw].
  { subst free wrap. destruct (Z.leb_spec (pread b - pwrite b) 0),
      (Z.ltb_spec (pwrite b - pread b) 0); split; (lia || discriminate). }
  rif. destruct (buffer_write_copies d (size b) (pwrite b) free src Hl Hw)
    with (wrap := wrap) as (d2 & Heq & Hwr); [case_lia..|lia|exact Hnw|].
  inv_res Heq. simplify_eq. rewrite Hr0. cbn [res_bind].
  rewrite Hr1. cbn [res_bind]. rewrite Hr2. cbn [res_bind]. rewrite Hr3. cbn [res_bind].
  eexists; split; [done|].
  destruct (Hwr) as (Hdl & _).
  assert (0 <= (pwrite b + zlen src) mod size b < size b) by (apply Z.mod_pos_bound; lia).
  split; [exists d2; simpl; split_and!; lia || done|].
  fold (fill (size b) (pread b) (pwrite b)) in Hroom, Hf.
  unfold db_contents, db_fill. simpl. rewrite Hd, fill_push by lia.
  split_and!; [|lia|done].
  apply ring_push_written; [lia..|]. by rewrite <- fill_pos by lia.
Qed.

Lemma buffer_write_full b src :
  db_wf b -> db_room b < zlen src -> dvb_dmxdev_buffer_write b src = Ok (-1, b).
Proof.
  intros Hwf Hroom. pose proof (db_fill_range b Hwf) as Hf.
  destruct Hwf as (d & Hd & Hs & Hl & Hr & Hw).
  unfold dvb_dmxdev_buffer_write, db_room, db_fill, fill in *.
  rewrite Hd. destruct (Z.ltb_spec (pwrite b - pread b) 0); rif; done.
Qed.

Lemma read_chunk_spec b d todo off ucopy :
  db_wf b -> data b = Some d -> 0 < todo -> pwrite b <> pread b ->
  (forall o l, ucopy o l = true) ->
  exists b', read_chunk b d todo off ucopy
      = Ok (true, take (Z.to_nat (Z.min todo (db_fill b))) (db_contents b), b') /\ db_wf b' /\
    db_contents b' = drop (Z.to_nat (Z.min todo (db_fill b))) (db_contents b) /\
    db_room b' = db_room b + Z.min todo (db_fill b) /\ error b' = error b.
Proof.
  intros Hwf Hd Htodo Hne Hcopy. pose proof (db_fill_range b Hwf) as Hf.
  destruct Hwf as (d' & Hd' & Hs & Hl & Hr & Hw). rewrite Hd in Hd'. simplify_eq.
  unfold read_chunk. set (n := Z.min todo (db_fill b)).
  assert (0 < n <= db_fill b) as Hn by (subst n; unfold db_fill, fill in *; case_lia).
  set (neg := pwrite b - pread b <? 0).
  assert ((if (if neg then pwrite b - pread b + size b else pwrite b - pread b) >? todo
           then todo else if neg then pwrite b - pread b + size b else pwrite b - pread b) = n)
    as -> by (subst n; unfold db_fill, fill; fold neg; destruct neg; case_if; lia).
  rewrite !Hcopy. cbn [negb].
  assert (take (Z.to_nat n) (db_contents b) = ring_contents (size b) d' (pread b) n) as Htake
    by (unfold db_contents; rewrite Hd, ring_take by lia; done).
  assert (0 <= (pread b + n) mod size b < size b) by (apply Z.mod_pos_bound; lia).
  set (p := (pread b + n) mod size b) in *.
  assert (exists b', b' = buf_set_pread p b /\ db_wf b' /\
    db_contents b' = drop (Z.to_nat n) (db_contents b) /\ db_room b' = db_room b + n /\
    error b' = error b) as (b' & Hb' & Hrest).
  { eexists; split; [done|]. split; [exists d'; simpl; split_and!; done || lia|].
    unfold db_room, db_contents, db_fill in *. simpl. rewrite Hd. subst p.
    rewrite fill_pop by lia. split_and!; [|lia|done]. apply ring_pop. lia. }
  exists b'. split; [|done]. rewrite Htake. subst b'.
  destruct ((if neg then size b - pread b else size b) <? n) eqn:Esp.
  - assert (neg = true) as Hneg by (revert Esp; destruct neg; [done|lia]).
    rewrite Hneg in *. rewrite (ring_slice (size b)) by lia. cbn [res_bind negb].
    rif. rewrite (ring_slice (size b)) by (simpl; lia). cbn [res_bind].
    simpl (pread _). simpl (size _). rewrite c_rem_ok by lia. cbn [res_bind].
    assert (p = n - (size b - pread b)) as Hp
      by (subst p; symmetry; apply Z.mod_unique with 1; lia).
    assert (ring_contents (size b) d' (pread b) n =
      ring_contents (size b) d' (pread b) (size b - pread b) ++ ring_contents (size b) d' 0 p)
      as ->.
    { replace n with ((size b - pread b) + p) by lia. rewrite ring_app by lia. do 2 f_equal.
      replace (pread b + _) with (size b) by lia. apply Z_mod_same_full. }
    rewrite (Z.mod_small (0 + _)) by lia. rewrite Z.add_0_l, <- Hp.
    by rewrite Hcopy.
  - cbn [res_bind negb]. rif. rewrite Hcopy. cbn [negb].
    assert (pread b + n <= size b).
    { destruct neg eqn:Eneg; [lia|]. unfold db_fill, fill in *. subst neg.
      rewrite Eneg in *. lia. }
    rewrite (ring_slice (size b)), c_rem_ok by lia. done.
Qed.

(** ** Reading *)

Section Reading.
Context (ucopy : Z -> Z -> bool) (Hcopy : forall o l, ucopy o l = true).

Lemma buffer_nonempty b : db_wf b -> pwrite b <> pread b -> 0 < db_fill b.
Proof using.
  intros (d & ? & ? & ? & ? & ?) ?. unfold db_fill, fill. case_lia.
Qed.

Lemma wait_event_ready b evs :
  pwrite b <> pread b -> wait_event evs b = Ok (false, b, evs).
Proof using. intros H. destruct evs; simpl; by rif. Qed.

(** A non-blocking read takes what is there, up to [count]; so does any read of
    no more than what is there. *)
Lemma buffer_read_now b nb count evs :
  db_wf b -> error b = 0 -> 0 < count -> 0 < db_fill b -> (nb = true \/ count <= db_fill b) ->
  let n := Z.min count (db_fill b) in
  exists b', dvb_dmxdev_buffer_read b nb ucopy count evs =
      Ok {| rr_ret := n; rr_out := take (Z.to_nat n) (db_contents b); rr_buf := b';
            rr_evs := evs |} /\
    db_wf b' /\ db_contents b' = drop (Z.to_nat n) (db_contents b) /\
    db_room b' = db_room b + n /\ error b' = 0.
Proof using Hcopy.
  intros Hwf He Hc Hz Hnb n. pose proof (db_fill_range b Hwf).
  unfold dvb_dmxdev_buffer_read. destruct (Hwf) as (d & Hd & _).
  rewrite Hd, He. cbn [Z.eqb negb].
  assert (pwrite b <> pread b) as Hne.
  { intros E. apply (db_empty b Hwf) in E. pose proof (db_contents_zlen b Hwf) as Hl.
    rewrite E, zlen_nil in Hl. lia. }
  rif. destruct (Z.to_nat count) as [|fuel] eqn:Ef; [lia|].
  simpl read_loop. rewrite zlen_nil, Z.sub_0_r. rif. rewrite wait_event_ready by done.
  cbn [res_bind]. rewrite He, Hd. cbn [Z.eqb negb].
  destruct (read_chunk_spec b d count 0 ucopy) as (b' & Hc' & Hwf' & Hcont & Hroom & He');
    try done. rewrite Hc'. cbn [res_bind negb app fst snd].
  fold n in Hc', Hcont, Hroom |- *. set (out := take (Z.to_nat n) (db_contents b)) in *.
  assert (zlen out = n) as Hout.
  { apply zlen_takeZ. rewrite db_contents_zlen by done. lia. }
  exists b'. split; [|rewrite <- He; split_and!; done].
  destruct (Z.leb_spec count (db_fill b)).
  - destruct fuel; simpl read_loop; rewrite Hout; rif; do 2 f_equal; lia.
  - assert (pwrite b' = pread b') as Heq.
    { apply (db_empty b' Hwf'). rewrite Hcont. apply nil_length_inv.
      rewrite length_drop. pose proof (db_contents_zlen b Hwf). unfold zlen in *. lia. }
    destruct Hnb as [->|]; [|lia].
    destruct fuel; [lia|]. simpl read_loop. rewrite Hout, Heq. rif. do 2 f_equal. lia.
Qed.

Lemma buffer_deliver_spec b src :
  db_wf b ->
  exists b', buffer_deliver b src [] = Ok b' /\ db_wf b' /\
    (zlen src <= db_room b /\ db_contents b' = db_contents b ++ src /\ error b' = error b \/
     db_room b < zlen src /\ db_contents b' = [] /\ error b' = - EOVERFLOW).
Proof using.
  intros Hwf. unfold buffer_deliver.
  destruct (Z.leb_spec (zlen src) (db_room b)) as [Hfit|Hfull].
  - destruct (buffer_write_fits b src Hwf Hfit) as (b' & -> & Hwf' & Hc & _ & He).
    cbn [res_bind fst snd]. rewrite Z.eqb_refl. unfold dvb_dmxdev_buffer_write.
    rewrite zlen_nil. cbn [Z.eqb res_bind fst snd Z.ltb Z.compare].
    exists b'. split_and!; [done..|]. by left.
  - rewrite buffer_write_full by done. cbn [res_bind fst snd].
    pose proof (zlen_nonneg src). rif.
    eexists; split; [done|]. assert (db_wf (buf_flush (- EOVERFLOW) b)) as Hwf'.
    { destruct Hwf as (d & ? & ? & ? & ? & ?). exists d. simpl. split_and!; done || lia. }
    split; [done|]. right. split_and!; [done| |done]. by apply db_empty.
Qed.

Definition produced (evs : list wakeup) : list Z :=
  flat_map (fun e => match e with Producer s => s | _ => [] end) evs.

Lemma buf_set_error_wf e b : db_wf b -> db_wf (buf_set_error e b).
Proof using. intros (d & ?). by exists d. Qed.

(** While no error is pending, the contents grow by what was produced. *)
Lemma wait_event_spec evs b i b' evs' :
  db_wf b -> wait_event evs b = Ok (i, b', evs') ->
  exists used, evs = used ++ evs' /\ db_wf b' /\
    (error b' = 0 -> error b = 0 /\ db_contents b' = db_contents b ++ produced used) /\
    (i = true -> error b' = 0) /\ (i = false -> error b' = 0 -> pwrite b' <> pread b').
Proof using.
  revert b. induction evs as [|e evs IH]; intros b Hwf H; simpl in H; case_if_in H;
    try discriminate;
    try (simplify_eq; exists []; simpl; rewrite app_nil_r; split_and!; auto; intros; lia).
  destruct e as [|src|err].
  - simplify_eq. exists [Signal]. simpl. rewrite app_nil_r. split_and!; try done.
    intros _. apply orb_false_iff in Ec as [_ Ec]. lia.
  - destruct (buffer_deliver_spec b src Hwf) as (b1 & Hd & Hwf1 & Hcases).
    rewrite Hd in H. cbn [res_bind] in H.
    destruct (IH b1 Hwf1 H) as (used & -> & Hwf' & Hc & Hi).
    exists (Producer src :: used). split; [done|]. split; [done|]. split; [|done].
    intros He. destruct (Hc He) as [He1 ->]. destruct Hcases as [(_ & -> & Hee)|(_ & _ & Hee)].
    + rewrite <- Hee. split; [done|]. simpl. by rewrite app_assoc.
    + rewrite Hee in He1. discriminate.
  - destruct (IH _ (buf_set_error_wf err b Hwf) H) as (used & -> & Hwf' & Hc & Hi).
    exists (Failure err :: used). split_and!; try done; try apply Hi.
    intros He. destruct (Hc He) as [He1 ->]. split; [|done].
    apply orb_false_iff in Ec as [_ Ec]. lia.
Qed.

Lemma wait_event_cases evs b :
  db_wf b -> wait_event evs b = Block \/
  exists i b' evs', wait_event evs b = Ok (i, b', evs') /\ db_wf b' /\
    (i = false -> error b' = 0 -> pwrite b' <> pread b').
Proof using.
  revert b. induction evs as [|e evs IH]; intros b Hwf; simpl; case_if; auto;
    try (right; eexists _, _, _; split_and!; [done|done|intros; lia]).
  destruct e as [|src|err]; [right; eauto 10 | | by apply IH, buf_set_error_wf].
  destruct (buffer_deliver_spec b src Hwf) as (b1 & -> & Hwf1 & _). by apply IH.
Qed.

Definition failure_negative (e : wakeup) : Prop :=
  match e with Failure e => e < 0 | _ => True end.

(** The error codes the reader meets are negative. *)
Lemma wait_event_error evs b i b' evs' :
  Forall failure_negative evs -> error b <= 0 -> db_wf b ->
  wait_event evs b = Ok (i, b', evs') -> error b' <= 0.
Proof using.
  intros Hneg. revert b. induction Hneg as [|e evs He Hneg IH]; intros b Hb Hwf H; simpl in H;
    case_if_in H; try discriminate; simplify_eq; try done.
  destruct e as [|src|err]; [by simplify_eq| |].
  - destruct (buffer_deliver_spec b src Hwf) as (b1 & Hd & Hwf1 & Hcases).
    rewrite Hd in H. cbn [res_bind] in H. apply (IH b1); [|done|done].
    destruct Hcases as [(_ & _ & ->)|(_ & _ & ->)]; [done|]. unfold EOVERFLOW. lia.
  - apply (IH (buf_set_error err b)); [|by apply buf_set_error_wf|done]. simpl in *. lia.
Qed.

Lemma read_loop_fifo fuel nb count b out evs r :
  db_wf b -> error b = 0 -> Forall failure_negative evs -> zlen out <= count ->
  read_loop fuel nb ucopy count b out evs = Ok r -> 0 <= rr_ret r ->
  exists used, evs = used ++ rr_evs r /\ rr_ret r = zlen (rr_out r) /\
    rr_out r ++ db_contents (rr_buf r) = out ++ db_contents b ++ produced used /\
    error (rr_buf r) = 0 /\ db_wf (rr_buf r).
Proof using Hcopy.
  revert b out evs. induction fuel as [|fuel IH]; intros b out evs Hwf He Hneg Hle H Hret;
    simpl read_loop in H.
  { case_if_in H; [|done]. simplify_eq. exists []. rewrite app_nil_r. simpl in *.
    split_and!; done || lia. }
  case_if_in H.
  { simplify_eq. exists []. rewrite app_nil_r. simpl in *. split_and!; done || lia. }
  case_if_in H.
  { simplify_eq. exists []. rewrite app_nil_r. simpl in *.
    split_and!; try done. case_if_in Hret; [done|]. lia. }
  inv_res H. destruct r0 as [[i b1] evs1].
  destruct (wait_event_spec evs b i b1 evs1 Hwf Hr) as (used & Hu & Hwf1 & Hc & Hi & Hni).
  destruct i.
  { simplify_eq. destruct (Hc (Hi eq_refl)) as [_ Hcont].
    exists used. simpl. rewrite Hcont. split_and!; auto || lia. }
  destruct (Z.eqb_spec (error b1) 0) as [He1|He1]; cbn [negb] in H; cbn [negb] in H.
  2: { assert (error b1 <= 0) by (eapply (wait_event_error evs b); [done|lia|done..]).
       simplify_eq. simpl in Hret. lia. }
  destruct (Hc He1) as [_ Hcont]. destruct (Hwf1) as (d & Hd & _). rewrite Hd in H.
  destruct (read_chunk_spec b1 d (count - zlen out) (zlen out) ucopy)
    as (b2 & Hch & Hwf2 & Hcont2 & _ & He2); [auto || lia..|].
  rewrite Hch in H. cbn [res_bind negb] in H.
  set (n := Z.min (count - zlen out) (db_fill b1)) in *.
  pose proof (db_fill_range b1 Hwf1). pose proof (db_contents_zlen b1 Hwf1).
  apply IH in H as (used2 & -> & Hrr & Hout & Hee & Hwf'); [|done|congruence| | |done].
  - exists (used ++ used2). split; [by rewrite <- app_assoc|]. split_and!; try done.
    rewrite Hout, Hcont2, <- !app_assoc. f_equal.
    rewrite (app_assoc (take _ _)), take_drop, Hcont, <- app_assoc. f_equal.
    unfold produced. by rewrite flat_map_app.
  - subst evs. by apply Forall_app in Hneg as [_ Hneg].
  - rewrite zlen_app, zlen_takeZ; lia.
Qed.
End Reading.

(** With any outcome of the copies to user space. *)
Lemma read_chunk_total b d todo off ucopy :
  db_wf b -> data b = Some d -> 0 < todo -> pwrite b <> pread b ->
  exists ok s b', read_chunk b d todo off ucopy = Ok (ok, s, b') /\ db_wf b' /\
    error b' = error b /\ zlen s <= todo /\ (ok = true -> 0 < zlen s).
Proof.
  intros Hwf Hd Htodo Hne.
  destruct (read_chunk_spec b d todo off (fun _ _ => true)) as
    (b' & Hc & Hwf' & Hcont & Hroom & He); try done.
  pose proof (db_fill_range b Hwf). pose proof (buffer_nonempty b Hwf Hne).
  pose proof (db_contents_zlen b Hwf) as Hz.
  assert (zlen (take (Z.to_nat (todo `min` db_fill b)) (db_contents b)) = todo `min` db_fill b)
    as Hn by (apply zlen_takeZ; lia).
  revert Hc. generalize dependent (take (Z.to_nat (todo `min` db_fill b)) (db_contents b)).
  intros out Hn Hc. unfold read_chunk in *.
  set (av := if _ >? todo then _ else _) in *.
  clearbody av.
  generalize dependent (if pwrite b - pread b <? 0 then size b - pread b else size b).
  intros sp Hc.
  destruct (sp <? av) eqn:Esp; simpl negb in Hc; cbn [res_bind] in Hc; cbv iota in Hc.
  - inv_res Hc. destruct r as [[[ok s] b1] a1]. inv_res Hr. simplify_eq.
    destruct (ucopy off sp); cbn [negb res_bind].
    2: { exists false, [], b. rewrite zlen_nil. split_and!; done || lia. }
    rewrite Hr0. cbn [res_bind negb].
    change (pread (buf_set_pread 0 b)) with 0 in *.
    change (size (buf_set_pread 0 b)) with (size b) in *.
    cbn [negb] in Hc. destruct (av - sp =? 0) eqn:Ea.
    { simplify_eq. exists true, out, (buf_set_pread 0 b). split_and!; done || lia. }
    inv_res Hc. simplify_eq. destruct (ucopy (off + zlen s) (av - sp)); cbn [negb].
    + rewrite Hr. cbn [res_bind]. rewrite Hr1. cbn [res_bind].
      rewrite ?Ea. eexists _, _, _. split_and!; done || lia.
    + rewrite ?Ea. exists false, s, (buf_set_pread 0 b). rewrite zlen_app in *.
      pose proof (zlen_nonneg r). split_and!; try done; [|lia].
      destruct Hwf as (d' & ? & ? & ? & ? & ?). exists d'. simpl. split_and!; done || lia.
  - cbn [negb] in Hc. destruct (av =? 0) eqn:Ea; cbn [res_bind negb].
    { simplify_eq. rewrite zlen_nil in Hn. lia. }
    inv_res Hc. simplify_eq. change (zlen (@nil Z)) with 0. simpl app in *.
    destruct (ucopy (off + 0) av); cbn [negb].
    + rewrite Hr. cbn [res_bind]. rewrite Hr0. cbn [res_bind].
      rewrite ?Ea. eexists _, _, _. split_and!; done || lia.
    + rewrite Ea. exists false, [], b. rewrite zlen_nil. split_and!; done || lia.
Qed.

(** The loop makes progress on every turn: [count] turns are enough, whatever
    happens while the reader sleeps and whichever copies fail. *)
Lemma read_loop_total fuel nb ucopy count b out evs :
  db_wf b -> error b = 0 -> count - zlen out <= Z.of_nat fuel ->
  read_loop fuel nb ucopy count b out evs = Block \/
  exists r, read_loop fuel nb ucopy count b out evs = Ok r /\ db_wf (rr_buf r).
Proof.
  revert b out evs. induction fuel as [|fuel IH]; intros b out evs Hwf He Hf; simpl read_loop.
  { rif. right. eauto. }
  case_if; [right; eauto|]. case_if; [right; eauto|].
  destruct (wait_event_cases evs b Hwf) as [->|(i & b1 & evs1 & -> & Hwf1 & Hni)]; [by left|].
  cbn [res_bind]. destruct i; [right; eauto|].
  destruct (Z.eqb_spec (error b1) 0) as [He1|He1]; cbn [negb].
  2: { right. eexists. split; [done|]. destruct Hwf1 as (d & ? & ? & ? & ? & ?).
       exists d. simpl. split_and!; done || lia. }
  destruct (Hwf1) as (d & Hd & _). rewrite Hd.
  destruct (read_chunk_total b1 d (count - zlen out) (zlen out) ucopy)
    as (ok & s & b2 & -> & Hwf2 & He2 & Hs & Hok); [auto || lia..|].
  cbn [res_bind]. destruct ok; cbn [negb]; [|right; eauto].
  apply IH; [done|lia|]. rewrite zlen_app. specialize (Hok eq_refl). lia.
Qed.

(** ** The buffer implements the queue interface *)

#[export] Instance dmxdev_buffer_queue : ByteQueue dmxdev_buffer := {
  bq_wf b := db_wf b /\ error b = 0;
  bq_contents := db_contents;
  bq_room := db_room;
  bq_push src b := dvb_dmxdev_buffer_write b src;
  bq_pop n b := let? r := dvb_dmxdev_buffer_read b true (fun _ _ => true) n [] in
                Ok (rr_out r, rr_buf r);
}.

#[export] Instance dmxdev_buffer_queue_laws : ByteQueueLaws dmxdev_buffer.
Proof.
  split.
  - intros b src [Hwf He] Hr. simpl in Hr.
    destruct (buffer_write_fits b src Hwf Hr) as (b' & ? & ? & ? & ? & ?).
    exists b'. split_and!; try done. split; [done|congruence].
  - intros b n [Hwf He] Hn. simpl in *. pose proof (db_contents_zlen b Hwf) as Hz.
    destruct (Z.eqb_spec n 0) as [->|].
    + exists b. destruct (Hwf) as (d & Hd & _). unfold dvb_dmxdev_buffer_read.
      rewrite Hd, He. cbn [negb Z.eqb andb]. case_if; simpl; rewrite ?drop_0; split_and!; done || lia.
    + destruct (buffer_read_now (fun _ _ => true)) with (b := b) (nb := true) (count := n) (evs := @nil wakeup)
        as (b' & -> & Hwf' & Hc & Hr & He'); [done..|lia|lia|by left|].
      rewrite Z.min_l in * by lia. exists b'. by split_and!.
Qed.

(** ** The buffer's contract *)

(** A write of a block that fits appends it to the waiting bytes and
    returns its length; a block that does not fit changes nothing and returns
    -1; without memory the block is dropped and 0 is returned. *)
Theorem buffer_write_spec b src :
  (data b = None -> dvb_dmxdev_buffer_write b src = Ok (0, b)) /\
  (db_wf b -> zlen src <= db_room b ->
    exists b', dvb_dmxdev_buffer_write b src = Ok (zlen src, b') /\ db_wf b' /\
      db_contents b' = db_contents b ++ src /\ db_room b' = db_room b - zlen src) /\
  (db_wf b -> db_room b < zlen src -> dvb_dmxdev_buffer_write b src = Ok (-1, b)).
Proof.
  split_and!.
  - intros Hd. unfold dvb_dmxdev_buffer_write. rewrite Hd. by case_if.
  - intros Hwf Hr. destruct (buffer_write_fits b src Hwf Hr) as (b' & ? & ? & ? & ? & _). eauto.
  - by apply buffer_write_full.
Qed.

Definition sample_buffer : dmxdev_buffer :=
  {| data := Some [1;2;3;4;5;6;7;8]; size := 8; pread := 5; pwrite := 1; error := 0 |}.

Lemma sample_buffer_wf : db_wf sample_buffer.
Proof. exists [1;2;3;4;5;6;7;8]. by vm_compute. Qed.

Lemma buffer_write_spec_witness :
  (exists b', dvb_dmxdev_buffer_write sample_buffer [9;10;11] = Ok (3, b') /\ db_wf b' /\
     db_contents b' = [6;7;8;1;9;10;11] /\ db_room b' = 0) /\
  dvb_dmxdev_buffer_write sample_buffer [9;10;11;12] = Ok (-1, sample_buffer).
Proof.
  split.
  - apply (buffer_write_spec sample_buffer [9;10;11]); [exact sample_buffer_wf|by vm_compute].
  - apply (buffer_write_spec sample_buffer [9;10;11;12]); [exact sample_buffer_wf|by vm_compute].
Defined.

(** C26: a read that returns a byte count returns exactly the oldest bytes of
    the stream: what was waiting, followed by the blocks the callbacks
    delivered while the reader slept, is what the reader got followed by what
    is still waiting.  No byte is lost, duplicated or reordered, over any
    number of wake-ups and wrap-arounds. *)
Theorem buffer_read_fifo b nb count evs r :
  db_wf b -> error b = 0 -> Forall failure_negative evs -> 0 <= count ->
  dvb_dmxdev_buffer_read b nb (fun _ _ => true) count evs = Ok r -> 0 <= rr_ret r ->
  exists used, evs = used ++ rr_evs r /\ rr_ret r = zlen (rr_out r) /\
    rr_out r ++ db_contents (rr_buf r) = db_contents b ++ produced used.
Proof.
  intros Hwf He Hneg Hc H Hret. destruct (Hwf) as (d & Hd & _).
  unfold dvb_dmxdev_buffer_read in H. rewrite Hd, He in H. cbn [Z.eqb negb] in H.
  case_if_in H.
  { simplify_eq. simpl in Hret. unfold EWOULDBLOCK, EAGAIN in Hret. lia. }
  apply (read_loop_fifo (fun _ _ => true)) in H as (used & ? & ? & Ho & _); eauto.
Qed.

Lemma buffer_read_fifo_witness :
  exists r used, [Producer [9;10]; Producer [11]] = used ++ rr_evs r /\
    rr_ret r = zlen (rr_out r) /\
    rr_out r ++ db_contents (rr_buf r) = db_contents sample_buffer ++ produced used.
Proof.
  destruct (dvb_dmxdev_buffer_read sample_buffer false (fun _ _ => true) 6
              [Producer [9;10]; Producer [11]]) as [r| | |] eqn:E; [|by vm_compute in E..].
  exists r. apply (buffer_read_fifo sample_buffer false 6); [exact sample_buffer_wf|done| |lia|done|].
  - by repeat constructor.
  - vm_compute in E. by simplify_eq.
Defined.

(** a read never accesses memory outside the buffer and always comes to an
    end: its loop needs at most [count] turns, whatever the callbacks, the time
    out and the signals do while it sleeps and whichever copies to user space
    fail.  The one thing it can do instead of returning is to sleep on when
    nothing happens any more. *)
Theorem buffer_read_total b nb ucopy count evs :
  db_wf b -> 0 <= count ->
  dvb_dmxdev_buffer_read b nb ucopy count evs = Block \/
  exists r, dvb_dmxdev_buffer_read b nb ucopy count evs = Ok r /\ db_wf (rr_buf r).
Proof.
  intros Hwf Hc. unfold dvb_dmxdev_buffer_read. destruct (Hwf) as (d & Hd & Hs & Hl & Hr & Hw).
  rewrite Hd. destruct (Z.eqb_spec (error b) 0) as [He|He]; cbn [negb].
  2: { right. eexists. split; [done|]. exists d. simpl. split_and!; done || lia. }
  case_if; [right; eauto|]. apply read_loop_total; [done|done|]. rewrite zlen_nil. lia.
Qed.

Lemma buffer_read_total_witness :
  let run := dvb_dmxdev_buffer_read sample_buffer false (fun o _ => o =? 0) 6 [Producer [9;10]] in
  run = Block \/ exists r, run = Ok r /\ db_wf (rr_buf r).
Proof. apply buffer_read_total; [exact sample_buffer_wf|lia]. Defined.

(** an overflow is never silent.  When a callback's block does not fit, the
    buffer is emptied, and the next read returns -EOVERFLOW, after which the
    buffer takes blocks again; the bytes of the lost block never reach the
    reader. *)
Theorem buffer_overflow_reported b src nb ucopy count evs :
  db_wf b -> db_room b < zlen src ->
  exists b1, buffer_deliver b src [] = Ok b1 /\
    let b2 := buf_flush 0 b1 in
    dvb_dmxdev_buffer_read b1 nb ucopy count evs =
      Ok {| rr_ret := - EOVERFLOW; rr_out := []; rr_buf := b2; rr_evs := evs |} /\
    db_wf b2 /\ db_contents b2 = [] /\ error b2 = 0 /\ db_room b2 = size b - 1.
Proof.
  intros Hwf Hfull. unfold buffer_deliver. rewrite buffer_write_full by done.
  cbn [res_bind fst snd]. pose proof (zlen_nonneg src). rif. eexists. split; [done|].
  cbv zeta. destruct Hwf as (d & Hd & Hs & Hl & Hr & Hw).
  assert (db_wf (buf_flush 0 (buf_flush (- EOVERFLOW) b))) as Hwf2
    by (exists d; simpl; split_and!; done || lia).
  split; [|split_and!; try done].
  - unfold dvb_dmxdev_buffer_read. simpl. by rewrite Hd.
  - by apply db_empty.
  - unfold db_room, db_fill, fill. simpl. rewrite Z.sub_diag. simpl. lia.
Qed.

Lemma buffer_overflow_reported_witness :
  exists b1, buffer_deliver sample_buffer [9;10;11;12] [] = Ok b1 /\
    let b2 := buf_flush 0 b1 in
    dvb_dmxdev_buffer_read b1 false (fun _ _ => true) 6 [] =
      Ok {| rr_ret := - EOVERFLOW; rr_out := []; rr_buf := b2; rr_evs := [] |} /\
    db_wf b2 /\ db_contents b2 = [] /\ error b2 = 0 /\ db_room b2 = 7.
Proof. apply (buffer_overflow_reported sample_buffer); [exact sample_buffer_wf|by vm_compute]. Defined.
