(* ===== verification/DemuxState.v ===== *)
(** * Data of the demultiplexer (dvb-core/dvb_demux.h, demux.h)

    The structs of the demux core, the constants, the packet and section header
    accessors of dvb_demux.c, and the interfaces through which the core calls
    out: the CRC and copy hooks a driver may replace, the client's callbacks
    and the driver's feed control.

    Pointers into the arrays [demux->filter] and [demux->feed] are indices; a
    client's callback function and private pointer are numbers the client
    chooses.  [feed->buffer] is always NULL ([NOBUFS]) and is left out. *)

From S2P Require Import Prelude Crc32.

(** ** Constants *)

Definition DMX_TYPE_TS := 0.
Definition DMX_TYPE_SEC := 1.
Definition DMX_TYPE_PES := 2.

Definition DMX_STATE_FREE := 0.
Definition DMX_STATE_ALLOCATED := 1.
Definition DMX_STATE_SET := 2.
Definition DMX_STATE_READY := 3.
Definition DMX_STATE_GO := 4.

Definition DVB_DEMUX_MASK_MAX : nat := 18.
Definition MAX_DVB_DEMUX_USERS := 10.
Definition DMX_MAX_PID := 0x2000.
Definition DMX_TS_PES_OTHER := 20.

Definition TS_PACKET := 1.
Definition TS_PAYLOAD_ONLY := 2.
Definition TS_DECODER := 4.

Definition DMX_MEMORY_FE := 0.
Definition DMX_FRONTEND_0 := 1.

(** ** Structs *)

(** [struct dvb_demux_filter] with its [struct dmx_section_filter] *)
Record dvb_demux_filter := mk_dvb_demux_filter {
  filter_value : list Z;
  filter_mask : list Z;
  filter_mode : list Z;
  sf_priv : Z;   (* the client's private pointer *)
  maskandmode : list Z;
  maskandnotmode : list Z;
  doneq : Z;
  fl_next : option nat;
  fl_feed : option nat;   (* index of the feed it belongs to *)
  fl_index : Z;
  fl_state : Z;
  fl_type : Z;
}.
#[export] Instance dvb_demux_filter_eta : Eta dvb_demux_filter := fun r =>
  mk_dvb_demux_filter (filter_value r) (filter_mask r) (filter_mode r) (sf_priv r)
    (maskandmode r) (maskandnotmode r) (doneq r) (fl_next r) (fl_feed r) (fl_index r) (fl_state
    r) (fl_type r).
Definition set_filter_value := setter! filter_value.
Definition set_filter_mask := setter! filter_mask.
Definition set_filter_mode := setter! filter_mode.
Definition set_sf_priv := setter! sf_priv.
Definition set_maskandmode := setter! maskandmode.
Definition set_maskandnotmode := setter! maskandnotmode.
Definition set_doneq := setter! doneq.
Definition set_fl_next := setter! fl_next.
Definition set_fl_feed := setter! fl_feed.
Definition set_fl_index := setter! fl_index.
Definition set_fl_state := setter! fl_state.
Definition set_fl_type := setter! fl_type.


(** [struct dvb_demux_feed] with the [dmx_ts_feed] / [dmx_section_feed] union; the two
    structs start with the same three members, so [is_filtering] is one field *)
Record dvb_demux_feed := mk_dvb_demux_feed {
  fd_type : Z;
  fd_state : Z;
  fd_pid : Z;
  fd_cb : Z;   (* which client callback *)
  fd_priv : Z;
  is_filtering : bool;   (* first word of both structs of the union *)
  check_crc : bool;
  crc_val : Z;
  secbuf : list Z;   (* 4096 bytes *)
  secbufp : Z;
  seclen : Z;
  fd_filter : option nat;   (* head of the filter chain *)
  fd_buffer_size : Z;
  fd_descramble : bool;
  fd_timeout : Z;
  fd_cb_length : Z;
  ts_type : Z;
  pes_type : Z;
  fd_cc : Z;
  peslen : Z;
}.
#[export] Instance dvb_demux_feed_eta : Eta dvb_demux_feed := fun r =>
  mk_dvb_demux_feed (fd_type r) (fd_state r) (fd_pid r) (fd_cb r) (fd_priv r) (is_filtering r)
    (check_crc r) (crc_val r) (secbuf r) (secbufp r) (seclen r) (fd_filter r) (fd_buffer_size r)
    (fd_descramble r) (fd_timeout r) (fd_cb_length r) (ts_type r) (pes_type r) (fd_cc r) (peslen
    r).
Definition set_fd_type := setter! fd_type.
Definition set_fd_state := setter! fd_state.
Definition set_fd_pid := setter! fd_pid.
Definition set_fd_cb := setter! fd_cb.
Definition set_fd_priv := setter! fd_priv.
Definition set_is_filtering := setter! is_filtering.
Definition set_check_crc := setter! check_crc.
Definition set_crc_val := setter! crc_val.
Definition set_secbuf := setter! secbuf.
Definition set_secbufp := setter! secbufp.
Definition set_seclen := setter! seclen.
Definition set_fd_filter := setter! fd_filter.
Definition set_fd_buffer_size := setter! fd_buffer_size.
Definition set_fd_descramble := setter! fd_descramble.
Definition set_fd_timeout := setter! fd_timeout.
Definition set_fd_cb_length := setter! fd_cb_length.
Definition set_ts_type := setter! ts_type.
Definition set_pes_type := setter! pes_type.
Definition set_fd_cc := setter! fd_cc.
Definition set_peslen := setter! peslen.


Record dmx_frontend := mk_dmx_frontend {
  fe_id : Z;
  source : Z;
}.
#[export] Instance dmx_frontend_eta : Eta dmx_frontend := fun r =>
  mk_dmx_frontend (fe_id r) (source r).

(** [struct dvb_demux]; [filternum] and [feednum] are the lengths of the two arrays *)
Record dvb_demux := mk_dvb_demux {
  filters : list dvb_demux_filter;
  feeds : list dvb_demux_feed;
  users : Z;
  frontend_list : list dmx_frontend;
  dx_frontend : option dmx_frontend;
  pesfilter : list (option nat);
  dx_pids : list Z;
  playing : Z;
  recording : Z;
  feed_list : list nat;   (* most recently added first *)
  tsbuf : list Z;   (* 204 bytes *)
  tsbufp : Z;
  mutex_held : bool;
  signal : bool;   (* a signal is pending for the caller *)
}.
#[export] Instance dvb_demux_eta : Eta dvb_demux := fun r =>
  mk_dvb_demux (filters r) (feeds r) (users r) (frontend_list r) (dx_frontend r) (pesfilter r)
    (dx_pids r) (playing r) (recording r) (feed_list r) (tsbuf r) (tsbufp r) (mutex_held r)
    (signal r).
Definition set_filters := setter! filters.
Definition set_feeds := setter! feeds.
Definition set_users := setter! users.
Definition set_frontend_list := setter! frontend_list.
Definition set_dx_frontend := setter! dx_frontend.
Definition set_pesfilter := setter! pesfilter.
Definition set_dx_pids := setter! dx_pids.
Definition set_playing := setter! playing.
Definition set_recording := setter! recording.
Definition set_feed_list := setter! feed_list.
Definition set_tsbuf := setter! tsbuf.
Definition set_tsbufp := setter! tsbufp.
Definition set_mutex_held := setter! mutex_held.
Definition set_signal := setter! signal.


(** ** Headers of packets and sections *)

Definition section_length (buf : list Z) : Z :=
  u16 (3 + Z.shiftl (Z.land (at_ buf 1) 0x0f) 8 + at_ buf 2).

Definition ts_pid (buf : list Z) : Z :=
  u16 (Z.shiftl (Z.land (at_ buf 1) 0x1f) 8 + at_ buf 2).

(** Length of the payload of a packet, 0 when it has none. *)
Definition payload (tsp : list Z) : Z :=
  if Z.land (at_ tsp 3) 0x10 =? 0 then 0
  else if negb (Z.land (at_ tsp 3) 0x20 =? 0) then
    if at_ tsp 4 >? 183 then 0 else 184 - 1 - at_ tsp 4
  else 184.

(** ** The hooks [demux->check_crc32] and [demux->memcopy]

    [hook_memcopy f off s] copies the bytes [s] to [secbuf + off]. *)

Class CrcHooks := {
  hook_crc32 : dvb_demux_feed -> list Z -> Z * dvb_demux_feed;
  hook_memcopy : dvb_demux_feed -> Z -> list Z -> res dvb_demux_feed;
}.

Definition dvb_dmx_crc32 (f : dvb_demux_feed) (src : list Z) : Z * dvb_demux_feed :=
  let c := crc32_be (crc_val f) src in (c, set_crc_val c f).

Definition dvb_dmx_memcopy (f : dvb_demux_feed) (d : Z) (s : list Z) : res dvb_demux_feed :=
  let? b := memcpy_to (secbuf f) d s in Ok (set_secbuf b f).

(** What [dvb_dmx_init] installs when the driver brings no hooks. *)
Definition dvb_dmx_hooks : CrcHooks :=
  {| hook_crc32 := dvb_dmx_crc32; hook_memcopy := dvb_dmx_memcopy |}.

(** What the core relies on.  [crc_tracks f data]: since [crc_val] was last set
    to all ones, the copies into [f]'s buffer were exactly [data]. *)
Class CrcHooksLaws {H : CrcHooks} := {
  crc_tracks : dvb_demux_feed -> list Z -> Prop;
  crc_tracks_reset f : crc_tracks (set_crc_val crc_init f) [];
  crc_tracks_copy f d off s f' :
    crc_tracks f d -> hook_memcopy f off s = Ok f' -> crc_tracks f' (d ++ s);
  crc_tracks_check f d : crc_tracks f d -> (hook_crc32 f d).1 = crc32_be crc_init d;
  crc_tracks_ext f g d :
    fd_type f = fd_type g -> check_crc f = check_crc g -> crc_val f = crc_val g ->
    crc_tracks f d -> crc_tracks g d;
  hook_crc32_frame f d : exists c, (hook_crc32 f d).2 = set_crc_val c f;
  hook_memcopy_ok f off s b :
    memcpy_to (secbuf f) off s = Ok b ->
    exists c, hook_memcopy f off s = Ok (set_secbuf b (set_crc_val c f));
  hook_memcopy_fault f off s :
    memcpy_to (secbuf f) off s = Fault -> hook_memcopy f off s = Fault;
}.

(** ** Clients and driver

    The state [W] of everything the core calls: the demux device, the network
    interface, the hardware. *)

Class DemuxClient (W : Type) := {
  (** [feed->cb.ts (buffer, length, 0, 0, &feed->feed.ts, DMX_OK)]: callback,
      private pointer of the feed, bytes. *)
  cb_ts : Z -> Z -> list Z -> W -> res (Z * W);
  (** [feed->cb.sec (...)]: callback, private pointer of the filter, bytes. *)
  cb_sec : Z -> Z -> list Z -> W -> res (Z * W);
}.

(** A client whose callbacks return, and without an error; the section
    callbacks of the demux device and of the network interface return 0. *)
Class DemuxClientLaws (W : Type) {C : DemuxClient W} := {
  cb_sec_ok cb p s w : exists r w', cb_sec cb p s w = Ok (r, w') /\ 0 <= r;
}.

(** A client that relies on a state of its own and on private pointers it knows:
    its callbacks return from such a state, for such a pointer, and keep it. *)
Class DemuxClientSpec (W : Type) {C : DemuxClient W} := {
  cl_known : Z -> Z -> Prop;
  cl_inv : W -> Prop;
  cb_sec_known cb p s w :
    cl_known cb p -> cl_inv w -> exists r w', cb_sec cb p s w = Ok (r, w') /\ 0 <= r /\ cl_inv w';
}.

#[export] Instance laws_spec {W} {C : DemuxClient W} {L : DemuxClientLaws W} : DemuxClientSpec W.
Proof.
  refine {| cl_known _ _ := True; cl_inv _ := True |}.
  intros cb p s w _ _. destruct (cb_sec_ok cb p s w) as (r & w' & ? & ?). by exists r, w'.
Defined.

Class DemuxDriver (W : Type) := {
  drv_start_feed : option (nat -> dvb_demux_feed -> W -> res (Z * W));
  drv_stop_feed : option (nat -> dvb_demux_feed -> W -> res (Z * W));
  drv_write_to_decoder : option (nat -> dvb_demux_feed -> list Z -> W -> res (Z * W));
}.

(** A driver that sees only the second part of the world. *)
Definition lift_drv {A HW} (c : nat -> dvb_demux_feed -> HW -> res (Z * HW))
    (i : nat) (f : dvb_demux_feed) (w : A * HW) : res (Z * (A * HW)) :=
  let? r := c i f w.2 in Ok (r.1, (w.1, r.2)).

#[export] Instance lift_driver {A HW} {D : DemuxDriver HW} : DemuxDriver (A * HW) := {
  drv_start_feed := option_map lift_drv drv_start_feed;
  drv_stop_feed := option_map lift_drv drv_stop_feed;
  drv_write_to_decoder := option_map
    (fun c i f s w => let? r := c i f s w.2 in Ok (r.1, (w.1, r.2))) drv_write_to_decoder;
}.

(** ** The default hooks keep the laws *)

Lemma memcpy_to_cases dst off src :
  memcpy_to dst off src = Fault \/ exists b, memcpy_to dst off src = Ok b.
Proof. unfold memcpy_to. case_if; eauto. Qed.

#[export] Instance dvb_dmx_hooks_laws : @CrcHooksLaws dvb_dmx_hooks.
Proof.
  refine {| crc_tracks f d := crc_val f = crc_init |}; simpl.
  - done.
  - intros f d off s f' Ht. unfold dvb_dmx_memcopy. intros H. inv_res H. by simplify_eq.
  - intros f d ->. done.
  - intros f g d _ _ <-. done.
  - intros f d. by eexists.
  - intros f off s b Hb. unfold dvb_dmx_memcopy. rewrite Hb. simpl.
    exists (crc_val f). by destruct f.
  - intros f off s Hb. unfold dvb_dmx_memcopy. by rewrite Hb.
Defined.

(** ** Ranges *)

Lemma land_range a m n : 0 <= n -> m = Z.ones n -> 0 <= Z.land a m < 2 ^ n.
Proof. intros Hn ->. rewrite Z.land_ones by done. apply Z.mod_pos_bound. lia. Qed.

Lemma section_length_eq buf :
  is_byte (at_ buf 2) ->
  section_length buf = 3 + 256 * Z.land (at_ buf 1) 0x0f + at_ buf 2 /\
  3 <= section_length buf <= 4098.
Proof.
  intros Hb. pose proof (land_range (at_ buf 1) 0x0f 4 ltac:(done) eq_refl). unfold is_byte in Hb.
  unfold section_length, u16. rewrite Z.shiftl_mul_pow2 by lia.
  rewrite Z.mod_small by lia. lia.
Qed.

Lemma payload_range tsp : is_byte (at_ tsp 4) -> 0 <= payload tsp <= 184.
Proof. intros Hb. unfold is_byte in Hb. unfold payload. repeat case_if; lia. Qed.

Lemma section_length_app buf k : 3 <= zlen buf -> section_length (buf ++ k) = section_length buf.
Proof. intros H. unfold section_length. by rewrite !at_app_l by lia. Qed.

Lemma section_length_take buf n :
  3 <= n -> section_length (take (Z.to_nat n) buf) = section_length buf.
Proof. intros H. unfold section_length. by rewrite !at_take by lia. Qed.
