(* ===== verification/SwFilter.v ===== *)
(** * The software filter (dvb-core/dvb_demux.c, lines 135 to 398)

    One transport stream packet through one feed: delivery of the payload or
    of the packet to a TS client, reassembly of sections, the section filters
    and the CRC check, and the dispatch of a packet to all feeds on its PID.

    The state of the feed functions is the feed and the world of the clients;
    the filter array is only read. *)

From S2P Require Import Prelude Crc32 DemuxState.

Section SwFilter.
Context {W : Type} {C : DemuxClient W} {D : DemuxDriver W} {H : CrcHooks}.

Definition FW : Type := dvb_demux_feed * W.

Definition fget : M FW dvb_demux_feed := mgets fst.
Definition fmod (g : dvb_demux_feed -> dvb_demux_feed) : M FW unit :=
  mmodify (fun s => (g s.1, s.2)).
Definition fput (f : dvb_demux_feed) : M FW unit := fmod (fun _ => f).
Definition wcall {A} (c : W -> res (A * W)) : M FW A :=
  fun s => let? r := c s.2 in Ok (r.1, (s.1, r.2)).

(** [memcopy (feed, secbuf + off, buf + p, n)] *)
Definition copy_in (off : Z) (buf : list Z) (p n : Z) : M FW unit :=
  let! s := mlift (slice buf p n) in
  let! f := fget in
  let! f := mlift (hook_memcopy f off s) in
  fput f.

Definition dvb_dmx_swfilter_payload (buf : list Z) : M FW Z :=
  let count := payload buf in
  if count =? 0 then mret_ (-1) else
  let p := 188 - count in
  (if negb (Z.land (at_ buf 1) 0x40 =? 0) then fmod (set_peslen 0xfffa) else mret_ tt) ;;;
  fmod (fun f => set_peslen (u16 (peslen f + count)) f) ;;;
  let! s := mlift (slice buf p count) in
  let! f := fget in
  wcall (cb_ts (fd_cb f) (fd_priv f) s).

(** The loop over the 18 filter bytes from byte [i] on: [None] when a byte
    that must match differs, otherwise the bits that differ where at least
    one has to. *)
Fixpoint sectionfilter_loop (n : nat) (i : Z) (buf : list Z) (f : dvb_demux_filter) (neq : Z)
    : option Z :=
  match n with
  | O => Some neq
  | S n =>
      let xor := Z.lxor (at_ (filter_value f) i) (at_ buf i) in
      if negb (Z.land (at_ (maskandmode f) i) xor =? 0) then None
      else sectionfilter_loop n (i + 1) buf f
             (Z.lor neq (Z.land (at_ (maskandnotmode f) i) xor))
  end.

Definition dvb_dmx_swfilter_sectionfilter (f : dvb_demux_filter) : M FW Z :=
  let! feed := fget in
  match sectionfilter_loop DVB_DEMUX_MASK_MAX 0 (secbuf feed) f 0 with
  | None => mret_ 0
  | Some neq =>
      if negb (Z.land (doneq f) (c_bool (neq =? 0)) =? 0) then mret_ 0
      else
        let! s := mlift (slice (secbuf feed) 0 (seclen feed)) in
        wcall (cb_sec (fd_cb feed) (sf_priv f) s)
  end.

Section Chain.
Context (fls : list dvb_demux_filter).       (* demux->filter *)

(** The [do ... while] over the chain of filters that starts with [i]. *)
Fixpoint filter_chain (fuel : nat) (i : nat) : M FW Z :=
  match fuel with
  | O => fun _ => Diverge
  | S fuel =>
      match fls !! i with
      | None => mfault
      | Some f =>
          let! r := dvb_dmx_swfilter_sectionfilter f in
          if r <? 0 then mret_ (-1) else
          match fl_next f with
          | None => mret_ 0
          | Some j =>
              let! feed := fget in
              if is_filtering feed then filter_chain fuel j else mret_ 0
          end
      end
  end.

Definition dvb_dmx_swfilter_section_feed : M FW Z :=
  let! sec := fget in
  if negb (secbufp sec =? seclen sec) then mret_ (-1) else
  if negb (is_filtering sec) then mret_ 0 else
  match fd_filter sec with
  | None => mret_ 0
  | Some i =>
      let! bad :=
        if check_crc sec then
          let section_syntax_indicator := negb (Z.land (at_ (secbuf sec) 1) 0x80 =? 0) in
          if section_syntax_indicator then
            let! s := mlift (slice (secbuf sec) 0 (seclen sec)) in
            let r := hook_crc32 sec s in
            fput r.2 ;;;
            mret_ (negb (r.1 =? 0))
          else mret_ false
        else mret_ false in
      if bad : bool then mret_ (-1) else
      let! r := filter_chain (S (length fls)) i in
      if r <? 0 then mret_ (-1) else
      fmod (fun f => set_secbufp 0 (set_seclen 0 f)) ;;;
      let! f := fget in
      let! b := mlift (memcpy_to (secbuf f) 0 (replicate DVB_DEMUX_MASK_MAX 0)) in
      fmod (set_secbuf b) ;;;
      mret_ 0
  end.

(** Lines 249 to 263: complete the header of a section that began in the
    last packet.  [false] is the [return -1]. *)
Definition section_header_rest (buf : list Z) (p : Z) : M FW bool :=
  let! sec := fget in
  let tmp := 3 - secbufp sec in
  if (tmp >? 0) && negb (tmp =? 3) then
    if p + tmp >=? 187 then mret_ false else
    copy_in (secbufp sec) buf (p + 1) tmp ;;;
    fmod (fun f => set_seclen (section_length (secbuf f)) f) ;;;
    let! sec := fget in
    mret_ (negb (seclen sec >? 4096))
  else mret_ true.

(** Lines 247 to 271: the rest of the previous section, before the first
    one that starts in this packet. *)
Definition section_rest (buf : list Z) (p : Z) (ccok : bool) : M FW bool :=
  if negb (at_ buf p =? 0) && ccok then
    let! ok := section_header_rest buf p in
    if negb ok then mret_ false else
    let! sec := fget in
    let rest := seclen sec - secbufp sec in
    if (rest =? at_ buf p) && negb (seclen sec =? 0) then
      copy_in (secbufp sec) buf (p + 1) (at_ buf p) ;;;
      fmod (fun f => set_secbufp (secbufp f + at_ buf p) f) ;;;
      dvb_dmx_swfilter_section_feed ;;;
      mret_ true
    else mret_ true
  else mret_ true.

(** Lines 276 to 308: the sections that start in this packet. *)
Fixpoint section_loop (fuel : nat) (buf : list Z) (p count : Z) : M FW Z :=
  if count <=? 0 then mret_ 0 else
  match fuel with
  | O => fun _ => Diverge
  | S fuel =>
      fmod (set_crc_val crc_init) ;;;
      let! complete :=
        if count >? 2 then
          let l := section_length (drop (Z.to_nat p) buf) in
          fmod (set_seclen l) ;;; mret_ (l <=? count)
        else mret_ false in
      if complete : bool then
        let! sec := fget in
        let l := seclen sec in
        if l >? 4096 then mret_ (-1) else
        copy_in 0 buf p l ;;;
        fmod (set_secbufp l) ;;;
        let p := p + l in
        let count := 188 - p in
        dvb_dmx_swfilter_section_feed ;;;
        let count := if negb (count =? 0) && (at_ buf p =? 0xff) then 0 else count in
        section_loop fuel buf p count
      else if count <=? 2 then mret_ (-1)
      else
        copy_in 0 buf p count ;;;
        fmod (fun f => set_secbufp (secbufp f + count) f) ;;;
        section_loop fuel buf p 0
  end.

(** Lines 313 to 351: a packet in which no section starts. *)
Definition section_continue (buf : list Z) (p count : Z) (ccok : bool) : M FW Z :=
  if negb ccok then mret_ (-1) else
  let! sec := fget in
  if secbufp sec =? 0 then mret_ (-1) else
  let! ok :=
    if secbufp sec <? 3 then
      let tmp := 3 - secbufp sec in
      if tmp >? count then mret_ false else
      fmod (set_crc_val crc_init) ;;;
      copy_in (secbufp sec) buf p tmp ;;;
      fmod (fun f => set_seclen (section_length (secbuf f)) f) ;;;
      let! sec := fget in
      mret_ (negb (seclen sec >? 4096))
    else mret_ true in
  if negb ok then mret_ (-1) else
  let! sec := fget in
  let rest := seclen sec - secbufp sec in
  if rest <? 0 then mret_ (-1) else
  if rest <=? count then
    copy_in (secbufp sec) buf p rest ;;;
    fmod (fun f => set_secbufp (secbufp f + rest) f) ;;;
    dvb_dmx_swfilter_section_feed ;;;
    mret_ 0
  else
    copy_in (secbufp sec) buf p count ;;;
    fmod (fun f => set_secbufp (secbufp f + count) f) ;;;
    mret_ 0.

Definition dvb_dmx_swfilter_section_packet (buf : list Z) : M FW Z :=
  let count := payload buf in
  if count =? 0 then mret_ (-1) else
  let p := 188 - count in
  let cc := Z.land (at_ buf 3) 0x0f in
  let! f := fget in
  let ccok := Z.land (fd_cc f + 1) 0x0f =? cc in
  fmod (set_fd_cc cc) ;;;
  if negb (Z.land (at_ buf 1) 0x40 =? 0) then
    if p + at_ buf p >? 187 then mret_ (-1) else
    let! ok := section_rest buf p ccok in
    if negb ok then mret_ (-1) else
    let p := p + at_ buf p + 1 in
    section_loop 184 buf p (188 - p)
  else section_continue buf p count ccok.

(** [idx]: the index of the feed. *)
Definition dvb_dmx_swfilter_packet_type (idx : nat) (buf : list Z) : M FW unit :=
  let! f := fget in
  if fd_type f =? DMX_TYPE_TS then
    if negb (is_filtering f) then mret_ tt else
    (if negb (Z.land (ts_type f) TS_PACKET =? 0) then
       if negb (Z.land (ts_type f) TS_PAYLOAD_ONLY =? 0) then
         dvb_dmx_swfilter_payload buf ;;; mret_ tt
       else
         let! s := mlift (slice buf 0 188) in
         wcall (cb_ts (fd_cb f) (fd_priv f) s) ;;; mret_ tt
     else mret_ tt) ;;;
    if negb (Z.land (ts_type f) TS_DECODER =? 0) then
      match drv_write_to_decoder with
      | Some write =>
          let! f := fget in
          let! s := mlift (slice buf 0 188) in
          wcall (write idx f s) ;;; mret_ tt
      | None => mret_ tt
      end
    else mret_ tt
  else if fd_type f =? DMX_TYPE_SEC then
    if negb (is_filtering f) then mret_ tt else
    let! r := dvb_dmx_swfilter_section_packet buf in
    if r <? 0 then fmod (fun f => set_seclen 0 (set_secbufp 0 f)) else mret_ tt
  else mret_ tt.

(** The packet through the feeds of a list: the feeds on its PID, and those
    that take the whole stream (PID 0x2000). *)
Fixpoint packet_feeds (l : list nat) (pid : Z) (buf : list Z) : M (list dvb_demux_feed * W) unit :=
  match l with
  | [] => mret_ tt
  | i :: l => fun s =>
      match s.1 !! i with
      | None => Fault
      | Some f =>
          let? r := if fd_pid f =? pid
                    then dvb_dmx_swfilter_packet_type i buf (f, s.2)
                    else Ok (tt, (f, s.2)) in
          let f := r.2.1 in
          let? q := if fd_pid f =? 0x2000
                    then let? s188 := slice buf 0 188 in
                         cb_ts (fd_cb f) (fd_priv f) s188 r.2.2
                    else Ok (0, r.2.2) in
          packet_feeds l pid buf (<[i := f]> s.1, q.2)
      end
  end.
End Chain.
End SwFilter.

(** ** Running the feed functions *)

Section Run.
Context {W : Type} {H : CrcHooks}.

Lemma fget_bind {B} (k : dvb_demux_feed -> M (FW (W:=W)) B) s : mbind_ fget k s = k s.1 s.
Proof using. done. Qed.
Lemma fmod_bind {B} g (k : unit -> M (FW (W:=W)) B) s :
  mbind_ (fmod g) k s = k tt (g s.1, s.2).
Proof using. done. Qed.

Lemma copy_in_run off buf p n s b f (w : W) :
  slice buf p n = Ok s -> hook_memcopy f off s = Ok b ->
  copy_in off buf p n (f, w) = Ok (tt, (b, w)).
Proof using.
  intros Hs Hb. unfold copy_in. rewrite Hs. unfold mlift, mbind_. simpl. by rewrite Hb.
Qed.
End Run.

#[export] Hint Rewrite @fget_bind @fmod_bind : monad.
