(* ===== verification/SectionFilter.v ===== *)
(** * What the section filters select (dvb-core/dvb_demux.c, 164 to 221)

    The specification of a section filter, that the byte loop computes it, and
    the effect of [dvb_dmx_swfilter_section_feed] on a complete section: every
    filter of the chain that selects it receives it once, in chain order. *)

From S2P Require Import Prelude Crc32 DemuxState SwFilter.

(** ** One filter *)

(** The bits of byte [i] on which section and filter value differ. *)
Definition sec_diff (f : dvb_demux_filter) (buf : list Z) (i : nat) : Z :=
  Z.lxor (at_ (filter_value f) (Z.of_nat i)) (at_ buf (Z.of_nat i)).

(** The bits that must be equal are equal, and where there are bits of which
    at least one must differ ([doneq]), one does. *)
Definition sec_match (f : dvb_demux_filter) (buf : list Z) : bool :=
  forallb (fun i => Z.land (at_ (maskandmode f) (Z.of_nat i)) (sec_diff f buf i) =? 0)
    (seq 0 DVB_DEMUX_MASK_MAX) &&
  ((doneq f =? 0) ||
   existsb (fun i => negb (Z.land (at_ (maskandnotmode f) (Z.of_nat i)) (sec_diff f buf i) =? 0))
     (seq 0 DVB_DEMUX_MASK_MAX)).

Definition doneq_ok (f : dvb_demux_filter) : Prop := doneq f = 0 \/ doneq f = 1.

Lemma lor_zero a b : (Z.lor a b =? 0) = (a =? 0) && (b =? 0).
Proof.
  destruct (Z.eqb_spec (Z.lor a b) 0) as [E|E].
  - apply Z.lor_eq_0_iff in E as [-> ->]. done.
  - symmetry. apply andb_false_iff. destruct (Z.eqb_spec a 0) as [->|]; [right|by left].
    rewrite Z.lor_0_l in E. lia.
Qed.

Lemma sectionfilter_loop_spec n i buf f neq :
  sectionfilter_loop n (Z.of_nat i) buf f neq =
    if forallb (fun i => Z.land (at_ (maskandmode f) (Z.of_nat i)) (sec_diff f buf i) =? 0) (seq i n)
    then Some (fold_left (fun a i => Z.lor a
                 (Z.land (at_ (maskandnotmode f) (Z.of_nat i)) (sec_diff f buf i))) (seq i n) neq)
    else None.
Proof.
  revert i neq. induction n as [|n IH]; intros i neq; simpl; [done|].
  fold (sec_diff f buf i). destruct (Z.land _ _ =? 0); simpl; [|done].
  replace (Z.of_nat i + 1) with (Z.of_nat (S i)) by lia. apply IH.
Qed.

Lemma fold_lor_zero {A} (g : A -> Z) l a :
  (fold_left (fun a i => Z.lor a (g i)) l a =? 0) =
  (a =? 0) && negb (existsb (fun i => negb (g i =? 0)) l).
Proof.
  revert a. induction l as [|x l IH]; intros a; simpl; [by rewrite andb_true_r|].
  rewrite IH, lor_zero, negb_orb, negb_involutive. by rewrite andb_assoc.
Qed.

(** The filter depends on the first 18 bytes of the buffer only. *)
Lemma sec_match_ext f b b' :
  (forall i, 0 <= i < 18 -> at_ b i = at_ b' i) -> sec_match f b = sec_match f b'.
Proof.
  intros Hb. unfold sec_match.
  assert (forall g, forallb (fun i => g i (sec_diff f b i)) (seq 0 DVB_DEMUX_MASK_MAX) =
                    forallb (fun i => g i (sec_diff f b' i)) (seq 0 DVB_DEMUX_MASK_MAX)) as Hall.
  { intros g. unfold sec_diff. simpl. rewrite !Hb by lia. done. }
  assert (forall g, existsb (fun i => g i (sec_diff f b i)) (seq 0 DVB_DEMUX_MASK_MAX) =
                    existsb (fun i => g i (sec_diff f b' i)) (seq 0 DVB_DEMUX_MASK_MAX)) as Hex.
  { intros g. unfold sec_diff. simpl. rewrite !Hb by lia. done. }
  rewrite (Hall (fun i d => Z.land (at_ (maskandmode f) (Z.of_nat i)) d =? 0)).
  by rewrite (Hex (fun i d => negb (Z.land (at_ (maskandnotmode f) (Z.of_nat i)) d =? 0))).
Qed.

(** ** Chains of filters *)

Fixpoint is_chain (fls : list dvb_demux_filter) (o : option nat) (l : list nat) : Prop :=
  match l with
  | [] => o = None
  | i :: l => o = Some i /\ exists f, fls !! i = Some f /\ is_chain fls (fl_next f) l
  end.

(** The filters themselves. *)
Fixpoint chain_filters (fls : list dvb_demux_filter) (l : list nat) : list dvb_demux_filter :=
  match l with
  | [] => []
  | i :: l => match fls !! i with Some f => f :: chain_filters fls l | None => [] end
  end.

Lemma is_chain_unique fls o l l' : is_chain fls o l -> is_chain fls o l' -> l = l'.
Proof.
  revert o l'. induction l as [|i l IH]; intros o [|j l']; simpl; intros H H'.
  - done.
  - destruct H' as [-> _]. done.
  - destruct H as [-> _]. done.
  - destruct H as (-> & f & Hf & Hl), H' as (Hj & f' & Hf' & Hl'). simplify_eq.
    f_equal. eauto.
Qed.

Lemma is_chain_app fls o l i k :
  is_chain fls o (l ++ i :: k) -> is_chain fls (Some i) (i :: k).
Proof.
  revert o. induction l as [|j l IH]; intros o; simpl.
  - intros (_ & H). done.
  - intros (_ & f & _ & H). apply (IH _ H).
Qed.

Lemma is_chain_NoDup fls o l : is_chain fls o l -> NoDup l.
Proof.
  revert o. induction l as [|i l IH]; intros o H; [constructor|].
  constructor; [|simpl in H; destruct H as (_ & f & _ & H); eauto].
  intros (l1 & l2 & ->)%list_elem_of_split.
  pose proof (is_chain_app fls o [] i _ H) as H1.
  pose proof (is_chain_app fls o (i :: l1) i l2 H) as H2.
  pose proof (is_chain_unique _ _ _ _ H1 H2) as E%(f_equal length).
  simpl in E. rewrite length_app in E. simpl in E. lia.
Qed.

Lemma is_chain_lt fls o l i : is_chain fls o l -> i ∈ l -> (i < length fls)%nat.
Proof.
  revert o. induction l as [|j l IH]; intros o H Hi; simpl in H; [by apply not_elem_of_nil in Hi|].
  destruct H as (_ & f & Hf & H). apply elem_of_cons in Hi as [->|Hi]; [|eauto].
  by eapply lookup_lt_Some.
Qed.

(** The chain is no longer than the array: the fuel of the walk is enough. *)
Lemma is_chain_length fls o l : is_chain fls o l -> (length l <= length fls)%nat.
Proof.
  intros H. transitivity (length (seq 0 (length fls))); [|by rewrite length_seq].
  apply submseteq_length, NoDup_submseteq; [by eapply is_chain_NoDup|].
  intros i Hi. apply elem_of_seq. pose proof (is_chain_lt _ _ _ _ H Hi). lia.
Qed.

Lemma is_chain_nonempty fls i l : is_chain fls (Some i) l -> exists l', l = i :: l'.
Proof. destruct l; simpl; [done|]. intros [E _]. simplify_eq. eauto. Qed.

(** ** Delivery of a section *)

Section Delivery.
Context {W : Type} {C : DemuxClient W}.

(** The section [s], with [buf] the buffer it is matched in, to those of the
    filters that select it. *)
Fixpoint deliver (cb : Z) (fs : list dvb_demux_filter) (buf s : list Z) (w : W) : res W :=
  match fs with
  | [] => Ok w
  | f :: fs =>
      if sec_match f buf
      then let? r := cb_sec cb (sf_priv f) s w in deliver cb fs buf s r.2
      else deliver cb fs buf s w
  end.

Lemma deliver_total {L : DemuxClientLaws W} cb fs buf s w : exists w', deliver cb fs buf s w = Ok w'.
Proof using.
  revert w. induction fs as [|f fs IH]; intros w; simpl; [eauto|].
  case_if; [|eauto]. destruct (cb_sec_ok cb (sf_priv f) s w) as (r & w1 & -> & _). simpl. eauto.
Qed.

Lemma deliver_ext cb fs b b' s w :
  (forall i, 0 <= i < 18 -> at_ b i = at_ b' i) -> deliver cb fs b s w = deliver cb fs b' s w.
Proof using.
  intros Hb. revert w. induction fs as [|f fs IH]; intros w; simpl; [done|].
  rewrite (sec_match_ext f b b') by done. case_if; [|done].
  destruct (cb_sec _ _ _ _) as [[r w']| | |]; simpl; auto.
Qed.

Context {L : DemuxClientSpec W}.

(** The client knows the filters. *)
Definition knows (cb : Z) (fs : list dvb_demux_filter) : Prop :=
  Forall (fun f => cl_known cb (sf_priv f)) fs.

Lemma deliver_inv cb fs buf s : forall w w',
  knows cb fs -> cl_inv w -> deliver cb fs buf s w = Ok w' -> cl_inv w'.
Proof using.
  induction fs as [|f fs IH]; intros w w' Hk Hi H; simpl in H; [by simplify_eq|].
  apply Forall_cons_1 in Hk as [Hkf Hk]. case_if_in H; [|eauto].
  destruct (cb_sec_known cb (sf_priv f) s w Hkf Hi) as (r & w1 & Hr & _ & Hi1).
  rewrite Hr in H. simpl in H. eauto.
Qed.

Lemma swfilter_sectionfilter_spec f feed s w :
  doneq_ok f -> slice (secbuf feed) 0 (seclen feed) = Ok s ->
  cl_known (fd_cb feed) (sf_priv f) -> cl_inv w ->
  exists r w', dvb_dmx_swfilter_sectionfilter f (feed, w) = Ok (r, (feed, w')) /\ 0 <= r /\
    deliver (fd_cb feed) [f] (secbuf feed) s w = Ok w'.
Proof using L.
  intros Hq Hs Hk Hi. unfold dvb_dmx_swfilter_sectionfilter, fget, mgets, mbind_. cbn [res_bind fst snd].
  change 0 with (Z.of_nat 0) at 1. rewrite sectionfilter_loop_spec.
  simpl deliver. unfold sec_match.
  destruct (forallb _ _); cbn [andb]; [|exists 0, w; done].
  rewrite fold_lor_zero. simpl (0 =? 0). cbn [andb].
  set (E := existsb _ _).
  destruct (cb_sec_known (fd_cb feed) (sf_priv f) s w Hk Hi) as (r & w1 & Hcb & Hr & _).
  destruct Hq as [Hq|Hq]; rewrite Hq; destruct E; simpl;
    rewrite ?Hs; unfold mlift, wcall; simpl; rewrite ?Hcb; simpl; eexists _, _;
    (split_and!; [reflexivity|lia|reflexivity]).
Qed.

Context (fls : list dvb_demux_filter).

Lemma filter_chain_spec l i feed fuel s w :
  is_chain fls (Some i) l -> (length l <= fuel)%nat -> Forall doneq_ok (chain_filters fls l) ->
  is_filtering feed = true -> slice (secbuf feed) 0 (seclen feed) = Ok s ->
  knows (fd_cb feed) (chain_filters fls l) -> cl_inv w ->
  exists r w', filter_chain fls fuel i (feed, w) = Ok (r, (feed, w')) /\ 0 <= r /\
    deliver (fd_cb feed) (chain_filters fls l) (secbuf feed) s w = Ok w'.
Proof using L.
  revert i fuel w. induction l as [|j l IH]; intros i fuel w Hch Hfuel Hq Hfi Hs Hk Hi; [done|].
  destruct Hch as (Hj & f & Hf & Hch). simplify_eq. simpl chain_filters in *. rewrite Hf in *.
  apply Forall_cons_1 in Hq as [Hqf Hq]. pose proof Hk as [Hkf Hk']%Forall_cons_1.
  destruct fuel as [|fuel]; [simpl in Hfuel; lia|]. simpl filter_chain. rewrite Hf.
  destruct (swfilter_sectionfilter_spec f feed s w Hqf Hs Hkf Hi) as (r & w1 & Hrun & Hr & Hd).
  assert (cl_inv w1) as Hi1 by (eapply deliver_inv, Hd; [by constructor|done]).
  unfold mbind_ at 1. rewrite Hrun. cbn [res_bind fst snd]. rif.
  assert (forall w0, deliver (fd_cb feed) (f :: chain_filters fls l) (secbuf feed) s w0 =
    let? w1 := deliver (fd_cb feed) [f] (secbuf feed) s w0 in
    deliver (fd_cb feed) (chain_filters fls l) (secbuf feed) s w1) as Hcons.
  { intros w0. simpl. case_if; [|done]. by destruct (cb_sec _ _ _ _) as [[] | | |]. }
  rewrite Hcons, Hd. cbn [res_bind].
  destruct (fl_next f) as [j2|] eqn:En.
  - unfold mbind_, fget, mgets. cbn [res_bind fst snd]. rewrite Hfi.
    apply IH; [done|simpl in Hfuel; lia|done..].
  - destruct l; [|by destruct Hch]. simpl. eexists _, _. split_and!; [reflexivity|lia|done].
Qed.

Context {H : CrcHooks} {HL : CrcHooksLaws}.

Definition zeros18 : list Z := replicate DVB_DEMUX_MASK_MAX 0.

Definition crc_good (f : dvb_demux_feed) (s : list Z) : Prop :=
  check_crc f = true -> Z.land (at_ s 1) 0x80 <> 0 -> crc32_be crc_init s = 0.

(** A complete section in the buffer is delivered, and the buffer is ready for
    the next one. *)
Lemma section_feed_spec l f s w :
  is_chain fls (fd_filter f) l -> l <> [] -> Forall doneq_ok (chain_filters fls l) ->
  is_filtering f = true -> 18 <= zlen (secbuf f) -> 3 <= seclen f -> secbufp f = seclen f ->
  slice (secbuf f) 0 (seclen f) = Ok s -> crc_tracks f s -> crc_good f s ->
  knows (fd_cb f) (chain_filters fls l) -> cl_inv w ->
  exists c b w', memcpy_to (secbuf f) 0 zeros18 = Ok b /\
    dvb_dmx_swfilter_section_feed fls (f, w) =
      Ok (0, (set_secbuf b (set_secbufp 0 (set_seclen 0 (set_crc_val c f))), w')) /\
    deliver (fd_cb f) (chain_filters fls l) (secbuf f) s w = Ok w'.
Proof using L HL.
  intros Hch Hl Hq Hfi Hlen Hsl Hp Hs Ht Hgood Hk Hi.
  unfold dvb_dmx_swfilter_section_feed, fget, mgets.
  unfold mbind_ at 1. cbn [res_bind fst snd]. rewrite Hp, Z.eqb_refl, Hfi. cbn [negb].
  destruct (fd_filter f) as [i|] eqn:Ei; [|destruct l; [done|by destruct Hch]].
  assert (at_ (secbuf f) 1 = at_ s 1) as H1 by (symmetry; exact (slice_at _ 0 _ _ 1 Hs ltac:(lia))).
  set (crc_step := if check_crc f then _ else _).
  assert (exists c, crc_step (f, w) = Ok (false, (set_crc_val c f, w))) as (c & Hc).
  { subst crc_step. destruct (check_crc f) eqn:Ecc; [|exists (crc_val f); by destruct f].
    rewrite H1. destruct (Z.eqb_spec (Z.land (at_ s 1) 128) 0); cbn [negb];
      [exists (crc_val f); by destruct f|].
    rewrite Hs. unfold mlift, mbind_, fput, fmod, mmodify, mret_. cbn [res_bind fst snd].
    rewrite (crc_tracks_check f s Ht), Hgood by done. cbn [Z.eqb negb].
    destruct (hook_crc32_frame f s) as [c ->]. by exists c. }
  unfold mbind_ at 1. rewrite Hc. cbn [res_bind fst snd].
  destruct (filter_chain_spec l i (set_crc_val c f) (S (length fls)) s w) as (r & w' & Hrun & Hr & Hd);
    [done|pose proof (is_chain_length _ _ _ Hch); lia|done..|].
  unfold mbind_ at 1. rewrite Hrun. cbn [res_bind fst snd]. rif.
  destruct (memcpy_to_some (secbuf f) 0 zeros18) as [b Hb];
    [lia|unfold zeros18; rewrite zlen_replicate; change (Z.of_nat DVB_DEMUX_MASK_MAX) with 18; lia|].
  exists c, b, w'. split; [done|]. split; [|done].
  unfold mbind_, fmod, mmodify, mlift, mret_. cbn [res_bind fst snd].
  change (secbuf (set_secbufp 0 (set_seclen 0 (set_crc_val c f)))) with (secbuf f).
  unfold zeros18 in Hb. rewrite Hb. done.
Qed.
End Delivery.
