(* ===== verification/Sample.v ===== *)
(** * Concrete inputs for the demultiplexer's examples

    A client that records what it is given, a driver that accepts everything,
    and feeds and filters over them. *)

From S2P Require Import Prelude Crc32 DemuxState SwFilter SectionFilter.

(** The log of a client: private pointer and bytes, latest last. *)
Definition log := list (Z * list Z).

#[export] Instance log_client : DemuxClient log := {
  cb_ts _ priv s w := Ok (0, w ++ [(priv, s)]);
  cb_sec _ priv s w := Ok (0, w ++ [(priv, s)]);
}.

#[export] Instance log_client_laws : DemuxClientLaws log.
Proof. split. intros cb p s w. by eexists 0, _. Defined.

#[export] Instance log_driver : DemuxDriver log := {
  drv_start_feed := Some (fun _ _ w => Ok (0, w));
  drv_stop_feed := Some (fun _ _ w => Ok (0, w));
  drv_write_to_decoder := None;
}.

#[export] Existing Instance dvb_dmx_hooks.

Definition z18 : list Z := replicate 18 0.

(** A filter on the table id [t] alone. *)
Definition table_filter (t priv : Z) (next : option nat) : dvb_demux_filter :=
  mk_dvb_demux_filter (t :: replicate 17 0) (0xff :: replicate 17 0) (replicate 18 0xff) priv
    (0xff :: replicate 17 0) z18 0 next (Some 0%nat) 0 DMX_STATE_READY DMX_TYPE_SEC.

Definition sample_filters : list dvb_demux_filter :=
  [table_filter 0x70 1 None; table_filter 0x42 2 (Some 0%nat)].

Definition section_feed_of (pid : Z) (flt : option nat) : dvb_demux_feed :=
  mk_dvb_demux_feed DMX_TYPE_SEC DMX_STATE_GO pid 0 0 true true 0 (replicate 4096 0) 0 0 flt
    0 false 0 0 0 0 0 0xfffa.

Definition sample_feed : dvb_demux_feed := section_feed_of 0x14 (Some 1%nat).

Lemma sample_chain : is_chain sample_filters (Some 1%nat) [1%nat; 0%nat].
Proof. simpl. split; [done|]. eexists. split; [done|]. simpl. split; [done|]. by eexists. Qed.

(** A short section of table 0x70 and a long one of table 0x42. *)
Definition section_70 : list Z := [0x70; 0x70; 5; 1; 2; 3; 4; 5].
Definition section_42 : list Z := [0x42; 0x71; 0x2c - 3] ++ replicate 297 0xab.
Definition sample_sections : list (list Z) := [section_70; section_42; section_70].
