(* ===== verification/Reassembly.v ===== *)
(** * Section reassembly (dvb-core/dvb_demux.c, 224 to 352)

    The specification of a stream of packets that carries sections, from the
    multiplexer's side, and the refinement: [dvb_dmx_swfilter_section_packet]
    delivers exactly the sections of the stream. *)

From S2P Require Import Prelude Crc32 DemuxState SwFilter SectionFilter.

(** ** The abstract multiplex

    Between two packets either no section is under way, or [d] of the section
    [d ++ r] has been sent. *)

Inductive reasm :=
| Idle
| Mid (d r : list Z).

Section Stream.
Context (good : list Z -> Prop).     (* the sections the stream may carry *)

(** From the start of a section to the end of the packet: complete sections,
    then stuffing, the beginning of a section that continues in the next
    packet (its three header bytes at least), or nothing. *)
Inductive begins : list Z -> list (list Z) -> reasm -> Prop :=
| begins_end : begins [] [] Idle
| begins_section s rest outs a :
    good s -> (0 < zlen rest -> at_ rest 0 <> 0xff) -> begins rest outs a ->
    begins (s ++ rest) (s :: outs) a
| begins_stuffing s stuffing :
    good s -> begins (s ++ 0xff :: stuffing) [s] Idle
| begins_fragment d r :
    3 <= zlen d -> 0 < zlen r -> good (d ++ r) -> begins d [] (Mid d r).

(** One packet: PUSI flag, continuity of the counter, payload, the sections
    it completes. *)
Inductive packet_step : reasm -> bool -> bool -> list Z -> list (list Z) -> reasm -> Prop :=
| step_middle d pl r :
    0 < zlen pl -> 0 < zlen r -> packet_step (Mid d (pl ++ r)) false true pl [] (Mid (d ++ pl) r)
| step_last d r stuffing :
    packet_step (Mid d r) false true (r ++ stuffing) [d ++ r] Idle
| step_start ccok skipped body outs a :
    begins body outs a ->
    packet_step Idle true ccok (zlen skipped :: skipped ++ body) outs a
| step_last_start d r body outs a :
    begins body outs a ->
    packet_step (Mid d r) true true (zlen r :: r ++ body) ((d ++ r) :: outs) a.
End Stream.

Definition good_section (f : dvb_demux_feed) (s : list Z) : Prop :=
  bytes s /\ 3 <= zlen s <= 4096 /\ section_length s = zlen s /\ crc_good f s.

(** The first 18 bytes of the buffer are part of every filter's comparison,
    also those behind a section that is shorter: [h] is what stands there. *)
Definition padded (h s : list Z) : list Z := s ++ drop (length s) h.

(** [f'] is [f] up to the reassembly state. *)
Definition same_feed (f f' : dvb_demux_feed) : Prop :=
  exists b p l c k, f' = set_secbuf b (set_secbufp p (set_seclen l (set_crc_val c (set_fd_cc k f)))).

#[export] Instance same_feed_preorder : PreOrder same_feed.
Proof.
  split.
  - intros f. exists (secbuf f), (secbufp f), (seclen f), (crc_val f), (fd_cc f). by destruct f.
  - intros f g h (b & p & l & c & k & ->) (b' & p' & l' & c' & k' & ->).
    by exists b', p', l', c', k'.
Qed.

Section Deliveries.
Context {W : Type} {C : DemuxClient W}.

(** The sections one after the other; each leaves zeros in the first 18 bytes
    of the buffer. *)
Fixpoint deliver_all (cb : Z) (fs : list dvb_demux_filter) (h : list Z) (outs : list (list Z))
    (w : W) : res W :=
  match outs with
  | [] => Ok w
  | s :: outs => let? w := deliver cb fs (padded h s) s w in deliver_all cb fs zeros18 outs w
  end.

Definition head_after (h : list Z) (outs : list (list Z)) : list Z :=
  match outs with [] => h | _ => zeros18 end.

Lemma deliver_all_app cb fs h o1 o2 w :
  deliver_all cb fs h (o1 ++ o2) w =
  let? w := deliver_all cb fs h o1 w in deliver_all cb fs (head_after h o1) o2 w.
Proof using.
  revert h w. induction o1 as [|s o1 IH]; intros h w; simpl; [done|].
  destruct (deliver _ _ _ _ _) as [w1| | |]; simpl; [|done..].
  rewrite IH. by destruct o1.
Qed.

Lemma head_after_app h o1 o2 : head_after h (o1 ++ o2) = head_after (head_after h o1) o2.
Proof using. destruct o1, o2; done. Qed.
End Deliveries.

(** ** The state of the feed between two packets *)

Section Reassembly.
Context {W : Type} {C : DemuxClient W} {L : DemuxClientSpec W}.
Context {H : CrcHooks} {HL : CrcHooksLaws}.
Context (fls : list dvb_demux_filter) (chain : list nat).

(** A section feed that filters, with a chain of prepared filters. *)
Definition feed_ready (f : dvb_demux_feed) : Prop :=
  fd_type f = DMX_TYPE_SEC /\ is_filtering f = true /\ zlen (secbuf f) = 4096 /\
  is_chain fls (fd_filter f) chain /\ chain <> [] /\ Forall doneq_ok (chain_filters fls chain) /\
  knows (fd_cb f) (chain_filters fls chain).

Definition holds (h d : list Z) (f : dvb_demux_feed) : Prop :=
  take (length d) (secbuf f) = d /\
  forall i, 0 <= i < 18 -> at_ (secbuf f) i = at_ (padded h d) i.

Definition rep (a : reasm) (h : list Z) (f : dvb_demux_feed) : Prop :=
  feed_ready f /\ length h = 18%nat /\
  match a with
  | Idle => secbufp f = 0 /\ seclen f = 0 /\ holds h [] f
  | Mid d r =>
      3 <= zlen d /\ 0 < zlen r /\ good_section f (d ++ r) /\
      secbufp f = zlen d /\ seclen f = zlen d + zlen r /\ holds h d f /\ crc_tracks f d
  end.

Lemma same_feed_ready f f' :
  same_feed f f' -> zlen (secbuf f') = 4096 -> feed_ready f -> feed_ready f'.
Proof using. intros (b & p & l & c & k & ->) Hb (? & ? & _ & ? & ? & ? & ?). split_and!; done. Qed.

Lemma same_feed_good f f' s : same_feed f f' -> good_section f s -> good_section f' s.
Proof using. intros (b & p & l & c & k & ->) Hg. exact Hg. Qed.

Lemma same_feed_cb f f' : same_feed f f' -> fd_cb f' = fd_cb f.
Proof using. intros (b & p & l & c & k & ->). done. Qed.

Lemma deliver_all_inv cb h outs : forall w w',
  knows cb (chain_filters fls chain) -> cl_inv w ->
  deliver_all cb (chain_filters fls chain) h outs w = Ok w' -> cl_inv w'.
Proof using.
  revert h. induction outs as [|s outs IH]; intros h w w' Hk Hi H2; simpl in H2; [by simplify_eq|].
  apply res_bind_Ok in H2 as (w1 & Hd & H2). eapply IH, H2; [done|]. by eapply deliver_inv, Hd.
Qed.

Lemma rep_knows a h f : rep a h f -> knows (fd_cb f) (chain_filters fls chain).
Proof using. by intros ((_ & _ & _ & _ & _ & _ & Hk) & _). Qed.

(** Copying the next bytes of a section behind what is there. *)
Lemma holds_copy h d f s b c :
  length h = 18%nat -> holds h d f -> memcpy_to (secbuf f) (zlen d) s = Ok b ->
  18 <= zlen (secbuf f) -> holds h (d ++ s) (set_secbuf b (set_crc_val c f)).
Proof using.
  intros Hh [Ht Hp] Hb Hlen. split.
  - simpl. apply memcpy_take in Hb. unfold zlen in Hb. rewrite length_app.
    rewrite <- Nat2Z.inj_add, !Nat2Z.id in Hb. by rewrite Hb, Ht.
  - intros i Hi. simpl. rewrite (memcpy_at _ _ _ _ i Hb) by lia.
    rewrite Hp by done. unfold padded.
    pose proof (zlen_nonneg s). pose proof (zlen_nonneg d).
    destruct (Z.leb_spec (zlen d) i); [destruct (Z.ltb_spec i (zlen d + zlen s))|]; cbn [andb].
    + rewrite <- app_assoc, at_app_r by lia. by rewrite at_app_l by lia.
    + rewrite at_app_r by lia. rewrite at_app_r by (rewrite zlen_app; lia).
      rewrite zlen_app, length_app. unfold at_. rewrite !nth_lookup, !lookup_drop.
      do 2 f_equal. unfold zlen in *. lia.
    + rewrite at_app_l by lia. rewrite <- app_assoc, at_app_l by lia. done.
Qed.

(** A complete section in the buffer. *)
Lemma feed_complete h s f (w : W) :
  feed_ready f -> length h = 18%nat -> holds h s f -> good_section f s ->
  secbufp f = zlen s -> seclen f = zlen s -> crc_tracks f s -> cl_inv w ->
  exists f' w', dvb_dmx_swfilter_section_feed fls (f, w) = Ok (0, (f', w')) /\
    same_feed f f' /\ fd_cc f' = fd_cc f /\ rep Idle zeros18 f' /\
    deliver (fd_cb f) (chain_filters fls chain) (padded h s) s w = Ok w'.
Proof using L HL.
  intros Hready Hh [Ht Hp] (Hb & Hl & Hsl & Hg) Hbp Hbl Htr Hinv.
  destruct (Hready) as (_ & Hfi & Hlen & Hch & Hne & Hq & Hk).
  assert (slice (secbuf f) 0 (seclen f) = Ok s) as Hs.
  { rewrite slice_ok by lia. rewrite drop_0. f_equal. rewrite Hbl. unfold zlen.
    by rewrite Nat2Z.id. }
  destruct (section_feed_spec fls chain f s w) as (c & b & w' & Hm & Hrun & Hd);
    try done; [lia|lia|congruence|].
  eexists _, w'. split; [exact Hrun|].
  assert (same_feed f (set_secbuf b (set_secbufp 0 (set_seclen 0 (set_crc_val c f))))) as Hsame
    by (exists b, 0, 0, c, (fd_cc f); by destruct f).
  pose proof (memcpy_to_length _ _ _ _ Hm) as Hbl'.
  split_and!; [done|done| |].
  - split; [|split; [done|]].
    + eapply same_feed_ready; [done| |done]. simpl. unfold zlen in *. by rewrite Hbl'.
    + simpl. split; [done|]. split; [done|]. split; [done|]. intros i Hi. simpl.
      rewrite (memcpy_at _ _ _ _ i Hm) by lia.
      change (zlen zeros18) with 18. rif. by rewrite Z.sub_0_r.
  - rewrite <- Hd. symmetry. by apply deliver_ext.
Qed.

(** The next bytes of a section that is under way, or of a new one. *)
Lemma copy_next h d f buf p n s (w : W) :
  feed_ready f -> length h = 18%nat -> holds h d f -> crc_tracks f d ->
  slice buf p n = Ok s -> zlen d + zlen s <= 4096 ->
  exists f', copy_in (zlen d) buf p n (f, w) = Ok (tt, (f', w)) /\
    same_feed f f' /\ fd_cc f' = fd_cc f /\ secbufp f' = secbufp f /\ seclen f' = seclen f /\
    feed_ready f' /\ holds h (d ++ s) f' /\ crc_tracks f' (d ++ s).
Proof using HL.
  intros Hready Hh Hd Ht Hs Hle. destruct (Hready) as (_ & _ & Hlen & _).
  destruct (memcpy_to_some (secbuf f) (zlen d) s) as [b Hb]; [apply zlen_nonneg|lia|].
  destruct (hook_memcopy_ok f (zlen d) s b Hb) as [c Hc].
  eexists. split; [by eapply copy_in_run|].
  assert (same_feed f (set_secbuf b (set_crc_val c f))) as Hsame
    by (exists b, (secbufp f), (seclen f), c, (fd_cc f); by destruct f).
  split_and!; try done.
  - eapply same_feed_ready; [done| |done]. simpl.
    pose proof (memcpy_to_length _ _ _ _ Hb). unfold zlen in *. lia.
  - eapply holds_copy; done || lia.
  - by eapply crc_tracks_copy.
Qed.

Lemma good_section_frag f d r :
  3 <= zlen d -> good_section f (d ++ r) ->
  section_length d = zlen d + zlen r /\ zlen d + zlen r <= 4096.
Proof using.
  intros Hd (_ & Hl & Hsl & _). rewrite zlen_app in *. rewrite section_length_app in Hsl by done.
  lia.
Qed.

(** The state in which the loop copies a section that starts. *)
Lemma rep_idle_start h f l :
  rep Idle h f ->
  let f1 := set_seclen l (set_crc_val crc_init f) in
  same_feed f f1 /\ feed_ready f1 /\ holds h [] f1 /\ crc_tracks f1 [].
Proof using.
  intros (Hready & Hh & Hp & Hs & Hhold). cbv zeta.
  assert (same_feed f (set_seclen l (set_crc_val crc_init f))) as Hsame
    by (exists (secbuf f), (secbufp f), l, crc_init, (fd_cc f); by destruct f).
  split_and!; [done| |done|].
  - eapply same_feed_ready; [done| |done]. by destruct Hready as (_ & _ & ? & _).
  - eapply (crc_tracks_ext (set_crc_val crc_init f)); [done..|]. apply crc_tracks_reset.
Qed.

(** One turn of the loop: a section that is complete in this packet. *)
Lemma complete_section f0 s rest fuel h f buf p (w : W) :
  good_section f0 s -> zlen buf = 188 -> 0 <= p <= 188 -> drop (Z.to_nat p) buf = s ++ rest ->
  rep Idle h f -> same_feed f0 f -> (length (s ++ rest) <= fuel)%nat -> cl_inv w ->
  exists fuel' f1 w1,
    section_loop fls fuel buf p (188 - p) (f, w) =
      section_loop fls fuel' buf (p + zlen s)
        (if negb (188 - (p + zlen s) =? 0) && (at_ buf (p + zlen s) =? 0xff)
         then 0 else 188 - (p + zlen s)) (f1, w1) /\
    same_feed f f1 /\ fd_cc f1 = fd_cc f /\ rep Idle zeros18 f1 /\
    deliver (fd_cb f) (chain_filters fls chain) (padded h s) s w = Ok w1 /\
    (length rest <= fuel')%nat /\ 0 <= p + zlen s <= 188.
Proof using L HL.
  intros Hg Hbuf Hp Hdrop Hrep Hsame Hfuel Hinv. destruct (Hg) as (Hb & Hl & Hsl & Hcrc).
  pose proof (suffix_zlen _ _ _ Hdrop ltac:(lia)) as Hz. rewrite zlen_app in Hz.
  pose proof (zlen_nonneg rest). rewrite length_app in Hfuel.
  destruct fuel as [|fuel]; [unfold zlen in *; lia|]. simpl section_loop.
  rif. mrun. rewrite Hdrop, section_length_app, Hsl by lia. rif. mrun.
  change (seclen (set_seclen (zlen s) (set_crc_val crc_init f))) with (zlen s). rif.
  destruct (rep_idle_start h f (zlen s) Hrep) as (Hs1 & Hr1 & Hh1 & Ht1).
  destruct Hrep as (_ & Hh & Hp0 & Hs0 & _).
  pose proof (slice_prefix buf p s rest Hdrop ltac:(lia)) as Hslice.
  destruct (copy_next h [] _ buf p (zlen s) s w Hr1 Hh Hh1 Ht1 Hslice) as
    (f2 & Hcopy & Hs2 & Hc2 & Hp2 & Hl2 & Hr2 & Hh2 & Ht2); [simpl; rewrite zlen_nil; lia|].
  rewrite zlen_nil in Hcopy. rewrite (mbind_Ok _ _ _ _ _ Hcopy). mrun.
  set (f3 := set_secbufp (zlen s) f2).
  assert (same_feed f2 f3) as Hs3
    by (exists (secbuf f2), (zlen s), (seclen f2), (crc_val f2), (fd_cc f2); by destruct f2).
  assert (same_feed f f3) as Hsf by (etrans; [exact Hs1|]; by etrans).
  destruct (feed_complete h s f3 w) as (f4 & w' & Hrun & Hs4 & Hc4 & Hr4 & Hd4); try done.
  { eapply (same_feed_good f0); [|done]. by etrans. }
  { eapply (crc_tracks_ext f2); done. }
  rewrite (mbind_Ok _ _ _ _ _ Hrun). exists fuel, f4, w'. split_and!; try done || lia.
  - by etrans.
  - rewrite Hc4. simpl. by rewrite Hc2.
  - rewrite <- Hd4. f_equal. rewrite (same_feed_cb _ _ Hs3), (same_feed_cb _ _ Hs2).
    by rewrite (same_feed_cb _ _ Hs1).
  - unfold zlen in *. lia.
Qed.

(** The sections that start in a packet. *)
Lemma section_loop_spec f0 body outs a :
  begins (good_section f0) body outs a ->
  forall fuel h f buf p (w : W),
  zlen buf = 188 -> 0 <= p <= 188 -> drop (Z.to_nat p) buf = body ->
  rep Idle h f -> same_feed f0 f -> (length body <= fuel)%nat -> cl_inv w ->
  exists f' w', section_loop fls fuel buf p (188 - p) (f, w) = Ok (0, (f', w')) /\
    same_feed f f' /\ fd_cc f' = fd_cc f /\ rep a (head_after h outs) f' /\
    deliver_all (fd_cb f) (chain_filters fls chain) h outs w = Ok w'.
Proof using L HL.
  induction 1 as [|s rest outs a Hg Hff Hb IH|s stuffing Hg|d r Hd Hr Hg];
    intros fuel h f buf p w Hbuf Hp Hdrop Hrep Hsame Hfuel Hinv.
  - apply suffix_zlen in Hdrop; [|lia]. rewrite zlen_nil in Hdrop.
    exists f, w. destruct fuel; simpl section_loop; rif; done.
  - destruct (complete_section f0 s rest fuel h f buf p w) as
      (fuel' & f1 & w1 & Hrun & Hs1 & Hc1 & Hr1 & Hd1 & Hf1 & Hp1); try done.
    rewrite Hrun. pose proof (drop_suffix _ _ _ _ Hdrop ltac:(lia)) as Hdrop1.
    assert (at_ buf (p + zlen s) = 0xff -> 188 - (p + zlen s) = 0) as Hno.
    { intros E. pose proof (suffix_zlen _ _ _ Hdrop1 ltac:(lia)) as Hz.
      destruct (decide (0 < zlen rest)) as [Hpos|]; [|pose proof (zlen_nonneg rest); lia].
      apply Hff in Hpos. rewrite (at_suffix buf (p + zlen s) rest 0) in Hpos by (done || lia).
      rewrite Z.add_0_r in Hpos. done. }
    replace (if negb (188 - (p + zlen s) =? 0) && (at_ buf (p + zlen s) =? 255)
             then 0 else 188 - (p + zlen s)) with (188 - (p + zlen s)).
    2: { destruct (Z.eqb_spec (at_ buf (p + zlen s)) 255); [|by rewrite andb_false_r].
         rewrite Hno by done. done. }
    destruct (IH fuel' zeros18 f1 buf (p + zlen s) w1) as
      (f' & w' & Hrun' & Hs' & Hc' & Hr' & Hd'); try done.
    { by etrans. }
    { eapply deliver_inv, Hd1; [by eapply rep_knows|done]. }
    exists f', w'. split; [exact Hrun'|]. split_and!; [by etrans|congruence| |].
    + by destruct outs.
    + simpl. rewrite Hd1. simpl. by rewrite <- (same_feed_cb _ _ Hs1).
  - destruct (complete_section f0 s (0xff :: stuffing) fuel h f buf p w) as
      (fuel' & f1 & w1 & Hrun & Hs1 & Hc1 & Hr1 & Hd1 & Hf1 & Hp1); try done.
    rewrite Hrun. pose proof (drop_suffix _ _ _ _ Hdrop ltac:(lia)) as Hdrop1.
    pose proof (suffix_zlen _ _ _ Hdrop1 ltac:(lia)) as Hz. rewrite zlen_cons in Hz.
    pose proof (zlen_nonneg stuffing).
    assert (at_ buf (p + zlen s) = 0xff) as ->.
    { rewrite <- (Z.add_0_r (p + zlen s)).
      rewrite <- (at_suffix buf (p + zlen s) (0xff :: stuffing) 0) by (done || lia). done. }
    rif. destruct (188 - (p + zlen s) =? 0) eqn:E0; [lia|]. cbn [negb andb Z.eqb].
    exists f1, w1. split_and!; try done.
    + destruct fuel'; simpl section_loop; done.
    + simpl. by rewrite Hd1.
  - destruct (good_section_frag f0 d r Hd Hg) as [Hsl Hle].
    pose proof (suffix_zlen _ _ _ Hdrop ltac:(lia)) as Hz.
    destruct fuel as [|fuel]; [unfold zlen in *; lia|]. simpl section_loop. rif. mrun.
    rewrite Hdrop, Hsl. mrun. rif. mrun.
    destruct (rep_idle_start h f (zlen d + zlen r) Hrep) as (Hs1 & Hr1 & Hh1 & Ht1).
    destruct Hrep as (_ & Hh & Hp0 & Hs0 & _).
    assert (slice buf p (zlen d) = Ok d) as Hslice
      by (apply (slice_prefix buf p d []); [by rewrite app_nil_r|lia]).
    destruct (copy_next h [] _ buf p (zlen d) d w Hr1 Hh Hh1 Ht1 Hslice) as
      (f2 & Hcopy & Hs2 & Hc2 & Hp2 & Hl2 & Hr2 & Hh2 & Ht2); [rewrite zlen_nil; lia|].
    rewrite zlen_nil in Hcopy. replace (188 - p) with (zlen d) by lia.
    rewrite (mbind_Ok _ _ _ _ _ Hcopy). mrun.
    set (f3 := set_secbufp (secbufp f2 + zlen d) f2).
    assert (same_feed f2 f3) as Hs3 by
      (exists (secbuf f2), (secbufp f2 + zlen d), (seclen f2), (crc_val f2), (fd_cc f2);
       by destruct f2).
    assert (same_feed f f3) as Hs by (etrans; [exact Hs1|]; by etrans).
    exists f3, w. split_and!; try done.
    + destruct fuel; done.
    + split; [|split; [done|]].
      * eapply same_feed_ready; [done| |done]. by destruct Hr2 as (_ & _ & ? & _).
      * split_and!; try done.
        -- eapply (same_feed_good f0); [|done]. by etrans.
        -- simpl. rewrite Hp2. simpl. lia.
        -- eapply (crc_tracks_ext f2); done.
Qed.

Lemma rep_set_cc a h f cc : rep a h f -> rep a h (set_fd_cc cc f).
Proof using.
  intros (Hready & Hh & Ha). split; [exact Hready|]. split; [done|].
  destruct a as [|d r]; [exact Ha|]. destruct Ha as (? & ? & ? & ? & ? & ? & Ht).
  split_and!; try done. by eapply (crc_tracks_ext f).
Qed.

Lemma same_feed_set_cc f cc : same_feed f (set_fd_cc cc f).
Proof using. exists (secbuf f), (secbufp f), (seclen f), (crc_val f), cc. by destruct f. Qed.

(** The last bytes of a section under way. *)
Lemma finish_section f0 h f d r rest buf p (w : W) :
  rep (Mid d r) h f -> same_feed f0 f -> good_section f0 (d ++ r) ->
  drop (Z.to_nat p) buf = r ++ rest -> 0 <= p <= zlen buf -> cl_inv w ->
  exists f' w',
    (forall B (k : Z -> M (FW (W:=W)) B),
      mbind_ (copy_in (zlen d) buf p (zlen r)) (fun _ =>
      mbind_ (fmod (fun f => set_secbufp (secbufp f + zlen r) f)) (fun _ =>
      mbind_ (dvb_dmx_swfilter_section_feed fls) k)) (f, w) = k 0 (f', w')) /\
    same_feed f f' /\ fd_cc f' = fd_cc f /\ rep Idle zeros18 f' /\
    deliver (fd_cb f) (chain_filters fls chain) (padded h (d ++ r)) (d ++ r) w = Ok w'.
Proof using L HL.
  intros (Hready & Hh & Hd3 & Hr0 & Hg & Hp & Hsl & Hhold & Ht) Hsame Hg0 Hdrop Hpr Hinv.
  pose proof (slice_prefix buf p r rest Hdrop Hpr) as Hslice.
  destruct (Hg) as (_ & Hle & _). rewrite zlen_app in Hle.
  destruct (copy_next h d f buf p (zlen r) r w Hready Hh Hhold Ht Hslice) as
    (f2 & Hcopy & Hs2 & Hc2 & Hp2 & Hl2 & Hr2 & Hh2 & Ht2); [lia|].
  set (f3 := set_secbufp (secbufp f2 + zlen r) f2).
  assert (same_feed f2 f3) as Hs3 by
    (exists (secbuf f2), (secbufp f2 + zlen r), (seclen f2), (crc_val f2), (fd_cc f2);
     by destruct f2).
  assert (same_feed f f3) as Hsf by (by etrans).
  destruct (feed_complete h (d ++ r) f3 w) as (f4 & w' & Hrun & Hs4 & Hc4 & Hr4 & Hd4); try done.
  { by eapply same_feed_good. }
  { simpl. rewrite Hp2, Hp, zlen_app. lia. }
  { simpl. rewrite Hl2, Hsl, zlen_app. lia. }
  { by eapply (crc_tracks_ext f2). }
  exists f4, w'. split_and!; try done.
  - intros B k. rewrite (mbind_Ok _ _ _ _ _ Hcopy). mrun. fold f3.
    by rewrite (mbind_Ok _ _ _ _ _ Hrun).
  - by etrans.
  - rewrite Hc4. simpl. by rewrite Hc2.
  - rewrite <- Hd4. by rewrite (same_feed_cb _ _ Hsf).
Qed.

Lemma section_packet_step a pusi ccok pl outs a' f0 h f buf (w : W) :
  packet_step (good_section f0) a pusi ccok pl outs a' ->
  rep a h f -> same_feed f0 f -> zlen buf = 188 ->
  0 < payload buf <= 184 -> pl = drop (Z.to_nat (188 - payload buf)) buf ->
  pusi = negb (Z.land (at_ buf 1) 0x40 =? 0) ->
  ccok = (Z.land (fd_cc f + 1) 0x0f =? Z.land (at_ buf 3) 0x0f) -> cl_inv w ->
  exists f' w', dvb_dmx_swfilter_section_packet fls buf (f, w) = Ok (0, (f', w')) /\
    same_feed f f' /\ fd_cc f' = Z.land (at_ buf 3) 0x0f /\ rep a' (head_after h outs) f' /\
    deliver_all (fd_cb f) (chain_filters fls chain) h outs w = Ok w'.
Proof using L HL.
  intros Hstep Hrep Hsame Hbuf Hcount Hpl Hpusi Hcc Hinv.
  unfold dvb_dmx_swfilter_section_packet. rif. mrun. rewrite <- Hpusi, <- Hcc.
  set (cc := Z.land (at_ buf 3) 15) in *. set (f1 := set_fd_cc cc f).
  pose proof (rep_set_cc a h f cc Hrep) as Hrep1. fold f1 in Hrep1.
  pose proof (same_feed_set_cc f cc) as Hs1. fold f1 in Hs1.
  assert (same_feed f0 f1) as Hsame1 by (by etrans).
  symmetry in Hpl. pose proof (suffix_zlen _ _ _ Hpl ltac:(lia)) as Hzpl.
  set (p := 188 - payload buf) in *.
  destruct Hstep as [d pl r Hl0 Hr0|d r stuffing|ccok skipped body outs a Hb|d r body outs a Hb].
  - destruct (Hrep1) as (Hready & Hh & Hd3 & _ & Hg & Hp & Hsl & Hhold & Ht).
    rewrite zlen_app in Hsl. destruct (Hg) as (_ & Hle & _). rewrite !zlen_app in Hle.
    unfold section_continue. mrun. rewrite Hp. rif. mrun. rewrite Hsl, Hp. rif.
    assert (slice buf p (zlen pl) = Ok pl) as Hslice
      by (apply (slice_prefix buf p pl []); [by rewrite app_nil_r|lia]).
    destruct (copy_next h d f1 buf p (zlen pl) pl w Hready Hh Hhold Ht Hslice) as
      (f2 & Hcopy & Hs2 & Hc2 & Hp2 & Hl2 & Hr2 & Hh2 & Ht2); [lia|].
    replace (payload buf) with (zlen pl) by lia.
    rewrite (mbind_Ok _ _ _ _ _ Hcopy). mrun.
    set (f3 := set_secbufp (secbufp f2 + zlen pl) f2).
    assert (same_feed f2 f3) as Hs3 by
      (exists (secbuf f2), (secbufp f2 + zlen pl), (seclen f2), (crc_val f2), (fd_cc f2);
       by destruct f2).
    assert (same_feed f f3) as Hsf by (etrans; [exact Hs1|]; by etrans).
    exists f3, w. split_and!; [done|done| | |done].
    + simpl. by rewrite Hc2.
    + split; [exact Hr2|]. split; [done|]. rewrite zlen_app.
      split_and!; [lia|done| | | |done|by eapply (crc_tracks_ext f2)].
      * rewrite <- app_assoc. by eapply (same_feed_good f1); [by etrans|].
      * simpl. rewrite Hp2, Hp. lia.
      * simpl. rewrite Hl2, Hsl. lia.
  - destruct (Hrep1) as (Hready & Hh & Hd3 & Hr0 & Hg & Hp & Hsl & Hhold & Ht).
    rewrite zlen_app in Hzpl. pose proof (zlen_nonneg stuffing).
    unfold section_continue. mrun. rewrite Hp. rif. mrun. rewrite Hsl, Hp. rif.
    replace (zlen d + zlen r - zlen d) with (zlen r) by lia.
    destruct (finish_section f1 h f1 d r stuffing buf p w) as (f2 & w' & Hk & Hs2 & Hc2 & Hr2 & Hd2);
      try done; [lia|].
    rewrite Hk. exists f2, w'. split_and!; [done|by etrans|by rewrite Hc2|done|].
    simpl. change (fd_cb f) with (fd_cb f1). by rewrite Hd2.
  - pose proof (zlen_nonneg skipped). pose proof (zlen_nonneg body).
    rewrite zlen_cons, zlen_app in Hzpl.
    assert (at_ buf p = zlen skipped) as Hptr.
    { rewrite <- (Z.add_0_r p), <- (at_suffix buf p _ 0 ltac:(lia) ltac:(lia) Hpl). done. }
    rewrite Hptr. rif.
    assert (section_rest fls buf p ccok (f1, w) = Ok (true, (f1, w))) as Hrest.
    { unfold section_rest. rewrite Hptr. case_if; [|done].
      unfold section_header_rest. destruct Hrep1 as (_ & _ & Hp & Hsl & _).
      mrun. rewrite Hp. simpl. mrun.
rewrite Hsl, Hp. by rif. }
    rewrite (mbind_Ok _ _ _ _ _ Hrest). cbn [negb].
    destruct (section_loop_spec f0 body outs a Hb 184 h f1 buf (p + zlen skipped + 1) w)
      as (f' & w' & Hrun & Hs' & Hc' & Hr' & Hd'); try done; try lia.
    { replace (p + zlen skipped + 1) with (p + zlen (zlen skipped :: skipped))
        by (rewrite zlen_cons; lia).
      by apply (drop_suffix buf p (zlen skipped :: skipped)); [|lia]. }
    { unfold zlen in *. lia. }
    exists f', w'. split_and!; [done|by etrans|by rewrite Hc'|done|done].
  - pose proof (zlen_nonneg body).
    destruct (Hrep1) as (Hready & Hh & Hd3 & Hr0 & Hg & Hp & Hsl & Hhold & Ht).
    rewrite zlen_cons, zlen_app in Hzpl.
    assert (at_ buf p = zlen r) as Hptr.
    { rewrite <- (Z.add_0_r p), <- (at_suffix buf p _ 0 ltac:(lia) ltac:(lia) Hpl). done. }
    rewrite Hptr. rif.
    assert (drop (Z.to_nat (p + 1)) buf = r ++ body) as Hpl1
      by (apply (drop_suffix buf p [zlen r]); [done|lia]).
    destruct (finish_section f1 h f1 d r body buf (p + 1) w) as (f2 & w1 & Hk & Hs2 & Hc2 & Hr2 & Hd2);
      try done; [lia|].
    assert (section_rest fls buf p true (f1, w) = Ok (true, (f2, w1))) as Hrest.
    { unfold section_rest. rewrite Hptr. rif. unfold section_header_rest.
      mrun. rewrite Hp. rif. mrun. rewrite Hsl, Hp. rif. apply Hk. }
    rewrite (mbind_Ok _ _ _ _ _ Hrest). cbn [negb].
    destruct (section_loop_spec f0 body outs a Hb 184 zeros18 f2 buf (p + zlen r + 1) w1)
      as (f' & w' & Hrun & Hs' & Hc' & Hr' & Hd'); try done; try lia.
    { replace (p + zlen r + 1) with (p + 1 + zlen r) by lia.
      by apply (drop_suffix buf (p + 1) r); [|lia]. }
    { by etrans. }
    { unfold zlen in *. lia. }
    { eapply deliver_inv, Hd2; [by eapply rep_knows|done]. }
    exists f', w'. split_and!; [done|etrans; [exact Hs1|by etrans]|by rewrite Hc', Hc2| |].
    + by destruct outs.
    + simpl. change (fd_cb f) with (fd_cb f1). rewrite Hd2. simpl.
      change (fd_cb f) with (fd_cb f1). by rewrite <- (same_feed_cb _ _ Hs2).
Qed.
End Reassembly.
