(* ===== verification/SectionStream.v ===== *)
(** * Streams of packets that carry sections (dvb-core/dvb_demux.c, 224 to 382)

    The refinement of Reassembly.v over a whole stream, a multiplexer that
    packs sections into packets, and the round trip through it. *)

From S2P Require Import Prelude Crc32 DemuxState SwFilter SectionFilter Sample Reassembly.

(** ** Streams *)

Definition pkt_pusi (buf : list Z) : bool := negb (Z.land (at_ buf 1) 0x40 =? 0).
Definition pkt_cc (buf : list Z) : Z := Z.land (at_ buf 3) 0x0f.
Definition pkt_payload (buf : list Z) : list Z := drop (Z.to_nat (188 - payload buf)) buf.

Definition pkt_ok (buf : list Z) : Prop := zlen buf = 188 /\ 0 < payload buf <= 184.

(** The packets of one PID, from the state and continuity counter before to
    those after, and the sections they complete. *)
Inductive stream (good : list Z -> Prop) :
    reasm -> Z -> list (list Z) -> list (list Z) -> reasm -> Z -> Prop :=
| stream_nil a cc : stream good a cc [] [] a cc
| stream_cons a cc buf outs a1 bufs outs2 a2 cc2 :
    pkt_ok buf ->
    packet_step good a (pkt_pusi buf) (Z.land (cc + 1) 0x0f =? pkt_cc buf) (pkt_payload buf) outs a1 ->
    stream good a1 (pkt_cc buf) bufs outs2 a2 cc2 ->
    stream good a cc (buf :: bufs) (outs ++ outs2) a2 cc2.

Lemma stream_app good a cc b1 o1 a1 cc1 b2 o2 a2 cc2 :
  stream good a cc b1 o1 a1 cc1 -> stream good a1 cc1 b2 o2 a2 cc2 ->
  stream good a cc (b1 ++ b2) (o1 ++ o2) a2 cc2.
Proof.
  induction 1 as [|a cc buf outs a1 bufs outs2 a3 cc3 Hok Hst Hs IH]; intros H2; simpl; [done|].
  rewrite <- app_assoc. econstructor; eauto.
Qed.

(** Every section a stream completes is one that it may carry. *)
Definition reasm_good (good : list Z -> Prop) (a : reasm) : Prop :=
  match a with Idle => True | Mid d r => good (d ++ r) end.

Lemma begins_good good body outs a :
  begins good body outs a -> Forall good outs /\ reasm_good good a.
Proof. induction 1 as [|s rest outs a Hs _ _ [IH1 IH2]| |]; simpl; auto. Qed.

Lemma packet_step_good good a pusi cc pl outs a' :
  reasm_good good a -> packet_step good a pusi cc pl outs a' ->
  Forall good outs /\ reasm_good good a'.
Proof.
  intros Ha Hs. destruct Hs as [d pl r _ _|d r st|cc sk body outs a Hb|d r body outs a Hb]; simpl in *.
  - rewrite <- app_assoc. auto.
  - auto.
  - by eapply begins_good.
  - destruct (begins_good _ _ _ _ Hb). auto.
Qed.

Lemma stream_good good a cc bufs outs a' cc' :
  reasm_good good a -> stream good a cc bufs outs a' cc' -> Forall good outs.
Proof.
  intros Ha Hs. induction Hs as [|a cc buf outs a1 bufs outs2 a2 cc2 Hok Hst Hs IH]; [constructor|].
  destruct (packet_step_good _ _ _ _ _ _ _ Ha Hst). apply Forall_app. auto.
Qed.

(** ** A multiplexer

    Each section starts in a packet of its own; what is left of the last packet
    of a section is stuffed with 0xff. *)

Definition ts_packet (pid : Z) (pusi : bool) (cc : Z) (pl : list Z) : list Z :=
  0x47 :: (if pusi then 0x40 else 0) + Z.shiftr pid 8 :: Z.land pid 0xff :: 0x10 + cc ::
  pl ++ replicate (184 - length pl) 0xff.

Definition next_cc (cc : Z) : Z := Z.land (cc + 1) 0x0f.

(** The rest of a section: packets and the last counter used. *)
Fixpoint mux_rest (fuel : nat) (pid cc : Z) (r : list Z) : list (list Z) * Z :=
  match fuel, r with
  | S fuel, _ :: _ =>
      let cc := next_cc cc in
      let q := mux_rest fuel pid cc (drop 184 r) in
      (ts_packet pid false cc (take 184 r) :: q.1, q.2)
  | _, _ => ([], cc)
  end.

Definition mux_section (pid cc : Z) (s : list Z) : list (list Z) * Z :=
  let cc := next_cc cc in
  let q := mux_rest (length s) pid cc (drop 183 s) in
  (ts_packet pid true cc (0 :: take 183 s) :: q.1, q.2).

Fixpoint mux (pid cc : Z) (ss : list (list Z)) : list (list Z) * Z :=
  match ss with
  | [] => ([], cc)
  | s :: ss =>
      let q := mux_section pid cc s in
      let r := mux pid q.2 ss in (q.1 ++ r.1, r.2)
  end.

(** ** The packets of the multiplexer are a stream *)

Lemma next_cc_range cc : 0 <= next_cc cc < 16.
Proof. unfold next_cc. change 16 with (2 ^ 4). by apply (land_range _ _ 4). Qed.

Section TsPacket.
Context (pid cc : Z) (pusi : bool) (pl : list Z).
Context (Hpid : 0 <= pid < 0x2000) (Hcc : 0 <= cc < 16) (Hpl : zlen pl <= 184).

Lemma ts_packet_header :
  Z.land (0x10 + cc) 0x10 <> 0 /\ Z.land (0x10 + cc) 0x20 = 0 /\ Z.land (0x10 + cc) 0x0f = cc.
Proof using Hcc.
  assert (negb (Z.land (0x10 + cc) 0x10 =? 0) && (Z.land (0x10 + cc) 0x20 =? 0) &&
          (Z.land (0x10 + cc) 0x0f =? cc) = true) as E.
  { apply (forall_range (fun cc => negb (Z.land (0x10 + cc) 0x10 =? 0) &&
      (Z.land (0x10 + cc) 0x20 =? 0) && (Z.land (0x10 + cc) 0x0f =? cc)) 16); [done|lia]. }
  apply andb_true_iff in E as [[E1 E2]%andb_true_iff E3]. lia.
Qed.

Lemma ts_packet_payload : payload (ts_packet pid pusi cc pl) = 184.
Proof using Hcc.
  destruct ts_packet_header as (H1 & H2 & _). unfold payload.
  change (at_ (ts_packet pid pusi cc pl) 3) with (0x10 + cc). rewrite H2.
  destruct (Z.eqb_spec (Z.land (16 + cc) 16) 0); [done|]. done.
Qed.

Lemma ts_packet_ok : pkt_ok (ts_packet pid pusi cc pl).
Proof using Hcc Hpl.
  split; [|rewrite ts_packet_payload; lia].
  unfold ts_packet. rewrite !zlen_cons, zlen_app, zlen_replicate. unfold zlen in *. lia.
Qed.

Lemma ts_packet_pusi : pkt_pusi (ts_packet pid pusi cc pl) = pusi.
Proof using Hpid.
  unfold pkt_pusi. change (at_ (ts_packet pid pusi cc pl) 1)
    with ((if pusi then 0x40 else 0) + Z.shiftr pid 8).
  assert (0 <= Z.shiftr pid 8 < 32) as Hs.
  { rewrite Z.shiftr_div_pow2 by lia. split; [apply Z.div_pos; lia|].
    apply Z.div_lt_upper_bound; lia. }
  assert (Bool.eqb (negb (Z.land ((if pusi then 64 else 0) + Z.shiftr pid 8) 64 =? 0)) pusi = true)
    as E.
  { apply (forall_range (fun h =>
      Bool.eqb (negb (Z.land ((if pusi then 64 else 0) + h) 64 =? 0)) pusi) 32); [|lia].
    by destruct pusi. }
  by apply eqb_prop.
Qed.

Lemma ts_packet_cc : pkt_cc (ts_packet pid pusi cc pl) = cc.
Proof using Hcc. unfold pkt_cc. apply ts_packet_header. Qed.

Lemma ts_packet_body :
  pkt_payload (ts_packet pid pusi cc pl) = pl ++ replicate (184 - length pl) 0xff.
Proof using Hcc. unfold pkt_payload. by rewrite ts_packet_payload. Qed.

Lemma ts_packet_pid : ts_pid (ts_packet pid pusi cc pl) = pid.
Proof using Hpid.
  unfold ts_pid. change (at_ (ts_packet pid pusi cc pl) 1)
    with ((if pusi then 0x40 else 0) + Z.shiftr pid 8).
  change (at_ (ts_packet pid pusi cc pl) 2) with (Z.land pid 0xff).
  assert (0 <= Z.shiftr pid 8 < 32) as Hs.
  { rewrite Z.shiftr_div_pow2 by lia. split; [apply Z.div_pos; lia|].
    apply Z.div_lt_upper_bound; lia. }
  assert (Z.land ((if pusi then 64 else 0) + Z.shiftr pid 8) 31 = Z.shiftr pid 8) as ->.
  { change 31 with (Z.ones 5). rewrite Z.land_ones by lia. change (2 ^ 5) with 32.
    destruct pusi; [|by rewrite Z.mod_small by lia].
    replace (64 + Z.shiftr pid 8) with (Z.shiftr pid 8 + 2 * 32) by lia.
    by rewrite Z_mod_plus_full, Z.mod_small by lia. }
  change 255 with (Z.ones 8). rewrite Z.land_ones, Z.shiftr_div_pow2, Z.shiftl_mul_pow2 by lia.
  change (2 ^ 8) with 256. rewrite Z.mul_comm, <- Z.div_mod by lia.
  unfold u16. by rewrite Z.mod_small by lia.
Qed.
End TsPacket.

Section Mux.
Context (good : list Z -> Prop) (Hgood : forall s, good s -> 3 <= zlen s).
Context (pid : Z) (Hpid : 0 <= pid < 0x2000).

Lemma stuffing_cons n : replicate (S n) 0xff = 0xff :: replicate n 0xff.
Proof using. done. Qed.

Lemma mux_rest_stream fuel cc d r :
  0 <= cc < 16 -> 3 <= zlen d -> r <> [] -> (length r <= fuel)%nat -> good (d ++ r) ->
  stream good (Mid d r) cc (mux_rest fuel pid cc r).1 [d ++ r] Idle (mux_rest fuel pid cc r).2.
Proof using Hpid.
  revert cc d r. induction fuel as [|fuel IH]; intros cc d r Hcc Hd Hr Hf Hg;
    (destruct r as [|x r]; [done|]); [simpl in Hf; lia|].
  set (R := x :: r) in *. assert (0 < zlen R) as HR by (subst R; rewrite zlen_cons;
    pose proof (zlen_nonneg r); lia).
  change (mux_rest (S fuel) pid cc R) with
    (let q := mux_rest fuel pid (next_cc cc) (drop 184 R) in
     (ts_packet pid false (next_cc cc) (take 184 R) :: q.1, q.2)). cbv zeta. cbn [fst snd].
  clearbody R. pose proof (next_cc_range cc) as Hn.
  assert (zlen (take 184 R) <= 184) as Hz by (unfold zlen; rewrite length_take; lia).
  destruct (Nat.le_gt_cases (length R) 184) as [Hle|Hgt].
  - rewrite (take_ge R), (drop_ge R) by done.
    assert (mux_rest fuel pid (next_cc cc) [] = ([], next_cc cc)) as -> by (by destruct fuel).
    cbn [fst snd]. rewrite <- (app_nil_r [d ++ R]).
    rewrite take_ge in Hz by done.
    apply (stream_cons good _ _ _ [d ++ R] Idle); [by apply ts_packet_ok| |].
    + rewrite ts_packet_pusi, ts_packet_cc, ts_packet_body by done.
      unfold next_cc. rewrite Z.eqb_refl. apply step_last.
    + rewrite ts_packet_cc by done. constructor.
  - assert (length (take 184 R) = 184%nat) as Hl by (rewrite length_take; lia).
    change [d ++ R] with ([] ++ [d ++ R]).
    apply (stream_cons good _ _ _ [] (Mid (d ++ take 184 R) (drop 184 R)));
      [by apply ts_packet_ok| |].
    + rewrite ts_packet_pusi, ts_packet_cc, ts_packet_body by done.
      unfold next_cc. rewrite Z.eqb_refl, Hl. rewrite app_nil_r.
      rewrite <- (take_drop 184 R) at 1. apply step_middle; unfold zlen;
        rewrite ?length_drop; lia.
    + rewrite ts_packet_cc by done. 
      assert (d ++ R = (d ++ take 184 R) ++ drop 184 R) as -> by (by rewrite <- app_assoc, take_drop).
      apply IH; [done| | | |].
      * rewrite zlen_app. unfold zlen in *. lia.
      * intros E%(f_equal length). rewrite length_drop in E. simpl in E. lia.
      * rewrite length_drop. lia.
      * by rewrite <- app_assoc, take_drop.
Qed.

Lemma mux_section_stream cc s :
  good s -> stream good Idle cc (mux_section pid cc s).1 [s] Idle (mux_section pid cc s).2.
Proof using Hgood Hpid.
  intros Hg. specialize (Hgood s Hg). pose proof (next_cc_range cc) as Hn.
  unfold mux_section. cbn [fst snd].
  assert (zlen (0 :: take 183 s) <= 184) as Hz
    by (rewrite zlen_cons; unfold zlen; rewrite length_take; lia).
  destruct (Nat.le_gt_cases (length s) 183) as [Hle|Hgt].
  - rewrite (take_ge s), (drop_ge s) in * by done.
    assert (mux_rest (length s) pid (next_cc cc) [] = ([], next_cc cc)) as ->
      by (by destruct (length s)).
    cbn [fst snd]. rewrite <- (app_nil_r [s]).
    apply (stream_cons good _ _ _ [s] Idle); [by apply ts_packet_ok| |].
    + rewrite ts_packet_pusi, ts_packet_cc, ts_packet_body by done.
      apply (step_start good _ []). simpl length.
      destruct (183 - length s)%nat as [|n] eqn:E.
      * replace (184 - S (length s))%nat with 0%nat by lia.
        apply begins_section; [done|by intros|constructor].
      * replace (184 - S (length s))%nat with (S n) by lia. by apply begins_stuffing.
    + rewrite ts_packet_cc by done. constructor.
  - assert (length (take 183 s) = 183%nat) as Hl by (rewrite length_take; lia).
    change [s] with ([] ++ [s]).
    apply (stream_cons good _ _ _ [] (Mid (take 183 s) (drop 183 s))); [by apply ts_packet_ok| |].
    + rewrite ts_packet_pusi, ts_packet_cc, ts_packet_body by done.
      simpl length. rewrite Hl. simpl replicate. rewrite app_nil_r.
      apply (step_start good _ []). apply begins_fragment.
      * unfold zlen. lia.
      * unfold zlen. rewrite length_drop. lia.
      * by rewrite take_drop.
    + rewrite ts_packet_cc by done.
      assert ([s] = [take 183 s ++ drop 183 s]) as -> by (by rewrite take_drop).
      apply mux_rest_stream; [done|unfold zlen; lia| | |by rewrite take_drop].
      * intros E%(f_equal length). rewrite length_drop in E. simpl in E. lia.
      * rewrite length_drop. lia.
Qed.

Lemma mux_stream cc ss :
  Forall good ss -> stream good Idle cc (mux pid cc ss).1 ss Idle (mux pid cc ss).2.
Proof using Hgood Hpid.
  intros Hss. revert cc. induction Hss as [|s ss Hg Hss IH]; intros cc; cbn [mux fst snd]; [constructor|].
  change (s :: ss) with ([s] ++ ss). eapply stream_app; [by apply mux_section_stream|apply IH].
Qed.
End Mux.

(** Every packet has the length, the sync byte and the PID it should have. *)
Section MuxPackets.
Context (pid : Z) (Hpid : 0 <= pid < 0x2000).

Definition packet_of_pid (p : list Z) : Prop := zlen p = 188 /\ at_ p 0 = 0x47 /\ ts_pid p = pid.

Lemma ts_packet_of_pid pusi cc pl :
  0 <= cc < 16 -> zlen pl <= 184 -> packet_of_pid (ts_packet pid pusi cc pl).
Proof using Hpid.
  intros Hcc Hpl. split_and!; [by apply ts_packet_ok|done|by apply ts_packet_pid].
Qed.

Lemma mux_rest_packets fuel cc r : Forall packet_of_pid (mux_rest fuel pid cc r).1.
Proof using Hpid.
  revert cc r. induction fuel as [|fuel IH]; intros cc [|x r]; try constructor.
  - apply ts_packet_of_pid; [apply next_cc_range|]. unfold zlen. rewrite length_take. lia.
  - apply IH.
Qed.

Lemma mux_packets cc ss : Forall packet_of_pid (mux pid cc ss).1.
Proof using Hpid.
  revert cc. induction ss as [|s ss IH]; intros cc; cbn [mux fst snd]; [constructor|].
  apply Forall_app. split; [|apply IH]. constructor; [|apply mux_rest_packets].
  apply ts_packet_of_pid; [apply next_cc_range|]. rewrite zlen_cons. unfold zlen.
  rewrite length_take. lia.
Qed.
End MuxPackets.

(** ** The decoder over a stream *)

Section Decoder.
Context {W : Type} {C : DemuxClient W} {L : DemuxClientSpec W} {D : DemuxDriver W}.
Context {H : CrcHooks} {HL : CrcHooksLaws}.

(** The packets of a feed's PID, one after the other. *)
Fixpoint feed_packets (fls : list dvb_demux_filter) (idx : nat) (bufs : list (list Z))
    : M (FW (W:=W)) unit :=
  match bufs with
  | [] => mret_ tt
  | buf :: bufs => dvb_dmx_swfilter_packet_type fls idx buf ;;; feed_packets fls idx bufs
  end.

Context (fls : list dvb_demux_filter) (chain : list nat) (idx : nat).

Lemma packet_type_step a outs a' f0 h f buf (w : W) :
  pkt_ok buf ->
  packet_step (good_section f0) a (pkt_pusi buf) (Z.land (fd_cc f + 1) 0x0f =? pkt_cc buf)
    (pkt_payload buf) outs a' ->
  rep fls chain a h f -> same_feed f0 f -> cl_inv w ->
  exists f' w', dvb_dmx_swfilter_packet_type fls idx buf (f, w) = Ok (tt, (f', w')) /\
    same_feed f f' /\ fd_cc f' = pkt_cc buf /\ rep fls chain a' (head_after h outs) f' /\
    deliver_all (fd_cb f) (chain_filters fls chain) h outs w = Ok w'.
Proof using L HL.
  intros [Hbuf Hpl] Hst Hrep Hs Hi. destruct (Hrep) as ((Hty & Hfi & _) & _).
  destruct (section_packet_step fls chain a _ _ _ outs a' f0 h f buf w Hst Hrep Hs Hbuf Hpl
    eq_refl eq_refl eq_refl Hi) as (f' & w' & Hrun & Hs' & Hc' & Hr' & Hd').
  exists f', w'. split; [|done]. unfold dvb_dmx_swfilter_packet_type. mrun.
  rewrite Hty. cbn [Z.eqb DMX_TYPE_SEC DMX_TYPE_TS Pos.eqb]. rewrite Hfi. cbn [negb].
  rewrite (mbind_Ok _ _ _ _ _ Hrun). done.
Qed.

Lemma feed_packets_stream f0 a cc bufs outs a' cc' :
  stream (good_section f0) a cc bufs outs a' cc' ->
  forall h f (w : W), rep fls chain a h f -> same_feed f0 f -> fd_cc f = cc -> cl_inv w ->
  exists f' w', feed_packets fls idx bufs (f, w) = Ok (tt, (f', w')) /\
    same_feed f f' /\ fd_cc f' = cc' /\ rep fls chain a' (head_after h outs) f' /\
    deliver_all (fd_cb f) (chain_filters fls chain) h outs w = Ok w'.
Proof using L HL.
  induction 1 as [a cc|a cc buf outs a1 bufs outs2 a2 cc2 Hok Hst Hs IH];
    intros h f w Hrep Hsame Hcc Hi.
  - exists f, w. done.
  - rewrite <- Hcc in Hst.
    destruct (packet_type_step a outs a1 f0 h f buf w Hok Hst Hrep Hsame Hi) as
      (f1 & w1 & Hrun & Hs1 & Hc1 & Hr1 & Hd1).
    destruct (IH _ f1 w1 Hr1) as (f' & w' & Hrun' & Hs' & Hc' & Hr' & Hd'); [by etrans|done| |].
    { eapply deliver_all_inv, Hd1; [by eapply rep_knows|done]. }
    exists f', w'. split_and!.
    + cbn [feed_packets]. by rewrite (mbind_Ok _ _ _ _ _ Hrun).
    + by etrans.
    + done.
    + by rewrite head_after_app.
    + rewrite deliver_all_app, Hd1. simpl. by rewrite <- (same_feed_cb _ _ Hs1).
Qed.


(** Round trip: what the multiplexer packs, the demultiplexer unpacks;
    every section of the list is delivered, in order, and nothing else. *)
Theorem mux_roundtrip pid h f ss (w : W) :
  0 <= pid < 0x2000 -> rep fls chain Idle h f -> Forall (good_section f) ss -> cl_inv w ->
  let pkts := (mux pid (fd_cc f) ss).1 in
  Forall (fun p => zlen p = 188 /\ at_ p 0 = 0x47 /\ ts_pid p = pid) pkts /\
  exists f' w', feed_packets fls idx pkts (f, w) = Ok (tt, (f', w')) /\
    rep fls chain Idle (head_after h ss) f' /\
    deliver_all (fd_cb f) (chain_filters fls chain) h ss w = Ok w'.
Proof using L HL.
  intros Hpid Hrep Hss Hi. cbv zeta. split; [by apply mux_packets|].
  assert (forall s, good_section f s -> 3 <= zlen s) as Hg by (intros s (_ & ? & _); lia).
  pose proof (mux_stream (good_section f) Hg pid Hpid (fd_cc f) ss Hss) as Hst.
  destruct (feed_packets_stream f Idle _ _ _ _ _ Hst h f w Hrep) as
    (f' & w' & ? & _ & _ & ? & ?); [done|done|done|]. eauto.
Qed.
End Decoder.

(** ** The theorems at work *)

Lemma sample_rep : rep sample_filters [1%nat; 0%nat] Idle z18 sample_feed.
Proof.
  split; [|split; [done|]].
  - split_and!; try done; [exact sample_chain| |by repeat constructor].
    by repeat (constructor; [by left|]).
  - split; [done|]. split; [done|]. split; [done|]. intros i Hi. apply Z.eqb_eq.
    by apply (forall_range (fun k => at_ (secbuf sample_feed) k =? at_ (padded z18 []) k) 18).
Qed.

Lemma sample_good : Forall (good_section sample_feed) sample_sections.
Proof.
  apply List.Forall_forall. intros s [<-|[<-|[<-|[]]]];
    (split; [by apply decide_bytes|]; split; [unfold zlen; simpl; lia|]; split; [done|];
     unfold crc_good; intros _ Hx; by destruct Hx).
Qed.


Lemma mux_roundtrip_witness :
  exists f', feed_packets sample_filters 0 (mux 0x14 0 sample_sections).1 (sample_feed, []) =
      Ok (tt, (f', [(1, section_70); (2, section_42); (1, section_70)])) /\
    secbufp f' = 0.
Proof.
  destruct (mux_roundtrip sample_filters [1%nat; 0%nat] 0 0x14 z18 sample_feed sample_sections [])
    as (_ & f' & w' & Hrun & Hrep & Hd); [lia|exact sample_rep|exact sample_good|done|].
  exists f'. split; [|apply Hrep].
  assert (Ok w' = Ok [(1, section_70); (2, section_42); (1, section_70)]) as E
    by (rewrite <- Hd; vm_compute; reflexivity).
  change (fd_cc sample_feed) with 0 in Hrun. rewrite Hrun. injection E as ->. reflexivity.
Defined.
