(* ===== verification/SectionSafety.v ===== *)
(** * Memory safety of section reassembly (dvb-core/dvb_demux.c, 187 to 382)

    From a state in which the announced section length fits the 4096 byte
    buffer, no packet whatever makes the software filter read or write outside
    an object; the one way to a state in which it does not fit is a packet that
    ends with the beginning of a section announcing 4097 or 4098 bytes.  That
    such a stream does overrun the buffer, and that a lost packet corrupts the
    next section, are shown on concrete streams. *)

From S2P Require Import Prelude Crc32 DemuxState SwFilter SectionFilter Sample Reassembly SectionStream.

Definition buf_safe (f : dvb_demux_feed) : Prop :=
  zlen (secbuf f) = 4096 /\ 0 <= secbufp f /\ 0 <= seclen f <= 4096.

(** The state after the beginning of a section that is too long. *)
Definition overlong (f : dvb_demux_feed) : Prop :=
  zlen (secbuf f) = 4096 /\ 0 <= secbufp f /\ 4096 < seclen f <= 4098.

Section Safety.
Context {W : Type} {C : DemuxClient W} {L : DemuxClientLaws W} {D : DemuxDriver W}.
Context {H : CrcHooks} {HL : CrcHooksLaws}.
Context (fls : list dvb_demux_filter) (chain : list nat).

Lemma sectionfilter_total f feed (w : W) :
  buf_safe feed ->
  exists r w', dvb_dmx_swfilter_sectionfilter f (feed, w) = Ok (r, (feed, w')).
Proof using L.
  intros (Hb & Hp & Hs). unfold dvb_dmx_swfilter_sectionfilter. mrun.
  destruct (sectionfilter_loop _ _ _ _ _); [|eexists _, _; reflexivity].
  case_if; [eexists _, _; reflexivity|].
  rewrite slice_ok by lia. mrun. unfold wcall. cbn [fst snd].
  set (s := take _ _). destruct (cb_sec_ok (fd_cb feed) (sf_priv f) s w) as (r & w' & -> & _).
  eexists _, _. reflexivity.
Qed.

Lemma filter_chain_total l i feed fuel (w : W) :
  is_chain fls (Some i) l -> (length l <= fuel)%nat -> buf_safe feed ->
  exists r w', filter_chain fls fuel i (feed, w) = Ok (r, (feed, w')).
Proof using L.
  revert i fuel w. induction l as [|j l IH]; intros i fuel w Hch Hfuel Hs; [done|].
  destruct Hch as (Hj & f & Hf & Hch). simplify_eq.
  destruct fuel as [|fuel]; [simpl in Hfuel; lia|]. simpl filter_chain. rewrite Hf.
  destruct (sectionfilter_total f feed w Hs) as (r & w1 & Hrun).
  rewrite (mbind_Ok _ _ _ _ _ Hrun). case_if; [eexists _, _; reflexivity|].
  destruct (fl_next f) as [j2|]; [|eexists _, _; reflexivity]. mrun.
  case_if; [|eexists _, _; reflexivity]. apply IH; [done|simpl in Hfuel; lia|done].
Qed.

Lemma section_feed_total f (w : W) :
  is_chain fls (fd_filter f) chain -> buf_safe f ->
  exists r f' w', dvb_dmx_swfilter_section_feed fls (f, w) = Ok (r, (f', w')) /\
    same_feed f f' /\ buf_safe f'.
Proof using L HL.
  intros Hch Hs. destruct (Hs) as (Hb & Hp & Hl).
  unfold dvb_dmx_swfilter_section_feed. mrun.
  case_if; [by eexists _, f, w|]. case_if; [by eexists _, f, w|].
  destruct (fd_filter f) as [i|] eqn:Ei; [|by eexists _, f, w].
  set (crc_step := if check_crc f then _ else _).
  assert (exists bad c, crc_step (f, w) = Ok (bad, (set_crc_val c f, w))) as (bad & c & Hc).
  { subst crc_step.
    assert (f = set_crc_val (crc_val f) f) as Hid by (by destruct f).
    case_if; [|exists false, (crc_val f); by rewrite <- Hid].
    case_if; [|exists false, (crc_val f); by rewrite <- Hid].
    rewrite slice_ok by lia. mrun. destruct (hook_crc32_frame f (take (Z.to_nat (seclen f)) (drop (Z.to_nat 0) (secbuf f)))) as [c Hf].
    unfold fput. mrun. rewrite Hf. eexists _, c. reflexivity. }
  rewrite (mbind_Ok _ _ _ _ _ Hc).
  assert (same_feed f (set_crc_val c f)) as Hs1
    by (exists (secbuf f), (secbufp f), (seclen f), c, (fd_cc f); by destruct f).
  destruct bad; [by eexists _, (set_crc_val c f), w|].
  destruct (filter_chain_total chain i (set_crc_val c f) (S (length fls)) w) as (r & w' & Hrun);
    [done|pose proof (is_chain_length _ _ _ Hch); lia|done|].
  rewrite (mbind_Ok _ _ _ _ _ Hrun). case_if; [by eexists _, (set_crc_val c f), w'|].
  mrun. change (secbuf (set_secbufp 0 (set_seclen 0 (set_crc_val c f)))) with (secbuf f).
  destruct (memcpy_to_some (secbuf f) 0 zeros18) as [b Hb'];
    [lia|unfold zeros18; rewrite zlen_replicate; change (Z.of_nat DVB_DEMUX_MASK_MAX) with 18; lia|].
  unfold zeros18 in Hb'. rewrite Hb'. mrun.
  eexists _, _, w'. split; [reflexivity|].
  pose proof (memcpy_to_length _ _ _ _ Hb') as Hlen.
  split; [|split_and!; simpl; unfold zlen in *; lia].
  exists b, 0, 0, c, (fd_cc f). by destruct f.
Qed.

(** A copy that stays inside the buffer. *)
Lemma copy_in_total off buf p n f (w : W) :
  zlen (secbuf f) = 4096 -> 0 <= off -> 0 <= n -> off + n <= 4096 ->
  0 <= p -> p + n <= zlen buf ->
  exists f', copy_in off buf p n (f, w) = Ok (tt, (f', w)) /\ same_feed f f' /\
    secbufp f' = secbufp f /\ seclen f' = seclen f /\ zlen (secbuf f') = 4096.
Proof using HL.
  intros Hb Hoff Hn Hle Hp Hbuf.
  pose proof (slice_ok buf p n Hp Hn Hbuf) as Hs. pose proof (slice_zlen _ _ _ _ Hs) as Hz.
  set (s := take _ _) in *.
  destruct (memcpy_to_some (secbuf f) off s) as [b Hm]; [done|lia|].
  destruct (hook_memcopy_ok f off s b Hm) as [c Hc].
  eexists. split; [by eapply copy_in_run|].
  pose proof (memcpy_to_length _ _ _ _ Hm). split_and!; [|done|done|simpl; unfold zlen in *; lia].
  exists b, (secbufp f), (seclen f), c, (fd_cc f). by destruct f.
Qed.

Lemma same_feed_chain f f' :
  same_feed f f' -> is_chain fls (fd_filter f) chain -> is_chain fls (fd_filter f') chain.
Proof using. intros (b & p & l & c & k & ->). done. Qed.

Lemma section_loop_total fuel : forall buf p count f (w : W),
  zlen buf = 188 -> bytes buf -> 0 <= p -> (count <= 0 \/ count = 188 - p) ->
  count <= Z.of_nat fuel ->
  is_chain fls (fd_filter f) chain -> (0 < count -> buf_safe f) -> (buf_safe f \/ overlong f) ->
  exists r f' w', section_loop fls fuel buf p count (f, w) = Ok (r, (f', w')) /\
    same_feed f f' /\ zlen (secbuf f') = 4096 /\ (0 <= r -> buf_safe f' \/ overlong f').
Proof using L HL.
  induction fuel as [|fuel IH]; intros buf p count f w Hbuf Hby Hp Hcount Hfuel Hch Hsafe Hend;
    (assert (zlen (secbuf f) = 4096) as Hlen by (by destruct Hend as [[]|[]])).
  { simpl section_loop. rif. by eexists _, f, w. }
  simpl section_loop. case_if; [by eexists _, f, w|]. mrun.
  destruct (Hsafe ltac:(lia)) as (Hb & Hp0 & Hl0).
  set (f1 := set_crc_val crc_init f).
  assert (same_feed f f1) as Hs1
    by (exists (secbuf f), (secbufp f), (seclen f), crc_init, (fd_cc f); by destruct f).
  destruct (Z.leb_spec count 2).
  { rif. mrun. rif. eexists _, f1, w. split_and!; [done|done|done|lia]. }
  rif. mrun.
  assert (3 <= section_length (drop (Z.to_nat p) buf) <= 4098) as Hsl.
  { apply section_length_eq. rewrite at_drop by lia. apply bytes_at; [done|lia]. }
  set (l := section_length (drop (Z.to_nat p) buf)) in *.
  set (f2 := set_seclen l f1).
  assert (same_feed f f2) as Hs2
    by (exists (secbuf f), (secbufp f), l, crc_init, (fd_cc f); by destruct f).
  destruct (Z.leb_spec l count).
  - mrun. change (seclen f2) with l. rif.
    destruct (copy_in_total 0 buf p l f2 w) as (f3 & Hrun & Hs3 & Hp3 & Hl3 & Hb3);
      [done|lia..|].
    rewrite (mbind_Ok _ _ _ _ _ Hrun). mrun.
    set (f4 := set_secbufp l f3).
    assert (same_feed f3 f4) as Hs4
      by (exists (secbuf f3), l, (seclen f3), (crc_val f3), (fd_cc f3); by destruct f3).
    assert (same_feed f f4) as Hsf by (etrans; [exact Hs2|]; by etrans).
    destruct (section_feed_total f4 w) as (r & f5 & w5 & Hrun5 & Hs5 & Hsafe5).
    { by eapply same_feed_chain. }
    { split_and!; simpl; try lia; rewrite Hl3; simpl; lia. }
    rewrite (mbind_Ok _ _ _ _ _ Hrun5).
    assert (same_feed f f5) as Hsf5 by (by etrans).
    destruct (IH buf (p + l) (if negb (188 - (p + l) =? 0) && (at_ buf (p + l) =? 255)
      then 0 else 188 - (p + l)) f5 w5) as (r' & f' & w' & Hrun' & Hs' & Hend');
      try done; try lia.
    { case_if; lia. }
    { case_if; lia. }
    { by eapply same_feed_chain. }
    { by left. }
    exists r', f', w'. split; [exact Hrun'|]. split; [by etrans|done].
  - rif. destruct (copy_in_total 0 buf p count f2 w) as (f3 & Hrun & Hs3 & Hp3 & Hl3 & Hb3);
      [done|lia..|].
    rewrite (mbind_Ok _ _ _ _ _ Hrun). mrun.
    set (f4 := set_secbufp (secbufp f3 + count) f3).
    assert (same_feed f3 f4) as Hs4 by
      (exists (secbuf f3), (secbufp f3 + count), (seclen f3), (crc_val f3), (fd_cc f3); by destruct f3).
    assert (section_loop fls fuel buf p 0 (f4, w) = Ok (0, (f4, w))) as -> by (by destruct fuel).
    eexists _, f4, w. split; [reflexivity|]. split; [etrans; [exact Hs2|]; by etrans|].
    split; [done|]. intros _. assert (secbufp f4 = secbufp f + count) as E1 by (simpl; by rewrite Hp3).
    assert (seclen f4 = l) as E2 by (simpl; by rewrite Hl3).
    destruct (Z.leb_spec l 4096); [left|right]; split_and!; rewrite ?E1, ?E2; done || lia.
Qed.

Lemma section_header_rest_total buf p f (w : W) :
  zlen buf = 188 -> 0 <= p -> buf_safe f ->
  exists ok f', section_header_rest buf p (f, w) = Ok (ok, (f', w)) /\
    same_feed f f' /\ zlen (secbuf f') = 4096 /\ (ok = true -> buf_safe f').
Proof using HL.
  intros Hbuf Hp Hs. destruct (Hs) as (Hb & Hp0 & Hl0). unfold section_header_rest. mrun.
  case_if; [|by eexists _, f]. case_if; [by eexists _, f|].
  destruct (copy_in_total (secbufp f) buf (p + 1) (3 - secbufp f) f w)
    as (f1 & Hrun & Hs1 & Hp1 & Hl1 & Hb1); [done|lia..|].
  rewrite (mbind_Ok _ _ _ _ _ Hrun). mrun.
  set (f2 := set_seclen (section_length (secbuf f1)) f1).
  assert (same_feed f1 f2) as Hs2
    by (exists (secbuf f1), (secbufp f1), (section_length (secbuf f1)), (crc_val f1), (fd_cc f1);
        by destruct f1).
  eexists _, f2. split; [reflexivity|]. split; [by etrans|]. split; [done|].
  intros Hok. split_and!; [done|simpl; lia| |].
  - simpl. apply Z.mod_pos_bound. lia.
  - apply negb_true_iff in Hok. lia.
Qed.

(** The bytes up to the announced length, and the delivery. *)
Lemma finish_total buf p n f (w : W) :
  zlen buf = 188 -> 0 <= p -> 0 <= n -> p + n <= 188 -> buf_safe f -> secbufp f + n = seclen f ->
  is_chain fls (fd_filter f) chain ->
  exists r f' w',
    (forall B (k : Z -> M (FW (W:=W)) B),
      mbind_ (copy_in (secbufp f) buf p n) (fun _ =>
      mbind_ (fmod (fun f => set_secbufp (secbufp f + n) f)) (fun _ =>
      mbind_ (dvb_dmx_swfilter_section_feed fls) k)) (f, w) = k r (f', w')) /\
    same_feed f f' /\ buf_safe f'.
Proof using L HL.
  intros Hbuf Hp Hn Hle (Hb & Hp0 & Hl0) Hsum Hch.
  destruct (copy_in_total (secbufp f) buf p n f w) as (f1 & Hrun & Hs1 & Hp1 & Hl1 & Hb1);
    [done|lia..|].
  set (f2 := set_secbufp (secbufp f1 + n) f1).
  assert (same_feed f1 f2) as Hs2 by
    (exists (secbuf f1), (secbufp f1 + n), (seclen f1), (crc_val f1), (fd_cc f1); by destruct f1).
  assert (same_feed f f2) as Hsf by (by etrans).
  destruct (section_feed_total f2 w) as (r & f3 & w3 & Hrun3 & Hs3 & Hsafe3).
  { by eapply same_feed_chain. }
  { split_and!; simpl; lia. }
  exists r, f3, w3. split_and!; [|by etrans|done].
  intros B k. rewrite (mbind_Ok _ _ _ _ _ Hrun). mrun. fold f2.
  by rewrite (mbind_Ok _ _ _ _ _ Hrun3).
Qed.

Lemma section_rest_total buf p ccok f (w : W) :
  zlen buf = 188 -> 0 <= p -> 0 <= at_ buf p -> p + at_ buf p <= 187 -> buf_safe f ->
  is_chain fls (fd_filter f) chain ->
  exists ok f' w', section_rest fls buf p ccok (f, w) = Ok (ok, (f', w')) /\
    same_feed f f' /\ zlen (secbuf f') = 4096 /\ (ok = true -> buf_safe f').
Proof using L HL.
  intros Hbuf Hp Hq Hle Hs Hch. assert (zlen (secbuf f) = 4096) as Hz by apply Hs.
  unfold section_rest. case_if; [|by eexists _, f, w].
  destruct (section_header_rest_total buf p f w Hbuf Hp Hs) as (ok & f1 & Hrun & Hs1 & Hb1 & Hok).
  rewrite (mbind_Ok _ _ _ _ _ Hrun). destruct ok; cbn [negb]; [|by eexists _, f1, w].
  mrun. specialize (Hok eq_refl). case_if; [|by eexists _, f1, w].
  destruct (finish_total buf (p + 1) (at_ buf p) f1 w) as (r & f2 & w2 & Hk & Hs2 & Hsafe2);
    [done|lia|lia|lia|done|lia|by eapply same_feed_chain|].
  rewrite Hk. eexists _, f2, w2. split; [reflexivity|]. split; [by etrans|].
  split; [apply Hsafe2|done].
Qed.

Lemma section_continue_total buf p count ccok f (w : W) :
  zlen buf = 188 -> 0 <= p -> 0 <= count -> p + count <= 188 -> buf_safe f ->
  is_chain fls (fd_filter f) chain ->
  exists r f' w', section_continue fls buf p count ccok (f, w) = Ok (r, (f', w')) /\
    same_feed f f' /\ zlen (secbuf f') = 4096 /\ (0 <= r -> buf_safe f').
Proof using L HL.
  intros Hbuf Hp Hc Hle Hs Hch. assert (zlen (secbuf f) = 4096) as Hz by apply Hs.
  unfold section_continue. case_if; [by eexists _, f, w|]. mrun.
  case_if; [by eexists _, f, w|].
  set (hdr := if secbufp f <? 3 then _ else _).
  assert (exists ok f1, hdr (f, w) = Ok (ok, (f1, w)) /\ same_feed f f1 /\
    zlen (secbuf f1) = 4096 /\ (ok = true -> buf_safe f1)) as (ok & f1 & Hrun & Hs1 & Hb1 & Hok).
  { subst hdr. destruct (Hs) as (Hb & Hp0 & Hl0). case_if; [|by exists true, f].
    case_if; [by exists false, f|]. mrun.
    destruct (copy_in_total (secbufp f) buf p (3 - secbufp f) (set_crc_val crc_init f) w)
      as (f1 & Hrun & Hs1 & Hp1 & Hl1 & Hb1); [done|lia..|].
    rewrite (mbind_Ok _ _ _ _ _ Hrun). mrun.
    assert (same_feed f (set_crc_val crc_init f)) as Hs0
      by (exists (secbuf f), (secbufp f), (seclen f), crc_init, (fd_cc f); by destruct f).
    set (f2 := set_seclen (section_length (secbuf f1)) f1).
    assert (same_feed f1 f2) as Hs2
      by (exists (secbuf f1), (secbufp f1), (section_length (secbuf f1)), (crc_val f1), (fd_cc f1);
        by destruct f1).
    eexists _, f2. split; [reflexivity|].
    split; [etrans; [exact Hs0|]; etrans; [exact Hs1|exact Hs2]|]. split; [done|].
    intros Hok. split_and!; [done| | |].
    - simpl. rewrite Hp1. simpl. lia.
    - simpl. apply Z.mod_pos_bound. lia.
    - apply negb_true_iff in Hok. lia. }
  rewrite (mbind_Ok _ _ _ _ _ Hrun). destruct ok; cbn [negb]; [|by eexists _, f1, w].
  specialize (Hok eq_refl). mrun. destruct (Hok) as (_ & Hp1 & Hl1).
  case_if; [by eexists _, f1, w|]. case_if.
  - destruct (finish_total buf p (seclen f1 - secbufp f1) f1 w) as (r & f2 & w2 & Hk & Hs2 & Hsafe2);
      [done|lia|lia|lia|done|lia|by eapply same_feed_chain|].
    rewrite Hk. eexists _, f2, w2. split; [reflexivity|]. split; [by etrans|].
    split; [apply Hsafe2|done].
  - destruct (copy_in_total (secbufp f1) buf p count f1 w) as (f2 & Hrun2 & Hs2 & Hp2 & Hl2 & Hb2);
      [done|lia..|].
    rewrite (mbind_Ok _ _ _ _ _ Hrun2). mrun.
    eexists _, _, w. split; [reflexivity|]. split; [|split; [done|intros _; split_and!; simpl; lia]].
    etrans; [exact Hs1|]. etrans; [exact Hs2|].
    exists (secbuf f2), (secbufp f2 + count), (seclen f2), (crc_val f2), (fd_cc f2). by destruct f2.
Qed.

Lemma section_packet_total buf f (w : W) :
  zlen buf = 188 -> bytes buf -> buf_safe f -> is_chain fls (fd_filter f) chain ->
  exists r f' w', dvb_dmx_swfilter_section_packet fls buf (f, w) = Ok (r, (f', w')) /\
    same_feed f f' /\ zlen (secbuf f') = 4096 /\ (0 <= r -> buf_safe f' \/ overlong f').
Proof using L HL.
  intros Hbuf Hby Hs Hch. assert (zlen (secbuf f) = 4096) as Hz by apply Hs.
  unfold dvb_dmx_swfilter_section_packet. case_if; [by eexists _, f, w|].
  pose proof (payload_range buf (bytes_at buf 4 Hby ltac:(lia))) as Hpl. mrun.
  set (p := 188 - payload buf) in *. set (cc := Z.land (at_ buf 3) 15).
  pose proof (same_feed_set_cc f cc) as Hs1. set (f1 := set_fd_cc cc f) in *.
  pose proof (bytes_at buf p Hby ltac:(lia)) as Hbp. unfold is_byte in Hbp.
  case_if; [case_if; [by eexists _, f1, w|]|].
  - destruct (section_rest_total buf p (Z.land (fd_cc f + 1) 15 =? cc) f1 w)
      as (ok & f2 & w2 & Hrun & Hs2 & Hb2 & Hok); [done|lia|lia|lia|exact Hs|done|].
    rewrite (mbind_Ok _ _ _ _ _ Hrun). assert (same_feed f f2) as Hsf2 by (by etrans).
    destruct ok; cbn [negb]; [|by eexists _, f2, w2].
    destruct (section_loop_total 184 buf (p + at_ buf p + 1) (188 - (p + at_ buf p + 1)) f2 w2)
      as (r & f' & w' & Hrun' & Hs' & Hb' & Hend);
      [done|done|lia|by right|lia|by eapply same_feed_chain|by intros; apply Hok|by left; apply Hok|].
    exists r, f', w'. split; [exact Hrun'|]. split; [by etrans|done].
  - destruct (section_continue_total buf p (payload buf) (Z.land (fd_cc f + 1) 15 =? cc) f1 w)
      as (r & f' & w' & Hrun' & Hs' & Hb' & Hend); [done|lia|lia|lia|exact Hs|done|].
    exists r, f', w'. split; [exact Hrun'|]. split; [by etrans|]. split; [done|]. auto.
Qed.

(** C17: no packet, whatever its bytes, makes the section filter leave its
    buffers or run on, as long as the length of the section under way fits;
    afterwards the length fits again, unless the packet ends in the beginning
    of a section that announces 4097 or 4098 bytes. *)
Theorem packet_type_safe idx buf f (w : W) :
  fd_type f = DMX_TYPE_SEC -> zlen buf = 188 -> bytes buf ->
  buf_safe f -> is_chain fls (fd_filter f) chain ->
  exists f' w', dvb_dmx_swfilter_packet_type fls idx buf (f, w) = Ok (tt, (f', w')) /\
    same_feed f f' /\ (buf_safe f' \/ overlong f').
Proof using L HL.
  intros Hty Hbuf Hby Hs Hch. unfold dvb_dmx_swfilter_packet_type. mrun. rewrite Hty.
  cbn [Z.eqb DMX_TYPE_SEC DMX_TYPE_TS Pos.eqb].
  case_if; [exists f, w; split_and!; [done|done|by left]|].
  destruct (section_packet_total buf f w Hbuf Hby Hs Hch) as (r & f1 & w1 & Hrun & Hs1 & Hb1 & Hend).
  rewrite (mbind_Ok _ _ _ _ _ Hrun). case_if.
  - eexists _, w1. split; [reflexivity|]. split.
    + etrans; [exact Hs1|]. exists (secbuf f1), 0, 0, (crc_val f1), (fd_cc f1). by destruct f1.
    + left. split_and!; done.
  - exists f1, w1. split_and!; [done|done|]. apply Hend. lia.
Qed.
End Safety.

(** ** Concrete streams *)

Lemma sample_buf_safe : buf_safe sample_feed.
Proof. split_and!; [reflexivity|done|unfold sample_feed; simpl; lia..]. Qed.

Definition noise_packet : list Z := 0x47 :: 0x40 :: 0x14 :: 0x15 :: 3 :: replicate 183 0x7f.

Lemma packet_type_safe_witness :
  exists f' w', dvb_dmx_swfilter_packet_type sample_filters 0 noise_packet (sample_feed, []) =
      Ok (tt, (f', w')) /\
    same_feed sample_feed f' /\ (buf_safe f' \/ overlong f').
Proof.
  apply (packet_type_safe sample_filters [1%nat; 0%nat]);
    [reflexivity|reflexivity|by apply decide_bytes|exact sample_buf_safe|exact sample_chain].
Defined.

(** A section whose length field is 0xfff: 4098 bytes. *)
Definition section_4098 : list Z := [0x42; 0x7f; 0xff] ++ replicate 4095 0xab.

(** code bug: a section that announces 4098 bytes is copied past the end of
    the 4096 byte buffer; the length of a section that starts in a packet and
    goes on in the next one is not compared with 4096. *)
Theorem overlong_section_overruns :
  zlen section_4098 = section_length section_4098 /\
  feed_packets sample_filters 0 (mux 0x14 0 [section_4098]).1 (sample_feed, []) = Fault.
Proof. by vm_compute. Qed.

Definition section_600 : list Z :=
  [0x42; 0x72; 0x55] ++ map (fun i => Z.of_nat i mod 251) (seq 0 597).

(** Two sections of four packets each; the last three of the first are lost. *)
Definition lossy_stream : list (list Z) :=
  let pkts := (mux 0x14 0 [section_600; section_600]).1 in take 1 pkts ++ drop 4 pkts.

(** Code bug: after a loss of packets the beginning of the next section is
    counted behind the bytes of the broken one ([secbufp += count] without a
    reset at the start of a section), and a client receives a section that was
    never sent, although all packets of the second section arrived in order. *)
Theorem lost_packet_corrupts_next :
  exists f' s,
    feed_packets sample_filters 0 lossy_stream (sample_feed, []) = Ok (tt, (f', [(2, s)])) /\
    zlen s = zlen section_600 /\ s <> section_600.
Proof.
  eexists _, _. split; [vm_compute; reflexivity|]. split; [reflexivity|]. vm_compute. discriminate.
Qed.
