(* ===== verification/SwFrames.v ===== *)
(** * From bytes to packets (dvb-core/dvb_demux.c, lines 385 to 496)

    The entry points a driver calls with received data:
    [dvb_dmx_swfilter_packet], [dvb_dmx_swfilter_packets],
    [dvb_dmx_swfilter] and [dvb_dmx_swfilter_204], which find the packets in a
    byte stream that arrives in pieces of any length. *)

From S2P Require Import Prelude Crc32 DemuxState SwFilter SectionFilter Sample.

(** ** The code *)

Section Frames.
Context {W : Type} {C : DemuxClient W} {D : DemuxDriver W} {H : CrcHooks}.

Definition DW : Type := dvb_demux * W.

Definition dmod (g : dvb_demux -> dvb_demux) : M DW unit := mmodify (fun s => (g s.1, s.2)).
Definition dget : M DW dvb_demux := mgets fst.

Definition dvb_dmx_swfilter_packet (buf : list Z) : M DW unit :=
  fun s =>
    let? r := packet_feeds (filters s.1) (feed_list s.1) (ts_pid buf) buf (feeds s.1, s.2) in
    Ok (tt, (set_feeds r.2.1 s.1, r.2.2)).

(** [count] packets; those without a sync byte are left out. *)
Fixpoint dvb_dmx_swfilter_packets (buf : list Z) (off : Z) (count : nat) : M DW unit :=
  match count with
  | O => mret_ tt
  | S count =>
      let! b := mlift (rd buf off) in
      (if b =? 0x47
       then let! p := mlift (slice buf off 188) in dvb_dmx_swfilter_packet p
       else mret_ tt) ;;;
      dvb_dmx_swfilter_packets buf (off + 188) count
  end.

(** The two variants differ in the length of a packet on the wire, the sync
    bytes, and in what is handed to [dvb_dmx_swfilter_packet]. *)
Section Variant.
Context (fsize : Z) (sync : Z -> bool) (prep : list Z -> list Z).

Fixpoint swfilter_scan (fuel : nat) (buf : list Z) (p : Z) : M DW unit :=
  let count := zlen buf in
  if p <? count then
    match fuel with
    | O => fun _ => Diverge
    | S fuel =>
        let! b := mlift (rd buf p) in
        if sync b then
          if count - p >=? fsize then
            let! pkt := mlift (slice buf p fsize) in
            dvb_dmx_swfilter_packet (prep pkt) ;;;
            swfilter_scan fuel buf (p + fsize)
          else
            let i := count - p in
            let! rest := mlift (slice buf p i) in
            let! d := dget in
            let! t := mlift (memcpy_to (tsbuf d) 0 rest) in
            dmod (set_tsbuf t) ;;;
            dmod (set_tsbufp i)
        else swfilter_scan fuel buf (p + 1)
    end
  else mret_ tt.

Definition swfilter_bytes (buf : list Z) : M DW unit :=
  let count := zlen buf in
  let! d := dget in
  let i := tsbufp d in
  if negb (i =? 0) then
    let j := fsize - i in
    if count <? u32 j then
      let! t := mlift (memcpy_to (tsbuf d) i buf) in
      dmod (set_tsbuf t) ;;;
      dmod (fun d => set_tsbufp (tsbufp d + count) d)
    else
      let! head := mlift (slice buf 0 j) in
      let! t := mlift (memcpy_to (tsbuf d) i head) in
      dmod (set_tsbuf t) ;;;
      (if sync (at_ t 0) then
         let! pkt := mlift (slice t 0 fsize) in dvb_dmx_swfilter_packet (prep pkt)
       else mret_ tt) ;;;
      dmod (set_tsbufp 0) ;;;
      swfilter_scan (length buf) buf j
  else swfilter_scan (length buf) buf 0.
End Variant.

Definition sync_188 (b : Z) : bool := b =? 0x47.
Definition dvb_dmx_swfilter : list Z -> M DW unit := swfilter_bytes 188 sync_188 (fun p => p).

(** Packets with a parity block behind them; the sync byte may be inverted. *)
Definition sync_204 (b : Z) : bool := (b =? 0x47) || (b =? 0xb8).
Definition tmppack (pkt : list Z) : list Z :=
  (if at_ pkt 0 =? 0xb8 then 0x47 else at_ pkt 0) :: take 187 (drop 1 pkt).
Definition dvb_dmx_swfilter_204 : list Z -> M DW unit := swfilter_bytes 204 sync_204 tmppack.
End Frames.

(** ** Specification: the packets in a byte string, and what is left over *)

Section Spec.
Context (fsize : nat) (sync : Z -> bool) (Hfsize : (0 < fsize)%nat).

Fixpoint frames_fuel (fuel : nat) (l : list Z) : list (list Z) * list Z :=
  match fuel, l with
  | S fuel, x :: l' =>
      if sync x then
        if (fsize <=? length l)%nat then
          let r := frames_fuel fuel (drop fsize l) in (take fsize l :: r.1, r.2)
        else ([], l)
      else frames_fuel fuel l'
  | _, _ => ([], [])
  end.

Definition frames (l : list Z) : list (list Z) * list Z := frames_fuel (length l) l.

Lemma frames_fuel_irrel fuel fuel' l :
  (length l <= fuel)%nat -> (length l <= fuel')%nat -> frames_fuel fuel l = frames_fuel fuel' l.
Proof using Hfsize.
  revert fuel' l. induction fuel as [|fuel IH]; intros fuel' l Hf Hf';
    (destruct l as [|x l]; [by destruct fuel'|]); simpl in Hf, Hf'; [lia|].
  destruct fuel' as [|fuel']; [lia|]. cbn [frames_fuel].
  assert (length (drop fsize (x :: l)) <= length l)%nat by (rewrite length_drop; simpl; lia).
  destruct (sync x); [case_if; [|done]|]; rewrite (IH fuel') by lia; done.
Qed.

Lemma frames_fuel_enough fuel l : (length l <= fuel)%nat -> frames_fuel fuel l = frames l.
Proof using Hfsize. intros Hf. by apply frames_fuel_irrel. Qed.

Lemma frames_nil : frames [] = ([], []).
Proof using. done. Qed.

Lemma frames_cons x l :
  frames (x :: l) =
    if sync x then
      if (fsize <=? length (x :: l))%nat then
        (take fsize (x :: l) :: (frames (drop fsize (x :: l))).1,
         (frames (drop fsize (x :: l))).2)
      else ([], x :: l)
    else frames l.
Proof using Hfsize.
  unfold frames at 1. cbn [length frames_fuel].
  destruct (sync x); [|reflexivity]. case_if; [|done].
  rewrite frames_fuel_enough; [done|]. rewrite length_drop. simpl. lia.
Qed.

(** What is left over is shorter than a packet and starts with a sync byte. *)
Lemma frames_rest l :
  (length (frames l).2 < fsize)%nat /\ (forall x r, (frames l).2 = x :: r -> sync x = true).
Proof using Hfsize.
  induction l as [l IH] using (induction_ltof1 _ length). unfold ltof in IH.
  destruct l as [|x l]; [rewrite frames_nil; simpl; split; [lia|done]|].
  rewrite frames_cons. destruct (sync x) eqn:Ex.
  - case_if.
    + apply IH. rewrite length_drop. simpl. lia.
    + apply Nat.leb_gt in Ec. split; [exact Ec|]. intros y r E. cbn [snd] in E. by simplify_eq.
  - apply IH. simpl. lia.
Qed.

(** A stream that arrives in two pieces. *)
Lemma frames_app l k :
  frames (l ++ k) = ((frames l).1 ++ (frames ((frames l).2 ++ k)).1,
                     (frames ((frames l).2 ++ k)).2).
Proof using Hfsize.
  induction l as [l IH] using (induction_ltof1 _ length). unfold ltof in IH.
  destruct l as [|x l]; [rewrite frames_nil; simpl; by destruct (frames k)|].
  rewrite (frames_cons x l). simpl app. destruct (sync x) eqn:Ex.
  - case_if.
    + apply Nat.leb_le in Ec. rewrite frames_cons, Ex.
      replace (fsize <=? length (x :: l ++ k))%nat with true
        by (symmetry; apply Nat.leb_le; simpl in *; rewrite length_app; lia).
      change (x :: l ++ k) with ((x :: l) ++ k).
      rewrite drop_app_le, take_app_le by done.
      rewrite IH by (rewrite length_drop; simpl; lia). done.
    + simpl. by destruct (frames (x :: l ++ k)).
  - rewrite frames_cons, Ex. apply IH. simpl. lia.
Qed.

(** A stream of packets without anything between them. *)
Lemma frames_concat pkts :
  Forall (fun p => length p = fsize /\ sync (at_ p 0) = true) pkts ->
  frames (concat pkts) = (pkts, []).
Proof using Hfsize.
  induction 1 as [|p pkts [Hl Hs] _ IH]; [done|]. simpl.
  destruct p as [|x p]; [simpl in Hl; lia|]. simpl app. rewrite frames_cons.
  change (at_ (x :: p) 0) with x in Hs. rewrite Hs.
  replace (fsize <=? length (x :: p ++ concat pkts))%nat with true
    by (symmetry; apply Nat.leb_le; simpl in *; rewrite length_app; lia).
  change (x :: p ++ concat pkts) with ((x :: p) ++ concat pkts).
  rewrite drop_app_length', take_app_length', IH by done. done.
Qed.
End Spec.

(** ** The code computes the specification *)

Definition res_map {A B} (g : A -> B) (r : res A) : res B := let? a := r in Ok (g a).

Lemma res_map_bind {A B E} (g : B -> E) (r : res A) (k : A -> res B) :
  res_map g (let? a := r in k a) = let? a := r in res_map g (k a).
Proof. by destruct r. Qed.

Section Refinement.
Context {W : Type} {C : DemuxClient W} {D : DemuxDriver W} {H : CrcHooks}.

(** The packets one after the other. *)
Fixpoint run_packets (pkts : list (list Z)) : M (DW (W:=W)) unit :=
  match pkts with
  | [] => mret_ tt
  | p :: pkts => dvb_dmx_swfilter_packet p ;;; run_packets pkts
  end.

Lemma run_packets_app p1 p2 s :
  run_packets (p1 ++ p2) s = let? r := run_packets p1 s in run_packets p2 r.2.
Proof using.
  revert s. induction p1 as [|p p1 IH]; intros s; simpl; [done|]. unfold mbind_.
  destruct (dvb_dmx_swfilter_packet p s) as [[[] s']| | |]; simpl; auto.
Qed.

(** Packets do not touch the partial packet, nor does it influence them. *)
Definition with_partial (t : list Z) (n : Z) (s : DW (W:=W)) : DW :=
  (set_tsbufp n (set_tsbuf t s.1), s.2).

Lemma swfilter_packet_partial t n p s :
  dvb_dmx_swfilter_packet p (with_partial t n s) =
  res_map (fun r => (r.1, with_partial t n r.2)) (dvb_dmx_swfilter_packet p s).
Proof using.
  unfold dvb_dmx_swfilter_packet, with_partial. simpl.
  by destruct (packet_feeds _ _ _ _ _) as [[[] [fs w]]| | |].
Qed.

Lemma run_packets_partial t n pkts s :
  run_packets pkts (with_partial t n s) =
  res_map (fun r => (r.1, with_partial t n r.2)) (run_packets pkts s).
Proof using.
  revert s. induction pkts as [|p pkts IH]; intros s; simpl; [done|].
  unfold mbind_. rewrite swfilter_packet_partial.
  destruct (dvb_dmx_swfilter_packet p s) as [[[] s']| | |]; simpl; auto.
Qed.

Lemma run_packets_keeps pkts s r :
  run_packets pkts s = Ok r -> tsbuf r.2.1 = tsbuf s.1 /\ tsbufp r.2.1 = tsbufp s.1.
Proof using.
  revert s. induction pkts as [|p pkts IH]; intros s Hr; simpl in Hr; [by injection Hr as <-|].
  unfold mbind_ in Hr. inv_res Hr. apply IH in Hr as [-> ->].
  unfold dvb_dmx_swfilter_packet in Hr0. inv_res Hr0. by simplify_eq.
Qed.

Section Variant.
Context (fsize : Z) (sync : Z -> bool) (prep : list Z -> list Z) (Hfsize : 0 < fsize <= 204).

Let fs := frames (Z.to_nat fsize) sync.

Lemma fs_pos : (0 < Z.to_nat fsize)%nat.
Proof using Hfsize. lia. Qed.

(** The bytes of the packet under way. *)
Definition pending (d : dvb_demux) : list Z := take (Z.to_nat (tsbufp d)) (tsbuf d).

Definition partial_ok (d : dvb_demux) : Prop :=
  zlen (tsbuf d) = 204 /\ 0 <= tsbufp d < fsize /\
  (0 < tsbufp d -> sync (at_ (tsbuf d) 0) = true).

(** [r] is the outcome of running the packets of [fr] from [s], with the
    rest of [fr] under way afterwards. *)
Definition framed (s : DW (W:=W)) (fr : list (list Z) * list Z) (r : res (unit * DW)) : Prop :=
  match run_packets (map prep fr.1) s with
  | Ok q => exists t, zlen t = 204 /\ take (length fr.2) t = fr.2 /\
      r = Ok (tt, with_partial t (zlen fr.2) q.2)
  | Fault => r = Fault
  | Block => r = Block
  | Diverge => r = Diverge
  end.

Lemma framed_step pkt fr s (k : DW -> res (unit * DW)) :
  (forall s1, dvb_dmx_swfilter_packet (prep pkt) s = Ok (tt, s1) -> framed s1 fr (k s1)) ->
  framed s (pkt :: fr.1, fr.2) (let? r := dvb_dmx_swfilter_packet (prep pkt) s in k r.2).
Proof using.
  intros Hk. unfold framed. cbn [fst snd map run_packets]. unfold mbind_.
  destruct (dvb_dmx_swfilter_packet (prep pkt) s) as [[[] s1]| | |]; cbn [res_bind fst snd];
    [|done..]. by apply Hk.
Qed.

Lemma framed_done t rest s :
  zlen t = 204 -> take (length rest) t = rest ->
  framed s ([], rest) (Ok (tt, with_partial t (zlen rest) s)).
Proof using. intros Ht Hr. unfold framed. simpl. eauto. Qed.

Lemma with_partial_id s : with_partial (tsbuf s.1) (tsbufp s.1) s = s.
Proof using. destruct s as [[] w]. done. Qed.

Lemma framed_nothing s :
  zlen (tsbuf s.1) = 204 -> tsbufp s.1 = 0 -> framed s ([], []) (Ok (tt, s)).
Proof using.
  intros Ht Hn. rewrite <- (with_partial_id s) at 2. rewrite Hn. by apply (framed_done _ []).
Qed.

Lemma framed_with_partial t n s fr r : framed (with_partial t n s) fr r -> framed s fr r.
Proof using.
  unfold framed. rewrite run_packets_partial.
  destruct (run_packets (map prep fr.1) s) as [[[] s1]| | |]; done.
Qed.

Lemma scan_framed fuel : forall buf p s,
  0 <= p -> zlen buf - p <= Z.of_nat fuel -> zlen (tsbuf s.1) = 204 -> tsbufp s.1 = 0 ->
  framed s (fs (drop (Z.to_nat p) buf)) (swfilter_scan fsize sync prep fuel buf p s).
Proof using Hfsize.
  pose proof fs_pos as Hpos. unfold fs.
  induction fuel as [|fuel IH]; intros buf p s Hp Hf Ht Hn; cbn [swfilter_scan].
  { rif. rewrite drop_ge by (unfold zlen in *; lia). by apply framed_nothing. }
  destruct (Z.ltb_spec p (zlen buf)) as [Hlt|Hge].
  2: { rewrite drop_ge by (unfold zlen in *; lia). by apply framed_nothing. }
  rewrite rd_ok by lia. mrun.
  destruct (drop (Z.to_nat p) buf) as [|x l] eqn:Hd.
  { apply (f_equal zlen) in Hd. rewrite zlen_dropZ, zlen_nil in Hd by lia. lia. }
  assert (at_ buf p = x) as Hx.
  { rewrite <- (Z.add_0_r p), <- (at_suffix buf p _ 0 Hp ltac:(lia) Hd). done. }
  pose proof (suffix_zlen _ _ _ Hd ltac:(lia)) as Hz.
  rewrite Hx, frames_cons by done. destruct (sync x) eqn:Ex.
  - assert ((Z.to_nat fsize <=? length (x :: l))%nat = (zlen buf - p >=? fsize)) as ->.
    { rewrite <- Hz. unfold zlen. apply eq_true_iff_eq.
      rewrite Nat.leb_le, Z.geb_le. lia. }
    destruct (zlen buf - p >=? fsize) eqn:Efit.
    + assert (slice buf p fsize = Ok (take (Z.to_nat fsize) (x :: l))) as Hs
        by (rewrite slice_ok by lia; by rewrite Hd).
      rewrite Hs. mrun. rewrite <- Hd, drop_drop, <- Z2Nat.inj_add by lia.
      apply framed_step. intros s1 E1.
      destruct (run_packets_keeps [prep (take (Z.to_nat fsize) (drop (Z.to_nat p) buf))] s (tt, s1))
        as [Ht1 Hn1]; [simpl; unfold mbind_; by rewrite E1|].
      simpl in Ht1, Hn1. apply IH; try lia; congruence.
    + assert (slice buf p (zlen buf - p) = Ok (x :: l)) as Hs.
      { rewrite slice_ok by lia. rewrite Hd, take_ge; [done|]. unfold zlen in *. lia. }
      rewrite Hs. mrun. unfold dget. mrun.
      destruct (memcpy_to_some (tsbuf s.1) 0 (x :: l)) as [t Hm]; [lia|lia|].
      rewrite Hm. mrun. unfold dmod. mrun. rewrite <- Hz.
      pose proof (memcpy_to_length _ _ _ _ Hm).
      apply (framed_done t (x :: l)); [unfold zlen in *; lia|by eapply memcpy_take_0].
  - replace l with (drop (Z.to_nat (p + 1)) buf)
      by (apply (drop_suffix buf p [x]); done).
    apply IH; done || lia.
Qed.

(** The whole routine, with a packet under way at the beginning. *)
Lemma swfilter_framed buf s :
  partial_ok s.1 -> framed s (fs (pending s.1 ++ buf)) (swfilter_bytes fsize sync prep buf s).
Proof using Hfsize.
  intros (Ht & Hn & Hs). pose proof fs_pos as Hpos. unfold swfilter_bytes, dget. mrun.
  destruct (Z.eqb_spec (tsbufp s.1) 0) as [Hz|Hz]; cbn [negb].
  { unfold pending. rewrite Hz. simpl app.
    rewrite <- (drop_0 buf) at 1. apply (scan_framed (length buf) buf 0); try done; unfold zlen; lia. }
  unfold u32. rewrite Z.mod_small by lia.
  assert (zlen (pending s.1) = tsbufp s.1) as Hpz by (apply zlen_takeZ; lia).
  specialize (Hs ltac:(lia)). unfold fs.
  assert (exists y, pending s.1 = at_ (tsbuf s.1) 0 :: y) as [y Hy].
  { unfold pending in *. destruct (tsbuf s.1) as [|z zs]; [rewrite zlen_nil in Ht; lia|].
    exists (take (Z.to_nat (tsbufp s.1) - 1) zs).
    replace (Z.to_nat (tsbufp s.1)) with (S (Z.to_nat (tsbufp s.1) - 1)) at 1 by lia. done. }
  destruct (Z.ltb_spec (zlen buf) (fsize - tsbufp s.1)) as [Hlt|Hge].
  - destruct (memcpy_to_some (tsbuf s.1) (tsbufp s.1) buf) as [t Hm]; [lia|lia|].
    rewrite Hm. mrun. unfold dmod. mrun.
    pose proof (memcpy_to_length _ _ _ _ Hm). pose proof (memcpy_take _ _ _ _ Hm) as Hmt.
    fold (pending s.1) in Hmt. rewrite Hy at 1. simpl app. rewrite frames_cons, Hs by done.
    change (at_ (tsbuf s.1) 0 :: y ++ buf) with ((at_ (tsbuf s.1) 0 :: y) ++ buf).
    rewrite <- Hy.
    replace (Z.to_nat fsize <=? length (pending s.1 ++ buf))%nat with false.
    2: { symmetry. apply Nat.leb_gt. rewrite length_app. unfold zlen in *. lia. }
    unfold mmodify. cbn [fst snd]. change (tsbufp (set_tsbuf t s.1)) with (tsbufp s.1).
    replace (tsbufp s.1 + zlen buf) with (zlen (pending s.1 ++ buf)) by (rewrite zlen_app; lia).
    apply framed_done; [unfold zlen in *; lia|]. rewrite <- Hmt at 2. f_equal.
    rewrite length_app. unfold zlen in *. lia.
  - set (j := fsize - tsbufp s.1) in *. rewrite slice_ok by lia. mrun. rewrite drop_0.
    set (head := take (Z.to_nat j) buf). assert (zlen head = j) as Hh by (apply zlen_takeZ; lia).
    destruct (memcpy_to_some (tsbuf s.1) (tsbufp s.1) head) as [t Hm]; [lia|lia|].
    rewrite Hm. mrun. unfold dmod. mrun.
    pose proof (memcpy_to_length _ _ _ _ Hm). pose proof (memcpy_take _ _ _ _ Hm) as Hmt.
    fold (pending s.1) in Hmt.
    assert (at_ t 0 = at_ (tsbuf s.1) 0) as Ht0
      by (rewrite (memcpy_at _ _ _ _ 0 Hm) by lia; by rif).
    rewrite Ht0, Hs. rewrite slice_ok by (unfold zlen in *; lia). mrun. rewrite drop_0.
    replace (tsbufp s.1 + zlen head) with fsize in Hmt by lia. rewrite Hmt.
    assert (frames (Z.to_nat fsize) sync (pending s.1 ++ buf) =
      ((pending s.1 ++ head) :: (frames (Z.to_nat fsize) sync (drop (Z.to_nat j) buf)).1,
       (frames (Z.to_nat fsize) sync (drop (Z.to_nat j) buf)).2)) as ->.
    { assert (pending s.1 ++ buf = (pending s.1 ++ head) ++ drop (Z.to_nat j) buf) as E
        by (rewrite <- app_assoc; unfold head; by rewrite take_drop).
      assert (length (pending s.1 ++ head) = Z.to_nat fsize) as Hlen
        by (rewrite length_app; unfold zlen in *; lia).
      rewrite E. rewrite Hy at 1. simpl app at 1. rewrite frames_cons, Hs by done.
      change (at_ (tsbuf s.1) 0 :: (y ++ head) ++ drop (Z.to_nat j) buf) with
        (((at_ (tsbuf s.1) 0 :: y) ++ head) ++ drop (Z.to_nat j) buf).
      rewrite <- Hy, drop_app_length', take_app_length' by done.
      by replace (Z.to_nat fsize <=? length ((pending s.1 ++ head) ++ drop (Z.to_nat j) buf))%nat
        with true by (symmetry; apply Nat.leb_le; rewrite length_app; lia). }
    change (set_tsbuf t s.1, s.2) with (with_partial t (tsbufp s.1) s).
    unfold mbind_ at 1. rewrite swfilter_packet_partial.
    replace (let? p := res_map _ (dvb_dmx_swfilter_packet (prep (pending s.1 ++ head)) s) in _)
      with (let? r := dvb_dmx_swfilter_packet (prep (pending s.1 ++ head)) s in
            swfilter_scan fsize sync prep (length buf) buf j (with_partial t 0 r.2))
      by (by destruct (dvb_dmx_swfilter_packet _ s) as [[[] s1]| | |]).
    apply (framed_step _ (frames (Z.to_nat fsize) sync (drop (Z.to_nat j) buf)) s
      (fun s1 => swfilter_scan fsize sync prep (length buf) buf j (with_partial t 0 s1))).
    intros s1 _. apply (framed_with_partial t 0). apply scan_framed; simpl;
      unfold zlen in *; lia.
Qed.

Lemma framed_ok s fr s' :
  framed s fr (Ok (tt, s')) -> (length fr.2 < Z.to_nat fsize)%nat ->
  (forall x r, fr.2 = x :: r -> sync x = true) ->
  pending s'.1 = fr.2 /\ partial_ok s'.1.
Proof using Hfsize.
  intros Hfr Hlen Hsync. unfold framed in Hfr.
  destruct (run_packets (map prep fr.1) s) as [[[] s1]| | |]; try done.
  destruct Hfr as (t & Ht & Htk & [= ->]). unfold pending, partial_ok. simpl.
  unfold zlen in *. rewrite Nat2Z.id. split_and!; [done|done|lia|lia|].
  intros Hpos. destruct fr as [pk [|x rest]]; simpl in *; [lia|].
  destruct t as [|y t]; simpl in Htk; [done|]. injection Htk as -> Htk. by eapply Hsync.
Qed.

(** Data that arrives in any number of pieces. *)
Fixpoint swfilter_chunks (chunks : list (list Z)) : M DW unit :=
  match chunks with
  | [] => mret_ tt
  | c :: chunks => swfilter_bytes fsize sync prep c ;;; swfilter_chunks chunks
  end.

Lemma chunks_framed chunks : forall s,
  partial_ok s.1 -> framed s (fs (pending s.1 ++ concat chunks)) (swfilter_chunks chunks s).
Proof using Hfsize.
  pose proof fs_pos as Hpos.
  induction chunks as [|c chunks IH]; intros s Hs; cbn [swfilter_chunks concat].
  - rewrite app_nil_r. destruct (Hs) as (Ht & Hn & Hsy). unfold fs.
    assert (frames (Z.to_nat fsize) sync (pending s.1) = ([], pending s.1)) as ->.
    { destruct (pending s.1) as [|x l] eqn:E; [done|].
      assert (zlen (pending s.1) = tsbufp s.1) as Hpz by (apply zlen_takeZ; lia).
      rewrite E in Hpz. pose proof (zlen_nonneg l). rewrite zlen_cons in Hpz.
      assert (at_ (tsbuf s.1) 0 = x) as Hx.
      { unfold pending in E. rewrite <- (at_take _ (tsbufp s.1) 0) by lia. by rewrite E. }
      rewrite frames_cons by done. rewrite <- Hx, Hsy by lia.
      replace (Z.to_nat fsize <=? _)%nat with false; [done|].
      symmetry. apply Nat.leb_gt. simpl. unfold zlen in Hpz. lia. }
    unfold framed. cbn [map run_packets fst snd]. unfold mret_.
    exists (tsbuf s.1). split; [done|]. unfold pending.
    assert (length (take (Z.to_nat (tsbufp s.1)) (tsbuf s.1)) = Z.to_nat (tsbufp s.1)) as Hl
      by (rewrite length_take; unfold zlen in *; lia).
    rewrite Hl. split; [done|]. unfold zlen. rewrite Hl, Z2Nat.id by lia.
    by rewrite with_partial_id.
  - rewrite app_assoc. unfold fs. rewrite frames_app by done.
    pose proof (swfilter_framed c s Hs) as Hfr. unfold fs in Hfr.
    destruct (frames_rest (Z.to_nat fsize) sync ltac:(lia) (pending s.1 ++ c)) as [Hr1 Hr2].
    set (fr := frames (Z.to_nat fsize) sync (pending s.1 ++ c)) in *.
    unfold mbind_, framed in *. cbn [fst snd]. rewrite map_app, run_packets_app.
    destruct (run_packets (map prep fr.1) s) as [[[] s1]| | |] eqn:E1; cbn [res_bind];
      [|by rewrite Hfr..].
    destruct Hfr as (t & Ht & Htk & Heq). rewrite Heq. cbn [res_bind fst snd].
    destruct (framed_ok s fr (with_partial t (zlen fr.2) s1)) as [Hp Hok];
      [unfold framed; rewrite E1; eauto|done|done|].
    specialize (IH _ Hok). rewrite Hp in IH. by apply framed_with_partial in IH.
Qed.
End Variant.

(** C27: the packets the demultiplexer sees depend on the bytes it is given
    only, not on how they are cut into pieces: processing the pieces one after
    the other is running, in order, the packets of the whole byte string (the
    bytes of a packet begun before included), and keeping the incomplete
    packet at its end.  The same for packets with a parity block. *)
Theorem swfilter_chunking chunks s :
  (partial_ok 188 sync_188 s.1 ->
   framed (fun p => p) s (frames 188 sync_188 (pending s.1 ++ concat chunks))
     (swfilter_chunks 188 sync_188 (fun p => p) chunks s)) /\
  (partial_ok 204 sync_204 s.1 ->
   framed tmppack s (frames 204 sync_204 (pending s.1 ++ concat chunks))
     (swfilter_chunks 204 sync_204 tmppack chunks s)).
Proof using.
  split; intros Hs.
  - exact (chunks_framed 188 sync_188 (fun p => p) ltac:(lia) chunks s Hs).
  - exact (chunks_framed 204 sync_204 tmppack ltac:(lia) chunks s Hs).
Qed.
End Refinement.

(** A demultiplexer with one section feed on PID 0x14. *)
Definition sample_demux : dvb_demux :=
  mk_dvb_demux sample_filters [sample_feed] 0 [] None (replicate 20 None) (replicate 20 0xffff)
    0 0 [0%nat] (replicate 204 0) 0 false false.

Lemma sample_partial fsize sync : 0 < fsize -> partial_ok fsize sync sample_demux.
Proof. intros. split_and!; simpl; try done; lia. Qed.

Lemma swfilter_chunking_witness :
  framed (fun p => p) (sample_demux, ([] : log)) (frames 188 sync_188 [1; 2; 0x47; 3; 4])
    (swfilter_chunks 188 sync_188 (fun p => p) [[1; 2]; [0x47; 3]; [4]] (sample_demux, [])).
Proof.
  apply (swfilter_chunking [[1; 2]; [0x47; 3]; [4]] (sample_demux, [])). by apply sample_partial.
Defined.
