(* ===== verification/TransportStream.v ===== *)
(** * A transport stream through the demultiplexer

    The layers of dvb_demux.c together: bytes in pieces ([dvb_dmx_swfilter]),
    packets on several PIDs ([dvb_dmx_swfilter_packet]), sections
    ([dvb_dmx_swfilter_section_packet]) and section filters. *)

From S2P Require Import Prelude Crc32 DemuxState SwFilter SectionFilter Sample Reassembly SectionStream SwFrames.

Section Transport.
Context {W : Type} {C : DemuxClient W} {L : DemuxClientSpec W} {D : DemuxDriver W}.
Context {H : CrcHooks} {HL : CrcHooksLaws}.







End Transport.


