(* ===== verification/Feeds.v ===== *)
(** * Feeds and filters (dvb-core/dvb_demux.c, lines 41 to 71 and 499 to 1255)

    The demux API: registration, allocation of feeds and section filters,
    their parameters, starting and stopping, and the memory front end.

    A call that takes the demux mutex is written as the code writes it, with
    the [up] of every return.  [down_interruptible] on a mutex that is held
    waits for whoever holds it: a pending signal ends the wait, and without one
    the outcome is [Block] (the only holder the model has is the caller). *)

From S2P Require Import Prelude Crc32 DemuxState SwFilter SwFrames.

(** ** Registration (41 to 71) *)

Record dmx_demux := mk_dmx_demux { dm_id : Z; dm_users : Z }.

Definition dmx_register_demux (demux : dmx_demux) (muxs : list dmx_demux) : Z * list dmx_demux :=
  (0, mk_dmx_demux (dm_id demux) 0 :: muxs).

Fixpoint dmx_unregister_demux (id : Z) (muxs : list dmx_demux) : Z * list dmx_demux :=
  match muxs with
  | [] => (- ENODEV, [])
  | m :: ms =>
      if dm_id m =? id then
        if dm_users m >? 0 then (- EINVAL, m :: ms) else (0, ms)
      else let r := dmx_unregister_demux id ms in (r.1, m :: r.2)
  end.

(** [dmx_get_demuxes]: NULL when there are none. *)
Definition dmx_get_demuxes (muxs : list dmx_demux) : option (list dmx_demux) :=
  match muxs with [] => None | _ => Some muxs end.

Section Feeds.
Context {W : Type} {C : DemuxClient W} {D : DemuxDriver W} {H : CrcHooks}.
Abbreviation MD := (M (DW (W:=W))).

(** ** Access to the arrays, the mutex *)

Definition feed_get (i : nat) : MD dvb_demux_feed :=
  let! d := dget in match feeds d !! i with Some f => mret_ f | None => mfault end.
Definition feed_mod (i : nat) (g : dvb_demux_feed -> dvb_demux_feed) : MD unit :=
  let! f := feed_get i in dmod (fun d => set_feeds (<[i := g f]> (feeds d)) d).
Definition filter_get (j : nat) : MD dvb_demux_filter :=
  let! d := dget in match filters d !! j with Some f => mret_ f | None => mfault end.
Definition filter_mod (j : nat) (g : dvb_demux_filter -> dvb_demux_filter) : MD unit :=
  let! f := filter_get j in dmod (fun d => set_filters (<[j := g f]> (filters d)) d).

Definition down_interruptible : MD bool :=
  let! d := dget in
  if mutex_held d then
    if signal d then mret_ true else fun _ => Block
  else dmod (set_mutex_held true) ;;; mret_ false.
Definition up : MD unit := dmod (set_mutex_held false).
(** [up (&mutex); return r] *)
Definition up_return {A} (r : A) : MD A := up ;;; mret_ r.

(** [demux->start_feed (feed)] and its like. *)
Definition drv_call (c : nat -> dvb_demux_feed -> W -> res (Z * W)) (i : nat) : MD Z :=
  let! f := feed_get i in
  fun s => let? r := c i f s.2 in Ok (r.1, (s.1, r.2)).

(** ** Allocation (499 to 529) *)

Fixpoint first_free {A} (st : A -> Z) (l : list A) (i : nat) : option nat :=
  match l with
  | [] => None
  | x :: l => if st x =? DMX_STATE_FREE then Some i else first_free st l (S i)
  end.

Definition dvb_dmx_filter_alloc : MD (option nat) :=
  let! d := dget in
  match first_free fl_state (filters d) 0 with
  | None => mret_ None
  | Some j => filter_mod j (set_fl_state DMX_STATE_ALLOCATED) ;;; mret_ (Some j)
  end.

Definition dvb_dmx_feed_alloc : MD (option nat) :=
  let! d := dget in
  match first_free fd_state (feeds d) 0 with
  | None => mret_ None
  | Some i => feed_mod i (set_fd_state DMX_STATE_ALLOCATED) ;;; mret_ (Some i)
  end.

(** ** The feed list (531 to 562) *)

Definition dvb_demux_feed_find (i : nat) (d : dvb_demux) : bool :=
  existsb (Nat.eqb i) (feed_list d).

Definition dvb_demux_feed_add (i : nat) : MD unit :=
  let! d := dget in
  if dvb_demux_feed_find i d then mret_ tt
  else dmod (set_feed_list (i :: feed_list d)).

Fixpoint list_del (i : nat) (l : list nat) : list nat :=
  match l with
  | [] => []
  | j :: l => if Nat.eqb i j then l else j :: list_del i l
  end.

Definition dvb_demux_feed_del (i : nat) : MD unit :=
  let! d := dget in
  if negb (dvb_demux_feed_find i d) then mret_ tt
  else dmod (set_feed_list (list_del i (feed_list d))).

(** ** TS feeds (564 to 768) *)

Definition dmx_ts_feed_set (i : nat) (pid type pes cb_length buffer_size : Z)
    (descramble : bool) (timeout : Z) : MD Z :=
  if pid >? DMX_MAX_PID then mret_ (- EINVAL) else
  let! e := down_interruptible in
  if e : bool then mret_ (- ERESTARTSYS) else
  let! d := dget in
  let decoder := negb (Z.land type TS_DECODER =? 0) in
  if decoder && (pes >=? DMX_TS_PES_OTHER) then up_return (- EINVAL) else
  if decoder && match default None (pesfilter d !! Z.to_nat pes) with
                | Some j => negb (Nat.eqb j i) | None => false end
  then up_return (- EINVAL) else
  (if decoder then
     dmod (fun d => set_pesfilter (<[Z.to_nat pes := Some i]> (pesfilter d)) d) ;;;
     dmod (fun d => set_dx_pids (<[Z.to_nat pes := pid]> (dx_pids d)) d)
   else mret_ tt) ;;;
  dvb_demux_feed_add i ;;;
  feed_mod i (fun f => set_fd_pid pid (set_fd_buffer_size buffer_size
    (set_fd_descramble descramble (set_fd_timeout timeout (set_fd_cb_length cb_length
    (set_ts_type type (set_pes_type pes f))))))) ;;;
  if descramble then up_return (- ENOSYS) else
  feed_mod i (set_fd_state DMX_STATE_READY) ;;;
  up_return 0.

Definition dmx_ts_feed_start_filtering (i : nat) : MD Z :=
  let! e := down_interruptible in
  if e : bool then mret_ (- ERESTARTSYS) else
  let! f := feed_get i in
  if negb (fd_state f =? DMX_STATE_READY) || negb (fd_type f =? DMX_TYPE_TS)
  then up_return (- EINVAL) else
  match drv_start_feed with
  | None => up_return (- ENODEV)
  | Some start =>
      let! ret := drv_call start i in
      if ret <? 0 then up_return ret else
      feed_mod i (fun f => set_fd_state DMX_STATE_GO (set_is_filtering true f)) ;;;
      up_return 0
  end.

Definition dmx_ts_feed_stop_filtering (i : nat) : MD Z :=
  let! e := down_interruptible in
  if e : bool then mret_ (- ERESTARTSYS) else
  let! f := feed_get i in
  if fd_state f <? DMX_STATE_GO then up_return (- EINVAL) else
  match drv_stop_feed with
  | None => up_return (- ENODEV)
  | Some stop =>
      let! ret := drv_call stop i in
      feed_mod i (fun f => set_fd_state DMX_STATE_ALLOCATED (set_is_filtering false f)) ;;;
      up_return ret
  end.

(** Returns the code and, on success, the feed. *)
Definition dvbdmx_allocate_ts_feed (callback : Z) : MD (Z * option nat) :=
  let! e := down_interruptible in
  if e : bool then mret_ (- ERESTARTSYS, None) else
  let! o := dvb_dmx_feed_alloc in
  match o with
  | None => up_return (- EBUSY, None)
  | Some i =>
      feed_mod i (fun f => set_fd_type DMX_TYPE_TS (set_fd_cb callback (set_fd_pid 0xffff
        (set_peslen 0xfffa (set_fd_priv 0 (set_is_filtering false f)))))) ;;;
      let! j := dvb_dmx_filter_alloc in
      feed_mod i (set_fd_filter j) ;;;
      match j with
      | None =>
          feed_mod i (set_fd_state DMX_STATE_FREE) ;;;
          up_return (- EBUSY, Some i)
      | Some j =>
          filter_mod j (fun f => set_fl_type DMX_TYPE_TS (set_fl_feed (Some i)
            (set_fl_state DMX_STATE_READY f))) ;;;
          up_return (0, Some i)
      end
  end.

Definition dvbdmx_release_ts_feed (i : nat) : MD Z :=
  let! e := down_interruptible in
  if e : bool then mret_ (- ERESTARTSYS) else
  let! f := feed_get i in
  if fd_state f =? DMX_STATE_FREE then up_return (- EINVAL) else
  feed_mod i (set_fd_state DMX_STATE_FREE) ;;;
  match fd_filter f with
  | None => mfault
  | Some j =>
      filter_mod j (set_fl_state DMX_STATE_FREE) ;;;
      dvb_demux_feed_del i ;;;
      feed_mod i (set_fd_pid 0xffff) ;;;
      (if negb (Z.land (ts_type f) TS_DECODER =? 0)
       then dmod (fun d => set_pesfilter (<[Z.to_nat (pes_type f) := None]> (pesfilter d)) d)
       else mret_ tt) ;;;
      up_return 0
  end.

(** ** Section feeds (775 to 1041) *)

Definition dmx_section_feed_allocate_filter (i : nat) : MD (Z * option nat) :=
  let! e := down_interruptible in
  if e : bool then mret_ (- ERESTARTSYS, None) else
  let! o := dvb_dmx_filter_alloc in
  match o with
  | None => up_return (- EBUSY, None)
  | Some j =>
      let! f := feed_get i in
      filter_mod j (fun g => set_sf_priv 0 (set_fl_feed (Some i) (set_fl_type DMX_TYPE_SEC
        (set_fl_state DMX_STATE_READY (set_fl_next (fd_filter f) g))))) ;;;
      feed_mod i (set_fd_filter (Some j)) ;;;
      up_return (0, Some j)
  end.

Definition dmx_section_feed_set (i : nat) (pid buffer_size : Z) (descramble crc : bool) : MD Z :=
  if pid >? 0x1fff then mret_ (- EINVAL) else
  let! e := down_interruptible in
  if e : bool then mret_ (- ERESTARTSYS) else
  dvb_demux_feed_add i ;;;
  feed_mod i (fun f => set_fd_pid pid (set_fd_buffer_size buffer_size
    (set_fd_descramble descramble f))) ;;;
  if descramble then up_return (- ENOSYS) else
  feed_mod i (fun f => set_check_crc crc (set_fd_state DMX_STATE_READY f)) ;;;
  up_return 0.

(** The body of the loop of [prepare_secfilters] (857 to 866), for one filter:
    bytes 0 to 17 in order. *)
Definition prepare_filter (f : dvb_demux_filter) : dvb_demux_filter :=
  let bits g := map (fun i => u8 (g (at_ (filter_mask f) (Z.of_nat i))
                                    (at_ (filter_mode f) (Z.of_nat i))))
                  (seq 0 DVB_DEMUX_MASK_MAX) in
  let andmode := bits Z.land in
  let andnotmode := bits (fun mask mode => Z.land mask (Z.lnot mode)) in
  let doneq := fold_left Z.lor andnotmode 0 in
  set_maskandmode andmode (set_maskandnotmode andnotmode
    (set_doneq (c_bool (negb (doneq =? 0))) f)).

Fixpoint prepare_chain (fuel : nat) (j : nat) : MD unit :=
  match fuel with
  | O => fun _ => Diverge
  | S fuel =>
      filter_mod j prepare_filter ;;;
      let! f := filter_get j in
      match fl_next f with
      | None => mret_ tt
      | Some k => prepare_chain fuel k
      end
  end.

Definition prepare_secfilters (i : nat) : MD unit :=
  let! f := feed_get i in
  let! d := dget in
  match fd_filter f with
  | None => mret_ tt
  | Some j => prepare_chain (length (filters d)) j
  end.

Definition dmx_section_feed_start_filtering (i : nat) : MD Z :=
  let! e := down_interruptible in
  if e : bool then mret_ (- ERESTARTSYS) else
  let! f := feed_get i in
  if is_filtering f then up_return (- EBUSY) else
  match fd_filter f with
  | None => up_return (- EINVAL)
  | Some _ =>
      feed_mod i (fun f => set_secbufp 0 (set_seclen 0 f)) ;;;
      match drv_start_feed with
      | None => up_return (- ENODEV)
      | Some start =>
          prepare_secfilters i ;;;
          let! ret := drv_call start i in
          if ret <? 0 then up_return ret else
          feed_mod i (fun f => set_fd_state DMX_STATE_GO (set_is_filtering true f)) ;;;
          up_return 0
      end
  end.

Definition dmx_section_feed_stop_filtering (i : nat) : MD Z :=
  let! e := down_interruptible in
  if e : bool then mret_ (- ERESTARTSYS) else
  match drv_stop_feed with
  | None => up_return (- ENODEV)
  | Some stop =>
      let! ret := drv_call stop i in
      feed_mod i (fun f => set_fd_state DMX_STATE_READY (set_is_filtering false f)) ;;;
      up_return ret
  end.

(** [while (f->next != filter) f = f->next; f->next = f->next->next] *)
Fixpoint unlink_filter (fuel : nat) (k j : nat) : MD unit :=
  match fuel with
  | O => fun _ => Diverge
  | S fuel =>
      let! f := filter_get k in
      match fl_next f with
      | None => mfault
      | Some n =>
          if Nat.eqb n j then
            let! g := filter_get j in filter_mod k (set_fl_next (fl_next g))
          else unlink_filter fuel n j
      end
  end.

Definition dmx_section_feed_release_filter (i j : nat) : MD Z :=
  let! e := down_interruptible in
  if e : bool then mret_ (- ERESTARTSYS) else
  let! g := filter_get j in
  if negb (match fl_feed g with Some k => Nat.eqb k i | None => false end)
  then up_return (- EINVAL) else
  let! f := feed_get i in
  (if is_filtering f then dmx_section_feed_stop_filtering i ;;; mret_ tt else mret_ tt) ;;;
  let! f := feed_get i in
  let! g := filter_get j in
  let! d := dget in
  (match fd_filter f with
   | None => mfault
   | Some k =>
       if Nat.eqb k j then feed_mod i (set_fd_filter (fl_next g))
       else unlink_filter (length (filters d)) k j
   end) ;;;
  filter_mod j (set_fl_state DMX_STATE_FREE) ;;;
  up_return 0.

Definition dvbdmx_allocate_section_feed (callback : Z) : MD (Z * option nat) :=
  let! e := down_interruptible in
  if e : bool then mret_ (- ERESTARTSYS, None) else
  let! o := dvb_dmx_feed_alloc in
  match o with
  | None => up_return (- EBUSY, None)
  | Some i =>
      feed_mod i (fun f => set_fd_type DMX_TYPE_SEC (set_fd_cb callback (set_fd_pid 0xffff
        (set_secbufp 0 (set_fd_filter None (set_is_filtering false (set_fd_priv 0 f))))))) ;;;
      up_return (0, Some i)
  end.

Definition dvbdmx_release_section_feed (i : nat) : MD Z :=
  let! e := down_interruptible in
  if e : bool then mret_ (- ERESTARTSYS) else
  let! f := feed_get i in
  if fd_state f =? DMX_STATE_FREE then up_return (- EINVAL) else
  feed_mod i (set_fd_state DMX_STATE_FREE) ;;;
  dvb_demux_feed_del i ;;;
  feed_mod i (set_fd_pid 0xffff) ;;;
  up_return 0.

(** ** Users and front ends (1048 to 1165) *)

Definition dvbdmx_open : MD Z :=
  let! d := dget in
  if users d >=? MAX_DVB_DEMUX_USERS then mret_ (- EUSERS) else
  dmod (set_users (users d + 1)) ;;; mret_ 0.

Definition dvbdmx_close : MD Z :=
  let! d := dget in
  if users d =? 0 then mret_ (- ENODEV) else
  dmod (set_users (users d - 1)) ;;; mret_ 0.

(** [signal] is also what [signal_pending (current)] tests. *)
Definition dvbdmx_write (buf : list Z) : MD Z :=
  let! d := dget in
  match dx_frontend d with
  | None => mret_ (- EINVAL)
  | Some fe =>
      if negb (source fe =? DMX_MEMORY_FE) then mret_ (- EINVAL) else
      let! e := down_interruptible in
      if e : bool then mret_ (- ERESTARTSYS) else
      dvb_dmx_swfilter buf ;;;
      up ;;;
      let! d := dget in
      if signal d then mret_ (- EINTR) else mret_ (zlen buf)
  end.

Definition dvbdmx_add_frontend (fe : dmx_frontend) : MD Z :=
  dmod (fun d => set_frontend_list (fe :: frontend_list d) d) ;;; mret_ 0.

Fixpoint fe_del (id : Z) (l : list dmx_frontend) : option (list dmx_frontend) :=
  match l with
  | [] => None
  | fe :: l => if fe_id fe =? id then Some l
               else match fe_del id l with Some l' => Some (fe :: l') | None => None end
  end.

Definition dvbdmx_remove_frontend (id : Z) : MD Z :=
  let! d := dget in
  match fe_del id (frontend_list d) with
  | Some l => dmod (set_frontend_list l) ;;; mret_ 0
  | None => mret_ (- ENODEV)
  end.

Definition dvbdmx_get_frontends (d : dvb_demux) : option (list dmx_frontend) :=
  match frontend_list d with [] => None | l => Some l end.

(** [fe] may be NULL: the demux device puts back what it found. *)
Definition dvbdmx_connect_frontend (fe : option dmx_frontend) : MD Z :=
  let! d := dget in
  match dx_frontend d with
  | Some _ => mret_ (- EINVAL)
  | None =>
      let! e := down_interruptible in
      if e : bool then mret_ (- ERESTARTSYS) else
      dmod (set_dx_frontend fe) ;;; up_return 0
  end.

Definition dvbdmx_disconnect_frontend : MD Z :=
  let! e := down_interruptible in
  if e : bool then mret_ (- ERESTARTSYS) else
  dmod (set_dx_frontend None) ;;; up_return 0.

Definition dvbdmx_get_pes_pids (d : dvb_demux) : Z * list Z := (0, take 5 (dx_pids d)).

(** ** Initialisation (1168 to 1255)

    [mem_filter] and [mem_feed]: what [vmalloc] returns for the two arrays,
    NULL or memory with any contents. *)
Definition dvb_dmx_init (mem_filter : option (list dvb_demux_filter))
    (mem_feed : option (list dvb_demux_feed)) (id : Z) (muxs : list dmx_demux) (d : dvb_demux)
    : Z * dvb_demux * list dmx_demux :=
  let d := set_users 0 d in
  match mem_filter with
  | None => (- ENOMEM, set_filters [] d, muxs)
  | Some fl =>
      match mem_feed with
      | None => (- ENOMEM, set_filters [] (set_feeds [] d), muxs)
      | Some fd =>
          let fl := imap (fun i f => set_fl_index (Z.of_nat i) (set_fl_state DMX_STATE_FREE f)) fl in
          let fd := map (set_fd_state DMX_STATE_FREE) fd in
          let d := set_filters fl (set_feeds fd (set_frontend_list [] (set_feed_list []
            (set_pesfilter (replicate (Z.to_nat DMX_TS_PES_OTHER) None)
            (set_dx_pids (replicate (Z.to_nat DMX_TS_PES_OTHER) 0xffff)
            (set_playing 0 (set_recording 0 (set_tsbufp 0 (set_dx_frontend None
            (set_mutex_held false d)))))))))) in
          let r := dmx_register_demux (mk_dmx_demux id 0) muxs in
          (r.1, d, r.2)
      end
  end.

Definition dvb_dmx_release (id : Z) (muxs : list dmx_demux) (d : dvb_demux)
    : Z * dvb_demux * list dmx_demux :=
  (0, set_filters [] (set_feeds [] d), (dmx_unregister_demux id muxs).2).
End Feeds.

(** ** Running the API calls *)

Section Run.
Context {W : Type}.
Abbreviation DS := (DW (W:=W)).

Lemma dget_bind {B} (k : dvb_demux -> M DS B) (s : DS) : mbind_ dget k s = k s.1 s.
Proof using. done. Qed.
Lemma dmod_bind {B} g (k : unit -> M DS B) (s : DS) : mbind_ (dmod g) k s = k tt (g s.1, s.2).
Proof using. done. Qed.
Lemma up_return_run {A} (r : A) (s : DS) : up_return r s = Ok (r, (set_mutex_held false s.1, s.2)).
Proof using. done. Qed.

Lemma feed_get_bind {B} i f (k : dvb_demux_feed -> M DS B) (s : DS) :
  feeds s.1 !! i = Some f -> mbind_ (feed_get i) k s = k f s.
Proof using. intros Hf. unfold feed_get. mrun. rewrite dget_bind, Hf. done. Qed.
Lemma filter_get_bind {B} j f (k : dvb_demux_filter -> M DS B) (s : DS) :
  filters s.1 !! j = Some f -> mbind_ (filter_get j) k s = k f s.
Proof using. intros Hf. unfold filter_get. mrun. rewrite dget_bind, Hf. done. Qed.
Lemma feed_mod_bind {B} i f g (k : unit -> M DS B) (s : DS) :
  feeds s.1 !! i = Some f ->
  mbind_ (feed_mod i g) k s = k tt (set_feeds (<[i := g f]> (feeds s.1)) s.1, s.2).
Proof using.
  intros Hf. unfold feed_mod. rewrite mbind_bind, (feed_get_bind i f) by done. done.
Qed.
Lemma filter_mod_bind {B} j f g (k : unit -> M DS B) (s : DS) :
  filters s.1 !! j = Some f ->
  mbind_ (filter_mod j g) k s = k tt (set_filters (<[j := g f]> (filters s.1)) s.1, s.2).
Proof using.
  intros Hf. unfold filter_mod. rewrite mbind_bind, (filter_get_bind j f) by done. done.
Qed.

(** Taking a free mutex. *)
Lemma down_bind {B} (k : bool -> M DS B) (s : DS) :
  mutex_held s.1 = false ->
  mbind_ down_interruptible k s = k false (set_mutex_held true s.1, s.2).
Proof using.
  intros Hm. unfold down_interruptible. rewrite mbind_bind, dget_bind, Hm. done.
Qed.

Lemma down_held (s : DS) :
  mutex_held s.1 = true ->
  down_interruptible s = if signal s.1 then Ok (true, s) else Block.
Proof using. intros Hm. unfold down_interruptible. rewrite dget_bind, Hm. by case_if. Qed.
End Run.

#[export] Hint Rewrite @dget_bind @dmod_bind @up_return_run : monad.
