(* ===== verification/FeedsInv.v ===== *)
(** * The invariant of the demux API (dvb-core/dvb_demux.c, 499 to 1165)

    Between two calls the mutex is free, the feed list has no duplicates and
    holds feeds in use only, and every feed in use owns its filters: the chain
    of a section feed is acyclic, its filters are in use and belong to that feed
    (so the chains of two feeds have no filter in common), and a TS feed owns
    the one filter it was given.  Every call of a client that uses its handles
    properly returns, and keeps the invariant. *)

From S2P Require Import Prelude Crc32 DemuxState SwFilter SectionFilter Sample SwFrames Feeds.

(** ** The invariant *)

Definition owned (fls : list dvb_demux_filter) (i j : nat) : Prop :=
  exists g, fls !! j = Some g /\ fl_feed g = Some i /\ fl_state g <> DMX_STATE_FREE.

Definition chain_ok (fls : list dvb_demux_filter) (i : nat) (f : dvb_demux_feed) : Prop :=
  (fd_type f = DMX_TYPE_SEC /\
   exists l, is_chain fls (fd_filter f) l /\ forall j, j ∈ l -> owned fls i j) \/
  (fd_type f = DMX_TYPE_TS /\ exists j, fd_filter f = Some j /\ owned fls i j).

Definition live (fds : list dvb_demux_feed) (i : nat) : Prop :=
  exists f, fds !! i = Some f /\ fd_state f <> DMX_STATE_FREE.

Definition lists_wf (l : list nat) (fds : list dvb_demux_feed) (fls : list dvb_demux_filter) : Prop :=
  NoDup l /\ (forall i, i ∈ l -> live fds i) /\
  forall i f, fds !! i = Some f -> fd_state f <> DMX_STATE_FREE -> chain_ok fls i f.

Definition demux_inv (d : dvb_demux) : Prop :=
  mutex_held d = false /\ lists_wf (feed_list d) (feeds d) (filters d).

(** ** Changes that keep it *)

(** [fls'] still has every filter of feed [i], with the same link. *)
Definition keeps_owned (fls fls' : list dvb_demux_filter) (i : nat) : Prop :=
  forall j g, fls !! j = Some g -> fl_feed g = Some i -> fl_state g <> DMX_STATE_FREE ->
  exists g', fls' !! j = Some g' /\ fl_next g' = fl_next g /\ fl_feed g' = Some i /\
    fl_state g' <> DMX_STATE_FREE.

Lemma keeps_owned_owned fls fls' i j : keeps_owned fls fls' i -> owned fls i j -> owned fls' i j.
Proof. intros Hk (g & Hg & Hf & Hs). destruct (Hk j g Hg Hf Hs) as (g' & ? & ? & ? & ?). by exists g'. Qed.

Lemma keeps_owned_chain fls fls' i l : forall o,
  keeps_owned fls fls' i -> (forall j, j ∈ l -> owned fls i j) -> is_chain fls o l -> is_chain fls' o l.
Proof.
  induction l as [|j l IH]; intros o Hk Ho; simpl; [done|]. intros (-> & g & Hg & Hl).
  split; [done|]. destruct (Ho j) as (g2 & Hg2 & Hf & Hs); [by left|]. simplify_eq.
  destruct (Hk j g Hg Hf Hs) as (g' & Hg' & Hn & _). exists g'. split; [done|]. rewrite Hn.
  apply IH; [done| |done]. intros k Hkl. apply Ho. by right.
Qed.

Lemma keeps_owned_ok fls fls' i f : keeps_owned fls fls' i -> chain_ok fls i f -> chain_ok fls' i f.
Proof.
  intros Hk [(Ht & l & Hl & Ho)|(Ht & j & Hj & Ho)].
  - left. split; [done|]. exists l. split; [by eapply keeps_owned_chain|].
    intros j Hj. eapply keeps_owned_owned; [done|]. by apply Ho.
  - right. split; [done|]. exists j. split; [done|]. by eapply keeps_owned_owned.
Qed.

Lemma is_chain_agree fls fls' o l :
  (forall i, i ∈ l -> fls' !! i = fls !! i) -> is_chain fls o l -> is_chain fls' o l.
Proof.
  revert o. induction l as [|i l IH]; intros o He; simpl; [done|].
  intros (-> & x & Hx & Hm). split; [done|]. exists x. rewrite He by (by left).
  split; [done|]. apply IH; [|done]. intros i' Hi'. apply He. by right.
Qed.

(** A filter that is free, or belongs to another feed, may change. *)
Lemma keeps_owned_insert fls i j g g' :
  fls !! j = Some g -> (fl_state g = DMX_STATE_FREE \/ fl_feed g <> Some i) ->
  keeps_owned fls (<[j := g']> fls) i.
Proof.
  intros Hg Hor k h Hh Hf Hs. destruct (decide (j = k)) as [->|Hne].
  - simplify_eq. destruct Hor; done.
  - exists h. by rewrite list_lookup_insert_ne.
Qed.

(** A filter in use may change, but for its link, owner and state. *)
Lemma keeps_owned_update fls i j g g' :
  fls !! j = Some g -> fl_next g' = fl_next g -> fl_feed g' = fl_feed g -> fl_state g' = fl_state g ->
  keeps_owned fls (<[j := g']> fls) i.
Proof.
  intros Hg Hn Hf Hs k h Hh Hfk Hsk. destruct (decide (j = k)) as [->|Hne].
  - simplify_eq. exists g'. rewrite list_lookup_insert_eq by (by eapply lookup_lt_Some).
    rewrite Hs. split_and!; congruence.
  - exists h. by rewrite list_lookup_insert_ne.
Qed.

Section Lists.
Context (l : list nat) (fds : list dvb_demux_feed) (fls : list dvb_demux_filter).
Context (Hwf : lists_wf l fds fls).

Lemma wf_live_insert i f f' k :
  fds !! i = Some f -> fd_state f' <> DMX_STATE_FREE -> live fds k -> live (<[i := f']> fds) k.
Proof using.
  intros Hf Hs (h & Hh & Hhs). destruct (decide (i = k)) as [->|Hne].
  - exists f'. by rewrite list_lookup_insert_eq by (by eapply lookup_lt_Some).
  - exists h. by rewrite list_lookup_insert_ne.
Qed.

(** A feed in use changes in what the invariant does not speak about. *)
Lemma wf_feed_update i f f' :
  fds !! i = Some f -> fd_state f <> DMX_STATE_FREE -> fd_state f' <> DMX_STATE_FREE ->
  fd_type f' = fd_type f -> fd_filter f' = fd_filter f -> lists_wf l (<[i := f']> fds) fls.
Proof using Hwf.
  intros Hf Hs Hs' Ht Hfl. destruct Hwf as (Hnd & Hlive & Hch). split; [done|]. split.
  - intros k Hk. by eapply wf_live_insert, Hlive.
  - intros k h Hh Hhs. destruct (decide (i = k)) as [->|Hne].
    + rewrite list_lookup_insert_eq in Hh by (by eapply lookup_lt_Some). simplify_eq.
      specialize (Hch k f Hf Hs). unfold chain_ok in *. by rewrite Ht, Hfl.
    + rewrite list_lookup_insert_ne in Hh by done. by apply Hch.
Qed.

Lemma wf_filters fls' : (forall i, keeps_owned fls fls' i) -> lists_wf l fds fls'.
Proof using Hwf.
  intros Hk. destruct Hwf as (Hnd & Hlive & Hch). split_and!; [done|done|].
  intros i f Hf Hs. eapply keeps_owned_ok; [apply Hk|]. by apply Hch.
Qed.

Lemma find_spec i : existsb (Nat.eqb i) l = true <-> i ∈ l.
Proof using.
  rewrite existsb_exists. setoid_rewrite Nat.eqb_eq. rewrite list_elem_of_In.
  split; [intros (x & Hx & ->); done|intros Hi; by exists i].
Qed.

Lemma wf_add i : live fds i -> lists_wf (if existsb (Nat.eqb i) l then l else i :: l) fds fls.
Proof using Hwf.
  intros Hi. destruct Hwf as (Hnd & Hlive & Hch).
  destruct (existsb (Nat.eqb i) l) eqn:E; [done|]. split_and!; [|intros k Hk|done].
  - constructor; [|done]. intros Hin%find_spec. congruence.
  - apply elem_of_cons in Hk as [->|Hk]; auto.
Qed.

Lemma list_del_notin i : i ∉ l -> list_del i l = l.
Proof using.
  clear Hwf. induction l as [|j k IH]; [done|]. intros Hi.
  apply not_elem_of_cons in Hi as [Hne Hi]. simpl.
  destruct (Nat.eqb_spec i j); [done|]. by rewrite IH.
Qed.

Lemma list_del_spec i k : NoDup l -> k ∈ list_del i l <-> k ∈ l /\ k <> i.
Proof using.
  clear Hwf. induction l as [|j m IH]; intros Hnd; simpl.
  - split; [intros Hk; by apply not_elem_of_nil in Hk|intros [Hk _]; by apply not_elem_of_nil in Hk].
  - pose proof (NoDup_cons_1_1 _ _ Hnd) as Hj. apply NoDup_cons_1_2 in Hnd.
    destruct (Nat.eqb_spec i j) as [->|Hne].
    + rewrite elem_of_cons. split; [|by intros [[->|?] ?]].
      intros Hk. split; [by right|]. by intros ->.
    + rewrite !elem_of_cons, IH by done. split; [intros [->|[? ?]]; auto|intros [[->|?] ?]; auto].
Qed.

Lemma list_del_NoDup i : NoDup l -> NoDup (list_del i l).
Proof using.
  clear Hwf. induction l as [|j m IH]; intros Hnd; simpl; [constructor|].
  pose proof (NoDup_cons_1_1 _ _ Hnd) as Hj; apply NoDup_cons_1_2 in Hnd. case_if; [done|]. constructor; [|by apply IH].
  intros Hk. apply Hj. clear -Hk. induction m as [|k m IH]; simpl in Hk; [done|].
  case_if_in Hk; [by right|]. apply elem_of_cons in Hk as [->|Hk]; [by left|right; auto].
Qed.

(** A feed is given back: it leaves the list. *)
Lemma wf_feed_free i f f' :
  fds !! i = Some f -> fd_state f' = DMX_STATE_FREE ->
  lists_wf (list_del i l) (<[i := f']> fds) fls.
Proof using Hwf.
  intros Hf Hs'. destruct Hwf as (Hnd & Hlive & Hch). split_and!.
  - by apply list_del_NoDup.
  - intros k [Hk Hne]%list_del_spec; [|done]. destruct (Hlive k Hk) as (h & Hh & Hs).
    exists h. by rewrite list_lookup_insert_ne.
  - intros k h Hh Hhs. destruct (decide (i = k)) as [->|Hne].
    + rewrite list_lookup_insert_eq in Hh by (by eapply lookup_lt_Some). by simplify_eq.
    + rewrite list_lookup_insert_ne in Hh by done. by apply Hch.
Qed.

(** A free feed stays out of everything. *)
Lemma wf_feed_still_free i f f' :
  fds !! i = Some f -> fd_state f = DMX_STATE_FREE -> fd_state f' = DMX_STATE_FREE ->
  lists_wf l (<[i := f']> fds) fls.
Proof using Hwf.
  intros Hf Hs Hs'. pose proof (wf_feed_free i f f' Hf Hs') as H.
  rewrite list_del_notin in H; [done|]. intros Hi. destruct Hwf as (_ & Hlive & _).
  destruct (Hlive i Hi) as (h & Hh & Hhs). congruence.
Qed.

(** A free feed is taken into use. *)
Lemma wf_feed_new i f f' :
  fds !! i = Some f -> fd_state f = DMX_STATE_FREE -> chain_ok fls i f' ->
  lists_wf l (<[i := f']> fds) fls.
Proof using Hwf.
  intros Hf Hs Hc. destruct Hwf as (Hnd & Hlive & Hch). split_and!; [done| |].
  - intros k Hk. destruct (Hlive k Hk) as (h & Hh & Hhs). exists h.
    rewrite list_lookup_insert_ne; [done|]. intros ->. congruence.
  - intros k h Hh Hhs. destruct (decide (i = k)) as [->|Hne].
    + rewrite list_lookup_insert_eq in Hh by (by eapply lookup_lt_Some). by simplify_eq.
    + rewrite list_lookup_insert_ne in Hh by done. by apply Hch.
Qed.
End Lists.

Lemma first_free_spec {A} (st : A -> Z) l k :
  match first_free st l k with
  | Some i => (k <= i)%nat /\ exists x, l !! (i - k)%nat = Some x /\ st x = DMX_STATE_FREE
  | None => Forall (fun x => st x <> DMX_STATE_FREE) l
  end.
Proof.
  revert k. induction l as [|x l IH]; intros k; simpl; [constructor|].
  destruct (Z.eqb_spec (st x) DMX_STATE_FREE) as [E|E].
  - split; [lia|]. exists x. by rewrite Nat.sub_diag.
  - specialize (IH (S k)). destruct (first_free st l (S k)) as [i|].
    + destruct IH as (Hk & y & Hy & Hs). split; [lia|]. exists y.
      replace (i - k)%nat with (S (i - S k)) by lia. done.
    + by constructor.
Qed.

(** ** Walks over a chain *)

Section Walks.
Context {W : Type}.

(** Every filter of the chain is prepared, and no other changes. *)
Lemma prepare_chain_run l : forall fuel j d (w : W),
  is_chain (filters d) (Some j) l -> (length l <= fuel)%nat ->
  exists fls', prepare_chain fuel j (d, w) = Ok (tt, (set_filters fls' d, w)) /\
    length fls' = length (filters d) /\
    (forall k, k ∉ l -> fls' !! k = filters d !! k) /\
    (forall k g, k ∈ l -> filters d !! k = Some g -> fls' !! k = Some (prepare_filter g)).
Proof using.
  induction l as [|i l IH]; intros fuel j d w Hch Hf; [done|].
  pose proof (is_chain_NoDup _ _ _ Hch) as Hnd.
  destruct Hch as (Hj & g & Hg & Hch). simplify_eq. simpl in Hf.
  destruct fuel as [|fuel]; [lia|]. simpl prepare_chain.
  rewrite (filter_mod_bind i g) by done. cbn [fst snd].
  set (fls1 := <[i := prepare_filter g]> (filters d)).
  assert (fls1 !! i = Some (prepare_filter g)) as Hi
    by (apply list_lookup_insert_eq; by eapply lookup_lt_Some).
  rewrite (filter_get_bind i (prepare_filter g)) by done.
  change (fl_next (prepare_filter g)) with (fl_next g).
  pose proof (NoDup_cons_1_1 _ _ Hnd) as Hni.
  assert (forall k, k <> i -> fls1 !! k = filters d !! k) as Hne
    by (intros k Hk; by apply list_lookup_insert_ne).
  destruct (fl_next g) as [n|] eqn:En.
  - destruct (is_chain_nonempty _ _ _ Hch) as [l' ->].
    destruct (IH fuel n (set_filters fls1 d) w) as (fls' & Hrun & Hlen & Hout & Hin).
    { eapply is_chain_agree; [|exact Hch]. intros k Hk. apply Hne. by intros ->. }
    { lia. }
    exists fls'. rewrite Hrun. split; [done|]. simpl in Hlen. split.
    { rewrite Hlen. unfold fls1. by rewrite length_insert. }
    split.
    + intros k Hk. apply not_elem_of_cons in Hk as [Hki Hk]. rewrite Hout by done. by apply Hne.
    + intros k h Hk Hh. apply elem_of_cons in Hk as [->|Hk].
      * rewrite Hout by done. simpl. by simplify_eq.
      * apply Hin; [done|]. simpl. rewrite Hne; [done|]. by intros ->.
  - exists fls1. destruct l; [|by destruct Hch]. split; [done|]. split.
    { unfold fls1. by rewrite length_insert. }
    split.
    + intros k Hk. apply not_elem_of_cons in Hk as [Hki _]. by apply Hne.
    + intros k h Hk Hh. apply list_elem_of_singleton in Hk as ->. by simplify_eq.
Qed.

(** Taking [j] out of a chain that does not begin with it. *)
Lemma unlink_run l : forall fuel k j d (w : W),
  is_chain (filters d) (Some k) (k :: l) -> j ∈ l -> (length l <= fuel)%nat ->
  exists p g h, filters d !! p = Some g /\ filters d !! j = Some h /\ p <> j /\ p ∈ k :: l /\
    fl_next g = Some j /\
    unlink_filter fuel k j (d, w) =
      Ok (tt, (set_filters (<[p := set_fl_next (fl_next h) g]> (filters d)) d, w)) /\
    is_chain (<[p := set_fl_next (fl_next h) g]> (filters d)) (Some k) (k :: list_del j l).
Proof using.
  induction l as [|n l IH]; intros fuel k j d w Hch Hj Hf; [by apply not_elem_of_nil in Hj|].
  pose proof (is_chain_NoDup _ _ _ Hch) as Hnd. pose proof (NoDup_cons_1_1 _ _ Hnd) as Hkn.
  destruct Hch as (_ & g & Hg & Hch).
  assert (fl_next g = Some n) as Hn by (destruct Hch; done). rewrite Hn in Hch.
  simpl in Hf. destruct fuel as [|fuel]; [lia|]. simpl unlink_filter.
  rewrite (filter_get_bind k g) by done. rewrite Hn.
  destruct (Hch) as (_ & h & Hh & Hch').
  destruct (Nat.eqb_spec n j) as [->|Hne].
  - exists k, g, h. rewrite (filter_get_bind j h) by done.
    assert (k <> j) as Hkj by (intros ->; apply Hkn; by left).
    split_and!; try done.
    + by left.
    + unfold filter_mod. rewrite (filter_get_bind k g) by done. done.
    + simpl. rewrite Nat.eqb_refl. split; [done|]. eexists.
      rewrite list_lookup_insert_eq by (by eapply lookup_lt_Some). split; [done|]. simpl.
      apply (is_chain_agree (filters d)); [|done]. intros i Hi. apply list_lookup_insert_ne. intros ->.
      apply Hkn. by right.
  - apply elem_of_cons in Hj as [->|Hj]; [done|].
    destruct (IH fuel n j d w Hch Hj ltac:(lia)) as
      (p & gp & hj & Hp & Hhj & Hpj & Hpin & Hnp & Hrun & Hch2).
    exists p, gp, hj. split_and!; try done; [by right|].
    simpl list_del. destruct (Nat.eqb_spec j n); [done|]. split; [done|].
    exists g. rewrite list_lookup_insert_ne; [|intros ->; by apply Hkn].
    split; [done|]. by rewrite Hn.
Qed.
End Walks.

(** ** The calls of the API and the invariant *)

Inductive api_call :=
| AllocTs (cb : Z) | SetTs (i : nat) (pid type pes cb_length size : Z) (descramble : bool) (timeout : Z)
| StartTs (i : nat) | StopTs (i : nat) | ReleaseTs (i : nat)
| AllocSec (cb : Z) | AllocFilter (i : nat) | SetSec (i : nat) (pid size : Z) (descramble crc : bool)
| StartSec (i : nat) | StopSec (i : nat) | ReleaseFilter (i j : nat) | ReleaseSec (i : nat)
| Open | Close | AddFrontend (fe : dmx_frontend) | RemoveFrontend (id : Z)
| ConnectFrontend (fe : option dmx_frontend) | DisconnectFrontend.

Class DemuxDriverLaws (W : Type) {D : DemuxDriver W} := {
  start_total c : drv_start_feed = Some c -> forall i f w, exists r w', c i f w = Ok (r, w');
  stop_total c : drv_stop_feed = Some c -> forall i f w, exists r w', c i f w = Ok (r, w');
}.

(** The feed is one the client was given and has not released. *)
Definition feed_in_use (ty : Z) (i : nat) (d : dvb_demux) : Prop :=
  exists f, feeds d !! i = Some f /\ fd_state f <> DMX_STATE_FREE /\ fd_type f = ty.

(** What a client owes: handles of the right kind that it holds; a filter is
    released once, and while the feed does not filter. *)
Definition api_pre (c : api_call) (d : dvb_demux) : Prop :=
  match c with
  | SetTs i _ _ _ _ _ _ _ | StartTs i | StopTs i | ReleaseTs i => feed_in_use DMX_TYPE_TS i d
  | AllocFilter i | SetSec i _ _ _ _ | StartSec i | StopSec i | ReleaseSec i =>
      feed_in_use DMX_TYPE_SEC i d
  | ReleaseFilter i j =>
      exists f l, feeds d !! i = Some f /\ fd_state f <> DMX_STATE_FREE /\ fd_type f = DMX_TYPE_SEC /\
        is_filtering f = false /\ is_chain (filters d) (fd_filter f) l /\ j ∈ l
  | _ => True
  end.

Section Api.
Context {W : Type} {D : DemuxDriver W} {DL : DemuxDriverLaws W}.

Definition api_run (c : api_call) : M (DW (W:=W)) Z :=
  match c with
  | AllocTs cb => let! r := dvbdmx_allocate_ts_feed cb in mret_ r.1
  | SetTs i pid ty pes cbl size ds t => dmx_ts_feed_set i pid ty pes cbl size ds t
  | StartTs i => dmx_ts_feed_start_filtering i
  | StopTs i => dmx_ts_feed_stop_filtering i
  | ReleaseTs i => dvbdmx_release_ts_feed i
  | AllocSec cb => let! r := dvbdmx_allocate_section_feed cb in mret_ r.1
  | AllocFilter i => let! r := dmx_section_feed_allocate_filter i in mret_ r.1
  | SetSec i pid size ds crc => dmx_section_feed_set i pid size ds crc
  | StartSec i => dmx_section_feed_start_filtering i
  | StopSec i => dmx_section_feed_stop_filtering i
  | ReleaseFilter i j => dmx_section_feed_release_filter i j
  | ReleaseSec i => dvbdmx_release_section_feed i
  | Open => dvbdmx_open
  | Close => dvbdmx_close
  | AddFrontend fe => dvbdmx_add_frontend fe
  | RemoveFrontend id => dvbdmx_remove_frontend id
  | ConnectFrontend fe => dvbdmx_connect_frontend fe
  | DisconnectFrontend => dvbdmx_disconnect_frontend
  end.

(** The call returns, and the invariant holds. *)
Definition returns_inv {A} (r : res (A * DW (W:=W))) : Prop :=
  exists a s, r = Ok (a, s) /\ demux_inv s.1.

(** The state of a call that holds the mutex, over lists that are well formed. *)
Definition locked (d : dvb_demux) : Prop :=
  mutex_held d = true /\ lists_wf (feed_list d) (feeds d) (filters d).

Lemma up_return_inv {A} (r : A) s : lists_wf (feed_list s.1) (feeds s.1) (filters s.1) ->
  returns_inv (up_return r s).
Proof using. intros Hwf. eexists _, _. split; [reflexivity|]. by split. Qed.

Lemma ret_inv {A} (r : A) (s : DW) : demux_inv s.1 -> returns_inv (mret_ r s).
Proof using. intros Hi. by eexists _, _. Qed.

Lemma drv_call_run c i f s :
  (forall i f w, exists r w', c i f w = Ok (r, w')) -> feeds s.1 !! i = Some f ->
  exists r w', drv_call (W:=W) c i s = Ok (r, (s.1, w')).
Proof using.
  intros Hc Hf. unfold drv_call. destruct (Hc i f s.2) as (r & w' & Hr).
  exists r, w'. rewrite (feed_get_bind i f) by done. by rewrite Hr.
Qed.

Lemma feed_add_run i s :
  dvb_demux_feed_add (W:=W) i s =
  Ok (tt, (set_feed_list (if existsb (Nat.eqb i) (feed_list s.1) then feed_list s.1
                          else i :: feed_list s.1) s.1, s.2)).
Proof using.
  unfold dvb_demux_feed_add, dvb_demux_feed_find. mrun. case_if; [|done].
  destruct s as [d w]. by destruct d.
Qed.

Lemma feed_del_run i s :
  dvb_demux_feed_del (W:=W) i s = Ok (tt, (set_feed_list (list_del i (feed_list s.1)) s.1, s.2)).
Proof using.
  unfold dvb_demux_feed_del, dvb_demux_feed_find. mrun.
  destruct (existsb (Nat.eqb i) (feed_list s.1)) eqn:E; [done|]. cbn [negb].
  rewrite list_del_notin; [|intros Hi%find_spec; congruence].
  destruct s as [d w]. by destruct d.
Qed.

Lemma set_ts_inv i pid ty pes cbl size ds t s :
  demux_inv s.1 -> feed_in_use DMX_TYPE_TS i s.1 ->
  returns_inv (dmx_ts_feed_set (W:=W) i pid ty pes cbl size ds t s).
Proof using.
  intros [Hm Hwf] (f & Hf & Hs & Ht). unfold dmx_ts_feed_set.
  case_if; [by apply ret_inv|]. rewrite down_bind by done. mrun.
  case_if; [by apply up_return_inv|]. case_if; [by apply up_return_inv|].
  set (s1 := (set_mutex_held true s.1, s.2)).
  set (dec := if negb (Z.land ty TS_DECODER =? 0) then _ else _).
  assert (exists d2, dec s1 = Ok (tt, (d2, s.2)) /\ feed_list d2 = feed_list s.1 /\
    feeds d2 = feeds s.1 /\ filters d2 = filters s.1) as (d2 & Hd & E1 & E2 & E3)
    by (subst dec; case_if; by eexists).
  rewrite (mbind_Ok _ _ _ _ _ Hd), (mbind_Ok _ _ _ _ _ (feed_add_run i (d2, s.2))).
  cbn [fst snd]. rewrite (feed_mod_bind i f) by (simpl; congruence).
  cbn [fst snd]. case_if.
  - apply up_return_inv. simpl. rewrite E1, E2, E3.
    eapply wf_feed_update; try done. apply wf_add; [done|]. by exists f.
  - erewrite feed_mod_bind.
    2: { simpl. apply list_lookup_insert_eq. rewrite E2. by eapply lookup_lt_Some. }
    apply up_return_inv. simpl. rewrite E1, E2, E3, list_insert_insert_eq.
    eapply wf_feed_update; try done. apply wf_add; [done|]. by exists f.
Qed.

Lemma start_ts_inv i s :
  demux_inv s.1 -> feed_in_use DMX_TYPE_TS i s.1 ->
  returns_inv (dmx_ts_feed_start_filtering (W:=W) i s).
Proof using DL.
  intros [Hm Hwf] (f & Hf & Hs & Ht). unfold dmx_ts_feed_start_filtering.
  rewrite down_bind, (feed_get_bind i f) by done. case_if; [by apply up_return_inv|].
  destruct drv_start_feed as [c|] eqn:Ed; [|by apply up_return_inv].
  destruct (drv_call_run c i f (set_mutex_held true s.1, s.2) (start_total c Ed) Hf)
    as (r & w' & Hr).
  rewrite (mbind_Ok _ _ _ _ _ Hr). case_if; [by apply up_return_inv|].
  rewrite (feed_mod_bind i f) by done. apply up_return_inv. simpl. by eapply wf_feed_update.
Qed.

Lemma stop_ts_inv i s :
  demux_inv s.1 -> feed_in_use DMX_TYPE_TS i s.1 ->
  returns_inv (dmx_ts_feed_stop_filtering (W:=W) i s).
Proof using DL.
  intros [Hm Hwf] (f & Hf & Hs & Ht). unfold dmx_ts_feed_stop_filtering.
  rewrite down_bind, (feed_get_bind i f) by done. case_if; [by apply up_return_inv|].
  destruct drv_stop_feed as [c|] eqn:Ed; [|by apply up_return_inv].
  destruct (drv_call_run c i f (set_mutex_held true s.1, s.2) (stop_total c Ed) Hf)
    as (r & w' & Hr).
  rewrite (mbind_Ok _ _ _ _ _ Hr), (feed_mod_bind i f) by done.
  apply up_return_inv. simpl. by eapply wf_feed_update.
Qed.

Lemma filter_alloc_run (s : DW (W:=W)) :
  (Forall (fun g => fl_state g <> DMX_STATE_FREE) (filters s.1) /\
   dvb_dmx_filter_alloc s = Ok (None, s)) \/
  exists j g, filters s.1 !! j = Some g /\ fl_state g = DMX_STATE_FREE /\
    dvb_dmx_filter_alloc s = Ok (Some j,
      (set_filters (<[j := set_fl_state DMX_STATE_ALLOCATED g]> (filters s.1)) s.1, s.2)).
Proof using.
  unfold dvb_dmx_filter_alloc. mrun. pose proof (first_free_spec fl_state (filters s.1) 0) as Hff.
  destruct (first_free fl_state (filters s.1) 0) as [j|]; [right|by left].
  destruct Hff as (_ & g & Hg & Hs). rewrite Nat.sub_0_r in Hg. exists j, g.
  by rewrite (filter_mod_bind j g).
Qed.

Lemma feed_alloc_run (s : DW (W:=W)) :
  (Forall (fun f => fd_state f <> DMX_STATE_FREE) (feeds s.1) /\
   dvb_dmx_feed_alloc s = Ok (None, s)) \/
  exists i f, feeds s.1 !! i = Some f /\ fd_state f = DMX_STATE_FREE /\
    dvb_dmx_feed_alloc s = Ok (Some i,
      (set_feeds (<[i := set_fd_state DMX_STATE_ALLOCATED f]> (feeds s.1)) s.1, s.2)).
Proof using.
  unfold dvb_dmx_feed_alloc. mrun. pose proof (first_free_spec fd_state (feeds s.1) 0) as Hff.
  destruct (first_free fd_state (feeds s.1) 0) as [i|]; [right|by left].
  destruct Hff as (_ & f & Hf & Hs). rewrite Nat.sub_0_r in Hf. exists i, f.
  by rewrite (feed_mod_bind i f).
Qed.

Lemma lookup_insert_same {A} (l : list A) i x y : l !! i = Some x -> <[i := y]> l !! i = Some y.
Proof using. intros Hx. apply list_lookup_insert_eq. by eapply lookup_lt_Some. Qed.

Lemma alloc_ts_inv cb s :
  demux_inv s.1 -> returns_inv (dvbdmx_allocate_ts_feed (W:=W) cb s).
Proof using.
  intros [Hm Hwf]. unfold dvbdmx_allocate_ts_feed. rewrite down_bind by done.
  set (s1 := (set_mutex_held true s.1, s.2)).
  destruct (feed_alloc_run s1) as [[_ Hr]|(i & f & Hf & Hs & Hr)];
    rewrite (mbind_Ok _ _ _ _ _ Hr); [by apply up_return_inv|].
  erewrite feed_mod_bind by (simpl; by eapply lookup_insert_same).
  set (s2 := (set_feeds _ _, _)). set (f1 := set_fd_type DMX_TYPE_TS _) in s2.
  assert (feeds s2.1 = <[i := f1]> (feeds s.1)) as E2 by (simpl; by rewrite list_insert_insert_eq).
  assert (feeds s2.1 !! i = Some f1) as Hf1 by (rewrite E2; by eapply lookup_insert_same).
  assert (filters s2.1 = filters s.1) as E3 by done.
  assert (feed_list s2.1 = feed_list s.1) as E1 by done. clearbody s2.
  destruct (filter_alloc_run s2) as [[_ Hj]|(j & g & Hg & Hgs & Hj)];
    rewrite (mbind_Ok _ _ _ _ _ Hj).
  - rewrite (feed_mod_bind i f1) by done. erewrite feed_mod_bind by (simpl; by eapply lookup_insert_same).
    apply up_return_inv. simpl. rewrite E1, E2, E3, !list_insert_insert_eq.
    by eapply wf_feed_still_free.
  - rewrite (feed_mod_bind i f1) by done.
    erewrite filter_mod_bind by (simpl; by eapply lookup_insert_same).
    apply up_return_inv. simpl. rewrite E1, E2, E3, !list_insert_insert_eq. rewrite E3 in Hg.
    eapply wf_feed_new; [|done|done|].
    + eapply wf_filters; [exact Hwf|]. intros k. eapply keeps_owned_insert; [done|by left].
    + right. split; [done|]. exists j. split; [done|]. eexists.
      by rewrite (lookup_insert_same _ _ g) by done.
Qed.

Lemma release_ts_inv i s :
  demux_inv s.1 -> feed_in_use DMX_TYPE_TS i s.1 -> returns_inv (dvbdmx_release_ts_feed (W:=W) i s).
Proof using.
  intros [Hm Hwf] (f & Hf & Hs & Ht). unfold dvbdmx_release_ts_feed.
  rewrite down_bind, (feed_get_bind i f) by done.
  destruct (Z.eqb_spec (fd_state f) DMX_STATE_FREE); [done|].
  rewrite (feed_mod_bind i f) by done. cbn [fst snd].
  destruct (Hwf) as (_ & _ & Hch).
  destruct (Hch i f Hf Hs) as [[Ht' _]|(_ & j & -> & g & Hg & Hgf & Hgs)]; [by rewrite Ht in Ht'|].
  rewrite (filter_mod_bind j g) by done. cbn [fst snd].
  rewrite (mbind_Ok _ _ _ _ _ (feed_del_run i _)). cbn [fst snd].
  erewrite feed_mod_bind by (simpl; by eapply lookup_insert_same). cbn [fst snd].
  assert (forall d2 w2, feed_list d2 = list_del i (feed_list s.1) ->
    feeds d2 = <[i := set_fd_pid 0xffff (set_fd_state DMX_STATE_FREE f)]> (feeds s.1) ->
    filters d2 = <[j := set_fl_state DMX_STATE_FREE g]> (filters s.1) ->
    returns_inv (up_return 0 (d2, w2))) as Hend.
  { intros d2 w2 E1 E2 E3. apply up_return_inv. simpl. rewrite E1, E2, E3.
    destruct (wf_feed_free _ _ _ Hwf i f (set_fd_pid 0xffff (set_fd_state DMX_STATE_FREE f)) Hf
      eq_refl) as (Hnd & Hlive & Hch'). split_and!; [done|done|].
    intros k h Hh Hhs. eapply keeps_owned_ok; [|by apply Hch'].
    eapply keeps_owned_insert; [done|]. right. rewrite Hgf. intros [= ->].
    rewrite (lookup_insert_same _ _ f) in Hh by done. by simplify_eq. }
  unfold mbind_ at 1. case_if; cbn [res_bind fst snd]; apply Hend; simpl;
    by rewrite ?list_insert_insert_eq.
Qed.

Lemma alloc_sec_inv cb s :
  demux_inv s.1 -> returns_inv (dvbdmx_allocate_section_feed (W:=W) cb s).
Proof using.
  intros [Hm Hwf]. unfold dvbdmx_allocate_section_feed. rewrite down_bind by done.
  set (s1 := (set_mutex_held true s.1, s.2)).
  destruct (feed_alloc_run s1) as [[_ Hr]|(i & f & Hf & Hs & Hr)];
    rewrite (mbind_Ok _ _ _ _ _ Hr); [by apply up_return_inv|].
  erewrite feed_mod_bind by (simpl; by eapply lookup_insert_same).
  apply up_return_inv. simpl. rewrite list_insert_insert_eq.
  eapply wf_feed_new; [done|done|done|]. left. split; [done|]. exists []. split; [done|].
  intros j Hj. by apply not_elem_of_nil in Hj.
Qed.

Lemma release_sec_inv i s :
  demux_inv s.1 -> feed_in_use DMX_TYPE_SEC i s.1 ->
  returns_inv (dvbdmx_release_section_feed (W:=W) i s).
Proof using.
  intros [Hm Hwf] (f & Hf & Hs & Ht). unfold dvbdmx_release_section_feed.
  rewrite down_bind, (feed_get_bind i f) by done.
  case_if; [by apply up_return_inv|].
  rewrite (feed_mod_bind i f) by done. cbn [fst snd].
  rewrite (mbind_Ok _ _ _ _ _ (feed_del_run i _)). cbn [fst snd].
  erewrite feed_mod_bind by (simpl; by eapply lookup_insert_same).
  apply up_return_inv. simpl. rewrite list_insert_insert_eq. by eapply wf_feed_free.
Qed.

Lemma alloc_filter_inv i s :
  demux_inv s.1 -> feed_in_use DMX_TYPE_SEC i s.1 ->
  returns_inv (dmx_section_feed_allocate_filter (W:=W) i s).
Proof using.
  intros [Hm Hwf] (f & Hf & Hs & Ht). unfold dmx_section_feed_allocate_filter.
  rewrite down_bind by done. set (s1 := (set_mutex_held true s.1, s.2)).
  destruct (filter_alloc_run s1) as [[_ Hj]|(j & g & Hg & Hgs & Hj)];
    rewrite (mbind_Ok _ _ _ _ _ Hj); [by apply up_return_inv|]. simpl in Hg.
  rewrite (feed_get_bind i f) by done.
  erewrite filter_mod_bind by (simpl; by eapply lookup_insert_same).
  rewrite (feed_mod_bind i f) by done. apply up_return_inv. simpl. rewrite list_insert_insert_eq.
  set (g' := set_sf_priv 0 _).
  assert (forall k, keeps_owned (filters s.1) (<[j := g']> (filters s.1)) k) as Hk
    by (intros k; eapply keeps_owned_insert; [done|by left]).
  destruct (wf_filters _ _ _ Hwf _ Hk) as (Hnd & Hlive & Hch). split_and!; [done| |].
  - intros k Hkl. eapply wf_live_insert; [done|done|by apply Hlive].
  - intros k h Hh Hhs. destruct (decide (i = k)) as [->|Hne].
    2: { rewrite list_lookup_insert_ne in Hh by done. by apply Hch. }
    rewrite (lookup_insert_same _ _ f) in Hh by done. simplify_eq.
    destruct (Hch k f Hf Hs) as [(_ & l & Hl & Ho)|[Ht' _]]; [|by rewrite Ht in Ht'].
    left. split; [done|]. exists (j :: l). split.
    + simpl. split; [done|]. exists g'. by rewrite (lookup_insert_same _ _ g).
    + intros m Hml. apply elem_of_cons in Hml as [->|Hml]; [|by apply Ho].
      exists g'. by rewrite (lookup_insert_same _ _ g).
Qed.

Lemma set_sec_inv i pid size ds crc s :
  demux_inv s.1 -> feed_in_use DMX_TYPE_SEC i s.1 ->
  returns_inv (dmx_section_feed_set (W:=W) i pid size ds crc s).
Proof using.
  intros [Hm Hwf] (f & Hf & Hs & Ht). unfold dmx_section_feed_set.
  case_if; [by apply ret_inv|]. rewrite down_bind by done.
  rewrite (mbind_Ok _ _ _ _ _ (feed_add_run i _)). cbn [fst snd].
  rewrite (feed_mod_bind i f) by done. cbn [fst snd].
  assert (live (feeds s.1) i) as Hlive by (by exists f).
  pose proof (wf_add _ _ _ Hwf i Hlive) as Hwf'.
  case_if.
  - apply up_return_inv. simpl. by eapply wf_feed_update.
  - erewrite feed_mod_bind by (simpl; by eapply lookup_insert_same).
    apply up_return_inv. simpl. rewrite list_insert_insert_eq. by eapply wf_feed_update.
Qed.

Lemma prepare_inv i f d (w : W) :
  lists_wf (feed_list d) (feeds d) (filters d) -> feeds d !! i = Some f ->
  fd_state f <> DMX_STATE_FREE -> fd_type f = DMX_TYPE_SEC ->
  exists fls', prepare_secfilters i (d, w) = Ok (tt, (set_filters fls' d, w)) /\
    lists_wf (feed_list d) (feeds d) fls'.
Proof using.
  intros Hwf Hf Hs Ht. unfold prepare_secfilters.
  rewrite (feed_get_bind i f) by done. mrun. destruct (Hwf) as (_ & _ & Hch).
  destruct (Hch i f Hf Hs) as [(_ & l & Hl & Ho)|[Ht' _]]; [|by rewrite Ht in Ht'].
  destruct (fd_filter f) as [j|].
  2: { exists (filters d). split; [by destruct d|done]. }
  destruct (prepare_chain_run l (length (filters d)) j d w Hl (is_chain_length _ _ _ Hl))
    as (fls' & Hrun & Hlen & Hout & Hin).
  exists fls'. split; [done|]. eapply wf_filters; [done|]. intros k m g Hg Hgf Hgs.
  destruct (decide (m ∈ l)) as [Hm|Hm].
  - exists (prepare_filter g). split; [by apply Hin|]. by split_and!.
  - exists g. split; [by rewrite Hout|]. by split_and!.
Qed.

Lemma start_sec_inv i s :
  demux_inv s.1 -> feed_in_use DMX_TYPE_SEC i s.1 ->
  returns_inv (dmx_section_feed_start_filtering (W:=W) i s).
Proof using DL.
  intros [Hm Hwf] (f & Hf & Hs & Ht). unfold dmx_section_feed_start_filtering.
  rewrite down_bind, (feed_get_bind i f) by done. case_if; [by apply up_return_inv|].
  destruct (fd_filter f) as [j|] eqn:Ej; [|by apply up_return_inv].
  rewrite (feed_mod_bind i f) by done. cbn [fst snd].
  set (f1 := set_secbufp 0 (set_seclen 0 f)).
  assert (<[i := f1]> (feeds s.1) !! i = Some f1) as Hf1 by (by eapply lookup_insert_same).
  assert (lists_wf (feed_list s.1) (<[i := f1]> (feeds s.1)) (filters s.1)) as Hwf1
    by (by eapply wf_feed_update).
  destruct drv_start_feed as [c|] eqn:Ed; [|by apply up_return_inv].
  destruct (prepare_inv i f1 (set_feeds (<[i := f1]> (feeds (set_mutex_held true s.1)))
    (set_mutex_held true s.1)) s.2) as (fls' & Hp & Hwf2); try done.
  rewrite (mbind_Ok _ _ _ _ _ Hp).
  set (s2 := (set_filters _ _, _)).
  destruct (drv_call_run c i f1 s2 (start_total c Ed) Hf1) as (r & w' & Hr).
  rewrite (mbind_Ok _ _ _ _ _ Hr). case_if; [by apply up_return_inv|].
  rewrite (feed_mod_bind i f1) by done. apply up_return_inv. simpl.
  by eapply wf_feed_update.
Qed.

Lemma stop_sec_inv i s :
  demux_inv s.1 -> feed_in_use DMX_TYPE_SEC i s.1 ->
  returns_inv (dmx_section_feed_stop_filtering (W:=W) i s).
Proof using DL.
  intros [Hm Hwf] (f & Hf & Hs & Ht). unfold dmx_section_feed_stop_filtering.
  rewrite down_bind by done.
  destruct drv_stop_feed as [c|] eqn:Ed; [|by apply up_return_inv].
  destruct (drv_call_run c i f (set_mutex_held true s.1, s.2) (stop_total c Ed) Hf)
    as (r & w' & Hr).
  rewrite (mbind_Ok _ _ _ _ _ Hr), (feed_mod_bind i f) by done.
  apply up_return_inv. simpl. by eapply wf_feed_update.
Qed.

Lemma release_filter_inv i j s :
  demux_inv s.1 -> api_pre (ReleaseFilter i j) s.1 ->
  returns_inv (dmx_section_feed_release_filter (W:=W) i j s).
Proof using.
  intros [Hm Hwf] (f & l & Hf & Hs & Ht & Hfi & Hl & Hj). unfold dmx_section_feed_release_filter.
  destruct (Hwf) as (Hnd & Hlive & Hch).
  destruct (Hch i f Hf Hs) as [(_ & l' & Hl' & Ho)|[Ht' _]]; [|by rewrite Ht in Ht'].
  pose proof (is_chain_unique _ _ _ _ Hl Hl'). subst l'.
  destruct (Ho j Hj) as (g & Hg & Hgf & Hgs).
  rewrite down_bind by done. rewrite (filter_get_bind j g) by done.
  rewrite Hgf, Nat.eqb_refl. cbn [negb]. rewrite (feed_get_bind i f), Hfi by done. mrun.
  rewrite (feed_get_bind i f), (filter_get_bind j g) by done. mrun.
  destruct (fd_filter f) as [k|] eqn:Ek; [|by destruct l; [apply not_elem_of_nil in Hj|destruct Hl]].
  destruct (is_chain_nonempty _ _ _ Hl) as [l1 ->].
  destruct (Nat.eqb_spec k j) as [->|Hne].
  - rewrite (feed_mod_bind i f), (filter_mod_bind j g) by done.
    apply up_return_inv. simpl.
    assert (forall m, m <> i -> keeps_owned (filters s.1)
      (<[j := set_fl_state DMX_STATE_FREE g]> (filters s.1)) m) as Hkeep.
    { intros m Hm2. eapply keeps_owned_insert; [done|]. right. rewrite Hgf. congruence. }
    split_and!; [done| |].
    + intros m Hm2. by eapply wf_live_insert, Hlive.
    + intros m h Hh Hhs. destruct (decide (i = m)) as [<-|Him].
      * rewrite (lookup_insert_same _ _ f) in Hh by done. simplify_eq. left. split; [done|].
        pose proof (is_chain_NoDup _ _ _ Hl) as Hndl. destruct Hl as (_ & g2 & Hg2 & Hl).
        simplify_eq. exists l1. simpl. pose proof (NoDup_cons_1_1 _ _ Hndl) as Hnj. split.
        -- apply (is_chain_agree (filters s.1)); [|done]. intros n Hn.
           apply list_lookup_insert_ne. by intros ->.
        -- intros n Hn. destruct (Ho n) as (h & ? & ? & ?); [by right|]. exists h.
           rewrite list_lookup_insert_ne; [done|]. by intros ->.
      * rewrite list_lookup_insert_ne in Hh by done.
        eapply keeps_owned_ok; [by apply Hkeep|]. by apply Hch.
  - apply elem_of_cons in Hj as [->|Hj]; [done|].
    destruct (unlink_run l1 (length (filters s.1)) k j (set_mutex_held true s.1) s.2 Hl Hj)
      as (p & gp & h & Hp & Hh & Hpj & Hpin & Hnp & Hrun & Hch2).
    { pose proof (is_chain_length _ _ _ Hl). simpl in *. lia. }
    simpl in Hp, Hh, Hch2. simplify_eq.
    rewrite (mbind_Ok _ _ _ _ _ Hrun).
    assert (<[p := set_fl_next (fl_next g) gp]> (filters s.1) !! j = Some g) as Hgj
      by (by rewrite list_lookup_insert_ne).
    rewrite (filter_mod_bind j g) by done. apply up_return_inv. simpl.
    set (fls1 := <[p := _]> (filters s.1)) in *.
    destruct (Ho p Hpin) as (gp2 & Hgp2 & Hpf & Hps). simplify_eq.
    assert (forall m, m <> i -> keeps_owned (filters s.1)
      (<[j := set_fl_state DMX_STATE_FREE g]> fls1) m) as Hkeep.
    { intros m Hm2 n x Hx Hxf Hxs. exists x.
      unfold fls1. rewrite !list_lookup_insert_ne; [by split_and!| |]; intros ->; congruence. }
    split_and!; [done|done|]. intros m x Hx Hxs. destruct (decide (i = m)) as [<-|Him].
    + simplify_eq. left. split; [done|]. exists (k :: list_del j l1). rewrite Ek.
      pose proof (is_chain_NoDup _ _ _ Hl) as Hndl.
      assert (j ∉ k :: list_del j l1) as Hjn.
      { intros [->|Hin]%elem_of_cons; [done|].
        apply list_del_spec in Hin as [_ ?]; [done|by eapply NoDup_cons_1_2]. }
      split.
      * apply (is_chain_agree fls1); [|done]. intros n Hn.
        apply list_lookup_insert_ne. by intros ->.
      * intros n Hn. assert (n <> j) as Hnj by (by intros ->).
        assert (n ∈ k :: l1) as Hn1.
        { apply elem_of_cons in Hn as [->|Hn]; [by left|]. right.
          by apply list_del_spec in Hn as [? _]; [|by eapply NoDup_cons_1_2]. }
        destruct (Ho n Hn1) as (y & Hy & Hyf & Hys).
        destruct (decide (n = p)) as [->|Hnp2].
        -- exists (set_fl_next (fl_next g) gp). rewrite list_lookup_insert_ne by done.
           unfold fls1. by rewrite (lookup_insert_same _ _ gp) by done.
        -- exists y. unfold fls1. by rewrite !list_lookup_insert_ne by done.
    + eapply keeps_owned_ok; [by apply Hkeep|]. by apply Hch.
Qed.

Lemma api_step_inv c s :
  demux_inv s.1 -> api_pre c s.1 -> returns_inv (api_run c s).
Proof using DL.
  intros Hi Hp. destruct c; simpl in Hp |- *.
  - destruct (alloc_ts_inv cb s Hi) as (r & s' & Hr & Hi'). rewrite (mbind_Ok _ _ _ _ _ Hr).
    by eexists _, s'.
  - by apply set_ts_inv.
  - by apply start_ts_inv.
  - by apply stop_ts_inv.
  - by apply release_ts_inv.
  - destruct (alloc_sec_inv cb s Hi) as (r & s' & Hr & Hi'). rewrite (mbind_Ok _ _ _ _ _ Hr).
    by eexists _, s'.
  - destruct (alloc_filter_inv i s Hi Hp) as (r & s' & Hr & Hi'). rewrite (mbind_Ok _ _ _ _ _ Hr).
    by eexists _, s'.
  - by apply set_sec_inv.
  - by apply start_sec_inv.
  - by apply stop_sec_inv.
  - by apply release_filter_inv.
  - by apply release_sec_inv.
  - unfold dvbdmx_open. mrun. case_if; by eexists _, _.
  - unfold dvbdmx_close. mrun. case_if; by eexists _, _.
  - by eexists _, _.
  - unfold dvbdmx_remove_frontend. mrun. destruct (fe_del _ _); by eexists _, _.
  - unfold dvbdmx_connect_frontend. mrun. destruct (dx_frontend s.1); [by eexists _, _|].
    destruct Hi as [Hm Hwf]. rewrite down_bind by done. mrun.
    eexists _, _. by split.
  - unfold dvbdmx_disconnect_frontend. destruct Hi as [Hm Hwf]. rewrite down_bind by done. mrun.
    eexists _, _. by split.
Qed.

(** C7: the API keeps its invariant.  Every call of a client that uses its
    handles properly returns (it never follows a bad pointer, never walks a
    chain for ever, and never leaves the mutex locked, on any of its error
    returns), and afterwards the feed list, the feeds and the filters are
    consistent again: no feed or filter in use is ever handed out a second
    time, and the chains of different feeds stay disjoint and acyclic. *)
Theorem api_call_invariant c s :
  demux_inv s.1 -> api_pre c s.1 ->
  exists r s', api_run c s = Ok (r, s') /\ demux_inv s'.1.
Proof using DL.
  apply api_step_inv.
Qed.
End Api.

(** ** Reachable states *)

Section Reachable.
Context {W : Type} {D : DemuxDriver W} {DL : DemuxDriverLaws W}.

(** What clients can do, in any order. *)
Inductive api_steps : DW (W:=W) -> DW -> Prop :=
| steps_refl s : api_steps s s
| steps_call c s r s1 s2 :
    api_pre c s.1 -> api_run c s = Ok (r, s1) -> api_steps s1 s2 -> api_steps s s2.

Lemma init_inv fl fd id muxs d : demux_inv (dvb_dmx_init (Some fl) (Some fd) id muxs d).1.2.
Proof using.
  split; [done|]. split; [constructor|]. split.
  - intros i Hi. by apply not_elem_of_nil in Hi.
  - intros i f Hf Hs. simpl in Hf. rewrite list_lookup_fmap in Hf.
    destruct (fd !! i) as [g|]; simpl in Hf; [|done]. injection Hf as <-. by destruct Hs.
Qed.

(** Whatever memory the two arrays start with, every state that
    initialisation and any sequence of calls leads to satisfies the invariant. *)
Theorem api_reachable_invariant fl fd id muxs d0 w0 s :
  api_steps ((dvb_dmx_init (Some fl) (Some fd) id muxs d0).1.2, w0) s -> demux_inv s.1.
Proof using DL.
  pose proof (init_inv fl fd id muxs d0) as Hi.
  change (dvb_dmx_init (Some fl) (Some fd) id muxs d0).1.2
    with (((dvb_dmx_init (Some fl) (Some fd) id muxs d0).1.2, w0).1) in Hi.
  intros Hs. induction Hs as [s|c s r s1 s2 Hp Hrun Hs IH]; [done|]. apply IH.
  destruct (api_step_inv c s Hi Hp) as (r' & s' & Hrun' & Hi'). rewrite Hrun in Hrun'.
  by injection Hrun' as <- <-.
Qed.
End Reachable.

#[export] Instance log_driver_laws : DemuxDriverLaws log.
Proof. split; intros c [= <-] i f w; by eexists _, _. Defined.

Lemma sample_demux_inv : demux_inv sample_demux.
Proof.
  split; [done|]. split; [apply NoDup_singleton|]. split.
  - intros i ->%list_elem_of_singleton. by exists sample_feed.
  - intros [|i] f Hf Hs; [|done]. injection Hf as <-. left. split; [done|].
    exists [1%nat; 0%nat]. split; [exact sample_chain|].
    intros j [->|[->|Hj]%elem_of_cons]%elem_of_cons; [by eexists|by eexists|].
    by apply not_elem_of_nil in Hj.
Qed.

Lemma api_call_invariant_witness :
  exists r s', api_run (StopSec 0) (sample_demux, ([] : log)) = Ok (r, s') /\ demux_inv s'.1.
Proof.
  apply (api_call_invariant (StopSec 0) (sample_demux, [])); [exact sample_demux_inv|].
  by exists sample_feed.
Defined.

Definition fresh_demux : dvb_demux :=
  (dvb_dmx_init (Some sample_filters) (Some [sample_feed]) 0 [] sample_demux).1.2.

Lemma api_reachable_invariant_witness :
  exists r s, api_run (AllocSec 7) (fresh_demux, ([] : log)) = Ok (r, s) /\ demux_inv s.1.
Proof.
  destruct (api_run (AllocSec 7) (fresh_demux, ([] : log))) as [[r s]| | |] eqn:E;
    [|by vm_compute in E..].
  exists r, s. split; [done|].
  apply (api_reachable_invariant sample_filters [sample_feed] 0 [] sample_demux []).
  apply (steps_call (AllocSec 7) _ r s); [done|exact E|apply steps_refl].
Defined.

(** ** What the code does with handles that are in the wrong state *)

Section Misuse.
Context {W : Type} {D : DemuxDriver W}.

(** code bug: releasing a section filter while its feed filters waits for
    the mutex the caller itself holds: without a pending signal the call never
    returns; with one the feed goes on filtering. *)
Theorem release_filter_while_filtering i j f g (s : DW (W:=W)) :
  mutex_held s.1 = false -> filters s.1 !! j = Some g -> fl_feed g = Some i ->
  feeds s.1 !! i = Some f -> is_filtering f = true -> signal s.1 = false ->
  dmx_section_feed_release_filter i j s = Block.
Proof using.
  intros Hm Hg Hgf Hf Hfi Hsig. unfold dmx_section_feed_release_filter.
  rewrite down_bind, (filter_get_bind j g) by done. rewrite Hgf, Nat.eqb_refl. cbn [negb].
  rewrite (feed_get_bind i f), Hfi by done. unfold dmx_section_feed_stop_filtering, mbind_ at 1.
  unfold mbind_ at 1 2. rewrite down_held by done. simpl. by rewrite Hsig.
Qed.
End Misuse.

Lemma release_filter_while_filtering_witness :
  dmx_section_feed_release_filter 0 1 (sample_demux, ([] : log)) = Block.
Proof. by eapply release_filter_while_filtering. Defined.

(** A TS feed on a decoder channel is set up, released, and its place taken by
    another client that never asks for a decoder. *)
Definition stale_pes_calls : list api_call :=
  [AllocTs 1; SetTs 0 0x30 TS_DECODER 1 0 0 false 0; ReleaseTs 0;
   AllocTs 2; AllocTs 3; SetTs 1 0x31 TS_DECODER 1 0 0 false 0; ReleaseTs 0].

Fixpoint run_calls (cs : list api_call) : M (DW (W:=log)) unit :=
  match cs with
  | [] => mret_ tt
  | c :: cs => api_run c ;;; run_calls cs
  end.

Definition empty_demux : dvb_demux :=
  (dvb_dmx_init (Some (replicate 4 (table_filter 0 0 None)))
     (Some (replicate 4 (section_feed_of 0 None))) 0 [] sample_demux).1.2.

(** Code bug: allocation does not reset [ts_type], so the release of a feed
    that was never given to the decoder takes the decoder channel away from the
    feed that holds it. *)
Theorem stale_ts_type_releases_channel :
  exists s6 s7,
    run_calls (take 6 stale_pes_calls) (empty_demux, []) = Ok (tt, s6) /\
    pesfilter s6.1 !! 1%nat = Some (Some 1%nat) /\
    run_calls stale_pes_calls (empty_demux, []) = Ok (tt, s7) /\
    pesfilter s7.1 !! 1%nat = Some None /\
    feed_in_use DMX_TYPE_TS 1 s7.1.
Proof.
  eexists _, _. split; [vm_compute; reflexivity|]. split; [reflexivity|].
  split; [vm_compute; reflexivity|]. split; [reflexivity|]. by eexists.
Qed.
