(* ===== verification/FilterSpec.v ===== *)
(** * What a section filter means to its client (dvb_demux.c, 164 to 184 and 844 to 865)

    A client gives 18 bytes of value, mask and mode.  [prepare_secfilters] turns
    them into the form the byte loop uses; together they select a section when
    it agrees with the value on every bit that is in the mask and the mode, and,
    if there are bits in the mask and not in the mode, differs from it on at
    least one of those. *)

From S2P Require Import Prelude Crc32 DemuxState SwFilter SectionFilter Sample SwFrames Feeds.

Definition bit (l : list Z) (i b : nat) : bool := Z.testbit (at_ l (Z.of_nat i)) (Z.of_nat b).

(** Positions of the 144 bits of a filter. *)
Definition filter_bit (i b : nat) : Prop := (i < 18)%nat /\ (b < 8)%nat.

Definition selects (f : dvb_demux_filter) (buf : list Z) : Prop :=
  (forall i b, filter_bit i b -> bit (filter_mask f) i b = true -> bit (filter_mode f) i b = true ->
     bit buf i b = bit (filter_value f) i b) /\
  ((exists i b, filter_bit i b /\ bit (filter_mask f) i b = true /\ bit (filter_mode f) i b = false) ->
   exists i b, filter_bit i b /\ bit (filter_mask f) i b = true /\ bit (filter_mode f) i b = false /\
     bit buf i b <> bit (filter_value f) i b).

(** ** Bits and bytes *)

Lemma u8_zero z : u8 z = 0 <-> forall b, (b < 8)%nat -> Z.testbit z (Z.of_nat b) = false.
Proof.
  split.
  - intros Hz b Hb. rewrite <- (Z.bits_0 (Z.of_nat b)), <- Hz, u8_testbit by lia.
    by replace (Z.of_nat b <? 8) with true by lia.
  - intros Hz. apply Z.bits_inj'. intros n Hn. rewrite u8_testbit, Z.bits_0 by done.
    destruct (Z.ltb_spec n 8); [|done]. simpl. rewrite <- (Z2Nat.id n) by done. apply Hz. lia.
Qed.

Lemma land_u8_zero m x :
  Z.land (u8 m) x = 0 <->
  forall b, (b < 8)%nat -> Z.testbit m (Z.of_nat b) = true -> Z.testbit x (Z.of_nat b) = false.
Proof.
  assert (Z.land (u8 m) x = u8 (Z.land m x)) as ->.
  { apply Z.bits_inj'. intros n Hn. rewrite u8_testbit, !Z.land_spec, u8_testbit by done.
    by rewrite andb_assoc. }
  rewrite u8_zero. setoid_rewrite Z.land_spec. setoid_rewrite andb_false_iff.
  split; intros Hb b Hlt; specialize (Hb b Hlt).
  - intros Hm. destruct Hb; [congruence|done].
  - destruct (Z.testbit m (Z.of_nat b)); [right; auto|by left].
Qed.

Lemma ff_bit_true n : (n < 8)%nat -> Z.testbit 0xff (Z.of_nat n) = true.
Proof.
  intros Hn. change 0xff with (Z.ones 8). apply Z.ones_spec_low. lia.
Qed.

Lemma at_map_seq (g : nat -> Z) n i : (i < n)%nat -> at_ (map g (seq 0 n)) (Z.of_nat i) = g i.
Proof.
  intros Hi. unfold at_. rewrite Nat2Z.id, nth_lookup, list_lookup_fmap, lookup_seq_lt by done. done.
Qed.

(** ** The prepared form *)

Lemma prepared_and f i :
  (i < 18)%nat -> at_ (maskandmode (prepare_filter f)) (Z.of_nat i) =
    u8 (Z.land (at_ (filter_mask f) (Z.of_nat i)) (at_ (filter_mode f) (Z.of_nat i))).
Proof.
  intros Hi. unfold prepare_filter. cbn [maskandmode set_maskandmode].
  by rewrite (at_map_seq _ DVB_DEMUX_MASK_MAX).
Qed.

Lemma prepared_andnot f i :
  (i < 18)%nat -> at_ (maskandnotmode (prepare_filter f)) (Z.of_nat i) =
    u8 (Z.land (at_ (filter_mask f) (Z.of_nat i)) (Z.lnot (at_ (filter_mode f) (Z.of_nat i)))).
Proof.
  intros Hi. unfold prepare_filter. cbn [maskandnotmode set_maskandnotmode set_maskandmode].
  by rewrite (at_map_seq _ DVB_DEMUX_MASK_MAX).
Qed.

Lemma fold_lor_nonzero l a :
  fold_left Z.lor l a <> 0 <-> a <> 0 \/ exists x, In x l /\ x <> 0.
Proof.
  revert a. induction l as [|x l IH]; intros a; simpl.
  - split; [auto|]. intros [?|(x & [] & _)]; done.
  - rewrite IH, Z.lor_eq_0_iff. split.
    + intros [Hn|(y & Hy & Hn)]; [|right; eauto].
      destruct (decide (a = 0)); [right; exists x; split; [by left|]|by left]. tauto.
    + intros [Hn|(y & [->|Hy] & Hn)]; [left; tauto|left; tauto|right; eauto].
Qed.

(** [doneq]: whether some bit has to differ. *)
Lemma prepared_doneq f :
  doneq (prepare_filter f) = c_bool true /\
    (exists i b, filter_bit i b /\ bit (filter_mask f) i b = true /\ bit (filter_mode f) i b = false) \/
  doneq (prepare_filter f) = c_bool false /\
    (forall i b, filter_bit i b -> bit (filter_mask f) i b = true -> bit (filter_mode f) i b = true).
Proof.
  unfold prepare_filter. cbn [doneq set_doneq set_maskandnotmode set_maskandmode].
  set (l := map _ _). destruct (Z.eqb_spec (fold_left Z.lor l 0) 0) as [E|E]; cbn [negb].
  - right. split; [done|]. intros i b [Hi Hb] Hm.
    assert (u8 (Z.land (at_ (filter_mask f) (Z.of_nat i)) (Z.lnot (at_ (filter_mode f) (Z.of_nat i)))) = 0)
      as Hz.
    { destruct (decide (u8 (Z.land (at_ (filter_mask f) (Z.of_nat i))
        (Z.lnot (at_ (filter_mode f) (Z.of_nat i)))) = 0)) as [|Hn]; [done|].
      exfalso. apply (proj2 (fold_lor_nonzero l 0)); [|done]. right.
      eexists. split; [|exact Hn]. unfold l. apply in_map_iff. exists i. split; [done|].
      apply in_seq. change (0 + DVB_DEMUX_MASK_MAX)%nat with 18%nat. lia. }
    rewrite u8_zero in Hz. specialize (Hz b Hb).
    rewrite Z.land_spec, Z.lnot_spec in Hz by lia. unfold bit in *. rewrite Hm in Hz.
    by destruct (Z.testbit (at_ (filter_mode f) (Z.of_nat i)) (Z.of_nat b)).
  - left. split; [done|]. apply fold_lor_nonzero in E as [?|(x & Hx & Hn)]; [done|].
    unfold l in Hx. apply in_map_iff in Hx as (i & <- & Hi). apply in_seq in Hi.
    change (0 + DVB_DEMUX_MASK_MAX)%nat with 18%nat in Hi.
    destruct (existsb (fun b => Z.testbit (Z.land (at_ (filter_mask f) (Z.of_nat i))
      (Z.lnot (at_ (filter_mode f) (Z.of_nat i)))) (Z.of_nat b)) (seq 0 8)) eqn:Eb.
    + apply existsb_exists in Eb as (b & Hb & Ht). apply in_seq in Hb.
      rewrite Z.land_spec, Z.lnot_spec in Ht by lia. apply andb_true_iff in Ht as [H1 H2].
      apply negb_true_iff in H2. exists i, b. split; [split; lia|]. by split.
    + destruct Hn. apply u8_zero. intros b Hb. apply not_true_iff_false. intros Ht.
      apply not_true_iff_false in Eb. destruct Eb. apply existsb_exists. exists b.
      split; [apply in_seq; lia|done].
Qed.

Lemma seq18_In i : In i (seq 0 DVB_DEMUX_MASK_MAX) <-> (i < 18)%nat.
Proof. rewrite in_seq. change (0 + DVB_DEMUX_MASK_MAX)%nat with 18%nat. lia. Qed.

Lemma xorb_bit_false (v b : bool) : xorb v b = false <-> b = v.
Proof. destruct v, b; split; done. Qed.

(** The byte-wise test of the prepared filter is the bit-wise meaning. *)
Lemma sec_match_selects f buf : sec_match (prepare_filter f) buf = true <-> selects f buf.
Proof.
  unfold sec_match, selects. rewrite andb_true_iff, orb_true_iff, forallb_forall, existsb_exists.
  assert ((forall x, In x (seq 0 DVB_DEMUX_MASK_MAX) ->
      (Z.land (at_ (maskandmode (prepare_filter f)) (Z.of_nat x)) (sec_diff (prepare_filter f) buf x)
        =? 0) = true) <->
    (forall i b, filter_bit i b -> bit (filter_mask f) i b = true -> bit (filter_mode f) i b = true ->
       bit buf i b = bit (filter_value f) i b)) as ->.
  { setoid_rewrite seq18_In. setoid_rewrite Z.eqb_eq. split.
    - intros Hall i b [Hi Hb] Hm Hmo. specialize (Hall i Hi).
      rewrite prepared_and, land_u8_zero in Hall by done. specialize (Hall b Hb).
      rewrite Z.land_spec in Hall. unfold bit in *. rewrite Hm, Hmo in Hall. specialize (Hall eq_refl).
      unfold sec_diff in Hall. rewrite Z.lxor_spec in Hall. apply xorb_bit_false. exact Hall.
    - intros Hall i Hi. rewrite prepared_and, land_u8_zero by done. intros b Hb.
      rewrite Z.land_spec, andb_true_iff. intros [Hm Hmo]. unfold sec_diff. rewrite Z.lxor_spec.
      apply xorb_bit_false. by apply (Hall i b). }
  assert ((exists x, In x (seq 0 DVB_DEMUX_MASK_MAX) /\
      negb (Z.land (at_ (maskandnotmode (prepare_filter f)) (Z.of_nat x))
        (sec_diff (prepare_filter f) buf x) =? 0) = true) <->
    exists i b, filter_bit i b /\ bit (filter_mask f) i b = true /\ bit (filter_mode f) i b = false /\
      bit buf i b <> bit (filter_value f) i b) as ->.
  { split.
    - intros (i & Hi%seq18_In & Hn). apply negb_true_iff, Z.eqb_neq in Hn.
      rewrite prepared_andnot in Hn by done. 
      set (m := Z.land (at_ (filter_mask f) (Z.of_nat i)) (Z.lnot (at_ (filter_mode f) (Z.of_nat i)))) in Hn.
      destruct (existsb (fun b => Z.testbit m (Z.of_nat b) &&
        Z.testbit (sec_diff (prepare_filter f) buf i) (Z.of_nat b)) (seq 0 8)) eqn:Eb.
      + apply existsb_exists in Eb as (b & Hb & Ht). apply in_seq in Hb.
        apply andb_true_iff in Ht as [H1 H2]. subst m.
        rewrite Z.land_spec, Z.lnot_spec in H1 by lia. apply andb_true_iff in H1 as [H1 H3].
        apply negb_true_iff in H3. exists i, b. split; [split; lia|]. split; [done|]. split; [done|].
        unfold sec_diff in H2. rewrite Z.lxor_spec in H2. intros Heq. unfold bit in Heq.
        change (filter_value (prepare_filter f)) with (filter_value f) in H2.
        rewrite Heq, xorb_nilpotent in H2. done.
      + destruct Hn. apply land_u8_zero. intros b Hb Hm. apply not_true_iff_false. intros Ht.
        apply not_true_iff_false in Eb. destruct Eb. apply existsb_exists. exists b.
        split; [apply in_seq; lia|]. by rewrite Hm, Ht.
    - intros (i & b & [Hi Hb] & Hm & Hmo & Hd). exists i. split; [by apply seq18_In|].
      apply negb_true_iff, Z.eqb_neq. rewrite prepared_andnot by done. intros Hz.
      rewrite land_u8_zero in Hz. specialize (Hz b Hb). unfold bit in *.
      rewrite Z.land_spec, Z.lnot_spec, Hm, Hmo in Hz by lia. specialize (Hz eq_refl).
      unfold sec_diff in Hz. rewrite Z.lxor_spec in Hz. apply Hd, xorb_bit_false. exact Hz. }
  rewrite Z.eqb_eq. destruct (prepared_doneq f) as [[-> Hex]|[-> Hno]]; simpl.
  - split; intros [Ha Hb]; (split; [done|]).
    + intros _. by destruct Hb.
    + right. auto.
  - split; intros [Ha Hb]; (split; [done|]); [|by left].
    intros (i & b & Hib & Hm & Hmo). rewrite (Hno i b Hib Hm) in Hmo. done.
Qed.

#[export] Instance selects_dec f buf : Decision (selects f buf).
Proof. refine (cast_if (decide (sec_match (prepare_filter f) buf = true))); by rewrite <- sec_match_selects. Defined.

Section Selection.
Context {W : Type} {C : DemuxClient W}.

Lemma sectionfilter_selects f feed s (w : W) :
  slice (secbuf feed) 0 (seclen feed) = Ok s ->
  (selects f (secbuf feed) ->
   dvb_dmx_swfilter_sectionfilter (prepare_filter f) (feed, w) =
     let? r := cb_sec (fd_cb feed) (sf_priv f) s w in Ok (r.1, (feed, r.2))) /\
  (~ selects f (secbuf feed) ->
   dvb_dmx_swfilter_sectionfilter (prepare_filter f) (feed, w) = Ok (0, (feed, w))).
Proof using.
  intros Hs. rewrite <- sec_match_selects. unfold dvb_dmx_swfilter_sectionfilter, sec_match.
  mrun.
  pose proof (sectionfilter_loop_spec DVB_DEMUX_MASK_MAX 0 (secbuf feed) (prepare_filter f) 0) as Hl.
  change (Z.of_nat 0) with 0 in Hl. rewrite Hl. clear Hl.
  destruct (forallb _ _); cbn [andb]; [|split; [done|reflexivity]].
  rewrite fold_lor_zero. change (0 =? 0) with true. cbn [andb].
  set (E := existsb _ _). destruct (prepared_doneq f) as [[-> _]|[-> _]]; destruct E; simpl;
    split; intros Hx; try done; rewrite ?Hs; mrun; unfold wcall; cbn [fst snd];
    try reflexivity; by destruct Hx.
Qed.

(** C16: a section filter passes exactly the sections it describes: a client's
    callback is called, with the whole section, when the section agrees with
    the filter value on all bits that are set in mask and mode, and differs on
    at least one of the bits that are set in the mask and clear in the mode
    (when there are such bits); otherwise nothing happens. *)
Theorem section_filter_selects f feed s (w : W) :
  slice (secbuf feed) 0 (seclen feed) = Ok s ->
  (selects f (secbuf feed) ->
   dvb_dmx_swfilter_sectionfilter (prepare_filter f) (feed, w) =
     let? r := cb_sec (fd_cb feed) (sf_priv f) s w in Ok (r.1, (feed, r.2))) /\
  (~ selects f (secbuf feed) ->
   dvb_dmx_swfilter_sectionfilter (prepare_filter f) (feed, w) = Ok (0, (feed, w))).
Proof using. apply sectionfilter_selects. Qed.
End Selection.

(** A filter for table 0x42 in every version but 5. *)
Definition version_filter : dvb_demux_filter :=
  mk_dvb_demux_filter ([0x42; 0; 0; 0; 0; 0x0a] ++ replicate 12 0)
    ([0xff; 0; 0; 0; 0; 0x3e] ++ replicate 12 0) ([0xff; 0; 0; 0; 0; 0] ++ replicate 12 0xff)
    9 z18 z18 0 None (Some 0%nat) 0 DMX_STATE_READY DMX_TYPE_SEC.

Definition version_feed (v : Z) : dvb_demux_feed :=
  set_secbuf ([0x42; 0x70; 5; 0; 1; Z.shiftl v 1; 0; 0] ++ replicate 4088 0)
    (set_secbufp 8 (set_seclen 8 sample_feed)).

Lemma section_filter_selects_witness :
  dvb_dmx_swfilter_sectionfilter (prepare_filter version_filter) (version_feed 6, []) =
    Ok (0, (version_feed 6, [(9, [0x42; 0x70; 5; 0; 1; 12; 0; 0])])) /\
  dvb_dmx_swfilter_sectionfilter (prepare_filter version_filter) (version_feed 5, []) =
    Ok (0, (version_feed 5, [])).
Proof.
  split.
  - destruct (section_filter_selects version_filter (version_feed 6)
      [0x42; 0x70; 5; 0; 1; 12; 0; 0] []) as [Hsel _]; [by vm_compute|].
    apply Hsel, sec_match_selects. by vm_compute.
  - destruct (section_filter_selects version_filter (version_feed 5)
      [0x42; 0x70; 5; 0; 1; 10; 0; 0] []) as [_ Hnot]; [by vm_compute|].
    apply Hnot. rewrite <- sec_match_selects. by vm_compute.
Defined.
