(* ===== verification/Dmxdev.v ===== *)
(** * The demux device (dvb-core/dmxdev.c, lines 159 to 1145)

    The device nodes [demux] and [dvr]: each open file of the first is a filter
    with a buffer of its own, the second reads and writes whole transport
    streams.  The device is a client of the demultiplexer: its callbacks run
    when a packet is filtered, its file operations call the demux API.

    The state of an operation is the demultiplexer, the device and the rest of
    the world [HW], which the demultiplexer's driver and its other clients see.
    A pointer to a filter is its index.  [vmalloc] answers the allocations of
    one call.  The spin lock of the device keeps callbacks out of the few
    statements it protects; the operations below are sequential and the
    callbacks that come while a reader sleeps are explicit events. *)

From S2P Require Import Prelude Crc32 Fifo DmxBuffer DemuxState SwFilter SwFrames Feeds.

(** ** Constants and data *)

Definition DMX_OUT_DECODER := 0.
Definition DMX_OUT_TAP := 1.
Definition DMX_OUT_TS_TAP := 2.
Definition DMX_PES_OTHER := 20.
Definition DMX_CHECK_CRC := 1.
Definition DMX_ONESHOT := 2.
Definition DMX_IMMEDIATE_START := 4.
Definition DMX_FILTER_SIZE : nat := 16.

Definition DVR_BUFFER_SIZE := 10 * 188 * 1024.
Definition DMXDEV_CAP_DUPLEX := 1.
Definition HZ := 100.

Definition O_ACCMODE := 3.
Definition O_RDONLY := 0.
Definition O_WRONLY := 1.
Definition O_RDWR := 2.
Definition O_NONBLOCK := 0x800.

Definition POLLIN := 0x1.
Definition POLLPRI := 0x2.
Definition POLLOUT := 0x4.
Definition POLLERR := 0x8.
Definition POLLRDNORM := 0x40.
Definition POLLWRNORM := 0x100.

(** [dmx_filter_t]: 16 bytes each *)
Record dmx_filter_t := mk_dmx_filter { ft_filter : list Z; ft_mask : list Z; ft_mode : list Z }.

Record dmx_sct_filter_params := mk_sct_params {
  sp_pid : Z;
  sp_filter : dmx_filter_t;
  sp_timeout : Z;
  sp_flags : Z;
}.

Record dmx_pes_filter_params := mk_pes_params {
  pp_pid : Z;
  pp_input : Z;
  pp_output : Z;
  pp_pes_type : Z;
  pp_flags : Z;
}.

(** The union [params]: what was last stored.  Reading the other member is
    outside the model ([Fault]). *)
Inductive params :=
| NoParams
| SecParams (p : dmx_sct_filter_params)
| PesParams (p : dmx_pes_filter_params).

Inductive dmxdev_type := DMXDEV_TYPE_NONE | DMXDEV_TYPE_SEC | DMXDEV_TYPE_PES.
#[export] Instance dmxdev_type_eq_dec : EqDecision dmxdev_type.
Proof. solve_decision. Defined.

Inductive dmxdev_state :=
| DMXDEV_STATE_FREE
| DMXDEV_STATE_ALLOCATED
| DMXDEV_STATE_SET
| DMXDEV_STATE_GO
| DMXDEV_STATE_DONE
| DMXDEV_STATE_TIMEDOUT.
#[export] Instance dmxdev_state_eq_dec : EqDecision dmxdev_state.
Proof. solve_decision. Defined.

(** The order of the [enum]. *)
Definition state_num (s : dmxdev_state) : Z :=
  match s with
  | DMXDEV_STATE_FREE => 0
  | DMXDEV_STATE_ALLOCATED => 1
  | DMXDEV_STATE_SET => 2
  | DMXDEV_STATE_GO => 3
  | DMXDEV_STATE_DONE => 4
  | DMXDEV_STATE_TIMEDOUT => 5
  end.
Definition state_lt (a b : dmxdev_state) : bool := state_num a <? state_num b.
(** [state >= DMXDEV_STATE_GO] *)
Definition running (s : dmxdev_state) : bool := negb (state_lt s DMXDEV_STATE_GO).

(** [struct dmxdev_filter]; [dev] and [dvbdev] are the device the filter is part of *)
Record dmxdev_filter := mk_dmxdev_filter {
  df_sec : option nat;   (* filter.sec: index in demux->filter, or NULL *)
  df_feed : option nat;   (* the union feed.ts / feed.sec: index in demux->feed, or NULL *)
  df_params : params;
  df_type : dmxdev_type;
  df_state : dmxdev_state;
  df_buffer : dmxdev_buffer;
  df_mutex : bool;   (* the semaphore is taken *)
  df_timer : option Z;   (* when the timer expires, in jiffies *)
  df_todo : Z;
  secheader : list Z;   (* 3 bytes *)
  df_pid : Z;
}.
#[export] Instance dmxdev_filter_eta : Eta dmxdev_filter := fun r =>
  mk_dmxdev_filter (df_sec r) (df_feed r) (df_params r) (df_type r) (df_state r) (df_buffer r)
    (df_mutex r) (df_timer r) (df_todo r) (secheader r) (df_pid r).
Definition set_df_sec := setter! df_sec.
Definition set_df_feed := setter! df_feed.
Definition set_df_params := setter! df_params.
Definition set_df_type := setter! df_type.
Definition set_df_state := setter! df_state.
Definition set_df_buffer := setter! df_buffer.
Definition set_df_mutex := setter! df_mutex.
Definition set_df_timer := setter! df_timer.
Definition set_df_todo := setter! df_todo.
Definition set_secheader := setter! secheader.
Definition set_df_pid := setter! df_pid.

(** [struct dmxdev_dvr] *)
Record dmxdev_dvr := mk_dmxdev_dvr {
  dvr_state : dmxdev_state;
  dvr_own_buffer : dmxdev_buffer;   (* never used: the device has one buffer *)
}.
#[export] Instance dmxdev_dvr_eta : Eta dmxdev_dvr := fun r =>
  mk_dmxdev_dvr (dvr_state r) (dvr_own_buffer r).
Definition set_dvr_state := setter! dvr_state.
Definition set_dvr_own_buffer := setter! dvr_own_buffer.

(** [struct dmxdev]; [filternum] is the length of the arrays *)
Record dmxdev := mk_dmxdev {
  dv_filter : option (list dmxdev_filter);   (* NULL before initialisation *)
  dv_dvr : option (list dmxdev_dvr);
  capabilities : Z;
  dvr_orig_fe : option dmx_frontend;
  dvr_buffer : dmxdev_buffer;
  dv_mutex : bool;
  jiffies : Z;   (* the kernel's clock *)
}.
#[export] Instance dmxdev_eta : Eta dmxdev := fun r =>
  mk_dmxdev (dv_filter r) (dv_dvr r) (capabilities r) (dvr_orig_fe r) (dvr_buffer r) (dv_mutex
    r) (jiffies r).
Definition set_dv_filter := setter! dv_filter.
Definition set_dv_dvr := setter! dv_dvr.
Definition set_capabilities := setter! capabilities.
Definition set_dvr_orig_fe := setter! dvr_orig_fe.
Definition set_dvr_buffer := setter! dvr_buffer.
Definition set_dv_mutex := setter! dv_mutex.
Definition set_jiffies := setter! jiffies.

Definition sec_params (f : dmxdev_filter) : res dmx_sct_filter_params :=
  match df_params f with SecParams p => Ok p | _ => Fault end.
Definition pes_params (f : dmxdev_filter) : res dmx_pes_filter_params :=
  match df_params f with PesParams p => Ok p | _ => Fault end.

(** ** Callbacks (325 to 418)

    They run in interrupt context on one filter of the device; the TS callback
    also on the device's own buffer. *)

Definition dvb_dmxdev_filter_timeout (f : dmxdev_filter) : dmxdev_filter :=
  set_df_timer None (set_df_state DMXDEV_STATE_TIMEDOUT
    (set_df_buffer (buf_set_error (- ETIMEDOUT) (df_buffer f)) f)).

Definition dvb_dmxdev_filter_timer (now : Z) (para : dmx_sct_filter_params) (f : dmxdev_filter)
    : dmxdev_filter :=
  let f := set_df_timer None f in
  if negb (sp_timeout para =? 0)
  then set_df_timer (Some (u32 (now + 1 + u32 (HZ / 2 + HZ * sp_timeout para) / 1000))) f
  else f.

Definition dvb_dmxdev_section_callback (buffer1 buffer2 : list Z) (f : dmxdev_filter)
    : res (Z * dmxdev_filter) :=
  if negb (error (df_buffer f) =? 0) then Ok (0, f) else
  if negb (bool_decide (df_state f = DMXDEV_STATE_GO)) then Ok (0, f) else
  let f := set_df_timer None f in
  let? b := buffer_deliver (df_buffer f) buffer1 buffer2 in
  let f := set_df_buffer b f in
  let? p := sec_params f in
  Ok (0, if negb (Z.land (sp_flags p) DMX_ONESHOT =? 0)
         then set_df_state DMXDEV_STATE_DONE f else f).

Definition dvb_dmxdev_ts_callback (buffer1 buffer2 : list Z) (f : dmxdev_filter)
    (dvr : dmxdev_buffer) : res (Z * (dmxdev_filter * dmxdev_buffer)) :=
  let? p := pes_params f in
  if pp_output p =? DMX_OUT_DECODER then Ok (0, (f, dvr)) else
  let tap := pp_output p =? DMX_OUT_TAP in
  let buffer := if tap then df_buffer f else dvr in
  if negb (error buffer =? 0) then Ok (0, (f, dvr)) else
  let? b := buffer_deliver buffer buffer1 buffer2 in
  Ok (0, if tap then (set_df_buffer b f, dvr) else (f, b)).

(** ** The device as a client of the demultiplexer *)

Definition filter_at (k : Z) (dv : dmxdev) : option dmxdev_filter :=
  match dv_filter dv with
  | Some l => if 0 <=? k then l !! Z.to_nat k else None
  | None => None
  end.

Definition filter_put (k : Z) (f : dmxdev_filter) (dv : dmxdev) : dmxdev :=
  match dv_filter dv with
  | Some l => set_dv_filter (Some (<[Z.to_nat k := f]> l)) dv
  | None => dv
  end.

(** The number of the device's callbacks; other numbers belong to the other
    clients of the demultiplexer. *)
Definition CB_DMXDEV := 1.

#[export] Instance dmxdev_client {HW} {C : DemuxClient HW} : DemuxClient (dmxdev * HW) := {
  cb_ts cb priv s w :=
    if cb =? CB_DMXDEV then
      match filter_at priv w.1 with
      | Some f =>
          let? r := dvb_dmxdev_ts_callback s [] f (dvr_buffer w.1) in
          Ok (r.1, (set_dvr_buffer r.2.2 (filter_put priv r.2.1 w.1), w.2))
      | None => Fault
      end
    else let? r := cb_ts cb priv s w.2 in Ok (r.1, (w.1, r.2));
  cb_sec cb priv s w :=
    if cb =? CB_DMXDEV then
      match filter_at priv w.1 with
      | Some f =>
          let? r := dvb_dmxdev_section_callback s [] f in
          Ok (r.1, (filter_put priv r.2 w.1, w.2))
      | None => Fault
      end
    else let? r := cb_sec cb priv s w.2 in Ok (r.1, (w.1, r.2));
}.

(** ** Reading from a filter (808 to 865)

    What can happen while the reader sleeps: its filter's callback, the time
    out, a signal.  [schedule] runs the events on the filter and says which of
    them reach its buffer, with the filter (but for the buffer) after each. *)

Inductive event :=
| EvSignal
| EvData (s : list Z)         (* the demultiplexer has a section or a payload *)
| EvTimeout.                  (* the timer expires *)

Definition event_step (ev : event) (f : dmxdev_filter) : option wakeup * dmxdev_filter :=
  match ev with
  | EvSignal => (Some Signal, f)
  | EvTimeout =>
      match df_timer f with
      | Some _ => (Some (Failure (- ETIMEDOUT)), dvb_dmxdev_filter_timeout f)
      | None => (None, f)
      end
  | EvData s =>
      match df_params f with
      | SecParams p =>
          if bool_decide (df_state f = DMXDEV_STATE_GO) then
            (Some (Producer s),
             let f := set_df_timer None f in
             if negb (Z.land (sp_flags p) DMX_ONESHOT =? 0)
             then set_df_state DMXDEV_STATE_DONE f else f)
          else (None, f)
      | PesParams p =>
          if pp_output p =? DMX_OUT_TAP then (Some (Producer s), f) else (None, f)
      | NoParams => (None, f)
      end
  end.

Fixpoint schedule (evs : list event) (f : dmxdev_filter) : list (wakeup * dmxdev_filter) :=
  match evs with
  | [] => []
  | ev :: evs =>
      let r := event_step ev f in
      match r.1 with
      | Some w => (w, r.2) :: schedule evs r.2
      | None => schedule evs r.2
      end
  end.

(** A read of the filter's buffer: the code, the bytes, the filter afterwards
    and the events that are left. *)
Definition filter_buffer_read (f : dmxdev_filter) (non_blocking : bool) (ucopy : Z -> Z -> bool)
    (count : Z) (sched : list (wakeup * dmxdev_filter))
    : res (Z * list Z * dmxdev_filter * list (wakeup * dmxdev_filter)) :=
  let? r := dvb_dmxdev_buffer_read (df_buffer f) non_blocking ucopy count (map fst sched) in
  let used := (length sched - length (rr_evs r))%nat in
  let f := List.last (map snd (take used sched)) f in
  Ok (rr_ret r, rr_out r, set_df_buffer (rr_buf r) f, drop used sched).

(** [ufrom]: reading back the three header bytes from the user's buffer
    succeeds. *)
Definition dvb_dmxdev_read_sec (dfil : dmxdev_filter) (non_blocking : bool)
    (ucopy : Z -> Z -> bool) (ufrom : bool) (count : Z) (sched : list (wakeup * dmxdev_filter))
    : res (Z * list Z * dmxdev_filter) :=
  let body (dfil : dmxdev_filter) (out : list Z) (done count : Z) sched :=
    let count := if count >? df_todo dfil then df_todo dfil else count in
    let? r := filter_buffer_read dfil non_blocking (fun off len => ucopy (zlen out + off) len)
                count sched in
    let '(result, s, dfil, _) := r in
    if result <? 0 then Ok (result, out ++ s, dfil)
    else Ok (result + done, out ++ s, set_df_todo (df_todo dfil - result) dfil) in
  if df_todo dfil <=? 0 then
    let hcount := 3 + df_todo dfil in
    let hcount := if hcount >? count then count else hcount in
    let? r := filter_buffer_read dfil non_blocking ucopy hcount sched in
    let '(result, out, dfil, sched) := r in
    if result <? 0 then Ok (result, out, set_df_todo 0 dfil) else
    if negb ufrom then Ok (- EFAULT, out, dfil) else
    let? h := memcpy_to (secheader dfil) (- df_todo dfil) (take (Z.to_nat result) out) in
    let dfil := set_df_todo (df_todo dfil - result) (set_secheader h dfil) in
    let count := count - result in
    if df_todo dfil >? -3 then Ok (result, out, dfil) else
    let todo := Z.land (Z.lor (Z.shiftl (at_ (secheader dfil) 1) 8) (at_ (secheader dfil) 2)) 0xfff in
    let dfil := set_df_todo todo dfil in
    if count =? 0 then Ok (result, out, dfil) else body dfil out result count sched
  else body dfil [] 0 count sched.

Section Dmxdev.
Context {HW : Type} {C : DemuxClient HW} {D : DemuxDriver HW} {H : CrcHooks}.
Abbreviation MX := (M (DW (W:=dmxdev * HW))).

(** ** Access to the device and its filters *)

Definition xget : MX dmxdev := mgets (fun s => s.2.1).
Definition xmod (g : dmxdev -> dmxdev) : MX unit :=
  mmodify (fun s => (s.1, (g s.2.1, s.2.2))).
Definition df_get (k : nat) : MX dmxdev_filter :=
  let! dv := xget in
  match filter_at (Z.of_nat k) dv with Some f => mret_ f | None => mfault end.
Definition df_mod (k : nat) (g : dmxdev_filter -> dmxdev_filter) : MX unit :=
  let! f := df_get k in xmod (filter_put (Z.of_nat k) (g f)).

(** [down_interruptible] on the mutex of the device, and of a filter *)
Definition down_sem (held : bool) (take : MX unit) : MX bool :=
  if held then let! d := dget in if signal d then mret_ true else fun _ => Block
  else take ;;; mret_ false.
Definition down_dev : MX bool := let! dv := xget in down_sem (dv_mutex dv) (xmod (set_dv_mutex true)).
Definition up_dev : MX unit := xmod (set_dv_mutex false).
Definition down_filter (k : nat) : MX bool :=
  let! f := df_get k in down_sem (df_mutex f) (df_mod k (set_df_mutex true)).
Definition up_filter (k : nat) : MX unit := df_mod k (set_df_mutex false).

(** ** The dvr device: open, release, write (159 to 272) *)

Definition get_fe (type : Z) : MX (option dmx_frontend) :=
  let! d := dget in
  match dvbdmx_get_frontends d with
  | None => mret_ None
  | Some l => mret_ (find (fun fe => source fe =? type) l)
  end.

Definition dvb_dvr_open (flags : Z) (vmalloc : Z -> option (list Z)) : MX Z :=
  let! e := down_dev in
  if e : bool then mret_ (- ERESTARTSYS) else
  let! dv := xget in
  let mode := Z.land flags O_ACCMODE in
  if (mode =? O_RDWR) && (Z.land (capabilities dv) DMXDEV_CAP_DUPLEX =? 0)
  then up_dev ;;; mret_ (- EOPNOTSUPP) else
  let! err :=
    if mode =? O_RDONLY then
      let b := dvb_dmxdev_buffer_init in
      let b := {| data := vmalloc DVR_BUFFER_SIZE; size := DVR_BUFFER_SIZE; pread := pread b;
                  pwrite := pwrite b; error := error b |} in
      xmod (set_dvr_buffer b) ;;;
      mret_ (match data b with None => - ENOMEM | Some _ => 0 end)
    else mret_ 0 in
  if negb (err =? 0) then up_dev ;;; mret_ err else
  let! err :=
    if mode =? O_WRONLY then
      let! d := dget in
      xmod (set_dvr_orig_fe (dx_frontend d)) ;;;
      let! front := get_fe DMX_MEMORY_FE in
      match front with
      | None => mret_ (- EINVAL)
      | Some front =>
          dvbdmx_disconnect_frontend ;;;
          dvbdmx_connect_frontend (Some front) ;;;
          mret_ 0
      end
    else mret_ 0 in
  up_dev ;;; mret_ err.

Definition dvb_dvr_release (flags : Z) : MX Z :=
  let! e := down_dev in
  if e : bool then mret_ (- ERESTARTSYS) else
  let! dv := xget in
  let mode := Z.land flags O_ACCMODE in
  (if mode =? O_WRONLY then
     dvbdmx_disconnect_frontend ;;;
     dvbdmx_connect_frontend (dvr_orig_fe dv) ;;;
     mret_ tt
   else mret_ tt) ;;;
  (if mode =? O_RDONLY then
     match data (dvr_buffer dv) with
     | Some _ => xmod (set_dvr_buffer (buf_set_data None (dvr_buffer dv)))
     | None => mret_ tt
     end
   else mret_ tt) ;;;
  up_dev ;;; mret_ 0.

Definition dvb_dvr_write (flags : Z) (buf : list Z) : MX Z :=
  if negb (Z.land flags O_ACCMODE =? O_WRONLY) then mret_ (- EINVAL) else
  let! e := down_dev in
  if e : bool then mret_ (- ERESTARTSYS) else
  let! ret := dvbdmx_write buf in
  up_dev ;;; mret_ ret.

Definition dvb_dvr_read (flags : Z) (ucopy : Z -> Z -> bool) (count : Z) (evs : list wakeup)
    : MX (Z * list Z) :=
  let! dv := xget in
  let! r := mlift (dvb_dmxdev_buffer_read (dvr_buffer dv)
                     (negb (Z.land flags O_NONBLOCK =? 0)) ucopy count evs) in
  xmod (set_dvr_buffer (rr_buf r)) ;;;
  mret_ (rr_ret r, rr_out r).

(** ** States and buffer of a filter (289 to 323) *)

Definition dvb_dmxdev_filter_state_set (k : nat) (state : dmxdev_state) : MX unit :=
  df_mod k (set_df_state state).

Definition dvb_dmxdev_set_buffer_size (k : nat) (arg : Z) (vmalloc : Z -> option (list Z)) : MX Z :=
  let! f := df_get k in
  let buf := df_buffer f in
  if u32 (size buf) =? arg then mret_ 0 else
  if running (df_state f) then mret_ (- EBUSY) else
  let buf := {| data := None; size := s32 arg; pread := 0; pwrite := 0; error := error buf |} in
  df_mod k (set_df_buffer buf) ;;;
  if size buf =? 0 then mret_ 0 else
  match vmalloc (u32 (size buf)) with
  | None => mret_ (- ENOMEM)
  | Some mem => df_mod k (set_df_buffer (buf_set_data (Some mem) buf)) ;;; mret_ 0
  end.

(** ** Feeds (423 to 529) *)

(** [filter->feed.sec], followed. *)
Definition feed_of (k : nat) : MX nat :=
  let! f := df_get k in match df_feed f with Some i => mret_ i | None => mfault end.

Definition dvb_dmxdev_feed_stop (k : nat) : MX Z :=
  dvb_dmxdev_filter_state_set k DMXDEV_STATE_SET ;;;
  let! f := df_get k in
  match df_type f with
  | DMXDEV_TYPE_SEC =>
      df_mod k (set_df_timer None) ;;;
      let! i := feed_of k in
      dmx_section_feed_stop_filtering i ;;;
      mret_ 0
  | DMXDEV_TYPE_PES =>
      let! i := feed_of k in
      dmx_ts_feed_stop_filtering i ;;;
      mret_ 0
  | DMXDEV_TYPE_NONE => mret_ (- EINVAL)
  end.

Definition dvb_dmxdev_feed_start (k : nat) : MX Z :=
  dvb_dmxdev_filter_state_set k DMXDEV_STATE_GO ;;;
  let! f := df_get k in
  match df_type f with
  | DMXDEV_TYPE_SEC => let! i := feed_of k in dmx_section_feed_start_filtering i
  | DMXDEV_TYPE_PES => let! i := feed_of k in dmx_ts_feed_start_filtering i
  | DMXDEV_TYPE_NONE => mret_ (- EINVAL)
  end.

(** The first filter of the device that runs on the section PID [pid]. *)
Definition runs_on (pid : Z) (f : dmxdev_filter) : bool :=
  running (df_state f) && bool_decide (df_type f = DMXDEV_TYPE_SEC) && (df_pid f =? pid).

Fixpoint first_filter (p : dmxdev_filter -> bool) (l : list dmxdev_filter) (k : nat) : option nat :=
  match l with
  | [] => None
  | f :: l => if p f then Some k else first_filter p l (S k)
  end.

Definition find_running (pid : Z) : MX (option nat) :=
  let! dv := xget in
  match dv_filter dv with
  | None => mret_ None
  | Some l => mret_ (first_filter (runs_on pid) l 0)
  end.

Definition dvb_dmxdev_feed_restart (k : nat) : MX Z :=
  let! f := df_get k in
  let! p := mlift (sec_params f) in
  let! o := find_running (sp_pid p) in
  match o with
  | Some m => dvb_dmxdev_feed_start m ;;; mret_ 0
  | None => let! i := feed_of k in dvbdmx_release_section_feed i ;;; mret_ 0
  end.

Definition dvb_dmxdev_filter_stop (k : nat) : MX Z :=
  let! f := df_get k in
  if state_lt (df_state f) DMXDEV_STATE_GO then mret_ 0 else
  let rewind := df_mod k (fun f => set_df_buffer (buf_rewind (df_buffer f)) f) ;;; mret_ 0 in
  match df_type f with
  | DMXDEV_TYPE_SEC =>
      match df_feed f with
      | None => rewind
      | Some i =>
          dvb_dmxdev_feed_stop k ;;;
          (match df_sec f with
           | Some j => dmx_section_feed_release_filter i j ;;; mret_ tt
           | None => mret_ tt
           end) ;;;
          dvb_dmxdev_feed_restart k ;;;
          df_mod k (set_df_feed None) ;;;
          rewind
      end
  | DMXDEV_TYPE_PES =>
      match df_feed f with
      | None => rewind
      | Some i =>
          dvb_dmxdev_feed_stop k ;;;
          dvbdmx_release_ts_feed i ;;;
          df_mod k (set_df_feed None) ;;;
          rewind
      end
  | DMXDEV_TYPE_NONE =>
      if bool_decide (df_state f = DMXDEV_STATE_ALLOCATED) then mret_ 0 else mret_ (- EINVAL)
  end.

Definition dvb_dmxdev_filter_reset (k : nat) : MX Z :=
  let! f := df_get k in
  if state_lt (df_state f) DMXDEV_STATE_SET then mret_ 0 else
  df_mod k (fun f => set_df_type DMXDEV_TYPE_NONE (set_df_pid 0xffff f)) ;;;
  dvb_dmxdev_filter_state_set k DMXDEV_STATE_ALLOCATED ;;;
  mret_ 0.

(** ** Starting a filter (531 to 688) *)

(** Lines 607 to 620: the user's 16 bytes skip the length field of the
    section header, bytes 1 and 2. *)
Definition secfilter_fill (ft : dmx_filter_t) (priv : Z) (g : dvb_demux_filter) : dvb_demux_filter :=
  let spread user old := at_ user 0 :: at_ old 1 :: at_ old 2
                           :: take (DMX_FILTER_SIZE - 1) (drop 1 user) in
  let masked l := at_ l 0 :: 0 :: 0 :: drop 3 l in
  set_sf_priv priv (set_filter_value (spread (ft_filter ft) (filter_value g))
    (set_filter_mask (masked (spread (ft_mask ft) (filter_mask g)))
    (set_filter_mode (spread (ft_mode ft) (filter_mode g)) g))).

(** Lines 556 to 631. *)
Definition filter_start_sec (k : nat) : MX Z :=
  let! f := df_get k in
  let! para := mlift (sec_params f) in
  df_mod k (fun f => set_df_sec None (set_df_feed None f)) ;;;
  let! o := find_running (sp_pid para) in
  let! shared :=
    match o with
    | Some m => let! g := df_get m in mret_ (df_feed g)
    | None => mret_ None
    end in
  df_mod k (set_df_feed shared) ;;;
  let! err :=
    match shared with
    | None =>
        let! r := dvbdmx_allocate_section_feed CB_DMXDEV in
        (match r.2 with Some i => df_mod k (set_df_feed (Some i)) | None => mret_ tt end) ;;;
        if r.1 <? 0 then mret_ r.1 else
        let! i := feed_of k in
        let! ret := dmx_section_feed_set i (sp_pid para) 32768 false
                      (negb (Z.land (sp_flags para) DMX_CHECK_CRC =? 0)) in
        if ret <? 0 then dvb_dmxdev_feed_restart k ;;; mret_ ret else mret_ 0
    | Some _ => dvb_dmxdev_feed_stop k ;;; mret_ 0
    end in
  if err <? 0 then mret_ err else
  let! i := feed_of k in
  let! r := dmx_section_feed_allocate_filter i in
  match r.2 with
  | None =>
      dvb_dmxdev_feed_restart k ;;;
      dmx_section_feed_start_filtering i ;;;
      mret_ r.1
  | Some j =>
      df_mod k (set_df_sec (Some j)) ;;;
      filter_mod j (secfilter_fill (sp_filter para) (Z.of_nat k)) ;;;
      df_mod k (set_df_todo 0) ;;;
      let! ret := dmx_section_feed_start_filtering i in
      if ret <? 0 then mret_ ret else
      let! dv := xget in
      df_mod k (dvb_dmxdev_filter_timer (jiffies dv) para) ;;;
      mret_ 0
  end.

(** Lines 633 to 681. *)
Definition filter_start_pes (k : nat) : MX Z :=
  df_mod k (set_df_feed None) ;;;
  let! f := df_get k in
  let! para := mlift (pes_params f) in
  let otype := pp_output para in
  let ts_pes := pp_pes_type para in
  let ts_type := if ts_pes <? DMX_PES_OTHER then TS_DECODER else 0 in
  let ts_type := if otype =? DMX_OUT_TS_TAP then Z.lor ts_type TS_PACKET else ts_type in
  let ts_type := if otype =? DMX_OUT_TAP then Z.lor ts_type (Z.lor TS_PAYLOAD_ONLY TS_PACKET)
                 else ts_type in
  let! r := dvbdmx_allocate_ts_feed CB_DMXDEV in
  (match r.2 with Some i => df_mod k (set_df_feed (Some i)) | None => mret_ tt end) ;;;
  if r.1 <? 0 then mret_ r.1 else
  let! i := feed_of k in
  feed_mod i (set_fd_priv (Z.of_nat k)) ;;;
  let! ret := dmx_ts_feed_set i (pp_pid para) ts_type ts_pes 188 32768 false 0 in
  if ret <? 0 then dvbdmx_release_ts_feed i ;;; mret_ ret else
  let! ret := dmx_ts_feed_start_filtering i in
  if ret <? 0 then mret_ ret else mret_ 0.

Definition dvb_dmxdev_filter_start (k : nat) (vmalloc : Z -> option (list Z)) : MX Z :=
  let! f := df_get k in
  if state_lt (df_state f) DMXDEV_STATE_SET then mret_ (- EINVAL) else
  (if running (df_state f) then dvb_dmxdev_filter_stop k ;;; mret_ tt else mret_ tt) ;;;
  let! f := df_get k in
  let! ok :=
    match data (df_buffer f) with
    | Some _ => mret_ true
    | None =>
        let mem := vmalloc (u32 (size (df_buffer f))) in
        df_mod k (fun f => set_df_buffer (buf_set_data mem (df_buffer f)) f) ;;;
        mret_ (match mem with Some _ => true | None => false end)
    end in
  if negb ok then mret_ (- ENOMEM) else
  df_mod k (fun f => set_df_buffer (buf_rewind (df_buffer f)) f) ;;;
  let! ret :=
    match df_type f with
    | DMXDEV_TYPE_SEC => filter_start_sec k
    | DMXDEV_TYPE_PES => filter_start_pes k
    | DMXDEV_TYPE_NONE => mret_ (- EINVAL)
    end in
  if ret <? 0 then mret_ ret else
  dvb_dmxdev_filter_state_set k DMXDEV_STATE_GO ;;;
  mret_ 0.

(** ** Opening, freeing, setting (690 to 806) *)

Fixpoint first_state_free (l : list dmxdev_filter) (k : nat) : option nat :=
  match l with
  | [] => None
  | f :: l => if bool_decide (df_state f = DMXDEV_STATE_FREE) then Some k
              else first_state_free l (S k)
  end.

(** Returns the code and the filter that becomes the file's private data. *)
Definition dvb_demux_open : MX (Z * option nat) :=
  let! dv := xget in
  match dv_filter dv with
  | None => mret_ (- EINVAL, None)
  | Some l =>
      let! e := down_dev in
      if e : bool then mret_ (- ERESTARTSYS, None) else
      match first_state_free l 0 with
      | None => up_dev ;;; mret_ (- EMFILE, None)
      | Some k =>
          df_mod k (fun f => set_df_mutex false (set_df_buffer dvb_dmxdev_buffer_init
            (set_df_type DMXDEV_TYPE_NONE f))) ;;;
          dvb_dmxdev_filter_state_set k DMXDEV_STATE_ALLOCATED ;;;
          df_mod k (fun f => set_df_feed None (set_df_timer None f)) ;;;
          up_dev ;;;
          mret_ (0, Some k)
      end
  end.

Definition dvb_dmxdev_filter_free (k : nat) : MX Z :=
  let! e := down_dev in
  if e : bool then mret_ (- ERESTARTSYS) else
  let! e := down_filter k in
  if e : bool then up_dev ;;; mret_ (- ERESTARTSYS) else
  dvb_dmxdev_filter_stop k ;;;
  dvb_dmxdev_filter_reset k ;;;
  df_mod k (fun f => set_df_buffer (buf_set_data None (df_buffer f)) f) ;;;
  dvb_dmxdev_filter_state_set k DMXDEV_STATE_FREE ;;;
  up_filter k ;;;
  up_dev ;;;
  mret_ 0.

Definition invert_mode (filter : dmx_filter_t) : dmx_filter_t :=
  mk_dmx_filter (ft_filter filter) (ft_mask filter) (map (fun m => Z.lxor m 0xff) (ft_mode filter)).

Definition dvb_dmxdev_filter_set (k : nat) (p : dmx_sct_filter_params)
    (vmalloc : Z -> option (list Z)) : MX Z :=
  dvb_dmxdev_filter_stop k ;;;
  df_mod k (fun f => set_df_type DMXDEV_TYPE_SEC (set_df_pid (sp_pid p)
    (set_df_params (SecParams (mk_sct_params (sp_pid p) (invert_mode (sp_filter p))
                                 (sp_timeout p) (sp_flags p))) f))) ;;;
  dvb_dmxdev_filter_state_set k DMXDEV_STATE_SET ;;;
  if negb (Z.land (sp_flags p) DMX_IMMEDIATE_START =? 0)
  then dvb_dmxdev_filter_start k vmalloc else mret_ 0.

Definition dvb_dmxdev_pes_filter_set (k : nat) (p : dmx_pes_filter_params)
    (vmalloc : Z -> option (list Z)) : MX Z :=
  dvb_dmxdev_filter_stop k ;;;
  if (pp_pes_type p >? DMX_PES_OTHER) || (pp_pes_type p <? 0) then mret_ (- EINVAL) else
  df_mod k (fun f => set_df_type DMXDEV_TYPE_PES (set_df_pid (pp_pid p)
    (set_df_params (PesParams p) f))) ;;;
  dvb_dmxdev_filter_state_set k DMXDEV_STATE_SET ;;;
  if negb (Z.land (pp_flags p) DMX_IMMEDIATE_START =? 0)
  then dvb_dmxdev_filter_start k vmalloc else mret_ 0.

(** ** ioctl, poll, release (868 to 997) *)

Inductive dmx_cmd :=
| DMX_START
| DMX_STOP
| DMX_SET_FILTER (p : dmx_sct_filter_params)
| DMX_SET_PES_FILTER (p : dmx_pes_filter_params)
| DMX_SET_BUFFER_SIZE (arg : Z)
| DMX_GET_EVENT
| DMX_GET_PES_PIDS
| DMX_GET_STC (num : Z)
| OtherCmd.

(** [demux->get_stc]: a function of the driver, or NULL; it returns the code,
    the counter and its base. *)
Context (get_stc : option (Z -> HW -> res (Z * Z * Z * HW))).

(** A command that holds the filter's mutex. *)
Definition with_filter (k : nat) (m : MX Z) : MX (Z * list Z) :=
  let! e := down_filter k in
  if e : bool then up_dev ;;; mret_ (- ERESTARTSYS, []) else
  let! ret := m in
  up_filter k ;;; up_dev ;;; mret_ (ret, []).

(** Returns the code and what is written to the caller's structure. *)
Definition dvb_demux_do_ioctl (k : nat) (cmd : dmx_cmd) (vmalloc : Z -> option (list Z))
    : MX (Z * list Z) :=
  let! e := down_dev in
  if e : bool then mret_ (- ERESTARTSYS, []) else
  match cmd with
  | DMX_START => with_filter k (
      let! f := df_get k in
      if state_lt (df_state f) DMXDEV_STATE_SET then mret_ (- EINVAL)
      else dvb_dmxdev_filter_start k vmalloc)
  | DMX_STOP => with_filter k (dvb_dmxdev_filter_stop k)
  | DMX_SET_FILTER p => with_filter k (dvb_dmxdev_filter_set k p vmalloc)
  | DMX_SET_PES_FILTER p => with_filter k (dvb_dmxdev_pes_filter_set k p vmalloc)
  | DMX_SET_BUFFER_SIZE arg => with_filter k (dvb_dmxdev_set_buffer_size k arg vmalloc)
  | DMX_GET_EVENT => up_dev ;;; mret_ (0, [])
  | DMX_GET_PES_PIDS =>
      let! d := dget in
      up_dev ;;; mret_ (0, (dvbdmx_get_pes_pids d).2)
  | DMX_GET_STC num =>
      match get_stc with
      | None => up_dev ;;; mret_ (- EINVAL, [])
      | Some g =>
          let! r := (fun s => let? r := g num s.2.2 in Ok (r.1, (s.1, (s.2.1, r.2)))) in
          up_dev ;;; mret_ (r.1.1, [r.1.2; r.2])
      end
  | OtherCmd => up_dev ;;; mret_ (- EINVAL, [])
  end.

Definition poll_mask (b : dmxdev_buffer) : Z :=
  let mask := if negb (error b =? 0)
              then Z.lor (Z.lor POLLIN POLLRDNORM) (Z.lor POLLPRI POLLERR) else 0 in
  if negb (pread b =? pwrite b)
  then Z.lor mask (Z.lor (Z.lor POLLIN POLLRDNORM) POLLPRI) else mask.

Definition dvb_demux_poll (k : nat) : MX Z :=
  let! f := df_get k in
  mret_ (if running (df_state f) then poll_mask (df_buffer f) else 0).

Definition dvb_demux_release (k : nat) : MX Z := dvb_dmxdev_filter_free k.

(** ** The dvr device: ioctl, poll (1018 to 1070) *)

Definition dvb_dvr_do_ioctl (cmd : dmx_cmd) : MX Z :=
  let! e := down_dev in
  if e : bool then mret_ (- ERESTARTSYS) else
  up_dev ;;;
  mret_ (match cmd with DMX_SET_BUFFER_SIZE _ => 0 | _ => - EINVAL end).

Definition dvb_dvr_poll (flags : Z) : MX Z :=
  let! dv := xget in
  mret_ (if Z.land flags O_ACCMODE =? O_RDONLY then poll_mask (dvr_buffer dv)
         else Z.lor (Z.lor POLLOUT POLLWRNORM) POLLPRI).

(** ** Initialisation and removal (1091 to 1145)

    [mem_filter] and [mem_dvr] are what [vmalloc] returns for the two arrays. *)
Definition dvb_dmxdev_init (mem_filter : option (list dmxdev_filter))
    (mem_dvr : option (list dmxdev_dvr)) : MX Z :=
  let! r := dvbdmx_open in
  if r <? 0 then mret_ (- EUSERS) else
  xmod (set_dv_filter mem_filter) ;;;
  match mem_filter with
  | None => mret_ (- ENOMEM)
  | Some fl =>
      xmod (set_dv_dvr mem_dvr) ;;;
      match mem_dvr with
      | None => xmod (set_dv_filter None) ;;; mret_ (- ENOMEM)
      | Some dl =>
          xmod (set_dv_mutex false) ;;;
          xmod (set_dv_filter (Some (map (fun f => set_df_state DMXDEV_STATE_FREE
            (set_df_buffer (buf_set_data None (df_buffer f)) f)) fl))) ;;;
          xmod (set_dv_dvr (Some (map (fun v => set_dvr_state DMXDEV_STATE_FREE
            (set_dvr_own_buffer (buf_set_data None (dvr_own_buffer v)) v)) dl))) ;;;
          xmod (set_dvr_buffer dvb_dmxdev_buffer_init) ;;;
          mret_ 0
      end
  end.

Definition dvb_dmxdev_release : MX Z :=
  xmod (set_dv_filter None) ;;;
  xmod (set_dv_dvr None) ;;;
  dvbdmx_close.

Definition dvb_demux_read (k : nat) (flags : Z) (ucopy : Z -> Z -> bool) (ufrom : bool)
    (count : Z) (evs : list event) : MX (Z * list Z) :=
  let! e := down_filter k in
  if e : bool then mret_ (- ERESTARTSYS, []) else
  let! f := df_get k in
  let nb := negb (Z.land flags O_NONBLOCK =? 0) in
  let sched := schedule evs f in
  let! r :=
    if bool_decide (df_type f = DMXDEV_TYPE_SEC)
    then mlift (dvb_dmxdev_read_sec f nb ucopy ufrom count sched)
    else let! r := mlift (filter_buffer_read f nb ucopy count sched) in
         mret_ (r.1.1.1, r.1.1.2, r.1.2) in
  df_mod k (fun _ => r.2) ;;;
  up_filter k ;;;
  mret_ r.1.
End Dmxdev.
