(* ===== verification/DmxdevRead.v ===== *)
(** * Section filters of the demux device (dvb-core/dmxdev.c, 349 to 383 and 808 to 844)

    The path of a section through a filter of the device: the callback stores
    it in the filter's buffer, the reader takes it out in pieces of any size.
    The reader's state ([todo] and [secheader]) tracks where in which section
    it is; the buffer is known by its contents alone ([ByteQueue]). *)

From S2P Require Import Prelude Fifo DmxBuffer DemuxState Dmxdev.

(** ** The callback *)

(** What the callback does to a filter that takes the section. *)
Definition section_taken (p : dmx_sct_filter_params) (f f' : dmxdev_filter) : Prop :=
  df_timer f' = None /\ df_params f' = df_params f /\ df_type f' = df_type f /\
  df_pid f' = df_pid f /\ df_feed f' = df_feed f /\ df_sec f' = df_sec f /\
  df_todo f' = df_todo f /\ secheader f' = secheader f /\ df_mutex f' = df_mutex f /\
  df_state f' = (if Z.land (sp_flags p) DMX_ONESHOT =? 0 then DMXDEV_STATE_GO
                 else DMXDEV_STATE_DONE).

Lemma section_callback_cases s f p :
  db_wf (df_buffer f) -> df_params f = SecParams p ->
  (error (df_buffer f) <> 0 \/ df_state f <> DMXDEV_STATE_GO) /\
    dvb_dmxdev_section_callback s [] f = Ok (0, f) \/
  error (df_buffer f) = 0 /\ df_state f = DMXDEV_STATE_GO /\
    exists f', dvb_dmxdev_section_callback s [] f = Ok (0, f') /\ section_taken p f f' /\
      db_wf (df_buffer f') /\
      (zlen s <= db_room (df_buffer f) /\
         db_contents (df_buffer f') = db_contents (df_buffer f) ++ s /\ error (df_buffer f') = 0 \/
       db_room (df_buffer f) < zlen s /\
         db_contents (df_buffer f') = [] /\ error (df_buffer f') = - EOVERFLOW).
Proof.
  intros Hwf Hp. unfold dvb_dmxdev_section_callback.
  destruct (Z.eqb_spec (error (df_buffer f)) 0) as [He|He]; cbn [negb]; [|left; auto].
  case_bool_decide as Hs; cbn [negb]; [|left; auto]. right. split; [done|]. split; [done|].
  destruct (buffer_deliver_spec (df_buffer f) s Hwf) as (b & Hb & Hwf' & Hc).
  change (df_buffer (set_df_timer None f)) with (df_buffer f). rewrite Hb. cbn [res_bind].
  unfold sec_params. change (df_params _) with (df_params f). rewrite Hp. cbn [res_bind].
  eexists. split; [reflexivity|]. rewrite He in Hc.
  unfold section_taken. destruct (Z.eqb_spec (Z.land (sp_flags p) DMX_ONESHOT) 0);
    cbn [negb]; split_and!; simpl; done.
Qed.

(** Reading [event_step] as the callbacks: what a sleeping reader's events do is
    what the callbacks do to the filter. *)
Lemma event_step_callback s f p :
  error (df_buffer f) = 0 -> df_params f = SecParams p ->
  dvb_dmxdev_section_callback s [] f =
    match event_step (EvData s) f with
    | (Some (Producer s), f') =>
        let? b := buffer_deliver (df_buffer f) s [] in Ok (0, set_df_buffer b f')
    | (_, f') => Ok (0, f')
    end.
Proof.
  intros He Hp. unfold dvb_dmxdev_section_callback, event_step. rewrite He, Hp. cbn [Z.eqb negb].
  case_bool_decide; cbn [negb]; [|done].
  change (df_buffer (set_df_timer None f)) with (df_buffer f).
  destruct (buffer_deliver _ _ _) as [b| | |]; cbn [res_bind]; [|done..].
  unfold sec_params. change (df_params _) with (df_params f). rewrite Hp. cbn [res_bind].
  by case_if.
Qed.

(** ** Where the reader is *)

(** What a section looks like to the reader: three header bytes with the length
    of what follows, at least one byte. *)
Definition whole (s : list Z) : Prop := bytes s /\ 3 < zlen s /\ section_length s = zlen s.

(** The reader has [k] bytes of the first of the sections [ss]. *)
Definition reading (k : Z) (ss : list (list Z)) (f : dmxdev_filter) : Prop :=
  db_wf (df_buffer f) /\ error (df_buffer f) = 0 /\ zlen (secheader f) = 3 /\
  Forall whole ss /\
  db_contents (df_buffer f) = drop (Z.to_nat k) (concat ss) /\
  match ss with
  | [] => k = 0 /\ df_todo f = 0
  | s :: _ => 0 <= k < zlen s /\
      if k <? 3 then df_todo f = - k /\ take (Z.to_nat k) (secheader f) = take (Z.to_nat k) s
      else df_todo f = zlen s - k
  end.

(** Where it is after [n] more bytes of that section. *)
Definition advance (k n : Z) (ss : list (list Z)) : Z * list (list Z) :=
  match ss with
  | [] => (k, [])
  | s :: ss => if k + n =? zlen s then (0, ss) else (k + n, s :: ss)
  end.

Lemma whole_todo s :
  whole s -> Z.land (Z.lor (Z.shiftl (at_ s 1) 8) (at_ s 2)) 0xfff = zlen s - 3.
Proof.
  intros (Hb & Hl & Hs).
  assert (is_byte (at_ s 1)) as H1 by (apply bytes_at; [done|lia]).
  assert (is_byte (at_ s 2)) as H2 by (apply bytes_at; [done|lia]).
  destruct (section_length_eq s H2) as [Heq _]. rewrite Hs in Heq.
  assert (forall a b, is_byte a -> is_byte b ->
    Z.land (Z.lor (Z.shiftl a 8) b) 0xfff = 256 * Z.land a 0x0f + b) as Hbits.
  { intros a b Ha Hbb. change 0xfff with (Z.ones 12). change 0x0f with (Z.ones 4).
    rewrite !Z.land_ones, Z.shiftl_mul_pow2 by lia.
    assert (Z.land (a * 2 ^ 8) b = 0) as Hz.
    { apply Z.bits_inj'. intros n Hn. rewrite Z.land_spec, Z.bits_0.
      destruct (Z.ltb_spec n 8).
      - by rewrite Z.mul_pow2_bits_low.
      - rewrite (bits_small b 8) by (unfold is_byte in Hbb; lia). apply andb_false_r. }
    rewrite <- Z.lxor_lor, <- Z.add_nocarry_lxor by done. clear Hz.
    unfold is_byte in *.
    change (2 ^ 12) with (2 ^ 8 * 2 ^ 4). 
    rewrite Z.rem_mul_r by lia.
    rewrite (Z.add_comm (a * 2 ^ 8)), Z.mod_add by lia. rewrite Z.div_add by lia.
    rewrite (Z.mod_small b), (Z.div_small b), Z.add_0_l by lia. lia. }
  rewrite Hbits by done. lia.
Qed.

Section Reading.
Context (ucopy : Z -> Z -> bool) (Hcopy : forall o l, ucopy o l = true).

(** A read of bytes that are there. *)
Lemma filter_read_now uc f nb n sched :
  (forall o l, uc o l = true) ->
  db_wf (df_buffer f) -> error (df_buffer f) = 0 -> 0 < n <= zlen (db_contents (df_buffer f)) ->
  exists b, filter_buffer_read f nb uc n sched =
      Ok (n, take (Z.to_nat n) (db_contents (df_buffer f)), set_df_buffer b f, sched) /\
    db_wf b /\ error b = 0 /\ db_contents b = drop (Z.to_nat n) (db_contents (df_buffer f)).
Proof using.
  intros Huc Hwf He Hn. rewrite db_contents_zlen in Hn by done.
  destruct (buffer_read_now uc Huc (df_buffer f) nb n (map fst sched)) as (b & Hr & Hwf' & Hc & _ & He');
    [done|done|lia|lia|lia|].
  rewrite Z.min_l in * by lia. exists b. split; [|done].
  unfold filter_buffer_read. rewrite Hr. cbn [res_bind rr_evs rr_ret rr_out rr_buf].
  rewrite length_map, Nat.sub_diag. done.
Qed.

Lemma reading_contents k s ss f :
  reading k (s :: ss) f ->
  db_contents (df_buffer f) = drop (Z.to_nat k) s ++ concat ss /\
  zlen s - k <= zlen (db_contents (df_buffer f)).
Proof using.
  intros (_ & _ & _ & _ & Hc & Hk & _). simpl in Hc.
  assert (db_contents (df_buffer f) = drop (Z.to_nat k) s ++ concat ss) as E.
  { rewrite Hc. apply drop_app_le. zl. }
  split; [done|]. rewrite E, zlen_app, zlen_dropZ by lia. pose proof (zlen_nonneg (concat ss)). lia.
Qed.

Lemma take_contents k s ss f n :
  reading k (s :: ss) f -> 0 <= n <= zlen s - k ->
  take (Z.to_nat n) (db_contents (df_buffer f)) = take (Z.to_nat n) (drop (Z.to_nat k) s).
Proof using.
  intros H Hn. destruct (reading_contents _ _ _ _ H) as [-> _].
  destruct H as (_ & _ & _ & _ & _ & Hk & _). apply take_app_le. rewrite length_drop. zl.
Qed.

Lemma drop_all_concat s (ss : list (list Z)) : drop (Z.to_nat (zlen s)) (concat (s :: ss)) = concat ss.
Proof using. unfold zlen. rewrite Nat2Z.id. apply drop_app_length. Qed.

(** The state after [n] bytes of the section that are not all of its header. *)
Lemma reading_advance k n s ss f f' :
  reading k (s :: ss) f -> 0 < n <= zlen s - k -> 3 <= k + n ->
  db_wf (df_buffer f') -> error (df_buffer f') = 0 -> zlen (secheader f') = 3 ->
  db_contents (df_buffer f') = drop (Z.to_nat n) (db_contents (df_buffer f)) ->
  df_todo f' = zlen s - (k + n) ->
  let p := advance k n (s :: ss) in reading p.1 p.2 f'.
Proof using.
  intros (_ & _ & _ & Hall & Hc & Hk & _) Hn H3 Hwf' He' Hh' Hc' Ht'.
  rewrite Hc, drop_drop, <- Z2Nat.inj_add in Hc' by lia.
  unfold advance. destruct (Z.eqb_spec (k + n) (zlen s)) as [E|E]; cbn [fst snd].
  - rewrite E, drop_all_concat in Hc'. apply Forall_cons_1 in Hall as [_ Hall].
    split_and!; try done.
    destruct ss as [|s2 ss]; [split; [done|lia]|].
    apply Forall_cons_1 in Hall as [(_ & Hl & _) _]. rif. split; [lia|]. split; [lia|done].
  - split_and!; try done; try lia. rif. lia.
Qed.

(** Inside the header. *)
Lemma reading_header k n s ss f f' :
  reading k (s :: ss) f -> 0 < n -> k + n < 3 ->
  db_wf (df_buffer f') -> error (df_buffer f') = 0 ->
  db_contents (df_buffer f') = drop (Z.to_nat n) (db_contents (df_buffer f)) ->
  df_todo f' = - (k + n) ->
  memcpy_to (secheader f) k (take (Z.to_nat n) (drop (Z.to_nat k) s)) = Ok (secheader f') ->
  let p := advance k n (s :: ss) in reading p.1 p.2 f'.
Proof using.
  intros (_ & _ & Hh & Hall & Hc & Hk & Hr) Hn H3 Hwf' He' Hc' Ht' Hm.
  pose proof Hall as [(_ & Hl & _) _]%Forall_cons_1.
  rewrite Hc, drop_drop, <- Z2Nat.inj_add in Hc' by lia.
  pose proof (memcpy_to_length _ _ _ _ Hm) as Hlen.
  pose proof (memcpy_take _ _ _ _ Hm) as Htk.
  replace (k <? 3) with true in Hr by lia. destruct Hr as [_ Hpre].
  assert (zlen (take (Z.to_nat n) (drop (Z.to_nat k) s)) = n) as Hz
    by (apply zlen_takeZ; rewrite zlen_dropZ; lia).
  rewrite Hz, Hpre, take_take_drop, <- Z2Nat.inj_add in Htk by lia.
  unfold advance. rif. cbn [fst snd]. split_and!; try done; try lia; [zl|]. rif.
  by split.
Qed.

(** The second half of the read, behind the header. *)
Lemma read_body k s ss f nb count sched uc :
  (forall o l, uc o l = true) ->
  reading k (s :: ss) f -> 3 <= k -> 0 < count ->
  let n := Z.min count (zlen s - k) in
  exists f', filter_buffer_read f nb uc (if count >? df_todo f then df_todo f else count) sched =
      Ok (n, take (Z.to_nat n) (drop (Z.to_nat k) s), f', sched) /\
    let f' := set_df_todo (df_todo f' - n) f' in
    let p := advance k n (s :: ss) in reading p.1 p.2 f'.
Proof using.
  intros Huc Hr H3 Hc. cbv zeta. set (n := Z.min count (zlen s - k)).
  destruct (reading_contents _ _ _ _ Hr) as [_ Hlen].
  pose proof Hr as (Hwf & He & Hh & _ & _ & Hk & Ht). replace (k <? 3) with false in Ht by lia.
  replace (if count >? df_todo f then df_todo f else count) with n
    by (subst n; rewrite Ht; case_if; lia).
  assert (0 < n <= zlen s - k) as Hn by lia.
  destruct (filter_read_now uc f nb n sched Huc Hwf He) as (b & -> & Hwf' & He' & Hc'); [lia|].
  rewrite (take_contents k s ss) by (done || lia). eexists. split; [done|].
  eapply reading_advance; try done; try lia. simpl. lia.
Qed.

(** One read that finds its section in the buffer. *)
Lemma read_sec_step k s ss f nb count sched :
  reading k (s :: ss) f -> 0 < count ->
  let n := Z.min count (zlen s - k) in
  exists f', dvb_dmxdev_read_sec f nb ucopy true count sched =
      Ok (n, take (Z.to_nat n) (drop (Z.to_nat k) s), f') /\
    let p := advance k n (s :: ss) in reading p.1 p.2 f'.
Proof using Hcopy.
  intros Hr Hc. cbv zeta. set (n := Z.min count (zlen s - k)).
  destruct (reading_contents _ _ _ _ Hr) as [_ Hlen].
  pose proof Hr as (Hwf & He & Hh & Hall & _ & Hk & Ht). unfold dvb_dmxdev_read_sec.
  apply Forall_cons_1 in Hall as [Hs _]. pose proof Hs as (_ & Hl & _).
  destruct (Z.ltb_spec k 3) as [Hk3|Hk3].
  2: { rif. destruct (read_body k s ss f nb count sched (fun off len => ucopy (zlen (@nil Z) + off) len))
         as (f' & -> & Hr'); try done. cbn [res_bind]. fold n in Hr' |- *. rif. eexists.
       split; [|exact Hr']. rewrite Z.add_0_r. done. }
  destruct Ht as [Ht Hpre]. rewrite Ht. rif.
  set (h := if 3 + - k >? count then count else 3 + - k).
  assert (h = Z.min count (3 - k)) as Hh' by (subst h; case_if; lia).
  destruct (filter_read_now ucopy f nb h sched Hcopy Hwf He) as (b & -> & Hwf' & He' & Hc'); [lia|].
  rewrite (take_contents k s ss) by (done || lia). cbn [res_bind]. rif. cbn [negb].
  change (df_todo (set_df_buffer b f)) with (df_todo f). rewrite Ht.
  change (secheader (set_df_buffer b f)) with (secheader f).
  assert (zlen (take (Z.to_nat h) (drop (Z.to_nat k) s)) = h) as Hz
    by (apply zlen_takeZ; rewrite zlen_dropZ; lia).
  rewrite take_take, Nat.min_id, Z.opp_involutive.
  destruct (memcpy_to_some (secheader f) k (take (Z.to_nat h) (drop (Z.to_nat k) s))) as [hd Hm];
    [lia|lia|]. rewrite Hm. cbn [res_bind].
  set (f1 := set_df_todo (- k - h) (set_secheader hd (set_df_buffer b f))).
  change (df_todo f1) with (- k - h).
  destruct (Z.gtb_spec (- k - h) (-3)) as [Hpart|Hfull].
  { replace n with h by lia. exists f1. split; [done|].
    eapply reading_header; try done; try lia. simpl. lia. }
  assert (take 3 hd = take 3 s) as Hhd.
  { pose proof (memcpy_take _ _ _ _ Hm) as Htk. rewrite Hz in Htk.
    replace (k + h) with 3 in Htk by lia. change (Z.to_nat 3) with 3%nat in Htk.
    rewrite Htk, Hpre, take_take_drop, <- Z2Nat.inj_add by lia. f_equal. lia. }
  assert (forall i, 0 <= i < 3 -> at_ hd i = at_ s i) as Hat.
  { intros i Hi. rewrite <- (at_take hd 3 i), <- (at_take s 3 i) by lia.
    change (Z.to_nat 3) with 3%nat. by rewrite Hhd. }
  change (secheader f1) with hd. rewrite !Hat, (whole_todo s Hs) by lia.
  set (f2 := set_df_todo (zlen s - 3) f1).
  pose proof (memcpy_to_length _ _ _ _ Hm) as Hlh.
  assert (reading 3 (s :: ss) f2) as Hr2.
  { assert (let p := advance k h (s :: ss) in reading p.1 p.2 f2) as Ha
      by (eapply reading_advance; try done; try lia; [zl|simpl; lia]).
    unfold advance in Ha. replace (k + h) with 3 in Ha by lia.
    replace (3 =? zlen s) with false in Ha by lia. exact Ha. }
  destruct (Z.eqb_spec (count - h) 0) as [E|E].
  { replace n with h by lia. exists f2. split; [done|]. unfold advance.
    replace (k + h) with 3 by lia. by replace (3 =? zlen s) with false by lia. }
  destruct (read_body 3 s ss f2 nb (count - h) sched (fun off len =>
    ucopy (zlen (take (Z.to_nat h) (drop (Z.to_nat k) s)) + off) len)) as (f' & -> & Hr');
    try done; [lia|]. cbn [res_bind].
  replace (Z.min (count - h) (zlen s - 3)) with (n - h) in * by lia.
  rif. eexists. split.
  - do 3 f_equal; [lia|]. replace (drop (Z.to_nat 3) s) with (drop (Z.to_nat h) (drop (Z.to_nat k) s))
      by (rewrite drop_drop; f_equal; lia).
    rewrite take_take_drop. f_equal. lia.
  - unfold advance in *. by replace (3 + (n - h)) with (k + n) in Hr' by lia.
Qed.

(** Reads of [counts] bytes one after the other. *)
Fixpoint reads (nb : bool) (counts : list Z) (f : dmxdev_filter) : res (list (list Z) * dmxdev_filter) :=
  match counts with
  | [] => Ok ([], f)
  | c :: counts =>
      let? r := dvb_dmxdev_read_sec f nb ucopy true c [] in
      let? o := reads nb counts r.2 in
      Ok (r.1.2 :: o.1, o.2)
  end.

(** The pieces that reads of [counts] bytes make of the sections. *)
Fixpoint pieces (counts : list Z) (k : Z) (ss : list (list Z)) : list (list Z) :=
  match counts, ss with
  | c :: counts, s :: _ =>
      let n := Z.min c (zlen s - k) in
      let p := advance k n ss in
      take (Z.to_nat n) (drop (Z.to_nat k) s) :: pieces counts p.1 p.2
  | _, _ => []
  end.

Fixpoint position (counts : list Z) (k : Z) (ss : list (list Z)) : Z * list (list Z) :=
  match counts, ss with
  | c :: counts, s :: _ =>
      let p := advance k (Z.min c (zlen s - k)) ss in position counts p.1 p.2
  | _, _ => (k, ss)
  end.

Lemma reads_run nb counts : forall k ss f,
  reading k ss f -> Forall (fun c => 0 < c) counts -> length (pieces counts k ss) = length counts ->
  exists f', reads nb counts f = Ok (pieces counts k ss, f') /\
    let p := position counts k ss in reading p.1 p.2 f'.
Proof using Hcopy.
  induction counts as [|c counts IH]; intros k ss f Hr Hc Hlen.
  - exists f. destruct ss; done.
  - apply Forall_cons_1 in Hc as [Hc Hcs]. destruct ss as [|s ss]; [done|].
    destruct (read_sec_step k s ss f nb c [] Hr Hc) as (f1 & Hrun & Hr1).
    destruct (IH _ _ _ Hr1 Hcs) as (f' & Hruns & Hr'); [by injection Hlen|].
    exists f'. split; [|exact Hr']. simpl. rewrite Hrun. cbn [res_bind fst snd].
    rewrite Hruns. done.
Qed.

Lemma pieces_whole ss counts :
  Forall whole ss -> Forall2 (fun c s => zlen s <= c) counts ss ->
  pieces counts 0 ss = ss /\ position counts 0 ss = (0, []).
Proof using.
  intros Hw H2. induction H2 as [|c s counts ss Hc H2 IH]; [done|].
  apply Forall_cons_1 in Hw as [(_ & Hl & _) Hw]. destruct (IH Hw) as [IH1 IH2].
  simpl. rewrite Z.sub_0_r, Z.min_r by lia. unfold advance. rewrite Z.add_0_l, Z.eqb_refl.
  cbn [fst snd]. rewrite IH1, IH2. split; [|done]. unfold zlen. rewrite Nat2Z.id, drop_0.
  by rewrite firstn_all.
Qed.

End Reading.

(** The section device delivers sections, not a byte stream: whatever the
    sizes of the reads, blocking or not, and wherever in a section the first
    one starts, every read returns the next bytes of the current section, and
    never bytes of two sections; the reader never loses its place. *)
Theorem read_sec_framing ucopy k s ss f nb count sched :
  (forall o l, ucopy o l = true) -> reading k (s :: ss) f -> 0 < count ->
  let n := Z.min count (zlen s - k) in
  exists f', dvb_dmxdev_read_sec f nb ucopy true count sched =
      Ok (n, take (Z.to_nat n) (drop (Z.to_nat k) s), f') /\
    let p := advance k n (s :: ss) in reading p.1 p.2 f'.
Proof. intros Hcopy. by apply read_sec_step. Qed.

(** A section filter on PID 0x14 that runs, with nothing in its buffer. *)
Definition sample_params (flags : Z) : dmx_sct_filter_params :=
  mk_sct_params 0x14 (mk_dmx_filter (0x70 :: replicate 15 0) (0xff :: replicate 15 0)
    (replicate 16 0)) 0 flags.

Definition sample_section_filter (flags sz : Z) : dmxdev_filter :=
  mk_dmxdev_filter (Some 0%nat) (Some 0%nat) (SecParams (sample_params flags)) DMXDEV_TYPE_SEC
    DMXDEV_STATE_GO {| data := Some (replicate (Z.to_nat sz) 0); size := sz; pread := 0;
                       pwrite := 0; error := 0 |} false None 0 [0; 0; 0] 0x14.

Definition sec_a : list Z := [0x70; 0x70; 2; 0xa1; 0xa2].
Definition sec_b : list Z := [0x70; 0x70; 4; 0xb1; 0xb2; 0xb3; 0xb4].

Lemma sample_reading :
  exists f, dvb_dmxdev_section_callback sec_a [] (sample_section_filter 0 64) = Ok (0, f) /\
    exists f', dvb_dmxdev_section_callback sec_b [] f = Ok (0, f') /\ reading 0 [sec_a; sec_b] f'.
Proof.
  eexists. split; [by vm_compute|]. eexists. split; [by vm_compute|].
  assert (bytes sec_a /\ bytes sec_b) as [Ha Hb] by (split; by apply decide_bytes).
  split; [|split_and!; try done].
  - eexists. split; [done|]. by vm_compute.
  - by repeat constructor.
Qed.

Lemma read_sec_framing_witness :
  exists f f', dvb_dmxdev_read_sec f true (fun _ _ => true) true 100 [] = Ok (5, sec_a, f') /\
    reading 0 [sec_b] f'.
Proof.
  destruct sample_reading as (f0 & _ & f & _ & Hr). exists f.
  apply (read_sec_framing (fun _ _ => true) 0 sec_a [sec_b] f true 100 []); done.
Defined.

(** ** From the callback to the reader *)

Fixpoint callbacks (ss : list (list Z)) (f : dmxdev_filter) : res dmxdev_filter :=
  match ss with
  | [] => Ok f
  | s :: ss => let? r := dvb_dmxdev_section_callback s [] f in callbacks ss r.2
  end.

(** A filter that takes every section. *)
Definition taking (p : dmx_sct_filter_params) (f : dmxdev_filter) : Prop :=
  df_params f = SecParams p /\ Z.land (sp_flags p) DMX_ONESHOT = 0 /\ df_state f = DMXDEV_STATE_GO.

Lemma db_room_contents b b' src :
  db_wf b -> db_wf b' -> size b' = size b -> db_contents b' = db_contents b ++ src ->
  db_room b' = db_room b - zlen src.
Proof.
  intros Hwf Hwf' Hs Hc. unfold db_room. rewrite Hs, <- !db_contents_zlen by done.
  rewrite Hc, zlen_app. lia.
Qed.

Lemma buffer_write_size b src r b' : dvb_dmxdev_buffer_write b src = Ok (r, b') -> size b' = size b.
Proof.
  unfold dvb_dmxdev_buffer_write. intros H. case_if_in H; [by simplify_eq|].
  destruct (data b); [|by simplify_eq]. cbv zeta in H. case_if_in H; [by simplify_eq|].
  inv_res H. by simplify_eq.
Qed.

Lemma buffer_deliver_size b s1 s2 b' : buffer_deliver b s1 s2 = Ok b' -> size b' = size b.
Proof.
  unfold buffer_deliver. intros H. inv_res H. destruct r as [x b1], r0 as [y b2].
  apply buffer_write_size in Hr. simplify_eq.
  assert (size b2 = size b1) as E by (cbn [fst snd] in Hr0; case_if_in Hr0;
    [by apply buffer_write_size in Hr0|by simplify_eq]).
  case_if; simpl; congruence.
Qed.

Lemma callback_size s f r f' :
  dvb_dmxdev_section_callback s [] f = Ok (r, f') -> size (df_buffer f') = size (df_buffer f).
Proof.
  unfold dvb_dmxdev_section_callback. intros H. case_if_in H; [by simplify_eq|].
  case_if_in H; [by simplify_eq|]. inv_res H. simplify_eq. apply buffer_deliver_size in Hr.
  by case_if.
Qed.

(** A section that fits goes behind those that wait. *)
Lemma callback_reading p k ss s f :
  taking p f -> reading k ss f -> whole s -> zlen s <= db_room (df_buffer f) ->
  exists f', dvb_dmxdev_section_callback s [] f = Ok (0, f') /\ taking p f' /\
    reading k (ss ++ [s]) f' /\ db_room (df_buffer f') = db_room (df_buffer f) - zlen s.
Proof.
  intros (Hp & Hone & Hst) (Hwf & He & Hh & Hall & Hc & Hk) Hs Hroom.
  destruct (section_callback_cases s f p Hwf Hp) as [[[|] _]|(_ & _ & f' & Hrun & Ht & Hwf' & Hcase)];
    [done..|]. pose proof (callback_size _ _ _ _ Hrun) as Hsz.
  destruct Hcase as [(_ & Hc' & He')|[? _]]; [|lia].
  destruct Ht as (_ & Hp' & _ & _ & _ & _ & Htd & Hsh & _ & Hst'). rewrite Hone in Hst'.
  exists f'. split; [done|]. split; [split_and!; [congruence|done|done]|].
  split; [|by apply db_room_contents].
  split_and!; [done|done|congruence|by apply Forall_app; auto| |].
  - rewrite Hc', Hc, concat_app. simpl. rewrite app_nil_r. symmetry. apply drop_app_le.
    destruct ss as [|t ss]; [destruct Hk as [-> _]; simpl; lia|]. destruct Hk as [Hk _].
    simpl. rewrite length_app. zl.
  - rewrite Htd, Hsh. destruct ss as [|t ss]; [|done]. destruct Hk as [-> ->].
    destruct Hs as (_ & Hl & _). simpl. split; [lia|done].
Qed.

Lemma callbacks_reading p new : forall k ss f,
  taking p f -> reading k ss f -> Forall whole new -> zlen (concat new) <= db_room (df_buffer f) ->
  exists f', callbacks new f = Ok f' /\ taking p f' /\ reading k (ss ++ new) f'.
Proof.
  induction new as [|s new IH]; intros k ss f Ht Hr Hw Hroom.
  - exists f. by rewrite app_nil_r.
  - apply Forall_cons_1 in Hw as [Hs Hw]. simpl in Hroom. rewrite zlen_app in Hroom.
    pose proof (zlen_nonneg (concat new)).
    destruct (callback_reading p k ss s f Ht Hr Hs) as (f1 & Hrun & Ht1 & Hr1 & Hroom1); [lia|].
    destruct (IH _ _ _ Ht1 Hr1 Hw) as (f' & Hruns & Ht' & Hr'); [lia|].
    exists f'. simpl. rewrite Hrun. cbn [res_bind snd]. split; [done|]. split; [done|].
    by rewrite <- app_assoc in Hr'.
Qed.

(** a round trip: the sections the demultiplexer delivers to a filter come
    out of the device one per read, complete, unchanged and in order, as long
    as they fit the buffer and the reads are large enough for a section. *)
Theorem section_device_roundtrip p ss counts nb f ucopy :
  taking p f -> reading 0 [] f -> Forall whole ss -> zlen (concat ss) <= db_room (df_buffer f) ->
  Forall2 (fun c s => zlen s <= c) counts ss -> (forall o l, ucopy o l = true) ->
  exists f' f'', callbacks ss f = Ok f' /\ reads ucopy nb counts f' = Ok (ss, f'') /\
    reading 0 [] f''.
Proof.
  intros Ht Hr Hw Hroom H2 Hu.
  destruct (callbacks_reading p ss 0 [] f Ht Hr Hw Hroom) as (f' & Hrun & _ & Hr').
  destruct (pieces_whole ss counts Hw H2) as [Hp Hpos].
  destruct (reads_run ucopy Hu nb counts 0 ss f' Hr') as (f'' & Hruns & Hr'').
  - clear -H2 Hw. induction H2 as [|c s counts ss Hc H2 IH]; [done|].
    apply Forall_cons_1 in Hw as [(_ & Hl & _) Hw]. constructor; [lia|auto].
  - rewrite Hp. symmetry. by eapply Forall2_length.
  - exists f', f''. rewrite Hp in Hruns. rewrite Hpos in Hr''. done.
Qed.

Lemma sample_empty_reading sz :
  1 < sz -> taking (sample_params 0) (sample_section_filter 0 sz) /\
    reading 0 [] (sample_section_filter 0 sz).
Proof.
  intros Hs. assert (db_wf (df_buffer (sample_section_filter 0 sz))) as Hwf.
  { eexists. split; [done|]. cbn [df_buffer size pread pwrite sample_section_filter].
    rewrite zlen_replicate. lia. }
  split; [done|]. split_and!; done.
Qed.

Lemma section_device_roundtrip_witness :
  exists f' f'', callbacks [sec_a; sec_b; sec_a] (sample_section_filter 0 64) = Ok f' /\
    reads (fun _ _ => true) true [4096; 7; 10] f' = Ok ([sec_a; sec_b; sec_a], f'') /\
    reading 0 [] f''.
Proof.
  destruct (sample_empty_reading 64) as [Ht Hr]; [lia|].
  apply (section_device_roundtrip (sample_params 0) [sec_a; sec_b; sec_a]); try done.
  - repeat constructor; try lia; by apply decide_bytes.
  - by repeat constructor.
Defined.

(** Code bug: an overflow while a reader is inside a section is reported,
    but the reader's place ([todo]) is kept: the next section, which starts
    with a header, is handed out as the rest of the lost one, and the reads
    after it are out of step with the section boundaries. *)
Theorem overflow_loses_place p k s ss f nb big t c1 c2 ucopy :
  taking p f -> reading k (s :: ss) f -> 3 <= k -> (forall o l, ucopy o l = true) ->
  db_room (df_buffer f) < zlen big -> zlen s - k < zlen t < size (df_buffer f) ->
  zlen s - k <= c2 ->
  exists f1 f2 f3 f4,
    dvb_dmxdev_section_callback big [] f = Ok (0, f1) /\
    dvb_dmxdev_read_sec f1 nb ucopy true c1 [] = Ok (- EOVERFLOW, [], f2) /\
    dvb_dmxdev_section_callback t [] f2 = Ok (0, f3) /\
    dvb_dmxdev_read_sec f3 nb ucopy true c2 [] =
      Ok (zlen s - k, take (Z.to_nat (zlen s - k)) t, f4).
Proof.
  intros (Hp & Hone & Hst) Hr H3 Hu Hbig Ht Hc2.
  destruct Hr as (Hwf & He & Hh & Hall & Hc & Hk & Htd). replace (k <? 3) with false in Htd by lia.
  destruct (section_callback_cases big f p Hwf Hp) as [[[|] _]|(_ & _ & f1 & H1 & Ht1 & Hwf1 & Hcase)];
    [done..|]. pose proof (callback_size _ _ _ _ H1) as Hsz1.
  destruct Hcase as [[? _]|(_ & Hc1 & He1)]; [lia|].
  destruct Ht1 as (_ & Hp1 & _ & _ & _ & _ & Htd1 & _ & _ & Hst1). rewrite Hone in Hst1.
  exists f1. set (f2 := set_df_buffer (buf_flush 0 (df_buffer f1)) f1). exists f2.
  assert (db_wf (df_buffer f2)) as Hwf2.
  { destruct Hwf1 as (d & ? & ? & ? & ? & ?). exists d. simpl. split_and!; done || lia. }
  assert (df_params f2 = SecParams p) as Hp2 by (simpl; congruence).
  destruct (section_callback_cases t f2 p Hwf2 Hp2)
    as [[[|Hn] _]|(_ & _ & f3 & H3' & Ht3 & Hwf3 & Hcase)]; [done|by destruct Hn|].
  assert (db_contents (df_buffer f2) = []) as Hc2' by (by apply (db_empty (df_buffer f2))).
  assert (db_room (df_buffer f2) = size (df_buffer f) - 1) as Hroom.
  { unfold db_room. rewrite <- db_contents_zlen, Hc2' by done. simpl. rewrite Hsz1, zlen_nil. lia. }
  destruct Hcase as [(_ & Hc3 & He3)|[? _]]; [|lia]. rewrite Hc2' in Hc3. simpl in Hc3.
  destruct Ht3 as (_ & _ & _ & _ & _ & _ & Htd3 & _).
  exists f3. set (n := zlen s - k).
  destruct (filter_read_now (fun off len => ucopy (zlen (@nil Z) + off) len) f3 nb n [])
    as (b & Hrd & _); [done|done|done|rewrite Hc3; lia|].
  eexists. split; [done|]. split; [|split; [done|]].
  - unfold dvb_dmxdev_read_sec. rewrite Htd1, Htd. rif. unfold filter_buffer_read.
    set (cc := if c1 >? zlen s - k then _ else _). unfold dvb_dmxdev_buffer_read.
    destruct (Hwf1) as (d & Hd & _). rewrite Hd, He1. cbn [Z.eqb negb Z.opp EOVERFLOW res_bind].
    cbn. f_equal.
  - unfold dvb_dmxdev_read_sec. rewrite Htd3. change (df_todo f2) with (df_todo f1).
    rewrite Htd1, Htd. fold n. rif. replace (if c2 >? n then n else c2) with n by (case_if; lia).
    rewrite Hrd, Hc3. cbn [res_bind]. rif. rewrite Z.add_0_r. done.
Qed.

Lemma overflow_loses_place_witness :
  exists f f1 f2 f3 f4,
    dvb_dmxdev_section_callback (0x70 :: 0x70 :: 20 :: replicate 20 1) [] f = Ok (0, f1) /\
    dvb_dmxdev_read_sec f1 true (fun _ _ => true) true 100 [] = Ok (- EOVERFLOW, [], f2) /\
    dvb_dmxdev_section_callback sec_b [] f2 = Ok (0, f3) /\
    dvb_dmxdev_read_sec f3 true (fun _ _ => true) true 100 [] = Ok (1, [0x70], f4).
Proof.
  destruct (sample_empty_reading 16) as [Ht Hr]; [lia|].
  assert (whole sec_a) as Ha by (repeat constructor; try lia; by apply decide_bytes).
  destruct (callback_reading (sample_params 0) 0 [] sec_a _ Ht Hr Ha) as (f0 & Hrun & Ht0 & Hr0 & _);
    [by vm_compute|].
  destruct (read_sec_step (fun _ _ => true) (fun _ _ => eq_refl) 0 sec_a [] f0 true 4 [] Hr0)
    as (f & Hrd & Hr1); [lia|].
  assert (Ok (0, f0) = dvb_dmxdev_section_callback sec_a [] (sample_section_filter 0 16)) as E0
    by done. vm_compute in E0. injection E0 as ->.
  vm_compute in Hrd. injection Hrd as <-. eexists.
  apply (overflow_loses_place (sample_params 0) 4 sec_a [] _ true
    (0x70 :: 0x70 :: 20 :: replicate 20 1) sec_b 100 100 (fun _ _ => true)); [|exact Hr1|..];
    by vm_compute.
Defined.
