(* ===== verification/DmxdevStream.v ===== *)
(** * From the transport stream to the reader of a section filter

    The demultiplexer (dvb-core/dvb_demux.c) with the demux device
    (dvb-core/dmxdev.c) as its client: what the user set with [DMX_SET_FILTER]
    decides which sections of the stream his reads return. *)

From S2P Require Import Prelude Crc32 Fifo DmxBuffer DemuxState SwFilter SectionFilter Sample Reassembly SectionStream SwFrames TransportStream Feeds FilterSpec Dmxdev DmxdevRead.

(** ** The user's filter *)

(** Byte [i] of the user's filter stands for this byte of the section: the
    length field is left out. *)
Definition section_byte (i : nat) : nat := match i with O => O | S i => i + 3 end%nat.

Definition user_bit (i b : nat) : Prop := (i < 16)%nat /\ (b < 8)%nat.

(** Bits in the mask must agree with the filter where the mode is 0; where the
    mode is 1 at least one of them must differ. *)
Definition user_selects (ft : dmx_filter_t) (s : list Z) : Prop :=
  (forall i b, user_bit i b -> bit (ft_mask ft) i b = true -> bit (ft_mode ft) i b = false ->
     bit s (section_byte i) b = bit (ft_filter ft) i b) /\
  ((exists i b, user_bit i b /\ bit (ft_mask ft) i b = true /\ bit (ft_mode ft) i b = true) ->
   exists i b, user_bit i b /\ bit (ft_mask ft) i b = true /\ bit (ft_mode ft) i b = true /\
     bit s (section_byte i) b <> bit (ft_filter ft) i b).

Lemma list_16 (l : list Z) : length l = 16%nat ->
  exists a0 a1 a2 a3 a4 a5 a6 a7 a8 a9 a10 a11 a12 a13 a14 a15,
    l = [a0; a1; a2; a3; a4; a5; a6; a7; a8; a9; a10; a11; a12; a13; a14; a15].
Proof.
  intros H. do 16 (destruct l as [|? l]; [done|]). destruct l; [|done]. by repeat eexists.
Qed.

(** The prepared arrays, byte by byte. *)
Lemma fill_bytes ft priv g i :
  length (ft_filter ft) = 16%nat -> length (ft_mask ft) = 16%nat -> length (ft_mode ft) = 16%nat ->
  (i < 16)%nat ->
  let f := secfilter_fill ft priv g in
  at_ (filter_value f) (Z.of_nat (section_byte i)) = at_ (ft_filter ft) (Z.of_nat i) /\
  at_ (filter_mask f) (Z.of_nat (section_byte i)) = at_ (ft_mask ft) (Z.of_nat i) /\
  at_ (filter_mode f) (Z.of_nat (section_byte i)) = at_ (ft_mode ft) (Z.of_nat i).
Proof.
  intros (v0 & v1 & v2 & v3 & v4 & v5 & v6 & v7 & v8 & v9 & v10 & v11 & v12 & v13 & v14 & v15 & Hv)%list_16.
  intros (m0 & m1 & m2 & m3 & m4 & m5 & m6 & m7 & m8 & m9 & m10 & m11 & m12 & m13 & m14 & m15 & Hm)%list_16.
  intros (o0 & o1 & o2 & o3 & o4 & o5 & o6 & o7 & o8 & o9 & o10 & o11 & o12 & o13 & o14 & o15 & Ho)%list_16.
  intros Hi. cbv zeta. unfold secfilter_fill. rewrite Hv, Hm, Ho.
  do 16 (destruct i as [|i]; [by split_and!|]). lia.
Qed.

Lemma fill_mask_length_field ft priv g i b :
  (i = 1 \/ i = 2)%nat -> bit (filter_mask (secfilter_fill ft priv g)) i b = false.
Proof. intros [->| ->]; unfold bit; apply Z.bits_0. Qed.

Lemma section_byte_inv i : (i < 18)%nat -> i = 1%nat \/ i = 2%nat \/ exists j, (j < 16)%nat /\ i = section_byte j.
Proof.
  intros Hi. destruct i as [|[|[|i]]]; [|by left|right; by left|]; right; right.
  - exists 0%nat. split; [lia|done].
  - exists (S i). split; [lia|]. simpl. lia.
Qed.

Lemma invert_bit ft i b :
  length (ft_mode ft) = 16%nat -> user_bit i b ->
  bit (ft_mode (invert_mode ft)) i b = negb (bit (ft_mode ft) i b).
Proof.
  intros Hl [Hi Hb]. unfold bit, at_. rewrite Nat2Z.id. simpl ft_mode.
  rewrite !nth_lookup, list_lookup_fmap.
  destruct (lookup_lt_is_Some_2 (ft_mode ft) i) as [m Hm]; [lia|]. rewrite Hm. simpl.
  rewrite Z.lxor_spec, ff_bit_true by done. by destruct (Z.testbit m _).
Qed.

(** C15: the meaning of a section filter to its user: the filter that
    [DMX_SET_FILTER] installs selects a section exactly when it agrees with the
    user's 16 bytes (the table id and the bytes behind the length field) on the
    masked bits whose mode is 0, and differs in at least one of the masked bits
    whose mode is 1. *)
Theorem user_filter_selects ft priv g s :
  length (ft_filter ft) = 16%nat -> length (ft_mask ft) = 16%nat -> length (ft_mode ft) = 16%nat ->
  sec_match (prepare_filter (secfilter_fill (invert_mode ft) priv g)) s = true <-> user_selects ft s.
Proof.
  intros Hf Hm Ho. rewrite sec_match_selects.
  set (f := secfilter_fill (invert_mode ft) priv g).
  assert (forall i b, user_bit i b ->
    bit (filter_value f) (section_byte i) b = bit (ft_filter ft) i b /\
    bit (filter_mask f) (section_byte i) b = bit (ft_mask ft) i b /\
    bit (filter_mode f) (section_byte i) b = negb (bit (ft_mode ft) i b)) as Hbits.
  { intros i b [Hi Hb]. rewrite <- (invert_bit ft i b Ho) by done.
    destruct (fill_bytes (invert_mode ft) priv g i) as (H1 & H2 & H3);
      [done|done|by simpl; rewrite length_map|done|]. fold f in H1, H2, H3.
    unfold bit. by rewrite H1, H2, H3. }
  assert (forall i b, user_bit i b -> filter_bit (section_byte i) b) as Hpos.
  { intros i b [Hi Hb]. split; [|done]. destruct i; simpl; lia. }
  assert (forall i b, filter_bit i b -> bit (filter_mask f) i b = true ->
    exists j, user_bit j b /\ i = section_byte j) as Hinv.
  { intros i b [Hi Hb] Hmask.
    destruct (section_byte_inv i Hi) as [->|[->|(j & Hj & ->)]];
      [by unfold f in Hmask; rewrite fill_mask_length_field in Hmask by auto..|]. exists j. by repeat split. }
  unfold selects, user_selects. split; intros [Heq Hex]; split.
  - intros i b Hib Hmk Hmd. destruct (Hbits i b Hib) as (Hv & Hk & Hd).
    rewrite <- Hv. apply Heq; [by apply Hpos|congruence|by rewrite Hd, Hmd].
  - intros (i & b & Hib & Hmk & Hmd). destruct (Hbits i b Hib) as (Hv & Hk & Hd).
    destruct Hex as (i' & b' & Hib' & Hmk' & Hmd' & Hne).
    { exists (section_byte i), b. split; [by apply Hpos|]. rewrite Hk, Hd, Hmd. done. }
    destruct (Hinv i' b' Hib' Hmk') as (j & Hj & ->). destruct (Hbits j b' Hj) as (Hv2 & Hk2 & Hd2).
    exists j, b'. split; [done|]. rewrite <- Hk2, <- Hv2. split; [done|]. split; [|done].
    rewrite Hd2 in Hmd'. by apply negb_false_iff.
  - intros i b Hib Hmk Hmd. destruct (Hinv i b Hib Hmk) as (j & Hj & ->).
    destruct (Hbits j b Hj) as (Hv & Hk & Hd). rewrite Hv. apply Heq; [done|congruence|].
    rewrite Hd in Hmd. by apply negb_true_iff.
  - intros (i & b & Hib & Hmk & Hmd). destruct (Hinv i b Hib Hmk) as (j & Hj & ->).
    destruct (Hbits j b Hj) as (Hv & Hk & Hd).
    destruct Hex as (i' & b' & Hib' & Hmk' & Hmd' & Hne).
    { exists j, b. split; [done|]. split; [congruence|]. rewrite Hd in Hmd. by apply negb_false_iff. }
    destruct (Hbits i' b' Hib') as (Hv2 & Hk2 & Hd2).
    exists (section_byte i'), b'. split; [by apply Hpos|]. rewrite Hk2, Hd2, Hv2, Hmd'. done.
Qed.

Definition sample_user_filter : dmx_filter_t :=
  mk_dmx_filter (0x42 :: 0 :: 0 :: 0x0a :: replicate 12 0) (0xff :: 0 :: 0 :: 0x3e :: replicate 12 0)
    (0 :: 0 :: 0 :: 0x3e :: replicate 12 0).

Lemma user_filter_selects_witness :
  user_selects sample_user_filter [0x42; 0x70; 5; 0; 1; 0x0c; 0; 0] /\
  ~ user_selects sample_user_filter [0x42; 0x70; 5; 0; 1; 0x0a; 0; 0].
Proof.
  split.
  - apply (user_filter_selects sample_user_filter 0 version_filter); by vm_compute.
  - intros H. apply (user_filter_selects sample_user_filter 0 version_filter) in H; by vm_compute in H.
Defined.

(** ** The device as a client whose callbacks always return *)

Lemma filter_at_put k k' f g dv :
  filter_at k' dv = Some g ->
  filter_at k (filter_put k' f dv) = if decide (k = k') then Some f else filter_at k dv.
Proof.
  unfold filter_at, filter_put. destruct (dv_filter dv) as [l|] eqn:El; [|done].
  destruct (Z.leb_spec 0 k'); [|done]. intros Hg. simpl. destruct (decide (k = k')) as [->|Hne].
  - destruct (Z.leb_spec 0 k'); [|lia]. apply list_lookup_insert_eq. by eapply lookup_lt_Some.
  - destruct (Z.leb_spec 0 k); [|done]. apply list_lookup_insert_ne. lia.
Qed.

Section DeviceClient.
Context {HW : Type} {C : DemuxClient HW}.

(** A section filter with a buffer. *)
Definition filter_ok (f : dmxdev_filter) : Prop :=
  db_wf (df_buffer f) /\ exists p, df_params f = SecParams p.

Lemma callback_ok s f :
  filter_ok f -> exists f', dvb_dmxdev_section_callback s [] f = Ok (0, f') /\ filter_ok f'.
Proof using.
  intros [Hwf [p Hp]].
  destruct (section_callback_cases s f p Hwf Hp) as [[_ ->]|(_ & _ & f' & -> & Ht & Hwf' & _)].
  - exists f. split; [done|]. split; [done|by exists p].
  - exists f'. split; [done|]. destruct Ht as (_ & Hp' & _). split; [done|]. exists p. congruence.
Qed.

(** The filters [ks] of the device are section filters with buffers. *)
Definition device_ok (ks : list Z) (w : dmxdev * HW) : Prop :=
  forall k, k ∈ ks -> exists f, filter_at k w.1 = Some f /\ filter_ok f.

Definition dmxdev_spec (ks : list Z) : DemuxClientSpec (dmxdev * HW).
Proof using.
  refine {| cl_known cb p := cb = CB_DMXDEV /\ p ∈ ks; cl_inv := device_ok ks |}.
  intros cb p s [dv hw] [-> Hp] Hi. destruct (Hi p Hp) as (f & Hf & Hok). simpl in Hf.
  destruct (callback_ok s f Hok) as (f' & Hr & Hok').
  exists 0, (filter_put p f' dv, hw). simpl. rewrite Hf, Hr. split; [done|]. split; [lia|].
  intros k Hk. simpl. rewrite (filter_at_put k p f' f) by done. case_decide; [by exists f'|].
  apply (Hi k Hk).
Defined.





End DeviceClient.

(** ** End to end *)

Section EndToEnd.
Context {HW : Type} {C : DemuxClient HW} {D : DemuxDriver HW} {H : CrcHooks} {HL : CrcHooksLaws}.
Context (ks : list Z).
#[local] Instance device_spec : DemuxClientSpec (dmxdev * HW) := dmxdev_spec ks.


End EndToEnd.





