(* ===== verification/DmxdevBugs.v ===== *)
(** * Sequences of calls on which the demux device does not do what it means to
    (dvb-core/dmxdev.c, 466 to 688)

    Each is a run of the file operations from initialisation. *)

From S2P Require Import Prelude Crc32 Fifo DmxBuffer DemuxState SwFilter SectionFilter Sample SwFrames Feeds FeedsInv Dmxdev DmxdevRead.

Abbreviation DevM := (M (DW (W := dmxdev * log))).

Definition any_filter : dmxdev_filter :=
  mk_dmxdev_filter None None NoParams DMXDEV_TYPE_NONE DMXDEV_STATE_FREE dvb_dmxdev_buffer_init
    false None 0 [0; 0; 0] 0.

Definition any_device : dmxdev := mk_dmxdev None None 0 None dvb_dmxdev_buffer_init false 0.

Definition some_memory (n : Z) : option (list Z) := Some (replicate (Z.to_nat n) 0).

(** A device with four filters, two of them open. *)
Definition two_open : DevM unit :=
  dvb_dmxdev_init (Some (replicate 4 any_filter)) (Some []) ;;;
  dvb_demux_open ;;;
  dvb_demux_open ;;;
  dmod (set_signal false).

Definition set_filter (k : nat) (flags : Z) : DevM Z :=
  let! r := dvb_demux_do_ioctl None k (DMX_SET_FILTER (sample_params flags)) some_memory in
  mret_ r.1.

(** The demultiplexer delivers a section to filter [k]. *)
Definition section_arrives (k : Z) (s : list Z) : DevM Z :=
  fun st => let? r := cb_sec CB_DMXDEV k s st.2 in Ok (r.1, (st.1, r.2)).

Definition small_buffers : DevM Z :=
  dvb_demux_do_ioctl None 0 (DMX_SET_BUFFER_SIZE 64) some_memory ;;;
  dvb_demux_do_ioctl None 1 (DMX_SET_BUFFER_SIZE 64) some_memory ;;;
  mret_ 0.

Definition filter_state (k : Z) (s : DW (W := dmxdev * log)) : option dmxdev_state :=
  option_map df_state (filter_at k s.2.1).

(** Filter 0 wants one section, filter 1 all sections of the same PID.  Filter 0
    gets its section; then filter 1 is stopped. *)
Definition oneshot_done : DevM unit :=
  two_open ;;;
  small_buffers ;;;
  set_filter 0 (Z.lor DMX_ONESHOT DMX_IMMEDIATE_START) ;;;
  set_filter 1 DMX_IMMEDIATE_START ;;;
  section_arrives 0 sec_a ;;;
  mret_ tt.

(** Code bug: stopping one filter restarts the feed with the first other
    filter of the PID that is not before [DMXDEV_STATE_GO], and sets that filter
    to [DMXDEV_STATE_GO] even when it was done: a one-shot filter that has had
    its section is armed again and takes a second one. *)
Theorem oneshot_rearmed :
  exists s1 s2 s3,
    oneshot_done (empty_demux, (any_device, [])) = Ok (tt, s1) /\
    filter_state 0 s1 = Some DMXDEV_STATE_DONE /\
    dvb_demux_do_ioctl None 1 DMX_STOP some_memory s1 = Ok ((0, []), s2) /\
    filter_state 0 s2 = Some DMXDEV_STATE_GO /\
    section_arrives 0 sec_b s2 = Ok (0, s3) /\
    option_map (fun f => db_contents (df_buffer f)) (filter_at 0 s3.2.1) = Some (sec_a ++ sec_b).
Proof.
  eexists _, _, _. split; [vm_compute; reflexivity|]. split; [reflexivity|].
  split; [vm_compute; reflexivity|]. split; [reflexivity|].
  split; [vm_compute; reflexivity|]. reflexivity.
Qed.
