(* ===== verification/DvbFilter.v ===== *)
(** * PES packets and AC3 headers (dvb-core/dvb_filter.c, lines 6 to 24, 344 to 391 and 554 to 595)

    [dvb_filter_pes2ts] cuts a PES packet into transport stream packets for a
    callback; [dvb_filter_get_ac3info] finds the parameters of an AC3 stream.
    The rest of the file is compiled out. *)

From S2P Require Import Prelude Crc32 DemuxState SwFilter SectionFilter Sample.

(** ** The packetizer *)

(** [struct dvb_filter_pes2ts] *)
Record dvb_filter_pes2ts_state := mk_dvb_filter_pes2ts_state {
  p_buf : list Z;   (* 188 bytes *)
  p_cc : Z;   (* continuity counter *)
  p_cb : Z;   (* which callback *)
  p_priv : Z;
}.
#[export] Instance dvb_filter_pes2ts_state_eta : Eta dvb_filter_pes2ts_state := fun r =>
  mk_dvb_filter_pes2ts_state (p_buf r) (p_cc r) (p_cb r) (p_priv r).
Definition set_p_buf := setter! p_buf.
Definition set_p_cc := setter! p_cc.
Definition set_p_cb := setter! p_cb.
Definition set_p_priv := setter! p_priv.

Section Pes2ts.
Context {W : Type}.
(** Calling [cb (priv, buf)] through a function pointer. *)
Context (call : Z -> Z -> list Z -> W -> res (Z * W)).
Abbreviation MP := (M (dvb_filter_pes2ts_state * W)).

Definition pget : MP dvb_filter_pes2ts_state := mgets fst.
Definition pmod (g : dvb_filter_pes2ts_state -> dvb_filter_pes2ts_state) : MP unit :=
  mmodify (fun s => (g s.1, s.2)).
(** [memcpy (buf + off, s)] *)
Definition put (off : Z) (s : list Z) : MP unit :=
  let! t := pget in let! b := mlift (memcpy_to (p_buf t) off s) in pmod (set_p_buf b).
Definition emit : MP Z :=
  let! t := pget in
  fun s => let? r := call (p_cb t) (p_priv t) (p_buf t) s.2 in Ok (r.1, (s.1, r.2)).

Definition dvb_filter_pes2ts_init (pid cb priv : Z) : MP unit :=
  put 0 [0x47] ;;;
  put 1 [u8 (Z.shiftr pid 8)] ;;;
  put 2 [Z.land pid 0xff] ;;;
  pmod (fun t => set_p_cc 0 (set_p_cb cb (set_p_priv priv t))).

(** [buf[3] = flags | ((p2ts->cc++) & 0x0f)] *)
Definition put_cc (flags : Z) : MP unit :=
  let! t := pget in
  pmod (set_p_cc (u8 (p_cc t + 1))) ;;;
  put 3 [Z.lor flags (Z.land (p_cc t) 0x0f)].

(** The loop over the full packets: the code of a callback that fails, or what
    is left. *)
Fixpoint pes2ts_loop (fuel : nat) (pes : list Z) (p len : Z) : MP (Z * option (Z * Z)) :=
  if len <? 184 then mret_ (0, Some (p, len)) else
  match fuel with
  | O => fun _ => Diverge
  | S fuel =>
      put_cc 0x10 ;;;
      let! s := mlift (slice pes p 184) in
      put 4 s ;;;
      let! ret := emit in
      if negb (ret =? 0) then mret_ (ret, None) else
      let! t := pget in
      put 1 [Z.land (at_ (p_buf t) 1) (Z.lnot 0x40)] ;;;
      pes2ts_loop fuel pes (p + 184) (len - 184)
  end.

Definition dvb_filter_pes2ts (pes : list Z) (len : Z) : MP Z :=
  let! t := pget in
  put 1 [Z.lor (at_ (p_buf t) 1) 0x40] ;;;
  let! r := pes2ts_loop (Z.to_nat len) pes 0 len in
  match r.2 with
  | None => mret_ r.1
  | Some (p, len) =>
      if len =? 0 then mret_ 0 else
      put_cc 0x30 ;;;
      let rest := 183 - len in
      (if negb (rest =? 0) then
         put 5 [0x00] ;;;
         if negb (rest - 1 =? 0) then put 6 (replicate (Z.to_nat (rest - 1)) 0xff) else mret_ tt
       else mret_ tt) ;;;
      put 4 [rest] ;;;
      let! s := mlift (slice pes p len) in
      put (5 + rest) s ;;;
      emit
  end.
End Pes2ts.

(** ** AC3 *)

Definition freq : list Z := [441; 480; 320; 0].

Definition ac3_bitrates : list Z :=
  [32;40;48;56;64;80;96;112;128;160;192;224;256;320;384;448;512;576;640;
   0;0;0;0;0;0;0;0;0;0;0;0;0].

(** Declared beside [freq] and never used. *)
Definition ac3_freq : list Z := [480; 441; 320; 0].

Definition ac3_frames : list (list Z) :=
  [[64;80;96;112;128;160;192;224;256;320;384;448;512;640;768;896;1024;
    1152;1280;0;0;0;0;0;0;0;0;0;0;0;0;0];
   [69;87;104;121;139;174;208;243;278;348;417;487;557;696;835;975;1114;
    1253;1393;0;0;0;0;0;0;0;0;0;0;0;0;0];
   [96;120;144;168;192;240;288;336;384;480;576;672;768;960;1152;1344;
    1536;1728;1920;0;0;0;0;0;0;0;0;0;0;0;0;0]].

(** [struct dvb_audio_info], the members the routine sets *)
Record dvb_audio_info := mk_dvb_audio_info {
  ai_layer : Z;
  ai_bit_rate : Z;
  ai_frequency : Z;
  ai_framesize : Z;
  ai_off : Z;
}.
#[export] Instance dvb_audio_info_eta : Eta dvb_audio_info := fun r =>
  mk_dvb_audio_info (ai_layer r) (ai_bit_rate r) (ai_frequency r) (ai_framesize r) (ai_off r).
Definition set_ai_layer := setter! ai_layer.
Definition set_ai_bit_rate := setter! ai_bit_rate.
Definition set_ai_frequency := setter! ai_frequency.
Definition set_ai_framesize := setter! ai_framesize.
Definition set_ai_off := setter! ai_off.

(** The search for the sync word from [c] on; the byte behind the last is read
    when the last is the first half of the sync word. *)
Fixpoint ac3_sync (fuel : nat) (mbuf : list Z) (c count : Z) : res (option Z) :=
  if c >=? count then Ok None else
  match fuel with
  | O => Diverge
  | S fuel =>
      let? b0 := rd mbuf c in
      let? b1 := if b0 =? 0x0b then rd mbuf (c + 1) else Ok 0 in
      if (b0 =? 0x0b) && (b1 =? 0x77) then Ok (Some c)
      else ac3_sync fuel mbuf (c + 1) count
  end.

(** A read in one of the tables. *)
Definition tab (t : list Z) (i : Z) : res Z := rd t i.

Definition dvb_filter_get_ac3info (mbuf : list Z) (count : Z) (ai : dvb_audio_info)
    : res (Z * dvb_audio_info) :=
  let? o := ac3_sync (Z.to_nat count) mbuf 0 count in
  match o with
  | None => Ok (-1, ai)
  | Some c =>
      let ai := set_ai_off c ai in
      if c + 5 >=? count then Ok (-1, ai) else
      let ai := set_ai_layer 0 ai in
      let? h2 := rd mbuf (c + 2 + 2) in
      let frame := Z.land h2 0x3f in
      let? br := tab ac3_bitrates (Z.shiftr frame 1) in
      let ai := set_ai_bit_rate (br * 1000) ai in
      let fr := Z.shiftr (Z.land h2 0xc0) 6 in
      let? fq := tab freq fr in
      let ai := set_ai_frequency (fq * 100) ai in
      let? fs := match ac3_frames !! Z.to_nat fr with
                 | Some row => tab row (Z.shiftr frame 1)
                 | None => Fault
                 end in
      let fs := if negb (Z.land frame 1 =? 0) && (fr =? 1) then fs + 1 else fs in
      Ok (0, set_ai_framesize (Z.shiftl fs 1) ai)
  end.


(** ** The packets a PES packet makes *)

Definition pes_full (b1 b2 cc : Z) (s : list Z) : list Z :=
  0x47 :: b1 :: b2 :: Z.lor 0x10 (Z.land cc 0x0f) :: s.

(** An adaptation field of [n] bytes: flags and stuffing. *)
Definition stuffing (n : Z) : list Z :=
  if n =? 0 then [] else 0x00 :: replicate (Z.to_nat (n - 1)) 0xff.

Definition pes_last (b1 b2 cc : Z) (s : list Z) : list Z :=
  0x47 :: b1 :: b2 :: Z.lor 0x30 (Z.land cc 0x0f) :: (183 - zlen s) :: stuffing (183 - zlen s) ++ s.

Fixpoint pes_packets (fuel : nat) (b1 b2 cc : Z) (pes : list Z) : list (list Z) :=
  if zlen pes <? 184 then (if zlen pes =? 0 then [] else [pes_last b1 b2 cc pes]) else
  match fuel with
  | O => []
  | S fuel => pes_full b1 b2 cc (take 184 pes)
                :: pes_packets fuel (Z.land b1 (Z.lnot 0x40)) b2 (u8 (cc + 1)) (drop 184 pes)
  end.

Section Run.
Context {W : Type} (call : Z -> Z -> list Z -> W -> res (Z * W)).

(** The callback on each packet until one fails. *)
Fixpoint call_all (cb priv : Z) (pkts : list (list Z)) (w : W) : res (Z * W) :=
  match pkts with
  | [] => Ok (0, w)
  | p :: pkts =>
      let? r := call cb priv p w in
      if negb (r.1 =? 0) then Ok r else call_all cb priv pkts r.2
  end.

(** The packetizer between two packets. *)
Definition p2t (b : list Z) (cc cb priv : Z) : dvb_filter_pes2ts_state :=
  mk_dvb_filter_pes2ts_state b cc cb priv.

Lemma put_run {B} off s b b' cc cb priv (k : unit -> M (dvb_filter_pes2ts_state * W) B) w :
  memcpy_to b off s = Ok b' ->
  mbind_ (put off s) k (p2t b cc cb priv, w) = k tt (p2t b' cc cb priv, w).
Proof using.
  intros Hb. unfold put, pget, pmod. mrun. unfold mlift, mbind_. cbn [fst snd p2t p_buf].
  by rewrite Hb.
Qed.

Lemma put_0 a v (tl : list Z) : memcpy_to (a :: tl) 0 [v] = Ok (v :: tl).
Proof using. rewrite memcpy_to_ok; [done|lia|zl]. Qed.

Lemma put_1 a b v (tl : list Z) : memcpy_to (a :: b :: tl) 1 [v] = Ok (a :: v :: tl).
Proof using. rewrite memcpy_to_ok; [done|lia|zl]. Qed.

Lemma put_2 a b c v (tl : list Z) : memcpy_to (a :: b :: c :: tl) 2 [v] = Ok (a :: b :: v :: tl).
Proof using. rewrite memcpy_to_ok; [done|lia|zl]. Qed.

Lemma put_3 a b c d v (tl : list Z) : memcpy_to (a :: b :: c :: d :: tl) 3 [v] = Ok (a :: b :: c :: v :: tl).
Proof using. rewrite memcpy_to_ok; [done|lia|zl]. Qed.

Lemma put_4 a b c d (tl s : list Z) :
  zlen tl = 184 -> zlen s = 184 ->
  memcpy_to (a :: b :: c :: d :: tl) 4 s = Ok (a :: b :: c :: d :: s).
Proof using.
  intros Ht Hs. rewrite memcpy_to_ok; [|lia|rewrite !zlen_cons; lia]. rewrite Hs.
  change (Z.to_nat 4) with 4%nat. change (Z.to_nat (4 + 184)) with 188%nat. simpl.
  rewrite drop_ge by zl. by rewrite app_nil_r.
Qed.

Lemma put_cc_run {B} flags a b c d (tl : list Z) cc cb priv
    (k : unit -> M (dvb_filter_pes2ts_state * W) B) w :
  mbind_ (put_cc flags) k (p2t (a :: b :: c :: d :: tl) cc cb priv, w) =
  k tt (p2t (a :: b :: c :: Z.lor flags (Z.land cc 0x0f) :: tl) (u8 (cc + 1)) cb priv, w).
Proof using.
  unfold put_cc, pget, pmod. mrun. change (p_cc (p2t (a :: b :: c :: d :: tl) cc cb priv)) with cc.
  change (set_p_cc (u8 (cc + 1)) (p2t (a :: b :: c :: d :: tl) cc cb priv))
    with (p2t (a :: b :: c :: d :: tl) (u8 (cc + 1)) cb priv).
  by erewrite put_run by apply put_3.
Qed.

(** The last packet's adaptation field and payload over any old contents. *)
Lemma put_last b1 b2 d (tl s : list Z) cc cb priv w :
  zlen tl = 184 -> 0 < zlen s < 184 ->
  let rest := 183 - zlen s in
  let buf := 0x47 :: b1 :: b2 :: d :: rest :: stuffing rest ++ s in
  forall B (k : unit -> M (dvb_filter_pes2ts_state * W) B),
  mbind_ (if negb (rest =? 0) then
            put 5 [0x00] ;;;
            if negb (rest - 1 =? 0) then put 6 (replicate (Z.to_nat (rest - 1)) 0xff) else mret_ tt
          else mret_ tt) (fun _ => put 4 [rest] ;;; put (5 + rest) s ;;; k tt)
    (p2t (0x47 :: b1 :: b2 :: d :: tl) cc cb priv, w) =
  k tt (p2t buf cc cb priv, w).
Proof using.
  intros Htl Hs rest buf B k.
  set (b0 := 0x47 :: b1 :: b2 :: d :: tl).
  assert (zlen b0 = 188) as Hb0 by (unfold b0; rewrite !zlen_cons; lia).
  assert (exists bs, (forall B' (k' : unit -> M (dvb_filter_pes2ts_state * W) B'),
    mbind_ (if negb (rest =? 0) then
            put 5 [0x00] ;;;
            if negb (rest - 1 =? 0) then put 6 (replicate (Z.to_nat (rest - 1)) 0xff) else mret_ tt
          else mret_ tt) k' (p2t b0 cc cb priv, w) = k' tt (p2t bs cc cb priv, w)) /\
    zlen bs = 188 /\ take 4 bs = take 4 b0 /\
    take (Z.to_nat rest) (drop 5 bs) = stuffing rest) as (bs & Hrun & Hlen & H4 & Hst).
  { unfold stuffing. destruct (Z.eqb_spec rest 0) as [E|E]; cbn [negb].
    { exists b0. rewrite E. split_and!; try done. }
    destruct (memcpy_to_some b0 5 [0]) as [x1 Hx1]; [lia|rewrite zlen_cons, zlen_nil; lia|].
    pose proof (memcpy_to_length _ _ _ _ Hx1) as Hl1.
    assert (take 4 x1 = take 4 b0) as Hx14.
    { apply memcpy_to_inv in Hx1 as (_ & _ & ->). by rewrite take_app_le by (simpl; lia). }
    assert (take 1 (drop 5 x1) = [0]) as Hx15.
    { apply memcpy_take in Hx1 as Hx. change (Z.to_nat (5 + zlen [0])) with 6%nat in Hx.
      apply (f_equal (drop 5)) in Hx. rewrite skipn_firstn_comm in Hx. simpl (6 - 5)%nat in Hx.
      rewrite Hx. by rewrite drop_app_length' by (rewrite length_take; zl). }
    destruct (Z.eqb_spec (rest - 1) 0) as [E1|E1]; cbn [negb].
    { exists x1. split_and!; [|zl|done|].
      - intros B' k'. rewrite mbind_bind, (put_run _ _ _ _ _ _ _ _ _ Hx1). mrun. done.
      - replace rest with 1 by lia. exact Hx15. }
    set (ff := replicate (Z.to_nat (rest - 1)) 0xff).
    assert (zlen ff = rest - 1) as Hff by (unfold ff; rewrite zlen_replicate; lia).
    destruct (memcpy_to_some x1 6 ff) as [x2 Hx2]; [lia|unfold zlen in *; lia|].
    pose proof (memcpy_to_length _ _ _ _ Hx2) as Hl2.
    exists x2. split_and!; [|zl| |].
    - intros B' k'. rewrite mbind_bind, (put_run _ _ _ _ _ _ _ _ _ Hx1).
      by rewrite (put_run _ _ _ _ _ _ _ _ _ Hx2).
    - rewrite <- Hx14. apply memcpy_to_inv in Hx2 as (_ & _ & ->).
      rewrite take_app_le by (rewrite length_take; zl). rewrite take_take. done.
    - apply memcpy_take in Hx2. rewrite Hff in Hx2.
      assert (take (Z.to_nat rest) (drop 5 x2) = drop 5 (take (Z.to_nat (6 + (rest - 1))) x2)) as ->
        by (rewrite skipn_firstn_comm; f_equal; lia).
      rewrite Hx2, drop_app_le by (rewrite length_take; zl).
      rewrite skipn_firstn_comm. change (Z.to_nat 6 - 5)%nat with 1%nat. by rewrite Hx15. }
  rewrite Hrun.
  destruct (memcpy_to_some bs 4 [rest]) as [x3 Hx3]; [lia|rewrite zlen_cons, zlen_nil; lia|].
  pose proof (memcpy_to_length _ _ _ _ Hx3) as Hl3.
  rewrite (put_run _ _ _ _ _ _ _ _ _ Hx3).
  destruct (memcpy_to_some x3 (5 + rest) s) as [x4 Hx4]; [lia|unfold zlen in *; lia|].
  rewrite (put_run _ _ _ _ _ _ _ _ _ Hx4). do 3 f_equal.
  apply memcpy_to_inv in Hx4 as (_ & _ & ->). apply memcpy_to_inv in Hx3 as (_ & _ & ->).
  rewrite (drop_ge _ (Z.to_nat (5 + rest + zlen s))) by zl. rewrite app_nil_r.
  change (Z.to_nat 4) with 4%nat. change (Z.to_nat (4 + zlen [rest])) with 5%nat.
  rewrite H4. unfold b0. simpl take. unfold buf.
  replace (Z.to_nat (5 + rest)) with (S (S (S (S (S (Z.to_nat rest)))))) by lia.
  simpl. by rewrite Hst.
Qed.

Lemma emit_run {B} b cc cb priv (k : Z -> M (dvb_filter_pes2ts_state * W) B) w r w' :
  call cb priv b w = Ok (r, w') -> mbind_ (emit call) k (p2t b cc cb priv, w) = k r (p2t b cc cb priv, w').
Proof using.
  intros Hc. unfold emit, pget. mrun. unfold mbind_. cbn [fst snd p2t p_cb p_priv p_buf]. by rewrite Hc.
Qed.

Lemma slice_drop pes p n :
  0 <= p -> 0 <= n -> p + n <= zlen pes ->
  slice pes p n = Ok (take (Z.to_nat n) (drop (Z.to_nat p) pes)).
Proof using. intros. by apply slice_ok. Qed.

(** The loop sends the full packets, and stops early where a callback fails. *)
Lemma pes2ts_loop_run fuel : forall b1 b2 d (tl : list Z) cc cb priv pes p w r w',
  zlen tl = 184 -> 0 <= p <= zlen pes -> zlen pes - p <= Z.of_nat fuel ->
  call_all cb priv (pes_packets fuel b1 b2 cc (drop (Z.to_nat p) pes)) w = Ok (r, w') ->
  exists t' q,
    pes2ts_loop call fuel pes p (zlen pes - p) (p2t (0x47 :: b1 :: b2 :: d :: tl) cc cb priv, w) = q /\
    ((exists w1, q = Ok ((r, None), (t', w1)) /\ w1 = w' /\ r <> 0) \/
     (exists w1 b1' d' tl' cc' p', q = Ok ((0, Some (p', zlen pes - p')),
        (p2t (0x47 :: b1' :: b2 :: d' :: tl') cc' cb priv, w1)) /\ zlen tl' = 184 /\
        0 <= p' <= zlen pes /\ zlen pes - p' < 184 /\
        call_all cb priv (pes_packets 0 b1' b2 cc' (drop (Z.to_nat p') pes)) w1 = Ok (r, w'))).
Proof using.
  induction fuel as [|fuel IH]; intros b1 b2 d tl cc cb priv pes p w r w' Htl Hp Hf Hc.
  - exists (p2t [] 0 0 0). eexists. split; [done|]. right. simpl pes2ts_loop. rif.
    exists w, b1, d, tl, cc, p. split_and!; done || lia.
  - assert (zlen (drop (Z.to_nat p) pes) = zlen pes - p) as Hz by (apply zlen_dropZ; lia).
    simpl pes2ts_loop. simpl pes_packets in Hc. rewrite Hz in Hc.
    destruct (Z.ltb_spec (zlen pes - p) 184) as [Hlt|Hge].
    { exists (p2t [] 0 0 0). eexists. split; [done|]. right.
      exists w, b1, d, tl, cc, p. split_and!; try done; try lia.
      simpl pes_packets. rewrite Hz. by rif. }
    simpl call_all in Hc. inv_res Hc. destruct r0 as [x w1].
    rewrite put_cc_run. rewrite slice_drop by lia. rewrite mlift_bind.
    erewrite put_run by (apply put_4; [done|change 184 with (Z.of_nat 184); apply zlen_take; zl]).
    erewrite emit_run by exact Hr. cbn [fst snd] in Hc.
    destruct (Z.eqb_spec x 0) as [->|Hx]; cbn [negb] in Hc |- *.
    2: { simplify_eq. eexists _, _. split; [done|]. left. eexists. split; [reflexivity|]. done. }
    unfold pget. mrun. erewrite put_run by apply put_1.
    replace (zlen pes - p - 184) with (zlen pes - (p + 184)) by lia.
    apply IH; [|lia|lia|].
    + change 184 with (Z.of_nat 184). apply zlen_take. zl.
    + rewrite Z2Nat.inj_add, <- drop_drop by lia. exact Hc.
Qed.

Lemma pes_packets_short b1 b2 cc pes :
  zlen pes < 184 -> pes_packets 0 b1 b2 cc pes = if zlen pes =? 0 then [] else [pes_last b1 b2 cc pes].
Proof using. intros H. simpl. by rif. Qed.

Lemma pes2ts_run b1 b2 d (tl : list Z) cc cb priv pes w r w' :
  zlen tl = 184 ->
  call_all cb priv (pes_packets (length pes) (Z.lor b1 0x40) b2 cc pes) w = Ok (r, w') ->
  exists t', dvb_filter_pes2ts call pes (zlen pes) (p2t (0x47 :: b1 :: b2 :: d :: tl) cc cb priv, w)
    = Ok (r, (t', w')).
Proof using.
  intros Htl Hc. unfold dvb_filter_pes2ts, pget. mrun. erewrite put_run by apply put_1.
  destruct (pes2ts_loop_run (length pes) (Z.lor b1 0x40) b2 d tl cc cb priv pes 0 w r w')
    as (t' & q & Hq & Hcase); [done|pose proof (zlen_nonneg pes); lia|zl|done|].
  rewrite Z.sub_0_r in Hq. replace (Z.to_nat (zlen pes)) with (length pes) by zl.
  destruct Hcase as [(w1 & -> & -> & Hr)|(w1 & b1' & d' & tl' & cc' & p' & -> & Htl' & Hp' & Hlt & Hc')].
  { exists t'. by rewrite (mbind_Ok _ _ _ _ _ Hq). }
  rewrite (mbind_Ok _ _ _ _ _ Hq). cbn [fst snd].
  assert (zlen (drop (Z.to_nat p') pes) = zlen pes - p') as Hz by (apply zlen_dropZ; lia).
  rewrite pes_packets_short, Hz in Hc' by lia.
  destruct (Z.eqb_spec (zlen pes - p') 0) as [E|E].
  { simpl in Hc'. simplify_eq. by eexists. }
  rewrite put_cc_run. cbv zeta. rewrite slice_drop by lia.
  set (s := take (Z.to_nat (zlen pes - p')) (drop (Z.to_nat p') pes)).
  assert (s = drop (Z.to_nat p') pes) as Es by (unfold s; apply take_ge; zl).
  assert (zlen s = zlen pes - p') as Hs by (by rewrite Es).
  set (stuff := if negb (183 - (zlen pes - p') =? 0) then _ else _).
  pose proof (put_last b1' b2 (Z.lor 0x30 (Z.land cc' 0x0f)) tl' s (u8 (cc' + 1)) cb priv w1 Htl') as Hl.
  rewrite Hs in Hl. specialize (Hl ltac:(pose proof (zlen_nonneg s); lia) Z (fun _ => emit call)).
  simpl call_all in Hc'. rewrite <- Es in Hc'.
  assert (exists t2, emit call (p2t (pes_last b1' b2 cc' s) (u8 (cc' + 1)) cb priv, w1) =
    Ok (r, (t2, w'))) as (t2 & He).
  { inv_res Hc'. destruct r0 as [x w2]. exists (p2t (pes_last b1' b2 cc' s) (u8 (cc' + 1)) cb priv).
    rewrite <- (mbind_ret_r (emit call)). erewrite emit_run by exact Hr. cbn [fst snd] in Hc'.
    destruct (Z.eqb_spec x 0); cbn [negb] in Hc'; by simplify_eq. }
  exists t2. rewrite <- He. unfold pes_last. rewrite Hs. rewrite <- Hl.
  unfold stuff. unfold mbind_. destruct (_ (p2t _ _ _ _, w1)) as [[[] x]| | |]; [|done..].
  cbn [res_bind fst snd]. destruct (put 4 _ x) as [[[] y]| | |]; done.
Qed.
End Run.

(** ** What the packets carry *)

Definition payload_bytes (p : list Z) : list Z := drop (Z.to_nat (188 - payload p)) p.

Lemma cc_low cc : 0 <= Z.land cc 0x0f < 16.
Proof. change 16 with (2 ^ 4). by apply (land_range _ _ 4). Qed.

Lemma cc_flags cc :
  Z.land (Z.lor 0x10 (Z.land cc 0x0f)) 0x10 = 0x10 /\ Z.land (Z.lor 0x10 (Z.land cc 0x0f)) 0x20 = 0 /\
  Z.land (Z.lor 0x30 (Z.land cc 0x0f)) 0x10 = 0x10 /\ Z.land (Z.lor 0x30 (Z.land cc 0x0f)) 0x20 = 0x20.
Proof.
  assert ((Z.land (Z.lor 0x10 (Z.land cc 0x0f)) 0x10 =? 0x10) &&
    (Z.land (Z.lor 0x10 (Z.land cc 0x0f)) 0x20 =? 0) &&
    (Z.land (Z.lor 0x30 (Z.land cc 0x0f)) 0x10 =? 0x10) &&
    (Z.land (Z.lor 0x30 (Z.land cc 0x0f)) 0x20 =? 0x20) = true) as E.
  { apply (forall_range (fun c => (Z.land (Z.lor 0x10 c) 0x10 =? 0x10) &&
      (Z.land (Z.lor 0x10 c) 0x20 =? 0) && (Z.land (Z.lor 0x30 c) 0x10 =? 0x10) &&
      (Z.land (Z.lor 0x30 c) 0x20 =? 0x20)) 16); [done|apply cc_low]. }
  rewrite !andb_true_iff in E. lia.
Qed.

Lemma pes_full_payload b1 b2 cc s :
  zlen s = 184 -> zlen (pes_full b1 b2 cc s) = 188 /\ payload (pes_full b1 b2 cc s) = 184 /\
  payload_bytes (pes_full b1 b2 cc s) = s.
Proof.
  intros Hs. destruct (cc_flags cc) as (H1 & H2 & _ & _).
  assert (payload (pes_full b1 b2 cc s) = 184) as Hp.
  { unfold payload. change (at_ (pes_full b1 b2 cc s) 3) with (Z.lor 0x10 (Z.land cc 0x0f)).
    by rewrite H1, H2. }
  split; [unfold pes_full; rewrite !zlen_cons; lia|]. split; [done|].
  unfold payload_bytes. by rewrite Hp.
Qed.

Lemma stuffing_zlen n : 0 <= n -> zlen (stuffing n) = n.
Proof.
  intros Hn. unfold stuffing. destruct (Z.eqb_spec n 0) as [->|]; [done|].
  rewrite zlen_cons, zlen_replicate. lia.
Qed.

Lemma pes_last_payload b1 b2 cc s :
  0 < zlen s < 184 -> zlen (pes_last b1 b2 cc s) = 188 /\ payload (pes_last b1 b2 cc s) = zlen s /\
  payload_bytes (pes_last b1 b2 cc s) = s.
Proof.
  intros Hs. destruct (cc_flags cc) as (_ & _ & H1 & H2).
  pose proof (stuffing_zlen (183 - zlen s) ltac:(lia)) as Hst.
  assert (payload (pes_last b1 b2 cc s) = zlen s) as Hp.
  { unfold payload. change (at_ (pes_last b1 b2 cc s) 3) with (Z.lor 0x30 (Z.land cc 0x0f)).
    change (at_ (pes_last b1 b2 cc s) 4) with (183 - zlen s). rewrite H1, H2. rif. lia. }
  split; [unfold pes_last; rewrite !zlen_cons, zlen_app, Hst; lia|]. split; [done|].
  unfold payload_bytes. rewrite Hp. unfold pes_last.
  replace (Z.to_nat (188 - zlen s)) with (S (S (S (S (S (length (stuffing (183 - zlen s))))))))
    by (unfold zlen in *; lia).
  simpl. apply drop_app_length.
Qed.

(** A packet of the stream [pid]: [first] is the payload unit start flag. *)
Definition pes_packet (pid : Z) (first : bool) (p : list Z) : Prop :=
  zlen p = 188 /\ at_ p 0 = 0x47 /\ ts_pid p = pid /\
  negb (Z.land (at_ p 1) 0x40 =? 0) = first /\ 0 < payload p <= 184.

Lemma pid_bytes (pid : Z) (first : bool) :
  0 <= pid < 0x2000 ->
  let b1 := Z.lor (u8 (Z.shiftr pid 8)) (if first then 0x40 else 0) in
  (u16 (Z.shiftl (Z.land b1 0x1f) 8 + Z.land pid 0xff) = pid) /\
  negb (Z.land b1 0x40 =? 0) = first /\
  Z.land b1 (Z.lnot 0x40) = Z.lor (u8 (Z.shiftr pid 8)) 0 /\
  Z.lor b1 0x40 = Z.lor (u8 (Z.shiftr pid 8)) 0x40.
Proof.
  intros Hp. cbv zeta. rewrite land_ones_255.
  assert (0 <= Z.shiftr pid 8 < 32) as Hs.
  { rewrite Z.shiftr_div_pow2 by lia. split; [apply Z.div_pos; lia|].
    apply Z.div_lt_upper_bound; lia. }
  assert (pid = 256 * Z.shiftr pid 8 + u8 pid) as Heq.
  { rewrite Z.shiftr_div_pow2 by lia. unfold u8. pose proof (Z.div_mod pid (2 ^ 8)). lia. }
  set (h := Z.shiftr pid 8) in *.
  assert ((Z.land (Z.lor (u8 h) (if first then 0x40 else 0)) 0x1f =? h) &&
    Bool.eqb (negb (Z.land (Z.lor (u8 h) (if first then 0x40 else 0)) 0x40 =? 0)) first &&
    (Z.land (Z.lor (u8 h) (if first then 0x40 else 0)) (Z.lnot 0x40) =? Z.lor (u8 h) 0) &&
    (Z.lor (Z.lor (u8 h) (if first then 0x40 else 0)) 0x40 =? Z.lor (u8 h) 0x40) = true) as E.
  { apply (forall_range (fun h => (Z.land (Z.lor (u8 h) (if first then 0x40 else 0)) 0x1f =? h) &&
      Bool.eqb (negb (Z.land (Z.lor (u8 h) (if first then 0x40 else 0)) 0x40 =? 0)) first &&
      (Z.land (Z.lor (u8 h) (if first then 0x40 else 0)) (Z.lnot 0x40) =? Z.lor (u8 h) 0) &&
      (Z.lor (Z.lor (u8 h) (if first then 0x40 else 0)) 0x40 =? Z.lor (u8 h) 0x40)) 32);
      [by destruct first|lia]. }
  rewrite !andb_true_iff, !Z.eqb_eq, Bool.eqb_true_iff in E. destruct E as [[[E1 E2] E3] E4].
  split_and!; try done. rewrite E1, Z.shiftl_mul_pow2 by lia. unfold u16.
  rewrite Z.mod_small by lia. lia.
Qed.

Lemma pes_packets_spec (fuel : nat) (pid : Z) : forall (first : bool) cc pes,
  0 <= pid < 0x2000 -> zlen pes <= Z.of_nat fuel ->
  let b1 := Z.lor (u8 (Z.shiftr pid 8)) (if first then 0x40 else 0) in
  let pkts := pes_packets fuel b1 (Z.land pid 0xff) cc pes in
  concat (map payload_bytes pkts) = pes /\
  match pkts with
  | [] => pes = []
  | p :: ps => pes_packet pid first p /\ Forall (pes_packet pid false) ps
  end.
Proof.
  induction fuel as [|fuel IH]; intros first cc pes Hpid Hf b1 pkts.
  - assert (pes = []) as -> by (apply nil_length_inv; zl). done.
  - destruct (pid_bytes pid first Hpid) as (Hb1 & Hb2 & Hb3 & _). fold b1 in Hb1, Hb2, Hb3.
    subst pkts. simpl pes_packets. pose proof (zlen_nonneg pes).
    assert (forall p, at_ p 0 = 0x47 -> at_ p 1 = b1 -> at_ p 2 = Z.land pid 0xff -> zlen p = 188 ->
      0 < payload p <= 184 -> pes_packet pid first p) as Hpk.
    { intros p H0 H1 H2 Hl Hpay. unfold pes_packet, ts_pid. rewrite H1, H2. split_and!; done || lia. }
    destruct (Z.ltb_spec (zlen pes) 184) as [Hlt|Hge].
    + destruct (Z.eqb_spec (zlen pes) 0) as [E|E].
      { assert (pes = []) as -> by (apply nil_length_inv; zl). done. }
      destruct (pes_last_payload b1 (Z.land pid 0xff) cc pes ltac:(lia)) as (Hl & Hp & Hb).
      simpl. rewrite Hb, app_nil_r. split; [done|]. split; [|constructor].
      apply Hpk; done || lia.
    + assert (zlen (take 184 pes) = 184) as H184
        by (change 184 with (Z.of_nat 184); apply zlen_take; zl).
      destruct (pes_full_payload b1 (Z.land pid 0xff) cc (take 184 pes) H184) as (Hl & Hp & Hb).
      destruct (IH false (u8 (cc + 1)) (drop 184 pes) Hpid) as [Hc Hm]; [zl|].
      simpl. rewrite Hb, Hb3, Hc, take_drop. split; [done|]. split; [apply Hpk; done || lia|].
      destruct (pes_packets _ _ _ _ _) as [|p ps]; [constructor|]. by constructor; destruct Hm.
Qed.

(** ** Round trip through the demultiplexer *)

(** A callback that collects the packets. *)
Definition collect (cb priv : Z) (p : list Z) (w : list (list Z)) : res (Z * list (list Z)) :=
  Ok (0, w ++ [p]).

Lemma call_all_collect cb priv pkts w : call_all collect cb priv pkts w = Ok (0, w ++ pkts).
Proof.
  revert w. induction pkts as [|p pkts IH]; intros w; simpl; [by rewrite app_nil_r|].
  by rewrite IH, <- app_assoc.
Qed.

(** A feed whose client asked for the payload, not for the decoder. *)
Definition payload_feed (f : dvb_demux_feed) : Prop :=
  fd_type f = DMX_TYPE_TS /\ is_filtering f = true /\ ts_type f = Z.lor TS_PACKET TS_PAYLOAD_ONLY.

Fixpoint feed_packets (pkts : list (list Z)) : M (FW (W:=log)) unit :=
  match pkts with
  | [] => mret_ tt
  | p :: pkts => dvb_dmx_swfilter_packet_type [] 0 p ;;; feed_packets pkts
  end.

Lemma feed_packet_payload p f w :
  payload_feed f -> zlen p = 188 -> 0 < payload p <= 184 ->
  exists n, dvb_dmx_swfilter_packet_type (W:=log) [] 0 p (f, w) =
    Ok (tt, (set_peslen n f, w ++ [(fd_priv f, payload_bytes p)])).
Proof.
  intros (Ht & Hfi & Hty) Hz Hp. unfold dvb_dmx_swfilter_packet_type. mrun.
  rewrite Ht. cbn [Z.eqb DMX_TYPE_TS DMX_TYPE_SEC]. rewrite Hfi, Hty. cbn [negb].
  change (negb (Z.land (Z.lor TS_PACKET TS_PAYLOAD_ONLY) TS_PACKET =? 0)) with true.
  change (negb (Z.land (Z.lor TS_PACKET TS_PAYLOAD_ONLY) TS_PAYLOAD_ONLY =? 0)) with true. cbv iota.
  unfold dvb_dmx_swfilter_payload. rif. mrun.
  assert (exists f1, (if negb (Z.land (at_ p 1) 64 =? 0) then fmod (set_peslen 65530) else mret_ tt)
    (f, w) = Ok (tt, (f1, w)) /\ (forall m, set_peslen m f1 = set_peslen m f) /\
    fd_cb f1 = fd_cb f /\ fd_priv f1 = fd_priv f) as (f1 & H1 & Hf1 & Hc1 & Hp1).
  { case_if; by eexists. }
  rewrite (mbind_Ok _ _ _ _ _ H1). mrun. rewrite Hf1.
  rewrite slice_ok by lia. rewrite take_ge by (rewrite length_drop; zl). mrun.
  unfold mbind_, wcall. cbn [fst snd res_bind cb_ts log_client]. 
  exists (u16 (peslen f1 + payload p)). done.
Qed.

Lemma feed_packets_payload pkts : forall f w,
  payload_feed f -> Forall (fun p => zlen p = 188 /\ 0 < payload p <= 184) pkts ->
  exists f', feed_packets pkts (f, w) =
    Ok (tt, (f', w ++ map (fun p => (fd_priv f, payload_bytes p)) pkts)).
Proof.
  induction pkts as [|p pkts IH]; intros f w Hf Hp.
  - exists f. simpl. by rewrite app_nil_r.
  - apply Forall_cons_1 in Hp as [[Hz Hpay] Hp].
    destruct (feed_packet_payload p f w Hf Hz Hpay) as [n Hr].
    destruct (IH (set_peslen n f) (w ++ [(fd_priv f, payload_bytes p)])) as [f' Hr']; [done|done|].
    exists f'. simpl. rewrite (mbind_Ok _ _ _ _ _ Hr). etrans; [exact Hr'|]. by rewrite <- app_assoc.
Qed.

(** C36: a round trip: the packets that [dvb_filter_pes2ts] makes of a PES packet
    are well-formed packets of the PID it was initialised with, the first and
    only the first with the payload unit start flag, and the demultiplexer's TS
    feed gives its client exactly the bytes of the PES packet back. *)
Theorem pes_ts_roundtrip pid cb priv pes b cc0 cb0 priv0 f :
  zlen b = 188 -> 0 <= pid < 0x2000 -> payload_feed f -> pes <> [] ->
  exists t t' p ps f' chunks,
    dvb_filter_pes2ts_init (W:=list (list Z)) pid cb priv (p2t b cc0 cb0 priv0, []) = Ok (tt, (t, [])) /\
    dvb_filter_pes2ts collect pes (zlen pes) (t, []) = Ok (0, (t', p :: ps)) /\
    pes_packet pid true p /\ Forall (pes_packet pid false) ps /\
    feed_packets (p :: ps) (f, []) = Ok (tt, (f', map (fun c => (fd_priv f, c)) chunks)) /\
    concat chunks = pes.
Proof.
  intros Hb Hpid Hf Hne.
  assert (exists d tl, zlen tl = 184 /\
    dvb_filter_pes2ts_init pid cb priv (p2t b cc0 cb0 priv0, ([] : list (list Z))) =
    Ok (tt, (p2t (0x47 :: u8 (Z.shiftr pid 8) :: Z.land pid 0xff :: d :: tl) 0 cb priv, [])))
    as (d & tl & Htl & Hinit).
  { destruct b as [|b0 [|b1 [|b2 [|b3 tl]]]]; try (by vm_compute in Hb).
    rewrite !zlen_cons in Hb. exists b3, tl. split; [lia|].
    unfold dvb_filter_pes2ts_init.
    erewrite put_run by apply put_0. erewrite put_run by apply put_1.
    erewrite put_run by apply put_2.
    done. }
  pose proof (pes_packets_spec (length pes) pid true 0 pes Hpid ltac:(zl)) as [Hcat Hpk].
  set (pkts := pes_packets _ _ _ _ _) in Hcat, Hpk.
  destruct (pes2ts_run collect (u8 (Z.shiftr pid 8)) (Z.land pid 0xff) d tl 0 cb priv pes [] 0 pkts Htl)
    as [t' Hrun]; [by rewrite call_all_collect|].
  destruct pkts as [|p ps] eqn:Ep; [by rewrite Hpk in Hne|]. destruct Hpk as [Hp Hps].
  destruct (feed_packets_payload (p :: ps) f [] Hf) as [f' Hfeed].
  { constructor; [by destruct Hp as (? & _ & _ & _ & ?)|].
    eapply Forall_impl; [|exact Hps]. by intros q (? & _ & _ & _ & ?). }
  eexists _, t', p, ps, f', (map payload_bytes (p :: ps)).
  split; [exact Hinit|]. split; [exact Hrun|]. split; [done|]. split; [done|].
  split; [|done]. etrans; [exact Hfeed|]. simpl. by rewrite map_map.
Qed.

Definition sample_ts_feed : dvb_demux_feed :=
  set_fd_type DMX_TYPE_TS (set_ts_type (Z.lor TS_PACKET TS_PAYLOAD_ONLY) sample_feed).

Lemma pes_ts_roundtrip_witness :
  exists t t' p ps f' chunks,
    dvb_filter_pes2ts_init (W:=list (list Z)) 0x1234 3 4 (p2t (replicate 188 0xaa) 9 0 0, []) = Ok (tt, (t, [])) /\
    dvb_filter_pes2ts collect (replicate 400 0x55) (zlen (replicate 400 0x55)) (t, []) =
      Ok (0, (t', p :: ps)) /\
    pes_packet 0x1234 true p /\ Forall (pes_packet 0x1234 false) ps /\
    feed_packets (p :: ps) (sample_ts_feed, []) =
      Ok (tt, (f', map (fun c => (fd_priv sample_ts_feed, c)) chunks)) /\
    concat chunks = replicate 400 0x55.
Proof. by apply pes_ts_roundtrip. Defined.

(** ** AC3 *)

Definition sync_at (mbuf : list Z) (c : Z) : Prop := at_ mbuf c = 0x0b /\ at_ mbuf (c + 1) = 0x77.

Lemma ac3_sync_spec fuel mbuf : forall c count,
  0 <= c -> count < zlen mbuf -> count - c <= Z.of_nat fuel ->
  exists o, ac3_sync fuel mbuf c count = Ok o /\
    match o with
    | None => forall i, c <= i < count -> ~ sync_at mbuf i
    | Some k => c <= k < count /\ sync_at mbuf k /\ forall i, c <= i < k -> ~ sync_at mbuf i
    end.
Proof.
  induction fuel as [|fuel IH]; intros c count Hc Hlen Hf; simpl ac3_sync.
  { rif. exists None. split; [done|]. intros; lia. }
  case_if; [exists None; split; [done|]; intros; lia|].
  rewrite rd_ok by lia. cbn [res_bind].
  set (b1 := if at_ mbuf c =? 11 then rd mbuf (c + 1) else Ok 0).
  assert (exists v, b1 = Ok v /\ ((at_ mbuf c =? 11) && (v =? 119) = true <-> sync_at mbuf c))
    as (v & -> & Hiff).
  { subst b1. unfold sync_at. destruct (Z.eqb_spec (at_ mbuf c) 11) as [E|E].
    - rewrite rd_ok by lia. eexists. split; [done|]. cbn [andb]. rewrite Z.eqb_eq. tauto.
    - exists 0. split; [done|]. cbn [andb]. split; [done|]. tauto. }
  cbn [res_bind]. destruct ((at_ mbuf c =? 11) && (v =? 119)) eqn:E.
  - exists (Some c). split; [done|]. split; [lia|]. split; [by apply Hiff|]. intros; lia.
  - destruct (IH (c + 1) count) as (o & Ho & Hspec); [lia..|]. exists o. split; [done|].
    assert (~ sync_at mbuf c) as Hn by (intros Hs; apply Hiff in Hs; done).
    destruct o as [k|].
    + destruct Hspec as (Hk & Hs & Hno). split; [lia|]. split; [done|]. intros i Hi.
      destruct (decide (i = c)) as [->|]; [done|]. apply Hno. lia.
    + intros i Hi. destruct (decide (i = c)) as [->|]; [done|]. apply Hspec. lia.
Qed.

(** The sampling frequency that the code of the header stands for, in Hz. *)
Definition ac3_hz (fscod : Z) : Z := at_ ac3_freq fscod * 100.
Definition fscod (h : Z) : Z := Z.shiftr (Z.land h 0xc0) 6.
Definition frmsizecod (h : Z) : Z := Z.land h 0x3f.

(** Bytes in a frame of 1536 samples; at 44.1 kHz odd codes have one word more. *)
Definition ac3_frame_bytes (h : Z) : Z :=
  2 * (at_ ac3_bitrates (Z.shiftr (frmsizecod h) 1) * 1000 * 96 / ac3_hz (fscod h)
       + (if (fscod h =? 1) && negb (Z.land (frmsizecod h) 1 =? 0) then 1 else 0)).

Lemma ac3_header_params h :
  is_byte h ->
  exists br fq row fs,
    tab ac3_bitrates (Z.shiftr (frmsizecod h) 1) = Ok br /\ tab freq (fscod h) = Ok fq /\
    (fscod h < 3 -> ac3_frames !! Z.to_nat (fscod h) = Some row /\
      tab row (Z.shiftr (frmsizecod h) 1) = Ok fs /\
      (frmsizecod h < 38 ->
       ac3_frame_bytes h = Z.shiftl (if negb (Z.land (frmsizecod h) 1 =? 0) && (fscod h =? 1)
                                     then fs + 1 else fs) 1)) /\
    (fscod h = 3 -> ac3_frames !! Z.to_nat (fscod h) = None) /\
    br = at_ ac3_bitrates (Z.shiftr (frmsizecod h) 1) /\ fq = at_ freq (fscod h) /\
    0 <= fscod h <= 3.
Proof.
  intros Hh. unfold is_byte in Hh.
  assert ((0 <=? fscod h) && (fscod h <=? 3) && (0 <=? Z.shiftr (frmsizecod h) 1) &&
    (Z.shiftr (frmsizecod h) 1 <? 32) &&
    ((fscod h =? 3) || (38 <=? frmsizecod h) ||
     (ac3_frame_bytes h =? Z.shiftl (at_ (nth (Z.to_nat (fscod h)) ac3_frames [])
        (Z.shiftr (frmsizecod h) 1) + (if negb (Z.land (frmsizecod h) 1 =? 0) && (fscod h =? 1)
                                     then 1 else 0)) 1)) = true) as E.
  { apply (forall_range (fun h => (0 <=? fscod h) && (fscod h <=? 3) &&
      (0 <=? Z.shiftr (frmsizecod h) 1) && (Z.shiftr (frmsizecod h) 1 <? 32) &&
      ((fscod h =? 3) || (38 <=? frmsizecod h) ||
       (ac3_frame_bytes h =? Z.shiftl (at_ (nth (Z.to_nat (fscod h)) ac3_frames [])
        (Z.shiftr (frmsizecod h) 1) + (if negb (Z.land (frmsizecod h) 1 =? 0) && (fscod h =? 1)
                                     then 1 else 0)) 1))) 256); [by vm_compute|lia]. }
  rewrite !andb_true_iff, !orb_true_iff in E. destruct E as [[[[E1 E2] E3] E4] E5].
  exists (at_ ac3_bitrates (Z.shiftr (frmsizecod h) 1)), (at_ freq (fscod h)),
    (nth (Z.to_nat (fscod h)) ac3_frames []),
    (at_ (nth (Z.to_nat (fscod h)) ac3_frames []) (Z.shiftr (frmsizecod h) 1)).
  split_and!; try done; try lia.
  - apply rd_ok. change (zlen ac3_bitrates) with 32. lia.
  - apply rd_ok. change (zlen freq) with 4. lia.
  - intros H3. split_and!.
    + assert (fscod h = 0 \/ fscod h = 1 \/ fscod h = 2) as Hcase by lia.
      by destruct Hcase as [->|[->| ->]].
    + assert (fscod h = 0 \/ fscod h = 1 \/ fscod h = 2) as Hcase by lia.
      apply rd_ok. destruct Hcase as [->|[->| ->]]; change (zlen _) with 32; lia.
    + intros H38. destruct E5 as [[?|?]|E5]; [lia..|]. apply Z.eqb_eq in E5. rewrite E5.
      case_if; by rewrite ?Z.add_0_r.
  - by intros ->.
Qed.

(** The AC3 parser finds the first sync word; where a frame header follows
    it fills in bit rate and frame size as the header says (the frame size being
    that of the sampling rate the header names), and the reserved sampling rate
    code is not rejected but indexes the frame table out of its bounds. *)
Theorem ac3info_spec mbuf count ai :
  bytes mbuf -> 0 <= count < zlen mbuf ->
  ((forall i, 0 <= i < count -> ~ sync_at mbuf i) /\
     dvb_filter_get_ac3info mbuf count ai = Ok (-1, ai)) \/
  exists c, 0 <= c < count /\ sync_at mbuf c /\ (forall i, 0 <= i < c -> ~ sync_at mbuf i) /\
    let h := at_ mbuf (c + 4) in
    (count <= c + 5 -> dvb_filter_get_ac3info mbuf count ai = Ok (-1, set_ai_off c ai)) /\
    (c + 5 < count -> fscod h < 3 ->
       exists ai', dvb_filter_get_ac3info mbuf count ai = Ok (0, ai') /\ ai_off ai' = c /\
         ai_bit_rate ai' = at_ ac3_bitrates (Z.shiftr (frmsizecod h) 1) * 1000 /\
         ai_frequency ai' = at_ freq (fscod h) * 100 /\
         (frmsizecod h < 38 -> ai_framesize ai' = ac3_frame_bytes h)) /\
    (c + 5 < count -> fscod h = 3 -> dvb_filter_get_ac3info mbuf count ai = Fault).
Proof.
  intros Hb Hc. unfold dvb_filter_get_ac3info.
  destruct (ac3_sync_spec (Z.to_nat count) mbuf 0 count) as ([c|] & -> & Hspec); [lia..| |].
  2: { left. split; [done|reflexivity]. }
  right. destruct Hspec as (Hk & Hs & Hno). exists c. split_and!; [lia|lia|done|done|..].
  - intros Hle. cbn [res_bind]. by rif.
  - intros Hlt H3. cbn [res_bind]. rif.
    destruct (ac3_header_params (at_ mbuf (c + 4))) as
      (br & fq & row & fs & Hbr & Hfq & Hrow & _ & Eb & Ef & Hr);
      [apply bytes_at; [done|lia]|].
    destruct (Hrow H3) as (Hrow1 & Hfs & Hsz).
    replace (c + 2 + 2) with (c + 4) by lia. rewrite rd_ok by lia. cbn [res_bind].
    fold (frmsizecod (at_ mbuf (c + 4))) (fscod (at_ mbuf (c + 4))).
    rewrite Hbr. cbn [res_bind]. rewrite Hfq. cbn [res_bind]. rewrite Hrow1, Hfs. cbn [res_bind].
    eexists. split; [reflexivity|]. simpl. subst br fq. split_and!; try done.
    intros H38. by rewrite (Hsz H38).
  - intros Hlt H3. cbn [res_bind]. rif.
    destruct (ac3_header_params (at_ mbuf (c + 4))) as
      (br & fq & row & fs & Hbr & Hfq & _ & Hnone & _);
      [apply bytes_at; [done|lia]|].
    replace (c + 2 + 2) with (c + 4) by lia. rewrite rd_ok by lia. cbn [res_bind].
    fold (frmsizecod (at_ mbuf (c + 4))) (fscod (at_ mbuf (c + 4))).
    rewrite Hbr. cbn [res_bind]. rewrite Hfq. cbn [res_bind]. by rewrite (Hnone H3).
Qed.

Definition ac3_none : dvb_audio_info := mk_dvb_audio_info 0 0 0 0 0.

Lemma ac3info_spec_witness :
  exists ai', dvb_filter_get_ac3info [1; 0x0b; 0x77; 1; 2; 0x1e; 0; 0; 0] 8 ac3_none = Ok (0, ai') /\
    ai_off ai' = 1 /\ ai_framesize ai' = 1792.
Proof.
  destruct (ac3info_spec [1; 0x0b; 0x77; 1; 2; 0x1e; 0; 0; 0] 8 ac3_none) as
    [[Hno _]|(c & Hc & Hs & Hno & _ & Hok & _)]; [by apply decide_bytes|by vm_compute| |].
  - destruct (Hno 1); by vm_compute.
  - assert (c = 1) as ->.
    { destruct (decide (c = 0)) as [->|]; [by destruct Hs|].
      destruct (decide (c = 1)) as [|]; [done|]. destruct (Hno 1); [lia|by vm_compute]. }
    destruct Hok as (ai' & Hrun & Hoff & _ & _ & Hsz); [by vm_compute..|].
    exists ai'. split; [done|]. split; [done|]. rewrite Hsz; by vm_compute.
Defined.

(** Code bug: the frequency is looked up in the MPEG audio table [freq]
    instead of [ac3_freq]: a 48 kHz stream is reported as 44.1 kHz and the
    other way round, so frame size and frequency contradict each other. *)
Theorem ac3_frequency_swapped mbuf count ai c :
  bytes mbuf -> count < zlen mbuf -> 0 <= c -> c + 5 < count -> sync_at mbuf c ->
  (forall i, 0 <= i < c -> ~ sync_at mbuf i) ->
  fscod (at_ mbuf (c + 4)) < 2 ->
  exists ai', dvb_filter_get_ac3info mbuf count ai = Ok (0, ai') /\
    ai_frequency ai' <> ac3_hz (fscod (at_ mbuf (c + 4))) /\
    ai_frequency ai' = ac3_hz (1 - fscod (at_ mbuf (c + 4))).
Proof.
  intros Hb Hlen Hc Hc5 Hs Hno H2. unfold dvb_filter_get_ac3info.
  destruct (ac3_sync_spec (Z.to_nat count) mbuf 0 count) as ([k|] & -> & Hspec); [lia..| |].
  2: { destruct (Hspec c); [lia|done]. }
  destruct Hspec as (Hk & Hsk & Hnok).
  assert (k = c) as -> by (destruct (Z.lt_total k c) as [Hx|[Hx|Hx]]; [|done|];
    [destruct (Hno k)|destruct (Hnok c)]; done || lia).
  cbn [res_bind]. rif.
  destruct (ac3_header_params (at_ mbuf (c + 4))) as
    (br & fq & row & fs & Hbr & Hfq & Hrow & _ & Eb & Ef & Hr); [apply bytes_at; [done|lia]|].
  destruct Hrow as (Hrow1 & Hfs & _); [lia|].
  replace (c + 2 + 2) with (c + 4) by lia. rewrite rd_ok by lia. cbn [res_bind].
  fold (frmsizecod (at_ mbuf (c + 4))) (fscod (at_ mbuf (c + 4))).
  rewrite Hbr. cbn [res_bind]. rewrite Hfq. cbn [res_bind]. rewrite Hrow1, Hfs. cbn [res_bind].
  eexists. split; [reflexivity|]. simpl. subst fq.
  assert (fscod (at_ mbuf (c + 4)) = 0 \/ fscod (at_ mbuf (c + 4)) = 1) as [->| ->] by lia; done.
Qed.

Lemma ac3_frequency_swapped_witness :
  exists ai', dvb_filter_get_ac3info [0x0b; 0x77; 1; 2; 0x1e; 0; 0; 0] 7 ac3_none = Ok (0, ai') /\
    ai_frequency ai' <> 48000 /\ ai_frequency ai' = 44100.
Proof.
  apply (ac3_frequency_swapped [0x0b; 0x77; 1; 2; 0x1e; 0; 0; 0] 7 ac3_none 0);
    [by apply decide_bytes|done|lia|lia|done|intros; lia|done].
Defined.
