(* ===== verification/DvbNet.v ===== *)
(** * The network interface (dvb-core/dvb_net.c)

    IP over DVB: an interface is a client of the demultiplexer that filters the
    datagram sections of one PID by MAC address and hands their contents to the
    network stack as ethernet frames.

    The kernel's side of it is state here: the flags, address and multicast list
    of a device, the packets given to [netif_rx] (in order), the work items that
    are pending.  [skb_alloc] says whether [dev_alloc_skb] finds memory.  The
    branches for Linux 2.4 are modelled. *)

From S2P Require Import Prelude Crc32 DemuxState SwFilter SwFrames Feeds.

(** ** Constants and data *)

Definition DVB_NET_MULTICAST_MAX := 10.
Definition DVB_NET_DEVICES_MAX : nat := 10.

Definition RX_MODE_UNI := 0.
Definition RX_MODE_MULTI := 1.
Definition RX_MODE_ALL_MULTI := 2.
Definition RX_MODE_PROMISC := 3.

(** linux/if.h, if_packet.h, if_ether.h *)
Definition IFF_NOARP := 0x80.
Definition IFF_PROMISC := 0x100.
Definition IFF_ALLMULTI := 0x200.
Definition PACKET_HOST := 0.
Definition PACKET_BROADCAST := 1.
Definition PACKET_MULTICAST := 2.
Definition ETH_P_IP := 0x0800.
Definition ETH_P_802_3 := 1.
Definition ETH_P_802_2 := 4.

(** [struct net_device_stats], the counters the driver keeps *)
Record net_device_stats := mk_net_device_stats {
  rx_packets : Z;
  rx_bytes : Z;
  rx_errors : Z;
  rx_dropped : Z;
  rx_length_errors : Z;
  rx_crc_errors : Z;
  rx_frame_errors : Z;
}.
#[export] Instance net_device_stats_eta : Eta net_device_stats := fun r =>
  mk_net_device_stats (rx_packets r) (rx_bytes r) (rx_errors r) (rx_dropped r)
    (rx_length_errors r) (rx_crc_errors r) (rx_frame_errors r).
Definition set_rx_packets := setter! rx_packets.
Definition set_rx_bytes := setter! rx_bytes.
Definition set_rx_errors := setter! rx_errors.
Definition set_rx_dropped := setter! rx_dropped.
Definition set_rx_length_errors := setter! rx_length_errors.
Definition set_rx_crc_errors := setter! rx_crc_errors.
Definition set_rx_frame_errors := setter! rx_frame_errors.

(** [struct dvb_net_priv] *)
Record dvb_net_priv := mk_dvb_net_priv {
  in_use : Z;
  stats : net_device_stats;
  np_pid : Z;
  secfeed : option nat;
  secfilter : option nat;
  multi_num : Z;
  multi_secfilter : list (option nat);   (* 10 *)
  multi_macs : list (list Z);   (* 10 addresses *)
  rx_mode : Z;
  multicast_work : bool;   (* set_multicast_list_wq is pending *)
  restart_work : bool;   (* restart_net_feed_wq is pending *)
}.
#[export] Instance dvb_net_priv_eta : Eta dvb_net_priv := fun r =>
  mk_dvb_net_priv (in_use r) (stats r) (np_pid r) (secfeed r) (secfilter r) (multi_num r)
    (multi_secfilter r) (multi_macs r) (rx_mode r) (multicast_work r) (restart_work r).
Definition set_in_use := setter! in_use.
Definition set_stats := setter! stats.
Definition set_np_pid := setter! np_pid.
Definition set_secfeed := setter! secfeed.
Definition set_secfilter := setter! secfilter.
Definition set_multi_num := setter! multi_num.
Definition set_multi_secfilter := setter! multi_secfilter.
Definition set_multi_macs := setter! multi_macs.
Definition set_rx_mode := setter! rx_mode.
Definition set_multicast_work := setter! multicast_work.
Definition set_restart_work := setter! restart_work.

(** [struct net_device], the members the driver uses *)
Record net_device := mk_net_device {
  nd_priv : option dvb_net_priv;   (* NULL before the interface is added *)
  dev_addr : list Z;
  broadcast : list Z;
  dev_flags : Z;
  mc_list : list (list Z);   (* [mc_count] addresses *)
  netif_running : bool;   (* the kernel has opened it *)
  mtu : Z;
}.
#[export] Instance net_device_eta : Eta net_device := fun r =>
  mk_net_device (nd_priv r) (dev_addr r) (broadcast r) (dev_flags r) (mc_list r)
    (netif_running r) (mtu r).
Definition set_nd_priv := setter! nd_priv.
Definition set_dev_addr := setter! dev_addr.
Definition set_broadcast := setter! broadcast.
Definition set_dev_flags := setter! dev_flags.
Definition set_mc_list := setter! mc_list.
Definition set_netif_running := setter! netif_running.
Definition set_mtu := setter! mtu.

(** A packet handed to the network stack: the ethernet header, the data behind
    it, and what [eth_type_trans] found. *)
Record sk_buff := mk_sk_buff {
  mac_header : list Z;
  skb_data : list Z;
  pkt_type : Z;
  protocol : Z;
}.

(** [struct dvb_net] and the packets it gave to the kernel *)
Record dvb_net := mk_dvb_net {
  device : list net_device;
  if_state : list Z;
  rx_queue : list (nat * sk_buff);   (* handed to netif_rx: interface and packet *)
}.
#[export] Instance dvb_net_eta : Eta dvb_net := fun r =>
  mk_dvb_net (device r) (if_state r) (rx_queue r).
Definition set_device := setter! device.
Definition set_if_state := setter! if_state.
Definition set_rx_queue := setter! rx_queue.

(** ** Reception (73 to 190) *)

(** [eth->h_proto] in the order of the network. *)
Definition h_proto (eth : list Z) : Z := Z.lor (Z.shiftl (at_ eth 12) 8) (at_ eth 13).

Definition dvb_net_eth_type_trans (eth rawp : list Z) (dev : net_device) : res (Z * Z) :=
  let type :=
    if negb (Z.land (at_ eth 0) 1 =? 0) then
      if bool_decide (take 6 eth = broadcast dev) then PACKET_BROADCAST else PACKET_MULTICAST
    else PACKET_HOST in
  if h_proto eth >=? 1536 then Ok (type, h_proto eth) else
  let? b0 := rd rawp 0 in
  let? b1 := rd rawp 1 in
  Ok (type, if (b0 =? 0xff) && (b1 =? 0xff) then ETH_P_802_3 else ETH_P_802_2).

Definition stat_error (g : net_device_stats -> net_device_stats) (st : net_device_stats) :=
  set_rx_errors (u32 (rx_errors st + 1)) (g st).
Definition stat_drop (st : net_device_stats) := set_rx_dropped (u32 (rx_dropped st + 1)) st.

(** Returns the counters and the packet for [netif_rx], if there is one. *)
Definition dvb_net_sec (skb_alloc : Z -> bool) (dev : net_device) (st : net_device_stats)
    (pkt : list Z) (pkt_len : Z) : res (net_device_stats * option sk_buff) :=
  if pkt_len <? 16 then
    Ok (stat_error (fun st => set_rx_length_errors (u32 (rx_length_errors st + 1)) st) st, None) else
  let? b5 := rd pkt 5 in
  if negb (Z.land b5 0xfd =? 0xc1) then
    Ok (stat_error (fun st => set_rx_crc_errors (u32 (rx_crc_errors st + 1)) st) st, None) else
  if negb (Z.land b5 0x02 =? 0) then Ok (stat_drop st, None) else
  let? b7 := rd pkt 7 in
  if negb (b7 =? 0) then
    Ok (stat_error (fun st => set_rx_frame_errors (u32 (rx_frame_errors st + 1)) st) st, None) else
  if negb (skb_alloc (pkt_len - 4 - 12 + 14 + 2)) then Ok (stat_drop st, None) else
  let? data := slice pkt 12 (pkt_len - 12 - 4) in
  let? m1 := rd pkt 0x0b in let? m2 := rd pkt 0x0a in let? m3 := rd pkt 0x09 in
  let? m4 := rd pkt 0x08 in let? m5 := rd pkt 0x04 in let? m6 := rd pkt 0x03 in
  let eth := [m1; m2; m3; m4; m5; m6; 0; 0; 0; 0; 0; 0; 0x08; 0x00] in
  let? t := dvb_net_eth_type_trans eth data dev in
  Ok (set_rx_bytes (u32 (rx_bytes st + zlen data)) (set_rx_packets (u32 (rx_packets st + 1)) st),
      Some (mk_sk_buff eth data t.1 t.2)).

Definition device_at (n : Z) (net : dvb_net) : option net_device :=
  if 0 <=? n then device net !! Z.to_nat n else None.

Definition device_put (n : Z) (dev : net_device) (net : dvb_net) : dvb_net :=
  set_device (<[Z.to_nat n := dev]> (device net)) net.

Definition dvb_net_callback (skb_alloc : Z -> bool) (n : Z) (buffer1 : list Z) (net : dvb_net)
    : res (Z * dvb_net) :=
  match device_at n net with
  | None => Fault
  | Some dev =>
      match nd_priv dev with
      | None => Fault
      | Some priv =>
          let? r := dvb_net_sec skb_alloc dev (stats priv) buffer1 (zlen buffer1) in
          let net := device_put n (set_nd_priv (Some (set_stats r.1 priv)) dev) net in
          Ok (0, match r.2 with
                 | Some skb => set_rx_queue (rx_queue net ++ [(Z.to_nat n, skb)]) net
                 | None => net
                 end)
      end
  end.

(** The number of the interface's callback at the demultiplexer; its private
    pointer is the number of the interface. *)
Definition CB_NET := 2.

Definition dvb_net_client {HW} (skb_alloc : Z -> bool) (C : DemuxClient HW)
    : DemuxClient (dvb_net * HW) := {|
  cb_ts cb priv s w := let? r := cb_ts cb priv s w.2 in Ok (r.1, (w.1, r.2));
  cb_sec cb priv s w :=
    if cb =? CB_NET
    then let? r := dvb_net_callback skb_alloc priv s w.1 in Ok (r.1, (r.2, w.2))
    else let? r := cb_sec cb priv s w.2 in Ok (r.1, (w.1, r.2));
|}.

Definition dvb_net_tx : Z := 0.

(** ** Filters and feed (197 to 341) *)

Definition mask_normal : list Z := [0xff; 0xff; 0xff; 0xff; 0xff; 0xff].
Definition mask_allmulti : list Z := [0xff; 0xff; 0xff; 0x00; 0x00; 0x00].
Definition mac_allmulti : list Z := [0x01; 0x00; 0x5e; 0x00; 0x00; 0x00].
Definition mask_promisc : list Z := [0x00; 0x00; 0x00; 0x00; 0x00; 0x00].

(** Bytes of the section header that hold the address, in a filter array. *)
Definition mac_bytes (b0 : Z) (mac : list Z) : list Z :=
  [b0; 0; 0; at_ mac 5; at_ mac 4; 0; 0; 0; at_ mac 3; at_ mac 2; at_ mac 1; at_ mac 0;
   0; 0; 0; 0; 0; 0].

(** Lines 216 to 236. *)
Definition net_filter_fill (n : Z) (mac mac_mask : list Z) (g : dvb_demux_filter) : dvb_demux_filter :=
  set_sf_priv n (set_filter_value (mac_bytes 0x3e mac)
    (set_filter_mask (mac_bytes 0xff mac_mask) (set_filter_mode (replicate 18 0xff) g))).

Section DvbNet.
Context {HW : Type} {D : DemuxDriver HW}.
Abbreviation MN := (M (DW (W:=dvb_net * HW))).

Definition nget : MN dvb_net := mgets (fun s => s.2.1).
Definition nmod (g : dvb_net -> dvb_net) : MN unit := mmodify (fun s => (s.1, (g s.2.1, s.2.2))).
Definition dev_get (n : Z) : MN net_device :=
  let! net := nget in match device_at n net with Some dev => mret_ dev | None => mfault end.
Definition dev_mod (n : Z) (g : net_device -> net_device) : MN unit :=
  let! dev := dev_get n in nmod (device_put n (g dev)).
Definition priv_get (n : Z) : MN dvb_net_priv :=
  let! dev := dev_get n in match nd_priv dev with Some p => mret_ p | None => mfault end.
Definition priv_mod (n : Z) (g : dvb_net_priv -> dvb_net_priv) : MN unit :=
  let! p := priv_get n in dev_mod n (set_nd_priv (Some (g p))).
(** [priv->secfeed], followed. *)
Definition net_feed (n : Z) : MN nat :=
  let! p := priv_get n in match secfeed p with Some i => mret_ i | None => mfault end.

(** [slot] stores into [*secfilter]. *)
Definition dvb_net_filter_set (n : Z) (slot : option nat -> dvb_net_priv -> dvb_net_priv)
    (mac mac_mask : list Z) : MN Z :=
  priv_mod n (slot None) ;;;
  let! i := net_feed n in
  let! r := dmx_section_feed_allocate_filter i in
  match r.2 with
  | None => mret_ r.1
  | Some j =>
      priv_mod n (slot (Some j)) ;;;
      filter_mod j (net_filter_fill n mac mac_mask) ;;;
      mret_ 0
  end.

Definition multi_slot (i : nat) (v : option nat) (p : dvb_net_priv) : dvb_net_priv :=
  set_multi_secfilter (<[i := v]> (multi_secfilter p)) p.

(** [for (i = k; i < multi_num; i++)]; the arrays have 10 elements. *)
Fixpoint net_multi_filters (todo : nat) (k : nat) (n : Z) : MN unit :=
  match todo with
  | O => mret_ tt
  | S todo =>
      let! p := priv_get n in
      match multi_macs p !! k with
      | None => mfault
      | Some mac =>
          dvb_net_filter_set n (multi_slot k) mac mask_normal ;;;
          net_multi_filters todo (S k) n
      end
  end.

Definition dvb_net_feed_start (n : Z) : MN Z :=
  let! dev := dev_get n in
  priv_mod n (fun p => set_secfeed None (set_secfilter None p)) ;;;
  let! r := dvbdmx_allocate_section_feed CB_NET in
  (match r.2 with Some i => priv_mod n (set_secfeed (Some i)) | None => mret_ tt end) ;;;
  if r.1 <? 0 then mret_ r.1 else
  let! i := net_feed n in
  let! p := priv_get n in
  let! ret := dmx_section_feed_set i (np_pid p) 32768 false true in
  if ret <? 0 then
    dvbdmx_release_section_feed i ;;;
    priv_mod n (set_secfeed None) ;;;
    mret_ ret
  else
  (if negb (rx_mode p =? RX_MODE_PROMISC)
   then dvb_net_filter_set n set_secfilter (dev_addr dev) mask_normal ;;; mret_ tt
   else mret_ tt) ;;;
  (if rx_mode p =? RX_MODE_MULTI then net_multi_filters (Z.to_nat (multi_num p)) 0 n
   else if rx_mode p =? RX_MODE_ALL_MULTI then
     priv_mod n (set_multi_num 1) ;;;
     dvb_net_filter_set n (multi_slot 0) mac_allmulti mask_allmulti ;;; mret_ tt
   else if rx_mode p =? RX_MODE_PROMISC then
     priv_mod n (set_multi_num 0) ;;;
     dvb_net_filter_set n set_secfilter (dev_addr dev) mask_promisc ;;; mret_ tt
   else mret_ tt) ;;;
  dmx_section_feed_start_filtering i ;;;
  mret_ 0.

Fixpoint net_release_multi (todo : nat) (k : nat) (i : nat) (n : Z) : MN unit :=
  match todo with
  | O => mret_ tt
  | S todo =>
      let! p := priv_get n in
      match multi_secfilter p !! k with
      | None => mfault
      | Some None => net_release_multi todo (S k) i n
      | Some (Some j) =>
          dmx_section_feed_release_filter i j ;;;
          priv_mod n (multi_slot k None) ;;;
          net_release_multi todo (S k) i n
      end
  end.

Definition dvb_net_feed_stop (n : Z) : MN unit :=
  let! p := priv_get n in
  match secfeed p with
  | None => mret_ tt
  | Some i =>
      let! f := feed_get i in
      (if is_filtering f then dmx_section_feed_stop_filtering i ;;; mret_ tt else mret_ tt) ;;;
      (match secfilter p with
       | Some j =>
           dmx_section_feed_release_filter i j ;;;
           priv_mod n (set_secfilter None)
       | None => mret_ tt
       end) ;;;
      net_release_multi (Z.to_nat (multi_num p)) 0 i n ;;;
      dvbdmx_release_section_feed i ;;;
      priv_mod n (set_secfeed None)
  end.

(** ** Receive mode, work items (344 to 431) *)

Definition dvb_set_mc_filter (mc : list Z) (p : dvb_net_priv) : Z * dvb_net_priv :=
  if multi_num p =? DVB_NET_MULTICAST_MAX then (- ENOMEM, p) else
  (0, set_multi_num (multi_num p + 1)
        (set_multi_macs (<[Z.to_nat (multi_num p) := mc]> (multi_macs p)) p)).

Definition wq_set_multicast_list (n : Z) : MN unit :=
  dvb_net_feed_stop n ;;;
  priv_mod n (set_rx_mode RX_MODE_UNI) ;;;
  let! dev := dev_get n in
  (if negb (Z.land (dev_flags dev) IFF_PROMISC =? 0) then priv_mod n (set_rx_mode RX_MODE_PROMISC)
   else if negb (Z.land (dev_flags dev) IFF_ALLMULTI =? 0)
        then priv_mod n (set_rx_mode RX_MODE_ALL_MULTI)
   else match mc_list dev with
        | [] => mret_ tt
        | mcs => priv_mod n (fun p =>
            fold_left (fun p mc => (dvb_set_mc_filter mc p).2) mcs
              (set_multi_num 0 (set_rx_mode RX_MODE_MULTI p)))
        end) ;;;
  dvb_net_feed_start n ;;;
  mret_ tt.

Definition dvb_net_set_multicast_list (n : Z) : MN unit := priv_mod n (set_multicast_work true).

Definition dvb_net_set_config (n : Z) : MN Z :=
  let! dev := dev_get n in mret_ (if netif_running dev then - EBUSY else 0).

Definition wq_restart_net_feed (n : Z) : MN unit :=
  let! dev := dev_get n in
  if netif_running dev then
    dvb_net_feed_stop n ;;;
    dvb_net_feed_start n ;;;
    mret_ tt
  else mret_ tt.

Definition dvb_net_set_mac (n : Z) (sa_data : list Z) : MN Z :=
  dev_mod n (set_dev_addr (take 6 sa_data)) ;;;
  let! dev := dev_get n in
  (if netif_running dev then priv_mod n (set_restart_work true) else mret_ tt) ;;;
  mret_ 0.

(** The kernel's worker runs what is pending for an interface. *)
Definition run_work (n : Z) : MN unit :=
  let! dev := dev_get n in
  match nd_priv dev with
  | None => mret_ tt
  | Some p =>
      (if multicast_work p
       then priv_mod n (set_multicast_work false) ;;; wq_set_multicast_list n else mret_ tt) ;;;
      (if restart_work p
       then priv_mod n (set_restart_work false) ;;; wq_restart_net_feed n else mret_ tt)
  end.

Fixpoint flush_scheduled_work (todo : nat) (n : Z) : MN unit :=
  match todo with
  | O => mret_ tt
  | S todo => run_work n ;;; flush_scheduled_work todo (n + 1)
  end.

(** ** Opening and closing, adding and removing (434 to 723) *)

Definition dvb_net_open (n : Z) : MN Z :=
  priv_mod n (fun p => set_in_use (in_use p + 1) p) ;;;
  dvb_net_feed_start n ;;;
  mret_ 0.

Definition dvb_net_stop (n : Z) : MN Z :=
  priv_mod n (fun p => set_in_use (in_use p - 1) p) ;;;
  dvb_net_feed_stop n ;;;
  mret_ 0.

Definition dvb_net_get_stats (n : Z) : MN net_device_stats :=
  let! p := priv_get n in mret_ (stats p).

(** With what [ether_setup] sets. *)
Definition dvb_net_init_dev (dev : net_device) : net_device :=
  set_broadcast (replicate 6 0xff) (set_mtu 4096 (set_mc_list []
    (set_dev_flags (Z.lor (dev_flags dev) IFF_NOARP) dev))).

Fixpoint free_if (l : list Z) (i : nat) : option nat :=
  match l with
  | [] => None
  | s :: l => if s =? 0 then Some i else free_if l (S i)
  end.

Definition get_if : MN Z :=
  let! net := nget in
  match free_if (if_state net) 0 with
  | None => mret_ (-1)
  | Some i => nmod (set_if_state (<[i := 1]> (if_state net))) ;;; mret_ (Z.of_nat i)
  end.

Definition fresh_stats : net_device_stats := mk_net_device_stats 0 0 0 0 0 0 0.
Definition fresh_priv (pid : Z) : dvb_net_priv :=
  mk_dvb_net_priv 0 fresh_stats pid None None 0 (replicate 10 None)
    (replicate 10 (replicate 6 0)) RX_MODE_UNI false false.

(** [kmalloc] finds memory; [reg] is what [register_netdev] returns, after it
    has called [net->init]. *)
Definition dvb_net_add_if (pid : Z) (proposed_mac : list Z) (kmalloc : bool) (reg : Z) : MN Z :=
  let! if_num := get_if in
  if if_num <? 0 then mret_ (- EINVAL) else
  dev_mod if_num (fun _ => mk_net_device None (take 6 proposed_mac) [] 0 [] false 0) ;;;
  if negb kmalloc then mret_ (- ENOMEM) else
  dev_mod if_num (set_nd_priv (Some (fresh_priv pid))) ;;;
  dev_mod if_num dvb_net_init_dev ;;;
  mret_ (if reg <? 0 then reg else if_num).

(** [num] comes from user space and is not checked: the arrays are indexed
    with it first. *)
Definition dvb_net_remove_if (num : Z) : MN Z :=
  let! dev := dev_get num in
  let! net := nget in
  if at_ (if_state net) num =? 0 then mret_ (- EINVAL) else
  let! p := priv_get num in
  if negb (in_use p =? 0) then mret_ (- EBUSY) else
  dvb_net_stop num ;;;
  flush_scheduled_work DVB_NET_DEVICES_MAX 0 ;;;
  dev_mod num (set_nd_priv None) ;;;
  nmod (fun net => set_if_state (<[Z.to_nat num := 0]> (if_state net)) net) ;;;
  mret_ 0.

Inductive net_cmd :=
| NET_ADD_IF (pid : Z)
| NET_GET_IF (if_num : Z)
| NET_REMOVE_IF (num : Z)
| OtherNetCmd.

(** Returns the code and what is written to the caller's structure: the number
    of the new interface, or the PID of the one asked for. *)
Definition dvb_net_do_ioctl (rdonly capable : bool) (proposed_mac : list Z) (kmalloc : bool)
    (reg : Z) (cmd : net_cmd) : MN (Z * option Z) :=
  if rdonly then mret_ (- EPERM, None) else
  match cmd with
  | NET_ADD_IF pid =>
      if negb capable then mret_ (- EPERM, None) else
      let! r := dvb_net_add_if pid proposed_mac kmalloc reg in
      if r <? 0 then mret_ (r, None) else mret_ (0, Some r)
  | NET_GET_IF if_num =>
      let! net := nget in
      if (if_num >=? Z.of_nat DVB_NET_DEVICES_MAX) || (at_ (if_state net) if_num =? 0)
      then mret_ (- EFAULT, None) else
      let! p := priv_get if_num in mret_ (0, Some (np_pid p))
  | NET_REMOVE_IF num =>
      if negb capable then mret_ (- EPERM, None) else
      let! r := dvb_net_remove_if num in mret_ (r, None)
  | OtherNetCmd => mret_ (- EINVAL, None)
  end.

Fixpoint net_remove_all (todo : nat) (n : Z) : MN unit :=
  match todo with
  | O => mret_ tt
  | S todo =>
      let! net := nget in
      (if at_ (if_state net) n =? 0 then mret_ tt else dvb_net_remove_if n ;;; mret_ tt) ;;;
      net_remove_all todo (n + 1)
  end.

Definition dvb_net_release : MN unit := net_remove_all DVB_NET_DEVICES_MAX 0.

Definition dvb_net_init : MN Z :=
  nmod (set_if_state (replicate DVB_NET_DEVICES_MAX 0)) ;;; mret_ 0.
End DvbNet.

