(* ===== verification/DvbNetSpec.v ===== *)
(** * What the network interface receives (dvb-core/dvb_net.c, 111 to 245)

    The datagram section format, written down from the sender's side: the
    interface delivers exactly the datagrams sent to its address. *)

From S2P Require Import Prelude Crc32 DemuxState SwFilter SectionFilter Sample SwFrames Feeds FeedsInv FilterSpec DvbNet.

(** A datagram section (table 0x3e) for the address [mac]; the last four bytes
    are the checksum the demultiplexer has verified. *)
Definition mpe_section (mac ip crc : list Z) : list Z :=
  let len := 9 + zlen ip + 4 in
  [0x3e; 0xb0 + len / 256; len mod 256; at_ mac 5; at_ mac 4; 0xc1; 0; 0;
   at_ mac 3; at_ mac 2; at_ mac 1; at_ mac 0] ++ ip ++ crc.

(** The frame the network stack gets. *)
Definition ip_frame (dev : net_device) (mac ip : list Z) : sk_buff :=
  mk_sk_buff (take 6 mac ++ replicate 6 0 ++ [0x08; 0x00]) ip
    (if Z.land (at_ mac 0) 1 =? 0 then PACKET_HOST
     else if bool_decide (take 6 mac = broadcast dev) then PACKET_BROADCAST else PACKET_MULTICAST)
    ETH_P_IP.

Definition counted (ip : list Z) (st : net_device_stats) : net_device_stats :=
  set_rx_bytes (u32 (rx_bytes st + zlen ip)) (set_rx_packets (u32 (rx_packets st + 1)) st).

Lemma mpe_section_zlen mac ip crc : zlen crc = 4 -> zlen (mpe_section mac ip crc) = 16 + zlen ip.
Proof. intros Hc. unfold mpe_section. cbv zeta. rewrite !zlen_app, Hc, !zlen_cons, zlen_nil. lia. Qed.

Lemma take6 mac : length mac = 6%nat ->
  take 6 mac = [at_ mac 0; at_ mac 1; at_ mac 2; at_ mac 3; at_ mac 4; at_ mac 5].
Proof. intros H. do 7 (destruct mac as [|? mac]; try done). Qed.

Lemma net_sec_mpe alloc dev st mac ip crc :
  length mac = 6%nat -> zlen crc = 4 -> alloc (16 + zlen ip) = true ->
  dvb_net_sec alloc dev st (mpe_section mac ip crc) (zlen (mpe_section mac ip crc)) =
    Ok (counted ip st, Some (ip_frame dev mac ip)).
Proof.
  intros Hm Hc Ha. pose proof (zlen_nonneg ip). rewrite mpe_section_zlen by done.
  set (s := mpe_section mac ip crc).
  assert (forall i, 0 <= i < 12 -> rd s i = Ok (at_ s i)) as Hrd.
  { intros i Hi. apply rd_ok. unfold s. rewrite mpe_section_zlen by done. lia. }
  assert (slice s 12 (zlen ip) = Ok ip) as Hs.
  { apply (slice_prefix s 12 ip crc); [done|]. unfold s. rewrite mpe_section_zlen by done. lia. }
  unfold dvb_net_sec. rif. rewrite !Hrd by lia. change (at_ s 5) with 0xc1.
  change (at_ s 7) with 0. cbn [res_bind].
  change (negb (Z.land 193 253 =? 193)) with false. change (negb (Z.land 193 2 =? 0)) with false.
  change (negb (0 =? 0)) with false. cbv iota.
  replace (16 + zlen ip - 4 - 12 + 14 + 2) with (16 + zlen ip) by lia. rewrite Ha. cbn [negb].
  replace (16 + zlen ip - 12 - 4) with (zlen ip) by lia. rewrite Hs. cbn [res_bind].
  change (at_ s 11) with (at_ mac 0). change (at_ s 10) with (at_ mac 1).
  change (at_ s 9) with (at_ mac 2). change (at_ s 8) with (at_ mac 3).
  change (at_ s 4) with (at_ mac 4). change (at_ s 3) with (at_ mac 5).
  unfold dvb_net_eth_type_trans, ip_frame. rewrite (take6 mac Hm). simpl take.
  change (h_proto _) with 0x800. change (at_ (at_ mac 0 :: _) 0) with (at_ mac 0).
  change (2048 >=? 1536) with true. cbv iota. cbn [res_bind fst snd]. unfold counted.
  do 4 f_equal. by destruct (Z.land (at_ mac 0) 1 =? 0).
Qed.

(** ** The filter of an address *)

(** A filter whose mask selects whole bytes, all of which must agree. *)
Lemma selects_bytes f buf :
  filter_mode f = replicate 18 0xff -> bytes (take 18 (filter_value f)) -> bytes (take 18 buf) ->
  (18 <= length buf)%nat -> (18 <= length (filter_value f))%nat ->
  (forall i, (i < 18)%nat -> at_ (filter_mask f) (Z.of_nat i) = 0 \/
                             at_ (filter_mask f) (Z.of_nat i) = 0xff) ->
  selects f buf <-> forall i, (i < 18)%nat -> at_ (filter_mask f) (Z.of_nat i) = 0xff ->
    at_ buf (Z.of_nat i) = at_ (filter_value f) (Z.of_nat i).
Proof.
  intros Hmode Hv Hb Hlb Hlv Hm.
  assert (forall i b, filter_bit i b -> bit (filter_mode f) i b = true) as Hmo.
  { intros i b [Hi Hb2]. unfold bit. rewrite Hmode. unfold at_. rewrite Nat2Z.id.
    rewrite nth_lookup, lookup_replicate_2 by done. by apply ff_bit_true. }
  assert (forall l i, bytes (take 18 l) -> (18 <= length l)%nat -> (i < 18)%nat ->
    is_byte (at_ l (Z.of_nat i))) as Hbyte.
  { intros l i Hl Hlen Hi. rewrite <- (at_take l 18) by lia. apply bytes_at; [exact Hl|zl]. }
  unfold selects. split.
  - intros [Heq _] i Hi Hmi. apply byte_eq_bits; [by apply Hbyte..|]. intros n Hn.
    apply (Heq i n); [done| |by apply Hmo]. unfold bit. rewrite Hmi. by apply ff_bit_true.
  - intros Heq. split.
    + intros i b [Hi Hb2] Hbit _. unfold bit in *. destruct (Hm i Hi) as [E|E].
      * rewrite E, Z.bits_0 in Hbit. done.
      * by rewrite (Heq i Hi E).
    + intros (i & b & Hib & _ & Hf). rewrite Hmo in Hf by done. done.
Qed.

(** Bytes of a datagram section where its address is. *)
Lemma net_filter_selects n mac g buf :
  length mac = 6%nat -> bytes mac -> bytes (take 18 buf) -> (18 <= length buf)%nat ->
  selects (net_filter_fill n mac mask_normal g) buf <->
  at_ buf 0 = 0x3e /\ [at_ buf 11; at_ buf 10; at_ buf 9; at_ buf 8; at_ buf 4; at_ buf 3] = mac.
Proof.
  intros Hm Hbm Hb Hl. rewrite selects_bytes; [|done| |done|done|simpl; lia|].
  - do 7 (destruct mac as [|? mac]; try done). split.
    + intros Heq.
      pose proof (Heq 0%nat ltac:(lia) eq_refl) as H0. pose proof (Heq 11%nat ltac:(lia) eq_refl) as H11.
      pose proof (Heq 10%nat ltac:(lia) eq_refl) as H10. pose proof (Heq 9%nat ltac:(lia) eq_refl) as H9.
      pose proof (Heq 8%nat ltac:(lia) eq_refl) as H8. pose proof (Heq 4%nat ltac:(lia) eq_refl) as H4.
      pose proof (Heq 3%nat ltac:(lia) eq_refl) as H3.
      split; [exact H0|]. repeat (f_equal; [assumption|]). by f_equal.
    + intros [H0 [= H11 H10 H9 H8 H4 H3]] i Hi Hmask.
      do 18 (destruct i as [|i]; [first [done|by vm_compute in Hmask]|]). lia.
  - simpl. do 7 (destruct mac as [|? mac]; try done).
    repeat (apply Forall_cons_1 in Hbm as [? Hbm]).
    repeat (apply Forall_cons_2; [first [assumption|unfold is_byte; lia]|]). constructor.
  - intros i Hi. do 18 (destruct i as [|i]; [by (left + right)|]). lia.
Qed.

(** ** Reception end to end *)

(** Interface [n] and its driver data. *)
Definition interface (n : Z) (net : dvb_net) (dev : net_device) (p : dvb_net_priv) : Prop :=
  device_at n net = Some dev /\ nd_priv dev = Some p.

Definition received (n : Z) (dev : net_device) (p : dvb_net_priv) (mac ip : list Z) (net : dvb_net)
    : dvb_net :=
  let net := device_put n (set_nd_priv (Some (set_stats (counted ip (stats p)) p)) dev) net in
  set_rx_queue (rx_queue net ++ [(Z.to_nat n, ip_frame dev mac ip)]) net.

Lemma mpe_section_mac mac ip crc :
  length mac = 6%nat ->
  [at_ (mpe_section mac ip crc) 11; at_ (mpe_section mac ip crc) 10; at_ (mpe_section mac ip crc) 9;
   at_ (mpe_section mac ip crc) 8; at_ (mpe_section mac ip crc) 4; at_ (mpe_section mac ip crc) 3]
  = mac.
Proof. intros Hm. do 7 (destruct mac as [|? mac]; try done). Qed.

Section Reception.
Context {HW : Type} (C : DemuxClient HW) (skb_alloc : Z -> bool).
#[local] Instance net_client_instance : DemuxClient (dvb_net * HW) := dvb_net_client skb_alloc C.

(** an interface receives exactly what is sent to its address: when the
    demultiplexer has assembled a datagram section for the address [mac'], the
    filter an interface with address [mac] installs passes it to the interface
    if and only if the two are equal; the interface then hands the network
    stack one ethernet frame for [mac] with the datagram as its contents,
    counts it, and nothing else changes. *)
Theorem net_receives_own_datagrams n net dev p mac mac' ip crc g feed hw :
  interface n net dev p -> length mac = 6%nat -> length mac' = 6%nat -> bytes mac -> bytes mac' ->
  bytes ip -> bytes crc -> zlen crc = 4 -> 2 <= zlen ip <= 4080 -> skb_alloc (16 + zlen ip) = true ->
  fd_cb feed = CB_NET -> slice (secbuf feed) 0 (seclen feed) = Ok (mpe_section mac' ip crc) ->
  dvb_dmx_swfilter_sectionfilter (prepare_filter (net_filter_fill n mac mask_normal g))
    (feed, (net, hw)) =
  Ok (0, (feed, (if bool_decide (mac = mac') then received n dev p mac' ip net else net, hw))).
Proof using.
  intros [Hdev Hp] Hm Hm' Hbm Hbm' Hbi Hbc Hc Hip Ha Hcb Hs.
  pose proof (slice_at _ _ _ _ 0 Hs) as _. pose proof (slice_zlen _ _ _ _ Hs) as Hz.
  rewrite mpe_section_zlen in Hz by done.
  assert (forall i, 0 <= i < 18 -> at_ (secbuf feed) i = at_ (mpe_section mac' ip crc) i) as Hat.
  { intros i Hi. rewrite (slice_at _ _ _ _ i Hs) by lia. done. }
  apply slice_inv in Hs as Hs'. destruct Hs' as (_ & _ & Hlen & Heq).
  rewrite Z.add_0_l in Hlen.
  assert (bytes (take 18 (secbuf feed))) as Hb18.
  { assert (take 18 (secbuf feed) = take 18 (mpe_section mac' ip crc)) as ->.
    { rewrite Heq, drop_0, take_take. f_equal. lia. }
    apply bytes_take. unfold mpe_section. cbv zeta. apply bytes_app. split; [|by apply bytes_app].
    assert (forall i, 0 <= i < 6 -> is_byte (at_ mac' i)) as Hma
      by (intros i Hi; apply bytes_at; [done|zl]).
    assert (0 <= (9 + zlen ip + 4) / 256 < 16) by
      (split; [apply Z.div_pos; lia|apply Z.div_lt_upper_bound; lia]).
    assert (0 <= (9 + zlen ip + 4) mod 256 < 256) by (apply Z.mod_pos_bound; lia).
    repeat (apply Forall_cons_2; [first [apply Hma; lia|unfold is_byte; lia]|]). constructor. }
  assert (18 <= length (secbuf feed))%nat as Hl18 by zl.
  destruct (sectionfilter_selects (net_filter_fill n mac mask_normal g) feed _ (net, hw) Hs) as [Hsel Hnot].
  pose proof (net_filter_selects n mac g (secbuf feed) Hm Hbm Hb18 Hl18) as Hiff.
  rewrite !Hat, mpe_section_mac in Hiff by (done || lia).
  case_bool_decide as Hmm.
  - subst mac'. rewrite Hsel by (apply Hiff; done). rewrite Hcb. simpl.
    unfold dvb_net_callback. rewrite Hdev, Hp.
    rewrite net_sec_mpe by done. done.
  - apply Hnot. rewrite Hiff. intros [_ E]. congruence.
Qed.
End Reception.

(** ** Samples *)

Definition sample_mac : list Z := [0x00; 0xd0; 0x5c; 0x1e; 0x96; 0x01].
Definition sample_dev : net_device :=
  dvb_net_init_dev (mk_net_device (Some (fresh_priv 0x100)) sample_mac [] 0 [] true 0).
Definition sample_net : dvb_net :=
  mk_dvb_net (sample_dev :: replicate 9 (mk_net_device None [] [] 0 [] false 0))
    (1 :: replicate 9 0) [].

Definition sample_ip : list Z := [0x45; 0; 0; 4].
Definition mpe_feed (mac : list Z) : dvb_demux_feed :=
  set_fd_cb CB_NET (set_secbuf (mpe_section mac sample_ip [1; 2; 3; 4] ++ replicate 4076 0)
    (set_secbufp 20 (set_seclen 20 sample_feed))).

Lemma net_receives_own_datagrams_witness :
  let run mac' := dvb_dmx_swfilter_sectionfilter (C := dvb_net_client (fun _ => true) log_client)
    (prepare_filter (net_filter_fill 0 sample_mac mask_normal version_filter))
    (mpe_feed mac', (sample_net, [])) in
  run sample_mac = Ok (0, (mpe_feed sample_mac,
    (received 0 sample_dev (fresh_priv 0x100) sample_mac sample_ip sample_net, []))) /\
  run (replicate 6 0xff) = Ok (0, (mpe_feed (replicate 6 0xff), (sample_net, []))).
Proof.
  split.
  - apply (net_receives_own_datagrams log_client (fun _ => true) 0 sample_net sample_dev
      (fresh_priv 0x100) sample_mac sample_mac sample_ip [1; 2; 3; 4]);
      try done; try by apply decide_bytes.
  - apply (net_receives_own_datagrams log_client (fun _ => true) 0 sample_net sample_dev
      (fresh_priv 0x100) sample_mac (replicate 6 0xff) sample_ip [1; 2; 3; 4]);
      try done; try by apply decide_bytes.
Defined.

(** Code bug: the interface number of [NET_REMOVE_IF] is used as an index
    before anything is checked: with any number that is not one of the ten
    interfaces a privileged caller makes the kernel access memory outside the
    device array. *)
Theorem net_remove_if_unchecked {HW} {D : DemuxDriver HW} mac kmalloc reg num
    (s : DW (W := dvb_net * HW)) :
  length (device s.2.1) = DVB_NET_DEVICES_MAX -> ~ (0 <= num < 10) ->
  dvb_net_do_ioctl false true mac kmalloc reg (NET_REMOVE_IF num) s = Fault.
Proof.
  intros Hl Hn. unfold dvb_net_do_ioctl, dvb_net_remove_if, dev_get, nget. cbn [negb]. mrun.
  unfold device_at. destruct (Z.leb_spec 0 num); [|done].
  rewrite lookup_ge_None_2; [done|]. rewrite Hl. change DVB_NET_DEVICES_MAX with 10%nat. lia.
Qed.

Lemma net_remove_if_unchecked_witness :
  dvb_net_do_ioctl false true sample_mac true 0 (NET_REMOVE_IF 10)
    (empty_demux, (sample_net, ([] : log))) = Fault.
Proof. apply net_remove_if_unchecked; [done|lia]. Defined.

(** The interface is opened, its multicast list changes, and it is closed before
    the kernel's worker has run. *)
Definition closed_with_work : M (DW (W := dvb_net * log)) unit :=
  dvb_net_open 0 ;;;
  dvb_net_set_multicast_list 0 ;;;
  dev_mod 0 (set_netif_running false) ;;;
  dvb_net_stop 0 ;;;
  mret_ tt.

(** Code bug: [wq_set_multicast_list] does not check whether the interface
    is still open (as [wq_restart_net_feed] does): a work item that runs after
    the interface was closed starts its feed again, and the callback goes on
    receiving for a closed interface. *)
Theorem multicast_work_reopens_feed :
  exists s1 s2 f,
    closed_with_work (empty_demux, (sample_net, [])) = Ok (tt, s1) /\
    feeds s1.1 !! 0%nat = Some f /\ is_filtering f = false /\
    flush_scheduled_work 10 0 s1 = Ok (tt, s2) /\
    (exists dev p, device_at 0 s2.2.1 = Some dev /\ netif_running dev = false /\
       nd_priv dev = Some p /\ in_use p = 0 /\ secfeed p = Some 0%nat) /\
    (exists f', feeds s2.1 !! 0%nat = Some f' /\ is_filtering f' = true).
Proof.
  eexists _, _, _. split; [vm_compute; reflexivity|]. split; [reflexivity|]. split; [reflexivity|].
  split; [vm_compute; reflexivity|]. split; [by eexists _, _|by eexists].
Qed.
