(* ===== verification/AviaFilter.v ===== *)
(** * Translation of section filters for the demultiplexer's microcode
    (avia/avia_gt_ucode.c)

    The microcode of the demultiplexer compares eight bytes of a section (the
    table id and the seven bytes after the length) with up to 16 entries of a
    parameter table.  [prop_ucode_alloc_section_filter] turns the filters of a
    feed into such entries, merges entries that overlap, and looks for room in
    the table.  This file holds the pure part of that function, up to the table
    entries; [AviaUcode] has the tables, [AviaFilterSpec] the theorems.

    The C arrays [mask], [value], [mode], [in_use], ... indexed by filter are
    one list of records here. *)

From S2P Require Import Prelude DemuxState.

Definition MAX_SECTION_FILTERS : nat := 16.

(** One column of the local arrays. *)
Record hwfilter := mk_hwfilter {
  hw_mask : list Z;
  hw_value : list Z;
  hw_mode : list Z;
  hw_in_use : Z;          (* last byte with a masked bit, -1: entry not used *)
  hw_ver_not : bool;
  hw_not_value : Z;
  hw_not_mask : Z;
  hw_unchanged : bool;
}.
#[export] Instance hwfilter_eta : Eta hwfilter := fun r =>
  mk_hwfilter (hw_mask r) (hw_value r) (hw_mode r) (hw_in_use r) (hw_ver_not r) (hw_not_value r)
    (hw_not_mask r) (hw_unchanged r).
Definition set_hw_mask := setter! hw_mask.
Definition set_hw_value := setter! hw_value.
Definition set_hw_in_use := setter! hw_in_use.
Definition set_hw_unchanged := setter! hw_unchanged.

(** Which byte of a section the [i]-th byte of an entry is compared with. *)
Definition hw_byte (i : Z) : Z := if i =? 0 then 0 else i + 2.

Definition hw_bytes (g : Z -> Z) : list Z := map g (seqZ 0 8).

(** [in_use] after a loop over [ks] that remembers the last byte with a masked
    bit. *)
Definition last_masked (mask : list Z) (ks : list Z) (init : Z) : Z :=
  fold_left (fun u k => if at_ mask k =? 0 then u else k) ks init.

(** [junk] is what the array elements hold that nothing has been stored to.  It
    is the same for all columns: such elements are only compared with each
    other, and the outcome matters only for columns that both test the version
    byte, which have been stored to. *)
Definition normalize (junk : hwfilter) (f : dvb_demux_filter) : hwfilter :=
  let mask := hw_bytes (fun i => at_ (filter_mask f) (hw_byte i)) in
  let value := hw_bytes (fun i => Z.land (at_ (filter_value f) (hw_byte i))
                                         (at_ (filter_mask f) (hw_byte i))) in
  let mode := hw_bytes (fun i => u8 (Z.lor (at_ (filter_mode f) (hw_byte i))
                                           (Z.lnot (at_ (filter_mask f) (hw_byte i))))) in
  let ver_not := negb (at_ mode 3 =? 0xff) && (Z.land (at_ mode 3) (at_ mask 3) =? 0) in
  mk_hwfilter mask value mode
    (last_masked mask (seqZ 1 7) (if at_ mask 0 =? 0 then -1 else 0))
    ver_not
    (if ver_not then at_ value 3 else hw_not_value junk)
    (if ver_not then at_ mask 3 else hw_not_mask junk)
    true.

(** The copying loop; [n] is [MAX_SECTION_FILTERS - anz_filters].  [None]: the
    function returns 0, the feed is filtered in software. *)
Fixpoint normalize_chain (junk : hwfilter) (n : nat) (chain : list dvb_demux_filter)
    : option (list hwfilter) :=
  match chain, n with
  | [], _ => Some []
  | _ :: _, O => None
  | f :: chain, S n =>
      let h := normalize junk f in
      if hw_in_use h =? -1 then None
      else match normalize_chain junk n chain with Some l => Some (h :: l) | None => None end
  end.

(** The arrays of [MAX_SECTION_FILTERS] columns. *)
Definition unused (junk : hwfilter) : hwfilter := set_hw_in_use (-1) junk.
Definition pad (junk : hwfilter) (l : list hwfilter) : list hwfilter :=
  l ++ replicate (MAX_SECTION_FILTERS - length l) (unused junk).

Record hw_program := mk_hw_program {
  hp_filters : list hwfilter;
  hp_anz : Z;                  (* [anz_filters] *)
  hp_and_or : Z;
  hp_not_first : Z;
  hp_not_second : Z;
}.

(** ** One filter in the feed *)

Definition neg_byte (h : hwfilter) (i : Z) : bool := negb (at_ (hw_mode h) i =? 0xff).
Definition count_bytes (p : Z -> bool) : Z :=
  fold_left (fun n i => if p i then n + 1 else n) (seqZ 0 8) 0.
Definition anz_not (h : hwfilter) : Z := count_bytes (neg_byte h).
Definition anz_mixed (h : hwfilter) : Z :=
  count_bytes (fun i => neg_byte h i && negb (Z.land (at_ (hw_mode h) i) (at_ (hw_mask h) i) =? 0)).
Definition anz_normal (h : hwfilter) : Z :=
  count_bytes (fun i => negb (neg_byte h i) && negb (at_ (hw_mask h) i =? 0)).

(** The bits that must be equal, and those of which one must differ. *)
Definition positive_part (h : hwfilter) : hwfilter :=
  let mask := hw_bytes (fun i => Z.land (at_ (hw_mask h) i) (at_ (hw_mode h) i)) in
  set_hw_mask mask (set_hw_value (hw_bytes (fun i => Z.land (at_ (hw_value h) i) (at_ mask i))) h).

Definition negative_part (junk h : hwfilter) : hwfilter :=
  mk_hwfilter (hw_bytes (fun i => u8 (Z.lnot (at_ (hw_mode h) i))))
    (hw_bytes (fun i => Z.land (at_ (hw_value h) i) (Z.lnot (at_ (hw_mode h) i))))
    (hw_mode junk) (hw_in_use h) false (hw_not_value junk) (hw_not_mask junk) true.

Definition single_filter (junk h : hwfilter) : hw_program :=
  if (anz_not h =? 1) && (anz_mixed h =? 0) && neg_byte h 3 then
    mk_hw_program (pad junk [h]) 1 0 0 0
  else if (anz_not h >? 0) && (anz_normal h >? 0) then
    mk_hw_program (pad junk [positive_part h; negative_part junk h]) 2 0 0 1
  else if anz_not h >? 0 then
    mk_hw_program (pad junk [h]) 1 0 1 0
  else mk_hw_program (pad junk [h]) 1 0 0 0.

(** ** More than one filter *)

(** The bits that must differ cannot be checked and are dropped. *)
Fixpoint drop_negative (l : list hwfilter) : option (list hwfilter) :=
  match l with
  | [] => Some []
  | h :: l =>
      let h := positive_part h in
      let u := last_masked (hw_mask h) (seqZ 0 8) (-1) in
      if u =? -1 then None
      else match drop_negative l with Some l => Some (set_hw_in_use u h :: l) | None => None end
  end.

Definition hweight8 (z : Z) : Z :=
  fold_left (fun n b => if Z.testbit z b then n + 1 else n) (seqZ 0 8) 0.

(** The first loop over [k]; [None]: [goto next_check]. *)
Fixpoint diff_scan (ks : list Z) (hi hj : hwfilter) (bit_index xor : Z) : option (Z * Z) :=
  match ks with
  | [] => Some (bit_index, xor)
  | k :: ks =>
      if (at_ (hw_mask hi) k =? at_ (hw_mask hj) k) &&
         negb (at_ (hw_value hi) k =? at_ (hw_value hj) k) then
        if negb (bit_index =? -1) then None else
        let xor := Z.lxor (at_ (hw_value hi) k) (at_ (hw_value hj) k) in
        if hweight8 xor =? 1 then diff_scan ks hi hj k xor else None
      else None
  end.

Definition setZ (l : list Z) (i x : Z) : list Z := <[Z.to_nat i := x]> l.

(** The version bytes of the two filters were not the same. *)
Definition ver_differs (hi hj : hwfilter) : bool :=
  negb (hw_not_value hi =? hw_not_value hj) || negb (hw_not_mask hi =? hw_not_mask hj) ||
  negb (Bool.eqb (hw_ver_not hi) (hw_ver_not hj)).
Definition note_unchanged (hi hj : hwfilter) (h : hwfilter) : hwfilter :=
  if ver_differs hi hj then set_hw_unchanged false h else h.

(** Zeros from byte [n] on. *)
Definition cut (n : Z) (l : list Z) : list Z :=
  hw_bytes (fun k => if k <? n then at_ l k else 0).

(** The filters differ in one bit of one byte: that bit is dropped from the
    mask.  [None]: return 0. *)
Definition merge_diff (hi hj : hwfilter) (compare_len bit_index xor : Z) : option hwfilter :=
  let h :=
    if negb (bit_index =? -1) then
      let mask := setZ (hw_mask hi) bit_index (u8 (at_ (hw_mask hi) bit_index - xor)) in
      let value := setZ (hw_value hi) bit_index
                     (Z.land (at_ (hw_value hi) bit_index) (at_ mask bit_index)) in
      let u := if bit_index =? hw_in_use hi
               then last_masked mask (seqZ 0 compare_len) (-1) else compare_len - 1 in
      set_hw_in_use u (set_hw_value value (set_hw_mask mask hi))
    else set_hw_in_use (compare_len - 1) hi in
  if hw_in_use h =? -1 then None else
  let h := note_unchanged hi hj h in
  Some (set_hw_mask (cut compare_len (hw_mask h)) (set_hw_value (cut compare_len (hw_value h)) h)).

(** One mask is part of the other and the values agree on it, in every byte:
    the common part of the masks is enough. *)
Definition temp_mask (hi hj : hwfilter) (k : Z) : Z :=
  Z.land (at_ (hw_mask hi) k) (at_ (hw_mask hj) k).
Definition overlap_byte (hi hj : hwfilter) (k : Z) : bool :=
  let m := temp_mask hi hj k in
  ((m =? at_ (hw_mask hi) k) || (m =? at_ (hw_mask hj) k)) &&
  (Z.land (at_ (hw_value hi) k) m =? Z.land (at_ (hw_value hj) k) m).

Definition new_mask (hi hj : hwfilter) (compare_len : Z) : list Z :=
  hw_bytes (fun k => if k <? compare_len then temp_mask hi hj k else 0).
Definition new_value (hi hj : hwfilter) (compare_len : Z) : list Z :=
  hw_bytes (fun k => if k <? compare_len
                     then Z.land (at_ (hw_value hi) k) (temp_mask hi hj k) else 0).

Definition merge_overlap (hi hj : hwfilter) (compare_len : Z) : option hwfilter :=
  if forallb (overlap_byte hi hj) (seqZ 0 compare_len) then
    let h := set_hw_mask (new_mask hi hj compare_len)
               (set_hw_value (new_value hi hj compare_len) hi) in
    Some (set_hw_in_use (compare_len - 1) (note_unchanged hi hj h))
  else None.

(** What the pair [i], [j] of filters becomes.  [Some None]: nothing is
    merged, [Some (Some h)]: [j] goes, [i] becomes [h]; [None]: return 0. *)
Definition merge_pair (hi hj : hwfilter) : option (option hwfilter) :=
  let compare_len := if hw_in_use hi <? hw_in_use hj then hw_in_use hi + 1 else hw_in_use hj + 1 in
  match diff_scan (seqZ 0 compare_len) hi hj (-1) 0 with
  | Some (bit_index, xor) =>
      match merge_diff hi hj compare_len bit_index xor with
      | None => None
      | Some h => Some (Some h)
      end
  | None => Some (merge_overlap hi hj compare_len)
  end.

Definition hw_get (l : list hwfilter) (i : nat) (junk : hwfilter) : hwfilter := nth i l (unused junk).

(** The loop over [j]; the state is the arrays and [anz_filters]. *)
Fixpoint merge_js (junk : hwfilter) (js : list nat) (i : nat) (l : list hwfilter) (anz : Z)
    : option (list hwfilter * Z) :=
  match js with
  | [] => Some (l, anz)
  | j :: js =>
      if negb (anz >? 1) then Some (l, anz) else
      let hj := hw_get l j junk in
      if hw_in_use hj =? -1 then merge_js junk js i l anz else
      match merge_pair (hw_get l i junk) hj with
      | None => None
      | Some None => merge_js junk js i l anz
      | Some (Some h) =>
          merge_js junk js i (<[j := set_hw_in_use (-1) hj]> (<[i := h]> l)) (anz - 1)
      end
  end.

(** The loop over [i]. *)
Fixpoint merge_is (junk : hwfilter) (ids : list nat) (l : list hwfilter) (anz : Z)
    : option (list hwfilter * Z) :=
  match ids with
  | [] => Some (l, anz)
  | i :: ids =>
      if negb (anz >? 1) then Some (l, anz) else
      if hw_in_use (hw_get l i junk) =? -1 then merge_is junk ids l anz else
      match merge_js junk (seq (S i) (MAX_SECTION_FILTERS - S i)) i l anz with
      | None => None
      | Some (l, anz) => merge_is junk ids l anz
      end
  end.

(** [while (anz_filters != old_anz_filters)]: passes until one merges nothing. *)
Fixpoint merge_passes (fuel : nat) (junk : hwfilter) (l : list hwfilter) (anz : Z)
    : res (option (list hwfilter * Z)) :=
  match fuel with
  | O => Diverge
  | S fuel =>
      match merge_is junk (seq 0 (MAX_SECTION_FILTERS - 1)) l anz with
      | None => Ok None
      | Some (l', anz') => if anz' =? anz then Ok (Some (l', anz')) else merge_passes fuel junk l' anz'
      end
  end.

Definition several_filters (junk : hwfilter) (l : list hwfilter) : res (option hw_program) :=
  match drop_negative l with
  | None => Ok None
  | Some l =>
      let? r := merge_passes (S (length l)) junk (pad junk l) (zlen l) in
      Ok (match r with
          | None => None
          | Some (l, anz) => Some (mk_hw_program l anz 1 0 0)
          end)
  end.

(** The whole translation; [Ok None]: return 0. *)
Definition hw_translate (junk : hwfilter) (chain : list dvb_demux_filter) : res (option hw_program) :=
  match chain with
  | [] => Ok None
  | _ =>
      match normalize_chain junk MAX_SECTION_FILTERS chain with
      | None => Ok None
      | Some [h] => Ok (Some (single_filter junk h))
      | Some l => several_filters junk l
      end
  end.

(** ** The table entries *)

Record sFilter_Parameter_Entry1 := mk_fpe1 {
  mask_0 : Z; param_0 : Z; mask_1 : Z; param_1 : Z; mask_2 : Z; param_2 : Z;
}.
Record sFilter_Parameter_Entry2 := mk_fpe2 {
  mask_3 : Z; param_3 : Z; mask_4 : Z; param_4 : Z; mask_5 : Z; param_5 : Z;
}.
Record sFilter_Parameter_Entry3 := mk_fpe3 {
  mask_6 : Z; param_6 : Z; mask_7 : Z; param_7 : Z; not_flag : Z; not_flag_ver_id_byte : Z;
}.
Definition fpe : Type := sFilter_Parameter_Entry1 * sFilter_Parameter_Entry2 * sFilter_Parameter_Entry3.

Definition fpe_of (h : hwfilter) (not : Z) : fpe :=
  let m := at_ (hw_mask h) in
  let v := at_ (hw_value h) in
  let ver := hw_unchanged h && hw_ver_not h in
  (mk_fpe1 (m 0) (v 0) (m 1) (v 1) (m 2) (v 2),
   mk_fpe2 (if ver then hw_not_mask h else m 3) (if ver then hw_not_value h else v 3)
     (m 4) (v 4) (m 5) (v 5),
   mk_fpe3 (m 6) (v 6) (m 7) (v 7) not (c_bool ver)).

(** The loop over [i] and [j]: the entries of the filters in use.  The loop
    ends with [anz_filters] entries; running off the arrays is a fault. *)
Fixpoint fill_entries (l : list hwfilter) (n : nat) (nots : list Z) : res (list fpe) :=
  match n, l with
  | O, _ => Ok []
  | S _, [] => Fault
  | S n', h :: l =>
      if hw_in_use h =? -1 then fill_entries l n nots
      else let? r := fill_entries l n' (tail nots) in Ok (fpe_of h (hd 0 nots) :: r)
  end.

Definition hw_entries (p : hw_program) : res (list fpe) :=
  fill_entries (hp_filters p) (Z.to_nat (hp_anz p)) [hp_not_first p; hp_not_second p].
