(* ===== verification/AviaFilterSpec.v ===== *)
(** * The translated filters let every wanted section pass
    (avia/avia_gt_ucode.c)

    What a table entry means to the microcode, which filters the translation
    treats correctly, and that for those no section that a filter of the feed
    selects is dropped by the hardware: the software filters behind it see every
    section they would select.  At the end, filters for which sections are
    lost. *)

From S2P Require Import Prelude DemuxState SwFilter SectionFilter Sample Feeds FilterSpec AviaFilter.

(** ** Bits of bytes *)

Lemma hw_bytes_at g i : 0 <= i < 8 -> at_ (hw_bytes g) i = g i.
Proof.
  intros Hi. unfold hw_bytes, at_. rewrite nth_lookup, list_lookup_fmap.
  rewrite lookup_seqZ_lt by lia. simpl. f_equal. lia.
Qed.

Lemma at_byte l i : bytes l -> is_byte (at_ l i).
Proof.
  intros Hl. unfold at_. destruct (nth_in_or_default (Z.to_nat i) l 0) as [Hin| ->].
  - unfold bytes in Hl. rewrite List.Forall_forall in Hl. auto.
  - unfold is_byte. lia.
Qed.

(** Two bytes agree under a mask. *)
Lemma land_byte x m : is_byte m -> is_byte (Z.land x m).
Proof.
  intros Hm. rewrite Z.land_comm. rewrite <- (u8_id m Hm). unfold u8.
  rewrite <- Z.land_ones, <- Z.land_assoc, (Z.land_comm (Z.ones 8)), Z.land_assoc, Z.land_ones by lia.
  apply Z.mod_pos_bound. lia.
Qed.
#[local] Hint Resolve land_byte : core.

Lemma land_eq_bits x m v :
  is_byte m -> is_byte v ->
  Z.land x m = v <->
  forall b, (b < 8)%nat ->
    Z.testbit x (Z.of_nat b) && Z.testbit m (Z.of_nat b) = Z.testbit v (Z.of_nat b).
Proof.
  intros Hm Hv. split.
  - intros <- b _. by rewrite Z.land_spec.
  - intros H. apply byte_eq_bits; [auto..|]. intros b Hb. rewrite Z.land_spec. auto.
Qed.

Lemma land_masked x m v :
  is_byte m ->
  Z.land x m = Z.land v m <->
  forall b, (b < 8)%nat -> Z.testbit m (Z.of_nat b) = true ->
    Z.testbit x (Z.of_nat b) = Z.testbit v (Z.of_nat b).
Proof.
  intros Hm. rewrite land_eq_bits by auto. split; intros H b Hb; specialize (H b Hb);
    rewrite Z.land_spec in *; destruct (Z.testbit m _); rewrite ?andb_true_r, ?andb_false_r in *; auto;
    discriminate.
Qed.

(** A smaller mask keeps agreement. *)
Lemma land_weaken x m v m' :
  Z.land m' m = m' -> Z.land x m = v -> Z.land x m' = Z.land v m'.
Proof. intros Hm <-. by rewrite <- Z.land_assoc, (Z.land_comm m), Hm. Qed.

(** ** What an entry means *)

Definition byte_agrees (s : list Z) (i m p : Z) : bool := Z.land (at_ s (hw_byte i)) m =? p.

(** The entry agrees with the section under its masks, except that with
    [not_flag_ver_id_byte] the version byte must differ; [not_flag] negates the
    whole. *)
Definition entry_passes (e : fpe) (s : list Z) : bool :=
  let '(e1, e2, e3) := e in
  xorb (negb (not_flag e3 =? 0))
    (byte_agrees s 0 (mask_0 e1) (param_0 e1) && byte_agrees s 1 (mask_1 e1) (param_1 e1) &&
     byte_agrees s 2 (mask_2 e1) (param_2 e1) &&
     xorb (negb (not_flag_ver_id_byte e3 =? 0)) (byte_agrees s 3 (mask_3 e2) (param_3 e2)) &&
     byte_agrees s 4 (mask_4 e2) (param_4 e2) && byte_agrees s 5 (mask_5 e2) (param_5 e2) &&
     byte_agrees s 6 (mask_6 e3) (param_6 e3) && byte_agrees s 7 (mask_7 e3) (param_7 e3)).

(** [and_or_flag] 0: all entries must pass, 1: one is enough. *)
Definition entries_pass (and_or : Z) (es : list fpe) (s : list Z) : bool :=
  if and_or =? 0 then forallb (fun e => entry_passes e s) es
  else existsb (fun e => entry_passes e s) es.

(** ** The arrays *)

Definition hw_ok (h : hwfilter) : Prop :=
  zlen (hw_mask h) = 8 /\ zlen (hw_value h) = 8 /\
  forall i, 0 <= i < 8 -> is_byte (at_ (hw_mask h) i) /\
    Z.land (at_ (hw_value h) i) (at_ (hw_mask h) i) = at_ (hw_value h) i.

(** The bytes of [h] agree with the section. *)
Definition agrees (h : hwfilter) (s : list Z) : Prop :=
  forall i, 0 <= i < 8 -> Z.land (at_ s (hw_byte i)) (at_ (hw_mask h) i) = at_ (hw_value h) i.

(** The version byte differs, where the entry asks for that. *)
Definition version_differs (h : hwfilter) (s : list Z) : Prop :=
  hw_ver_not h = true -> Z.land (at_ s (hw_byte 3)) (hw_not_mask h) <> hw_not_value h.

(** The entry of [h] passes a section that agrees with [h], the version byte
    excepted if the entry tests it for a difference. *)
Lemma entry_of_passes h s :
  (forall i, 0 <= i < 8 -> i <> 3 \/ hw_unchanged h && hw_ver_not h = false ->
     Z.land (at_ s (hw_byte i)) (at_ (hw_mask h) i) = at_ (hw_value h) i) ->
  version_differs h s -> entry_passes (fpe_of h 0) s = true.
Proof.
  intros Ha Hv. unfold fpe_of, entry_passes. cbn -[at_ byte_agrees].
  assert (forall i, 0 <= i < 8 -> i <> 3 \/ hw_unchanged h && hw_ver_not h = false ->
    byte_agrees s i (at_ (hw_mask h) i) (at_ (hw_value h) i) = true) as Hb.
  { intros i Hi Hc. by apply Z.eqb_eq, Ha. }
  rewrite (Hb 0), (Hb 1), (Hb 2), (Hb 4), (Hb 5), (Hb 6), (Hb 7) by lia.
  destruct (hw_unchanged h && hw_ver_not h) eqn:E; cbn -[at_ byte_agrees].
  - apply andb_true_iff in E as [_ E]. specialize (Hv E). unfold byte_agrees.
    apply Z.eqb_neq in Hv. by rewrite Hv.
  - rewrite Hb; [done|lia|by right].
Qed.

(** A negated entry without a version test passes what does not agree. *)
Lemma entry_of_rejects h s :
  hw_ver_not h = false -> ~ agrees h s -> entry_passes (fpe_of h 1) s = true.
Proof.
  intros Hn Ha. unfold fpe_of, entry_passes. rewrite Hn, andb_false_r. cbn -[at_ byte_agrees].
  apply negb_true_iff, not_true_iff_false. intros H. apply Ha.
  split_bools. unfold byte_agrees in *. intros i Hi.
  assert (i = 0 \/ i = 1 \/ i = 2 \/ i = 3 \/ i = 4 \/ i = 5 \/ i = 6 \/ i = 7) as Hc by lia.
  repeat destruct Hc as [->|Hc]; try subst i; by apply Z.eqb_eq.
Qed.

(** ** Merging two filters *)

(** [h'] lets every section pass that [h] lets pass. *)
Definition weaker (h' h : hwfilter) : Prop :=
  forall i, 0 <= i < 8 ->
    Z.land (at_ (hw_mask h') i) (at_ (hw_mask h) i) = at_ (hw_mask h') i /\
    at_ (hw_value h') i = Z.land (at_ (hw_value h) i) (at_ (hw_mask h') i).

Lemma weaker_agrees h' h s : weaker h' h -> agrees h s -> agrees h' s.
Proof.
  intros Hw Ha i Hi. destruct (Hw i Hi) as [Hm ->]. by eapply land_weaken; [|apply Ha].
Qed.

Definition same_version (h' h : hwfilter) : Prop :=
  hw_ver_not h' = hw_ver_not h /\ hw_not_value h' = hw_not_value h /\ hw_not_mask h' = hw_not_mask h.

Definition in_use_ok (h : hwfilter) : Prop := 0 <= hw_in_use h < 8.

(** What one merge keeps. *)
Definition merged (h hi hj : hwfilter) : Prop :=
  hw_ok h /\ in_use_ok h /\ weaker h hi /\ weaker h hj /\ same_version h hi.

Lemma note_unchanged_fields hi hj h :
  hw_mask (note_unchanged hi hj h) = hw_mask h /\ hw_value (note_unchanged hi hj h) = hw_value h /\
  hw_in_use (note_unchanged hi hj h) = hw_in_use h /\ same_version (note_unchanged hi hj h) h.
Proof. unfold note_unchanged, same_version. by case_if. Qed.

Lemma setZ_at l i x k :
  0 <= i < zlen l -> 0 <= k -> at_ (setZ l i x) k = if k =? i then x else at_ l k.
Proof.
  intros Hi Hk. unfold setZ, at_. rewrite !nth_lookup. destruct (Z.eqb_spec k i) as [->|].
  - by rewrite list_lookup_insert_eq by zl.
  - by rewrite list_lookup_insert_ne by lia.
Qed.

Lemma last_masked_range mask ks u :
  (forall k, In k ks -> 0 <= k < 8) -> -1 <= u < 8 -> -1 <= last_masked mask ks u < 8.
Proof.
  unfold last_masked. revert u. induction ks as [|k ks IH]; intros u Hks Hu; simpl; [done|].
  apply IH; [intros; apply Hks; by right|]. pose proof (Hks k (or_introl eq_refl)).
  case_if; lia.
Qed.

Lemma in_seqZ k a n : In k (seqZ a n) <-> a <= k < a + n.
Proof. rewrite <- list_elem_of_In. apply elem_of_seqZ. Qed.

(** The merged entry, byte by byte. *)
Definition merged_byte (h hi hj : hwfilter) (i : Z) : Prop :=
  let m := at_ (hw_mask h) i in
  is_byte m /\ Z.land m (at_ (hw_mask hi) i) = m /\ Z.land m (at_ (hw_mask hj) i) = m /\
  at_ (hw_value h) i = Z.land (at_ (hw_value hi) i) m /\
  at_ (hw_value h) i = Z.land (at_ (hw_value hj) i) m.

Lemma merged_intro h hi hj :
  zlen (hw_mask h) = 8 -> zlen (hw_value h) = 8 -> in_use_ok h -> same_version h hi ->
  (forall i, 0 <= i < 8 -> merged_byte h hi hj i) -> merged h hi hj.
Proof.
  intros Hlm Hlv Hu Hs Hb. split; [|split; [done|split; [|split; [|done]]]].
  - split; [done|split; [done|]]. intros i Hi. destruct (Hb i Hi) as (? & ? & ? & -> & _). split; [done|].
    by rewrite <- Z.land_assoc, Z.land_diag.
  - intros i Hi. by destruct (Hb i Hi) as (? & ? & ? & ? & _).
  - intros i Hi. by destruct (Hb i Hi) as (? & ? & ? & _ & ?).
Qed.

Lemma merge_overlap_merged hi hj cl h :
  hw_ok hi -> 0 < cl <= 8 -> merge_overlap hi hj cl = Some h -> merged h hi hj.
Proof.
  intros Hi Hcl H. unfold merge_overlap in H. case_if_in H; [|done]. injection H as <-.
  rewrite forallb_forall in Ec. setoid_rewrite in_seqZ in Ec.
  destruct (note_unchanged_fields hi hj (set_hw_mask (new_mask hi hj cl)
    (set_hw_value (new_value hi hj cl) hi))) as (Hm & Hv & _ & Hs).
  apply merged_intro; [by cbn; rewrite Hm|by cbn; rewrite Hv|unfold in_use_ok; cbn; lia|exact Hs|].
  intros k Hk. assert (forall g, at_ (hw_bytes g) k = g k) as Hat by (intros; by apply hw_bytes_at).
  unfold merged_byte. cbn [hw_mask hw_value set_hw_in_use set_hw_mask set_hw_value] in *.
  rewrite Hm, Hv. unfold new_mask, new_value. rewrite !Hat. destruct (Z.ltb_spec k cl).
  - specialize (Ec k ltac:(lia)). apply andb_true_iff in Ec as [_ Ec]. apply Z.eqb_eq in Ec.
    unfold temp_mask in *. split_and!; [rewrite Z.land_comm; apply land_byte; by apply Hi|..|done|exact Ec].
    + by rewrite Z.land_comm, Z.land_assoc, Z.land_diag.
    + by rewrite <- Z.land_assoc, Z.land_diag.
  - rewrite !Z.land_0_r. unfold is_byte. split_and!; done || lia.
Qed.

(** The scan for one different bit gets to its end only for one byte. *)
Lemma diff_scan_one cl hi hj d x :
  0 < cl -> diff_scan (seqZ 0 cl) hi hj (-1) 0 = Some (d, x) ->
  cl = 1 /\ d = 0 /\ at_ (hw_mask hi) 0 = at_ (hw_mask hj) 0 /\
  x = Z.lxor (at_ (hw_value hi) 0) (at_ (hw_value hj) 0).
Proof.
  intros Hcl H. rewrite seqZ_cons in H by lia. simpl in H. case_if_in H; [|done]. split_bools.
  case_if_in H; [|done]. destruct (Z.eqb_spec cl 1) as [->|].
  - simpl in H. injection H as <- <-. split_and!; lia || done.
  - rewrite seqZ_cons in H by lia. simpl in H. by case_if_in H.
Qed.

Lemma sub_bits m x : Z.land x m = x -> m - x = Z.land m (Z.lnot x).
Proof.
  intros Hx. rewrite Z.sub_nocarry_ldiff; [apply Z.ldiff_land|].
  apply Z.bits_inj'. intros n Hn. rewrite Z.ldiff_spec, Z.bits_0. rewrite <- Hx, Z.land_spec.
  destruct (Z.testbit x n), (Z.testbit m n); done.
Qed.

Lemma merge_diff_merged hi hj h :
  hw_ok hi -> hw_ok hj -> at_ (hw_mask hi) 0 = at_ (hw_mask hj) 0 ->
  merge_diff hi hj 1 0 (Z.lxor (at_ (hw_value hi) 0) (at_ (hw_value hj) 0)) = Some h ->
  merged h hi hj.
Proof.
  intros (Hl1 & Hl2 & Hi) (_ & _ & Hj) Hm H. unfold merge_diff in H. cbn [Z.eqb Z.opp negb] in H.
  destruct (Hi 0 ltac:(lia)) as [Hb Hvi]. destruct (Hj 0 ltac:(lia)) as [_ Hvj].
  rewrite <- Hm in Hvj.
  set (m := at_ (hw_mask hi) 0) in *. set (vi := at_ (hw_value hi) 0) in *.
  set (vj := at_ (hw_value hj) 0) in *. set (x := Z.lxor vi vj) in *.
  assert (Z.land x m = x) as Hx.
  { subst x. rewrite <- Hvi, <- Hvj at 2. apply Z.bits_inj'. intros n _.
    rewrite !Z.land_spec, !Z.lxor_spec, !Z.land_spec.
    by destruct (Z.testbit vi n), (Z.testbit vj n), (Z.testbit m n). }
  assert (u8 (m - x) = Z.land m (Z.lnot x)) as Hm'.
  { rewrite sub_bits by done. apply u8_id. rewrite Z.land_comm. by apply land_byte. }
  rewrite Hm' in H. set (m' := Z.land m (Z.lnot x)) in *.
  rewrite setZ_at in H by lia. cbn [Z.eqb] in H.
  match type of H with context [note_unchanged hi hj ?y] =>
    destruct (note_unchanged_fields hi hj y) as (Em & Ev & Eu & Es); set (h1 := y) in * end.
  case_if_in H; [done|]. injection H as <-.
  apply merged_intro; [done|done|..].
  - unfold in_use_ok. cbn [hw_in_use set_hw_mask set_hw_value]. rewrite Eu.
    assert (-1 <= hw_in_use h1 < 8); [|lia]. subst h1. cbn [hw_in_use set_hw_in_use].
    case_if; [|lia]. apply last_masked_range; [|lia]. intros k Hk%in_seqZ. lia.
  - exact Es.
  - intros k Hk. unfold merged_byte. cbn [hw_mask hw_value set_hw_mask set_hw_value].
    unfold cut. rewrite !hw_bytes_at, Em, Ev by done. subst h1.
    cbn [hw_mask hw_value set_hw_in_use set_hw_mask set_hw_value].
    destruct (Z.ltb_spec k 1).
    + assert (k = 0) as -> by lia. rewrite !setZ_at by lia. cbn [Z.eqb]. fold m vi vj. rewrite <- Hm.
      split_and!; [subst m'; rewrite Z.land_comm; by apply land_byte|..|done|];
        subst m' x; apply Z.bits_inj'; intros n Hn;
        rewrite ?Z.land_spec, ?Z.lnot_spec, ?Z.lxor_spec by lia;
        by destruct (Z.testbit vi n), (Z.testbit vj n), (Z.testbit m n).
    + rewrite !Z.land_0_r. unfold is_byte. split_and!; done || lia.
Qed.

Lemma merge_pair_merged hi hj h :
  hw_ok hi -> hw_ok hj -> in_use_ok hi -> in_use_ok hj ->
  merge_pair hi hj = Some (Some h) -> merged h hi hj.
Proof.
  intros Hi Hj Hui Huj H. unfold merge_pair, in_use_ok in *.
  set (cl := if _ <? _ then _ else _) in H.
  assert (0 < cl <= 8) as Hcl by (subst cl; case_if; lia).
  destruct (diff_scan _ _ _ _ _) as [[d x]|] eqn:Ed.
  - destruct (diff_scan_one _ _ _ _ _ (proj1 Hcl) Ed) as (E1 & -> & Hm & ->). rewrite E1 in H.
    destruct (merge_diff _ _ _ _ _) eqn:E; [|done]. injection H as <-.
    by apply merge_diff_merged.
  - injection H as H. by apply (merge_overlap_merged hi hj cl).
Qed.

(** ** The loops *)

Definition used (h : hwfilter) : bool := negb (hw_in_use h =? -1).
Definition count_used (l : list hwfilter) : Z := zlen (List.filter used l).

Lemma count_used_app l k : count_used (l ++ k) = count_used l + count_used k.
Proof. unfold count_used. by rewrite List.filter_app, zlen_app. Qed.

Lemma count_used_cons h l : count_used (h :: l) = c_bool (used h) + count_used l.
Proof. unfold count_used. simpl. destruct (used h); [apply zlen_cons|done]. Qed.

Lemma count_used_insert l i h h' :
  l !! i = Some h -> count_used (<[i := h']> l) = count_used l - c_bool (used h) + c_bool (used h').
Proof.
  intros Hi. pose proof (lookup_lt_Some _ _ _ Hi).
  rewrite insert_take_drop by done. rewrite <- (take_drop_middle l i h Hi) at 3.
  rewrite !count_used_app, !count_used_cons. lia.
Qed.

(** Every entry in use is well formed and has the version test [V]; each of
    the sections [P] agrees with one of them; [n] of them are in use. *)
Record merge_inv (P : list Z -> Prop) (V : hwfilter -> Prop) (l : list hwfilter) (n : Z) : Prop := {
  mi_len : length l = MAX_SECTION_FILTERS;
  mi_ok : forall i h, l !! i = Some h -> used h = true -> hw_ok h /\ in_use_ok h /\ V h;
  mi_covers : forall s, P s -> exists i h, l !! i = Some h /\ used h = true /\ agrees h s;
  mi_count : n = count_used l;
}.

Section Merging.
Context (P : list Z -> Prop) (V : hwfilter -> Prop) (junk : hwfilter).
Context (V_same : forall h h', same_version h' h -> V h -> V h').

Lemma in_use_used h : in_use_ok h -> used h = true.
Proof using. unfold in_use_ok, used. intros. destruct (Z.eqb_spec (hw_in_use h) (-1)); [lia|done]. Qed.

Lemma merge_inv_step l n i j hi hj h :
  merge_inv P V l n -> (i < j)%nat -> l !! i = Some hi -> l !! j = Some hj ->
  used hi = true -> used hj = true -> merged h hi hj ->
  merge_inv P V (<[j := set_hw_in_use (-1) hj]> (<[i := h]> l)) (n - 1).
Proof using V_same.
  intros [Hl Hok Hc Hn] Hij Hi Hj Hui Huj (Hmok & Hmu & Hwi & Hwj & Hv).
  pose proof (in_use_used h Hmu) as Huh.
  pose proof (lookup_lt_Some _ _ _ Hi). pose proof (lookup_lt_Some _ _ _ Hj).
  assert (forall k x, <[j := set_hw_in_use (-1) hj]> (<[i := h]> l) !! k = Some x -> used x = true ->
    k = i /\ x = h \/ k <> i /\ k <> j /\ l !! k = Some x) as Hlook.
  { intros k x Hk Hx. destruct (decide (k = j)) as [->|].
    - rewrite list_lookup_insert_eq in Hk by (rewrite length_insert; done). by injection Hk as <-.
    - rewrite list_lookup_insert_ne in Hk by done. destruct (decide (k = i)) as [->|].
      + rewrite list_lookup_insert_eq in Hk by done. injection Hk as <-. by left.
      + rewrite list_lookup_insert_ne in Hk by done. by right. }
  assert (<[j := set_hw_in_use (-1) hj]> (<[i := h]> l) !! i = Some h) as Hat.
  { rewrite list_lookup_insert_ne by lia. by apply list_lookup_insert_eq. }
  split.
  - by rewrite !length_insert.
  - intros k x Hk Hx. destruct (Hlook k x Hk Hx) as [[_ ->]|(_ & _ & Hk')]; [|by eapply Hok].
    split; [done|]. split; [done|]. eapply V_same; [exact Hv|]. by eapply Hok.
  - intros s Hs. destruct (Hc s Hs) as (k & x & Hk & Hx & Ha).
    destruct (decide (k = i)) as [->|Hki].
    { exists i, h. rewrite Hi in Hk. injection Hk as <-.
      split; [done|]. split; [done|]. by apply (weaker_agrees h hi). }
    destruct (decide (k = j)) as [->|Hkj].
    { exists i, h. rewrite Hj in Hk. injection Hk as <-.
      split; [done|]. split; [done|]. by apply (weaker_agrees h hj). }
    exists k, x. split_and!; [|done..]. by rewrite !list_lookup_insert_ne by done.
  - rewrite (count_used_insert _ j hj), (count_used_insert _ i hi) by
      (rewrite ?list_lookup_insert_ne by lia; done).
    rewrite Hui, Huj, Huh. cbn. lia.
Qed.

Lemma hw_get_some l i : (i < length l)%nat -> l !! i = Some (hw_get l i junk).
Proof using.
  intros H. destruct (lookup_lt_is_Some_2 l i H) as [h Hh]. rewrite Hh. f_equal. symmetry.
  by apply nth_lookup_Some.
Qed.

Definition pass_inv (n : Z) (r : option (list hwfilter * Z)) : Prop :=
  match r with
  | None => True
  | Some (l, n') => merge_inv P V l n' /\ n' <= n /\ 1 <= n'
  end.

Lemma merge_js_inv js i l n :
  merge_inv P V l n -> 1 <= n -> (forall j, In j js -> (i < j < MAX_SECTION_FILTERS)%nat) ->
  used (hw_get l i junk) = true -> pass_inv n (merge_js junk js i l n).
Proof using V_same.
  revert l n. induction js as [|j js IH]; intros l n Hinv Hn Hjs Hu; simpl; [split; [done|lia]|].
  destruct (Z.gtb_spec n 1) as [H1|]; cbn [negb]; [|split; [done|lia]].
  pose proof (Hjs j (or_introl eq_refl)) as Hj.
  assert (forall k, In k js -> (i < k < MAX_SECTION_FILTERS)%nat) as Hjs' by (intros; apply Hjs; by right).
  destruct (Z.eqb_spec (hw_in_use (hw_get l j junk)) (-1)) as [Eu|Eu]; [by apply IH|].
  assert (used (hw_get l j junk) = true) as Huj by (by apply negb_true_iff, Z.eqb_neq).
  assert (l !! i = Some (hw_get l i junk)) as Hli by (apply hw_get_some; rewrite (mi_len _ _ _ _ Hinv); lia).
  assert (l !! j = Some (hw_get l j junk)) as Hlj by (apply hw_get_some; rewrite (mi_len _ _ _ _ Hinv); lia).
  destruct (merge_pair _ _) as [[h|]|] eqn:Em; [|by apply IH|done].
  destruct (mi_ok _ _ _ _ Hinv i _ Hli Hu) as (? & ? & _).
  destruct (mi_ok _ _ _ _ Hinv j _ Hlj Huj) as (? & ? & _).
  assert (merged h (hw_get l i junk) (hw_get l j junk)) as Hm by (by apply merge_pair_merged).
  pose proof (merge_inv_step l n i j _ _ h Hinv ltac:(lia) Hli Hlj Hu Huj Hm) as Hinv'.
  assert (pass_inv (n - 1) (merge_js junk js i
    (<[j:=set_hw_in_use (-1) (hw_get l j junk)]> (<[i:=h]> l)) (n - 1))) as Hp.
  { apply IH; [done|lia|done|]. unfold hw_get at 1. rewrite nth_lookup.
    rewrite list_lookup_insert_ne by lia. rewrite list_lookup_insert_eq by (rewrite (mi_len _ _ _ _ Hinv); lia).
    simpl. apply in_use_used. apply Hm. }
  destruct (merge_js _ _ _ _ _) as [[l' n']|]; [|done]. destruct Hp as (? & ? & ?). split; [done|lia].
Qed.

Lemma merge_is_inv ids l n :
  merge_inv P V l n -> 1 <= n -> pass_inv n (merge_is junk ids l n).
Proof using V_same.
  revert l n. induction ids as [|i ids IH]; intros l n Hinv Hn; simpl; [split; [done|lia]|].
  destruct (Z.gtb_spec n 1); cbn [negb]; [|split; [done|lia]].
  destruct (Z.eqb_spec (hw_in_use (hw_get l i junk)) (-1)) as [Eu|Eu]; [by apply IH|].
  pose proof (merge_js_inv (seq (S i) (MAX_SECTION_FILTERS - S i)) i l n Hinv Hn) as Hp.
  assert (pass_inv n (merge_js junk (seq (S i) (MAX_SECTION_FILTERS - S i)) i l n)) as Hp'.
  { apply Hp; [|by apply negb_true_iff, Z.eqb_neq]. intros j Hj%in_seq. lia. }
  clear Hp. unfold MAX_SECTION_FILTERS in Hp' |- *.
  destruct (merge_js _ _ _ _ _) as [[l' n']|]; [|done]. destruct Hp' as (? & ? & ?).
  assert (pass_inv n' (merge_is junk ids l' n')) as Hq by (by apply IH).
  destruct (merge_is _ _ _ _) as [[l2 n2]|]; [|done]. destruct Hq as (? & ? & ?). split; [done|lia].
Qed.

(** Every pass but the last merges something. *)
Lemma merge_passes_inv fuel l n :
  merge_inv P V l n -> 1 <= n -> n < Z.of_nat fuel ->
  exists r, merge_passes fuel junk l n = Ok r /\ pass_inv n r.
Proof using V_same.
  revert l n. induction fuel as [|fuel IH]; intros l n Hinv Hn Hf; [lia|].
  cbn [merge_passes].
  pose proof (merge_is_inv (seq 0 (MAX_SECTION_FILTERS - 1)) l n Hinv Hn) as Hp.
  destruct (merge_is _ _ _ _) as [[l' n']|]; [|by exists None]. destruct Hp as (Hinv' & Hle & H1).
  destruct (Z.eqb_spec n' n).
  - eexists. split; [done|]. split; [done|lia].
  - destruct (IH l' n' Hinv' H1 ltac:(lia)) as (r & Hr & Hq). exists r. split; [done|].
    destruct r as [[l2 n2]|]; [|done]. destruct Hq as (? & ? & ?). split; [done|lia].
Qed.
End Merging.

(** ** The copied filters *)

Definition version_byte : nat := 5.

(** What [prop_ucode_alloc_section_filter] can express: the bits of which one
    must differ are in the compared bytes, and where the version byte has only
    such bits, it has them all. *)
Definition hw_reaches (i : nat) : Prop := exists k, 0 <= k < 8 /\ Z.of_nat i = hw_byte k.

Definition negative_bit (f : dvb_demux_filter) (i b : nat) : Prop :=
  filter_bit i b /\ bit (filter_mask f) i b = true /\ bit (filter_mode f) i b = false.

Definition negates_version (f : dvb_demux_filter) : Prop :=
  (exists b, negative_bit f version_byte b) /\
  forall b, (b < 8)%nat -> bit (filter_mask f) version_byte b = true ->
    bit (filter_mode f) version_byte b = false.

Definition hw_expressible (f : dvb_demux_filter) : Prop :=
  (forall i b, negative_bit f i b -> hw_reaches i) /\
  (negates_version f -> forall i b, negative_bit f i b -> i = version_byte).

(** Bit [b] of byte [k] of an array. *)
Definition hbit (l : list Z) (k : Z) (b : nat) : bool := Z.testbit (at_ l k) (Z.of_nat b).

Section Normal.
Context (junk : hwfilter) (f : dvb_demux_filter) (Hf : bytes (filter_mask f)).
Let h := normalize junk f.

Definition nth_byte (k : Z) : nat := Z.to_nat (hw_byte k).

Lemma nth_byte_Z k : 0 <= k -> Z.of_nat (nth_byte k) = hw_byte k.
Proof using. intros. unfold nth_byte, hw_byte. case_if; lia. Qed.

Lemma nth_byte_bit k b : 0 <= k < 8 -> (b < 8)%nat -> filter_bit (nth_byte k) b.
Proof using. intros. unfold filter_bit, nth_byte, hw_byte. case_if; lia. Qed.

Lemma normal_mask k : 0 <= k < 8 -> at_ (hw_mask h) k = at_ (filter_mask f) (hw_byte k).
Proof using. intros. unfold h, normalize. cbn [hw_mask]. by rewrite hw_bytes_at. Qed.

Lemma normal_value k : 0 <= k < 8 ->
  at_ (hw_value h) k = Z.land (at_ (filter_value f) (hw_byte k)) (at_ (filter_mask f) (hw_byte k)).
Proof using. intros. unfold h, normalize. cbn [hw_value]. by rewrite hw_bytes_at. Qed.

Lemma normal_mode k b : 0 <= k < 8 -> (b < 8)%nat ->
  hbit (hw_mode h) k b = bit (filter_mode f) (nth_byte k) b || negb (bit (filter_mask f) (nth_byte k) b).
Proof using.
  intros Hk Hb. unfold h, normalize, hbit, bit. cbn [hw_mode].
  rewrite hw_bytes_at, u8_testbit, Z.lor_spec, Z.lnot_spec, nth_byte_Z by lia.
  by replace (Z.of_nat b <? 8) with true by lia.
Qed.

Lemma normal_mode_byte k : 0 <= k < 8 -> is_byte (at_ (hw_mode h) k).
Proof using. intros Hk. unfold h, normalize. cbn [hw_mode]. rewrite hw_bytes_at by done. apply u8_byte. Qed.

Lemma normal_ok : hw_ok h.
Proof using Hf.
  split; [done|]. split; [done|]. intros k Hk. rewrite normal_mask, normal_value by done.
  split; [by apply at_byte|]. by rewrite <- Z.land_assoc, Z.land_diag.
Qed.

(** The byte has bits that must differ. *)
Lemma neg_byte_bits k : 0 <= k < 8 ->
  neg_byte h k = true <-> exists b, negative_bit f (nth_byte k) b.
Proof using.
  intros Hk. unfold neg_byte. rewrite negb_true_iff, Z.eqb_neq. split.
  - intros Hn. destruct (existsb (fun b => negb (hbit (hw_mode h) k b)) (seq 0 8)) eqn:E.
    + apply existsb_exists in E as (b & Hb%in_seq & Ht). exists b. rewrite normal_mode in Ht by lia.
      split; [by apply nth_byte_bit; lia|].
      by destruct (bit (filter_mode f) _ _), (bit (filter_mask f) _ _).
    + destruct Hn. apply byte_eq_bits; [by apply normal_mode_byte|unfold is_byte; lia|].
      intros b Hb. rewrite ff_bit_true by done. apply not_false_iff_true. intros Hf'.
      apply not_true_iff_false in E. destruct E. apply existsb_exists. exists b.
      split; [apply in_seq; lia|]. unfold hbit. by rewrite Hf'.
  - intros (b & (Hb & Hm & Hmo)) E. pose proof (normal_mode k b Hk (proj2 Hb)) as Hx.
    unfold hbit in Hx. rewrite E, ff_bit_true in Hx by apply Hb. by rewrite Hm, Hmo in Hx.
Qed.

(** Byte [k] has bits that must agree. *)
Lemma mixed_byte_bits k : 0 <= k < 8 ->
  Z.land (at_ (hw_mode h) k) (at_ (hw_mask h) k) = 0 <->
  forall b, (b < 8)%nat -> bit (filter_mask f) (nth_byte k) b = true ->
    bit (filter_mode f) (nth_byte k) b = false.
Proof using Hf.
  intros Hk. assert (is_byte (at_ (hw_mask h) k)) as Hb by (by apply normal_ok).
  rewrite land_eq_bits by (done || unfold is_byte; lia).
  split; intros H b Hlt; specialize (H b Hlt).
  - intros Hm. rewrite Z.bits_0 in H. fold (hbit (hw_mode h) k b) in H.
    rewrite normal_mode, normal_mask, <- nth_byte_Z in H by lia. unfold bit in *.
    rewrite Hm in H. by destruct (Z.testbit (at_ (filter_mode f) _) _).
  - rewrite Z.bits_0. fold (hbit (hw_mode h) k b).
    rewrite normal_mode, normal_mask, <- nth_byte_Z by lia. unfold bit in *.
    destruct (Z.testbit (at_ (filter_mask f) _) _); [by rewrite H|apply andb_false_r].
Qed.

Lemma ver_not_bits : hw_ver_not h = true <-> negates_version f.
Proof using Hf.
  unfold h at 1, normalize. cbn [hw_ver_not]. rewrite andb_true_iff, Z.eqb_eq.
  pose proof (neg_byte_bits 3 ltac:(lia)) as Hn. pose proof (mixed_byte_bits 3 ltac:(lia)) as Hm.
  unfold neg_byte, h, normalize in Hn, Hm. cbn [hw_mode hw_mask] in Hn, Hm. rewrite Hn, Hm. done.
Qed.
End Normal.

(** ** What a selected section does to the parts of a filter *)

Lemma positive_bytes h k : 0 <= k < 8 ->
  at_ (hw_mask (positive_part h)) k = Z.land (at_ (hw_mask h) k) (at_ (hw_mode h) k) /\
  at_ (hw_value (positive_part h)) k =
    Z.land (at_ (hw_value h) k) (Z.land (at_ (hw_mask h) k) (at_ (hw_mode h) k)).
Proof.
  intros Hk. unfold positive_part. cbn [hw_mask hw_value set_hw_mask set_hw_value].
  by rewrite !hw_bytes_at by done.
Qed.

Lemma positive_ok h : hw_ok h -> hw_ok (positive_part h).
Proof.
  intros (_ & _ & H). split; [done|]. split; [done|]. intros k Hk.
  destruct (positive_bytes h k Hk) as [-> ->]. destruct (H k Hk) as [Hb _]. split.
  - rewrite Z.land_comm. by apply land_byte.
  - by rewrite <- Z.land_assoc, Z.land_diag.
Qed.

Section Selected.
Context (junk : hwfilter) (f : dvb_demux_filter) (s : list Z).
Context (Hf : bytes (filter_mask f)) (He : hw_expressible f) (Hs : selects f s).
Let h := normalize junk f.

Lemma section_bit k b : 0 <= k < 8 ->
  Z.testbit (at_ s (hw_byte k)) (Z.of_nat b) = bit s (nth_byte k) b.
Proof using. intros Hk. unfold bit. by rewrite nth_byte_Z by lia. Qed.

(** The masked bits of byte [k] agree, as far as [g] holds of them. *)
Lemma agree_on k m : 0 <= k < 8 -> is_byte m ->
  Z.land (at_ s (hw_byte k)) m = Z.land (at_ (hw_value h) k) m <->
  forall b, (b < 8)%nat -> Z.testbit m (Z.of_nat b) = true ->
    bit s (nth_byte k) b = Z.testbit (at_ (hw_value h) k) (Z.of_nat b).
Proof using.
  intros Hk Hm. rewrite land_masked by done. setoid_rewrite section_bit; [|done].
  by split; intros H b Hb Ht; rewrite H.
Qed.

Lemma value_bit k b : 0 <= k < 8 -> bit (filter_mask f) (nth_byte k) b = true ->
  Z.testbit (at_ (hw_value h) k) (Z.of_nat b) = bit (filter_value f) (nth_byte k) b.
Proof using.
  intros Hk Hm. unfold h. rewrite normal_value, Z.land_spec by done. unfold bit in *.
  rewrite nth_byte_Z in * by lia. by rewrite Hm, andb_true_r.
Qed.

Lemma mask_bit k b : 0 <= k < 8 ->
  Z.testbit (at_ (hw_mask h) k) (Z.of_nat b) = bit (filter_mask f) (nth_byte k) b.
Proof using. intros Hk. unfold h. rewrite normal_mask by done. unfold bit. by rewrite nth_byte_Z by lia. Qed.

Lemma positive_agrees : agrees (positive_part h) s.
Proof using Hf Hs.
  intros k Hk. destruct (positive_bytes h k Hk) as [-> ->].
  apply agree_on; [done|rewrite Z.land_comm; apply land_byte, (normal_ok junk f Hf), Hk|].
  intros b Hb. rewrite Z.land_spec, mask_bit by done. rewrite andb_true_iff. intros [Hm Hmo].
  rewrite value_bit by done. destruct Hs as [Hpos _]. apply Hpos; [by apply nth_byte_bit|done|].
  fold (hbit (hw_mode h) k b) in Hmo. unfold h in Hmo. rewrite normal_mode, Hm in Hmo by done.
  by rewrite orb_false_r in Hmo.
Qed.

(** A bit that must differ differs, in a byte the entry has. *)
Lemma negative_differs :
  (exists i b, negative_bit f i b) ->
  exists k b, 0 <= k < 8 /\ negative_bit f (nth_byte k) b /\
    bit s (nth_byte k) b <> Z.testbit (at_ (hw_value h) k) (Z.of_nat b).
Proof using He Hs.
  intros Hex. destruct Hs as [_ Hneg]. destruct (Hneg Hex) as (i & b & Hib & Hm & Hmo & Hd).
  destruct He as [Hreach _]. destruct (Hreach i b) as (k & Hk & Ek); [by split|].
  assert (nth_byte k = i) as Ei by (unfold nth_byte; lia).
  exists k, b. rewrite value_bit by (rewrite ?Ei; done). rewrite Ei. by split; [|split].
Qed.

Lemma not_agrees_differs (g : hwfilter) k b :
  0 <= k < 8 -> (b < 8)%nat -> Z.testbit (at_ (hw_mask g) k) (Z.of_nat b) = true ->
  Z.testbit (at_ (hw_value g) k) (Z.of_nat b) = Z.testbit (at_ (hw_value h) k) (Z.of_nat b) ->
  bit s (nth_byte k) b <> Z.testbit (at_ (hw_value h) k) (Z.of_nat b) -> ~ agrees g s.
Proof using.
  intros Hk Hb Hm Hv Hd Ha. apply Hd. specialize (Ha k Hk).
  rewrite <- Hv, <- Ha, Z.land_spec, Hm, andb_true_r. symmetry. by apply section_bit.
Qed.

Lemma selected_version : version_differs h s.
Proof using Hf He Hs.
  intros Hv. pose proof Hv as Hn. apply ver_not_bits in Hn; [|done].
  destruct negative_differs as (k & b & Hk & Hnb & Hd).
  { destruct (proj1 Hn) as [b Hb]. by exists version_byte, b. }
  assert (nth_byte k = version_byte) as E by (by eapply He).
  assert (k = 3) as -> by (unfold nth_byte, version_byte, hw_byte in E; case_if_in E; lia).
  assert (hw_not_mask h = at_ (hw_mask h) 3) as Em.
  { unfold h, normalize in *. cbn [hw_not_mask hw_ver_not hw_mask] in *. by rewrite Hv. }
  assert (hw_not_value h = at_ (hw_value h) 3) as Ev.
  { unfold h, normalize in *. cbn [hw_not_value hw_ver_not hw_value] in *. by rewrite Hv. }
  rewrite Em, Ev. intros Ha. apply Hd.
  rewrite <- Ha, Z.land_spec, mask_bit by done. destruct Hnb as (_ & -> & _).
  rewrite andb_true_r. symmetry. by apply section_bit.
Qed.

Lemma selected_not_agrees : (exists i b, negative_bit f i b) -> ~ agrees h s.
Proof using He Hs.
  intros (k & b & Hk & (Hb & Hm & _) & Hd)%negative_differs.
  apply (not_agrees_differs h k b); [done|apply Hb|by rewrite mask_bit|done|done].
Qed.

Lemma selected_not_negative : (exists i b, negative_bit f i b) -> ~ agrees (negative_part junk h) s.
Proof using He Hs.
  intros (k & b & Hk & (Hb & Hm & Hmo) & Hd)%negative_differs. destruct Hb as [Hi Hb].
  assert (Z.testbit (at_ (hw_mode h) k) (Z.of_nat b) = false) as Hmode.
  { fold (hbit (hw_mode h) k b). unfold h. by rewrite normal_mode, Hm, Hmo by done. }
  apply (not_agrees_differs _ k b); [done|done|..|done]; unfold negative_part;
    cbn [hw_mask hw_value]; rewrite hw_bytes_at by done.
  - rewrite u8_testbit, Z.lnot_spec, Hmode by lia. by replace (Z.of_nat b <? 8) with true by lia.
  - rewrite Z.land_spec, Z.lnot_spec, Hmode by lia. by rewrite andb_true_r.
Qed.
End Selected.

(** ** The cases of the translation *)

Lemma byte_cases k : 0 <= k < 8 ->
  k = 0 \/ k = 1 \/ k = 2 \/ k = 3 \/ k = 4 \/ k = 5 \/ k = 6 \/ k = 7.
Proof. lia. Qed.

Ltac count_cases p :=
  unfold count_bytes; change (seqZ 0 8) with [0; 1; 2; 3; 4; 5; 6; 7]; cbn [fold_left];
  destruct (p 0) eqn:?, (p 1) eqn:?, (p 2) eqn:?, (p 3) eqn:?, (p 4) eqn:?, (p 5) eqn:?,
    (p 6) eqn:?, (p 7) eqn:?.

Lemma count_bytes_zero p k : count_bytes p <= 0 -> 0 <= k < 8 -> p k = false.
Proof.
  intros H Hk. destruct (p k) eqn:E; [|done]. exfalso. revert H. apply Z.lt_nge.
  apply byte_cases in Hk. count_cases p; try lia;
    by (repeat destruct Hk as [->|Hk]; try subst k; congruence).
Qed.

Lemma count_bytes_one p a k :
  count_bytes p = 1 -> 0 <= a < 8 -> p a = true -> 0 <= k < 8 -> k <> a -> p k = false.
Proof.
  intros H Ha Ea Hk Hne. destruct (p k) eqn:E; [|done]. exfalso. revert H.
  apply byte_cases in Hk, Ha. count_cases p; try lia;
    repeat destruct Ha as [->|Ha]; try subst a; try congruence;
    repeat destruct Hk as [->|Hk]; try subst k; congruence.
Qed.

Lemma count_bytes_pos p a : 0 <= a < 8 -> p a = true -> 0 < count_bytes p.
Proof.
  intros Ha E. destruct (Z.ltb_spec 0 (count_bytes p)) as [|H]; [done|].
  by rewrite (count_bytes_zero p a) in E.
Qed.

(** The table entries of arrays whose counter is right. *)
Lemma fill_entries_ok l n nots :
  Z.of_nat n = count_used l ->
  exists es, fill_entries l n nots = Ok es /\ length es = n /\
    (Forall (fun x => x = 0) nots ->
     forall h, h ∈ l -> used h = true -> fpe_of h 0 ∈ es).
Proof.
  revert n nots. induction l as [|h l IH]; intros n nots Hn.
  - destruct n; [|unfold count_used in Hn; simpl in Hn; unfold zlen in Hn; simpl in Hn; lia].
    exists []. split_and!; [done..|]. intros _ h Hh. by apply not_elem_of_nil in Hh.
  - rewrite count_used_cons in Hn. destruct n as [|n].
    + exists []. split_and!; [done..|]. intros _ g Hg Hu. exfalso.
      pose proof (zlen_nonneg (List.filter used l)) as Hz. fold (count_used l) in Hz.
      apply elem_of_cons in Hg as [->|Hg]; [rewrite Hu in Hn; simpl in Hn; lia|].
      apply list_elem_of_split in Hg as (l1 & l2 & ->). rewrite count_used_app, count_used_cons, Hu in Hn.
      pose proof (zlen_nonneg (List.filter used l1)). pose proof (zlen_nonneg (List.filter used l2)).
      unfold count_used in Hn. destruct (used h); simpl in Hn; lia.
    + simpl. unfold used in Hn. destruct (hw_in_use h =? -1) eqn:Eu; simpl in Hn.
      * destruct (IH (S n) nots) as (es & He & Hl & Hin); [lia|]. exists es. split_and!; [done..|].
        intros H0 g Hg Hu. apply elem_of_cons in Hg as [->|Hg]; [|by apply Hin].
        unfold used in Hu. by rewrite Eu in Hu.
      * destruct (IH n (tail nots)) as (es & He & Hl & Hin); [lia|]. rewrite He.
        eexists. split_and!; [done|simpl; lia|]. intros H0 g Hg Hu.
        apply elem_of_cons in Hg as [->|Hg].
        -- destruct H0 as [|x nots -> H0]; apply elem_of_cons; by left.
        -- apply elem_of_cons. right. apply Hin; [|done..]. by destruct H0.
Qed.

Lemma pad_length junk l : (length l <= MAX_SECTION_FILTERS)%nat -> length (pad junk l) = MAX_SECTION_FILTERS.
Proof. intros H. unfold pad. rewrite length_app, length_replicate. lia. Qed.

Lemma pad_lookup junk l i h :
  pad junk l !! i = Some h -> used h = true -> l !! i = Some h.
Proof.
  intros H Hu. unfold pad in H. apply lookup_app_Some in H as [H|[_ H]]; [done|].
  apply lookup_replicate in H as [-> _]. done.
Qed.

Lemma pad_count junk l : Forall (fun h => used h = true) l -> count_used (pad junk l) = zlen l.
Proof.
  intros H. unfold pad. rewrite count_used_app.
  assert (forall n, count_used (replicate n (unused junk)) = 0) as ->.
  { intros n. induction n as [|n IH]; [done|]. simpl. by rewrite count_used_cons, IH. }
  induction H as [|h l Hh H IH]; [done|]. rewrite count_used_cons, Hh, zlen_cons. simpl. lia.
Qed.

Definition anz_ok (n : nat) : Prop := (1 <= n <= MAX_SECTION_FILTERS)%nat.

Section OneFilter.
Context (junk : hwfilter) (f : dvb_demux_filter).
Context (Hf : bytes (filter_mask f)).
Let h := normalize junk f.
Context (Hu : used h = true).

Lemma single_entries :
  exists es, hw_entries (single_filter junk h) = Ok es /\ anz_ok (length es) /\
    hp_anz (single_filter junk h) = zlen es.
Proof using Hu.
  assert (used (positive_part h) = true) as Hup by exact Hu.
  assert (used (negative_part junk h) = true) as Hun by exact Hu.
  unfold single_filter, hw_entries.
  assert (forall n l nots, Forall (fun h => used h = true) l -> zlen l = Z.of_nat n -> anz_ok n ->
    exists es, fill_entries (pad junk l) n nots = Ok es /\ anz_ok (length es) /\
      Z.of_nat n = zlen es) as Hgen.
  { intros n l nots Hl Hz Hn. destruct (fill_entries_ok (pad junk l) n nots) as (es & He & Hes & _).
    - by rewrite pad_count.
    - exists es. unfold zlen. by rewrite Hes. }
  repeat case_if; cbn [hp_filters hp_anz hp_not_first hp_not_second];
    (apply Hgen; [repeat (constructor; [done|]); constructor|done|unfold anz_ok, MAX_SECTION_FILTERS; lia]).
Qed.

(** The entries when the arrays are known. *)
Lemma fill_two a b n1 n2 :
  used a = true -> used b = true ->
  fill_entries (pad junk [a; b]) 2 [n1; n2] = Ok [fpe_of a n1; fpe_of b n2].
Proof using.
  unfold used. intros Ha%negb_true_iff Hb%negb_true_iff. unfold pad. simpl. by rewrite Ha, Hb.
Qed.

Lemma fill_one a n1 n2 : used a = true -> fill_entries (pad junk [a]) 1 [n1; n2] = Ok [fpe_of a n1].
Proof using. unfold used. intros Ha%negb_true_iff. unfold pad. simpl. by rewrite Ha. Qed.

Lemma no_neg_bytes : anz_not h <= 0 -> forall k, 0 <= k < 8 -> neg_byte h k = false.
Proof using. intros H k Hk. by apply count_bytes_zero. Qed.

Section Passes.
Context (s : list Z) (He : hw_expressible f) (Hs : selects f s).

Lemma some_negative : 0 < anz_not h -> exists i b, negative_bit f i b.
Proof using.
  intros H. destruct (existsb (neg_byte h) (seqZ 0 8)) eqn:E.
  - apply existsb_exists in E as (k & Hk%in_seqZ & Hn).
    apply (neg_byte_bits junk) in Hn as [b Hb]; [eauto|lia].
  - exfalso. assert (anz_not h = 0); [|lia]. unfold anz_not, count_bytes.
    apply not_true_iff_false in E. assert (forall k, In k (seqZ 0 8) -> neg_byte h k = false) as Hn.
    { intros k Hk. apply not_true_iff_false. intros Hn. destruct E. apply existsb_exists. eauto. }
    revert Hn. generalize (seqZ 0 8). intros l. induction l as [|k l IH]; intros Hn; [done|].
    simpl. rewrite (Hn k (or_introl eq_refl)). apply IH. intros; apply Hn. by right.
Qed.

(** A byte without bits that must differ agrees. *)
Lemma plain_byte_agrees k : 0 <= k < 8 -> neg_byte h k = false ->
  Z.land (at_ s (hw_byte k)) (at_ (hw_mask h) k) = at_ (hw_value h) k.
Proof using Hf Hs.
  intros Hk Hn. pose proof (positive_agrees junk f s Hf Hs k Hk) as Ha.
  destruct (positive_bytes (normalize junk f) k Hk) as [Em Ev]. fold h in Ha, Em, Ev.
  rewrite Em, Ev in Ha.
  destruct (normal_ok junk f Hf) as (_ & _ & Hok). destruct (Hok k Hk) as [Hb Hv]. fold h in Hb, Hv.
  unfold neg_byte in Hn. apply negb_false_iff, Z.eqb_eq in Hn. rewrite Hn in Ha.
  rewrite !land_ones_255, (u8_id _ Hb) in Ha. by rewrite Hv in Ha.
Qed.

Lemma version_only :
  anz_not h = 1 -> neg_byte h 3 = true -> anz_mixed h = 0 -> hw_ver_not h = true.
Proof using Hf.
  intros H1 H3 Hm. apply ver_not_bits; [done|]. split.
  - apply (neg_byte_bits junk) in H3 as [b Hb]; [|lia]. by exists b.
  - apply (mixed_byte_bits junk f Hf 3); [lia|]. fold h.
    pose proof (count_bytes_zero _ 3 ltac:(unfold anz_mixed in Hm; rewrite Hm; lia) ltac:(lia)) as Hx.
    cbv beta in Hx. rewrite H3 in Hx. by apply negb_false_iff, Z.eqb_eq in Hx.
Qed.

(** With a version test, no other byte has bits that must differ. *)
Lemma version_test_alone : hw_ver_not h = true ->
  (forall k, 0 <= k < 8 -> k <> 3 -> neg_byte h k = false).
Proof using Hf He.
  intros Hv k Hk Hne. apply ver_not_bits in Hv; [|done]. apply not_true_iff_false.
  intros Hn. apply (neg_byte_bits junk) in Hn as [b Hb]; [|done].
  apply He in Hb; [|done]. unfold nth_byte, version_byte, hw_byte in Hb. case_if_in Hb; lia.
Qed.

Lemma version_test_case : hw_ver_not h = true ->
  (anz_not h =? 1) && (anz_mixed h =? 0) && neg_byte h 3 = true.
Proof using Hf He.
  intros Hv. pose proof (version_test_alone Hv) as Hno.
  assert (neg_byte h 3 = true) as H3.
  { apply ver_not_bits in Hv; [|done]. apply (neg_byte_bits junk); [lia|]. apply Hv. }
  assert (Z.land (at_ (hw_mode h) 3) (at_ (hw_mask h) 3) = 0) as Hm.
  { apply (mixed_byte_bits junk f Hf 3); [lia|]. apply ver_not_bits in Hv; [|done]. apply Hv. }
  unfold anz_not, anz_mixed, count_bytes.
  change (seqZ 0 8) with [0; 1; 2; 3; 4; 5; 6; 7]. cbn [fold_left].
  rewrite (Hno 0), (Hno 1), (Hno 2), (Hno 4), (Hno 5), (Hno 6), (Hno 7), H3, Hm by lia. done.
Qed.
End Passes.
End OneFilter.

(** One filter: the section passes. *)
Lemma single_passes junk f s es :
  bytes (filter_mask f) -> hw_expressible f -> used (normalize junk f) = true -> selects f s ->
  hw_entries (single_filter junk (normalize junk f)) = Ok es ->
  entries_pass (hp_and_or (single_filter junk (normalize junk f))) es s = true.
Proof.
  intros Hf He Hu Hs. set (h := normalize junk f) in *.
  pose proof (selected_version junk f s Hf He Hs) as Hv. fold h in Hv.
  pose proof (plain_byte_agrees junk f Hf s Hs) as Hplain. fold h in Hplain.
  pose proof (some_negative junk f) as Hneg. fold h in Hneg.
  assert ((anz_not h =? 1) && (anz_mixed h =? 0) && neg_byte h 3 = false -> hw_ver_not h = false) as Hver.
  { intros E. apply not_true_iff_false. intros Hvn.
    pose proof (version_test_case junk f Hf He Hvn) as Ht. fold h in Ht. by rewrite Ht in E. }
  unfold single_filter, hw_entries.
  destruct ((anz_not h =? 1) && (anz_mixed h =? 0) && neg_byte h 3) eqn:E1;
    [|destruct ((anz_not h >? 0) && (anz_normal h >? 0)) eqn:E2;
      [|destruct (anz_not h >? 0) eqn:E3]];
    cbn [hp_filters hp_anz hp_not_first hp_not_second hp_and_or];
    change (Z.to_nat 1) with 1%nat; change (Z.to_nat 2) with 2%nat.
  - rewrite fill_one by done. intros [= <-]. unfold entries_pass. cbn [Z.eqb forallb].
    rewrite andb_true_r. apply entry_of_passes; [|done]. split_bools. intros i Hi [Hne|Hc].
    + apply Hplain; [done|]. apply (count_bytes_one _ 3); [by apply Z.eqb_eq|lia|done|done|done].
    + assert (hw_ver_not h = true) as Hvn by (apply (version_only junk f Hf); fold h; lia || done).
      rewrite Hvn in Hc. done.
  - rewrite fill_two by done. intros [= <-]. unfold entries_pass. cbn [Z.eqb forallb].
    rewrite andb_true_r, andb_true_iff. split.
    + apply entry_of_passes; [|exact Hv]. intros i Hi _. by apply (positive_agrees junk f s Hf Hs).
    + apply entry_of_rejects; [done|]. apply selected_not_negative; [done..|]. apply Hneg. lia.
  - rewrite fill_one by done. intros [= <-]. unfold entries_pass. cbn [Z.eqb forallb].
    rewrite andb_true_r.
    apply entry_of_rejects; [by apply Hver|]. apply selected_not_agrees; [done..|]. apply Hneg. lia.
  - rewrite fill_one by done. intros [= <-]. unfold entries_pass. cbn [Z.eqb forallb].
    rewrite andb_true_r.
    apply entry_of_passes; [|exact Hv]. intros i Hi _. apply Hplain; [done|].
    apply (no_neg_bytes junk f); [|done]. fold h. lia.
Qed.

(** *** Several filters *)

(** The filters of a feed negate the version the same way, or not at all. *)
Definition same_negation (f g : dvb_demux_filter) : Prop :=
  negates_version f -> negates_version g /\
    at_ (filter_mask f) 5 = at_ (filter_mask g) 5 /\
    Z.land (at_ (filter_value f) 5) (at_ (filter_mask f) 5) =
    Z.land (at_ (filter_value g) 5) (at_ (filter_mask g) 5).

Definition translatable (chain : list dvb_demux_filter) : Prop :=
  (forall f, f ∈ chain -> bytes (filter_mask f) /\ hw_expressible f) /\
  (forall f g, f ∈ chain -> g ∈ chain -> same_negation f g).

Definition wanted (chain : list dvb_demux_filter) (s : list Z) : Prop :=
  exists f, f ∈ chain /\ selects f s.

Lemma normal_not junk f : hw_ver_not (normalize junk f) = true ->
  hw_not_mask (normalize junk f) = at_ (filter_mask f) 5 /\
  hw_not_value (normalize junk f) = Z.land (at_ (filter_value f) 5) (at_ (filter_mask f) 5).
Proof.
  unfold normalize. cbn [hw_not_mask hw_not_value hw_ver_not]. intros ->.
  by rewrite !hw_bytes_at by lia.
Qed.

(** The version test of one filter holds for the sections of every other. *)
Lemma translatable_version junk chain f s :
  translatable chain -> f ∈ chain -> wanted chain s -> version_differs (normalize junk f) s.
Proof.
  intros [Hall Hsame] Hf (g & Hg & Hs) Hv.
  destruct (Hall f Hf) as [Hbf _], (Hall g Hg) as [Hbg Heg].
  destruct (normal_not junk f Hv) as [-> ->].
  apply ver_not_bits in Hv; [|done]. destruct (Hsame f g Hf Hg Hv) as (Hvg & -> & ->).
  assert (hw_ver_not (normalize junk g) = true) as Hvg' by (by apply ver_not_bits).
  destruct (normal_not junk g Hvg') as [<- <-]. by apply (selected_version junk g s).
Qed.

Lemma last_masked_in_use mask u : last_masked mask (seqZ 0 8) (-1) = u -> u <> -1 -> 0 <= u < 8.
Proof.
  intros <- Hne. assert (-1 <= last_masked mask (seqZ 0 8) (-1) < 8); [|lia].
  apply last_masked_range; [|lia]. intros k Hk%in_seqZ. lia.
Qed.

Lemma drop_negative_all l l' :
  drop_negative l = Some l' ->
  Forall2 (fun h h' => exists u, h' = set_hw_in_use u (positive_part h) /\ 0 <= u < 8) l l'.
Proof.
  revert l'. induction l as [|h l IH]; intros l' H; simpl in H; [by injection H as <-|].
  match type of H with context [?u =? -1] => destruct (u =? -1) eqn:E end; [done|]. destruct (drop_negative l) as [k|]; [|done].
  injection H as <-. constructor; [|by apply IH]. eexists. split; [done|].
  apply Z.eqb_neq in E. by eapply last_masked_in_use.
Qed.

Lemma normalize_chain_all junk n chain l :
  normalize_chain junk n chain = Some l ->
  l = map (normalize junk) chain /\ (length chain <= n)%nat /\ Forall (fun h => used h = true) l.
Proof.
  revert n l. induction chain as [|f chain IH]; intros n l H; cbn [normalize_chain] in H.
  { destruct n; injection H as <-; split_and!; simpl; try lia; done. }
  destruct n as [|n]; [discriminate H|]. cbn [normalize_chain] in H.
  destruct (hw_in_use (normalize junk f) =? -1) eqn:E; [done|].
  destruct (normalize_chain junk n chain) as [k|] eqn:Ek; [|done]. injection H as <-.
  destruct (IH _ _ Ek) as (-> & Hl & Hu). split_and!; [done|simpl; lia|].
  constructor; [|done]. unfold used. by rewrite E.
Qed.

Section Several.
Context (junk : hwfilter) (chain : list dvb_demux_filter) (P : list Z -> Prop).
Context (Hall : forall f, f ∈ chain -> bytes (filter_mask f)).
Context (HP : forall s, P s -> wanted chain s).
Context (HV : forall f s, f ∈ chain -> P s -> version_differs (normalize junk f) s).

(** The arrays before the merging loops. *)
Lemma several_start l :
  (length chain <= MAX_SECTION_FILTERS)%nat ->
  drop_negative (map (normalize junk) chain) = Some l ->
  merge_inv P (fun h => forall s, P s -> version_differs h s) (pad junk l) (zlen l).
Proof using Hall HP HV.
  intros Hlen Hd%drop_negative_all. pose proof (Forall2_length Hd) as Hl.
  rewrite length_map in Hl.
  assert (Forall (fun h => used h = true) l) as Hu.
  { clear -Hd. induction Hd as [|h h' l l' (u & -> & Hu) Hd IH]; constructor; [|done].
    unfold used. cbn [hw_in_use set_hw_in_use]. destruct (Z.eqb_spec u (-1)); [lia|done]. }
  assert (forall i h, l !! i = Some h -> exists f u, chain !! i = Some f /\
    h = set_hw_in_use u (positive_part (normalize junk f)) /\ 0 <= u < 8) as Hof.
  { intros i h Hi. destruct (Forall2_lookup_r _ _ _ _ _ Hd Hi) as (g & Hg & u & -> & Hub).
    apply list_lookup_fmap_Some in Hg as (f & -> & Hf). eauto. }
  split.
  - apply pad_length. lia.
  - intros i h Hi Huh. apply pad_lookup in Hi; [|done].
    destruct (Hof i h Hi) as (f & u & Hf & -> & Hub). apply list_elem_of_lookup_2 in Hf.
    split; [|split; [done|]].
    + by apply positive_ok, normal_ok, Hall.
    + intros s Hs. by apply (HV f s).
  - intros s (f & Hf & Hs)%HP. apply list_elem_of_lookup in Hf as [i Hf].
    destruct (lookup_lt_is_Some_2 l i) as [h Hh]; [apply lookup_lt_Some in Hf; lia|].
    exists i, h. split; [by apply lookup_app_l_Some|]. split.
    + rewrite Forall_lookup in Hu. by eapply Hu.
    + destruct (Hof i h Hh) as (f' & u & Hf' & -> & _). rewrite Hf in Hf'. injection Hf' as <-.
      apply (positive_agrees junk f s); [|done].
      apply Hall. by eapply list_elem_of_lookup_2.
  - by rewrite pad_count.
Qed.

Lemma version_differs_same h h' :
  same_version h' h -> forall s, version_differs h s -> version_differs h' s.
Proof. intros (E1 & E2 & E3) s. unfold version_differs. by rewrite E1, E2, E3. Qed.

Lemma several_result l :
  chain <> [] -> (length chain <= MAX_SECTION_FILTERS)%nat ->
  l = map (normalize junk) chain ->
  exists r, several_filters junk l = Ok r /\
    match r with
    | None => True
    | Some p =>
        exists es, hw_entries p = Ok es /\ anz_ok (length es) /\ hp_anz p = zlen es /\
          forall s, P s -> entries_pass (hp_and_or p) es s = true
    end.
Proof using Hall HP HV.
  intros Hne Hlen ->. unfold several_filters.
  destruct (drop_negative _) as [l|] eqn:Ed; [|by exists None].
  pose proof (several_start l Hlen Ed) as Hinv.
  pose proof (Forall2_length (drop_negative_all _ _ Ed)) as Hl. rewrite length_map in Hl.
  assert (1 <= zlen l) as H1 by (destruct chain; [done|]; simpl in Hl; unfold zlen; lia).
  destruct (merge_passes_inv P _ junk
    (fun h h' Hsv Hv s Hs => version_differs_same h h' Hsv s (Hv s Hs)) (S (length l)) _ _ Hinv H1)
    as (r & -> & Hr); [unfold zlen; lia|].
  destruct r as [[l' n]|]; [|by exists None]. destruct Hr as (Hinv' & Hn & Hn1).
  eexists. split; [done|]. cbn [hp_and_or].
  destruct (fill_entries_ok l' (Z.to_nat n) [0; 0]) as (es & He & Hes & Hin).
  { rewrite Z2Nat.id by lia. apply (mi_count _ _ _ _ Hinv'). }
  exists es. split; [done|]. split.
  { unfold anz_ok. unfold zlen in Hn. lia. }
  split; [cbn [hp_anz]; unfold zlen; lia|].
  intros s Hs. destruct (mi_covers _ _ _ _ Hinv' s Hs) as (i & h & Hi & Hu & Ha).
  unfold entries_pass. cbn [Z.eqb]. apply existsb_exists. exists (fpe_of h 0). split.
  - apply list_elem_of_In, Hin; [by repeat constructor| |done]. by eapply list_elem_of_lookup_2.
  - destruct (mi_ok _ _ _ _ Hinv' i h Hi Hu) as (_ & _ & Hv). apply entry_of_passes; [|by apply Hv].
    intros k Hk _. by apply Ha.
Qed.
End Several.

(** *** The whole translation *)

Definition program_ok (P : list Z -> Prop) (p : hw_program) : Prop :=
  exists es, hw_entries p = Ok es /\ anz_ok (length es) /\ hp_anz p = zlen es /\
    forall s, P s -> entries_pass (hp_and_or p) es s = true.

Lemma translate_result junk chain P :
  (forall f, f ∈ chain -> bytes (filter_mask f)) -> (forall s, P s -> wanted chain s) ->
  (forall f s, f ∈ chain -> P s -> version_differs (normalize junk f) s) ->
  (forall f s, chain = [f] -> P s -> hw_expressible f) ->
  exists r, hw_translate junk chain = Ok r /\ match r with None => True | Some p => program_ok P p end.
Proof.
  intros Hall HP HV He. unfold hw_translate. destruct chain as [|f chain']; [by exists None|].
  destruct (normalize_chain _ _ _) as [l|] eqn:En; [|by exists None].
  destruct (normalize_chain_all _ _ _ _ En) as (-> & Hlen & Hu).
  destruct chain' as [|g chain''].
  - cbn [map]. eexists. split; [done|]. apply Forall_cons_1 in Hu as [Hu _].
    destruct (single_entries junk f Hu) as (es & Hes & Hn & Hz).
    exists es. split; [done|]. split; [done|]. split; [done|]. intros s Hs.
    destruct (HP s Hs) as (f' & Hf'%list_elem_of_singleton & Hsel). subst f'.
    apply single_passes; [apply Hall; by apply list_elem_of_singleton|by eapply He|done..].
  - apply (several_result junk (f :: g :: chain'') P Hall HP HV); [done|done|done].
Qed.

(** The translation of the filters of a feed always ends, without leaving
    its arrays: it gives up, and the feed is filtered in software, or it
    produces between 1 and 16 table entries.  The merging passes end because
    every pass but the last one removes an entry. *)
Theorem hw_translate_total junk chain :
  (forall f, f ∈ chain -> bytes (filter_mask f)) ->
  hw_translate junk chain = Ok None \/
  exists p es, hw_translate junk chain = Ok (Some p) /\ hw_entries p = Ok es /\
    (1 <= length es <= 16)%nat /\ hp_anz p = zlen es.
Proof.
  intros Hall. destruct (translate_result junk chain (fun _ => False)) as (r & -> & Hr); try done.
  destruct r as [p|]; [right|by left]. destruct Hr as (es & He & Hn & Hz & _). by exists p, es.
Qed.

(** The microcode is not part of the sources; what the translation relies on
    is how it treats the entries. *)
Section Microcode.
Context (microcode : Z -> list fpe -> list Z -> bool).
Context (microcode_spec : forall and_or es s, microcode and_or es s = entries_pass and_or es s).

(** C4: hardware filtering loses nothing the filters want.  If every filter
    of the feed is one the translation can express (the bits that must differ
    are among the eight compared bytes; a version byte of which only such bits
    are masked has all of them), and the filters treat the version the same
    way, then every section that one of the filters selects passes the table
    entries they were translated to. *)
Theorem hw_filter_keeps_wanted junk chain p f s :
  translatable chain -> hw_translate junk chain = Ok (Some p) ->
  f ∈ chain -> selects f s ->
  exists es, hw_entries p = Ok es /\ microcode (hp_and_or p) es s = true.
Proof using microcode_spec.
  intros Ht Hp Hf Hs. destruct (translate_result junk chain (wanted chain)) as (r & Hr & Hok).
  - intros g Hg. by apply Ht.
  - done.
  - intros g t Hg Hw. by apply (translatable_version junk chain).
  - intros g t -> _. apply Ht. by apply list_elem_of_singleton.
  - rewrite Hp in Hr. injection Hr as <-. destruct Hok as (es & He & _ & _ & Hpass).
    exists es. split; [done|]. rewrite microcode_spec. apply Hpass. by exists f.
Qed.
End Microcode.

(** ** Deciding the conditions *)

Definition negb_bit (f : dvb_demux_filter) (i b : nat) : bool :=
  bit (filter_mask f) i b && negb (bit (filter_mode f) i b).
Definition all_bits (p : nat -> nat -> bool) : bool :=
  forallb (fun i => forallb (p i) (seq 0 8)) (seq 0 18).
Definition negates_versionb (f : dvb_demux_filter) : bool :=
  existsb (negb_bit f version_byte) (seq 0 8) &&
  forallb (fun b => implb (bit (filter_mask f) version_byte b)
                          (negb (bit (filter_mode f) version_byte b))) (seq 0 8).
Definition hw_expressibleb (f : dvb_demux_filter) : bool :=
  all_bits (fun i b => implb (negb_bit f i b)
    (existsb (fun k => Z.of_nat i =? hw_byte k) (seqZ 0 8))) &&
  implb (negates_versionb f)
    (all_bits (fun i b => implb (negb_bit f i b) (Nat.eqb i version_byte))).

Lemma all_bits_spec p : all_bits p = true -> forall i b, filter_bit i b -> p i b = true.
Proof.
  unfold all_bits. rewrite forallb_forall. intros H i b [Hi Hb].
  specialize (H i ltac:(apply in_seq; lia)). rewrite forallb_forall in H. apply H, in_seq. lia.
Qed.

Lemma negative_bitb f i b : negative_bit f i b -> filter_bit i b /\ negb_bit f i b = true.
Proof. intros (Hb & Hm & Hmo). split; [done|]. unfold negb_bit. by rewrite Hm, Hmo. Qed.

Lemma negates_version_bool f : negates_version f -> negates_versionb f = true.
Proof.
  intros [(b & Hb) Hall]. unfold negates_versionb. apply andb_true_iff. split.
  - apply existsb_exists. exists b. apply negative_bitb in Hb as [[_ Hlt] Hb].
    split; [apply in_seq; lia|done].
  - apply forallb_forall. intros c Hc%in_seq. destruct (bit (filter_mask f) version_byte c) eqn:E; [|done].
    by rewrite Hall by (done || lia).
Qed.

Lemma hw_expressible_bool f : hw_expressibleb f = true -> hw_expressible f.
Proof.
  unfold hw_expressibleb. rewrite andb_true_iff. intros [Hr Hv]. split.
  - intros i b Hn. apply negative_bitb in Hn as [Hb Hn].
    pose proof (all_bits_spec _ Hr i b Hb) as Hx. cbv beta in Hx. rewrite Hn in Hx. cbn [implb] in Hx.
    apply existsb_exists in Hx as (k & Hk%in_seqZ & He). exists k. split; [lia|]. by apply Z.eqb_eq.
  - intros Hnv i b Hn. rewrite (negates_version_bool f Hnv) in Hv. cbn [implb] in Hv.
    apply negative_bitb in Hn as [Hb Hn].
    pose proof (all_bits_spec _ Hv i b Hb) as Hx. cbv beta in Hx. rewrite Hn in Hx.
    by apply Nat.eqb_eq.
Qed.

(** ** Examples *)

Definition no_junk : hwfilter := mk_hwfilter [] [] [] 0 false 0 0 false.

(** A filter with the bytes [v], [m] and [n] (value, mask and mode) of the
    first section bytes, everything else passes. *)
Definition hw_example (v m n : list Z) : dvb_demux_filter :=
  let rest l x := l ++ replicate (18 - length l) x in
  mk_dvb_demux_filter (rest v 0) (rest m 0) (rest n 0xff) 0 [] [] 0 None None 0 0 0.

(** Two tables in any version but 5, the second for one program only. *)
Definition hw_example_chain : list dvb_demux_filter :=
  [hw_example [0x42; 0; 0; 0; 0; 10] [0xff; 0; 0; 0; 0; 0x3e] [0xff; 0; 0; 0xff; 0xff; 0];
   hw_example [0x46; 0; 0; 1; 2; 10] [0xff; 0; 0; 0xff; 0xff; 0x3e] [0xff; 0; 0; 0xff; 0xff; 0];
   hw_example [0x46; 0; 0; 1; 0; 10] [0xff; 0; 0; 0xff; 0; 0x3e] [0xff; 0; 0; 0xff; 0xff; 0]].

Definition hw_example_section (t p q v : Z) : list Z := [t; 0xb0; 15; p; q; v] ++ replicate 12 0.

Lemma hw_example_bytes f : f ∈ hw_example_chain -> bytes (filter_mask f).
Proof.
  intros Hf. unfold hw_example_chain in Hf.
  repeat (apply elem_of_cons in Hf as [->|Hf]; [apply decide_bytes; vm_compute; reflexivity|]).
  by apply not_elem_of_nil in Hf.
Qed.

Lemma hw_translate_total_witness :
  hw_translate no_junk hw_example_chain = Ok None \/
  exists p es, hw_translate no_junk hw_example_chain = Ok (Some p) /\ hw_entries p = Ok es /\
    (1 <= length es <= 16)%nat /\ hp_anz p = zlen es.
Proof. apply (hw_translate_total no_junk hw_example_chain), hw_example_bytes. Defined.

Lemma hw_example_translatable : translatable hw_example_chain.
Proof.
  split.
  - intros f Hf. split; [by apply hw_example_bytes|]. apply hw_expressible_bool.
    unfold hw_example_chain in Hf.
    repeat (apply elem_of_cons in Hf as [->|Hf]; [vm_compute; reflexivity|]).
    by apply not_elem_of_nil in Hf.
  - assert (forall f, f ∈ hw_example_chain -> negates_version f /\ at_ (filter_mask f) 5 = 0x3e /\
      Z.land (at_ (filter_value f) 5) (at_ (filter_mask f) 5) = 10) as H.
    { intros f Hf. unfold hw_example_chain in Hf.
      repeat (apply elem_of_cons in Hf as [->|Hf]; [split_and!; [..|done|done]; split;
        [by exists 1%nat; repeat split; vm_compute; lia|
         intros b Hb; do 8 (destruct b as [|b]; [by vm_compute|]); lia]|]).
      by apply not_elem_of_nil in Hf. }
    intros f g Hf Hg _. destruct (H f Hf) as (_ & -> & ->), (H g Hg) as (? & -> & ->). done.
Qed.

Lemma hw_filter_keeps_wanted_witness :
  exists es, hw_translate no_junk hw_example_chain =
      Ok (Some (match hw_translate no_junk hw_example_chain with Ok (Some p) => p
                | _ => mk_hw_program [] 0 0 0 0 end)) /\
    length es = 1%nat /\ entries_pass 1 es (hw_example_section 0x46 1 7 12) = true.
Proof.
  destruct (hw_filter_keeps_wanted entries_pass (fun _ _ _ => eq_refl) no_junk hw_example_chain
    (match hw_translate no_junk hw_example_chain with Ok (Some p) => p | _ => mk_hw_program [] 0 0 0 0 end)
    (nth 2 hw_example_chain (hw_example [] [] [])) (hw_example_section 0x46 1 7 12))
    as (es & He & Hp).
  - exact hw_example_translatable.
  - vm_compute. reflexivity.
  - by do 2 right; left.
  - apply sec_match_selects. vm_compute. reflexivity.
  - exists es. split; [vm_compute; reflexivity|]. split; [|exact Hp].
    vm_compute in He. injection He as <-. reflexivity.
Defined.

(** A section that a filter of the feed selects and its entries drop. *)
Definition loses (chain : list dvb_demux_filter) (s : list Z) : Prop :=
  exists p es, hw_translate no_junk chain = Ok (Some p) /\ hw_entries p = Ok es /\
    (exists f, f ∈ chain /\ selects f s) /\ entries_pass (hp_and_or p) es s = false.

(** The version and a byte that is not compared must not both be the same. *)
Definition far_negative : dvb_demux_filter :=
  hw_example [0x42; 0; 0; 0; 0; 10; 0; 0; 0; 0; 0; 0; 7]
    [0xff; 0; 0; 0; 0; 0x3e; 0; 0; 0; 0; 0; 0; 0xff]
    [0xff; 0; 0; 0xff; 0xff; 0; 0xff; 0xff; 0xff; 0xff; 0xff; 0xff; 0].

(** The version and the section number must not both be the same. *)
Definition two_negative : dvb_demux_filter :=
  hw_example [0x42; 0; 0; 0; 0; 10; 7] [0xff; 0; 0; 0; 0; 0x3e; 0xff] [0xff; 0; 0; 0xff; 0xff; 0; 0].

(** The second and the third filter are merged, and then the first with the
    result, whose version test is no longer what the second filter said. *)
Definition merged_twice : list dvb_demux_filter :=
  [hw_example [0x51; 0; 0; 0x11; 0; 10] [0xff; 0; 0; 0xff; 0; 0x3e] [0xff; 0; 0; 0xff; 0xff; 0];
   hw_example [0x50; 0; 0; 0x10; 0; 10] [0xff; 0; 0; 0xf0; 0; 0x3e] [0xff; 0; 0; 0xff; 0xff; 0];
   hw_example [0x50; 0; 0; 0x10; 0; 0] [0xf0; 0; 0; 0xff; 0; 0] [0xff; 0; 0; 0xff; 0xff; 0xff]].

Ltac lost f :=
  eexists _, _; split; [vm_compute; reflexivity|split; [vm_compute; reflexivity|]]; split;
  [exists f; split; [|apply sec_match_selects; vm_compute; reflexivity]|vm_compute; reflexivity].

(** code bugs: outside those conditions wanted sections are lost in the
    hardware.  [prop_ucode_alloc_section_filter] takes the test of the version
    byte for the whole of "one of these bits must differ" although other bytes
    have such bits, compared (second case) or not (first case); and after a
    merge has made the version test of an entry invalid ([unchanged] is
    cleared), a later merge into a third entry compares the stale values and
    keeps the test there (third case). *)
Theorem hw_filter_loses_wanted :
  loses [far_negative] ([0x42; 0xb0; 15; 0; 0; 10] ++ replicate 12 0) /\
  loses [two_negative] ([0x42; 0xb0; 15; 0; 0; 10; 8] ++ replicate 11 0) /\
  loses merged_twice ([0x50; 0xb0; 15; 0x10; 0; 10] ++ replicate 12 0).
Proof.
  split; [|split].
  - lost far_negative. by left.
  - lost two_negative. by left.
  - lost (nth 2 merged_twice far_negative). by do 2 right; left.
Qed.
