(* ===== verification/AviaUcode.v ===== *)
(** * The microcode tables of the demultiplexer (avia/avia_gt_ucode.c)

    The driver talks to the demultiplexer's microcode through tables in its
    RAM: which PIDs it looks for, what it does with their packets, which
    section filters apply.  This file models the proprietary interface: the
    tables as the words of the RAM, the feeds, the map of section filter
    entries, and the descrambler keys.

    The RAM is a list of 1024 16-bit words.  The packed structures are laid out
    as the compiler for the (big-endian) target does: the first bit field in
    the highest bits.  Interrupts are part of the state because the code turns
    them off around its accesses. *)

From S2P Require Import Prelude DemuxState AviaFilter.

(** ** Constants *)

Definition AVIA_GT_UCODE_MAXIMUM_FEED_NUMBER : nat := 32.
Definition AVIA_GT_UCODE_MAXIMUM_SECTION_FILTERS : nat := 32.
Definition AVIA_GT_UCODE_TAP_PID := 0x2000.

Definition AVIA_GT_DMX_QUEUE_COUNT := 32.
Definition AVIA_GT_DMX_QUEUE_VIDEO := 0.
Definition AVIA_GT_DMX_QUEUE_AUDIO := 1.
Definition AVIA_GT_DMX_QUEUE_TELETEXT := 2.
Definition AVIA_GT_DMX_QUEUE_USER_START := 3.
Definition AVIA_GT_DMX_QUEUE_USER_END := 30.
Definition AVIA_GT_DMX_QUEUE_MESSAGE := 31.

(** Queue modes: TS, PES, SECTION. *)
Definition TS := 0.
Definition PES := 1.
Definition SECTION := 2.

Definition AVIA_GT_UCODE_CAP_ECD := 0x0001.
Definition AVIA_GT_UCODE_CAP_PES := 0x0002.
Definition AVIA_GT_UCODE_CAP_SEC := 0x0004.
Definition AVIA_GT_UCODE_CAP_TS := 0x0008.
Definition AVIA_GT_UCODE_CAP_MSGQ := 0x0010.
Definition AVIA_GT_UCODE_CAP_C_INTERFACE := 0x0020.
Definition DISABLE_UCODE_SECTION_FILTERING := 1.
Definition CAN_WAITPUSI := 1.

(** Offsets in words. *)
Definition DMX_FILTER_PARAMETER_TABLE_1 := 0x200.
Definition DMX_CONTROL_WORDS_1 := 0x268.
Definition DMX_FILTER_PARAMETER_TABLE_2 := 0x280.
Definition DMX_CONTROL_WORDS_2 := 0x2e8.
Definition DMX_FILTER_PARAMETER_TABLE_3 := 0x300.
Definition DMX_CONTROL_WORDS_3 := 0x368.
Definition DMX_PID_SEARCH_TABLE := 0x380.
Definition DMX_PID_PARSING_CONTROL_TABLE := 0x3a0.
Definition DMX_FILTER_DEFINITION_TABLE := 0x3e0.
Definition DMX_VERSION_NO := 0x3ff.
Definition DMX_RISC_RAM_SIZE := 0x400.

(** ** Structures *)

Record sAviaGtSection := mk_section { sec_idx : Z; sec_filtercount : Z }.

Record sAviaGtFeed := mk_uc_feed {
  dest_queue : Z;     (* -1: not used *)
  uf_type : Z;
  section_idx : Z;    (* 0xff: no section filter *)
  filtercount : Z;
  uf_pid : Z;
}.
#[export] Instance sAviaGtFeed_eta : Eta sAviaGtFeed := fun r =>
  mk_uc_feed (dest_queue r) (uf_type r) (section_idx r) (filtercount r) (uf_pid r).
Definition set_dest_queue := setter! dest_queue.
Definition set_uf_type := setter! uf_type.
Definition set_section_idx := setter! section_idx.
Definition set_filtercount := setter! filtercount.
Definition set_uf_pid := setter! uf_pid.

Record avia_gt_ucode_info := mk_ucode_info {
  caps : Z;
  prop_interface_flags : Z;
  qid_offset : Z;
  queue_mode : list Z;
}.

Record ucode := mk_ucode {
  riscram : list Z;
  ucode_feed : list sAviaGtFeed;
  section_map : list Z;
  filter_definition_table : list Z;   (* bytes *)
  ucode_info : avia_gt_ucode_info;
  irqs_off : bool;
}.
#[export] Instance ucode_eta : Eta ucode := fun r =>
  mk_ucode (riscram r) (ucode_feed r) (section_map r) (filter_definition_table r) (ucode_info r)
    (irqs_off r).
Definition set_riscram := setter! riscram.
Definition set_ucode_feed := setter! ucode_feed.
Definition set_section_map := setter! section_map.
Definition set_filter_definition_table := setter! filter_definition_table.
Definition set_ucode_info := setter! ucode_info.
Definition set_irqs_off := setter! irqs_off.

Abbreviation UM := (M ucode).

Definition local_irq_save : UM bool := fun u => Ok (irqs_off u, set_irqs_off true u).
Definition local_irq_restore (flags : bool) : UM unit := mmodify (set_irqs_off flags).

(** ** RAM access *)

Definition avia_gt_dmx_memset16 (s c n : Z) : UM unit :=
  fun u => let? r := memcpy_to (riscram u) s (replicate (Z.to_nat n) c) in
           Ok (tt, set_riscram r u).
Definition avia_gt_dmx_memcpy16 (dest : Z) (src : list Z) : UM unit :=
  fun u => let? r := memcpy_to (riscram u) dest src in Ok (tt, set_riscram r u).

(** The source as 16-bit words; the length is even at all calls. *)
Definition avia_gt_dmx_risc_write (dest : Z) (src : list Z) : UM Z :=
  if (dest <? 0) || (dest + zlen src >? DMX_RISC_RAM_SIZE) then mret_ (- EINVAL) else
  avia_gt_dmx_memset16 dest 0 (zlen src) ;;;
  avia_gt_dmx_memcpy16 dest src ;;;
  mret_ (2 * zlen src).

(** A write with the interrupts off. *)
Definition risc_write_locked (dest : Z) (src : list Z) : UM unit :=
  let! flags := local_irq_save in
  avia_gt_dmx_risc_write dest src ;;;
  local_irq_restore flags.

Definition word (hi lo : Z) : Z := Z.lor (Z.shiftl hi 8) lo.

(** The words of the packed structures. *)
Definition fpe1_words (e : sFilter_Parameter_Entry1) : list Z :=
  [word (mask_0 e) (param_0 e); word (mask_1 e) (param_1 e); word (mask_2 e) (param_2 e)].
Definition fpe2_words (e : sFilter_Parameter_Entry2) : list Z :=
  [word (mask_3 e) (param_3 e); word (mask_4 e) (param_4 e); word (mask_5 e) (param_5 e)].
Definition fpe3_words (e : sFilter_Parameter_Entry3) : list Z :=
  [word (mask_6 e) (param_6 e); word (mask_7 e) (param_7 e);
   word (Z.lor (Z.shiftl (not_flag e) 4) (Z.shiftl (not_flag_ver_id_byte e) 1)) 0].

(** The parts of an entry in the three parameter tables. *)
Definition words_1 (e : fpe) : list Z := fpe1_words e.1.1.
Definition words_2 (e : fpe) : list Z := fpe2_words e.1.2.
Definition words_3 (e : fpe) : list Z := fpe3_words e.2.

Record sPID_Entry := mk_pid_entry { wait_pusi : Z; VALID : Z; PID : Z }.
Definition pid_entry_word (e : sPID_Entry) : Z :=
  Z.lor (Z.shiftl (wait_pusi e) 15) (Z.lor (Z.shiftl (VALID e) 14) (PID e)).

Record sPID_Parsing_Control_Entry := mk_ppc_entry {
  ppc_type : Z; QID : Z; fork : Z; CW_offset : Z; CC : Z; PSH : Z; start_up : Z; PEC : Z;
  filt_tab_idx : Z; State : Z; no_of_filter : Z;
}.
Definition ppc_words (e : sPID_Parsing_Control_Entry) : list Z :=
  [Z.lor (Z.shiftl (ppc_type e) 13) (Z.lor (Z.shiftl (QID e) 8) (Z.lor (Z.shiftl (fork e) 7)
     (Z.lor (Z.shiftl (CW_offset e) 4) (CC e))));
   Z.lor (Z.shiftl (PSH e) 15) (Z.lor (Z.shiftl (start_up e) 14) (Z.lor (Z.shiftl (PEC e) 13)
     (Z.lor (Z.shiftl (filt_tab_idx e) 8) (Z.lor (Z.shiftl (State e) 5) (no_of_filter e)))))].

(** Storing to a bit field keeps its lowest bits. *)
Definition bits (w z : Z) : Z := z mod 2 ^ w.

(** ** Feeds *)

Definition feed_at (i : nat) (u : ucode) : option sAviaGtFeed := ucode_feed u !! i.
Definition uc_feed_get (i : Z) : UM sAviaGtFeed :=
  fun u => match feed_at (Z.to_nat i) u with Some f => Ok (f, u) | None => Fault end.
Definition uc_feed_mod (i : Z) (g : sAviaGtFeed -> sAviaGtFeed) : UM unit :=
  mmodify (fun u => set_ucode_feed (alter g (Z.to_nat i) (ucode_feed u)) u).

Fixpoint find_feed (p : sAviaGtFeed -> bool) (l : list sAviaGtFeed) (i : Z) : option Z :=
  match l with
  | [] => None
  | f :: l => if p f then Some i else find_feed p l (i + 1)
  end.

Definition pid2feedidx (pid : Z) (u : ucode) : option Z :=
  find_feed (fun f => negb (dest_queue f =? -1) && (uf_pid f =? pid)) (ucode_feed u) 0.

(** ** The map of section filter entries *)

(** The scan for the best place; the arguments are the local variables. *)
Fixpoint find_room (map : list Z) (anz i j entry_len entry new_entry_len new_entry : Z)
    : Z * Z * Z * Z :=
  match map with
  | [] => (entry_len, entry, new_entry_len, new_entry)
  | m :: map =>
      if m =? -1 then
        if j =? 1 then find_room map anz (i + 1) j entry_len entry (new_entry_len + 1) new_entry
        else
          let better := (new_entry_len <? entry_len) && (new_entry_len >=? anz) in
          find_room map anz (i + 1) 1 (if better then new_entry_len else entry_len)
            (if better then new_entry else entry) 1 i
      else find_room map anz (i + 1) 0 entry_len entry new_entry_len new_entry
  end.

Definition best_entry (map : list Z) (anz : Z) : Z :=
  let '(entry_len, entry, new_entry_len, new_entry) := find_room map anz 0 0 33 (-1) 33 (-1) in
  if ((entry =? -1) && negb (new_entry =? -1) && (new_entry_len >=? anz)) ||
     ((new_entry_len <? entry_len) && (new_entry_len >=? anz))
  then new_entry else entry.

(** [section_map[i] = entry] for [i] from [entry] on. *)
Definition mark_entries (map : list Z) (entry : Z) (n : nat) : list Z :=
  fold_left (fun m i => setZ m i entry) (seqZ entry (Z.of_nat n)) map.

Fixpoint unmark_entries (fuel : nat) (map : list Z) (nr idx : Z) : list Z :=
  match fuel with
  | O => map
  | S fuel =>
      if (nr <? 32) && (at_ map nr =? idx)
      then unmark_entries fuel (setZ map nr (-1)) (nr + 1) idx else map
  end.

Definition prop_ucode_free_section_filter (section : sAviaGtSection) : UM unit :=
  let! u := mget in
  let nr := sec_idx section in
  if (nr >? 31) || negb (at_ (section_map u) nr =? nr) then mret_ tt else
  match find_feed (fun f => section_idx f =? nr) (ucode_feed u) 0 with
  | Some _ => mret_ tt
  | None => mmodify (set_section_map (unmark_entries 32 (section_map u) nr nr))
  end.

(** The bytes at [entry & 0xFE] and behind it, as a word. *)
Definition definition_word (t : list Z) (entry : Z) : Z :=
  let e := Z.land entry 0xFE in word (at_ t e) (at_ t (e + 1)).

Definition set_and_or (t : list Z) (entry and_or : Z) : list Z :=
  setZ t entry (Z.lor (Z.shiftl and_or 7) (Z.land (at_ t entry) 0x7f)).

(** [copy to riscram] *)
Definition program_entries (entry : Z) (es : list fpe) : UM unit :=
  let! u := mget in
  avia_gt_dmx_risc_write (DMX_FILTER_DEFINITION_TABLE + Z.shiftr (Z.land entry 0xFE) 1)
    [definition_word (filter_definition_table u) entry] ;;;
  avia_gt_dmx_risc_write (DMX_FILTER_PARAMETER_TABLE_1 + 3 * entry) (flat_map words_1 es) ;;;
  avia_gt_dmx_risc_write (DMX_FILTER_PARAMETER_TABLE_2 + 3 * entry) (flat_map words_2 es) ;;;
  avia_gt_dmx_risc_write (DMX_FILTER_PARAMETER_TABLE_3 + 3 * entry) (flat_map words_3 es) ;;;
  mret_ tt.

(** The translation of the filters (see [AviaFilter]) and the allocation of
    table entries.  [None]: returns 0. *)
Definition prop_ucode_alloc_section_filter (junk : hwfilter) (chain : list dvb_demux_filter)
    : UM (option sAviaGtSection) :=
  let! r := mlift (hw_translate junk chain) in
  match r with
  | None => mret_ None
  | Some p =>
      let anz := hp_anz p in
      let! u := mget in
      let entry := best_entry (section_map u) anz in
      if entry =? -1 then mret_ None else
      mmodify (set_section_map (mark_entries (section_map u) entry (Z.to_nat anz))) ;;;
      mmodify (fun u => set_filter_definition_table
                 (set_and_or (filter_definition_table u) entry (hp_and_or p)) u) ;;;
      let! es := mlift (hw_entries p) in
      let! flags := local_irq_save in
      program_entries entry es ;;;
      local_irq_restore flags ;;;
      mret_ (Some (mk_section entry anz))
  end.

(** ** PID tables *)

Definition prop_ucode_set_pid_control_table
    (idx queue_nr type fork cw_offset cc start_up pec filt_tab_idx psh no_of_filter : Z) : UM Z :=
  if queue_nr >? AVIA_GT_DMX_QUEUE_COUNT then mret_ (- EINVAL) else
  let! u := mget in
  let target_queue_nr :=
    if (queue_nr =? AVIA_GT_DMX_QUEUE_AUDIO) && (type =? TS) then AVIA_GT_DMX_QUEUE_VIDEO
    else queue_nr in
  let target_queue_nr := u8 (target_queue_nr + qid_offset (ucode_info u)) in
  risc_write_locked (DMX_PID_PARSING_CONTROL_TABLE + 2 * idx)
    (ppc_words (mk_ppc_entry (bits 3 type) (bits 5 target_queue_nr) (c_bool (negb (fork =? 0)))
       (bits 3 cw_offset) (bits 4 cc) (bits 1 psh) (c_bool (negb (start_up =? 0)))
       (c_bool (negb (pec =? 0))) (bits 5 filt_tab_idx) 7 (bits 4 no_of_filter))) ;;;
  mret_ 0.

Definition prop_ucode_set_pid_table (entry wait_pusi valid pid : Z) : UM Z :=
  if entry >? 31 then mret_ (- EINVAL) else
  risc_write_locked (DMX_PID_SEARCH_TABLE + entry)
    [pid_entry_word (mk_pid_entry (bits 1 wait_pusi) (c_bool (negb (valid =? 0))) (bits 13 pid))] ;;;
  mret_ 0.

Definition wait_pusi_flag (u : ucode) : Z :=
  c_bool (negb (Z.land (prop_interface_flags (ucode_info u)) CAN_WAITPUSI =? 0)).

(** ** Allocation, start and stop of feeds *)

(** 0xff: no feed.  The error returns leave the interrupts off. *)
Definition prop_ucode_alloc_generic_feed (queue_nr type : Z) (section : option sAviaGtSection) (pid : Z)
    : UM Z :=
  let! flags := local_irq_save in
  let! u := mget in
  match find_feed (fun f => dest_queue f =? -1) (ucode_feed u) 0 with
  | None => mret_ 0xff
  | Some feed_idx =>
      let! ok :=
        match section with
        | Some s =>
            if at_ (section_map u) (sec_idx s) =? -1 then mret_ false else
            uc_feed_mod feed_idx (fun f => set_section_idx (sec_idx s)
              (set_filtercount (u8 (sec_filtercount s - 1)) f)) ;;; mret_ true
        | None =>
            uc_feed_mod feed_idx (fun f => set_section_idx 0xff (set_filtercount 0 f)) ;;; mret_ true
        end in
      if negb ok then mret_ 0xff else
      uc_feed_mod feed_idx (set_dest_queue queue_nr) ;;;
      local_irq_restore flags ;;;
      uc_feed_mod feed_idx (fun f => set_uf_pid AVIA_GT_UCODE_TAP_PID (set_uf_type type f)) ;;;
      let! u := mget in
      (if (match pid2feedidx pid u with None => true | Some _ => false end) ||
          (queue_nr <? AVIA_GT_DMX_QUEUE_USER_START) then
         uc_feed_mod feed_idx
           (fun f => set_uf_pid (Z.land (uf_pid f) (Z.lnot AVIA_GT_UCODE_TAP_PID)) f) ;;;
         prop_ucode_set_pid_table feed_idx (wait_pusi_flag u) 1 pid ;;; mret_ tt
       else mret_ tt) ;;;
      uc_feed_mod feed_idx (fun f => set_uf_pid (Z.lor (uf_pid f) pid) f) ;;;
      mret_ feed_idx
  end.

Definition prop_ucode_alloc_section_feed (queue_nr : Z) (section : option sAviaGtSection) (pid : Z)
    : UM Z :=
  match section with
  | None => mret_ 0xff
  | Some _ => prop_ucode_alloc_generic_feed queue_nr SECTION section pid
  end.

Definition prop_ucode_alloc_feed (queue_nr type pid : Z) : UM Z :=
  prop_ucode_alloc_generic_feed queue_nr type None pid.

(** [queue_mode[type]]: a type out of the array reads other memory. *)
Definition mode_of (type : Z) (u : ucode) : res Z := rd (queue_mode (ucode_info u)) type.

Definition prop_ucode_start_feed (feed_idx : Z) (tap_feed : bool) : UM unit :=
  let! f := uc_feed_get feed_idx in
  if dest_queue f =? -1 then mret_ tt else
  let! u := mget in
  let! mode := mlift (mode_of (uf_type f) u) in
  prop_ucode_set_pid_control_table feed_idx (u8 (dest_queue f)) mode 0 0 0 0 1 (section_idx f)
    (c_bool (uf_type f =? SECTION)) (filtercount f) ;;;
  if tap_feed || (Z.land (uf_pid f) AVIA_GT_UCODE_TAP_PID =? 0) then
    prop_ucode_set_pid_table feed_idx (wait_pusi_flag u) 0
      (Z.land (uf_pid f) (Z.lnot AVIA_GT_UCODE_TAP_PID)) ;;; mret_ tt
  else mret_ tt.

Definition prop_ucode_stop_feed (feed_idx : Z) (remove : bool) : UM unit :=
  let! f := uc_feed_get feed_idx in
  if dest_queue f =? -1 then mret_ tt else
  (if remove then
     uc_feed_mod feed_idx (fun f => set_dest_queue (-1) (set_uf_pid 0 f)) ;;;
     if negb (section_idx f =? 0xff) then
       uc_feed_mod feed_idx (set_section_idx 0xff) ;;;
       let! u := mget in
       match find_feed (fun g => section_idx g =? section_idx f) (ucode_feed u) 0 with
       | Some _ => mret_ tt
       | None => prop_ucode_free_section_filter (mk_section (section_idx f) 0)
       end
     else mret_ tt
   else mret_ tt) ;;;
  let! f := uc_feed_get feed_idx in
  prop_ucode_set_pid_table feed_idx 1 1 (uf_pid f) ;;; mret_ tt.

(** The loops over the feeds of a queue. *)
Fixpoint queue_feeds (act : Z -> UM unit) (ids : list Z) (queue_nr : Z) : UM unit :=
  match ids with
  | [] => mret_ tt
  | i :: ids =>
      let! f := uc_feed_get i in
      (if dest_queue f =? queue_nr then act i else mret_ tt) ;;;
      queue_feeds act ids queue_nr
  end.
Definition all_feeds : list Z := seqZ 0 32.

Definition prop_ucode_start_queue_feeds (queue_nr : Z) : UM unit :=
  queue_feeds (fun i => prop_ucode_start_feed i false) all_feeds queue_nr.
Definition prop_ucode_stop_queue_feeds (queue_nr : Z) (remove : bool) : UM unit :=
  queue_feeds (fun i => prop_ucode_stop_feed i remove) all_feeds queue_nr.

(** ** Descrambler *)

Definition prop_ucode_ecd_reset : UM unit :=
  let! flags := local_irq_save in
  avia_gt_dmx_memset16 DMX_CONTROL_WORDS_1 0 24 ;;;
  avia_gt_dmx_memset16 DMX_CONTROL_WORDS_2 0 24 ;;;
  avia_gt_dmx_memset16 DMX_CONTROL_WORDS_3 0 16 ;;;
  local_irq_restore flags.

(** [cw] is the eight bytes of the key, as words. *)
Definition cw_offset_of (index parity : Z) : Z :=
  u16 (DMX_CONTROL_WORDS_1 + Z.shiftl (index / 3) 7 + Z.shiftl (index mod 3) 3
       + Z.shiftl (Z.lxor parity 1) 2).
Definition prop_ucode_ecd_set_key (index parity : Z) (cw : list Z) : UM Z :=
  risc_write_locked (cw_offset_of index parity) cw ;;; mret_ 0.

(** The loop over the PID search table. *)
Fixpoint ecd_set_pid_loop (ids : list Z) (index pid : Z) : UM Z :=
  match ids with
  | [] => mret_ (- EINVAL)
  | offset :: ids =>
      let! u := mget in
      if Z.land (at_ (riscram u) (DMX_PID_SEARCH_TABLE + offset)) 0x1fff =? pid then
        let slot := DMX_PID_PARSING_CONTROL_TABLE + Z.shiftl offset 1 in
        let control := at_ (riscram u) slot in
        (if negb (Z.land (Z.shiftr control 4) 7 =? index) then
           let! flags := local_irq_save in
           avia_gt_dmx_memset16 slot 0 1 ;;;
           avia_gt_dmx_memset16 slot (u16 (Z.lor (Z.land control 0xff8f) (Z.shiftl index 4))) 1 ;;;
           local_irq_restore flags
         else mret_ tt) ;;;
        mret_ 0
      else ecd_set_pid_loop ids index pid
  end.
Definition prop_ucode_ecd_set_pid (index pid : Z) : UM Z := ecd_set_pid_loop (seqZ 0 0x20) index pid.

(** ** Initialisation *)

Definition prop_ucode_init : UM unit :=
  mmodify (set_filter_definition_table (map (fun nr => Z.shiftl nr 2) (seqZ 0 32))).

(** What the versions of the microcode can do. *)
Definition set_mode (i m : Z) (l : list Z) : list Z := setZ l i m.
Definition version_info (version_no : Z) (old : avia_gt_ucode_info) : avia_gt_ucode_info :=
  let modes pes := set_mode PES pes (queue_mode old) in
  if bool_decide (version_no ∈ [0x0013; 0x0014]) then
    mk_ucode_info (Z.lor AVIA_GT_UCODE_CAP_ECD (Z.lor AVIA_GT_UCODE_CAP_PES
      (Z.lor AVIA_GT_UCODE_CAP_SEC (Z.lor AVIA_GT_UCODE_CAP_TS AVIA_GT_UCODE_CAP_MSGQ))))
      CAN_WAITPUSI 1 (modes 3)
  else if version_no =? 0x001a then
    mk_ucode_info (Z.lor AVIA_GT_UCODE_CAP_ECD (Z.lor AVIA_GT_UCODE_CAP_PES AVIA_GT_UCODE_CAP_TS))
      0 0 (modes 5)
  else if bool_decide (version_no ∈ [0x00F0; 0x00F1; 0x00F2; 0x00F3; 0x00F4]) then
    mk_ucode_info (Z.lor AVIA_GT_UCODE_CAP_PES (Z.lor AVIA_GT_UCODE_CAP_SEC AVIA_GT_UCODE_CAP_TS))
      CAN_WAITPUSI 1 (modes 3)
  else if bool_decide (version_no ∈ [0xb102; 0xb107; 0xb121]) then
    mk_ucode_info (Z.lor AVIA_GT_UCODE_CAP_PES AVIA_GT_UCODE_CAP_TS) 0 0 (modes 3)
  else if version_no =? 0xc001 then
    mk_ucode_info (Z.lor AVIA_GT_UCODE_CAP_C_INTERFACE (Z.lor AVIA_GT_UCODE_CAP_PES
      (Z.lor AVIA_GT_UCODE_CAP_SEC (Z.lor AVIA_GT_UCODE_CAP_TS AVIA_GT_UCODE_CAP_MSGQ))))
      (prop_interface_flags old) 0 (queue_mode old)
  else
    mk_ucode_info 0 0 (if version_no <? 0xa000 then 1 else 0) (modes 3).

(** The function pointers of the interface are the functions of this file
    unless the microcode has the C interface, which the sources only name. *)
Definition avia_gt_dmx_set_ucode_info (ucode_flags : Z) : UM unit :=
  let! u := mget in
  let info := version_info (at_ (riscram u) DMX_VERSION_NO) (ucode_info u) in
  let c := if negb (Z.land ucode_flags DISABLE_UCODE_SECTION_FILTERING =? 0)
           then Z.land (caps info) (Z.lnot AVIA_GT_UCODE_CAP_SEC) else caps info in
  let modes := set_mode TS 0 (queue_mode info) in
  let modes := if negb (Z.land c AVIA_GT_UCODE_CAP_C_INTERFACE =? 0)
               then set_mode SECTION 3 (set_mode PES 1 modes)
               else set_mode SECTION 4 modes in
  mmodify (set_ucode_info (mk_ucode_info c (prop_interface_flags info) (qid_offset info) modes)).

(** The firmware: the image from the file if it can be read and fits, with the
    PID table made invalid, or the built-in one.  [image] is the words of the
    file, [None] if it cannot be used; [builtin] is the array of
    avia_gt_ucode_firmware.c. *)
Definition clear_pid_table (buf : list Z) : list Z :=
  take (Z.to_nat DMX_PID_SEARCH_TABLE) buf
    ++ replicate (Z.to_nat (DMX_PID_PARSING_CONTROL_TABLE - DMX_PID_SEARCH_TABLE)) 0xdfff
    ++ drop (Z.to_nat DMX_PID_PARSING_CONTROL_TABLE) buf.

Definition avia_gt_dmx_load_ucode (image : option (list Z)) (builtin : list Z) : UM unit :=
  let buf := match image with
             | Some b => if 2 * zlen b >=? 0x740 then clear_pid_table b else b
             | None => builtin
             end in
  let! flags := local_irq_save in
  avia_gt_dmx_risc_write 0 buf ;;;
  let! u := mget in
  (if at_ (riscram u) DMX_VERSION_NO =? 0xb107 then avia_gt_dmx_memset16 0x80 0 4 else mret_ tt) ;;;
  local_irq_restore flags.

Definition fresh_feed : sAviaGtFeed := mk_uc_feed (-1) 0xff 0xff 0xff 0xffff.

(** The tables of the driver are cleared, the microcode is loaded; the resets
    of the processor (register accesses) are not part of this state. *)
Definition avia_gt_dmx_risc_init (ucode_flags : Z) (image : option (list Z)) (builtin : list Z)
    : UM Z :=
  mmodify (set_section_map (replicate AVIA_GT_UCODE_MAXIMUM_SECTION_FILTERS (-1))) ;;;
  mmodify (set_ucode_feed (replicate AVIA_GT_UCODE_MAXIMUM_FEED_NUMBER fresh_feed)) ;;;
  avia_gt_dmx_load_ucode image builtin ;;;
  avia_gt_dmx_set_ucode_info ucode_flags ;;;
  prop_ucode_init ;;;
  mret_ 0.
