(* ===== verification/AviaSectionMap.v ===== *)
(** * The map of section filter entries (avia/avia_gt_ucode.c)

    The 32 entries of the microcode's filter table are given out in blocks of
    consecutive entries; [section_map] holds, for every entry, the first entry
    of its block, or -1.  Theorems about the search for a block (best fit), and
    about marking and unmarking it. *)

From S2P Require Import Prelude DemuxState AviaFilter AviaUcode.

(** ** Free runs *)

(** The maximal runs of free entries, as first entry and length; [cur] is the
    run that is open at entry [i]. *)
Fixpoint free_runs (map : list Z) (i : Z) (cur : option (Z * Z)) : list (Z * Z) :=
  match map with
  | [] => match cur with Some r => [r] | None => [] end
  | m :: map =>
      if m =? -1 then
        free_runs map (i + 1) (match cur with Some (a, n) => Some (a, n + 1) | None => Some (i, 1) end)
      else match cur with
           | Some r => r :: free_runs map (i + 1) None
           | None => free_runs map (i + 1) None
           end
  end.

(** The first of the shortest runs that are long enough. *)
Definition better (anz : Z) (best : option (Z * Z)) (r : Z * Z) : option (Z * Z) :=
  if (r.2 >=? anz) && (match best with Some b => r.2 <? b.2 | None => true end) then Some r else best.
Definition best_run (anz : Z) (runs : list (Z * Z)) : option (Z * Z) :=
  fold_left (better anz) runs None.

Definition run_start (r : option (Z * Z)) : Z := match r with Some r => r.1 | None => -1 end.

(** *** The scan computes the best run

    Its local variables stand for the best run so far, and the last run, which
    is not counted yet. *)

Definition vars_of (best last : option (Z * Z)) : Z * Z * Z * Z :=
  (match best with Some r => r.2 | None => 33 end, run_start best,
   match last with Some r => r.2 | None => 33 end, run_start last).

Definition count_last (anz : Z) (best last : option (Z * Z)) : option (Z * Z) :=
  match last with Some r => better anz best r | None => best end.

Definition run_ok (r : option (Z * Z)) : Prop :=
  match r with Some (a, n) => 0 <= a /\ 1 <= n <= 32 | None => True end.

(** The end of the scan. *)
Lemma choose_last anz best last :
  run_ok best -> run_ok last ->
  (let '(entry_len, entry, new_entry_len, new_entry) := vars_of best last in
   if ((entry =? -1) && negb (new_entry =? -1) && (new_entry_len >=? anz)) ||
      ((new_entry_len <? entry_len) && (new_entry_len >=? anz))
   then new_entry else entry) = run_start (count_last anz best last).
Proof.
  destruct best as [[a n]|], last as [[b m]|]; simpl; intros Hb Hl; unfold better; cbn [fst snd].
  - replace (a =? -1) with false by lia. simpl. rewrite andb_comm. by case_if.
  - replace (a =? -1) with false by lia. simpl. by replace (33 <? n) with false by lia.
  - replace (b =? -1) with false by lia. simpl. rewrite andb_true_r.
    replace (m <? 33) with true by lia. simpl. by destruct (m >=? anz).
  - done.
Qed.

(** A new run starts: the last one is counted. *)
Lemma count_before anz best last :
  run_ok best -> run_ok last ->
  (let '(entry_len, entry, new_entry_len, new_entry) := vars_of best last in
   let b := (new_entry_len <? entry_len) && (new_entry_len >=? anz) in
   (if b then new_entry_len else entry_len, if b then new_entry else entry)) =
  (let '(l, e, _, _) := vars_of (count_last anz best last) None in (l, e)).
Proof.
  destruct best as [[a n]|], last as [[b m]|]; simpl; intros Hb Hl; unfold better; cbn [fst snd].
  - rewrite andb_comm. by case_if.
  - by replace (33 <? n) with false by lia.
  - replace (m <? 33) with true by lia. rewrite andb_true_r. simpl. by case_if.
  - done.
Qed.

Lemma count_last_ok anz best last : run_ok best -> run_ok last -> run_ok (count_last anz best last).
Proof. intros Hb Hl. destruct last as [r|]; [|done]. unfold count_last, better. by case_if. Qed.

(** [open] is [j]: whether the last run is still open. *)
Lemma find_room_runs anz map i (best last : option (Z * Z)) (j : bool) :
  run_ok best -> run_ok last -> 0 <= i -> i + zlen map <= 32 ->
  (if j then exists a n, last = Some (a, n) /\ a + n = i else True) ->
  exists best' last',
    (let '(l, e, nl, n) := vars_of best last in find_room map anz i (c_bool j) l e nl n) =
      vars_of best' last' /\ run_ok best' /\ run_ok last' /\
    count_last anz best' last' =
      fold_left (better anz) (free_runs map i (if j then last else None))
        (if j then best else count_last anz best last).
Proof.
  revert i best last j. induction map as [|m map IH]; intros i best last j Hb Hl Hi Hlen Hj.
  - exists best, last. split; [done|]. split; [done|]. split; [done|]. destruct j; [|done].
    destruct Hj as (a & n & -> & _). done.
  - rewrite zlen_cons in Hlen. pose proof (zlen_nonneg map). cbn [find_room free_runs].
    destruct (m =? -1).
    + destruct j; cbn [c_bool Z.eqb].
      * destruct Hj as (a & n & -> & Hj). simpl in Hl.
        destruct (IH (i + 1) best (Some (a, n + 1)) true) as (b' & l' & E & ? & ? & Hc);
          [done|simpl; lia|lia|lia|exists a, (n + 1); split; [done|lia]|].
        exists b', l'. by split_and!.
      * destruct (IH (i + 1) (count_last anz best last) (Some (i, 1)) true) as (b' & l' & E & ? & ? & Hc);
          [by apply count_last_ok|simpl; lia|lia|lia|by exists i, 1|].
        exists b', l'. split_and!; [|done..]. rewrite <- E.
        pose proof (count_before anz best last Hb Hl) as Hcb.
        unfold vars_of in *. injection Hcb as -> ->. done.
    + destruct (IH (i + 1) best last false) as (b' & l' & E & ? & ? & Hc); [done|done|lia|lia|done|].
      exists b', l'. split_and!; [exact E|done|done|]. rewrite Hc. destruct j; [|done].
      destruct Hj as (a & n & -> & _). done.
Qed.

Lemma best_entry_runs map anz :
  zlen map <= 32 -> best_entry map anz = run_start (best_run anz (free_runs map 0 None)).
Proof.
  intros Hlen. unfold best_entry, best_run.
  destruct (find_room_runs anz map 0 None None false) as (b & l & E & Hb & Hl & Hc); [done..|].
  change (vars_of None None) with (33, -1, 33, -1) in E. cbn [c_bool] in E. rewrite E.
  cbn [count_last] in Hc. rewrite <- Hc. by apply (choose_last anz b l).
Qed.

(** *** What the best run is *)

Lemma best_run_spec anz runs best :
  match best with Some b => anz <= b.2 | None => True end ->
  match fold_left (better anz) runs best with
  | Some r => (best = Some r \/ In r runs) /\ anz <= r.2 /\
      (forall x, In x runs -> anz <= x.2 -> r.2 <= x.2) /\
      (match best with Some b => r.2 <= b.2 | None => True end)
  | None => best = None /\ forall x, In x runs -> x.2 < anz
  end.
Proof.
  revert best. induction runs as [|x runs IH]; intros best Hb; simpl.
  - destruct best; split_and!; auto; lia || done.
  - assert (match better anz best x with Some b => anz <= b.2 | None => True end) as Hb'.
    { unfold better. case_if; [|done]. apply andb_true_iff in Ec as [Ec _]. lia. }
    specialize (IH _ Hb'). destruct (fold_left (better anz) runs (better anz best x)) as [r|].
    + destruct IH as (Hin & Hr & Hmin & Hle). unfold better in Hin, Hle.
      destruct ((x.2 >=? anz) && _) eqn:E.
      * split_and!; [|done| |].
        -- destruct Hin as [[= <-]|Hin]; right; [by left|by right].
        -- intros y [<-|Hy] Hy'; [done|auto].
        -- apply andb_true_iff in E as [_ E]. destruct best; [lia|done].
      * split_and!; [tauto|done| |done]. intros y [<-|Hy] Hy'; [|auto].
        apply andb_false_iff in E as [E|E]; [lia|]. destruct best as [b|]; [lia|done].
    + destruct IH as [Hn Hall]. unfold better in Hn. destruct ((x.2 >=? anz) && _) eqn:E; [done|].
      split; [done|]. intros y [<-|Hy]; [|auto].
      apply andb_false_iff in E as [E|E]; [lia|]. by subst best.
Qed.

(** A maximal run of free entries. *)
Definition is_run (map : list Z) (a n : Z) : Prop :=
  0 <= a /\ 1 <= n /\ a + n <= zlen map /\
  (forall k, a <= k < a + n -> at_ map k = -1) /\
  (0 < a -> at_ map (a - 1) <> -1) /\ (a + n < zlen map -> at_ map (a + n) <> -1).

(** A run that is open at [i]. *)
Definition open_run (map : list Z) (i : Z) (cur : option (Z * Z)) : Prop :=
  match cur with
  | Some (a, n) => 0 <= a /\ 1 <= n /\ a + n = i /\ (forall k, a <= k < i -> at_ map k = -1) /\
      (0 < a -> at_ map (a - 1) <> -1)
  | None => 0 < i -> at_ map (i - 1) <> -1
  end.

Lemma at_middle pre m map : at_ (pre ++ m :: map) (zlen pre) = m.
Proof. rewrite at_app_r by lia. by rewrite Z.sub_diag. Qed.

Lemma free_runs_run pre map cur a n :
  open_run (pre ++ map) (zlen pre) cur -> In (a, n) (free_runs map (zlen pre) cur) ->
  is_run (pre ++ map) a n.
Proof.
  revert pre cur. induction map as [|m map IH]; intros pre cur Ho Hin.
  - rewrite app_nil_r in *. destruct cur as [[b k]|]; [|done]. destruct Hin as [[= -> ->]|[]].
    destruct Ho as (? & ? & E & Hf & Hb). split_and!; [done|done|lia| |done|lia].
    intros j Hj. apply Hf. lia.
  - assert (pre ++ m :: map = (pre ++ [m]) ++ map) as E by (by rewrite <- app_assoc).
    assert (zlen (pre ++ [m]) = zlen pre + 1) as El by (by rewrite zlen_app).
    pose proof (zlen_nonneg pre). pose proof (zlen_nonneg map). pose proof (at_middle pre m map) as Hm.
    cbn [free_runs] in Hin. destruct (Z.eqb_spec m (-1)) as [->|Hne].
    + rewrite E in *. rewrite <- El in Hin. eapply IH; [|exact Hin].
      destruct cur as [[b k]|]; simpl in Ho |- *; rewrite El.
      * destruct Ho as (? & ? & ? & Hf & Hb). split_and!; [done|lia|lia| |done].
        intros j Hj. destruct (decide (j = zlen pre)) as [->|]; [done|]. apply Hf. lia.
      * split_and!; [lia|lia|lia| |done]. intros j Hj. assert (j = zlen pre) as -> by lia. done.
    + assert (open_run ((pre ++ [m]) ++ map) (zlen (pre ++ [m])) None) as Hno.
      { simpl. rewrite El, <- E. intros _. replace (zlen pre + 1 - 1) with (zlen pre) by lia. by rewrite Hm. }
      rewrite <- El in Hin. destruct cur as [[b k]|].
      * destruct Hin as [[= -> ->]|Hin]; [|rewrite E; by eapply IH].
        destruct Ho as (? & ? & Hi & Hf & Hb). rewrite <- Hi in Hm, Hf. split_and!; try done.
        -- rewrite zlen_app, zlen_cons. lia.
        -- intros _. by rewrite Hm.
      * rewrite E. by eapply IH.
Qed.

(** Every free entry from [i] on, and those of the open run, are in a run. *)
Lemma free_runs_cover pre map cur k :
  open_run (pre ++ map) (zlen pre) cur -> at_ (pre ++ map) k = -1 -> k < zlen (pre ++ map) ->
  (zlen pre <= k \/ match cur with Some (a, n) => a <= k < a + n | None => False end) ->
  exists a n, In (a, n) (free_runs map (zlen pre) cur) /\ a <= k < a + n.
Proof.
  revert pre cur. induction map as [|m map IH]; intros pre cur Ho Hk Hlt Hc.
  - rewrite app_nil_r in *. destruct Hc as [Hc|Hc]; [lia|]. destruct cur as [[a n]|]; [|done].
    exists a, n. split; [by left|done].
  - assert (pre ++ m :: map = (pre ++ [m]) ++ map) as E by (by rewrite <- app_assoc).
    assert (zlen (pre ++ [m]) = zlen pre + 1) as El by (by rewrite zlen_app).
    pose proof (zlen_nonneg pre). pose proof (at_middle pre m map) as Hm.
    cbn [free_runs]. rewrite <- El. rewrite E in Ho, Hk, Hlt, Hm.
    destruct (Z.eqb_spec m (-1)) as [->|Hne].
    + eapply IH; [|done|done|].
      * destruct cur as [[b j]|]; simpl in Ho |- *; rewrite El.
        -- destruct Ho as (? & ? & ? & Hf & Hb). split_and!; [done|lia|lia| |done].
           intros i Hi. destruct (decide (i = zlen pre)) as [->|]; [done|]. apply Hf. lia.
        -- split_and!; [lia|lia|lia| |done]. intros i Hi. by assert (i = zlen pre) as -> by lia.
      * destruct cur as [[b j]|]; rewrite El; destruct Hc as [Hc|Hc]; try done;
          simpl in Ho; lia.
    + assert (k <> zlen pre) as Hkp by (intros ->; congruence).
      assert (open_run ((pre ++ [m]) ++ map) (zlen (pre ++ [m])) None) as Hno.
      { simpl. rewrite El. intros _. replace (zlen pre + 1 - 1) with (zlen pre) by lia. by rewrite Hm. }
      destruct cur as [[b j]|].
      * destruct Hc as [Hc|Hc]; [|exists b, j; split; [by left|done]].
        destruct (IH (pre ++ [m]) None Hno Hk Hlt) as (a & n & Hin & Hr); [left; lia|].
        exists a, n. split; [by right|done].
      * destruct Hc as [Hc|[]]. eapply IH; [exact Hno|done|done|left; lia].
Qed.

(** Maximal runs that meet are the same. *)
Lemma is_run_unique map a n b m :
  is_run map a n -> is_run map b m -> b <= a < b + m -> a = b /\ n = m.
Proof.
  intros (Ha & Hn & Hl & Hf & Hs & He) (Hb & Hm & Hbl & Hbf & Hbs & Hbe) Hr.
  assert (a = b) as ->.
  { destruct (decide (a = b)); [done|]. destruct Hs; [lia|]. apply Hbf. lia. }
  split; [done|]. destruct (Z.lt_trichotomy n m) as [Hx|[Hx|Hx]]; [|done|].
  - destruct He; [lia|]. apply Hbf. lia.
  - destruct Hbe; [lia|]. apply Hf. lia.
Qed.

Lemma best_entry_spec map anz :
  zlen map <= 32 -> 1 <= anz ->
  let e := best_entry map anz in
  e = -1 /\ (forall a n, is_run map a n -> n < anz) \/
  exists n, is_run map e n /\ anz <= n /\ (forall a m, is_run map a m -> anz <= m -> n <= m).
Proof.
  intros Hlen Hanz e. subst e. rewrite best_entry_runs by done.
  assert (forall a n, In (a, n) (free_runs map 0 None) -> is_run map a n) as Hrun.
  { intros a n Hin. by apply (free_runs_run [] map None a n). }
  assert (forall a n, is_run map a n -> In (a, n) (free_runs map 0 None)) as Hcov.
  { intros a n Har. pose proof Har as (Ha & Hn & Hl & Hf & _).
    assert (at_ map a = -1) as Hfa by (apply Hf; lia).
    destruct (free_runs_cover [] map None a) as (b & m & Hin & Hr); cbn [app];
      [by intros ?|done|lia|left; rewrite zlen_nil; lia|].
    change (zlen []) with 0 in Hin.
    by destruct (is_run_unique map a n b m Har (Hrun _ _ Hin) Hr) as [-> ->]. }
  pose proof (best_run_spec anz (free_runs map 0 None) None I) as Hs. fold (best_run anz (free_runs map 0 None)) in Hs.
  destruct (best_run anz _) as [[a n]|]; cbn [run_start fst].
  - right. destruct Hs as (Hin & Hle & Hmin & _). destruct Hin as [|Hin]; [done|]. exists n.
    split; [by apply Hrun|]. split; [done|]. intros b m Hbm Hm.
    exact (Hmin _ (Hcov b m Hbm) Hm).
  - left. split; [done|]. destruct Hs as [_ Hall]. intros b m Hbm.
    exact (Hall _ (Hcov b m Hbm)).
Qed.

(** ** Blocks *)

(** Every entry is free or belongs to the block that starts at the entry the
    map names. *)
Definition section_map_ok (map : list Z) : Prop :=
  zlen map = 32 /\
  forall k, 0 <= k < 32 -> at_ map k <> -1 ->
    0 <= at_ map k <= k /\ forall j, at_ map k <= j <= k -> at_ map j = at_ map k.

Lemma mark_at map e n k :
  0 <= e -> e + Z.of_nat n <= zlen map -> 0 <= k ->
  zlen (mark_entries map e n) = zlen map /\
  at_ (mark_entries map e n) k = if (e <=? k) && (k <? e + Z.of_nat n) then e else at_ map k.
Proof.
  intros He Hn Hk. unfold mark_entries.
  assert (forall l m, (forall i, In i l -> 0 <= i < zlen m) ->
    zlen (fold_left (fun m i => setZ m i e) l m) = zlen m /\
    at_ (fold_left (fun m i => setZ m i e) l m) k = if existsb (Z.eqb k) l then e else at_ m k) as Hg.
  { intros l. induction l as [|i l IH]; intros m Hl; [done|]. cbn [fold_left existsb].
    assert (zlen (setZ m i e) = zlen m) as Hz by (unfold setZ; zl).
    destruct (IH (setZ m i e)) as [-> ->].
    { intros j Hj. rewrite Hz. apply Hl. by right. }
    split; [done|]. destruct (Z.eqb_spec k i) as [->|Hne]; cbn [orb].
    - destruct (existsb _ l); [done|].
      unfold setZ, at_. rewrite nth_lookup, list_lookup_insert_eq; [done|].
      pose proof (Hl i (or_introl eq_refl)). zl.
    - destruct (existsb _ l); [done|]. unfold setZ, at_. rewrite !nth_lookup, list_lookup_insert_ne; [done|].
      pose proof (Hl i (or_introl eq_refl)). lia. }
  destruct (Hg (seqZ e (Z.of_nat n)) map) as [-> ->].
  { intros i Hi%list_elem_of_In%elem_of_seqZ. lia. }
  split; [done|]. destruct (existsb _ _) eqn:E.
  - apply existsb_exists in E as (x & Hx%list_elem_of_In%elem_of_seqZ & ->%Z.eqb_eq). rif. done.
  - case_if; [|done]. exfalso. apply not_true_iff_false in E. destruct E. apply existsb_exists.
    exists k. split; [|apply Z.eqb_refl]. apply list_elem_of_In, elem_of_seqZ. lia.
Qed.

Lemma unmark_at fuel map nr idx k :
  zlen map = 32 -> 0 <= nr -> 32 - nr <= Z.of_nat fuel -> 0 <= k -> idx <> -1 ->
  zlen (unmark_entries fuel map nr idx) = 32 /\
  (at_ (unmark_entries fuel map nr idx) k = -1 /\ nr <= k < 32 /\
     (forall j, nr <= j <= k -> at_ map j = idx) \/
   at_ (unmark_entries fuel map nr idx) k = at_ map k /\
     (nr <= k < 32 -> exists j, nr <= j <= k /\ at_ map j <> idx)).
Proof.
  revert map nr. induction fuel as [|fuel IH]; intros map nr Hl Hnr Hf Hk Hidx; cbn [unmark_entries].
  { split; [done|]. right. split; [done|lia]. }
  destruct (Z.ltb_spec nr 32); cbn [andb]; [|split; [done|right; split; [done|lia]]].
  destruct (Z.eqb_spec (at_ map nr) idx) as [E|E].
  - assert (zlen (setZ map nr (-1)) = 32) as Hz by (unfold setZ; zl).
    assert (forall j, 0 <= j -> j <> nr -> at_ (setZ map nr (-1)) j = at_ map j) as Hne.
    { intros j Hj Hjn. unfold setZ, at_. rewrite !nth_lookup, list_lookup_insert_ne; [done|lia]. }
    assert (at_ (setZ map nr (-1)) nr = -1) as Heq.
    { unfold setZ, at_. rewrite nth_lookup, list_lookup_insert_eq; [done|zl]. }
    destruct (IH (setZ map nr (-1)) (nr + 1) Hz) as (Hl' & Hc); [lia|lia|done|done|].
    split; [done|]. destruct (decide (k = nr)) as [->|].
    + left. destruct Hc as [(_ & Hc & _)|(-> & _)]; [lia|]. split; [done|]. split; [lia|].
      intros j Hj. by assert (j = nr) as -> by lia.
    + destruct Hc as [(-> & Hr & Hall)|(-> & Hex)].
      * left. split; [done|]. split; [lia|]. intros j Hj. destruct (decide (j = nr)) as [->|]; [done|].
        rewrite <- Hne by lia. apply Hall. lia.
      * right. split; [by apply Hne|]. intros Hr. destruct Hex as (j & Hj & Hjn); [lia|].
        exists j. split; [lia|]. rewrite Hne in Hjn by lia. done.
  - split; [done|]. right. split; [done|]. intros Hr. exists nr. split; [lia|done].
Qed.

(** The block found is free, and marking it keeps the map well formed. *)
Lemma best_fit_block map anz :
  section_map_ok map -> 1 <= anz <= 16 ->
  let e := best_entry map anz in
  e = -1 /\ (forall a n, is_run map a n -> n < anz) \/
  (exists n, is_run map e n /\ anz <= n) /\ section_map_ok (mark_entries map e (Z.to_nat anz)).
Proof.
  intros [Hl Hok] Hanz e.
  destruct (best_entry_spec map anz) as [H|(n & Hrun & Hn & _)]; [lia|lia|by left|].
  fold e in Hrun. right. split; [by exists n|].
  destruct Hrun as (He & Hn1 & Hen & Hfree & _).
  assert (forall k, 0 <= k -> zlen (mark_entries map e (Z.to_nat anz)) = zlen map /\
    at_ (mark_entries map e (Z.to_nat anz)) k = if (e <=? k) && (k <? e + anz) then e else at_ map k) as Hm.
  { intros k Hk. destruct (mark_at map e (Z.to_nat anz) k) as [-> ->]; [lia|lia|done|].
    rewrite Z2Nat.id by lia. done. }
  split; [destruct (Hm 0); lia|]. intros k Hk. destruct (Hm k) as [_ ->]; [lia|]. intros Hne. case_if_in Hne.
  - split; [lia|]. intros j Hj. destruct (Hm j) as [_ ->]; [lia|]. by rif.
  - destruct (Hok k Hk Hne) as [Hr Hj]. split; [done|]. intros j Hjr.
    destruct (Hm j) as [_ ->]; [lia|]. rewrite Hj by done. case_if; [|done]. exfalso.
    apply Hne. rewrite <- (Hj j Hjr). apply Hfree. lia.
Qed.

(** the search for room in the filter table is a best fit: it finds the
    first entry of a shortest free run that is long enough, and fails only if
    there is none.  Marking the block keeps the map well formed, gives the
    block nothing but free entries, and freeing the block afterwards restores
    the map. *)
Theorem section_map_best_fit map anz :
  section_map_ok map -> 1 <= anz <= 16 ->
  let e := best_entry map anz in
  let map' := mark_entries map e (Z.to_nat anz) in
  e = -1 /\ (forall a n, is_run map a n -> n < anz) \/
  (exists n, is_run map e n /\ anz <= n /\ (forall a m, is_run map a m -> anz <= m -> n <= m)) /\
  section_map_ok map' /\ unmark_entries 32 map' e e = map.
Proof.
  intros [Hl Hok] Hanz e map'.
  destruct (best_entry_spec map anz) as [H|(n & Hrun & Hn & Hmin)]; [lia|lia|by left|].
  fold e in Hrun. right. split; [by exists n|].
  destruct Hrun as (He & Hn1 & Hen & Hfree & Hleft & Hright).
  assert (forall k, 0 <= k -> zlen map' = 32 /\ at_ map' k = if (e <=? k) && (k <? e + anz) then e else at_ map k) as Hm.
  { intros k Hk. subst map'. destruct (mark_at map e (Z.to_nat anz) k) as [-> ->]; [lia|lia|done|].
    rewrite Z2Nat.id by lia. done. }
  destruct (Hm 0) as [Hz _]; [lia|].
  split.
  - destruct (best_fit_block map anz (conj Hl Hok) Hanz) as [[Hx _]|[_ H]]; [fold e in Hx; lia|exact H].
  - apply list_eq_at.
    { destruct (unmark_at 32 map' e e 0) as [-> _]; lia || done. }
    intros k Hk. destruct (unmark_at 32 map' e e k) as [Hz' Hc]; [done|lia|lia|lia|lia|].
    rewrite Hz' in Hk. destruct (Hm k) as [_ Hmk]; [lia|].
    destruct Hc as [(-> & Hr & Hall)|(-> & Hex)].
    + symmetry. destruct (Z.ltb_spec k (e + anz)); [apply Hfree; lia|].
      (* the block ends before k: the entry behind it is not marked with e *)
      exfalso. specialize (Hall (e + anz) ltac:(lia)). destruct (Hm (e + anz)) as [_ Hx]; [lia|].
      rewrite Hall in Hx. case_if_in Hx; [lia|].
      destruct (Hok (e + anz)) as [_ Hj]; [lia|lia|].
      specialize (Hj e ltac:(lia)). rewrite Hfree in Hj by lia. lia.
    + rewrite Hmk. case_if; [|done]. exfalso. destruct Hex as (j & Hj & Hjn); [lia|].
      destruct (Hm j) as [_ Hx]; [lia|]. rewrite Hx in Hjn. case_lia.
Qed.

Lemma section_map_best_fit_witness :
  let map := replicate 4 0 ++ replicate 5 (-1) ++ replicate 8 9 ++ replicate 3 (-1) ++ replicate 12 20 in
  best_entry map 3 = 17 /\
  unmark_entries 32 (mark_entries map 17 3) 17 17 = map.
Proof.
  intros map.
  assert (section_map_ok map) as Hok.
  { split; [done|]. assert (forallb (fun k => (at_ map k =? -1) ||
      ((0 <=? at_ map k) && (at_ map k <=? k) &&
       forallb (fun j => at_ map j =? at_ map k) (seqZ (at_ map k) (k - at_ map k + 1)))) (seqZ 0 32) = true)
      as H by (vm_compute; reflexivity).
    rewrite forallb_forall in H. intros k Hk Hne. specialize (H k).
    rewrite <- list_elem_of_In, elem_of_seqZ in H. specialize (H Hk).
    apply orb_true_iff in H as [H|H]; [lia|].
    apply andb_true_iff in H as [Hr Hall]. split; [lia|]. intros j Hj.
    rewrite forallb_forall in Hall. apply Z.eqb_eq, Hall. rewrite <- list_elem_of_In, elem_of_seqZ. lia. }
  destruct (section_map_best_fit map 3 Hok ltac:(lia)) as [[H _]|(_ & _ & H)].
  - exfalso. vm_compute in H. discriminate.
  - split; [vm_compute; reflexivity|exact H].
Defined.
