(* ===== verification/AviaUcodeSpec.v ===== *)
(** * What the driver stores in the microcode's tables
    (avia/avia_gt_ucode.c)

    Theorems about the tables: programming the filters of a feed writes its
    entries and nothing else, descrambler keys go to their own slots; and two
    sequences of calls that do not do what they mean to. *)

From S2P Require Import Prelude DemuxState AviaFilter AviaFilterSpec AviaUcode AviaSectionMap.

(** ** Writes to the RAM *)

(** [m'] is [m] with [src] at [dest]. *)
Definition patched (m m' : list Z) (dest : Z) (src : list Z) : Prop :=
  zlen m' = zlen m /\
  forall i, 0 <= i < zlen m ->
    at_ m' i = if (dest <=? i) && (i <? dest + zlen src) then at_ src (i - dest) else at_ m i.

Lemma memcpy_patched m dest src m' : memcpy_to m dest src = Ok m' -> patched m m' dest src.
Proof.
  intros H. split; [pose proof (memcpy_to_length _ _ _ _ H); zl|]. intros i Hi. by apply (memcpy_at m).
Qed.

Definition ram_ok (u : ucode) : Prop := zlen (riscram u) = DMX_RISC_RAM_SIZE.

Lemma risc_write_run dest src u :
  ram_ok u -> 0 <= dest -> dest + zlen src <= DMX_RISC_RAM_SIZE ->
  exists m, avia_gt_dmx_risc_write dest src u = Ok (2 * zlen src, set_riscram m u) /\
    patched (riscram u) m dest src.
Proof.
  unfold ram_ok, DMX_RISC_RAM_SIZE. intros Hr Hd Hl. unfold avia_gt_dmx_risc_write, DMX_RISC_RAM_SIZE.
  pose proof (zlen_nonneg src).
  replace ((dest <? 0) || (dest + zlen src >? 0x400)) with false by lia.
  assert (zlen (replicate (Z.to_nat (zlen src)) 0) = zlen src) as Hz by zl.
  destruct (memcpy_to_some (riscram u) dest (replicate (Z.to_nat (zlen src)) 0)) as [m1 Hm1]; [lia|lia|].
  pose proof (memcpy_patched _ _ _ _ Hm1) as [Hl1 H1].
  destruct (memcpy_to_some m1 dest src) as [m2 Hm2]; [lia|lia|].
  pose proof (memcpy_patched _ _ _ _ Hm2) as [Hl2 H2].
  exists m2. split.
  - unfold avia_gt_dmx_memset16, avia_gt_dmx_memcpy16, mbind_. rewrite Hm1. simpl.
    change (riscram (set_riscram m1 u)) with m1. by rewrite Hm2.
  - split; [lia|]. intros i Hi. rewrite H2 by lia. case_if; [done|]. rewrite H1 by lia.
    rewrite Hz, Ec. done.
Qed.

(** ** Programming the filters of a feed *)

(** The nine words of entry [k] of the three parameter tables. *)
Definition entry_words (m : list Z) (k : Z) : list Z :=
  map (at_ m) [DMX_FILTER_PARAMETER_TABLE_1 + 3 * k; DMX_FILTER_PARAMETER_TABLE_1 + 3 * k + 1;
    DMX_FILTER_PARAMETER_TABLE_1 + 3 * k + 2;
    DMX_FILTER_PARAMETER_TABLE_2 + 3 * k; DMX_FILTER_PARAMETER_TABLE_2 + 3 * k + 1;
    DMX_FILTER_PARAMETER_TABLE_2 + 3 * k + 2;
    DMX_FILTER_PARAMETER_TABLE_3 + 3 * k; DMX_FILTER_PARAMETER_TABLE_3 + 3 * k + 1;
    DMX_FILTER_PARAMETER_TABLE_3 + 3 * k + 2].

Definition fpe_words (e : fpe) : list Z := words_1 e ++ words_2 e ++ words_3 e.

Lemma flat_map_zlen {A} (g : A -> list Z) l :
  (forall a, length (g a) = 3%nat) -> zlen (flat_map g l) = 3 * zlen l.
Proof.
  intros Hg. induction l as [|a l IH]; [done|]. simpl. rewrite zlen_app, zlen_cons, IH.
  specialize (Hg a). unfold zlen in *. lia.
Qed.

Lemma flat_map_at {A} (g : A -> list Z) l i a j :
  (forall a, length (g a) = 3%nat) -> l !! i = Some a -> 0 <= j < 3 ->
  at_ (flat_map g l) (3 * Z.of_nat i + j) = at_ (g a) j.
Proof.
  intros Hg. revert i. induction l as [|b l IH]; intros i Hi Hj; [done|].
  specialize (Hg b) as Hb. cbn [flat_map]. destruct i as [|i]; simpl in Hi.
  - injection Hi as ->. apply at_app_l. unfold zlen. lia.
  - rewrite at_app_r by (unfold zlen; lia). rewrite <- (IH i Hi Hj). f_equal. unfold zlen. lia.
Qed.

Definition block (e n k : Z) : bool := (e <=? k) && (k <? e + n).

(** The words of [n] entries from [e] on, in the three tables, and the word of
    their definition. *)
Definition touched (e n i : Z) : bool :=
  block (DMX_FILTER_PARAMETER_TABLE_1 + 3 * e) (3 * n) i ||
  block (DMX_FILTER_PARAMETER_TABLE_2 + 3 * e) (3 * n) i ||
  block (DMX_FILTER_PARAMETER_TABLE_3 + 3 * e) (3 * n) i ||
  (i =? DMX_FILTER_DEFINITION_TABLE + e / 2).

(** The effect of the four writes. *)
Section Writes.
Context (m0 m1 m2 m3 m4 : list Z) (e w : Z) (es : list fpe).
Context (Hm : zlen m0 = DMX_RISC_RAM_SIZE) (He : 0 <= e) (Hes : e + zlen es <= 32).
Context (P1 : patched m0 m1 (DMX_FILTER_DEFINITION_TABLE + Z.shiftr (Z.land e 0xFE) 1) [w]).
Context (P2 : patched m1 m2 (DMX_FILTER_PARAMETER_TABLE_1 + 3 * e) (flat_map words_1 es)).
Context (P3 : patched m2 m3 (DMX_FILTER_PARAMETER_TABLE_2 + 3 * e) (flat_map words_2 es)).
Context (P4 : patched m3 m4 (DMX_FILTER_PARAMETER_TABLE_3 + 3 * e) (flat_map words_3 es)).

Lemma definition_slot : e < 32 -> Z.shiftr (Z.land e 0xFE) 1 = e / 2.
Proof using He.
  intros Hlt. apply Z.eqb_eq.
  apply (forall_range (fun e => Z.shiftr (Z.land e 0xFE) 1 =? e / 2) 32); [by vm_compute|lia].
Qed.

Ltac tables :=
  unfold DMX_FILTER_PARAMETER_TABLE_1, DMX_FILTER_PARAMETER_TABLE_2, DMX_FILTER_PARAMETER_TABLE_3,
    DMX_FILTER_DEFINITION_TABLE, DMX_RISC_RAM_SIZE in *.

(** A word of the RAM after the writes. *)
Lemma writes_at i : 0 < zlen es -> 0 <= i < 0x400 ->
  at_ m4 i =
    if (0x300 + 3 * e <=? i) && (i <? 0x300 + 3 * e + 3 * zlen es)
      then at_ (flat_map words_3 es) (i - (0x300 + 3 * e)) else
    if (0x280 + 3 * e <=? i) && (i <? 0x280 + 3 * e + 3 * zlen es)
      then at_ (flat_map words_2 es) (i - (0x280 + 3 * e)) else
    if (0x200 + 3 * e <=? i) && (i <? 0x200 + 3 * e + 3 * zlen es)
      then at_ (flat_map words_1 es) (i - (0x200 + 3 * e)) else
    if i =? 0x3e0 + e / 2 then w else at_ m0 i.
Proof using Hm He Hes P1 P2 P3 P4.
  intros Hn Hi. destruct P1 as [L1 A1], P2 as [L2 A2], P3 as [L3 A3], P4 as [L4 A4]. tables.
  rewrite definition_slot in A1 by lia.
  rewrite A4 by lia. rewrite flat_map_zlen by done. case_if; [done|].
  rewrite A3 by lia. rewrite flat_map_zlen by done. case_if; [done|].
  rewrite A2 by lia. rewrite flat_map_zlen by done. case_if; [done|].
  rewrite A1 by lia. change (zlen [w]) with 1. destruct (Z.eqb_spec i (0x3e0 + e / 2)) as [->|].
  - rif. by rewrite Z.sub_diag.
  - replace ((0x3e0 + e / 2 <=? i) && (i <? 0x3e0 + e / 2 + 1)) with false by lia. done.
Qed.

Lemma writes_entry k : 0 < zlen es -> 0 <= k < 32 ->
  entry_words m4 k =
    match (if (e <=? k) && (k <? e + zlen es) then es !! Z.to_nat (k - e) else None) with
    | Some x => fpe_words x
    | None => entry_words m0 k
    end.
Proof using Hm He Hes P1 P2 P3 P4.
  intros Hn Hk. unfold entry_words. tables. cbn [map].
  assert (0 <= e / 2) by (apply Z.div_pos; lia).
  rewrite !writes_at by lia.
  destruct ((e <=? k) && (k <? e + zlen es)) eqn:E.
  - destruct (lookup_lt_is_Some_2 es (Z.to_nat (k - e))) as [x Hx]; [zl|]. rewrite Hx.
    assert (forall g : fpe -> list Z, (forall a, length (g a) = 3%nat) -> forall b j, 0 <= j < 3 ->
      at_ (flat_map g es) (b + 3 * k + j - (b + 3 * e)) = at_ (g x) j) as Hf.
    { intros g Hg b j Hj. rewrite <- (flat_map_at g es _ x j Hg Hx Hj). f_equal. lia. }
    rif. pose proof (fun g Hg b => Hf g Hg b 0 ltac:(lia)) as H0.
    setoid_rewrite Z.add_0_r in H0. rewrite !H0, !Hf by (done || lia).
    by destruct x as [[[] []] []].
  - rif. done.
Qed.

Lemma writes_other i : 0 < zlen es -> 0 <= i < 0x400 -> touched e (zlen es) i = false -> at_ m4 i = at_ m0 i.
Proof using Hm He Hes P1 P2 P3 P4.
  intros Hn Hi Ht. unfold touched, block in Ht. tables. rewrite writes_at by lia. by rif.
Qed.

Lemma writes_definition : 0 < zlen es -> at_ m4 (0x3e0 + e / 2) = w.
Proof using Hm He Hes P1 P2 P3 P4.
  intros Hn. assert (0 <= e / 2) by (apply Z.div_pos; lia). assert (e / 2 < 16) by (apply Z.div_lt_upper_bound; lia).
  rewrite writes_at by lia. by rif.
Qed.
End Writes.

(** [m'] is the RAM [m] with [es] as the entries from [e] on, and [w] as the
    word of their definition; no other word of the RAM differs. *)
Record programmed (m m' : list Z) (e w : Z) (es : list fpe) : Prop := {
  pr_length : zlen m' = DMX_RISC_RAM_SIZE;
  pr_entries : forall k, 0 <= k < 32 -> entry_words m' k =
    match (if block e (zlen es) k then es !! Z.to_nat (k - e) else None) with
    | Some x => fpe_words x
    | None => entry_words m k
    end;
  pr_definition : at_ m' (DMX_FILTER_DEFINITION_TABLE + e / 2) = w;
  pr_other : forall i, 0 <= i < DMX_RISC_RAM_SIZE -> touched e (zlen es) i = false -> at_ m' i = at_ m i;
}.

Lemma program_entries_run e es u :
  ram_ok u -> 0 <= e -> e + zlen es <= 32 -> 0 < zlen es ->
  exists m, program_entries e es u = Ok (tt, set_riscram m u) /\
    programmed (riscram u) m e (definition_word (filter_definition_table u) e) es.
Proof.
  intros Hr He Hes Hn. unfold program_entries. mrun.
  assert (0 <= e / 2 < 16) as Hhalf.
  { split; [apply Z.div_pos; lia|apply Z.div_lt_upper_bound; lia]. }
  set (w := definition_word _ e).
  assert (DMX_FILTER_DEFINITION_TABLE + Z.shiftr (Z.land e 0xFE) 1 = 0x3e0 + e / 2) as Hslot.
  { rewrite definition_slot by lia. done. }
  destruct (risc_write_run (DMX_FILTER_DEFINITION_TABLE + Z.shiftr (Z.land e 0xFE) 1) [w] u Hr)
    as (m1 & E1 & P1); [lia|change (zlen [w]) with 1; unfold DMX_RISC_RAM_SIZE; lia|].
  rewrite (mbind_Ok _ _ _ _ _ E1).
  assert (ram_ok (set_riscram m1 u)) as Hr1 by (destruct P1 as [L _]; unfold ram_ok in *; simpl; lia).
  destruct (risc_write_run (DMX_FILTER_PARAMETER_TABLE_1 + 3 * e) (flat_map words_1 es) _ Hr1)
    as (m2 & E2 & P2); rewrite ?flat_map_zlen by done;
    [unfold DMX_FILTER_PARAMETER_TABLE_1; lia|unfold DMX_FILTER_PARAMETER_TABLE_1, DMX_RISC_RAM_SIZE; lia|].
  rewrite (mbind_Ok _ _ _ _ _ E2).
  assert (ram_ok (set_riscram m2 u)) as Hr2 by (destruct P2 as [L _]; unfold ram_ok in *; simpl in *; lia).
  destruct (risc_write_run (DMX_FILTER_PARAMETER_TABLE_2 + 3 * e) (flat_map words_2 es) _ Hr2)
    as (m3 & E3 & P3); rewrite ?flat_map_zlen by done;
    [unfold DMX_FILTER_PARAMETER_TABLE_2; lia|unfold DMX_FILTER_PARAMETER_TABLE_2, DMX_RISC_RAM_SIZE; lia|].
  rewrite (mbind_Ok _ _ _ _ _ E3).
  assert (ram_ok (set_riscram m3 u)) as Hr3 by (destruct P3 as [L _]; unfold ram_ok in *; simpl in *; lia).
  destruct (risc_write_run (DMX_FILTER_PARAMETER_TABLE_3 + 3 * e) (flat_map words_3 es) _ Hr3)
    as (m4 & E4 & P4); rewrite ?flat_map_zlen by done;
    [unfold DMX_FILTER_PARAMETER_TABLE_3; lia|unfold DMX_FILTER_PARAMETER_TABLE_3, DMX_RISC_RAM_SIZE; lia|].
  rewrite (mbind_Ok _ _ _ _ _ E4). exists m4. split; [done|].
  cbn [riscram set_riscram] in P2, P3, P4. split.
  - destruct P1 as [L1 _], P2 as [L2 _], P3 as [L3 _], P4 as [L4 _]. unfold ram_ok in Hr. lia.
  - intros k Hk. unfold block. by apply (writes_entry (riscram u) m1 m2 m3 m4 e w es).
  - by apply (writes_definition (riscram u) m1 m2 m3 m4 e w es).
  - intros i Hi Hne. by apply (writes_other (riscram u) m1 m2 m3 m4 e w es).
Qed.

(** A single filter that looks at one of the bytes the hardware can compare is
    translated. *)
Lemma last_masked_used mask ks : forall init, init <> -1 \/ (exists k, In k ks /\ at_ mask k <> 0) ->
  (forall k, In k ks -> k <> -1) -> last_masked mask ks init <> -1.
Proof.
  unfold last_masked. induction ks as [|k ks IH]; intros init H Hk; cbn [fold_left]; [by destruct H as [|(? & [] & _)]|].
  apply IH; [|intros j Hj; apply Hk; by right]. destruct (Z.eqb_spec (at_ mask k) 0) as [E|E].
  - destruct H as [?|(j & [->|Hj] & Hm)]; [by left|done|right; by exists j].
  - left. apply Hk. by left.
Qed.

Lemma single_translated junk f i :
  0 <= i < 8 -> at_ (filter_mask f) (hw_byte i) <> 0 -> exists p, hw_translate junk [f] = Ok (Some p).
Proof.
  intros Hi Hm. unfold hw_translate. cbn [normalize_chain MAX_SECTION_FILTERS].
  destruct (Z.eqb_spec (hw_in_use (normalize junk f)) (-1)) as [E|_]; [|by eexists]. exfalso. revert E.
  unfold normalize. cbv zeta. cbn [hw_in_use]. set (mask := hw_bytes _).
  assert (forall k, 0 <= k < 8 -> at_ mask k = at_ (filter_mask f) (hw_byte k)) as Hat.
  { intros k Hk. unfold mask, hw_bytes, at_ at 1. rewrite nth_lookup, list_lookup_fmap, lookup_seqZ_lt by lia. cbn.
    do 2 f_equal. lia. }
  rewrite <- Hat in Hm by lia. apply last_masked_used.
  - destruct (Z.eq_dec i 0) as [->|Hne]; [left; by rif|right].
    exists i. split; [|done]. apply list_elem_of_In, elem_of_seqZ. lia.
  - intros k Hk%list_elem_of_In%elem_of_seqZ. lia.
Qed.

(** C28: programming the filters of a feed.  The entries of the translated
    filters go to a block of entries that were free before, which is marked as
    one block in the map; their definition is set; and no other word of the
    chip's RAM changes (other entries and definitions, PID tables, descrambler
    keys, code), nor does anything else of the state, and interrupts are on or
    off as before.  The function gives up, and then nothing has changed, only
    when the filters have no translation or no free run of entries is long
    enough.  A single filter that looks at one of the eight bytes that the
    hardware compares has a translation. *)
Theorem alloc_section_filter_programs junk chain u :
  ram_ok u -> section_map_ok (section_map u) -> (forall f, f ∈ chain -> bytes (filter_mask f)) ->
  ((prop_ucode_alloc_section_filter junk chain u = Ok (None, u) /\
    (hw_translate junk chain = Ok None \/
     exists p es, hw_translate junk chain = Ok (Some p) /\ hw_entries p = Ok es /\
       forall a n, is_run (section_map u) a n -> n < zlen es)) \/
   exists p es e m,
    hw_translate junk chain = Ok (Some p) /\ hw_entries p = Ok es /\
    0 <= e /\ e + zlen es <= 32 /\
    (forall k, e <= k < e + zlen es -> at_ (section_map u) k = -1) /\
    section_map_ok (mark_entries (section_map u) e (length es)) /\
    let t := set_and_or (filter_definition_table u) e (hp_and_or p) in
    prop_ucode_alloc_section_filter junk chain u =
      Ok (Some (mk_section e (zlen es)),
          set_riscram m (set_filter_definition_table t
            (set_section_map (mark_entries (section_map u) e (length es)) u))) /\
    programmed (riscram u) m e (definition_word t e) es) /\
  (forall f i, chain = [f] -> 0 <= i < 8 -> at_ (filter_mask f) (hw_byte i) <> 0 ->
     exists p, hw_translate junk chain = Ok (Some p)).
Proof.
  intros Hr Hmap Hb. split; [|intros f i -> Hi Hm; by apply (single_translated junk f i)].
  unfold prop_ucode_alloc_section_filter.
  destruct (translate_result junk chain (fun _ => False)) as (r & -> & Hok); try done.
  mrun. destruct r as [p|]; [|left; split; [done|by left]]. destruct Hok as (es & He & [H1 H16] & Hz & _).
  mrun. rewrite Hz, He. unfold MAX_SECTION_FILTERS in H16.
  assert (1 <= zlen es <= 16) as Hzl by (unfold zlen; lia).
  pose proof (best_fit_block (section_map u) (zlen es) Hmap Hzl) as Hfit. cbv zeta in Hfit.
  set (e := best_entry (section_map u) (zlen es)) in *.
  destruct (Z.eqb_spec e (-1)) as [Ee|].
  { left. split; [done|]. right. exists p, es. split_and!; [done|done|].
    destruct Hfit as [[_ Hno]|((n1 & (Hge & _) & _) & _)]; [exact Hno|lia]. }
  right. destruct Hfit as [[Hx _]|(Hrun & Hmok)]; [done|]. destruct Hrun as (n1 & (Hge & _ & Hend & Hfree & _) & Hn1).
  assert (Z.to_nat (zlen es) = length es) as En by (unfold zlen; lia). rewrite En in *.
  destruct Hmap as [Hml _]. mrun.
  set (t := set_and_or _ e _).
  set (u1 := set_filter_definition_table t _).
  destruct (program_entries_run e es (set_irqs_off true u1)) as (m & Em & Hpr); [exact Hr|lia|lia|lia|].
  exists p, es, e, m. split_and!; try done; try lia; [intros k Hk; apply Hfree; lia|].
  unfold local_irq_save. erewrite mbind_Ok by reflexivity. rewrite (mbind_Ok _ _ _ _ _ Em). mrun.
  unfold local_irq_restore. mrun. unfold mret_. do 2 f_equal.
Qed.

(** A state after initialisation, with nothing loaded. *)
Definition empty_ucode : ucode :=
  mk_ucode (replicate (Z.to_nat DMX_RISC_RAM_SIZE) 0)
    (replicate AVIA_GT_UCODE_MAXIMUM_FEED_NUMBER fresh_feed)
    (replicate AVIA_GT_UCODE_MAXIMUM_SECTION_FILTERS (-1)) (map (fun nr => Z.shiftl nr 2) (seqZ 0 32))
    (mk_ucode_info (Z.lor AVIA_GT_UCODE_CAP_PES AVIA_GT_UCODE_CAP_SEC) CAN_WAITPUSI 1 [0; 3; 4]) false.

Lemma alloc_section_filter_programs_witness :
  exists u', prop_ucode_alloc_section_filter no_junk hw_example_chain empty_ucode =
    Ok (Some (mk_section 0 1), u') /\ at_ (section_map u') 0 = 0 /\
    entry_words (riscram u') 0 = [0xfb42; 0; 0; 0x3e0a; 0; 0; 0; 0; 0x0200].
Proof.
  destruct (alloc_section_filter_programs no_junk hw_example_chain empty_ucode)
    as [[[H _]|(p & es & e & m & Hp & He & _ & _ & _ & _ & H & Hpr)] _].
  - done.
  - split; [done|]. intros k Hk Hne. exfalso. apply Hne. unfold at_. rewrite nth_lookup.
    cbn [section_map empty_ucode]. rewrite lookup_replicate_2; [done|].
    unfold AVIA_GT_UCODE_MAXIMUM_SECTION_FILTERS. lia.
  - exact hw_example_bytes.
  - exfalso. vm_compute in H. discriminate.
  - eexists. rewrite H. vm_compute in Hp. injection Hp as <-. vm_compute in He. injection He as <-.
    assert (e = 0) as ->.
    { assert (prop_ucode_alloc_section_filter no_junk hw_example_chain empty_ucode = Ok (Some (mk_section 0 1),
        match prop_ucode_alloc_section_filter no_junk hw_example_chain empty_ucode with
        | Ok p => p.2 | _ => empty_ucode end)) as H' by (vm_compute; reflexivity).
      rewrite H in H'. by injection H'. }
    split; [done|]. split; [done|].
    pose proof (pr_entries _ _ _ _ _ Hpr 0 ltac:(lia)) as Hw. exact Hw.
Defined.

(** ** Descrambler keys *)

(** The four words of the key [parity] of descrambler [index]. *)
Definition key_slot (m : list Z) (index parity : Z) : list Z :=
  map (fun j => at_ m (cw_offset_of index parity + j)) [0; 1; 2; 3].

Definition descrambler (index parity : Z) : Prop := 0 <= index < 8 /\ 0 <= parity < 2.

(** Words that belong to no key. *)
Definition no_key (i : Z) : bool :=
  negb ((DMX_CONTROL_WORDS_1 <=? i) && (i <? DMX_CONTROL_WORDS_1 + 24) ||
        (DMX_CONTROL_WORDS_2 <=? i) && (i <? DMX_CONTROL_WORDS_2 + 24) ||
        (DMX_CONTROL_WORDS_3 <=? i) && (i <? DMX_CONTROL_WORDS_3 + 16)).

Definition slot_ok (i p : Z) : bool :=
  let o := cw_offset_of i p in
  (0 <=? o) && (o + 4 <=? DMX_RISC_RAM_SIZE) &&
  forallb (fun j => negb (no_key (o + j))) [0; 1; 2; 3].
Definition slots_apart (i p i' p' : Z) : bool :=
  (i =? i') && (p =? p') ||
  (cw_offset_of i p + 4 <=? cw_offset_of i' p') || (cw_offset_of i' p' + 4 <=? cw_offset_of i p).

Lemma descrambler_forall (P : Z -> Z -> bool) :
  forallb (fun i => forallb (P i) [0; 1]) (seqZ 0 8) = true ->
  forall i p, descrambler i p -> P i p = true.
Proof.
  intros H i p [Hi Hp]. rewrite forallb_forall in H. specialize (H i).
  rewrite <- list_elem_of_In, elem_of_seqZ in H. specialize (H ltac:(lia)).
  rewrite forallb_forall in H. apply H. assert (p = 0 \/ p = 1) as [->| ->] by lia; simpl; auto.
Qed.

Lemma slot_ok_all i p : descrambler i p -> slot_ok i p = true.
Proof. apply (descrambler_forall slot_ok). by vm_compute. Qed.

Lemma slots_apart_all i p i' p' :
  descrambler i p -> descrambler i' p' -> slots_apart i p i' p' = true.
Proof.
  intros H H'. assert (forallb (fun j => forallb (slots_apart i p j) [0; 1]) (seqZ 0 8) = true) as Hall.
  { apply (descrambler_forall (fun i p =>
      forallb (fun j => forallb (slots_apart i p j) [0; 1]) (seqZ 0 8))); [by vm_compute|done]. }
  by apply (descrambler_forall (slots_apart i p)).
Qed.

Lemma locked_run dest src u :
  ram_ok u -> 0 <= dest -> dest + zlen src <= DMX_RISC_RAM_SIZE ->
  exists m, risc_write_locked dest src u = Ok (tt, set_riscram m u) /\ patched (riscram u) m dest src.
Proof.
  intros Hr Hd Hl. unfold risc_write_locked, local_irq_save. erewrite mbind_Ok by reflexivity.
  destruct (risc_write_run dest src (set_irqs_off true u)) as (m & Em & Pm); [done..|].
  rewrite (mbind_Ok _ _ _ _ _ Em). by exists m.
Qed.

(** Storing a descrambler key.  For the indices and parities the device
    accepts, the eight bytes go to a slot of their own inside the RAM: they are
    what the slot holds afterwards, the keys of every other index and parity
    are as before, and so is every word that is not part of a key: the filter
    entries and the PID tables. *)
Theorem ecd_set_key_slot index parity cw u :
  ram_ok u -> descrambler index parity -> zlen cw = 4 ->
  exists m, prop_ucode_ecd_set_key index parity cw u = Ok (0, set_riscram m u) /\
    key_slot m index parity = cw /\
    (forall i p, descrambler i p -> (i, p) <> (index, parity) ->
       key_slot m i p = key_slot (riscram u) i p) /\
    (forall i, 0 <= i < DMX_RISC_RAM_SIZE -> no_key i = true -> at_ m i = at_ (riscram u) i).
Proof.
  intros Hr Hd Hcw. pose proof (slot_ok_all index parity Hd) as Hs. unfold slot_ok in Hs. split_bools.
  rewrite forallb_forall in H0.
  destruct (locked_run (cw_offset_of index parity) cw u Hr) as (m & Em & Hl & Hm); [lia|lia|].
  unfold ram_ok in Hr. rewrite Hr in Hm, Hl. unfold DMX_RISC_RAM_SIZE in *.
  exists m. unfold prop_ucode_ecd_set_key. rewrite (mbind_Ok _ _ _ _ _ Em). split; [done|]. split; [|split].
  - apply list_eq_at; [done|]. intros i Hi. change (zlen (key_slot _ _ _)) with 4 in Hi.
    assert (at_ (key_slot m index parity) i = at_ m (cw_offset_of index parity + i)) as ->.
    { assert (i = 0 \/ i = 1 \/ i = 2 \/ i = 3) as Hc by lia.
      repeat destruct Hc as [->|Hc]; try subst i; done. }
    rewrite Hm by lia. rif. f_equal. lia.
  - intros i p Hip Hne. pose proof (slot_ok_all i p Hip) as Hs. unfold slot_ok in Hs.
    pose proof (slots_apart_all _ _ _ _ Hd Hip) as Ha. unfold slots_apart, DMX_RISC_RAM_SIZE in *.
    assert ((index =? i) && (parity =? p) = false) as Hf.
    { destruct (Z.eqb_spec index i), (Z.eqb_spec parity p); subst; done. }
    rewrite Hf in Ha. cbn [orb] in Ha. split_bools. unfold key_slot. cbn [map].
    rewrite !Hm by lia. by rif.
  - intros i Hi Hn. rewrite Hm by lia. case_if; [|done]. exfalso.
    specialize (H0 (i - cw_offset_of index parity)).
    replace (cw_offset_of index parity + (i - cw_offset_of index parity)) with i in H0 by lia.
    rewrite Hn in H0. discriminate H0. assert (i - cw_offset_of index parity = 0 \/ i - cw_offset_of index parity = 1 \/
      i - cw_offset_of index parity = 2 \/ i - cw_offset_of index parity = 3) as Hc by lia. simpl.
    repeat destruct Hc as [->|Hc]; auto.
Qed.

Lemma ecd_set_key_slot_witness :
  exists m, prop_ucode_ecd_set_key 7 1 [1; 2; 3; 4] empty_ucode = Ok (0, set_riscram m empty_ucode) /\
    key_slot m 7 1 = [1; 2; 3; 4].
Proof.
  destruct (ecd_set_key_slot 7 1 [1; 2; 3; 4] empty_ucode) as (m & E & H & _);
    [done|by vm_compute|done|]. by exists m.
Defined.

(** ** Interrupts left off *)

Lemma find_feed_none p l i : (forall f, f ∈ l -> p f = false) -> find_feed p l i = None.
Proof.
  revert i. induction l as [|f l IH]; intros i H; simpl; [done|].
  rewrite H by (apply elem_of_cons; by left). apply IH. intros g Hg. apply H, elem_of_cons. by right.
Qed.

(** Code bug: [prop_ucode_alloc_generic_feed] turns the interrupts off
    and returns without turning them on again when no feed is free, and when
    the section filter it is given is not allocated. *)
Theorem alloc_feed_leaves_irqs_off queue_nr type section pid u :
  irqs_off u = false ->
  (forall f, f ∈ ucode_feed u -> dest_queue f <> -1) \/
  (exists s, section = Some s /\ at_ (section_map u) (sec_idx s) = -1) ->
  exists u', prop_ucode_alloc_generic_feed queue_nr type section pid u = Ok (0xff, u') /\
    irqs_off u' = true.
Proof.
  intros Hoff Hc. unfold prop_ucode_alloc_generic_feed, local_irq_save.
  erewrite mbind_Ok by reflexivity. mrun. cbn [ucode_feed set_irqs_off section_map].
  destruct (find_feed _ _ _) as [i|] eqn:Ef; [|by eexists].
  destruct Hc as [Hall|(s & -> & Hs)].
  - rewrite find_feed_none in Ef; [done|]. intros f Hf. by apply Z.eqb_neq, Hall.
  - rewrite Hs. cbn [Z.eqb Z.opp Pos.eqb]. mrun. by eexists.
Qed.

Lemma alloc_feed_leaves_irqs_off_witness :
  irqs_off empty_ucode = false /\
  exists u', prop_ucode_alloc_section_feed 3 (Some (mk_section 4 1)) 0x100 empty_ucode = Ok (0xff, u') /\
    irqs_off u' = true.
Proof.
  split; [done|]. unfold prop_ucode_alloc_section_feed.
  apply (alloc_feed_leaves_irqs_off 3 SECTION (Some (mk_section 4 1)) 0x100 empty_ucode); [done|].
  right. exists (mk_section 4 1). by vm_compute.
Defined.
