(* ===== verification/AviaQueue.v ===== *)
(** * The queues of the hardware demultiplexer (avia/avia_gt_dmx.c)

    The demultiplexer writes the packets, PES data or sections it selects into
    32 circular buffers in its memory; the driver reads them there.  This file
    models one queue: its record, and the operations on its contents.  Memory
    is the list of the bytes of the chip; positions are relative to the
    queue's [mem_addr]. *)

From S2P Require Import Prelude Fifo.

Record sAviaGtDmxQueue := mk_queue {
  cb_proc : option Z;        (* bottom half, by the name of the function *)
  hw_read_pos : Z;
  hw_write_pos : Z;
  feed_idx : Z;
  irq_count : Z;
  irq_proc : option Z;
  mem_addr : Z;
  priv_data : Z;
  qim_irq_count : Z;
  qim_jiffies : Z;
  read_pos : Z;
  qsize : Z;
  write_pos : Z;
  pid : Z;
  busy : bool;
  overflow_count : Z;
  qim_mode : bool;
  mode : Z;
  running : bool;
}.
#[export] Instance sAviaGtDmxQueue_eta : Eta sAviaGtDmxQueue := fun r =>
  mk_queue (cb_proc r) (hw_read_pos r) (hw_write_pos r) (feed_idx r) (irq_count r) (irq_proc
    r) (mem_addr r) (priv_data r) (qim_irq_count r) (qim_jiffies r) (read_pos r) (qsize r)
    (write_pos r) (pid r) (busy r) (overflow_count r) (qim_mode r) (mode r) (running r).
Definition set_cb_proc := setter! cb_proc.
Definition set_hw_read_pos := setter! hw_read_pos.
Definition set_hw_write_pos := setter! hw_write_pos.
Definition set_feed_idx := setter! feed_idx.
Definition set_irq_count := setter! irq_count.
Definition set_irq_proc := setter! irq_proc.
Definition set_mem_addr := setter! mem_addr.
Definition set_priv_data := setter! priv_data.
Definition set_qim_irq_count := setter! qim_irq_count.
Definition set_qim_jiffies := setter! qim_jiffies.
Definition set_read_pos := setter! read_pos.
Definition set_qsize := setter! qsize.
Definition set_write_pos := setter! write_pos.
Definition set_pid := setter! pid.
Definition set_busy := setter! busy.
Definition set_overflow_count := setter! overflow_count.
Definition set_qim_mode := setter! qim_mode.
Definition set_mode := setter! mode.
Definition set_running := setter! running.

(** ** Sizes *)

Definition buf1_size (q : sAviaGtDmxQueue) : Z :=
  if write_pos q >=? read_pos q then write_pos q - read_pos q else qsize q - read_pos q.
Definition buf2_size (q : sAviaGtDmxQueue) : Z :=
  if write_pos q >=? read_pos q then 0 else write_pos q.
Definition bytes_avail (q : sAviaGtDmxQueue) : Z := u32 (buf1_size q + buf2_size q).
Definition buf1_ptr (q : sAviaGtDmxQueue) : Z := mem_addr q + read_pos q.
Definition buf2_ptr (q : sAviaGtDmxQueue) : Z :=
  if write_pos q >=? read_pos q then 0 else mem_addr q.

(** ** Reading

    [dest]: whether there is a destination; with [NULL] the bytes are skipped.
    Returns the number of bytes and, with a destination, the bytes. *)

Definition copy_out (dest : bool) (mem : list Z) (addr n : Z) : res (list Z) :=
  if dest then slice mem addr n else Ok [].

Definition queue_data_get (mem : list Z) (q : sAviaGtDmxQueue) (dest : bool) (count : Z) (peek : bool)
    : res (Z * list Z * sAviaGtDmxQueue) :=
  let avail := bytes_avail q in
  let count := if count >? avail then avail else count in
  let wraps := (read_pos q >? write_pos q) && (count >=? qsize q - read_pos q) in
  let done := if wraps then qsize q - read_pos q else 0 in
  let? head := if wraps then copy_out dest mem (mem_addr q + read_pos q) done else Ok [] in
  let pos := if wraps then 0 else read_pos q in
  let? rest := if negb (count - done =? 0) then copy_out dest mem (mem_addr q + pos) (count - done)
               else Ok [] in
  let q := if peek then q else set_read_pos (pos + count - done) q in
  Ok (count, head ++ rest, q).

(** With fewer bytes in the queue than asked for, part of the local variable is
    not set. *)
Definition queue_data_getn (n : Z) (mem : list Z) (q : sAviaGtDmxQueue) (peek : bool)
    : res (Z * sAviaGtDmxQueue) :=
  let? r := queue_data_get mem q true n peek in
  let '(count, l, q) := r in
  if count <? n then Fault else Ok (be_value l, q).
Definition queue_data_get8 := queue_data_getn 1.
Definition queue_data_get16 := queue_data_getn 2.
Definition queue_data_get32 := queue_data_getn 4.

Definition queue_flush (q : sAviaGtDmxQueue) : sAviaGtDmxQueue := set_read_pos (write_pos q) q.

(** ** Writing (the queues to the decoders)

    The free space up to the position the decoder reads at. *)

Definition bytes_free (q : sAviaGtDmxQueue) : Z :=
  if write_pos q >=? hw_read_pos q then u32 ((qsize q - write_pos q) + hw_read_pos q - 1)
  else u32 ((hw_read_pos q - write_pos q) - 1).

(** [queue_data_put] after the free space [free] has been determined; that
    [copy_from_user] copies everything is assumed. *)
Definition queue_data_put (mem : list Z) (q : sAviaGtDmxQueue) (src : list Z) (free : Z)
    : res (Z * list Z * sAviaGtDmxQueue) :=
  let count := if zlen src >? free then free else zlen src in
  let wraps := write_pos q + count >=? qsize q in
  let done := if wraps then qsize q - write_pos q else 0 in
  let? m1 := if wraps then
               let? s := slice src 0 done in memcpy_to mem (mem_addr q + write_pos q) s
             else Ok mem in
  let q := if wraps then set_write_pos 0 q else q in
  if negb (count - done =? 0) then
    let? s := slice src done (count - done) in
    let? m2 := memcpy_to m1 (mem_addr q + write_pos q) s in
    Ok (count, m2, set_write_pos (write_pos q + (count - done)) q)
  else Ok (count, m1, q).

(** ** The interrupt load mode

    The sixteenth of the queue after the next one. *)

Definition rnd_div (a b : Z) : res Z := if b =? 0 then Fault else Ok ((a + b / 2) / b).
Definition qim_block (q : sAviaGtDmxQueue) : res Z :=
  let? d := rnd_div (u32 (hw_write_pos q * 16)) (qsize q) in
  Ok (((u8 d + 2) mod 16) * 2).

(** ** Overflow

    The hardware writes without looking at [read_pos]; whether it has run over
    data that was not read yet is found from the old and the new position. *)
Definition hw_overflow (r old w : Z) : bool :=
  ((r <? old) && ((r <=? w) && (w <? old))) || ((old <? r) && ((r <=? w) || (w <? old))).
