(* ===== verification/AviaQueueSpec.v ===== *)
(** * Contents of a hardware queue (avia/avia_gt_dmx.c)

    What the operations of [AviaQueue] do to the bytes that wait in a queue,
    and that the overflow test of the interrupt handler is exact. *)

From S2P Require Import Prelude Fifo AviaQueue.

(** The memory of the queue lies in the chip's memory. *)
Record queue_ok (mem : list Z) (q : sAviaGtDmxQueue) : Prop := {
  qk_size : 0 < qsize q < 2 ^ 31;
  qk_addr : 0 <= mem_addr q;
  qk_mem : mem_addr q + qsize q <= zlen mem;
  qk_read : 0 <= read_pos q < qsize q;
  qk_write : 0 <= write_pos q < qsize q;
  qk_hw_read : 0 <= hw_read_pos q < qsize q;
}.

Definition region (mem : list Z) (q : sAviaGtDmxQueue) : list Z :=
  take (Z.to_nat (qsize q)) (drop (Z.to_nat (mem_addr q)) mem).

(** The bytes from position [r] to the write position. *)
Definition waiting (r : Z) (mem : list Z) (q : sAviaGtDmxQueue) : list Z :=
  ring_contents (qsize q) (region mem q) r (fill (qsize q) r (write_pos q)).
(** What the driver has still to read, and what the decoder has. *)
Definition received := fun mem q => waiting (read_pos q) mem q.
Definition to_decoder := fun mem q => waiting (hw_read_pos q) mem q.

Section Queue.
Context (mem : list Z) (q : sAviaGtDmxQueue) (Hq : queue_ok mem q).

Lemma region_zlen : zlen (region mem q) = qsize q.
Proof using Hq. destruct Hq. unfold region. by rewrite zlen_takeZ by (rewrite zlen_dropZ; lia). Qed.

Lemma region_at i : 0 <= i < qsize q -> at_ (region mem q) i = at_ mem (mem_addr q + i).
Proof using Hq. destruct Hq. intros. unfold region. rewrite at_take, at_drop by lia. done. Qed.

(** A read of the chip's memory inside the queue. *)
Lemma queue_slice r n :
  0 <= r -> 0 <= n -> r + n <= qsize q ->
  slice mem (mem_addr q + r) n = Ok (ring_contents (qsize q) (region mem q) r n).
Proof using Hq.
  intros Hr Hn Hl. pose proof region_zlen. destruct Hq.
  destruct (Z.eqb_spec n 0) as [->|].
  { rewrite ring_0. rewrite slice_ok by lia. done. }
  rewrite slice_ok by lia. f_equal. apply list_eq_at.
  - rewrite ring_zlen by lia. by rewrite zlen_takeZ by (rewrite zlen_dropZ; lia).
  - intros i Hi. rewrite zlen_takeZ in Hi by (rewrite zlen_dropZ; lia).
    rewrite at_take, at_drop, ring_at, Z.mod_small, region_at by lia. f_equal. lia.
Qed.

Lemma fill_bounds r : 0 <= r < qsize q -> 0 <= fill (qsize q) r (write_pos q) < qsize q.
Proof using Hq. intros. destruct Hq. by apply fill_range; lia. Qed.

Lemma bytes_avail_fill : bytes_avail q = fill (qsize q) (read_pos q) (write_pos q).
Proof using Hq.
  pose proof (fill_bounds (read_pos q) (qk_read _ _ Hq)). pose proof Hq as [].
  unfold bytes_avail, buf1_size, buf2_size, fill in *. unfold u32. rewrite Z.mod_small; case_lia.
Qed.

Lemma received_zlen : zlen (received mem q) = bytes_avail q.
Proof using Hq.
  rewrite bytes_avail_fill. apply ring_zlen. apply (fill_bounds (read_pos q)), Hq.
Qed.

Lemma bytes_free_fill :
  bytes_free q = qsize q - 1 - fill (qsize q) (hw_read_pos q) (write_pos q).
Proof using Hq.
  pose proof (fill_bounds (hw_read_pos q) (qk_hw_read _ _ Hq)). pose proof Hq as [].
  unfold bytes_free, fill, u32 in *. case_if; rewrite Z.mod_small; case_lia.
Qed.

(** The two parts a reader sees are the contents. *)
Lemma two_parts :
  exists a b, slice mem (buf1_ptr q) (buf1_size q) = Ok a /\
    (if write_pos q >=? read_pos q then Ok [] else slice mem (buf2_ptr q) (buf2_size q)) = Ok b /\
    a ++ b = received mem q.
Proof using Hq.
  pose proof (fill_bounds (read_pos q) (qk_read _ _ Hq)) as Hf. unfold fill in Hf.
  unfold buf1_ptr, buf2_ptr, buf1_size, buf2_size, received, waiting, fill. pose proof Hq as [].
  destruct (Z.geb_spec (write_pos q) (read_pos q)).
  - rewrite queue_slice by lia. exists (ring_contents (qsize q) (region mem q) (read_pos q)
      (write_pos q - read_pos q)), []. rif. by rewrite app_nil_r.
  - rewrite queue_slice by lia. replace (mem_addr q) with (mem_addr q + 0) by lia.
    rewrite queue_slice by lia. rif. eexists _, _. split; [done|]. split; [done|].
    replace (write_pos q - read_pos q + qsize q) with ((qsize q - read_pos q) + write_pos q) by lia.
    rewrite ring_app by lia. f_equal. replace (read_pos q + (qsize q - read_pos q)) with (qsize q) by lia.
    by rewrite Z_mod_same_full.
Qed.

Lemma copy_out_run (dest : bool) r n :
  0 <= r -> 0 <= n -> r + n <= qsize q ->
  copy_out dest mem (mem_addr q + r) n =
    Ok (if dest then ring_contents (qsize q) (region mem q) r n else []).
Proof using Hq. intros. destruct dest; [by apply queue_slice|done]. Qed.

Lemma data_get_run (dest : bool) count (peek : bool) :
  0 <= count ->
  let n := Z.min count (bytes_avail q) in
  let q' := if peek then q else set_read_pos ((read_pos q + n) mod qsize q) q in
  queue_data_get mem q dest count peek =
    Ok (n, if dest then take (Z.to_nat n) (received mem q) else [], q').
Proof using Hq.
  intros Hc n q'. pose proof (fill_bounds (read_pos q) (qk_read _ _ Hq)) as Hf.
  assert (bytes_avail q = fill (qsize q) (read_pos q) (write_pos q)) as Ha by (apply bytes_avail_fill).
  unfold queue_data_get. rewrite Ha in *. cbv zeta.
  assert ((if count >? fill (qsize q) (read_pos q) (write_pos q)
           then fill (qsize q) (read_pos q) (write_pos q) else count) = n) as -> by (subst n; case_lia).
  assert (0 <= n <= fill (qsize q) (read_pos q) (write_pos q)) as Hn by lia.
  unfold received, waiting. rewrite ring_take by done.
  assert ((read_pos q >? write_pos q) && (n >=? qsize q - read_pos q) = (read_pos q + n >=? qsize q)) as ->.
  { unfold fill in *. pose proof Hq as []. case_lia. }
  pose proof Hq as [].
  destruct (Z.geb_spec (read_pos q + n) (qsize q)) as [Hw|Hw].
  - rewrite copy_out_run by lia. cbn [res_bind].
    assert ((read_pos q + n) mod qsize q = n - (qsize q - read_pos q)) as Hmod.
    { symmetry. apply Z.mod_unique with 1; [|lia]. unfold fill in *. case_lia. }
    assert (0 <= n - (qsize q - read_pos q) < qsize q) as Hrange by (unfold fill in *; case_lia).
    assert (ring_contents (qsize q) (region mem q) (read_pos q) n =
      ring_contents (qsize q) (region mem q) (read_pos q) (qsize q - read_pos q) ++
      ring_contents (qsize q) (region mem q) 0 (n - (qsize q - read_pos q))) as ->.
    { replace n with ((qsize q - read_pos q) + (n - (qsize q - read_pos q))) at 1 by lia.
      rewrite ring_app by lia. do 2 f_equal.
      replace (read_pos q + (qsize q - read_pos q)) with (qsize q) by lia. by rewrite Z_mod_same_full. }
    assert ((if negb (n - (qsize q - read_pos q) =? 0)
             then copy_out dest mem (mem_addr q + 0) (n - (qsize q - read_pos q)) else Ok []) =
      Ok (if dest then ring_contents (qsize q) (region mem q) 0 (n - (qsize q - read_pos q)) else [])) as ->.
    { destruct (Z.eqb_spec (n - (qsize q - read_pos q)) 0) as [->|]; cbn [negb]; [by destruct dest|].
      by rewrite copy_out_run by lia. }
    cbn [res_bind]. subst q'. rewrite Hmod. destruct dest, peek; repeat f_equal; lia.
  - cbn [res_bind]. rewrite Z.sub_0_r.
    assert ((if negb (n =? 0) then copy_out dest mem (mem_addr q + read_pos q) n else Ok []) =
      Ok (if dest then ring_contents (qsize q) (region mem q) (read_pos q) n else [])) as ->.
    { destruct (Z.eqb_spec n 0) as [->|]; cbn [negb]; [by destruct dest|]. by rewrite copy_out_run by lia. }
    cbn [res_bind app]. subst q'. rewrite Z.mod_small by lia. by rewrite Z.sub_0_r.
Qed.
End Queue.

(** ** Reading *)

Section Reading.
Context (mem : list Z) (q : sAviaGtDmxQueue) (Hq : queue_ok mem q).

(** Skipping [n] of the waiting bytes. *)
Lemma skip_received n :
  0 <= n <= bytes_avail q ->
  queue_ok mem (set_read_pos ((read_pos q + n) mod qsize q) q) /\
  received mem (set_read_pos ((read_pos q + n) mod qsize q) q) = drop (Z.to_nat n) (received mem q).
Proof using Hq.
  intros Hn. rewrite (bytes_avail_fill mem q Hq) in Hn. pose proof Hq as []. split.
  - split; cbn [qsize mem_addr read_pos write_pos hw_read_pos set_read_pos]; try done.
    apply Z.mod_pos_bound. lia.
  - unfold received, waiting, region. cbn [qsize mem_addr read_pos write_pos set_read_pos].
    rewrite fill_pop by lia. by rewrite ring_pop by lia.
Qed.

Lemma data_get_spec (dest : bool) count (peek : bool) :
  0 <= count ->
  let n := Z.min count (zlen (received mem q)) in
  exists q', queue_data_get mem q dest count peek =
      Ok (n, if dest then take (Z.to_nat n) (received mem q) else [], q') /\
    queue_ok mem q' /\
    received mem q' = if peek then received mem q else drop (Z.to_nat n) (received mem q).
Proof using Hq.
  intros Hc. rewrite (received_zlen mem q Hq). cbv zeta. rewrite (data_get_run mem q Hq) by done.
  eexists. split; [done|]. destruct peek; [done|]. apply skip_received.
  pose proof (fill_bounds mem q Hq (read_pos q) (qk_read _ _ Hq)).
  rewrite (bytes_avail_fill mem q Hq). lia.
Qed.
End Reading.

(** reading a hardware queue.  [get_data] returns the oldest waiting
    bytes, as many as are asked for and there are, over the end of the memory
    of the queue too; it takes them out of the queue, unless it only peeks; it
    stays inside the memory of the queue. *)
Theorem queue_data_get_fifo mem q dest count peek :
  queue_ok mem q -> 0 <= count ->
  let n := Z.min count (zlen (received mem q)) in
  exists q', queue_data_get mem q dest count peek =
      Ok (n, if dest : bool then take (Z.to_nat n) (received mem q) else [], q') /\
    queue_ok mem q' /\
    received mem q' = if peek : bool then received mem q else drop (Z.to_nat n) (received mem q).
Proof. intros Hq. by apply data_get_spec. Qed.

(** A queue of eight bytes at address 4, with five bytes waiting around its
    end. *)
Definition small_queue : sAviaGtDmxQueue :=
  mk_queue None 6 3 0 0 None 4 0 0 0 6 8 3 0xffff true 0 false 0 true.
Definition small_mem : list Z := [0; 0; 0; 0; 13; 14; 15; 0; 0; 0; 11; 12; 0; 0].

Lemma small_queue_ok : queue_ok small_mem small_queue.
Proof. split; cbn -[Z.pow]; try lia. by vm_compute. Qed.

Lemma queue_data_get_fifo_witness :
  exists q', queue_data_get small_mem small_queue true 4 false = Ok (4, [11; 12; 13; 14], q') /\
    received small_mem q' = [15].
Proof.
  destruct (queue_data_get_fifo small_mem small_queue true 4 false small_queue_ok) as (q' & H & _ & H');
    [lia|].
  exists q'. split; [exact H|exact H'].
Defined.

(** ** Writing *)

Section Writing.
Context (mem : list Z) (q : sAviaGtDmxQueue) (Hq : queue_ok mem q).

(** [m] is the memory with [src] written from the write position on. *)
Definition wrote (m : list Z) (src : list Z) : Prop :=
  zlen m = zlen mem /\
  ring_written (qsize q) (region mem q) (region m q) (write_pos q) src /\
  (forall i, 0 <= i < zlen mem -> i < mem_addr q \/ mem_addr q + qsize q <= i -> at_ m i = at_ mem i).

Lemma region_memcpy m r s m' :
  zlen m = zlen mem -> 0 <= r -> r + zlen s <= qsize q ->
  memcpy_to m (mem_addr q + r) s = Ok m' ->
  zlen m' = zlen mem /\ memcpy_to (region m q) r s = Ok (region m' q) /\
  (forall i, 0 <= i < zlen mem -> i < mem_addr q \/ mem_addr q + qsize q <= i -> at_ m' i = at_ m i).
Proof using Hq.
  intros Hl Hr Hs Hm. pose proof Hq as [].
  assert (zlen m' = zlen mem) as Hl' by (pose proof (memcpy_to_length _ _ _ _ Hm); zl).
  assert (forall x, zlen x = zlen mem -> zlen (region x q) = qsize q /\
    forall i, 0 <= i < qsize q -> at_ (region x q) i = at_ x (mem_addr q + i)) as Hreg.
  { intros x Hx. unfold region. split.
    - by rewrite zlen_takeZ by (rewrite zlen_dropZ; lia).
    - intros i Hi. by rewrite at_take, at_drop by lia. }
  destruct (Hreg m Hl) as [Lm Am], (Hreg m' Hl') as [Lm' Am'].
  split; [done|]. split.
  - destruct (memcpy_to_some (region m q) r s) as [y Hy]; [done|lia|]. rewrite Hy. f_equal.
    apply list_eq_at; [pose proof (memcpy_to_length _ _ _ _ Hy); zl|].
    assert (zlen y = qsize q) as Ly by (pose proof (memcpy_to_length _ _ _ _ Hy); zl).
    intros i Hi. rewrite (memcpy_at _ _ _ _ _ Hy), Am' by lia.
    rewrite (memcpy_at _ _ _ _ _ Hm), Am by lia.
    replace (mem_addr q + i - (mem_addr q + r)) with (i - r) by lia.
    replace ((mem_addr q + r <=? mem_addr q + i) && (mem_addr q + i <? mem_addr q + r + zlen s))
      with ((r <=? i) && (i <? r + zlen s)) by lia. done.
  - intros i Hi Ho. rewrite (memcpy_at _ _ _ _ _ Hm) by lia. by rif.
Qed.

Lemma data_put_run src :
  let n := Z.min (zlen src) (bytes_free q) in
  exists m, queue_data_put mem q src (bytes_free q) =
      Ok (n, m, set_write_pos ((write_pos q + n) mod qsize q) q) /\
    wrote m (take (Z.to_nat n) src).
Proof using Hq.
  intros n. pose proof (fill_bounds mem q Hq (hw_read_pos q) (qk_hw_read _ _ Hq)) as Hf.
  assert (0 <= bytes_free q < qsize q) as Hfree by (rewrite (bytes_free_fill mem q Hq); lia).
  pose proof (zlen_nonneg src) as Hs0. pose proof Hq as [].
  unfold queue_data_put. cbv zeta.
  assert ((if zlen src >? bytes_free q then bytes_free q else zlen src) = n) as -> by (subst n; case_lia).
  assert (0 <= n <= zlen src /\ n < qsize q) as [Hn Hnq] by lia.
  assert (zlen (region mem q) = qsize q) as Hreg by (by apply region_zlen).
  assert (forall off len, 0 <= off -> 0 <= len -> off + len = n ->
    slice src off len = Ok (take (Z.to_nat len) (drop (Z.to_nat off) src))) as Hsl
    by (intros; apply slice_ok; lia).
  destruct (Z.geb_spec (write_pos q + n) (qsize q)) as [Hw|Hw].
  - set (d := qsize q - write_pos q). assert (0 < d <= n) as Hd by lia.
    rewrite slice_ok by lia. cbn [res_bind]. rewrite drop_0.
    assert (zlen (take (Z.to_nat d) src) = d) as Hz1 by (apply zlen_takeZ; lia).
    destruct (memcpy_to_some mem (mem_addr q + write_pos q) (take (Z.to_nat d) src)) as [m1 Hm1]; [lia|lia|].
    rewrite Hm1. cbn [res_bind write_pos set_write_pos mem_addr qsize].
    destruct (region_memcpy mem (write_pos q) (take (Z.to_nat d) src) m1) as (L1 & R1 & O1); [done|lia|lia|done|].
    assert ((write_pos q + n) mod qsize q = n - d) as Hmod.
    { symmetry. apply Z.mod_unique with 1; lia. }
    rewrite Hmod. destruct (Z.eqb_spec (n - d) 0) as [E|E]; cbn [negb].
    + exists m1. rewrite E. split; [done|]. split; [done|]. split; [|exact O1].
      assert (Z.to_nat n = Z.to_nat d) as -> by lia.
      apply ring_written_one; [done|lia|lia|done].
    + rewrite slice_ok by lia. cbn [res_bind].
      assert (zlen (take (Z.to_nat (n - d)) (drop (Z.to_nat d) src)) = n - d) as Hz2
        by (apply zlen_takeZ; rewrite zlen_dropZ; lia).
      destruct (memcpy_to_some m1 (mem_addr q + 0) (take (Z.to_nat (n - d)) (drop (Z.to_nat d) src)))
        as [m2 Hm2]; [lia|lia|].
      rewrite Hm2. cbn [res_bind].
      destruct (region_memcpy m1 0 (take (Z.to_nat (n - d)) (drop (Z.to_nat d) src)) m2)
        as (L2 & R2 & O2); [done|lia|lia|done|].
      exists m2. split; [by rewrite Z.add_0_l|]. split; [done|]. split.
      * assert (take (Z.to_nat n) src = take (Z.to_nat d) src ++ take (Z.to_nat (n - d)) (drop (Z.to_nat d) src)) as ->.
        { rewrite take_take_drop. f_equal. lia. }
        apply ring_written_two with (region m1 q); [done|lia|lia|lia|done|done].
      * intros i Hi Ho. rewrite O2 by done. by apply O1.
  - cbn [res_bind]. rewrite Z.sub_0_r. rewrite Z.mod_small by lia.
    destruct (Z.eqb_spec n 0) as [E|E]; cbn [negb].
    + exists mem. rewrite E, Z.add_0_r. split; [by destruct q|]. split; [done|]. split; [|done].
      split; [done|]. split; [intros j Hj; simpl in Hj; unfold zlen in Hj; simpl in Hj; lia|done].
    + rewrite Hsl by lia. cbn [res_bind]. rewrite drop_0.
      assert (zlen (take (Z.to_nat n) src) = n) as Hz1 by (apply zlen_takeZ; lia).
      destruct (memcpy_to_some mem (mem_addr q + write_pos q) (take (Z.to_nat n) src)) as [m1 Hm1]; [lia|lia|].
      rewrite Hm1. cbn [res_bind].
      destruct (region_memcpy mem (write_pos q) (take (Z.to_nat n) src) m1) as (L1 & R1 & O1); [done|lia|lia|done|].
      exists m1. split; [done|]. split; [done|]. split; [|exact O1].
      apply ring_written_one; [done|lia|lia|done].
Qed.
End Writing.

(** Writing to the queue of a decoder.  [put_data] appends as many bytes
    as fit behind those the decoder has not read, and never so many that the
    queue would look empty; memory outside the queue is not changed. *)
Theorem queue_data_put_appends mem q src :
  queue_ok mem q ->
  let n := Z.min (zlen src) (qsize q - 1 - zlen (to_decoder mem q)) in
  exists m q', queue_data_put mem q src (bytes_free q) = Ok (n, m, q') /\
    queue_ok m q' /\ to_decoder m q' = to_decoder mem q ++ take (Z.to_nat n) src /\
    (forall i, 0 <= i < zlen mem -> i < mem_addr q \/ mem_addr q + qsize q <= i ->
       at_ m i = at_ mem i).
Proof.
  intros Hq. pose proof (fill_bounds mem q Hq (hw_read_pos q) (qk_hw_read _ _ Hq)) as Hf.
  assert (zlen (to_decoder mem q) = fill (qsize q) (hw_read_pos q) (write_pos q)) as Hz
    by (apply ring_zlen; lia).
  rewrite Hz, <- (bytes_free_fill mem q Hq). cbv zeta.
  destruct (data_put_run mem q Hq src) as (m & E & L & R & O). cbv zeta in E.
  set (n := Z.min (zlen src) (bytes_free q)) in *.
  pose proof (zlen_nonneg src). pose proof (bytes_free_fill mem q Hq) as Hfr. pose proof Hq as [].
  eexists _, _. split; [exact E|]. split; [|split; [|exact O]].
  - split; cbn [qsize mem_addr read_pos write_pos hw_read_pos set_write_pos]; try done; try lia.
    apply Z.mod_pos_bound. lia.
  - unfold to_decoder, waiting in *. cbn [qsize hw_read_pos write_pos set_write_pos].
    change (region m (set_write_pos _ q)) with (region m q).
    assert (zlen (take (Z.to_nat n) src) = n) as Hn by (apply zlen_takeZ; lia).
    rewrite fill_push by lia.
    rewrite <- Hn at 1. apply ring_push_written; [lia|lia|lia|].
    by rewrite <- (fill_pos (qsize q) (hw_read_pos q) (write_pos q)) by lia.
Qed.

Lemma queue_data_put_appends_witness :
  exists m q', queue_data_put small_mem small_queue [16; 17; 18] (bytes_free small_queue) = Ok (2, m, q') /\
    to_decoder m q' = [11; 12; 13; 14; 15; 16; 17].
Proof.
  destruct (queue_data_put_appends small_mem small_queue [16; 17; 18] small_queue_ok)
    as (m & q' & H & _ & H' & _).
  exists m, q'. split; [exact H|exact H'].
Defined.

(** ** Overflow *)

(** C29: the overflow test of the interrupt handler.  If the hardware has
    written [n] bytes since the last interrupt, fewer than the queue holds, the
    test says overflow exactly when they did not fit behind the bytes that were
    still waiting.  More than that it cannot see: a whole lap more gives the
    same answer, so that exactly one lap, on whatever waits, is no overflow. *)
Theorem hw_overflow_exact size r old n :
  0 <= r < size -> 0 <= old < size -> 0 <= n ->
  (n < size -> hw_overflow r old ((old + n) mod size) = (fill size r old + n >=? size)) /\
  hw_overflow r old ((old + (n + size)) mod size) = hw_overflow r old ((old + n) mod size) /\
  hw_overflow r old ((old + size) mod size) = false.
Proof.
  intros Hr Ho Hn.
  assert (forall k, (old + (k + size)) mod size = (old + k) mod size) as Hlap.
  { intros k. replace (old + (k + size)) with (old + k + 1 * size) by lia. apply Z.mod_add. lia. }
  split; [|split; [by rewrite Hlap|]].
  - intros Hlt. assert ((old + n) mod size = if old + n <? size then old + n else old + n - size) as ->.
    { case_if; [apply Z.mod_small; lia|]. symmetry. apply Z.mod_unique with 1; lia. }
    unfold hw_overflow, fill. case_lia.
  - specialize (Hlap 0). rewrite Z.add_0_l, Z.add_0_r in Hlap. rewrite Hlap, Z.mod_small by lia.
    unfold hw_overflow. lia.
Qed.

Lemma hw_overflow_exact_witness :
  hw_overflow 6 3 ((3 + 2) mod 8) = false /\ hw_overflow 6 3 ((3 + 3) mod 8) = true.
Proof.
  split; [apply (hw_overflow_exact 8 6 3 2); lia|apply (hw_overflow_exact 8 6 3 3); lia].
Defined.
