(* ===== verification/AviaGt.v ===== *)
(** * The graphics and transport chip (avia/avia_gt.h, avia_gt_core.c)

    The two chips the driver supports, their registers, and the table of
    interrupt handlers.  The hardware is a parameter: a type of states with a
    read and a write of a register ([GtBus]); what the driver relies on is
    [GtRegisters], the register file the comments of the headers describe.
    The driver's own state [gtdmx] is beside it. *)

From S2P Require Import Prelude DemuxState AviaUcode AviaQueue.

Inductive gt_chip := ENX | GTX.
#[export] Instance gt_chip_eq_dec : EqDecision gt_chip.
Proof. solve_decision. Defined.

(** ** Registers

    The registers and bit fields the demultiplexer's driver uses.  A write of a
    bit field reads the register and writes it back; the model writes the
    field. *)

Inductive gt_reg :=
| CFGR0_UPQ                (* which half of the queues the window shows *)
| CFGR0_VCP | CFGR0_ACP | CFGR0_TCP | CFGR0_DOE
| FC | FC_FD | FC_FE | FC_FH
| RSTR0 | RSTR0_TDMP | RSTR0_FRMR | RSTR0_FRCH | RSTR0_AVI | RSTR0_QUE | RSTR0_GFIX
| RSTR0_VDEO | RSTR0_UART2 | RSTR0_PAR1284 | RSTR0_PCMA | RSTR0_DAC
| RSTR1 | RISCCON | EC | SYNC_HYST | BQ | AVI (n : Z)
| QnINT (n : Z) | QWPnL (n : Z) | QWPnH (n : Z)
| AQRP (offset : Z)        (* from gt_info->aq_rptr on *)
| PCR_PID | DAC_PC
| TP_PCR (n : Z) | LC_STC (n : Z) | STC_COUNTER (n : Z)
| ISR (n : Z) | IMR (n : Z)
| AV_STC_HI | AV_STC_LO.   (* the two words avia_av_set_stc gives the decoder *)

#[export] Instance gt_reg_eq_dec : EqDecision gt_reg.
Proof. solve_decision. Defined.

Class GtBus (W : Type) := {
  gt_rd : gt_reg -> W -> Z * W;
  gt_wr : gt_reg -> Z -> W -> W;
}.

(** The queue registers are a window on 16 of the 32 queues. *)
Definition banked (r : gt_reg) : bool :=
  match r with QnINT _ | QWPnL _ | QWPnH _ => true | _ => false end.

(** The registers that also have names for their bit fields. *)
Definition in_whole (r : gt_reg) : bool :=
  match r with
  | FC | FC_FD | FC_FE | FC_FH | RSTR0 | RSTR0_TDMP | RSTR0_FRMR | RSTR0_FRCH | RSTR0_AVI
  | RSTR0_QUE | RSTR0_GFIX | RSTR0_VDEO | RSTR0_UART2 | RSTR0_PAR1284 | RSTR0_PCMA | RSTR0_DAC => true
  | _ => false
  end.

(** Registers that keep what is written to them: [cell w up r] is the content
    of [r], for a banked register in the half [up].  Nothing is said of the
    registers that are written both as a whole and by field. *)
Class GtRegisters (W : Type) {B : GtBus W} := {
  cell : W -> bool -> gt_reg -> Z;
  upper : W -> gt_reg -> bool := fun w r => banked r && negb (cell w false CFGR0_UPQ =? 0);
  gt_rd_cell r w : gt_rd r w = (cell w (upper w r) r, w);
  gt_wr_cell r v w up r' :
    in_whole r' = false ->
    cell (gt_wr r v w) up r' =
      if decide (r' = r) then (if Bool.eqb up (upper w r) then v else cell w up r') else cell w up r';
}.

(** Such a register file. *)
Definition regfile := bool -> gt_reg -> Z.
Definition reg_bank (w : regfile) (r : gt_reg) : bool := banked r && negb (w false CFGR0_UPQ =? 0).
#[export] Instance regfile_bus : GtBus regfile := {
  gt_rd r w := (w (reg_bank w r) r, w);
  gt_wr r v w := fun up r' =>
    if decide (r' = r) then (if Bool.eqb up (reg_bank w r) then v else w up r') else w up r';
}.
#[export] Instance regfile_registers : GtRegisters regfile.
Proof. refine {| cell w := w |}; done. Defined.

(** ** Interrupt numbers *)

Definition AVIA_GT_IRQ (reg bit : Z) : Z := Z.lor (Z.shiftl (Z.land reg 0xff) 8) (Z.land bit 0xff).
Definition AVIA_GT_IRQ_BIT (irq : Z) : Z := Z.land irq 0xff.
Definition AVIA_GT_IRQ_REG (irq : Z) : Z := Z.land (Z.shiftr irq 8) 0xff.
Definition AVIA_GT_ISR_PROC_NR (irq_reg irq_bit : Z) : Z := irq_reg * 16 + irq_bit.

Definition irq_pcr (c : gt_chip) : Z :=
  match c with ENX => AVIA_GT_IRQ 1 5 | GTX => AVIA_GT_IRQ 0 8 end.

(** The handlers: those of the demultiplexer, and those of other drivers. *)
Inductive isr_proc := ISR_dmx_queue | ISR_pcr | ISR_other (n : Z).

(** ** Memory

    Where the demultiplexer's memory lies depends on which other drivers are
    configured. *)

Definition AVIA_GT_MEM_SIZE := 2 * 1024 * 1024.
Definition AVIA_GT_MEM_ALIGN (addr : Z) : Z := Z.land (addr + 3) (Z.lnot 3).
Definition AVIA_GT_MEM_GV_OFFS := AVIA_GT_MEM_ALIGN 0.
Definition AVIA_GT_MEM_GV_SIZE (config_gv : bool) : Z := if config_gv then 720 * 576 * 2 else 0.
Definition AVIA_GT_MEM_CAPTURE_OFFS (config_gv : bool) : Z :=
  AVIA_GT_MEM_ALIGN (AVIA_GT_MEM_GV_OFFS + AVIA_GT_MEM_GV_SIZE config_gv).
Definition AVIA_GT_MEM_CAPTURE_SIZE (config_capture : bool) : Z :=
  if config_capture then 720 * 576 / 2 else 0.
Definition AVIA_GT_MEM_DMX_OFFS (config_gv config_capture : bool) : Z :=
  AVIA_GT_MEM_ALIGN (AVIA_GT_MEM_CAPTURE_OFFS config_gv + AVIA_GT_MEM_CAPTURE_SIZE config_capture).
Definition AVIA_GT_MEM_DMX_SIZE := 816 * 1024.

(** ** The state of the driver *)

Record gtdmx := mk_gtdmx {
  chip_type : gt_chip;
  gt_mem : list Z;   (* the memory of the chip, bytes *)
  queue_list : list sAviaGtDmxQueue;
  queue_client : list Z;
  queue_size_table : list Z;
  force_stc_reload : bool;
  last_pcr : Z;
  last_lstc : Z;
  last_pcr_lstc_diff : Z;
  gain : Z;
  gt_isr_proc_list : list (option isr_proc);
  tasks : list Z;   (* bottom halves that are scheduled, by queue *)
  jiffies : Z;
  risc : ucode;
  msgqueue : option Z;
}.
#[export] Instance gtdmx_eta : Eta gtdmx := fun r =>
  mk_gtdmx (chip_type r) (gt_mem r) (queue_list r) (queue_client r) (queue_size_table r)
    (force_stc_reload r) (last_pcr r) (last_lstc r) (last_pcr_lstc_diff r) (gain r)
    (gt_isr_proc_list r) (tasks r) (jiffies r) (risc r) (msgqueue r).
Definition set_chip_type := setter! chip_type.
Definition set_gt_mem := setter! gt_mem.
Definition set_queue_list := setter! queue_list.
Definition set_queue_client := setter! queue_client.
Definition set_queue_size_table := setter! queue_size_table.
Definition set_force_stc_reload := setter! force_stc_reload.
Definition set_last_pcr := setter! last_pcr.
Definition set_last_lstc := setter! last_lstc.
Definition set_last_pcr_lstc_diff := setter! last_pcr_lstc_diff.
Definition set_gain := setter! gain.
Definition set_gt_isr_proc_list := setter! gt_isr_proc_list.
Definition set_tasks := setter! tasks.
Definition set_jiffies := setter! jiffies.
Definition set_risc := setter! risc.
Definition set_msgqueue := setter! msgqueue.

Section Core.
Context {W : Type} {B : GtBus W}.
Abbreviation GM := (M (gtdmx * W)).

Definition gget : GM gtdmx := mgets fst.
Definition gmod (f : gtdmx -> gtdmx) : GM unit := mmodify (fun s => (f s.1, s.2)).
Definition reg_read (r : gt_reg) : GM Z :=
  fun s => let p := gt_rd r s.2 in Ok (p.1, (s.1, p.2)).
Definition reg_write (r : gt_reg) (v : Z) : GM unit := mmodify (fun s => (s.1, gt_wr r v s.2)).

Definition q_get (nr : Z) : GM sAviaGtDmxQueue :=
  let! g := gget in
  match queue_list g !! Z.to_nat nr with Some q => mret_ q | None => mfault end.
Definition q_mod (nr : Z) (f : sAviaGtDmxQueue -> sAviaGtDmxQueue) : GM unit :=
  gmod (fun g => set_queue_list (alter f (Z.to_nat nr) (queue_list g)) g).

(** A step of the microcode's driver. *)
Definition on_risc {A} (m : M ucode A) : GM A :=
  fun s => let? r := m (risc s.1) in Ok (r.1, (set_risc r.2 s.1, s.2)).

(** ** Interrupts (avia_gt_core.c, avia_gt_enx.c, avia_gt_gtx.c)

    [irq_register c r]: the chip has a status and a mask register [r]. *)

Definition irq_register (c : gt_chip) (r : Z) : bool :=
  r <? match c with ENX => 6 | GTX => 4 end.

Definition avia_gt_clear_irq (irq_reg irq_bit : Z) : GM unit :=
  let! g := gget in
  if negb (irq_register (chip_type g) irq_reg) then mfault else
  match chip_type g with
  | ENX => reg_write (ISR irq_reg) (Z.shiftl 1 irq_bit)
  | GTX => let! v := reg_read (ISR irq_reg) in
           reg_write (ISR irq_reg) (Z.lor v (Z.shiftl 1 irq_bit))
  end.

Definition avia_gt_mask_irq (irq_reg irq_bit : Z) : GM unit :=
  let! g := gget in
  if negb (irq_register (chip_type g) irq_reg) then mfault else
  match chip_type g with
  | ENX => reg_write (IMR irq_reg) (Z.shiftl 1 irq_bit)
  | GTX => let! v := reg_read (IMR irq_reg) in
           reg_write (IMR irq_reg) (Z.land v (Z.lnot (Z.shiftl 1 irq_bit)))
  end.

Definition avia_gt_unmask_irq (irq_reg irq_bit : Z) : GM unit :=
  let! g := gget in
  if negb (irq_register (chip_type g) irq_reg) then mfault else
  match chip_type g with
  | ENX => reg_write (IMR irq_reg) (Z.lor (Z.shiftl 1 irq_bit) 1)
  | GTX => let! v := reg_read (IMR irq_reg) in
           reg_write (IMR irq_reg) (Z.lor v (Z.shiftl 1 irq_bit))
  end.

Definition avia_gt_get_irq_mask (irq_reg : Z) : GM Z :=
  let! g := gget in
  if irq_register (chip_type g) irq_reg then reg_read (IMR irq_reg) else mret_ 0.
Definition avia_gt_get_irq_status (irq_reg : Z) : GM Z :=
  let! g := gget in
  if irq_register (chip_type g) irq_reg then reg_read (ISR irq_reg) else mret_ 0.

Definition isr_at (irq : Z) (g : gtdmx) : option isr_proc :=
  mjoin (gt_isr_proc_list g !! Z.to_nat (AVIA_GT_ISR_PROC_NR (AVIA_GT_IRQ_REG irq) (AVIA_GT_IRQ_BIT irq))).
Definition isr_set (irq : Z) (p : option isr_proc) (g : gtdmx) : gtdmx :=
  set_gt_isr_proc_list
    (<[Z.to_nat (AVIA_GT_ISR_PROC_NR (AVIA_GT_IRQ_REG irq) (AVIA_GT_IRQ_BIT irq)) := p]>
       (gt_isr_proc_list g)) g.

Definition avia_gt_alloc_irq (irq : Z) (proc : isr_proc) : GM Z :=
  let! g := gget in
  match isr_at irq g with
  | Some _ => mret_ (- EBUSY)
  | None =>
      gmod (isr_set irq (Some proc)) ;;;
      avia_gt_unmask_irq (AVIA_GT_IRQ_REG irq) (AVIA_GT_IRQ_BIT irq) ;;;
      avia_gt_clear_irq (AVIA_GT_IRQ_REG irq) (AVIA_GT_IRQ_BIT irq) ;;;
      mret_ 0
  end.

Definition avia_gt_free_irq (irq : Z) : GM unit :=
  avia_gt_mask_irq (AVIA_GT_IRQ_REG irq) (AVIA_GT_IRQ_BIT irq) ;;;
  gmod (isr_set irq None).

(** ** Reset of the transport processor (avia_gt_ucode.c) *)

Definition avia_gt_dmx_risc_reset (reenable : bool) : GM unit :=
  let! flags := on_risc local_irq_save in
  let! g := gget in
  let enx := match chip_type g with ENX => true | GTX => false end in
  (if enx then let! v := reg_read EC in reg_write EC (Z.lor v 2) else mret_ tt) ;;;
  reg_write RSTR0_TDMP 1 ;;;
  (if enx then reg_write RSTR0_FRMR 1 else mret_ tt) ;;;
  (if reenable then
     reg_write RSTR0_TDMP 0 ;;;
     if enx then
       reg_write RSTR0_FRMR 0 ;;;
       reg_write SYNC_HYST 0x21 ;;;
       reg_write BQ 0x00bc ;;;
       reg_write FC 0x9147 ;;;
       let! v := reg_read EC in reg_write EC (Z.land v (Z.lnot 3))
     else mret_ tt
   else mret_ tt) ;;;
  on_risc (local_irq_restore flags).

End Core.
