(* ===== verification/AviaAccel.v ===== *)
(** * The CRC engine (avia/avia_gt_accel.c)

    The chip computes checksums over its own memory.  The driver cuts the range
    into transactions the engine can take.  The engine is a parameter
    ([GtAccel]); [CrcEngine] says what one transaction does on the eNX. *)

From S2P Require Import Prelude Crc32 DemuxState AviaQueue AviaGt.

Inductive acc_reg := CPCCRCSRC2 | CPCSRC1 | CPCCMD | RCRC | CRCC.

(** The engine reads the memory of the chip. *)
Class GtAccel (W : Type) := {
  acc_rd : acc_reg -> W -> Z;
  acc_wr : list Z -> acc_reg -> Z -> W -> W;
}.

Definition not32 (z : Z) : Z := Z.lxor z 0xffffffff.

(** The CRC register holds the complement of the checksum; a command works on
    [n] bytes from the address register on, and moves it. *)
Class CrcEngine (W : Type) {A : GtAccel W} := {
  eng_crc : W -> Z;
  eng_addr : W -> Z;
  eng_seed mem v w : let w' := acc_wr mem CPCCRCSRC2 v w in eng_crc w' = v;
  eng_source mem a w : let w' := acc_wr mem CPCSRC1 a w in
    eng_crc w' = eng_crc w /\ eng_addr w' = a;
  eng_command mem n s w :
    1 <= n <= 64 -> slice mem (eng_addr w) n = Ok s ->
    let w' := acc_wr mem CPCCMD (Z.lor (Z.shiftl 1 14) (n - 1)) w in
    eng_crc w' = not32 (crc32_be (not32 (eng_crc w)) s) /\ eng_addr w' = eng_addr w + n;
  eng_result w : acc_rd CPCCRCSRC2 w = eng_crc w;
}.

Section Accel.
Context {W : Type} {A : GtAccel W}.

(** [avia_gt_accel_init] *)
Definition max_transaction_size (c : gt_chip) : Z := match c with ENX => 64 | GTX => 16 end.

Definition transaction (c : gt_chip) (buffer_size : Z) : Z :=
  if buffer_size >? max_transaction_size c then max_transaction_size c else buffer_size.

Fixpoint crc_enx_loop (fuel : nat) (mem : list Z) (buffer_size : Z) (w : W) : res W :=
  if buffer_size =? 0 then Ok w else
  match fuel with
  | O => Diverge
  | S fuel =>
      let n := transaction ENX buffer_size in
      crc_enx_loop fuel mem (buffer_size - n)
        (acc_wr mem CPCCMD (Z.lor (Z.shiftl 1 14) (n - 1)) w)
  end.

(** The GTX works on words: the first and the last byte of the range may have
    to be padded. *)
Fixpoint crc_gtx_loop (fuel : nat) (mem : list Z) (buffer buffer_size : Z) (odd_start odd_end : bool)
    (w : W) : res W :=
  if buffer_size =? 0 then Ok w else
  match fuel with
  | O => Diverge
  | S fuel =>
      let n := transaction GTX buffer_size in
      let cmd := Z.lor (Z.shiftl (n / 2 + n mod 2 - 1) 25)
                   (Z.lor (Z.shiftl (c_bool (negb (odd_end && (buffer_size =? n)))) 24) buffer) in
      crc_gtx_loop fuel mem (u32 (if odd_start then buffer + n - 1 else buffer + n))
        (buffer_size - n) false odd_end (acc_wr mem CRCC (u32 cmd) w)
  end.

Definition avia_gt_accel_crc32 (c : gt_chip) (mem : list Z) (buffer buffer_size seed : Z) (w : W)
    : res (Z * W) :=
  match c with
  | ENX =>
      let w := acc_wr mem CPCCRCSRC2 (not32 seed) w in
      let w := acc_wr mem CPCSRC1 buffer w in
      let? w := crc_enx_loop (Z.to_nat buffer_size) mem buffer_size w in
      Ok (not32 (acc_rd CPCCRCSRC2 w), w)
  | GTX =>
      let? start :=
        if negb (seed =? 0xffffffff) then Ok (buffer, buffer_size, acc_wr mem RCRC (not32 seed) w)
        else
          let? s := slice mem buffer 4 in
          Ok (u32 (buffer + 4), u32 (buffer_size - 4), acc_wr mem RCRC (be_value s) w) in
      let '(buffer, buffer_size, w) := start in
      let odd_start := Z.odd buffer || (buffer_size =? 0) in
      let odd_end := Z.odd (u32 (buffer + buffer_size)) in
      let buffer_size := u32 (buffer_size + c_bool odd_start + c_bool odd_end) in
      let? w := crc_gtx_loop (Z.to_nat buffer_size) mem buffer buffer_size odd_start odd_end w in
      Ok (not32 (acc_rd RCRC w), w)
  end.

(** The fuel of the loop for the GTX is enough. *)
Lemma crc_gtx_loop_total mem fuel buffer n odd_start odd_end w :
  0 <= n <= Z.of_nat fuel -> exists w', crc_gtx_loop fuel mem buffer n odd_start odd_end w = Ok w'.
Proof.
  induction fuel as [|fuel IH] in buffer, n, odd_start, w |- *; intros Hn; cbn [crc_gtx_loop].
  - replace n with 0 by lia. by eexists.
  - case_if; [by eexists|]. apply IH. unfold transaction, max_transaction_size. case_if; lia.
Qed.

(** ** The eNX computes the checksum of the range *)

Lemma not32_not32 z : not32 (not32 z) = z.
Proof. unfold not32. by rewrite Z.lxor_assoc, Z.lxor_nilpotent, Z.lxor_0_r. Qed.

Context {L : CrcEngine W}.

Lemma crc_enx_loop_spec mem fuel n w s :
  slice mem (eng_addr w) n = Ok s -> n <= Z.of_nat fuel ->
  exists w', crc_enx_loop fuel mem n w = Ok w' /\
    eng_crc w' = not32 (crc32_be (not32 (eng_crc w)) s).
Proof.
  revert n w s. induction fuel as [|fuel IH]; intros n w s Hs Hn.
  - pose proof (slice_zlen _ _ _ _ Hs). pose proof (slice_inv _ _ _ _ Hs) as (_ & ? & _ & _).
    assert (n = 0) as -> by lia. simpl. exists w. split; [done|].
    assert (s = []) as -> by (destruct s; [done|]; zl). simpl. by rewrite not32_not32.
  - simpl. destruct (Z.eqb_spec n 0) as [->|Hn0].
    { exists w. split; [done|]. pose proof (slice_zlen _ _ _ _ Hs).
      assert (s = []) as -> by (destruct s; [done|]; zl). simpl. by rewrite not32_not32. }
    pose proof Hs as (Ha & Hn1 & Hm & Es)%slice_inv.
    set (t := transaction ENX n). assert (1 <= t <= 64 /\ t <= n) as [Ht Htn]
      by (unfold t, transaction; simpl; case_if; lia).
    assert (slice mem (eng_addr w) t = Ok (take (Z.to_nat t) s)) as Ht1.
    { rewrite slice_ok by lia. subst s. f_equal. rewrite take_take. f_equal. lia. }
    destruct (eng_command mem t _ w Ht Ht1) as [Hc Had]. cbv zeta in *.
    set (w1 := acc_wr mem CPCCMD _ w) in *.
    assert (slice mem (eng_addr w1) (n - t) = Ok (drop (Z.to_nat t) s)) as Hs1.
    { rewrite Had, slice_ok by lia. subst s. f_equal. rewrite skipn_firstn_comm, drop_drop.
      f_equal; [lia|f_equal; lia]. }
    destruct (IH _ _ _ Hs1 ltac:(lia)) as (w' & Hr & Hw').
    exists w'. split; [done|]. rewrite Hw', Hc, not32_not32, <- crc32_be_app. by rewrite take_drop.
Qed.

Lemma accel_crc32_run mem buffer n seed w s :
  slice mem buffer n = Ok s ->
  exists w', avia_gt_accel_crc32 ENX mem buffer n seed w = Ok (crc32_be seed s, w').
Proof.
  intros Hs. unfold avia_gt_accel_crc32.
  set (w1 := acc_wr mem CPCCRCSRC2 _ w). pose proof (eng_seed mem (not32 seed) w) as E1.
  set (w2 := acc_wr mem CPCSRC1 buffer w1). destruct (eng_source mem buffer w1) as [E2 E3].
  cbv zeta in *. fold w1 in E1, E2, E3. fold w2 in E2, E3.
  destruct (crc_enx_loop_spec mem (Z.to_nat n) n w2 s) as (w' & Hr & Hw').
  - by rewrite E3.
  - lia.
  - exists w'. simpl. rewrite Hr. simpl. by rewrite eng_result, Hw', not32_not32, E2, E1, not32_not32.
Qed.

End Accel.

(** An engine. *)
Record engine := mk_engine { en_crc : Z; en_addr : Z }.
#[export] Instance engine_accel : GtAccel engine := {
  acc_rd _ w := en_crc w;
  acc_wr mem r v w :=
    match r with
    | CPCCRCSRC2 => mk_engine v (en_addr w)
    | CPCSRC1 => mk_engine (en_crc w) v
    | CPCCMD =>
        let n := Z.land v 0x3f + 1 in
        match slice mem (en_addr w) n with
        | Ok s => mk_engine (not32 (crc32_be (not32 (en_crc w)) s)) (en_addr w + n)
        | _ => w
        end
    | _ => w
    end;
}.

Lemma command_length n : 1 <= n <= 64 -> Z.land (Z.lor (Z.shiftl 1 14) (n - 1)) 0x3f + 1 = n.
Proof.
  intros Hn. assert ((Z.land (Z.lor (Z.shiftl 1 14) (n - 1)) 0x3f =? n - 1) = true) as E%Z.eqb_eq; [|lia].
  apply (forall_range (fun k => Z.land (Z.lor (Z.shiftl 1 14) k) 0x3f =? k) 64); [by vm_compute|lia].
Qed.

#[export] Instance engine_laws : CrcEngine engine.
Proof.
  refine {| eng_crc := en_crc; eng_addr := en_addr |}; try done.
  intros mem n s w Hn Hs w'. unfold w'. simpl. rewrite command_length, Hs by done. done.
Defined.

(** The CRC engine of the eNX, fed in transactions of at most 64 bytes, gives
    the same checksum as the table driven [crc32_be] over the whole range, for
    any seed and any length (none included); the loop ends. *)
Theorem accel_crc32_exact {W} {A : GtAccel W} {L : CrcEngine W} mem buffer n seed w s :
  slice mem buffer n = Ok s ->
  exists w', avia_gt_accel_crc32 ENX mem buffer n seed w = Ok (crc32_be seed s, w').
Proof. apply accel_crc32_run. Qed.

Lemma accel_crc32_exact_witness :
  let mem := replicate 200 0xa5 in
  exists w', avia_gt_accel_crc32 ENX mem 7 130 crc_init (mk_engine 0 0)
             = Ok (crc32_be crc_init (replicate 130 0xa5), w').
Proof. apply (accel_crc32_exact (replicate 200 0xa5)). vm_compute. reflexivity. Defined.
