(* ===== verification/AviaPcr.v ===== *)
(** * Clock recovery (avia/avia_gt_dmx.c)

    The decoder's clock (STC) follows the clock of the broadcaster, which sends
    samples of it (PCR).  At each sample the interrupt handler compares it with
    the STC that was latched with it, and changes the frequency of an
    oscillator.  Here is what it computes; [AviaDmx] reads the registers. *)

From S2P Require Import Prelude.

Definition MAX_PCR_DIFF := 36000.
Definition MAX_DIFF_DIFF := 4.
Definition FORCE_DIFF := 80.
Definition MAX_DIFF := 200.
Definition GAIN := 50.

(** The counters have 33 bits. *)
Definition clock_wrap := 0x200000000.

(** From the last sample to this one; the arithmetic is that of [u64]. *)
Definition pcr_diff (pcr last_pcr : Z) : Z :=
  if pcr >? last_pcr then u64 (pcr - last_pcr) else u64 (pcr + clock_wrap - last_pcr).

(** The STC against the PCR, by which of the two has wrapped. *)
Definition pcr_lstc_diff (pcr last_pcr lstc last_lstc : Z) : Z :=
  if pcr <? last_pcr then
    if lstc <? last_lstc then s32 (u64 (lstc - pcr)) else s32 (u64 (lstc - pcr - clock_wrap))
  else
    if lstc <? last_lstc then s32 (u64 (lstc + clock_wrap - pcr)) else s32 (u64 (lstc - pcr)).

Inductive direction := SLOW | PACE_OK | FAST.

Definition direction_of (diff last : Z) : direction :=
  let diff_diff := s32 (diff - last) in
  if diff_diff >? MAX_DIFF_DIFF then FAST
  else if diff_diff <? - MAX_DIFF_DIFF then SLOW else PACE_OK.

(** The new gain and the difference to compare the next one with; [None]: no
    change. *)
Definition adjust (diff last gain : Z) : option (Z * Z) :=
  let dir := direction_of diff last in
  if diff >? FORCE_DIFF then
    match dir with SLOW => None | _ => Some (s16 (gain + GAIN), diff) end
  else if diff <? - FORCE_DIFF then
    match dir with FAST => None | _ => Some (s16 (gain - GAIN), diff) end
  else match dir with
       | FAST => Some (s16 (gain + GAIN), s32 (last + 1))
       | SLOW => Some (s16 (gain - GAIN), s32 (last - 1))
       | PACE_OK => None
       end.

(** ** The differences are those of the unwrapped clocks *)

Lemma s32_u64 z : s32 (u64 z) = s32 z.
Proof.
  unfold s32, u64. f_equal. rewrite <- (Zplus_mod_idemp_l (z mod 2 ^ 64)).
  rewrite Z.mod_mod_divide; [by rewrite Zplus_mod_idemp_l|].
  exists (2 ^ 32). lia.
Qed.

Lemma s32_period z k : s32 (z + k * 2 ^ 32) = s32 z.
Proof.
  unfold s32. replace (z + k * 2 ^ 32 + 2 ^ 31) with (z + 2 ^ 31 + k * 2 ^ 32) by lia.
  by rewrite Z_mod_plus_full.
Qed.

Lemma s32_id z : - 2 ^ 31 <= z < 2 ^ 31 -> s32 z = z.
Proof. intros. unfold s32. rewrite Z.mod_small; lia. Qed.

(** C37: For a PCR and an STC sampled together from clocks that run on, [pcr] and
    [lstc] being their lowest 33 bits, the computed difference is the true
    one, whichever of the two counters has wrapped since the last sample or
    before it, as long as it fits the 32-bit result.  (With both wrapped at
    different samples the four cases do not cancel the wraps; the conversion to
    32 bits does.) *)
Theorem pcr_lstc_diff_exact P L last_pcr last_lstc :
  - 2 ^ 31 <= L - P < 2 ^ 31 ->
  pcr_lstc_diff (P mod clock_wrap) last_pcr (L mod clock_wrap) last_lstc = L - P.
Proof.
  intros Hd. unfold pcr_lstc_diff, clock_wrap.
  pose proof (Z.div_mod P 0x200000000 ltac:(lia)). pose proof (Z.div_mod L 0x200000000 ltac:(lia)).
  set (p := P mod 0x200000000) in *. set (l := L mod 0x200000000) in *.
  set (a := P / 0x200000000) in *. set (b := L / 0x200000000) in *.
  repeat case_if; rewrite s32_u64.
  - rewrite <- (s32_period _ (2 * (b - a))), <- (s32_id (L - P)) by lia. f_equal. lia.
  - rewrite <- (s32_period _ (2 * (b - a) + 2)), <- (s32_id (L - P)) by lia. f_equal. lia.
  - rewrite <- (s32_period _ (2 * (b - a) - 2)), <- (s32_id (L - P)) by lia. f_equal. lia.
  - rewrite <- (s32_period _ (2 * (b - a))), <- (s32_id (L - P)) by lia. f_equal. lia.
Qed.

Lemma pcr_lstc_diff_exact_witness :
  pcr_lstc_diff ((2 ^ 33 - 5) mod clock_wrap) 17 ((2 ^ 33 + 7) mod clock_wrap) (2 ^ 33 - 100) = 12.
Proof. apply (pcr_lstc_diff_exact (2 ^ 33 - 5) (2 ^ 33 + 7)). lia. Defined.

(** Two samples with the same PCR (a packet that is sent twice) count as a
    full turn of the clock, and so as a discontinuity. *)
Theorem pcr_diff_exact P P' :
  0 < P - P' <= clock_wrap -> pcr_diff (P mod clock_wrap) (P' mod clock_wrap) = P - P'.
Proof.
  intros Hd. unfold pcr_diff, clock_wrap, u64 in *.
  pose proof (Z.div_mod P 0x200000000 ltac:(lia)). pose proof (Z.div_mod P' 0x200000000 ltac:(lia)).
  pose proof (Z.mod_pos_bound P 0x200000000 ltac:(lia)).
  pose proof (Z.mod_pos_bound P' 0x200000000 ltac:(lia)).
  assert (P / 0x200000000 = P' / 0x200000000 \/ P / 0x200000000 = P' / 0x200000000 + 1) by nia.
  case_if; rewrite Z.mod_small; nia.
Qed.

(** ** The gain has no limit

    [samples n diff]: what [n] samples with the same difference do to the gain
    and the difference that is remembered. *)
Definition sample (diff : Z) (s : Z * Z) : Z * Z :=
  match adjust diff s.2 s.1 with Some r => r | None => s end.
Definition samples (n : nat) (diff : Z) (s : Z * Z) : Z * Z := Nat.iter n (sample diff) s.

(** A difference that stays above the threshold adds to the 16-bit gain at
    every sample without a limit: while the STC stays 100 ticks ahead of the
    PCR, the gain grows to 32750 in 655 samples, and the 656th turns it into
    -32736, the other end of the oscillator's range. *)
Theorem pcr_gain_wraps :
  samples 655 100 (0, 0) = (32750, 100) /\ samples 656 100 (0, 0) = (-32736, 100).
Proof. by vm_compute. Qed.
