(* ===== verification/AviaDmx.v ===== *)
(** * Managing the hardware queues (avia/avia_gt_dmx.c, avia_gt_ucode.c, avia_gt_core.c)

    Allocation of queues, their registers and interrupts, the system queues
    (video, audio, teletext) that feed the decoders and may have one user queue
    as a client, the bottom halves, the message queue of the microcode, writing
    to the decoders, the clock recovery, and the start of the driver.

    Each function is a step on the driver's state and the hardware ([GM]); the
    contents of the queues are in [AviaQueue], the tables of the microcode in
    [AviaUcode].  A loop that waits for the hardware is bounded by [hw_fuel]. *)

From S2P Require Import Prelude Crc32 DemuxState AviaFilter AviaUcode AviaQueue AviaGt AviaAccel AviaPcr.

(** How often a register is read again, or the decoder is waited for. *)
Definition hw_fuel : nat := 1000.

Definition queue_system_map : list Z := [2; 0; 1].
Definition queue_sizes : list Z :=
  [10; 10; 9; 9; 10; 11; 10; 10; 8; 8; 8; 8; 8; 8; 8; 8; 8; 8; 8; 7; 7; 7; 7; 7; 7; 7; 7; 7; 7; 7; 7; 8].
Definition AVIA_GT_DMX_SYSTEM_QUEUES := 0xff.
Definition HZ := 100.

(** Callbacks by name; the message handler is this file's. *)
Definition CB_MSGQ := 0.

(** Message types. *)
Definition DMX_MESSAGE_CC_ERROR := 0xFE.
Definition DMX_MESSAGE_SYNC_LOSS := 0xFD.
Definition DMX_MESSAGE_ADAPTATION := 0xFC.
Definition DMX_MESSAGE_SECTION_COMPLETED := 0xCE.
Definition DMX_MESSAGE_INIT := 0xDD.

(** What other files give the queues: callbacks (name, queue, private pointer)
    and interrupt handlers. *)
Class GtClients (W : Type) := {
  cb_queue : Z -> Z -> Z -> gtdmx * W -> res (unit * (gtdmx * W));
  isr_client : Z -> Z -> gtdmx * W -> res (unit * (gtdmx * W));
}.

Definition avia_gt_dmx_queue_is_system_queue (queue_nr : Z) : bool :=
  queue_nr <? AVIA_GT_DMX_QUEUE_USER_START.
Definition q_count_ok (queue_nr : Z) : bool := queue_nr <? AVIA_GT_DMX_QUEUE_COUNT.

(** ** Clients of the system queues: which user queue wants the same packets *)

Definition queue_nth (ql : list sAviaGtDmxQueue) (nr : Z) : option sAviaGtDmxQueue :=
  ql !! Z.to_nat nr.

Definition wants_same (ql : list sAviaGtDmxQueue) (sys nr : Z) : bool :=
  match queue_nth ql sys, queue_nth ql nr with
  | Some s, Some q => negb (pid s =? 0xFFFF) && (pid s =? pid q) && (mode s =? mode q)
  | _, _ => false
  end.
Definition is_running (ql : list sAviaGtDmxQueue) (nr : Z) : bool :=
  match queue_nth ql nr with Some q => running q | None => false end.

Definition client_scan (ql : list sAviaGtDmxQueue) (clients : list Z) (nr : Z) : list Z :=
  if negb (is_running ql nr) then clients else
  fold_left (fun c sys => if (at_ c sys =? -1) && wants_same ql sys nr then setZ c sys nr else c)
    [0; 1; 2] clients.
Definition new_queue_client (ql : list sAviaGtDmxQueue) : list Z :=
  fold_left (client_scan ql) (seqZ AVIA_GT_DMX_QUEUE_USER_START 29) [-1; -1; -1].

(** ** Interrupt of a queue *)

Definition avia_gt_dmx_get_queue_irq (c : gt_chip) (queue_nr : Z) : Z :=
  if negb (q_count_ok queue_nr) then 0 else
  match c with
  | ENX =>
      if queue_nr >=? 17 then AVIA_GT_IRQ 3 (queue_nr - 16)
      else if queue_nr >=? 2 then AVIA_GT_IRQ 4 (queue_nr - 1)
      else AVIA_GT_IRQ 5 (queue_nr + 6)
  | GTX => AVIA_GT_IRQ (2 + c_bool (negb (Z.land queue_nr 16 =? 0))) (Z.land queue_nr 15)
  end.

(** The queue an interrupt belongs to (in [avia_gt_dmx_queue_irq]). *)
Definition irq_queue (c : gt_chip) (irq : Z) : Z :=
  let bit := u8 (AVIA_GT_IRQ_BIT irq) in
  let nr := u8 (AVIA_GT_IRQ_REG irq) in
  match c with
  | ENX => if nr =? 3 then u8 (bit + 16) else if nr =? 4 then u8 (bit + 1)
           else if nr =? 5 then u8 (bit - 6) else AVIA_GT_DMX_QUEUE_COUNT
  | GTX => u8 ((nr - 2) * 16 + bit)
  end.

(** ** Clock values: 33 bits out of three registers *)
Definition clock_base (r2 r1 r0 : Z) : Z :=
  Z.lor (Z.lor (Z.shiftl r2 17) (Z.shiftl r1 1)) (Z.shiftr r0 15).

Section Dmx.
Context {W : Type} {B : GtBus W} {A : GtAccel W} {K : GtClients W}.
Abbreviation GM := (M (gtdmx * W)).

(** ** Registers of the queues *)

Definition avia_gt_dmx_map_queue (queue_nr : Z) : GM Z :=
  reg_write CFGR0_UPQ (c_bool (queue_nr >=? 16)) ;;; mret_ (Z.land queue_nr 0x0f).

Definition avia_gt_dmx_set_queue_irq (queue_nr qim block : Z) : GM unit :=
  let block := if qim =? 0 then 0 else block in
  let! k := avia_gt_dmx_map_queue queue_nr in
  reg_write (QnINT k) (Z.lor (Z.shiftl qim 15) (Z.shiftl (Z.land block 0x1F) 10)).

(** [do ... while (previous != value)] *)
Fixpoint read_stable (fuel : nat) (read : GM Z) (previous : Z) : GM Z :=
  match fuel with
  | O => fun _ => Diverge
  | S fuel => let! v := read in if v =? previous then mret_ v else read_stable fuel read v
  end.

Definition avia_gt_dmx_queue_set_write_pos (queue_nr write_pos : Z) : GM unit :=
  if negb (q_count_ok queue_nr) then mret_ tt else
  let! q := q_get queue_nr in
  let! k := avia_gt_dmx_map_queue queue_nr in
  let! g := gget in
  let p := u32 (write_pos + mem_addr q) in
  reg_write (QWPnL k) (Z.land p 0xFFFF) ;;;
  reg_write (QWPnH k) (Z.lor (Z.land (Z.shiftr p 16) 0x3F)
                         (Z.shiftl (at_ (queue_size_table g) queue_nr) 6)).

Definition read_qwp (k : Z) : GM Z :=
  let! lo := reg_read (QWPnL k) in
  let! hi := reg_read (QWPnH k) in
  mret_ (Z.lor lo (Z.shiftl (Z.land hi 0x3F) 16)).

Definition avia_gt_dmx_queue_get_write_pos (queue_nr : Z) : GM Z :=
  if negb (q_count_ok queue_nr) then mret_ 0 else
  let! q := q_get queue_nr in
  let! k := avia_gt_dmx_map_queue queue_nr in
  let! p := read_stable hw_fuel (read_qwp k) 0xFFFFFFFF in
  if (p <? mem_addr q) || (p >=? mem_addr q + qsize q) then
    q_mod queue_nr (fun q => set_hw_read_pos 0 (set_hw_write_pos 0 (set_read_pos 0 (set_write_pos 0 q)))) ;;;
    avia_gt_dmx_queue_set_write_pos queue_nr 0 ;;;
    mret_ 0
  else mret_ (p - mem_addr q).

(** The registers of the decoders' read and write positions. *)
Definition aq_base (queue_nr : Z) : Z := at_ queue_system_map queue_nr * 8.

Definition avia_gt_dmx_system_queue_set_write_pos (queue_nr write_pos : Z) : GM unit :=
  if negb (avia_gt_dmx_queue_is_system_queue queue_nr) then mret_ tt else
  let! q := q_get queue_nr in
  let! g := gget in
  let p := u32 (write_pos + mem_addr q) in
  reg_write (AQRP (aq_base queue_nr + 4)) (Z.land p 0xffff) ;;;
  reg_write (AQRP (aq_base queue_nr + 6))
    (Z.lor (Z.land (Z.shiftr p 16) 0x3f) (Z.shiftl (at_ (queue_size_table g) queue_nr) 6)).

Definition avia_gt_dmx_system_queue_set_read_pos (queue_nr read_pos : Z) : GM unit :=
  if negb (avia_gt_dmx_queue_is_system_queue queue_nr) then mret_ tt else
  let! q := q_get queue_nr in
  let p := u32 (read_pos + mem_addr q) in
  reg_write (AQRP (aq_base queue_nr)) (Z.land p 0xffff) ;;;
  reg_write (AQRP (aq_base queue_nr + 2)) (Z.land (Z.shiftr p 16) 0x3f).

Definition avia_gt_dmx_system_queue_set_pos (queue_nr read_pos write_pos : Z) : GM unit :=
  if negb (avia_gt_dmx_queue_is_system_queue queue_nr) then mret_ tt else
  let! q := q_get queue_nr in
  let p := u32 (read_pos + mem_addr q) in
  reg_write (AQRP (aq_base queue_nr)) (Z.land p 0xffff) ;;;
  avia_gt_dmx_system_queue_set_write_pos queue_nr write_pos ;;;
  reg_write (AQRP (aq_base queue_nr + 2)) (Z.land (Z.shiftr p 16) 0x3f).

Definition read_aq (queue_nr : Z) : GM Z :=
  let! lo := reg_read (AQRP (aq_base queue_nr)) in
  let! hi := reg_read (AQRP (aq_base queue_nr + 2)) in
  mret_ (Z.lor lo (Z.shiftl (Z.land hi 0x3F) 16)).

Definition avia_gt_dmx_system_queue_get_read_pos (queue_nr : Z) : GM Z :=
  if negb (avia_gt_dmx_queue_is_system_queue queue_nr) then mret_ 0 else
  let! q := q_get queue_nr in
  let! p := read_stable hw_fuel (read_aq queue_nr) 0xFFFFFFFF in
  if (p <? mem_addr q) || (p >=? mem_addr q + qsize q) then mret_ 0 else mret_ (p - mem_addr q).

Definition avia_gt_dmx_queue_reset (queue_nr : Z) : GM Z :=
  if negb (q_count_ok queue_nr) then mret_ (- EINVAL) else
  q_mod queue_nr (fun q => set_hw_read_pos 0 (set_hw_write_pos 0 (set_read_pos 0 (set_write_pos 0 q)))) ;;;
  avia_gt_dmx_queue_set_write_pos queue_nr 0 ;;;
  (if avia_gt_dmx_queue_is_system_queue queue_nr
   then avia_gt_dmx_system_queue_set_pos queue_nr 0 0 else mret_ tt) ;;;
  mret_ 0.

(** ** Interrupts of the queues on and off *)

Definition set_running_at (queue_nr : Z) (b : bool) : GM unit := q_mod queue_nr (set_running b).

Definition queue_alloc_irq (queue_nr : Z) : GM Z :=
  let! g := gget in
  avia_gt_alloc_irq (avia_gt_dmx_get_queue_irq (chip_type g) queue_nr) ISR_dmx_queue.
Definition queue_free_irq (queue_nr : Z) : GM unit :=
  let! g := gget in avia_gt_free_irq (avia_gt_dmx_get_queue_irq (chip_type g) queue_nr).

(** The calls for a system queue do not look at the clients again. *)
Definition system_irq_enable (sys : Z) : GM Z := set_running_at sys true ;;; queue_alloc_irq sys.
Definition system_irq_disable (sys : Z) : GM unit := set_running_at sys false ;;; queue_free_irq sys.

Definition client_at (sys : Z) : GM Z := let! g := gget in mret_ (at_ (queue_client g) sys).
Definition client_set (sys c : Z) : GM unit := gmod (fun g => set_queue_client (setZ (queue_client g) sys c) g).

Definition update_client (new_client : list Z) (sys : Z) : GM unit :=
  let! old := client_at sys in
  let new := at_ new_client sys in
  (if negb (new =? -1) && (old =? -1) then
     client_set sys new ;;;
     let! write_pos := avia_gt_dmx_queue_get_write_pos sys in
     q_mod sys (fun q => set_hw_write_pos write_pos (set_hw_read_pos write_pos
       (set_write_pos write_pos (set_read_pos write_pos (set_overflow_count 0 q))))) ;;;
     system_irq_enable sys ;;; mret_ tt
   else if (new =? -1) && negb (old =? -1) then system_irq_disable sys
   else mret_ tt) ;;;
  client_set sys new.

Definition avia_gt_dmx_enable_disable_system_queue_irqs : GM unit :=
  let! g := gget in
  let new_client := new_queue_client (queue_list g) in
  update_client new_client AVIA_GT_DMX_QUEUE_VIDEO ;;;
  update_client new_client AVIA_GT_DMX_QUEUE_AUDIO ;;;
  update_client new_client AVIA_GT_DMX_QUEUE_TELETEXT.

Definition avia_gt_dmx_queue_irq_disable (queue_nr : Z) : GM unit :=
  set_running_at queue_nr false ;;;
  (if negb (avia_gt_dmx_queue_is_system_queue queue_nr)
   then avia_gt_dmx_enable_disable_system_queue_irqs else mret_ tt) ;;;
  queue_free_irq queue_nr.

Definition avia_gt_dmx_queue_irq_enable (queue_nr : Z) : GM Z :=
  set_running_at queue_nr true ;;;
  (if negb (avia_gt_dmx_queue_is_system_queue queue_nr)
   then avia_gt_dmx_enable_disable_system_queue_irqs else mret_ tt) ;;;
  queue_alloc_irq queue_nr.

(** ** Allocation *)

Definition alloc_init (irq cb : option Z) (priv jiffies : Z) (q : sAviaGtDmxQueue) : sAviaGtDmxQueue :=
  set_busy true (set_cb_proc cb (set_hw_read_pos 0 (set_hw_write_pos 0 (set_irq_count 0
    (set_irq_proc irq (set_priv_data priv (set_qim_irq_count 0 (set_qim_jiffies jiffies
      (set_qim_mode false (set_read_pos 0 (set_write_pos 0 q))))))))))).

(** [None]: NULL. *)
Definition avia_gt_dmx_alloc_queue (queue_nr : Z) (irq_proc cb_proc : option Z) (priv_data : Z)
    : GM (option Z) :=
  if negb (q_count_ok queue_nr) then mret_ None else
  let! q := q_get queue_nr in
  if busy q then mret_ None else
  let! g := gget in
  q_mod queue_nr (alloc_init irq_proc cb_proc priv_data (jiffies g)) ;;;
  avia_gt_dmx_queue_reset queue_nr ;;;
  avia_gt_dmx_set_queue_irq queue_nr 0 0 ;;;
  mret_ (Some queue_nr).

Definition avia_gt_dmx_alloc_queue_audio := avia_gt_dmx_alloc_queue AVIA_GT_DMX_QUEUE_AUDIO.
Definition avia_gt_dmx_alloc_queue_message := avia_gt_dmx_alloc_queue AVIA_GT_DMX_QUEUE_MESSAGE.
Definition avia_gt_dmx_alloc_queue_teletext := avia_gt_dmx_alloc_queue AVIA_GT_DMX_QUEUE_TELETEXT.
Definition avia_gt_dmx_alloc_queue_video := avia_gt_dmx_alloc_queue AVIA_GT_DMX_QUEUE_VIDEO.

(** The first user queue that is not busy. *)
Definition free_user_queue (ql : list sAviaGtDmxQueue) : option Z :=
  find (fun nr => match queue_nth ql nr with Some q => negb (busy q) | None => false end)
    (seqZ AVIA_GT_DMX_QUEUE_USER_START 28).
Definition avia_gt_dmx_alloc_queue_user (irq_proc cb_proc : option Z) (priv_data : Z) : GM (option Z) :=
  let! g := gget in
  match free_user_queue (queue_list g) with
  | Some nr => avia_gt_dmx_alloc_queue nr irq_proc cb_proc priv_data
  | None => mret_ None
  end.

Definition avia_gt_dmx_free_queue (queue_nr : Z) : GM Z :=
  if negb (q_count_ok queue_nr) then mret_ (- EINVAL) else
  let! q := q_get queue_nr in
  if negb (busy q) then mret_ (- EFAULT) else
  avia_gt_dmx_queue_irq_disable queue_nr ;;;
  q_mod queue_nr (fun q => set_busy false (set_cb_proc None (set_irq_count 0 (set_irq_proc None
                             (set_priv_data 0 q))))) ;;;
  mret_ 0.

Definition avia_gt_dmx_get_queue_info (queue_nr : Z) : GM (option sAviaGtDmxQueue) :=
  if negb (q_count_ok queue_nr) then mret_ None else
  let! q := q_get queue_nr in mret_ (Some q).

(** ** Starting and stopping *)

Definition avia_gt_dmx_queue_start (queue_nr qmode pid : Z) : GM Z :=
  if negb (q_count_ok queue_nr) then mret_ (- EINVAL) else
  (if queue_nr =? AVIA_GT_DMX_QUEUE_VIDEO then
     let n := if qmode =? TS then 11 else 10 in
     gmod (fun g => set_queue_size_table (setZ (queue_size_table g) 0 n) g) ;;;
     q_mod queue_nr (set_qsize (Z.shiftl 1 n * 64))
   else mret_ tt) ;;;
  avia_gt_dmx_queue_reset queue_nr ;;;
  q_mod queue_nr (fun q => set_pid pid (set_mode qmode q)) ;;;
  (if avia_gt_dmx_queue_is_system_queue queue_nr
   then avia_gt_dmx_enable_disable_system_queue_irqs else mret_ tt) ;;;
  on_risc (prop_ucode_start_queue_feeds queue_nr) ;;;
  mret_ 0.

Definition avia_gt_dmx_queue_stop (queue_nr : Z) : GM Z :=
  if negb (q_count_ok queue_nr) then mret_ (- EINVAL) else
  q_mod queue_nr (set_pid 0xFFFF) ;;;
  avia_gt_dmx_queue_irq_disable queue_nr ;;;
  on_risc (prop_ucode_stop_queue_feeds queue_nr true) ;;;
  mret_ 0.

(** The feed of a user queue while a decoder has the same PID. *)
Definition avia_gt_dmx_tap (queue_nr : Z) (start : bool) : GM unit :=
  let! q := q_get queue_nr in
  if start then on_risc (prop_ucode_start_feed (feed_idx q) true)
  else on_risc (prop_ucode_stop_feed (feed_idx q) false).

(** ** Contents *)

Definition dq_bytes_avail (nr : Z) : GM Z := let! q := q_get nr in mret_ (bytes_avail q).
Definition dq_get_data (nr : Z) (dest : bool) (count : Z) (peek : bool) : GM (Z * list Z) :=
  let! q := q_get nr in
  let! g := gget in
  let! r := mlift (queue_data_get (gt_mem g) q dest count peek) in
  q_mod nr (fun _ => r.2) ;;;
  mret_ r.1.
Definition dq_get_data8 (nr : Z) (peek : bool) : GM Z :=
  let! q := q_get nr in
  let! g := gget in
  let! r := mlift (queue_data_get8 (gt_mem g) q peek) in
  q_mod nr (fun _ => r.2) ;;;
  mret_ r.1.
Definition dq_flush (nr : Z) : GM unit := q_mod nr queue_flush.

Definition accel_crc (addr n seed : Z) : GM Z :=
  fun s => let? r := avia_gt_accel_crc32 (chip_type s.1) (gt_mem s.1) addr n seed s.2 in
           Ok (r.1, (s.1, r.2)).

Definition avia_gt_dmx_queue_crc32 (nr count seed : Z) : GM Z :=
  let! q := q_get nr in
  let! g := gget in
  if read_pos q + count >? qsize q then
    let chunk1_size := qsize q - read_pos q in
    if bool_decide (chip_type g = GTX) && (chunk1_size <=? 4) then mret_ 0 else
    let! crc := accel_crc (mem_addr q + read_pos q) chunk1_size seed in
    accel_crc (mem_addr q) (count - chunk1_size) crc
  else accel_crc (mem_addr q + read_pos q) count seed.

Definition avia_gt_dmx_queue_get_bytes_free (nr : Z) : GM Z :=
  if negb (avia_gt_dmx_queue_is_system_queue nr) then mret_ 0 else
  let! pos := avia_gt_dmx_system_queue_get_read_pos nr in
  q_mod nr (set_hw_read_pos pos) ;;;
  let! q := q_get nr in mret_ (bytes_free q).

Definition avia_gt_dmx_queue_data_put (nr : Z) (src : list Z) : GM Z :=
  let! free := avia_gt_dmx_queue_get_bytes_free nr in
  if negb (avia_gt_dmx_queue_is_system_queue nr) then mret_ 0 else
  let! q := q_get nr in
  let! g := gget in
  let! r := mlift (queue_data_put (gt_mem g) q src free) in
  gmod (set_gt_mem r.1.2) ;;;
  q_mod nr (fun _ => r.2) ;;;
  mret_ r.1.1.

Definition avia_gt_dmx_queue_nr_get_bytes_free (nr : Z) : GM Z :=
  if negb (q_count_ok nr) then mret_ (- EINVAL) else avia_gt_dmx_queue_get_bytes_free nr.

(** Waiting for the decoder to make room: [None] when it would have to wait and
    may not. *)
Fixpoint wait_room (fuel : nat) (nr n : Z) (nonblock : bool) : GM bool :=
  let! free := avia_gt_dmx_queue_get_bytes_free nr in
  if free <? n then
    if nonblock then mret_ false else
    match fuel with O => fun _ => Diverge | S fuel => wait_room fuel nr n nonblock end
  else mret_ true.

(** [todo > 0]; [rest] are the bytes behind [buf]. *)
Fixpoint write_loop (fuel : nat) (nr count queue_size : Z) (rest : list Z) (nonblock : bool) : GM Z :=
  let todo := zlen rest in
  if todo =? 0 then mret_ (count - todo) else
  match fuel with
  | O => fun _ => Diverge
  | S fuel =>
      let n := Z.min todo queue_size in
      let! room := wait_room hw_fuel nr n nonblock in
      if negb room then mret_ (if negb (count - todo =? 0) then count - todo else - EAGAIN) else
      avia_gt_dmx_queue_data_put nr (take (Z.to_nat n) rest) ;;;
      let! q := q_get nr in
      avia_gt_dmx_system_queue_set_write_pos nr (write_pos q) ;;;
      write_loop fuel nr count queue_size (drop (Z.to_nat n) rest) nonblock
  end.

Definition avia_gt_dmx_queue_write (nr : Z) (buf : list Z) (nonblock : bool) : GM Z :=
  if negb (avia_gt_dmx_queue_is_system_queue nr) then mret_ (- EINVAL) else
  if zlen buf =? 0 then mret_ 0 else
  let! q := q_get nr in
  write_loop (length buf) nr (zlen buf) (u32 (qsize q - 1)) buf nonblock.

(** ** The interrupt of a queue *)

Definition avia_gt_dmx_queue_qim_mode_update (queue_nr : Z) : GM unit :=
  let! q := q_get queue_nr in
  let! block := mlift (qim_block q) in
  avia_gt_dmx_set_queue_irq queue_nr 1 block.

(** A bottom half that is queued already is not queued again. *)
Definition schedule_queue (queue_nr : Z) : GM unit :=
  gmod (fun g => if decide (queue_nr ∈ tasks g) then g else set_tasks (tasks g ++ [queue_nr]) g).

Definition time_after (a b : Z) : bool := s32 (b - a) <? 0.

(** Counting the interrupts; more than 100 in a second turn on the mode with
    one interrupt per block. *)
Definition queue_irq_load (queue_nr : Z) : GM unit :=
  let! q := q_get queue_nr in
  if negb (qim_mode q) then
    q_mod queue_nr (set_qim_irq_count (u32 (qim_irq_count q + 1))) ;;;
    let! g := gget in
    if time_after (jiffies g) (u32 (qim_jiffies q + HZ)) then
      (if u32 (qim_irq_count q + 1) >? 100 then
         q_mod queue_nr (set_qim_mode true) ;;; avia_gt_dmx_queue_qim_mode_update queue_nr
       else mret_ tt) ;;;
      q_mod queue_nr (fun q => set_qim_irq_count 0 (set_qim_jiffies (jiffies g) q))
    else mret_ tt
  else avia_gt_dmx_queue_qim_mode_update queue_nr.

Definition avia_gt_dmx_queue_irq (irq : Z) : GM unit :=
  let! g := gget in
  let queue_nr := irq_queue (chip_type g) irq in
  if negb (q_count_ok queue_nr) then mret_ tt else
  let! q := q_get queue_nr in
  if negb (busy q) then mret_ tt else
  q_mod queue_nr (set_irq_count (u32 (irq_count q + 1))) ;;;
  let! w := avia_gt_dmx_queue_get_write_pos queue_nr in
  q_mod queue_nr (set_hw_write_pos w) ;;;
  queue_irq_load queue_nr ;;;
  let! q' := q_get queue_nr in
  (if hw_overflow (read_pos q') (hw_write_pos q) (hw_write_pos q')
   then q_mod queue_nr (set_overflow_count (u8 (overflow_count q' + 1))) else mret_ tt) ;;;
  match irq_proc q', cb_proc q' with
  | Some f, _ => cb_queue f queue_nr (priv_data q')
  | None, Some _ => schedule_queue queue_nr
  | None, None => mret_ tt
  end.

Definition avia_gt_dmx_fake_queue_irq (queue_nr : Z) : GM unit :=
  if negb (q_count_ok queue_nr) then mret_ tt else
  q_mod queue_nr (fun q => set_irq_count (u32 (irq_count q + 1)) q) ;;;
  schedule_queue queue_nr.

(** ** The message queue of the microcode (avia_gt_ucode.c) *)

Fixpoint drain (fuel : nat) (nr bytes_avail : Z) : GM unit :=
  if bytes_avail =? 0 then mret_ tt else
  match fuel with
  | O => fun _ => Diverge
  | S fuel => dq_get_data nr true 1 false ;;; drain fuel nr (bytes_avail - 1)
  end.

(** Stopping and starting the feed of a PID whose continuity was lost. *)
Definition restart_feed (pid : Z) (between : GM unit) : GM unit :=
  let! flags := on_risc local_irq_save in
  let! g := gget in
  (match pid2feedidx pid (risc g) with
   | Some feedidx =>
       on_risc (prop_ucode_stop_feed feedidx false) ;;;
       between ;;;
       on_risc (prop_ucode_start_feed feedidx false)
   | None => mret_ tt
   end) ;;;
  on_risc (local_irq_restore flags).

Definition prop_ucode_handle_msgq (nr : Z) : GM unit :=
  let! avail := dq_bytes_avail nr in
  if avail =? 0 then mret_ tt else
  let! r := dq_get_data nr true 1 true in
  let cmd := at_ r.2 0 in
  if cmd =? DMX_MESSAGE_INIT then
    dq_get_data nr false 1 false ;;; dq_flush nr
  else if cmd =? DMX_MESSAGE_ADAPTATION then
    if avail <? 5 then mret_ tt else
    let! r := dq_get_data nr true 5 true in
    let length := at_ r.2 4 in
    if avail <? 5 + length then mret_ tt else
    dq_get_data nr false (5 + length) false ;;; mret_ tt
  else if cmd =? DMX_MESSAGE_SYNC_LOSS then
    dq_get_data nr false 1 false ;;; avia_gt_dmx_risc_reset true ;;; dq_flush nr
  else if cmd =? DMX_MESSAGE_CC_ERROR then
    if avail <? 5 then mret_ tt else
    let! r := dq_get_data nr true 5 false in
    restart_feed (word (at_ r.2 3) (at_ r.2 4)) (dq_flush nr)
  else if cmd =? DMX_MESSAGE_SECTION_COMPLETED then
    if avail <? 4 then mret_ tt else
    dq_get_data nr true 4 false ;;; mret_ tt
  else
    dq_get_data nr false 1 false ;;; drain (Z.to_nat avail) nr (avail - 1).

(** ** The bottom half *)

Definition call_proc (cb : option Z) (nr priv : Z) : GM unit :=
  match cb with
  | None => mret_ tt
  | Some f => if f =? CB_MSGQ then prop_ucode_handle_msgq nr else cb_queue f nr priv
  end.

(** The start of a TS packet, as [struct ts_header] shows it. *)
Definition hdr_pid (h : list Z) : Z := word (Z.land (at_ h 1) 0x1f) (at_ h 2).
Definition hdr_match (pid1 pid2 : Z) (h : list Z) : bool :=
  (at_ h 0 =? 0x47) && ((hdr_pid h =? pid1) || (hdr_pid h =? pid2)).

(** [while (avail >= 188)]: byte for byte to the next packet. *)
Fixpoint resync (fuel : nat) (nr pid1 pid2 avail : Z) : GM Z :=
  if avail >=? 188 then
    match fuel with
    | O => fun _ => Diverge
    | S fuel =>
        dq_get_data nr false 1 false ;;;
        let! r := dq_get_data nr true 4 true in
        if hdr_match pid1 pid2 r.2 then mret_ (avail - 1)
        else resync fuel nr pid1 pid2 (avail - 1)
    end
  else mret_ avail.

(** The PIDs of the packets in a queue; [junk]: [pid2] is not set when neither
    the video nor the audio queue has a PID. *)
Definition queue_pids (ql : list sAviaGtDmxQueue) (nr junk : Z) : Z * Z :=
  let p k := match queue_nth ql k with Some q => pid q | None => 0xFFFF end in
  if nr =? AVIA_GT_DMX_QUEUE_VIDEO then
    let v := p AVIA_GT_DMX_QUEUE_VIDEO in
    let a := p AVIA_GT_DMX_QUEUE_AUDIO in
    let r := if negb (v =? 0xFFFF) then (v, v) else (0xFFFF, junk) in
    if negb (a =? 0xFFFF) then (if r.1 =? 0xFFFF then a else r.1, a) else r
  else (p nr, p nr).

(** The callback of the queue, or of the client of a system queue. *)
Definition run_callback (nr : Z) : GM unit :=
  let! g := gget in
  let from := if (nr <? AVIA_GT_DMX_QUEUE_USER_START) && negb (at_ (queue_client g) nr =? -1)
              then at_ (queue_client g) nr else nr in
  let! q := q_get from in
  call_proc (cb_proc q) nr (priv_data q).

Definition avia_gt_dmx_bh_task (junk nr : Z) : GM unit :=
  if negb (q_count_ok nr) then mret_ tt else
  q_mod nr (fun q => set_write_pos (hw_write_pos q) q) ;;;
  let! q := q_get nr in
  if negb (overflow_count q =? 0) then
    q_mod nr (fun q => set_read_pos (hw_write_pos q) (set_write_pos (hw_write_pos q)
                         (set_overflow_count 0 q)))
  else if nr =? AVIA_GT_DMX_QUEUE_MESSAGE then call_proc (cb_proc q) nr (priv_data q)
  else if mode q =? TS then
    let! g := gget in
    let '(pid1, pid2) := queue_pids (queue_list g) nr junk in
    let avail := bytes_avail q in
    if avail <? 188 then mret_ tt else
    let! r := dq_get_data nr true 4 true in
    if hdr_match pid1 pid2 r.2 then run_callback nr
    else
      let! avail := resync (Z.to_nat avail) nr pid1 pid2 avail in
      if avail <? 188 then mret_ tt else run_callback nr
  else run_callback nr.

(** ** Clock recovery *)

Definition avia_gt_dmx_force_discontinuity : GM unit :=
  gmod (set_force_stc_reload true) ;;; reg_write FC_FD 1.

Definition clock_read (r : Z -> gt_reg) : GM Z :=
  let! r2 := reg_read (r 2) in
  let! r1 := reg_read (r 1) in
  let! r0 := reg_read (r 0) in
  mret_ (clock_base r2 r1 r0).
Definition avia_gt_dmx_get_pcr_base := clock_read TP_PCR.
Definition avia_gt_dmx_get_latched_stc_base := clock_read LC_STC.
Definition avia_gt_dmx_get_stc_base := clock_read STC_COUNTER.

Definition avia_gt_dmx_get_stc (num : Z) : GM (Z * option Z) :=
  if negb (num =? 0) then mret_ (- EINVAL, None)
  else let! s := avia_gt_dmx_get_latched_stc_base in mret_ (0, Some s).

Definition avia_gt_dmx_set_dac (pulse_count : Z) : GM unit :=
  reg_write DAC_PC (u32 (Z.lor (Z.shiftl pulse_count 16) 9)).

Definition avia_gt_pcr_irq : GM unit :=
  let! pcr := avia_gt_dmx_get_pcr_base in
  let! g := gget in
  if force_stc_reload g then
    let! stc := avia_gt_dmx_get_stc_base in
    reg_write AV_STC_HI (u32 (Z.shiftr stc 1)) ;;;
    reg_write AV_STC_LO (u32 (Z.shiftl (Z.land stc 1) 15)) ;;;
    gmod (fun g => set_force_stc_reload false (set_last_pcr pcr (set_last_lstc pcr
                     (set_last_pcr_lstc_diff 0 g))))
  else if pcr_diff pcr (last_pcr g) >? MAX_PCR_DIFF then avia_gt_dmx_force_discontinuity
  else
    let! lstc := avia_gt_dmx_get_latched_stc_base in
    let diff := pcr_lstc_diff pcr (last_pcr g) lstc (last_lstc g) in
    gmod (fun g => set_last_pcr pcr (set_last_lstc lstc g)) ;;;
    if (diff >? MAX_DIFF) || (diff <? - MAX_DIFF) then avia_gt_dmx_force_discontinuity
    else
      match adjust diff (last_pcr_lstc_diff g) (gain g) with
      | None => mret_ tt
      | Some (gain, last) =>
          gmod (fun g => set_gain gain (set_last_pcr_lstc_diff last g)) ;;;
          avia_gt_dmx_set_dac gain
      end.

Definition avia_gt_dmx_set_pcr_pid (enable pid : Z) : GM unit :=
  reg_write PCR_PID (Z.lor (Z.shiftl (c_bool (negb (enable =? 0))) 13) pid) ;;;
  let! g := gget in
  avia_gt_free_irq (irq_pcr (chip_type g)) ;;;
  avia_gt_alloc_irq (irq_pcr (chip_type g)) ISR_pcr ;;;
  avia_gt_dmx_force_discontinuity.

(** ** Framer and clip mode *)

Definition avia_gt_dmx_enable_disable_framer (enable : bool) : GM unit :=
  reg_write FC_FE (c_bool enable) ;;;
  if enable then reg_write FC_FH (c_bool enable) else mret_ tt.
Definition avia_gt_dmx_enable_framer : GM unit := avia_gt_dmx_enable_disable_framer true.
Definition avia_gt_dmx_disable_framer : GM unit := avia_gt_dmx_enable_disable_framer false.

Definition avia_gt_dmx_enable_disable_clip_mode (queue_nr : Z) (enable : bool) : GM Z :=
  let e := c_bool enable in
  let! known :=
    if queue_nr =? AVIA_GT_DMX_QUEUE_VIDEO then reg_write CFGR0_VCP e ;;; mret_ true
    else if queue_nr =? AVIA_GT_DMX_QUEUE_AUDIO then reg_write CFGR0_ACP e ;;; mret_ true
    else if queue_nr =? AVIA_GT_DMX_QUEUE_TELETEXT then reg_write CFGR0_TCP e ;;; mret_ true
    else if queue_nr =? AVIA_GT_DMX_SYSTEM_QUEUES then
      reg_write CFGR0_VCP e ;;; reg_write CFGR0_ACP e ;;; reg_write CFGR0_TCP e ;;; mret_ true
    else mret_ false in
  if negb known then mret_ (- EINVAL) else
  avia_gt_dmx_enable_disable_framer (negb enable) ;;; mret_ 0.
Definition avia_gt_dmx_enable_clip_mode (queue_nr : Z) := avia_gt_dmx_enable_disable_clip_mode queue_nr true.
Definition avia_gt_dmx_disable_clip_mode (queue_nr : Z) := avia_gt_dmx_enable_disable_clip_mode queue_nr false.

(** ** All interrupts of the chip (avia_gt_core.c) *)

Definition isr_call (p : isr_proc) (irq : Z) : GM unit :=
  match p with
  | ISR_dmx_queue => avia_gt_dmx_queue_irq irq
  | ISR_pcr => avia_gt_pcr_irq
  | ISR_other n => isr_client n irq
  end.

Fixpoint irq_bits (bits : list Z) (irq_reg irq_mask irq_status : Z) : GM unit :=
  match bits with
  | [] => mret_ tt
  | irq_bit :: bits =>
      (if Z.testbit irq_status irq_bit then
         let! g := gget in
         (match isr_at (AVIA_GT_IRQ irq_reg irq_bit) g with
          | Some p => isr_call p (AVIA_GT_IRQ irq_reg irq_bit)
          | None => if Z.testbit irq_mask irq_bit then avia_gt_mask_irq irq_reg irq_bit else mret_ tt
          end) ;;;
         avia_gt_clear_irq irq_reg irq_bit
       else mret_ tt) ;;;
      irq_bits bits irq_reg irq_mask irq_status
  end.

Fixpoint irq_regs (regs : list Z) : GM unit :=
  match regs with
  | [] => mret_ tt
  | irq_reg :: regs =>
      let! irq_mask := avia_gt_get_irq_mask irq_reg in
      let! irq_status := avia_gt_get_irq_status irq_reg in
      irq_bits (seqZ 0 16) irq_reg irq_mask irq_status ;;;
      irq_regs regs
  end.
Definition avia_gt_irq : GM unit := irq_regs (seqZ 0 6).

(** ** Start and end of the driver *)

(** The place of the next queue: aligned to its size. *)
Definition align_queue (queue_addr size : Z) : Z :=
  if negb (Z.land queue_addr (size - 1) =? 0)
  then Z.land (u32 (queue_addr + size)) (Z.lnot (size - 1)) else queue_addr.

(** [memset (queue_list, 0, ...)] *)
Definition zero_queue : sAviaGtDmxQueue :=
  mk_queue None 0 0 0 0 None 0 0 0 0 0 0 0 0 false 0 false 0 false.

Fixpoint init_queues (nrs : list Z) (queue_addr : Z) : GM unit :=
  match nrs with
  | [] => mret_ tt
  | queue_nr :: nrs =>
      let! g := gget in
      let size := Z.shiftl 1 (at_ (queue_size_table g) queue_nr) * 64 in
      let addr := align_queue queue_addr size in
      q_mod queue_nr (fun q => set_qsize size (set_mem_addr addr (set_pid 0xFFFF (set_running false q)))) ;;;
      (if avia_gt_dmx_queue_is_system_queue queue_nr
       then avia_gt_dmx_system_queue_set_pos queue_nr 0 0 else mret_ tt) ;;;
      avia_gt_dmx_queue_set_write_pos queue_nr 0 ;;;
      avia_gt_dmx_set_queue_irq queue_nr 0 0 ;;;
      avia_gt_dmx_queue_irq_disable queue_nr ;;;
      init_queues nrs (addr + size)
  end.

Definition enx_start : GM unit :=
  reg_write RSTR0_AVI 0 ;;; reg_write RSTR0_QUE 0 ;;; reg_write RSTR0_GFIX 0 ;;;
  reg_write RSTR0_VDEO 0 ;;; reg_write RSTR0_FRMR 0 ;;; reg_write RSTR0_UART2 0 ;;;
  reg_write RSTR0_PAR1284 0 ;;; reg_write RSTR0_PCMA 0 ;;;
  reg_write FC 0x1147 ;;; reg_write SYNC_HYST 0x21 ;;; reg_write BQ 0x00BC ;;;
  reg_write RSTR0_FRCH 0 ;;; reg_write FC 0x9147 ;;;
  reg_write CFGR0_DOE 1 ;;;
  reg_write (AVI 0) 0xF ;;; reg_write (AVI 1) 0xA ;;;
  reg_write CFGR0_ACP 0 ;;; reg_write CFGR0_VCP 0.
Definition gtx_start : GM unit :=
  reg_write RSTR0_DAC 1 ;;; reg_write RSTR0_DAC 0 ;;;
  reg_write RSTR0 0 ;;; reg_write RSTR1 0 ;;; reg_write RISCCON 0 ;;;
  reg_write FC 0x9147 ;;; reg_write SYNC_HYST 0x21 ;;;
  reg_write (AVI 0) 0x71F ;;; reg_write (AVI 1) 0xF.

(** The microcode's start with the resets around it (see [AviaUcode]). *)
Definition risc_init (hw_sections : bool) (image : option (list Z)) (builtin : list Z) : GM Z :=
  avia_gt_dmx_risc_reset false ;;;
  on_risc (avia_gt_dmx_risc_init (if hw_sections then 0 else DISABLE_UCODE_SECTION_FILTERING)
             image builtin) ;;;
  avia_gt_dmx_risc_reset true ;;;
  let! g := gget in
  (match chip_type g with ENX => reg_write EC 0 | GTX => mret_ tt end) ;;;
  mret_ 0.

Definition avia_gt_dmx_init (config_gv config_capture hw_sections : bool)
    (image : option (list Z)) (builtin : list Z) : GM Z :=
  let! g := gget in
  (match chip_type g with
   | ENX => reg_write RSTR0_FRCH 1 ;;; reg_write RSTR0_FRMR 1 ;;; reg_write RSTR0_TDMP 1
   | GTX => mret_ tt
   end) ;;;
  risc_init hw_sections image builtin ;;;
  (match chip_type g with ENX => enx_start | GTX => gtx_start end) ;;;
  gmod (set_queue_list (replicate 32 zero_queue)) ;;;
  init_queues (seqZ 0 32) (AVIA_GT_MEM_DMX_OFFS config_gv config_capture) ;;;
  let! g := gget in
  (if negb (Z.land (caps (ucode_info (risc g))) AVIA_GT_UCODE_CAP_MSGQ =? 0) then
     let! r := avia_gt_dmx_alloc_queue_message None (Some CB_MSGQ) 0 in
     gmod (set_msgqueue r) ;;;
     match r with
     | Some nr => avia_gt_dmx_queue_irq_enable nr ;;; mret_ tt
     | None => mret_ tt
     end
   else mret_ tt) ;;;
  mret_ 0.

Definition avia_gt_dmx_exit : GM unit :=
  let! g := gget in
  (match msgqueue g with Some nr => avia_gt_dmx_free_queue nr ;;; mret_ tt | None => mret_ tt end) ;;;
  avia_gt_dmx_risc_reset false.

End Dmx.
