(* ===== verification/AviaDmxSpec.v ===== *)
(** * Theorems about the hardware queues (avia/avia_gt_dmx.c)

    Interrupt numbers, queue registers, checksums over a queue, the clients of
    the system queues, and the layout of the demultiplexer's memory. *)

From S2P Require Import Prelude Crc32 Fifo DemuxState AviaFilter AviaUcode AviaQueue AviaQueueSpec AviaGt AviaAccel AviaPcr AviaDmx.

(** ** Interrupt numbers *)

Definition irq_numbering_ok (c : gt_chip) (nr : Z) : bool :=
  let irq := avia_gt_dmx_get_queue_irq c nr in
  (irq_queue c irq =? nr) && irq_register c (AVIA_GT_IRQ_REG irq) &&
  (AVIA_GT_IRQ_BIT irq <? 16) && negb (irq =? irq_pcr c).

(** On both chips the interrupt number of each of the 32 queues is that of a
    register the chip has, is decoded to the same queue by the interrupt
    handler, and is not the PCR interrupt's.  Different queues have different
    interrupts. *)
Theorem queue_irq_roundtrip c nr :
  0 <= nr < 32 ->
  let irq := avia_gt_dmx_get_queue_irq c nr in
  irq_queue c irq = nr /\ irq_register c (AVIA_GT_IRQ_REG irq) = true /\
  AVIA_GT_IRQ_BIT irq < 16 /\ irq <> irq_pcr c.
Proof.
  intros Hnr irq.
  assert (irq_numbering_ok c nr = true) as H.
  { apply (forall_range (irq_numbering_ok c) 32); [|lia]. destruct c; by vm_compute. }
  unfold irq_numbering_ok in H. fold irq in H. split_bools. split_and!; try done; lia.
Qed.

Lemma queue_irq_roundtrip_witness :
  let irq := avia_gt_dmx_get_queue_irq ENX 17 in
  irq_queue ENX irq = 17 /\ irq_register ENX (AVIA_GT_IRQ_REG irq) = true /\
  AVIA_GT_IRQ_BIT irq < 16 /\ irq <> irq_pcr ENX.
Proof. apply queue_irq_roundtrip. lia. Defined.

(** ** The window on the queue registers *)

(** A position in the 22 bits of a low word and the low bits of a high word. *)
Lemma split_position p size :
  0 <= p < 2 ^ 22 -> 0 <= size ->
  Z.lor (Z.land p 0xFFFF)
    (Z.shiftl (Z.land (Z.lor (Z.land (Z.shiftr p 16) 0x3F) (Z.shiftl size 6)) 0x3F) 16) = p.
Proof.
  intros Hp Hs. change 0xFFFF with (Z.ones 16). change 0x3F with (Z.ones 6).
  apply Z.bits_inj'. intros i Hi. rewrite Z.lor_spec, Z.land_spec, Z.testbit_ones_nonneg by lia.
  rewrite Z.shiftl_spec by done. destruct (Z.ltb_spec i 16) as [?|?].
  - rewrite (Z.testbit_neg_r _ (i - 16)) by lia. rewrite andb_true_r. by rewrite orb_false_r.
  - rewrite andb_false_r, orb_false_l, Z.land_spec, Z.lor_spec, Z.land_spec.
    rewrite !Z.testbit_ones_nonneg by lia. rewrite Z.shiftr_spec, Z.shiftl_spec by lia.
    replace (i - 16 + 16) with i by lia.
    destruct (Z.ltb_spec (i - 16) 6).
    + rewrite (Z.testbit_neg_r _ (i - 16 - 6)) by lia. by rewrite !andb_true_r, orb_false_r.
    + rewrite !andb_false_r. symmetry. apply (bits_small p 22); lia.
Qed.

(** Enough reads for two that agree. *)
Lemma read_stable_twice {W} fuel (read : M (gtdmx * W) Z) prev v s :
  (2 <= fuel)%nat -> read s = Ok (v, s) -> v <> prev ->
  read_stable fuel read prev s = Ok (v, s).
Proof.
  intros Hf Hr Hv. destruct fuel as [|[|fuel]]; [lia..|]. simpl. unfold mbind_. rewrite Hr. simpl.
  rif. unfold mbind_. rewrite Hr. simpl. by rif.
Qed.

(** Comparisons of registers that are the same, or of different kinds. *)
Ltac dec :=
  repeat match goal with
  | |- context [decide ?P] =>
      first [rewrite (decide_True (P := P)) by done | rewrite (decide_False (P := P)) by done]
  end.

Section Window.
Context {W : Type} {B : GtBus W} {R : GtRegisters W}.

(** The write position of a queue in the chip, an address. *)
Definition hw_pos (w : W) (nr : Z) : Z :=
  Z.lor (cell w (nr >=? 16) (QWPnL (Z.land nr 0x0f)))
    (Z.shiftl (Z.land (cell w (nr >=? 16) (QWPnH (Z.land nr 0x0f))) 0x3F) 16).

Lemma upper_window w nr k :
  upper (gt_wr CFGR0_UPQ (c_bool (nr >=? 16)) w) (QWPnL k) = (nr >=? 16) /\
  upper (gt_wr CFGR0_UPQ (c_bool (nr >=? 16)) w) (QWPnH k) = (nr >=? 16).
Proof.
  unfold upper. simpl. rewrite gt_wr_cell by done. simpl. by destruct (nr >=? 16).
Qed.

Lemma hw_pos_window w nr v : hw_pos (gt_wr CFGR0_UPQ v w) nr = hw_pos w nr.
Proof. unfold hw_pos. by rewrite !gt_wr_cell by done. Qed.

Lemma half_nr nr nr' :
  0 <= nr < 32 -> 0 <= nr' < 32 -> (nr' >=? 16) = (nr >=? 16) -> Z.land nr' 0x0f = Z.land nr 0x0f -> nr' = nr.
Proof.
  change 0x0f with (Z.ones 4). rewrite !Z.land_ones by lia. change (2 ^ 4) with 16.
  intros ? ? ? ?. pose proof (Z.div_mod nr 16 ltac:(lia)). pose proof (Z.div_mod nr' 16 ltac:(lia)).
  pose proof (Z.mod_pos_bound nr 16 ltac:(lia)). pose proof (Z.mod_pos_bound nr' 16 ltac:(lia)). lia.
Qed.

Lemma set_write_pos_run g w nr p q :
  0 <= nr < 32 -> queue_list g !! Z.to_nat nr = Some q ->
  0 <= mem_addr q -> 0 <= p -> p + mem_addr q < 2 ^ 22 -> 0 <= at_ (queue_size_table g) nr ->
  exists w', avia_gt_dmx_queue_set_write_pos nr p (g, w) = Ok (tt, (g, w')) /\
    forall n, 0 <= n < 32 -> hw_pos w' n = if n =? nr then p + mem_addr q else hw_pos w n.
Proof.
  intros Hnr Hq Hm Hp Hs Ht. eexists. unfold avia_gt_dmx_queue_set_write_pos, q_count_ok.
  replace (nr <? AVIA_GT_DMX_QUEUE_COUNT) with true by (unfold AVIA_GT_DMX_QUEUE_COUNT; lia).
  unfold q_get, avia_gt_dmx_map_queue, reg_write, gget. mrun. rewrite Hq. mrun.
  split; [reflexivity|]. intros n Hn. unfold u32. rewrite (Z.mod_small (p + mem_addr q)) by lia.
  set (w1 := gt_wr CFGR0_UPQ _ w). destruct (upper_window w nr (Z.land nr 15)) as [U1 U2].
  fold w1 in U1, U2.
  set (w2 := gt_wr (QWPnL _) _ w1).
  assert (upper w2 (QWPnH (Z.land nr 15)) = (nr >=? 16)) as U3.
  { rewrite <- U2. unfold upper, w2. rewrite gt_wr_cell by done. done. }
  unfold hw_pos. cbn [fst snd]. rewrite !gt_wr_cell by done. rewrite U3.
  unfold w2. rewrite !gt_wr_cell by done. rewrite U1.
  unfold w1. rewrite !gt_wr_cell by done.
  destruct (decide (n = nr)) as [->|Hne].
  - rewrite Z.eqb_refl, Bool.eqb_reflx. dec. apply split_position; lia.
  - rif. dec. destruct (Bool.eqb (n >=? 16) (nr >=? 16)) eqn:Eb.
    + apply eqb_prop in Eb.
      assert (Z.land n 15 <> Z.land nr 15) by (intros E; exact (Hne (half_nr nr n Hnr Hn Eb E))).
      rewrite (decide_False (P := QWPnL _ = QWPnL _)), (decide_False (P := QWPnH _ = QWPnH _))
        by congruence. done.
    + by destruct (decide _), (decide _).
Qed.

Lemma get_write_pos_run g w nr q :
  0 <= nr < 32 -> queue_list g !! Z.to_nat nr = Some q ->
  mem_addr q <= hw_pos w nr < mem_addr q + qsize q -> hw_pos w nr < 2 ^ 22 ->
  exists w', avia_gt_dmx_queue_get_write_pos nr (g, w) = Ok (hw_pos w nr - mem_addr q, (g, w')) /\
    forall n, hw_pos w' n = hw_pos w n.
Proof.
  intros Hnr Hq Hr Hp. eexists. unfold avia_gt_dmx_queue_get_write_pos, q_count_ok.
  replace (nr <? AVIA_GT_DMX_QUEUE_COUNT) with true by (unfold AVIA_GT_DMX_QUEUE_COUNT; lia).
  unfold q_get, avia_gt_dmx_map_queue, reg_write, gget. mrun. rewrite Hq. mrun.
  set (w1 := gt_wr CFGR0_UPQ _ w). destruct (upper_window w nr (Z.land nr 15)) as [U1 U2].
  fold w1 in U1, U2.
  assert (read_qwp (Z.land nr 15) (g, w1) = Ok (hw_pos w nr, (g, w1))) as Hread.
  { unfold read_qwp, reg_read, mbind_. cbn [fst snd res_bind].
    rewrite !gt_rd_cell. cbn [fst snd res_bind]. rewrite U1.
    rewrite U2.
    by rewrite <- (hw_pos_window w nr (c_bool (nr >=? 16))). }
  erewrite mbind_Ok; [|apply read_stable_twice; [unfold hw_fuel; lia|exact Hread|lia]].
  rif. split; [reflexivity|]. intros n. apply hw_pos_window.
Qed.

End Window.

(** On a chip whose registers keep what is written to them, setting the write
    position of any of the 32 queues and asking for it gives the position
    back, through the window on half of the queues and the split of the
    address over two registers; reading needs at most two rounds of its loop,
    and no other queue's position changes. *)
Theorem queue_write_pos_roundtrip {W} {B : GtBus W} {R : GtRegisters W} g (w : W) nr p q :
  0 <= nr < 32 -> queue_list g !! Z.to_nat nr = Some q ->
  0 <= mem_addr q -> mem_addr q + qsize q <= 2 ^ 22 -> 0 <= p < qsize q ->
  0 <= at_ (queue_size_table g) nr ->
  exists w1 w2,
    avia_gt_dmx_queue_set_write_pos nr p (g, w) = Ok (tt, (g, w1)) /\
    avia_gt_dmx_queue_get_write_pos nr (g, w1) = Ok (p, (g, w2)) /\
    forall n, 0 <= n < 32 -> n <> nr -> hw_pos w2 n = hw_pos w n.
Proof.
  intros Hnr Hq Hm Hs Hp Ht.
  destruct (set_write_pos_run g w nr p q Hnr Hq Hm ltac:(lia) ltac:(lia) Ht) as (w1 & E1 & H1).
  pose proof (H1 nr Hnr) as Hpos. rewrite Z.eqb_refl in Hpos.
  destruct (get_write_pos_run g w1 nr q Hnr Hq ltac:(rewrite Hpos; lia) ltac:(rewrite Hpos; lia)) as (w2 & E2 & H2).
  exists w1, w2. split_and!; [done| |].
  - rewrite E2, Hpos. f_equal. f_equal. lia.
  - intros n Hn Hne. rewrite H2, H1 by done. by rif.
Qed.

(** The driver with queues of [sizes] at the places [init] gives them, on a
    register file. *)
Definition no_regs : regfile := fun _ _ => 0.
Definition empty_risc : ucode :=
  mk_ucode (replicate 0x400 0) (replicate 32 fresh_feed) (replicate 32 (-1)) (replicate 32 0)
    (mk_ucode_info 0 0 1 [0; 3; 4]) false.
Definition sample_queue (i : Z) : sAviaGtDmxQueue :=
  mk_queue None 0 0 0 0 None (i * 0x20000) 0 0 0 0 (Z.shiftl 1 (at_ queue_sizes i) * 64) 0 0xFFFF
    false 0 false 0 false.
Definition sample_dmx (c : gt_chip) : gtdmx :=
  mk_gtdmx c [] (map sample_queue (seqZ 0 32)) [-1; -1; -1] queue_sizes false 0 0 0 0
    (replicate 128 None) [] 0 empty_risc None.

Lemma queue_write_pos_roundtrip_witness :
  exists w1 w2,
    avia_gt_dmx_queue_set_write_pos 21 0x1fff (sample_dmx ENX, no_regs) = Ok (tt, (sample_dmx ENX, w1)) /\
    avia_gt_dmx_queue_get_write_pos 21 (sample_dmx ENX, w1) = Ok (0x1fff, (sample_dmx ENX, w2)) /\
    forall n, 0 <= n < 32 -> n <> 21 -> hw_pos w2 n = hw_pos no_regs n.
Proof.
  apply (queue_write_pos_roundtrip (sample_dmx ENX) no_regs 21 0x1fff (sample_queue 21));
    try reflexivity; vm_compute; repeat split; discriminate.
Defined.

(** ** Checksums over a queue *)

Lemma accel_crc_run {W} {A : GtAccel W} {L : CrcEngine W} addr n seed g (w : W) s :
  chip_type g = ENX -> slice (gt_mem g) addr n = Ok s ->
  exists w', accel_crc addr n seed (g, w) = Ok (crc32_be seed s, (g, w')).
Proof.
  intros Hc Hs. unfold accel_crc. simpl. rewrite Hc.
  destruct (accel_crc32_run (gt_mem g) addr n seed w s Hs) as (w' & ->). simpl. by eexists.
Qed.

Lemma queue_crc32_run {W} {A : GtAccel W} {L : CrcEngine W} g (w : W) nr q count seed :
  chip_type g = ENX -> queue_list g !! Z.to_nat nr = Some q -> queue_ok (gt_mem g) q ->
  0 <= count <= zlen (received (gt_mem g) q) ->
  exists w', avia_gt_dmx_queue_crc32 nr count seed (g, w)
    = Ok (crc32_be seed (take (Z.to_nat count) (received (gt_mem g) q)), (g, w')).
Proof.
  intros Hc Hq Hok Hn. rewrite (received_zlen _ _ Hok), (bytes_avail_fill _ _ Hok) in Hn.
  pose proof (fill_bounds _ _ Hok _ (qk_read _ _ Hok)) as Hf.
  unfold received, waiting. rewrite ring_take by lia.
  unfold avia_gt_dmx_queue_crc32, q_get, gget. mrun. rewrite Hq. mrun. rewrite Hc.
  pose proof Hok as []. case_if.
  - simpl. set (m := qsize q - read_pos q).
    assert (ring_contents (qsize q) (region (gt_mem g) q) (read_pos q) count
      = ring_contents (qsize q) (region (gt_mem g) q) (read_pos q) m
        ++ ring_contents (qsize q) (region (gt_mem g) q) 0 (count - m)) as ->.
    { rewrite <- (Z_mod_same_full (qsize q)). replace (qsize q mod qsize q)
        with ((read_pos q + m) mod qsize q) by (f_equal; lia).
      rewrite <- ring_app by lia. f_equal. lia. }
    rewrite crc32_be_app.
    edestruct (accel_crc_run (mem_addr q + read_pos q) m seed g w) as (w1 & E1);
      [done|by apply (queue_slice _ _ Hok); lia|].
    rewrite (mbind_Ok _ _ _ _ _ E1).
    pose proof (queue_slice _ _ Hok 0 (count - m) ltac:(lia) ltac:(lia) ltac:(lia)) as Hz.
    rewrite Z.add_0_r in Hz. by apply accel_crc_run.
  - apply accel_crc_run; [done|]. apply (queue_slice _ _ Hok); lia.
Qed.

(** On the eNX the checksum of the next [count] bytes of a queue is
    [crc32_be] of those bytes, also where they go over the end of the queue's
    memory and the engine is started twice. *)
Theorem queue_crc32_exact {W} {A : GtAccel W} {L : CrcEngine W} g (w : W) nr q count seed :
  chip_type g = ENX -> queue_list g !! Z.to_nat nr = Some q -> queue_ok (gt_mem g) q ->
  0 <= count <= zlen (received (gt_mem g) q) ->
  exists w', avia_gt_dmx_queue_crc32 nr count seed (g, w)
    = Ok (crc32_be seed (take (Z.to_nat count) (received (gt_mem g) q)), (g, w')).
Proof. apply queue_crc32_run. Qed.

Lemma queue_crc32_exact_witness :
  let g := set_gt_mem small_mem (set_queue_list [small_queue] (sample_dmx ENX)) in
  exists w', avia_gt_dmx_queue_crc32 0 4 crc_init (g, mk_engine 0 0)
    = Ok (crc32_be crc_init [11; 12; 13; 14], (g, w')).
Proof.
  apply (queue_crc32_exact (set_gt_mem small_mem (set_queue_list [small_queue] (sample_dmx ENX)))
           (mk_engine 0 0) 0 small_queue 4 crc_init eq_refl eq_refl small_queue_ok).
  vm_compute. split; discriminate.
Defined.

(** ** The client of a system queue *)

(** The user queue that is to get the packets of system queue [sys]. *)
Definition first_client (ql : list sAviaGtDmxQueue) (sys : Z) : Z :=
  match find (fun nr => is_running ql nr && wants_same ql sys nr) (seqZ 3 29) with
  | Some nr => nr
  | None => -1
  end.

Lemma client_scan_at ql c nr sys :
  length c = 3%nat -> 0 <= sys < 3 ->
  length (client_scan ql c nr) = 3%nat /\
  at_ (client_scan ql c nr) sys =
    if (at_ c sys =? -1) && (is_running ql nr && wants_same ql sys nr) then nr else at_ c sys.
Proof.
  intros Hc Hs. destruct c as [|c0 [|c1 [|c2 []]]]; try done.
  unfold client_scan. destruct (is_running ql nr); simpl.
  2:{ split; [done|]. by rewrite andb_false_r. }
  assert (sys = 0 \/ sys = 1 \/ sys = 2) as Hsys by lia.
  unfold at_, setZ. simpl.
  destruct (c0 =? -1) eqn:F0, (wants_same ql 0 nr) eqn:E0; simpl;
  destruct (c1 =? -1) eqn:F1, (wants_same ql 1 nr) eqn:E1; simpl;
  destruct (c2 =? -1) eqn:F2, (wants_same ql 2 nr) eqn:E2; simpl;
  (split; [done|]); destruct Hsys as [->|[->| ->]]; simpl; by rewrite ?E0, ?E1, ?E2, ?F0, ?F1, ?F2.
Qed.

Lemma client_scans ql nrs c sys :
  length c = 3%nat -> 0 <= sys < 3 -> (forall nr, nr ∈ nrs -> nr <> -1) ->
  at_ (fold_left (client_scan ql) nrs c) sys =
    if at_ c sys =? -1 then
      match find (fun nr => is_running ql nr && wants_same ql sys nr) nrs with
      | Some nr => nr | None => -1 end
    else at_ c sys.
Proof.
  revert c. induction nrs as [|nr nrs IH]; intros c Hc Hs Hn; simpl.
  { case_if; lia. }
  destruct (client_scan_at ql c nr sys Hc Hs) as [Hl Ha].
  rewrite IH, Ha; [|done|done|intros k Hk; apply Hn; by right].
  destruct (Z.eqb_spec (at_ c sys) (-1)) as [E|E]; simpl.
  - destruct (is_running ql nr && wants_same ql sys nr) eqn:Ew; [|by rewrite E].
    specialize (Hn nr ltac:(by left)). by rif.
  - by rif.
Qed.

(** After the scan over all user queues, the client of each system queue is
    the first running user queue that has its PID and mode, and -1 if there is
    none; no user queue is a client of a system queue that is not in use. *)
Theorem queue_client_first ql sys :
  0 <= sys < 3 -> at_ (new_queue_client ql) sys = first_client ql sys.
Proof.
  intros Hs. unfold new_queue_client. rewrite client_scans; [|done|done|].
  - assert (sys = 0 \/ sys = 1 \/ sys = 2) as [->|[->| ->]] by lia; done.
  - intros nr Hn. apply elem_of_seqZ in Hn. unfold AVIA_GT_DMX_QUEUE_USER_START in Hn. lia.
Qed.

(** Queues 4 and 6 want what the video queue gets, queue 3 something else. *)
Definition shared_queue (p : Z) : sAviaGtDmxQueue := set_running true (set_mode TS (set_pid p (sample_queue 0))).
Definition shared_queues : list sAviaGtDmxQueue :=
  [shared_queue 0x100; shared_queue 0x101; set_running false (shared_queue 0x102);
   shared_queue 0x104; shared_queue 0x100; sample_queue 5; shared_queue 0x100] ++ map sample_queue (seqZ 7 25).

Lemma queue_client_first_witness : map (at_ (new_queue_client shared_queues)) [0; 1; 2] = [4; -1; -1].
Proof. simpl. do 3 (rewrite queue_client_first by lia). by vm_compute. Defined.

(** A user queue (3) that records the packets of PID 0x100, and the video
    decoder that is turned on, off and on again with the same PID. *)
#[export] Instance no_accel : GtAccel regfile := { acc_rd _ _ := 0; acc_wr _ _ _ w := w }.
#[export] Instance no_clients : GtClients regfile := {
  cb_queue _ _ _ s := Ok (tt, s);
  isr_client _ _ s := Ok (tt, s);
}.

Definition record_start : M (gtdmx * regfile) Z :=
  avia_gt_dmx_alloc_queue_user None (Some 1) 0 ;;;
  avia_gt_dmx_queue_start 3 TS 0x100 ;;;
  avia_gt_dmx_queue_irq_enable 3.
Definition decoder_on : M (gtdmx * regfile) Z :=
  avia_gt_dmx_alloc_queue_video None (Some 1) 0 ;;; avia_gt_dmx_queue_start 0 TS 0x100.
Definition decoder_off : M (gtdmx * regfile) Z :=
  avia_gt_dmx_queue_stop 0 ;;; avia_gt_dmx_free_queue 0.

(** The client of the video queue, the one it should have, and the handler of
    its interrupt. *)
Definition video_client (r : res (Z * (gtdmx * regfile))) : option (Z * Z * option isr_proc) :=
  match r with
  | Ok (_, (g, _)) => Some (at_ (queue_client g) 0, first_client (queue_list g) 0,
                            isr_at (avia_gt_dmx_get_queue_irq (chip_type g) 0) g)
  | _ => None
  end.

(** Turning a decoder off leaves the client of its queue as it was, so that
    turning it on again with the same PID does not turn the interrupt of the
    queue on again: a user queue that records the same packets gets them while
    the decoder is on for the first time, and gets nothing after it has been
    off and on, although it is still the client of the queue. *)
Theorem decoder_restart_starves_client :
  let s := (sample_dmx ENX, no_regs) in
  video_client ((record_start ;;; decoder_on) s) = Some (3, 3, Some ISR_dmx_queue) /\
  video_client ((record_start ;;; decoder_on ;;; decoder_off ;;; decoder_on) s) = Some (3, 3, None).
Proof. split; by vm_compute. Qed.
