(* ===== verification/AviaDmxInit.v ===== *)
(** * The layout of the demultiplexer's memory (avia/avia_gt_dmx.c, avia_gt.h)

    [avia_gt_dmx_init] gives each queue a place in the memory of the chip.
    Where that memory starts depends on the drivers that are configured. *)

From S2P Require Import Prelude DemuxState AviaFilter AviaUcode AviaQueue AviaGt AviaAccel AviaDmx.

(** Places and sizes of the queues, as [init_queues] finds them. *)
Fixpoint layout (sizes : list Z) (queue_addr : Z) : list (Z * Z) :=
  match sizes with
  | [] => []
  | n :: sizes =>
      let size := Z.shiftl 1 n * 64 in
      let addr := align_queue queue_addr size in
      (addr, size) :: layout sizes (addr + size)
  end.

Definition place (q : sAviaGtDmxQueue) : Z * Z := (mem_addr q, qsize q).

Section Init.
Context {W : Type} {B : GtBus W}.

Lemma no_client_scan ql nrs c :
  (forall nr, is_running ql nr = false) -> fold_left (client_scan ql) nrs c = c.
Proof.
  intros Hr. induction nrs as [|nr nrs IH] in c |- *; [done|]. simpl.
  unfold client_scan at 2. by rewrite Hr.
Qed.

(** Nobody runs, so nobody is a client. *)
Definition idle (g : gtdmx) : Prop :=
  queue_client g = [-1; -1; -1] /\ forall q, q ∈ queue_list g -> running q = false.

Lemma idle_alter f i g g' :
  idle g -> (forall q, running (f q) = false) ->
  queue_client g' = queue_client g -> queue_list g' = alter f i (queue_list g) -> idle g'.
Proof.
  intros [Hc Hr] Hf Hc' Hl. split; [by rewrite Hc'|]. intros q (j & H)%list_elem_of_lookup_1.
  rewrite Hl, list_lookup_alter in H.
  destruct (decide (i = j)); [|by eapply Hr, list_elem_of_lookup_2].
  by apply fmap_Some in H as (q0 & _ & ->).
Qed.

Lemma idle_not_running g nr : idle g -> is_running (queue_list g) nr = false.
Proof.
  intros [_ Hr]. unfold is_running, queue_nth. destruct (_ !! _) eqn:E; [|done].
  by eapply Hr, list_elem_of_lookup_2.
Qed.

Lemma update_client_idle sys g (w : W) :
  0 <= sys < 3 -> queue_client g = [-1; -1; -1] ->
  update_client [-1; -1; -1] sys (g, w) = Ok (tt, (g, w)).
Proof.
  intros Hs Hc. assert (at_ [-1; -1; -1] sys = -1) as E
    by (assert (sys = 0 \/ sys = 1 \/ sys = 2) as [->|[->| ->]] by lia; done).
  unfold update_client, client_at, client_set, gget, gmod. mrun. rewrite Hc, !E. mrun.
  unfold mmodify. simpl. do 3 f_equal. destruct g; simpl in *. subst. unfold set_queue_client. f_equal.
  assert (sys = 0 \/ sys = 1 \/ sys = 2) as [->|[->| ->]] by lia; done.
Qed.

Lemma enable_disable_idle g (w : W) :
  idle g -> avia_gt_dmx_enable_disable_system_queue_irqs (g, w) = Ok (tt, (g, w)).
Proof.
  intros Hi. unfold avia_gt_dmx_enable_disable_system_queue_irqs, gget. mrun.
  unfold new_queue_client. rewrite no_client_scan by (intros; by apply idle_not_running).
  destruct Hi as [Hc _].
  unfold AVIA_GT_DMX_QUEUE_VIDEO, AVIA_GT_DMX_QUEUE_AUDIO, AVIA_GT_DMX_QUEUE_TELETEXT.
  do 2 (erewrite mbind_Ok; [|apply update_client_idle; [lia|done]]).
  apply update_client_idle; [lia|done].
Qed.

(** The registers of a queue can always be set. *)
Lemma set_write_pos_ok g (w : W) nr p q :
  queue_list g !! Z.to_nat nr = Some q ->
  exists w', avia_gt_dmx_queue_set_write_pos nr p (g, w) = Ok (tt, (g, w')).
Proof.
  intros Hq. unfold avia_gt_dmx_queue_set_write_pos. case_if; [by eexists|].
  unfold q_get, avia_gt_dmx_map_queue, reg_write, gget. mrun. rewrite Hq. mrun. by eexists.
Qed.

Lemma system_set_pos_ok g (w : W) nr r p q :
  queue_list g !! Z.to_nat nr = Some q ->
  exists w', avia_gt_dmx_system_queue_set_pos nr r p (g, w) = Ok (tt, (g, w')).
Proof.
  intros Hq. unfold avia_gt_dmx_system_queue_set_pos, avia_gt_dmx_system_queue_set_write_pos.
  destruct (negb _); [by eexists|].
  unfold q_get, reg_write, gget. mrun. rewrite Hq. mrun. rewrite Hq. mrun. by eexists.
Qed.

Lemma set_queue_irq_ok g (w : W) nr qim block :
  exists w', avia_gt_dmx_set_queue_irq nr qim block (g, w) = Ok (tt, (g, w')).
Proof.
  unfold avia_gt_dmx_set_queue_irq, avia_gt_dmx_map_queue, reg_write. mrun. by eexists.
Qed.

Lemma irq_register_queue c nr :
  0 <= nr < 32 -> irq_register c (AVIA_GT_IRQ_REG (avia_gt_dmx_get_queue_irq c nr)) = true.
Proof.
  intros. apply (forall_range
    (fun n => irq_register c (AVIA_GT_IRQ_REG (avia_gt_dmx_get_queue_irq c n))) 32); [|lia].
  destruct c; by vm_compute.
Qed.

(** What an operation may change that leaves the queues' memory alone. *)
Definition same_queues (g g' : gtdmx) : Prop :=
  queue_list g' = queue_list g /\ queue_client g' = queue_client g /\
  queue_size_table g' = queue_size_table g.

Lemma queue_free_irq_ok g (w : W) nr :
  0 <= nr < 32 ->
  exists g' w', queue_free_irq nr (g, w) = Ok (tt, (g', w')) /\ same_queues g g'.
Proof.
  intros Hnr. unfold queue_free_irq, avia_gt_free_irq, avia_gt_mask_irq, gget, reg_write, reg_read, gmod.
  mrun. rewrite irq_register_queue by done. simpl.
  destruct (chip_type g); mrun; unfold mbind_, mmodify; simpl; eexists _, _; (split; [reflexivity|done]).
Qed.

Lemma irq_disable_idle g (w : W) nr :
  idle g -> 0 <= nr < 32 ->
  exists g' w', avia_gt_dmx_queue_irq_disable nr (g, w) = Ok (tt, (g', w')) /\
    queue_list g' = alter (set_running false) (Z.to_nat nr) (queue_list g) /\
    queue_client g' = queue_client g /\ queue_size_table g' = queue_size_table g.
Proof.
  intros Hg Hnr. unfold avia_gt_dmx_queue_irq_disable, set_running_at, q_mod, gmod. mrun.
  set (g1 := set_queue_list _ g).
  assert (idle g1) as Hi by (by eapply (idle_alter (set_running false) (Z.to_nat nr) g)).
  destruct (queue_free_irq_ok g1 w nr Hnr) as (g' & w' & E & H1 & H2 & H3).
  exists g', w'. split; [|by rewrite H1, H2, H3].
  case_if; [erewrite mbind_Ok by (by apply enable_disable_idle)|]; done.
Qed.

(** One round of [init_queues]. *)
Lemma init_queues_step nr nrs addr g (w : W) q :
  idle g -> 0 <= nr < 32 -> queue_list g !! Z.to_nat nr = Some q ->
  exists g' w',
    init_queues (nr :: nrs) addr (g, w)
      = init_queues nrs (align_queue addr (Z.shiftl 1 (at_ (queue_size_table g) nr) * 64)
                         + Z.shiftl 1 (at_ (queue_size_table g) nr) * 64) (g', w') /\
    idle g' /\ queue_size_table g' = queue_size_table g /\ length (queue_list g') = length (queue_list g) /\
    (forall i, i <> Z.to_nat nr -> queue_list g' !! i = queue_list g !! i) /\
    place <$> queue_list g' !! Z.to_nat nr
      = Some (align_queue addr (Z.shiftl 1 (at_ (queue_size_table g) nr) * 64),
              Z.shiftl 1 (at_ (queue_size_table g) nr) * 64).
Proof.
  intros Hi Hnr Hq. simpl. unfold q_mod, gmod, gget. mrun.
  set (size := Z.shiftl 1 _ * 64). set (a := align_queue addr size).
  set (init := fun q => set_qsize size _). set (g1 := set_queue_list _ g).
  assert (queue_list g1 !! Z.to_nat nr = Some (init q)) as Hq1.
  { unfold g1. simpl. by rewrite list_lookup_alter_eq, Hq. }
  assert (idle g1) as Hi1 by (by eapply (idle_alter init (Z.to_nat nr) g)).
  assert (exists w1, (if avia_gt_dmx_queue_is_system_queue nr
    then avia_gt_dmx_system_queue_set_pos nr 0 0 else mret_ tt) (g1, w) = Ok (tt, (g1, w1))) as (w1 & E1).
  { case_if; [by eapply system_set_pos_ok|by eexists]. }
  rewrite (mbind_Ok _ _ _ _ _ E1).
  destruct (set_write_pos_ok g1 w1 nr 0 _ Hq1) as (w2 & E2). rewrite (mbind_Ok _ _ _ _ _ E2).
  destruct (set_queue_irq_ok g1 w2 nr 0 0) as (w3 & E3). rewrite (mbind_Ok _ _ _ _ _ E3).
  destruct (irq_disable_idle g1 w3 nr Hi1 Hnr) as (g' & w' & E4 & H1 & H2 & H3).
  rewrite (mbind_Ok _ _ _ _ _ E4). exists g', w'. split; [done|].
  rewrite H1, H3. split_and!.
  - by eapply (idle_alter (set_running false) (Z.to_nat nr) g1).
  - done.
  - rewrite length_alter. unfold g1. simpl. by rewrite length_alter.
  - intros i Hne. unfold g1. simpl. by rewrite !list_lookup_alter_ne by done.
  - by rewrite list_lookup_alter_eq, Hq1.
Qed.

Lemma init_queues_run m k addr g (w : W) :
  idle g -> length (queue_list g) = 32%nat -> length (queue_size_table g) = 32%nat ->
  (k + m = 32)%nat ->
  exists g' w',
    init_queues (seqZ (Z.of_nat k) (Z.of_nat m)) addr (g, w) = Ok (tt, (g', w')) /\
    (forall i, (i < k)%nat -> queue_list g' !! i = queue_list g !! i) /\
    place <$> drop k (queue_list g') = layout (drop k (queue_size_table g)) addr.
Proof.
  revert k addr g w. induction m as [|m IH]; intros k addr g w Hi Hl Ht Hk.
  { exists g, w. split; [done|]. split; [done|]. by rewrite !drop_ge by lia. }
  rewrite Nat2Z.inj_succ, seqZ_cons by lia. rewrite Z.pred_succ.
  destruct (lookup_lt_is_Some_2 (queue_list g) k) as [q Hq]; [lia|].
  destruct (init_queues_step (Z.of_nat k) (seqZ (Z.succ (Z.of_nat k)) (Z.of_nat m)) addr g w q)
    as (g1 & w1 & E1 & Hi1 & Ht1 & Hl1 & Hothers & Hp); [done|lia|by rewrite Nat2Z.id|].
  rewrite E1. rewrite Nat2Z.id in *.
  rewrite <- Nat2Z.inj_succ.
  destruct (IH (S k) (align_queue addr (Z.shiftl 1 (at_ (queue_size_table g) (Z.of_nat k)) * 64) +
      Z.shiftl 1 (at_ (queue_size_table g) (Z.of_nat k)) * 64) g1 w1)
    as (g' & w' & E & Hold & Hnew); [done|lia|by rewrite Ht1|lia|].
  exists g', w'. split; [done|]. split.
  { intros i Hik. rewrite Hold by lia. apply Hothers. lia. }
  assert (exists q', queue_list g' !! k = Some q') as (q' & Hq').
  { rewrite Hold by lia. destruct (queue_list g1 !! k); [eauto|done]. }
  rewrite Hold in Hq' by lia. rewrite Hq' in Hp. simpl in Hp. simplify_eq.
  assert (queue_list g' !! k = Some q') as Hq2 by (by rewrite Hold by lia).
  rewrite (drop_S _ _ _ Hq2), fmap_cons, Hnew, Ht1.
  destruct (lookup_lt_is_Some_2 (queue_size_table g) k) as [n Hn]; [lia|].
  rewrite (drop_S _ _ _ Hn). cbn [layout].
  assert (at_ (queue_size_table g) (Z.of_nat k) = n) as Hat.
  { unfold at_. rewrite Nat2Z.id. by apply nth_lookup_Some. }
  rewrite Hat in *. by rewrite Hp.
Qed.

End Init.

(** ** Checking a layout *)

Definition aligned (p : Z * Z) : bool := (0 <? p.2) && (p.1 mod p.2 =? 0).
Fixpoint ordered (l : list (Z * Z)) : bool :=
  match l with
  | [] => true
  | p :: l => forallb (fun p' => p.1 + p.2 <=? p'.1) l && ordered l
  end.

Lemma ordered_lookup l i j p p' :
  ordered l = true -> l !! i = Some p -> l !! j = Some p' -> (i < j)%nat -> p.1 + p.2 <= p'.1.
Proof.
  intros Ho. induction l as [|x l IH] in Ho, i, j |- *; [done|]. simpl in Ho. split_bools.
  destruct i as [|i], j as [|j]; simpl; intros Hi Hj Hij; try lia.
  - simplify_eq. rewrite forallb_forall in H. apply Z.leb_le. apply (H p').
    by apply list_elem_of_In, list_elem_of_lookup_2 with j.
  - apply (IH i j); [done|done|done|lia].
Qed.

Lemma forallb_lookup {A} (f : A -> bool) l i a : forallb f l = true -> l !! i = Some a -> f a = true.
Proof. rewrite forallb_forall. intros H Hi. by eapply H, list_elem_of_In, list_elem_of_lookup_2. Qed.

Definition config_layout (gv capture : bool) : list (Z * Z) :=
  layout queue_sizes (AVIA_GT_MEM_DMX_OFFS gv capture).
Definition layout_fits (gv capture : bool) (l : list (Z * Z)) : bool :=
  forallb (fun p => p.1 + p.2 <=? AVIA_GT_MEM_DMX_OFFS gv capture + AVIA_GT_MEM_DMX_SIZE) l.

Lemma config_layout_ok gv capture :
  forallb aligned (config_layout gv capture) = true /\ ordered (config_layout gv capture) = true /\
  layout_fits gv capture (config_layout gv capture) = Bool.eqb gv capture.
Proof. destruct gv, capture; by vm_compute. Qed.

(** The start of the driver gives the 32 queues, in order, places that are
    aligned to their sizes and do not overlap.  They lie inside the memory that
    is reserved for the demultiplexer if both or none of the graphics and the
    capture driver are configured; with only one of them the alignment pushes
    the last queues out of it (the driver prints a warning and goes on). *)
Theorem init_queues_layout {W} {B : GtBus W} gv capture g (w : W) :
  queue_list g = replicate 32 zero_queue -> queue_client g = [-1; -1; -1] ->
  queue_size_table g = queue_sizes ->
  exists g' w',
    init_queues (seqZ 0 32) (AVIA_GT_MEM_DMX_OFFS gv capture) (g, w) = Ok (tt, (g', w')) /\
    length (queue_list g') = 32%nat /\
    (forall i q, queue_list g' !! i = Some q -> 0 < qsize q /\ mem_addr q mod qsize q = 0) /\
    (forall i j q r, queue_list g' !! i = Some q -> queue_list g' !! j = Some r -> (i < j)%nat ->
       mem_addr q + qsize q <= mem_addr r) /\
    ((forall i q, queue_list g' !! i = Some q ->
        mem_addr q + qsize q <= AVIA_GT_MEM_DMX_OFFS gv capture + AVIA_GT_MEM_DMX_SIZE)
     <-> gv = capture).
Proof.
  intros Hl Hc Ht.
  destruct (init_queues_run 32 0 (AVIA_GT_MEM_DMX_OFFS gv capture) g w) as (g' & w' & E & _ & Hp).
  - split; [done|]. intros q. rewrite Hl. by intros [-> _]%elem_of_replicate.
  - by rewrite Hl.
  - by rewrite Ht.
  - done.
  - rewrite !drop_0, Ht in Hp. fold (config_layout gv capture) in Hp.
    destruct (config_layout_ok gv capture) as (Ha & Ho & Hf).
    assert (forall i q, queue_list g' !! i = Some q -> config_layout gv capture !! i = Some (place q)) as Hpl.
    { intros i q Hi. rewrite <- Hp. by rewrite list_lookup_fmap, Hi. }
    exists g', w'. split_and!.
    + exact E.
    + apply (f_equal length) in Hp. rewrite length_fmap in Hp. rewrite Hp. by destruct gv, capture; vm_compute.
    + intros i q Hi. pose proof (forallb_lookup _ _ _ _ Ha (Hpl i q Hi)) as H. unfold aligned in H. simpl in H. lia.
    + intros i j q r Hi Hj Hij. apply (ordered_lookup _ _ _ _ _ Ho (Hpl i q Hi) (Hpl j r Hj) Hij).
    + rewrite <- eqb_true_iff, <- Hf. unfold layout_fits. rewrite forallb_forall, <- Hp. split.
      * intros H p Hin. apply list_elem_of_In, list_elem_of_fmap in Hin as (q & -> & (i & Hi)%list_elem_of_lookup_1).
        apply Z.leb_le. by apply (H i).
      * intros H i q Hi. apply Z.leb_le. apply (H (place q)).
        apply list_elem_of_In, list_elem_of_fmap. exists q. split; [done|]. by eapply list_elem_of_lookup_2.
Qed.

Lemma init_queues_layout_witness :
  exists g' w',
    init_queues (W := regfile) (seqZ 0 32) (AVIA_GT_MEM_DMX_OFFS true true)
      (mk_gtdmx ENX [] (replicate 32 zero_queue) [-1; -1; -1] queue_sizes false 0 0 0 0
         (replicate 128 None) [] 0 (mk_ucode [] [] [] [] (mk_ucode_info 0 0 0 []) false) None,
       fun _ _ => 0) = Ok (tt, (g', w')) /\
    (forall i q, queue_list g' !! i = Some q ->
       mem_addr q + qsize q <= AVIA_GT_MEM_DMX_OFFS true true + AVIA_GT_MEM_DMX_SIZE).
Proof.
  edestruct (init_queues_layout true true) as (g' & w' & E & _ & _ & _ & H);
    [| | |exists g', w'; split; [exact E|by apply H]]; reflexivity.
Defined.
