(* ===== verification/AviaTask.v ===== *)
(** * The bottom half and the message queue (avia/avia_gt_dmx.c, avia_gt_ucode.c)

    Theorems about the task that runs after a queue's interrupt: it finds the
    start of the next packet of a queue of TS packets before it calls the
    client; and about the messages of the microcode. *)

From S2P Require Import Prelude Fifo DemuxState AviaFilter AviaUcode AviaUcodeSpec AviaQueue AviaQueueSpec AviaGt AviaAccel AviaDmx.

(** The driver with queue [nr] changed. *)
Definition put_q (nr : Z) (q : sAviaGtDmxQueue) (g : gtdmx) : gtdmx :=
  set_queue_list (<[Z.to_nat nr := q]> (queue_list g)) g.

Lemma put_q_put nr q q' g : put_q nr q (put_q nr q' g) = put_q nr q g.
Proof. unfold put_q. destruct g. simpl. unfold set_queue_list. simpl. by rewrite list_insert_insert_eq. Qed.

Lemma put_q_id nr q g : queue_list g !! Z.to_nat nr = Some q -> put_q nr q g = g.
Proof. intros Hq. unfold put_q. destruct g. simpl in *. by rewrite list_insert_id. Qed.

Lemma put_q_lookup nr q q0 g :
  queue_list g !! Z.to_nat nr = Some q0 -> queue_list (put_q nr q g) !! Z.to_nat nr = Some q.
Proof. intros H. unfold put_q. simpl. apply list_lookup_insert_eq. by apply lookup_lt_Some in H. Qed.

Lemma alter_insert {A} (f : A -> A) (i : nat) (l : list A) x : l !! i = Some x -> alter f i l = <[i := f x]> l.
Proof.
  intros Hx. apply list_eq. intros j. rewrite list_lookup_alter.
  destruct (decide (i = j)) as [<-|Hne].
  - rewrite Hx. simpl. symmetry. apply list_lookup_insert_eq. by apply lookup_lt_Some in Hx.
  - by rewrite list_lookup_insert_ne.
Qed.

Section Task.
Context {W : Type} {B : GtBus W} {A : GtAccel W} {K : GtClients W}.
Abbreviation GM := (M (gtdmx * W)).

Lemma q_mod_run nr f q g (w : W) :
  queue_list g !! Z.to_nat nr = Some q -> q_mod nr f (g, w) = Ok (tt, (put_q nr (f q) g, w)).
Proof.
  intros Hq. unfold q_mod, gmod, mmodify, put_q. simpl. by rewrite (alter_insert _ _ _ _ Hq).
Qed.

Lemma get_data_run nr q g (w : W) dest count peek :
  queue_list g !! Z.to_nat nr = Some q -> queue_ok (gt_mem g) q -> 0 <= count ->
  let n := Z.min count (zlen (received (gt_mem g) q)) in
  exists p, dq_get_data nr dest count peek (g, w)
      = Ok ((n, if dest : bool then take (Z.to_nat n) (received (gt_mem g) q) else []),
            (put_q nr (set_read_pos p q) g, w)) /\
    queue_ok (gt_mem g) (set_read_pos p q) /\
    received (gt_mem g) (set_read_pos p q)
      = if peek : bool then received (gt_mem g) q else drop (Z.to_nat n) (received (gt_mem g) q).
Proof.
  intros Hq Hok Hc n. subst n.
  unfold dq_get_data, q_get, gget. mrun. rewrite Hq. mrun.
  rewrite (received_zlen _ _ Hok), (data_get_run _ _ Hok) by done. mrun.
  rewrite (mbind_Ok _ _ _ _ _ (q_mod_run nr _ q g w Hq)).
  destruct peek.
  - exists (read_pos q). assert (set_read_pos (read_pos q) q = q) as E by (by destruct q).
    rewrite E. done.
  - eexists. split; [reflexivity|]. apply skip_received; [done|].
    pose proof (fill_bounds _ _ Hok (read_pos q) (qk_read _ _ Hok)).
    rewrite (bytes_avail_fill _ _ Hok). lia.
Qed.

(** A packet of one of the two PIDs starts at offset [i]. *)
Definition starts_at (pid1 pid2 : Z) (s : list Z) (i : nat) : bool :=
  hdr_match pid1 pid2 (take 4 (drop i s)).

(** The loop goes to the first start of a packet behind the first byte. *)
Lemma resync_run nr q g (w : W) pid1 pid2 junk s fuel :
  queue_list g !! Z.to_nat nr = Some q -> queue_ok (gt_mem g) q ->
  received (gt_mem g) q = junk ++ s -> junk <> [] -> 188 <= zlen s ->
  (forall i, (0 < i < length junk)%nat -> starts_at pid1 pid2 (junk ++ s) i = false) ->
  starts_at pid1 pid2 s 0 = true -> (length junk <= fuel)%nat ->
  exists p, resync fuel nr pid1 pid2 (zlen (junk ++ s)) (g, w)
      = Ok (zlen s, (put_q nr (set_read_pos p q) g, w)) /\
    queue_ok (gt_mem g) (set_read_pos p q) /\ received (gt_mem g) (set_read_pos p q) = s.
Proof.
  revert q g fuel. induction junk as [|x junk IH]; intros q g fuel Hq Hok Hr Hj Hs Hno Hst Hf; [done|].
  destruct fuel as [|fuel]; [simpl in Hf; lia|]. cbn [resync].
  replace (zlen ((x :: junk) ++ s) >=? 188) with true by (autorewrite with zlen; pose proof (zlen_nonneg junk); lia).
  destruct (get_data_run nr q g w false 1 false Hq Hok ltac:(lia)) as (p1 & E1 & Hok1 & Hr1).
  rewrite (mbind_Ok _ _ _ _ _ E1). clear E1.
  replace (Z.min 1 _) with 1 in Hr1 by (rewrite Hr; autorewrite with zlen; pose proof (zlen_nonneg junk); lia).
  rewrite Hr in Hr1. simpl in Hr1. rewrite drop_0 in Hr1.
  set (q1 := set_read_pos p1 q) in *. set (g1 := put_q nr q1 g).
  assert (queue_list g1 !! Z.to_nat nr = Some q1) as Hq1 by (by eapply put_q_lookup).
  destruct (get_data_run nr q1 g1 w true 4 true Hq1 Hok1 ltac:(lia)) as (p2 & E2 & Hok2 & Hr2).
  rewrite (mbind_Ok _ _ _ _ _ E2). clear E2. cbn [snd].
  change (gt_mem g1) with (gt_mem g) in *. rewrite Hr1 in *.
  replace (Z.min 4 _) with 4 by (autorewrite with zlen; pose proof (zlen_nonneg junk); lia).
  set (q2 := set_read_pos p2 q1) in *. unfold g1. rewrite put_q_put.
  assert (queue_list (put_q nr q2 g) !! Z.to_nat nr = Some q2) as Hq2 by (by eapply put_q_lookup).
  replace (zlen ((x :: junk) ++ s) - 1) with (zlen (junk ++ s)) by (autorewrite with zlen; lia).
  destruct junk as [|y junk].
  - change (hdr_match pid1 pid2 _) with (starts_at pid1 pid2 s 0). rewrite Hst. by exists p2.
  - assert (hdr_match pid1 pid2 (take (Z.to_nat 4) ((y :: junk) ++ s)) = false) as ->.
    { apply (Hno 1%nat). simpl. lia. }
    destruct (IH q2 (put_q nr q2 g) fuel) as (p & E & Hok' & Hr'); try done.
    + intros i Hi. apply (Hno (S i)). simpl in *. lia.
    + simpl in *. lia.
    + exists p. rewrite E, put_q_put. done.
Qed.

(** The bottom half on a queue of TS packets of one PID, up to the callback. *)
Lemma bh_task_to_callback nr q g (w : W) junk s unset :
  3 <= nr < 31 -> queue_list g !! Z.to_nat nr = Some q ->
  mode q = TS -> overflow_count q = 0 ->
  let q0 := set_write_pos (hw_write_pos q) q in
  queue_ok (gt_mem g) q0 -> received (gt_mem g) q0 = junk ++ s -> 188 <= zlen s ->
  (forall i, (i < length junk)%nat -> starts_at (pid q) (pid q) (junk ++ s) i = false) ->
  starts_at (pid q) (pid q) s 0 = true ->
  exists p, avia_gt_dmx_bh_task unset nr (g, w) = run_callback nr (put_q nr (set_read_pos p q0) g, w) /\
    queue_ok (gt_mem g) (set_read_pos p q0) /\ received (gt_mem g) (set_read_pos p q0) = s.
Proof.
  intros Hnr Hq Hm Ho q0 Hok Hr Hs Hno Hst. unfold avia_gt_dmx_bh_task, q_count_ok.
  replace (nr <? AVIA_GT_DMX_QUEUE_COUNT) with true by (unfold AVIA_GT_DMX_QUEUE_COUNT; lia).
  cbn [negb]. rewrite (mbind_Ok _ _ _ _ _ (q_mod_run nr _ q g w Hq)). fold q0.
  set (g0 := put_q nr q0 g). assert (queue_list g0 !! Z.to_nat nr = Some q0) as Hq0 by (by eapply put_q_lookup).
  unfold q_get, gget. mrun. rewrite Hq0. mrun.
  replace (overflow_count q0) with 0 by (by unfold q0). cbn [Z.eqb negb].
  replace (nr =? AVIA_GT_DMX_QUEUE_MESSAGE) with false by (unfold AVIA_GT_DMX_QUEUE_MESSAGE; lia).
  replace (mode q0 =? TS) with true by (unfold q0; simpl; rewrite Hm; done). mrun.
  unfold queue_pids. replace (nr =? AVIA_GT_DMX_QUEUE_VIDEO) with false by (unfold AVIA_GT_DMX_QUEUE_VIDEO; lia).
  unfold queue_nth. rewrite Hq0. change (pid q0) with (pid q).
  rewrite <- (received_zlen _ _ Hok), Hr. rewrite zlen_app. pose proof (zlen_nonneg junk).
  replace (zlen junk + zlen s <? 188) with false by lia.
  destruct (get_data_run nr q0 g0 w true 4 true Hq0 Hok ltac:(lia)) as (p1 & E1 & Hok1 & Hr1).
  rewrite (mbind_Ok _ _ _ _ _ E1). clear E1. cbn [snd].
  change (gt_mem g0) with (gt_mem g) in *. rewrite Hr in *. unfold g0. rewrite put_q_put.
  replace (Z.min 4 _) with 4 by (rewrite zlen_app; lia).
  set (q1 := set_read_pos p1 q0) in *.
  assert (queue_list (put_q nr q1 g) !! Z.to_nat nr = Some q1) as Hq1 by (by eapply put_q_lookup).
  destruct junk as [|x junk].
  - change (hdr_match (pid q) (pid q) _) with (starts_at (pid q) (pid q) s 0). rewrite Hst. exists p1. split_and!; [done|exact Hok1|exact Hr1].
  - assert (hdr_match (pid q) (pid q) (take (Z.to_nat 4) ((x :: junk) ++ s)) = false) as ->.
    { apply (Hno 0%nat). simpl. lia. }
    destruct (resync_run nr q1 (put_q nr q1 g) w (pid q) (pid q) (x :: junk) s
                (Z.to_nat (zlen (x :: junk) + zlen s))) as (p & E & Hok' & Hr'); try done.
    + intros i Hi. apply Hno. lia.
    + zl.
    + rewrite zlen_app in E. rewrite (mbind_Ok _ _ _ _ _ E). rewrite put_q_put.
      replace (zlen s <? 188) with false by lia. by exists p.
Qed.

End Task.

(** C30: The bottom half of a user queue of TS packets.  If the bytes that wait
    have no packet of the queue's PID (a sync byte and the PID behind it) at
    the first [length junk] positions and one behind them, with at least 188
    bytes, the client's callback runs, once, and finds exactly that packet and
    what follows it in the queue: a client sees packets from their start after
    any loss of synchronisation. *)
Theorem bh_task_resyncs {W} {B : GtBus W} {A : GtAccel W} {K : GtClients W} nr q g (w : W) junk s unset f :
  3 <= nr < 31 -> queue_list g !! Z.to_nat nr = Some q ->
  mode q = TS -> overflow_count q = 0 -> cb_proc q = Some f -> f <> CB_MSGQ ->
  let q0 := set_write_pos (hw_write_pos q) q in
  queue_ok (gt_mem g) q0 -> received (gt_mem g) q0 = junk ++ s -> 188 <= zlen s ->
  (forall i, (i < length junk)%nat -> starts_at (pid q) (pid q) (junk ++ s) i = false) ->
  starts_at (pid q) (pid q) s 0 = true ->
  exists p, let q' := set_read_pos p q0 in
    avia_gt_dmx_bh_task unset nr (g, w) = cb_queue f nr (priv_data q) (put_q nr q' g, w) /\
    queue_ok (gt_mem g) q' /\ received (gt_mem g) q' = s.
Proof.
  intros Hnr Hq Hm Ho Hcb Hf q0 Hok Hr Hs Hno Hst.
  destruct (bh_task_to_callback nr q g w junk s unset Hnr Hq Hm Ho Hok Hr Hs Hno Hst)
    as (p & E & Hok' & Hr').
  exists p. split; [|done]. rewrite E. unfold run_callback, q_get, gget. mrun.
  replace (nr <? AVIA_GT_DMX_QUEUE_USER_START) with false by (unfold AVIA_GT_DMX_QUEUE_USER_START; lia).
  cbn [andb]. rewrite (put_q_lookup _ _ _ _ Hq). mrun. unfold q0. cbn [cb_proc set_read_pos set_write_pos].
  rewrite Hcb. unfold call_proc. by rewrite (proj2 (Z.eqb_neq f CB_MSGQ) Hf).
Qed.

(** Queue 3 with three stray bytes in front of a packet of PID 0x100. *)
Definition sync_queue : sAviaGtDmxQueue :=
  mk_queue (Some 1) 0 201 0 0 None 0 7 0 0 10 256 10 0x100 true 0 false TS true.
Definition sync_packet : list Z := [0x47; 0x41; 0x00; 0x10] ++ replicate 184 0xaa.
Definition sync_mem : list Z := replicate 10 0 ++ [0x47; 0x47; 0x01] ++ sync_packet ++ replicate 55 0.
Definition sync_dmx : gtdmx :=
  mk_gtdmx ENX sync_mem (replicate 3 zero_queue ++ [sync_queue]) [-1; -1; -1] queue_sizes false 0 0 0 0
    (replicate 128 None) [] 0 empty_ucode None.

(** A client that counts its calls. *)
#[export] Instance counting_client : GtClients Z := {
  cb_queue _ _ _ s := Ok (tt, (s.1, s.2 + 1));
  isr_client _ _ s := Ok (tt, s);
}.
#[export] Instance counting_bus : GtBus Z := { gt_rd _ w := (0, w); gt_wr _ _ w := w }.
#[export] Instance counting_accel : GtAccel Z := { acc_rd _ _ := 0; acc_wr _ _ _ w := w }.

Lemma bh_task_resyncs_witness :
  exists p, avia_gt_dmx_bh_task 0 3 (sync_dmx, 0)
      = Ok (tt, (put_q 3 (set_read_pos p (set_write_pos 201 sync_queue)) sync_dmx, 1)) /\
    received sync_mem (set_read_pos p (set_write_pos 201 sync_queue)) = sync_packet.
Proof.
  destruct (bh_task_resyncs 3 sync_queue sync_dmx 0 [0x47; 0x47; 0x01] sync_packet 0 1)
    as (p & E & _ & H); try reflexivity; try lia.
  - done.
  - split; vm_compute; repeat split; discriminate.
  - intros i Hi. simpl in Hi. destruct i as [|[|[|i]]]; [by vm_compute..|lia].
  - exists p. split; [exact E|exact H].
Defined.

(** ** A lost continuity count *)

(** The number of the descrambler key of a PID's slot, in the control table. *)
Definition key_index (m : list Z) (slot : Z) : Z :=
  Z.land (Z.shiftr (at_ m (DMX_PID_PARSING_CONTROL_TABLE + 2 * slot)) 4) 7.

Lemma ppc_key e :
  0 <= CC e < 16 -> 0 <= CW_offset e < 8 -> 0 <= fork e -> 0 <= QID e -> 0 <= ppc_type e ->
  Z.land (Z.shiftr (at_ (ppc_words e) 0) 4) 7 = CW_offset e.
Proof.
  intros Hcc Hcw Hf Hq Ht. change 7 with (Z.ones 3). unfold at_. simpl.
  apply Z.bits_inj'. intros i Hi. rewrite Z.land_spec, Z.testbit_ones_nonneg, Z.shiftr_spec by lia.
  rewrite !Z.lor_spec, !Z.shiftl_spec by lia.
  replace (i + 4 - 4) with i by lia. rewrite (bits_small (CC e) 4 (i + 4)) by lia.
  rewrite orb_false_r. destruct (Z.ltb_spec i 3).
  - rewrite !(Z.testbit_neg_r _ (i + 4 - _)) by lia. by rewrite andb_true_r.
  - rewrite andb_false_r. symmetry. by apply (bits_small _ 3).
Qed.

Lemma set_pid_table_run e wait_pusi valid pid u :
  ram_ok u -> 0 <= e < 32 ->
  exists m x, prop_ucode_set_pid_table e wait_pusi valid pid u = Ok (0, set_riscram m u) /\
    patched (riscram u) m (DMX_PID_SEARCH_TABLE + e) [x].
Proof.
  intros Hr He. unfold prop_ucode_set_pid_table. replace (e >? 31) with false by lia.
  edestruct (locked_run (DMX_PID_SEARCH_TABLE + e)) as (m & Em & Pm); [exact Hr| | |].
  - unfold DMX_PID_SEARCH_TABLE. lia.
  - unfold DMX_PID_SEARCH_TABLE, DMX_RISC_RAM_SIZE. rewrite zlen_cons, zlen_nil. lia.
  - exists m. eexists. rewrite (mbind_Ok _ _ _ _ _ Em). split; [reflexivity|exact Pm].
Qed.

Lemma bits_range w z : 0 <= w -> 0 <= bits w z < 2 ^ w.
Proof. intros. unfold bits. apply Z.mod_pos_bound. lia. Qed.

(** Setting the control word of a feed sets its key index. *)
Lemma control_table_key idx queue type cw start_up filt psh n u :
  ram_ok u -> 0 <= idx < 32 -> queue <= 32 ->
  exists m, prop_ucode_set_pid_control_table idx queue type 0 cw 0 start_up 1 filt psh n u
      = Ok (0, set_riscram m u) /\
    zlen m = zlen (riscram u) /\ key_index m idx = bits 3 cw /\
    (forall j, 0 <= j < 32 -> j <> idx -> key_index m j = key_index (riscram u) j).
Proof.
  intros Hr Hi Hq. unfold prop_ucode_set_pid_control_table.
  replace (queue >? AVIA_GT_DMX_QUEUE_COUNT) with false by (unfold AVIA_GT_DMX_QUEUE_COUNT; lia).
  mrun. set (e := mk_ppc_entry _ _ _ _ _ _ _ _ _ _ _).
  edestruct (locked_run (DMX_PID_PARSING_CONTROL_TABLE + 2 * idx) (ppc_words e)) as (m & Em & Hl & Pm);
    [exact Hr| | |]; unfold DMX_PID_PARSING_CONTROL_TABLE, DMX_RISC_RAM_SIZE in *.
  - lia.
  - change (zlen (ppc_words e)) with 2. lia.
  - change (zlen (ppc_words e)) with 2 in Pm. unfold ram_ok, DMX_RISC_RAM_SIZE in Hr. rewrite Hr in Pm.
    exists m. rewrite (mbind_Ok _ _ _ _ _ Em). split; [done|]. split; [lia|].
    unfold key_index, DMX_PID_PARSING_CONTROL_TABLE. split.
    + rewrite Pm by lia. rif. replace (0x3a0 + 2 * idx - (0x3a0 + 2 * idx)) with 0 by lia.
      pose proof (bits_range 3 cw). rewrite ppc_key; try done; cbn [CC CW_offset fork QID ppc_type e].
      * lia.
      * apply bits_range. lia.
      * apply bits_range. lia.
    + intros j Hj Hne. rewrite Pm by lia. by rif.
Qed.

Lemma patched_search_key m m' e x j :
  patched m m' (DMX_PID_SEARCH_TABLE + e) [x] -> zlen m = DMX_RISC_RAM_SIZE -> 0 <= e < 32 -> 0 <= j < 32 ->
  key_index m' j = key_index m j.
Proof.
  unfold DMX_PID_SEARCH_TABLE, DMX_RISC_RAM_SIZE. intros [_ H] Hl He Hj.
  unfold key_index, DMX_PID_PARSING_CONTROL_TABLE. rewrite H by lia.
  rewrite zlen_cons, zlen_nil. by rif.
Qed.

Record feeds_ok (u : ucode) : Prop := {
  fo_ram : ram_ok u;
  fo_modes : zlen (queue_mode (ucode_info u)) = 3;
  fo_feed : forall f, f ∈ ucode_feed u -> dest_queue f = -1 \/ (0 <= dest_queue f < 32 /\ 0 <= uf_type f < 3);
}.

Lemma start_feed_key i f u :
  feeds_ok u -> 0 <= i < 32 -> ucode_feed u !! Z.to_nat i = Some f -> dest_queue f <> -1 ->
  exists m, prop_ucode_start_feed i false u = Ok (tt, set_riscram m u) /\
    zlen m = zlen (riscram u) /\ key_index m i = 0 /\
    (forall j, 0 <= j < 32 -> j <> i -> key_index m j = key_index (riscram u) j).
Proof.
  intros [Hr Hm Hf] Hi Hfi Hd.
  destruct (Hf f) as [?|[Hd' Ht]]; [by eapply list_elem_of_lookup_2|done|].
  unfold prop_ucode_start_feed, uc_feed_get, feed_at. unfold mbind_ at 1. rewrite Hfi. cbn [res_bind fst snd].
  replace (dest_queue f =? -1) with false by lia. mrun. unfold mode_of. rewrite rd_ok by lia. mrun.
  assert (u8 (dest_queue f) <= 32) as Hq8 by (unfold u8; rewrite Z.mod_small; lia).
  edestruct control_table_key as (m & E & Hl & Hk & Ho); [exact Hr|exact Hi|exact Hq8|].
  rewrite (mbind_Ok _ _ _ _ _ E). cbn [orb]. unfold ram_ok in Hr. case_if.
  - edestruct (set_pid_table_run i) as (m' & x & E' & P); [|exact Hi|].
    2:{ rewrite (mbind_Ok _ _ _ _ _ E'). exists m'. split; [done|]. split; [destruct P; simpl in *; lia|].
        split; [|intros j Hj Hne]; (rewrite (patched_search_key m m' i x) by (done || (simpl in *; lia)));
          [done|by apply Ho]. }
    unfold ram_ok. simpl. lia.
  - by exists m.
Qed.

Lemma find_feed_some p l k i :
  find_feed p l k = Some i -> exists f, k <= i < k + zlen l /\ l !! Z.to_nat (i - k) = Some f /\ p f = true.
Proof.
  induction l as [|f l IH] in k |- *; [done|]. simpl. rewrite zlen_cons. pose proof (zlen_nonneg l).
  destruct (p f) eqn:E.
  - intros [= <-]. exists f. rewrite Z.sub_diag. split_and!; [lia..|done|done].
  - intros (g & Hr & Hl & Hp)%IH. exists g. split_and!; [lia..| |done].
    replace (Z.to_nat (i - k)) with (S (Z.to_nat (i - (k + 1)))) by lia. done.
Qed.

Lemma stop_feed_keep i f u :
  ram_ok u -> 0 <= i < 32 -> ucode_feed u !! Z.to_nat i = Some f ->
  exists m, prop_ucode_stop_feed i false u = Ok (tt, set_riscram m u) /\ zlen m = zlen (riscram u) /\
    (forall j, 0 <= j < 32 -> key_index m j = key_index (riscram u) j).
Proof.
  intros Hr Hi Hf. unfold prop_ucode_stop_feed, uc_feed_get, feed_at. unfold mbind_ at 1.
  rewrite Hf. cbn [res_bind fst snd]. case_if.
  - exists (riscram u). split; [by destruct u|done].
  - mrun. unfold mbind_ at 1. rewrite Hf. cbn [res_bind fst snd].
    edestruct (set_pid_table_run i) as (m & x & E & P); [exact Hr|exact Hi|].
    rewrite (mbind_Ok _ _ _ _ _ E). exists m. split; [done|]. split; [by destruct P|].
    intros j Hj. by eapply patched_search_key.
Qed.

Section Restart.
Context {W : Type} {B : GtBus W} {A : GtAccel W} {K : GtClients W}.

Lemma on_risc_run {X} (m : M ucode X) a u g (w : W) :
  m (risc g) = Ok (a, u) -> on_risc m (g, w) = Ok (a, (set_risc u g, w)).
Proof. intros H. unfold on_risc. simpl. by rewrite H. Qed.

Lemma restart_feed_key pid i g (w : W) between g1 :
  feeds_ok (risc g) -> length (ucode_feed (risc g)) = 32%nat ->
  pid2feedidx pid (risc g) = Some i ->
  (forall u, between (set_risc u g, w) = Ok (tt, (set_risc u g1, w))) ->
  exists m, restart_feed pid between (g, w)
      = Ok (tt, (set_risc (set_riscram m (risc g)) g1, w)) /\
    zlen m = zlen (riscram (risc g)) /\ key_index m i = 0 /\
    (forall j, 0 <= j < 32 -> j <> i -> key_index m j = key_index (riscram (risc g)) j).
Proof.
  intros Hok Hl Hp Hb. pose proof Hp as (f & Hi & Hf & Hpf)%find_feed_some.
  rewrite Z.sub_0_r in Hf. split_bools. assert (0 <= i < 32) as Hi32 by zl.
  set (u := risc g) in *. set (u0 := set_irqs_off true u).
  unfold restart_feed. erewrite mbind_Ok by (by apply on_risc_run). unfold gget. mrun.
  change (risc (set_risc (set_irqs_off true (risc g)) g)) with u0.
  change (pid2feedidx pid u0) with (pid2feedidx pid u). rewrite Hp. mrun.
  destruct (stop_feed_keep i f u0) as (m1 & E1 & Hl1 & Hk1); [apply Hok|done|done|].
  erewrite mbind_Ok by (by apply on_risc_run).
  change (set_risc ?a (set_risc ?b g)) with (set_risc a g). mrun. rewrite (mbind_Ok _ _ _ _ _ (Hb _)).
  destruct (start_feed_key i f (set_riscram m1 u0)) as (m2 & E2 & Hl2 & Hk2 & Ho2); [|done|done|lia|].
  { destruct Hok as [Hr Hm Hff]. split; [|done|done]. unfold ram_ok in *. simpl in *. lia. }
  erewrite mbind_Ok by (by apply on_risc_run). erewrite on_risc_run by reflexivity.
  exists m2. split; [|simpl in *; split_and!; [lia|done|]].
  - reflexivity.
  - intros j Hj Hne. rewrite Ho2 by done. simpl. by apply Hk1.
Qed.
End Restart.

(** A message of the microcode that the continuity of a PID was lost restarts
    the feed of the PID.  The restart writes the control word of the feed
    anew, without the number of its descrambler key: a descrambled channel
    stays scrambled after a reception error, until the application sets the
    PID's key index again.  The keys of the other feeds stay; the messages
    behind this one are thrown away. *)
Theorem cc_error_drops_key {W} {B : GtBus W} {A : GtAccel W} {K : GtClients W}
    nr q g (w : W) cc_exp cc_rec hi lo rest i :
  queue_list g !! Z.to_nat nr = Some q -> queue_ok (gt_mem g) q ->
  received (gt_mem g) q = [DMX_MESSAGE_CC_ERROR; cc_exp; cc_rec; hi; lo] ++ rest ->
  feeds_ok (risc g) -> length (ucode_feed (risc g)) = 32%nat ->
  pid2feedidx (word hi lo) (risc g) = Some i ->
  exists q' m, prop_ucode_handle_msgq nr (g, w)
      = Ok (tt, (set_risc (set_riscram m (risc g)) (put_q nr q' g), w)) /\
    received (gt_mem g) q' = [] /\ key_index m i = 0 /\
    (forall j, 0 <= j < 32 -> j <> i -> key_index m j = key_index (riscram (risc g)) j).
Proof.
  intros Hq Hok Hr Hf Hl Hp. pose proof (zlen_nonneg rest).
  unfold prop_ucode_handle_msgq, dq_bytes_avail, q_get, gget. mrun. rewrite Hq. mrun.
  rewrite <- (received_zlen _ _ Hok), Hr, zlen_app.
  change (zlen [_; _; _; _; _]) with 5. replace (5 + zlen rest =? 0) with false by lia. mrun.
  destruct (get_data_run nr q g w true 1 true Hq Hok ltac:(lia)) as (p1 & E1 & Hok1 & Hr1).
  rewrite (mbind_Ok _ _ _ _ _ E1). clear E1. rewrite Hr in *. cbn [snd].
  replace (Z.min 1 _) with 1 by (rewrite zlen_app; change (zlen [_; _; _; _; _]) with 5; lia).
  set (q1 := set_read_pos p1 q) in *. change (at_ (take _ _) 0) with DMX_MESSAGE_CC_ERROR.
  cbn [Z.eqb Pos.eqb DMX_MESSAGE_CC_ERROR DMX_MESSAGE_INIT DMX_MESSAGE_ADAPTATION DMX_MESSAGE_SYNC_LOSS].
  replace (5 + zlen rest <? 5) with false by lia.
  set (g1 := put_q nr q1 g).
  assert (queue_list g1 !! Z.to_nat nr = Some q1) as Hq1 by (by eapply put_q_lookup).
  destruct (get_data_run nr q1 g1 w true 5 false Hq1 Hok1 ltac:(lia)) as (p2 & E2 & Hok2 & Hr2).
  rewrite (mbind_Ok _ _ _ _ _ E2). clear E2. change (gt_mem g1) with (gt_mem g) in *. rewrite Hr1 in *. cbn [snd].
  replace (Z.min 5 _) with 5 by (rewrite zlen_app; change (zlen [_; _; _; _; _]) with 5; lia).
  change (word _ _) with (word hi lo).
  set (q2 := set_read_pos p2 q1) in *. set (g2 := put_q nr q2 g1).
  assert (queue_list g2 !! Z.to_nat nr = Some q2) as Hq2 by (by eapply put_q_lookup).
  destruct (restart_feed_key (word hi lo) i g2 w (dq_flush nr) (put_q nr (queue_flush q2) g2))
    as (m & E & _ & Hk & Ho); try done.
  { intros u. unfold dq_flush. by rewrite (q_mod_run nr queue_flush q2). }
  exists (queue_flush q2), m. split.
  - rewrite E. unfold g2, g1. rewrite !put_q_put. by destruct g.
  - split; [|done]. unfold received, waiting, queue_flush, fill.
    cbn [read_pos write_pos set_read_pos qsize]. rif. by rewrite Z.sub_diag.
Qed.

(** Feed 5 receives PID 0x64 with key 3; its continuity is lost. *)
Definition keyed_ucode : ucode :=
  mk_ucode (<[Z.to_nat (DMX_PID_PARSING_CONTROL_TABLE + 10) := Z.shiftl 3 4]> (replicate 0x400 0))
    (<[5%nat := mk_uc_feed 4 0 0xff 0 0x64]> (replicate 32 fresh_feed)) (replicate 32 (-1))
    (replicate 32 0) (mk_ucode_info 0 0 1 [0; 3; 4]) false.
Definition message_queue : sAviaGtDmxQueue :=
  mk_queue (Some CB_MSGQ) 0 5 0 0 None 0 0 0 0 0 16 5 0xffff true 0 false 0 true.
Definition message_dmx : gtdmx :=
  set_risc keyed_ucode (set_gt_mem ([DMX_MESSAGE_CC_ERROR; 4; 6; 0; 0x64] ++ replicate 11 0)
    (set_queue_list (replicate 31 zero_queue ++ [message_queue]) sync_dmx)).

Lemma cc_error_drops_key_witness :
  key_index (riscram keyed_ucode) 5 = 3 /\
  exists q' m, prop_ucode_handle_msgq 31 (message_dmx, 0)
      = Ok (tt, (set_risc (set_riscram m keyed_ucode) (put_q 31 q' message_dmx), 0)) /\
    key_index m 5 = 0.
Proof.
  split; [by vm_compute|].
  destruct (cc_error_drops_key 31 message_queue message_dmx 0 4 6 0 0x64 [] 5)
    as (q' & m & E & _ & Hk & _); try reflexivity.
  - split; vm_compute; repeat split; discriminate.
  - split; [done|done|]. intros f (j & Hj)%list_elem_of_lookup_1. unfold keyed_ucode in Hj. cbn [ucode_feed] in Hj.
    apply list_lookup_insert_Some in Hj as [(_ & <- & _)|(_ & Hj)].
    + right. done.
    + apply lookup_replicate in Hj as [-> _]. by left.
  - exists q', m. split; [exact E|exact Hk].
Defined.
