(* ===== verification/AviaNapi.v ===== *)
(** * The demultiplexer driver (avia/avia_gt_napi.c)

    The driver that connects the demux core with the hardware queues: it starts
    and stops feeds, and in the callbacks of the queues it hands sections,
    packets and PES data to the clients of the feeds.

    The state is the driver's own ([napi]) beside that of the chip.  A callback
    returns what it delivers, in order: the client's functions return to it and
    it does not look at their results.  The video and audio decoders and the
    teletext inserter are other drivers ([NapiPeers]). *)

From S2P Require Import Prelude Crc32 DemuxState SwFilter SectionFilter AviaFilter AviaUcode AviaQueue AviaGt AviaAccel AviaDmx.

Definition DMX_TS_PES_AUDIO := 0.
Definition DMX_TS_PES_VIDEO := 1.
Definition DMX_TS_PES_TELETEXT := 2.
Definition DMX_TS_PES_SUBTITLE := 3.
Definition DMX_TS_PES_PCR := 4.

(** Callbacks of the queues, by name. *)
Definition CB_SECTION := 1.
Definition CB_GENERIC := 2.
Definition CB_TS_PES := 3.

(** ** The CRC hooks

    [accel]: the checksum of bytes in the chip's memory; [in_chip]: whether the
    source is there. *)

Definition sec_check (f : dvb_demux_feed) : bool := (fd_type f =? DMX_TYPE_SEC) && check_crc f.

Definition avia_gt_napi_crc32 (f : dvb_demux_feed) (src : list Z) : Z * dvb_demux_feed :=
  if sec_check f then (crc_val f, f)
  else let c := crc32_be (crc_val f) src in (c, set_crc_val c f).

Definition avia_gt_napi_memcpy (accel : Z -> list Z -> Z) (in_chip : bool)
    (f : dvb_demux_feed) (d : Z) (src : list Z) : res dvb_demux_feed :=
  let f := if sec_check f
           then set_crc_val (if in_chip then accel (crc_val f) src else crc32_be (crc_val f) src) f
           else f in
  let? b := memcpy_to (secbuf f) d src in Ok (set_secbuf b f).

(** ** The match of the section callback

    The loop leaves [i] at the first byte with a required bit that differs, or
    at [compare_len]; the array is read there once more, which for sections of
    at least 18 bytes is the byte behind it, the first of [maskandnotmode]. *)

Definition maskandmode_at (f : dvb_demux_filter) (i : Z) : Z :=
  if i <? 18 then at_ (maskandmode f) i else at_ (maskandnotmode f) (i - 18).

Fixpoint napi_compare (n : nat) (i : Z) (f : dvb_demux_filter) (sec : list Z) (neq xor : Z)
    : Z * Z * Z :=
  match n with
  | O => (i, neq, xor)
  | S n =>
      let xor := Z.lxor (at_ (filter_value f) i) (at_ sec i) in
      if negb (Z.land (at_ (maskandmode f) i) xor =? 0) then (i, neq, xor)
      else napi_compare n (i + 1) f sec (Z.lor neq (Z.land (at_ (maskandnotmode f) i) xor)) xor
  end.

Definition napi_match (f : dvb_demux_filter) (sec : list Z) (compare_len : Z) : bool :=
  let '(i, neq, xor) := napi_compare (Z.to_nat compare_len) 0 f sec 0 0 in
  negb (negb (Z.land (maskandmode_at f i) xor =? 0) || (negb (doneq f =? 0) && (neq =? 0))).

(** ** State *)

Record napi := mk_napi {
  playback_mode : Z;
  need_audio_pts : bool;
  clipmode : bool;
  ts_pids : list Z;                (* [ts_pid], by queue *)
  napi_priv : list (option Z);     (* [dvbdmxfeed->priv], by feed: its queue *)
}.
#[export] Instance napi_eta : Eta napi := fun r =>
  mk_napi (playback_mode r) (need_audio_pts r) (clipmode r) (ts_pids r) (napi_priv r).
Definition set_playback_mode := setter! playback_mode.
Definition set_need_audio_pts := setter! need_audio_pts.
Definition set_clipmode := setter! clipmode.
Definition set_ts_pids := setter! ts_pids.
Definition set_napi_priv := setter! napi_priv.

(** Other drivers. *)
Class NapiPeers (W : Type) := {
  decoder_start : dvb_demux_feed -> W -> W;
  decoder_stop : dvb_demux_feed -> W -> W;
  vbi_start : W -> W;
  vbi_stop : W -> W;
  audio_pts_to_stc : list Z -> W -> Z * W;
  (** [avia_gt_napi_dvr_send]: given the two parts, the bytes it took. *)
  dvr_send : option (Z -> Z -> Z -> Z -> Z);
}.

(** What a callback hands to a client: the filter (by its private pointer) and
    the two parts of a section. *)
Definition delivery : Type := Z * list Z * list Z.

Section Napi.
Context {W : Type} {B : GtBus W} {A : GtAccel W} {K : GtClients W} {P : NapiPeers W}.
Abbreviation GM := (M (gtdmx * W)).
Abbreviation NM := (M (napi * (gtdmx * W))).

(** ** Sections *)

(** [while (bytes_avail && (queue->get_data8 (queue, 1) == 0xFF))] *)
Fixpoint skip_padding (fuel : nat) (nr avail : Z) : GM Z :=
  if avail =? 0 then mret_ avail else
  let! b := dq_get_data8 nr true in
  if b =? 0xFF then
    match fuel with
    | O => fun _ => Diverge
    | S fuel => dq_get_data8 nr false ;;; skip_padding fuel nr (avail - 1)
    end
  else mret_ avail.

(** Reading the queue empty. *)
Fixpoint dump_queue (fuel : nat) (nr : Z) : GM unit :=
  let! avail := dq_bytes_avail nr in
  if avail =? 0 then mret_ tt else
  match fuel with
  | O => fun _ => Diverge
  | S fuel => dq_get_data8 nr false ;;; dump_queue fuel nr
  end.

Definition restart_queue (nr : Z) : GM unit :=
  on_risc (prop_ucode_stop_queue_feeds nr false) ;;;
  avia_gt_dmx_queue_reset nr ;;;
  on_risc (prop_ucode_start_queue_feeds nr).

(** The deliveries of one section; [a] and [b] are its two parts. *)
Definition section_deliveries (crc : Z) (checks : bool) (chain : list dvb_demux_filter)
    (sec : list Z) (compare_len : Z) (a b : list Z) : list delivery :=
  flat_map (fun f =>
    if negb (crc =? 0) && checks then []
    else if napi_match f sec compare_len then [(sf_priv f, a, b)] else []) chain.

(** The bytes from [addr] on, at [gt_info->mem_addr]. *)
Definition chip_bytes (addr n : Z) : GM (list Z) :=
  let! g := gget in mlift (slice (gt_mem g) addr n).

(** One section at the start of the queue. *)
Definition take_section (nr : Z) (checks : bool) (chain : list dvb_demux_filter) (len : Z)
    : GM (list delivery) :=
  let compare_len := Z.min len 18 in
  let! crc := if checks then avia_gt_dmx_queue_crc32 nr len crc_init else mret_ 0 in
  let! q := q_get nr in
  let chunk1 := buf1_size q in
  (if zlen chain =? 0 then mfault else mret_ tt) ;;;   (* [dvbdmxfeed->filter->next] *)
  if (1 <? zlen chain) || (compare_len =? len) then
    let! r := dq_get_data nr true len false in
    mret_ (section_deliveries crc checks chain r.2 compare_len r.2 [])
  else
    let! r := dq_get_data nr true compare_len true in
    let! a := chip_bytes (buf1_ptr q) (Z.min chunk1 len) in
    let! b := if len <=? chunk1 then mret_ [] else chip_bytes (buf2_ptr q) (len - chunk1) in
    dq_get_data nr false len false ;;;
    mret_ (section_deliveries crc checks chain r.2 compare_len a b).

(** [chain]: the filters of the feed; [checks]: one of their feeds checks CRCs
    (they all have the same feed). *)
Fixpoint section_callback_loop (fuel : nat) (nr : Z) (checks : bool) (chain : list dvb_demux_filter)
    (avail : Z) : GM (list delivery) :=
  if avail <? 3 then mret_ [] else
  match fuel with
  | O => fun _ => Diverge
  | S fuel =>
      let! avail := skip_padding (Z.to_nat avail) nr avail in
      if avail <? 3 then mret_ [] else
      let! r := dq_get_data nr true 3 true in
      let len := Z.land (word (at_ r.2 1) (at_ r.2 2)) 0xfff + 3 in
      if len >? 4096 then
        let! q := q_get nr in
        dump_queue (Z.to_nat (qsize q)) nr ;;; restart_queue nr ;;; mret_ []
      else if len >? avail then mret_ []
      else
        let! d := take_section nr checks chain len in
        let! ds := section_callback_loop fuel nr checks chain (avail - len) in
        mret_ (d ++ ds)
  end.

Definition avia_gt_napi_queue_callback_section (nr : Z) (checks : bool) (chain : list dvb_demux_filter)
    : GM (list delivery) :=
  let! avail := dq_bytes_avail nr in
  section_callback_loop (Z.to_nat avail) nr checks chain avail.

(** ** TS packets for the software demultiplexer: the packets *)

Fixpoint find_sync (fuel : nat) (nr lost avail : Z) : GM unit :=
  if lost <? avail then
    let! b := dq_get_data8 nr true in
    if b =? 0x47 then mret_ tt
    else match fuel with
         | O => fun _ => Diverge
         | S fuel => dq_get_data nr false 1 false ;;; find_sync fuel nr (lost + 1) avail
         end
  else mret_ tt.

(** [dvb_dmx_swfilter_packets (demux, buf1, n / 188)] and taking the bytes. *)
Definition whole_packets (nr n : Z) : GM (list Z) :=
  let! q := q_get nr in
  let! s := chip_bytes (buf1_ptr q) n in
  dq_get_data nr false n false ;;; mret_ s.

(** The first [n] bytes, whole packets: those in front of the end of the memory,
    the one around it, and those behind it. *)
Definition packets_of (nr n : Z) : GM (list (list Z)) :=
  let! q := q_get nr in
  let chunk1 := buf1_size q in
  let! r :=
    if n >? chunk1 then
      let chunk1 := chunk1 - chunk1 mod 188 in
      let! head := if negb (chunk1 =? 0) then let! s := whole_packets nr chunk1 in mret_ [s] else mret_ [] in
      let! r := dq_get_data nr true 188 false in
      mret_ (head ++ [r.2], n - chunk1 - 188)
    else mret_ ([], n) in
  let! tail := if negb (r.2 =? 0) then let! s := whole_packets nr r.2 in mret_ [s] else mret_ [] in
  mret_ (r.1 ++ tail).

(** The bytes that go to the software demultiplexer, packet after packet. *)
Definition avia_gt_napi_queue_callback_generic (nr : Z) : GM (list (list Z)) :=
  let! avail := dq_bytes_avail nr in
  if avail <? 188 then mret_ [] else
  find_sync (Z.to_nat avail) nr 0 avail ;;;
  let! avail := dq_bytes_avail nr in
  if avail <? 188 then mret_ [] else packets_of nr (avail - avail mod 188).

(** ** TS packets and PES data for the client: the two parts *)

Definition avia_gt_napi_queue_callback_ts_pes (f : dvb_demux_feed) (nr : Z)
    : GM (option (list Z * list Z)) :=
  let! q := q_get nr in
  let len := buf1_size q + buf2_size q in
  let ts := (fd_type f =? DMX_TYPE_TS) && (Z.land (ts_type f) TS_PAYLOAD_ONLY =? 0) in
  let cutoff := if ts then len mod 188 else 0 in
  let l1 := if cutoff >? buf2_size q then buf1_size q - (cutoff - buf2_size q) else buf1_size q in
  let l2 := if cutoff >? buf2_size q then 0 else buf2_size q - cutoff in
  let deliver :=
    let! a := chip_bytes (buf1_ptr q) l1 in
    let! b := if l2 =? 0 then mret_ [] else chip_bytes (buf2_ptr q) l2 in
    dq_get_data nr false (len - cutoff) false ;;;
    mret_ (Some (a, b)) in
  match dvr_send with
  | Some send =>
      if ts then
        dq_get_data nr false (u32 (send (buf1_ptr q) l1 (buf2_ptr q) l2)) false ;;; mret_ None
      else deliver
  | None => deliver
  end.

(** ** Starting and stopping feeds

    [i]: the index of the feed in the demux core; [source]: of the connected
    front end.  A start returns the feed, whose type it may change. *)

Definition nget : NM napi := mgets fst.
Definition nmod (g : napi -> napi) : NM unit := mmodify (fun s => (g s.1, s.2)).
Definition on_gt {X} (m : GM X) : NM X :=
  fun s => let? r := m s.2 in Ok (r.1, (s.1, r.2)).
Definition on_peer (g : W -> W) : NM unit := mmodify (fun s => (s.1, (s.2.1, g s.2.2))).

Definition avia_gt_napi_queue_alloc (f : dvb_demux_feed) (i : nat) (cb : option Z) : GM (option Z) :=
  let priv := Z.of_nat i in
  if fd_type f =? DMX_TYPE_SEC then avia_gt_dmx_alloc_queue_user None cb priv
  else if negb (fd_type f =? DMX_TYPE_TS) then mret_ None
  else if pes_type f =? DMX_TS_PES_VIDEO then avia_gt_dmx_alloc_queue_video None cb priv
  else if pes_type f =? DMX_TS_PES_AUDIO then avia_gt_dmx_alloc_queue_audio None cb priv
  else if pes_type f =? DMX_TS_PES_TELETEXT then avia_gt_dmx_alloc_queue_teletext None cb priv
  else if (pes_type f =? DMX_TS_PES_PCR) || (pes_type f =? DMX_TS_PES_SUBTITLE)
          || (pes_type f =? DMX_TS_PES_OTHER)
  then avia_gt_dmx_alloc_queue_user None cb priv
  else mret_ None.

Definition has_type (f : dvb_demux_feed) (bit : Z) : bool := negb (Z.land (ts_type f) bit =? 0).
Definition is_av (f : dvb_demux_feed) : bool :=
  (pes_type f =? DMX_TS_PES_AUDIO) || (pes_type f =? DMX_TS_PES_VIDEO).

(** A queue and a feed of the microcode: [None] when there is none. *)
Definition queue_and_feed (f : dvb_demux_feed) (i : nat) (cb : option Z) (qmode : Z) : NM (option Z) :=
  let! q := on_gt (avia_gt_napi_queue_alloc f i cb) in
  match q with
  | None => mret_ None
  | Some nr =>
      let! idx := on_gt (on_risc (prop_ucode_alloc_feed nr qmode (fd_pid f))) in
      on_gt (q_mod nr (set_feed_idx idx)) ;;;
      if idx =? 0xff then on_gt (avia_gt_dmx_free_queue nr) ;;; mret_ None
      else nmod (fun n => set_napi_priv (<[i := Some nr]> (napi_priv n)) n) ;;; mret_ (Some nr)
  end.

Definition start_decoder (f : dvb_demux_feed) : NM unit :=
  if negb (fd_type f =? DMX_TYPE_SEC) && has_type f TS_DECODER && is_av f
  then on_peer (decoder_start f) else mret_ tt.

Definition avia_gt_napi_start_feed_generic (f : dvb_demux_feed) (i : nat) : NM Z :=
  let! q := queue_and_feed f i (Some CB_GENERIC) TS in
  match q with
  | None => mret_ (- EBUSY)
  | Some nr => start_decoder f ;;; on_gt (avia_gt_dmx_queue_start nr TS (fd_pid f))
  end.

Definition cap (c : Z) : NM bool :=
  let! s := mget in mret_ (negb (Z.land (caps (ucode_info (risc s.2.1))) c =? 0)).

Definition set_ts_pid (nr pid : Z) : NM unit := nmod (fun n => set_ts_pids (setZ (ts_pids n) nr pid) n).

Definition avia_gt_napi_start_feed_ts (f : dvb_demux_feed) (i : nat) (source : Z) : NM Z :=
  let! ok := cap AVIA_GT_UCODE_CAP_TS in
  if negb ok then avia_gt_napi_start_feed_generic f i else
  let! q := queue_and_feed f i (if source =? DMX_MEMORY_FE then None else Some CB_TS_PES) TS in
  match q with
  | None => mret_ (- EBUSY)
  | Some nr =>
      (if has_type f TS_DECODER then
         if is_av f then on_peer (decoder_start f)
         else if pes_type f =? DMX_TS_PES_TELETEXT then on_peer vbi_start
         else mret_ tt
       else mret_ tt) ;;;
      set_ts_pid nr (fd_pid f) ;;;
      on_gt (avia_gt_dmx_queue_start nr TS (fd_pid f))
  end.

Definition avia_gt_napi_start_feed_pes (f : dvb_demux_feed) (i : nat) : NM Z :=
  let! ok := cap AVIA_GT_UCODE_CAP_PES in
  if negb ok then avia_gt_napi_start_feed_generic f i else
  let! n := nget in
  if bool_decide (fd_pid f ∈ ts_pids n) then avia_gt_napi_start_feed_generic f i else
  let! q := queue_and_feed f i (Some CB_TS_PES) PES in
  match q with
  | None => mret_ (- EBUSY)
  | Some nr => start_decoder f ;;; on_gt (avia_gt_dmx_queue_start nr PES (fd_pid f))
  end.

(** Hardware section filters if the microcode has them and the filters of the
    feed fit; [junk]: see [AviaFilter].  The queue's [feed_idx] is not set. *)
Definition avia_gt_napi_start_feed_section (f : dvb_demux_feed) (i : nat) (junk : hwfilter)
    (chain : list dvb_demux_filter) : NM Z :=
  let! ok := cap AVIA_GT_UCODE_CAP_SEC in
  if negb ok then avia_gt_napi_start_feed_generic f i else
  let! sec := on_gt (on_risc (prop_ucode_alloc_section_filter junk chain)) in
  match sec with
  | None => avia_gt_napi_start_feed_generic f i
  | Some sec =>
      let! q := on_gt (avia_gt_napi_queue_alloc f i (Some CB_SECTION)) in
      match q with
      | None => on_gt (on_risc (prop_ucode_free_section_filter sec)) ;;; mret_ (- EBUSY)
      | Some nr =>
          let! idx := on_gt (on_risc (prop_ucode_alloc_section_feed nr (Some sec) (fd_pid f))) in
          if idx =? 0xff then
            on_gt (on_risc (prop_ucode_free_section_filter sec)) ;;;
            on_gt (avia_gt_dmx_free_queue nr) ;;; mret_ (- EBUSY)
          else
            nmod (fun n => set_napi_priv (<[i := Some nr]> (napi_priv n)) n) ;;;
            on_gt (avia_gt_dmx_queue_start nr SECTION (fd_pid f))
      end
  end.

(** Does this feed need a demux output queue? *)
Definition avia_gt_napi_is_clipmode_feed (f : dvb_demux_feed) : bool :=
  negb (pes_type f >? DMX_TS_PES_TELETEXT) && has_type f TS_DECODER
  && negb (fd_type f =? DMX_TYPE_SEC).

(** The first user queue that receives the PID as TS packets. *)
Definition tap_queue (pid : Z) (pids : list Z) : option Z :=
  find (fun nr => at_ pids nr =? pid) (seqZ AVIA_GT_DMX_QUEUE_USER_START 29).
Definition tap (pid : Z) (start : bool) : NM unit :=
  let! n := nget in
  match tap_queue pid (ts_pids n) with
  | Some nr => on_gt (avia_gt_dmx_tap nr start)
  | None => mret_ tt
  end.

(** [dvbdmxfeed->priv]: a feed without a queue is not followed. *)
Definition priv_queue (i : nat) : NM Z :=
  let! n := nget in
  match mjoin (napi_priv n !! i) with Some nr => mret_ nr | None => mfault end.

(** The interrupt of the queue of a feed that has a client. *)
Definition start_irq (f : dvb_demux_feed) (i : nat) : NM Z :=
  if (fd_type f =? DMX_TYPE_SEC) || has_type f TS_PACKET then
    let! nr := priv_queue i in on_gt (avia_gt_dmx_queue_irq_enable nr)
  else mret_ 0.

Definition avia_gt_napi_start_feed (f : dvb_demux_feed) (i : nat) (source : option Z)
    (junk : hwfilter) (chain : list dvb_demux_filter) : NM (Z * dvb_demux_feed) :=
  match source with
  | None => mret_ (- EINVAL, f)
  | Some source =>
      let! n := nget in
      if (source =? DMX_MEMORY_FE) && negb (avia_gt_napi_is_clipmode_feed f) then mret_ (0, f) else
      (if (source =? DMX_MEMORY_FE) && (pes_type f =? DMX_TS_PES_AUDIO)
       then nmod (set_need_audio_pts true) else mret_ tt) ;;;
      let f := if negb (source =? DMX_MEMORY_FE) && (playback_mode n =? 0)
                  && (pes_type f <=? DMX_TS_PES_VIDEO) && has_type f TS_DECODER
               then set_ts_type (Z.lor (ts_type f) TS_PAYLOAD_ONLY) f else f in
      if (fd_type f =? DMX_TYPE_TS) || (fd_type f =? DMX_TYPE_PES) then
        let pcr := (pes_type f =? DMX_TS_PES_PCR) && has_type f TS_DECODER in
        (if pcr then on_gt (avia_gt_dmx_set_pcr_pid 1 (fd_pid f)) else mret_ tt) ;;;
        if pcr && negb (has_type f TS_PACKET) then mret_ (0, f) else
        let! result := if has_type f TS_PAYLOAD_ONLY then avia_gt_napi_start_feed_pes f i
                       else avia_gt_napi_start_feed_ts f i source in
        (if (result =? 0) && has_type f TS_DECODER then tap (fd_pid f) false else mret_ tt) ;;;
        if negb (result =? 0) then mret_ (result, f) else
        let! r := start_irq f i in mret_ (r, f)
      else if fd_type f =? DMX_TYPE_SEC then
        let! result := avia_gt_napi_start_feed_section f i junk chain in
        if negb (result =? 0) then mret_ (result, f) else
        let! r := start_irq f i in mret_ (r, f)
      else mret_ (- EINVAL, f)
  end.

(** [filter0]: the first filter of the core has a feed.  The message of the
    first case follows the feed's queue and that filter's feed. *)
Definition avia_gt_napi_stop_feed (f : dvb_demux_feed) (i : nat) (source : option Z) (filter0 : bool)
    : NM Z :=
  match source with
  | None => mret_ (- EINVAL)
  | Some source =>
      if (source =? DMX_MEMORY_FE) && negb (avia_gt_napi_is_clipmode_feed f) then
        priv_queue i ;;; if filter0 then mret_ 0 else mfault
      else
      let decoder := negb (fd_type f =? DMX_TYPE_SEC) && has_type f TS_DECODER in
      let pcr := decoder && (pes_type f =? DMX_TS_PES_PCR) in
      (if decoder then
         if is_av f then on_peer (decoder_stop f)
         else if pes_type f =? DMX_TS_PES_TELETEXT then on_peer vbi_stop
         else if pcr then on_gt (avia_gt_dmx_set_pcr_pid 0 0x0000)
         else mret_ tt
       else mret_ tt) ;;;
      if pcr && negb (has_type f TS_PACKET) then mret_ 0 else
      (if decoder then tap (fd_pid f) true else mret_ tt) ;;;
      let! nr := priv_queue i in
      on_gt (avia_gt_dmx_queue_stop nr) ;;;
      set_ts_pid nr 0xffff ;;;
      on_gt (avia_gt_dmx_free_queue nr)
  end.

(** ** Playback from memory *)

(** [struct ts_header], 4 bytes; [struct pes_header], 14 bytes. *)
Definition pes_offset (buf : list Z) : option Z :=
  let p := 4 in
  if negb (Z.land (at_ buf 3) 0x20 =? 0) then
    let p := p + at_ buf 4 + 1 in
    if p >? 188 - 4 - 14 then None else Some p
  else Some p.

Definition write_queue (nr : Z) (buf : list Z) : NM Z := on_gt (avia_gt_dmx_queue_write nr buf false).

(** The clock of the decoder from the first PES header with a time stamp. *)
Definition audio_pts (buf : list Z) : NM unit :=
  let! n := nget in
  if negb (need_audio_pts n) then mret_ tt else
  if negb (negb (Z.land (at_ buf 1) 0x40 =? 0) && negb (Z.land (at_ buf 3) 0x10 =? 0)) then mret_ tt else
  match pes_offset buf with
  | None => mret_ tt
  | Some p =>
      let! s := mget in
      let r := audio_pts_to_stc (drop (Z.to_nat p) buf) s.2.2 in
      on_peer (fun _ => r.2) ;;;
      if r.1 =? 0 then nmod (set_need_audio_pts false) else mret_ tt
  end.

Definition avia_gt_napi_write_to_decoder (f : dvb_demux_feed) (buf : list Z) : NM Z :=
  let! n := nget in
  if negb (clipmode n) then mret_ (- EINVAL) else
  if negb (at_ buf 0 =? 0x47) then mret_ (- EINVAL) else
  if pes_type f =? DMX_TS_PES_AUDIO then
    let! err := write_queue AVIA_GT_DMX_QUEUE_VIDEO buf in
    if err <? 0 then mret_ err else audio_pts buf ;;; mret_ 0
  else if pes_type f =? DMX_TS_PES_VIDEO then
    let! err := write_queue AVIA_GT_DMX_QUEUE_VIDEO buf in
    mret_ (if err <? 0 then err else 0)
  else if pes_type f =? DMX_TS_PES_TELETEXT then
    let! err := write_queue AVIA_GT_DMX_QUEUE_TELETEXT buf in
    mret_ (if err <? 0 then err else 0)
  else mret_ (- EINVAL).

(** The parts that follow the core's own connect and disconnect. *)
Definition avia_gt_napi_connect_frontend (source : Z) : NM Z :=
  if source =? DMX_MEMORY_FE then
    let! err := on_gt (avia_gt_dmx_enable_clip_mode AVIA_GT_DMX_SYSTEM_QUEUES) in
    if err <? 0 then mret_ err else nmod (set_clipmode true) ;;; mret_ 0
  else mret_ 0.
Definition avia_gt_napi_disconnect_frontend (source : Z) : NM Z :=
  if source =? DMX_MEMORY_FE then
    let! err := on_gt (avia_gt_dmx_disable_clip_mode AVIA_GT_DMX_SYSTEM_QUEUES) in
    if err <? 0 then mret_ err else nmod (set_clipmode false) ;;; mret_ 0
  else mret_ 0.

Definition FE_HAS_LOCK := 0x10.
Definition avia_gt_napi_before_after_tune (fe_status : Z) : NM unit :=
  if negb (Z.land fe_status FE_HAS_LOCK =? 0) then on_gt avia_gt_dmx_enable_framer
  else on_gt avia_gt_dmx_disable_framer.

(** ** The descrambler device *)

Definition avia_gt_napi_ecd_num := 8.

Inductive ecd_cmd :=
| CA_RESET
| CA_GET_CAP
| CA_GET_SLOT_INFO
| CA_GET_DESCR_INFO
| CA_GET_MSG
| CA_SEND_MSG
| CA_SET_DESCR (index parity : Z) (cw : list Z)   (* u32, u32, 4 words *)
| CA_SET_PID (pid index : Z)                      (* u32, s32 *)
| CA_OTHER.

Definition reads_only (cmd : ecd_cmd) : bool :=
  match cmd with CA_GET_CAP | CA_GET_SLOT_INFO | CA_GET_DESCR_INFO | CA_GET_MSG => true | _ => false end.

Definition avia_gt_napi_ecd_ioctl (rdonly : bool) (cmd : ecd_cmd) : NM Z :=
  if rdonly && negb (reads_only cmd) then mret_ (- EPERM) else
  match cmd with
  | CA_RESET => on_gt (on_risc prop_ucode_ecd_reset) ;;; mret_ 0
  | CA_GET_CAP | CA_GET_SLOT_INFO | CA_GET_DESCR_INFO => mret_ 0
  | CA_GET_MSG | CA_SEND_MSG => mret_ (- EOPNOTSUPP)
  | CA_SET_DESCR index parity cw =>
      if (index >=? avia_gt_napi_ecd_num) || (parity >? 1) then mret_ (- EINVAL)
      else on_gt (on_risc (prop_ucode_ecd_set_key index parity cw))
  | CA_SET_PID pid index =>
      if (index <? -1) || (index >=? avia_gt_napi_ecd_num) then mret_ (- EINVAL)
      else if pid >? 0x1fff then mret_ (- EINVAL)
      else if index =? -1 then mret_ 0
      else on_gt (on_risc (prop_ucode_ecd_set_pid index pid))
  | CA_OTHER => mret_ (- ENOIOCTLCMD)
  end.

End Napi.
