(* ===== verification/AviaNapiSpec.v ===== *)
(** * Theorems about the demultiplexer driver (avia/avia_gt_napi.c)

    The driver's CRC hooks keep the contract of the demux core; what its
    section callback selects, against the software filter; what the callbacks
    deliver. *)

From S2P Require Import Prelude Crc32 Fifo DemuxState SwFilter SectionFilter Feeds FilterSpec AviaFilter AviaFilterSpec AviaUcode AviaQueue AviaQueueSpec AviaGt AviaAccel AviaDmx AviaDmxSpec AviaUcodeSpec AviaTask AviaNapi.

(** ** The hooks *)

Section Hooks.
Context (accel : Z -> list Z -> Z) (Haccel : forall c s, accel c s = crc32_be c s).
Context (in_chip : list Z -> bool).

Definition napi_hooks : CrcHooks :=
  {| hook_crc32 := avia_gt_napi_crc32;
     hook_memcopy f d s := avia_gt_napi_memcpy accel (in_chip s) f d s |}.

Lemma napi_memcpy_crc f d s f' :
  avia_gt_napi_memcpy accel (in_chip s) f d s = Ok f' ->
  crc_val f' = (if sec_check f then crc32_be (crc_val f) s else crc_val f) /\ sec_check f' = sec_check f.
Proof using Haccel.
  unfold avia_gt_napi_memcpy. intros H. inv_res H. simplify_eq. simpl.
  rewrite Haccel. destruct (sec_check f) eqn:E; destruct (in_chip s); simpl; split; try done; exact E.
Qed.

#[local] Instance napi_hooks_laws : @CrcHooksLaws napi_hooks.
Proof using Haccel.
  refine (@Build_CrcHooksLaws napi_hooks
    (fun f d => crc_val f = if sec_check f then crc32_be crc_init d else crc_init) _ _ _ _ _ _ _); simpl.
  - intros f. by destruct (sec_check _).
  - intros f d off s f' Ht [Hc Hs]%napi_memcpy_crc. rewrite Hc, Hs, Ht.
    destruct (sec_check f); [|done]. by rewrite crc32_be_app.
  - intros f d Ht. unfold avia_gt_napi_crc32. rewrite Ht. by destruct (sec_check f).
  - intros f g d Ht Hc Hv. unfold sec_check. by rewrite Ht, Hc, Hv.
  - intros f d. unfold avia_gt_napi_crc32. case_if; simpl; [exists (crc_val f); by destruct f|by eexists].
  - intros f off s b Hb. unfold avia_gt_napi_memcpy. case_if; simpl; rewrite Hb; simpl; [by eexists|].
    exists (crc_val f). by destruct f.
  - intros f off s Hb. unfold avia_gt_napi_memcpy. case_if; simpl; by rewrite Hb.
Defined.

(** Copies of pieces of a section, one after the other. *)
Fixpoint copies (f : dvb_demux_feed) (l : list (Z * list Z)) : res dvb_demux_feed :=
  match l with
  | [] => Ok f
  | (d, s) :: l => let? f := avia_gt_napi_memcpy accel (in_chip s) f d s in copies f l
  end.

Lemma copies_track f l f' data :
  @crc_tracks napi_hooks _ f data -> copies f l = Ok f' ->
  @crc_tracks napi_hooks _ f' (data ++ concat (map snd l)).
Proof using.
  induction l as [|[d s] l IH] in f, data |- *; intros Ht H; simpl in H.
  - simplify_eq. by rewrite app_nil_r.
  - inv_res H. simpl. rewrite app_assoc. eapply IH; [|exact H].
    exact (@crc_tracks_copy napi_hooks _ f data d s r Ht Hr).
Qed.
End Hooks.

(** A feed that checks its sections. *)
Definition section_feed_zero : dvb_demux_feed :=
  mk_dvb_demux_feed DMX_TYPE_SEC DMX_STATE_GO 0x14 0 0 true true 0 (replicate 4096 0) 0 0 None
    0 false 0 0 0 0 0 0xfffa.

(** The driver's hooks compute checksums while they copy: they keep what the
    demux core relies on.  After [crc_val] has been set to all ones and the
    pieces of a section have been copied in, from the chip's memory or from
    elsewhere, what the check hook returns is [crc32_be] over all the pieces,
    for feeds that check (where it was computed piece by piece) and for the
    others (where it is computed now). *)
Theorem napi_hooks_check accel in_chip f l f' :
  (forall c s, accel c s = crc32_be c s) ->
  copies accel in_chip (set_crc_val crc_init f) l = Ok f' ->
  (avia_gt_napi_crc32 f' (concat (map snd l))).1 = crc32_be crc_init (concat (map snd l)).
Proof.
  intros Ha H.
  apply (@crc_tracks_check _ (napi_hooks_laws accel Ha in_chip)).
  refine (copies_track accel Ha in_chip (set_crc_val crc_init f) l f' [] _ H).
  apply (@crc_tracks_reset _ (napi_hooks_laws accel Ha in_chip)).
Qed.

(** ** What the section callback selects *)

Lemma napi_compare_spec n i f sec neq xor :
  (forallb (fun k => Z.land (at_ (maskandmode f) (Z.of_nat k)) (sec_diff f sec k) =? 0) (seq i n) = true /\
   napi_compare n (Z.of_nat i) f sec neq xor
     = (Z.of_nat (i + n),
        fold_left (fun a k => Z.lor a (Z.land (at_ (maskandnotmode f) (Z.of_nat k)) (sec_diff f sec k)))
          (seq i n) neq,
        match n with O => xor | S m => sec_diff f sec (i + m) end)) \/
  (forallb (fun k => Z.land (at_ (maskandmode f) (Z.of_nat k)) (sec_diff f sec k) =? 0) (seq i n) = false /\
   exists k neq', (i <= k < i + n)%nat /\
     napi_compare n (Z.of_nat i) f sec neq xor = (Z.of_nat k, neq', sec_diff f sec k) /\
     Z.land (at_ (maskandmode f) (Z.of_nat k)) (sec_diff f sec k) <> 0).
Proof.
  induction n as [|n IH] in i, neq, xor |- *; simpl.
  { left. split; [done|]. by rewrite Nat.add_0_r. }
  fold (sec_diff f sec i). destruct (Z.eqb_spec (Z.land (at_ (maskandmode f) (Z.of_nat i)) (sec_diff f sec i)) 0) as [E|E]; simpl.
  - replace (Z.of_nat i + 1) with (Z.of_nat (S i)) by lia.
    destruct (IH (S i) (Z.lor neq (Z.land (at_ (maskandnotmode f) (Z.of_nat i)) (sec_diff f sec i))) (sec_diff f sec i))
      as [[Ha Hc]|(Ha & k & neq' & Hk & Hc & Hn)].
    + left. split; [done|]. rewrite Hc. replace (S i + n)%nat with (i + S n)%nat by lia.
      destruct n as [|n]; [by rewrite Nat.add_0_r|]. by replace (S i + n)%nat with (i + S n)%nat by lia.
    + right. split; [done|]. exists k, neq'. split; [lia|done].
  - right. split; [done|]. exists i, neq. split; [lia|done].
Qed.

Lemma napi_match_spec f sec :
  napi_match f sec 18 =
    sec_match f sec && (Z.land (at_ (maskandnotmode f) 0) (sec_diff f sec 17) =? 0).
Proof.
  unfold napi_match, sec_match. change (Z.to_nat 18) with DVB_DEMUX_MASK_MAX. change 0 with (Z.of_nat 0) at 1.
  destruct (napi_compare_spec DVB_DEMUX_MASK_MAX 0 f sec 0 0) as [[Ha Hc]|(Ha & k & neq' & Hk & Hc & Hn)];
    rewrite Hc, Ha; clear Hc; cbn [andb].
  - rewrite fold_lor_zero. cbn [Z.eqb andb]. unfold maskandmode_at. simpl (_ <? 18). cbv iota.
    change (Z.of_nat (0 + DVB_DEMUX_MASK_MAX) - 18) with 0. change (0 + 17)%nat with 17%nat.
    set (E := existsb _ _). destruct (Z.land _ _ =? 0), (doneq f =? 0), E; done.
  - unfold maskandmode_at, DVB_DEMUX_MASK_MAX in *. replace (Z.of_nat k <? 18) with true by lia.
    destruct (Z.eqb_spec (Z.land (at_ (maskandmode f) (Z.of_nat k)) (sec_diff f sec k)) 0); done.
Qed.

(** What the hardware section path selects, against the software filter.
    For a section of at least 18 bytes a filter of the callback selects it
    exactly if the software filter does and, in addition, the last compared
    byte has no difference in the bits that are negated in the first byte:
    the loop's condition is evaluated once more behind the end of the mask. *)
Theorem napi_match_sec_match f sec :
  napi_match f sec 18 =
    sec_match f sec && (Z.land (at_ (maskandnotmode f) 0) (sec_diff f sec 17) =? 0).
Proof. apply napi_match_spec. Qed.

(** A filter for every table but 0x42, as [dvb_dmx] prepares it: the table id is
    negated. *)
Definition not_42 : dvb_demux_filter :=
  mk_dvb_demux_filter (0x42 :: replicate 17 0) (0xff :: replicate 17 0) (0x00 :: replicate 17 0xff) 7
    (replicate 18 0) (0xff :: replicate 17 0) 1 None (Some 0%nat) 0 DMX_STATE_READY DMX_TYPE_SEC.
Definition section_4e (x : Z) : list Z := [0x4e; 0x70; 15] ++ replicate 14 0 ++ [x].

(** A consequence: with a filter for every table but one, a section of
    another table that the software filter delivers is lost by the hardware
    path, unless its 18th byte has the value of the filter's 18th byte (a byte
    the filter does not even look at). *)
Theorem napi_negated_table_lost x :
  is_byte x ->
  sec_match not_42 (section_4e x) = true /\ napi_match not_42 (section_4e x) 18 = (x =? 0).
Proof.
  intros Hx.
  assert ((sec_match not_42 (section_4e x) && Bool.eqb (napi_match not_42 (section_4e x) 18) (x =? 0)) = true) as H.
  { apply (forall_range (fun x => sec_match not_42 (section_4e x)
      && Bool.eqb (napi_match not_42 (section_4e x) 18) (x =? 0)) 256); [by vm_compute|exact Hx]. }
  split_bools. split; [done|]. by apply eqb_prop.
Qed.

Lemma napi_negated_table_lost_witness :
  sec_match not_42 (section_4e 1) = true /\ napi_match not_42 (section_4e 1) 18 = false.
Proof. apply (napi_negated_table_lost 1). by vm_compute. Defined.

Lemma napi_hooks_check_witness :
  let f := section_feed_zero in
  exists f', copies crc32_be (fun _ => true) (set_crc_val crc_init f) [(0, [1; 2]); (2, [3])] = Ok f' /\
    (avia_gt_napi_crc32 f' [1; 2; 3]).1 = crc32_be crc_init [1; 2; 3].
Proof.
  eexists. split; [reflexivity|].
  apply (napi_hooks_check crc32_be (fun _ => true) section_feed_zero [(0, [1; 2]); (2, [3])]); reflexivity.
Defined.

(** ** Sections out of the queue *)

Lemma napi_compare_ext n i f s s' neq xor :
  (forall k, i <= k < i + Z.of_nat n -> at_ s k = at_ s' k) ->
  napi_compare n i f s neq xor = napi_compare n i f s' neq xor.
Proof.
  induction n as [|n IH] in i, neq, xor |- *; intros H; simpl; [done|].
  rewrite (H i) by lia. case_if; [done|]. apply IH. intros k Hk. apply H. lia.
Qed.

Lemma napi_match_take f s n : 0 <= n -> napi_match f (take (Z.to_nat n) s) n = napi_match f s n.
Proof.
  intros Hn. unfold napi_match. rewrite (napi_compare_ext _ _ _ (take (Z.to_nat n) s) s); [done|].
  intros k Hk. apply at_take. lia.
Qed.

(** The header of a section tells its length. *)
Definition declared (s : list Z) : Z := Z.land (word (at_ s 1) (at_ s 2)) 0xfff + 3.
Record good_section (s : list Z) : Prop := {
  gs_len : zlen s = declared s;
  gs_max : declared s <= 4096;
  gs_id : at_ s 0 <> 0xFF;
}.

(** What the clients of a chain get from a section. *)
Definition selected (checks : bool) (chain : list dvb_demux_filter) (s : list Z) : list (Z * list Z) :=
  if checks && negb (crc32_be crc_init s =? 0) then []
  else flat_map (fun f => if napi_match f s (Z.min (zlen s) 18) then [(sf_priv f, s)] else []) chain.

(** A delivery with its two parts put together. *)
Definition joined (d : delivery) : Z * list Z := (d.1.1, d.1.2 ++ d.2).

Lemma joined_deliveries checks chain s sec a b :
  a ++ b = s -> (forall f, napi_match f sec (Z.min (zlen s) 18) = napi_match f s (Z.min (zlen s) 18)) ->
  map joined (section_deliveries (if checks : bool then crc32_be crc_init s else 0) checks chain sec
    (Z.min (zlen s) 18) a b) = selected checks chain s.
Proof.
  intros Hs Hsec. unfold section_deliveries, selected.
  replace (negb ((if checks then crc32_be crc_init s else 0) =? 0) && checks)
    with (checks && negb (crc32_be crc_init s =? 0)) by (destruct checks; simpl; by rewrite ?andb_true_r).
  destruct (checks && _); induction chain as [|f chain IH]; try done.
  cbn [flat_map]. rewrite map_app, Hsec. f_equal; [|exact IH]. case_if; [|done].
  unfold joined. simpl. by rewrite Hs.
Qed.

Section Callback.
Context {W : Type} {B : GtBus W} {A : GtAccel W} {K : GtClients W} {L : CrcEngine W}.

(** The first [n] waiting bytes are where the queue says. *)
Lemma first_parts mem q n :
  queue_ok mem q -> 0 <= n <= zlen (received mem q) ->
  exists a b, slice mem (buf1_ptr q) (Z.min (buf1_size q) n) = Ok a /\
    (if n <=? buf1_size q then b = [] else slice mem (buf2_ptr q) (n - buf1_size q) = Ok b) /\
    a ++ b = take (Z.to_nat n) (received mem q).
Proof.
  intros Hok Hn. rewrite (received_zlen _ _ Hok), (bytes_avail_fill _ _ Hok) in Hn.
  pose proof (fill_bounds _ _ Hok _ (qk_read _ _ Hok)) as Hf.
  unfold received, waiting. rewrite ring_take by lia. unfold fill in *.
  unfold buf1_ptr, buf2_ptr, buf1_size, buf2_size. pose proof Hok as [].
  destruct (Z.ltb_spec (write_pos q - read_pos q) 0), (Z.geb_spec (write_pos q) (read_pos q)); try lia; cycle 1.
  - rewrite (queue_slice _ _ Hok) by lia. eexists _, []. split; [done|]. rif. split; [done|].
    rewrite app_nil_r. f_equal. lia.
  - destruct (Z.leb_spec n (qsize q - read_pos q)).
    + rewrite (queue_slice _ _ Hok) by lia. eexists _, []. split; [done|]. split; [done|].
      rewrite app_nil_r. f_equal. lia.
    + rewrite Z.min_l by lia. rewrite (queue_slice _ _ Hok) by lia.
      pose proof (queue_slice _ _ Hok 0 (n - (qsize q - read_pos q)) ltac:(lia) ltac:(lia) ltac:(lia)) as Hz.
      rewrite Z.add_0_r in Hz. eexists _, _. split; [done|]. split; [exact Hz|].
      rewrite <- (Z_mod_same_full (qsize q)). replace (qsize q mod qsize q)
        with ((read_pos q + (qsize q - read_pos q)) mod qsize q) by (f_equal; lia).
      rewrite <- ring_app by lia. f_equal. lia.
Qed.

Lemma get8_run nr q g (w : W) peek b l :
  queue_list g !! Z.to_nat nr = Some q -> queue_ok (gt_mem g) q ->
  received (gt_mem g) q = b :: l ->
  exists p, dq_get_data8 nr peek (g, w) = Ok (b, (put_q nr (set_read_pos p q) g, w)) /\
    queue_ok (gt_mem g) (set_read_pos p q) /\
    received (gt_mem g) (set_read_pos p q) = if peek : bool then b :: l else l.
Proof.
  intros Hq Hok Hr. unfold dq_get_data8, queue_data_get8, queue_data_getn, q_get, gget. mrun. rewrite Hq. mrun.
  rewrite (data_get_run _ _ Hok) by lia. rewrite <- (received_zlen _ _ Hok), Hr, zlen_cons.
  pose proof (zlen_nonneg l). replace (Z.min 1 (1 + zlen l)) with 1 by lia. mrun. cbn [res_bind].
  replace (1 <? 1) with false by lia. mrun. rewrite (mbind_Ok _ _ _ _ _ (q_mod_run nr _ q g w Hq)).
  change (be_value (take (Z.to_nat 1) (b :: l))) with b.
  destruct peek.
  - exists (read_pos q). assert (set_read_pos (read_pos q) q = q) as E by (by destruct q). by rewrite E.
  - eexists. split; [reflexivity|].
    destruct (skip_received _ _ Hok 1) as [Hok' Hr'].
    { rewrite <- (received_zlen _ _ Hok), Hr, zlen_cons. lia. }
    split; [exact Hok'|]. rewrite Hr', Hr. done.
Qed.

Lemma skip_padding_run nr k fuel q g (w : W) x rest :
  queue_list g !! Z.to_nat nr = Some q -> queue_ok (gt_mem g) q ->
  received (gt_mem g) q = replicate k 0xFF ++ x :: rest -> x <> 0xFF -> (k <= fuel)%nat ->
  exists p, skip_padding fuel nr (zlen (replicate k 0xFF ++ x :: rest)) (g, w)
      = Ok (zlen (x :: rest), (put_q nr (set_read_pos p q) g, w)) /\
    queue_ok (gt_mem g) (set_read_pos p q) /\
    received (gt_mem g) (set_read_pos p q) = x :: rest.
Proof.
  induction k as [|k IH] in fuel, q, g |- *; intros Hq Hok Hr Hx Hf; pose proof (zlen_nonneg rest).
  - simpl in *. destruct (get8_run nr q g w true x rest Hq Hok Hr) as (p & E & Hok' & Hr').
    exists p. split; [|done].
    destruct fuel; cbn [skip_padding]; rewrite zlen_cons; replace (1 + zlen rest =? 0) with false by lia;
      rewrite (mbind_Ok _ _ _ _ _ E); by replace (x =? 0xFF) with false by lia.
  - destruct fuel as [|fuel]; [lia|]. simpl replicate in *. cbn [app] in *. cbn [skip_padding].
    set (r := replicate k 0xFF ++ x :: rest) in *. pose proof (zlen_nonneg r). rewrite zlen_cons.
    replace (1 + zlen r =? 0) with false by lia.
    destruct (get8_run nr q g w true 0xFF r Hq Hok Hr) as (p1 & E1 & Hok1 & Hr1).
    rewrite (mbind_Ok _ _ _ _ _ E1). cbn [Z.eqb Pos.eqb].
    set (q1 := set_read_pos p1 q) in *. set (g1 := put_q nr q1 g).
    assert (queue_list g1 !! Z.to_nat nr = Some q1) as Hq1 by (by eapply put_q_lookup).
    destruct (get8_run nr q1 g1 w false 0xFF r Hq1 Hok1 Hr1) as (p2 & E2 & Hok2 & Hr2).
    rewrite (mbind_Ok _ _ _ _ _ E2). unfold g1. rewrite put_q_put.
    set (q2 := set_read_pos p2 q1) in *.
    destruct (IH fuel q2 (put_q nr q2 g)) as (p & E & Hok' & Hr');
      [by eapply put_q_lookup|done|done|done|lia|].
    exists p. replace (1 + zlen r - 1) with (zlen r) by lia. rewrite put_q_put in E. done.
Qed.

(** Reading the queue empty takes as many turns as bytes wait. *)
Lemma dump_queue_run nr fuel q g (w : W) :
  queue_list g !! Z.to_nat nr = Some q -> queue_ok (gt_mem g) q ->
  zlen (received (gt_mem g) q) <= Z.of_nat fuel ->
  exists p, dump_queue fuel nr (g, w) = Ok (tt, (put_q nr (set_read_pos p q) g, w)) /\
    queue_ok (gt_mem g) (set_read_pos p q) /\ received (gt_mem g) (set_read_pos p q) = [].
Proof.
  induction fuel as [|fuel IH] in q, g |- *; intros Hq Hok Hn.
  all: destruct (received (gt_mem g) q) as [|b l] eqn:Er.
  all: pose proof (received_zlen _ _ Hok) as Ha; rewrite Er in Ha.
  1,3: exists (read_pos q); assert (set_read_pos (read_pos q) q = q) as E by (by destruct q); rewrite E, put_q_id by done.
  1,2: split; [|done]; cbn [dump_queue]; unfold dq_bytes_avail, q_get, gget; mrun; rewrite Hq; mrun; by rewrite <- Ha.
  all: rewrite zlen_cons in Ha, Hn; pose proof (zlen_nonneg l). 1: lia.
  cbn [dump_queue]. unfold dq_bytes_avail, q_get, gget. mrun. rewrite Hq. mrun.
  replace (bytes_avail q =? 0) with false by lia.
  destruct (get8_run nr q g w false b l Hq Hok Er) as (p1 & E1 & Hok1 & Hr1).
  rewrite (mbind_Ok _ _ _ _ _ E1). set (q1 := set_read_pos p1 q) in *.
  destruct (IH q1 (put_q nr q1 g)) as (p & E & Hok' & Hr');
    [by eapply put_q_lookup|done|change (gt_mem (put_q nr q1 g)) with (gt_mem g); rewrite Hr1; lia|].
  exists p. rewrite put_q_put in E. done.
Qed.

Lemma chip_bytes_run addr n g (w : W) s :
  slice (gt_mem g) addr n = Ok s -> chip_bytes addr n (g, w) = Ok (s, (g, w)).
Proof. intros H. unfold chip_bytes, gget. mrun. unfold mlift. by rewrite H. Qed.

Lemma take_prefix (s rest : list Z) n : 0 <= n <= zlen s -> take (Z.to_nat n) (s ++ rest) = take (Z.to_nat n) s.
Proof. intros H. rewrite take_app_le; [done|]. zl. Qed.

Lemma take_whole (s rest : list Z) : take (Z.to_nat (zlen s)) (s ++ rest) = s.
Proof. rewrite take_prefix by (pose proof (zlen_nonneg s); lia). apply take_ge. zl. Qed.

Lemma take_section_run nr q g (w : W) checks chain s rest :
  chip_type g = ENX -> queue_list g !! Z.to_nat nr = Some q -> queue_ok (gt_mem g) q ->
  received (gt_mem g) q = s ++ rest -> 3 <= zlen s -> chain <> [] ->
  exists ds p w', take_section nr checks chain (zlen s) (g, w)
      = Ok (ds, (put_q nr (set_read_pos p q) g, w')) /\
    queue_ok (gt_mem g) (set_read_pos p q) /\
    received (gt_mem g) (set_read_pos p q) = rest /\
    map joined ds = selected checks chain s.
Proof.
  intros Hc Hq Hok Hr Hs Hne. pose proof (zlen_nonneg rest). unfold take_section.
  assert (exists w1, (if checks then avia_gt_dmx_queue_crc32 nr (zlen s) crc_init else mret_ 0) (g, w)
    = Ok (if checks then crc32_be crc_init s else 0, (g, w1))) as (w1 & E1).
  { destruct checks; [|by eexists].
    destruct (queue_crc32_run g w nr q (zlen s) crc_init Hc Hq Hok) as (w1 & E1).
    - rewrite Hr, zlen_app. lia.
    - exists w1. by rewrite E1, Hr, take_whole. }
  rewrite (mbind_Ok _ _ _ _ _ E1). unfold q_get, gget. mrun. rewrite Hq. mrun.
  replace (zlen chain =? 0) with false by (destruct chain; [done|rewrite zlen_cons; pose proof (zlen_nonneg chain); lia]).
  mrun. assert (Z.min (zlen s) (zlen (received (gt_mem g) q)) = zlen s) as Hmin by (rewrite Hr, zlen_app; lia).
  case_if.
  - destruct (get_data_run nr q g w1 true (zlen s) false Hq Hok ltac:(lia)) as (p & E & Hok' & Hr').
    rewrite (mbind_Ok _ _ _ _ _ E). rewrite Hmin, Hr in *. cbn [snd]. rewrite take_whole.
    eexists _, p, w1. split; [reflexivity|]. split; [done|]. split.
    + rewrite Hr'. unfold zlen. rewrite Nat2Z.id. apply drop_app_length.
    + apply joined_deliveries; [by rewrite app_nil_r|done].
  - destruct (get_data_run nr q g w1 true (Z.min (zlen s) 18) true Hq Hok ltac:(lia)) as (p1 & E & Hok1 & Hr1).
    rewrite (mbind_Ok _ _ _ _ _ E). clear E. cbn [snd].
    set (q1 := set_read_pos p1 q) in *. set (g1 := put_q nr q1 g).
    assert (queue_list g1 !! Z.to_nat nr = Some q1) as Hq1 by (by eapply put_q_lookup).
    destruct (first_parts (gt_mem g) q (zlen s) Hok ltac:(rewrite Hr, zlen_app; lia)) as (a & b & Ea & Eb & Eab).
    rewrite (mbind_Ok _ _ _ _ _ (chip_bytes_run _ _ g1 w1 a Ea)).
    assert ((if zlen s <=? buf1_size q then mret_ [] else chip_bytes (buf2_ptr q) (zlen s - buf1_size q)) (g1, w1)
      = Ok (b, (g1, w1))) as E2.
    { case_if; [by rewrite Eb|]. by apply chip_bytes_run. }
    rewrite (mbind_Ok _ _ _ _ _ E2).
    destruct (get_data_run nr q1 g1 w1 false (zlen s) false Hq1 Hok1 ltac:(lia)) as (p & E3 & Hok' & Hr').
    rewrite (mbind_Ok _ _ _ _ _ E3). change (gt_mem g1) with (gt_mem g) in *.
    rewrite Hr1, Hmin, Hr in *. rewrite take_whole in Eab.
    eexists _, p, w1. split; [unfold g1; rewrite put_q_put; reflexivity|]. split; [done|]. split.
    + etransitivity; [exact Hr'|]. unfold zlen. rewrite Nat2Z.id. apply drop_app_length.
    + apply joined_deliveries; [done|]. intros f.
      rewrite (Z.min_l _ (zlen (s ++ rest))) by (rewrite zlen_app; lia).
      rewrite take_prefix by lia. apply napi_match_take. lia.
Qed.

(** Stuffing and a section. *)
Definition stuffed (p : nat * list Z) : list Z := replicate p.1 0xFF ++ p.2.

(** What is left at the end: the start of a section that is not complete. *)
Definition incomplete (tail : list Z) : Prop :=
  tail = [] \/ (at_ tail 0 <> 0xFF /\ (zlen tail < 3 \/ zlen tail < declared tail <= 4096)).

Lemma section_loop_run nr checks chain l tail fuel q g (w : W) :
  chip_type g = ENX -> queue_list g !! Z.to_nat nr = Some q -> queue_ok (gt_mem g) q ->
  received (gt_mem g) q = concat (map stuffed l) ++ tail ->
  (forall p, p ∈ l -> good_section p.2 /\ 3 <= zlen p.2) -> incomplete tail -> chain <> [] ->
  (length (concat (map stuffed l) ++ tail) <= fuel)%nat ->
  exists ds p w', section_callback_loop fuel nr checks chain (zlen (concat (map stuffed l) ++ tail)) (g, w)
      = Ok (ds, (put_q nr (set_read_pos p q) g, w')) /\
    queue_ok (gt_mem g) (set_read_pos p q) /\
    received (gt_mem g) (set_read_pos p q) = tail /\
    map joined ds = flat_map (fun p => selected checks chain p.2) l.
Proof.
  induction l as [|[k s] l IH] in fuel, q, g, w |- *; intros Hc Hq Hok Hr Hl Ht Hne Hf.
  - simpl in Hr |- *. assert (set_read_pos (read_pos q) q = q) as Eq by (by destruct q).
    assert (put_q nr q g = g) as Eg by (unfold put_q; rewrite list_insert_id by done; by destruct g).
    destruct Ht as [->|[Hid Hlen]].
    { exists [], (read_pos q), w. rewrite Eq, Eg. destruct fuel; done. }
    destruct tail as [|x rest]; [exists [], (read_pos q), w; rewrite Eq, Eg; destruct fuel; done|].
    destruct Hlen as [Hlen|Hlen].
    { exists [], (read_pos q), w. rewrite Eq, Eg. destruct fuel; cbn [section_callback_loop]; rif; done. }
    destruct fuel as [|fuel]; [simpl in Hf; lia|]. cbn [section_callback_loop].
    destruct (Z.ltb_spec (zlen (x :: rest)) 3).
    { exists [], (read_pos q), w. rewrite Eq, Eg. done. }
    destruct (skip_padding_run nr 0 (Z.to_nat (zlen (x :: rest))) q g w x rest Hq Hok Hr Hid ltac:(lia))
      as (p1 & E1 & Hok1 & Hr1). simpl app in E1. rewrite (mbind_Ok _ _ _ _ _ E1). rif.
    set (q1 := set_read_pos p1 q) in *. set (g1 := put_q nr q1 g).
    assert (queue_list g1 !! Z.to_nat nr = Some q1) as Hq1 by (by eapply put_q_lookup).
    destruct (get_data_run nr q1 g1 w true 3 true Hq1 Hok1 ltac:(lia)) as (p2 & E2 & Hok2 & Hr2).
    rewrite (mbind_Ok _ _ _ _ _ E2). change (gt_mem g1) with (gt_mem g) in *. rewrite Hr1 in *.
    rewrite (Z.min_l 3) by lia. cbn [snd].
    assert (forall i, 0 <= i < 3 -> at_ (take (Z.to_nat 3) (x :: rest)) i = at_ (x :: rest) i) as Hat
      by (intros; by apply at_take).
    rewrite !Hat by lia. fold (declared (x :: rest)). rif.
    exists [], p2, w. unfold g1. rewrite put_q_put. done.
  - destruct (Hl (k, s)) as [[Hlen Hmax Hid] H3]; [by left|]. cbn [snd] in *.
    cbn [map concat] in *. unfold stuffed at 1 in Hr. unfold stuffed at 1. unfold stuffed at 1 in Hf. cbn [fst snd] in *.
    rewrite <- !app_assoc in Hr. rewrite <- !app_assoc. rewrite <- !app_assoc in Hf.
    set (more := concat (map stuffed l) ++ tail) in *. pose proof (zlen_nonneg more).
    destruct s as [|x s']; [rewrite zlen_nil in H3; lia|].
    destruct fuel as [|fuel]; [rewrite !length_app in Hf; simpl in Hf; lia|]. cbn [section_callback_loop].
    replace (zlen (replicate k 0xFF ++ (x :: s') ++ more) <? 3) with false
      by (rewrite !zlen_app; pose proof (zlen_nonneg (replicate k 0xFF)); lia).
    destruct (skip_padding_run nr k (Z.to_nat (zlen (replicate k 0xFF ++ (x :: s') ++ more))) q g w x (s' ++ more)
      Hq Hok Hr Hid ltac:(zl)) as (p1 & E1 & Hok1 & Hr1).
    rewrite (mbind_Ok _ _ _ _ _ E1). change (x :: s' ++ more) with ((x :: s') ++ more) in *.
    rewrite zlen_app. replace (zlen (x :: s') + zlen more <? 3) with false by lia.
    set (q1 := set_read_pos p1 q) in *. set (g1 := put_q nr q1 g).
    assert (queue_list g1 !! Z.to_nat nr = Some q1) as Hq1 by (by eapply put_q_lookup).
    destruct (get_data_run nr q1 g1 w true 3 true Hq1 Hok1 ltac:(lia)) as (p2 & E2 & Hok2 & Hr2).
    rewrite (mbind_Ok _ _ _ _ _ E2). change (gt_mem g1) with (gt_mem g) in *. rewrite Hr1 in *.
    rewrite (Z.min_l 3) by (rewrite zlen_app; lia). cbn [snd].
    assert (forall i, 0 <= i < 3 -> at_ (take (Z.to_nat 3) ((x :: s') ++ more)) i = at_ (x :: s') i) as Hat
      by (intros; rewrite at_take by lia; apply at_app_l; lia).
    rewrite !Hat by lia. fold (declared (x :: s')). rewrite <- Hlen in *.
    replace (zlen (x :: s') >? 4096) with false by lia.
    replace (zlen (x :: s') >? zlen (x :: s') + zlen more) with false by lia.
    set (q2 := set_read_pos p2 q1) in *. unfold g1. rewrite put_q_put. set (g2 := put_q nr q2 g).
    assert (queue_list g2 !! Z.to_nat nr = Some q2) as Hq2 by (by eapply put_q_lookup).
    destruct (take_section_run nr q2 g2 w checks chain (x :: s') more Hc Hq2 Hok2 Hr2 H3 Hne)
      as (d & p3 & w3 & E3 & Hok3 & Hr3 & Hd).
    rewrite (mbind_Ok _ _ _ _ _ E3). unfold g2. rewrite put_q_put.
    change (gt_mem g2) with (gt_mem g) in *. set (q3 := set_read_pos p3 q2) in *.
    assert (queue_list (put_q nr q3 g) !! Z.to_nat nr = Some q3) as Hq3 by (by eapply put_q_lookup).
    destruct (IH fuel q3 (put_q nr q3 g) w3) as (ds & p & w' & E & Hok' & Hr' & Hds);
      try done.
    { intros p Hp. apply Hl. by right. }
    { rewrite !length_app in Hf. simpl in Hf. lia. }
    replace (zlen (x :: s') + zlen more - zlen (x :: s')) with (zlen more) by lia.
    rewrite (mbind_Ok _ _ _ _ _ E). rewrite put_q_put.
    exists (d ++ ds), p, w'. split; [done|]. split; [done|]. split; [done|].
    cbn [flat_map snd]. by rewrite map_app, Hd, Hds.
Qed.

End Callback.

(** What the software filter selects. *)
Definition sw_selected (checks : bool) (chain : list dvb_demux_filter) (s : list Z) : list (Z * list Z) :=
  if checks && negb (crc32_be crc_init s =? 0) then []
  else flat_map (fun f => if sec_match f s then [(sf_priv f, s)] else []) chain.

(** No filter negates bits of the first byte. *)
Definition first_byte_positive (chain : list dvb_demux_filter) : Prop :=
  forall f, f ∈ chain -> at_ (maskandnotmode f) 0 = 0.

Lemma selected_sw checks chain s :
  18 <= zlen s -> first_byte_positive chain -> selected checks chain s = sw_selected checks chain s.
Proof.
  intros Hs Hf. unfold selected, sw_selected. destruct (checks && _); [done|].
  induction chain as [|f chain IH]; [done|]. cbn [flat_map].
  rewrite IH by (intros f' Hf'; apply Hf; by right).
  rewrite Z.min_r, napi_match_spec, (Hf f) by (lia || by left). by rewrite Z.land_0_l, andb_true_r.
Qed.

(** What clients' filters select, by the meaning of a filter; [fs] as the
    clients wrote them. *)
Definition wanted (checks : bool) (fs : list dvb_demux_filter) (s : list Z) : list (Z * list Z) :=
  if checks && negb (crc32_be crc_init s =? 0) then []
  else flat_map (fun f => if decide (selects f s) then [(sf_priv f, s)] else []) fs.

(** A filter that negates no bit of the table id. *)
Definition positive_table (f : dvb_demux_filter) : Prop :=
  forall b, (b < 8)%nat -> bit (filter_mask f) 0 b = true -> bit (filter_mode f) 0 b = true.

Lemma positive_prepared f : positive_table f -> at_ (maskandnotmode (prepare_filter f)) 0 = 0.
Proof.
  intros Hp. change 0 with (Z.of_nat 0) at 1. rewrite prepared_andnot by lia. apply u8_zero. intros b Hb.
  rewrite Z.land_spec, Z.lnot_spec by lia. specialize (Hp b Hb). unfold bit in Hp.
  destruct (Z.testbit (at_ (filter_mask f) _) _); [|done]. by rewrite Hp.
Qed.

Lemma sw_selected_wanted checks fs s : sw_selected checks (map prepare_filter fs) s = wanted checks fs s.
Proof.
  unfold sw_selected, wanted. destruct (checks && _); [done|].
  induction fs as [|f fs IH]; [done|]. cbn [map flat_map]. rewrite IH. f_equal.
  destruct (decide (selects f s)) as [Hs|Hs].
  - by rewrite (proj2 (sec_match_selects f s) Hs).
  - destruct (sec_match (prepare_filter f) s) eqn:E; [|done]. by apply sec_match_selects in E.
Qed.

Lemma selected_wanted checks fs s :
  18 <= zlen s -> Forall positive_table fs -> selected checks (map prepare_filter fs) s = wanted checks fs s.
Proof.
  intros Hs Hf. rewrite selected_sw; [apply sw_selected_wanted|done|].
  intros f' Hf'. apply list_elem_of_fmap in Hf' as (f & -> & Hin). apply positive_prepared.
  exact (proj1 (list.Forall_forall _ _) Hf f Hin).
Qed.

(** C3: on an eNX chip, the section callback on a queue that holds complete
    sections, each after any number of stuffing bytes, and at the end perhaps
    the start of another: it returns; every filter of the feed is called once
    for each section that its test passes, in the order of the sections and of
    the filters, with exactly the bytes of the section (in one part, or in two
    around the end of the queue's memory), and sections with a bad checksum
    reach nobody if the feed checks them; the incomplete section stays in the
    queue.  For sections of at least 18 bytes and filters that negate no bit of
    the table id, the sections that a filter gets are exactly those that agree
    with its value, mask and mode.  (Other filters and sections:
    [napi_negated_table_lost] shows one that is wanted and lost.) *)
Theorem napi_sections_delivered {W} {B : GtBus W} {A : GtAccel W} {K : GtClients W} {L : CrcEngine W}
    nr q g (w : W) checks chain l tail :
  chip_type g = ENX -> queue_list g !! Z.to_nat nr = Some q -> queue_ok (gt_mem g) q ->
  received (gt_mem g) q = concat (map stuffed l) ++ tail ->
  (forall p, p ∈ l -> good_section p.2 /\ 3 <= zlen p.2) -> incomplete tail -> chain <> [] ->
  exists ds q' w', avia_gt_napi_queue_callback_section nr checks chain (g, w)
      = Ok (ds, (put_q nr q' g, w')) /\
    received (gt_mem g) q' = tail /\
    map joined ds = flat_map (fun p => selected checks chain p.2) l /\
    (forall fs, chain = map prepare_filter fs -> Forall positive_table fs -> (forall p, p ∈ l -> 18 <= zlen p.2) ->
     map joined ds = flat_map (fun p => wanted checks fs p.2) l).
Proof.
  intros Hc Hq Hok Hr Hl Ht Hne. unfold avia_gt_napi_queue_callback_section, dq_bytes_avail, q_get, gget.
  mrun. rewrite Hq. mrun. rewrite <- (received_zlen _ _ Hok), Hr.
  destruct (section_loop_run nr checks chain l tail
              (Z.to_nat (zlen (concat (map stuffed l) ++ tail))) q g w Hc Hq Hok Hr Hl Ht Hne ltac:(zl))
    as (ds & p & w' & E & _ & Hr' & Hd).
  exists ds, (set_read_pos p q), w'. split; [exact E|]. split; [done|]. split; [done|].
  intros fs -> Hf H18. rewrite Hd. clear - H18 Hf. induction l as [|p l IH]; [done|]. cbn [flat_map].
  rewrite selected_wanted by (apply H18 || done; by left). f_equal. apply IH. intros p' Hp'. apply H18. by right.
Qed.

(** Two sections of table 0x42 around the end of a queue, with stuffing, and
    a third one that has only started. *)
Definition table_42 : dvb_demux_filter :=
  mk_dvb_demux_filter (0x42 :: replicate 17 0) (0xff :: replicate 17 0) (replicate 18 0xff) 9
    (replicate 18 0) (replicate 18 0) 0 None (Some 0%nat) 0 DMX_STATE_READY DMX_TYPE_SEC.
Definition long_42 : list Z := [0x42; 0x70; 17] ++ replicate 17 0x55.
Definition tables_queue : sAviaGtDmxQueue :=
  mk_queue (Some CB_SECTION) 0 20 0 0 None 0 0 0 0 40 64 20 0x14 true 0 false SECTION true.
Definition tables_bytes : list Z := [0xff; 0xff] ++ long_42 ++ long_42 ++ [0x42; 0x70].
Definition tables_mem : list Z := drop 24 tables_bytes ++ replicate 20 0 ++ take 24 tables_bytes.
Definition tables_dmx : gtdmx := set_gt_mem tables_mem (set_queue_list (replicate 4 tables_queue) sync_dmx).

#[export] Instance engine_bus : GtBus engine := { gt_rd _ w := (0, w); gt_wr _ _ w := w }.
#[export] Instance engine_clients : GtClients engine := {
  cb_queue _ _ _ s := Ok (tt, s);
  isr_client _ _ s := Ok (tt, s);
}.

Lemma napi_sections_delivered_witness :
  exists ds q' w', avia_gt_napi_queue_callback_section 3 false [prepare_filter table_42] (tables_dmx, mk_engine 0 0)
      = Ok (ds, (put_q 3 q' tables_dmx, w')) /\
    map joined ds = [(9, long_42); (9, long_42)].
Proof.
  edestruct (napi_sections_delivered 3 tables_queue tables_dmx (mk_engine 0 0) false [prepare_filter table_42]
    [(2%nat, long_42); (0%nat, long_42)] [0x42; 0x70]) as (ds & q' & w' & E & _ & _ & Hd).
  - reflexivity.
  - reflexivity.
  - split; vm_compute; repeat split; discriminate.
  - by vm_compute.
  - intros p Hp. apply elem_of_cons in Hp as [->|Hp]; [|apply list_elem_of_singleton in Hp as ->];
      (split; [split|]; vm_compute; congruence).
  - right. split; [done|]. left. done.
  - done.
  - exists ds, q', w'. split; [exact E|]. rewrite (Hd [table_42]); [by vm_compute|done| |].
    + constructor; [|constructor]. intros b Hb _. do 8 (destruct b as [|b]; [done|]). lia.
    + intros p Hp. apply elem_of_cons in Hp as [->|Hp]; [|apply list_elem_of_singleton in Hp as ->]; done.
Defined.

(** ** A feed from memory that has no queue *)

(** While the memory front end is connected, starting a feed that does not
    go to a decoder does nothing and succeeds, so that the feed has no queue
    unless it had one before; stopping it then follows the pointer to its
    queue, for a debugging message only. *)
Theorem memory_feed_stop_faults {W} {B : GtBus W} {A : GtAccel W} {K : GtClients W} {P : NapiPeers W}
    f i junk chain filter0 (s : napi * (gtdmx * W)) :
  avia_gt_napi_is_clipmode_feed f = false -> napi_priv s.1 !! i = Some None ->
  avia_gt_napi_start_feed f i (Some DMX_MEMORY_FE) junk chain s = Ok ((0, f), s) /\
  avia_gt_napi_stop_feed f i (Some DMX_MEMORY_FE) filter0 s = Fault.
Proof.
  intros Hc Hp. unfold avia_gt_napi_start_feed, avia_gt_napi_stop_feed, nget. mrun. rewrite Hc. simpl.
  split; [done|]. unfold priv_queue, nget, mbind_, mgets. simpl. by rewrite Hp.
Qed.

#[export] Instance no_peers : NapiPeers Z := {
  decoder_start _ w := w;
  decoder_stop _ w := w;
  vbi_start w := w;
  vbi_stop w := w;
  audio_pts_to_stc _ w := (0, w);
  dvr_send := None;
}.
Definition fresh_napi : napi := mk_napi 0 false true (replicate 32 0xffff) (replicate 31 None).

Lemma memory_feed_stop_faults_witness :
  avia_gt_napi_stop_feed section_feed_zero 4 (Some DMX_MEMORY_FE) true (fresh_napi, (sync_dmx, 0)) = Fault.
Proof.
  apply (memory_feed_stop_faults section_feed_zero 4 no_junk [] true (fresh_napi, (sync_dmx, 0))); reflexivity.
Defined.

(** ** Packets for the software demultiplexer *)

Section Generic.
Context {W : Type} {B : GtBus W} {A : GtAccel W} {K : GtClients W}.

Lemma find_sync_run nr junk fuel lost q g (w : W) s :
  queue_list g !! Z.to_nat nr = Some q -> queue_ok (gt_mem g) q ->
  received (gt_mem g) q = junk ++ 0x47 :: s -> (forall x, x ∈ junk -> x <> 0x47) ->
  (length junk <= fuel)%nat ->
  exists p, find_sync fuel nr lost (lost + zlen (junk ++ 0x47 :: s)) (g, w)
      = Ok (tt, (put_q nr (set_read_pos p q) g, w)) /\
    queue_ok (gt_mem g) (set_read_pos p q) /\ received (gt_mem g) (set_read_pos p q) = 0x47 :: s.
Proof.
  induction junk as [|x junk IH] in fuel, lost, q, g |- *; intros Hq Hok Hr Hj Hf; pose proof (zlen_nonneg s).
  - simpl app in *. destruct (get8_run nr q g w true 0x47 s Hq Hok Hr) as (p & E & Hok' & Hr').
    exists p. split; [|done].
    destruct fuel; cbn [find_sync]; rewrite zlen_cons; replace (lost <? lost + (1 + zlen s)) with true by lia;
      by rewrite (mbind_Ok _ _ _ _ _ E).
  - destruct fuel as [|fuel]; [simpl in Hf; lia|]. cbn [app] in *. cbn [find_sync].
    set (r := junk ++ 0x47 :: s) in *. pose proof (zlen_nonneg r). rewrite zlen_cons.
    replace (lost <? lost + (1 + zlen r)) with true by lia.
    destruct (get8_run nr q g w true x r Hq Hok Hr) as (p1 & E1 & Hok1 & Hr1).
    rewrite (mbind_Ok _ _ _ _ _ E1). rewrite (proj2 (Z.eqb_neq x 0x47)) by (apply Hj; by left).
    set (q1 := set_read_pos p1 q) in *. set (g1 := put_q nr q1 g).
    assert (queue_list g1 !! Z.to_nat nr = Some q1) as Hq1 by (by eapply put_q_lookup).
    destruct (get_data_run nr q1 g1 w false 1 false Hq1 Hok1 ltac:(lia)) as (p2 & E2 & Hok2 & Hr2).
    rewrite (mbind_Ok _ _ _ _ _ E2). clear E2. unfold g1. rewrite put_q_put.
    change (gt_mem g1) with (gt_mem g) in *. rewrite Hr1, zlen_cons in Hr2.
    rewrite Z.min_l in Hr2 by lia. simpl in Hr2. rewrite drop_0 in Hr2.
    set (q2 := set_read_pos p2 q1) in *.
    destruct (IH fuel (lost + 1) q2 (put_q nr q2 g)) as (p & E & Hok' & Hr');
      [by eapply put_q_lookup|done|done|intros y Hy; apply Hj; by right|simpl in Hf; lia|].
    exists p. replace (lost + (1 + zlen r)) with (lost + 1 + zlen r) by lia. rewrite put_q_put in E. done.
Qed.

Lemma whole_packets_run nr n q g (w : W) :
  queue_list g !! Z.to_nat nr = Some q -> queue_ok (gt_mem g) q ->
  0 <= n <= zlen (received (gt_mem g) q) -> n <= buf1_size q ->
  exists p, whole_packets nr n (g, w)
      = Ok (take (Z.to_nat n) (received (gt_mem g) q), (put_q nr (set_read_pos p q) g, w)) /\
    queue_ok (gt_mem g) (set_read_pos p q) /\
    received (gt_mem g) (set_read_pos p q) = drop (Z.to_nat n) (received (gt_mem g) q).
Proof.
  intros Hq Hok Hn Hb. unfold whole_packets, q_get, gget. mrun. rewrite Hq. mrun.
  destruct (first_parts (gt_mem g) q n Hok Hn) as (a & b & Ea & Eb & Eab).
  rewrite Z.min_r in Ea by lia. replace (n <=? buf1_size q) with true in Eb by lia. subst b.
  rewrite app_nil_r in Eab. rewrite (mbind_Ok _ _ _ _ _ (chip_bytes_run _ _ g w a Ea)).
  destruct (get_data_run nr q g w false n false Hq Hok ltac:(lia)) as (p & E & Hok' & Hr').
  rewrite (mbind_Ok _ _ _ _ _ E). rewrite Z.min_l in Hr' by lia.
  exists p. by rewrite <- Eab.
Qed.

(** Data that ends in front of the write position is in one part. *)
Lemma buf1_no_wrap mem q :
  queue_ok mem q -> zlen (received mem q) <= write_pos q -> buf1_size q = zlen (received mem q).
Proof.
  intros Hok H. rewrite (received_zlen _ _ Hok), (bytes_avail_fill _ _ Hok) in *.
  pose proof Hok as []. unfold buf1_size, fill in *. case_lia.
Qed.

(** The packets in front of the end of the memory, and the one around it. *)
Lemma wrapped_packets_run nr q g (w : W) n c :
  queue_list g !! Z.to_nat nr = Some q -> queue_ok (gt_mem g) q ->
  c = buf1_size q - buf1_size q mod 188 ->
  0 <= n <= zlen (received (gt_mem g) q) -> n mod 188 = 0 -> buf1_size q < n ->
  exists ps p,
    (let! head := if negb (c =? 0) then let! s := whole_packets nr c in mret_ [s] else mret_ [] in
     let! r := dq_get_data nr true 188 false in
     mret_ (head ++ [r.2], n - c - 188)) (g, w)
      = Ok ((ps, n - c - 188), (put_q nr (set_read_pos p q) g, w)) /\
    queue_ok (gt_mem g) (set_read_pos p q) /\ c + 188 <= n /\
    concat ps = take (Z.to_nat (c + 188)) (received (gt_mem g) q) /\
    (forall s, s ∈ ps -> zlen s mod 188 = 0) /\
    received (gt_mem g) (set_read_pos p q) = drop (Z.to_nat (c + 188)) (received (gt_mem g) q) /\
    n - c - 188 <= buf1_size (set_read_pos p q).
Proof.
  intros Hq Hok Hc Hn Hn188 Hlt.
  assert (0 <= buf1_size q) as Hb0 by (destruct Hok; unfold buf1_size; case_lia).
  pose proof (Z.mod_pos_bound (buf1_size q) 188 ltac:(lia)) as Hmod.
  pose proof (Z.div_mod (buf1_size q) 188 ltac:(lia)). pose proof (Z.div_mod n 188 ltac:(lia)).
  assert (0 <= c <= buf1_size q /\ c mod 188 = 0 /\ c + 188 <= n) as (Hc1 & Hc188 & Hcn).
  { split; [lia|]. assert (c = 188 * (buf1_size q / 188)) as -> by lia. split; [|lia].
    rewrite Z.mul_comm. apply Z_mod_mult. }
  set (R := received (gt_mem g) q) in *.
  assert (exists p1 head, (if negb (c =? 0) then let! s := whole_packets nr c in mret_ [s] else mret_ []) (g, w)
    = Ok (head, (put_q nr (set_read_pos p1 q) g, w)) /\ queue_ok (gt_mem g) (set_read_pos p1 q) /\
    received (gt_mem g) (set_read_pos p1 q) = drop (Z.to_nat c) R /\
    concat head = take (Z.to_nat c) R /\ (forall s, s ∈ head -> zlen s mod 188 = 0))
    as (p1 & head & E1 & Hok1 & Hr1 & Hh & Hh188).
  { destruct (Z.eqb_spec c 0) as [->|]; cbn [negb].
    - exists (read_pos q), []. assert (set_read_pos (read_pos q) q = q) as -> by (by destruct q).
      assert (put_q nr q g = g) as -> by (unfold put_q; rewrite list_insert_id by done; by destruct g).
      split_and!; try done. intros s Hs. by apply not_elem_of_nil in Hs.
    - destruct (whole_packets_run nr c q g w Hq Hok ltac:(fold R; lia) ltac:(lia)) as (p1 & E & Hok1 & Hr1).
      fold R in E, Hr1. exists p1, [take (Z.to_nat c) R]. rewrite (mbind_Ok _ _ _ _ _ E). split_and!; try done.
      + simpl. by rewrite app_nil_r.
      + intros s ->%list_elem_of_singleton. by rewrite zlen_takeZ by lia. }
  rewrite (mbind_Ok _ _ _ _ _ E1). set (q1 := set_read_pos p1 q) in *. set (g1 := put_q nr q1 g).
  assert (queue_list g1 !! Z.to_nat nr = Some q1) as Hq1 by (by eapply put_q_lookup).
  destruct (get_data_run nr q1 g1 w true 188 false Hq1 Hok1 ltac:(lia)) as (p & E2 & Hok' & Hr').
  rewrite (mbind_Ok _ _ _ _ _ E2). cbn [snd].
  change (gt_mem g1) with (gt_mem g) in *. rewrite Hr1 in *. unfold g1. rewrite put_q_put.
  assert (zlen (drop (Z.to_nat c) R) = zlen R - c) as Hdl by (apply zlen_dropZ; lia).
  rewrite (Z.min_l 188) in * by lia.
  eexists _, p. split; [reflexivity|]. split; [done|]. split; [done|].
  replace (Z.to_nat (c + 188)) with (Z.to_nat c + Z.to_nat 188)%nat by lia.
  assert (received (gt_mem g) (set_read_pos p q) = drop (Z.to_nat c + Z.to_nat 188) R) as Hr2
    by (rewrite <- drop_drop; exact Hr').
  split; [|split; [|split]].
  - rewrite concat_app, Hh. cbn [concat]. rewrite app_nil_r. by rewrite take_take_drop.
  - intros s [Hs|Hs]%elem_of_app; [by apply Hh188|]. apply list_elem_of_singleton in Hs as ->.
    rewrite zlen_takeZ by lia. done.
  - exact Hr2.
  - assert (zlen (received (gt_mem g) (set_read_pos p q)) = zlen R - c - 188) as Hz.
    { rewrite Hr2, <- Z2Nat.inj_add by lia. rewrite zlen_dropZ by lia. lia. }
    rewrite (buf1_no_wrap (gt_mem g)); [lia|exact Hok'|]. rewrite Hz. cbn [write_pos set_read_pos].
    unfold R in Hn. unfold R. rewrite (received_zlen _ _ Hok) in *.
    unfold bytes_avail, u32 in *. pose proof Hok as []. unfold buf1_size, buf2_size in *.
    destruct (Z.geb_spec (write_pos q) (read_pos q)); rewrite Z.mod_small in * by lia; lia.
Qed.

(** Cutting [n] bytes into runs of whole packets. *)
Lemma packets_of_run nr n q g (w : W) :
  queue_list g !! Z.to_nat nr = Some q -> queue_ok (gt_mem g) q ->
  188 <= n <= zlen (received (gt_mem g) q) -> n mod 188 = 0 ->
  exists pieces p, packets_of nr n (g, w) = Ok (pieces, (put_q nr (set_read_pos p q) g, w)) /\
    concat pieces = take (Z.to_nat n) (received (gt_mem g) q) /\
    (forall s, s ∈ pieces -> zlen s mod 188 = 0) /\
    received (gt_mem g) (set_read_pos p q) = drop (Z.to_nat n) (received (gt_mem g) q).
Proof.
  intros Hq Hok Hn Hn188. unfold packets_of, q_get, gget. mrun. rewrite Hq. mrun.
  set (r := received (gt_mem g) q) in *.
  destruct (Z.gtb_spec n (buf1_size q)) as [Hlt|Hge].
  - set (c := buf1_size q - buf1_size q mod 188).
    destruct (wrapped_packets_run nr q g w n c Hq Hok eq_refl ltac:(fold r; lia) Hn188 ltac:(lia))
      as (ps & p1 & E1 & Hok1 & Hcn & Hps & Hps188 & Hr1 & Hb1).
    fold r in Hps, Hr1. rewrite (mbind_Ok _ _ _ _ _ E1). cbn [fst snd].
    set (q1 := set_read_pos p1 q) in *.
    assert (queue_list (put_q nr q1 g) !! Z.to_nat nr = Some q1) as Hq1 by (by eapply put_q_lookup).
    assert (0 <= c) by (unfold c; assert (0 <= buf1_size q) by (destruct Hok; unfold buf1_size; case_lia);
      pose proof (Z.mod_le (buf1_size q) 188); lia).
    assert (zlen (drop (Z.to_nat (c + 188)) r) = zlen r - (c + 188)) as Hdl by (apply zlen_dropZ; lia).
    destruct (Z.eqb_spec (n - c - 188) 0) as [E|E]; cbn [negb].
    + exists ps, p1. mrun. replace (c + 188) with n in * by lia. split; [by rewrite app_nil_r|done].
    + destruct (whole_packets_run nr (n - c - 188) q1 (put_q nr q1 g) w Hq1 Hok1) as (p2 & E2 & _ & Hr2);
        [change (gt_mem (put_q nr q1 g)) with (gt_mem g); rewrite Hr1; lia|lia|].
      change (gt_mem (put_q nr q1 g)) with (gt_mem g) in *. rewrite Hr1 in *.
      mrun. rewrite (mbind_Ok _ _ _ _ _ E2). rewrite put_q_put. eexists _, p2. split; [reflexivity|].
      replace (Z.to_nat n) with (Z.to_nat (c + 188) + Z.to_nat (n - c - 188))%nat by lia.
      split; [|split].
      * rewrite concat_app, Hps. cbn [fst concat]. rewrite app_nil_r. by rewrite take_take_drop.
      * cbn [fst]. intros p [Hp|Hp]%elem_of_app; [by apply Hps188|]. apply list_elem_of_singleton in Hp as ->.
        rewrite zlen_takeZ by lia. replace (n - c - 188) with (n - (c + 188)) by lia.
        rewrite Zminus_mod, Hn188. unfold c.
        replace (buf1_size q - buf1_size q mod 188 + 188) with ((buf1_size q / 188 + 1) * 188)
          by (pose proof (Z.div_mod (buf1_size q) 188 ltac:(lia)); lia).
        by rewrite Z_mod_mult.
      * etransitivity; [exact Hr2|]. by rewrite drop_drop.
  - mrun. cbn [fst snd]. rewrite (proj2 (Z.eqb_neq n 0)) by lia. cbn [negb].
    destruct (whole_packets_run nr n q g w Hq Hok) as (p2 & E2 & _ & Hr2); [fold r; lia|lia|].
    mrun. rewrite (mbind_Ok _ _ _ _ _ E2). eexists _, p2. split; [reflexivity|].
    split; [simpl; by rewrite app_nil_r|]. split; [|exact Hr2].
    intros p Hp. apply list_elem_of_singleton in Hp as ->. by rewrite zlen_takeZ by (fold r; lia).
Qed.

End Generic.

(** The callback for feeds the core filters in software.  If the waiting
    bytes (188 at least) are bytes without a sync byte and then [r], which
    starts with one, the packets handed to the software demultiplexer are, put
    together, the longest prefix of [r] that is made of whole packets; every
    piece is made of whole packets too, also where a packet lies around the
    end of the queue's memory; the rest of [r] stays in the queue, and
    everything does if [r] is shorter than a packet. *)
Theorem napi_generic_packets {W} {B : GtBus W} {A : GtAccel W} {K : GtClients W} nr q g (w : W) junk s :
  queue_list g !! Z.to_nat nr = Some q -> queue_ok (gt_mem g) q ->
  received (gt_mem g) q = junk ++ 0x47 :: s -> (forall x, x ∈ junk -> x <> 0x47) ->
  188 <= zlen (junk ++ 0x47 :: s) ->
  let r := 0x47 :: s in
  let n := 188 * (zlen r / 188) in
  exists pieces q', avia_gt_napi_queue_callback_generic nr (g, w) = Ok (pieces, (put_q nr q' g, w)) /\
    concat pieces = take (Z.to_nat n) r /\ (forall p, p ∈ pieces -> zlen p mod 188 = 0) /\
    received (gt_mem g) q' = drop (Z.to_nat n) r.
Proof.
  intros Hq Hok Hr Hj Hlen r n. unfold avia_gt_napi_queue_callback_generic, dq_bytes_avail, q_get, gget.
  mrun. rewrite Hq. mrun. rewrite <- (received_zlen _ _ Hok), Hr.
  replace (zlen (junk ++ 0x47 :: s) <? 188) with false by lia. mrun.
  destruct (find_sync_run nr junk (Z.to_nat (zlen (junk ++ 0x47 :: s))) 0 q g w s Hq Hok Hr Hj ltac:(zl))
    as (p0 & E0 & Hok0 & Hr0).
  rewrite Z.add_0_l in E0. rewrite (mbind_Ok _ _ _ _ _ E0). fold r in Hr0.
  set (q0 := set_read_pos p0 q) in *. set (g0 := put_q nr q0 g).
  assert (queue_list g0 !! Z.to_nat nr = Some q0) as Hq0 by (by eapply put_q_lookup).
  mrun. rewrite Hq0. mrun. rewrite <- (received_zlen _ _ Hok0), Hr0. fold g0.
  pose proof (Z.div_mod (zlen r) 188 ltac:(lia)). pose proof (Z.mod_pos_bound (zlen r) 188 ltac:(lia)).
  assert (0 < zlen r) by (unfold r; rewrite zlen_cons; pose proof (zlen_nonneg s); lia).
  case_if.
  { exists [], q0. assert (n = 0) as ->. { unfold n. rewrite Z.div_small by lia. lia. }
    split; [done|]. split; [done|]. split; [|by rewrite drop_0]. intros p Hp. by apply not_elem_of_nil in Hp. }
  replace (zlen r - zlen r mod 188) with n by lia.
  destruct (packets_of_run nr n q0 g0 w Hq0 Hok0) as (ps & p & E & Hps & Hps188 & Hr1).
  - change (gt_mem g0) with (gt_mem g). rewrite Hr0. lia.
  - unfold n. rewrite Z.mul_comm. apply Z_mod_mult.
  - exists ps, (set_read_pos p q0). change (gt_mem g0) with (gt_mem g) in *. rewrite Hr0 in *.
    unfold g0 in E. by rewrite put_q_put in E.
Qed.

Lemma napi_generic_packets_witness :
  let q := set_write_pos 201 sync_queue in
  let g := put_q 3 q sync_dmx in
  exists pieces q', avia_gt_napi_queue_callback_generic 3 (g, 0) = Ok (pieces, (put_q 3 q' g, 0)) /\
    zlen (concat pieces) = 188 /\ received sync_mem q' = replicate 3 0xaa.
Proof.
  intros q g.
  destruct (napi_generic_packets 3 q g 0 [] ([0x47; 0x01] ++ sync_packet)) as (ps & q' & E & Hc & _ & Hr);
    try reflexivity.
  - split; vm_compute; repeat split; discriminate.
  - intros x Hx. by apply not_elem_of_nil in Hx.
  - vm_compute. discriminate.
  - exists ps, q'. split; [exact E|]. split; [rewrite Hc; by vm_compute|exact Hr].
Defined.
