(* ===== verification/AviaIrq.v ===== *)
(** * The interrupt handler keeps the queues well formed (avia_gt_core.c, avia_gt_dmx.c)

    Whatever the chip's registers contain, the interrupt handler returns, and
    the positions of every queue stay inside its memory. *)

From S2P Require Import Prelude DemuxState AviaFilter AviaUcode AviaQueue AviaQueueSpec AviaGt AviaAccel AviaPcr AviaDmx AviaDmxSpec AviaTask.

(** The queues lie in the chip's memory and their positions in the queues; no
    queue has a handler that runs in the interrupt. *)
Record q_fine (mem : list Z) (q : sAviaGtDmxQueue) : Prop := {
  qn_ok : queue_ok mem q;
  qn_hw : 0 <= hw_write_pos q < qsize q;
  qn_irq : irq_proc q = None;
}.

(** [sizes]: the sizes of the queues, which do not change. *)
Record queues_fine (chip : gt_chip) (sizes : list Z) (g : gtdmx) : Prop := {
  qf_chip : chip_type g = chip;
  qf_length : length (queue_list g) = 32%nat;
  qf_sizes : map qsize (queue_list g) = sizes;
  qf_queue : forall q, q ∈ queue_list g -> q_fine (gt_mem g) q;
}.

Section Irq.
Context {W : Type} {B : GtBus W} {R : GtRegisters W} {A : GtAccel W} {K : GtClients W}.
Context (chip : gt_chip) (sizes : list Z).
Abbreviation GM := (M (gtdmx * W)).

Definition size_of (nr : Z) : Z := at_ sizes nr.

(** Changes of queue [nr] that keep it fine. *)
Definition keeps_q (nr : Z) (f : sAviaGtDmxQueue -> sAviaGtDmxQueue) : Prop :=
  forall mem q, qsize q = size_of nr -> q_fine mem q -> q_fine mem (f q) /\ qsize (f q) = qsize q.

Lemma queues_fine_lookup g nr : queues_fine chip sizes g -> 0 <= nr < 32 ->
  exists q, queue_list g !! Z.to_nat nr = Some q /\ q_fine (gt_mem g) q /\ qsize q = size_of nr.
Proof.
  intros [Hc Hl Hs Hq] Hnr. destruct (lookup_lt_is_Some_2 (queue_list g) (Z.to_nat nr)) as [q E]; [lia|].
  exists q. split; [done|]. split; [by eapply Hq, list_elem_of_lookup_2|].
  unfold size_of, at_. rewrite <- Hs. symmetry. apply nth_lookup_Some. by apply list_lookup_fmap_Some_2.
Qed.

Lemma queues_fine_put g nr f q : queues_fine chip sizes g -> 0 <= nr < 32 ->
  queue_list g !! Z.to_nat nr = Some q -> keeps_q nr f -> queues_fine chip sizes (put_q nr (f q) g).
Proof.
  intros Hg Hnr Eq Hf. destruct (queues_fine_lookup g nr Hg Hnr) as (q0 & Eq0 & Hq0 & Hs0). simplify_eq.
  destruct (Hf (gt_mem g) q Hs0 Hq0) as [Hq' Hs']. destruct Hg as [Hc Hl Hs Hq]. split; [done|..].
  - unfold put_q. simpl. by rewrite length_insert.
  - unfold put_q. simpl. rewrite <- Hs. change (map qsize) with (fmap (M := list) qsize).
    rewrite list_fmap_insert, Hs'. apply list_insert_id. by rewrite list_lookup_fmap, Eq.
  - intros q' (i & H)%list_elem_of_lookup_1. unfold put_q in H. simpl in H.
    apply list_lookup_insert_Some in H as [(_ & <- & _)|(_ & H)]; [done|].
    by eapply Hq, list_elem_of_lookup_2.
Qed.

(** [m] returns from every fine state, in one, with a result in [Q]. *)
Definition fine {X} (m : GM X) (Q : X -> Prop) : Prop :=
  forall g w, queues_fine chip sizes g ->
    exists x g' w', m (g, w) = Ok (x, (g', w')) /\ queues_fine chip sizes g' /\ Q x.

Lemma fine_bind {X Y} (m : GM X) (k : X -> GM Y) Q Q' :
  fine m Q -> (forall x, Q x -> fine (k x) Q') -> fine (mbind_ m k) Q'.
Proof.
  intros Hm Hk g w Hg. destruct (Hm g w Hg) as (x & g1 & w1 & E & H1 & Hx).
  rewrite (mbind_Ok _ _ _ _ _ E). by apply Hk.
Qed.

Lemma fine_seq {X Y} (m : GM X) (k : GM Y) Q Q' : fine m Q -> fine k Q' -> fine (m ;;; k) Q'.
Proof. intros Hm Hk. by eapply fine_bind. Qed.

Lemma fine_ret {X} (x : X) (Q : X -> Prop) : Q x -> fine (mret_ x) Q.
Proof. intros H g w Hg. by exists x, g, w. Qed.

Lemma fine_write r v : fine (reg_write r v) (fun _ => True).
Proof. intros g w Hg. by eexists _, _, _. Qed.

Lemma fine_read r : fine (reg_read r) (fun _ => True).
Proof. intros g w Hg. by eexists _, _, _. Qed.

(** Changes that leave the queues alone. *)
Lemma fine_gmod f :
  (forall g, chip_type (f g) = chip_type g /\ queue_list (f g) = queue_list g /\ gt_mem (f g) = gt_mem g) -> fine (gmod f) (fun _ => True).
Proof.
  intros Hf g w [Hc Hl Hs Hq]. eexists tt, (f g), w. destruct (Hf g) as (E1 & E2 & E3).
  split_and!; [done| |done]. split; rewrite ?E1, ?E2, ?E3; done.
Qed.

Lemma fine_gget {X} (k : gtdmx -> GM X) Q :
  (forall g, queues_fine chip sizes g -> fine (k g) Q) -> fine (let! g := gget in k g) Q.
Proof. intros H g w Hg. unfold gget. mrun. by apply H. Qed.

Lemma fine_q_mod nr f : 0 <= nr < 32 -> keeps_q nr f -> fine (q_mod nr f) (fun _ => True).
Proof.
  intros Hnr Hf g w Hg. destruct (queues_fine_lookup g nr Hg Hnr) as (q & Eq & _ & _).
  exists tt, (put_q nr (f q) g), w. rewrite (q_mod_run nr f q g w Eq).
  split_and!; [done| |done]. by apply queues_fine_put.
Qed.

Lemma fine_q_get {X} nr (k : sAviaGtDmxQueue -> GM X) Q :
  0 <= nr < 32 -> (forall mem q, q_fine mem q -> qsize q = size_of nr -> fine (k q) Q) ->
  fine (let! q := q_get nr in k q) Q.
Proof.
  intros Hnr Hk g w Hg. destruct (queues_fine_lookup g nr Hg Hnr) as (q & Eq & Hq & Hs).
  unfold q_get, gget. mrun. rewrite Eq. mrun. by apply (Hk _ q Hq Hs).
Qed.

(** ** Positions *)

Lemma keeps_reset nr :
  keeps_q nr (fun q => set_hw_read_pos 0 (set_hw_write_pos 0 (set_read_pos 0 (set_write_pos 0 q)))).
Proof. intros mem q Hs [[] Hh Hi]. split; [|done]. split; [split|simpl|]; simpl; try lia; done. Qed.

Lemma fine_map_queue nr : fine (avia_gt_dmx_map_queue nr) (fun _ => True).
Proof. eapply fine_seq; [apply fine_write|by apply fine_ret]. Qed.

Lemma fine_set_write_pos nr p : 0 <= nr < 32 -> fine (avia_gt_dmx_queue_set_write_pos nr p) (fun _ => True).
Proof.
  intros Hnr. unfold avia_gt_dmx_queue_set_write_pos. case_if; [by apply fine_ret|].
  apply fine_q_get; [done|]. intros ? ? _ _. eapply fine_bind; [apply fine_map_queue|]. intros k _.
  apply fine_gget. intros g _. eapply fine_seq; apply fine_write.
Qed.

Lemma fine_set_queue_irq nr qim block : fine (avia_gt_dmx_set_queue_irq nr qim block) (fun _ => True).
Proof. eapply fine_bind; [apply fine_map_queue|]. intros k _. apply fine_write. Qed.

(** A register that is read twice has not changed. *)
Lemma fine_read_qwp k : fine (read_stable hw_fuel (read_qwp k) 0xFFFFFFFF) (fun _ => True).
Proof.
  intros g w Hg. assert (exists v, read_qwp k (g, w) = Ok (v, (g, w))) as [v Hv].
  { unfold read_qwp, reg_read, mbind_. cbn [fst snd res_bind]. rewrite !gt_rd_cell. cbn [fst snd res_bind].
    by eexists. }
  exists v, g, w. split; [|done]. unfold hw_fuel. change 1000%nat with (S (S 998)). cbn [read_stable].
  rewrite (mbind_Ok _ _ _ _ _ Hv). case_if; [done|]. rewrite (mbind_Ok _ _ _ _ _ Hv). by rewrite Z.eqb_refl.
Qed.

Lemma fine_get_write_pos nr :
  0 <= nr < 32 -> fine (avia_gt_dmx_queue_get_write_pos nr) (fun p => 0 <= p < size_of nr).
Proof.
  intros Hnr. unfold avia_gt_dmx_queue_get_write_pos, q_count_ok.
  replace (nr <? AVIA_GT_DMX_QUEUE_COUNT) with true by (unfold AVIA_GT_DMX_QUEUE_COUNT; lia).
  cbn [negb]. apply fine_q_get; [done|]. intros mem q [[] Hh Hi] Hs.
  eapply fine_bind; [apply fine_map_queue|]. intros k _.
  eapply fine_bind; [apply fine_read_qwp|]. intros p _. case_if.
  - eapply fine_seq; [by apply fine_q_mod, keeps_reset|].
    eapply fine_seq; [by apply fine_set_write_pos|]. apply fine_ret. lia.
  - apply fine_ret. lia.
Qed.

Lemma fine_qim_update nr : 0 <= nr < 32 -> fine (avia_gt_dmx_queue_qim_mode_update nr) (fun _ => True).
Proof.
  intros Hnr. apply fine_q_get; [done|]. intros ? q [[] _ _] _.
  unfold qim_block, rnd_div. rewrite (proj2 (Z.eqb_neq (qsize q) 0)) by lia.
  intros g w Hg. mrun. by apply fine_set_queue_irq.
Qed.

(** Fields that the positions do not depend on. *)
Ltac keeps := intros ? ? ? [[] ? ?]; (split; [split; [split|..]|]); simpl in *; done || lia.

Lemma fine_irq_load nr : 0 <= nr < 32 -> fine (queue_irq_load nr) (fun _ => True).
Proof.
  intros Hnr. apply fine_q_get; [done|]. intros ? ? _ _. case_if; [|by apply fine_qim_update].
  eapply fine_seq; [apply fine_q_mod; [done|keeps]|]. apply fine_gget. intros g _.
  case_if; [|by apply fine_ret]. eapply fine_seq.
  - instantiate (1 := fun _ => True). case_if; [|by apply fine_ret].
    eapply fine_seq; [apply fine_q_mod; [done|keeps]|by apply fine_qim_update].
  - apply fine_q_mod; [done|keeps].
Qed.

Lemma fine_queue_irq irq : fine (avia_gt_dmx_queue_irq irq) (fun _ => True).
Proof.
  apply fine_gget. intros g _. set (nr := irq_queue (chip_type g) irq). case_if; [by apply fine_ret|].
  unfold q_count_ok, AVIA_GT_DMX_QUEUE_COUNT in Ec.
  assert (0 <= nr < 32) as Hnr.
  { split; [|lia]. unfold nr, irq_queue, u8, AVIA_GT_DMX_QUEUE_COUNT.
    destruct (chip_type g); repeat case_if; try lia; apply Z.mod_pos_bound; lia. }
  apply fine_q_get; [done|]. intros ? ? _ _. case_if; [by apply fine_ret|].
  eapply fine_seq; [apply fine_q_mod; [done|keeps]|].
  eapply fine_bind; [by apply fine_get_write_pos|]. intros p Hp.
  eapply fine_seq; [apply fine_q_mod; [done|keeps]|].
  eapply fine_seq; [by apply fine_irq_load|].
  apply fine_q_get; [done|]. intros ? q' [Hok Hh Hi] _. eapply fine_seq.
  - instantiate (1 := fun _ => True). case_if; [|by apply fine_ret]. apply fine_q_mod; [done|keeps].
  - rewrite Hi. destruct (cb_proc q'); [|by apply fine_ret].
    apply fine_gmod. intros g'. by case_decide.
Qed.

(** ** The other interrupts *)

Lemma fine_clock r : fine (clock_read r) (fun _ => True).
Proof.
  do 3 (eapply fine_bind; [apply fine_read|]; intros ? _). by apply fine_ret.
Qed.

Lemma fine_discontinuity : fine avia_gt_dmx_force_discontinuity (fun _ => True).
Proof. eapply fine_seq; [by apply fine_gmod|apply fine_write]. Qed.

Lemma fine_pcr_irq : fine avia_gt_pcr_irq (fun _ => True).
Proof.
  eapply fine_bind; [apply fine_clock|]. intros pcr _. apply fine_gget. intros g _. case_if.
  - eapply fine_bind; [apply fine_clock|]. intros stc _.
    do 2 (eapply fine_seq; [apply fine_write|]). by apply fine_gmod.
  - case_if; [apply fine_discontinuity|].
    eapply fine_bind; [apply fine_clock|]. intros lstc _.
    eapply fine_seq; [by apply fine_gmod|]. case_if; [apply fine_discontinuity|].
    destruct (adjust _ _ _) as [[]|]; [|by apply fine_ret].
    eapply fine_seq; [by apply fine_gmod|apply fine_write].
Qed.

(** The registers the chip has. *)
Lemma fine_clear_irq r b : irq_register chip r = true -> fine (avia_gt_clear_irq r b) (fun _ => True).
Proof.
  intros Hr. apply fine_gget. intros g Hg. rewrite (qf_chip _ _ _ Hg), Hr. cbn [negb]. destruct chip.
  - apply fine_write.
  - eapply fine_bind; [apply fine_read|]. intros v _. apply fine_write.
Qed.

Lemma fine_mask_irq r b : irq_register chip r = true -> fine (avia_gt_mask_irq r b) (fun _ => True).
Proof.
  intros Hr. apply fine_gget. intros g Hg. rewrite (qf_chip _ _ _ Hg), Hr. cbn [negb]. destruct chip.
  - apply fine_write.
  - eapply fine_bind; [apply fine_read|]. intros v _. apply fine_write.
Qed.

Lemma fine_get_mask r : fine (avia_gt_get_irq_mask r) (fun _ => True).
Proof. apply fine_gget. intros g _. case_if; [apply fine_read|by apply fine_ret]. Qed.

(** No interrupt is pending in a register the chip does not have. *)
Lemma fine_get_status r : fine (avia_gt_get_irq_status r) (fun v => irq_register chip r = true \/ v = 0).
Proof.
  apply fine_gget. intros g Hg. rewrite (qf_chip _ _ _ Hg). case_if; [|by apply fine_ret; right].
  intros g' w' Hg'. destruct (fine_read (ISR r) g' w' Hg') as (v & g1 & w1 & E & H1 & _).
  exists v, g1, w1. auto.
Qed.

(** The handlers of the other drivers do not touch the queues. *)
Context (Hclients : forall n irq, fine (isr_client n irq) (fun _ => True)).

Lemma fine_isr_call p irq : fine (isr_call p irq) (fun _ => True).
Proof. destruct p; [apply fine_queue_irq|apply fine_pcr_irq|apply Hclients]. Qed.

Lemma fine_irq_bits bits r mask status : irq_register chip r = true \/ status = 0 ->
  fine (irq_bits bits r mask status) (fun _ => True).
Proof.
  intros Hr. induction bits as [|b bits IH]; cbn [irq_bits]; [by apply fine_ret|].
  eapply fine_seq; [|exact IH]. instantiate (1 := fun _ => True).
  destruct (Z.testbit status b) eqn:Eb; [|by apply fine_ret].
  destruct Hr as [Hr|Hr]; [|by rewrite Hr, Z.bits_0 in Eb].
  apply fine_gget. intros g _. eapply fine_seq; [|by apply fine_clear_irq].
  instantiate (1 := fun _ => True). destruct (isr_at _ _); [apply fine_isr_call|].
  case_if; [by apply fine_mask_irq|by apply fine_ret].
Qed.

Lemma fine_irq_regs regs : fine (irq_regs regs) (fun _ => True).
Proof.
  induction regs as [|r regs IH]; cbn [irq_regs]; [by apply fine_ret|].
  eapply fine_bind; [apply fine_get_mask|]. intros mask _.
  eapply fine_bind; [apply fine_get_status|]. intros status Hs.
  eapply fine_seq; [by apply fine_irq_bits|exact IH].
Qed.
End Irq.

(** C13: the interrupt handler returns whatever the status, mask and position
    registers contain, and the queues are well formed after it if they were
    before: their sizes are the same, their memory lies in the chip's and the
    three positions of each lie in its memory.  The handlers of other drivers
    are assumed not to touch the queues. *)
Theorem avia_gt_irq_keeps_queues {W : Type} {B : GtBus W} {R : GtRegisters W} {K : GtClients W}
    chip sizes g (w : W) :
  (forall n irq, fine chip sizes (isr_client n irq) (fun _ => True)) ->
  queues_fine chip sizes g ->
  exists g' w', avia_gt_irq (g, w) = Ok (tt, (g', w')) /\ queues_fine chip sizes g'.
Proof.
  intros Hk Hg. destruct (fine_irq_regs chip sizes Hk (seqZ 0 6) g w Hg) as ([] & g' & w' & E & Hg' & _).
  by exists g', w'.
Qed.

(** All 32 queues of the example have 16 bytes; the register that says which
    queues wait is full of ones. *)
Definition quiet_dmx : gtdmx :=
  mk_gtdmx ENX (replicate 64 0) (replicate 32 (set_qsize 16 (set_hw_write_pos 3 zero_queue))) [-1; -1; -1]
    queue_sizes false 0 0 0 0 (replicate 128 (Some ISR_dmx_queue)) [] 0 empty_risc None.
Definition all_ones : regfile := fun _ _ => 0xffff.

Lemma avia_gt_irq_keeps_queues_witness :
  exists g' w', avia_gt_irq (quiet_dmx, all_ones) = Ok (tt, (g', w')) /\ queues_fine ENX (replicate 32 16) g'.
Proof.
  apply avia_gt_irq_keeps_queues.
  - intros n irq g w Hg. by exists tt, g, w.
  - split; [done..|]. intros q [-> _]%elem_of_replicate.
    split; [split|..]; done || (vm_compute; repeat split; discriminate).
Defined.
