(* ===== verification/DvbDev.v ===== *)
(** * DVB adapters and device files (dvb-core/dvbdev.c, dvb_functions.c)

    An adapter is a card; each of its devices (front end, demux, dvr, ca, net,
    ...) has a number and through it the minor number of a device file.  This
    file models the registry of adapters and devices, the opening and closing
    that all devices share, and the copying of ioctl arguments.

    A pointer to an adapter or a device is a number that is never used again.
    The branches for Linux 2.4 without [CONFIG_DVB_DEVFS_ONLY] are modelled;
    the devfs entries, which only give the device files names, are not. *)

From S2P Require Import Prelude.

Definition DVB_DEVICE_VIDEO := 0.
Definition DVB_DEVICE_AUDIO := 1.
Definition DVB_DEVICE_SEC := 2.
Definition DVB_DEVICE_FRONTEND := 3.
Definition DVB_DEVICE_DEMUX := 4.
Definition DVB_DEVICE_DVR := 5.
Definition DVB_DEVICE_CA := 6.
Definition DVB_DEVICE_NET := 7.
Definition DVB_DEVICE_OSD := 8.

Definition DVB_MAX_IDS : Z := 4.
Definition nums2minor (num type id : Z) : Z :=
  Z.lor (Z.lor (Z.shiftl num 6) (Z.shiftl id 4)) type.

Record dvb_device := mk_dvb_device {
  dev_ptr : Z;
  dev_type : Z;
  dev_id : Z;
  readers : Z;
  writers : Z;
  users : Z;
  dev_fops : bool;        (* has file operations *)
  kernel_ioctl : bool;    (* has an ioctl *)
  dev_priv : Z;
}.
#[export] Instance dvb_device_eta : Eta dvb_device := fun r =>
  mk_dvb_device (dev_ptr r) (dev_type r) (dev_id r) (readers r) (writers r) (users r) (dev_fops r)
    (kernel_ioctl r) (dev_priv r).
#[export] Instance dvb_device_eq_dec : EqDecision dvb_device.
Proof. solve_decision. Defined.
Definition set_dev_ptr := setter! dev_ptr.
Definition set_dev_type := setter! dev_type.
Definition set_dev_id := setter! dev_id.
Definition set_readers := setter! readers.
Definition set_writers := setter! writers.
Definition set_users := setter! users.
Definition set_dev_priv := setter! dev_priv.

Record dvb_adapter := mk_dvb_adapter {
  ad_ptr : Z;
  ad_num : Z;
  device_list : list dvb_device;
}.
#[export] Instance dvb_adapter_eta : Eta dvb_adapter := fun r =>
  mk_dvb_adapter (ad_ptr r) (ad_num r) (device_list r).
Definition set_device_list := setter! device_list.

(** [next_ptr]: the next pointer [kmalloc] gives. *)
Record dvbdev := mk_dvbdev {
  dvb_adapter_list : list dvb_adapter;
  dvbdev_register_lock : bool;
  next_ptr : Z;
}.
#[export] Instance dvbdev_eta : Eta dvbdev := fun r =>
  mk_dvbdev (dvb_adapter_list r) (dvbdev_register_lock r) (next_ptr r).
Definition set_dvb_adapter_list := setter! dvb_adapter_list.
Definition set_dvbdev_register_lock := setter! dvbdev_register_lock.
Definition set_next_ptr := setter! next_ptr.

(** ** Opening and closing

    [readers], [writers] and [users] count how many more may open the device. *)

Definition dvb_generic_open (rdonly : bool) (d : dvb_device) : Z * dvb_device :=
  if users d =? 0 then (- EBUSY, d)
  else if rdonly then
    if readers d =? 0 then (- EBUSY, d)
    else (0, set_users (s32 (users d - 1)) (set_readers (s32 (readers d - 1)) d))
  else
    if writers d =? 0 then (- EBUSY, d)
    else (0, set_users (s32 (users d - 1)) (set_writers (s32 (writers d - 1)) d)).

Definition dvb_generic_release (rdonly : bool) (d : dvb_device) : Z * dvb_device :=
  (0, set_users (s32 (users d + 1))
        (if rdonly then set_readers (s32 (readers d + 1)) d else set_writers (s32 (writers d + 1)) d)).

(** ** Arguments of ioctls

    The direction and the size are parts of the command.  [user] is the user's
    memory at [arg], of that size; what it holds afterwards is returned.
    [alloc]: [kmalloc] finds memory; [from], [to]: the user's memory can be
    read, written. *)

Inductive ioc_dir := IOC_NONE | IOC_READ | IOC_WRITE | IOC_READ_WRITE.

Inductive ioctl_arg :=
| ArgValue (arg : Z)           (* the argument itself *)
| ArgCopy (buf : list Z).      (* a copy of what it points to *)

Definition ioc_reads (dir : ioc_dir) : bool :=
  match dir with IOC_READ | IOC_READ_WRITE => true | _ => false end.

Definition dvb_usercopy {S} (dir : ioc_dir) (size arg : Z) (user : list Z) (alloc from to : bool)
    (func : ioctl_arg -> M S (Z * list Z)) : M S (Z * list Z) :=
  match dir with
  | IOC_NONE =>
      let! r := func (ArgValue arg) in
      mret_ (if r.1 =? - ENOIOCTLCMD then - EINVAL else r.1, user)
  | _ =>
      if (size >? 128) && negb alloc then mret_ (- ENOMEM, user)
      else if negb from then mret_ (- EFAULT, user)
      else
        let! r := func (ArgCopy user) in
        let err := if r.1 =? - ENOIOCTLCMD then - EINVAL else r.1 in
        if err <? 0 then mret_ (err, user)
        else if ioc_reads dir then (if to then mret_ (err, r.2) else mret_ (- EFAULT, user))
        else mret_ (err, user)
  end.

Definition dvb_generic_ioctl {S} (d : dvb_device) (dir : ioc_dir) (size arg : Z) (user : list Z)
    (alloc from to : bool) (func : ioctl_arg -> M S (Z * list Z)) : M S (Z * list Z) :=
  if negb (kernel_ioctl d) then mret_ (- EINVAL, user)
  else dvb_usercopy dir size arg user alloc from to func.

(** ** The registry *)

Abbreviation DM := (M dvbdev).

(** [signal]: a signal is pending.  True: the wait was interrupted. *)
Definition down_register (signal : bool) : DM bool :=
  fun s => if dvbdev_register_lock s then (if signal then Ok (true, s) else Block)
           else Ok (false, set_dvbdev_register_lock true s).
Definition up_register : DM unit := mmodify (set_dvbdev_register_lock false).

Definition find_in (num minor : Z) (l : list dvb_device) : option dvb_device :=
  find (fun d => nums2minor num (dev_type d) (dev_id d) =? minor) l.

Fixpoint dvbdev_find_device (l : list dvb_adapter) (minor : Z) : option dvb_device :=
  match l with
  | [] => None
  | a :: l =>
      match find_in (ad_num a) minor (device_list a) with
      | Some d => Some d
      | None => dvbdev_find_device l minor
      end
  end.

(** [open]: the device's own function.  The device is changed in place, and the
    file gets its file operations if that succeeds. *)
Definition upd_device (d : dvb_device) (a : dvb_adapter) : dvb_adapter :=
  set_device_list (map (fun e => if dev_ptr e =? dev_ptr d then d else e) (device_list a)) a.

Definition dvb_device_open (minor : Z) (open : dvb_device -> Z * dvb_device) : DM (Z * option Z) :=
  let! s := mget in
  match dvbdev_find_device (dvb_adapter_list s) minor with
  | Some d =>
      if dev_fops d then
        let r := open d in
        mmodify (set_dvb_adapter_list (map (upd_device r.2) (dvb_adapter_list s))) ;;;
        mret_ (r.1, if r.1 =? 0 then Some (dev_ptr d) else None)
      else mret_ (- ENODEV, None)
  | None => mret_ (- ENODEV, None)
  end.

Definition id_used (l : list dvb_device) (type id : Z) : bool :=
  existsb (fun d => (dev_type d =? type) && (dev_id d =? id)) l.

Definition dvbdev_get_free_id (l : list dvb_device) (type : Z) : Z :=
  match find (fun id => negb (id_used l type id)) (seqZ 0 DVB_MAX_IDS) with
  | Some id => id
  | None => - ENFILE
  end.

Definition adapter_at (p : Z) (l : list dvb_adapter) : option dvb_adapter :=
  find (fun a => ad_ptr a =? p) l.
Definition upd_adapter (p : Z) (f : dvb_adapter -> dvb_adapter) (l : list dvb_adapter) : list dvb_adapter :=
  map (fun a => if ad_ptr a =? p then f a else a) l.

(** Registering a device is done in two parts, because the lock is only held
    during the first: the number is chosen and the memory allocated; then the
    device is filled in and linked.  [inl]: the call ends with this result and,
    if anything, this value of [pdvbdev]. *)
Definition register_part1 (adap type : Z) (alloc signal : bool) : DM ((Z * option (option Z)) + (Z * Z)) :=
  let! intr := down_register signal in
  if intr : bool then mret_ (inl (- ERESTARTSYS, None)) else
  let! s := mget in
  match adapter_at adap (dvb_adapter_list s) with
  | None => mfault
  | Some a =>
      let id := dvbdev_get_free_id (device_list a) type in
      if id <? 0 then up_register ;;; mret_ (inl (- ENFILE, Some None)) else
      if negb alloc then up_register ;;; mret_ (inl (- ENOMEM, Some None)) else
      mmodify (set_next_ptr (next_ptr s + 1)) ;;;
      up_register ;;;
      mret_ (inr (id, next_ptr s))
  end.

Definition filled (template : dvb_device) (p priv type id : Z) : dvb_device :=
  set_dev_ptr p (set_dev_type type (set_dev_id id (set_dev_priv priv template))).

Definition register_part2 (adap : Z) (template : dvb_device) (priv type id p : Z) : DM unit :=
  mmodify (fun s => set_dvb_adapter_list
    (upd_adapter adap (fun a => set_device_list (device_list a ++ [filled template p priv type id]) a)
       (dvb_adapter_list s)) s).

(** The second component: what [pdvbdev] is set to, if anything. *)
Definition dvb_register_device (adap : Z) (template : dvb_device) (priv type : Z) (alloc signal : bool)
    : DM (Z * option (option Z)) :=
  let! r := register_part1 adap type alloc signal in
  match r with
  | inl r => mret_ r
  | inr (id, p) => register_part2 adap template priv type id p ;;; mret_ (0, Some (Some p))
  end.

(** [list_del] on a device that is in no list is a fault. *)
Definition dvb_unregister_device (dev : option Z) : DM unit :=
  match dev with
  | None => mret_ tt
  | Some p =>
      let! s := mget in
      if existsb (fun a => existsb (fun d => dev_ptr d =? p) (device_list a)) (dvb_adapter_list s) then
        mmodify (set_dvb_adapter_list
          (map (fun a => set_device_list (filter (fun d => dev_ptr d <> p) (device_list a)) a)
             (dvb_adapter_list s)))
      else mfault
  end.

(** [while (1)]; there are at most [length l] numbers to skip. *)
Fixpoint free_num_loop (fuel : nat) (l : list dvb_adapter) (num : Z) : res Z :=
  if existsb (fun a => ad_num a =? num) l then
    match fuel with O => Diverge | S fuel => free_num_loop fuel l (num + 1) end
  else Ok num.
Definition dvbdev_get_free_adapter_num (l : list dvb_adapter) : res Z := free_num_loop (length l) l 0.

Definition dvb_register_adapter (alloc signal : bool) : DM (Z * option Z) :=
  let! intr := down_register signal in
  if intr : bool then mret_ (- ERESTARTSYS, None) else
  let! s := mget in
  let! num := mlift (dvbdev_get_free_adapter_num (dvb_adapter_list s)) in
  if num <? 0 then up_register ;;; mret_ (- ENFILE, None) else
  if negb alloc then up_register ;;; mret_ (- ENOMEM, None) else
  let p := next_ptr s in
  mmodify (fun s => set_next_ptr (p + 1)
    (set_dvb_adapter_list (dvb_adapter_list s ++ [mk_dvb_adapter p num []]) s)) ;;;
  up_register ;;;
  mret_ (num, Some p).

(** [list_del] on an adapter that is not in the list is a fault. *)
Definition dvb_unregister_adapter (adap : Z) (signal : bool) : DM Z :=
  let! intr := down_register signal in
  if intr : bool then mret_ (- ERESTARTSYS) else
  let! s := mget in
  match adapter_at adap (dvb_adapter_list s) with
  | None => mfault
  | Some _ =>
      mmodify (fun s => set_dvb_adapter_list
        (filter (fun a => ad_ptr a <> adap) (dvb_adapter_list s)) s) ;;;
      up_register ;;;
      mret_ 0
  end.
