(* ===== verification/DvbDevSpec.v ===== *)
(** * The registry as a table of device files

    What [DvbDev] promises: at each minor number there is at most one device,
    registering a device fills the first free minor of its kind and no other,
    removing it empties it again.  Then what the code does not promise: two
    registrations at the same time, and the minors of a fifth adapter. *)

From S2P Require Import Prelude DvbDev.

Definition installed (s : dvbdev) (a : dvb_adapter) (d : dvb_device) : Prop :=
  a ∈ dvb_adapter_list s /\ d ∈ device_list a.

Record registry_ok (s : dvbdev) : Prop := {
  ok_num a b : a ∈ dvb_adapter_list s -> b ∈ dvb_adapter_list s -> ad_num a = ad_num b -> a = b;
  ok_ptr a b : a ∈ dvb_adapter_list s -> b ∈ dvb_adapter_list s -> ad_ptr a = ad_ptr b -> a = b;
  ok_id a d e : installed s a d -> installed s a e ->
    dev_type d = dev_type e -> dev_id d = dev_id e -> d = e;
  ok_dev a b d e : installed s a d -> installed s b e -> dev_ptr d = dev_ptr e -> a = b /\ d = e;
  ok_range a d : installed s a d -> 0 <= dev_type d < 16 /\ 0 <= dev_id d < 4;
  ok_fresh a : a ∈ dvb_adapter_list s -> ad_ptr a < next_ptr s;
  ok_fresh_dev a d : installed s a d -> dev_ptr d < next_ptr s;
  ok_lock : dvbdev_register_lock s = false;
}.

Definition init_registry : dvbdev := mk_dvbdev [] false 1.

(** ** Minor numbers *)

Lemma nums2minor_sum num type id :
  0 <= type < 16 -> 0 <= id < 4 -> nums2minor num type id = 64 * num + 16 * id + type.
Proof.
  intros Ht Hi. unfold nums2minor. rewrite lor_shiftl_add by (try rewrite Z.shiftl_mul_pow2; lia).
  rewrite Z.shiftl_mul_pow2 by lia.
  replace (num * 2 ^ 6 + id * 2 ^ 4) with (Z.shiftl (num * 4 + id) 4)
    by (rewrite Z.shiftl_mul_pow2; lia).
  rewrite lor_shiftl_add by lia. lia.
Qed.

Lemma nums2minor_inj n t i n' t' i' :
  0 <= t < 16 -> 0 <= i < 4 -> 0 <= t' < 16 -> 0 <= i' < 4 ->
  nums2minor n t i = nums2minor n' t' i' -> n = n' /\ t = t' /\ i = i'.
Proof. intros. rewrite !nums2minor_sum in * by done. lia. Qed.

(** ** Searching *)

Lemma find_In {A} (f : A -> bool) l x : find f l = Some x -> x ∈ l /\ f x = true.
Proof. intros H. apply find_some in H. by rewrite list_elem_of_In. Qed.

Lemma find_not_In {A} (f : A -> bool) l x : find f l = None -> x ∈ l -> f x = false.
Proof. intros H Hx. apply (find_none f l H). by apply list_elem_of_In. Qed.

Lemma find_device_Some l m d :
  dvbdev_find_device l m = Some d ->
  exists a, a ∈ l /\ d ∈ device_list a /\ nums2minor (ad_num a) (dev_type d) (dev_id d) = m.
Proof.
  induction l as [|a l IH]; simpl; [done|].
  destruct (find_in _ _ _) as [e|] eqn:E; intros H.
  - simplify_eq. apply find_In in E as [? ?%Z.eqb_eq]. exists a. split_and!; [left|..]; done.
  - destruct (IH H) as (b & ? & ? & ?). exists b. split_and!; [by right|done..].
Qed.

Lemma find_device_None l m a d :
  dvbdev_find_device l m = None -> a ∈ l -> d ∈ device_list a ->
  nums2minor (ad_num a) (dev_type d) (dev_id d) <> m.
Proof.
  induction l as [|b l IH]; simpl; [by intros _ ?%not_elem_of_nil|].
  destruct (find_in _ _ _) as [e|] eqn:E; [done|]. intros H [->|Ha]%elem_of_cons Hd; [|eauto].
  apply (find_not_In _ _ d) in E; [cbn in E; lia|done].
Qed.

Lemma find_device_iff s m d :
  registry_ok s ->
  dvbdev_find_device (dvb_adapter_list s) m = Some d <->
  exists a, installed s a d /\ nums2minor (ad_num a) (dev_type d) (dev_id d) = m.
Proof.
  intros Hok. split.
  - intros (a & ? & ? & ?)%find_device_Some. exists a. by split_and!.
  - intros (a & Hi & Hm).
    destruct (dvbdev_find_device _ _) as [e|] eqn:E.
    + apply find_device_Some in E as (b & Hb & He & Hm'). f_equal.
      assert (installed s b e) as Hi' by done.
      destruct (ok_range s Hok a d Hi), (ok_range s Hok b e Hi').
      rewrite <- Hm' in Hm. apply nums2minor_inj in Hm as (Hn & Ht & Hid); try done.
      assert (a = b) as -> by (destruct Hi, Hi'; by apply (ok_num s Hok)).
      symmetry. by apply (ok_id s Hok b).
    + destruct Hi. exfalso. eapply find_device_None; eauto.
Qed.

(** The first free number. *)
Lemma id_used_iff l type id :
  id_used l type id = true <-> exists d, d ∈ l /\ dev_type d = type /\ dev_id d = id.
Proof.
  unfold id_used. rewrite existsb_exists. split; intros (d & Hd & H); exists d;
    rewrite list_elem_of_In in *; split; try done; split_and?; lia.
Qed.

Lemma free_id_spec l type :
  (forall id, 0 <= id < 4 -> id_used l type id = true) /\ dvbdev_get_free_id l type = - ENFILE \/
  exists id, 0 <= id < 4 /\ dvbdev_get_free_id l type = id /\ id_used l type id = false /\
    (forall k, 0 <= k < id -> id_used l type k = true).
Proof.
  unfold dvbdev_get_free_id, DVB_MAX_IDS. change (seqZ 0 4) with [0; 1; 2; 3]. simpl.
  destruct (id_used l type 0) eqn:E0; simpl; [|right; exists 0; split_and!; try done; lia].
  destruct (id_used l type 1) eqn:E1; simpl;
    [|right; exists 1; split_and!; try done; intros k Hk; by replace k with 0 by lia].
  destruct (id_used l type 2) eqn:E2; simpl;
    [|right; exists 2; split_and!; try done; intros k Hk;
      destruct (decide (k = 0)) as [->|]; [done|by replace k with 1 by lia]].
  destruct (id_used l type 3) eqn:E3; simpl;
    [|right; exists 3; split_and!; try done; intros k Hk;
      destruct (decide (k = 0)) as [->|]; [done|];
      destruct (decide (k = 1)) as [->|]; [done|by replace k with 2 by lia]].
  left. split; [|done]. intros k Hk.
  destruct (decide (k = 0)) as [->|]; [done|]. destruct (decide (k = 1)) as [->|]; [done|].
  destruct (decide (k = 2)) as [->|]; [done|]. by replace k with 3 by lia.
Qed.

(** ** Registering *)

Lemma adapter_at_Some p l a : adapter_at p l = Some a -> a ∈ l /\ ad_ptr a = p.
Proof. intros [? ?]%find_In. split; [done|lia]. Qed.

Lemma elem_of_map {A B} (f : A -> B) l y : y ∈ map f l <-> exists x, y = f x /\ x ∈ l.
Proof. apply list_elem_of_fmap. Qed.

(** What [list_add_tail] on the adapter's list changes. *)
Lemma upd_adapter_elem p f l a :
  a ∈ upd_adapter p f l <->
  (a ∈ l /\ ad_ptr a <> p) \/ (exists b, b ∈ l /\ ad_ptr b = p /\ a = f b).
Proof.
  unfold upd_adapter. rewrite elem_of_map. split.
  - intros (b & -> & Hb). destruct (Z.eqb_spec (ad_ptr b) p); eauto.
  - intros [[? ?]|(b & ? & ? & ->)]; eexists; (split; [|done]); by rif.
Qed.

Definition add_device (adap : Z) (d : dvb_device) (s : dvbdev) : dvbdev :=
  set_dvb_adapter_list
    (upd_adapter adap (fun a => set_device_list (device_list a ++ [d]) a) (dvb_adapter_list s)) s.

Lemma installed_add s a0 d0 b e :
  registry_ok s -> a0 ∈ dvb_adapter_list s ->
  let a1 := set_device_list (device_list a0 ++ [d0]) a0 in
  installed (add_device (ad_ptr a0) d0 s) b e <->
  (installed s b e /\ ad_ptr b <> ad_ptr a0) \/ (b = a1 /\ (installed s a0 e \/ e = d0)).
Proof.
  intros Hok Ha a1. unfold installed, add_device. cbn. rewrite upd_adapter_elem. split.
  - intros [[[Hb Hn]|(c & Hc & Hp & ->)] He].
    + by left.
    + assert (c = a0) as -> by (by apply (ok_ptr s Hok)). right. split; [done|].
      apply elem_of_app in He as [?|?%list_elem_of_singleton]; auto.
  - intros [[[Hb He] Hn]|[-> [[_ He]| ->]]].
    + split; [|done]. by left.
    + split; [right; by exists a0|]. apply elem_of_app. by left.
    + split; [right; by exists a0|]. apply elem_of_app. right. by left.
Qed.

Lemma add_device_ok s a0 d0 :
  registry_ok s -> a0 ∈ dvb_adapter_list s ->
  0 <= dev_type d0 < 16 -> 0 <= dev_id d0 < 4 ->
  id_used (device_list a0) (dev_type d0) (dev_id d0) = false ->
  (forall a d, installed s a d -> dev_ptr d <> dev_ptr d0) -> dev_ptr d0 < next_ptr s ->
  registry_ok (add_device (ad_ptr a0) d0 s).
Proof.
  intros Hok Ha Ht Hi Hu Hd Hp.
  assert (forall e, installed s a0 e -> dev_type e = dev_type d0 -> dev_id e = dev_id d0 -> False) as Hfree.
  { intros e [_ He] Hte Hie. rewrite (proj2 (id_used_iff _ _ _)) in Hu; [done|eauto]. }
  assert (forall b, b ∈ upd_adapter (ad_ptr a0)
      (fun a => set_device_list (device_list a ++ [d0]) a) (dvb_adapter_list s) ->
    exists c, c ∈ dvb_adapter_list s /\ ad_ptr b = ad_ptr c /\ ad_num b = ad_num c /\
      b = (if ad_ptr c =? ad_ptr a0 then set_device_list (device_list c ++ [d0]) c else c)) as Hel.
  { intros b [[? ?]|(c & ? & ? & ->)]%upd_adapter_elem; eexists; split_and!; try done; by rif. }
  pose proof (installed_add s a0 d0) as Hin.
  split.
  - intros a b (c & Hc & _ & Hcn & ->)%Hel (e & He & _ & Hen & ->)%Hel Hn.
    assert (c = e) as -> by (apply (ok_num s Hok); congruence). done.
  - intros a b (c & Hc & Hcp & _ & ->)%Hel (e & He & Hep & _ & ->)%Hel Hn.
    assert (c = e) as -> by (apply (ok_ptr s Hok); congruence). done.
  - intros b d e [[H1 N1]|[-> [H1| ->]]]%Hin [[H2 N2]|[E2 [H2| ->]]]%Hin; try done; subst;
      try (by eapply (ok_id s Hok)); intros; exfalso; eauto.
  - intros b c d e [[H1 N1]|[-> H1]]%Hin [[H2 N2]|[-> H2]]%Hin Hpe; try done.
    + by apply (ok_dev s Hok).
    + exfalso. destruct H2 as [H2| ->]; [|by apply (Hd _ _ H1)].
      by destruct (ok_dev s Hok _ _ _ _ H1 H2 Hpe) as [-> _].
    + exfalso. destruct H1 as [H1| ->]; [|by apply (Hd _ _ H2)].
      by destruct (ok_dev s Hok _ _ _ _ H1 H2 Hpe) as [<- _].
    + split; [done|]. destruct H1 as [H1| ->], H2 as [H2| ->]; try done.
      * by destruct (ok_dev s Hok _ _ _ _ H1 H2 Hpe).
      * by destruct (Hd _ _ H1).
      * by destruct (Hd _ _ H2).
  - intros b e [[H1 N1]|[-> [H1| ->]]]%Hin; try done; by eapply (ok_range s Hok).
  - intros b (c & Hc & -> & _)%Hel. by apply (ok_fresh s Hok).
  - intros b e [[H1 N1]|[-> [H1| ->]]]%Hin; try done; by eapply (ok_fresh_dev s Hok).
  - apply (ok_lock s Hok).
Qed.

(** A new device changes the table at its own minor only. *)
Lemma add_device_table s a0 d0 m :
  registry_ok s -> registry_ok (add_device (ad_ptr a0) d0 s) -> a0 ∈ dvb_adapter_list s ->
  dvbdev_find_device (dvb_adapter_list (add_device (ad_ptr a0) d0 s)) m =
    if m =? nums2minor (ad_num a0) (dev_type d0) (dev_id d0) then Some d0
    else dvbdev_find_device (dvb_adapter_list s) m.
Proof.
  intros Hok Hok' Ha. apply option_eq. intros e.
  pose proof (installed_add s a0 d0) as Hin. cbv zeta in Hin.
  destruct (Z.eqb_spec m (nums2minor (ad_num a0) (dev_type d0) (dev_id d0))) as [->|Hm].
  - assert (dvbdev_find_device (dvb_adapter_list (add_device (ad_ptr a0) d0 s))
      (nums2minor (ad_num a0) (dev_type d0) (dev_id d0)) = Some d0) as ->; [|done].
    rewrite find_device_iff by done. eexists. split; [apply Hin; [done..|]; right; eauto|done].
  - rewrite !find_device_iff by done. split.
    + intros (b & [[H1 N1]|[-> [H1| ->]]]%Hin & He); try done; eauto.
    + intros (b & H1 & He). destruct (decide (ad_ptr b = ad_ptr a0)) as [Hp|Hp].
      * assert (b = a0) as -> by (destruct H1; by apply (ok_ptr s Hok)).
        eexists. split; [apply Hin; [done..|]; right; eauto|done].
      * exists b. split; [apply Hin; [done..|]; by left|done].
Qed.

Abbreviation table s m := (dvbdev_find_device (dvb_adapter_list s) m).

Lemma adapter_at_mem s a : registry_ok s -> a ∈ dvb_adapter_list s ->
  adapter_at (ad_ptr a) (dvb_adapter_list s) = Some a.
Proof.
  intros Hok Ha. destruct (adapter_at _ _) as [b|] eqn:E.
  - apply adapter_at_Some in E as [Hb Hp]. f_equal. by apply (ok_ptr s Hok).
  - eapply find_not_In in E; [|done]. cbn in E. lia.
Qed.

Lemma relock s : dvbdev_register_lock s = false -> set_dvbdev_register_lock false s = s.
Proof. destruct s. cbn. by intros ->. Qed.

Lemma id_used_table s a type id :
  registry_ok s -> a ∈ dvb_adapter_list s -> 0 <= type < 16 -> 0 <= id < 4 ->
  (id_used (device_list a) type id = true <-> table s (nums2minor (ad_num a) type id) <> None).
Proof.
  intros Hok Ha Ht Hi. rewrite id_used_iff. split.
  - intros (d & Hd & <- & <-) E. by eapply find_device_None in E.
  - intros [d Hd]%not_eq_None_Some. exists d.
    apply (find_device_iff s _ _ Hok) in Hd as (b & Hin & Hm).
    destruct (ok_range s Hok b d Hin). apply nums2minor_inj in Hm as (Hn & -> & ->); try done.
    destruct Hin as [Hb Hd]. by rewrite <- (ok_num s Hok b a Hb Ha Hn).
Qed.

(** The first part, on a registry that is not in use. *)
Lemma register_part1_run s a type signal :
  registry_ok s -> a ∈ dvb_adapter_list s ->
  register_part1 (ad_ptr a) type true signal s =
    let id := dvbdev_get_free_id (device_list a) type in
    if id <? 0 then Ok (inl (- ENFILE, Some None), s)
    else Ok (inr (id, next_ptr s), set_next_ptr (next_ptr s + 1) s).
Proof.
  intros Hok Ha. pose proof (ok_lock s Hok) as Hl.
  unfold register_part1, down_register, mbind_. rewrite Hl. cbn [res_bind fst snd mget].
  change (dvb_adapter_list (set_dvbdev_register_lock true s)) with (dvb_adapter_list s).
  rewrite adapter_at_mem by done. cbv zeta. destruct (dvbdev_get_free_id _ _ <? 0); cbn.
  all: unfold mret_; do 2 f_equal; destruct s; cbn in *; by rewrite Hl.
Qed.

Lemma next_ptr_ok s : registry_ok s -> registry_ok (set_next_ptr (next_ptr s + 1) s).
Proof.
  intros Hok. destruct Hok as [H1 H2 H3 H4 H5 H6 H7 H8]. split; try done.
  - intros a Ha. specialize (H6 a Ha). cbn. lia.
  - intros a d Ha. specialize (H7 a d Ha). cbn. lia.
Qed.

Lemma registered_ok s a template priv type id :
  registry_ok s -> a ∈ dvb_adapter_list s -> 0 <= type < 16 -> 0 <= id < 4 ->
  id_used (device_list a) type id = false ->
  registry_ok (add_device (ad_ptr a) (filled template (next_ptr s) priv type id)
    (set_next_ptr (next_ptr s + 1) s)).
Proof.
  intros Hok Ha Ht Hi Hu. apply add_device_ok; try done; [by apply next_ptr_ok|..].
  - intros b d Hin. pose proof (ok_fresh_dev s Hok b d Hin). cbn. lia.
  - cbn. lia.
Qed.

(** C25: On a well-formed registry, registering a device either finds all four
    numbers of its kind taken, and then says so and changes nothing, or makes
    exactly one entry of the table of minor numbers: the one of the least
    number that was free. *)
Theorem register_device_table s a template priv type signal :
  registry_ok s -> a ∈ dvb_adapter_list s -> 0 <= type < 16 ->
  let r := dvb_register_device (ad_ptr a) template priv type true signal s in
  ((forall k, 0 <= k < 4 -> table s (nums2minor (ad_num a) type k) <> None) /\
   r = Ok ((- ENFILE, Some None), s)) \/
  (exists id p s', r = Ok ((0, Some (Some p)), s') /\ registry_ok s' /\ 0 <= id < 4 /\
     (forall k, 0 <= k < id -> table s (nums2minor (ad_num a) type k) <> None) /\
     table s (nums2minor (ad_num a) type id) = None /\
     (forall m, table s' m = if m =? nums2minor (ad_num a) type id
                             then Some (filled template p priv type id) else table s m)).
Proof.
  intros Hok Ha Ht. unfold dvb_register_device, mbind_. rewrite register_part1_run by done. cbv zeta.
  destruct (free_id_spec (device_list a) type) as [[Hall ->]|(id & Hi & -> & Hu & Hless)].
  - left. split; [|done]. intros k Hk. apply id_used_table; auto.
  - right. rif. cbn [res_bind fst snd].
    pose proof (registered_ok s a template priv type id Hok Ha Ht Hi Hu) as Hok'.
    exists id, (next_ptr s). eexists. split; [done|]. split; [apply Hok'|]. split; [done|].
    split; [intros k Hk; apply id_used_table; auto; lia|]. split.
    + destruct (table s _) eqn:E; [|done]. exfalso.
      rewrite (proj2 (id_used_table s a type id Hok Ha Ht Hi)) in Hu; [done|by rewrite E].
    + intros m.
      apply (add_device_table (set_next_ptr (next_ptr s + 1) s) a
               (filled template (next_ptr s) priv type id)); [by apply next_ptr_ok|done..].
Qed.

Definition plain_device : dvb_device := mk_dvb_device 0 0 0 1 1 1 true true 0.
Definition one_adapter : dvbdev := mk_dvbdev [mk_dvb_adapter 1 0 []] false 2.

Lemma one_adapter_ok : registry_ok one_adapter.
Proof.
  split; cbn; try done.
  - by intros a b ->%list_elem_of_singleton ->%list_elem_of_singleton.
  - by intros a b ->%list_elem_of_singleton ->%list_elem_of_singleton.
  - by intros a d e [->%list_elem_of_singleton ?%not_elem_of_nil].
  - by intros a b d e [->%list_elem_of_singleton ?%not_elem_of_nil].
  - by intros a d [->%list_elem_of_singleton ?%not_elem_of_nil].
  - by intros a ->%list_elem_of_singleton.
  - by intros a d [->%list_elem_of_singleton ?%not_elem_of_nil].
Qed.

Lemma register_device_table_witness :
  registry_ok one_adapter /\
  let r := dvb_register_device 1 plain_device 9 DVB_DEVICE_FRONTEND true false one_adapter in
  ((forall k, 0 <= k < 4 -> table one_adapter (nums2minor 0 DVB_DEVICE_FRONTEND k) <> None) /\
   r = Ok ((- ENFILE, Some None), one_adapter)) \/
  (exists id p s', r = Ok ((0, Some (Some p)), s') /\ registry_ok s' /\ 0 <= id < 4 /\
     (forall k, 0 <= k < id -> table one_adapter (nums2minor 0 DVB_DEVICE_FRONTEND k) <> None) /\
     table one_adapter (nums2minor 0 DVB_DEVICE_FRONTEND id) = None /\
     (forall m, table s' m = if m =? nums2minor 0 DVB_DEVICE_FRONTEND id
                             then Some (filled plain_device p 9 DVB_DEVICE_FRONTEND id)
                             else table one_adapter m)).
Proof.
  split; [apply one_adapter_ok|].
  apply (register_device_table one_adapter (mk_dvb_adapter 1 0 []) plain_device 9
           DVB_DEVICE_FRONTEND false); [apply one_adapter_ok|by left|done].
Defined.

(** ** Removing, opening *)

(** A change that only shortens device lists and the adapter list. *)
Lemma registry_ok_sub s s' :
  registry_ok s -> next_ptr s' = next_ptr s -> dvbdev_register_lock s' = false ->
  (forall a', a' ∈ dvb_adapter_list s' -> exists a, a ∈ dvb_adapter_list s /\
     exists l, a' = set_device_list l a /\ l ⊆ device_list a) ->
  (forall a b, a ∈ dvb_adapter_list s' -> b ∈ dvb_adapter_list s' -> ad_ptr a = ad_ptr b -> a = b) ->
  registry_ok s'.
Proof.
  intros Hok Hn Hl Hsub Hptr.
  assert (forall a' d, installed s' a' d -> exists a, installed s a d /\ ad_ptr a = ad_ptr a' /\
    ad_num a = ad_num a') as Hin.
  { intros a' d [Ha Hd]. destruct (Hsub a' Ha) as (a & Hs & l & -> & Hl').
    exists a. split; [split; [done|by apply Hl']|done]. }
  split; try done.
  - intros a' b' Ha Hb Hnum. apply Hptr; [done..|].
    destruct (Hsub a' Ha) as (a & Hsa & l & -> & _), (Hsub b' Hb) as (b & Hsb & k & -> & _).
    by rewrite (ok_num s Hok a b).
  - intros a' d e [Ha Hd] [_ He].
    destruct (Hsub a' Ha) as (a & Hsa & l & -> & Hla). apply (ok_id s Hok a); by split; [|apply Hla].
  - intros a' b' d e H1 H2 Hp.
    destruct (Hin a' d H1) as (a & Ha & Hpa & _), (Hin b' e H2) as (b & Hb & Hpb & _).
    destruct (ok_dev s Hok a b d e Ha Hb Hp) as [-> ->]. split; [|done].
    destruct H1, H2. apply Hptr; congruence.
  - intros a' d (a & Ha & _)%Hin. by apply (ok_range s Hok a).
  - intros a' (a & Ha & l & -> & _)%Hsub. rewrite Hn. by apply (ok_fresh s Hok a).
  - intros a' d (a & Ha & _)%Hin. rewrite Hn. by apply (ok_fresh_dev s Hok a).
Qed.

Definition without_device (p : Z) (s : dvbdev) : dvbdev :=
  set_dvb_adapter_list
    (map (fun a => set_device_list (filter (fun d => dev_ptr d <> p) (device_list a)) a)
       (dvb_adapter_list s)) s.

Lemma without_device_ok s p : registry_ok s -> registry_ok (without_device p s).
Proof.
  intros Hok. apply (registry_ok_sub s); try done; [by apply (ok_lock s Hok)|..].
  - intros a' (a & -> & Ha)%elem_of_map. exists a. split; [done|]. eexists. split; [done|].
    intros d Hd. by apply list_elem_of_filter in Hd as [_ ?].
  - intros a' b' (a & -> & Ha)%elem_of_map (b & -> & Hb)%elem_of_map Hp.
    by rewrite (ok_ptr s Hok a b).
Qed.

Lemma installed_without s p a' d :
  installed (without_device p s) a' d <->
  exists a, installed s a d /\ dev_ptr d <> p /\
    a' = set_device_list (filter (fun d => dev_ptr d <> p) (device_list a)) a.
Proof.
  split.
  - intros [(a & -> & Ha)%elem_of_map Hd]. apply list_elem_of_filter in Hd as [? ?]. exists a.
    split; [by split|done].
  - intros (a & [Ha Hd] & Hp & ->). split; [apply elem_of_map; eauto|].
    by apply list_elem_of_filter.
Qed.

Lemma unregister_device_run s a d :
  installed s a d -> dvb_unregister_device (Some (dev_ptr d)) s = Ok (tt, without_device (dev_ptr d) s).
Proof.
  intros [Ha Hd]. unfold dvb_unregister_device, mbind_. cbn [mget res_bind fst snd].
  replace (existsb _ _) with true; [done|]. symmetry. apply existsb_exists. exists a.
  split; [by apply list_elem_of_In|]. apply existsb_exists. exists d.
  split; [by apply list_elem_of_In|lia].
Qed.

(** Removing a registered device empties its entry of the table of minor
    numbers and leaves all the others as they were. *)
Theorem unregister_device_table s a d :
  registry_ok s -> installed s a d ->
  exists s', dvb_unregister_device (Some (dev_ptr d)) s = Ok (tt, s') /\ registry_ok s' /\
    forall m, table s' m = if m =? nums2minor (ad_num a) (dev_type d) (dev_id d) then None else table s m.
Proof.
  intros Hok Hin. exists (without_device (dev_ptr d) s). split; [|split; [by apply without_device_ok|]].
  - by apply (unregister_device_run s a).
  - intros m. apply option_eq. intros e. rewrite find_device_iff by by apply without_device_ok.
    destruct (Z.eqb_spec m (nums2minor (ad_num a) (dev_type d) (dev_id d))) as [->|Hm].
    + split; [|done]. intros (b' & (b & Hb & Hp & ->)%installed_without & He). exfalso. apply Hp.
      assert (Some e = Some d) as [= ->]; [|done].
      rewrite <- (proj2 (find_device_iff s _ e Hok) (ex_intro _ b (conj Hb He))).
      apply find_device_iff; eauto.
    + rewrite find_device_iff by done. split.
      * intros (b' & (b & Hb & Hp & ->)%installed_without & He). eauto.
      * intros (b & Hb & He). exists (set_device_list (filter (fun e => dev_ptr e <> dev_ptr d) (device_list b)) b).
        split; [|done]. apply installed_without. exists b. split; [done|]. split; [|done].
        intros Hp. destruct (ok_dev s Hok _ _ _ _ Hb Hin Hp) as [-> ->]. by apply Hm.
Qed.

(** An installed device for the witnesses. *)
Definition a_device : dvb_device := mk_dvb_device 2 3 0 1 1 1 true true 9.
Definition an_adapter : dvb_adapter := mk_dvb_adapter 1 0 [a_device].
Definition one_device : dvbdev := mk_dvbdev [an_adapter] false 3.

(** A registry with one adapter and one device, whatever their numbers. *)
Lemma one_device_registry num d :
  0 <= dev_type d < 16 -> 0 <= dev_id d < 4 -> dev_ptr d < 3 ->
  registry_ok (mk_dvbdev [mk_dvb_adapter 1 num [d]] false 3).
Proof.
  intros Ht Hi Hp. split; cbn; try done.
  - by intros a b ->%list_elem_of_singleton ->%list_elem_of_singleton.
  - by intros a b ->%list_elem_of_singleton ->%list_elem_of_singleton.
  - by intros a d1 d2 [->%list_elem_of_singleton ->%list_elem_of_singleton]
      [_ ->%list_elem_of_singleton].
  - by intros a b d1 d2 [->%list_elem_of_singleton ->%list_elem_of_singleton]
      [->%list_elem_of_singleton ->%list_elem_of_singleton].
  - by intros a e [->%list_elem_of_singleton ->%list_elem_of_singleton].
  - by intros a ->%list_elem_of_singleton.
  - by intros a e [->%list_elem_of_singleton ->%list_elem_of_singleton].
Qed.

Lemma one_device_ok : registry_ok one_device.
Proof. by apply one_device_registry. Qed.

Lemma unregister_device_table_witness :
  installed one_device an_adapter a_device /\
  exists s', dvb_unregister_device (Some 2) one_device = Ok (tt, s') /\ registry_ok s' /\
    forall m, table s' m = if m =? nums2minor 0 3 0 then None else table one_device m.
Proof.
  split; [split; by left|].
  apply (unregister_device_table one_device an_adapter a_device); [apply one_device_ok|split; by left].
Defined.

(** ** Adapters *)

Lemma num_used_iff l num :
  existsb (fun a => ad_num a =? num) l = true <-> exists a, a ∈ l /\ ad_num a = num.
Proof.
  rewrite existsb_exists. split; intros (a & Ha & H); exists a; rewrite list_elem_of_In in *;
    split; try done; lia.
Qed.

Lemma all_used_length (l : list dvb_adapter) (n : Z) :
  (forall k, 0 <= k < n -> existsb (fun a => ad_num a =? k) l = true) -> n <= zlen l.
Proof.
  intros H. unfold zlen. rewrite <- (length_map ad_num).
  assert (length (seqZ 0 n) <= length (map ad_num l))%nat as Hle; [|rewrite length_seqZ in Hle; lia].
  apply submseteq_length, NoDup_submseteq; [apply NoDup_seqZ|].
  intros k Hk%elem_of_seqZ. apply elem_of_map.
  destruct (proj1 (num_used_iff l k) (H k ltac:(lia))) as (a & Ha & <-). eauto.
Qed.

Lemma free_num_loop_spec fuel : forall l num,
  0 <= num -> (forall k, 0 <= k < num -> existsb (fun a => ad_num a =? k) l = true) ->
  zlen l <= num + Z.of_nat fuel ->
  exists r, free_num_loop fuel l num = Ok r /\ num <= r /\
    existsb (fun a => ad_num a =? r) l = false /\
    (forall k, 0 <= k < r -> existsb (fun a => ad_num a =? k) l = true).
Proof.
  induction fuel as [|fuel IH]; intros l num Hn Hused Hl; simpl;
    (destruct (existsb _ _) eqn:E; [|exists num; split_and!; done || lia]).
  all: assert (forall k, 0 <= k < num + 1 -> existsb (fun a => ad_num a =? k) l = true) as Hused'
    by (intros k Hk; destruct (decide (k = num)) as [->|]; [done|apply Hused; lia]).
  - apply all_used_length in Hused'. lia.
  - destruct (IH l (num + 1)) as (r & ? & ? & ? & ?); [lia|done|lia|].
    exists r. split_and!; done || lia.
Qed.

Definition add_adapter (num : Z) (s : dvbdev) : dvbdev :=
  mk_dvbdev (dvb_adapter_list s ++ [mk_dvb_adapter (next_ptr s) num []]) false (next_ptr s + 1).

Lemma installed_add_adapter num s a d : installed (add_adapter num s) a d <-> installed s a d.
Proof.
  unfold installed, add_adapter. cbn. rewrite elem_of_app, list_elem_of_singleton. split.
  - intros [[?| ->] Hd]; [done|]. by apply not_elem_of_nil in Hd.
  - intros [? ?]. auto.
Qed.

Lemma add_adapter_ok num s :
  registry_ok s -> (forall a, a ∈ dvb_adapter_list s -> ad_num a <> num) ->
  registry_ok (add_adapter num s).
Proof.
  intros Hok Hnew. pose proof (installed_add_adapter num s) as Hin. split; try done.
  - intros a b [Ha| ->%list_elem_of_singleton]%elem_of_app [Hb| ->%list_elem_of_singleton]%elem_of_app;
      intros E; try done; [by apply (ok_num s Hok)|by destruct (Hnew a Ha)|by destruct (Hnew b Hb)].
  - intros a b [Ha| ->%list_elem_of_singleton]%elem_of_app [Hb| ->%list_elem_of_singleton]%elem_of_app;
      intros E; try done; [by apply (ok_ptr s Hok)| |];
      cbn in E; [pose proof (ok_fresh s Hok a Ha)|pose proof (ok_fresh s Hok b Hb)]; lia.
  - intros a d e H1%Hin H2%Hin. by apply (ok_id s Hok a).
  - intros a b d e H1%Hin H2%Hin. by apply (ok_dev s Hok).
  - intros a d H1%Hin. by apply (ok_range s Hok a).
  - intros a [Ha| ->%list_elem_of_singleton]%elem_of_app; cbn; [|lia].
    pose proof (ok_fresh s Hok a Ha). lia.
  - intros a d H1%Hin. cbn. pose proof (ok_fresh_dev s Hok a d H1). lia.
Qed.

Lemma register_adapter_run s signal :
  registry_ok s ->
  exists num, 0 <= num /\
    dvb_register_adapter true signal s = Ok ((num, Some (next_ptr s)), add_adapter num s) /\
    dvb_register_adapter false signal s = Ok ((- ENOMEM, None), s) /\
    (forall a, a ∈ dvb_adapter_list s -> ad_num a <> num) /\
    (forall k, 0 <= k < num -> exists a, a ∈ dvb_adapter_list s /\ ad_num a = k).
Proof.
  intros Hok. pose proof (ok_lock s Hok) as Hl.
  destruct (free_num_loop_spec (length (dvb_adapter_list s)) (dvb_adapter_list s) 0)
    as (num & Hnum & H0 & Hfree & Hless); [lia|lia|unfold zlen; lia|].
  exists num. split; [done|]. split; [|split; [|split]].
  1,2: unfold dvb_register_adapter, down_register, mbind_; rewrite Hl; cbn [res_bind fst snd mget];
    unfold mlift, dvbdev_get_free_adapter_num;
    change (dvb_adapter_list (set_dvbdev_register_lock true s)) with (dvb_adapter_list s);
    rewrite Hnum; cbn [res_bind fst snd]; rif; destruct s; cbn in *; by subst.
  - intros a Ha <-. by rewrite (proj2 (num_used_iff _ _) (ex_intro _ a (conj Ha eq_refl))) in Hfree.
  - intros k Hk. by apply num_used_iff, Hless.
Qed.

(** Registering an adapter always ends, gives it the least number no
    adapter has, and leaves the table of minor numbers as it was. *)
Theorem register_adapter_least s signal :
  registry_ok s ->
  exists num p s', dvb_register_adapter true signal s = Ok ((num, Some p), s') /\ registry_ok s' /\
    mk_dvb_adapter p num [] ∈ dvb_adapter_list s' /\
    0 <= num /\ (forall a, a ∈ dvb_adapter_list s -> ad_num a <> num) /\
    (forall k, 0 <= k < num -> exists a, a ∈ dvb_adapter_list s /\ ad_num a = k) /\
    (forall m, table s' m = table s m).
Proof.
  intros Hok. destruct (register_adapter_run s signal Hok) as (num & H0 & Hr & _ & Hnew & Hless).
  pose proof (add_adapter_ok num s Hok Hnew) as Hok'.
  exists num, (next_ptr s), (add_adapter num s). split_and!; try done.
  - apply elem_of_app. right. by left.
  - intros m. apply option_eq. intros d. rewrite !find_device_iff by done.
    by setoid_rewrite installed_add_adapter.
Qed.

Lemma register_adapter_least_witness :
  registry_ok one_device /\
  exists num p s', dvb_register_adapter true false one_device = Ok ((num, Some p), s') /\
    registry_ok s' /\ mk_dvb_adapter p num [] ∈ dvb_adapter_list s' /\
    0 <= num /\ (forall a, a ∈ dvb_adapter_list one_device -> ad_num a <> num) /\
    (forall k, 0 <= k < num -> exists a, a ∈ dvb_adapter_list one_device /\ ad_num a = k) /\
    (forall m, table s' m = table one_device m).
Proof.
  split; [apply one_device_ok|]. apply (register_adapter_least one_device false), one_device_ok.
Defined.

(** A minor number has eight bits, of which two are the adapter's: a device of
    a fifth adapter can be registered but never opened. *)
Theorem fifth_adapter_unreachable s a d minor open r s' :
  registry_ok s -> installed s a d -> 4 <= ad_num a -> 0 <= minor < 256 ->
  dvb_device_open minor open s <> Ok ((r, Some (dev_ptr d)), s') /\ table s minor <> Some d.
Proof.
  intros Hok Hin Hn Hm.
  assert (forall e, table s minor = Some e -> dev_ptr e <> dev_ptr d) as Hne.
  { intros e (b & Hb & He)%find_device_iff Hp; [|done].
    destruct (ok_dev s Hok _ _ _ _ Hb Hin Hp) as [-> ->].
    destruct (ok_range s Hok a d Hin). rewrite nums2minor_sum in He by done. lia. }
  split; [|intros E; by apply (Hne d)].
  unfold dvb_device_open, mbind_. cbn [mget res_bind fst snd].
  destruct (table s minor) as [e|] eqn:E; [|done]. destruct (dev_fops e); [|done]. cbn.
  destruct (_ =? 0); [|done]. intros [= _ Hp _]. by apply (Hne e).
Qed.

Lemma fifth_adapter_unreachable_witness :
  let a := mk_dvb_adapter 1 4 [a_device] in
  let s := mk_dvbdev [a] false 3 in
  installed s a a_device /\ table s (nums2minor 4 3 0) = Some a_device /\
  dvb_device_open 3 (dvb_generic_open true) s = Ok ((- ENODEV, None), s) /\
  table s 3 <> Some a_device.
Proof.
  assert (registry_ok (mk_dvbdev [mk_dvb_adapter 1 4 [a_device]] false 3)) as Hok.
  { by apply one_device_registry. }
  split; [split; by left|]. split; [done|]. split; [done|].
  apply (fifth_adapter_unreachable (mk_dvbdev [mk_dvb_adapter 1 4 [a_device]] false 3)
           (mk_dvb_adapter 1 4 [a_device]) a_device 3 (dvb_generic_open true) 0 one_device);
    [done|split; by left|done..].
Defined.

Definition without_adapter (p : Z) (s : dvbdev) : dvbdev :=
  set_dvb_adapter_list (filter (fun b => ad_ptr b <> p) (dvb_adapter_list s)) s.

Lemma without_adapter_ok p s : registry_ok s -> registry_ok (without_adapter p s).
Proof.
  intros Hok. apply (registry_ok_sub s); try done; [by apply (ok_lock s Hok)|..].
  - intros b [_ Hb]%list_elem_of_filter. exists b. split; [done|]. exists (device_list b).
    split; [by destruct b|done].
  - intros b c [_ Hb]%list_elem_of_filter [_ Hc]%list_elem_of_filter. by apply (ok_ptr s Hok).
Qed.

Lemma unregister_adapter_run a signal s :
  registry_ok s -> a ∈ dvb_adapter_list s ->
  dvb_unregister_adapter (ad_ptr a) signal s = Ok (0, without_adapter (ad_ptr a) s).
Proof.
  intros Hok Ha. pose proof (ok_lock s Hok) as Hl. pose proof (adapter_at_mem s a Hok Ha) as Hm.
  unfold dvb_unregister_adapter, down_register, mbind_, without_adapter. rewrite Hl. cbn [res_bind fst snd mget].
  change (dvb_adapter_list (set_dvbdev_register_lock true s)) with (dvb_adapter_list s). rewrite Hm.
  destruct s. cbn in *. by subst.
Qed.

Lemma unregister_adapter_unknown p signal s :
  registry_ok s -> adapter_at p (dvb_adapter_list s) = None -> dvb_unregister_adapter p signal s = Fault.
Proof.
  intros Hok Ha. unfold dvb_unregister_adapter, down_register, mbind_. rewrite (ok_lock s Hok).
  cbn [res_bind fst snd mget].
  change (dvb_adapter_list (set_dvbdev_register_lock true s)) with (dvb_adapter_list s). by rewrite Ha.
Qed.

(** Unregistering an adapter hides its devices and no others. *)
Theorem unregister_adapter_table s a signal :
  registry_ok s -> a ∈ dvb_adapter_list s ->
  exists s', dvb_unregister_adapter (ad_ptr a) signal s = Ok (0, s') /\ registry_ok s' /\
    forall m d, table s' m = Some d <->
      table s m = Some d /\ forall e, installed s a e -> e <> d.
Proof.
  intros Hok Ha. pose proof (without_adapter_ok (ad_ptr a) s Hok) as Hok'.
  exists (without_adapter (ad_ptr a) s). split; [by apply unregister_adapter_run|]. split; [done|].
  intros m d. rewrite !find_device_iff by done. split.
  - intros (b & [[Hp Hb]%list_elem_of_filter Hd] & Hm). split; [by exists b|].
    intros e He ->. assert (installed s b d) as Hi by done.
    destruct (ok_dev s Hok _ _ _ _ Hi He eq_refl) as [-> _]. done.
  - intros [(b & [Hb Hd] & Hm) Hne]. exists b. split; [split; [|done]|done].
    apply list_elem_of_filter. split; [|done]. intros Hp.
    rewrite (ok_ptr s Hok b a) in Hd by done. by apply (Hne d).
Qed.

(** ** Two registrations at once

    Both have chosen a number before either links its device. *)
Definition register_twice (adap : Z) (t1 t2 : dvb_device) (priv1 priv2 type : Z) : DM (Z * Z) :=
  let! r1 := register_part1 adap type true false in
  let! r2 := register_part1 adap type true false in
  match r1, r2 with
  | inr (i1, p1), inr (i2, p2) =>
      register_part2 adap t1 priv1 type i1 p1 ;;;
      register_part2 adap t2 priv2 type i2 p2 ;;;
      mret_ (p1, p2)
  | _, _ => mfault
  end.

(** A device whose minor is taken does not change the table. *)
Lemma find_device_shadowed p d l m :
  (forall b, b ∈ l -> ad_ptr b = p ->
     find_in (ad_num b) (nums2minor (ad_num b) (dev_type d) (dev_id d)) (device_list b) <> None) ->
  dvbdev_find_device (upd_adapter p (fun b => set_device_list (device_list b ++ [d]) b) l) m =
  dvbdev_find_device l m.
Proof.
  induction l as [|b l IH]; intros Hsh; [done|].
  cbn [upd_adapter map dvbdev_find_device]. rewrite <- IH by (intros c Hc; apply Hsh; by right).
  assert (find_in (ad_num b) m (device_list b ++ [d]) = find_in (ad_num b) m (device_list b) \/
          ad_ptr b <> p) as Hf.
  { destruct (decide (ad_ptr b = p)) as [Hp|]; [left|by right].
    assert (b ∈ b :: l) as Hb by by left. specialize (Hsh b Hb Hp).
    unfold find_in in *. induction (device_list b) as [|e k IHk]; simpl in *; [done|].
    destruct (nums2minor (ad_num b) (dev_type e) (dev_id e) =? m) eqn:Em; [done|].
    destruct (nums2minor (ad_num b) (dev_type e) (dev_id e) =? _) eqn:Ed in Hsh; [|auto].
    clear -Em Ed. induction k as [|e' k IH]; simpl; [by replace (_ =? m) with false by lia|].
    by rewrite IH. }
  destruct (Z.eqb_spec (ad_ptr b) p) as [Hp|Hp]; [|done].
  destruct Hf as [Hf|]; [|done].
  change (ad_num (set_device_list (device_list b ++ [d]) b)) with (ad_num b).
  change (device_list (set_device_list (device_list b ++ [d]) b)) with (device_list b ++ [d]).
  by rewrite Hf.
Qed.

(** The lock is released between the choice of a number and the linking of
    the device: of two devices of one kind that are registered at the same
    time, both get the same number, and the second is at no minor number. *)
Theorem register_race s a t1 t2 priv1 priv2 type id :
  registry_ok s -> a ∈ dvb_adapter_list s -> 0 <= type < 16 ->
  dvbdev_get_free_id (device_list a) type = id -> 0 <= id ->
  exists p s', register_twice (ad_ptr a) t1 t2 priv1 priv2 type s = Ok ((p, p + 1), s') /\
    table s' (nums2minor (ad_num a) type id) = Some (filled t1 p priv1 type id) /\
    forall m d, table s' m = Some d -> dev_ptr d <> p + 1.
Proof.
  intros Hok Ha Ht Hid H0. destruct (free_id_spec (device_list a) type) as [[_ Hn]|(k & Hk & Hk' & Hu & _)];
    [unfold ENFILE in *; lia|]. assert (k = id) as -> by lia.
  set (d1 := filled t1 (next_ptr s) priv1 type id).
  set (d2 := filled t2 (next_ptr s + 1) priv2 type id).
  set (s2 := set_next_ptr (next_ptr s + 1 + 1) s).
  assert (registry_ok s2) as Hok2 by apply (next_ptr_ok _ (next_ptr_ok s Hok)).
  assert (registry_ok (add_device (ad_ptr a) d1 s2)) as Hok3.
  { apply add_device_ok; try done; [|cbn; lia].
    intros b d Hin. pose proof (ok_fresh_dev s Hok b d Hin). cbn. lia. }
  assert (forall m, table (add_device (ad_ptr a) d2 (add_device (ad_ptr a) d1 s2)) m =
    table (add_device (ad_ptr a) d1 s2) m) as Hsame.
  { intros m. apply find_device_shadowed. intros b Hb Hp.
    destruct (find_in _ _ _) eqn:E; [done|]. exfalso.
    assert (installed (add_device (ad_ptr a) d1 s2) b d1) as [_ Hd].
    { apply upd_adapter_elem in Hb as [[_ ?]|(c & Hc & Hcp & ->)]; [done|].
      assert (c = a) as -> by (by apply (ok_ptr s Hok)).
      apply installed_add; [done..|]. right. auto. }
    apply (find_not_In _ _ d1) in E; [|done]. cbn in E. lia. }
  exists (next_ptr s), (add_device (ad_ptr a) d2 (add_device (ad_ptr a) d1 s2)). split; [|split].
  - unfold register_twice. rewrite (mbind_Ok _ _ s (inr (id, next_ptr s)) (set_next_ptr (next_ptr s + 1) s)).
    2: { rewrite register_part1_run, Hid by done. cbv zeta. by rif. }
    rewrite (mbind_Ok _ _ _ (inr (id, next_ptr s + 1)) s2).
    2: { rewrite register_part1_run by (done || by apply next_ptr_ok). rewrite Hid. cbv zeta. by rif. }
    done.
  - rewrite Hsame, (add_device_table s2 a d1) by done. by rewrite Z.eqb_refl.
  - intros m d. rewrite Hsame. intros (b & Hin & _)%find_device_iff; [|done].
    apply installed_add in Hin as [[Hi _]|[_ [Hi| ->]]]; try done; [| |cbn; lia];
      pose proof (ok_fresh_dev s Hok _ d Hi); lia.
Qed.

Lemma register_race_witness :
  registry_ok one_device /\
  exists p s', register_twice 1 plain_device plain_device 9 9 DVB_DEVICE_CA one_device = Ok ((p, p + 1), s') /\
    table s' (nums2minor 0 DVB_DEVICE_CA 0) = Some (filled plain_device p 9 DVB_DEVICE_CA 0) /\
    forall m d, table s' m = Some d -> dev_ptr d <> p + 1.
Proof.
  split; [apply one_device_ok|].
  apply (register_race one_device an_adapter plain_device plain_device 9 9 DVB_DEVICE_CA 0);
    [apply one_device_ok|by left|done..].
Defined.

(** Opening changes counters only. *)
Definition upd_devices (g : dvb_device -> dvb_device) (s : dvbdev) : dvbdev :=
  set_dvb_adapter_list
    (map (fun a => set_device_list (map g (device_list a)) a) (dvb_adapter_list s)) s.

Lemma upd_devices_ok s g :
  (forall a d, installed s a d ->
     dev_ptr (g d) = dev_ptr d /\ dev_type (g d) = dev_type d /\ dev_id (g d) = dev_id d) ->
  registry_ok s -> registry_ok (upd_devices g s).
Proof.
  intros Hg Hok.
  assert (forall a' d', installed (upd_devices g s) a' d' -> exists a d, installed s a d /\
    ad_ptr a' = ad_ptr a /\ d' = g d /\ a' = set_device_list (map g (device_list a)) a) as Hin.
  { intros a' d' [(a & -> & Ha)%elem_of_map (d & -> & Hd)%elem_of_map]. by exists a, d. }
  split.
  - intros a' b' (a & -> & Ha)%elem_of_map (b & -> & Hb)%elem_of_map Hn. by rewrite (ok_num s Hok a b).
  - intros a' b' (a & -> & Ha)%elem_of_map (b & -> & Hb)%elem_of_map Hn. by rewrite (ok_ptr s Hok a b).
  - intros a' d' e' (a & d & Hd & Hp & -> & _)%Hin (b & e & He & Hp' & -> & _)%Hin Ht Hi.
    destruct (Hg a d Hd) as (_ & Htd & Hid), (Hg b e He) as (_ & Hte & Hie).
    assert (b = a) as -> by (destruct Hd, He; apply (ok_ptr s Hok); congruence).
    by rewrite (ok_id s Hok a d e) by congruence.
  - intros a' b' d' e' (a & d & Hd & _ & -> & ->)%Hin (b & e & He & _ & -> & ->)%Hin Hp.
    destruct (Hg a d Hd) as (Hpd & _), (Hg b e He) as (Hpe & _).
    by destruct (ok_dev s Hok a b d e) as [-> ->]; [done..|congruence|].
  - intros a' d' (a & d & Hd & _ & -> & _)%Hin. destruct (Hg a d Hd) as (_ & -> & ->).
    by apply (ok_range s Hok a).
  - intros a' (a & -> & Ha)%elem_of_map. by apply (ok_fresh s Hok a).
  - intros a' d' (a & d & Hd & _ & -> & _)%Hin. destruct (Hg a d Hd) as (-> & _).
    by apply (ok_fresh_dev s Hok a).
  - apply (ok_lock s Hok).
Qed.

Lemma generic_open_same rdonly d :
  let d' := (dvb_generic_open rdonly d).2 in
  dev_ptr d' = dev_ptr d /\ dev_type d' = dev_type d /\ dev_id d' = dev_id d.
Proof. unfold dvb_generic_open. cbv zeta. by repeat case_if. Qed.

Lemma installed_upd s g a' d' :
  installed (upd_devices g s) a' d' <->
  exists a d, installed s a d /\ d' = g d /\ a' = set_device_list (map g (device_list a)) a.
Proof.
  split.
  - intros [(a & -> & Ha)%elem_of_map (d & -> & Hd)%elem_of_map]. by exists a, d.
  - intros (a & d & [Ha Hd] & -> & ->). split; apply elem_of_map; eauto.
Qed.

Definition opened (rdonly : bool) (d : dvb_device) (s : dvbdev) : dvbdev :=
  upd_devices (fun e => if dev_ptr e =? dev_ptr d then (dvb_generic_open rdonly d).2 else e) s.

Lemma opened_at rdonly d s a ad e :
  registry_ok s -> installed s ad d -> installed s a e ->
  (if dev_ptr e =? dev_ptr d then (dvb_generic_open rdonly d).2 else e) =
  (if decide (e = d) then (dvb_generic_open rdonly d).2 else e).
Proof.
  intros Hok Hd He. destruct (decide (e = d)) as [->|Hne]; [by rewrite Z.eqb_refl|].
  destruct (Z.eqb_spec (dev_ptr e) (dev_ptr d)); [|done]. by destruct (ok_dev s Hok a ad e d) as [_ ?].
Qed.

Lemma opened_ok rdonly d s ad : registry_ok s -> installed s ad d -> registry_ok (opened rdonly d s).
Proof.
  intros Hok Hd. apply upd_devices_ok; [|done]. intros a e He.
  rewrite (opened_at rdonly d s a ad e) by done. destruct (decide (e = d)) as [->|]; [|done].
  apply generic_open_same.
Qed.

Lemma device_open_run s minor rdonly :
  dvb_device_open minor (dvb_generic_open rdonly) s =
  match table s minor with
  | Some d =>
      if dev_fops d then
        Ok (((dvb_generic_open rdonly d).1,
             if (dvb_generic_open rdonly d).1 =? 0 then Some (dev_ptr d) else None), opened rdonly d s)
      else Ok ((- ENODEV, None), s)
  | None => Ok ((- ENODEV, None), s)
  end.
Proof.
  unfold dvb_device_open, mbind_. cbn [mget res_bind fst snd].
  destruct (table s minor) as [d|]; [|done]. destruct (dev_fops d); [|done].
  unfold opened, upd_devices, upd_device. by destruct (generic_open_same rdonly d) as (-> & _).
Qed.

(** Opening a device file runs the generic open on the device that is
    registered at its minor number and on no other; a minor number without a
    device, or a device without file operations, gives ENODEV. *)
Theorem device_open_table s minor rdonly :
  registry_ok s ->
  let r := dvb_device_open minor (dvb_generic_open rdonly) s in
  match table s minor with
  | None => r = Ok ((- ENODEV, None), s)
  | Some d =>
      if dev_fops d then
        exists s', r = Ok (((dvb_generic_open rdonly d).1,
                            if (dvb_generic_open rdonly d).1 =? 0 then Some (dev_ptr d) else None), s') /\
          registry_ok s' /\
          forall m, table s' m = if m =? minor then Some (dvb_generic_open rdonly d).2 else table s m
      else r = Ok ((- ENODEV, None), s)
  end.
Proof.
  intros Hok. cbv zeta. rewrite device_open_run.
  destruct (table s minor) as [d|] eqn:Ed; [|done]. destruct (dev_fops d); [|done].
  pose proof Ed as (ad & Had & Hmin)%find_device_iff; [|done].
  pose proof (opened_ok rdonly d s ad Hok Had) as Hok'.
  destruct (generic_open_same rdonly d) as (Hp & Ht & Hi).
  eexists. split; [done|]. split; [done|]. intros m. apply option_eq. intros e.
  rewrite find_device_iff by done. destruct (Z.eqb_spec m minor) as [->|Hm].
  - split.
    + intros (a' & (a & x & Hx & -> & ->)%installed_upd & He).
      rewrite (opened_at rdonly d s a ad x Hok Had Hx) in *.
      destruct (decide (x = d)); [done|]. exfalso.
      assert (table s minor = Some x) as E by (apply find_device_iff; eauto). congruence.
    + intros [= <-]. eexists. split.
      * apply installed_upd. exists ad, d. split; [done|]. split; [|done]. by rewrite Z.eqb_refl.
      * cbn. by rewrite Ht, Hi.
  - rewrite find_device_iff by done. split.
    + intros (a' & (a & x & Hx & -> & ->)%installed_upd & He).
      rewrite (opened_at rdonly d s a ad x Hok Had Hx) in *.
      destruct (decide (x = d)) as [->|]; [|eauto]. exfalso. cbn in He. rewrite Ht, Hi in He.
      destruct (ok_dev s Hok a ad d d Hx Had eq_refl) as [-> _]. congruence.
    + intros (a & Ha & He). eexists. split; [apply installed_upd; exists a, e; split; [done|split; [|done]]|done].
      rewrite (opened_at rdonly d s a ad e Hok Had Ha).
      destruct (decide (e = d)) as [->|]; [|done].
      destruct (ok_dev s Hok a ad d d Ha Had eq_refl) as [-> _]. congruence.
Qed.

Lemma device_open_table_witness :
  table one_device 3 = Some a_device /\
  exists s', dvb_device_open 3 (dvb_generic_open true) one_device = Ok ((0, Some 2), s') /\
    registry_ok s' /\
    forall m, table s' m = if m =? 3 then Some (dvb_generic_open true a_device).2 else table one_device m.
Proof. split; [done|]. apply (device_open_table one_device 3 true), one_device_ok. Defined.

(** ** Every registry the code can build *)

Inductive reg_call :=
| RegAdapter (alloc signal : bool)
| UnregAdapter (adap : Z) (signal : bool)
| RegDevice (adap : Z) (template : dvb_device) (priv type : Z) (alloc signal : bool)
| UnregDevice (dev : option Z)
| Open (minor : Z) (rdonly : bool).

Definition reg_run (c : reg_call) : DM unit :=
  match c with
  | RegAdapter alloc signal => dvb_register_adapter alloc signal ;;; mret_ tt
  | UnregAdapter adap signal => dvb_unregister_adapter adap signal ;;; mret_ tt
  | RegDevice adap t priv type alloc signal =>
      if (0 <=? type) && (type <=? DVB_DEVICE_OSD) then dvb_register_device adap t priv type alloc signal ;;; mret_ tt
      else mret_ tt
  | UnregDevice dev => dvb_unregister_device dev
  | Open minor rdonly => dvb_device_open minor (dvb_generic_open rdonly) ;;; mret_ tt
  end.

Inductive reg_reachable : dvbdev -> Prop :=
| reg_init : reg_reachable init_registry
| reg_step s c s' : reg_reachable s -> reg_run c s = Ok (tt, s') -> reg_reachable s'.


Lemma register_part1_nomem s a type signal :
  registry_ok s -> a ∈ dvb_adapter_list s ->
  exists r, register_part1 (ad_ptr a) type false signal s = Ok (inl r, s).
Proof.
  intros Hok Ha. pose proof (ok_lock s Hok) as Hl.
  unfold register_part1, down_register, mbind_. rewrite Hl. cbn [res_bind fst snd mget].
  change (dvb_adapter_list (set_dvbdev_register_lock true s)) with (dvb_adapter_list s).
  rewrite adapter_at_mem by done. cbv zeta. destruct (dvbdev_get_free_id _ _ <? 0);
    destruct s; cbn in *; subst; eauto.
Qed.

Lemma register_part1_unknown s p type alloc signal :
  registry_ok s -> adapter_at p (dvb_adapter_list s) = None ->
  register_part1 p type alloc signal s = Fault.
Proof.
  intros Hok Ha. unfold register_part1, down_register, mbind_. rewrite (ok_lock s Hok).
  cbn [res_bind fst snd mget].
  change (dvb_adapter_list (set_dvbdev_register_lock true s)) with (dvb_adapter_list s). by rewrite Ha.
Qed.

Lemma reg_device_live s a template priv type alloc signal :
  registry_ok s -> a ∈ dvb_adapter_list s -> 0 <= type < 16 ->
  exists r s', dvb_register_device (ad_ptr a) template priv type alloc signal s = Ok (r, s') /\ registry_ok s'.
Proof.
  intros Hok Ha Ht. unfold dvb_register_device, mbind_. destruct alloc.
  - rewrite register_part1_run by done. cbv zeta.
    destruct (free_id_spec (device_list a) type) as [[_ ->]|(id & Hi & -> & Hu & _)].
    + do 2 eexists. split; [done|done].
    + rif. do 2 eexists. split; [done|]. by apply registered_ok.
  - destruct (register_part1_nomem s a type signal Hok Ha) as (r & ->).
    do 2 eexists. split; [done|done].
Qed.

(** The pointer that a call gets is one of something registered. *)
Definition has_adapter (p : Z) (s : dvbdev) : bool := existsb (fun a => ad_ptr a =? p) (dvb_adapter_list s).

Definition knows (c : reg_call) (s : dvbdev) : bool :=
  match c with
  | UnregAdapter p _ => has_adapter p s
  | RegDevice p _ _ type _ _ => negb ((0 <=? type) && (type <=? DVB_DEVICE_OSD)) || has_adapter p s
  | UnregDevice (Some p) => existsb (fun a => existsb (fun d => dev_ptr d =? p) (device_list a)) (dvb_adapter_list s)
  | _ => true
  end.

Lemma has_adapter_spec p s :
  if has_adapter p s then exists a, a ∈ dvb_adapter_list s /\ ad_ptr a = p
  else adapter_at p (dvb_adapter_list s) = None.
Proof.
  unfold has_adapter. destruct (existsb _ _) eqn:E.
  - apply existsb_exists in E as (a & Ha & Hp). exists a. split; [by apply list_elem_of_In|lia].
  - destruct (adapter_at p _) as [a|] eqn:Ea; [|done]. apply find_In in Ea as [Ha Hp].
    assert (existsb (fun a => ad_ptr a =? p) (dvb_adapter_list s) = true); [|congruence].
    apply existsb_exists. exists a. split; [by apply list_elem_of_In|done].
Qed.

Lemma reg_run_ok c s : registry_ok s ->
  if knows c s then exists s', reg_run c s = Ok (tt, s') /\ registry_ok s' else reg_run c s = Fault.
Proof.
  intros Hok. destruct c as [alloc signal|p signal|p t priv type alloc signal|[p|]|minor rdonly];
    unfold reg_run, mbind_; cbn [knows].
  - destruct (register_adapter_run s signal Hok) as (num & _ & H1 & H2 & Hnew & _).
    destruct alloc; [rewrite H1|rewrite H2]; eexists; (split; [done|]); [by apply add_adapter_ok|done].
  - pose proof (has_adapter_spec p s) as Hp. destruct (has_adapter p s).
    + destruct Hp as (a & Ha & <-). rewrite unregister_adapter_run by done. eexists. split; [done|].
      by apply without_adapter_ok.
    + by rewrite unregister_adapter_unknown.
  - destruct ((0 <=? type) && (type <=? DVB_DEVICE_OSD)) eqn:Et; cbn [negb orb]; [|by eexists].
    pose proof (has_adapter_spec p s) as Hp. destruct (has_adapter p s).
    + destruct Hp as (a & Ha & <-).
      destruct (reg_device_live s a t priv type alloc signal Hok Ha) as (r & s' & -> & Hok');
        [unfold DVB_DEVICE_OSD in Et; lia|]. by eexists.
    + unfold dvb_register_device, mbind_. by rewrite register_part1_unknown.
  - unfold dvb_unregister_device, mbind_. cbn [mget res_bind fst snd].
    destruct (existsb _ _); [|done]. eexists. split; [done|]. by apply without_device_ok.
  - by eexists.
  - rewrite device_open_run. destruct (table s minor) as [d|] eqn:Ed; [|by eexists].
    destruct (dev_fops d); [|by eexists]. eexists. split; [done|].
    apply find_device_iff in Ed as (a & Ha & _); [|done]. by apply (opened_ok rdonly d s a).
Qed.

(** C8: Whatever is registered, removed and opened, in any order and with any
    failures, the registry stays well formed: no two adapters have one number,
    no two devices of an adapter one type and number, no pointer stands for two
    things, types are below 16 and numbers of devices below 4, and the lock is
    free.  A call returns exactly when the adapter or device that it is given
    is registered (device types are those of the list in dvbdev.h); a pointer to
    anything else is followed all the same, a fault. *)
Theorem registry_reachable_ok s c :
  reg_reachable s ->
  registry_ok s /\
  if knows c s then exists s', reg_run c s = Ok (tt, s') /\ reg_reachable s' else reg_run c s = Fault.
Proof.
  intros H. assert (registry_ok s) as Hok.
  { induction H as [|s c' s' _ IH Hrun].
    - split; unfold installed; cbn; try done; intros *; rewrite ?elem_of_nil; tauto.
    - pose proof (reg_run_ok c' s IH) as Hr. destruct (knows c' s); [|congruence].
      destruct Hr as (t & E & Ht). rewrite E in Hrun. by injection Hrun as <-. }
  split; [done|]. pose proof (reg_run_ok c s Hok) as Hr. destruct (knows c s); [|done].
  destruct Hr as (t & E & Ht). exists t. split; [done|]. by apply (reg_step s c t).
Qed.

Lemma registry_reachable_ok_witness :
  exists s, reg_run (RegAdapter true false) init_registry = Ok (tt, s) /\ registry_ok s.
Proof.
  eexists. split; [reflexivity|].
  apply (registry_reachable_ok _ (UnregDevice None)). by apply (reg_step init_registry (RegAdapter true false)); [apply reg_init|].
Defined.

(** ** Counting opens *)

(** The files a device has open: those opened only for reading, and others. *)
Inductive file_history (d0 : dvb_device) : dvb_device -> Z -> Z -> Prop :=
| file_none : file_history d0 d0 0 0
| file_open d r w rdonly d' :
    file_history d0 d r w -> dvb_generic_open rdonly d = (0, d') ->
    file_history d0 d' (r + c_bool rdonly) (w + c_bool (negb rdonly))
| file_busy d r w rdonly d' e :
    file_history d0 d r w -> dvb_generic_open rdonly d = (e, d') -> e <> 0 -> file_history d0 d' r w
| file_release d r w (rdonly : bool) d' :
    file_history d0 d r w -> 0 < (if rdonly then r else w) -> dvb_generic_release rdonly d = (0, d') ->
    file_history d0 d' (r - c_bool rdonly) (w - c_bool (negb rdonly)).

Definition s32_range (z : Z) : Prop := - 2 ^ 31 <= z < 2 ^ 31.

(** [x]: a counter that was [x0] when no file was open and [n] are. *)
Definition limited (x0 n x : Z) : Prop := x = s32 (x0 - n) /\ (0 <= x0 -> n <= x0).

Lemma s32_small z : s32_range z -> s32 z = z.
Proof. unfold s32_range, s32. intros. rewrite Z.mod_small; lia. Qed.
Lemma s32_add a b : s32 (s32 a + b) = s32 (a + b).
Proof.
  unfold s32. f_equal. replace ((a + 2 ^ 31) mod 2 ^ 32 - 2 ^ 31 + b + 2 ^ 31)
    with ((a + 2 ^ 31) mod 2 ^ 32 + b) by lia.
  rewrite Zplus_mod_idemp_l. f_equal. lia.
Qed.

Lemma limited_take x0 n x : s32_range x0 -> 0 <= n -> limited x0 n x -> x <> 0 -> limited x0 (n + 1) (s32 (x - 1)).
Proof.
  intros Hr Hn [-> Hl] Hx. split.
  - rewrite <- Z.add_opp_r, s32_add. f_equal. lia.
  - intros H0. specialize (Hl H0). rewrite s32_small in Hx by (unfold s32_range in *; lia). lia.
Qed.

Lemma limited_give x0 n x : limited x0 n x -> limited x0 (n - 1) (s32 (x + 1)).
Proof. intros [-> Hl]. split; [rewrite s32_add; f_equal; lia|lia]. Qed.

(** Along any history of opens and releases the three counters of a device
    tell how many files are open: of a counter that starts at [n >= 0], at
    most [n] opens succeed at the same time; one that starts below 0 limits
    nothing. *)
Theorem open_limits d0 d r w :
  s32_range (readers d0) -> s32_range (writers d0) -> s32_range (users d0) ->
  file_history d0 d r w ->
  0 <= r /\ 0 <= w /\ limited (readers d0) r (readers d) /\ limited (writers d0) w (writers d) /\
  limited (users d0) (r + w) (users d).
Proof.
  intros Hr Hw Hu H. induction H as [|d r w rd d' _ IH E|d r w rd d' e _ IH E He|d r w rd d' _ IH Hp E].
  - unfold limited. rewrite !Z.sub_0_r, !s32_small by done. split_and!; lia.
  - unfold dvb_generic_open in E. destruct (users d =? 0) eqn:Eu; [done|].
    destruct IH as (? & ? & H1 & H2 & H3).
    destruct rd; [destruct (readers d =? 0) eqn:Er|destruct (writers d =? 0) eqn:Er]; [done| |done|];
      injection E as <-; cbn [c_bool negb]; rewrite ?Z.add_0_r; cbn;
      (split; [lia|]); (split; [lia|]); rewrite ?(Z.add_shuffle0 r 1 w), ?(Z.add_assoc r w 1);
      split_and!; try done; apply limited_take; done || lia.
  - assert (d' = d) as ->; [|done]. unfold dvb_generic_open in E.
    repeat case_if_in E; by simplify_eq.
  - unfold dvb_generic_release in E. injection E as <-. destruct IH as (? & ? & H1 & H2 & H3).
    destruct rd; cbn [c_bool negb]; rewrite ?Z.sub_0_r; (split; [lia|]); (split; [lia|]); cbn;
      [replace (r - 1 + w) with (r + w - 1) by lia|replace (r + (w - 1)) with (r + w - 1) by lia];
      split_and!; try done; by apply limited_give.
Qed.

Lemma open_limits_witness :
  exists d, file_history plain_device d 0 1 /\ writers d = 0 /\ (dvb_generic_open false d).1 = - EBUSY /\
    limited (writers plain_device) 1 (writers d).
Proof.
  exists (dvb_generic_open false plain_device).2. split; [|split; [done|split; [done|]]].
  - apply (file_open plain_device plain_device 0 0 false); [apply file_none|done].
  - apply (open_limits plain_device _ 0 1); [done|done|done|].
    apply (file_open plain_device plain_device 0 0 false); [apply file_none|done].
Defined.

(** ** Ioctl arguments *)

(** The function behind an ioctl sees the argument itself or a copy of the
    user's memory, never that memory: the user's memory is changed only by a
    command that reads, whose function succeeded, and then to what the function
    left in the copy. *)
Theorem usercopy_memory {S} dir size arg user alloc from to (func : ioctl_arg -> M S (Z * list Z)) s res out s' :
  dvb_usercopy dir size arg user alloc from to func s = Ok ((res, out), s') ->
  out = user \/
  (ioc_reads dir = true /\ 0 <= res /\ func (ArgCopy user) s = Ok ((res, out), s')).
Proof.
  unfold dvb_usercopy, mbind_, mret_. intros H.
  destruct dir; [left; destruct (func _ s) as [[[e o] t]| | |]; cbn in H; by simplify_eq|..].
  all: repeat case_if_in H; try (left; cbn in H; by simplify_eq).
  all: destruct (func _ s) as [[[e o] t]| | |] eqn:Ef; cbn in H; try done.
  all: destruct (e =? - ENOIOCTLCMD) eqn:Ee;
    [change (- EINVAL <? 0) with true in H; cbn in H; left; by simplify_eq|].
  all: destruct (e <? 0) eqn:El; cbn in H; [left; by simplify_eq|].
  all: try destruct to; simplify_eq; auto.
  all: right; split_and!; [done|lia|done].
Qed.

(** Errors: the function's own error is passed on, an unknown command is
    EINVAL. *)
Theorem usercopy_error {S} dir size arg user to (func : ioctl_arg -> M S (Z * list Z)) s err out s' :
  (forall a, func a s = Ok ((err, out), s')) -> err < 0 ->
  dvb_usercopy dir size arg user true true to func s =
    Ok ((if err =? - ENOIOCTLCMD then - EINVAL else err, user), s').
Proof.
  intros Hf He. unfold dvb_usercopy. rewrite andb_false_r. cbn [negb].
  destruct dir; unfold mbind_; rewrite Hf; cbn; [done|..].
  all: destruct (err =? - ENOIOCTLCMD); [done|by rif].
Qed.
