(* ===== verification/DvbI2c.v ===== *)
(** * I2C buses and the drivers on them (dvb-core/dvb_i2c.c)

    An adapter registers its buses, a front-end driver registers as a device;
    each driver is tried on each bus, and becomes a client of those on which
    its [attach] succeeds.

    Pointers to functions, modules, adapters and data are numbers, 0 being
    [NULL].  What the drivers' functions do is a parameter, and so is whether a
    module may be used; the world they act on is part of the state. *)

From S2P Require Import Prelude.

(** [attach_fn f bus data]: the error and the value it leaves in [data]. *)
Class I2cDrivers (W : Type) := {
  attach_fn : Z -> Z -> Z -> W -> (Z * Z) * W;
  detach_fn : Z -> Z -> Z -> W -> W;
  module_live : Z -> bool;
}.

Record dvb_i2c_device := mk_dvb_i2c_device {
  owner : Z;
  attach : Z;
  detach : Z;
  data : Z;
}.
#[export] Instance dvb_i2c_device_eta : Eta dvb_i2c_device := fun r =>
  mk_dvb_i2c_device (owner r) (attach r) (detach r) (data r).
Definition set_data := setter! data.

(** A client is a [dvb_i2c_device] too, whose [attach] is never set. *)
Record i2c_client := mk_i2c_client {
  cl_owner : Z;
  cl_detach : Z;
  cl_data : Z;
}.

Record dvb_i2c_bus := mk_dvb_i2c_bus {
  bus_ptr : Z;
  xfer : Z;
  bus_data : Z;
  bus_adapter : Z;
  bus_id : Z;
  client_list : list i2c_client;
}.
#[export] Instance dvb_i2c_bus_eta : Eta dvb_i2c_bus := fun r =>
  mk_dvb_i2c_bus (bus_ptr r) (xfer r) (bus_data r) (bus_adapter r) (bus_id r) (client_list r).
Definition set_client_list := setter! client_list.

Section I2c.
Context {W : Type} `{!I2cDrivers W}.

(** [mem]: the answers of the next calls of [kmalloc]; when there are none
    left, memory is found.  [refs]: the use counts of the modules. *)
Record i2c_state := mk_i2c_state {
  dvb_i2c_buslist : list dvb_i2c_bus;
  dvb_i2c_devicelist : list dvb_i2c_device;
  dvb_i2c_mutex : bool;
  refs : Z -> Z;
  mem : list bool;
  next_bus : Z;
  world : W;
}.
#[export] Instance i2c_state_eta : Eta i2c_state := fun r =>
  mk_i2c_state (dvb_i2c_buslist r) (dvb_i2c_devicelist r) (dvb_i2c_mutex r) (refs r) (mem r)
    (next_bus r) (world r).
Definition set_dvb_i2c_buslist := setter! dvb_i2c_buslist.
Definition set_dvb_i2c_devicelist := setter! dvb_i2c_devicelist.
Definition set_dvb_i2c_mutex := setter! dvb_i2c_mutex.
Definition set_refs := setter! refs.
Definition set_mem := setter! mem.
Definition set_next_bus := setter! next_bus.
Definition set_world := setter! world.

Abbreviation IM := (M i2c_state).

Definition kmalloc : IM bool :=
  fun s => match mem s with
           | [] => Ok (true, s)
           | b :: l => Ok (b, set_mem l s)
           end.

Definition add_ref (m by_ : Z) (s : i2c_state) : i2c_state :=
  set_refs (fun k => if k =? m then refs s k + by_ else refs s k) s.
Definition try_module_get (m : Z) : IM bool :=
  if module_live m then mmodify (add_ref m 1) ;;; mret_ true else mret_ false.
Definition module_put (m : Z) : IM unit := mmodify (add_ref m (-1)).

Definition down (signal : bool) : IM bool :=
  fun s => if dvb_i2c_mutex s then (if signal then Ok (true, s) else Block)
           else Ok (false, set_dvb_i2c_mutex true s).
Definition up : IM unit := mmodify (set_dvb_i2c_mutex false).

(** ** Clients *)

Definition register_i2c_client (i2c : dvb_i2c_bus) (dev : dvb_i2c_device) : IM (Z * dvb_i2c_bus) :=
  let! ok := kmalloc in
  if negb ok then mret_ (- ENOMEM, i2c)
  else mret_ (0, set_client_list
                   (client_list i2c ++ [mk_i2c_client (owner dev) (detach dev) (data dev)]) i2c).

Definition try_attach_device (i2c : dvb_i2c_bus) (dev : dvb_i2c_device)
    : IM (dvb_i2c_bus * dvb_i2c_device) :=
  let! got := (if owner dev =? 0 then mret_ true else try_module_get (owner dev)) in
  if negb got then mret_ (i2c, dev) else
  let! s := mget in
  let r := attach_fn (attach dev) (bus_ptr i2c) (data dev) (world s) in
  mput (set_world r.2 s) ;;;
  let dev := set_data r.1.2 dev in
  if r.1.1 =? 0 then
    let! c := register_i2c_client i2c dev in
    mret_ (c.2, dev)
  else
    (if owner dev =? 0 then mret_ tt else module_put (owner dev)) ;;;
    mret_ (i2c, dev).

(** [dev] may be a device or a client; of it only these fields are used. *)
Definition detach_device (bus detach_ owner_ data_ : Z) : IM unit :=
  mmodify (fun s => set_world (detach_fn detach_ bus data_ (world s)) s) ;;;
  (if owner_ =? 0 then mret_ tt else module_put owner_).

Fixpoint unregister_loop (bus detach_ owner_ data_ : Z) (l : list i2c_client) : IM (list i2c_client) :=
  match l with
  | [] => mret_ []
  | c :: l =>
      if cl_detach c =? detach_ then
        detach_device bus detach_ owner_ data_ ;;;
        unregister_loop bus detach_ owner_ data_ l
      else
        let! k := unregister_loop bus detach_ owner_ data_ l in
        mret_ (c :: k)
  end.

Definition unregister_i2c_client_from_bus (detach_ owner_ data_ : Z) (i2c : dvb_i2c_bus) : IM dvb_i2c_bus :=
  let! l := unregister_loop (bus_ptr i2c) detach_ owner_ data_ (client_list i2c) in
  mret_ (set_client_list l i2c).

Fixpoint all_busses_loop (dev : dvb_i2c_device) (l : list dvb_i2c_bus) : IM (list dvb_i2c_bus) :=
  match l with
  | [] => mret_ []
  | b :: l =>
      let! b := unregister_i2c_client_from_bus (detach dev) (owner dev) (data dev) b in
      let! l := all_busses_loop dev l in
      mret_ (b :: l)
  end.

Definition unregister_i2c_client_from_all_busses (dev : dvb_i2c_device) : IM unit :=
  let! s := mget in
  let! l := all_busses_loop dev (dvb_i2c_buslist s) in
  mmodify (set_dvb_i2c_buslist l).

(** The entry of each round is the first of the list, because a round removes
    every client with its [detach].  [list_for_each_safe] has the next entry
    saved; if the round removed that one too, the loop follows the link of a
    removed entry, which is undefined.  Each round removes an entry: the fuel is the length. *)
Fixpoint all_clients_loop (fuel : nat) (bus : Z) (l : list i2c_client) : IM (list i2c_client) :=
  match l with
  | [] => mret_ []
  | c :: rest =>
      match fuel with
      | O => fun _ => Diverge
      | S fuel =>
          let! k := unregister_loop bus (cl_detach c) (cl_owner c) (cl_data c) l in
          match rest with
          | [] => mret_ k
          | n :: _ => if cl_detach n =? cl_detach c then mfault else all_clients_loop fuel bus k
          end
      end
  end.

Definition unregister_all_clients_from_bus (i2c : dvb_i2c_bus) : IM dvb_i2c_bus :=
  let! l := all_clients_loop (length (client_list i2c)) (bus_ptr i2c) (client_list i2c) in
  mret_ (set_client_list l i2c).

(** ** Probing *)

Fixpoint probe_busses_loop (dev : dvb_i2c_device) (l : list dvb_i2c_bus)
    : IM (dvb_i2c_device * list dvb_i2c_bus) :=
  match l with
  | [] => mret_ (dev, [])
  | b :: l =>
      let! r := try_attach_device b dev in
      let! p := probe_busses_loop r.2 l in
      mret_ (p.1, r.1 :: p.2)
  end.

Definition probe_device_on_all_busses (dev : dvb_i2c_device) : IM dvb_i2c_device :=
  let! s := mget in
  let! p := probe_busses_loop dev (dvb_i2c_buslist s) in
  mmodify (set_dvb_i2c_buslist p.2) ;;;
  mret_ p.1.

Fixpoint probe_devices_loop (i2c : dvb_i2c_bus) (l : list dvb_i2c_device)
    : IM (dvb_i2c_bus * list dvb_i2c_device) :=
  match l with
  | [] => mret_ (i2c, [])
  | d :: l =>
      let! r := try_attach_device i2c d in
      let! p := probe_devices_loop r.1 l in
      mret_ (p.1, r.2 :: p.2)
  end.

Definition probe_devices_on_bus (i2c : dvb_i2c_bus) : IM dvb_i2c_bus :=
  let! s := mget in
  let! p := probe_devices_loop i2c (dvb_i2c_devicelist s) in
  mmodify (set_dvb_i2c_devicelist p.2) ;;;
  mret_ p.1.

(** ** Registration *)

Definition is_bus (xfer_ adapter id : Z) (b : dvb_i2c_bus) : bool :=
  (xfer b =? xfer_) && (bus_adapter b =? adapter) && (bus_id b =? id).

Definition dvb_find_i2c_bus (xfer_ adapter id : Z) (l : list dvb_i2c_bus) : option dvb_i2c_bus :=
  find (is_bus xfer_ adapter id) l.

(** The pointer to the new bus, or [None] for [NULL]. *)
Definition dvb_register_i2c_bus (xfer_ data_ adapter id : Z) (signal : bool) : IM (option Z) :=
  let! intr := down signal in
  if intr : bool then mret_ None else
  let! ok := kmalloc in
  if negb ok then mret_ None else
  let! s := mget in
  let p := next_bus s in
  mmodify (set_next_bus (p + 1)) ;;;
  let! b := probe_devices_on_bus (mk_dvb_i2c_bus p xfer_ data_ adapter id []) in
  mmodify (fun s => set_dvb_i2c_buslist (dvb_i2c_buslist s ++ [b]) s) ;;;
  up ;;;
  mret_ (Some p).

Definition dvb_unregister_i2c_bus (xfer_ adapter id : Z) : IM unit :=
  let! _ := down false in
  let! s := mget in
  match dvb_find_i2c_bus xfer_ adapter id (dvb_i2c_buslist s) with
  | Some b =>
      let! _ := unregister_all_clients_from_bus b in
      mmodify (fun s => set_dvb_i2c_buslist
        (filter (fun c => bus_ptr c <> bus_ptr b) (dvb_i2c_buslist s)) s) ;;;
      up
  | None => up
  end.

(** [junk]: what the new entry's [data], which is not set, happens to be. *)
Definition dvb_register_i2c_device (owner_ attach_ detach_ junk : Z) (signal : bool) : IM Z :=
  let! intr := down signal in
  if intr : bool then mret_ (- ERESTARTSYS) else
  let! ok := kmalloc in
  if negb ok then mret_ (- ENOMEM) else
  let! dev := probe_device_on_all_busses (mk_dvb_i2c_device owner_ attach_ detach_ junk) in
  mmodify (fun s => set_dvb_i2c_devicelist (dvb_i2c_devicelist s ++ [dev]) s) ;;;
  up ;;;
  mret_ 0.

(** The first device with this [attach], and the list without it. *)
Fixpoint take_device (attach_ : Z) (l : list dvb_i2c_device)
    : option (dvb_i2c_device * list dvb_i2c_device) :=
  match l with
  | [] => None
  | d :: l =>
      if attach d =? attach_ then Some (d, l)
      else option_map (fun p => (p.1, d :: p.2)) (take_device attach_ l)
  end.

Definition dvb_unregister_i2c_device (attach_ : Z) : IM Z :=
  let! _ := down false in
  let! s := mget in
  match take_device attach_ (dvb_i2c_devicelist s) with
  | Some (dev, l) =>
      mmodify (set_dvb_i2c_devicelist l) ;;;
      unregister_i2c_client_from_all_busses dev ;;;
      up ;;;
      mret_ 0
  | None => up ;;; mret_ (- EINVAL)
  end.

End I2c.
