(* ===== verification/DvbI2cSpec.v ===== *)
(** * Which drivers are on which buses

    The clients of a bus are at any time the drivers that fit it, and the use
    counts of the modules are the numbers of their clients.  Then the failures:
    data passed to [detach], memory that is not found. *)

From S2P Require Import Prelude DvbI2c.

Section Clients.
Context {W : Type} `{!I2cDrivers W}.
Abbreviation IS := (@i2c_state W).

(** Whether a driver finds its chip on a bus is a fact about the hardware. *)
Context (fits : Z -> Z -> bool).
Context (Hfits : forall a b x w, (attach_fn a b x w).1.1 = 0 <-> fits a b = true).

Definition wanted (b : Z) (d : dvb_i2c_device) : bool :=
  ((owner d =? 0) || module_live (owner d)) && fits (attach d) b.

Definition client_key (c : i2c_client) : Z * Z := (cl_owner c, cl_detach c).
Definition device_key (d : dvb_i2c_device) : Z * Z := (owner d, detach d).

Definition fitting (b : Z) (l : list dvb_i2c_device) : list dvb_i2c_device :=
  filter (fun d => wanted b d = true) l.
#[local] Arguments fitting : simpl never.

(** Clients of a module, on one bus and on all. *)
Definition count (m : Z) (l : list i2c_client) : Z := zlen (filter (fun c => cl_owner c = m) l).
Definition uses (m : Z) (l : list dvb_i2c_bus) : Z := foldr (fun b n => count m (client_list b) + n) 0 l.
#[local] Arguments uses : simpl never.

(** ** What the loops do

    They change the use counts and the world; the rest is returned. *)
Definition moved (s : IS) (r : Z -> Z) (w : W) : IS := set_world w (set_refs r s).

Lemma moved_moved s r w r' w' : moved (moved s r w) r' w' = moved s r' w'.
Proof. done. Qed.

Lemma count_app m l k : count m (l ++ k) = count m l + count m k.
Proof. unfold count. by rewrite list.filter_app, zlen_app. Qed.

Lemma count_one m c : count m [c] = c_bool (cl_owner c =? m).
Proof.
  unfold count. cbn [filter list_filter]. destruct (Z.eqb_spec (cl_owner c) m).
  - by rewrite decide_True.
  - by rewrite decide_False.
Qed.

Lemma count_cons m c l : count m (c :: l) = c_bool (cl_owner c =? m) + count m l.
Proof. by rewrite <- count_one, <- count_app. Qed.

Lemma uses_app m l k : uses m (l ++ k) = uses m l + uses m k.
Proof. unfold uses. induction l as [|b l IH]; cbn; [lia|]. rewrite IH. lia. Qed.

Lemma kmalloc_ok (s : IS) : mem s = [] -> kmalloc s = Ok (true, s).
Proof. unfold kmalloc. by intros ->. Qed.

Definition with_client (d : dvb_i2c_device) (x : Z) (b : dvb_i2c_bus) : dvb_i2c_bus :=
  set_client_list (client_list b ++ [mk_i2c_client (owner d) (detach d) x]) b.

Lemma attach_live_run b d (s : IS) :
  mem s = [] -> exists x r w,
    (let! s := mget in
     let r := attach_fn (attach d) (bus_ptr b) (data d) (world s) in
     mput (set_world r.2 s) ;;;
     let dev := set_data r.1.2 d in
     if r.1.1 =? 0 then let! c := register_i2c_client b dev in mret_ (c.2, dev)
     else (if owner dev =? 0 then mret_ tt else module_put (owner dev)) ;;; mret_ (b, dev)) s =
      Ok ((if fits (attach d) (bus_ptr b) then with_client d x b else b, set_data x d), moved s r w) /\
    forall m, m <> 0 -> r m = refs s m - c_bool (negb (fits (attach d) (bus_ptr b)) && (owner d =? m)).
Proof.
  intros Hm. unfold mbind_. cbn [res_bind mget mput fst snd].
  pose proof (Hfits (attach d) (bus_ptr b) (data d) (world s)) as Hf.
  destruct (attach_fn (attach d) (bus_ptr b) (data d) (world s)) as [[e x] w] eqn:Ea. cbn in Hf |- *.
  destruct (fits _ _).
  - assert (e = 0) as -> by by apply Hf. cbn [Z.eqb].
    unfold register_i2c_client, mbind_. rewrite kmalloc_ok by done.
    exists x, (refs s), w. split; [done|]. intros m. cbn. lia.
  - assert (e <> 0) as He by (intros ->; by apply diff_false_true, Hf). rif.
    exists x, (if owner d =? 0 then refs s else refs (add_ref (owner d) (-1) s)), w.
    destruct (Z.eqb_spec (owner d) 0) as [H0|H0]; (split; [done|]); intros m Hm0; cbn.
    + rewrite H0. replace (0 =? m) with false by lia. cbn. lia.
    + rewrite (Z.eqb_sym m). destruct (owner d =? m); cbn; lia.
Qed.

Lemma try_attach_run b d (s : IS) :
  mem s = [] -> exists x r w,
    try_attach_device b d s =
      Ok ((if wanted (bus_ptr b) d then with_client d x b else b, set_data x d), moved s r w) /\
    forall m, m <> 0 -> r m = refs s m + c_bool (wanted (bus_ptr b) d && (owner d =? m)).
Proof.
  intros Hm. unfold try_attach_device, try_module_get, wanted.
  destruct (Z.eqb_spec (owner d) 0) as [H0|H0]; cbn [orb andb].
  - destruct (attach_live_run b d s Hm) as (x & r & w & E & Hr).
    exists x, r, w. rewrite mret_bind. cbn [negb]. cbv zeta in E. rewrite E. split; [done|].
    intros m Hm0. rewrite Hr, H0 by done. replace (0 =? m) with false by lia. rewrite !andb_false_r. cbn. lia.
  - destruct (module_live (owner d)); cbn [andb].
    + destruct (attach_live_run b d (add_ref (owner d) 1 s)) as (x & r & w & E & Hr); [done|].
      exists x, r, w. rewrite mbind_bind, mmodify_bind, mret_bind. cbn [negb]. cbv zeta in E. rewrite E.
      split; [done|]. intros m Hm0. rewrite Hr by done. cbn. rewrite (Z.eqb_sym m).
      destruct (fits _ _), (owner d =? m); cbn; lia.
    + exists (data d), (refs s), (world s). split; [by destruct s, d|]. intros m _. cbn. lia.
Qed.

(** A driver on a bus: the bus afterwards. *)
Definition probed (d : dvb_i2c_device) (b b' : dvb_i2c_bus) : Prop :=
  exists x, b' = if wanted (bus_ptr b) d then with_client d x b else b.

Lemma probed_count d b b' m :
  probed d b b' -> count m (client_list b') =
    count m (client_list b) + c_bool (wanted (bus_ptr b) d && (owner d =? m)).
Proof.
  intros (x & ->). destruct (wanted _ d); cbn [andb]; [|cbn; lia].
  unfold with_client. cbn [client_list set_client_list]. by rewrite count_app, count_one.
Qed.

Lemma probe_busses_run l : forall d (s : IS),
  mem s = [] -> exists x l' r w,
    probe_busses_loop d l s = Ok ((set_data x d, l'), moved s r w) /\ Forall2 (probed d) l l' /\
    forall m, m <> 0 -> r m = refs s m + (uses m l' - uses m l).
Proof.
  induction l as [|b l IH]; intros d s Hm; cbn [probe_busses_loop].
  - exists (data d), [], (refs s), (world s). split; [by destruct s, d|]. split; [constructor|].
    intros m _. lia.
  - destruct (try_attach_run b d s Hm) as (x & r & w & E & Hr). rewrite (mbind_Ok _ _ _ _ _ E).
    cbn [fst snd]. destruct (IH (set_data x d) (moved s r w) Hm) as (y & l' & r' & w' & E' & Hl & Hr').
    rewrite (mbind_Ok _ _ _ _ _ E'). cbn [fst snd].
    eexists y, _, r', w'. split; [done|].
    assert (probed d b (if wanted (bus_ptr b) d then with_client d x b else b)) as Hp by by exists x.
    split; [constructor; done|]. intros m Hm0. rewrite Hr' by done. cbn [refs moved set_world set_refs].
    change (refs (moved s r w) m) with (r m). rewrite Hr by done. unfold uses in *. cbn [foldr].
    rewrite (probed_count d b _ m Hp). unfold uses. lia.
Qed.

(** The clients of a bus that is probed with a list of drivers. *)
Lemma probe_devices_run l : forall b (s : IS),
  mem s = [] -> exists b' l' r w,
    probe_devices_loop b l s = Ok ((b', l'), moved s r w) /\
    Forall2 (fun d d' => exists x, d' = set_data x d) l l' /\
    (exists k, b' = set_client_list k b) /\
    map client_key (client_list b') = map client_key (client_list b) ++ map device_key (fitting (bus_ptr b) l) /\
    forall m, m <> 0 -> r m = refs s m + (count m (client_list b') - count m (client_list b)).
Proof.
  induction l as [|d l IH]; intros b s Hm; cbn [probe_devices_loop].
  - exists b, [], (refs s), (world s). split; [by destruct s|]. split; [constructor|].
    split; [exists (client_list b); by destruct b|]. split; [by rewrite app_nil_r|]. intros m _. lia.
  - destruct (try_attach_run b d s Hm) as (x & r & w & E & Hr). rewrite (mbind_Ok _ _ _ _ _ E).
    cbn [fst snd]. set (b1 := if wanted (bus_ptr b) d then with_client d x b else b) in *.
    assert (probed d b b1) as Hp by by exists x.
    destruct (IH b1 (moved s r w) Hm) as (b' & l' & r' & w' & E' & Hl & (k & Hk) & Hc & Hr').
    rewrite (mbind_Ok _ _ _ _ _ E'). cbn [fst snd].
    eexists b', _, r', w'. split; [done|]. split; [constructor; eauto|].
    assert (bus_ptr b1 = bus_ptr b) as Hb by (subst b1; by destruct (wanted _ _)).
    split; [|split].
    + exists k. rewrite Hk. subst b1. by destruct (wanted _ _).
    + rewrite Hc, Hb. unfold fitting. rewrite filter_cons. subst b1.
      destruct (wanted (bus_ptr b) d); cbn; [|done].
      by rewrite map_app, <- app_assoc.
    + intros m Hm0. rewrite Hr' by done. change (refs (moved s r w) m) with (r m). rewrite Hr by done.
      rewrite (probed_count d b b1 m Hp). lia.
Qed.

(** ** Detaching *)

Abbreviation others x l := (filter (fun c => cl_detach c <> x) l).
Abbreviation those x l := (filter (fun c => cl_detach c = x) l).

Lemma detach_run bus x o y (s : IS) : exists r,
  detach_device bus x o y s = Ok (tt, moved s r (detach_fn x bus y (world s))) /\
  forall m, m <> 0 -> r m = refs s m - c_bool (o =? m).
Proof.
  unfold detach_device, module_put, mbind_. cbn [mmodify res_bind fst snd].
  destruct (Z.eqb_spec o 0) as [->|Ho].
  - exists (refs s). split; [done|]. intros m Hm. replace (0 =? m) with false by lia. cbn. lia.
  - exists (refs (add_ref o (-1) s)). split; [done|]. intros m Hm. cbn. rewrite (Z.eqb_sym m).
    destruct (o =? m); cbn; lia.
Qed.

Lemma unregister_loop_run bus x o y l : forall (s : IS), exists r,
  unregister_loop bus x o y l s =
    Ok (others x l, moved s r (Nat.iter (length (those x l)) (detach_fn x bus y) (world s))) /\
  forall m, m <> 0 -> r m = refs s m - c_bool (o =? m) * zlen (those x l).
Proof.
  induction l as [|c l IH]; intros s; cbn [unregister_loop].
  - exists (refs s). split; [by destruct s|]. intros m _. unfold zlen. simpl. lia.
  - rewrite !filter_cons. destruct (Z.eqb_spec (cl_detach c) x) as [->|Hx].
    + rewrite decide_False, decide_True by (done || by intros ?).
      destruct (detach_run bus x o y s) as (r & E & Hr). rewrite (mbind_Ok _ _ _ _ _ E).
      destruct (IH (moved s r (detach_fn x bus y (world s)))) as (r' & E' & Hr').
      exists r'. rewrite E'. split.
      * cbn [length]. by rewrite Nat.iter_succ_r.
      * intros m Hm. rewrite Hr' by done. change (refs (moved s r _) m) with (r m). rewrite Hr by done.
        rewrite zlen_cons. lia.
    + rewrite decide_True, decide_False by done. destruct (IH s) as (r & E & Hr).
      exists r. rewrite (mbind_Ok _ _ _ _ _ E). done.
Qed.

Definition without_client (x : Z) (b : dvb_i2c_bus) : dvb_i2c_bus :=
  set_client_list (others x (client_list b)) b.

Lemma count_split m x l : count m l = count m (others x l) + count m (those x l).
Proof.
  induction l as [|c l IH]; [done|]. rewrite !filter_cons.
  destruct (decide (cl_detach c = x)) as [Hx|Hx];
    [rewrite decide_False by (by intros ?)|rewrite decide_True by done]; rewrite !count_cons, IH; lia.
Qed.

Lemma count_those m x o l :
  (forall c, c ∈ l -> cl_detach c = x -> cl_owner c = o) ->
  count m (those x l) = c_bool (o =? m) * zlen (those x l).
Proof.
  induction l as [|c l IH]; intros Ho; [unfold count, zlen; simpl; lia|]. rewrite !filter_cons.
  assert (forall c, c ∈ l -> cl_detach c = x -> cl_owner c = o) as Ho' by (intros; apply Ho; [by right|done]).
  destruct (decide (cl_detach c = x)) as [Hx|Hx]; [|by apply IH].
  rewrite count_cons, zlen_cons, IH, (Ho c) by (done || by left).
  destruct (o =? m); cbn [c_bool]; lia.
Qed.

Lemma all_busses_run d l : forall (s : IS),
  (forall b c, b ∈ l -> c ∈ client_list b -> cl_detach c = detach d -> cl_owner c = owner d) ->
  exists r w, all_busses_loop d l s = Ok (map (without_client (detach d)) l, moved s r w) /\
    forall m, m <> 0 -> r m = refs s m + (uses m (map (without_client (detach d)) l) - uses m l).
Proof.
  induction l as [|b l IH]; intros s Ho; cbn [all_busses_loop].
  - exists (refs s), (world s). split; [by destruct s|]. intros m _. unfold uses. cbn. lia.
  - unfold unregister_i2c_client_from_bus. rewrite mbind_bind.
    destruct (unregister_loop_run (bus_ptr b) (detach d) (owner d) (data d) (client_list b) s)
      as (r & E & Hr). rewrite (mbind_Ok _ _ _ _ _ E). mrun.
    match goal with |- context [mbind_ _ _ ?s1] => destruct (IH s1) as (r' & w' & E' & Hr') end;
      [intros b' c Hb; apply Ho; by right|].
    rewrite (mbind_Ok _ _ _ _ _ E'). exists r', w'. split; [done|]. intros m Hm.
    rewrite Hr' by done. change (refs (moved s r _) m) with (r m). rewrite Hr by done.
    unfold uses. cbn [map foldr]. change (client_list (without_client (detach d) b)) with (others (detach d) (client_list b)).
    rewrite (count_split m (detach d) (client_list b)).
    rewrite (count_those m (detach d) (owner d)) by (intros c Hc; apply (Ho b); [by left|done]). lia.
Qed.

Definition detach_all (bus : Z) (l : list i2c_client) (w : W) : W :=
  foldl (fun w c => detach_fn (cl_detach c) bus (cl_data c) w) w l.

Lemma others_not_in x l : x ∉ map cl_detach l -> others x l = l /\ those x l = [].
Proof.
  induction l as [|c l IH]; [done|]. intros [Hn Hl]%not_elem_of_cons. destruct (IH Hl) as [E1 E2].
  rewrite !filter_cons, decide_True, decide_False by congruence. by rewrite E1.
Qed.

Lemma all_clients_run bus l : forall fuel (s : IS),
  NoDup (map cl_detach l) -> (length l <= fuel)%nat ->
  exists r, all_clients_loop fuel bus l s = Ok ([], moved s r (detach_all bus l (world s))) /\
    forall m, m <> 0 -> r m = refs s m - count m l.
Proof.
  induction l as [|c l IH]; intros fuel s Hnd Hf.
  - exists (refs s). split; [destruct fuel; by destruct s|]. intros m _. unfold count, zlen. simpl. lia.
  - destruct fuel as [|fuel]; [simpl in Hf; lia|]. cbn [all_clients_loop].
    pose proof (NoDup_cons_1_1 _ _ Hnd) as Hc. apply NoDup_cons_1_2 in Hnd. destruct (others_not_in (cl_detach c) l Hc) as [E1 E2].
    destruct (unregister_loop_run bus (cl_detach c) (cl_owner c) (cl_data c) (c :: l) s) as (r & E & Hr).
    rewrite (mbind_Ok _ _ _ _ _ E).
    rewrite !filter_cons, decide_False, decide_True, E1, E2 by (done || by intros ?).
    rewrite !filter_cons, decide_True, E2 in Hr by done.
    destruct l as [|n l].
    + exists r. split; [done|]. intros m Hm. rewrite Hr, count_one by done. unfold zlen. simpl. lia.
    + replace (cl_detach n =? cl_detach c) with false
        by (symmetry; apply Z.eqb_neq; intros Hn; apply Hc; rewrite <- Hn; by left).
      match goal with |- context [all_clients_loop _ _ _ ?s1] =>
        destruct (IH fuel s1) as (r' & E' & Hr') end; [done|simpl in *; lia|].
      rewrite E'. exists r'. split; [done|]. intros m Hm. rewrite Hr' by done.
      change (refs (moved s r _) m) with (r m). rewrite Hr by done. rewrite (count_cons m c). unfold zlen. simpl. lia.
Qed.

(** ** The invariant *)

Record i2c_ok (s : IS) : Prop := {
  ok_clients b : b ∈ dvb_i2c_buslist s ->
    map client_key (client_list b) ≡ₚ map device_key (fitting (bus_ptr b) (dvb_i2c_devicelist s));
  ok_detach : NoDup (map detach (dvb_i2c_devicelist s));
  ok_bus : NoDup (map bus_ptr (dvb_i2c_buslist s));
  ok_next b : b ∈ dvb_i2c_buslist s -> bus_ptr b < next_bus s;
  ok_refs m : m <> 0 -> refs s m = uses m (dvb_i2c_buslist s);
  ok_mutex : dvb_i2c_mutex s = false;
  ok_mem : mem s = [];
}.

Inductive i2c_call :=
| RegBus (xfer_ data_ adapter id : Z) (signal : bool)
| UnregBus (xfer_ adapter id : Z)
| RegDevice (owner_ attach_ detach_ junk : Z) (signal : bool)
| UnregDevice (attach_ : Z).

Definition i2c_run (c : i2c_call) : M IS unit :=
  match c with
  | RegBus x y a i signal => dvb_register_i2c_bus x y a i signal ;;; mret_ tt
  | UnregBus x a i => dvb_unregister_i2c_bus x a i
  | RegDevice o a x j signal => dvb_register_i2c_device o a x j signal ;;; mret_ tt
  | UnregDevice a => dvb_unregister_i2c_device a ;;; mret_ tt
  end.

(** Each driver has a [detach] of its own. *)
Definition call_ok (c : i2c_call) (s : IS) : Prop :=
  match c with
  | RegDevice _ _ x _ _ => x ∉ map detach (dvb_i2c_devicelist s)
  | _ => True
  end.

Definition i2c_init (w : W) : IS := mk_i2c_state [] [] false (fun _ => 0) [] 1 w.

Inductive i2c_reachable : IS -> Prop :=
| i2c_start w : i2c_reachable (i2c_init w)
| i2c_step s c s' : i2c_reachable s -> call_ok c s -> i2c_run c s = Ok (tt, s') -> i2c_reachable s'.

(** Drivers whose [data] changed. *)
Abbreviation same_drivers := (Forall2 (fun d d' => exists x, d' = set_data x d)).

Lemma same_drivers_fitting l l' b : same_drivers l l' ->
  map device_key (fitting b l') = map device_key (fitting b l) /\ map detach l' = map detach l.
Proof.
  induction 1 as [|d d' l l' (x & ->) _ (IH1 & IH2)]; [done|].
  unfold fitting in *. rewrite !filter_cons. change (wanted b (set_data x d)) with (wanted b d).
  cbn [map]. split; [|by rewrite IH2]. destruct (decide _); cbn [map]; by rewrite IH1.
Qed.

Lemma fitting_app b l k : fitting b (l ++ k) = fitting b l ++ fitting b k.
Proof. unfold fitting. by rewrite list.filter_app. Qed.

Lemma keys_detach (l : list i2c_client) : map cl_detach l = map snd (map client_key l).
Proof. by rewrite map_map. Qed.

(** The clients of a bus have different [detach]es, and the owner their driver
    has. *)
Lemma clients_nodup s b : i2c_ok s -> b ∈ dvb_i2c_buslist s -> NoDup (map cl_detach (client_list b)).
Proof.
  intros Hok Hb. rewrite keys_detach, (ok_clients s Hok b Hb), map_map.
  pose proof (ok_detach s Hok) as Hnd.
  apply (sublist_NoDup _ (map detach (dvb_i2c_devicelist s))); [done|].
  apply (fmap_sublist detach), sublist_filter.
Qed.

Lemma down_run signal (s : IS) : dvb_i2c_mutex s = false -> down signal s = Ok (false, set_dvb_i2c_mutex true s).
Proof. unfold down. by intros ->. Qed.

Lemma reg_bus_run s x y a i signal :
  i2c_ok s -> exists b l r w,
    dvb_register_i2c_bus x y a i signal s =
      Ok (Some (next_bus s), mk_i2c_state (dvb_i2c_buslist s ++ [b]) l false r [] (next_bus s + 1) w) /\
    same_drivers (dvb_i2c_devicelist s) l /\ bus_ptr b = next_bus s /\
    map client_key (client_list b) = map device_key (fitting (next_bus s) (dvb_i2c_devicelist s)) /\
    forall m, m <> 0 -> r m = refs s m + count m (client_list b).
Proof.
  intros Hok. pose proof (ok_mem s Hok) as Hm. unfold dvb_register_i2c_bus.
  rewrite (mbind_Ok _ _ _ _ _ (down_run signal s (ok_mutex s Hok))).
  rewrite (mbind_Ok _ _ _ _ _ (kmalloc_ok (set_dvb_i2c_mutex true s) Hm)). mrun.
  unfold probe_devices_on_bus. mrun.
  match goal with |- context [probe_devices_loop ?b ?l] =>
    match goal with |- context [mbind_ _ _ ?s1] =>
      destruct (probe_devices_run l b s1 Hm) as (b' & l' & r & w & E & Hl & (k & Hk) & Hc & Hr) end end.
  rewrite (mbind_Ok _ _ _ _ _ E). exists b', l', r, w. split; [|split; [done|split; [by rewrite Hk|]]].
  - mrun. clear -Hm. destruct s. cbn in *. by subst.
  - split; [done|]. intros m Hm0. rewrite Hr by done. cbn. change (count m []) with 0. lia.
Qed.

Lemma reg_bus_ok s x y a i signal s' r :
  i2c_ok s -> dvb_register_i2c_bus x y a i signal s = Ok (r, s') -> i2c_ok s'.
Proof.
  intros Hok E. destruct (reg_bus_run s x y a i signal Hok) as (b & l & r' & w & E' & Hl & Hb & Hc & Hr).
  rewrite E' in E. injection E as _ <-. pose proof (same_drivers_fitting _ _ 0 Hl) as [_ Hd].
  split; cbn; try done.
  - intros c Hin. rewrite (proj1 (same_drivers_fitting _ _ (bus_ptr c) Hl)).
    apply elem_of_app in Hin as [Hc'| ->%list_elem_of_singleton]; [by apply (ok_clients s Hok)|].
    by rewrite Hc, Hb.
  - rewrite Hd. apply (ok_detach s Hok).
  - rewrite map_app. apply list.NoDup_app. split; [apply (ok_bus s Hok)|]. split; [|apply NoDup_singleton].
    intros p (c & -> & Hin)%list_elem_of_fmap Hp%list_elem_of_singleton.
    pose proof (ok_next s Hok c Hin). lia.
  - intros c [H1| ->%list_elem_of_singleton]%elem_of_app; [pose proof (ok_next s Hok c H1)|]; lia.
  - intros m Hm. rewrite Hr, (ok_refs s Hok), uses_app by done. unfold uses. cbn. lia.
Qed.
Lemma filter_other_buses p l : p ∉ map bus_ptr l -> filter (fun c => bus_ptr c <> p) l = l.
Proof.
  induction l as [|c l IH]; [done|]. intros [Hn Hl]%not_elem_of_cons.
  rewrite filter_cons, decide_True by congruence. by rewrite IH.
Qed.

Lemma uses_remove m l b :
  b ∈ l -> NoDup (map bus_ptr l) ->
  uses m (filter (fun c => bus_ptr c <> bus_ptr b) l) = uses m l - count m (client_list b).
Proof.
  induction l as [|c l IH]; [by intros ?%not_elem_of_nil|]. intros Hb Hnd.
  pose proof (NoDup_cons_1_1 _ _ Hnd) as Hc. apply NoDup_cons_1_2 in Hnd.
  rewrite filter_cons. apply elem_of_cons in Hb as [->|Hb].
  - rewrite decide_False by (by intros ?). rewrite filter_other_buses by done. unfold uses. cbn. lia.
  - rewrite decide_True by (intros E; apply Hc; rewrite E; by apply list_elem_of_fmap_2).
    unfold uses in *. cbn. rewrite IH by done. lia.
Qed.

Lemma unreg_bus_run s x a i :
  i2c_ok s -> exists r,
    dvb_unregister_i2c_bus x a i s =
      match dvb_find_i2c_bus x a i (dvb_i2c_buslist s) with
      | None => Ok (tt, s)
      | Some b =>
          Ok (tt, mk_i2c_state (filter (fun c => bus_ptr c <> bus_ptr b) (dvb_i2c_buslist s))
                    (dvb_i2c_devicelist s) false r [] (next_bus s)
                    (detach_all (bus_ptr b) (client_list b) (world s)))
      end /\
    forall m b, m <> 0 -> dvb_find_i2c_bus x a i (dvb_i2c_buslist s) = Some b ->
      r m = refs s m - count m (client_list b).
Proof.
  intros Hok. pose proof (ok_mem s Hok) as Hm. pose proof (ok_mutex s Hok) as Hl.
  unfold dvb_unregister_i2c_bus. rewrite (mbind_Ok _ _ _ _ _ (down_run false s Hl)). mrun.
  change (dvb_i2c_buslist (set_dvb_i2c_mutex true s)) with (dvb_i2c_buslist s).
  destruct (dvb_find_i2c_bus _ _ _ _) as [b|] eqn:Eb.
  - apply find_some in Eb as [Hb%list_elem_of_In _].
    destruct (all_clients_run (bus_ptr b) (client_list b) (length (client_list b)) (set_dvb_i2c_mutex true s))
      as (r & E & Hr); [by apply (clients_nodup s)|done|].
    unfold unregister_all_clients_from_bus. rewrite mbind_bind, (mbind_Ok _ _ _ _ _ E). mrun.
    exists r. split.
    + clear -Hm. destruct s. cbn in *. by subst.
    + intros m b' Hm0 [= <-]. by rewrite Hr.
  - exists (refs s). split; [|done]. clear -Hl. destruct s. cbn in *. by subst.
Qed.

Lemma unreg_bus_ok s x a i s' : i2c_ok s -> dvb_unregister_i2c_bus x a i s = Ok (tt, s') -> i2c_ok s'.
Proof.
  intros Hok E. destruct (unreg_bus_run s x a i Hok) as (r & E' & Hr). rewrite E' in E. clear E'.
  destruct (dvb_find_i2c_bus _ _ _ _) as [b|] eqn:Eb; injection E as <-; [|done].
  pose proof Eb as [Hb%list_elem_of_In _]%find_some. split; cbn; try done.
  - intros c [_ Hc]%list_elem_of_filter. by apply (ok_clients s Hok).
  - apply (ok_detach s Hok).
  - apply (sublist_NoDup _ _ (ok_bus s Hok)), (fmap_sublist bus_ptr), sublist_filter.
  - intros c [_ Hc]%list_elem_of_filter. by apply (ok_next s Hok).
  - intros m Hm. by rewrite (Hr m b), (ok_refs s Hok), uses_remove by (done || apply (ok_bus s Hok)).
Qed.

(** Registering a driver tries it on each bus. *)
Lemma reg_device_run s o a x j signal :
  i2c_ok s -> exists y l r w,
    dvb_register_i2c_device o a x j signal s =
      Ok (0, mk_i2c_state l (dvb_i2c_devicelist s ++ [mk_dvb_i2c_device o a x y]) false r []
               (next_bus s) w) /\
    Forall2 (probed (mk_dvb_i2c_device o a x j)) (dvb_i2c_buslist s) l /\
    forall m, m <> 0 -> r m = refs s m + (uses m l - uses m (dvb_i2c_buslist s)).
Proof.
  intros Hok. pose proof (ok_mem s Hok) as Hm. unfold dvb_register_i2c_device.
  rewrite (mbind_Ok _ _ _ _ _ (down_run signal s (ok_mutex s Hok))).
  rewrite (mbind_Ok _ _ _ _ _ (kmalloc_ok (set_dvb_i2c_mutex true s) Hm)). mrun.
  unfold probe_device_on_all_busses. mrun.
  match goal with |- context [probe_busses_loop ?d ?l] =>
    match goal with |- context [mbind_ _ _ ?s1] =>
      destruct (probe_busses_run l d s1 Hm) as (y & l' & r & w & E & Hl & Hr) end end.
  rewrite (mbind_Ok _ _ _ _ _ E). exists y, l', r, w. split; [|done].
  mrun. clear -Hm. destruct s. cbn in *. by subst.
Qed.

Lemma probed_ptrs d l l' : Forall2 (probed d) l l' -> map bus_ptr l' = map bus_ptr l.
Proof.
  induction 1 as [|b b' l l' (x & ->) _ IH]; [done|]. cbn. rewrite IH. f_equal. by destruct (wanted _ _).
Qed.

Lemma probed_keys d b b' : probed d b b' ->
  bus_ptr b' = bus_ptr b /\
  map client_key (client_list b') = map client_key (client_list b) ++ map device_key (fitting (bus_ptr b) [d]).
Proof.
  intros (x & ->). unfold fitting. rewrite filter_cons. cbn.
  destruct (wanted (bus_ptr b) d); cbn; [|by rewrite app_nil_r]. by rewrite map_app.
Qed.

Lemma reg_driver_ok s o a x j signal r s' :
  i2c_ok s -> x ∉ map detach (dvb_i2c_devicelist s) ->
  dvb_register_i2c_device o a x j signal s = Ok (r, s') -> i2c_ok s'.
Proof.
  intros Hok Hx E. destruct (reg_device_run s o a x j signal Hok) as (y & l & r' & w & E' & Hl & Hr).
  rewrite E' in E. injection E as _ <-.
  split; cbn; try done.
  - intros b (i & Hi)%list_elem_of_lookup_1.
    destruct (Forall2_lookup_r _ _ _ _ _ Hl Hi) as (b0 & Hi0 & Hp).
    destruct (probed_keys _ _ _ Hp) as [Hpt Hk]. rewrite Hk, fitting_app, map_app, Hpt.
    assert (same_drivers [mk_dvb_i2c_device o a x j] [mk_dvb_i2c_device o a x y]) as Hs
      by (constructor; [by exists y|constructor]).
    rewrite (proj1 (same_drivers_fitting _ _ (bus_ptr b0) Hs)).
    apply Permutation_app; [|done]. apply (ok_clients s Hok). by eapply list_elem_of_lookup_2.
  - rewrite map_app. apply list.NoDup_app. split; [apply (ok_detach s Hok)|]. split; [|apply NoDup_singleton].
    by intros z Hz ->%list_elem_of_singleton.
  - rewrite (probed_ptrs _ _ _ Hl). apply (ok_bus s Hok).
  - intros b (i & Hi)%list_elem_of_lookup_1.
    destruct (Forall2_lookup_r _ _ _ _ _ Hl Hi) as (b0 & Hi0 & Hp).
    destruct (probed_keys _ _ _ Hp) as [-> _]. apply (ok_next s Hok). by eapply list_elem_of_lookup_2.
  - intros m Hm. rewrite Hr, (ok_refs s Hok) by done. lia.
Qed.

(** Removing a driver detaches it from each bus. *)
Lemma take_device_spec a l d l' :
  take_device a l = Some (d, l') -> exists l1 l2, l = l1 ++ d :: l2 /\ l' = l1 ++ l2 /\ attach d = a.
Proof.
  revert d l'. induction l as [|e l IH]; intros d l'; cbn; [done|].
  destruct (Z.eqb_spec (attach e) a) as [He|He].
  - intros [= <- <-]. by exists [], l.
  - destruct (take_device a l) as [[d1 l1]|] eqn:E; [|done]. intros [= <- <-].
    destruct (IH _ _ eq_refl) as (k1 & k2 & -> & -> & Hd). by exists (e :: k1), k2.
Qed.

Lemma detach_inj l d e : NoDup (map detach l) -> d ∈ l -> e ∈ l -> detach d = detach e -> d = e.
Proof.
  intros Hnd (i & Hi)%list_elem_of_lookup_1 (j & Hj)%list_elem_of_lookup_1 E.
  assert (i = j) as ->; [|congruence].
  apply (NoDup_lookup (detach <$> l) i j (detach d)); [done|..]; rewrite list_lookup_fmap.
  - by rewrite Hi.
  - by rewrite Hj, E.
Qed.

Lemma client_owner s b c d :
  i2c_ok s -> b ∈ dvb_i2c_buslist s -> c ∈ client_list b -> d ∈ dvb_i2c_devicelist s ->
  cl_detach c = detach d -> cl_owner c = owner d.
Proof.
  intros Hok Hb Hc Hd E.
  assert (client_key c ∈ map client_key (client_list b)) as Hk by by apply list_elem_of_fmap_2.
  rewrite (ok_clients s Hok b Hb) in Hk.
  apply list_elem_of_fmap in Hk as (e & He & [_ Hin]%list_elem_of_filter).
  injection He as -> Hde. f_equal.
  apply (detach_inj _ _ _ (ok_detach s Hok)); congruence.
Qed.

Lemma unreg_device_run s a :
  i2c_ok s -> exists r w,
    dvb_unregister_i2c_device a s =
      match take_device a (dvb_i2c_devicelist s) with
      | None => Ok (- EINVAL, s)
      | Some (d, l) =>
          Ok (0, mk_i2c_state (map (without_client (detach d)) (dvb_i2c_buslist s)) l false r []
                   (next_bus s) w)
      end /\
    forall m d l, m <> 0 -> take_device a (dvb_i2c_devicelist s) = Some (d, l) ->
      r m = refs s m + (uses m (map (without_client (detach d)) (dvb_i2c_buslist s))
                        - uses m (dvb_i2c_buslist s)).
Proof.
  intros Hok. pose proof (ok_mem s Hok) as Hm. pose proof (ok_mutex s Hok) as Hl.
  unfold dvb_unregister_i2c_device. rewrite (mbind_Ok _ _ _ _ _ (down_run false s Hl)). mrun.
  change (dvb_i2c_devicelist (set_dvb_i2c_mutex true s)) with (dvb_i2c_devicelist s).
  destruct (take_device a (dvb_i2c_devicelist s)) as [[d l]|] eqn:Ed.
  - destruct (take_device_spec _ _ _ _ Ed) as (l1 & l2 & Hdl & _ & _).
    assert (d ∈ dvb_i2c_devicelist s) as Hd by (rewrite Hdl; apply elem_of_app; right; by left).
    unfold unregister_i2c_client_from_all_busses. mrun.
    match goal with |- context [mbind_ _ _ ?s1] =>
      destruct (all_busses_run d (dvb_i2c_buslist s) s1) as (r & w & E & Hr) end;
      [intros b c Hb Hc; by apply (client_owner s b)|].
    exists r, w. split.
    + rewrite (mbind_Ok _ _ _ _ _ E). clear -Hm. destruct s. cbn in *. by subst.
    + intros m d' l' Hm0 [= <- _]. by rewrite Hr.
  - exists (refs s), (world s). split; [|done]. clear -Hl. destruct s. cbn in *. by subst.
Qed.

Lemma others_keys x l :
  map client_key (others x l) = filter (fun k => k.2 <> x) (map client_key l).
Proof.
  induction l as [|c l IH]; [done|]. cbn [map]. rewrite !filter_cons. cbn.
  destruct (decide (cl_detach c <> x)); cbn [map]; by rewrite IH.
Qed.

Lemma fitting_keys_other b x l :
  x ∉ map detach l -> filter (fun k => k.2 <> x) (map device_key (fitting b l)) = map device_key (fitting b l).
Proof.
  unfold fitting. induction l as [|d l IH]; [done|]. intros [Hx Hl]%not_elem_of_cons.
  rewrite !filter_cons. destruct (decide (wanted b d = true)); [|by apply IH].
  cbn [map]. rewrite filter_cons, decide_True by (by intros E; apply Hx). by rewrite IH.
Qed.

Lemma unreg_device_ok s a r s' : i2c_ok s -> dvb_unregister_i2c_device a s = Ok (r, s') -> i2c_ok s'.
Proof.
  intros Hok E. destruct (unreg_device_run s a Hok) as (r' & w & E' & Hr). rewrite E' in E. clear E'.
  destruct (take_device _ _) as [[d l]|] eqn:Ed; injection E as _ <-; [|done].
  destruct (take_device_spec _ _ _ _ Ed) as (l1 & l2 & Hdl & -> & _).
  pose proof (ok_detach s Hok) as Hnd. rewrite Hdl, map_app in Hnd. cbn [map] in Hnd.
  rewrite <- Permutation_middle in Hnd. pose proof (NoDup_cons_1_1 _ _ Hnd) as Hx.
  apply NoDup_cons_1_2 in Hnd. rewrite <- map_app in Hx, Hnd.
  split; cbn; try done.
  - intros b' (b & -> & Hb)%list_elem_of_fmap.
    change (client_list (without_client (detach d) b)) with (others (detach d) (client_list b)).
    change (bus_ptr (without_client (detach d) b)) with (bus_ptr b).
    rewrite others_keys, (ok_clients s Hok b Hb), Hdl.
    rewrite !fitting_app, !map_app, list.filter_app. unfold fitting at 2. rewrite filter_cons. fold (fitting (bus_ptr b) l2).
    rewrite map_app, not_elem_of_app in Hx. destruct Hx as [Hx1 Hx2].
    rewrite (fitting_keys_other _ _ l1) by done. apply Permutation_app; [done|].
    destruct (decide (wanted (bus_ptr b) d = true)); cbn [map];
      [rewrite filter_cons, decide_False by (by intros [])|]; by rewrite fitting_keys_other.
  - rewrite map_map. apply (ok_bus s Hok).
  - intros b' (b & -> & Hb)%list_elem_of_fmap. by apply (ok_next s Hok b).
  - intros m Hm. rewrite (Hr m d (l1 ++ l2)), (ok_refs s Hok) by done. lia.
Qed.

Lemma i2c_run_ok c s :
  i2c_ok s -> call_ok c s -> exists s', i2c_run c s = Ok (tt, s') /\ i2c_ok s'.
Proof.
  intros Hok Hc. destruct c as [x y a i signal|x a i|o a x j signal|a]; cbn [i2c_run].
  - destruct (reg_bus_run s x y a i signal Hok) as (b & l & r & w & E & _).
    rewrite (mbind_Ok _ _ _ _ _ E). eexists. split; [done|]. by eapply reg_bus_ok.
  - destruct (unreg_bus_run s x a i Hok) as (r & E & _).
    assert (exists s', dvb_unregister_i2c_bus x a i s = Ok (tt, s')) as (s' & E')
      by (rewrite E; destruct (dvb_find_i2c_bus _ _ _ _); eauto).
    exists s'. split; [done|]. by eapply unreg_bus_ok.
  - destruct (reg_device_run s o a x j signal Hok) as (y & l & r & w & E & _).
    rewrite (mbind_Ok _ _ _ _ _ E). eexists. split; [done|]. by eapply reg_driver_ok.
  - destruct (unreg_device_run s a Hok) as (r & w & E & _).
    assert (exists e s', dvb_unregister_i2c_device a s = Ok (e, s')) as (e & s' & E')
      by (rewrite E; destruct (take_device _ _) as [[? ?]|]; eauto).
    rewrite (mbind_Ok _ _ _ _ _ E'). exists s'. split; [done|]. by eapply unreg_device_ok.
Qed.

Lemma i2c_init_ok w : i2c_ok (i2c_init w).
Proof. split; cbn; try done; try constructor; by intros b ?%not_elem_of_nil. Qed.

Lemma i2c_reachable_inv s : i2c_reachable s -> i2c_ok s.
Proof.
  induction 1 as [w|s c s' _ IH Hc E]; [apply i2c_init_ok|].
  destruct (i2c_run_ok c s IH Hc) as (t & E' & Ht). rewrite E' in E. by injection E as <-.
Qed.

(** C9: In whatever order buses and drivers come and go, as long as memory is
    found and no driver is registered with the [detach] of one that already
    is: every call returns; between the calls the mutex is free, the clients
    of a bus are exactly the registered drivers that fit it (each once), and
    the use count of every module is the number of its clients. *)
Theorem i2c_clients_fit s c :
  i2c_reachable s -> call_ok c s ->
  (forall b, b ∈ dvb_i2c_buslist s ->
     map client_key (client_list b) ≡ₚ map device_key (fitting (bus_ptr b) (dvb_i2c_devicelist s))) /\
  (forall m, m <> 0 -> refs s m = uses m (dvb_i2c_buslist s)) /\
  dvb_i2c_mutex s = false /\
  exists s', i2c_run c s = Ok (tt, s') /\ i2c_reachable s'.
Proof.
  intros Hr Hc. pose proof (i2c_reachable_inv s Hr) as Hok.
  split; [apply (ok_clients s Hok)|]. split; [apply (ok_refs s Hok)|]. split; [apply (ok_mutex s Hok)|].
  destruct (i2c_run_ok c s Hok Hc) as (s' & E & _). exists s'. split; [done|]. by eapply i2c_step.
Qed.

(** Unregistering a bus that is found detaches its clients one after the
    other, in the order they came, each with the data its own attaching left,
    and takes the bus from the list. *)
Theorem i2c_bus_detaches_all s x a i b :
  i2c_reachable s -> dvb_find_i2c_bus x a i (dvb_i2c_buslist s) = Some b ->
  exists s', dvb_unregister_i2c_bus x a i s = Ok (tt, s') /\
    world s' = foldl (fun w c => detach_fn (cl_detach c) (bus_ptr b) (cl_data c) w) (world s) (client_list b) /\
    dvb_i2c_buslist s' = filter (fun c => bus_ptr c <> bus_ptr b) (dvb_i2c_buslist s) /\
    dvb_i2c_devicelist s' = dvb_i2c_devicelist s.
Proof.
  intros Hr Hb. pose proof (i2c_reachable_inv s Hr) as Hok.
  destruct (unreg_bus_run s x a i Hok) as (r & E & _). rewrite Hb in E. eexists. split; [exact E|]. done.
Qed.

End Clients.

(** ** Failures *)

Section Failures.
Context {W : Type} `{!I2cDrivers W}.

Lemma take_last a l d :
  (forall e, e ∈ l -> attach e <> a) -> attach d = a -> take_device a (l ++ [d]) = Some (d, l).
Proof.
  intros Hl Hd. induction l as [|e l IH]; cbn.
  - by rewrite Hd, Z.eqb_refl.
  - assert (attach e <> a) as He by (apply Hl; by left). rif. rewrite IH; [done|].
    intros f Hf. apply Hl. by right.
Qed.

(** A driver that is found on a bus without clients. *)
Lemma attach_found (s : @i2c_state W) b d x w :
  mem s = [] -> client_list b = [] -> (owner d = 0 \/ module_live (owner d) = true) ->
  (forall r, attach_fn (attach d) (bus_ptr b) (data d) (world (set_refs r s)) = ((0, x), w)) ->
  exists r, try_attach_device b d s =
    Ok ((set_client_list [mk_i2c_client (owner d) (detach d) x] b, set_data x d),
        set_world w (set_refs r s)).
Proof.
  intros Hm Hc Ho Ha. unfold try_attach_device, try_module_get.
  assert (forall r, (let! c := register_i2c_client b (set_data x d) in mret_ (c.2, set_data x d))
    (set_world w (set_refs r s)) = Ok ((set_client_list [mk_i2c_client (owner d) (detach d) x] b, set_data x d),
        set_world w (set_refs r s))) as Hreg.
  { intros r. unfold register_i2c_client, mbind_, kmalloc. cbn. rewrite Hm. cbn. unfold mret_.
    by rewrite Hc. }
  destruct (Z.eqb_spec (owner d) 0) as [H0|H0].
  - exists (refs s). mrun. specialize (Ha (refs s)).
    replace (set_refs (refs s) s) with s in * by (by destruct s). rewrite Ha. cbn [fst snd Z.eqb].
    unfold mbind_ at 1. cbn. specialize (Hreg (refs s)).
    replace (set_refs (refs s) s) with s in Hreg by (by destruct s). exact Hreg.
  - destruct Ho as [|Ho]; [done|]. rewrite Ho.
    exists (refs (add_ref (owner d) 1 s)). mrun.
    pose proof (Ha (refs (add_ref (owner d) 1 s))) as Ha1.
    change (set_refs (refs (add_ref (owner d) 1 s)) s) with (add_ref (owner d) 1 s) in *.
    rewrite Ha1. cbn [fst snd Z.eqb]. unfold mbind_ at 1. cbn [mput res_bind fst snd].
    exact (Hreg (refs (add_ref (owner d) 1 s))).
Qed.

(** A driver's own entry holds only the data of its last attaching, and
    unregistering it hands that to [detach] on every bus: of two buses on
    which it was found, the first is detached with the data of the second. *)
Theorem i2c_detach_wrong_data (s : @i2c_state W) b1 b2 o a x j signal x1 w1 x2 w2 :
  dvb_i2c_mutex s = false -> mem s = [] -> dvb_i2c_buslist s = [b1; b2] ->
  client_list b1 = [] -> client_list b2 = [] ->
  (forall d, d ∈ dvb_i2c_devicelist s -> attach d <> a) -> (o = 0 \/ module_live o = true) ->
  attach_fn a (bus_ptr b1) j (world s) = ((0, x1), w1) ->
  attach_fn a (bus_ptr b2) x1 w1 = ((0, x2), w2) ->
  exists s', (dvb_register_i2c_device o a x j signal ;;; dvb_unregister_i2c_device a) s = Ok (0, s') /\
    world s' = detach_fn x (bus_ptr b2) x2 (detach_fn x (bus_ptr b1) x2 w2).
Proof.
  intros Hl Hm Hb H1 H2 Hd Ho Ha1 Ha2.
  set (d := mk_dvb_i2c_device o a x j).
  set (s1 := set_dvb_i2c_mutex true s).
  destruct (attach_found s1 b1 d x1 w1) as (r1 & E1); [done..|].
  destruct (attach_found (set_world w1 (set_refs r1 s1)) b2 (set_data x1 d) x2 w2) as (r2 & E2); [done..|].
  unfold dvb_register_i2c_device. rewrite !mbind_bind.
  rewrite (mbind_Ok _ _ _ _ _ (down_run signal s Hl)). fold s1. mrun.
  assert (kmalloc s1 = Ok (true, s1)) as Ek by by apply kmalloc_ok.
  rewrite (mbind_Ok _ _ _ _ _ Ek). mrun. unfold probe_device_on_all_busses. mrun.
  change (dvb_i2c_buslist s1) with (dvb_i2c_buslist s). rewrite Hb. cbn [probe_busses_loop]. fold d.
  mrun. rewrite (mbind_Ok _ _ _ _ _ E1). mrun. rewrite (mbind_Ok _ _ _ _ _ E2). mrun.
  unfold up. mrun. unfold dvb_unregister_i2c_device.
  match goal with |- context [mbind_ (down false) _ ?t] =>
    rewrite (mbind_Ok _ _ _ _ _ (down_run false t eq_refl)) end. mrun. cbn.
  rewrite take_last by done. mrun.
  unfold unregister_i2c_client_from_all_busses, mbind_. cbn.
  unfold unregister_i2c_client_from_bus, detach_device, module_put, mbind_. cbn.
  unfold detach_device, module_put, mbind_. rewrite Z.eqb_refl. cbn.
  by destruct (o =? 0); cbn; rewrite ?Z.eqb_refl; eexists.
Qed.

(** When there is no memory for a bus, the function returns with the mutex
    held: from then on nothing can be registered or unregistered, unless a
    signal ends the wait. *)
Theorem i2c_nomem_locks (s : @i2c_state W) l x y a i signal :
  dvb_i2c_mutex s = false -> mem s = false :: l ->
  exists s', dvb_register_i2c_bus x y a i signal s = Ok (None, s') /\
    dvb_i2c_buslist s' = dvb_i2c_buslist s /\ world s' = world s /\
    (forall x y a i, dvb_register_i2c_bus x y a i false s' = Block) /\
    (forall x a i, dvb_unregister_i2c_bus x a i s' = Block) /\
    (forall o a x j, dvb_register_i2c_device o a x j false s' = Block) /\
    (forall a, dvb_unregister_i2c_device a s' = Block).
Proof.
  intros Hl Hm. unfold dvb_register_i2c_bus at 1. rewrite (mbind_Ok _ _ _ _ _ (down_run signal s Hl)). mrun.
  assert (kmalloc (set_dvb_i2c_mutex true s) = Ok (false, set_mem l (set_dvb_i2c_mutex true s))) as Ek
    by (unfold kmalloc; cbn; by rewrite Hm).
  rewrite (mbind_Ok _ _ _ _ _ Ek). eexists. split; [done|]. done.
Qed.

End Failures.

(** ** Instances for the witnesses *)

(** The world is the list of calls of the drivers' functions: a driver finds
    its chip everywhere, and leaves as data the number of calls before. *)
#[export] Instance log_drivers : I2cDrivers (list (Z * Z * Z)) := {
  attach_fn a b x w := ((0, zlen w), w ++ [(a, b, zlen w)]);
  detach_fn d b x w := w ++ [(d, b, x)];
  module_live _ := true;
}.

Definition log_bus (p : Z) : dvb_i2c_bus := mk_dvb_i2c_bus p 5 0 1 p [].
Definition log_state (mem_ : list bool) : @i2c_state (list (Z * Z * Z)) :=
  mk_i2c_state [log_bus 1; log_bus 2] [] false (fun _ => 0) mem_ 3 [].

Lemma log_fits (a b x : Z) (w : list (Z * Z * Z)) :
  (attach_fn a b x w).1.1 = 0 <-> (fun _ _ => true) a b = true.
Proof. done. Qed.

(** One bus, and one driver on it. *)
Definition log_empty : @i2c_state (list (Z * Z * Z)) := i2c_init [].
Definition log_after (c : i2c_call) (s : @i2c_state (list (Z * Z * Z))) : i2c_state :=
  match i2c_run c s with Ok (_, s') => s' | _ => s end.
Definition log_one_bus : i2c_state := log_after (RegBus 5 0 1 0 false) log_empty.
Definition log_one_driver : i2c_state := log_after (RegDevice 7 10 11 0 false) log_one_bus.

Lemma log_reachable : i2c_reachable log_one_driver.
Proof.
  apply (i2c_step log_one_bus (RegDevice 7 10 11 0 false)); [|by apply not_elem_of_nil|reflexivity].
  apply (i2c_step log_empty (RegBus 5 0 1 0 false)); [apply i2c_start|exact I|reflexivity].
Qed.

Lemma i2c_clients_fit_witness :
  refs log_one_driver 7 = 1 /\ refs log_one_driver 7 = uses 7 (dvb_i2c_buslist log_one_driver) /\
  exists s', i2c_run (UnregDevice 10) log_one_driver = Ok (tt, s') /\ i2c_reachable s'.
Proof.
  split; [reflexivity|].
  destruct (i2c_clients_fit _ log_fits log_one_driver (UnregDevice 10) log_reachable I) as (_ & H & _ & H').
  split; [by apply H|exact H'].
Defined.

Lemma i2c_bus_detaches_all_witness :
  exists s', dvb_unregister_i2c_bus 5 1 0 log_one_driver = Ok (tt, s') /\ world s' = [(10, 1, 0); (11, 1, 0)].
Proof.
  destruct (i2c_bus_detaches_all _ log_fits log_one_driver 5 1 0 _ log_reachable eq_refl) as (s' & E & Hw & _).
  exists s'. split; [exact E|exact Hw].
Defined.

Lemma i2c_detach_wrong_data_witness : exists s',
  (dvb_register_i2c_device 7 10 11 0 false ;;; dvb_unregister_i2c_device 10) (log_state []) = Ok (0, s') /\
  world s' = [(10, 1, 0); (10, 2, 1); (11, 1, 1); (11, 2, 1)].
Proof.
  destruct (i2c_detach_wrong_data (log_state []) (log_bus 1) (log_bus 2) 7 10 11 0 false 0 [(10, 1, 0)] 1
              [(10, 1, 0); (10, 2, 1)]) as (s' & E & Hw); try reflexivity;
    [by intros d ?%not_elem_of_nil|by right|].
  exists s'. split; [exact E|exact Hw].
Defined.

Lemma i2c_nomem_locks_witness : exists s',
  dvb_register_i2c_bus 5 0 1 9 false (log_state [false]) = Ok (None, s') /\
  (forall a, dvb_unregister_i2c_device a s' = Block).
Proof.
  destruct (i2c_nomem_locks (log_state [false]) [] 5 0 1 9 false eq_refl eq_refl)
    as (s' & E & _ & _ & _ & _ & _ & H).
  exists s'. split; [exact E|exact H].
Defined.
