(* ===== verification/DvbFrontend.v ===== *)
(** * Front ends (dvb-core/dvb_frontend.c)

    A front end is a tuner with its demodulator.  Users tune it and wait for
    its events through a device file; a kernel thread of its own watches
    whether the signal is locked, tunes it anew when the lock is lost and
    reports every change.  Adapters add functions that are run around the
    driver's own, and are told about changes of the lock.

    The heap maps pointers to front ends; what is not in it has been freed, and
    using it is a fault.  The drivers' functions and the callbacks are
    parameters, and so are the world they act on, the clock and the passing of
    time.  Where the code sleeps, what the other tasks do meanwhile is an
    argument ([others]).  [sig] says whether the running task has a signal
    pending; the threads run with all signals blocked.  The branches for Linux
    2.4 are modelled; wake-ups only end a sleep and are not. *)

From stdpp Require Import gmap.
From S2P Require Import Prelude DvbDev.

Definition HZ : Z := 100.
Definition MAX_EVENT : Z := 8.
Definition TIMEOUT : Z := 2 * HZ.
Definition dvb_shutdown_timeout : Z := 5.

(** ** Data of the interface (linux/dvb/frontend.h) *)

Inductive fe_type := FE_QPSK | FE_QAM | FE_OFDM.

Definition FE_CAN_RECOVER : Z := 0x20000000.
Definition FE_CAN_CLEAN_SETUP : Z := 0x40000000.
Definition FE_CAN_MUTE_TS : Z := 0x80000000.

Definition FE_HAS_LOCK : Z := 0x10.
Definition FE_TIMEDOUT : Z := 0x20.

Definition has (flags bit : Z) : bool := negb (Z.land flags bit =? 0).

Inductive fe_cmd :=
| FE_SLEEP | FE_INIT | FE_RESET
| FE_GET_INFO
| FE_DISEQC_RESET_OVERLOAD | FE_DISEQC_SEND_MASTER_CMD | FE_DISEQC_RECV_SLAVE_REPLY
| FE_DISEQC_SEND_BURST | FE_SET_TONE | FE_SET_VOLTAGE | FE_ENABLE_HIGH_LNB_VOLTAGE
| FE_READ_STATUS | FE_READ_BER | FE_READ_SIGNAL_STRENGTH | FE_READ_SNR | FE_READ_UNCORRECTED_BLOCKS
| FE_SET_FRONTEND | FE_GET_FRONTEND | FE_GET_EVENT
| FE_OTHER (cmd : Z).

(** The fields the code uses; the name and the limits are only shown. *)
Record dvb_frontend_info := mk_dvb_frontend_info {
  fe_type_of : fe_type;
  frequency_stepsize : Z;
  notifier_delay : Z;
  caps : Z;
}.
#[export] Instance dvb_frontend_info_eta : Eta dvb_frontend_info := fun r =>
  mk_dvb_frontend_info (fe_type_of r) (frequency_stepsize r) (notifier_delay r) (caps r).

Record dvb_frontend_parameters := mk_dvb_frontend_parameters {
  frequency : Z;
  inversion : Z;
  u : list Z;   (* the words of the union *)
}.
#[export] Instance dvb_frontend_parameters_eta : Eta dvb_frontend_parameters := fun r =>
  mk_dvb_frontend_parameters (frequency r) (inversion r) (u r).
Definition set_frequency := setter! frequency.
Definition qpsk_symbol_rate (p : dvb_frontend_parameters) : Z := at_ (u p) 0.

Record dvb_frontend_event := mk_dvb_frontend_event {
  ev_status : Z;
  ev_parameters : dvb_frontend_parameters;
}.
#[export] Instance dvb_frontend_event_eta : Eta dvb_frontend_event := fun r =>
  mk_dvb_frontend_event (ev_status r) (ev_parameters r).
Definition set_ev_status := setter! ev_status.
Definition set_ev_parameters := setter! ev_parameters.

(** What an ioctl's argument points to. *)
Inductive fe_arg :=
| ArgNull
| ArgParameters (p : dvb_frontend_parameters)
| ArgStatus (s : Z)
| ArgEvent (e : dvb_frontend_event)
| ArgOther (bytes : list Z).

(** ** State *)

Record dvb_fe_events := mk_dvb_fe_events {
  events : list dvb_frontend_event;   (* [MAX_EVENT] of them *)
  eventw : Z;
  eventr : Z;
  overflow : bool;
  ev_sem : Z;
}.
#[export] Instance dvb_fe_events_eta : Eta dvb_fe_events := fun r =>
  mk_dvb_fe_events (events r) (eventw r) (eventr r) (overflow r) (ev_sem r).
Definition set_events := setter! events.
Definition set_eventw := setter! eventw.
Definition set_eventr := setter! eventr.
Definition set_overflow := setter! overflow.
Definition set_ev_sem := setter! ev_sem.

(** Pointers to functions and data are numbers; 0 is [NULL]. *)
Record dvb_frontend := mk_dvb_frontend {
  before_ioctl : Z;
  ioctl : Z;
  after_ioctl : Z;
  notifier_callback : Z;
  i2c : Z;
  adapter : Z;   (* of the bus *)
  adapter_num : Z;
  before_after_data : Z;
  notifier_data : Z;
  fe_data : Z;
}.
#[export] Instance dvb_frontend_eta : Eta dvb_frontend := fun r =>
  mk_dvb_frontend (before_ioctl r) (ioctl r) (after_ioctl r) (notifier_callback r) (i2c r)
    (adapter r) (adapter_num r) (before_after_data r) (notifier_data r) (fe_data r).
Definition set_before_ioctl := setter! before_ioctl.
Definition set_after_ioctl := setter! after_ioctl.
Definition set_notifier_callback := setter! notifier_callback.
Definition set_before_after_data := setter! before_after_data.
Definition set_notifier_data := setter! notifier_data.

(** [sem] counts; a task may hold it when it is above 0. *)
Record dvb_frontend_data := mk_dvb_frontend_data {
  info : dvb_frontend_info;
  frontend : dvb_frontend;
  fe_dvbdev : Z;
  parameters : dvb_frontend_parameters;
  fe_events : dvb_fe_events;
  sem : Z;
  thread_pid : Z;
  release_jiffies : Z;
  lost_sync_jiffies : Z;
  bending : Z;
  lnb_drift : Z;
  timeout_count : Z;
  lost_sync_count : Z;
  fe_exit : bool;
  status : Z;
}.
#[export] Instance dvb_frontend_data_eta : Eta dvb_frontend_data := fun r =>
  mk_dvb_frontend_data (info r) (frontend r) (fe_dvbdev r) (parameters r) (fe_events r) (sem
    r) (thread_pid r) (release_jiffies r) (lost_sync_jiffies r) (bending r) (lnb_drift r)
    (timeout_count r) (lost_sync_count r) (fe_exit r) (status r).
Definition set_frontend := setter! frontend.
Definition set_fe_dvbdev := setter! fe_dvbdev.
Definition set_parameters := setter! parameters.
Definition set_fe_events := setter! fe_events.
Definition set_sem := setter! sem.
Definition set_thread_pid := setter! thread_pid.
Definition set_release_jiffies := setter! release_jiffies.
Definition set_lost_sync_jiffies := setter! lost_sync_jiffies.
Definition set_bending := setter! bending.
Definition set_lnb_drift := setter! lnb_drift.
Definition set_timeout_count := setter! timeout_count.
Definition set_lost_sync_count := setter! lost_sync_count.
Definition set_fe_exit := setter! fe_exit.
Definition set_status := setter! status.

Record dvb_frontend_ioctl_data := mk_dvb_frontend_ioctl_data {
  io_adapter : Z;
  io_before : Z;
  io_after : Z;
  io_data : Z;
}.

Record dvb_frontend_notifier_data := mk_dvb_frontend_notifier_data {
  no_adapter : Z;
  no_callback : Z;
  no_data : Z;
}.

(** The functions of the drivers and adapters, and time. *)
Class FeDrivers (W : Type) := {
  fe_function : Z -> Z -> fe_cmd -> fe_arg -> W -> (Z * fe_arg) * W;
  fe_notify : Z -> Z -> Z -> W -> W;
  fe_delay : Z -> W -> W;
  jiffies : W -> Z;
}.

Section Frontend.
Context {W : Type} `{!FeDrivers W}.

Record fe_state := mk_fe_state {
  heap : gmap Z dvb_frontend_data;
  frontend_list : list Z;
  frontend_ioctl_list : list dvb_frontend_ioctl_data;
  frontend_notifier_list : list dvb_frontend_notifier_data;
  frontend_mutex : bool;
  registry : dvbdev;
  mem : list bool;   (* answers of [kmalloc], then success *)
  next_fe : Z;
  sig : bool;
  world : W;
}.
#[export] Instance fe_state_eta : Eta fe_state := fun r =>
  mk_fe_state (heap r) (frontend_list r) (frontend_ioctl_list r) (frontend_notifier_list r)
    (frontend_mutex r) (registry r) (mem r) (next_fe r) (sig r) (world r).
Definition set_heap := setter! heap.
Definition set_frontend_list := setter! frontend_list.
Definition set_frontend_ioctl_list := setter! frontend_ioctl_list.
Definition set_frontend_notifier_list := setter! frontend_notifier_list.
Definition set_frontend_mutex := setter! frontend_mutex.
Definition set_registry := setter! registry.
Definition set_mem := setter! mem.
Definition set_next_fe := setter! next_fe.
Definition set_sig := setter! sig.
Definition set_world := setter! world.

Abbreviation FM := (M fe_state).

(** A front end that has been freed cannot be used. *)
Definition fe_get (p : Z) : FM dvb_frontend_data :=
  fun s => match heap s !! p with Some fe => Ok (fe, s) | None => Fault end.
Definition fe_mod (p : Z) (f : dvb_frontend_data -> dvb_frontend_data) : FM unit :=
  fun s => match heap s !! p with
           | Some fe => Ok (tt, set_heap (<[p := f fe]> (heap s)) s)
           | None => Fault
           end.
Definition mod_events (f : dvb_fe_events -> dvb_fe_events) (fe : dvb_frontend_data) : dvb_frontend_data :=
  set_fe_events (f (fe_events fe)) fe.
Definition mod_frontend (f : dvb_frontend -> dvb_frontend) (fe : dvb_frontend_data) : dvb_frontend_data :=
  set_frontend (f (frontend fe)) fe.

Definition now : FM Z := mgets (fun s => jiffies (world s)).

Definition kmalloc : FM bool :=
  fun s => match mem s with
           | [] => Ok (true, s)
           | b :: l => Ok (b, set_mem l s)
           end.

(** [down_interruptible]; true: a signal ended the wait. *)
Definition down_frontends : FM bool :=
  fun s => if frontend_mutex s then (if sig s then Ok (true, s) else Block)
           else Ok (false, set_frontend_mutex true s).
Definition up_frontends : FM unit := mmodify (set_frontend_mutex false).

Definition down_sem (get : dvb_frontend_data -> Z) (set : Z -> dvb_frontend_data -> dvb_frontend_data)
    (p : Z) : FM bool :=
  let! fe := fe_get p in
  if 0 <? get fe then fe_mod p (set (get fe - 1)) ;;; mret_ false
  else fun s => if sig s then Ok (true, s) else Block.
Definition down_fe : Z -> FM bool := down_sem sem set_sem.
Definition up_fe (p : Z) : FM unit := fe_mod p (fun fe => set_sem (sem fe + 1) fe).
Definition down_ev : Z -> FM bool :=
  down_sem (fun fe => ev_sem (fe_events fe)) (fun v => mod_events (set_ev_sem v)).
Definition up_ev (p : Z) : FM unit :=
  fe_mod p (mod_events (fun e => set_ev_sem (ev_sem e + 1) e)).

(** ** Running the driver *)

Definition call_function (f p : Z) (cmd : fe_cmd) (arg : fe_arg) : FM (Z * fe_arg) :=
  fun s => let r := fe_function f p cmd arg (world s) in Ok (r.1, set_world r.2 s).

Definition dvb_frontend_internal_ioctl (p : Z) (cmd : fe_cmd) (arg : fe_arg) : FM (Z * fe_arg) :=
  let! fe := fe_get p in
  let fr := frontend fe in
  let! r := (if before_ioctl fr =? 0 then mret_ (- EOPNOTSUPP, arg)
             else call_function (before_ioctl fr) p cmd arg) in
  if r.1 =? - EOPNOTSUPP then
    let! r := call_function (ioctl fr) p cmd r.2 in
    if (r.1 =? - EOPNOTSUPP) && negb (after_ioctl fr =? 0)
    then call_function (after_ioctl fr) p cmd r.2
    else mret_ r
  else mret_ r.

(** ** Bending the frequency *)

(** The frequency a front end is tuned to, as an [int]. *)
Definition tuned (fe : dvb_frontend_data) : Z :=
  s32 (s32 (s32 (frequency (parameters fe)) + lnb_drift fe) + bending fe).

Definition too_close (stepsize : Z) (this other : dvb_frontend_data) : bool :=
  negb (lost_sync_count other =? -1) &&
  (tuned this >? s32 (tuned other - stepsize)) && (tuned this <? s32 (tuned other + stepsize)).

(** The loop over all front ends, up to the first that is too close. *)
Fixpoint clash_loop (p stepsize : Z) (l : list Z) : FM bool :=
  match l with
  | [] => mret_ false
  | q :: l =>
      let! this := fe_get p in
      let! other := fe_get q in
      if negb (adapter_num (frontend other) =? adapter_num (frontend this)) then clash_loop p stepsize l
      else if negb (p =? q) && too_close stepsize this other then mret_ true
      else clash_loop p stepsize l
  end.

(** The calls nest at most eleven deep, see [bend_frequency_spec]. *)
Fixpoint bend (fuel : nat) (p recursive : Z) : FM unit :=
  let! this := fe_get p in
  let stepsize := s32 (frequency_stepsize (info this)) in
  if (stepsize =? 0) || (recursive >? 10) then mret_ tt else
  let! intr := (if recursive =? 0 then down_frontends else mret_ false) in
  if intr : bool then mret_ tt else
  (if recursive =? 0 then fe_mod p (set_bending 0) else mret_ tt) ;;;
  let! s := mget in
  let! clash := clash_loop p stepsize (frontend_list s) in
  (if clash : bool then
     fe_mod p (fun fe => set_bending
       (if Z.rem recursive 2 =? 0 then s32 (- bending fe) else s32 (bending fe + stepsize)) fe) ;;;
     match fuel with
     | O => fun _ => Diverge
     | S fuel => bend fuel p (recursive + 1)
     end
   else mret_ tt) ;;;
  if recursive =? 0 then up_frontends else mret_ tt.

Definition dvb_bend_frequency (p : Z) : FM unit := bend 11 p 0.

(** ** Events *)

Definition dvb_call_frontend_notifiers (p s : Z) : FM unit :=
  let! fe := fe_get p in
  (if has (status fe) FE_HAS_LOCK && negb (has s FE_HAS_LOCK)
   then let! t := now in fe_mod p (set_lost_sync_jiffies t) else mret_ tt) ;;;
  (if has (Z.lxor s (status fe)) FE_HAS_LOCK && has s FE_HAS_LOCK
   then mmodify (fun st => set_world (fe_delay (notifier_delay (info fe)) (world st)) st) else mret_ tt) ;;;
  fe_mod p (set_status s) ;;;
  if negb (has s FE_HAS_LOCK) && has (caps (info fe)) FE_CAN_MUTE_TS then mret_ tt
  else if notifier_callback (frontend fe) =? 0 then mret_ tt
  else mmodify (fun st => set_world
         (fe_notify (notifier_callback (frontend fe)) s (notifier_data (frontend fe)) (world st)) st).

(** The first part holds the semaphore of the ring: it fills the slot except
    for the status, and makes it readable.  The result: the slot. *)
Definition add_event_part1 (p s : Z) : FM (option Z) :=
  let! intr := down_ev p in
  if intr : bool then mret_ None else
  let! fe := fe_get p in
  let ev := fe_events fe in
  let wp := Z.rem (eventw ev + 1) MAX_EVENT in
  (if wp =? eventr ev
   then fe_mod p (mod_events (fun ev => set_overflow true (set_eventr (Z.rem (eventr ev + 1) MAX_EVENT) ev)))
   else mret_ tt) ;;;
  let! par := (if has s FE_HAS_LOCK then
                 let! r := dvb_frontend_internal_ioctl p FE_GET_FRONTEND (ArgParameters (parameters fe)) in
                 mret_ (match r.2 with ArgParameters q => q | _ => parameters fe end)
               else mret_ (parameters fe)) in
  fe_mod p (mod_events (fun ev' => set_eventw wp
    (set_events (alter (fun e => mk_dvb_frontend_event (ev_status e) par) (Z.to_nat (eventw ev)) (events ev')) ev'))) ;;;
  up_ev p ;;;
  mret_ (Some (eventw ev)).

(** The second part writes the status and tells the adapter. *)
Definition add_event_part2 (p slot s : Z) : FM unit :=
  fe_mod p (mod_events (fun ev => set_events
    (alter (fun e => mk_dvb_frontend_event s (ev_parameters e)) (Z.to_nat slot) (events ev)) ev)) ;;;
  dvb_call_frontend_notifiers p s.

Definition dvb_frontend_add_event (p s : Z) : FM unit :=
  let! r := add_event_part1 p s in
  match r with
  | None => mret_ tt
  | Some slot => add_event_part2 p slot s
  end.

Definition any_event (fe : dvb_frontend_data) : bool :=
  negb (eventw (fe_events fe) =? eventr (fe_events fe)).

(** [others]: the wait for an event, with what the other tasks do meanwhile;
    its result is 0 when there is an event, and below 0 for a signal. *)
Definition take_event (p : Z) : FM (Z * option dvb_frontend_event) :=
  let! intr := down_ev p in
  if intr : bool then mret_ (- ERESTARTSYS, None) else
  let! fe := fe_get p in
  match events (fe_events fe) !! Z.to_nat (eventr (fe_events fe)) with
  | None => mfault
  | Some e =>
      fe_mod p (mod_events (fun ev => set_eventr (Z.rem (eventr ev + 1) MAX_EVENT) ev)) ;;;
      up_ev p ;;;
      mret_ (0, Some e)
  end.

Definition dvb_frontend_get_event (p : Z) (nonblock : bool) (others : FM Z) : FM (Z * option dvb_frontend_event) :=
  let! fe := fe_get p in
  if overflow (fe_events fe) then
    fe_mod p (mod_events (set_overflow false)) ;;; mret_ (- EOVERFLOW, None)
  else if any_event fe then take_event p
  else if nonblock then mret_ (- EWOULDBLOCK, None)
  else
    up_fe p ;;;
    let! ret := others in
    let! intr := down_fe p in
    if intr : bool then mret_ (- ERESTARTSYS, None)
    else if ret <? 0 then mret_ (ret, None)
    else take_event p.

(** ** Tuning *)

(** The parameters with the corrections of this front end added or taken away. *)
Definition shifted (sign : Z) (fe : dvb_frontend_data) (par : dvb_frontend_parameters) : dvb_frontend_parameters :=
  set_frequency (u32 (frequency par + sign * (lnb_drift fe + bending fe))) par.

(** The driver may change the parameters it is given. *)
Definition tune (p : Z) (par : dvb_frontend_parameters) : FM (Z * dvb_frontend_parameters) :=
  let! r := dvb_frontend_internal_ioctl p FE_SET_FRONTEND (ArgParameters par) in
  mret_ (r.1, match r.2 with ArgParameters q => q | _ => par end).

(** [param]: the caller's own parameters, or [None] if it passes the front
    end's, which the driver and the corrections then work on. *)
Definition dvb_frontend_set_parameters (p : Z) (param : option dvb_frontend_parameters) (first_trial : bool)
    : FM (Z * option dvb_frontend_parameters) :=
  (if first_trial then
     let! t := now in
     fe_mod p (fun fe => set_lnb_drift 0 (set_lost_sync_jiffies t
       (set_lost_sync_count 0 (set_timeout_count 0 fe)))) ;;;
     let! fe := fe_get p in
     (if Z.land (status fe) (Z.lnot FE_TIMEDOUT) =? 0 then mret_ tt else dvb_frontend_add_event p 0) ;;;
     match param with
     | Some par => fe_mod p (set_parameters par)
     | None => mret_ tt
     end
   else mret_ tt) ;;;
  dvb_bend_frequency p ;;;
  let! fe := fe_get p in
  match param with
  | Some par =>
      let! r := tune p (shifted 1 fe par) in
      let! fe := fe_get p in
      mret_ (r.1, Some (shifted (-1) fe r.2))
  | None =>
      fe_mod p (set_parameters (shifted 1 fe (parameters fe))) ;;;
      let! r := tune p (shifted 1 fe (parameters fe)) in
      fe_mod p (fun fe => set_parameters (shifted (-1) fe r.2) fe) ;;;
      mret_ (r.1, None)
  end.

Definition dvb_frontend_init (p : Z) : FM unit :=
  dvb_frontend_internal_ioctl p FE_INIT ArgNull ;;; mret_ tt.

(** ** The thread *)

Definition update_delay (quality : Z) (locked : bool) : Z * Z :=
  let q := if locked then Z.quot (quality * 220 + 36 * 256) 256 else Z.quot (quality * 220 + 0) 256 in
  let q2 := (q - 128) * (q - 128) in
  (q, Z.quot HZ 20 + Z.quot (q2 * HZ) (128 * 128)).

(** The step of the search for the frequency an LNB has drifted to. *)
Definition drift_step (fe : dvb_frontend_data) : Z :=
  match fe_type_of (info fe) with
  | FE_QPSK => qpsk_symbol_rate (parameters fe) / 16000
  | FE_QAM => 0
  | FE_OFDM => s32 (frequency_stepsize (info fe) * 2)
  end.

Definition next_drift (j stepsize drift : Z) : Z :=
  if Z.rem j 32 =? 0 then 0
  else if Z.rem j 2 =? 0 then s32 (- drift) else s32 (s32 (- drift) + stepsize).

Definition dvb_frontend_recover (p : Z) : FM unit :=
  let! fe := fe_get p in
  fe_mod p (set_lnb_drift (next_drift (lost_sync_count fe) (drift_step fe) (lnb_drift fe))) ;;;
  dvb_frontend_set_parameters p None false ;;;
  dvb_frontend_internal_ioctl p FE_RESET ArgNull ;;;
  mret_ tt.

Definition dev_at (d : Z) : FM dvb_device :=
  fun s => match find (fun e => dev_ptr e =? d)
                   (flat_map device_list (dvb_adapter_list (registry s))) with
           | Some e => Ok (e, s)
           | None => Fault
           end.

Definition dvb_frontend_is_exiting (p : Z) : FM bool :=
  let! fe := fe_get p in
  if fe_exit fe then mret_ true else
  let! d := dev_at (fe_dvbdev fe) in
  let! t := now in
  mret_ ((writers d =? 1) && (u32 (t - release_jiffies fe) >? u32 (dvb_shutdown_timeout * HZ))).

(** The thread's own variables; [last] is the status it read last, which is not
    set before the first time. *)
Record fe_thread := mk_fe_thread {
  quality : Z;
  delay : Z;
  last : Z;
}.

Definition thread_start (p junk : Z) : FM fe_thread :=
  fe_mod p (set_lost_sync_count (-1)) ;;;
  dvb_call_frontend_notifiers p 0 ;;;
  dvb_frontend_init p ;;;
  mret_ (mk_fe_thread 0 (3 * HZ) junk).

(** The condition of the loop; if it goes on, the thread releases the front end
    and sleeps for [delay]. *)
Definition thread_top (p : Z) : FM bool :=
  let! e := dvb_frontend_is_exiting p in
  if e : bool then mret_ false else up_fe p ;;; mret_ true.

(** A turn without lock: the status and the delay, or [None] where the code
    goes on with the next turn. *)
Definition note_unlocked (p st d : Z) : FM (option (Z * Z)) :=
  fe_mod p (fun fe => set_lost_sync_count (s32 (lost_sync_count fe + 1)) fe) ;;;
  let! fe := fe_get p in
  if negb (has (caps (info fe)) FE_CAN_RECOVER) && negb (has (caps (info fe)) FE_CAN_CLEAN_SETUP)
     && (lost_sync_count fe <? 10)
  then mret_ None
  else
    (if has (caps (info fe)) FE_CAN_RECOVER then mret_ tt else dvb_frontend_recover p) ;;;
    let d := if has (caps (info fe)) FE_CAN_RECOVER then d else Z.quot HZ 5 in
    let! fe := fe_get p in
    let! now := now in
    if u32 (now - lost_sync_jiffies fe) >? TIMEOUT then
      (if has (status fe) FE_TIMEDOUT then mret_ tt
       else fe_mod p (fun fe => set_timeout_count (s32 (timeout_count fe + 1)) fe)) ;;;
      mret_ (Some (Z.lor st FE_TIMEDOUT, d))
    else mret_ (Some (st, d)).

Definition note_status (p st d : Z) : FM (option (Z * Z)) :=
  if has st FE_HAS_LOCK then
    fe_mod p (fun fe => set_lost_sync_count 0 (set_timeout_count 0 fe)) ;;;
    mret_ (Some (st, d))
  else note_unlocked p st d.

(** The turn of the thread when it wakes up.  False: it leaves the loop. *)
Definition thread_turn (p : Z) (t : fe_thread) : FM (bool * fe_thread) :=
  let! s := mget in
  if sig s then mret_ (false, t) else
  let! intr := down_fe p in
  if intr : bool then mret_ (false, t) else
  let! fe := fe_get p in
  if lost_sync_count fe =? -1 then mret_ (true, t) else
  let! e := dvb_frontend_is_exiting p in
  if e : bool then mret_ (false, t) else
  let! r := dvb_frontend_internal_ioctl p FE_READ_STATUS (ArgStatus (last t)) in
  let st := match r.2 with ArgStatus x => x | _ => last t end in
  let qd := update_delay (quality t) (has st FE_HAS_LOCK) in
  let st := Z.land st (Z.lnot FE_TIMEDOUT) in
  let! next := note_status p st qd.2 in
  match next with
  | None => mret_ (true, mk_fe_thread qd.1 qd.2 st)
  | Some (st, d) =>
      let! fe := fe_get p in
      (if st =? status fe then mret_ tt else dvb_frontend_add_event p st) ;;;
      mret_ (true, mk_fe_thread qd.1 d st)
  end.

Definition thread_end (p : Z) : FM unit :=
  (if dvb_shutdown_timeout =? 0 then mret_ tt
   else dvb_frontend_internal_ioctl p FE_SLEEP ArgNull ;;; mret_ tt) ;;;
  up_fe p ;;;
  fe_mod p (set_thread_pid 0).

(** [alive]: the thread exists; [others]: the sleep until it has ended. *)
Definition dvb_frontend_stop (p : Z) (alive : bool) (others : FM unit) : FM unit :=
  fe_mod p (set_fe_exit true) ;;;
  let! fe := fe_get p in
  if thread_pid fe =? 0 then mret_ tt
  else if negb alive then fe_mod p (set_sem 1)
  else others.

(** [pid]: the answer of [kernel_thread]. *)
Definition dvb_frontend_start (p pid : Z) (alive : bool) (others : FM unit) : FM Z :=
  let! fe := fe_get p in
  if negb (thread_pid fe =? 0) && negb (fe_exit fe) then mret_ 0 else
  (if thread_pid fe =? 0 then mret_ tt else dvb_frontend_stop p alive others) ;;;
  let! s := mget in
  if sig s then mret_ (- EINTR) else
  let! intr := down_fe p in
  if intr : bool then mret_ (- EINTR) else
  fe_mod p (fun fe => set_thread_pid 0 (set_fe_exit false fe)) ;;;
  if pid <? 0 then up_fe p ;;; mret_ pid
  else fe_mod p (set_thread_pid pid) ;;; mret_ 0.

(** ** The device file *)

(** [others]: see [dvb_frontend_get_event]. *)
Definition dvb_frontend_ioctl (p : Z) (cmd : fe_cmd) (arg : fe_arg) (nonblock : bool) (others : FM Z)
    : FM (Z * fe_arg) :=
  let! fe := fe_get p in
  if (ioctl (frontend fe) =? 0) || fe_exit fe then mret_ (- ENODEV, arg) else
  let! intr := down_fe p in
  if intr : bool then mret_ (- ERESTARTSYS, arg) else
  let! r := match cmd with
    | FE_DISEQC_SEND_MASTER_CMD | FE_DISEQC_SEND_BURST | FE_SET_TONE =>
        let! fe := fe_get p in
        (if status fe =? 0 then mret_ tt else dvb_call_frontend_notifiers p 0) ;;;
        let! r := dvb_frontend_internal_ioctl p cmd arg in
        mret_ (0, r.2)
    | FE_SET_FRONTEND =>
        match arg with
        | ArgParameters par =>
            let! r := dvb_frontend_set_parameters p (Some par) true in
            mret_ (r.1, match r.2 with Some q => ArgParameters q | None => arg end)
        | _ => mfault
        end
    | FE_GET_EVENT =>
        let! r := dvb_frontend_get_event p nonblock others in
        mret_ (r.1, match r.2 with Some e => ArgEvent e | None => arg end)
    | FE_GET_FRONTEND =>
        let! fe := fe_get p in
        let! r := dvb_frontend_internal_ioctl p cmd (ArgParameters (parameters fe)) in
        mret_ (0, r.2)
    | _ =>
        let! r := dvb_frontend_internal_ioctl p cmd arg in
        mret_ (0, r.2)
    end in
  up_fe p ;;;
  mret_ r.

Definition dvb_frontend_poll (p : Z) : FM bool :=
  let! fe := fe_get p in mret_ (any_event fe).

(** The shared open and release, on the device at [d]. *)
Definition on_device (d : Z) (f : dvb_device -> Z * dvb_device) : FM Z :=
  let! e := dev_at d in
  mmodify (fun s => set_registry
    (set_dvb_adapter_list (map (upd_device (f e).2) (dvb_adapter_list (registry s))) (registry s)) s) ;;;
  mret_ (f e).1.

Definition dvb_frontend_open (d : Z) (rdonly : bool) (pid : Z) (alive : bool) (others : FM unit) : FM Z :=
  let! e := dev_at d in
  let! ret := on_device d (dvb_generic_open rdonly) in
  if ret <? 0 then mret_ ret else
  if rdonly then mret_ ret else
  let p := dev_priv e in
  let! ret := dvb_frontend_start p pid alive others in
  (if ret =? 0 then mret_ 0 else on_device d (dvb_generic_release rdonly)) ;;;
  fe_mod p (mod_events (fun ev => set_eventr 0 (set_eventw 0 ev))) ;;;
  mret_ ret.

Definition dvb_frontend_release (d : Z) (rdonly : bool) : FM Z :=
  let! e := dev_at d in
  (if rdonly then mret_ tt else let! t := now in fe_mod (dev_priv e) (set_release_jiffies t)) ;;;
  on_device d (dvb_generic_release rdonly).

(** ** Functions and notifiers of the adapters *)

(** The loop over all front ends. *)
Fixpoint for_frontends (f : dvb_frontend -> dvb_frontend) (l : list Z) : FM unit :=
  match l with
  | [] => mret_ tt
  | p :: l => fe_mod p (mod_frontend f) ;;; for_frontends f l
  end.

Definition apply_ioctls (adap before after data : Z) (fr : dvb_frontend) : dvb_frontend :=
  if (adapter fr =? adap) && (before_ioctl fr =? 0) && (after_ioctl fr =? 0)
  then set_before_after_data data (set_after_ioctl after (set_before_ioctl before fr)) else fr.

Definition dvb_add_frontend_ioctls (adap before after data : Z) : FM Z :=
  let! intr := down_frontends in
  if intr : bool then mret_ (- ERESTARTSYS) else
  let! ok := kmalloc in
  if negb ok then up_frontends ;;; mret_ (- ENOMEM) else
  mmodify (fun s => set_frontend_ioctl_list
    (frontend_ioctl_list s ++ [mk_dvb_frontend_ioctl_data adap before after data]) s) ;;;
  let! s := mget in
  for_frontends (apply_ioctls adap before after data) (frontend_list s) ;;;
  up_frontends ;;;
  mret_ 0.

Definition remove_ioctls (adap before after : Z) (fr : dvb_frontend) : dvb_frontend :=
  if (adapter fr =? adap) && (before_ioctl fr =? before) && (after_ioctl fr =? after)
  then set_after_ioctl 0 (set_before_ioctl 0 fr) else fr.

(** [list_del] of the first entry that matches. *)
Fixpoint remove_first {A} (f : A -> bool) (l : list A) : list A :=
  match l with
  | [] => []
  | x :: l => if f x then l else x :: remove_first f l
  end.

Definition dvb_remove_frontend_ioctls (adap before after : Z) : FM unit :=
  let! _ := (fun s => if frontend_mutex s then Block else Ok (tt, set_frontend_mutex true s)) in
  let! s := mget in
  for_frontends (remove_ioctls adap before after) (frontend_list s) ;;;
  mmodify (fun s => set_frontend_ioctl_list
    (remove_first (fun e => (io_adapter e =? adap) && (io_before e =? before) && (io_after e =? after))
       (frontend_ioctl_list s)) s) ;;;
  up_frontends.

Definition apply_notifier (adap callback data : Z) (fr : dvb_frontend) : dvb_frontend :=
  if (adapter fr =? adap) && (notifier_callback fr =? 0)
  then set_notifier_data data (set_notifier_callback callback fr) else fr.

Definition dvb_add_frontend_notifier (adap callback data : Z) : FM Z :=
  let! intr := down_frontends in
  if intr : bool then mret_ (- ERESTARTSYS) else
  let! ok := kmalloc in
  if negb ok then up_frontends ;;; mret_ (- ENOMEM) else
  mmodify (fun s => set_frontend_notifier_list
    (frontend_notifier_list s ++ [mk_dvb_frontend_notifier_data adap callback data]) s) ;;;
  let! s := mget in
  for_frontends (apply_notifier adap callback data) (frontend_list s) ;;;
  up_frontends ;;;
  mret_ 0.

Definition remove_notifier (adap callback : Z) (fr : dvb_frontend) : dvb_frontend :=
  if (adapter fr =? adap) && (notifier_callback fr =? callback)
  then set_notifier_callback 0 fr else fr.

Definition dvb_remove_frontend_notifier (adap callback : Z) : FM unit :=
  let! _ := (fun s => if frontend_mutex s then Block else Ok (tt, set_frontend_mutex true s)) in
  let! s := mget in
  for_frontends (remove_notifier adap callback) (frontend_list s) ;;;
  mmodify (fun s => set_frontend_notifier_list
    (remove_first (fun e => (no_adapter e =? adap) && (no_callback e =? callback))
       (frontend_notifier_list s)) s) ;;;
  up_frontends.

(** ** Registration *)

Definition on_registry {A} (m : M dvbdev A) : FM A :=
  fun s => res_bind (m (registry s)) (fun r => Ok (r.1, set_registry r.2 s)).

(** [~0], [1] and [(~0)-1] openings. *)
Definition dvbdev_template : dvb_device := mk_dvb_device 0 0 0 (-2) 1 (-1) true true 0.

Definition no_parameters : dvb_frontend_parameters := mk_dvb_frontend_parameters 0 0 (replicate 7 0).
Definition no_events : dvb_fe_events :=
  mk_dvb_fe_events (replicate 8 (mk_dvb_frontend_event 0 no_parameters)) 0 0 false 1.

Definition find_ioctls (adap : Z) (l : list dvb_frontend_ioctl_data) (fr : dvb_frontend) : dvb_frontend :=
  match find (fun e => io_adapter e =? adap) l with
  | Some e => set_before_after_data (io_data e) (set_after_ioctl (io_after e) (set_before_ioctl (io_before e) fr))
  | None => fr
  end.
Definition find_notifier (adap : Z) (l : list dvb_frontend_notifier_data) (fr : dvb_frontend) : dvb_frontend :=
  match find (fun e => no_adapter e =? adap) l with
  | Some e => set_notifier_data (no_data e) (set_notifier_callback (no_callback e) fr)
  | None => fr
  end.

Definition new_frontend (ioctl_ bus adap num data : Z) (info_ : dvb_frontend_info) (s : fe_state) : dvb_frontend_data :=
  mk_dvb_frontend_data info_
    (find_notifier adap (frontend_notifier_list s)
      (find_ioctls adap (frontend_ioctl_list s)
        (mk_dvb_frontend 0 ioctl_ 0 0 bus adap num 0 0 data)))
    0 no_parameters no_events 1 0 0 0 0 0 0 0 false 0.

(** The result of [dvb_register_device] is not looked at. *)
Definition dvb_register_frontend (ioctl_ bus adap num data : Z) (info_ : dvb_frontend_info) : FM Z :=
  let! intr := down_frontends in
  if intr : bool then mret_ (- ERESTARTSYS) else
  let! ok := kmalloc in
  if negb ok then up_frontends ;;; mret_ (- ENOMEM) else
  let! s := mget in
  let p := next_fe s in
  mmodify (fun s => set_next_fe (p + 1)
    (set_frontend_list (frontend_list s ++ [p])
      (set_heap (<[p := new_frontend ioctl_ bus adap num data info_ s]> (heap s)) s))) ;;;
  let! alloc := kmalloc in
  let! r := on_registry (dvb_register_device adap dvbdev_template p DVB_DEVICE_FRONTEND alloc (sig s)) in
  match r.2 with
  | Some (Some d) => fe_mod p (set_fe_dvbdev d)
  | _ => mret_ tt
  end ;;;
  up_frontends ;;;
  mret_ 0.

Fixpoint find_frontend (ioctl_ bus : Z) (l : list Z) : FM (option Z) :=
  match l with
  | [] => mret_ None
  | p :: l =>
      let! fe := fe_get p in
      if (ioctl (frontend fe) =? ioctl_) && (i2c (frontend fe) =? bus) then mret_ (Some p)
      else find_frontend ioctl_ bus l
  end.

(** Up to the release of the mutex; then the thread is stopped and the front
    end freed. *)
Definition unregister_part1 (ioctl_ bus : Z) : FM (option Z) :=
  let! _ := (fun s => if frontend_mutex s then Block else Ok (tt, set_frontend_mutex true s)) in
  let! s := mget in
  let! r := find_frontend ioctl_ bus (frontend_list s) in
  match r with
  | Some p =>
      let! fe := fe_get p in
      on_registry (dvb_unregister_device (if fe_dvbdev fe =? 0 then None else Some (fe_dvbdev fe))) ;;;
      mmodify (fun s => set_frontend_list (filter (fun q => q <> p) (frontend_list s)) s) ;;;
      up_frontends ;;;
      mret_ (Some p)
  | None => up_frontends ;;; mret_ None
  end.

Definition dvb_unregister_frontend (ioctl_ bus : Z) (alive : bool) (others : FM unit) : FM Z :=
  let! r := unregister_part1 ioctl_ bus in
  match r with
  | Some p =>
      dvb_frontend_stop p alive others ;;;
      mmodify (fun s => set_heap (delete p (heap s)) s) ;;;
      mret_ 0
  | None => mret_ (- EINVAL)
  end.

End Frontend.
