(* ===== verification/DvbFrontendSpec.v ===== *)
(** * What a front end does

    The running of the driver's functions, the bending of the frequency, the
    search for a drifted signal, the ring of events. *)

From stdpp Require Import gmap.
From S2P Require Import Prelude DvbDev DvbFrontend.

Section Running.
Context {W : Type} `{!FeDrivers W}.
Abbreviation FS := (@fe_state W).

(** ** Rules for the state *)

Definition upd (p : Z) (fe : dvb_frontend_data) (s : FS) : FS := set_heap (<[p := fe]> (heap s)) s.

Lemma fe_get_run p fe (s : FS) : heap s !! p = Some fe -> fe_get p s = Ok (fe, s).
Proof. unfold fe_get. by intros ->. Qed.

Lemma fe_mod_run p f fe (s : FS) : heap s !! p = Some fe -> fe_mod p f s = Ok (tt, upd p (f fe) s).
Proof. unfold fe_mod. by intros ->. Qed.

Lemma fe_get_bind {B} p fe (k : dvb_frontend_data -> M FS B) s :
  heap s !! p = Some fe -> mbind_ (fe_get p) k s = k fe s.
Proof. intros H. by rewrite (mbind_Ok _ _ _ _ _ (fe_get_run p fe s H)). Qed.

Lemma fe_mod_bind {B} p f fe (k : unit -> M FS B) s :
  heap s !! p = Some fe -> mbind_ (fe_mod p f) k s = k tt (upd p (f fe) s).
Proof. intros H. by rewrite (mbind_Ok _ _ _ _ _ (fe_mod_run p f fe s H)). Qed.

Lemma upd_heap p fe s : heap (upd p fe s) !! p = Some fe.
Proof. apply lookup_insert_eq. Qed.

Lemma upd_upd p a b s : upd p a (upd p b s) = upd p a s.
Proof. unfold upd. cbn. by rewrite insert_insert_eq. Qed.

Lemma upd_same p fe s : heap s !! p = Some fe -> upd p fe s = s.
Proof. intros H. unfold upd. rewrite insert_id by done. by destruct s. Qed.

Lemma upd_world p fe w s : upd p fe (set_world w s) = set_world w (upd p fe s).
Proof. done. Qed.

Lemma upd_mutex p fe b s : upd p fe (set_frontend_mutex b s) = set_frontend_mutex b (upd p fe s).
Proof. done. Qed.

(** ** The driver's functions

    [before_ioctl] first; the driver if that does not know the command;
    [after_ioctl] if neither does. *)
Definition run_driver (fr : dvb_frontend) (p : Z) (cmd : fe_cmd) (arg : fe_arg) (w : W) : (Z * fe_arg) * W :=
  let r := if before_ioctl fr =? 0 then ((- EOPNOTSUPP, arg), w)
           else fe_function (before_ioctl fr) p cmd arg w in
  if r.1.1 =? - EOPNOTSUPP then
    let r := fe_function (ioctl fr) p cmd r.1.2 r.2 in
    if (r.1.1 =? - EOPNOTSUPP) && negb (after_ioctl fr =? 0)
    then fe_function (after_ioctl fr) p cmd r.1.2 r.2 else r
  else r.

Lemma internal_ioctl_run p fe cmd arg (s : FS) :
  heap s !! p = Some fe ->
  dvb_frontend_internal_ioctl p cmd arg s =
    let r := run_driver (frontend fe) p cmd arg (world s) in Ok (r.1, set_world r.2 s).
Proof.
  intros Hp. unfold dvb_frontend_internal_ioctl. rewrite (fe_get_bind p fe) by done.
  unfold run_driver, call_function. destruct (before_ioctl (frontend fe) =? 0).
  - mrun. rewrite Z.eqb_refl. unfold mbind_ at 1. cbn [res_bind fst snd].
    destruct (fe_function _ _ _ _ _) as [[e a] w]. cbn [fst snd].
    by destruct ((e =? - EOPNOTSUPP) && _).
  - unfold mbind_ at 1. cbn [res_bind fst snd].
    destruct (fe_function (before_ioctl _) _ _ _ _) as [[e a] w]. cbn [fst snd].
    destruct (e =? - EOPNOTSUPP); [|done]. unfold mbind_. cbn [res_bind fst snd world set_world].
    change (world (set_world w s)) with w.
    destruct (fe_function (ioctl _) _ _ _ _) as [[e' a'] w']. cbn [fst snd].
    by destruct ((e' =? - EOPNOTSUPP) && _).
Qed.

Lemma internal_ioctl_bind {B} p fe cmd arg (k : Z * fe_arg -> M FS B) s :
  heap s !! p = Some fe ->
  mbind_ (dvb_frontend_internal_ioctl p cmd arg) k s =
    let r := run_driver (frontend fe) p cmd arg (world s) in k r.1 (set_world r.2 s).
Proof.
  intros H. unfold mbind_. rewrite (internal_ioctl_run p fe) by done. cbv zeta. done.
Qed.

(** ** Bending *)

(** Every listed front end exists. *)
Definition listed_ok (s : FS) : Prop := Forall (fun q => is_Some (heap s !! q)) (frontend_list s).

(** Another front end of the adapter is tuned closer than a step to this one,
    were this one bent by [b]. *)
Definition clashes (p : Z) (fe : dvb_frontend_data) (s : FS) (b : Z) : bool :=
  existsb (fun q =>
    match heap s !! q with
    | Some other =>
        (adapter_num (frontend other) =? adapter_num (frontend fe)) && negb (p =? q) &&
        too_close (s32 (frequency_stepsize (info fe))) (set_bending b fe) other
    | None => false
    end) (frontend_list s).

Lemma clash_loop_run p fe b l (s : FS) :
  heap s !! p = Some (set_bending b fe) -> Forall (fun q => is_Some (heap s !! q)) l ->
  clash_loop p (s32 (frequency_stepsize (info fe))) l s =
    Ok (existsb (fun q =>
          match heap s !! q with
          | Some other =>
              (adapter_num (frontend other) =? adapter_num (frontend fe)) && negb (p =? q) &&
              too_close (s32 (frequency_stepsize (info fe))) (set_bending b fe) other
          | None => false
          end) l, s).
Proof.
  intros Hp. induction 1 as [|q l [other Hq] _ IH]; [done|]. cbn [clash_loop existsb].
  rewrite (fe_get_bind p (set_bending b fe)), (fe_get_bind q other) by done. rewrite Hq.
  cbn [frontend set_bending].
  change (adapter_num (frontend (set_bending b fe))) with (adapter_num (frontend fe)).
  destruct (adapter_num (frontend other) =? adapter_num (frontend fe)); cbn [negb andb orb]; [|done].
  destruct (negb (p =? q) && _); cbn [orb]; done.
Qed.

(** What the others are tuned to does not depend on this one. *)
Lemma clashes_upd p fe fe' b s :
  clashes p fe (upd p fe' s) b = clashes p fe s b.
Proof.
  unfold clashes. change (frontend_list (upd p fe' s)) with (frontend_list s).
  induction (frontend_list s) as [|q l IH]; [done|]. cbn [existsb]. rewrite IH. f_equal.
  destruct (decide (p = q)) as [<-|Hq].
  - rewrite upd_heap, Z.eqb_refl. cbn [negb]. rewrite andb_false_r. cbn [andb].
    destruct (heap s !! p); [|done]. by rewrite andb_false_r.
  - unfold upd. cbn. by rewrite lookup_insert_ne.
Qed.
Lemma clashes_mutex p fe b c s : clashes p fe (set_frontend_mutex c s) b = clashes p fe s b.
Proof. done. Qed.

Lemma listed_upd p fe s : listed_ok s -> listed_ok (upd p fe s).
Proof.
  unfold listed_ok. apply Forall_impl. intros q [x Hq]. unfold upd. cbn.
  destruct (decide (p = q)) as [->|]; [rewrite lookup_insert_eq|rewrite lookup_insert_ne by done]; eauto.
Qed.

(** One nested call. *)
Lemma bend_inner fuel p r fe b (s : FS) :
  heap s !! p = Some (set_bending b fe) -> listed_ok s -> 0 < r <= 10 ->
  s32 (frequency_stepsize (info fe)) <> 0 ->
  bend (S fuel) p r s =
    if clashes p fe s b
    then bend fuel p (r + 1) (upd p (set_bending
           (if Z.rem r 2 =? 0 then s32 (- b) else s32 (b + s32 (frequency_stepsize (info fe)))) fe) s)
    else Ok (tt, s).
Proof.
  intros Hp Hl Hr Hs. cbn [bend]. rewrite (fe_get_bind p _ _ _ Hp).
  change (info (set_bending b fe)) with (info fe). rif. mrun.
  rewrite (mbind_Ok _ _ _ _ _ (clash_loop_run p fe b _ s Hp Hl)). fold (clashes p fe s b).
  destruct (clashes p fe s b); [|done].
  rewrite mbind_bind, (fe_mod_bind p _ _ _ _ Hp). unfold mbind_.
  change (bending (set_bending b fe)) with b.
  change (set_bending ?c (set_bending b fe)) with (set_bending c fe).
  destruct (bend fuel p (r + 1) _) as [[[] s']| | |]; done.
Qed.

Lemma bend_stop fuel p r fe (s : FS) : heap s !! p = Some fe -> 10 < r -> bend fuel p r s = Ok (tt, s).
Proof.
  intros Hp Hr. destruct fuel; cbn [bend]; rewrite (fe_get_bind p _ _ _ Hp); rif;
    by destruct (s32 (frequency_stepsize (info fe)) =? 0).
Qed.

(** The whole of the search. *)
Definition bent (step : Z) (clash : Z -> bool) : Z :=
  if negb (clash 0) then 0 else if negb (clash step) then step else - step.

Lemma bend_step step f p r fe b (s : FS) :
  s32 (frequency_stepsize (info fe)) = step -> step <> 0 -> listed_ok s -> 0 < r <= 10 ->
  bend (S f) p r (upd p (set_bending b fe) s) =
    if clashes p fe s b
    then bend f p (r + 1) (upd p (set_bending (if Z.rem r 2 =? 0 then s32 (- b) else s32 (b + step)) fe) s)
    else Ok (tt, upd p (set_bending b fe) s).
Proof.
  intros <- Hs Hl Hr. rewrite (bend_inner f p r fe b); [|apply upd_heap|by apply listed_upd|done..].
  by rewrite clashes_upd, upd_upd.
Qed.

Ltac bend_next step :=
  rewrite (bend_step step) by (done || lia);
  match goal with H : clashes _ _ _ ?b = true |- context [if clashes _ _ _ ?b then _ else _] => rewrite H end;
  match goal with |- context [if Z.rem ?r 2 =? 0 then _ else _] =>
    let v := eval vm_compute in (Z.rem r 2 =? 0) in change (Z.rem r 2 =? 0) with v end;
  cbv iota;
  repeat match goal with E : s32 _ = _ |- _ => rewrite E end.

Lemma bend_chain step p fe (s : FS) :
  s32 (frequency_stepsize (info fe)) = step -> 0 < step < 2 ^ 31 -> listed_ok s ->
  clashes p fe s 0 = true ->
  bend 10 p 1 (upd p (set_bending 0 fe) s) =
    Ok (tt, upd p (set_bending (bent step (clashes p fe s)) fe) s).
Proof.
  intros Hstep Hs Hl H0. unfold bent. rewrite H0. cbn [negb].
  assert (s32 (0 + step) = step) as E1 by (unfold s32; rewrite Z.mod_small; lia).
  assert (s32 (- step) = - step) as E2 by (unfold s32; rewrite Z.mod_small; lia).
  assert (s32 (- step + step) = 0) as E3 by (replace (- step + step) with 0 by lia; done).
  assert (s32 (- 0) = 0) as E4 by done.
  destruct (clashes p fe s step) eqn:H1; cbn [negb]; bend_next step.
  2: { rewrite (bend_step step) by (done || lia). by rewrite H1. }
  bend_next step.
  destruct (clashes p fe s (- step)) eqn:H2; [|rewrite (bend_step step) by (done || lia); by rewrite H2].
  do 8 bend_next step. apply (bend_stop _ _ _ (set_bending (- step) fe)); [apply upd_heap|lia].
Qed.

Lemma bend_positive step p fe (s : FS) :
  heap s !! p = Some fe -> listed_ok s -> frontend_mutex s = false ->
  s32 (frequency_stepsize (info fe)) = step -> 0 < step ->
  dvb_bend_frequency p s = Ok (tt, upd p (set_bending (bent step (clashes p fe s)) fe) s).
Proof.
  intros Hp Hl Hm Hstep Hs.
  assert (step < 2 ^ 31) as Hs'.
  { rewrite <- Hstep. unfold s32. pose proof (Z.mod_pos_bound (frequency_stepsize (info fe) + 2 ^ 31) (2 ^ 32)). lia. }
  subst step. unfold dvb_bend_frequency. change 11%nat with (S 10). remember 10%nat as n eqn:Hn.
  cbn [bend]. subst n. rewrite (fe_get_bind p _ _ _ Hp). rif. mrun. cbn [Z.eqb].
  unfold down_frontends at 1, mbind_ at 1. rewrite Hm. cbn [res_bind fst snd].
  rewrite (fe_mod_bind p _ fe) by done. mrun.
  set (s1 := set_frontend_mutex true s).
  rewrite (mbind_Ok _ _ _ _ _ (clash_loop_run p fe 0 _ (upd p (set_bending 0 fe) s1)
             (upd_heap _ _ _) (listed_upd p _ s1 Hl))).
  fold (clashes p fe (upd p (set_bending 0 fe) s1) 0). rewrite clashes_upd.
  assert (forall b, clashes p fe s1 b = clashes p fe s b) as Hc by done.
  unfold mbind_ at 1. rewrite Hc. destruct (clashes p fe s 0) eqn:H0.
  - rewrite (fe_mod_bind p _ _ _ _ (upd_heap _ _ _)). change (Z.rem 0 2 =? 0) with true. cbv iota.
    rewrite upd_upd. change (s32 (- bending (set_bending 0 fe))) with 0.
    change (set_bending 0 (set_bending 0 fe)) with (set_bending 0 fe). change (0 + 1) with 1.
    rewrite (bend_chain _ p fe s1 eq_refl) by done. cbn [res_bind fst snd].
    unfold up_frontends, mmodify. do 2 f_equal. rewrite <- upd_mutex. unfold upd, s1. destruct s. cbn in *. by subst.
  - unfold bent. rewrite H0. cbn. do 2 f_equal. unfold upd, s1. destruct s. cbn in *. by subst.
Qed.

(** The search for a frequency that does not disturb the other front ends
    of the adapter always ends.  It keeps the frequency if no other is closer
    than a step; otherwise it moves a step up if that is clear, otherwise a step
    down, whether that is clear or not; and it changes nothing else. *)
Theorem bend_frequency_spec step p fe (s : FS) :
  heap s !! p = Some fe -> listed_ok s -> frontend_mutex s = false ->
  s32 (frequency_stepsize (info fe)) = step -> 0 < step ->
  dvb_bend_frequency p s =
    Ok (tt, set_heap (<[p := set_bending (bent step (clashes p fe s)) fe]> (heap s)) s).
Proof. apply bend_positive. Qed.
End Running.

(** ** Searching for the signal *)

(** The drift the [k]-th turn of a scan tries, in steps: 0, 1, -1, 2, -2, ... *)
Definition zigzag (k : Z) : Z := if k mod 2 =? 0 then - (k / 2) else (k + 1) / 2.

(** The drifts after the turns [j], [j + 1], ... of the counter of lost locks. *)
Fixpoint drift_after (n : nat) (j step drift : Z) : Z :=
  match n with
  | O => next_drift j step drift
  | S n => drift_after n (j + 1) step (next_drift j step drift)
  end.

Lemma zigzag_bound k : 0 <= k < 32 -> -15 <= zigzag k <= 16.
Proof.
  intros Hk. pose proof (forall_range (fun z => (-15 <=? zigzag z) && (zigzag z <=? 16)) 32
    ltac:(vm_compute; done) k ltac:(lia)) as H. cbv beta in H. lia.
Qed.

Lemma s32_in z : - 2 ^ 31 <= z < 2 ^ 31 -> s32 z = z.
Proof. unfold s32. intros. rewrite Z.mod_small; lia. Qed.

Lemma next_drift_zigzag j k step :
  0 <= j -> j mod 32 = 0 -> 0 < k < 32 -> 0 <= step -> 16 * step < 2 ^ 31 ->
  next_drift (j + k) step (zigzag (k - 1) * step) = zigzag k * step.
Proof.
  intros Hj Hm Hk Hs Hb. unfold next_drift.
  pose proof (zigzag_bound (k - 1) ltac:(lia)) as Hz.
  rewrite !Z.rem_mod_nonneg by lia.
  assert ((j + k) mod 32 = k) as -> by (rewrite <- Z.add_mod_idemp_l, Hm by lia; apply Z.mod_small; lia).
  assert ((j + k) mod 2 = k mod 2) as ->.
  { rewrite <- Z.add_mod_idemp_l by lia. replace (j mod 2) with 0; [done|].
    pose proof (Z.div_mod j 32 ltac:(lia)). pose proof (Z.div_mod j 2 ltac:(lia)).
    pose proof (Z.mod_pos_bound j 2 ltac:(lia)). lia. }
  rif. rewrite (s32_in (- (zigzag (k - 1) * step))) by nia.
  unfold zigzag in *.
  pose proof (Z.div_mod k 2 ltac:(lia)). pose proof (Z.mod_pos_bound k 2 ltac:(lia)).
  pose proof (Z.div_mod (k - 1) 2 ltac:(lia)). pose proof (Z.mod_pos_bound (k - 1) 2 ltac:(lia)).
  pose proof (Z.div_mod (k + 1) 2 ltac:(lia)). pose proof (Z.mod_pos_bound (k + 1) 2 ltac:(lia)).
  replace (k - 1 + 1) with k in * by lia.
  destruct (Z.eqb_spec (k mod 2) 0) as [E|E].
  - replace ((k - 1) mod 2 =? 0) with false by lia. nia.
  - replace ((k - 1) mod 2 =? 0) with true in * by lia.
    assert ((k - 1) / 2 + 1 = (k + 1) / 2) as <- by lia.
    rewrite s32_in by nia. lia.
Qed.

Lemma drift_scan n : forall j k step,
  0 <= j -> j mod 32 = 0 -> 0 < k -> k + Z.of_nat n < 32 -> 0 <= step -> 16 * step < 2 ^ 31 ->
  drift_after n (j + k) step (zigzag (k - 1) * step) = zigzag (k + Z.of_nat n) * step.
Proof.
  induction n as [|n IH]; intros j k step Hj Hm Hk Hn Hs Hb; cbn [drift_after].
  - rewrite next_drift_zigzag by (done || lia). f_equal. f_equal. lia.
  - rewrite next_drift_zigzag by (done || lia). replace (zigzag k) with (zigzag (k + 1 - 1)) by (f_equal; lia).
    rewrite <- Z.add_assoc, IH by (done || lia). f_equal. f_equal. lia.
Qed.

(** A scan of 32 turns, starting where the counter is a multiple of 32 and
    whatever the drift was, tries the drifts 0, 1, -1, 2, -2, ..., -15, 16 (in
    steps), each of the 32 once and nothing else, without overflow. *)
Theorem recover_scan j step drift :
  0 <= j -> j mod 32 = 0 -> 0 <= step -> 16 * step < 2 ^ 31 ->
  (forall k, 0 <= k < 32 -> drift_after (Z.to_nat k) j step drift = zigzag k * step) /\
  (forall m, -15 <= m <= 16 -> exists k, 0 <= k < 32 /\ zigzag k = m) /\
  (forall k k', 0 <= k < 32 -> 0 <= k' < 32 -> zigzag k = zigzag k' -> k = k').
Proof.
  intros Hj Hm Hs Hb. split; [|split].
  - intros k Hk. assert (next_drift j step drift = 0) as H0.
    { unfold next_drift. rewrite Z.rem_mod_nonneg by lia. by rewrite Hm. }
    destruct (decide (k = 0)) as [->|]; [change (Z.to_nat 0) with O; cbn [drift_after]; rewrite H0; done|].
    replace (Z.to_nat k) with (S (Z.to_nat (k - 1))) by lia. cbn [drift_after]. rewrite H0.
    pose proof (drift_scan (Z.to_nat (k - 1)) j 1 step ltac:(done) ltac:(done) ltac:(lia) ltac:(lia)
      ltac:(done) ltac:(done)) as E. change (zigzag (1 - 1) * step) with 0 in E. rewrite E.
    f_equal. f_equal. lia.
  - intros m Hmm. exists (if m <=? 0 then - 2 * m else 2 * m - 1). unfold zigzag.
    destruct (Z.leb_spec m 0).
    + replace ((-2 * m) mod 2) with 0 by (replace (-2 * m) with (- m * 2) by lia; by rewrite Z.mod_mul).
      cbn [Z.eqb]. replace (-2 * m) with (- m * 2) by lia. rewrite Z.div_mul by lia. lia.
    + replace ((2 * m - 1) mod 2) with 1.
      2: { replace (2 * m - 1) with (1 + (m - 1) * 2) by lia. by rewrite Z.mod_add. }
      cbn [Z.eqb]. replace (2 * m - 1 + 1) with (m * 2) by lia. rewrite Z.div_mul by lia. lia.
  - intros k k' Hk Hk' E. unfold zigzag in E.
    pose proof (Z.div_mod k 2 ltac:(lia)). pose proof (Z.mod_pos_bound k 2 ltac:(lia)).
    pose proof (Z.div_mod k' 2 ltac:(lia)). pose proof (Z.mod_pos_bound k' 2 ltac:(lia)).
    pose proof (Z.div_mod (k + 1) 2 ltac:(lia)). pose proof (Z.mod_pos_bound (k + 1) 2 ltac:(lia)).
    pose proof (Z.div_mod (k' + 1) 2 ltac:(lia)). pose proof (Z.mod_pos_bound (k' + 1) 2 ltac:(lia)).
    destruct (Z.eqb_spec (k mod 2) 0), (Z.eqb_spec (k' mod 2) 0); lia.
Qed.

Lemma recover_scan_witness :
  (forall k, 0 <= k < 32 -> drift_after (Z.to_nat k) 64 1718 5 = zigzag k * 1718) /\
  drift_after 31 64 1718 5 = 27488.
Proof.
  split; [|reflexivity].
  refine (proj1 (recover_scan 64 1718 5 _ _ _ _)); done.
Defined.

(** ** How often the thread looks *)

Fixpoint qualities (n : nat) (q : Z) (locked : bool) : Z :=
  match n with O => q | S n => qualities n (update_delay q locked).1 locked end.

Lemma update_delay_check locked :
  forallb (fun k => (fun q => let r := update_delay q locked in
    (0 <=? r.1) && (r.1 <=? 255) && (5 <=? r.2) && (r.2 <=? 105)) (Z.of_nat k)) (seq 0 256) = true.
Proof. destruct locked; vm_compute; done. Qed.

(** The thread of a locked, respectively an unlocked, front end. *)
Lemma qualities_check locked :
  forallb (fun k => (fun q => let r := qualities 45 q locked in
    (if locked then (249 <=? r) else (r =? 0)) && ((update_delay r locked).1 =? r)) (Z.of_nat k)) (seq 0 256) = true.
Proof. destruct locked; vm_compute; done. Qed.

(** The quality of a signal stays between 0 and 255 and the time between
    two looks at it between a twentieth of a second and that and a second; while
    the lock does not change, both stand still after at most 45 looks. *)
Theorem update_delay_bounds q locked :
  0 <= q <= 255 ->
  0 <= (update_delay q locked).1 <= 255 /\
  Z.quot HZ 20 <= (update_delay q locked).2 <= Z.quot HZ 20 + HZ /\
  let r := qualities 45 q locked in (update_delay r locked).1 = r.
Proof.
  intros Hq.
  pose proof (forall_range _ _ (update_delay_check locked) q ltac:(lia)) as H1.
  pose proof (forall_range _ _ (qualities_check locked) q ltac:(lia)) as H2.
  cbv beta zeta in H1, H2. split_bools. unfold HZ in *. change (100 ÷ 20) with 5. cbv zeta. lia.
Qed.

Lemma update_delay_bounds_witness :
  update_delay 0 true = (36, 56) /\ 0 <= (update_delay 0 true).1 <= 255.
Proof. split; [reflexivity|]. refine (proj1 (update_delay_bounds 0 true _)). lia. Defined.
