(* ===== verification/EventRing.v ===== *)
(** * Rings of eight events

    The front ends and the decoder keep their events in an array of eight with
    two positions, of which one place is always free: a queue of at most seven
    that drops the oldest event when it is full. *)

From S2P Require Import Prelude.

(** A queue of at most seven. *)
Definition push {A} (e : A) (q : list A) : list A := (if decide (length q = 7%nat) then tail q else q) ++ [e].

Section Ring.
Context {A : Type} (d : A).

(** [w]: where the next event goes; [r]: the oldest. *)
Definition ring_at (es : list A) (w r : Z) : Prop := length es = 8%nat /\ 0 <= r < 8 /\ 0 <= w < 8.

Definition ring_queue (es : list A) (w r : Z) : list A :=
  map (fun i => nth (Z.to_nat ((r + Z.of_nat i) mod 8)) es d) (seq 0 (Z.to_nat ((w - r) mod 8))).

Lemma in_ring i : 0 <= i < 8 -> i = 0 \/ i = 1 \/ i = 2 \/ i = 3 \/ i = 4 \/ i = 5 \/ i = 6 \/ i = 7.
Proof. lia. Qed.

(** Splits a ring into its 64 positions. *)
Ltac ring_cases es w r H :=
  destruct H as (Hlen & Hr & Hw);
  do 8 (destruct es as [|? es]; [done|]); destruct es; [|done]; clear Hlen;
  destruct (in_ring r Hr) as [->|[->|[->|[->|[->|[->|[->| ->]]]]]]];
  destruct (in_ring w Hw) as [->|[->|[->|[->|[->|[->|[->| ->]]]]]]].

Lemma ring_put_at es w r e :
  ring_at es w r ->
  let w' := Z.rem (w + 1) 8 in
  let r' := if w' =? r then Z.rem (r + 1) 8 else r in
  ring_at (<[Z.to_nat w := e]> es) w' r' /\
  ring_queue (<[Z.to_nat w := e]> es) w' r' = push e (ring_queue es w r) /\
  (w' =? r) = bool_decide (length (ring_queue es w r) = 7%nat).
Proof. intros H. ring_cases es w r H; (split; [by split|split; reflexivity]). Qed.

Lemma ring_take_at es w r :
  ring_at es w r -> w <> r ->
  exists e, es !! Z.to_nat r = Some e /\ ring_queue es w r = e :: ring_queue es w (Z.rem (r + 1) 8) /\
    ring_at es w (Z.rem (r + 1) 8).
Proof.
  intros H Hne. ring_cases es w r H; try lia; (eexists; split; [reflexivity|]; split; [reflexivity|by split]).
Qed.

Lemma ring_empty_at es w r : ring_at es w r -> w = r <-> ring_queue es w r = [].
Proof. intros H. ring_cases es w r H; split; intros E; first [reflexivity|discriminate|lia]. Qed.
End Ring.
