(* ===== verification/DvbFrontendEvents.v ===== *)
(** * Events and status of a front end

    The ring of events is a queue of at most seven that drops the oldest; a
    turn of the thread reports a change of the status exactly when there is
    one.  Then the races around them. *)

From stdpp Require Import gmap.
From S2P Require Import Prelude EventRing DvbDev DvbFrontend DvbFrontendSpec.

(** ** The ring as a queue *)

Definition an_event : dvb_frontend_event := mk_dvb_frontend_event 0 no_parameters.

Record ring_ok (ev : dvb_fe_events) : Prop := {
  ring_length : length (events ev) = 8%nat;
  ring_r : 0 <= eventr ev < 8;
  ring_w : 0 <= eventw ev < 8;
}.

(** The events that have not been read, the oldest first. *)
Definition queue (ev : dvb_fe_events) : list dvb_frontend_event :=
  ring_queue an_event (events ev) (eventw ev) (eventr ev).

Definition ring_put (e : dvb_frontend_event) (ev : dvb_fe_events) : dvb_fe_events :=
  let wp := Z.rem (eventw ev + 1) MAX_EVENT in
  mk_dvb_fe_events (<[Z.to_nat (eventw ev) := e]> (events ev)) wp
    (if wp =? eventr ev then Z.rem (eventr ev + 1) MAX_EVENT else eventr ev)
    (overflow ev || (wp =? eventr ev)) (ev_sem ev).

Lemma ring_ok_at ev : ring_ok ev <-> ring_at (events ev) (eventw ev) (eventr ev).
Proof. split; [by intros [? ? ?]|by intros (? & ? & ?)]. Qed.

Lemma ring_put_queue e ev :
  ring_ok ev ->
  ring_ok (ring_put e ev) /\ queue (ring_put e ev) = push e (queue ev) /\
  overflow (ring_put e ev) = overflow ev || bool_decide (length (queue ev) = 7%nat).
Proof.
  intros H%ring_ok_at. destruct (ring_put_at an_event _ _ _ e H) as (H1 & H2 & H3).
  split; [by apply ring_ok_at|]. split; [done|]. exact (f_equal (orb (overflow ev)) H3).
Qed.

Lemma ring_take_queue ev :
  ring_ok ev -> eventw ev <> eventr ev ->
  exists e, events ev !! Z.to_nat (eventr ev) = Some e /\ queue ev = e ::
    queue (set_eventr (Z.rem (eventr ev + 1) MAX_EVENT) ev) /\
  ring_ok (set_eventr (Z.rem (eventr ev + 1) MAX_EVENT) ev).
Proof.
  intros H%ring_ok_at Hne. destruct (ring_take_at an_event _ _ _ H Hne) as (e & H1 & H2 & H3).
  exists e. split; [done|]. split; [done|]. by apply ring_ok_at.
Qed.

Lemma ring_empty ev : ring_ok ev -> eventw ev = eventr ev <-> queue ev = [].
Proof. intros H%ring_ok_at. by apply ring_empty_at. Qed.

Section Events.
Context {W : Type} `{!FeDrivers W}.
Abbreviation FS := (@fe_state W).

(** ** Adding an event *)

Lemma world_same (s : FS) : set_world (world s) s = s.
Proof. by destruct s. Qed.

(** What the adapter's notifier and the clock see of a change of the status. *)
Definition status_set (s : Z) (w : W) (fe : dvb_frontend_data) : dvb_frontend_data :=
  set_status s
    (if has (status fe) FE_HAS_LOCK && negb (has s FE_HAS_LOCK)
     then set_lost_sync_jiffies (jiffies w) fe else fe).

Definition notified (s : Z) (fe : dvb_frontend_data) (w : W) : W :=
  let w1 := if has (Z.lxor s (status fe)) FE_HAS_LOCK && has s FE_HAS_LOCK
            then fe_delay (notifier_delay (info fe)) w else w in
  if negb (has s FE_HAS_LOCK) && has (caps (info fe)) FE_CAN_MUTE_TS then w1
  else if notifier_callback (frontend fe) =? 0 then w1
  else fe_notify (notifier_callback (frontend fe)) s (notifier_data (frontend fe)) w1.

Lemma notifiers_run p fe s (st : FS) :
  heap st !! p = Some fe ->
  dvb_call_frontend_notifiers p s st =
    Ok (tt, set_world (notified s fe (world st)) (upd p (status_set s (world st) fe) st)).
Proof.
  intros Hp. unfold dvb_call_frontend_notifiers. rewrite (fe_get_bind p fe) by done.
  assert (forall (fe' : dvb_frontend_data) (t : FS), heap t !! p = Some fe' -> status_set s (world st) fe = set_status s fe' ->
    world t = world st -> t = upd p fe' st ->
    ((if has (Z.lxor s (status fe)) FE_HAS_LOCK && has s FE_HAS_LOCK
      then mmodify (fun st => set_world (fe_delay (notifier_delay (info fe)) (world st)) st) else mret_ tt) ;;;
     fe_mod p (set_status s) ;;;
     if negb (has s FE_HAS_LOCK) && has (caps (info fe)) FE_CAN_MUTE_TS then mret_ tt
     else if notifier_callback (frontend fe) =? 0 then mret_ tt
     else mmodify (fun st => set_world
       (fe_notify (notifier_callback (frontend fe)) s (notifier_data (frontend fe)) (world st)) st)) t =
    Ok (tt, set_world (notified s fe (world st)) (upd p (status_set s (world st) fe) st))) as Hk.
  { intros fe' t Ht Hst Hw ->. unfold notified. rewrite Hst.
    destruct (_ && has s FE_HAS_LOCK); mrun.
    - rewrite (fe_mod_bind p _ fe') by apply upd_heap. rewrite upd_world, upd_upd.
      destruct (_ && _); [done|]. destruct (_ =? 0); [done|]. done.
    - rewrite (fe_mod_bind p _ fe') by apply upd_heap. rewrite upd_upd.
      destruct (_ && _); [by destruct st|]. destruct (_ =? 0); [by destruct st|]. done. }
  unfold mbind_ at 1. destruct (has (status fe) FE_HAS_LOCK && negb (has s FE_HAS_LOCK)) eqn:El.
  - unfold now. rewrite mgets_bind, (fe_mod_run p _ fe) by done. cbn [res_bind fst snd].
    apply (Hk (set_lost_sync_jiffies (jiffies (world st)) fe)); [apply upd_heap| |done|done].
    unfold status_set. by rewrite El.
  - cbn [res_bind mret_ fst snd]. apply (Hk fe); [done| |done|by rewrite upd_same].
    unfold status_set. by rewrite El.
Qed.

(** The parameters of an event: what the driver says it is tuned to, if locked. *)
Definition event_par (p s : Z) (fe : dvb_frontend_data) (w : W) : dvb_frontend_parameters :=
  if has s FE_HAS_LOCK then
    match (run_driver (frontend fe) p FE_GET_FRONTEND (ArgParameters (parameters fe)) w).1.2 with
    | ArgParameters q => q
    | _ => parameters fe
    end
  else parameters fe.
Definition event_world (p s : Z) (fe : dvb_frontend_data) (w : W) : W :=
  if has s FE_HAS_LOCK
  then (run_driver (frontend fe) p FE_GET_FRONTEND (ArgParameters (parameters fe)) w).2 else w.

Lemma down_ev_bind {B} p fe (k : bool -> M FS B) s :
  heap s !! p = Some fe -> 0 < ev_sem (fe_events fe) ->
  mbind_ (down_ev p) k s =
    k false (upd p (mod_events (set_ev_sem (ev_sem (fe_events fe) - 1)) fe) s).
Proof.
  intros Hp Hs. unfold down_ev, down_sem. rewrite mbind_bind, (fe_get_bind p fe) by done. rif.
  by rewrite mbind_bind, (fe_mod_bind p _ fe).
Qed.

Lemma down_fe_bind {B} p fe (k : bool -> M FS B) s :
  heap s !! p = Some fe -> 0 < sem fe ->
  mbind_ (down_fe p) k s = k false (upd p (set_sem (sem fe - 1) fe) s).
Proof.
  intros Hp Hs. unfold down_fe, down_sem. rewrite mbind_bind, (fe_get_bind p fe) by done. rif.
  by rewrite mbind_bind, (fe_mod_bind p _ fe).
Qed.

(** The ring after the first part: the slot has its old status. *)
Definition ring_put_par (par : dvb_frontend_parameters) (ev : dvb_fe_events) : dvb_fe_events :=
  ring_put (mk_dvb_frontend_event
    (ev_status (nth (Z.to_nat (eventw ev)) (events ev) an_event)) par) ev.

Lemma alter_insert_nth (f : dvb_frontend_event -> dvb_frontend_event) i l :
  (i < length l)%nat -> alter f i l = <[i := f (nth i l an_event)]> l.
Proof.
  intros Hi. destruct (lookup_lt_is_Some_2 l i Hi) as [x Hx].
  rewrite (nth_lookup_Some _ _ _ _ Hx). apply list_eq. intros j.
  destruct (decide (i = j)) as [<-|Hj].
  - by rewrite list_lookup_alter_eq, list_lookup_insert_eq, Hx.
  - by rewrite list_lookup_alter_ne, list_lookup_insert_ne.
Qed.

Lemma add_event_part1_run p s fe (st : FS) :
  heap st !! p = Some fe -> 0 < ev_sem (fe_events fe) -> ring_ok (fe_events fe) ->
  add_event_part1 p s st =
    Ok (Some (eventw (fe_events fe)),
        set_world (event_world p s fe (world st))
          (upd p (mod_events (ring_put_par (event_par p s fe (world st))) fe) st)).
Proof.
  intros Hp Hs [Hlen _ Hw]. unfold add_event_part1, ring_put_par, ring_put, event_world, event_par.
  rewrite (down_ev_bind p fe) by done. cbv iota.
  rewrite (fe_get_bind p _ _ _ (upd_heap _ _ _)).
  assert (forall f, alter f (Z.to_nat (eventw (fe_events fe))) (events (fe_events fe)) =
    <[Z.to_nat (eventw (fe_events fe)) :=
        f (nth (Z.to_nat (eventw (fe_events fe))) (events (fe_events fe)) an_event)]> (events (fe_events fe))) as Ha
    by (intros f; apply alter_insert_nth; lia).
  destruct fe as [inf fr dv par ev sm tp rj lj be ld tc lc ex stt]. destruct ev as [es ew er ov es_].
  cbn [fe_events ev_sem set_ev_sem mod_events set_fe_events eventw eventr events frontend parameters overflow] in *.
  assert (forall s1 es1 er1 ov1 w q, s1 = set_world w (upd p (mk_dvb_frontend_data inf fr dv par
      (mk_dvb_fe_events es ew er1 ov1 es1) sm tp rj lj be ld tc lc ex stt) st) ->
    (fe_mod p (mod_events (fun ev' => set_eventw (Z.rem (ew + 1) MAX_EVENT)
      (set_events (alter (fun e => mk_dvb_frontend_event (ev_status e) q) (Z.to_nat ew) (events ev')) ev'))) ;;;
     up_ev p ;;; mret_ (Some ew)) s1 =
    Ok (Some ew, set_world w (upd p (mk_dvb_frontend_data inf fr dv par
      (mk_dvb_fe_events (<[Z.to_nat ew := mk_dvb_frontend_event (ev_status (nth (Z.to_nat ew) es an_event)) q]> es)
         (Z.rem (ew + 1) MAX_EVENT) er1 ov1 (es1 + 1)) sm tp rj lj be ld tc lc ex stt) st))) as Hend.
  { intros s1 es1 er1 ov1 w q ->. erewrite fe_mod_bind by apply upd_heap. unfold up_ev.
    erewrite fe_mod_bind by apply upd_heap. rewrite !upd_world, !upd_upd. 
    pose proof (Ha (fun e => mk_dvb_frontend_event (ev_status e) q)) as E. cbv beta in E. by rewrite <- E. }
  destruct (Z.rem (ew + 1) MAX_EVENT =? er) eqn:Ef;
    [rewrite (fe_mod_bind p _ _ _ _ (upd_heap _ _ _)), upd_upd|rewrite mret_bind];
    (destruct (has s FE_HAS_LOCK);
      [rewrite mbind_bind, (internal_ioctl_bind p _ _ _ _ _ (upd_heap _ _ _))
      |match goal with |- _ ?s1 = _ => rewrite <- (world_same s1) end]);
    cbn; (erewrite Hend; [|reflexivity]); unfold mod_events; cbn;
    by rewrite Ef, Z.sub_add, ?orb_true_r, ?orb_false_r.
Qed.

(** The state after an event was added. *)
Definition event_added (p s : Z) (fe : dvb_frontend_data) (st : FS) : FS :=
  let w := event_world p s fe (world st) in
  let fe1 := mod_events (ring_put (mk_dvb_frontend_event s (event_par p s fe (world st)))) fe in
  set_world (notified s fe w) (upd p (status_set s w fe1) st).

Lemma add_event_run p s fe (st : FS) :
  heap st !! p = Some fe -> 0 < ev_sem (fe_events fe) -> ring_ok (fe_events fe) ->
  dvb_frontend_add_event p s st = Ok (tt, event_added p s fe st).
Proof.
  intros Hp Hs Hr. unfold dvb_frontend_add_event.
  rewrite (mbind_Ok _ _ _ _ _ (add_event_part1_run p s fe st Hp Hs Hr)).
  unfold add_event_part2. erewrite fe_mod_bind by apply upd_heap.
  set (w := event_world p s fe (world st)). set (par := event_par p s fe (world st)).
  assert (forall e, mod_events (fun ev => set_events
      (alter (fun e => mk_dvb_frontend_event s (ev_parameters e)) (Z.to_nat (eventw (fe_events fe))) (events ev)) ev)
      (mod_events (ring_put (mk_dvb_frontend_event e par)) fe) =
    mod_events (ring_put (mk_dvb_frontend_event s par)) fe) as E.
  { intros e. destruct Hr as [Hlen _ Hw]. unfold mod_events, ring_put. cbn -[alter].
    rewrite alter_insert_nth by (rewrite length_insert; lia). rewrite list_insert_insert_eq.
    assert (nth (Z.to_nat (eventw (fe_events fe)))
      (<[Z.to_nat (eventw (fe_events fe)) := mk_dvb_frontend_event e par]> (events (fe_events fe))) an_event =
      mk_dvb_frontend_event e par) as -> by (apply nth_lookup_Some, list_lookup_insert_eq; lia).
    done. }
  rewrite upd_world, upd_upd.
  change (mod_events (ring_put_par par) fe) with
    (mod_events (ring_put (mk_dvb_frontend_event
      (ev_status (nth (Z.to_nat (eventw (fe_events fe))) (events (fe_events fe)) an_event)) par)) fe).
  rewrite E.
  rewrite (notifiers_run p (mod_events (ring_put (mk_dvb_frontend_event s par)) fe)) by apply upd_heap.
  unfold event_added. fold w par. cbn [world set_world]. rewrite upd_world, upd_upd. done.
Qed.

(** Adding an event appends it, with the new status and the parameters (the
    driver's own, when locked), to the queue of the front end; when seven wait
    already the oldest is lost and the overflow is noted. *)
Theorem add_event_queue p s fe (st : FS) :
  heap st !! p = Some fe -> 0 < ev_sem (fe_events fe) -> ring_ok (fe_events fe) ->
  exists st' fe', dvb_frontend_add_event p s st = Ok (tt, st') /\ heap st' !! p = Some fe' /\
    ring_ok (fe_events fe') /\ status fe' = s /\ ev_sem (fe_events fe') = ev_sem (fe_events fe) /\
    queue (fe_events fe') =
      push (mk_dvb_frontend_event s (event_par p s fe (world st))) (queue (fe_events fe)) /\
    overflow (fe_events fe') = overflow (fe_events fe) || bool_decide (length (queue (fe_events fe)) = 7%nat).
Proof.
  intros Hp Hs Hr. eexists. eexists. split; [by apply add_event_run|]. split; [apply upd_heap|].
  set (e := mk_dvb_frontend_event s _). destruct (ring_put_queue e (fe_events fe) Hr) as (H1 & H2 & H3).
  assert (fe_events (status_set s (event_world p s fe (world st)) (mod_events (ring_put e) fe)) =
    ring_put e (fe_events fe)) as -> by (unfold status_set; by destruct (_ && _)).
  split; [done|]. split; [done|]. done.
Qed.
(** ** Reading an event *)

Lemma take_event_run p fe (st : FS) :
  heap st !! p = Some fe -> 0 < ev_sem (fe_events fe) -> ring_ok (fe_events fe) ->
  eventw (fe_events fe) <> eventr (fe_events fe) ->
  exists e, queue (fe_events fe) = e :: queue (set_eventr (Z.rem (eventr (fe_events fe) + 1) MAX_EVENT) (fe_events fe)) /\
    ring_ok (set_eventr (Z.rem (eventr (fe_events fe) + 1) MAX_EVENT) (fe_events fe)) /\
    take_event p st =
      Ok ((0, Some e), upd p (mod_events (set_eventr (Z.rem (eventr (fe_events fe) + 1) MAX_EVENT)) fe) st).
Proof.
  intros Hp Hs Hr Hne. destruct (ring_take_queue _ Hr Hne) as (e & He & Hq & Hok).
  exists e. split; [done|]. split; [done|]. unfold take_event.
  rewrite (down_ev_bind p fe) by done. cbv iota. rewrite (fe_get_bind p _ _ _ (upd_heap _ _ _)).
  change (events (fe_events (mod_events _ fe))) with (events (fe_events fe)).
  change (eventr (fe_events (mod_events _ fe))) with (eventr (fe_events fe)). rewrite He.
  rewrite (fe_mod_bind p _ _ _ _ (upd_heap _ _ _)). unfold up_ev.
  rewrite upd_upd, (fe_mod_bind p _ _ _ _ (upd_heap _ _ _)), upd_upd. unfold mret_. do 2 f_equal.
  destruct fe as [inf fr dv par ev sm tp rj lj be ld tc lc ex stt]. destruct ev.
  unfold mod_events. cbn. by rewrite Z.sub_add.
Qed.

(** Reading an event of a front end that nobody has to wait for: a noted
    overflow is reported once, before anything else; otherwise the oldest event
    comes out of the queue; of an empty queue a non-blocking reader is told so
    and nothing changes. *)
Theorem get_event_queue p fe (others : M FS Z) (st : FS) :
  heap st !! p = Some fe -> 0 < ev_sem (fe_events fe) -> ring_ok (fe_events fe) ->
  (overflow (fe_events fe) = true ->
     dvb_frontend_get_event p true others st =
       Ok ((- EOVERFLOW, None), upd p (mod_events (set_overflow false) fe) st)) /\
  (forall e q, overflow (fe_events fe) = false -> queue (fe_events fe) = e :: q ->
     exists fe', dvb_frontend_get_event p true others st = Ok ((0, Some e), upd p fe' st) /\
       queue (fe_events fe') = q /\ ring_ok (fe_events fe') /\ overflow (fe_events fe') = false) /\
  (overflow (fe_events fe) = false -> queue (fe_events fe) = [] ->
     dvb_frontend_get_event p true others st = Ok ((- EWOULDBLOCK, None), st)).
Proof.
  intros Hp Hs Hr. unfold dvb_frontend_get_event. rewrite (fe_get_bind p fe) by done.
  split; [|split].
  - intros ->. by rewrite (fe_mod_bind p _ fe).
  - intros e q Ho Hq. rewrite Ho. unfold any_event.
    assert (eventw (fe_events fe) <> eventr (fe_events fe)) as Hne
      by (intros E; apply (ring_empty _ Hr) in E; congruence). rif.
    destruct (take_event_run p fe st Hp Hs Hr Hne) as (e' & Hq' & Hok & E).
    rewrite Hq in Hq'. injection Hq' as <- ->. eexists. split; [exact E|]. done.
  - intros -> Hq%(ring_empty _ Hr). unfold any_event. by rewrite Hq, Z.eqb_refl.
Qed.

(** ** Two races *)

(** The event is readable before its status is written. *)
Definition read_between (p s : Z) : M FS (Z * option dvb_frontend_event) :=
  let! slot := add_event_part1 p s in
  let! r := take_event p in
  match slot with
  | Some i => add_event_part2 p i s ;;; mret_ r
  | None => mret_ r
  end.

(** A reader that comes between the two parts of adding an event gets the
    new parameters with whatever status the slot held before; the new status
    is written into a slot that has been read, and no reader gets it. *)
Theorem event_read_before_status p s fe (st : FS) :
  heap st !! p = Some fe -> 0 < ev_sem (fe_events fe) -> ring_ok (fe_events fe) ->
  queue (fe_events fe) = [] ->
  exists st' fe', read_between p s st =
      Ok ((0, Some (mk_dvb_frontend_event
             (ev_status (nth (Z.to_nat (eventw (fe_events fe))) (events (fe_events fe)) an_event))
             (event_par p s fe (world st)))), st') /\
    heap st' !! p = Some fe' /\ queue (fe_events fe') = [] /\ status fe' = s.
Proof.
  intros Hp Hs Hr Hq. unfold read_between.
  rewrite (mbind_Ok _ _ _ _ _ (add_event_part1_run p s fe st Hp Hs Hr)).
  set (par := event_par p s fe (world st)). set (w := event_world p s fe (world st)).
  set (old := ev_status (nth (Z.to_nat (eventw (fe_events fe))) (events (fe_events fe)) an_event)).
  set (fe1 := mod_events (ring_put_par par) fe).
  destruct (ring_put_queue (mk_dvb_frontend_event old par) (fe_events fe) Hr) as (Hr1 & Hq1 & _).
  change (ring_put (mk_dvb_frontend_event old par) (fe_events fe)) with (fe_events fe1) in Hr1, Hq1.
  rewrite Hq in Hq1. change (push _ []) with [mk_dvb_frontend_event old par] in Hq1.
  assert (eventw (fe_events fe1) <> eventr (fe_events fe1)) as Hne
    by (intros E; apply (ring_empty _ Hr1) in E; congruence).
  destruct (take_event_run p fe1 (set_world w (upd p fe1 st))) as (e & Hqe & Hr2 & E);
    [apply upd_heap|done|done|done|].
  rewrite (mbind_Ok _ _ _ _ _ E). rewrite Hq1 in Hqe. injection Hqe as <- Hq2.
  unfold add_event_part2. rewrite mbind_bind. erewrite fe_mod_bind by apply upd_heap.
  repeat first [rewrite upd_world|rewrite upd_upd].
  match goal with |- context [upd p ?f st] => set (fe3 := f) end.
  erewrite (mbind_Ok (dvb_call_frontend_notifiers p s)) by (apply (notifiers_run p fe3); apply upd_heap).
  do 2 eexists. split; [done|]. split; [apply upd_heap|]. split; [|done].
  assert (fe_events (status_set s (world (set_world w (upd p fe3 st))) fe3) = fe_events fe3) as ->
    by (unfold status_set; by destruct (_ && _)).
  symmetry in Hq2. unfold queue, ring_queue in Hq2 |- *. apply map_eq_nil in Hq2. exact (f_equal (map _) Hq2).
Qed.
End Events.
