(* ===== verification/DvbFrontendThread.v ===== *)
(** * The thread of a front end and its users

    What a turn of the thread reports; what tasks that wait, and a front end
    that is removed, do to each other; and how functions and notifiers of an
    adapter find their front ends. *)

From stdpp Require Import gmap.
From S2P Require Import Prelude EventRing DvbDev DvbDevSpec DvbFrontend DvbFrontendSpec DvbFrontendEvents.

(** The clock of a world does not go back, whatever the drivers do.  (It is not
    reduced to the width of [jiffies]; the code's differences are.) *)
Class FeClock (W : Type) `{!FeDrivers W} : Prop := {
  clock_function f p cmd arg (w : W) : jiffies w <= jiffies (fe_function f p cmd arg w).2;
  clock_notify f s d (w : W) : jiffies w <= jiffies (fe_notify f s d w);
  clock_delay d (w : W) : jiffies w <= jiffies (fe_delay d w);
}.

Section Thread.
Context {W : Type} `{!FeDrivers W} `{!FeClock W}.
Abbreviation FS := (@fe_state W).

Lemma run_driver_clock fr p cmd arg (w : W) : jiffies w <= jiffies (run_driver fr p cmd arg w).2.
Proof.
  unfold run_driver. set (r1 := if before_ioctl fr =? 0 then _ else _).
  assert (jiffies w <= jiffies r1.2) as H1.
  { subst r1. destruct (before_ioctl fr =? 0); [cbn; lia|apply clock_function]. }
  destruct (r1.1.1 =? - EOPNOTSUPP); [|done]. cbv zeta.
  pose proof (clock_function (ioctl fr) p cmd r1.1.2 r1.2) as H2.
  destruct (_ && _); [|lia]. pose proof (clock_function (after_ioctl fr) p cmd
    (fe_function (ioctl fr) p cmd r1.1.2 r1.2).1.2 (fe_function (ioctl fr) p cmd r1.1.2 r1.2).2). lia.
Qed.

Lemma notified_clock s fe (w : W) : jiffies w <= jiffies (notified s fe w).
Proof.
  unfold notified. cbv zeta. set (w1 := if _ && has s FE_HAS_LOCK then _ else _).
  assert (jiffies w <= jiffies w1) as H1 by (subst w1; destruct (_ && _); [apply clock_delay|lia]).
  clearbody w1. destruct (_ && _); [done|]. destruct (_ =? 0); [done|].
  pose proof (clock_notify (notifier_callback (frontend fe)) s (notifier_data (frontend fe)) w1). lia.
Qed.

Lemma event_world_clock p s fe (w : W) : jiffies w <= jiffies (event_world p s fe w).
Proof. unfold event_world. destruct (has s FE_HAS_LOCK); [apply run_driver_clock|lia]. Qed.

(** A state in which the front end can be tuned. *)
Record tunable (p : Z) (fe : dvb_frontend_data) (s : FS) : Prop := {
  tun_heap : heap s !! p = Some fe;
  tun_list : listed_ok s;
  tun_mutex : frontend_mutex s = false;
  tun_step : 0 <= s32 (frequency_stepsize (info fe));
}.

Definition new_bending (p : Z) (fe : dvb_frontend_data) (s : FS) : Z :=
  let step := s32 (frequency_stepsize (info fe)) in
  if step =? 0 then bending fe else bent step (clashes p fe s).

Lemma bend_frequency_run p fe (s : FS) :
  tunable p fe s -> dvb_bend_frequency p s = Ok (tt, upd p (set_bending (new_bending p fe s) fe) s).
Proof.
  intros [Hp Hl Hm Hs]. unfold new_bending. destruct (Z.eqb_spec (s32 (frequency_stepsize (info fe))) 0) as [E|E].
  - unfold dvb_bend_frequency. cbn [bend]. rewrite (fe_get_bind p fe) by done. rewrite E. cbn.
    unfold mret_. do 2 f_equal. rewrite upd_same; [done|]. rewrite Hp. f_equal. by destruct fe.
  - apply (bend_positive _ p fe s); done || lia.
Qed.

Lemma retune_run p fe (s : FS) :
  tunable p fe s -> exists r par b w,
    dvb_frontend_set_parameters p None false s =
      Ok (r, set_world w (upd p (set_parameters par (set_bending b fe)) s)) /\
    jiffies (world s) <= jiffies w.
Proof.
  intros Ht. unfold dvb_frontend_set_parameters. rewrite mret_bind.
  rewrite (mbind_Ok _ _ _ _ _ (bend_frequency_run p fe s Ht)). set (b := new_bending p fe s).
  rewrite (fe_get_bind p _ _ _ (upd_heap _ _ _)), (fe_mod_bind p _ _ _ _ (upd_heap _ _ _)), upd_upd.
  unfold tune. rewrite mbind_bind, (internal_ioctl_bind p _ _ _ _ _ (upd_heap _ _ _)). cbv zeta.
  rewrite mret_bind. cbn [fst snd]. erewrite fe_mod_bind by apply upd_heap.
  rewrite upd_world, upd_upd. do 4 eexists. split; [reflexivity|].
  apply (run_driver_clock (frontend fe) p).
Qed.

Lemma recover_run p fe (s : FS) :
  tunable p fe s -> exists par b d w,
    dvb_frontend_recover p s =
      Ok (tt, set_world w (upd p (set_parameters par (set_bending b (set_lnb_drift d fe))) s)) /\
    jiffies (world s) <= jiffies w.
Proof.
  intros Ht. unfold dvb_frontend_recover. rewrite (fe_get_bind p fe) by apply Ht.
  rewrite (fe_mod_bind p _ fe) by apply Ht.
  set (d := next_drift _ _ _). set (fe1 := set_lnb_drift d fe).
  destruct (retune_run p fe1 (upd p fe1 s)) as (r & par & b & w & E & Hc).
  { destruct Ht as [Hp Hl Hm Hs]. split; [apply upd_heap|by apply listed_upd|done|done]. }
  rewrite (mbind_Ok _ _ _ _ _ E), upd_upd.
  erewrite internal_ioctl_bind by apply upd_heap. cbv zeta.
  exists par, b, d. eexists. split; [reflexivity|].
  etransitivity; [exact Hc|]. apply (run_driver_clock (frontend fe) p FE_RESET ArgNull w).
Qed.

(** ** A turn of the thread *)

(** What the driver says the status is. *)
Definition read_status (p : Z) (fe : dvb_frontend_data) (last_ : Z) (w : W) : Z :=
  match (run_driver (frontend fe) p FE_READ_STATUS (ArgStatus last_) w).1.2 with
  | ArgStatus x => x
  | _ => last_
  end.

(** The front end is in use: its device is open for writing. *)
Definition in_use (fe : dvb_frontend_data) (s : FS) : Prop :=
  fe_exit fe = false /\ exists d, dev_at (fe_dvbdev fe) s = Ok (d, s) /\ writers d <> 1.

Lemma is_exiting_run p fe (s : FS) :
  heap s !! p = Some fe -> in_use fe s -> dvb_frontend_is_exiting p s = Ok (false, s).
Proof.
  intros Hp (He & d & Hd & Hw). unfold dvb_frontend_is_exiting. rewrite (fe_get_bind p fe), He by done.
  rewrite (mbind_Ok _ _ _ _ _ Hd). unfold now. rewrite mgets_bind. by replace (writers d =? 1) with false by lia.
Qed.

Lemma in_use_upd p fe fe' fe'' (s : FS) :
  in_use fe s -> fe_exit fe' = fe_exit fe -> fe_dvbdev fe' = fe_dvbdev fe -> in_use fe' (upd p fe'' s).
Proof.
  intros (He & d & Hd & Hw) E1 E2. split; [by rewrite E1|]. exists d. split; [|done]. rewrite E2.
  unfold dev_at in *. cbn. destruct (find _ _); [|done]. by simplify_eq.
Qed.

(** Ends a turn: the event, if the status changed. *)
Lemma turn_end p fe st (t : fe_thread) (s : FS) :
  heap s !! p = Some fe -> 0 < ev_sem (fe_events fe) -> ring_ok (fe_events fe) ->
  exists s' fe', (let! fe := fe_get p in
    (if st =? status fe then mret_ tt else dvb_frontend_add_event p st) ;;; mret_ (true, t)) s =
      Ok ((true, t), s') /\ heap s' !! p = Some fe' /\ status fe' = st /\
    lost_sync_count fe' = lost_sync_count fe /\ timeout_count fe' = timeout_count fe /\
    ring_ok (fe_events fe') /\ jiffies (world s) <= jiffies (world s') /\
    exists par, queue (fe_events fe') =
      if st =? status fe then queue (fe_events fe) else push (mk_dvb_frontend_event st par) (queue (fe_events fe)).
Proof.
  intros Hp Hs Hr. rewrite (fe_get_bind p fe) by done. destruct (Z.eqb_spec st (status fe)) as [->|Hne].
  - exists s, fe. split_and!; try done. by exists no_parameters.
  - rewrite (mbind_Ok _ _ _ _ _ (add_event_run p st fe s Hp Hs Hr)).
    do 2 eexists. split; [done|]. split; [apply upd_heap|].
    set (e := mk_dvb_frontend_event st _). destruct (ring_put_queue e (fe_events fe) Hr) as (H1 & H2 & _).
    assert (forall w, fe_events (status_set st w (mod_events (ring_put e) fe)) = ring_put e (fe_events fe) /\
      lost_sync_count (status_set st w (mod_events (ring_put e) fe)) = lost_sync_count fe /\
      timeout_count (status_set st w (mod_events (ring_put e) fe)) = timeout_count fe) as Hst
      by (intros w; unfold status_set; by destruct (_ && _)).
    destruct (Hst (event_world p st fe (world s))) as (-> & -> & ->). split_and!; try done; [|by eexists].
    unfold event_added. cbn [world set_world]. etransitivity; [apply event_world_clock|apply notified_clock].
Qed.

(** The turn gives up early while the lock has only just been lost. *)
Definition gives_up (fe : dvb_frontend_data) : bool :=
  negb (has (caps (info fe)) FE_CAN_RECOVER) && negb (has (caps (info fe)) FE_CAN_CLEAN_SETUP) &&
  (s32 (lost_sync_count fe + 1) <? 10).

Definition is_locked (st : Z) : bool := has st FE_HAS_LOCK.

Lemma land_timedout st : Z.land (Z.land st (Z.lnot FE_TIMEDOUT)) FE_HAS_LOCK = Z.land st FE_HAS_LOCK.
Proof. rewrite <- Z.land_assoc. done. Qed.

Lemma note_unlocked_run p fe st d (s : FS) :
  tunable p fe s ->
  exists s' fe', heap s' !! p = Some fe' /\ fe_events fe' = fe_events fe /\ status fe' = status fe /\
    lost_sync_count fe' = s32 (lost_sync_count fe + 1) /\ jiffies (world s) <= jiffies (world s') /\
    note_unlocked p st d s = Ok
      (if gives_up fe then None else Some
        (if u32 (jiffies (world s') - lost_sync_jiffies fe) >? TIMEOUT then Z.lor st FE_TIMEDOUT else st,
         if has (caps (info fe)) FE_CAN_RECOVER then d else Z.quot HZ 5), s').
Proof.
  intros Ht. unfold note_unlocked, gives_up. rewrite (fe_mod_bind p _ fe) by apply Ht.
  set (fe1 := set_lost_sync_count (s32 (lost_sync_count fe + 1)) fe). set (s1 := upd p fe1 s).
  rewrite (fe_get_bind p fe1) by apply upd_heap.
  change (caps (info fe1)) with (caps (info fe)). change (lost_sync_count fe1) with (s32 (lost_sync_count fe + 1)).
  destruct (negb (has (caps (info fe)) FE_CAN_RECOVER) && _ && _) eqn:Eg.
  { exists s1, fe1. split; [apply upd_heap|]. by split_and!. }
  assert (tunable p fe1 s1) as Ht1.
  { destruct Ht as [Hp Hl Hm Hs]. split; [apply upd_heap|by apply listed_upd|done|done]. }
  (* what is left after the recovery *)
  assert (forall fe2 (s2 : FS) (dl : Z), heap s2 !! p = Some fe2 -> fe_events fe2 = fe_events fe -> status fe2 = status fe ->
      lost_sync_count fe2 = s32 (lost_sync_count fe + 1) -> lost_sync_jiffies fe2 = lost_sync_jiffies fe ->
      jiffies (world s) <= jiffies (world s2) ->
    exists s' fe', heap s' !! p = Some fe' /\ fe_events fe' = fe_events fe /\ status fe' = status fe /\
      lost_sync_count fe' = s32 (lost_sync_count fe + 1) /\ jiffies (world s) <= jiffies (world s') /\
      (let! fe := fe_get p in
       let! now := now in
       if u32 (now - lost_sync_jiffies fe) >? TIMEOUT then
         (if has (status fe) FE_TIMEDOUT then mret_ tt
          else fe_mod p (fun fe => set_timeout_count (s32 (timeout_count fe + 1)) fe)) ;;;
         mret_ (Some (Z.lor st FE_TIMEDOUT, dl))
       else mret_ (Some (st, dl))) s2 =
      Ok (Some (if u32 (jiffies (world s') - lost_sync_jiffies fe) >? TIMEOUT then Z.lor st FE_TIMEDOUT else st,
         dl), s')) as Hrest.
  { intros fe2 s2 dl Hp2 He Hst Hlc Hlj Hcl. rewrite (fe_get_bind p fe2) by done. unfold now. rewrite mgets_bind, Hlj.
    destruct (u32 (jiffies (world s2) - lost_sync_jiffies fe) >? TIMEOUT) eqn:Et.
    - destruct (has (status fe2) FE_TIMEDOUT).
      + exists s2, fe2. by rewrite Et.
      + rewrite (fe_mod_bind p _ fe2) by done. set (fe3 := set_timeout_count _ fe2).
        exists (upd p fe3 s2), fe3. split; [apply upd_heap|].
        change (world (upd p fe3 s2)) with (world s2). rewrite Et. by split_and!.
    - exists s2, fe2. by rewrite Et. }
  destruct (has (caps (info fe)) FE_CAN_RECOVER) eqn:Ec; cbn [negb].
  - rewrite mret_bind. apply (Hrest fe1 s1 d); [apply upd_heap|done..].
  - destruct (recover_run p fe1 s1 Ht1) as (par & b & dr & w & E & Hc).
    rewrite (mbind_Ok _ _ _ _ _ E).
    eapply Hrest; [apply upd_heap|done..].
Qed.

(** A turn of the thread of a front end in use asks the driver for the
    status.  If that says locked, the counters of losses are cleared and the
    status becomes the driver's; if not, and the turn does not give up early,
    it becomes the driver's with the time-out bit, set exactly when the lock
    was lost more than two seconds before some moment of the turn.  A changed status is appended to the
    events; an unchanged one is not. *)
Theorem thread_turn_reports p fe (t : fe_thread) (s : FS) :
  tunable p fe s -> in_use fe s -> sig s = false -> 0 < sem fe -> 0 < ev_sem (fe_events fe) ->
  ring_ok (fe_events fe) -> lost_sync_count fe <> -1 ->
  let read := read_status p fe (last t) (world s) in
  let clean := Z.land read (Z.lnot FE_TIMEDOUT) in
  exists s' fe' t', thread_turn p t s = Ok ((true, t'), s') /\ heap s' !! p = Some fe' /\
    ring_ok (fe_events fe') /\
    (if has read FE_HAS_LOCK then
       lost_sync_count fe' = 0 /\ timeout_count fe' = 0 /\ status fe' = clean
     else
       lost_sync_count fe' = s32 (lost_sync_count fe + 1) /\
       if gives_up fe then status fe' = status fe
       else exists now, jiffies (world s) <= now <= jiffies (world s') /\ status fe' =
         if u32 (now - lost_sync_jiffies fe) >? TIMEOUT then Z.lor clean FE_TIMEDOUT else clean) /\
    exists par, queue (fe_events fe') =
      if status fe' =? status fe then queue (fe_events fe)
      else push (mk_dvb_frontend_event (status fe') par) (queue (fe_events fe)).
Proof.
  intros Ht Hu Hsig Hsem Hev Hr Hl read clean. pose proof (tun_heap p fe s Ht) as Hp.
  unfold thread_turn. mrun. rewrite Hsig, (down_fe_bind p fe) by done. cbv iota.
  set (fe1 := set_sem (sem fe - 1) fe). set (s1 := upd p fe1 s).
  assert (heap s1 !! p = Some fe1) as Hp1 by apply upd_heap.
  rewrite (fe_get_bind p fe1) by done. change (lost_sync_count fe1) with (lost_sync_count fe). rif.
  rewrite (mbind_Ok _ _ _ _ _ (is_exiting_run p fe1 s1 Hp1 (in_use_upd p fe fe1 fe1 s Hu eq_refl eq_refl))).
  cbv iota. rewrite (internal_ioctl_bind p fe1) by done. cbv zeta.
  change (run_driver (frontend fe1)) with (run_driver (frontend fe)). change (world s1) with (world s).
  fold (read_status p fe (last t) (world s)). fold read. fold clean.
  set (qd := update_delay (quality t) (has read FE_HAS_LOCK)).
  set (s2 := set_world _ s1). assert (tunable p fe1 s2) as Ht2.
  { destruct Ht as [_ Hll Hm Hs]. split; [done|by apply (listed_upd p fe1 s)|done|done]. }
  assert (has clean FE_HAS_LOCK = has read FE_HAS_LOCK) as Hc by (unfold has, clean; by rewrite land_timedout).
  unfold note_status. rewrite Hc. destruct (has read FE_HAS_LOCK).
  - rewrite mbind_bind, (fe_mod_bind p _ fe1), mret_bind by done.
    set (fe2 := set_lost_sync_count 0 _).
    destruct (turn_end p fe2 clean (mk_fe_thread qd.1 qd.2 clean) (upd p fe2 s2) (upd_heap _ _ _) Hev Hr)
      as (s' & fe' & E & Hp' & Hst & Hlc & Htc & Hr' & Hcl & par & Hq).
    exists s', fe', (mk_fe_thread qd.1 qd.2 clean). split; [exact E|]. split; [done|]. split; [done|].
    split; [done|]. exists par. rewrite Hst. exact Hq.
  - destruct (note_unlocked_run p fe1 clean qd.2 s2 Ht2) as (s3 & fe3 & Hp3 & He3 & Hs3 & Hc3 & Hcl3 & E3).
    rewrite (mbind_Ok _ _ _ _ _ E3). change (gives_up fe1) with (gives_up fe) in *.
    change (lost_sync_jiffies fe1) with (lost_sync_jiffies fe) in *.
    destruct (gives_up fe) eqn:Eg.
    + exists s3, fe3. eexists. split; [done|]. split; [done|]. rewrite He3. split; [done|].
      split; [by split|]. exists no_parameters. rewrite Hs3. change (status fe1) with (status fe).
      by rewrite Z.eqb_refl.
    + set (st := if u32 _ >? TIMEOUT then _ else _) in *.
      match goal with |- context [mret_ (true, mk_fe_thread qd.1 ?d st)] =>
        destruct (turn_end p fe3 st (mk_fe_thread qd.1 d st) s3 Hp3)
          as (s' & fe' & E & Hp' & Hst & Hlc & Htc & Hr' & Hcl & par & Hq); [by rewrite He3|by rewrite He3|] end.
      exists s', fe'. eexists. split; [exact E|]. split; [done|]. split; [done|].
      split; [split; [by rewrite Hlc|]; rewrite Hst; exists (jiffies (world s3)); split; [|done]|].
      { pose proof (run_driver_clock (frontend fe) p FE_READ_STATUS (ArgStatus (last t)) (world s)) as Hcd.
        change (world s2) with (run_driver (frontend fe) p FE_READ_STATUS (ArgStatus (last t)) (world s)).2 in Hcl3. lia. }
      exists par. rewrite Hst, Hq, He3, Hs3. done.
Qed.

(** ** Waiting for an event *)

(** While the reader sleeps, the thread takes the front end; then a signal
    comes, before the thread has released it. *)
Definition thread_enters_then_signal (p : Z) : M FS Z :=
  down_fe p ;;; mmodify (set_sig true) ;;; mret_ (- ERESTARTSYS).

(** A reader that is interrupted while the thread works on the front end
    returns without the semaphore, but the ioctl releases it all the same: the
    thread still holds it, and the next task comes in. *)
Theorem interrupted_wait_breaks_lock p fe arg (s : FS) :
  heap s !! p = Some fe -> ioctl (frontend fe) <> 0 -> fe_exit fe = false -> sem fe = 1 ->
  overflow (fe_events fe) = false -> eventw (fe_events fe) = eventr (fe_events fe) ->
  exists s' fe', dvb_frontend_ioctl p FE_GET_EVENT arg false (thread_enters_then_signal p) s =
      Ok ((- ERESTARTSYS, arg), s') /\
    heap s' !! p = Some fe' /\ sem fe' = 1 /\ exists s'', down_fe p s' = Ok (false, s'').
Proof.
  intros Hp Hi He Hs Ho Hq. unfold dvb_frontend_ioctl. rewrite (fe_get_bind p fe), He, orb_false_r by done.
  rif. rewrite (down_fe_bind p fe) by (done || lia). cbv iota.
  rewrite mbind_bind. unfold dvb_frontend_get_event. rewrite mbind_bind.
  rewrite (fe_get_bind p _ _ _ (upd_heap _ _ _)).
  change (fe_events (set_sem (sem fe - 1) fe)) with (fe_events fe). rewrite Ho. unfold any_event.
  change (fe_events (set_sem (sem fe - 1) fe)) with (fe_events fe). rewrite Hq, Z.eqb_refl. cbn [negb].
  rewrite mbind_bind. unfold up_fe at 1. rewrite (fe_mod_bind p _ _ _ _ (upd_heap _ _ _)), upd_upd.
  unfold thread_enters_then_signal. rewrite !mbind_bind.
  rewrite (down_fe_bind p _ _ _ (upd_heap _ _ _)) by (cbn; lia). rewrite upd_upd, !mbind_bind, mmodify_bind, mret_bind.
  set (fe1 := set_sem _ _). set (s1 := set_sig true _).
  assert (heap s1 !! p = Some fe1) as Hp1 by apply upd_heap.
  assert (sem fe1 = 0) as Hs1 by (subst fe1; cbn; lia).
  assert (down_fe p s1 = Ok (true, s1)) as Ed
    by (unfold down_fe, down_sem; rewrite (fe_get_bind p fe1) by done; by rewrite Hs1).
  rewrite mbind_bind, (mbind_Ok _ _ _ _ _ Ed). cbv iota. rewrite mret_bind. cbn [fst snd].
  rewrite mret_bind. unfold up_fe. rewrite (fe_mod_bind p _ fe1) by done.
  set (fe2 := set_sem (sem fe1 + 1) fe1). exists (upd p fe2 s1), fe2. split; [done|].
  split; [apply upd_heap|]. assert (sem fe2 = 1) as Hs2 by (subst fe2; cbn; lia). split; [done|].
  eexists. unfold down_fe, down_sem. rewrite (fe_get_bind p fe2), Hs2 by apply upd_heap. cbn [Z.ltb].
  change (0 <? 1) with true. cbv iota. rewrite (fe_mod_bind p _ fe2) by apply upd_heap. reflexivity.
Qed.

(** ** Errors of the driver *)

Definition passed_on (cmd : fe_cmd) : bool :=
  match cmd with
  | FE_DISEQC_SEND_MASTER_CMD | FE_DISEQC_SEND_BURST | FE_SET_TONE
  | FE_SET_FRONTEND | FE_GET_FRONTEND | FE_GET_EVENT => false
  | _ => true
  end.

(** An ioctl that is passed on to the driver runs it once, under the
    semaphore, and succeeds whatever the driver answers, a command it does not
    know included. *)
Theorem ioctl_drops_errors p fe cmd arg nonblock (others : M FS Z) (s : FS) :
  heap s !! p = Some fe -> ioctl (frontend fe) <> 0 -> fe_exit fe = false -> 0 < sem fe ->
  passed_on cmd = true ->
  let r := run_driver (frontend fe) p cmd arg (world s) in
  dvb_frontend_ioctl p cmd arg nonblock others s = Ok ((0, r.1.2), set_world r.2 s).
Proof.
  intros Hp Hi He Hs Hc r. unfold dvb_frontend_ioctl. rewrite (fe_get_bind p fe), He, orb_false_r by done.
  rif. rewrite (down_fe_bind p fe) by (done || lia). cbv iota.
  set (fe1 := set_sem (sem fe - 1) fe).
  assert ((let! r := dvb_frontend_internal_ioctl p cmd arg in mret_ (0, r.2)) (upd p fe1 s) =
    Ok ((0, r.1.2), set_world r.2 (upd p fe1 s))) as E.
  { rewrite (internal_ioctl_bind p fe1) by apply upd_heap. done. }
  assert (forall k : Z * fe_arg -> M FS (Z * fe_arg), mbind_ (let! r := dvb_frontend_internal_ioctl p cmd arg in mret_ (0, r.2)) k
    (upd p fe1 s) = k (0, r.1.2) (set_world r.2 (upd p fe1 s))) as Hk by (intros k; by rewrite (mbind_Ok _ _ _ _ _ E)).
  assert ((up_fe p ;;; mret_ (0, r.1.2)) (set_world r.2 (upd p fe1 s)) = Ok ((0, r.1.2), set_world r.2 s)) as Hup.
  { unfold up_fe. erewrite fe_mod_bind by apply upd_heap. rewrite upd_world, upd_upd, upd_same; [done|].
    rewrite Hp. f_equal. clear. subst fe1. destruct fe. cbn. by rewrite Z.sub_add. }
  destruct cmd; try done; rewrite Hk; exact Hup.
Qed.

(** ** Removing a front end *)

(** The device of a front end, and its place among the front ends. *)
Record registered (p : Z) (fe : dvb_frontend_data) (s : FS) : Prop := {
  reg_heap : heap s !! p = Some fe;
  reg_registry : registry_ok (registry s);
  reg_device : exists a d, installed (registry s) a d /\ dev_ptr d = fe_dvbdev fe;
  reg_dvbdev : fe_dvbdev fe <> 0;
}.

Lemma dev_at_gone q (s : FS) :
  registry_ok (registry s) -> dev_at q (set_registry (without_device q (registry s)) s) = Fault.
Proof.
  intros _. unfold dev_at. cbn. destruct (find _ _) as [e|] eqn:E; [|done]. exfalso.
  apply find_In in E as [Hin Hq]. apply list_elem_of_In, in_flat_map in Hin as (a & Ha & He).
  apply list_elem_of_In, elem_of_map in Ha as (b & -> & _). cbn in He.
  apply list_elem_of_In, list_elem_of_filter in He as [Hne _]. lia.
Qed.

(** Unregistering frees the device of a front end while its thread still
    runs: until the thread is told to stop, its next look at whether it should
    go on follows the freed pointer. *)
Theorem unregister_thread_faults p fe (s : FS) l :
  registered p fe s -> fe_exit fe = false -> frontend_mutex s = false ->
  frontend_list s = p :: l ->
  exists s', unregister_part1 (ioctl (frontend fe)) (i2c (frontend fe)) s = Ok (Some p, s') /\
    thread_top p s' = Fault.
Proof.
  intros [Hp Hr (a & d & Hin & Hd) Hne] He Hm Hl. unfold unregister_part1.
  unfold mbind_ at 1. rewrite Hm. cbn [res_bind fst snd]. mrun.
  set (s1 := set_frontend_mutex true s). change (frontend_list s1) with (frontend_list s). rewrite Hl.
  cbn [find_frontend]. rewrite mbind_bind, (fe_get_bind p fe) by done.
  rewrite !Z.eqb_refl. cbn [andb]. rewrite mret_bind, (fe_get_bind p fe) by done. rif.
  unfold on_registry, mbind_ at 1. change (registry s1) with (registry s).
  rewrite <- Hd, (unregister_device_run (registry s) a d Hin). cbn [res_bind fst snd]. rewrite Hd.
  eexists. split; [reflexivity|].
  unfold thread_top, dvb_frontend_is_exiting. rewrite mbind_bind.
  erewrite fe_get_bind by exact Hp. rewrite He.
  pose proof (dev_at_gone (fe_dvbdev fe) s Hr) as Hg. unfold mbind_.
  unfold dev_at in *. cbn in *. by destruct (find _ _).
Qed.

(** ** Functions and notifiers *)

Lemma for_frontends_run f l : forall (s : FS),
  NoDup l -> Forall (fun q => is_Some (heap s !! q)) l ->
  exists h, for_frontends f l s = Ok (tt, set_heap h s) /\
    forall q, h !! q = if decide (q ∈ l) then mod_frontend f <$> heap s !! q else heap s !! q.
Proof.
  induction l as [|p l IH]; intros s Hnd Hall.
  - exists (heap s). split; [by destruct s|]. intros q. by destruct (decide (q ∈ [])) as [?%not_elem_of_nil|].
  - pose proof (NoDup_cons_1_1 _ _ Hnd) as Hn. apply NoDup_cons_1_2 in Hnd.
    apply Forall_cons_iff in Hall as [[fe Hp] Hall]. cbn [for_frontends]. rewrite (fe_mod_bind p _ fe) by done.
    destruct (IH (upd p (mod_frontend f fe) s) Hnd) as (h & E & Hh).
    { by apply (listed_upd p _ (set_frontend_list l s)). }
    exists h. split; [exact E|]. intros q. rewrite Hh. unfold upd. cbn.
    destruct (decide (q = p)) as [->|Hq].
    + rewrite decide_False by done. rewrite decide_True by by left.
      by rewrite lookup_insert_eq, Hp.
    + rewrite lookup_insert_ne by done. destruct (decide (q ∈ l)).
      * by rewrite decide_True by by right.
      * rewrite decide_False; [done|]. by intros [|]%elem_of_cons.
Qed.

(** A state in which front ends and notifiers can be registered. *)
Record ready (a : dvb_adapter) (s : FS) : Prop := {
  rdy_mutex : frontend_mutex s = false;
  rdy_mem : mem s = [];
  rdy_registry : registry_ok (registry s);
  rdy_adapter : a ∈ dvb_adapter_list (registry s);
  rdy_list : listed_ok s;
  rdy_nodup : NoDup (frontend_list s);
  rdy_next : next_fe s ∉ frontend_list s;
}.

Lemma down_frontends_bind {B} (k : bool -> M FS B) (s : FS) :
  frontend_mutex s = false -> mbind_ down_frontends k s = k false (set_frontend_mutex true s).
Proof. unfold mbind_, down_frontends. by intros ->. Qed.

Lemma kmalloc_bind {B} (k : bool -> M FS B) (s : FS) : mem s = [] -> mbind_ kmalloc k s = k true s.
Proof. unfold mbind_, kmalloc. by intros ->. Qed.

Lemma register_run a io bus num data inf (s : FS) :
  ready a s -> exists dv reg,
    dvb_register_frontend io bus (ad_ptr a) num data inf s =
      Ok (0, mk_fe_state (<[next_fe s := set_fe_dvbdev dv (new_frontend io bus (ad_ptr a) num data inf s)]> (heap s))
               (frontend_list s ++ [next_fe s]) (frontend_ioctl_list s) (frontend_notifier_list s) false
               reg [] (next_fe s + 1) (sig s) (world s)).
Proof.
  intros [Hm He Hr Ha _ _ _]. unfold dvb_register_frontend. rewrite down_frontends_bind, kmalloc_bind by done.
  mrun. rewrite kmalloc_bind by done.
  destruct (reg_device_live (registry s) a dvbdev_template (next_fe s) DVB_DEVICE_FRONTEND true (sig s) Hr Ha)
    as ([e r] & reg & E & _); [done|].
  assert (forall s1 : FS, registry s1 = registry s -> on_registry (dvb_register_device (ad_ptr a) dvbdev_template
      (next_fe s) DVB_DEVICE_FRONTEND true (sig s)) s1 = Ok ((e, r), set_registry reg s1)) as Ereg
    by (intros s1 Hs1; unfold on_registry; by rewrite Hs1, E).
  change (next_fe (set_frontend_mutex true s)) with (next_fe s).
  change (sig (set_frontend_mutex true s)) with (sig s).
  erewrite mbind_Ok by (apply Ereg; done). cbn [snd].
  destruct r as [[dv|]|].
  - exists dv, reg. erewrite fe_mod_bind by apply lookup_insert_eq. unfold upd.
    destruct s. cbn in *. subst. by rewrite insert_insert_eq.
  - exists 0, reg. destruct s. cbn in *. by subst.
  - exists 0, reg. destruct s. cbn in *. by subst.
Qed.

Lemma add_notifier_run adap cb d (s : FS) :
  frontend_mutex s = false -> mem s = [] -> listed_ok s -> NoDup (frontend_list s) -> exists h,
    dvb_add_frontend_notifier adap cb d s =
      Ok (0, set_frontend_notifier_list (frontend_notifier_list s ++ [mk_dvb_frontend_notifier_data adap cb d])
               (set_heap h s)) /\
    forall q, h !! q = if decide (q ∈ frontend_list s)
                       then mod_frontend (apply_notifier adap cb d) <$> heap s !! q else heap s !! q.
Proof.
  intros Hm He Hl Hnd. unfold dvb_add_frontend_notifier. rewrite down_frontends_bind, kmalloc_bind by done. mrun.
  set (s1 := set_frontend_notifier_list _ _).
  destruct (for_frontends_run (apply_notifier adap cb d) (frontend_list s1) s1 Hnd Hl) as (h & E & Hh).
  rewrite (mbind_Ok _ _ _ _ _ E). exists h. split; [|exact Hh].
  unfold s1. destruct s. cbn in *. by subst.
Qed.

Lemma find_last {A} (f : A -> bool) l x : find f l = None -> f x = true -> find f (l ++ [x]) = Some x.
Proof.
  induction l as [|y l IH]; cbn; intros Hl Hx; [by rewrite Hx|]. destruct (f y); [done|]. by apply IH.
Qed.

(** The functions of a new front end do not concern its notifier. *)
Lemma find_ioctls_notifier adap cb d l fr :
  adapter fr = adap -> notifier_callback fr = 0 ->
  apply_notifier adap cb d (find_ioctls adap l fr) =
    set_notifier_data d (set_notifier_callback cb (find_ioctls adap l fr)).
Proof.
  intros Ha Hc. unfold apply_notifier, find_ioctls. destruct (find _ _) as [e|];
    cbn; rewrite Ha, Hc, Z.eqb_refl; done.
Qed.

(** It does not matter whether an adapter's notifier or its front end is
    registered first: both orders give every front end the same functions and
    callbacks, and the new front end the notifier, when the adapter has no
    other. *)
Theorem notifier_order a io bus num data inf cb d (s : FS) :
  ready a s -> cb <> 0 ->
  find (fun e => no_adapter e =? ad_ptr a) (frontend_notifier_list s) = None ->
  exists s1 s2,
    (dvb_register_frontend io bus (ad_ptr a) num data inf ;;; dvb_add_frontend_notifier (ad_ptr a) cb d) s = Ok (0, s1) /\
    (dvb_add_frontend_notifier (ad_ptr a) cb d ;;; dvb_register_frontend io bus (ad_ptr a) num data inf) s = Ok (0, s2) /\
    frontend_list s1 = frontend_list s2 /\ frontend_notifier_list s1 = frontend_notifier_list s2 /\
    (forall q, frontend <$> heap s1 !! q = frontend <$> heap s2 !! q) /\
    exists fe, heap s2 !! next_fe s = Some fe /\
      notifier_callback (frontend fe) = cb /\ notifier_data (frontend fe) = d.
Proof.
  intros Hrdy Hcb Hnone. pose proof Hrdy as [Hm He Hr Ha Hl Hnd Hnx].
  set (p := next_fe s) in *. set (no := mk_dvb_frontend_notifier_data (ad_ptr a) cb d).
  (* first order *)
  destruct (register_run a io bus num data inf s Hrdy) as (dv & reg & E1).
  match type of E1 with _ = Ok (_, ?t) => set (t1 := t) in E1 end.
  destruct (add_notifier_run (ad_ptr a) cb d t1) as (h1 & E2 & Hh1); [done|done|..].
  { unfold listed_ok. cbn. apply Forall_app. split.
    - eapply Forall_impl; [|exact Hl]. intros q [x Hq]. destruct (decide (p = q)) as [<-|].
      + rewrite lookup_insert_eq. eauto.
      + rewrite lookup_insert_ne by done. eauto.
    - constructor; [|constructor]. rewrite lookup_insert_eq. eauto. }
  { cbn. rewrite <- Permutation_cons_append. by apply NoDup_cons_2. }
  (* second order *)
  destruct (add_notifier_run (ad_ptr a) cb d s) as (h2 & E3 & Hh2); [done..|].
  set (t2 := set_frontend_notifier_list (frontend_notifier_list s ++ [no]) (set_heap h2 s)) in *.
  assert (ready a t2) as Hrdy2.
  { split; try done. eapply Forall_impl; [|exact Hl]. intros q [x Hx]. unfold t2. cbn. rewrite Hh2, Hx.
    destruct (decide _); eauto. }
  destruct (register_run a io bus num data inf t2 Hrdy2) as (dv2 & reg2 & E4).
  assert (find (fun e => no_adapter e =? ad_ptr a) (frontend_notifier_list s ++ [no]) = Some no) as Hfind.
  { apply find_last; [done|]. cbn. by rewrite Z.eqb_refl. }
  eexists. eexists. split; [rewrite (mbind_Ok _ _ _ _ _ E1); exact E2|].
  split; [rewrite (mbind_Ok _ _ _ _ _ E3); exact E4|]. split; [done|]. split; [done|]. split.
  - intros q. cbn. rewrite Hh1. cbn. change (next_fe t2) with p.
    destruct (decide (q = p)) as [->|Hq].
    + rewrite decide_True by (apply elem_of_app; right; by left). rewrite !lookup_insert_eq. cbn. f_equal.
      unfold find_notifier. rewrite Hfind, Hnone. by apply find_ioctls_notifier.
    + rewrite !lookup_insert_ne by done. rewrite Hh2.
      assert (q ∈ frontend_list s ++ [p] <-> q ∈ frontend_list s) as Hqin
        by (rewrite elem_of_app, list_elem_of_singleton; tauto).
      destruct (decide (q ∈ frontend_list s)).
      * by rewrite decide_True by tauto.
      * by rewrite decide_False by tauto.
  - eexists. split; [apply lookup_insert_eq|]. cbn. unfold find_notifier.
    change (frontend_notifier_list t2) with (frontend_notifier_list s ++ [no]). by rewrite Hfind.
Qed.

(** Removing a notifier takes it from the front ends, but does not give them
    another that the adapter has. *)
Theorem remove_notifier_orphans adap cb p fe (s : FS) :
  frontend_mutex s = false -> listed_ok s -> NoDup (frontend_list s) -> p ∈ frontend_list s ->
  heap s !! p = Some fe -> adapter (frontend fe) = adap -> notifier_callback (frontend fe) = cb ->
  exists s' fe', dvb_remove_frontend_notifier adap cb s = Ok (tt, s') /\ heap s' !! p = Some fe' /\
    notifier_callback (frontend fe') = 0 /\
    frontend_notifier_list s' =
      remove_first (fun e => (no_adapter e =? adap) && (no_callback e =? cb)) (frontend_notifier_list s).
Proof.
  intros Hm Hl Hnd Hin Hp Ha Hc. unfold dvb_remove_frontend_notifier, mbind_ at 1. rewrite Hm.
  cbn [res_bind fst snd]. mrun. set (s1 := set_frontend_mutex true s).
  destruct (for_frontends_run (remove_notifier adap cb) (frontend_list s1) s1 Hnd Hl) as (h & E & Hh).
  rewrite (mbind_Ok _ _ _ _ _ E). specialize (Hh p). rewrite decide_True in Hh by done.
  change (heap s1 !! p) with (heap s !! p) in Hh. rewrite Hp in Hh.
  eexists. eexists. split; [reflexivity|]. split; [exact Hh|]. split; [|done].
  unfold mod_frontend, remove_notifier. cbn. by rewrite Ha, Hc, !Z.eqb_refl.
Qed.

(** Opening for writing empties the ring but keeps a noted overflow: the first
    read of the new user reports one he has not had. *)
Theorem open_keeps_overflow d e p fe pid alive others (s : FS) :
  dev_at d s = Ok (e, s) -> dev_priv e = p -> heap s !! p = Some fe ->
  (dvb_generic_open false e).1 = 0 -> thread_pid fe <> 0 -> fe_exit fe = false ->
  exists s' fe', dvb_frontend_open d false pid alive others s = Ok (0, s') /\ heap s' !! p = Some fe' /\
    eventr (fe_events fe') = 0 /\ eventw (fe_events fe') = 0 /\
    overflow (fe_events fe') = overflow (fe_events fe).
Proof.
  intros Hd <- Hp Ho Ht He. unfold dvb_frontend_open. rewrite (mbind_Ok _ _ _ _ _ Hd).
  unfold on_device at 1. rewrite mbind_bind, (mbind_Ok _ _ _ _ _ Hd), mbind_bind, mmodify_bind, mret_bind, Ho.
  cbn [Z.ltb Z.compare]. change (0 <? 0) with false. cbv iota. unfold dvb_frontend_start.
  rewrite mbind_bind. erewrite fe_get_bind by exact Hp. rewrite He. rif. cbn [negb andb].
  rewrite mret_bind. cbn [Z.eqb]. rewrite mret_bind. erewrite fe_mod_bind by exact Hp.
  do 2 eexists. split; [reflexivity|]. split; [apply lookup_insert_eq|]. done.
Qed.

End Thread.

(** ** Instances for the witnesses *)

(** A driver that is always locked, answers everything, and takes no time. *)
#[export] Instance lab_drivers : FeDrivers Z := {
  fe_function f p cmd arg w :=
    match cmd with
    | FE_READ_STATUS => ((0, ArgStatus 0x1f), w)
    | FE_READ_BER => ((- EINVAL, arg), w)
    | _ => ((0, arg), w)
    end;
  fe_notify f s d w := w;
  fe_delay d w := w + 1;
  jiffies w := w;
}.
#[export] Instance lab_clock : FeClock Z.
Proof. split; intros; cbn; try lia. destruct cmd; cbn; lia. Qed.

Definition lab_info : dvb_frontend_info := mk_dvb_frontend_info FE_QPSK 125 0 0.
Definition lab_fe : dvb_frontend_data :=
  mk_dvb_frontend_data lab_info (mk_dvb_frontend 0 7 0 0 5 1 0 0 0 0) 2 (set_frequency 1000 no_parameters) no_events
    1 1234 0 0 0 0 0 0 false 0.
Definition lab_fe2 : dvb_frontend_data :=
  mk_dvb_frontend_data lab_info (mk_dvb_frontend 0 8 0 0 6 1 0 0 0 0) 0 (set_frequency 990 no_parameters) no_events
    1 0 0 0 0 0 0 0 false 0.
(** Its device, open for writing. *)
Definition lab_device : dvb_device := mk_dvb_device 2 3 0 (-2) 0 (-2) true true 1.
Definition lab_adapter : dvb_adapter := mk_dvb_adapter 1 0 [lab_device].
Definition lab_registry : dvbdev := mk_dvbdev [lab_adapter] false 3.
Definition lab (heap_ : gmap Z dvb_frontend_data) : @fe_state Z :=
  mk_fe_state heap_ [1; 2] [] [] false lab_registry [] 3 false 5000.
Definition lab_state : @fe_state Z := lab {[1 := lab_fe; 2 := lab_fe2]}.

Lemma lab_listed : listed_ok lab_state.
Proof. repeat constructor; by eexists. Qed.

Lemma lab_registry_ok : registry_ok lab_registry.
Proof. by apply one_device_registry. Qed.

Lemma bend_frequency_spec_witness :
  dvb_bend_frequency 1 lab_state =
    Ok (tt, set_heap (<[1 := set_bending 125 lab_fe]> (heap lab_state)) lab_state).
Proof. exact (bend_frequency_spec 125 1 lab_fe lab_state eq_refl lab_listed eq_refl eq_refl eq_refl). Defined.

Lemma no_events_ok : ring_ok no_events.
Proof. by split. Qed.

Lemma add_event_queue_witness : exists st' fe',
  dvb_frontend_add_event 1 0x1f lab_state = Ok (tt, st') /\ heap st' !! 1 = Some fe' /\
  queue (fe_events fe') = [mk_dvb_frontend_event 0x1f (parameters lab_fe)].
Proof.
  destruct (add_event_queue 1 0x1f lab_fe lab_state eq_refl eq_refl no_events_ok)
    as (st' & fe' & E & Hp & _ & _ & _ & Hq & _).
  exists st', fe'. split; [exact E|]. split; [exact Hp|exact Hq].
Defined.

Lemma get_event_queue_witness :
  dvb_frontend_get_event 1 true (mret_ 0) lab_state = Ok ((- EWOULDBLOCK, None), lab_state).
Proof.
  exact (proj2 (proj2 (get_event_queue 1 lab_fe (mret_ 0) lab_state eq_refl eq_refl no_events_ok)) eq_refl eq_refl).
Defined.

Lemma event_read_before_status_witness : exists st',
  read_between 1 0x1f lab_state = Ok ((0, Some (mk_dvb_frontend_event 0 (parameters lab_fe))), st').
Proof.
  destruct (event_read_before_status 1 0x1f lab_fe lab_state eq_refl eq_refl no_events_ok eq_refl)
    as (st' & fe' & E & _).
  exists st'. exact E.
Defined.

Lemma thread_turn_reports_witness : exists s' fe' t',
  thread_turn 1 (mk_fe_thread 0 300 0) lab_state = Ok ((true, t'), s') /\ heap s' !! 1 = Some fe' /\
  status fe' = 0x1f.
Proof.
  destruct (thread_turn_reports 1 lab_fe (mk_fe_thread 0 300 0) lab_state) as (s' & fe' & t' & E & Hp & _ & (_ & _ & Hs) & _).
  - split; [reflexivity|apply lab_listed|reflexivity|done].
  - split; [reflexivity|]. exists lab_device. by split.
  - reflexivity.
  - reflexivity.
  - reflexivity.
  - apply no_events_ok.
  - done.
  - exists s', fe', t'. split; [exact E|]. split; [exact Hp|exact Hs].
Defined.

Lemma interrupted_wait_breaks_lock_witness : exists s' fe',
  dvb_frontend_ioctl 1 FE_GET_EVENT ArgNull false (thread_enters_then_signal 1) lab_state =
    Ok ((- ERESTARTSYS, ArgNull), s') /\
  heap s' !! 1 = Some fe' /\ sem fe' = 1 /\ exists s'', down_fe 1 s' = Ok (false, s'').
Proof. by apply (interrupted_wait_breaks_lock 1 lab_fe). Defined.

Lemma ioctl_drops_errors_witness :
  (run_driver (frontend lab_fe) 1 FE_READ_BER ArgNull 5000).1.1 = - EINVAL /\
  dvb_frontend_ioctl 1 FE_READ_BER ArgNull true (mret_ 0) lab_state = Ok ((0, ArgNull), lab_state).
Proof.
  split; [reflexivity|].
  exact (ioctl_drops_errors 1 lab_fe FE_READ_BER ArgNull true (mret_ 0) lab_state eq_refl ltac:(done) eq_refl
           eq_refl eq_refl).
Defined.

Lemma unregister_thread_faults_witness : exists s',
  unregister_part1 7 5 lab_state = Ok (Some 1, s') /\ thread_top 1 s' = Fault.
Proof.
  apply (unregister_thread_faults 1 lab_fe lab_state [2]); try reflexivity.
  split; [reflexivity|apply lab_registry_ok| |done].
  exists lab_adapter, lab_device. split; [split; by left|reflexivity].
Defined.

Lemma notifier_order_witness : exists s1 s2,
  (dvb_register_frontend 9 6 1 0 0 lab_info ;;; dvb_add_frontend_notifier 1 44 55) lab_state = Ok (0, s1) /\
  (dvb_add_frontend_notifier 1 44 55 ;;; dvb_register_frontend 9 6 1 0 0 lab_info) lab_state = Ok (0, s2) /\
  (forall q, frontend <$> heap s1 !! q = frontend <$> heap s2 !! q).
Proof.
  destruct (notifier_order lab_adapter 9 6 0 0 lab_info 44 55 lab_state) as (s1 & s2 & E1 & E2 & _ & _ & Hq & _).
  - split; [reflexivity|reflexivity|apply lab_registry_ok|by left|apply lab_listed| |].
    + apply NoDup_cons_2; [by intros [=]%list_elem_of_singleton|apply NoDup_singleton].
    + cbn. intros [[=]|[=]%list_elem_of_singleton]%elem_of_cons.
  - done.
  - reflexivity.
  - exists s1, s2. split; [exact E1|]. split; [exact E2|exact Hq].
Defined.
