(* ===== verification/AvCore.v ===== *)
(** * The video and audio decoder (avia/avia_av_core.c, avia_av_event.c)

    The AViA 500 or 600 decodes pictures and sound.  It is a processor with a
    memory of its own, which the driver reaches through seven registers
    ([aviamem]): it loads the microcode, sets parameters, and gives commands
    through a mailbox in that memory.

    The chip, time and the kernel around the driver are a parameter
    ([AvBus]).  The interrupt handler is a step of its own; that it also runs
    while other functions sleep is not modelled.  Restarting the chip from a
    command gives commands again: this recursion takes a [depth].  The loops
    that wait for the chip take [wait_fuel] turns: one ends after two seconds,
    200 turns, the other after 350 (unless a signal is pending). *)

From Stdlib Require Import String.
From S2P Require Import Prelude.

Open Scope Z_scope.

(** ** Constants (avia_av.h) *)

Definition AVIA_AV_PLAY_STATE_PAUSED : Z := 0x01.
Definition AVIA_AV_PLAY_STATE_PLAYING : Z := 0x02.
Definition AVIA_AV_PLAY_STATE_STOPPED : Z := 0x03.
Definition AVIA_AV_STREAM_TYPE_0 : Z := 0x00.
Definition AVIA_AV_STREAM_TYPE_SPTS : Z := 0x01.
Definition AVIA_AV_STREAM_TYPE_PES : Z := 0x02.
Definition AVIA_AV_STREAM_TYPE_ES : Z := 0x03.
Definition AVIA_AV_SYNC_MODE_NONE : Z := 0x00.
Definition AVIA_AV_SYNC_MODE_AUDIO : Z := 0x04.
Definition AVIA_AV_SYNC_MODE_VIDEO : Z := 0x05.
Definition AVIA_AV_SYNC_MODE_AV : Z := 0x06.
Definition AVIA_AV_TYPE_AUDIO : Z := 0x01.
Definition AVIA_AV_TYPE_VIDEO : Z := 0x02.
Definition AVIA_AV_BITSTREAM_SRC_TP_DEMUX : Z := 0x00.
Definition TM_DRAM : Z := 0x00.
Definition TM_RES : Z := 0x40.
Definition TM_GBUS : Z := 0x80.
Definition TM_SRAM : Z := 0xc0.
Definition IRQ_INIT_AUDD : Z := Z.shiftl 1 23.
Definition IRQ_AUD : Z := Z.shiftl 1 22.
Definition IRQ_BUF_F : Z := Z.shiftl 1 16.
Definition IRQ_END_L : Z := Z.shiftl 1 15.
Definition IRQ_END_C : Z := Z.shiftl 1 9.
Definition IRQ_UND : Z := Z.shiftl 1 8.
Definition IRQ_PIC_D : Z := Z.shiftl 1 5.
Definition IRQ_SEQ_V : Z := Z.shiftl 1 3.
Definition IRQ_ERR : Z := Z.shiftl 1 0.
Definition Abort : Z := 0x8120.
Definition Freeze : Z := 0x0125.
Definition Reset : Z := 0x802d.
Definition Resume : Z := 0x002e.
Definition SelectStream : Z := 0x0231.
Definition NewChannel : Z := 0x8342.
Definition Play : Z := 0x0343.
Definition SetStreamType : Z := 0x8146.
Definition ARGUMENT_1 : Z := 0x0044.
Definition ASPECT_RATIO : Z := 0x03b8.
Definition ASPECT_RATIO_MODE : Z := 0x0084.
Definition AUDIO_ATTENUATION : Z := 0x00f4.
Definition AUDIO_CLOCK_SELECTION : Z := 0x00ec.
Definition AUDIO_CONFIG : Z := 0x00e0.
Definition AUDIO_DAC_MODE : Z := 0x00e8.
Definition AUDIO_PTS_DELAY : Z := 0x01c0.
Definition AUDIO_PTS_REPEAT_THRESHOLD_1 : Z := 0x01c8.
Definition AUDIO_PTS_REPEAT_THRESHOLD_2 : Z := 0x01d0.
Definition AUDIO_PTS_SKIP_THRESHOLD_1 : Z := 0x01c4.
Definition AUDIO_PTS_SKIP_THRESHOLD_2 : Z := 0x01cc.
Definition AV_SYNC_MODE : Z := 0x01b0.
Definition BACKGROUND_COLOR : Z := 0x009c.
Definition BITSTREAM_SOURCE : Z := 0x01a4.
Definition BORDER_COLOR : Z := 0x0098.
Definition BUFF_INT_SRC : Z := 0x02b4.
Definition COMMAND : Z := 0x0040.
Definition DISABLE_OSD : Z := 0x0250.
Definition DISPLAY_ASPECT_RATIO : Z := 0x0080.
Definition SRAM_INFO : Z := 0x0064.
Definition DRAM_INFO : Z := 0x0068.
Definition ERR_CONCEALMENT_LEVEL : Z := 0x00b4.
Definition ERR_INT_SRC : Z := 0x02c4.
Definition FORCE_CODED_ASPECT_RATIO : Z := 0x00c8.
Definition H_SIZE : Z := 0x03b0.
Definition I_SLICE : Z := 0x00d8.
Definition IEC_958_CHANNEL_STATUS_BITS : Z := 0x00fc.
Definition INT_MASK : Z := 0x0200.
Definition INT_STATUS : Z := 0x02ac.
Definition INTERPRET_USER_DATA : Z := 0x01d8.
Definition INTERPRET_USER_DATA_MASK : Z := 0x01dc.
Definition MEMORY_MAP : Z := 0x021c.
Definition N_AUD_DECODED : Z := 0x02f8.
Definition N_DECODED : Z := 0x02e4.
Definition NEW_AUDIO_CONFIG : Z := 0x0468.
Definition NEW_AUDIO_MODE : Z := 0x0460.
Definition OSD_BUFFER_END : Z := 0x0244.
Definition OSD_BUFFER_START : Z := 0x0240.
Definition OSD_EVEN_FIELD : Z := 0x00a0.
Definition OSD_ODD_FIELD : Z := 0x00a4.
Definition PAN_SCAN_HORIZONTAL_OFFSET : Z := 0x008c.
Definition PAN_SCAN_SOURCE : Z := 0x0088.
Definition PROC_STATE : Z := 0x02a0.
Definition STATUS_ADDRESS : Z := 0x005c.
Definition TM_MODE : Z := 0x01a8.
Definition UCODE_MEMORY : Z := 0x006c.
Definition UND_INT_SRC : Z := 0x02b8.
Definition V_SIZE : Z := 0x03b4.
Definition UCODE_VERSION : Z := 0x0330.
Definition VIDEO_MODE : Z := 0x007c.
Definition VIDEO_PTS_DELAY : Z := 0x01b4.
Definition VIDEO_PTS_REPEAT_THRESHOLD : Z := 0x01bc.
Definition VIDEO_PTS_SKIP_THRESHOLD : Z := 0x01b8.
Definition PROC_STATE_IDLE : Z := 0x0002.
Definition AVIA_AV_VIDEO_SYSTEM_PAL : Z := 0.
Definition AVIA_AV_VIDEO_SYSTEM_NTSC : Z := 1.

Definition HZ : Z := 100.
Definition EREMOTEIO : Z := 121.
Definition EIO : Z := 5.
Definition TUXBOX_DBOX2_GT_GTX : Z := 1.
Definition TUXBOX_DBOX2_GT_ENX : Z := 2.
Definition EVENT_VHSIZE_CHANGE : Z := 4.
Definition EVENT_ARATIO_CHANGE : Z := 8.

Definition UX_NUM_SECTIONS : Z := 0x01.
Definition UX_FIRST_SECTION_START : Z := 0x03.
Definition UX_SECTION_LENGTH_OFFSET : Z := 0x01.
Definition UX_SECTION_WRITE_ADDR_OFFSET : Z := 0x02.
Definition UX_SECTION_DATA_OFFSET : Z := 0x04.
Definition UX_SECTION_DATA_GBUS_TABLE : Z := 0x02FF.
Definition UX_SECTION_DATA_IMEM : Z := 0x0200.
Definition UX_SECTION_HEADER_LENGTH : Z := 0x04.

Definition NTSC_16MB_WO_ROM_SRAM : Z := 7.
Definition PAL_16MB_WO_ROM_SRAM : Z := 10.

Definition UCODEVERSION (a b c d : Z) : Z :=
  Z.lor (Z.lor (Z.lor (Z.shiftl a 24) (Z.shiftl b 16)) (Z.shiftl c 8)) d.

(** ** The chip and the kernel *)

Class AvBus (W : Type) := {
  av_in : Z -> W -> Z * W;              (* aviamem[i] *)
  av_out : Z -> Z -> W -> W;            (* aviamem[i] = v *)
  av_jiffies : W -> Z;
  av_schedule : Z -> W -> W;            (* schedule, schedule_timeout *)
  av_mdelay : Z -> W -> W;
  av_udelay : Z -> W -> W;
  av_cmd_sleep : Z -> W -> Z * W;       (* sleeping on avia_cmd_wait: the time left *)
  av_fp_reset : Z -> W -> W;            (* dbox2_fp_reset *)
  av_siumcr : W -> W;                   (* interrupt line 4 is an interrupt *)
  av_ioremap : W -> bool * W;
  av_request_irq : W -> bool * W;
  av_free_irq : W -> W;
  av_alloc : W -> bool * W;             (* kmalloc, vmalloc *)
  av_kernel_thread : W -> Z * W;
  av_open : string -> W -> option (Z * list Z);   (* a file: its length, and what read gives *)
  av_call_handler : Z -> Z -> Z -> Z -> W -> W;
  av_write_message : Z -> W -> W;       (* event_write_message *)
}.

Record avia_av_event_reg := mk_event_reg { hsize : Z; vsize : Z; aratio : Z }.

Section AvCore.
Context {W : Type} {B : AvBus W}.

Record av_state := mk_av_state {
  aviamem : bool;   (* the registers are mapped *)
  aviarev : Z;
  silirev : Z;
  irq_held : bool;   (* [avia_av_interrupt] is installed *)
  kernel_thread_pid : Z;
  bypass_mode : Z;
  bypass_mode_changed : bool;
  pid_audio : Z;
  pid_video : Z;
  play_state_audio : Z;
  play_state_video : Z;
  sample_rate : Z;
  stream_type_audio : Z;
  stream_type_video : Z;
  sync_mode : Z;
  video_event_handler : Z;   (* 0: none *)
  video_width : Z;
  video_height : Z;
  video_aspect_ratio : Z;
  tv_standard : Z;
  sptsfix : Z;
  no_watchdog : bool;
  tuxbox_dbox2_gt : Z;
  firmware : string;
  event_delay : Z;
  event_reg : option avia_av_event_reg;   (* [event_timer.data] *)
  event_timer : bool;   (* the timer runs *)
  world : W;
}.
#[export] Instance av_state_eta : Eta av_state := fun r =>
  mk_av_state (aviamem r) (aviarev r) (silirev r) (irq_held r) (kernel_thread_pid r) (bypass_mode r)
    (bypass_mode_changed r) (pid_audio r) (pid_video r) (play_state_audio r) (play_state_video r)
    (sample_rate r) (stream_type_audio r) (stream_type_video r) (sync_mode r) (video_event_handler r)
    (video_width r) (video_height r) (video_aspect_ratio r) (tv_standard r) (sptsfix r) (no_watchdog r)
    (tuxbox_dbox2_gt r) (firmware r) (event_delay r) (event_reg r) (event_timer r) (world r).
Definition set_aviamem := setter! aviamem.
Definition set_aviarev := setter! aviarev.
Definition set_silirev := setter! silirev.
Definition set_irq_held := setter! irq_held.
Definition set_kernel_thread_pid := setter! kernel_thread_pid.
Definition set_bypass_mode := setter! bypass_mode.
Definition set_bypass_mode_changed := setter! bypass_mode_changed.
Definition set_pid_audio := setter! pid_audio.
Definition set_pid_video := setter! pid_video.
Definition set_play_state_audio := setter! play_state_audio.
Definition set_play_state_video := setter! play_state_video.
Definition set_sample_rate := setter! sample_rate.
Definition set_stream_type_audio := setter! stream_type_audio.
Definition set_stream_type_video := setter! stream_type_video.
Definition set_sync_mode := setter! sync_mode.
Definition set_video_event_handler := setter! video_event_handler.
Definition set_video_width := setter! video_width.
Definition set_video_height := setter! video_height.
Definition set_video_aspect_ratio := setter! video_aspect_ratio.
Definition set_tv_standard := setter! tv_standard.
Definition set_sptsfix := setter! sptsfix.
Definition set_no_watchdog := setter! no_watchdog.
Definition set_tuxbox_dbox2_gt := setter! tuxbox_dbox2_gt.
Definition set_firmware := setter! firmware.
Definition set_event_delay := setter! event_delay.
Definition set_event_reg := setter! event_reg.
Definition set_event_timer := setter! event_timer.
Definition set_world := setter! world.


Abbreviation AM := (M av_state).

Definition amod (f : av_state -> av_state) : AM unit := mmodify f.
Definition on_world {A} (f : W -> A * W) : AM A :=
  fun s => let r := f (world s) in Ok (r.1, set_world r.2 s).
Definition to_world (f : W -> W) : AM unit := mmodify (fun s => set_world (f (world s)) s).
Definition jiffies : AM Z := mgets (fun s => av_jiffies (world s)).

(** ** Access to the chip *)

(** A byte of [aviamem]; it is NULL while the registers are not mapped. *)
Definition mem_in (i : Z) : AM Z :=
  let! s := mget in if aviamem s then on_world (av_in i) else mfault.
Definition mem_out (i v : Z) : AM unit :=
  let! s := mget in if aviamem s then to_world (av_out i v) else mfault.

Definition avia_av_read (mode address : Z) : AM Z :=
  let address := Z.land address 0x3FFFFF in
  mem_out 6 (Z.land (Z.lor (Z.shiftr address 16) mode) 0xFF) ;;;
  mem_out 5 (Z.land (Z.shiftr address 8) 0xFF) ;;;
  mem_out 4 (Z.land address 0xFF) ;;;
  let! b3 := mem_in 3 in
  let! b2 := mem_in 2 in
  let! b1 := mem_in 1 in
  let! b0 := mem_in 0 in
  mret_ (Z.lor (Z.lor (Z.lor (Z.shiftl b3 24) (Z.shiftl b2 16)) (Z.shiftl b1 8)) b0).

Definition avia_av_write (mode address data : Z) : AM unit :=
  let address := Z.land address 0x3FFFFF in
  mem_out 6 (Z.land (Z.lor (Z.shiftr address 16) mode) 0xFF) ;;;
  mem_out 5 (Z.land (Z.shiftr address 8) 0xFF) ;;;
  mem_out 4 (Z.land address 0xFF) ;;;
  mem_out 3 (Z.land (Z.shiftr data 24) 0xFF) ;;;
  mem_out 2 (Z.land (Z.shiftr data 16) 0xFF) ;;;
  mem_out 1 (Z.land (Z.shiftr data 8) 0xFF) ;;;
  mem_out 0 (Z.land data 0xFF).

Definition avia_av_dram_read : Z -> AM Z := avia_av_read TM_DRAM.
Definition avia_av_dram_write : Z -> Z -> AM unit := avia_av_write TM_DRAM.
Definition avia_av_gbus_read : Z -> AM Z := avia_av_read TM_GBUS.
Definition avia_av_gbus_write : Z -> Z -> AM unit := avia_av_write TM_GBUS.

Definition avia_av_imem_write (addr data : Z) : AM unit :=
  avia_av_gbus_write 0x36 addr ;;; avia_av_gbus_write 0x34 data.

(** ** The microcode

    The file as the processor reads it: words of four bytes, the first byte the
    highest.  Reading behind it is a fault. *)

Fixpoint words_of (l : list Z) : list Z :=
  match l with
  | a :: b :: c :: d :: l => be_value [a; b; c; d] :: words_of l
  | _ => []
  end.

Definition word (m : list Z) (i : Z) : AM Z := mlift (rd m i).

Definition le32_to_cpu (v : Z) : Z :=
  Z.lor (Z.lor (Z.shiftl (Z.land v 0xFF) 24) (Z.shiftl (Z.land (Z.shiftr v 8) 0xFF) 16))
        (Z.lor (Z.shiftl (Z.land (Z.shiftr v 16) 0xFF) 8) (Z.land (Z.shiftr v 24) 0xFF)).

(** Pairs of an address and a value, read downwards from [ptr]. *)
Fixpoint gbus_writes (words : nat) (m : list Z) (ptr : Z) : AM unit :=
  match words with
  | O => mret_ tt
  | S words =>
      let! addr := word m ptr in
      let! data := word m (ptr - 1) in
      avia_av_gbus_write addr data ;;;
      gbus_writes words m (ptr - 2)
  end.

Definition gbus_table : Z := UX_FIRST_SECTION_START + UX_SECTION_DATA_OFFSET + UX_SECTION_DATA_GBUS_TABLE.

Definition avia_av_gbus_initial (microcode : list Z) : AM unit :=
  let! words := word microcode gbus_table in
  gbus_writes (Z.to_nat words) microcode (gbus_table - 1).

(** [*ptr -= words] changes the image. *)
Definition avia_av_gbus_final (microcode : list Z) : AM unit :=
  let! words := word microcode gbus_table in
  let ptr := gbus_table - 1 in
  let! v := word microcode ptr in
  let microcode := <[Z.to_nat ptr := u32 (v - words)]> microcode in
  let ptr := ptr - u32 (words * 4) in
  let! words := word microcode ptr in
  gbus_writes (Z.to_nat words) microcode (ptr - 1).

Fixpoint avia_av_dram_memcpy32 (dst : Z) (m : list Z) (src : Z) (dwords : nat) : AM unit :=
  match dwords with
  | O => mret_ tt
  | S dwords =>
      let! v := word m src in
      avia_av_dram_write dst v ;;;
      avia_av_dram_memcpy32 (u32 (dst + 4)) m (src + 1) dwords
  end.

(** The number of words that do not read back. *)
Fixpoint verify_dram (dst : Z) (m : list Z) (src : Z) (words : nat) (errors : Z) : AM Z :=
  match words with
  | O => mret_ errors
  | S words =>
      let! v := avia_av_dram_read dst in
      let! x := word m src in
      verify_dram (u32 (dst + 4)) m (src + 1) words (if v =? x then errors else u32 (errors + 1))
  end.

Definition avia_av_load_dram_image (microcode : list Z) (section_start : Z) : AM Z :=
  let! len := word microcode (u32 (section_start + UX_SECTION_LENGTH_OFFSET)) in
  let! addr := word microcode (u32 (section_start + UX_SECTION_WRITE_ADDR_OFFSET)) in
  let words := Z.to_nat (le32_to_cpu len / 4) in
  let dst := le32_to_cpu addr in
  let src := u32 (section_start + UX_SECTION_DATA_OFFSET) in
  avia_av_dram_memcpy32 dst microcode src words ;;;
  verify_dram dst microcode src words 0.

Fixpoint load_sections (num_sections : nat) (microcode : list Z) (data_offset errors : Z) : AM Z :=
  match num_sections with
  | O => mret_ errors
  | S num_sections =>
      let! e := avia_av_load_dram_image microcode data_offset in
      let! len := word microcode (u32 (data_offset + UX_SECTION_LENGTH_OFFSET)) in
      load_sections num_sections microcode
        (u32 (data_offset + le32_to_cpu len / 4 + UX_SECTION_HEADER_LENGTH)) (u32 (errors + e))
  end.

Definition avia_av_load_microcode (microcode : list Z) : AM Z :=
  let! n := word microcode UX_NUM_SECTIONS in
  let! errors := load_sections (Z.to_nat (le32_to_cpu n)) microcode UX_FIRST_SECTION_START 0 in
  mret_ (if errors =? 0 then 0 else -1).

Fixpoint imem_writes (l : list Z) (i : Z) : AM unit :=
  match l with
  | [] => mret_ tt
  | v :: l => avia_av_imem_write i v ;;; imem_writes l (i + 1)
  end.

Fixpoint imem_verify (l : list Z) (errors : Z) : AM Z :=
  match l with
  | [] => mret_ errors
  | v :: l =>
      let! x := avia_av_gbus_read 0x3B in
      imem_verify l (if x =? v then errors else errors + 1)
  end.

Definition avia_av_load_imem_image (microcode : list Z) (data_start : Z) : AM Z :=
  let! src := mlift (slice microcode (data_start + UX_SECTION_DATA_IMEM) 256) in
  imem_writes src 0 ;;;
  avia_av_gbus_write 0x3A 0xB ;;;
  avia_av_gbus_write 0x3B 0x0 ;;;
  avia_av_gbus_write 0x3A 0xE ;;;
  let! errors := imem_verify src 0 in
  mret_ (if errors =? 0 then 0 else -1).

Definition firmware_name : AM string :=
  mgets (fun s => append (substring 0 86 (firmware s))
                    (if aviarev s =? 0 then "/avia600.ux"%string else "/avia500.ux"%string)).

(** The file, or [None] where the code returns 0. *)
Definition avia_av_firmware_read : AM (option (list Z)) :=
  let! path := firmware_name in
  let! s := mget in
  match av_open path (world s) with
  | None => mret_ None
  | Some (l, contents) =>
      if (l <=? 0) || (l >=? 144 * 1024) then mret_ None else
      let! ok := on_world av_alloc in
      if negb ok then mret_ None
      else if negb (zlen contents =? l) then mret_ None
      else mret_ (Some contents)
  end.

(** ** Waiting *)

(** [tries] more reads after this one. *)
Fixpoint wait_loop (tries : nat) (reg val ms : Z) (in_interrupt : bool) : AM Z :=
  let! v := avia_av_dram_read reg in
  if v =? val then mret_ 0 else
  match tries with
  | O => mret_ (-1)
  | S tries =>
      (if in_interrupt then to_world (av_mdelay ms)
       else to_world (av_schedule ((HZ * ms + 500) / 1000))) ;;;
      wait_loop tries reg val ms in_interrupt
  end.

Definition avia_av_wait (reg val ms : Z) (in_interrupt : bool) : AM Z := wait_loop 9 reg val ms in_interrupt.

Definition avia_av_htd_interrupt : AM unit :=
  let! v := avia_av_gbus_read 0 in
  avia_av_gbus_write 0 (Z.lor v (Z.shiftl 1 7)) ;;;
  let! v := avia_av_gbus_read 0 in
  avia_av_gbus_write 0 (Z.lor v (Z.shiftl 1 6)).

Definition avia_av_new_audio_config (in_interrupt : bool) : AM Z :=
  avia_av_dram_write NEW_AUDIO_CONFIG 0x0001 ;;;
  let! r := avia_av_wait NEW_AUDIO_CONFIG 0 100 in_interrupt in
  mret_ (if r <? 0 then -1 else 0).

(** ** The interrupt handler *)

Definition has (v bit : Z) : bool := negb (Z.land v bit =? 0).

Definition video_changed : AM unit :=
  let! w := avia_av_dram_read H_SIZE in
  let! h := avia_av_dram_read V_SIZE in
  let! r := avia_av_dram_read ASPECT_RATIO in
  let w := Z.land w 0xffff in let h := Z.land h 0xffff in let r := Z.land r 0xffff in
  let! s := mget in
  if negb (video_event_handler s =? 0) &&
     (negb (w =? video_width s) || negb (h =? video_height s) || negb (r =? video_aspect_ratio s))
  then
    amod (fun s => set_video_aspect_ratio r (set_video_height h (set_video_width w s))) ;;;
    to_world (av_call_handler (video_event_handler s) w h r)
  else mret_ tt.

Definition clock_bits (sel bits : Z) : Z := Z.lor (Z.land sel (Z.lnot (Z.shiftl 7 2))) (Z.shiftl bits 2).

Definition audio_changed : AM unit :=
  let! sem := avia_av_dram_read NEW_AUDIO_MODE in
  (if Z.land sem 7 =? 0 then mret_ tt else
     let! sel := avia_av_dram_read AUDIO_CLOCK_SELECTION in
     if Z.land sem 7 =? 1 then
       avia_av_dram_write AUDIO_CLOCK_SELECTION (clock_bits sel 1) ;;; amod (set_sample_rate 44100)
     else if Z.land sem 7 =? 2 then
       avia_av_dram_write AUDIO_CLOCK_SELECTION (clock_bits sel 0) ;;; amod (set_sample_rate 48000)
     else if Z.land sem 7 =? 7 then
       avia_av_dram_write AUDIO_CLOCK_SELECTION (clock_bits sel 2) ;;; amod (set_sample_rate 32000)
     else mret_ tt) ;;;
  if Z.land sem 0xFF =? 0 then mret_ tt
  else let! _ := avia_av_new_audio_config true in mret_ tt.

Definition clear_source (status bit reg : Z) : AM unit :=
  if has status bit then avia_av_dram_write reg 0 else mret_ tt.

Definition avia_av_interrupt : AM unit :=
  let! mask := avia_av_dram_read INT_MASK in
  let! status := avia_av_dram_read INT_STATUS in
  let status := Z.land status mask in
  (if has status IRQ_SEQ_V then video_changed else mret_ tt) ;;;
  (if has status IRQ_AUD then audio_changed else mret_ tt) ;;;
  let! v := avia_av_gbus_read 0 in
  avia_av_gbus_write 0 (Z.lor (Z.land v (Z.lnot 1)) 2) ;;;
  clear_source status IRQ_BUF_F BUFF_INT_SRC ;;;
  clear_source status IRQ_UND UND_INT_SRC ;;;
  clear_source status IRQ_ERR ERR_INT_SRC ;;;
  avia_av_dram_write INT_STATUS 0.

(** ** Size events (avia_av_event.c) *)

Definition AVIA_AV_EVENT_TIMER : Z := 100.

Definition avia_av_event_timer_function : AM unit :=
  let! s := mget in
  match event_reg s with
  | None => mfault
  | Some reg =>
      let d := u32 (event_delay s + 1) in
      if negb (d =? 30) then amod (set_event_delay d) else
      amod (set_event_delay 0) ;;;
      let! h := avia_av_dram_read H_SIZE in
      let! diff := (if negb (Z.land h 0xFFFF =? hsize reg) then mret_ true
                    else let! v := avia_av_dram_read V_SIZE in mret_ (negb (Z.land v 0xFFFF =? vsize reg))) in
      (if diff : bool then
         let! h := avia_av_dram_read H_SIZE in
         let! v := avia_av_dram_read V_SIZE in
         amod (set_event_reg (Some (mk_event_reg (Z.land h 0xFFFF) (Z.land v 0xFFFF) (aratio reg)))) ;;;
         to_world (av_write_message EVENT_VHSIZE_CHANGE)
       else mret_ tt) ;;;
      let! r := avia_av_dram_read ASPECT_RATIO in
      if Z.land r 0xFFFF =? aratio reg then mret_ tt else
      let! r := avia_av_dram_read ASPECT_RATIO in
      amod (fun s => set_event_reg
        (option_map (fun reg => mk_event_reg (hsize reg) (vsize reg) (Z.land r 0xFFFF)) (event_reg s)) s) ;;;
      to_world (av_write_message EVENT_ARATIO_CHANGE)
  end.

Definition avia_av_event_init : AM Z :=
  amod (set_event_delay 0) ;;;
  let! ok := on_world av_alloc in
  if negb ok then amod (set_event_reg None) ;;; mret_ (- ENOMEM) else
  amod (fun s => set_event_timer true (set_event_reg (Some (mk_event_reg 0 0 0)) s)) ;;;
  mret_ 0.

Definition avia_av_event_exit : AM unit :=
  amod (fun s => set_event_timer false (set_event_reg None s)).

(** ** Parameters *)

Fixpoint dram_writes (l : list (Z * Z)) : AM unit :=
  match l with
  | [] => mret_ tt
  | (reg, v) :: l => avia_av_dram_write reg v ;;; dram_writes l
  end.

Definition avia_av_audio_init (rate : Z) : AM unit :=
  avia_av_dram_write AUDIO_CONFIG 0xF ;;;
  avia_av_dram_write AUDIO_DAC_MODE (Z.lor (Z.shiftl 3 6) (Z.shiftl 1 2)) ;;;
  amod (set_sample_rate (if rate =? 48000 then 48000 else if rate =? 32000 then 32000 else 44100)) ;;;
  let! s := mget in
  let val := if rate =? 48000 then 0 else if rate =? 32000 then Z.shiftl 2 2 else Z.shiftl 1 2 in
  let val := if (aviarev s =? 0x00) && (silirev s =? 0x80) then val else Z.lor val (Z.shiftl 1 1) in
  avia_av_dram_write AUDIO_CLOCK_SELECTION (Z.lor val 1) ;;;
  avia_av_dram_write AUDIO_ATTENUATION 0 ;;;
  let! v := avia_av_dram_read IEC_958_CHANNEL_STATUS_BITS in
  avia_av_dram_write IEC_958_CHANNEL_STATUS_BITS (Z.lor v 5).

Definition avia_av_set_default : AM unit :=
  dram_writes [(VIDEO_MODE, 0); (DISPLAY_ASPECT_RATIO, 0); (ASPECT_RATIO_MODE, 2);
    (FORCE_CODED_ASPECT_RATIO, 0); (PAN_SCAN_SOURCE, 0); (PAN_SCAN_HORIZONTAL_OFFSET, 0);
    (BORDER_COLOR, 0x108080); (BACKGROUND_COLOR, 0x108080); (I_SLICE, 0); (ERR_CONCEALMENT_LEVEL, 0);
    (BITSTREAM_SOURCE, AVIA_AV_BITSTREAM_SRC_TP_DEMUX)] ;;;
  let! s := mget in
  (if tuxbox_dbox2_gt s =? TUXBOX_DBOX2_GT_GTX then avia_av_dram_write TM_MODE 0x0a
   else if tuxbox_dbox2_gt s =? TUXBOX_DBOX2_GT_ENX then avia_av_dram_write TM_MODE 0x18
   else mret_ tt) ;;;
  dram_writes [(AV_SYNC_MODE, AVIA_AV_SYNC_MODE_NONE);
    (VIDEO_PTS_DELAY, 0); (VIDEO_PTS_SKIP_THRESHOLD, 0xE10); (VIDEO_PTS_REPEAT_THRESHOLD, 0xE10);
    (AUDIO_PTS_DELAY, 0xe00); (AUDIO_PTS_SKIP_THRESHOLD_1, 0xE10); (AUDIO_PTS_REPEAT_THRESHOLD_1, 0xE10);
    (AUDIO_PTS_SKIP_THRESHOLD_2, 0x2300); (AUDIO_PTS_REPEAT_THRESHOLD_2, 0x2300);
    (INTERPRET_USER_DATA, 0); (INTERPRET_USER_DATA_MASK, 0)] ;;;
  let! v := avia_av_dram_read UCODE_VERSION in
  avia_av_dram_write DISABLE_OSD (if v =? UCODEVERSION 100 48 51 48 then 1 else 3) ;;;
  dram_writes [(OSD_EVEN_FIELD, 0); (OSD_ODD_FIELD, 0); (SRAM_INFO, 0); (DRAM_INFO, 0); (UCODE_MEMORY, 0)] ;;;
  let! s := mget in
  if tv_standard s =? AVIA_AV_VIDEO_SYSTEM_PAL then avia_av_dram_write MEMORY_MAP PAL_16MB_WO_ROM_SRAM
  else if tv_standard s =? AVIA_AV_VIDEO_SYSTEM_NTSC then avia_av_dram_write MEMORY_MAP NTSC_16MB_WO_ROM_SRAM
  else mret_ tt.

(** ** Starting the chip

    [cmd] gives a command ([avia_av_cmd], below). *)

Fixpoint gbus_sequence (l : list (Z * Z)) : AM unit :=
  match l with
  | [] => mret_ tt
  | (reg, v) :: l => avia_av_gbus_write reg v ;;; gbus_sequence l
  end.

Definition gbus_update (f : Z -> Z) : AM unit :=
  let! v := avia_av_gbus_read 0 in avia_av_gbus_write 0 (f v).

Definition sdram_init : AM unit :=
  let! s := mget in
  if aviarev s =? 0 then
    gbus_sequence [(0x22, 0x10000); (0x23, 0x5FBE); (0x22, 0x12); (0x23, 0x3a1800)]
  else
    avia_av_gbus_write 0x22 0xF ;;;
    let! v := avia_av_gbus_read 0x23 in
    gbus_sequence [(0x22, 0xF); (0x23, Z.lor v 0x14EC)] ;;;
    let! _ := avia_av_gbus_read 0x23 in
    avia_av_gbus_write 0x22 0x11 ;;;
    let! v := avia_av_gbus_read 0x23 in
    gbus_sequence [(0x22, 0x11); (0x23, Z.lor (Z.land v 0x00FFFFFF) 1)] ;;;
    let! _ := avia_av_gbus_read 0x23 in
    mret_ tt.

(** The registers are given back. *)
Definition unmap : AM unit := amod (set_aviamem false).

Definition free_irq : AM unit := to_world av_free_irq ;;; amod (set_irq_held false).

(** Up to the microcode's start (lines 995 to 1093). *)
Definition start_chip (microcode : list Z) : AM unit :=
  avia_av_gbus_write 0 0x1000 ;;;
  avia_av_gbus_write 0x39 0xF00000 ;;;
  to_world (av_fp_reset (Z.land 0xBF (Z.lnot 2))) ;;;
  gbus_sequence [(0, 0x1000); (0x39, 0xF00000); (0, 0x1000)] ;;;
  let! v := avia_av_gbus_read 0x22 in
  amod (set_silirev (Z.land (Z.shiftr v 8) 0xFF)) ;;;
  sdram_init ;;;
  avia_av_gbus_initial microcode ;;;
  let! _ := avia_av_load_microcode microcode in
  let! _ := avia_av_load_imem_image microcode (UX_FIRST_SECTION_START + UX_SECTION_DATA_OFFSET) in
  avia_av_set_default ;;;
  let! s := mget in
  avia_av_audio_init (sample_rate s) ;;;
  avia_av_gbus_final microcode ;;;
  avia_av_gbus_write 0x39 0x900000 ;;;
  gbus_update (fun v => Z.lor v (Z.shiftl 1 7)) ;;;
  gbus_update (fun v => Z.land v (Z.lnot (Z.shiftl 1 6))) ;;;
  gbus_update (fun v => Z.lor v (Z.shiftl 1 1)) ;;;
  gbus_update (fun v => Z.land v (Z.lnot 1)) ;;;
  dram_writes [(BUFF_INT_SRC, 0); (UND_INT_SRC, 0); (ERR_INT_SRC, 0); (INT_STATUS, 0)] ;;;
  let! s := mget in
  let irq_mask := Z.lor (Z.lor (Z.lor IRQ_AUD IRQ_END_L) IRQ_END_C) IRQ_SEQ_V in
  avia_av_dram_write INT_MASK (if no_watchdog s then irq_mask else Z.lor irq_mask IRQ_INIT_AUDD).

(** From the idle decoder on (lines 1112 to 1143). *)
Definition finish_init (cmd : Z -> list Z -> AM Z) : AM Z :=
  let! _ := avia_av_event_init in
  avia_av_dram_write OSD_BUFFER_START 0x022000 ;;;
  avia_av_dram_write OSD_BUFFER_END 0x03a000 ;;;
  let! _ := cmd Reset [] in
  to_world (av_udelay 1500) ;;;
  let! _ := cmd Reset [] in
  let! _ := cmd SelectStream [0x00; 0xFFFF] in
  let! _ := cmd SelectStream [0x03; 0xFFFF] in
  let! _ := cmd Play [0x00; 0xFFFF; 0xFFFF] in
  amod (fun s => set_sync_mode AVIA_AV_SYNC_MODE_AV
    (set_stream_type_video AVIA_AV_STREAM_TYPE_SPTS (set_stream_type_audio AVIA_AV_STREAM_TYPE_SPTS
    (set_play_state_video AVIA_AV_PLAY_STATE_STOPPED (set_play_state_audio AVIA_AV_PLAY_STATE_STOPPED s))))) ;;;
  mret_ 0.

Definition avia_av_init (cmd : Z -> list Z -> AM Z) : AM Z :=
  let! s := mget in
  let! mapped := (if aviamem s then mret_ true else on_world av_ioremap) in
  if negb mapped then mret_ (- ENOMEM) else
  amod (set_aviamem true) ;;;
  let! _ := mem_in 0 in
  let! v := avia_av_gbus_read 0 in
  amod (set_aviarev (Z.land (Z.shiftr v 16) 3)) ;;;
  let! file := avia_av_firmware_read in
  match file with
  | None => mret_ 0
  | Some contents =>
      let microcode := words_of contents in
      to_world av_siumcr ;;;
      let! s := mget in
      let! ok := (if irq_held s then mret_ false else on_world av_request_irq) in
      if negb ok then unmap ;;; mret_ (- EIO) else
      amod (set_irq_held true) ;;;
      (if (kernel_thread_pid s =? 0) && negb (no_watchdog s)
       then let! pid := on_world av_kernel_thread in amod (set_kernel_thread_pid pid) else mret_ tt) ;;;
      start_chip microcode ;;;
      let! r := avia_av_wait PROC_STATE PROC_STATE_IDLE 100 false in
      if r <? 0 then
        let! _ := avia_av_dram_read PROC_STATE in
        unmap ;;; free_irq ;;; mret_ (- EIO)
      else
        let! r := avia_av_new_audio_config false in
        if r <? 0 then unmap ;;; free_irq ;;; mret_ (- EIO)
        else finish_init cmd
  end.

Definition avia_av_standby (cmd : Z -> list Z -> AM Z) (state : Z) : AM Z :=
  if state =? 0 then
    let! r := avia_av_init cmd in
    mret_ (if r =? 0 then 0 else - EREMOTEIO)
  else
    avia_av_event_exit ;;;
    avia_av_dram_write INT_MASK 0 ;;;
    free_irq ;;;
    avia_av_gbus_write 0 0x1000 ;;;
    avia_av_gbus_write 0x39 0xF00000 ;;;
    to_world (av_fp_reset (Z.land 0xBF (Z.lnot 2))) ;;;
    mret_ 0.

(** ** Commands *)

Definition wait_fuel : nat := 1000.

Definition time_before (a b : Z) : bool := s32 (a - b) <? 0.

Fixpoint status_addr_loop (fuel : nat) (timeout : Z) : AM unit :=
  let! v := avia_av_dram_read STATUS_ADDRESS in
  let! now := jiffies in
  if (v =? 0) && time_before now timeout then
    match fuel with
    | O => fun _ => Diverge
    | S fuel => to_world (av_schedule 0) ;;; status_addr_loop fuel timeout
    end
  else mret_ tt.

Definition avia_cmd_status_get_addr : AM Z :=
  let! now := jiffies in
  status_addr_loop wait_fuel (u32 (now + HZ * 2)) ;;;
  avia_av_dram_read STATUS_ADDRESS.

(** The loop of [avia_cmd_status_get]: false when the time is over. *)
Fixpoint complete_loop (fuel : nat) (status_addr waittime : Z) : AM bool :=
  if waittime <=? 0 then mret_ true else
  let! v := avia_av_dram_read status_addr in
  if 0x03 <=? v then mret_ true else
  match fuel with
  | O => fun _ => Diverge
  | S fuel =>
      let! waittime := on_world (av_cmd_sleep waittime) in
      let! over := (if waittime =? 0 then let! v := avia_av_dram_read status_addr in mret_ (v <? 0x03)
                    else mret_ false) in
      if over : bool then mret_ false else complete_loop fuel status_addr waittime
  end.

Definition avia_cmd_status_get (status_addr : Z) (wait_for_completion : bool) : AM Z :=
  if status_addr =? 0 then mret_ 0 else
  let! ok := (if wait_for_completion then complete_loop wait_fuel status_addr 350 else mret_ true) in
  if negb ok then mret_ 0 else
  let! _ := avia_av_dram_read status_addr in
  avia_av_dram_read status_addr.

(** The number of arguments is part of the command. *)
Definition cmd_args (command : Z) : Z := Z.shiftr (Z.land command 0x7F00) 8.

Fixpoint cmd_arguments (l : list Z) (i : Z) : AM unit :=
  match l with
  | [] => mret_ tt
  | a :: l => avia_av_dram_write (ARGUMENT_1 + i * 4) a ;;; cmd_arguments l (i + 1)
  end.

(** Giving the command to a chip that is ready. *)
Definition give_command (command : Z) (args : list Z) : AM unit :=
  if zlen args <? cmd_args command then mfault else
  avia_av_dram_write COMMAND command ;;;
  cmd_arguments (take (Z.to_nat (cmd_args command)) args) 0 ;;;
  cmd_arguments (replicate (6 - Z.to_nat (cmd_args command)) 0) (cmd_args command) ;;;
  avia_av_dram_write STATUS_ADDRESS 0 ;;;
  avia_av_htd_interrupt.

(** A chip that does not answer is restarted, which gives commands again; the
    calls may nest [depth] deep. *)
Fixpoint avia_av_cmd (depth : nat) (command : Z) (args : list Z) : AM Z :=
  match depth with
  | O => fun _ => Diverge
  | S depth =>
      let restart := (let! _ := avia_av_standby (avia_av_cmd depth) 1 in
                      let! _ := avia_av_standby (avia_av_cmd depth) 0 in mret_ 0) in
      let! ready := avia_cmd_status_get_addr in
      if ready =? 0 then restart else
      give_command command args ;;;
      let! status_addr := avia_cmd_status_get_addr in
      if status_addr =? 0 then restart else
      let! s := mget in
      (if Z.land command 0x8000 =? 0 then mret_ tt
       else if negb (aviarev s =? 0) && negb (command =? NewChannel)
       then let! _ := avia_cmd_status_get status_addr true in mret_ tt
       else to_world (av_udelay 1500)) ;;;
      mret_ status_addr
  end.

Section Calls.
Context (depth : nat).

Definition cmd (command : Z) (args : list Z) : AM unit :=
  let! _ := avia_av_cmd depth command args in mret_ tt.

Definition restart_decoder : AM unit :=
  let! _ := avia_av_standby (avia_av_cmd depth) 1 in
  let! _ := avia_av_standby (avia_av_cmd depth) 0 in
  mret_ tt.

Definition avia_av_set_video_system (video_system : Z) : AM Z :=
  let! s := mget in
  if video_system =? tv_standard s then mret_ 0 else
  if negb ((video_system =? AVIA_AV_VIDEO_SYSTEM_PAL) || (video_system =? AVIA_AV_VIDEO_SYSTEM_NTSC))
  then mret_ (- EINVAL) else
  amod (set_tv_standard video_system) ;;;
  restart_decoder ;;;
  mret_ 0.

Definition avia_av_get_sample_rate : AM Z := mgets sample_rate.

Definition avia_av_set_sample_rate (rate : Z) : AM Z :=
  if negb (rate =? 48000) && negb (rate =? 44100) && negb (rate =? 32000) then mret_ (- EINVAL) else
  let! s := mget in
  if sample_rate s =? rate then mret_ 0 else
  amod (set_sample_rate rate) ;;;
  restart_decoder ;;;
  mret_ 0.

(** ** The clock *)

Definition timer_high (hi : Z) : Z :=
  let data1 := Z.land (Z.shiftr hi 16) 0xffff in
  let data2 := Z.land hi 0xffff in
  Z.lor (Z.lor (Z.lor (Z.lor (Z.lor (Z.shiftl 1 21) (Z.shiftl (Z.land data1 0xe000) 4)) (Z.shiftl 1 16))
    (Z.shiftl (Z.land data1 0x1fff) 3)) (Z.shiftr (Z.land data2 0xc000) 13)) 1.
Definition timer_low (hi lo : Z) : Z :=
  let data2 := Z.land hi 0xffff in
  Z.lor (Z.lor (Z.shiftl (Z.land data2 0x03fff) 2) (Z.shiftr (Z.land lo 0x8000) 14)) 1.

Definition avia_av_set_stc (hi lo : Z) : AM unit :=
  avia_av_gbus_write 0x02 (timer_high hi) ;;;
  avia_av_gbus_write 0x03 (timer_low hi lo) ;;;
  let! s := mget in
  if sync_mode s =? AVIA_AV_SYNC_MODE_NONE then mret_ tt
  else avia_av_dram_write AV_SYNC_MODE (sync_mode s).

Definition stopped (s : av_state) : bool :=
  (play_state_video s =? AVIA_AV_PLAY_STATE_STOPPED) && (play_state_audio s =? AVIA_AV_PLAY_STATE_STOPPED).

Definition avia_av_sync_mode_set (new_sync_mode : Z) : AM Z :=
  if negb (new_sync_mode =? AVIA_AV_SYNC_MODE_NONE) && negb (new_sync_mode =? AVIA_AV_SYNC_MODE_AUDIO) &&
     negb (new_sync_mode =? AVIA_AV_SYNC_MODE_VIDEO) && negb (new_sync_mode =? AVIA_AV_SYNC_MODE_AV)
  then mret_ (- EINVAL) else
  let! s := mget in
  (if stopped s then mret_ tt else avia_av_dram_write AV_SYNC_MODE new_sync_mode) ;;;
  amod (set_sync_mode new_sync_mode) ;;;
  mret_ 0.

(** The bytes of [struct pes_header]. *)
Definition pes_header_size : Z := 14.
(** [pts_hi], [pts_mid] and [pts_lo] in its last five bytes. *)
Definition pts_of (v : Z) : Z :=
  let hi := Z.land (Z.shiftr v 33) 7 in
  let mid := Z.land (Z.shiftr v 17) 0x7fff in
  let lo := Z.land (Z.shiftr v 1) 0x7fff in
  Z.lor (Z.lor (Z.shiftl hi 30) (Z.shiftl mid 15)) lo.

(** The fields are read one after the other. *)
Definition avia_av_audio_pts_to_stc (pes : list Z) : AM Z :=
  let! prefix := mlift (slice pes 0 3) in
  if negb (be_value prefix =? 0x000001) then mret_ (-1) else
  let! stream_id := word pes 3 in
  if negb (Z.land stream_id 0xe0 =? 0xc0) && negb (stream_id =? 0xbd) then mret_ (-1) else
  let! flags := word pes 7 in
  if negb (Z.land (Z.shiftr flags 7) 1 =? 1) then mret_ (-1) else
  let! field := mlift (slice pes 9 5) in
  let pts := pts_of (be_value field) in
  let! _ := avia_av_sync_mode_set AVIA_AV_SYNC_MODE_NONE in
  avia_av_set_stc (u32 (Z.shiftr pts 1)) (Z.shiftl (Z.land pts 1) 15) ;;;
  let! _ := avia_av_sync_mode_set AVIA_AV_SYNC_MODE_VIDEO in
  mret_ 0.

(** ** Playing *)

Definition avia_av_bypass_mode_set (enable : Z) : AM unit :=
  let enable := c_bool (negb (enable =? 0)) in
  let! s := mget in
  if bypass_mode s =? enable then mret_ tt else
  (if aviarev s =? 0 then mret_ tt else cmd Abort [0x00]) ;;;
  let! v := avia_av_dram_read AUDIO_CONFIG in
  avia_av_dram_write AUDIO_CONFIG (if enable =? 0 then Z.lor v 1 else Z.land v (Z.lnot 1)) ;;;
  let! _ := avia_av_new_audio_config false in
  amod (fun s => set_bypass_mode_changed true (set_bypass_mode enable s)).

Definition avia_av_pid_set (type pid : Z) : AM Z :=
  if (pid >? 0x1FFF) && negb (pid =? 0xFFFF) then mret_ (- EINVAL)
  else if type =? AVIA_AV_TYPE_AUDIO then amod (set_pid_audio pid) ;;; mret_ 0
  else if type =? AVIA_AV_TYPE_VIDEO then amod (set_pid_video pid) ;;; mret_ 0
  else mret_ (- EINVAL).

(** The PID of the pictures, if they are played. *)
Definition playing_video (s : av_state) : Z :=
  if play_state_video s =? AVIA_AV_PLAY_STATE_PLAYING then pid_video s else 0xFFFF.

Definition audio_stream (s : av_state) : Z := 0x03 - bypass_mode s.

(** What stopping one half does when the other is stopped already. *)
Definition stop_both (stream : Z) : AM unit :=
  let! s := mget in
  (if (sptsfix s =? 1) && negb (aviarev s =? 0)
   then cmd SelectStream [stream; 0xFFFF] ;;; cmd Abort [0x00] else mret_ tt) ;;;
  avia_av_dram_write AV_SYNC_MODE AVIA_AV_SYNC_MODE_NONE ;;;
  let! s := mget in
  if (sptsfix s =? 0) || (aviarev s =? 0) then cmd NewChannel [0x00; 0xFFFF; 0xFFFF] else mret_ tt.

Definition avia_av_play_state_set_audio (new_play_state : Z) : AM Z :=
  let! s := mget in
  let! ok :=
    if new_play_state =? AVIA_AV_PLAY_STATE_PAUSED then
      if negb (play_state_audio s =? AVIA_AV_PLAY_STATE_PLAYING) then mret_ false
      else cmd SelectStream [audio_stream s; 0xFFFF] ;;; mret_ true
    else if new_play_state =? AVIA_AV_PLAY_STATE_PLAYING then
      cmd SelectStream [audio_stream s; pid_audio s] ;;;
      let! s := mget in
      (if negb (aviarev s =? 0) && bypass_mode_changed s then
         cmd SelectStream [0x00; playing_video s] ;;;
         let! s := mget in cmd Play [0x00; playing_video s; pid_audio s]
       else mret_ tt) ;;;
      let! s := mget in
      (if (sptsfix s =? 1) && negb (aviarev s =? 0) &&
          negb (play_state_audio s =? AVIA_AV_PLAY_STATE_PAUSED)
       then cmd Play [0x00; playing_video s; pid_audio s] else mret_ tt) ;;;
      amod (set_bypass_mode_changed false) ;;; mret_ true
    else if new_play_state =? AVIA_AV_PLAY_STATE_STOPPED then
      if negb (play_state_audio s =? AVIA_AV_PLAY_STATE_PAUSED) &&
         negb (play_state_audio s =? AVIA_AV_PLAY_STATE_PLAYING) then mret_ false
      else if play_state_video s =? AVIA_AV_PLAY_STATE_STOPPED
      then stop_both (audio_stream s) ;;; mret_ true
      else cmd SelectStream [audio_stream s; 0xFFFF] ;;; mret_ true
    else mret_ false in
  if negb ok then mret_ (- EINVAL) else
  amod (set_play_state_audio new_play_state) ;;; mret_ 0.

Definition avia_av_play_state_set_video (new_play_state : Z) : AM Z :=
  let! s := mget in
  let! ok :=
    if new_play_state =? AVIA_AV_PLAY_STATE_PAUSED then
      if negb (play_state_video s =? AVIA_AV_PLAY_STATE_PLAYING) then mret_ false
      else cmd Freeze [1] ;;; mret_ true
    else if new_play_state =? AVIA_AV_PLAY_STATE_PLAYING then
      if play_state_video s =? AVIA_AV_PLAY_STATE_PLAYING then mret_ false
      else if play_state_video s =? AVIA_AV_PLAY_STATE_PAUSED then cmd Resume [] ;;; mret_ true
      else cmd SelectStream [0x00; pid_video s] ;;; mret_ true
    else if new_play_state =? AVIA_AV_PLAY_STATE_STOPPED then
      if negb (play_state_video s =? AVIA_AV_PLAY_STATE_PAUSED) &&
         negb (play_state_video s =? AVIA_AV_PLAY_STATE_PLAYING) then mret_ false
      else if play_state_audio s =? AVIA_AV_PLAY_STATE_STOPPED then stop_both 0x00 ;;; mret_ true
      else cmd SelectStream [0x00; 0xFFFF] ;;; mret_ true
    else mret_ false in
  if negb ok then mret_ (- EINVAL) else
  amod (set_play_state_video new_play_state) ;;; mret_ 0.

(** The first argument of [SetStreamType] for a pair of stream types;
    [Some None] is a transport stream, [None] a pair that is not supported. *)
Definition stream_command (video audio : Z) : option (option Z) :=
  if video =? AVIA_AV_STREAM_TYPE_0 then Some (Some 0x00)
  else if video =? AVIA_AV_STREAM_TYPE_ES then
    if audio =? AVIA_AV_STREAM_TYPE_ES then Some (Some 0x08)
    else if audio =? AVIA_AV_STREAM_TYPE_PES then Some (Some 0x0A) else None
  else if video =? AVIA_AV_STREAM_TYPE_PES then
    if audio =? AVIA_AV_STREAM_TYPE_ES then Some (Some 0x09)
    else if audio =? AVIA_AV_STREAM_TYPE_PES then Some (Some 0x0B) else None
  else if video =? AVIA_AV_STREAM_TYPE_SPTS then
    if audio =? AVIA_AV_STREAM_TYPE_SPTS then Some None else None
  else None.

Definition avia_av_stream_type_set (video audio : Z) : AM Z :=
  let! s := mget in
  if negb (stopped s) then mret_ (- EBUSY)
  else if (video =? stream_type_video s) && (audio =? stream_type_audio s) then mret_ 0 else
  match stream_command video audio with
  | None => mret_ (- EINVAL)
  | Some c =>
      match c with
      | Some c => cmd SetStreamType [c; 0x0000]
      | None =>
          if aviarev s =? 0 then
            cmd SetStreamType [0x10; pid_audio s] ;;;
            let! s := mget in cmd SetStreamType [0x11; pid_video s]
          else cmd Reset []
      end ;;;
      amod (fun s => set_stream_type_video video (set_stream_type_audio audio s)) ;;;
      mret_ 0
  end.

Definition avia_av_set_audio_attenuation (new_att : Z) : AM Z :=
  if new_att >? 96 then mret_ (- EINVAL)
  else avia_av_dram_write AUDIO_ATTENUATION new_att ;;; mret_ 0.

Definition avia_av_register_video_event_handler (handler : Z) : AM Z :=
  let! s := mget in
  if negb (video_event_handler s =? 0) then mret_ (- EBUSY)
  else amod (set_video_event_handler handler) ;;; mret_ 0.
Definition avia_av_unregister_video_event_handler (handler : Z) : AM unit :=
  let! s := mget in
  if video_event_handler s =? handler then amod (set_video_event_handler 0) else mret_ tt.

Definition avia_av_get_video_size : AM (Z * Z * Z) :=
  let! w := avia_av_dram_read H_SIZE in
  let! h := avia_av_dram_read V_SIZE in
  let! r := avia_av_dram_read ASPECT_RATIO in
  mret_ (Z.land w 0xffff, Z.land h 0xffff, Z.land r 0xffff).

(** ** The watchdog: one turn, after a wake-up *)

Record wdt := mk_wdt { LAST_SUM_DECODED : Z; LAST_SUM_AUD_DECODED : Z; counter : Z }.

(** Restart a half that plays and whose number of decoded units does not
    change. *)
Definition wdt_half (playing : bool) (reg last : Z) (restart : AM unit) : AM Z :=
  if negb playing then mret_ last else
  let! sum := avia_av_dram_read reg in
  (if (sum =? 0) || (sum =? last) then restart else mret_ tt) ;;;
  mret_ sum.

Definition wdt_turn (t : wdt) : AM wdt :=
  if counter t <? 100 then mret_ (mk_wdt (LAST_SUM_DECODED t) (LAST_SUM_AUD_DECODED t) (counter t + 1)) else
  let! v := avia_av_dram_read PROC_STATE in
  if negb (v =? 0x04) then mret_ (mk_wdt (LAST_SUM_DECODED t) (LAST_SUM_AUD_DECODED t) 1) else
  let! s := mget in
  let! dec := wdt_half (play_state_video s =? AVIA_AV_PLAY_STATE_PLAYING) N_DECODED (LAST_SUM_DECODED t)
                (cmd SelectStream [0x00; pid_video s]) in
  let! s := mget in
  let! aud := wdt_half (play_state_audio s =? AVIA_AV_PLAY_STATE_PLAYING) N_AUD_DECODED (LAST_SUM_AUD_DECODED t)
                (cmd SelectStream [audio_stream s; pid_audio s]) in
  mret_ (mk_wdt dec aud 1).

(** ** The module *)

(** [firmware_set]: the module has a parameter [firmware]. *)
Definition avia_av_core_init (firmware_set : bool) : AM Z :=
  let! s := mget in
  if (tv_standard s <? AVIA_AV_VIDEO_SYSTEM_PAL) || (tv_standard s >? AVIA_AV_VIDEO_SYSTEM_NTSC)
  then mret_ (- EINVAL)
  else if negb firmware_set then mret_ (- EINVAL) else
  amod (set_sample_rate 44100) ;;;
  avia_av_init (avia_av_cmd depth).

Definition avia_av_core_exit : AM unit :=
  let! _ := avia_av_standby (avia_av_cmd depth) 1 in
  unmap.

End Calls.
End AvCore.
