(* ===== verification/AvCoreSpec.v ===== *)
(** * What the decoder's driver does with the chip

    The registers as a window on the chip's memory, the loading of the
    microcode, the mailbox, the clock. *)

From Stdlib Require Import String.
From S2P Require Import Prelude AvCore.

Open Scope Z_scope.

(** ** The chip, seen through its window

    Bytes 4 to 6 of the window select a kind of memory and an address, bytes 0
    to 3 are the word there; the word is written with its byte 0.  Of a plain
    word nothing else is assumed than that it keeps what is written to it;
    other words (the registers of the processor) may do anything but change
    plain ones. *)

Definition byte_of (v i : Z) : Z := Z.land (Z.shiftr v (8 * i)) 0xFF.

Class AvWindow (W : Type) {B : AvBus W} := {
  latch : W -> Z -> Z;
  cell : W -> Z -> Z -> Z;
  plain : Z -> Z -> bool;
  selected : W -> Z * Z := fun w =>
    (Z.land (latch w 6) 0xC0,
     Z.lor (Z.lor (Z.shiftl (Z.land (latch w 6) 0x3F) 16) (Z.shiftl (latch w 5) 8)) (latch w 4));
  out_latch i v w j : 0 <= i <= 6 -> latch (av_out i v w) j = if j =? i then v else latch w j;
  out_cell i v w m a : 1 <= i <= 6 -> cell (av_out i v w) m a = cell w m a;
  out_word v w m a : plain m a = true ->
    cell (av_out 0 v w) m a =
      if decide ((m, a) = selected w)
      then Z.lor (Z.lor (Z.lor (Z.shiftl (latch w 3) 24) (Z.shiftl (latch w 2) 16)) (Z.shiftl (latch w 1) 8)) v
      else cell w m a;
  in_latch i w j : 0 <= i <= 3 -> latch (av_in i w).2 j = latch w j;
  in_cell i w m a : 0 <= i <= 3 -> plain m a = true -> cell (av_in i w).2 m a = cell w m a;
  in_word i w : 0 <= i <= 3 -> plain (selected w).1 (selected w).2 = true ->
    (av_in i w).1 = byte_of (cell w (selected w).1 (selected w).2) i;
}.

Definition kind (mode : Z) : Prop := mode = TM_DRAM \/ mode = TM_RES \/ mode = TM_GBUS \/ mode = TM_SRAM.
Definition a22 (a : Z) : Z := Z.land a 0x3FFFFF.

Lemma a22_mod a : a22 a = a mod 2 ^ 22.
Proof. unfold a22. change 0x3FFFFF with (Z.ones 22). by rewrite Z.land_ones. Qed.

Lemma shiftr_div a n : 0 <= n -> Z.shiftr a n = a / 2 ^ n.
Proof. apply Z.shiftr_div_pow2. Qed.

Lemma lor_3 h m l : 0 <= m < 256 -> 0 <= l < 256 ->
  Z.lor (Z.lor (Z.shiftl h 16) (Z.shiftl m 8)) l = (h * 256 + m) * 256 + l.
Proof.
  intros Hm Hl. replace (Z.shiftl h 16) with (Z.shiftl (Z.shiftl h 8) 8) by (by rewrite Z.shiftl_shiftl).
  rewrite <- Z.shiftl_lor, !lor_shiftl_add by lia. lia.
Qed.

Lemma lor_4 a b c d : 0 <= b < 256 -> 0 <= c < 256 -> 0 <= d < 256 ->
  Z.lor (Z.lor (Z.lor (Z.shiftl a 24) (Z.shiftl b 16)) (Z.shiftl c 8)) d = ((a * 256 + b) * 256 + c) * 256 + d.
Proof.
  intros Hb Hc Hd.
  replace (Z.lor (Z.lor (Z.shiftl a 24) (Z.shiftl b 16)) (Z.shiftl c 8))
    with (Z.shiftl (Z.lor (Z.lor (Z.shiftl a 16) (Z.shiftl b 8)) c) 8)
    by (rewrite !Z.shiftl_lor, !Z.shiftl_shiftl by lia; done).
  by rewrite lor_3, lor_shiftl_add by lia.
Qed.

Lemma byte_of_div v i : 0 <= i -> byte_of v i = v / 2 ^ (8 * i) mod 256.
Proof. intros. unfold byte_of. rewrite land_ones_255, shiftr_div by lia. done. Qed.

Lemma byte_of_range v i : 0 <= i -> 0 <= byte_of v i < 256.
Proof. intros. rewrite byte_of_div by done. by apply Z.mod_pos_bound. Qed.

Lemma word_bytes v :
  Z.lor (Z.lor (Z.lor (Z.shiftl (byte_of v 3) 24) (Z.shiftl (byte_of v 2) 16)) (Z.shiftl (byte_of v 1) 8))
    (byte_of v 0) = u32 v.
Proof.
  rewrite lor_4 by (by apply byte_of_range).
  rewrite !byte_of_div by lia. unfold u32. cbn [Z.mul Z.pow Z.pow_pos Pos.iter Pos.mul].
  rewrite Z.div_1_r. pose proof (Z.div_mod v 256). pose proof (Z.div_mod (v / 256) 256).
  Z.div_mod_to_equations. lia.
Qed.

(** The select byte holds the kind and the high part of the address. *)
Lemma select_byte mode h : kind mode -> 0 <= h < 64 ->
  Z.land (Z.land (Z.lor h mode) 0xFF) 0xC0 = mode /\ Z.land (Z.land (Z.lor h mode) 0xFF) 0x3F = h.
Proof.
  intros Hk Hh.
  assert (((Z.land (Z.land (Z.lor h mode) 0xFF) 0xC0 =? mode) &&
           (Z.land (Z.land (Z.lor h mode) 0xFF) 0x3F =? h)) = true) as H; [|lia].
  destruct Hk as [-> |[-> |[-> | ->]]].
  - by apply (forall_range (fun h => (Z.land (Z.land (Z.lor h TM_DRAM) 0xFF) 0xC0 =? TM_DRAM) &&
      (Z.land (Z.land (Z.lor h TM_DRAM) 0xFF) 0x3F =? h)) 64).
  - by apply (forall_range (fun h => (Z.land (Z.land (Z.lor h TM_RES) 0xFF) 0xC0 =? TM_RES) &&
      (Z.land (Z.land (Z.lor h TM_RES) 0xFF) 0x3F =? h)) 64).
  - by apply (forall_range (fun h => (Z.land (Z.land (Z.lor h TM_GBUS) 0xFF) 0xC0 =? TM_GBUS) &&
      (Z.land (Z.land (Z.lor h TM_GBUS) 0xFF) 0x3F =? h)) 64).
  - by apply (forall_range (fun h => (Z.land (Z.land (Z.lor h TM_SRAM) 0xFF) 0xC0 =? TM_SRAM) &&
      (Z.land (Z.land (Z.lor h TM_SRAM) 0xFF) 0x3F =? h)) 64).
Qed.

Lemma le32_to_cpu_bytes v :
  le32_to_cpu v = ((byte_of v 0 * 256 + byte_of v 1) * 256 + byte_of v 2) * 256 + byte_of v 3.
Proof.
  unfold le32_to_cpu. rewrite Z.lor_assoc.
  replace (Z.land v 0xFF) with (byte_of v 0) by (unfold byte_of; by rewrite Z.shiftr_0_r).
  fold (byte_of v 1) (byte_of v 2).
  replace (Z.land (Z.shiftr v 24) 0xFF) with (byte_of v 3) by done.
  apply lor_4; by apply byte_of_range.
Qed.

Lemma byte_of_word a b c d i :
  0 <= a < 256 -> 0 <= b < 256 -> 0 <= c < 256 -> 0 <= d < 256 -> 0 <= i < 4 ->
  byte_of (((a * 256 + b) * 256 + c) * 256 + d) i = at_ [d; c; b; a] i.
Proof.
  intros Ha Hb Hc Hd Hi. rewrite byte_of_div by lia.
  assert (i = 0 \/ i = 1 \/ i = 2 \/ i = 3) as [-> |[-> |[-> | ->]]] by lia.
  - change (2 ^ (8 * 0)) with 1. change (at_ _ 0) with d. Z.div_mod_to_equations; lia.
  - change (2 ^ (8 * 1)) with 256. change (at_ _ 1) with c. Z.div_mod_to_equations; lia.
  - change (2 ^ (8 * 2)) with 65536. change (at_ _ 2) with b. Z.div_mod_to_equations; lia.
  - change (2 ^ (8 * 3)) with 16777216. change (at_ _ 3) with a. Z.div_mod_to_equations; lia.
Qed.

Lemma le32_to_cpu_involutive v : 0 <= v < 2 ^ 32 -> le32_to_cpu (le32_to_cpu v) = v.
Proof.
  intros Hv. rewrite (le32_to_cpu_bytes (le32_to_cpu v)), le32_to_cpu_bytes.
  rewrite !byte_of_word by (lia || by apply byte_of_range). cbn [at_ nth Z.to_nat Pos.to_nat Pos.iter_op Nat.add].
  change (at_ _ 0) with (byte_of v 3). change (at_ _ 1) with (byte_of v 2).
  change (at_ _ 2) with (byte_of v 1). change (at_ _ 3) with (byte_of v 0).
  rewrite <- (lor_4 (byte_of v 3)), word_bytes by (by apply byte_of_range). by apply Z.mod_small.
Qed.

Lemma le32_to_cpu_range v : 0 <= le32_to_cpu v < 2 ^ 32.
Proof.
  rewrite le32_to_cpu_bytes. pose proof (byte_of_range v 0). pose proof (byte_of_range v 1).
  pose proof (byte_of_range v 2). pose proof (byte_of_range v 3). lia.
Qed.

Definition word32 (v : Z) : Prop := 0 <= v < 2 ^ 32.

(** ** Images

    A microcode file as the loader reads it: a magic number, the number of
    sections, the length, and the sections, each with a header of four words;
    lengths and addresses are stored with the lowest byte first. *)

Record ux_section := mk_ux { ux_kind : Z; ux_addr : Z; ux_check : Z; ux_data : list Z }.

Definition ux_words (sec : ux_section) : list Z :=
  [ux_kind sec; le32_to_cpu (4 * zlen (ux_data sec)); le32_to_cpu (ux_addr sec); ux_check sec] ++ ux_data sec.

Definition ux_image (magic len : Z) (secs : list ux_section) (rest : list Z) : list Z :=
  [magic; le32_to_cpu (zlen secs); len] ++ concat (map ux_words secs) ++ rest.

Definition ux_ok (sec : ux_section) : Prop := word32 (ux_addr sec) /\ Forall word32 (ux_data sec).

Section Window.
Context {W : Type} {B : AvBus W} {L : AvWindow W}.
Abbreviation S := (@av_state W).

Definition select (mode a : Z) (w : W) : W :=
  av_out 4 (Z.land a 0xFF) (av_out 5 (Z.land (Z.shiftr a 8) 0xFF)
    (av_out 6 (Z.land (Z.lor (Z.shiftr a 16) mode) 0xFF) w)).

Lemma select_cell mode a w m b : cell (select mode a w) m b = cell w m b.
Proof. unfold select. by rewrite !out_cell by lia. Qed.

Lemma select_latch mode a w :
  latch (select mode a w) 4 = Z.land a 0xFF /\ latch (select mode a w) 5 = Z.land (Z.shiftr a 8) 0xFF /\
  latch (select mode a w) 6 = Z.land (Z.lor (Z.shiftr a 16) mode) 0xFF.
Proof. unfold select. by rewrite !out_latch by lia. Qed.

Lemma selected_by w w' : (forall j, 4 <= j <= 6 -> latch w' j = latch w j) -> selected w' = selected w.
Proof. intros H. unfold selected. by rewrite !H by lia. Qed.

Lemma select_selected mode addr w : kind mode -> selected (select mode (a22 addr) w) = (mode, a22 addr).
Proof.
  intros Hk. destruct (select_latch mode (a22 addr) w) as (E4 & E5 & E6). unfold selected.
  rewrite E4, E5, E6. rewrite !land_ones_255, !shiftr_div by lia.
  rewrite a22_mod. set (a := addr mod 2 ^ 22). assert (0 <= a < 2 ^ 22) as Ha by (by apply Z.mod_pos_bound).
  rewrite <- land_ones_255.
  destruct (select_byte mode (a / 2 ^ 16) Hk) as [-> ->].
  { split; [apply Z.div_pos; lia|]. apply Z.div_lt_upper_bound; lia. }
  f_equal. unfold u8. rewrite lor_3 by (by apply Z.mod_pos_bound).
  change (2 ^ 16) with 65536. change (2 ^ 8) with 256.
  Z.div_mod_to_equations. lia.
Qed.

(** What a step does to the world; plain words are given by [f]. *)
Definition world_step (s s' : S) (f : Z -> Z -> Z) : Prop :=
  s' = set_world (world s') s /\ forall m a, plain m a = true -> cell (world s') m a = f m a.

Definition cells (s : S) : Z -> Z -> Z := cell (world s).

Lemma mem_out_run i v (s : S) : aviamem s = true -> mem_out i v s = Ok (tt, set_world (av_out i v (world s)) s).
Proof. intros H. unfold mem_out, to_world. mrun. by rewrite H. Qed.
Lemma mem_in_run i (s : S) : aviamem s = true ->
  mem_in i s = Ok ((av_in i (world s)).1, set_world (av_in i (world s)).2 s).
Proof. intros H. unfold mem_in, on_world. mrun. by rewrite H. Qed.

Lemma mem_out_bind {A} i v (k : unit -> M S A) (s : S) : aviamem s = true ->
  mbind_ (mem_out i v) k s = k tt (set_world (av_out i v (world s)) s).
Proof. intros H. by rewrite (mbind_Ok _ _ _ _ _ (mem_out_run i v s H)). Qed.
Lemma mem_in_bind {A} i (k : Z -> M S A) (s : S) : aviamem s = true ->
  mbind_ (mem_in i) k s = k (av_in i (world s)).1 (set_world (av_in i (world s)).2 s).
Proof. intros H. by rewrite (mbind_Ok _ _ _ _ _ (mem_in_run i s H)). Qed.

(** Reading a byte moves nothing that matters. *)
Definition same_window (w w' : W) : Prop :=
  selected w' = selected w /\ (forall j, latch w' j = latch w j) /\
  forall m a, plain m a = true -> cell w' m a = cell w m a.

Lemma in_same i w : 0 <= i <= 3 -> same_window w (av_in i w).2.
Proof.
  intros Hi. split; [|split].
  - apply selected_by. intros. by apply in_latch.
  - intros. by apply in_latch.
  - intros. by apply in_cell.
Qed.

Lemma same_trans w w' w'' : same_window w w' -> same_window w' w'' -> same_window w w''.
Proof.
  intros (H1 & H2 & H3) (K1 & K2 & K3). split; [congruence|]. split; intros; [congruence|].
  rewrite K3, H3 by done. done.
Qed.

Lemma same_word i w w' : 0 <= i <= 3 -> same_window w w' -> plain (selected w).1 (selected w).2 = true ->
  (av_in i w').1 = byte_of (cell w (selected w).1 (selected w).2) i.
Proof.
  intros Hi (H1 & _ & H3) Hp. rewrite in_word by (rewrite ?H1; done). rewrite H1, H3 by done. done.
Qed.

Lemma read_run mode addr (s : S) :
  kind mode -> aviamem s = true ->
  runs (avia_av_read mode addr) s (fun v s' => world_step s s' (cells s) /\
    (plain mode (a22 addr) = true -> v = u32 (cells s mode (a22 addr)))).
Proof.
  intros Hk Hm. unfold avia_av_read. fold (a22 addr). unfold runs.
  rewrite !mem_out_bind by done. cbn [world set_world].
  fold (select mode (a22 addr) (world s)). set (w0 := select mode (a22 addr) (world s)).
  rewrite !mem_in_bind by done. cbn [world set_world].
  assert (same_window w0 (av_in 3 w0).2) as S3 by (by apply in_same).
  set (w3 := (av_in 3 w0).2) in *.
  assert (same_window w0 (av_in 2 w3).2) as S2 by (eapply same_trans; [done|by apply in_same]).
  set (w2 := (av_in 2 w3).2) in *.
  assert (same_window w0 (av_in 1 w2).2) as S1 by (eapply same_trans; [done|by apply in_same]).
  set (w1 := (av_in 1 w2).2) in *.
  assert (same_window w0 (av_in 0 w1).2) as S0 by (eapply same_trans; [done|by apply in_same]).
  eexists _, _. split; [reflexivity|]. split.
  - split; [done|]. intros m a Hp. cbn [world set_world]. destruct S0 as (_ & _ & ->); [|done].
    apply select_cell.
  - intros Hp. pose proof (select_selected mode addr (world s) Hk) as Es. fold w0 in Es.
    assert (plain (selected w0).1 (selected w0).2 = true) as Hp' by (by rewrite Es).
    rewrite (same_word 3 w0 w0), (same_word 2 w0 w3), (same_word 1 w0 w2), (same_word 0 w0 w1) by (done || lia || by split_and!).
    rewrite word_bytes, Es. cbn [fst snd]. unfold w0. by rewrite select_cell.
Qed.

Definition upd_cell (f : Z -> Z -> Z) (mode addr v : Z) : Z -> Z -> Z :=
  fun m a => if decide ((m, a) = (mode, addr)) then v else f m a.

Lemma write_run mode addr v (s : S) :
  kind mode -> aviamem s = true ->
  runs (avia_av_write mode addr v) s (fun _ s' =>
    world_step s s' (upd_cell (cells s) mode (a22 addr) (u32 v))).
Proof.
  intros Hk Hm. unfold avia_av_write. fold (a22 addr). unfold runs.
  rewrite !mem_out_bind by done. rewrite mem_out_run by done. cbn [world set_world].
  fold (select mode (a22 addr) (world s)). set (w0 := select mode (a22 addr) (world s)).
  eexists _, _. split; [reflexivity|]. split; [done|]. intros m a Hp. cbn [world set_world].
  rewrite out_word by done. rewrite !out_latch by lia. cbn [Z.eqb Pos.eqb].
  rewrite !out_cell by lia. replace (cell w0 m a) with (cells s m a) by (symmetry; apply select_cell).
  replace (selected _) with (mode, a22 addr).
  2: { symmetry. rewrite <- (select_selected mode addr (world s) Hk). apply selected_by.
       intros j Hj. rewrite !out_latch by lia. rif. done. }
  unfold upd_cell. case_decide; [|done].
  rewrite <- word_bytes. unfold byte_of. change (8 * 0) with 0. by rewrite Z.shiftr_0_r.
Qed.
(** ** Steps of the world *)

Lemma step_refl (s : S) : world_step s s (cells s).
Proof. split; [|done]. by destruct s. Qed.

Lemma step_trans (s s' s'' : S) f g : world_step s s' f -> world_step s' s'' g -> world_step s s'' g.
Proof. intros [-> _] [-> Hg]. split; [done|]. exact Hg. Qed.

Lemma step_only (s s' s'' : S) g :
  s' = set_world (world s') s -> world_step s' s'' g -> s'' = set_world (world s'') s.
Proof. intros -> [-> _]. done. Qed.

Lemma step_ext (s s' : S) f g :
  world_step s s' f -> (forall m a, plain m a = true -> f m a = g m a) -> world_step s s' g.
Proof. intros [H1 H2] H. split; [done|]. intros. by rewrite H2, H. Qed.

Lemma step_cells (s s' : S) f m a : world_step s s' f -> plain m a = true -> cells s' m a = f m a.
Proof. intros [_ H]. apply H. Qed.

Lemma step_mapped (s s' : S) f : world_step s s' f -> aviamem s' = aviamem s.
Proof. intros [-> _]. done. Qed.

Lemma upd_kind f mode a v m b : m <> mode -> upd_cell f mode a v m b = f m b.
Proof. intros H. unfold upd_cell. rewrite decide_False; [done|]. by intros [=]. Qed.

Lemma upd_cell_ext f g mode a v :
  (forall m b, plain m b = true -> f m b = g m b) ->
  forall m b, plain m b = true -> upd_cell f mode a v m b = upd_cell g mode a v m b.
Proof. intros H m b Hp. unfold upd_cell. case_decide; auto. Qed.

(** ** Loading words *)

Fixpoint overlay (dst : Z) (data : list Z) (f : Z -> Z -> Z) : Z -> Z -> Z :=
  match data with
  | [] => f
  | v :: data => overlay (u32 (dst + 4)) data (upd_cell f TM_DRAM (a22 dst) (u32 v))
  end.

Lemma overlay_ext dst data f g :
  (forall m b, plain m b = true -> f m b = g m b) ->
  forall m b, plain m b = true -> overlay dst data f m b = overlay dst data g m b.
Proof.
  induction data as [|v data IH] in dst, f, g |- *; intros H m b Hp; [by apply H|].
  cbn [overlay]. apply IH; [|done]. by apply upd_cell_ext.
Qed.

Lemma a22_u32 x y : a22 (u32 x + y) = a22 (x + y).
Proof.
  rewrite !a22_mod. unfold u32. change (2 ^ 22) with 4194304. change (2 ^ 32) with (1024 * 4194304).
  rewrite <- (Z.add_mod_idemp_l (x mod _)), <- (Z.add_mod_idemp_l x) by lia. f_equal. f_equal.
  rewrite Z.rem_mul_r by lia. rewrite Z.mul_comm. Z.div_mod_to_equations. lia.
Qed.

Lemma overlay_other dst data f m a :
  (forall k, 0 <= k < zlen data -> a22 (dst + 4 * k) <> a) -> overlay dst data f m a = f m a.
Proof.
  induction data as [|v data IH] in dst, f |- *; intros H; [done|]. cbn [overlay]. rewrite IH.
  - unfold upd_cell. case_decide as E; [|done]. exfalso. injection E as _ ->.
    apply (H 0); [zl|]. f_equal. lia.
  - intros k Hk. rewrite a22_u32. replace (dst + 4 + 4 * k) with (dst + 4 * (k + 1)) by lia.
    apply H. zl.
Qed.

(** The words are in the chip's memory. *)
Fixpoint loaded (dst : Z) (data : list Z) (f : Z -> Z -> Z) : Prop :=
  match data with
  | [] => True
  | v :: data => u32 (f TM_DRAM (a22 dst)) = v /\ loaded (u32 (dst + 4)) data f
  end.

Lemma loaded_overlay dst data f :
  zlen data <= 2 ^ 20 -> Forall word32 data -> loaded dst data (overlay dst data f).
Proof.
  induction data as [|v data IH] in dst, f |- *; intros Hl Hw; [done|].
  apply Forall_cons_iff in Hw as [Hv Hw]. rewrite zlen_cons in Hl. cbn [loaded overlay]. split.
  - rewrite overlay_other.
    + unfold upd_cell. rewrite decide_True by done. unfold word32 in Hv. unfold u32.
      rewrite (Z.mod_small v), Z.mod_small by lia. done.
    + intros k Hk. rewrite a22_u32, !a22_mod. unfold zlen in *.
      intros E. assert ((4 * (k + 1)) mod 2 ^ 22 = 0) as E0; [|rewrite Z.mod_small in E0; lia].
      replace (4 * (k + 1)) with ((dst + 4 + 4 * k) - dst) by lia.
      rewrite Zminus_mod, E, Z.sub_diag. done.
  - apply IH; [lia|done].
Qed.

Context (plain_dram : forall a, plain TM_DRAM a = true).

Lemma loaded_ext dst data f g :
  (forall m b, plain m b = true -> f m b = g m b) -> loaded dst data f -> loaded dst data g.
Proof.
  intros H. induction data as [|v data IH] in dst |- *; [done|].
  intros [H1 H2]. split; [by rewrite <- H|by apply IH].
Qed.

Lemma word_at pre v post (s : S) : word (pre ++ v :: post) (zlen pre) s = Ok (v, s).
Proof.
  unfold word, mlift. rewrite rd_ok by (unfold zlen; rewrite length_app; cbn; lia).
  rewrite at_app_r by lia. by rewrite Z.sub_diag.
Qed.

Lemma word_runs pre v post (s : S) :
  runs (word (pre ++ v :: post) (zlen pre)) s (fun x t => x = v /\ t = s).
Proof. exists v, s. split; [apply word_at|done]. Qed.

Lemma memcpy_run dst pre data post (s : S) :
  aviamem s = true ->
  runs (avia_av_dram_memcpy32 dst (pre ++ data ++ post) (zlen pre) (length data)) s
    (fun _ s' => world_step s s' (overlay dst data (cells s))).
Proof.
  induction data as [|v data IH] in dst, pre, s |- *; intros Hm; cbn [length avia_av_dram_memcpy32 overlay].
  - apply runs_ret, step_refl.
  - eapply runs_bind; [apply (word_runs pre v)|].
    intros ? ? [-> ->]. eapply runs_bind; [by apply write_run; [left|]|].
    intros [] s' Hs. cbv beta in Hs. replace (zlen pre + 1) with (zlen (pre ++ [v])) by zl.
    replace (pre ++ (v :: data) ++ post) with ((pre ++ [v]) ++ data ++ post) by (by rewrite <- !app_assoc).
    eapply runs_weaken; [apply IH; by rewrite (step_mapped _ _ _ Hs)|].
    intros [] s'' Hs''. cbv beta in Hs''. eapply step_ext; [by eapply step_trans|].
    apply overlay_ext. intros. by eapply step_cells.
Qed.

Lemma verify_run dst pre data post errors (s : S) :
  aviamem s = true -> loaded dst data (cells s) ->
  runs (verify_dram dst (pre ++ data ++ post) (zlen pre) (length data) errors) s
    (fun e s' => e = errors /\ world_step s s' (cells s)).
Proof.
  induction data as [|v data IH] in dst, pre, s |- *; intros Hm Hl; cbn [length verify_dram].
  - apply runs_ret. split; [done|apply step_refl].
  - destruct Hl as [Hv Hl]. eapply runs_bind; [by apply read_run; [left|]|].
    intros x s' [Hs Hx]. rewrite (Hx (plain_dram _)), Hv.
    eapply runs_bind; [apply (word_runs pre v)|].
    intros ? ? [-> ->]. rewrite Z.eqb_refl.
    replace (zlen pre + 1) with (zlen (pre ++ [v])) by zl.
    replace (pre ++ (v :: data) ++ post) with ((pre ++ [v]) ++ data ++ post) by (by rewrite <- !app_assoc).
    eapply runs_weaken.
    + apply IH; [by rewrite (step_mapped _ _ _ Hs)|].
      eapply loaded_ext; [|done]. intros. symmetry. by eapply step_cells.
    + intros e s'' [-> Hs'']. split; [done|]. eapply step_ext; [by eapply step_trans|].
      intros. by eapply step_cells.
Qed.
(** What the sections leave in the chip's memory. *)
Definition loads (secs : list ux_section) (f : Z -> Z -> Z) : Z -> Z -> Z :=
  fold_left (fun f sec => overlay (ux_addr sec) (ux_data sec) f) secs f.

Lemma loads_ext secs f g :
  (forall m b, plain m b = true -> f m b = g m b) ->
  forall m b, plain m b = true -> loads secs f m b = loads secs g m b.
Proof.
  unfold loads. induction secs as [|sec secs IH] in f, g |- *; intros H m b Hp; [by apply H|].
  cbn [fold_left]. apply IH; [|done]. by apply overlay_ext.
Qed.

Lemma rd_header pre sec post i : 0 <= i < 4 ->
  rd (pre ++ ux_words sec ++ post) (zlen pre + i) = Ok (at_ (ux_words sec) i).
Proof.
  intros Hi. assert (zlen (ux_words sec) = 4 + zlen (ux_data sec)) as Hl by (unfold ux_words; zl).
  pose proof (zlen_nonneg (ux_data sec)). pose proof (zlen_nonneg pre). pose proof (zlen_nonneg post).
  rewrite rd_ok by (rewrite !zlen_app; lia).
  rewrite at_app_r by lia. rewrite at_app_l by lia. do 2 f_equal. lia.
Qed.

Lemma dram_image_run pre sec post (s : S) :
  aviamem s = true -> ux_ok sec -> zlen (pre ++ ux_words sec ++ post) <= 2 ^ 20 ->
  runs (avia_av_load_dram_image (pre ++ ux_words sec ++ post) (zlen pre)) s
    (fun e s' => e = 0 /\ world_step s s' (overlay (ux_addr sec) (ux_data sec) (cells s))).
Proof.
  intros Hm [Ha Hd] Hl. unfold avia_av_load_dram_image, UX_SECTION_LENGTH_OFFSET,
    UX_SECTION_WRITE_ADDR_OFFSET, UX_SECTION_DATA_OFFSET.
  assert (zlen (ux_words sec) = 4 + zlen (ux_data sec)) as Hw by (unfold ux_words; zl).
  rewrite !zlen_app, Hw in Hl. pose proof (zlen_nonneg pre). pose proof (zlen_nonneg post).
  pose proof (zlen_nonneg (ux_data sec)).
  replace (u32 (zlen pre + 1)) with (zlen pre + 1) by (unfold u32; rewrite Z.mod_small; lia).
  replace (u32 (zlen pre + 2)) with (zlen pre + 2) by (unfold u32; rewrite Z.mod_small; lia).
  replace (u32 (zlen pre + 4)) with (zlen pre + 4) by (unfold u32; rewrite Z.mod_small; lia).
  unfold word at 1 2. rewrite !rd_header by lia. unfold runs. rewrite !mlift_bind.
  change (at_ (ux_words sec) 1) with (le32_to_cpu (4 * zlen (ux_data sec))).
  change (at_ (ux_words sec) 2) with (le32_to_cpu (ux_addr sec)).
  rewrite !le32_to_cpu_involutive by (done || lia).
  replace (Z.to_nat (4 * zlen (ux_data sec) / 4)) with (length (ux_data sec))
    by (rewrite Z.mul_comm, Z.div_mul by lia; unfold zlen; lia).
  set (hd := [ux_kind sec; le32_to_cpu (4 * zlen (ux_data sec)); le32_to_cpu (ux_addr sec); ux_check sec]).
  replace (pre ++ ux_words sec ++ post) with ((pre ++ hd) ++ ux_data sec ++ post)
    by (unfold ux_words; fold hd; by rewrite <- !app_assoc).
  replace (zlen pre + 4) with (zlen (pre ++ hd)) by (unfold hd; zl).
  change (runs (avia_av_dram_memcpy32 (ux_addr sec) ((pre ++ hd) ++ ux_data sec ++ post) (zlen (pre ++ hd))
    (length (ux_data sec)) ;;; verify_dram (ux_addr sec) ((pre ++ hd) ++ ux_data sec ++ post) (zlen (pre ++ hd))
    (length (ux_data sec)) 0) s (fun e s' => e = 0 /\ world_step s s' (overlay (ux_addr sec) (ux_data sec) (cells s)))).
  eapply runs_bind; [by apply memcpy_run|]. intros [] s' Hs. cbv beta in Hs.
  eapply runs_weaken; [apply verify_run|].
  - by rewrite (step_mapped _ _ _ Hs).
  - apply (loaded_ext _ _ (overlay (ux_addr sec) (ux_data sec) (cells s))).
    + intros. symmetry. by eapply step_cells.
    + apply loaded_overlay; [lia|done].
  - intros e s'' [-> Hs'']. split; [done|]. eapply step_ext; [by eapply step_trans|].
    intros. by eapply step_cells.
Qed.
Lemma ux_words_len sec : zlen (ux_words sec) = 4 + zlen (ux_data sec).
Proof. unfold ux_words. zl. Qed.

Lemma sections_run pre secs rest (s : S) :
  aviamem s = true -> Forall ux_ok secs -> zlen (pre ++ concat (map ux_words secs) ++ rest) <= 2 ^ 20 ->
  runs (load_sections (length secs) (pre ++ concat (map ux_words secs) ++ rest) (zlen pre) 0) s
    (fun e s' => e = 0 /\ world_step s s' (loads secs (cells s))).
Proof.
  induction secs as [|sec secs IH] in pre, s |- *; intros Hm Hok Hl; cbn [length load_sections].
  { apply runs_ret. split; [done|apply step_refl]. }
  apply Forall_cons_iff in Hok as [Hsec Hok]. cbn [map concat] in *.
  rewrite <- (app_assoc (ux_words sec)) in *.
  set (post := concat (map ux_words secs) ++ rest) in *.
  eapply runs_bind; [by apply dram_image_run|]. intros e s1 [-> Hs1].
  pose proof (ux_words_len sec) as Hw. pose proof (zlen_nonneg (ux_data sec)).
  pose proof (zlen_nonneg pre). pose proof (zlen_nonneg post). rewrite !zlen_app, Hw in Hl.
  unfold word, UX_SECTION_LENGTH_OFFSET, UX_SECTION_HEADER_LENGTH.
  replace (u32 (zlen pre + 1)) with (zlen pre + 1) by (unfold u32; rewrite Z.mod_small; lia).
  rewrite rd_header by lia. unfold runs. rewrite mlift_bind.
  change (at_ (ux_words sec) 1) with (le32_to_cpu (4 * zlen (ux_data sec))).
  rewrite le32_to_cpu_involutive by lia.
  replace (4 * zlen (ux_data sec) / 4) with (zlen (ux_data sec)) by (rewrite Z.mul_comm, Z.div_mul; lia).
  replace (u32 (zlen pre + zlen (ux_data sec) + 4)) with (zlen (pre ++ ux_words sec))
    by (rewrite zlen_app, Hw; unfold u32; rewrite Z.mod_small; lia).
  replace (pre ++ ux_words sec ++ post) with ((pre ++ ux_words sec) ++ post) by (by rewrite <- app_assoc).
  change (u32 (0 + 0)) with 0. unfold post. eapply runs_weaken.
  - apply IH; [by rewrite (step_mapped _ _ _ Hs1)|done|].
    fold post. rewrite !zlen_app, Hw. lia.
  - intros e s2 [-> Hs2]. split; [done|]. eapply step_ext; [by eapply step_trans|].
    apply (loads_ext secs). intros. by eapply step_cells.
Qed.

(** C21: Loading a microcode file puts the data of every section at its address
    in the decoder's memory, later sections over earlier ones, reads every word
    back without an error, and changes nothing else there. *)
Theorem load_microcode_loads magic len secs rest (s : S) :
  aviamem s = true -> Forall ux_ok secs -> zlen (ux_image magic len secs rest) <= 144 * 1024 / 4 ->
  exists s', avia_av_load_microcode (ux_image magic len secs rest) s = Ok (0, s') /\
    s' = set_world (world s') s /\
    forall m a, plain m a = true -> cell (world s') m a = loads secs (cell (world s)) m a.
Proof.
  intros Hm Hok Hl. unfold avia_av_load_microcode, UX_NUM_SECTIONS, UX_FIRST_SECTION_START.
  set (hd := [magic; le32_to_cpu (zlen secs); len]).
  assert (zlen secs < 2 ^ 32) as Hn.
  { assert (zlen secs <= zlen (concat (map ux_words secs))) as Hc.
    { clear. induction secs as [|sec secs IH]; [done|]. cbn [map concat].
      rewrite zlen_app, zlen_cons, ux_words_len. pose proof (zlen_nonneg (ux_data sec)). lia. }
    unfold ux_image in Hl. rewrite !zlen_app, !zlen_cons, zlen_nil in Hl.
    change (144 * 1024 / 4) with 36864 in Hl. pose proof (zlen_nonneg rest). lia. }
  unfold word. rewrite rd_ok by (unfold ux_image; pose proof (zlen_nonneg (concat (map ux_words secs) ++ rest)); zl).
  rewrite mlift_bind. change (at_ (ux_image magic len secs rest) 1) with (le32_to_cpu (zlen secs)).
  rewrite le32_to_cpu_involutive by (pose proof (zlen_nonneg secs); lia).
  replace (Z.to_nat (zlen secs)) with (length secs) by (unfold zlen; lia).
  destruct (sections_run hd secs rest s Hm Hok) as (e & s' & E & -> & Hs').
  { change (144 * 1024 / 4) with 36864 in Hl. unfold ux_image in Hl. fold hd in Hl. lia. }
  exists s'. rewrite (mbind_Ok _ _ _ _ _ E). split; [done|]. exact Hs'.
Qed.

Lemma mbind_Fault {A C} (m : M S A) (k : A -> M S C) s : m s = Fault -> mbind_ m k s = Fault.
Proof. unfold mbind_. by intros ->. Qed.

Lemma memcpy_overrun dst m src n (s : S) :
  aviamem s = true -> 0 <= src <= zlen m -> zlen m - src < Z.of_nat n -> avia_av_dram_memcpy32 dst m src n s = Fault.
Proof.
  induction n as [|n IH] in dst, src, s |- *; intros Hm Hs Hn.
  - cbn in Hn.
    unfold zlen in *. lia.
  - cbn [avia_av_dram_memcpy32]. unfold word. unfold rd.
    destruct ((0 <=? src) && (src <? zlen m)) eqn:E; [|done].
    rewrite mlift_bind. destruct (write_run TM_DRAM dst (at_ m src) s) as (? & s' & Er & Hs'); [by left|done|].
    unfold avia_av_dram_write. rewrite (mbind_Ok _ _ _ _ _ Er).
    apply IH; [by rewrite (step_mapped _ _ _ Hs')|lia|lia].
Qed.

(** The length in a section's header is believed: when it is more than the
    file holds, the loader reads behind the file. *)
Theorem load_microcode_overruns m (s : S) :
  aviamem s = true -> 7 <= zlen m -> 0 < le32_to_cpu (at_ m 1) ->
  zlen m - 7 < le32_to_cpu (at_ m 4) / 4 ->
  avia_av_load_microcode m s = Fault.
Proof.
  intros Hm Hl Hn Hover. unfold avia_av_load_microcode, word, UX_NUM_SECTIONS. rewrite rd_ok by lia.
  rewrite mlift_bind. destruct (Z.to_nat (le32_to_cpu (at_ m 1))) as [|n] eqn:E; [lia|].
  cbn [load_sections]. unfold avia_av_load_dram_image, word.
  change (u32 (UX_FIRST_SECTION_START + UX_SECTION_LENGTH_OFFSET)) with 4.
  change (u32 (UX_FIRST_SECTION_START + UX_SECTION_WRITE_ADDR_OFFSET)) with 5.
  change (u32 (UX_FIRST_SECTION_START + UX_SECTION_DATA_OFFSET)) with 7.
  rewrite !rd_ok by lia. repeat first [rewrite mbind_bind|rewrite mlift_bind]. apply mbind_Fault, memcpy_overrun; [done|lia|lia].
Qed.
End Window.

(** ** The mailbox *)

Section Mailbox.
Context {W : Type} {B : AvBus W} {L : AvWindow W}.
Abbreviation S := (@av_state W).

Lemma write_bind {A} mode addr v (k : unit -> M S A) (s : S) Q :
  kind mode -> aviamem s = true ->
  (forall s', world_step s s' (upd_cell (cells s) mode (a22 addr) (u32 v)) -> runs (k tt) s' Q) ->
  runs (mbind_ (avia_av_write mode addr v) k) s Q.
Proof. intros Hk Hm Hr. eapply runs_bind; [by apply write_run|]. intros [] s'. apply Hr. Qed.

Lemma read_bind {A} mode addr (k : Z -> M S A) (s : S) Q :
  kind mode -> aviamem s = true ->
  (forall v s', world_step s s' (cells s) ->
     (plain mode (a22 addr) = true -> v = u32 (cells s mode (a22 addr))) -> runs (k v) s' Q) ->
  runs (mbind_ (avia_av_read mode addr) k) s Q.
Proof. intros Hk Hm Hr. eapply runs_bind; [by apply read_run|]. intros v s' [Hs Hv]. by apply Hr. Qed.

(** Reading a plain cell. *)
Lemma read_plain {A} mode addr v (k : Z -> M S A) (s : S) Q :
  kind mode -> aviamem s = true -> plain mode (a22 addr) = true -> u32 (cells s mode (a22 addr)) = v ->
  (forall s', world_step s s' (cells s) -> runs (k v) s' Q) ->
  runs (mbind_ (avia_av_read mode addr) k) s Q.
Proof.
  intros Hk Hm Hp Hv Hr. apply read_bind; [done|done|]. intros x s' Hs Hx. rewrite (Hx Hp), Hv. by apply Hr.
Qed.

Fixpoint args_at (l : list Z) (i : Z) (f : Z -> Z -> Z) : Z -> Z -> Z :=
  match l with
  | [] => f
  | v :: l => args_at l (i + 1) (upd_cell f TM_DRAM (ARGUMENT_1 + i * 4) (u32 v))
  end.

Lemma args_at_ext l i f g :
  (forall m b, plain m b = true -> f m b = g m b) ->
  forall m b, plain m b = true -> args_at l i f m b = args_at l i g m b.
Proof.
  induction l as [|v l IH] in i, f, g |- *; intros H m b Hp; [by apply H|].
  cbn [args_at]. apply IH; [|done]. by apply upd_cell_ext.
Qed.

Lemma args_at_other l i f m a :
  (m = TM_DRAM -> forall k, i <= k < i + zlen l -> ARGUMENT_1 + k * 4 <> a) -> args_at l i f m a = f m a.
Proof.
  induction l as [|v l IH] in i, f |- *; intros H; [done|]. cbn [args_at]. rewrite IH.
  - unfold upd_cell. case_decide as E; [|done]. injection E as -> ->. exfalso. apply (H eq_refl i); [zl|done].
  - intros -> k Hk. apply H; [done|zl].
Qed.

Lemma args_at_arg l i f k :
  i <= k < i + zlen l -> args_at l i f TM_DRAM (ARGUMENT_1 + k * 4) = u32 (at_ l (k - i)).
Proof.
  induction l as [|v l IH] in i, f |- *; intros Hk; [zl|]. cbn [args_at].
  destruct (decide (k = i)) as [->|Hne].
  - rewrite args_at_other by (intros; lia). unfold upd_cell. rewrite decide_True by done.
    by rewrite Z.sub_diag.
  - rewrite IH by zl. rewrite at_cons_S by lia. do 2 f_equal. lia.
Qed.

Lemma arguments_run l i (s : S) :
  aviamem s = true -> 0 <= i -> i + zlen l <= 6 ->
  runs (cmd_arguments l i) s (fun _ s' => world_step s s' (args_at l i (cells s))).
Proof.
  induction l as [|v l IH] in i, s |- *; intros Hm Hi Hl; cbn [cmd_arguments args_at].
  - apply runs_ret, step_refl.
  - rewrite zlen_cons in Hl. pose proof (zlen_nonneg l).
    apply write_bind; [by left|done|]. intros s' Hs.
    assert (a22 (ARGUMENT_1 + i * 4) = ARGUMENT_1 + i * 4) as Ea
      by (rewrite a22_mod; apply Z.mod_small; unfold ARGUMENT_1; lia).
    rewrite Ea in Hs. eapply runs_weaken.
    + apply IH; [by rewrite (step_mapped _ _ _ Hs)|lia|lia].
    + intros [] s'' Hs''. cbv beta in Hs''. eapply step_ext; [by eapply step_trans|].
      apply args_at_ext. intros. by eapply step_cells.
Qed.

(** A command is put into the decoder's mailbox with as many arguments as
    its code says, the others are cleared, and then the decoder's processor is
    interrupted; no other parameter in the decoder's memory is touched. *)
Theorem give_command_mailbox c args (s : S) :
  aviamem s = true -> cmd_args c <= zlen args -> cmd_args c <= 6 ->
  exists s', give_command c args s = Ok (tt, s') /\ s' = set_world (world s') s /\
    (plain TM_DRAM COMMAND = true -> cell (world s') TM_DRAM COMMAND = u32 c) /\
    (forall i, 0 <= i < 6 -> plain TM_DRAM (ARGUMENT_1 + i * 4) = true ->
       cell (world s') TM_DRAM (ARGUMENT_1 + i * 4) = if i <? cmd_args c then u32 (at_ args i) else 0) /\
    (forall a, plain TM_DRAM a = true -> a <> STATUS_ADDRESS -> a < COMMAND \/ ARGUMENT_1 + 5 * 4 < a ->
       cell (world s') TM_DRAM a = cell (world s) TM_DRAM a).
Proof.
  intros Hm Ha H6. assert (0 <= cmd_args c) as H0.
  { unfold cmd_args. apply Z.shiftr_nonneg, Z.land_nonneg. right. done. }
  set (n := cmd_args c) in *. set (l := take (Z.to_nat n) args).
  assert (zlen l = n) as Hn by (unfold l; zl).
  set (z := replicate (6 - Z.to_nat n) 0). assert (zlen z = 6 - n) as Hz by (unfold z; zl).
  set (f := upd_cell (args_at z n (args_at l 0 (upd_cell (cells s) TM_DRAM COMMAND (u32 c))))
              TM_DRAM STATUS_ADDRESS 0).
  assert (runs (give_command c args) s (fun _ s' => s' = set_world (world s') s /\
            forall a, plain TM_DRAM a = true -> cell (world s') TM_DRAM a = f TM_DRAM a))
    as (a & s' & E & Hs & Hf).
  { unfold give_command. fold n l z. rif.
    apply write_bind; [by left|done|]. intros s1 H1.
    eapply runs_bind; [apply arguments_run; [by rewrite (step_mapped _ _ _ H1)|lia|lia]|].
    intros [] s2 H2. cbv beta in H2.
    assert (aviamem s2 = true) as M2 by (by rewrite (step_mapped _ _ _ H2), (step_mapped _ _ _ H1)).
    eapply runs_bind; [apply (arguments_run z n); [done|lia|lia]|]. intros [] s3 H3. cbv beta in H3.
    assert (aviamem s3 = true) as M3 by (by rewrite (step_mapped _ _ _ H3)).
    apply write_bind; [by left|done|]. intros s4 H4.
    assert (aviamem s4 = true) as M4 by (by rewrite (step_mapped _ _ _ H4)).
    unfold avia_av_htd_interrupt, avia_av_gbus_read, avia_av_gbus_write.
    apply read_bind; [by right; right; left|done|]. intros v s5 H5 _.
    apply write_bind; [by right; right; left|by rewrite (step_mapped _ _ _ H5)|]. intros s6 H6'.
    assert (aviamem s6 = true) as M6 by (by rewrite (step_mapped _ _ _ H6'), (step_mapped _ _ _ H5)).
    apply read_bind; [by right; right; left|done|]. intros v' s7 H7 _.
    eapply runs_weaken; [apply write_run; [by right; right; left|by rewrite (step_mapped _ _ _ H7)]|].
    intros [] s8 H8. cbv beta in H8. split.
    - do 7 (eapply step_only; [|eassumption]). apply H1.
    - intros b Hp. fold (cells s8 TM_DRAM b). rewrite (step_cells _ _ _ _ _ H8), upd_kind by done.
      rewrite (step_cells _ _ _ _ _ H7), (step_cells _ _ _ _ _ H6'), upd_kind by done.
      rewrite (step_cells _ _ _ _ _ H5), (step_cells _ _ _ _ _ H4) by done.
      unfold f. apply upd_cell_ext; [|done]. intros m b' Hp'. rewrite (step_cells _ _ _ _ _ H3) by done.
      apply args_at_ext; [|done]. intros. rewrite (step_cells _ _ _ _ _ H2) by done.
      apply args_at_ext; [|done]. intros. by eapply step_cells. }
  destruct a. exists s'. split; [done|]. split; [done|]. split; [|split].
  - intros Hp. rewrite Hf by done. unfold f, upd_cell at 1. rewrite decide_False by done.
    rewrite !args_at_other by (intros _ k Hk; unfold ARGUMENT_1, COMMAND; lia). unfold upd_cell.
    by rewrite decide_True.
  - intros i Hi Hp. rewrite Hf by done. unfold f, upd_cell at 1.
    rewrite decide_False by (unfold ARGUMENT_1, STATUS_ADDRESS; intros [=]; lia).
    destruct (i <? n) eqn:Ei.
    + rewrite args_at_other by (intros; lia). rewrite args_at_arg by lia. rewrite Z.sub_0_r.
      unfold l. by rewrite at_take by lia.
    + rewrite args_at_arg by lia. unfold z, at_. rewrite nth_lookup, lookup_replicate_2 by lia. done.
  - intros b Hp Hb1 Hb2. rewrite Hf by done. unfold f, upd_cell at 1. rewrite decide_False by congruence.
    unfold ARGUMENT_1, COMMAND in *. rewrite !args_at_other by (intros _ k Hk; unfold ARGUMENT_1; lia).
    unfold upd_cell. rewrite decide_False; [done|]. unfold COMMAND. intros [=]. lia.
Qed.
End Mailbox.

(** ** The clock *)

(** The code of a time stamp in a PES header: the mark 0010, then 3, 15 and 15
    bits with a marker bit behind each. *)
Definition pts_field (pts : Z) : Z :=
  (((((2 * 8 + pts / 2 ^ 30) * 2 + 1) * 2 ^ 15 + pts / 2 ^ 15 mod 2 ^ 15) * 2 + 1) * 2 ^ 15
    + pts mod 2 ^ 15) * 2 + 1.

Lemma land_field a b n k : 0 <= n -> 0 <= k -> 0 <= b < 2 ^ n ->
  Z.land (a * 2 ^ n + b) (Z.shiftl (Z.ones k) n) = (a mod 2 ^ k) * 2 ^ n.
Proof.
  intros Hn Hk Hb. rewrite <- lor_shiftl_add by done. rewrite Z.land_lor_distr_l, <- Z.shiftl_land.
  rewrite Z.land_ones, <- Z.shiftl_mul_pow2 by done.
  replace (Z.land b _) with 0; [apply Z.lor_0_r|].
  symmetry. apply Z.bits_inj'. intros i Hi. rewrite Z.land_spec, Z.bits_0.
  destruct (Z.ltb_spec i n); [rewrite Z.shiftl_spec_low by lia; apply andb_false_r|].
  by rewrite (bits_small b n).
Qed.

Lemma lor_next a b n k : 0 <= n -> 0 <= k -> 0 <= b < 2 ^ k ->
  Z.lor (a * 2 ^ (k + n)) (b * 2 ^ n) = (a * 2 ^ k + b) * 2 ^ n.
Proof.
  intros Hn Hk Hb. rewrite <- !(Z.shiftl_mul_pow2 _ n), <- lor_shiftl_add, Z.shiftl_lor, Z.shiftl_shiftl by lia.
  by rewrite (Z.shiftl_mul_pow2 a (k + n)) by lia.
Qed.

Lemma lor_last a b n : 0 <= n -> 0 <= b < 2 ^ n -> Z.lor (a * 2 ^ n) b = a * 2 ^ n + b.
Proof. intros. rewrite <- Z.shiftl_mul_pow2 by done. by rewrite lor_shiftl_add, Z.shiftl_mul_pow2 by done. Qed.

Lemma lor_marker a : Z.lor (a * 2 ^ 1) 1 = a * 2 + 1.
Proof. rewrite lor_last by done. lia. Qed.

(** The fields of a clock value, from its highest bits. *)
Lemma clock_split hi : 0 <= hi < 2 ^ 32 ->
  exists x y z t, hi = ((x * 2 ^ 13 + y) * 2 ^ 2 + z) * 2 ^ 14 + t /\
    0 <= x < 2 ^ 3 /\ 0 <= y < 2 ^ 13 /\ 0 <= z < 2 ^ 2 /\ 0 <= t < 2 ^ 14.
Proof.
  intros H. exists (hi / 2 ^ 29), (hi / 2 ^ 16 mod 2 ^ 13), (hi / 2 ^ 14 mod 2 ^ 2), (hi mod 2 ^ 14).
  cbn [Z.pow Z.pow_pos Pos.iter Z.mul Pos.mul] in *. Z.div_mod_to_equations; lia.
Qed.

Lemma timer_high_value x y z t :
  0 <= x < 2 ^ 3 -> 0 <= y < 2 ^ 13 -> 0 <= z < 2 ^ 2 -> 0 <= t < 2 ^ 14 ->
  timer_high (((x * 2 ^ 13 + y) * 2 ^ 2 + z) * 2 ^ 14 + t) =
    ((((2 ^ 4 + x) * 2 + 1) * 2 ^ 13 + y) * 2 ^ 2 + z) * 2 + 1.
Proof.
  intros Hx Hy Hz Ht. unfold timer_high.
  set (hi := ((x * 2 ^ 13 + y) * 2 ^ 2 + z) * 2 ^ 14 + t).
  replace (Z.land (Z.shiftr hi 16) 0xffff) with (x * 2 ^ 13 + y).
  2: { rewrite shiftr_div by lia. change 0xffff with (Z.ones 16). rewrite Z.land_ones by lia.
       unfold hi. cbn [Z.pow Z.pow_pos Pos.iter Z.mul Pos.mul] in *. Z.div_mod_to_equations; lia. }
  replace (Z.land hi 0xffff) with (z * 2 ^ 14 + t).
  2: { change 0xffff with (Z.ones 16). rewrite Z.land_ones by lia.
       unfold hi. cbn [Z.pow Z.pow_pos Pos.iter Z.mul Pos.mul] in *. Z.div_mod_to_equations; lia. }
  change 0xe000 with (Z.shiftl (Z.ones 3) 13). change 0x1fff with (Z.ones 13).
  change 0xc000 with (Z.shiftl (Z.ones 2) 14).
  rewrite !land_field by lia. rewrite Z.land_ones by lia. rewrite !(Z.mod_small x), (Z.mod_small z) by lia.
  replace ((x * 2 ^ 13 + y) mod 2 ^ 13) with y by (rewrite Z.add_comm, Z.mod_add, Z.mod_small; lia).
  replace (Z.shiftr (z * 2 ^ 14) 13) with (z * 2 ^ 1)
    by (rewrite shiftr_div by lia; replace (z * 2 ^ 14) with (z * 2 * 2 ^ 13) by lia; rewrite Z.div_mul; lia).
  rewrite !Z.shiftl_mul_pow2 by lia. replace (x * 2 ^ 13 * 2 ^ 4) with (x * 2 ^ 17) by lia.
  change (1 * 2 ^ 21) with (1 * 2 ^ (4 + 17)). rewrite lor_next by lia.
  change (2 ^ 17) with (2 ^ (1 + 16)). rewrite lor_next by lia.
  change (2 ^ 16) with (2 ^ (13 + 3)). rewrite lor_next by lia.
  change (2 ^ 3) with (2 ^ (2 + 1)). rewrite lor_next by lia.
  apply lor_marker.
Qed.

Lemma timer_low_value x y z t b :
  0 <= x < 2 ^ 3 -> 0 <= y < 2 ^ 13 -> 0 <= z < 2 ^ 2 -> 0 <= t < 2 ^ 14 -> 0 <= b < 2 ->
  timer_low (((x * 2 ^ 13 + y) * 2 ^ 2 + z) * 2 ^ 14 + t) (Z.shiftl b 15) = (t * 2 + b) * 2 + 1.
Proof.
  intros Hx Hy Hz Ht Hb. unfold timer_low.
  set (hi := ((x * 2 ^ 13 + y) * 2 ^ 2 + z) * 2 ^ 14 + t).
  replace (Z.land (Z.land hi 0xffff) 0x03fff) with t.
  2: { change 0xffff with (Z.ones 16). change 0x3fff with (Z.ones 14). rewrite !Z.land_ones by lia.
       unfold hi. cbn [Z.pow Z.pow_pos Pos.iter Z.mul Pos.mul] in *. Z.div_mod_to_equations; lia. }
  replace (Z.shiftr (Z.land (Z.shiftl b 15) 0x8000) 14) with (b * 2 ^ 1)
    by (assert (b = 0 \/ b = 1) as [-> | ->] by lia; done).
  rewrite Z.shiftl_mul_pow2 by lia. change (2 ^ 2) with (2 ^ (1 + 1)). rewrite lor_next by lia.
  apply lor_marker.
Qed.

(** The two timer words together are the code of the clock's 33 bits. *)
Lemma timer_words hi b : 0 <= hi < 2 ^ 32 -> 0 <= b < 2 ->
  timer_high hi * 2 ^ 16 + timer_low hi (Z.shiftl b 15) = pts_field (2 * hi + b).
Proof.
  intros Hh Hb. destruct (clock_split hi Hh) as (x & y & z & t & -> & Hx & Hy & Hz & Ht).
  rewrite timer_high_value, timer_low_value by done. unfold pts_field.
  replace (2 * (((x * 2 ^ 13 + y) * 2 ^ 2 + z) * 2 ^ 14 + t) + b)
    with ((x * 2 ^ 15 + (y * 4 + z)) * 2 ^ 15 + (t * 2 + b)) by lia.
  set (m := y * 4 + z). set (l := t * 2 + b).
  assert (0 <= m < 2 ^ 15) by lia. assert (0 <= l < 2 ^ 15) by lia.
  replace (((x * 2 ^ 15 + m) * 2 ^ 15 + l) / 2 ^ 30) with x
    by (cbn [Z.pow Z.pow_pos Pos.iter Z.mul Pos.mul] in *; Z.div_mod_to_equations; lia).
  replace (((x * 2 ^ 15 + m) * 2 ^ 15 + l) / 2 ^ 15 mod 2 ^ 15) with m
    by (cbn [Z.pow Z.pow_pos Pos.iter Z.mul Pos.mul] in *; Z.div_mod_to_equations; lia).
  replace (((x * 2 ^ 15 + m) * 2 ^ 15 + l) mod 2 ^ 15) with l
    by (cbn [Z.pow Z.pow_pos Pos.iter Z.mul Pos.mul] in *; Z.div_mod_to_equations; lia).
  unfold m, l. lia.
Qed.

Lemma timer_range hi b : 0 <= hi < 2 ^ 32 -> 0 <= b < 2 ->
  0 <= timer_high hi < 2 ^ 32 /\ 0 <= timer_low hi (Z.shiftl b 15) < 2 ^ 32.
Proof.
  intros Hh Hb. destruct (clock_split hi Hh) as (x & y & z & t & -> & Hx & Hy & Hz & Ht).
  rewrite timer_high_value, timer_low_value by done. lia.
Qed.

Lemma pts_of_fields v :
  pts_of v = (v / 2 ^ 33 mod 8 * 2 ^ 15 + v / 2 ^ 17 mod 2 ^ 15) * 2 ^ 15 + v / 2 mod 2 ^ 15.
Proof.
  unfold pts_of. change 7 with (Z.ones 3). change 0x7fff with (Z.ones 15).
  rewrite !Z.land_ones, !shiftr_div by lia. change (2 ^ 3) with 8. change (2 ^ 1) with 2.
  rewrite !Z.shiftl_mul_pow2 by lia. change (2 ^ 30) with (2 ^ (15 + 15)).
  rewrite lor_next by (try apply Z.mod_pos_bound; lia).
  by rewrite lor_last by (try apply Z.mod_pos_bound; lia).
Qed.

Lemma pts_of_range v : 0 <= pts_of v < 2 ^ 33.
Proof.
  rewrite pts_of_fields. pose proof (Z.mod_pos_bound (v / 2 ^ 33) 8).
  pose proof (Z.mod_pos_bound (v / 2 ^ 17) (2 ^ 15)). pose proof (Z.mod_pos_bound (v / 2) (2 ^ 15)). lia.
Qed.

Lemma pts_of_field pts : 0 <= pts < 2 ^ 33 -> pts_of (pts_field pts) = pts.
Proof.
  intros H. rewrite pts_of_fields. unfold pts_field.
  assert (exists a b c, pts = (a * 2 ^ 15 + b) * 2 ^ 15 + c /\ 0 <= a < 8 /\ 0 <= b < 2 ^ 15 /\ 0 <= c < 2 ^ 15)
    as (a & b & c & -> & Ha & Hb & Hc).
  { exists (pts / 2 ^ 30), (pts / 2 ^ 15 mod 2 ^ 15), (pts mod 2 ^ 15).
    cbn [Z.pow Z.pow_pos Pos.iter Z.mul Pos.mul] in *. Z.div_mod_to_equations; lia. }
  replace (((a * 2 ^ 15 + b) * 2 ^ 15 + c) / 2 ^ 30) with a
    by (cbn [Z.pow Z.pow_pos Pos.iter Z.mul Pos.mul] in *; Z.div_mod_to_equations; lia).
  replace (((a * 2 ^ 15 + b) * 2 ^ 15 + c) / 2 ^ 15 mod 2 ^ 15) with b
    by (cbn [Z.pow Z.pow_pos Pos.iter Z.mul Pos.mul] in *; Z.div_mod_to_equations; lia).
  replace (((a * 2 ^ 15 + b) * 2 ^ 15 + c) mod 2 ^ 15) with c
    by (cbn [Z.pow Z.pow_pos Pos.iter Z.mul Pos.mul] in *; Z.div_mod_to_equations; lia).
  cbn [Z.pow Z.pow_pos Pos.iter Z.mul Pos.mul] in *. Z.div_mod_to_equations; lia.
Qed.

Section Clock.
Context {W : Type} {B : AvBus W} {L : AvWindow W}.
Abbreviation S := (@av_state W).

Lemma mlift_slice l off n x {A} (k : list Z -> M S A) (s : S) :
  slice l off n = Ok x -> mbind_ (mlift (slice l off n)) k s = k x s.
Proof. intros ->. done. Qed.

Lemma sync_mode_run mode (s : S) :
  aviamem s = true -> mode = AVIA_AV_SYNC_MODE_NONE \/ mode = AVIA_AV_SYNC_MODE_VIDEO ->
  runs (avia_av_sync_mode_set mode) s (fun r s' => r = 0 /\
    s' = set_sync_mode mode (set_world (world s') s) /\
    forall m a, plain m a = true -> cells s' m a =
      if stopped s then cells s m a else upd_cell (cells s) TM_DRAM AV_SYNC_MODE mode m a).
Proof.
  intros Hm Hv. unfold avia_av_sync_mode_set.
  replace (negb _ && _ && _ && _) with false by (by destruct Hv as [-> | ->]).
  unfold runs. rewrite mget_bind. destruct (stopped s) eqn:Es.
  - rewrite mret_bind. unfold amod. rewrite mmodify_bind. eexists _, _. split; [reflexivity|].
    split; [done|]. split; [by destruct s|done].
  - destruct (write_run TM_DRAM AV_SYNC_MODE mode s) as ([] & s' & E & Hs & Hc); [by left|done|].
    unfold avia_av_dram_write. rewrite (mbind_Ok _ _ _ _ _ E). unfold amod. rewrite mmodify_bind.
    eexists _, _. split; [reflexivity|]. split; [done|]. split; [by rewrite Hs|].
    intros m a Hp. change (cells (set_sync_mode mode s') m a) with (cell (world s') m a).
    rewrite Hc by done. unfold upd_cell. change (a22 AV_SYNC_MODE) with AV_SYNC_MODE.
    by replace (u32 mode) with mode by (by destruct Hv as [-> | ->]).
Qed.

(** C33: An audio PES header with a time stamp sets the clock of the decoder to
    it: the two words of the clock are the very code of the time stamp, all 33
    bits of it, and from then on video follows the clock. *)
Theorem audio_clock_from_pes pes id (s : S) :
  aviamem s = true -> plain TM_GBUS 2 = true -> plain TM_GBUS 3 = true ->
  14 <= zlen pes -> take 3 pes = [0; 0; 1] -> at_ pes 3 = id ->
  Z.land id 0xe0 = 0xc0 \/ id = 0xbd -> Z.testbit (at_ pes 7) 7 = true ->
  let pts := pts_of (be_value (take 5 (drop 9 pes))) in
  exists s', avia_av_audio_pts_to_stc pes s = Ok (0, s') /\ sync_mode s' = AVIA_AV_SYNC_MODE_VIDEO /\
    cell (world s') TM_GBUS 2 * 2 ^ 16 + cell (world s') TM_GBUS 3 = pts_field pts /\
    pts_of (cell (world s') TM_GBUS 2 * 2 ^ 16 + cell (world s') TM_GBUS 3) = pts /\
    (stopped s = false -> plain TM_DRAM AV_SYNC_MODE = true ->
     cell (world s') TM_DRAM AV_SYNC_MODE = AVIA_AV_SYNC_MODE_VIDEO).
Proof.
  intros Hm P2 P3 Hl Hpre Hid Hsid Hflag pts.
  pose proof (pts_of_range (be_value (take 5 (drop 9 pes)))) as Hr. fold pts in Hr.
  unfold avia_av_audio_pts_to_stc.
  rewrite (mlift_slice pes 0 3 [0; 0; 1]) by (rewrite slice_ok by lia; rewrite drop_0; by rewrite <- Hpre).
  change (negb (be_value [0; 0; 1] =? 1)) with false. cbv iota. unfold word.
  rewrite rd_ok by lia. rewrite mlift_bind, Hid.
  replace (negb _ && _) with false by (destruct Hsid as [-> | ->]; [done|by rewrite andb_comm]).
  rewrite rd_ok by lia. rewrite mlift_bind.
  replace (Z.land (Z.shiftr (at_ pes 7) 7) 1) with 1.
  2: { change 1 with (Z.ones 1) at 2. rewrite Z.land_ones, shiftr_div by lia.
       rewrite Z.testbit_true in Hflag by lia. done. }
  change (negb (1 =? 1)) with false. cbv iota.
  rewrite (mlift_slice pes 9 5 (take 5 (drop 9 pes))) by (by rewrite slice_ok by lia). fold pts. cbv zeta.
  destruct (sync_mode_run AVIA_AV_SYNC_MODE_NONE s Hm (or_introl eq_refl)) as (r1 & s1 & E1 & -> & H1 & C1).
  rewrite (mbind_Ok _ _ _ _ _ E1).
  assert (aviamem s1 = true) as M1 by (by rewrite H1).
  assert (sync_mode s1 = AVIA_AV_SYNC_MODE_NONE) as N1 by (by rewrite H1).
  set (hi := pts / 2). set (b := pts mod 2).
  replace (u32 (Z.shiftr pts 1)) with hi
    by (rewrite shiftr_div by lia; unfold u32, hi; rewrite Z.mod_small; [done|];
        change (2 ^ 1) with 2; Z.div_mod_to_equations; lia).
  replace (Z.land pts 1) with b by (change 1 with (Z.ones 1); by rewrite Z.land_ones by lia).
  assert (0 <= hi < 2 ^ 32) as Hhi by (unfold hi; Z.div_mod_to_equations; lia).
  assert (0 <= b < 2) as Hb by (apply Z.mod_pos_bound; lia).
  pose proof (timer_words hi b Hhi Hb) as Ht.
  replace (2 * hi + b) with pts in Ht by (unfold hi, b; Z.div_mod_to_equations; lia).
  destruct (timer_range hi b Hhi Hb) as [Rh Rl].
  unfold avia_av_set_stc, avia_av_gbus_write. rewrite !mbind_bind.
  destruct (write_run TM_GBUS 2 (timer_high hi) s1) as ([] & s2 & E2 & H2); [by right; right; left|done|].
  rewrite (mbind_Ok _ _ _ _ _ E2). assert (aviamem s2 = true) as M2 by (by rewrite (step_mapped _ _ _ H2)).
  rewrite mbind_bind.
  destruct (write_run TM_GBUS 3 (timer_low hi (Z.shiftl b 15)) s2) as ([] & s3 & E3 & H3); [by right; right; left|done|].
  rewrite (mbind_Ok _ _ _ _ _ E3). assert (aviamem s3 = true) as M3 by (by rewrite (step_mapped _ _ _ H3)).
  rewrite mbind_bind, mget_bind. replace (sync_mode s3) with AVIA_AV_SYNC_MODE_NONE
    by (rewrite (proj1 H3), (proj1 H2); done).
  change (AVIA_AV_SYNC_MODE_NONE =? AVIA_AV_SYNC_MODE_NONE) with true. cbv iota. rewrite mret_bind.
  destruct (sync_mode_run AVIA_AV_SYNC_MODE_VIDEO s3 M3 (or_intror eq_refl)) as (r4 & s4 & E4 & -> & H4 & C4).
  rewrite (mbind_Ok _ _ _ _ _ E4). exists s4. split; [done|].
  assert (sync_mode s4 = AVIA_AV_SYNC_MODE_VIDEO) as N4 by (by rewrite H4). split; [done|].
  assert (forall a, plain TM_GBUS a = true -> cell (world s4) TM_GBUS a = cells s3 TM_GBUS a) as K4.
  { intros a Hp. fold (cells s4 TM_GBUS a). rewrite C4 by done. case_match; [done|]. by apply upd_kind. }
  assert (cell (world s4) TM_GBUS 2 = timer_high hi /\ cell (world s4) TM_GBUS 3 = timer_low hi (Z.shiftl b 15)) as [-> ->].
  { rewrite !K4, !(step_cells _ _ _ _ _ H3) by done. unfold upd_cell.
    rewrite decide_False, decide_True by done. rewrite (step_cells _ _ _ _ _ H2) by done. unfold upd_cell.
    rewrite decide_True by done. unfold u32. by rewrite !Z.mod_small. }
  rewrite Ht. split; [done|]. split; [by apply pts_of_field|].
  intros Hst Hp. fold (cells s4 TM_DRAM AV_SYNC_MODE). rewrite C4 by done.
  replace (stopped s3) with (stopped s) by (rewrite (proj1 H3), (proj1 H2), H1; done). rewrite Hst.
  unfold upd_cell. by rewrite decide_True.
Qed.
End Clock.

(** ** A chip

    All of its words are plain; it has a clock and a file of microcode. *)

Record avchip := mk_avchip {
  ch_latch : Z -> Z;
  ch_cells : Z -> Z -> Z;
  ch_time : Z;
  ch_file : option (Z * list Z);
}.
Definition ch_selected (w : avchip) : Z * Z :=
  (Z.land (ch_latch w 6) 0xC0,
   Z.lor (Z.lor (Z.shiftl (Z.land (ch_latch w 6) 0x3F) 16) (Z.shiftl (ch_latch w 5) 8)) (ch_latch w 4)).
Definition ch_out (i v : Z) (w : avchip) : avchip :=
  mk_avchip (fun j => if j =? i then v else ch_latch w j)
    (fun m a => if i =? 0
       then if decide ((m, a) = ch_selected w)
            then Z.lor (Z.lor (Z.lor (Z.shiftl (ch_latch w 3) 24) (Z.shiftl (ch_latch w 2) 16))
                   (Z.shiftl (ch_latch w 1) 8)) v
            else ch_cells w m a
       else ch_cells w m a)
    (ch_time w) (ch_file w).
Definition ch_pass (n : Z) (w : avchip) : avchip :=
  mk_avchip (ch_latch w) (ch_cells w) (ch_time w + n) (ch_file w).

#[export] Instance avchip_bus : AvBus avchip := {
  av_in i w := (byte_of (ch_cells w (ch_selected w).1 (ch_selected w).2) i, w);
  av_out := ch_out;
  av_jiffies := ch_time;
  av_schedule n w := ch_pass (Z.max 1 n) w;
  av_mdelay n w := ch_pass (n / 10) w;
  av_udelay _ w := w;
  av_cmd_sleep n w := (0, ch_pass n w);
  av_fp_reset _ w := w;
  av_siumcr w := w;
  av_ioremap w := (true, w);
  av_request_irq w := (true, w);
  av_free_irq w := w;
  av_alloc w := (true, w);
  av_kernel_thread w := (7, w);
  av_open _ w := ch_file w;
  av_call_handler _ _ _ _ w := w;
  av_write_message _ w := w;
}.

#[export] Instance avchip_window : AvWindow avchip.
Proof.
  refine {| latch := ch_latch; cell := ch_cells; plain _ _ := true |}; try done.
  intros i v w m a Hi. cbn. by replace (i =? 0) with false by lia.
Defined.

Definition chip_zero (file : option (Z * list Z)) : avchip := mk_avchip (fun _ => 0) (fun _ _ => 0) 0 file.
Definition chip_state (w : avchip) : av_state :=
  mk_av_state true 0 0 true 7 0 false 0xFFFF 0xFFFF 3 3 44100 1 1 6 0 0 0 0 0 0 false 2 "/lib"%string 0 None false w.

Definition two_sections : list ux_section := [mk_ux 0 0x1000 0 [1; 2; 3]; mk_ux 0 0x1004 0 [0xffffffff]].

Lemma load_microcode_loads_witness :
  exists s', avia_av_load_microcode (ux_image 0 0 two_sections [9]) (chip_state (chip_zero None)) = Ok (0, s') /\
    map (cell (world s') TM_DRAM) [0x1000; 0x1004; 0x1008; 0x100c] = [1; 0xffffffff; 3; 0].
Proof.
  destruct (load_microcode_loads (W := avchip) (L := avchip_window) (fun _ => eq_refl) 0 0 two_sections [9]
              (chip_state (chip_zero None))) as (s' & E & _ & H).
  - reflexivity.
  - unfold two_sections, ux_ok, word32. repeat constructor; cbn; lia.
  - vm_compute. discriminate.
  - exists s'. split; [exact E|]. cbn [map]. rewrite !H by reflexivity. vm_compute. reflexivity.
Defined.

Lemma load_microcode_overruns_witness :
  avia_av_load_microcode [0; le32_to_cpu 1; 0; 0; le32_to_cpu 400; 0; 0; 5] (chip_state (chip_zero None)) = Fault.
Proof.
  apply (load_microcode_overruns (W := avchip)); vm_compute; reflexivity || discriminate || idtac.
Defined.

Lemma give_command_mailbox_witness :
  exists s', give_command SelectStream [3; 0x1ffe] (chip_state (chip_zero None)) = Ok (tt, s') /\
    cell (world s') TM_DRAM (ARGUMENT_1 + 1 * 4) = 0x1ffe.
Proof.
  destruct (give_command_mailbox (W := avchip) SelectStream [3; 0x1ffe] (chip_state (chip_zero None)))
    as (s' & E & _ & _ & H & _).
  - reflexivity.
  - vm_compute. discriminate.
  - vm_compute. discriminate.
  - exists s'. split; [exact E|]. rewrite H; [reflexivity|lia|reflexivity].
Defined.

Lemma audio_clock_from_pes_witness :
  exists s', avia_av_audio_pts_to_stc [0; 0; 1; 0xc0; 0; 8; 0x80; 0x80; 5; 0x2b; 0x12; 0x35; 0xab; 0xcd]
      (chip_state (chip_zero None)) = Ok (0, s') /\
    pts_of (cell (world s') TM_GBUS 2 * 2 ^ 16 + cell (world s') TM_GBUS 3)
      = pts_of (be_value [0x2b; 0x12; 0x35; 0xab; 0xcd]).
Proof.
  destruct (audio_clock_from_pes (W := avchip)
    [0; 0; 1; 0xc0; 0; 8; 0x80; 0x80; 5; 0x2b; 0x12; 0x35; 0xab; 0xcd] 0xc0 (chip_state (chip_zero None)))
    as (s' & E & _ & _ & H & _); try reflexivity.
  - left. reflexivity.
  - exists s'. split; [exact E|exact H].
Defined.
