(* ===== verification/AvCoreState.v ===== *)
(** * The state of the decoder's driver

    What every call of avia_av_core.c keeps true of the driver's own state,
    whatever the chip answers: the variables stay in their ranges, and the play
    states change only as they are told to, or to stopped when the chip is
    restarted.  Then a chip that does not answer. *)

From Stdlib Require Import String.
From S2P Require Import Prelude AvCore AvCoreSpec.
Open Scope Z_scope.

(** ** Properties that starting the chip does not touch

    [av_closed I]: whatever start, restart, commands and interrupts assign keeps
    [I].  All they do to the play states and modes is the reset at the end of
    [avia_av_init]. *)

Definition play_reset {W} (s : @av_state W) : av_state :=
  set_sync_mode AVIA_AV_SYNC_MODE_AV
    (set_stream_type_video AVIA_AV_STREAM_TYPE_SPTS (set_stream_type_audio AVIA_AV_STREAM_TYPE_SPTS
    (set_play_state_video AVIA_AV_PLAY_STATE_STOPPED (set_play_state_audio AVIA_AV_PLAY_STATE_STOPPED s)))).

Definition a_rate (r : Z) : Prop := r = 32000 \/ r = 44100 \/ r = 48000.

Record av_closed {W} (I : @av_state W -> Prop) : Prop := {
  cl_world w s : I s -> I (set_world w s);
  cl_aviamem b s : I s -> I (set_aviamem b s);
  cl_aviarev v s : 0 <= v <= 3 -> I s -> I (set_aviarev v s);
  cl_silirev v s : I s -> I (set_silirev v s);
  cl_irq b s : I s -> I (set_irq_held b s);
  cl_thread z s : I s -> I (set_kernel_thread_pid z s);
  cl_delay z s : I s -> I (set_event_delay z s);
  cl_reg r s : I s -> I (set_event_reg r s);
  cl_timer b s : I s -> I (set_event_timer b s);
  cl_rate r s : a_rate r -> I s -> I (set_sample_rate r s);
  cl_size w h r s : 0 <= w < 2 ^ 16 -> 0 <= h < 2 ^ 16 -> 0 <= r < 2 ^ 16 -> I s ->
    I (set_video_aspect_ratio r (set_video_height h (set_video_width w s)));
  cl_reset s : I s -> I (play_reset s);
}.

Section Keeps.
Context {W : Type} {B : AvBus W}.
Abbreviation S := (@av_state W).
Context (I : S -> Prop) (C : av_closed I).

Lemma keeps_amod (f : S -> S) : (forall s, I s -> I (f s)) -> keeps I (amod f).
Proof. apply keeps_modify. Qed.
Lemma keeps_to_world f : keeps I (to_world (W := W) f).
Proof. apply keeps_modify. intros. by apply (cl_world _ C). Qed.
Lemma keeps_on_world {A} (f : W -> A * W) : keeps I (on_world f).
Proof. intros s H a s' E. injection E as _ <-. by apply (cl_world _ C). Qed.
Lemma keeps_jiffies : keeps I jiffies.
Proof. apply keeps_gets. Qed.
#[local] Hint Resolve keeps_to_world keeps_on_world keeps_jiffies : keeps.

Lemma keeps_mem_in i : keeps I (mem_in i).
Proof. unfold mem_in. keeps_run. Qed.
Lemma keeps_mem_out i v : keeps I (mem_out i v).
Proof. unfold mem_out. keeps_run. Qed.
#[local] Hint Resolve keeps_mem_in keeps_mem_out : keeps.
Lemma keeps_read m a : keeps I (avia_av_read m a).
Proof. unfold avia_av_read. keeps_run. Qed.
Lemma keeps_write m a v : keeps I (avia_av_write m a v).
Proof. unfold avia_av_write. keeps_run. Qed.
#[local] Hint Resolve keeps_read keeps_write : keeps.
Lemma keeps_dram_read a : keeps I (avia_av_dram_read a).
Proof. apply keeps_read. Qed.
Lemma keeps_dram_write a v : keeps I (avia_av_dram_write a v).
Proof. apply keeps_write. Qed.
Lemma keeps_gbus_read a : keeps I (avia_av_gbus_read a).
Proof. apply keeps_read. Qed.
Lemma keeps_gbus_write a v : keeps I (avia_av_gbus_write a v).
Proof. apply keeps_write. Qed.
#[local] Hint Resolve keeps_dram_read keeps_dram_write keeps_gbus_read keeps_gbus_write : keeps.
Lemma keeps_word m i : keeps I (word m i).
Proof. apply keeps_lift. Qed.
Lemma keeps_imem_write a v : keeps I (avia_av_imem_write a v).
Proof. unfold avia_av_imem_write. keeps_run. Qed.
#[local] Hint Resolve keeps_word keeps_imem_write : keeps.

(** Loading. *)
Lemma keeps_gbus_writes n m p : keeps I (gbus_writes n m p).
Proof. revert p. induction n; cbn [gbus_writes]; keeps_run. Qed.
#[local] Hint Resolve keeps_gbus_writes : keeps.
Lemma keeps_gbus_initial m : keeps I (avia_av_gbus_initial m).
Proof. unfold avia_av_gbus_initial. keeps_run. Qed.
Lemma keeps_gbus_final m : keeps I (avia_av_gbus_final m).
Proof. unfold avia_av_gbus_final. keeps_run. Qed.
Lemma keeps_memcpy32 dst m src n : keeps I (avia_av_dram_memcpy32 dst m src n).
Proof. revert dst src. induction n; cbn [avia_av_dram_memcpy32]; keeps_run. Qed.
Lemma keeps_verify dst m src n e : keeps I (verify_dram dst m src n e).
Proof. revert dst src e. induction n; cbn [verify_dram]; keeps_run. Qed.
#[local] Hint Resolve keeps_memcpy32 keeps_verify : keeps.
Lemma keeps_load_dram_image m a : keeps I (avia_av_load_dram_image m a).
Proof. unfold avia_av_load_dram_image. keeps_run. Qed.
#[local] Hint Resolve keeps_load_dram_image : keeps.
Lemma keeps_load_sections n m a e : keeps I (load_sections n m a e).
Proof. revert a e. induction n; cbn [load_sections]; keeps_run. Qed.
#[local] Hint Resolve keeps_load_sections : keeps.
Lemma keeps_load_microcode m : keeps I (avia_av_load_microcode m).
Proof. unfold avia_av_load_microcode. keeps_run. Qed.
Lemma keeps_imem_writes l i : keeps I (imem_writes l i).
Proof. revert i. induction l; cbn [imem_writes]; keeps_run. Qed.
Lemma keeps_imem_verify l e : keeps I (imem_verify l e).
Proof. revert e. induction l; cbn [imem_verify]; keeps_run. Qed.
#[local] Hint Resolve keeps_imem_writes keeps_imem_verify : keeps.
Lemma keeps_load_imem m a : keeps I (avia_av_load_imem_image m a).
Proof. unfold avia_av_load_imem_image. keeps_run. Qed.
Lemma keeps_firmware_read : keeps I avia_av_firmware_read.
Proof. unfold avia_av_firmware_read, firmware_name. keeps_run. Qed.
#[local] Hint Resolve keeps_gbus_initial keeps_gbus_final keeps_load_microcode keeps_load_imem
  keeps_firmware_read : keeps.

(** Waiting and interrupts. *)
Lemma keeps_wait_loop n reg v ms b : keeps I (wait_loop n reg v ms b).
Proof. induction n; cbn [wait_loop]; keeps_run. Qed.
Lemma keeps_wait reg v ms b : keeps I (avia_av_wait reg v ms b).
Proof. apply keeps_wait_loop. Qed.
Lemma keeps_htd : keeps I avia_av_htd_interrupt.
Proof. unfold avia_av_htd_interrupt. keeps_run. Qed.
#[local] Hint Resolve keeps_wait keeps_htd : keeps.
Lemma keeps_new_audio_config b : keeps I (avia_av_new_audio_config b).
Proof. unfold avia_av_new_audio_config. keeps_run. Qed.
#[local] Hint Resolve keeps_new_audio_config : keeps.

Lemma land_16 v : 0 <= Z.land v 0xffff < 2 ^ 16.
Proof. change 0xffff with (Z.ones 16). rewrite Z.land_ones by lia. apply Z.mod_pos_bound. lia. Qed.

Lemma keeps_video_changed : keeps I video_changed.
Proof.
  unfold video_changed. keeps_run. apply (cl_size _ C); auto using land_16.
Qed.
Lemma keeps_audio_changed : keeps I audio_changed.
Proof.
  unfold audio_changed. keeps_run; apply (cl_rate _ C); unfold a_rate; auto.
Qed.
Lemma keeps_clear_source st b r : keeps I (clear_source st b r).
Proof. unfold clear_source. keeps_run. Qed.
#[local] Hint Resolve keeps_video_changed keeps_audio_changed keeps_clear_source : keeps.
Lemma keeps_interrupt : keeps I avia_av_interrupt.
Proof. unfold avia_av_interrupt. keeps_run. Qed.

Lemma keeps_set_delay z : keeps I (amod (set_event_delay z)).
Proof. apply keeps_amod. intros. by apply (cl_delay _ C). Qed.
Lemma keeps_set_reg r : keeps I (amod (set_event_reg r)).
Proof. apply keeps_amod. intros. by apply (cl_reg _ C). Qed.
Lemma keeps_set_mem b : keeps I (amod (set_aviamem b)).
Proof. apply keeps_amod. intros. by apply (cl_aviamem _ C). Qed.
Lemma keeps_set_irq b : keeps I (amod (set_irq_held b)).
Proof. apply keeps_amod. intros. by apply (cl_irq _ C). Qed.
Lemma keeps_set_thread z : keeps I (amod (set_kernel_thread_pid z)).
Proof. apply keeps_amod. intros. by apply (cl_thread _ C). Qed.
Lemma keeps_set_silirev z : keeps I (amod (set_silirev z)).
Proof. apply keeps_amod. intros. by apply (cl_silirev _ C). Qed.
Lemma keeps_set_aviarev v : keeps I (amod (set_aviarev (Z.land v 3))).
Proof.
  apply keeps_amod. intros. apply (cl_aviarev _ C); [|done].
  change 3 with (Z.ones 2). rewrite Z.land_ones by lia. pose proof (Z.mod_pos_bound v 4 eq_refl). change (2 ^ 2) with 4. change (Z.ones 2) with 3. lia.
Qed.
#[local] Hint Resolve keeps_set_delay keeps_set_reg keeps_set_mem keeps_set_irq keeps_set_thread
  keeps_set_silirev keeps_set_aviarev : keeps.
Lemma keeps_timer_function : keeps I avia_av_event_timer_function.
Proof. unfold avia_av_event_timer_function. keeps_run; by apply (cl_reg _ C). Qed.
Lemma keeps_event_init : keeps I avia_av_event_init.
Proof.
  unfold avia_av_event_init. keeps_run.
  by apply (cl_timer _ C), (cl_reg _ C).
Qed.
Lemma keeps_event_exit : keeps I avia_av_event_exit.
Proof. apply keeps_amod. intros. by apply (cl_timer _ C), (cl_reg _ C). Qed.
#[local] Hint Resolve keeps_event_init keeps_event_exit : keeps.

(** Starting. *)
Lemma keeps_dram_writes l : keeps I (dram_writes l).
Proof. induction l as [|[]]; cbn [dram_writes]; keeps_run. Qed.
Lemma keeps_gbus_sequence l : keeps I (gbus_sequence l).
Proof. induction l as [|[]]; cbn [gbus_sequence]; keeps_run. Qed.
Lemma keeps_gbus_update f : keeps I (gbus_update f).
Proof. unfold gbus_update. keeps_run. Qed.
#[local] Hint Resolve keeps_dram_writes keeps_gbus_sequence keeps_gbus_update : keeps.
Lemma keeps_audio_init r : keeps I (avia_av_audio_init r).
Proof.
  unfold avia_av_audio_init.
  assert (keeps I (amod (set_sample_rate (if r =? 48000 then 48000 else if r =? 32000 then 32000 else 44100)))).
  { apply keeps_amod. intros. apply (cl_rate _ C); [|done]. unfold a_rate. repeat case_match; auto. }
  keeps_run.
Qed.
Lemma keeps_set_default : keeps I avia_av_set_default.
Proof. unfold avia_av_set_default. keeps_run. Qed.
Lemma keeps_sdram_init : keeps I sdram_init.
Proof. unfold sdram_init. keeps_run. Qed.
#[local] Hint Resolve keeps_audio_init keeps_set_default keeps_sdram_init : keeps.
Lemma keeps_start_chip m : keeps I (start_chip m).
Proof. unfold start_chip. keeps_run. Qed.
Lemma keeps_unmap : keeps I unmap.
Proof. apply keeps_set_mem. Qed.
Lemma keeps_free_irq : keeps I free_irq.
Proof. unfold free_irq. keeps_run. Qed.
#[local] Hint Resolve keeps_start_chip keeps_unmap keeps_free_irq : keeps.

Lemma keeps_standby cmd n : (forall c a, keeps I (cmd c a)) -> keeps I (avia_av_standby cmd n).
Proof.
  intros Hc.
  assert (keeps I (finish_init cmd)).
  { unfold finish_init. keeps_run. by apply (cl_reset _ C). }
  assert (keeps I (avia_av_init cmd)) by (unfold avia_av_init; keeps_run).
  unfold avia_av_standby. keeps_run.
Qed.
Lemma keeps_init cmd : (forall c a, keeps I (cmd c a)) -> keeps I (avia_av_init cmd).
Proof.
  intros Hc.
  assert (keeps I (finish_init cmd)).
  { unfold finish_init. keeps_run. by apply (cl_reset _ C). }
  unfold avia_av_init. keeps_run.
Qed.

(** Commands. *)
Lemma keeps_status_addr_loop n t : keeps I (status_addr_loop n t).
Proof. induction n; cbn [status_addr_loop]; keeps_run. Qed.
#[local] Hint Resolve keeps_status_addr_loop : keeps.
Lemma keeps_get_addr : keeps I avia_cmd_status_get_addr.
Proof. unfold avia_cmd_status_get_addr. keeps_run. Qed.
Lemma keeps_complete_loop n a w : keeps I (complete_loop n a w).
Proof. revert w. induction n; intros w; cbn [complete_loop]; keeps_run. Qed.
#[local] Hint Resolve keeps_complete_loop : keeps.
Lemma keeps_status_get a b : keeps I (avia_cmd_status_get a b).
Proof. unfold avia_cmd_status_get. keeps_run. Qed.
Lemma keeps_cmd_arguments l i : keeps I (cmd_arguments l i).
Proof. revert i. induction l; cbn [cmd_arguments]; keeps_run. Qed.
#[local] Hint Resolve keeps_get_addr keeps_status_get keeps_cmd_arguments : keeps.
Lemma keeps_give_command c a : keeps I (give_command c a).
Proof. unfold give_command. keeps_run. Qed.
#[local] Hint Resolve keeps_give_command : keeps.

Lemma keeps_av_cmd depth c a : keeps I (avia_av_cmd depth c a).
Proof.
  revert c a. induction depth as [|depth IH]; intros c a; cbn [avia_av_cmd]; [keeps_run|].
  pose proof (fun n => keeps_standby _ n IH). keeps_run.
Qed.
#[local] Hint Resolve keeps_av_cmd : keeps.
Lemma keeps_cmd depth c a : keeps I (cmd depth c a).
Proof. unfold cmd. keeps_run. Qed.
Lemma keeps_restart depth : keeps I (restart_decoder depth).
Proof. unfold restart_decoder. pose proof (fun n => keeps_standby _ n (keeps_av_cmd depth)). keeps_run. Qed.
#[local] Hint Resolve keeps_cmd : keeps.
Lemma keeps_stop_both depth n : keeps I (stop_both depth n).
Proof. unfold stop_both. keeps_run. Qed.
Lemma keeps_wdt_turn depth t : keeps I (wdt_turn depth t).
Proof. unfold wdt_turn, wdt_half. keeps_run. Qed.
End Keeps.
#[export] Hint Resolve keeps_to_world keeps_dram_read keeps_dram_write keeps_gbus_write keeps_new_audio_config
  keeps_interrupt keeps_timer_function keeps_av_cmd keeps_standby keeps_init keeps_cmd keeps_restart keeps_stop_both
  keeps_wdt_turn : keeps.

(** ** The variables stay in their ranges *)

Definition a_play_state (v : Z) : Prop :=
  v = 0 \/ v = AVIA_AV_PLAY_STATE_PAUSED \/ v = AVIA_AV_PLAY_STATE_PLAYING \/ v = AVIA_AV_PLAY_STATE_STOPPED.
Definition a_pid (v : Z) : Prop := 0 <= v <= 0x1FFF \/ v = 0xFFFF.
Definition a_sync_mode (v : Z) : Prop :=
  v = AVIA_AV_SYNC_MODE_NONE \/ v = AVIA_AV_SYNC_MODE_AUDIO \/ v = AVIA_AV_SYNC_MODE_VIDEO \/ v = AVIA_AV_SYNC_MODE_AV.

Record av_valid {W} (s : @av_state W) : Prop := {
  v_play_audio : a_play_state (play_state_audio s);
  v_play_video : a_play_state (play_state_video s);
  v_pid_audio : a_pid (pid_audio s);
  v_pid_video : a_pid (pid_video s);
  v_sync : a_sync_mode (sync_mode s);
  v_bypass : bypass_mode s = 0 \/ bypass_mode s = 1;
  v_rate : a_rate (sample_rate s);
  v_streams : stream_command (stream_type_video s) (stream_type_audio s) <> None;
  v_system : tv_standard s = AVIA_AV_VIDEO_SYSTEM_PAL \/ tv_standard s = AVIA_AV_VIDEO_SYSTEM_NTSC;
  v_rev : 0 <= aviarev s <= 3;
  v_width : 0 <= video_width s < 2 ^ 16;
  v_height : 0 <= video_height s < 2 ^ 16;
  v_ratio : 0 <= video_aspect_ratio s < 2 ^ 16;
}.

Lemma av_valid_closed {W} : av_closed (@av_valid W).
Proof.
  split; intros; match goal with H : av_valid _ |- _ => destruct H end; split; cbn; auto;
    try (unfold a_play_state, a_sync_mode; auto; done).
Qed.

(** ** Calls *)

Inductive av_op :=
| OpVideoSystem (system : Z)
| OpSampleRate (rate : Z)
| OpSyncMode (mode : Z)
| OpPtsToStc (pes : list Z)
| OpBypass (enable : Z)
| OpPid (type pid : Z)
| OpPlayAudio (state : Z)
| OpPlayVideo (state : Z)
| OpStreamType (video audio : Z)
| OpAttenuation (att : Z)
| OpHandler (handler : Z)
| OpNoHandler (handler : Z)
| OpStandby (state : Z)
| OpInterrupt
| OpEventTimer
| OpWatchdog (t : wdt).

Section Ops.
Context {W : Type} {B : AvBus W} (depth : nat).
Abbreviation S := (@av_state W).

Definition ignore {A} (m : M S A) : M S unit := let! _ := m in mret_ tt.

Definition av_step (op : av_op) : M S unit :=
  match op with
  | OpVideoSystem v => ignore (avia_av_set_video_system depth v)
  | OpSampleRate r => ignore (avia_av_set_sample_rate depth r)
  | OpSyncMode m => ignore (avia_av_sync_mode_set m)
  | OpPtsToStc pes => ignore (avia_av_audio_pts_to_stc pes)
  | OpBypass e => avia_av_bypass_mode_set depth e
  | OpPid t p => ignore (avia_av_pid_set t (Z.land p 0xffff))
  | OpPlayAudio v => ignore (avia_av_play_state_set_audio depth v)
  | OpPlayVideo v => ignore (avia_av_play_state_set_video depth v)
  | OpStreamType v a => ignore (avia_av_stream_type_set depth v a)
  | OpAttenuation a => ignore (avia_av_set_audio_attenuation a)
  | OpHandler h => ignore (avia_av_register_video_event_handler h)
  | OpNoHandler h => avia_av_unregister_video_event_handler h
  | OpStandby n => ignore (avia_av_standby (avia_av_cmd depth) n)
  | OpInterrupt => avia_av_interrupt
  | OpEventTimer => avia_av_event_timer_function
  | OpWatchdog t => ignore (wdt_turn depth t)
  end.

Fixpoint av_run (ops : list av_op) : M S unit :=
  match ops with
  | [] => mret_ tt
  | op :: ops => av_step op ;;; av_run ops
  end.

(** What a call keeps, besides [av_closed]: the calls that set one variable. *)
Record av_kept (I : S -> Prop) : Prop := {
  k_closed : av_closed I;
  k_system v s : v = AVIA_AV_VIDEO_SYSTEM_PAL \/ v = AVIA_AV_VIDEO_SYSTEM_NTSC -> I s -> I (set_tv_standard v s);
  k_sync v s : a_sync_mode v -> I s -> I (set_sync_mode v s);
  k_bypass v b s : v = 0 \/ v = 1 -> I s -> I (set_bypass_mode_changed b (set_bypass_mode v s));
  k_changed b s : I s -> I (set_bypass_mode_changed b s);
  k_pid_audio v s : a_pid v -> I s -> I (set_pid_audio v s);
  k_pid_video v s : a_pid v -> I s -> I (set_pid_video v s);
  k_streams v a s : stream_command v a <> None -> I s -> I (set_stream_type_video v (set_stream_type_audio a s));
  k_handler h s : I s -> I (set_video_event_handler h s);
}.

Section Kept.
Context (I : S -> Prop) (K : av_kept I).
Let C := k_closed _ K.
#[local] Hint Resolve C : keeps.

Lemma keeps_video_system v : keeps I (avia_av_set_video_system depth v).
Proof.
  unfold avia_av_set_video_system. keeps_run. apply (k_system _ K); [|done].
  rewrite negb_false_iff, orb_true_iff, !Z.eqb_eq in *. done.
Qed.
Lemma keeps_sample_rate v : keeps I (avia_av_set_sample_rate depth v).
Proof.
  unfold avia_av_set_sample_rate. keeps_run. apply (cl_rate _ C); [|done]. unfold a_rate.
  rewrite !andb_false_iff, !negb_false_iff, !Z.eqb_eq in *. tauto.
Qed.
Lemma keeps_sync_mode v : keeps I (avia_av_sync_mode_set v).
Proof.
  unfold avia_av_sync_mode_set. keeps_run. apply (k_sync _ K); [|done]. unfold a_sync_mode.
  rewrite !andb_false_iff, !negb_false_iff, !Z.eqb_eq in *. tauto.
Qed.
#[local] Hint Resolve keeps_sync_mode : keeps.
Lemma keeps_pts pes : keeps I (avia_av_audio_pts_to_stc pes).
Proof. unfold avia_av_audio_pts_to_stc, avia_av_set_stc, word. keeps_run. Qed.
Lemma keeps_bypass v : keeps I (avia_av_bypass_mode_set depth v).
Proof.
  unfold avia_av_bypass_mode_set. keeps_run. apply (k_bypass _ K); [|done]. by destruct (v =? 0); auto.
Qed.
Lemma keeps_pid t v : 0 <= v -> keeps I (avia_av_pid_set t v).
Proof.
  intros Hv. unfold avia_av_pid_set. keeps_run; [apply (k_pid_audio _ K)|apply (k_pid_video _ K)]; try done;
    unfold a_pid; lia.
Qed.
Lemma keeps_streams v a : keeps I (avia_av_stream_type_set depth v a).
Proof.
  unfold avia_av_stream_type_set. keeps_run; apply (k_streams _ K); congruence.
Qed.
Lemma keeps_changed b : keeps I (amod (set_bypass_mode_changed b)).
Proof. apply keeps_modify. intros. by apply (k_changed _ K). Qed.
Lemma keeps_step_other op :
  (forall v, op <> OpPlayAudio v) -> (forall v, op <> OpPlayVideo v) -> keeps I (av_step op).
Proof.
  intros Ha Hv.
  pose proof keeps_video_system. pose proof keeps_sample_rate. pose proof keeps_pts.
  pose proof keeps_streams. pose proof keeps_bypass.
  destruct op; cbn [av_step]; unfold ignore; try solve [by destruct (Ha state)|by destruct (Hv state)].
  6: { apply keeps_bind; [|intros; apply keeps_ret]. apply keeps_pid. by apply Z.land_nonneg; right. }
  all: unfold avia_av_set_audio_attenuation, avia_av_register_video_event_handler,
    avia_av_unregister_video_event_handler; keeps_run; by apply (k_handler _ K).
Qed.
End Kept.

(** ** Play states *)

(** When the play state of a half may become [n]. *)
Definition audio_may (n : Z) (s : S) : bool :=
  if n =? AVIA_AV_PLAY_STATE_PAUSED then play_state_audio s =? AVIA_AV_PLAY_STATE_PLAYING
  else if n =? AVIA_AV_PLAY_STATE_PLAYING then true
  else if n =? AVIA_AV_PLAY_STATE_STOPPED
  then (play_state_audio s =? AVIA_AV_PLAY_STATE_PAUSED) || (play_state_audio s =? AVIA_AV_PLAY_STATE_PLAYING)
  else false.
Definition video_may (n : Z) (s : S) : bool :=
  if n =? AVIA_AV_PLAY_STATE_PAUSED then play_state_video s =? AVIA_AV_PLAY_STATE_PLAYING
  else if n =? AVIA_AV_PLAY_STATE_PLAYING then negb (play_state_video s =? AVIA_AV_PLAY_STATE_PLAYING)
  else if n =? AVIA_AV_PLAY_STATE_STOPPED
  then (play_state_video s =? AVIA_AV_PLAY_STATE_PAUSED) || (play_state_video s =? AVIA_AV_PLAY_STATE_PLAYING)
  else false.

Lemma ends_keeps {A} (I : S -> Prop) (m : M S A) s : keeps I m -> I s -> ends m s (fun _ s' => I s').
Proof. intros H Hs. by apply H. Qed.

(** The decision is made first and on the state before. *)
Lemma ends_choice (I : S -> Prop) (m : M S bool) (f : S -> S) (may : bool) (s : S) :
  ends m s (fun ok s' => ok = may /\ (if may then I s' else s' = s)) ->
  ends (let! ok := m in if negb ok then mret_ (- EINVAL) else amod f ;;; mret_ 0) s
    (fun r s' => if may then r = 0 /\ exists s0, I s0 /\ s' = f s0 else r = - EINVAL /\ s' = s).
Proof.
  intros H. eapply ends_bind; [exact H|]. intros ok s1 [-> H1]. destruct may; cbn [negb].
  - intros r s' E. injection E as <- <-. eauto.
  - subst s1. by apply ends_ret.
Qed.

(** Commands, and then [true]. *)
Definition accepts (I : S -> Prop) (m : M S bool) : Prop :=
  forall s, I s -> ends m s (fun ok s' => ok = true /\ I s').
Lemma accepts_true (I : S -> Prop) : accepts I (mret_ true).
Proof. intros s Hs. by apply ends_ret. Qed.
Lemma accepts_bind (I : S -> Prop) {A} (m : M S A) (k : A -> M S bool) :
  keeps I m -> (forall a, accepts I (k a)) -> accepts I (mbind_ m k).
Proof. intros Hm Hk s Hs. eapply ends_bind; [by apply Hm|]. intros a s' H'. by apply Hk. Qed.

Section PlayState.
Context (I : S -> Prop) (C : av_closed I) (Ch : forall b s, I s -> I (set_bypass_mode_changed b s)).
#[local] Hint Resolve C : keeps.

Lemma play_video_ends n s : I s ->
  ends (avia_av_play_state_set_video depth n) s (fun r s' =>
    if video_may n s then r = 0 /\ exists s0, I s0 /\ s' = set_play_state_video n s0
    else r = - EINVAL /\ s' = s).
Proof.
  intros Hs. unfold avia_av_play_state_set_video. intros r s'. rewrite mget_bind. revert r s'.
  apply (ends_choice I). unfold video_may.
  repeat match goal with |- context [?a =? ?b] => destruct (a =? b); cbn [negb orb andb] end;
    first [by apply ends_ret | apply accepts_bind; [keeps_run|intros; apply accepts_true|done]].
Qed.

Lemma play_audio_ends n s : I s ->
  ends (avia_av_play_state_set_audio depth n) s (fun r s' =>
    if audio_may n s then r = 0 /\ exists s0, I s0 /\ s' = set_play_state_audio n s0
    else r = - EINVAL /\ s' = s).
Proof.
  intros Hs. unfold avia_av_play_state_set_audio. intros r s'. rewrite mget_bind. revert r s'.
  apply (ends_choice I). unfold audio_may.
  destruct (n =? AVIA_AV_PLAY_STATE_PAUSED); [|destruct (n =? AVIA_AV_PLAY_STATE_PLAYING)].
  - destruct (play_state_audio s =? _); cbn [negb];
      [apply accepts_bind; [keeps_run|intros; apply accepts_true|done]|by apply ends_ret].
  - refine (accepts_bind I _ _ _ _ s Hs); [keeps_run|intros ?].
    repeat (apply accepts_bind; [|intros ?]); try apply accepts_true; keeps_run; by apply Ch.
  - repeat match goal with |- context [?a =? ?b] => destruct (a =? b); cbn [negb orb andb] end;
      first [by apply ends_ret | apply accepts_bind; [keeps_run|intros; apply accepts_true|done]].
Qed.
End PlayState.

(** The play states of the pair. *)
Definition or_stopped (v v' : Z) : Prop := v' = v \/ v' = AVIA_AV_PLAY_STATE_STOPPED.

(** What neither a command nor a restart of the chip changes, and how it
    changes the play states. *)
Definition same_play (s s' : S) : Prop :=
  or_stopped (play_state_audio s) (play_state_audio s') /\ or_stopped (play_state_video s) (play_state_video s') /\
  pid_audio s' = pid_audio s /\ pid_video s' = pid_video s /\ bypass_mode s' = bypass_mode s /\
  tv_standard s' = tv_standard s /\ video_event_handler s' = video_event_handler s.

Lemma same_play_refl s : same_play s s.
Proof. unfold same_play, or_stopped. auto 10. Qed.
Lemma same_play_closed s : av_closed (same_play s).
Proof.
  split; intros; unfold same_play, or_stopped in *; cbn;
    repeat match goal with H : _ /\ _ |- _ => destruct H end; auto 10.
Qed.

(** A play state of the decoder changes only along its transitions: a pause
    from playing, a stop from playing or paused, and, for pictures, a start from
    anything but playing.  Any other call returns -EINVAL and changes nothing.
    A call that is accepted sets this play state, and the other one is unchanged
    or, if the chip was restarted in between, stopped. *)
Theorem play_state_transitions n (s : S) :
  ends (avia_av_play_state_set_video depth n) s (fun r s' =>
    if video_may n s then r = 0 /\ play_state_video s' = n /\
      or_stopped (play_state_audio s) (play_state_audio s') /\ pid_video s' = pid_video s
    else r = - EINVAL /\ s' = s) /\
  ends (avia_av_play_state_set_audio depth n) s (fun r s' =>
    if audio_may n s then r = 0 /\ play_state_audio s' = n /\
      or_stopped (play_state_video s) (play_state_video s') /\ pid_audio s' = pid_audio s
    else r = - EINVAL /\ s' = s).
Proof.
  split; (eapply ends_weaken;
    [first [apply (play_video_ends _ (same_play_closed s)), same_play_refl
           |apply (play_audio_ends _ (same_play_closed s)); [done|apply same_play_refl]]|]);
    intros r s' H; destruct (_ n s); try done;
    destruct H as (-> & s0 & (Ha & Hv & Hpa & Hpv & _) & ->); by cbn.
Qed.

(** ** Runs of calls *)

Lemma av_valid_kept : av_kept (@av_valid W).
Proof.
  split; [apply av_valid_closed|..]; intros; match goal with H : av_valid _ |- _ => destruct H end; split; cbn; auto.
Qed.

Lemma may_valid n (s : S) : video_may n s = true \/ audio_may n s = true -> a_play_state n.
Proof.
  unfold video_may, audio_may, a_play_state. intros H.
  destruct (Z.eqb_spec n AVIA_AV_PLAY_STATE_PAUSED); [auto|].
  destruct (Z.eqb_spec n AVIA_AV_PLAY_STATE_PLAYING); [auto|].
  destruct (Z.eqb_spec n AVIA_AV_PLAY_STATE_STOPPED); [auto|]. by destruct H.
Qed.

Lemma step_valid op : keeps (@av_valid W) (av_step op).
Proof.
  intros s Hs.
  assert (forall b s, av_valid (W := W) s -> av_valid (set_bypass_mode_changed b s)) as Hb
    by apply (k_changed _ av_valid_kept).
  assert ((exists v, op = OpPlayAudio v) \/ (exists v, op = OpPlayVideo v) \/
    ((forall v, op <> OpPlayAudio v) /\ forall v, op <> OpPlayVideo v)) as [[v ->]|[[v ->]|[Ha Hv]]].
  { destruct op; eauto; right; right; done. }
  3: by apply (keeps_step_other _ av_valid_kept).
  all: cbn [av_step]; unfold ignore; eapply ends_bind;
    [first [by apply (play_audio_ends _ av_valid_closed)|by apply (play_video_ends _ av_valid_closed)]|];
    cbv beta; intros r s' H; apply ends_ret.
  - destruct (audio_may v s) eqn:E; [|by destruct H as [_ ->]].
    destruct H as (_ & s0 & [] & ->). split; cbn; auto. apply (may_valid v s). auto.
  - destruct (video_may v s) eqn:E; [|by destruct H as [_ ->]].
    destruct H as (_ & s0 & [] & ->). split; cbn; auto. apply (may_valid v s). auto.
Qed.

Lemma run_valid ops : keeps (@av_valid W) (av_run ops).
Proof.
  pose proof step_valid. induction ops; cbn [av_run]; keeps_run.
Qed.

(** The module is loaded, with its parameters, and the calls follow if that
    succeeds. *)
Definition av_loaded (tv fix_ gt : Z) (nowdt : bool) (path : string) (w : W) : S :=
  mk_av_state false 0 0 false 0 0 false 0 0 0 0 0 0 0 AVIA_AV_SYNC_MODE_AV 0 0 0 0 tv fix_ nowdt gt path
    0 None false w.
Definition av_session (firmware_set : bool) (ops : list av_op) : M S bool :=
  let! r := avia_av_core_init depth firmware_set in
  if r =? 0 then av_run ops ;;; mret_ true else mret_ false.

(** C14: Whatever the chip answers, after the module was loaded and any calls of
    its functions, interrupts, timers and turns of the watchdog were made, all
    its variables are in their ranges: play states, sync mode and the pair of
    stream types are ones that it can ask the chip for, PIDs have 13 bits or
    are the one for none, the rate is one of the three, the sizes have 16
    bits. *)
Theorem av_session_valid tv fix_ gt nowdt path firmware_set ops w :
  ends (av_session firmware_set ops) (av_loaded tv fix_ gt nowdt path w)
    (fun ok s' => ok = true -> av_valid s').
Proof.
  unfold av_session, avia_av_core_init. intros ok s'. rewrite mbind_bind, mget_bind. cbn [tv_standard av_loaded].
  destruct ((tv <? AVIA_AV_VIDEO_SYSTEM_PAL) || (tv >? AVIA_AV_VIDEO_SYSTEM_NTSC)) eqn:Etv.
  { rewrite mret_bind. intros [= <- <-]. done. }
  destruct firmware_set; cbn [negb]; [|rewrite mret_bind; by intros [= <- <-]].
  unfold amod. rewrite mbind_bind, mmodify_bind.
  set (s0 := set_sample_rate 44100 _).
  assert (av_valid s0) as H0.
  { apply orb_false_iff in Etv. unfold AVIA_AV_VIDEO_SYSTEM_PAL, AVIA_AV_VIDEO_SYSTEM_NTSC in *.
    split; cbn; unfold a_play_state, a_pid, a_sync_mode, a_rate, AVIA_AV_VIDEO_SYSTEM_PAL, AVIA_AV_VIDEO_SYSTEM_NTSC; auto; try lia; done. }
  intros E. enough (ends (let! r := avia_av_init (avia_av_cmd depth) in
    if r =? 0 then av_run ops ;;; mret_ true else mret_ false) s0 (fun ok s' => ok = true -> av_valid s')) as H
    by (by apply (H ok s' E)).
  eapply ends_bind; [by apply keeps_init; [apply av_valid_closed|intros; apply keeps_av_cmd, av_valid_closed|]|].
  cbv beta. intros r s1 H1. destruct (r =? 0); [|by apply ends_ret].
  eapply ends_bind; [by apply run_valid|]. cbv beta. intros [] s2 H2. by apply ends_ret.
Qed.
End Ops.
