(* ===== verification/AvCoreLive.v ===== *)
(** * A decoder that answers, and one that does not

    On a chip that answers the commands it is given every call that plays
    returns.  On one that never answers the driver restarts it, which gives
    commands again: no depth of calls is enough.  When the restart itself
    fails the registers are given back, and the next access is a fault. *)

From Stdlib Require Import String.
From S2P Require Import Prelude AvCore AvCoreSpec AvCoreState.
Open Scope Z_scope.

(** ** What of the chip the calls rely on

    [ready]: the last command has been taken.  The driver's own accesses leave
    the chip ready, except for clearing the word that says so; a sleep with a
    bound returns less than the bound. *)

Class AvReady (W : Type) {B : AvBus W} {L : AvWindow W} := {
  ready : W -> Prop;
  ready_out i v w : 0 <= i <= 6 -> (i = 0 -> selected w <> (TM_DRAM, STATUS_ADDRESS)) ->
    ready w -> ready (av_out i v w);
  ready_in i w : 0 <= i <= 3 -> ready w -> ready (av_in i w).2;
  ready_schedule n w : ready w -> ready (av_schedule n w);
  ready_mdelay n w : ready w -> ready (av_mdelay n w);
  ready_udelay n w : ready w -> ready (av_udelay n w);
  ready_sleep n w : ready w -> ready (av_cmd_sleep n w).2;
  ready_handler h x y r w : ready w -> ready (av_call_handler h x y r w);
  sleep_less n w : 0 < n -> 0 <= (av_cmd_sleep n w).1 < n;
}.

(** A chip that answers: it takes a command when it is interrupted, and says
    where its status is. *)
Class AvAnswers (W : Type) {B : AvBus W} {L : AvWindow W} {R : AvReady W} := {
  status_addr : Z;
  status_addr_range : 0 < status_addr < 2 ^ 32;
  answers v w : selected w = (TM_GBUS, 0) -> Z.testbit v 6 = true -> ready (av_out 0 v w);
  status_read i w : 0 <= i <= 3 -> ready w -> selected w = (TM_DRAM, STATUS_ADDRESS) ->
    (av_in i w).1 = byte_of status_addr i;
}.

Section Stays.
Context {W : Type} {B : AvBus W} {L : AvWindow W} {R : AvReady W}.
Abbreviation S := (@av_state W).

Definition live (s : S) : Prop := aviamem s = true /\ ready (world s).

(** [stays m]: on a mapped and ready chip [m] returns, and leaves it so. *)
Definition stays {A} (m : M S A) : Prop := forall s, live s -> runs m s (fun _ s' => live s').

Lemma stays_ret {A} (a : A) : stays (mret_ a).
Proof. intros s H. by apply runs_ret. Qed.
Lemma stays_bind {A C} (m : M S A) (k : A -> M S C) :
  stays m -> (forall a, stays (k a)) -> stays (mbind_ m k).
Proof. intros Hm Hk s H. eapply runs_bind; [by apply Hm|]. intros. by apply Hk. Qed.
Lemma stays_get : stays mget.
Proof. intros s H. by exists s, s. Qed.
Lemma stays_gets {A} (f : S -> A) : stays (mgets f).
Proof. intros s H. by exists (f s), s. Qed.
Lemma stays_amod (f : S -> S) :
  (forall s, aviamem (f s) = aviamem s) -> (forall s, world (f s) = world s) -> stays (amod f).
Proof. intros H1 H2 s [Hm Hr]. exists tt, (f s). unfold live. by rewrite H1, H2. Qed.
Lemma stays_lift {A} (a : A) : stays (mlift (Ok a)).
Proof. intros s H. by exists a, s. Qed.
Lemma stays_to_world f : (forall w, ready w -> ready (f w)) -> stays (to_world (W := W) f).
Proof. intros Hf s [Hm Hr]. exists tt, (set_world (f (world s)) s). split; [done|]. split; [done|]. by apply Hf. Qed.
Lemma stays_on_world {A} (f : W -> A * W) : (forall w, ready w -> ready (f w).2) -> stays (on_world f).
Proof.
  intros Hf s [Hm Hr]. exists (f (world s)).1, (set_world (f (world s)).2 s). split; [done|]. split; [done|].
  by apply Hf.
Qed.

(** Reading and writing. *)
Lemma ready_select mode a w : ready w -> ready (select mode a w).
Proof. intros H. unfold select. by repeat (apply ready_out; [lia|lia|]). Qed.

Lemma stays_read mode a : stays (avia_av_read mode a).
Proof.
  intros s [Hm Hr]. unfold avia_av_read. fold (a22 a). unfold runs.
  rewrite !mem_out_bind by done. cbn [world set_world]. fold (select mode (a22 a) (world s)).
  rewrite !mem_in_bind by done. cbn [world set_world].
  eexists _, _. split; [reflexivity|]. split; [done|]. cbn [world set_world].
  repeat (apply ready_in; [lia|]). by apply ready_select.
Qed.

(** The word that is written is the selected one, with the first three bytes
    latched. *)
Definition before_word (mode a v : Z) (w : W) : W :=
  av_out 1 (Z.land (Z.shiftr v 8) 0xFF) (av_out 2 (Z.land (Z.shiftr v 16) 0xFF)
    (av_out 3 (Z.land (Z.shiftr v 24) 0xFF) (select mode (a22 a) w))).

Lemma before_selected mode a v w : kind mode -> selected (before_word mode a v w) = (mode, a22 a).
Proof.
  intros Hk. rewrite <- (select_selected mode a w Hk). apply selected_by. intros j Hj.
  unfold before_word. rewrite !out_latch by lia. rif. done.
Qed.

Lemma write_exact mode a v (s : S) : aviamem s = true ->
  avia_av_write mode a v s = Ok (tt, set_world (av_out 0 (Z.land v 0xFF) (before_word mode a v (world s))) s).
Proof.
  intros Hm. unfold avia_av_write. fold (a22 a). rewrite !mem_out_bind by done. by rewrite mem_out_run by done.
Qed.

Lemma stays_write mode a v : kind mode -> (mode, a22 a) <> (TM_DRAM, STATUS_ADDRESS) -> stays (avia_av_write mode a v).
Proof.
  intros Hk Ha s [Hm Hr]. unfold runs. rewrite write_exact by done. eexists _, _. split; [reflexivity|].
  split; [done|]. cbn [world set_world].
  apply ready_out; [lia|by rewrite before_selected|]. unfold before_word.
  by repeat (apply ready_out; [lia|lia|]).
Qed.
Lemma live_written mode a v (s : S) : kind mode -> (mode, a22 a) <> (TM_DRAM, STATUS_ADDRESS) -> live s ->
  live (set_world (av_out 0 (Z.land v 0xFF) (before_word mode a v (world s))) s).
Proof.
  intros Hk Ha Hl. destruct (stays_write mode a v Hk Ha s Hl) as (x & s' & E & H).
  rewrite write_exact in E by apply Hl. by injection E as _ <-.
Qed.
Lemma stays_dram_read a : stays (avia_av_dram_read a).
Proof. apply stays_read. Qed.
Lemma stays_gbus_read a : stays (avia_av_gbus_read a).
Proof. apply stays_read. Qed.
Lemma stays_dram_write a v : a22 a <> STATUS_ADDRESS -> stays (avia_av_dram_write a v).
Proof. intros H. apply stays_write; [by left|]. congruence. Qed.
Lemma stays_gbus_write a v : stays (avia_av_gbus_write a v).
Proof. apply stays_write; [by right; right; left|]. done. Qed.
Lemma stays_schedule n : stays (to_world (av_schedule n)).
Proof. apply stays_to_world, ready_schedule. Qed.
Lemma stays_mdelay n : stays (to_world (av_mdelay n)).
Proof. apply stays_to_world, ready_mdelay. Qed.
Lemma stays_udelay n : stays (to_world (av_udelay n)).
Proof. apply stays_to_world, ready_udelay. Qed.
Lemma stays_handler h x y r : stays (to_world (av_call_handler h x y r)).
Proof. apply stays_to_world. intros. by apply ready_handler. Qed.
End Stays.

Create HintDb stays.
#[export] Hint Resolve stays_ret stays_get stays_gets stays_lift stays_dram_read stays_gbus_read stays_gbus_write
  stays_schedule stays_mdelay stays_udelay stays_handler : stays.

(** Runs through code on a ready chip; [done] decides that a write is not to the
    word with the status, and that an update leaves the chip alone. *)
Ltac stays_step :=
  first
    [ progress (intros; cbv zeta)
    | lazymatch goal with
      | |- stays (mbind_ _ _) => apply stays_bind; [|intros]
      | |- stays (avia_av_dram_write _ _) => apply stays_dram_write; done
      | |- stays (amod _) => apply stays_amod; done
      | |- _ => first [solve [eauto with stays] | case_match]
      end ].
Ltac stays_run := repeat stays_step.

Section Calls.
Context {W : Type} {B : AvBus W} {L : AvWindow W} {R : AvReady W}.
Abbreviation S := (@av_state W).

Lemma stays_wait_loop n reg v ms b : stays (W := W) (wait_loop n reg v ms b).
Proof. induction n; cbn [wait_loop]; stays_run. Qed.
Lemma stays_new_audio_config b : stays (W := W) (avia_av_new_audio_config b).
Proof. pose proof stays_wait_loop. unfold avia_av_new_audio_config, avia_av_wait. stays_run. Qed.
#[local] Hint Resolve stays_new_audio_config : stays.
Lemma stays_interrupt : stays (W := W) avia_av_interrupt.
Proof. unfold avia_av_interrupt, video_changed, audio_changed, clear_source. stays_run. Qed.

(** The loop that waits for a command ends: each sleep is shorter. *)
Lemma stays_complete n a waittime : (Z.to_nat waittime <= n)%nat -> stays (W := W) (complete_loop n a waittime).
Proof.
  revert waittime. induction n as [|n IH]; intros t Ht; cbn [complete_loop].
  - replace (t <=? 0) with true by lia. apply stays_ret.
  - destruct (Z.leb_spec t 0); [apply stays_ret|].
    apply stays_bind; [apply stays_dram_read|]. intros v. destruct (0x03 <=? v); [apply stays_ret|].
    intros s [Hm Hr]. pose proof (sleep_less t (world s) H) as Hl.
    unfold on_world at 1. unfold runs. unfold mbind_ at 1. cbn [res_bind fst snd].
    set (r := av_cmd_sleep t (world s)) in *.
    refine ((_ : stays _) (set_world r.2 s) _).
    + apply stays_bind; [case_match; stays_run|]. intros []; [apply stays_ret|]. apply IH. lia.
    + split; [done|]. by apply ready_sleep.
Qed.
Lemma stays_status_get a : stays (W := W) (avia_cmd_status_get a true).
Proof.
  unfold avia_cmd_status_get. assert (stays (W := W) (complete_loop wait_fuel a 350)).
  { apply stays_complete. apply Nat.leb_le. vm_compute. reflexivity. }
  stays_run.
Qed.
End Calls.

(** ** The chip answers *)

Section Answers.
Context {W : Type} {B : AvBus W} {L : AvWindow W} {R : AvReady W} {N : AvAnswers W}.
Abbreviation S := (@av_state W).
#[local] Hint Resolve stays_status_get stays_new_audio_config : stays.

Lemma status_word (s : S) : live s ->
  runs (avia_av_dram_read STATUS_ADDRESS) s (fun v s' => v = status_addr /\ live s').
Proof.
  intros Hl. destruct (stays_dram_read STATUS_ADDRESS s Hl) as (v & s' & E & H').
  exists v, s'. split; [done|]. split; [|done]. revert E. destruct Hl as [Hm Hr].
  unfold avia_av_dram_read, avia_av_read. fold (a22 STATUS_ADDRESS).
  rewrite !mem_out_bind by done. cbn [world set_world]. fold (select TM_DRAM (a22 STATUS_ADDRESS) (world s)).
  set (w0 := select TM_DRAM (a22 STATUS_ADDRESS) (world s)).
  assert (ready w0 /\ selected w0 = (TM_DRAM, STATUS_ADDRESS)) as H0.
  { split; [by apply ready_select|]. unfold w0. rewrite select_selected; [done|by left]. }
  rewrite !mem_in_bind by done. cbn [world set_world].
  assert (forall i w, 0 <= i <= 3 -> ready w /\ selected w = (TM_DRAM, STATUS_ADDRESS) ->
    ready (av_in i w).2 /\ selected (av_in i w).2 = (TM_DRAM, STATUS_ADDRESS)) as Hin.
  { intros i w Hi [H1 H2]. split; [by apply ready_in|]. rewrite <- H2. by apply in_same. }
  set (w3 := (av_in 3 w0).2). assert (H3 := Hin 3 w0 ltac:(lia) H0). fold w3 in H3.
  set (w2 := (av_in 2 w3).2). assert (H2 := Hin 2 w3 ltac:(lia) H3). fold w2 in H2.
  set (w1 := (av_in 1 w2).2). assert (H1 := Hin 1 w2 ltac:(lia) H2). fold w1 in H1.
  rewrite !status_read by (lia || tauto). rewrite word_bytes. pose proof status_addr_range.
  unfold u32. rewrite Z.mod_small by lia. by intros [= <- _].
Qed.

Lemma get_addr_run (s : S) : live s ->
  runs avia_cmd_status_get_addr s (fun v s' => v = status_addr /\ live s').
Proof.
  intros Hl. unfold avia_cmd_status_get_addr. eapply runs_bind; [by apply stays_gets|].
  cbv beta. intros now s0 H0. apply (runs_bind _ _ _ (fun _ s' => live s')); [|intros ? s1 H1; by apply status_word].
  destruct wait_fuel; cbn [status_addr_loop]; (eapply runs_bind; [by apply status_word|]);
    intros v s1 [-> H1]; (eapply runs_bind; [by apply stays_gets|]); intros t s2 H2;
    pose proof status_addr_range; replace (status_addr =? 0) with false by lia; by apply runs_ret.
Qed.

(** The interrupt at the end makes it ready, whatever went before. *)
Lemma give_command_live c a (s : S) :
  aviamem s = true -> cmd_args c <= zlen a -> runs (give_command c a) s (fun _ s' => live s').
Proof.
  intros Hm Ha. unfold give_command. rewrite (proj2 (Z.ltb_ge _ _) Ha).
  assert (forall l i (s : S), aviamem s = true -> runs (cmd_arguments l i) s (fun _ s' => aviamem s' = true)) as Hargs.
  { induction l as [|v l IH]; intros i s0 H0; cbn [cmd_arguments]; [by apply runs_ret|].
    unfold avia_av_dram_write, runs. rewrite (mbind_Ok _ _ _ _ _ (write_exact _ _ _ _ H0)). by apply IH. }
  unfold avia_av_dram_write at 1. unfold runs. rewrite (mbind_Ok _ _ _ _ _ (write_exact _ _ _ _ Hm)).
  eapply runs_bind; [by apply Hargs|]. cbv beta. intros _ s1 H1. eapply runs_bind; [by apply Hargs|].
  cbv beta. intros _ s2 H2. unfold avia_av_dram_write, runs. rewrite (mbind_Ok _ _ _ _ _ (write_exact _ _ _ _ H2)).
  unfold avia_av_htd_interrupt. set (s3 := set_world _ s2). assert (aviamem s3 = true) as H3 by done. clearbody s3.
  unfold avia_av_gbus_read, avia_av_gbus_write.
  destruct (read_run TM_GBUS 0 s3) as (v1 & s4 & E4 & St4 & _); [by right; right; left|done|].
  rewrite (mbind_Ok _ _ _ _ _ E4). assert (aviamem s4 = true) as H4 by (by rewrite (step_mapped _ _ _ St4)).
  rewrite (mbind_Ok _ _ _ _ _ (write_exact _ _ _ _ H4)). set (s5 := set_world _ s4).
  destruct (read_run TM_GBUS 0 s5) as (v2 & s6 & E6 & St6 & _); [by right; right; left|done|].
  rewrite (mbind_Ok _ _ _ _ _ E6). assert (aviamem s6 = true) as H6 by (by rewrite (step_mapped _ _ _ St6)).
  rewrite write_exact by done. eexists _, _. split; [reflexivity|]. split; [done|]. cbn [world set_world].
  apply answers; [apply before_selected; by right; right; left|].
  rewrite Z.land_spec, Z.lor_spec. change (Z.shiftl 1 6) with (2 ^ 6). rewrite Z.pow2_bits_true by lia.
  by rewrite orb_true_r.
Qed.

Lemma stays_av_cmd depth c a : (0 < depth)%nat -> cmd_args c <= zlen a -> stays (W := W) (avia_av_cmd depth c a).
Proof.
  intros Hd Ha. destruct depth as [|depth]; [lia|]. cbn [avia_av_cmd]. intros s Hl.
  pose proof status_addr_range.
  eapply runs_bind; [by apply get_addr_run|]. cbv beta. intros v s1 [-> H1].
  replace (status_addr =? 0) with false by lia.
  eapply runs_bind; [apply give_command_live; [by apply H1|done]|]. cbv beta. intros _ s2 H2.
  eapply runs_bind; [by apply get_addr_run|]. cbv beta. intros v s3 [-> H3].
  replace (status_addr =? 0) with false by lia. revert s3 H3. change (stays (W := W)
    (let! s := mget in
      (if Z.land c 0x8000 =? 0 then mret_ tt
       else if negb (aviarev s =? 0) && negb (c =? NewChannel)
       then let! _ := avia_cmd_status_get status_addr true in mret_ tt
       else to_world (av_udelay 1500)) ;;;
      mret_ status_addr)). stays_run.
Qed.
End Answers.

(** ** Playing *)

(** The calls that do not restart the chip.  The header of a PES packet must be
    there, and the timer of the size events has its data. *)
Definition playing_op (op : av_op) : Prop :=
  match op with
  | OpVideoSystem _ | OpSampleRate _ | OpStandby _ | OpEventTimer => False
  | OpPtsToStc pes => pes_header_size <= zlen pes
  | _ => True
  end.

Section Playing.
Context {W : Type} {B : AvBus W} {L : AvWindow W} {R : AvReady W} {N : AvAnswers W}.
Abbreviation S := (@av_state W).
Context (depth : nat) (Hdepth : (0 < depth)%nat).
#[local] Hint Resolve stays_new_audio_config stays_interrupt : stays.

Lemma stays_cmd c a : cmd_args c <= zlen a -> stays (W := W) (cmd depth c a).
Proof. intros H. unfold cmd. pose proof (stays_av_cmd (W := W) depth c a Hdepth H). stays_run. Qed.
#[local] Hint Resolve stays_cmd : stays.
#[local] Hint Extern 0 (cmd_args _ <= zlen _) => (vm_compute; discriminate) : stays.

Lemma stays_stop_both n : stays (W := W) (stop_both depth n).
Proof. unfold stop_both. stays_run. Qed.
#[local] Hint Resolve stays_stop_both : stays.
Lemma stays_play_video n : stays (W := W) (avia_av_play_state_set_video depth n).
Proof. unfold avia_av_play_state_set_video. stays_run. Qed.
Lemma stays_play_audio n : stays (W := W) (avia_av_play_state_set_audio depth n).
Proof. unfold avia_av_play_state_set_audio. stays_run. Qed.
Lemma stays_sync_mode n : stays (W := W) (avia_av_sync_mode_set n).
Proof. unfold avia_av_sync_mode_set. stays_run. Qed.
#[local] Hint Resolve stays_play_video stays_play_audio stays_sync_mode : stays.
Lemma stays_pts pes : pes_header_size <= zlen pes -> stays (W := W) (avia_av_audio_pts_to_stc pes).
Proof.
  intros H. unfold pes_header_size in H. unfold avia_av_audio_pts_to_stc, avia_av_set_stc, word.
  rewrite !slice_ok, !rd_ok by lia. stays_run.
Qed.
Lemma stays_bypass n : stays (W := W) (avia_av_bypass_mode_set depth n).
Proof. unfold avia_av_bypass_mode_set. stays_run. Qed.
Lemma stays_stream_type v a : stays (W := W) (avia_av_stream_type_set depth v a).
Proof. unfold avia_av_stream_type_set. stays_run. Qed.
Lemma stays_wdt t : stays (W := W) (wdt_turn depth t).
Proof. unfold wdt_turn, wdt_half. stays_run. Qed.
#[local] Hint Resolve stays_pts stays_bypass stays_stream_type stays_wdt : stays.

Lemma stays_step op : playing_op op -> stays (W := W) (av_step depth op).
Proof.
  intros Hop. destruct op; cbn [av_step playing_op] in *; try done;
    unfold ignore, avia_av_pid_set, avia_av_set_audio_attenuation, avia_av_register_video_event_handler,
      avia_av_unregister_video_event_handler; stays_run.
Qed.

Lemma stays_run_ops ops : Forall playing_op ops -> stays (W := W) (av_run depth ops).
Proof.
  intros H. induction H as [|op ops Hop _ IH]; cbn [av_run]; [apply stays_ret|].
  pose proof (stays_step op Hop). stays_run.
Qed.

(** C20: On a chip that answers, any sequence of calls that play, of interrupts
    and of turns of the watchdog returns: every wait in them ends, no access
    goes to registers that are not mapped and none reads arguments that are not
    there.  The chip is ready afterwards, the variables are in their ranges if
    they were before. *)
Theorem av_playing_returns ops (s : S) :
  live s -> Forall playing_op ops ->
  runs (av_run depth ops) s (fun _ s' => live s' /\ (av_valid s -> av_valid s')).
Proof.
  intros Hl Hops. destruct (stays_run_ops ops Hops s Hl) as (a & s' & E & Hl').
  exists a, s'. split; [done|]. split; [done|]. intros Hv. exact (run_valid depth ops s Hv a s' E).
Qed.
End Playing.

(** ** A restart that fails *)

Section Failed.
Context {W : Type} {B : AvBus W}.
Abbreviation S := (@av_state W).

Lemma unmapped_read mode a (s : S) : aviamem s = false -> avia_av_read mode a s = Fault.
Proof. intros H. unfold avia_av_read, mem_out. rewrite mbind_bind, mget_bind. by rewrite H. Qed.
Lemma unmapped_write mode a v (s : S) : aviamem s = false -> avia_av_write mode a v s = Fault.
Proof. intros H. unfold avia_av_write, mem_out. rewrite mbind_bind, mget_bind. by rewrite H. Qed.
Lemma unmapped_status_loop n t (s : S) : aviamem s = false -> status_addr_loop n t s = Fault.
Proof. intros H. destruct n; cbn [status_addr_loop]; by apply mbind_Fault, unmapped_read. Qed.

(** A start that does not return 0 has given the registers back. *)
Definition unmapped_unless (r : Z) (s' : S) : Prop := r <> 0 -> aviamem s' = false.

Lemma ends_unmapped {A} (m : M S A) (k : A -> M S Z) (s : S) :
  (forall a s', ends (k a) s' unmapped_unless) -> ends (mbind_ m k) s unmapped_unless.
Proof. intros Hk. eapply (ends_bind m k s (fun _ _ => True)); [done|]. intros. apply Hk. Qed.

Lemma ends_zero (s : S) : ends (mret_ 0) s unmapped_unless.
Proof. apply ends_ret. by intros []. Qed.
Lemma ends_given_back e (s : S) : ends (unmap ;;; mret_ e) s unmapped_unless.
Proof. intros r s' E. injection E as <- <-. by intros _. Qed.
Lemma ends_given_back_irq e (s : S) : ends (unmap ;;; free_irq ;;; mret_ e) s unmapped_unless.
Proof. intros r s' E. injection E as <- <-. by intros _. Qed.

Ltac unmapped_step :=
  lazymatch goal with
  | |- forall r s', ?m ?s = Ok (r, s') -> _ => change (ends m s unmapped_unless)
  | |- ends (mret_ _) _ _ => apply ends_zero
  | |- ends (mbind_ unmap (fun _ => mret_ _)) _ _ => apply ends_given_back
  | |- ends (mbind_ unmap _) _ _ => apply ends_given_back_irq
  | |- ends (mbind_ _ _) _ _ => apply ends_unmapped; intros
  | |- ends (finish_init _) _ _ => unfold finish_init
  | |- _ => case_match
  end.

Lemma init_unmapped cmd (s : S) : ends (avia_av_init cmd) s unmapped_unless.
Proof.
  unfold avia_av_init. intros r s'. rewrite mget_bind. revert r s'.
  destruct (aviamem s) eqn:Em; intros r s'.
  - rewrite mret_bind. cbn [negb]. revert r s'. repeat unmapped_step.
  - unfold on_world at 1. unfold mbind_ at 1. cbn [res_bind fst snd].
    destruct (av_ioremap (world s)) as [[] w]; cbn [fst snd negb]; revert r s'.
    + repeat unmapped_step.
    + intros r s' E. injection E as <- <-. by intros _.
Qed.

(** C38: When waking the chip up fails the registers are not mapped any more:
    every later command, interrupt, wake-up's standby and access faults, and
    the functions that restart the chip do not look at the failure. *)
Theorem failed_wakeup_faults cmd (s : S) :
  ends (avia_av_standby cmd 0) s (fun r s' => r <> 0 ->
    aviamem s' = false /\
    (forall depth c a, avia_av_cmd (Datatypes.S depth) c a s' = Fault) /\
    (forall cmd', avia_av_standby cmd' 1 s' = Fault) /\
    avia_av_interrupt s' = Fault /\ avia_av_get_video_size s' = Fault).
Proof.
  unfold avia_av_standby at 1. cbn [Z.eqb]. eapply ends_bind; [apply init_unmapped|].
  cbv beta. intros r s0 H0. apply ends_ret. destruct (Z.eqb_spec r 0) as [->|Hr]; [done|]. intros _.
  specialize (H0 Hr). split; [done|]. split; [|split; [|split]].
  - intros depth c a. cbn [avia_av_cmd]. apply mbind_Fault. unfold avia_cmd_status_get_addr, jiffies.
    rewrite mgets_bind. by apply mbind_Fault, unmapped_status_loop.
  - intros cmd'. unfold avia_av_standby, avia_av_event_exit, amod. cbn [Z.eqb]. rewrite mmodify_bind.
    by apply mbind_Fault, unmapped_write.
  - by apply mbind_Fault, unmapped_read.
  - by apply mbind_Fault, unmapped_read.
Qed.
End Failed.

(** ** A chip with commands

    The words of [avchip], but for three that belong to the processor of the
    chip: the configuration is taken at once, the processor is idle, and an
    interrupt by the host gives the address of a status, unless the chip is
    mute. *)

Record talker (mute : bool) := mk_talker { tk : avchip; tk_ready : bool }.
Arguments mk_talker {mute} _ _.
Arguments tk {mute} _.
Arguments tk_ready {mute} _.

Definition tk_status : Z := 0x1f00.
Definition tk_own (m a : Z) : bool :=
  (m =? TM_DRAM) && ((a =? STATUS_ADDRESS) || (a =? NEW_AUDIO_CONFIG) || (a =? PROC_STATE)).

Section Talker.
Context {mute : bool}.
Definition tk_word (w : talker mute) (m a : Z) : Z :=
  if tk_own m a then
    if a =? STATUS_ADDRESS then (if tk_ready w then tk_status else 0)
    else if a =? PROC_STATE then PROC_STATE_IDLE else 0
  else ch_cells (tk w) m a.
Definition tk_out (i v : Z) (w : talker mute) : talker mute :=
  mk_talker (ch_out i v (tk w))
    (if negb (i =? 0) then tk_ready w
     else if decide (ch_selected (tk w) = (TM_GBUS, 0)) then (Z.testbit v 6 && negb mute) || tk_ready w
     else if decide (ch_selected (tk w) = (TM_DRAM, STATUS_ADDRESS)) then false else tk_ready w).
Definition tk_pass (n : Z) (w : talker mute) : talker mute := mk_talker (ch_pass n (tk w)) (tk_ready w).

#[export] Instance talker_bus : AvBus (talker mute) := {
  av_in i w := (byte_of (tk_word w (ch_selected (tk w)).1 (ch_selected (tk w)).2) i, w);
  av_out := tk_out;
  av_jiffies w := ch_time (tk w);
  av_schedule n w := tk_pass (Z.max 1 n) w;
  av_mdelay n w := tk_pass (n / 10) w;
  av_udelay _ w := w;
  av_cmd_sleep n w := (0, tk_pass n w);
  av_fp_reset _ w := w;
  av_siumcr w := w;
  av_ioremap w := (true, w);
  av_request_irq w := (true, w);
  av_free_irq w := w;
  av_alloc w := (true, w);
  av_kernel_thread w := (7, w);
  av_open _ w := ch_file (tk w);
  av_call_handler _ _ _ _ w := w;
  av_write_message _ w := w;
}.

#[export] Instance talker_window : AvWindow (talker mute).
Proof.
  refine {| latch w := ch_latch (tk w); cell := tk_word; plain m a := negb (tk_own m a) |}; try done.
  - intros i v w m a Hi. unfold tk_word. cbn. replace (i =? 0) with false by lia. done.
  - intros v w m a Hp. unfold tk_word. apply negb_true_iff in Hp. rewrite Hp. done.
Defined.

#[export] Instance talker_ready : AvReady (talker mute).
Proof.
  refine {| ready w := tk_ready w = true |}; try done.
  intros i v w Hi Hs Hr. cbn. destruct (Z.eqb_spec i 0) as [->|]; cbn [negb]; [|done].
  case_decide; [by rewrite Hr, orb_true_r|]. case_decide as Hc; [|done]. by destruct (Hs eq_refl).
Defined.

(** The chip with the file [file], when the microcode runs. *)
Definition talking (file : option (Z * list Z)) : talker mute := mk_talker (chip_zero file) (negb mute).
End Talker.

#[export] Instance talker_answers : AvAnswers (talker false).
Proof.
  refine {| status_addr := tk_status |}; [done|..].
  - intros v w Hs Hv. change (tk_ready (tk_out 0 v w) = true). unfold tk_out. cbn [Z.eqb negb tk_ready].
    rewrite decide_True by done. by rewrite Hv.
  - intros i w Hi Hr Hs. cbn [av_in talker_bus fst].
    assert (ch_selected (tk w) = (TM_DRAM, STATUS_ADDRESS)) as -> by exact Hs. cbn [fst snd].
    unfold tk_word. change (tk_own _ _) with true. cbv iota. rewrite Z.eqb_refl.
    change (tk_ready w = true) in Hr. by rewrite Hr.
Defined.

Definition talker_state {mute} (w : talker mute) : av_state :=
  mk_av_state true 1 0 true 7 0 false 0x64 0x65 3 3 44100 1 1 6 0 0 0 0 0 0 false 2 "/lib"%string 0 None false w.

Lemma av_playing_returns_witness :
  exists s', av_run 1 [OpPlayVideo 2; OpPlayAudio 2; OpSyncMode 6; OpInterrupt; OpPlayVideo 1; OpBypass 1; OpPlayAudio 3]
      (talker_state (mute := false) (talking None)) = Ok (tt, s') /\
    play_state_video s' = 1 /\ play_state_audio s' = 3 /\ bypass_mode s' = 1 /\ av_valid s'.
Proof.
  destruct (av_playing_returns (W := talker false) 1 ltac:(lia)
    [OpPlayVideo 2; OpPlayAudio 2; OpSyncMode 6; OpInterrupt; OpPlayVideo 1; OpBypass 1; OpPlayAudio 3]
    (talker_state (talking None))) as ([] & s' & E & Hl & Hv).
  - done.
  - repeat constructor.
  - exists s'. split; [exact E|]. vm_compute in E. injection E as <-.
    split; [reflexivity|]. split; [reflexivity|]. split; [reflexivity|]. apply Hv.
    split; cbn; unfold a_play_state, a_pid, a_sync_mode, a_rate; auto; try lia; done.
Defined.

(** ** A chip that does not answer

    It is there, its microcode can be loaded and starts, but it takes no
    command. *)

Definition blank_file : Z * list Z := (12400, replicate (Z.to_nat 12400) 0).
Definition blank_words : list Z := replicate (Z.to_nat 3100) 0.

Lemma blank_is_words : words_of blank_file.2 = blank_words.
Proof. vm_compute. reflexivity. Qed.
Lemma blank_length : zlen blank_file.2 = 12400.
Proof. vm_compute. reflexivity. Qed.

(** The invariant of such a chip. *)
Definition deaf_ready : AvReady (talker true).
Proof.
  refine {| ready w := tk_ready w = false /\ ch_file (tk w) = Some blank_file |}; try done.
  intros i v w Hi _ [Hr Hf]. split; [|done]. change (tk_ready (tk_out i v w) = false). unfold tk_out.
  cbn [tk_ready]. rewrite Hr. repeat case_match; try done. by rewrite andb_false_r.
Defined.

Section Deaf.
#[local] Existing Instance deaf_ready.
Abbreviation W := (talker true).
Abbreviation S := (@av_state W).

Lemma deaf_of_world (f : W -> W) (s : S) :
  live s -> (forall w, tk_ready (f w) = tk_ready w) -> (forall w, ch_file (tk (f w)) = ch_file (tk w)) ->
  live (set_world (f (world s)) s).
Proof. intros (Hm & Hr & Hf) H1 H2. split; [done|]. split; cbn [world set_world]; [by rewrite H1|by rewrite H2]. Qed.

(** Reading one of the chip's own words. *)
Lemma own_read a v (s : S) : live s -> tk_own TM_DRAM (a22 a) = true ->
  (forall w, tk_ready w = false -> tk_word (mute := true) w TM_DRAM (a22 a) = v) -> 0 <= v < 2 ^ 32 ->
  exists w', avia_av_dram_read a s = Ok (v, set_world w' s) /\ live (set_world w' s) /\
    ch_time (tk w') = ch_time (tk (world s)).
Proof.
  intros (Hm & Hr & Hf) Ho Hv Hr32. unfold avia_av_dram_read, avia_av_read. fold (a22 a).
  rewrite !mem_out_bind by done. cbn [world set_world]. fold (select TM_DRAM (a22 a) (world s)).
  set (w0 := select TM_DRAM (a22 a) (world s)).
  rewrite !mem_in_bind by done. cbn [world set_world av_in talker_bus fst snd].
  assert (ch_selected (tk w0) = (TM_DRAM, a22 a)) as ->.
  { change (selected w0 = (TM_DRAM, a22 a)). unfold w0. apply select_selected. by left. }
  cbn [fst snd]. assert (ready w0) as [Hr0 Hf0] by (by apply ready_select).
  rewrite Hv by done. rewrite word_bytes. unfold u32. rewrite Z.mod_small by lia.
  exists w0. by split_and!.
Qed.

Lemma status_read_0 (s : S) : live s ->
  exists w', avia_av_dram_read STATUS_ADDRESS s = Ok (0, set_world w' s) /\ live (set_world w' s) /\
    ch_time (tk w') = ch_time (tk (world s)).
Proof. intros Hl. apply own_read; try done. intros w Hw. unfold tk_word. cbn. by rewrite Hw. Qed.

Lemma time_left now k : 0 <= k <= 200 ->
  time_before (now + k) (u32 (now + HZ * 2)) = (k <? 200).
Proof.
  intros Hk. unfold time_before, u32, s32. change (HZ * 2) with 200.
  rewrite (Z.mod_eq (now + 200)) by lia.
  replace (now + k - (now + 200 - 2 ^ 32 * ((now + 200) / 2 ^ 32)) + 2 ^ 31)
    with (k - 200 + 2 ^ 31 + (now + 200) / 2 ^ 32 * 2 ^ 32) by lia.
  rewrite Z.mod_add, Z.mod_small by lia. lia.
Qed.

Lemma status_loop_ends now n k (s : S) :
  live s -> ch_time (tk (world s)) = now + k -> 0 <= k <= 200 -> 200 - k <= Z.of_nat n ->
  exists w', status_addr_loop n (u32 (now + HZ * 2)) s = Ok (tt, set_world w' s) /\ live (set_world w' s).
Proof.
  revert k s. induction n as [|n IH]; intros k s Hl Ht Hk Hn; cbn [status_addr_loop];
    destruct (status_read_0 s Hl) as (w1 & E1 & Hl1 & Ht1); rewrite (mbind_Ok _ _ _ _ _ E1);
    unfold jiffies; rewrite mgets_bind; cbn [world set_world av_jiffies talker_bus];
    rewrite Ht1, Ht, time_left by done; cbn [Z.eqb andb].
  - replace (k <? 200) with false by lia. by exists w1.
  - destruct (Z.ltb_spec k 200); [|by exists w1].
    unfold to_world at 1. rewrite mmodify_bind. cbn [world set_world av_schedule talker_bus].
    destruct (IH (k + 1) (set_world (tk_pass 1 w1) (set_world w1 s))) as (w' & E & Hl'); try lia.
    + by apply (deaf_of_world (tk_pass 1) (set_world w1 s)).
    + cbn. lia.
    + exists w'. done.
Qed.

Lemma no_status (s : S) : live s ->
  exists w', avia_cmd_status_get_addr s = Ok (0, set_world w' s) /\ live (set_world w' s).
Proof.
  intros Hl. unfold avia_cmd_status_get_addr, jiffies. rewrite mgets_bind.
  destruct (status_loop_ends (ch_time (tk (world s))) wait_fuel 0 s Hl) as (w & E & Hl'); [lia|lia|unfold wait_fuel; lia|].
  cbn [av_jiffies talker_bus]. rewrite (mbind_Ok _ _ _ _ _ E).
  destruct (status_read_0 _ Hl') as (w' & E' & Hl'' & _). exists w'. done.
Qed.

(** Starting it. *)
Lemma stays_dram_writes l : Forall (fun p => a22 p.1 <> STATUS_ADDRESS) l -> stays (W := W) (dram_writes l).
Proof.
  intros H. induction H as [|[reg v] l Hp _ IH]; cbn [dram_writes]; [apply stays_ret|].
  apply stays_bind; [by apply stays_dram_write|done].
Qed.
Lemma stays_gbus_sequence l : stays (W := W) (gbus_sequence l).
Proof. induction l as [|[reg v] l IH]; cbn [gbus_sequence]; stays_run. Qed.
Lemma stays_gbus_update f : stays (W := W) (gbus_update f).
Proof. unfold gbus_update. stays_run. Qed.
Lemma stays_same_world f : (forall w : W, f w = w) -> stays (to_world (W := W) f).
Proof. intros H. apply stays_to_world. intros w. by rewrite H. Qed.
#[local] Hint Resolve stays_gbus_sequence stays_gbus_update : stays.
#[local] Hint Extern 1 (stays (dram_writes _)) => (apply stays_dram_writes; repeat constructor; done) : stays.
#[local] Hint Extern 1 (stays (to_world _)) => (apply stays_same_world; done) : stays.

Lemma stays_audio_init r : stays (W := W) (avia_av_audio_init r).
Proof. unfold avia_av_audio_init. stays_run. Qed.
Lemma stays_set_default : stays (W := W) avia_av_set_default.
Proof. unfold avia_av_set_default. stays_run. Qed.
Lemma stays_sdram_init : stays (W := W) sdram_init.
Proof. unfold sdram_init. stays_run. Qed.
Lemma stays_imem_writes l i : stays (W := W) (imem_writes l i).
Proof. revert i. induction l; intros i; cbn [imem_writes]; unfold avia_av_imem_write; stays_run. Qed.
Lemma stays_imem_verify l n : stays (W := W) (imem_verify l n).
Proof. revert n. induction l; intros n; cbn [imem_verify]; stays_run. Qed.

Lemma blank_gbus (s : S) : avia_av_gbus_initial blank_words s = Ok (tt, s) /\
  avia_av_gbus_final blank_words s = Ok (tt, s) /\ avia_av_load_microcode blank_words s = Ok (0, s).
Proof. split_and!; vm_compute; reflexivity. Qed.
Lemma blank_imem : slice blank_words (UX_FIRST_SECTION_START + UX_SECTION_DATA_OFFSET + UX_SECTION_DATA_IMEM) 256
  = Ok (replicate 256 0).
Proof. vm_compute. reflexivity. Qed.
Lemma stays_blank : stays (W := W) (avia_av_gbus_initial blank_words) /\
  stays (W := W) (avia_av_gbus_final blank_words) /\ stays (W := W) (avia_av_load_microcode blank_words).
Proof. split_and!; intros s Hl; destruct (blank_gbus s) as (H1 & H2 & H3); eexists _, s; eauto. Qed.

Lemma stays_start : stays (W := W) (start_chip blank_words).
Proof.
  destruct stays_blank as (H1 & H2 & H3). pose proof stays_audio_init. pose proof stays_set_default.
  pose proof stays_sdram_init.
  assert (stays (W := W) (avia_av_load_imem_image blank_words (UX_FIRST_SECTION_START + UX_SECTION_DATA_OFFSET))).
  { unfold avia_av_load_imem_image. rewrite blank_imem.
    pose proof stays_imem_writes. pose proof stays_imem_verify. stays_run. }
  unfold start_chip. stays_run.
Qed.

Lemma idle_reads : forall w : W, tk_ready w = false -> tk_word w TM_DRAM (a22 PROC_STATE) = PROC_STATE_IDLE.
Proof. done. Qed.

Lemma wait_own reg v ms b (s : S) : live s -> tk_own TM_DRAM (a22 reg) = true -> 0 <= v < 2 ^ 32 ->
  (forall w, tk_ready w = false -> tk_word (mute := true) w TM_DRAM (a22 reg) = v) ->
  exists s', avia_av_wait reg v ms b s = Ok (0, s') /\ live s'.
Proof.
  intros Hl Ho Hr Hv. destruct (own_read reg v s Hl Ho Hv Hr) as (w' & E & Hl' & _).
  exists (set_world w' s). split; [|done]. unfold avia_av_wait. cbn [wait_loop].
  rewrite (mbind_Ok _ _ _ _ _ E). by rewrite Z.eqb_refl.
Qed.

Lemma config_taken b (s : S) : live s -> exists s', avia_av_new_audio_config b s = Ok (0, s') /\ live s'.
Proof.
  intros Hl. unfold avia_av_new_audio_config.
  destruct (stays_dram_write NEW_AUDIO_CONFIG 0x0001 ltac:(done) s Hl) as ([] & s1 & E1 & Hl1).
  rewrite (mbind_Ok _ _ _ _ _ E1).
  destruct (wait_own NEW_AUDIO_CONFIG 0 100 b s1 Hl1) as (s2 & E2 & Hl2); try done.
  rewrite (mbind_Ok _ _ _ _ _ E2). by exists s2.
Qed.

(** [loops m]: on this chip [m] does not return. *)
Definition loops {A} (m : M S A) : Prop := forall s, live s -> m s = Diverge.

Lemma loops_bind {A C} (m : M S A) (k : A -> M S C) : stays m -> (forall a, loops (k a)) -> loops (mbind_ m k).
Proof. intros Hm Hk s Hl. destruct (Hm s Hl) as (a & s' & E & Hl'). rewrite (mbind_Ok _ _ _ _ _ E). by apply Hk. Qed.
Lemma loops_here {A C} (m : M S A) (k : A -> M S C) : loops m -> loops (mbind_ m k).
Proof. intros Hm s Hl. unfold mbind_. by rewrite Hm. Qed.
Lemma loops_at {A C} (m : M S A) (k : A -> M S C) (s : S) a s' :
  m s = Ok (a, s') -> live s' -> loops (k a) -> mbind_ m k s = Diverge.
Proof. intros E Hl Hk. rewrite (mbind_Ok _ _ _ _ _ E). by apply Hk. Qed.

Lemma firmware_found (s : S) : live s ->
  avia_av_firmware_read s = Ok (Some blank_file.2, set_world (world s) s).
Proof.
  intros (Hm & Hr & Hf). unfold avia_av_firmware_read, firmware_name. rewrite mgets_bind, mget_bind.
  cbn [av_open talker_bus]. rewrite Hf. unfold blank_file at 1. cbn [Z.leb Z.geb orb].
  change ((12400 <=? 0) || (12400 >=? 144 * 1024)) with false. cbv iota.
  unfold on_world at 1. unfold mbind_ at 1. cbn [av_alloc talker_bus fst snd res_bind negb].
  replace (zlen _ =? 12400) with true; [done|]. symmetry. apply Z.eqb_eq, blank_length.
Qed.

Lemma read_some mode a (s : S) : live s ->
  exists v w', avia_av_read mode a s = Ok (v, set_world w' s) /\ live (set_world w' s).
Proof.
  intros Hl. destruct (stays_read mode a s Hl) as (v & s' & E & Hl'). destruct Hl as [Hm Hr].
  exists v. revert E. unfold avia_av_read. rewrite !mem_out_bind by done. rewrite !mem_in_bind by done.
  cbn [world set_world]. intros [= <- <-]. by eexists.
Qed.

Lemma finish_loops (cmd : Z -> list Z -> M S Z) : (forall c a, loops (cmd c a)) -> loops (finish_init cmd).
Proof.
  intros Hc. unfold finish_init.
  assert (stays (W := W) avia_av_event_init).
  { unfold avia_av_event_init. apply stays_bind; [by apply stays_amod|]. intros _.
    apply stays_bind; [by apply stays_on_world|]. intros ok. stays_run. }
  apply loops_bind; [done|]. intros _.
  do 2 (apply loops_bind; [by apply stays_dram_write|]; intros _).
  apply loops_here, Hc.
Qed.

(** From the microcode on. *)
Lemma started_loops (cmd : Z -> list Z -> M S Z) :
  (forall c a, loops (cmd c a)) ->
  loops (start_chip blank_words ;;;
    let! r := avia_av_wait PROC_STATE PROC_STATE_IDLE 100 false in
    if r <? 0 then
      let! _ := avia_av_dram_read PROC_STATE in
      unmap ;;; free_irq ;;; mret_ (- EIO)
    else
      let! r := avia_av_new_audio_config false in
      if r <? 0 then unmap ;;; free_irq ;;; mret_ (- EIO)
      else finish_init cmd).
Proof.
  intros Hc. apply loops_bind; [apply stays_start|]. intros _ s Hl.
  destruct (wait_own PROC_STATE PROC_STATE_IDLE 100 false s Hl) as (s1 & E1 & Hl1); try done.
  rewrite (mbind_Ok _ _ _ _ _ E1). cbn [Z.ltb Z.compare].
  destruct (config_taken false s1 Hl1) as (s2 & E2 & Hl2). rewrite (mbind_Ok _ _ _ _ _ E2).
  cbn [Z.ltb Z.compare]. by apply finish_loops.
Qed.

Lemma init_loops (cmd : Z -> list Z -> M S Z) (s : S) :
  (forall c a, loops (cmd c a)) -> live s -> irq_held s = false -> avia_av_init cmd s = Diverge.
Proof.
  intros Hc Hl Hi. unfold avia_av_init. rewrite mget_bind. pose proof Hl as (Hm & _). rewrite Hm, mret_bind.
  cbn [negb]. unfold amod at 1. rewrite mmodify_bind. rewrite mem_in_bind by done.
  cbn [world set_world set_aviamem av_in talker_bus snd]. set (s1 := set_world _ _).
  assert (live s1) as H1 by (by destruct Hl). assert (irq_held s1 = false) as I1 by done. clearbody s1. clear Hl Hm Hi s.
  unfold avia_av_gbus_read. destruct (read_some TM_GBUS 0 s1 H1) as (v & w & E & H2).
  rewrite (mbind_Ok _ _ _ _ _ E). unfold amod at 1. rewrite mmodify_bind. set (s2 := set_aviarev _ _).
  assert (live s2) as H3 by (by destruct H2). assert (irq_held s2 = false) as I2 by done. clearbody s2. clear H1 H2 I1 E.
  rewrite (mbind_Ok _ _ _ _ _ (firmware_found s2 H3)). cbv beta iota zeta. rewrite blank_is_words.
  unfold to_world at 1. rewrite mmodify_bind, mget_bind. cbn [world set_world irq_held av_siumcr talker_bus].
  rewrite I2. unfold on_world at 1. unfold mbind_ at 1.
  cbn [world set_world av_request_irq talker_bus fst snd res_bind negb].
  refine (loops_bind _ _ _ _ _ _); [by apply stays_amod| |by destruct H3]. intros _.
  apply loops_bind.
  { case_match; [|apply stays_ret]. apply stays_bind; [by apply stays_on_world|]. intros. by apply stays_amod. }
  intros _. by apply started_loops.
Qed.

Lemma write_step {A} mode a v (k : unit -> M S A) (s : S) :
  kind mode -> (mode, a22 a) <> (TM_DRAM, STATUS_ADDRESS) -> live s ->
  exists s', mbind_ (avia_av_write mode a v) k s = k tt s' /\ live s' /\ irq_held s' = irq_held s.
Proof.
  intros Hk Ha Hl. rewrite (mbind_Ok _ _ _ _ _ (write_exact mode a v s (proj1 Hl))).
  eexists. split; [reflexivity|]. split; [by apply live_written|done].
Qed.
Lemma free_irq_step {A} (k : unit -> M S A) (s : S) : live s ->
  exists s', mbind_ free_irq k s = k tt s' /\ live s' /\ irq_held s' = false.
Proof. intros Hl. exists (set_irq_held false (set_world (world s) s)). by destruct Hl. Qed.
Lemma reset_step {A} v (k : unit -> M S A) (s : S) : live s ->
  exists s', mbind_ (to_world (av_fp_reset v)) k s = k tt s' /\ live s' /\ irq_held s' = irq_held s.
Proof. intros Hl. exists (set_world (world s) s). by destruct Hl. Qed.
Lemma event_exit_step {A} (k : unit -> M S A) (s : S) : live s ->
  exists s', mbind_ avia_av_event_exit k s = k tt s' /\ live s'.
Proof. intros Hl. eexists. split; [reflexivity|]. by destruct Hl. Qed.

Lemma standby_sleeps cmd (s : S) : live s ->
  exists s', avia_av_standby cmd 1 s = Ok (0, s') /\ live s' /\ irq_held s' = false.
Proof.
  intros Hl. unfold avia_av_standby, avia_av_dram_write, avia_av_gbus_write.
  change (1 =? 0) with false. cbv iota.
  assert (kind TM_DRAM /\ kind TM_GBUS) as [KD KG] by (split; [by left|by right; right; left]).
  match goal with |- context [mbind_ avia_av_event_exit ?k s] => destruct (event_exit_step k s Hl) as (s1 & -> & H1) end.
  match goal with |- context [mbind_ (avia_av_write ?m ?a ?v) ?k s1] =>
    destruct (write_step m a v k s1) as (s2 & -> & H2 & _); [done|done|done|] end.
  match goal with |- context [mbind_ free_irq ?k s2] => destruct (free_irq_step k s2 H2) as (s3 & -> & H3 & I3) end.
  match goal with |- context [mbind_ (avia_av_write ?m ?a ?v) ?k s3] =>
    destruct (write_step m a v k s3) as (s4 & -> & H4 & I4); [done|done|done|] end.
  match goal with |- context [mbind_ (avia_av_write ?m ?a ?v) ?k s4] =>
    destruct (write_step m a v k s4) as (s5 & -> & H5 & I5); [done|done|done|] end.
  match goal with |- context [mbind_ (to_world (av_fp_reset ?v)) ?k s5] => destruct (reset_step v k s5 H5) as (s6 & -> & H6 & I6) end.
  exists s6. split; [done|]. split; [done|]. congruence.
Qed.

Lemma cmd_loops depth c args : loops (avia_av_cmd depth c args).
Proof.
  revert c args. induction depth as [|depth IH]; intros c args s Hl; [done|]. cbn [avia_av_cmd].
  destruct (no_status s Hl) as (w & E & Hl'). rewrite (mbind_Ok _ _ _ _ _ E). cbn [Z.eqb].
  destruct (standby_sleeps (avia_av_cmd depth) _ Hl') as (s2 & E2 & Hl2 & Hi2).
  rewrite (mbind_Ok _ _ _ _ _ E2). unfold avia_av_standby, mbind_. cbn [Z.eqb].
  by rewrite (init_loops _ s2 IH).
Qed.

(** On this chip, whose microcode (a file of zeros) starts but that never
    answers a command, a command does not return: it restarts the chip, which
    gives the command [Reset], which restarts the chip.  No bound on the nested
    calls is enough. *)
Lemma deaf_chip_never_returns depth c args (s : S) :
  aviamem s = true -> tk_ready (world s) = false -> ch_file (tk (world s)) = Some blank_file ->
  avia_av_cmd depth c args s = Diverge.
Proof. intros Hm Hr Hf. by apply cmd_loops. Qed.
End Deaf.

Lemma deaf_chip_never_returns_witness :
  avia_av_cmd 1000 Freeze [1] (talker_state (@talking true (Some blank_file))) = Diverge.
Proof. apply deaf_chip_never_returns; reflexivity. Defined.
