(* ===== verification/AvNapi.v ===== *)
(** * The device files of the decoder (avia/avia_av_napi.c)

    The ioctls, the writes and the events of the video and the audio device of
    an adapter: they drive the decoder ([AvCore]), the queues of the
    demultiplexer that feed it from memory ([AviaDmx]) and the open counts of
    the two devices ([DvbDev]).  The decoder's interrupt puts a change of the
    picture's size into a ring of events.

    The two chips share one world; the ring is part of it, because the
    interrupt handler of the decoder changes it ([napi_bus]).  A call of the
    demultiplexer's or the decoder's driver runs on its part of the state. *)

From S2P Require Import Prelude DemuxState DvbDev AviaUcode AviaQueue AviaGt AviaAccel AviaDmx AviaNapi AvCore.
Open Scope Z_scope.

(** ** Constants (linux/dvb/video.h, linux/dvb/audio.h) *)

Definition VIDEO_FORMAT_4_3 := 0.
Definition VIDEO_FORMAT_16_9 := 1.
Definition VIDEO_FORMAT_221_1 := 2.
Definition VIDEO_SYSTEM_PAL := 0.
Definition VIDEO_SYSTEM_NTSC := 1.
Definition VIDEO_PAN_SCAN := 0.
Definition VIDEO_LETTER_BOX := 1.
Definition VIDEO_CENTER_CUT_OUT := 2.
Definition VIDEO_SOURCE_DEMUX := 0.
Definition VIDEO_SOURCE_MEMORY := 1.
Definition VIDEO_STOPPED := 0.
Definition VIDEO_PLAYING := 1.
Definition VIDEO_FREEZED := 2.
Definition VIDEO_EVENT_SIZE_CHANGED := 1.
Definition VIDEO_CAP_MPEG1 := 1.
Definition VIDEO_CAP_MPEG2 := 2.
Definition AUDIO_SOURCE_DEMUX := 0.
Definition AUDIO_SOURCE_MEMORY := 1.
Definition AUDIO_STOPPED := 0.
Definition AUDIO_PLAYING := 1.
Definition AUDIO_PAUSED := 2.
Definition AUDIO_STEREO := 0.
Definition AUDIO_MONO_LEFT := 1.
Definition AUDIO_MONO_RIGHT := 2.
Definition AUDIO_CAP_MP1 := 4.
Definition AUDIO_CAP_MP2 := 8.
Definition AUDIO_CAP_AC3 := 256.
Definition AVIA_AV_VIDEO_CAPS := Z.lor VIDEO_CAP_MPEG1 VIDEO_CAP_MPEG2.
Definition AVIA_AV_AUDIO_CAPS := Z.lor (Z.lor AUDIO_CAP_MP1 AUDIO_CAP_MP2) AUDIO_CAP_AC3.

Inductive video_cmd :=
| VIDEO_STOP | VIDEO_PLAY | VIDEO_FREEZE | VIDEO_CONTINUE | VIDEO_SELECT_SOURCE | VIDEO_SET_BLANK
| VIDEO_GET_STATUS | VIDEO_GET_EVENT | VIDEO_SET_DISPLAY_FORMAT | VIDEO_STILLPICTURE | VIDEO_FAST_FORWARD
| VIDEO_SLOWMOTION | VIDEO_GET_CAPABILITIES | VIDEO_CLEAR_BUFFER | VIDEO_SET_ID | VIDEO_SET_STREAMTYPE
| VIDEO_SET_FORMAT | VIDEO_SET_SYSTEM | VIDEO_SET_HIGHLIGHT | VIDEO_SET_SPU | VIDEO_SET_SPU_PALETTE
| VIDEO_GET_NAVI | VIDEO_SET_ATTRIBUTES | VIDEO_GET_SIZE | VIDEO_OTHER.

(** [AUDIO_SET_MIXER] points to the two volumes. *)
Inductive audio_cmd :=
| AUDIO_STOP | AUDIO_PLAY | AUDIO_PAUSE | AUDIO_CONTINUE | AUDIO_SELECT_SOURCE | AUDIO_SET_MUTE
| AUDIO_SET_AV_SYNC | AUDIO_SET_BYPASS_MODE | AUDIO_CHANNEL_SELECT | AUDIO_GET_STATUS | AUDIO_GET_CAPABILITIES
| AUDIO_CLEAR_BUFFER | AUDIO_SET_ID | AUDIO_SET_MIXER (vol_left vol_right : Z) | AUDIO_SET_STREAMTYPE | AUDIO_SET_EXT_ID
| AUDIO_SET_ATTRIBUTES | AUDIO_SET_KARAOKE | AUDIO_OTHER.

(** ** State *)

Record audio_status := mk_audio_status {
  AV_sync_state : Z;
  mute_state : Z;
  audio_play_state : Z;
  audio_stream_source : Z;
  channel_select : Z;
  audio_bypass_mode : Z;
  volume_left : Z;
  volume_right : Z;
}.
#[export] Instance audio_status_eta : Eta audio_status := fun r =>
  mk_audio_status (AV_sync_state r) (mute_state r) (audio_play_state r) (audio_stream_source r)
    (channel_select r) (audio_bypass_mode r) (volume_left r) (volume_right r).
Definition set_AV_sync_state := setter! AV_sync_state.
Definition set_mute_state := setter! mute_state.
Definition set_audio_play_state := setter! audio_play_state.
Definition set_audio_stream_source := setter! audio_stream_source.
Definition set_channel_select := setter! channel_select.
Definition set_audio_bypass_mode := setter! audio_bypass_mode.
Definition set_volume_left := setter! volume_left.
Definition set_volume_right := setter! volume_right.

Record video_status := mk_video_status {
  video_blank : Z;
  vid_play_state : Z;
  video_stream_source : Z;
  video_format : Z;
  display_format : Z;
}.
#[export] Instance video_status_eta : Eta video_status := fun r =>
  mk_video_status (video_blank r) (vid_play_state r) (video_stream_source r) (video_format r) (display_format r).
Definition set_video_blank := setter! video_blank.
Definition set_vid_play_state := setter! vid_play_state.
Definition set_video_stream_source := setter! video_stream_source.
Definition set_video_format := setter! video_format.
Definition set_display_format := setter! display_format.

Record video_event := mk_video_event { ev_type : Z; ev_timestamp : Z; ev_w : Z; ev_h : Z; ev_aspect_ratio : Z }.

Record dvb_video_events := mk_video_events {
  vevents : list video_event;
  veventw : Z;
  veventr : Z;
  voverflow : bool;
}.
#[export] Instance dvb_video_events_eta : Eta dvb_video_events := fun r =>
  mk_video_events (vevents r) (veventw r) (veventr r) (voverflow r).
Definition set_vevents := setter! vevents.
Definition set_veventw := setter! veventw.
Definition set_veventr := setter! veventr.
Definition set_voverflow := setter! voverflow.

Definition MAX_VIDEO_EVENT : Z := 8.

(** ** The ring of events *)

Definition event_ratio (ratio : Z) : Z :=
  if ratio =? 2 then VIDEO_FORMAT_4_3
  else if ratio =? 3 then VIDEO_FORMAT_16_9
  else if ratio =? 4 then VIDEO_FORMAT_221_1
  else VIDEO_FORMAT_4_3.

(** The timestamp is not set. *)
Definition avia_av_napi_video_add_event (width height aspect_ratio : Z) (ev : dvb_video_events) : dvb_video_events :=
  let wp := Z.rem (veventw ev + 1) MAX_VIDEO_EVENT in
  let ev := if wp =? veventr ev
            then set_veventr (Z.rem (veventr ev + 1) MAX_VIDEO_EVENT) (set_voverflow true ev) else ev in
  set_veventw wp (set_vevents (alter (fun e =>
    mk_video_event VIDEO_EVENT_SIZE_CHANGED (ev_timestamp e) width height (event_ratio aspect_ratio))
    (Z.to_nat (veventw ev)) (vevents ev)) ev).

(** The function by which the decoder's driver knows it. *)
Definition VIDEO_ADD_EVENT : Z := 1.

#[export] Instance napi_bus {W} (B : AvBus W) : AvBus (dvb_video_events * W) := {
  av_in i w := let r := av_in i w.2 in (r.1, (w.1, r.2));
  av_out i v w := (w.1, av_out i v w.2);
  av_jiffies w := av_jiffies w.2;
  av_schedule n w := (w.1, av_schedule n w.2);
  av_mdelay n w := (w.1, av_mdelay n w.2);
  av_udelay n w := (w.1, av_udelay n w.2);
  av_cmd_sleep n w := let r := av_cmd_sleep n w.2 in (r.1, (w.1, r.2));
  av_fp_reset n w := (w.1, av_fp_reset n w.2);
  av_siumcr w := (w.1, av_siumcr w.2);
  av_ioremap w := let r := av_ioremap w.2 in (r.1, (w.1, r.2));
  av_request_irq w := let r := av_request_irq w.2 in (r.1, (w.1, r.2));
  av_free_irq w := (w.1, av_free_irq w.2);
  av_alloc w := let r := av_alloc w.2 in (r.1, (w.1, r.2));
  av_kernel_thread w := let r := av_kernel_thread w.2 in (r.1, (w.1, r.2));
  av_open p w := av_open p w.2;
  av_call_handler h x y r w :=
    if h =? VIDEO_ADD_EVENT then (avia_av_napi_video_add_event x y r w.1, w.2)
    else (w.1, av_call_handler h x y r w.2);
  av_write_message m w := (w.1, av_write_message m w.2);
}.

(** The PCM mixer of the chip, if it is configured. *)
Class NapiPcm (W : Type) := { pcm_set_mpeg_attenuation : option (Z -> Z -> W -> W) }.

Section AvNapi.
Context {W : Type} {BA : AvBus W} {BG : GtBus W} {A : GtAccel W} {K : GtClients W} {P : NapiPcm W}.
Context (depth : nat).

Record av_napi := mk_av_napi {
  audiostate : audio_status;
  videostate : video_status;
  have_audio : bool;
  have_video : bool;
  need_audio_pts : bool;
  video_dev : option Z;
  audio_dev : option Z;
  devices : dvbdev;
  gt : gtdmx;
  av : @av_state (dvb_video_events * W);
}.
#[export] Instance av_napi_eta : Eta av_napi := fun r =>
  mk_av_napi (audiostate r) (videostate r) (have_audio r) (have_video r) (need_audio_pts r) (video_dev r)
    (audio_dev r) (devices r) (gt r) (av r).
Definition set_audiostate := setter! audiostate.
Definition set_videostate := setter! videostate.
Definition set_have_audio := setter! have_audio.
Definition set_have_video := setter! have_video.
Definition set_need_audio_pts := setter! need_audio_pts.
Definition set_video_dev := setter! video_dev.
Definition set_audio_dev := setter! audio_dev.
Definition set_devices := setter! devices.
Definition set_gt := setter! gt.
Definition set_av := setter! av.

Abbreviation NM := (M av_napi).

Definition nmod (f : av_napi -> av_napi) : NM unit := mmodify f.
Definition amodify (f : audio_status -> audio_status) : NM unit := nmod (fun s => set_audiostate (f (audiostate s)) s).
Definition vmodify (f : video_status -> video_status) : NM unit := nmod (fun s => set_videostate (f (videostate s)) s).

(** A call of the decoder's driver, of the demultiplexer's, of the registry. *)
Definition on_av {X} (m : M (@av_state (dvb_video_events * W)) X) : NM X :=
  fun s => let? r := m (av s) in Ok (r.1, set_av r.2 s).
Definition on_gt {X} (m : M (gtdmx * W) X) : NM X :=
  fun s =>
    let w := world (av s) in
    let? r := m (gt s, w.2) in
    Ok (r.1, set_gt r.2.1 (set_av (set_world (w.1, r.2.2) (av s)) s)).
Definition on_registry {X} (m : M dvbdev X) : NM X :=
  fun s => let? r := m (devices s) in Ok (r.1, set_devices r.2 s).

Definition video_events (s : av_napi) : dvb_video_events := (world (av s)).1.
Definition upd_events (f : dvb_video_events -> dvb_video_events) : NM unit :=
  nmod (fun s => set_av (set_world (f (world (av s)).1, (world (av s)).2) (av s)) s).

(** The result of the call does not matter. *)
Definition call {X} (m : M (@av_state (dvb_video_events * W)) X) : NM unit := let! _ := on_av m in mret_ tt.

(** ** Feeds *)

Definition wrong_feed (f : dvb_demux_feed) : bool :=
  (negb (fd_type f =? DMX_TYPE_TS) && negb (fd_type f =? DMX_TYPE_PES)) || (Z.land (ts_type f) TS_DECODER =? 0).

Definition stream_type_of (f : dvb_demux_feed) : NM unit :=
  if negb (Z.land (ts_type f) TS_PAYLOAD_ONLY =? 0)
  then call (avia_av_stream_type_set depth AVIA_AV_STREAM_TYPE_PES AVIA_AV_STREAM_TYPE_PES)
  else call (avia_av_stream_type_set depth AVIA_AV_STREAM_TYPE_0 AVIA_AV_STREAM_TYPE_0).

Definition avia_av_napi_decoder_start (f : dvb_demux_feed) : NM Z :=
  if wrong_feed f then mret_ (- EINVAL)
  else if pes_type f =? DMX_TS_PES_AUDIO then
    call (avia_av_pid_set AVIA_AV_TYPE_AUDIO (fd_pid f)) ;;;
    stream_type_of f ;;;
    let! s := mget in
    (if audio_play_state (audiostate s) =? AUDIO_PLAYING
     then call (avia_av_play_state_set_audio depth AVIA_AV_PLAY_STATE_PLAYING) else mret_ tt) ;;;
    nmod (set_have_audio true) ;;; mret_ 0
  else if pes_type f =? DMX_TS_PES_VIDEO then
    call (avia_av_pid_set AVIA_AV_TYPE_VIDEO (fd_pid f)) ;;;
    stream_type_of f ;;;
    let! s := mget in
    (if vid_play_state (videostate s) =? VIDEO_PLAYING
     then call (avia_av_play_state_set_video depth AVIA_AV_PLAY_STATE_PLAYING) else mret_ tt) ;;;
    nmod (set_have_video true) ;;; mret_ 0
  else mret_ (- EINVAL).

Definition avia_av_napi_decoder_stop (f : dvb_demux_feed) : NM Z :=
  if wrong_feed f then mret_ (- EINVAL)
  else if pes_type f =? DMX_TS_PES_AUDIO then
    call (avia_av_play_state_set_audio depth AVIA_AV_PLAY_STATE_STOPPED) ;;;
    nmod (set_have_audio false) ;;; mret_ 0
  else if pes_type f =? DMX_TS_PES_VIDEO then
    call (avia_av_play_state_set_video depth AVIA_AV_PLAY_STATE_STOPPED) ;;;
    nmod (set_have_video false) ;;; mret_ 0
  else mret_ (- EINVAL).

(** ** Events *)

Definition any_video_event (s : av_napi) : bool := negb (veventw (video_events s) =? veventr (video_events s)).

(** [others]: what happens while this task sleeps; negative: a signal. *)
Definition avia_av_napi_video_get_event (nonblock : bool) (others : NM Z) : NM (Z * option video_event) :=
  let! s := mget in
  if voverflow (video_events s) then upd_events (set_voverflow false) ;;; mret_ (- EOVERFLOW, None) else
  let! ret := (if any_video_event s then mret_ 0
               else if nonblock then mret_ (- EWOULDBLOCK) else others) in
  if ret <? 0 then mret_ (ret, None) else
  let! s := mget in
  let ev := video_events s in
  match vevents ev !! Z.to_nat (veventr ev) with
  | None => mfault
  | Some e =>
      upd_events (set_veventr (Z.rem (veventr ev + 1) MAX_VIDEO_EVENT)) ;;;
      mret_ (0, Some e)
  end.

(** ** The video device *)

(** What is written to the caller's memory. *)
Inductive av_out :=
| NoOut
| OutVideo (st : video_status)
| OutAudio (st : audio_status)
| OutEvent (e : video_event)
| OutCaps (caps : Z)
| OutSize (w h ratio : Z).

Definition ret (r : Z) : NM (Z * av_out) := mret_ (r, NoOut).

(** The number of bits that are set in a word. *)
Definition hweight32 (v : Z) : Z := zlen (List.filter (Z.testbit v) (seqZ 0 32)).

Definition video_select_source (arg : Z) : NM (Z * av_out) :=
  let! s := mget in
  if negb (vid_play_state (videostate s) =? VIDEO_STOPPED) then ret (- EINVAL) else
  let! err :=
    if arg =? VIDEO_SOURCE_DEMUX then on_gt (avia_gt_dmx_disable_clip_mode AVIA_GT_DMX_QUEUE_VIDEO)
    else if arg =? VIDEO_SOURCE_MEMORY then on_gt (avia_gt_dmx_enable_clip_mode AVIA_GT_DMX_QUEUE_VIDEO)
    else mret_ (- EINVAL) in
  if err <? 0 then ret err else
  vmodify (set_video_stream_source arg) ;;; ret 0.

Definition video_set_display_format (arg : Z) : NM (Z * av_out) :=
  let set aval dval :=
    vmodify (set_display_format arg) ;;;
    on_av (avia_av_dram_write ASPECT_RATIO_MODE aval) ;;;
    on_av (avia_av_dram_write DISPLAY_ASPECT_RATIO dval) ;;;
    ret 0 in
  if arg =? VIDEO_PAN_SCAN then set 1 0
  else if arg =? VIDEO_LETTER_BOX then set 2 0
  else if arg =? VIDEO_CENTER_CUT_OUT then set 2 1
  else ret (- EINVAL).

Definition video_set_format (arg : Z) : NM (Z * av_out) :=
  let set v := on_av (avia_av_dram_write FORCE_CODED_ASPECT_RATIO v) ;;; vmodify (set_video_format arg) ;;; ret 0 in
  if arg =? VIDEO_FORMAT_4_3 then set 2
  else if arg =? VIDEO_FORMAT_16_9 then set 3
  else if arg =? VIDEO_FORMAT_221_1 then set 4
  else ret (- EINVAL).

Definition avia_av_napi_video_ioctl (rdonly nonblock : bool) (cmd : video_cmd) (arg : Z) (others : NM Z)
    : NM (Z * av_out) :=
  if rdonly && match cmd with VIDEO_GET_STATUS | VIDEO_GET_EVENT | VIDEO_GET_SIZE => false | _ => true end
  then ret (- EPERM) else
  match cmd with
  | VIDEO_STOP =>
      call (avia_av_play_state_set_video depth AVIA_AV_PLAY_STATE_STOPPED) ;;;
      vmodify (set_vid_play_state VIDEO_STOPPED) ;;; ret 0
  | VIDEO_PLAY =>
      let! s := mget in
      (if have_video s || (video_stream_source (videostate s) =? VIDEO_SOURCE_MEMORY)
       then call (avia_av_play_state_set_video depth AVIA_AV_PLAY_STATE_PLAYING) else mret_ tt) ;;;
      vmodify (set_vid_play_state VIDEO_PLAYING) ;;; ret 0
  | VIDEO_FREEZE =>
      call (avia_av_play_state_set_video depth AVIA_AV_PLAY_STATE_PAUSED) ;;;
      vmodify (set_vid_play_state VIDEO_FREEZED) ;;; ret 0
  | VIDEO_CONTINUE =>
      call (avia_av_play_state_set_video depth AVIA_AV_PLAY_STATE_PLAYING) ;;;
      vmodify (set_vid_play_state VIDEO_PLAYING) ;;; ret 0
  | VIDEO_SELECT_SOURCE => video_select_source arg
  | VIDEO_SET_BLANK => vmodify (set_video_blank (c_bool (negb (arg =? 0)))) ;;; ret 0
  | VIDEO_GET_STATUS => let! s := mget in mret_ (0, OutVideo (videostate s))
  | VIDEO_GET_EVENT =>
      let! r := avia_av_napi_video_get_event nonblock others in
      mret_ (r.1, match r.2 with Some e => OutEvent e | None => NoOut end)
  | VIDEO_SET_DISPLAY_FORMAT => video_set_display_format arg
  | VIDEO_STILLPICTURE =>
      let! s := mget in
      if negb (vid_play_state (videostate s) =? VIDEO_STOPPED) then ret (- EINVAL) else ret (- EOPNOTSUPP)
  | VIDEO_FAST_FORWARD | VIDEO_SLOWMOTION | VIDEO_CLEAR_BUFFER | VIDEO_SET_ID | VIDEO_SET_HIGHLIGHT
  | VIDEO_SET_SPU | VIDEO_SET_SPU_PALETTE | VIDEO_GET_NAVI | VIDEO_SET_ATTRIBUTES => ret (- EOPNOTSUPP)
  | VIDEO_GET_CAPABILITIES => mret_ (0, OutCaps AVIA_AV_VIDEO_CAPS)
  | VIDEO_SET_STREAMTYPE =>
      if (Z.land arg AVIA_AV_VIDEO_CAPS =? 0) || negb (hweight32 arg =? 1) then ret (- EINVAL)
      else if (arg =? VIDEO_CAP_MPEG1) || (arg =? VIDEO_CAP_MPEG2) then
        let! r := on_av (avia_av_stream_type_set depth AVIA_AV_STREAM_TYPE_PES AVIA_AV_STREAM_TYPE_PES) in ret r
      else ret 0
  | VIDEO_SET_FORMAT => video_set_format arg
  | VIDEO_SET_SYSTEM =>
      if arg =? VIDEO_SYSTEM_PAL then call (avia_av_set_video_system depth AVIA_AV_VIDEO_SYSTEM_PAL) ;;; ret 0
      else if arg =? VIDEO_SYSTEM_NTSC then call (avia_av_set_video_system depth AVIA_AV_VIDEO_SYSTEM_NTSC) ;;; ret 0
      else ret (- EINVAL)
  | VIDEO_GET_SIZE =>
      let! r := on_av avia_av_get_video_size in
      mret_ (0, OutSize r.1.1 r.1.2 (event_ratio r.2))
  | VIDEO_OTHER => ret (- ENOIOCTLCMD)
  end.

(** ** The audio device *)

Definition audio_select_source (arg : Z) : NM (Z * av_out) :=
  let! s := mget in
  if negb (audio_play_state (audiostate s) =? AUDIO_STOPPED) then ret (- EINVAL) else
  let! err :=
    if arg =? AUDIO_SOURCE_DEMUX then on_gt (avia_gt_dmx_disable_clip_mode AVIA_GT_DMX_QUEUE_AUDIO)
    else if arg =? AUDIO_SOURCE_MEMORY then on_gt (avia_gt_dmx_enable_clip_mode AVIA_GT_DMX_QUEUE_AUDIO)
    else mret_ (- EINVAL) in
  if err <? 0 then ret err else
  amodify (set_audio_stream_source arg) ;;; ret 0.

Definition update_register (reg : Z) (f : Z -> Z) : NM unit :=
  let! v := on_av (avia_av_dram_read reg) in on_av (avia_av_dram_write reg (f v)).

Definition audio_channel_select (arg : Z) : NM (Z * av_out) :=
  let set val :=
    update_register AUDIO_DAC_MODE (fun v => Z.lor (Z.land v (Z.lnot 0x30)) val) ;;;
    call (avia_av_new_audio_config false) ;;;
    amodify (set_channel_select arg) ;;;
    ret 0 in
  if arg =? AUDIO_STEREO then set 0x00
  else if arg =? AUDIO_MONO_LEFT then set 0x10
  else if arg =? AUDIO_MONO_RIGHT then set 0x20
  else ret (- EINVAL).

Definition volume (v : Z) : Z := if v >? 255 then 255 else v.

Definition audio_set_mixer (vol_left vol_right : Z) : NM (Z * av_out) :=
  amodify (fun a => set_volume_right (volume vol_right) (set_volume_left (volume vol_left) a)) ;;;
  let! s := mget in
  let l := volume_left (audiostate s) in let r := volume_right (audiostate s) in
  call (avia_av_set_audio_attenuation ((255 - Z.max l r) * 96 / 255)) ;;;
  match pcm_set_mpeg_attenuation with
  | Some f => nmod (fun s => set_av (set_world ((world (av s)).1, f (Z.shiftr (l + 1) 1) (Z.shiftr (r + 1) 1) (world (av s)).2) (av s)) s)
  | None => mret_ tt
  end ;;;
  ret 0.

Definition avia_av_napi_audio_ioctl (rdonly : bool) (cmd : audio_cmd) (arg : Z) : NM (Z * av_out) :=
  if rdonly && match cmd with AUDIO_GET_STATUS => false | _ => true end then ret (- EPERM) else
  match cmd with
  | AUDIO_STOP =>
      call (avia_av_play_state_set_audio depth AVIA_AV_PLAY_STATE_STOPPED) ;;;
      amodify (set_audio_play_state AUDIO_STOPPED) ;;; ret 0
  | AUDIO_PLAY =>
      let! s := mget in
      (if have_audio s || (audio_stream_source (audiostate s) =? AUDIO_SOURCE_MEMORY)
       then call (avia_av_play_state_set_audio depth AVIA_AV_PLAY_STATE_PLAYING) else mret_ tt) ;;;
      nmod (set_need_audio_pts true) ;;;
      amodify (set_audio_play_state AUDIO_PLAYING) ;;; ret 0
  | AUDIO_PAUSE =>
      let! s := mget in
      (if audio_play_state (audiostate s) =? AUDIO_PLAYING then
         call (avia_av_play_state_set_audio depth AVIA_AV_PLAY_STATE_PAUSED) ;;;
         amodify (set_audio_play_state AUDIO_PAUSED)
       else mret_ tt) ;;; ret 0
  | AUDIO_CONTINUE =>
      let! s := mget in
      (if audio_play_state (audiostate s) =? AUDIO_PAUSED then
         call (avia_av_play_state_set_audio depth AVIA_AV_PLAY_STATE_PLAYING) ;;;
         amodify (set_audio_play_state AUDIO_PLAYING)
       else mret_ tt) ;;; ret 0
  | AUDIO_SELECT_SOURCE => audio_select_source arg
  | AUDIO_SET_MUTE =>
      update_register AUDIO_CONFIG (fun v => if negb (arg =? 0) then Z.land v (Z.lnot 6) else Z.lor v 6) ;;;
      call (avia_av_new_audio_config false) ;;;
      amodify (set_mute_state (c_bool (negb (arg =? 0)))) ;;; ret 0
  | AUDIO_SET_AV_SYNC =>
      call (avia_av_sync_mode_set (if negb (arg =? 0) then AVIA_AV_SYNC_MODE_AV else AVIA_AV_SYNC_MODE_NONE)) ;;;
      amodify (set_AV_sync_state (s32 arg)) ;;; ret 0
  | AUDIO_SET_BYPASS_MODE =>
      call (avia_av_bypass_mode_set depth (c_bool (arg =? 0))) ;;;
      amodify (set_audio_bypass_mode (s32 arg)) ;;; ret 0
  | AUDIO_CHANNEL_SELECT => audio_channel_select arg
  | AUDIO_GET_STATUS => let! s := mget in mret_ (0, OutAudio (audiostate s))
  | AUDIO_GET_CAPABILITIES => mret_ (0, OutCaps AVIA_AV_AUDIO_CAPS)
  | AUDIO_SET_MIXER vl vr => audio_set_mixer vl vr
  | AUDIO_SET_STREAMTYPE =>
      if (Z.land arg AVIA_AV_AUDIO_CAPS =? 0) || negb (hweight32 arg =? 1) then ret (- EINVAL)
      else if (arg =? AUDIO_CAP_MP1) || (arg =? AUDIO_CAP_MP2) || (arg =? AUDIO_CAP_AC3) then
        let! r := on_av (avia_av_stream_type_set depth AVIA_AV_STREAM_TYPE_PES AVIA_AV_STREAM_TYPE_PES) in ret r
      else ret 0
  | AUDIO_CLEAR_BUFFER | AUDIO_SET_ID | AUDIO_SET_EXT_ID | AUDIO_SET_ATTRIBUTES | AUDIO_SET_KARAOKE => ret (- EOPNOTSUPP)
  | AUDIO_OTHER => ret (- ENOIOCTLCMD)
  end.

(** ** Playback from memory *)

Definition avia_av_napi_video_write (rdonly nonblock : bool) (buf : list Z) : NM Z :=
  let! s := mget in
  if rdonly || negb (video_stream_source (videostate s) =? VIDEO_SOURCE_MEMORY) then mret_ (- EPERM)
  else on_gt (avia_gt_dmx_queue_write AVIA_GT_DMX_QUEUE_VIDEO buf nonblock).

(** [while (i < count - sizeof(struct pes_header))]; [bound] is the right side.
    The header at [i] is read from the buffer; behind its end is a fault, so
    [length buf] turns are enough. *)
Fixpoint pts_loop (fuel : nat) (buf : list Z) (i bound : Z) : NM Z :=
  if i <? bound then
    let! r := on_av (avia_av_audio_pts_to_stc (drop (Z.to_nat i) buf)) in
    if r =? 0 then nmod (set_need_audio_pts false) ;;; mret_ i
    else match fuel with
         | O => fun _ => Diverge
         | S fuel => pts_loop fuel buf (i + 1) bound
         end
  else mret_ i.

Definition avia_av_napi_audio_write (rdonly nonblock : bool) (buf : list Z) : NM Z :=
  let! s := mget in
  if rdonly || negb (audio_stream_source (audiostate s) =? AUDIO_SOURCE_MEMORY) then mret_ (- EPERM) else
  let! i := (if need_audio_pts s then pts_loop (length buf) buf 0 (u32 (zlen buf - pes_header_size)) else mret_ 0) in
  on_gt (avia_gt_dmx_queue_write AVIA_GT_DMX_QUEUE_AUDIO (drop (Z.to_nat i) buf) nonblock).

(** ** Opening, closing, polling *)

(** The shared open and release, on the device of the file. *)
Definition on_device (p : Z) (f : dvb_device -> Z * dvb_device) : NM Z :=
  let! s := mget in
  match find (fun d => dev_ptr d =? p) (concat (map device_list (dvb_adapter_list (devices s)))) with
  | None => mfault
  | Some d =>
      nmod (fun s => set_devices
        (set_dvb_adapter_list (map (upd_device (f d).2) (dvb_adapter_list (devices s))) (devices s)) s) ;;;
      mret_ (f d).1
  end.

Definition avia_av_napi_video_open (p : Z) (rdonly : bool) : NM Z :=
  let! err := on_device p (dvb_generic_open rdonly) in
  if err <? 0 then mret_ err else
  (if rdonly then mret_ tt else upd_events (fun ev => set_veventw 0 (set_veventr 0 ev))) ;;;
  mret_ 0.

Definition avia_av_napi_video_release (p : Z) (rdonly nonblock : bool) : NM Z :=
  (if rdonly then mret_ tt else
     let! _ := avia_av_napi_video_ioctl rdonly nonblock VIDEO_STOP 0 (mret_ 0) in
     let! _ := avia_av_napi_video_ioctl rdonly nonblock VIDEO_SELECT_SOURCE VIDEO_SOURCE_DEMUX (mret_ 0) in
     mret_ tt) ;;;
  on_device p (dvb_generic_release rdonly).

Definition avia_av_napi_audio_open (p : Z) (rdonly : bool) : NM Z := on_device p (dvb_generic_open rdonly).

Definition avia_av_napi_audio_release (p : Z) (rdonly : bool) : NM Z :=
  (if rdonly then mret_ tt else
     let! _ := avia_av_napi_audio_ioctl rdonly AUDIO_STOP 0 in
     let! _ := avia_av_napi_audio_ioctl rdonly AUDIO_SELECT_SOURCE AUDIO_SOURCE_DEMUX in
     mret_ tt) ;;;
  on_device p (dvb_generic_release rdonly).

Definition POLLPRI := 0x0002.
Definition POLLOUT := 0x0004.
Definition POLLWRNORM := 0x0100.

Definition can_write (playing : bool) (queue : Z) : NM Z :=
  if playing then
    let! free := on_gt (avia_gt_dmx_queue_nr_get_bytes_free queue) in
    mret_ (if free >=? 188 then Z.lor POLLOUT POLLWRNORM else 0)
  else mret_ (Z.lor POLLOUT POLLWRNORM).

Definition avia_av_napi_video_poll (rdonly : bool) : NM Z :=
  let! s := mget in
  let mask := if any_video_event s then POLLPRI else 0 in
  let! w := (if rdonly then mret_ 0
             else can_write (vid_play_state (videostate s) =? VIDEO_PLAYING) AVIA_GT_DMX_QUEUE_VIDEO) in
  mret_ (Z.lor mask w).

Definition avia_av_napi_audio_poll : NM Z :=
  let! s := mget in can_write (audio_play_state (audiostate s) =? AUDIO_PLAYING) AVIA_GT_DMX_QUEUE_AUDIO.

(** ** Loading and unloading *)

Definition avia_av_napi_video_dev : dvb_device := mk_dvb_device 0 0 0 (-1) 1 (-1) true true 0.
Definition avia_av_napi_audio_dev : dvb_device := mk_dvb_device 0 0 0 (-1) 1 (-1) true true 0.

(** [alloc], [signal]: see [dvb_register_device]; one for each device. *)
Definition avia_av_napi_init (adap : Z) (alloc signal : bool * bool) : NM Z :=
  amodify (fun _ => mk_audio_status 0 0 AUDIO_STOPPED AUDIO_SOURCE_DEMUX AUDIO_STEREO 1 0 0) ;;;
  vmodify (fun _ => mk_video_status 0 VIDEO_STOPPED VIDEO_SOURCE_DEMUX VIDEO_FORMAT_4_3 VIDEO_CENTER_CUT_OUT) ;;;
  upd_events (fun ev => set_voverflow false (set_veventr 0 (set_veventw 0 ev))) ;;;
  let! result := on_av (avia_av_register_video_event_handler VIDEO_ADD_EVENT) in
  if result <? 0 then mret_ result else
  let! r := on_registry (dvb_register_device adap avia_av_napi_video_dev 0 DVB_DEVICE_VIDEO alloc.1 signal.1) in
  match r.2 with Some p => nmod (set_video_dev p) | None => mret_ tt end ;;;
  if r.1 <? 0 then
    on_av (avia_av_unregister_video_event_handler VIDEO_ADD_EVENT) ;;; mret_ r.1
  else
    let! r := on_registry (dvb_register_device adap avia_av_napi_audio_dev 0 DVB_DEVICE_AUDIO alloc.2 signal.2) in
    match r.2 with Some p => nmod (set_audio_dev p) | None => mret_ tt end ;;;
    if r.1 <? 0 then
      let! s := mget in
      on_registry (dvb_unregister_device (video_dev s)) ;;;
      on_av (avia_av_unregister_video_event_handler VIDEO_ADD_EVENT) ;;; mret_ r.1
    else mret_ 0.

Definition avia_av_napi_exit : NM unit :=
  let! s := mget in
  on_registry (dvb_unregister_device (audio_dev s)) ;;;
  on_registry (dvb_unregister_device (video_dev s)) ;;;
  on_av (avia_av_unregister_video_event_handler VIDEO_ADD_EVENT).

End AvNapi.
