(* ===== verification/AvNapiSpec.v ===== *)
(** * What the device files of the decoder promise

    The decoder plays only what the user has asked for and only what is fed to
    it; the audio written from memory is searched for a time stamp; a change of
    the picture's size is queued once. *)

From Stdlib Require String.
From S2P Require Import Prelude EventRing DemuxState DvbDev AviaUcode AviaQueue AviaGt AviaAccel AviaDmx AviaDmxSpec AviaNapi AvCore AvCoreSpec AvCoreState AvCoreLive AvNapi.
Open Scope Z_scope.

(** An assignment that is not about playing: both halves are as they were. *)
Ltac same_halves := intros; match goal with H : ?I _ |- ?I _ => destruct H as [Hv Ha]; by split end.

Section InStep.
Context {W : Type} {BA : AvBus W} {BG : GtBus W} {A : GtAccel W} {K : GtClients W} {P : NapiPcm W}.
Context (depth : nat).
Abbreviation E := dvb_video_events.
Abbreviation AS := (@av_state (E * W)).
Abbreviation N := (@av_napi W).

(** ** The decoder and the user's wishes *)

Definition video_fed (s : N) : Prop :=
  have_video s = true \/ video_stream_source (videostate s) = VIDEO_SOURCE_MEMORY.
Definition audio_fed (s : N) : Prop :=
  have_audio s = true \/ audio_stream_source (audiostate s) = AUDIO_SOURCE_MEMORY.

Record in_step (s : N) : Prop := {
  step_video :
    play_state_video (av s) = AVIA_AV_PLAY_STATE_STOPPED \/
    play_state_video (av s) = AVIA_AV_PLAY_STATE_PLAYING /\ vid_play_state (videostate s) = VIDEO_PLAYING /\ video_fed s \/
    play_state_video (av s) = AVIA_AV_PLAY_STATE_PAUSED /\ vid_play_state (videostate s) = VIDEO_FREEZED /\ video_fed s;
  step_audio :
    play_state_audio (av s) = AVIA_AV_PLAY_STATE_STOPPED \/
    play_state_audio (av s) = AVIA_AV_PLAY_STATE_PLAYING /\ audio_play_state (audiostate s) = AUDIO_PLAYING /\ audio_fed s \/
    play_state_audio (av s) = AVIA_AV_PLAY_STATE_PAUSED /\ audio_play_state (audiostate s) = AUDIO_PAUSED /\ audio_fed s;
}.

(** Other calls only stop a half of the decoder, if anything. *)
Definition play_only (a a' : AS) : Prop :=
  or_stopped (play_state_audio a) (play_state_audio a') /\ or_stopped (play_state_video a) (play_state_video a').

Lemma play_only_refl a : play_only a a.
Proof. unfold play_only, or_stopped. auto. Qed.
Lemma play_only_kept a : av_kept (play_only a).
Proof. split; [split|..]; intros; unfold play_only, or_stopped in *; cbn; tauto. Qed.
Definition play_only_closed a : av_closed (play_only a) := k_closed _ (play_only_kept a).
Lemma play_only_changed a b (a' : AS) : play_only a a' -> play_only a (set_bypass_mode_changed b a').
Proof. done. Qed.

Lemma in_step_stopped s a : in_step s -> play_only (av s) a -> in_step (set_av a s).
Proof.
  intros [Hv Ha] [[Ea|Ea] [Ev|Ev]]; split; cbn; rewrite ?Ea, ?Ev;
    unfold video_fed, audio_fed in *; cbn in *; auto.
Qed.

(** ** Calls keep them in step *)

Lemma on_av_ends {X} (m : M AS X) (s : N) (Q : X -> AS -> Prop) :
  ends m (av s) Q -> ends (on_av m) s (fun r s' => exists a, Q r a /\ s' = set_av a s).
Proof.
  intros H r s' Hr. unfold on_av in Hr. apply res_bind_Ok in Hr as ([x a] & Hm & Hr).
  injection Hr as <- <-. eauto.
Qed.

Lemma keeps_on_av {X} (m : M AS X) : (forall a, keeps (play_only a) m) -> keeps in_step (on_av m).
Proof.
  intros Hm s Hs. eapply ends_weaken; [apply on_av_ends, (Hm (av s)), play_only_refl|].
  cbv beta. intros r s' (a & Ha & ->). by apply in_step_stopped.
Qed.
Lemma keeps_call {X} (m : M AS X) : (forall a, keeps (play_only a) m) -> keeps in_step (call m).
Proof. intros Hm. unfold call. apply keeps_bind; [by apply keeps_on_av|]. intros. apply keeps_ret. Qed.

(** The demultiplexer's driver touches the world, the registry the devices. *)
Lemma keeps_on_gt {X} (m : M (gtdmx * W) X) : keeps in_step (on_gt m).
Proof.
  intros s Hs r s' Hr. unfold on_gt in Hr. apply res_bind_Ok in Hr as ([x [g w]] & Hm & Hr).
  injection Hr as <- <-. cbn. destruct (in_step_stopped s (set_world ((world (av s)).1, w) (av s)) Hs) as [Hv Ha].
  { unfold play_only, or_stopped. auto. }
  split; [exact Hv|exact Ha].
Qed.
Lemma keeps_nmod f : (forall s, in_step s -> in_step (f s)) -> keeps in_step (nmod (W := W) f).
Proof. apply keeps_modify. Qed.
Lemma keeps_on_device p f : keeps in_step (on_device (W := W) p f).
Proof. unfold on_device. keeps_run. same_halves. Qed.
Lemma keeps_upd_events f : keeps in_step (upd_events (W := W) f).
Proof. apply keeps_nmod. same_halves. Qed.

Lemma keeps_on_read reg : keeps in_step (on_av (W := W) (avia_av_dram_read reg)).
Proof. apply keeps_on_av. intros. apply keeps_dram_read, play_only_closed. Qed.
Lemma keeps_on_write reg v : keeps in_step (on_av (W := W) (avia_av_dram_write reg v)).
Proof. apply keeps_on_av. intros. apply keeps_dram_write, play_only_closed. Qed.
Lemma keeps_call_config b : keeps in_step (call (W := W) (avia_av_new_audio_config b)).
Proof. apply keeps_call. intros. apply keeps_new_audio_config, play_only_closed. Qed.
Lemma keeps_on_streams v a : keeps in_step (on_av (W := W) (avia_av_stream_type_set depth v a)).
Proof. apply keeps_on_av. intros. apply keeps_streams, play_only_kept. Qed.
Lemma keeps_call_streams v a : keeps in_step (call (W := W) (avia_av_stream_type_set depth v a)).
Proof. apply keeps_call. intros. apply keeps_streams, play_only_kept. Qed.
Lemma keeps_call_pid t v : keeps in_step (call (W := W) (avia_av_pid_set t v)).
Proof. apply keeps_call. intros a. unfold avia_av_pid_set. keeps_run; done. Qed.
Lemma keeps_call_system v : keeps in_step (call (W := W) (avia_av_set_video_system depth v)).
Proof. apply keeps_call. intros. apply keeps_video_system, play_only_kept. Qed.
Lemma keeps_call_sync v : keeps in_step (call (W := W) (avia_av_sync_mode_set v)).
Proof. apply keeps_call. intros. apply keeps_sync_mode, play_only_kept. Qed.
Lemma keeps_call_bypass v : keeps in_step (call (W := W) (avia_av_bypass_mode_set depth v)).
Proof. apply keeps_call. intros. apply keeps_bypass, play_only_kept. Qed.
Lemma keeps_on_pts pes : keeps in_step (on_av (W := W) (avia_av_audio_pts_to_stc pes)).
Proof. apply keeps_on_av. intros. apply keeps_pts, play_only_kept. Qed.
Lemma keeps_call_att v : keeps in_step (call (W := W) (avia_av_set_audio_attenuation v)).
Proof.
  apply keeps_call. intros a. pose proof (play_only_closed a). unfold avia_av_set_audio_attenuation. keeps_run.
Qed.
Lemma keeps_on_size : keeps in_step (on_av (W := W) avia_av_get_video_size).
Proof. apply keeps_on_av. intros a. pose proof (play_only_closed a). unfold avia_av_get_video_size. keeps_run. Qed.
End InStep.
#[export] Hint Resolve keeps_on_gt keeps_on_device keeps_upd_events keeps_on_read keeps_on_write keeps_call_config
  keeps_on_streams keeps_call_streams keeps_call_pid keeps_call_system keeps_call_sync keeps_call_bypass
  keeps_on_pts keeps_call_att keeps_on_size : keeps.

(** ** Operations *)

Inductive napi_op {W} :=
| NStart (f : dvb_demux_feed)
| NStop (f : dvb_demux_feed)
| NVideo (rdonly nonblock : bool) (cmd : video_cmd) (arg : Z) (others : M (@av_napi W) Z)
| NAudio (rdonly : bool) (cmd : audio_cmd) (arg : Z)
| NVideoWrite (rdonly nonblock : bool) (buf : list Z)
| NAudioWrite (rdonly nonblock : bool) (buf : list Z)
| NVideoOpen (p : Z) (rdonly : bool)
| NAudioOpen (p : Z) (rdonly : bool)
| NVideoRelease (p : Z) (rdonly nonblock : bool)
| NAudioRelease (p : Z) (rdonly : bool)
| NVideoPoll (rdonly : bool)
| NAudioPoll
| NInterrupt                (* of the decoder *)
| NTimer                    (* for its size events *)
| NWatchdog (t : wdt).
Arguments napi_op : clear implicits.

Section Reach.
Context {W : Type} {BA : AvBus W} {BG : GtBus W} {A : GtAccel W} {K : GtClients W} {P : NapiPcm W}.
Context (depth : nat).
Abbreviation AS := (@av_state (dvb_video_events * W)).
Abbreviation N := (@av_napi W).

Definition no_result {X} (m : M N X) : M N unit := let! _ := m in mret_ tt.

Definition napi_step (op : napi_op W) : M N unit :=
  match op with
  | NStart f => no_result (avia_av_napi_decoder_start depth f)
  | NStop f => no_result (avia_av_napi_decoder_stop depth f)
  | NVideo rdonly nonblock cmd arg others => no_result (avia_av_napi_video_ioctl depth rdonly nonblock cmd arg others)
  | NAudio rdonly cmd arg => no_result (avia_av_napi_audio_ioctl depth rdonly cmd arg)
  | NVideoWrite rdonly nonblock buf => no_result (avia_av_napi_video_write rdonly nonblock buf)
  | NAudioWrite rdonly nonblock buf => no_result (avia_av_napi_audio_write rdonly nonblock buf)
  | NVideoOpen p rdonly => no_result (avia_av_napi_video_open p rdonly)
  | NAudioOpen p rdonly => no_result (avia_av_napi_audio_open p rdonly)
  | NVideoRelease p rdonly nonblock => no_result (avia_av_napi_video_release depth p rdonly nonblock)
  | NAudioRelease p rdonly => no_result (avia_av_napi_audio_release depth p rdonly)
  | NVideoPoll rdonly => no_result (avia_av_napi_video_poll rdonly)
  | NAudioPoll => no_result avia_av_napi_audio_poll
  | NInterrupt => on_av avia_av_interrupt
  | NTimer => on_av avia_av_event_timer_function
  | NWatchdog t => no_result (on_av (wdt_turn depth t))
  end.

(** Going on without a stream starts the decoder all the same; a sleeping
    reader of events lets calls happen that are allowed. *)
Definition allowed (op : napi_op W) (s : N) : Prop :=
  match op with
  | NVideo _ _ VIDEO_CONTINUE _ _ => video_fed s
  | NAudio _ AUDIO_CONTINUE _ => audio_fed s
  | NVideo _ _ VIDEO_GET_EVENT _ others => keeps in_step others
  | _ => True
  end.

(** The states after such calls, from one in which the decoder has been started
    and plays nothing. *)
Inductive napi_reach : N -> Prop :=
| reach_stopped s : stopped (av s) = true -> napi_reach s
| reach_step op s u s' : napi_reach s -> allowed op s -> napi_step op s = Ok (u, s') -> napi_reach s'.

(** ** Play states *)

Lemma set_video_ends n (s : N) :
  ends (call (avia_av_play_state_set_video depth n)) s (fun _ s' => exists a, s' = set_av a s /\
    or_stopped (play_state_audio (av s)) (play_state_audio a) /\
    play_state_video a = if video_may n (av s) then n else play_state_video (av s)).
Proof.
  unfold call. eapply ends_bind; [eapply on_av_ends, (play_video_ends depth _ (play_only_closed (av s))), play_only_refl|].
  cbv beta. intros r s1 (a & Ha & ->). apply ends_ret. exists a. split; [easy|].
  destruct (video_may n (av s)).
  - destruct Ha as (_ & a0 & [Ha _] & ->). by cbn.
  - destruct Ha as [_ ->]. split; [by left|easy].
Qed.
Lemma set_audio_ends n (s : N) :
  ends (call (avia_av_play_state_set_audio depth n)) s (fun _ s' => exists a, s' = set_av a s /\
    or_stopped (play_state_video (av s)) (play_state_video a) /\
    play_state_audio a = if audio_may n (av s) then n else play_state_audio (av s)).
Proof.
  unfold call. eapply ends_bind;
    [eapply on_av_ends, (play_audio_ends depth _ (play_only_closed (av s))); [done|apply play_only_refl]|].
  cbv beta. intros r s1 (a & Ha & ->). apply ends_ret. exists a. split; [easy|].
  destruct (audio_may n (av s)).
  - destruct Ha as (_ & a0 & [_ Ha] & ->). by cbn.
  - destruct Ha as [_ ->]. split; [by left|easy].
Qed.

(** Then the status is set. *)
Lemma then_nmod {X} (m : M N unit) (f : N -> N) (r : X) (s : N) Q (J : X -> N -> Prop) :
  ends m s Q -> (forall u s', Q u s' -> J r (f s')) -> ends (m ;;; nmod f ;;; mret_ r) s J.
Proof.
  intros Hm Hf. eapply ends_bind; [exact Hm|]. intros u s' Hq x s'' Hx. injection Hx as <- <-. eauto.
Qed.

(** What each call does to the two halves. *)
Lemma in_step_video (s : N) a v :
  in_step s -> or_stopped (play_state_audio (av s)) (play_state_audio a) ->
  play_state_video a = AVIA_AV_PLAY_STATE_STOPPED \/
  play_state_video a = AVIA_AV_PLAY_STATE_PLAYING /\ v = VIDEO_PLAYING /\ video_fed s \/
  play_state_video a = AVIA_AV_PLAY_STATE_PAUSED /\ v = VIDEO_FREEZED /\ video_fed s ->
  in_step (set_videostate (set_vid_play_state v (videostate s)) (set_av a s)).
Proof.
  intros [Hv Ha] Eo Ev. split; unfold video_fed, audio_fed in *; cbn in *; [exact Ev|].
  destruct Eo as [-> | ->]; [exact Ha|by left].
Qed.
Lemma in_step_audio (s : N) a v :
  in_step s -> or_stopped (play_state_video (av s)) (play_state_video a) ->
  play_state_audio a = AVIA_AV_PLAY_STATE_STOPPED \/
  play_state_audio a = AVIA_AV_PLAY_STATE_PLAYING /\ v = AUDIO_PLAYING /\ audio_fed s \/
  play_state_audio a = AVIA_AV_PLAY_STATE_PAUSED /\ v = AUDIO_PAUSED /\ audio_fed s ->
  in_step (set_audiostate (set_audio_play_state v (audiostate s)) (set_av a s)).
Proof.
  intros [Hv Ha] Eo Ev. split; unfold video_fed, audio_fed in *; cbn in *; [|exact Ev].
  destruct Eo as [-> | ->]; [exact Hv|by left].
Qed.

(** The transitions of a half that is in step. *)
Lemma video_stops (s : N) v : in_step s ->
  v = (if video_may AVIA_AV_PLAY_STATE_STOPPED (av s) then AVIA_AV_PLAY_STATE_STOPPED else play_state_video (av s)) ->
  v = AVIA_AV_PLAY_STATE_STOPPED.
Proof. intros [[E|[(E & _)|(E & _)]] _] ->; unfold video_may; rewrite E; done. Qed.
Lemma video_plays (s : N) v : in_step s ->
  v = (if video_may AVIA_AV_PLAY_STATE_PLAYING (av s) then AVIA_AV_PLAY_STATE_PLAYING else play_state_video (av s)) ->
  v = AVIA_AV_PLAY_STATE_PLAYING.
Proof. intros [[E|[(E & _)|(E & _)]] _] ->; unfold video_may; rewrite E; done. Qed.
Lemma video_pauses (s : N) v : in_step s ->
  v = (if video_may AVIA_AV_PLAY_STATE_PAUSED (av s) then AVIA_AV_PLAY_STATE_PAUSED else play_state_video (av s)) ->
  v = AVIA_AV_PLAY_STATE_STOPPED \/ v = AVIA_AV_PLAY_STATE_PAUSED /\ video_fed s.
Proof. intros [[E|[(E & _ & F)|(E & _ & F)]] _] ->; unfold video_may; rewrite E; auto. Qed.
Lemma audio_stops (s : N) v : in_step s ->
  v = (if audio_may AVIA_AV_PLAY_STATE_STOPPED (av s) then AVIA_AV_PLAY_STATE_STOPPED else play_state_audio (av s)) ->
  v = AVIA_AV_PLAY_STATE_STOPPED.
Proof. intros [_ [E|[(E & _)|(E & _)]]] ->; unfold audio_may; rewrite E; done. Qed.
Lemma audio_pauses (s : N) v : in_step s ->
  v = (if audio_may AVIA_AV_PLAY_STATE_PAUSED (av s) then AVIA_AV_PLAY_STATE_PAUSED else play_state_audio (av s)) ->
  v = AVIA_AV_PLAY_STATE_STOPPED \/ v = AVIA_AV_PLAY_STATE_PAUSED /\ audio_fed s.
Proof. intros [_ [E|[(E & _ & F)|(E & _ & F)]]] ->; unfold audio_may; rewrite E; auto. Qed.
Lemma not_fed_stopped (s : N) : in_step s ->
  (video_fed s \/ play_state_video (av s) = AVIA_AV_PLAY_STATE_STOPPED) /\
  (audio_fed s \/ play_state_audio (av s) = AVIA_AV_PLAY_STATE_STOPPED).
Proof. intros [[E|[(E & _ & F)|(E & _ & F)]] [E'|[(E' & _ & F')|(E' & _ & F')]]]; auto. Qed.

(** [set_video_ends] and then the user's state. *)
Lemma set_video_user n v {X} (r : X) (s : N) :
  in_step s ->
  (forall x, x = (if video_may n (av s) then n else play_state_video (av s)) ->
    x = AVIA_AV_PLAY_STATE_STOPPED \/ x = AVIA_AV_PLAY_STATE_PLAYING /\ v = VIDEO_PLAYING /\ video_fed s \/
    x = AVIA_AV_PLAY_STATE_PAUSED /\ v = VIDEO_FREEZED /\ video_fed s) ->
  ends (call (avia_av_play_state_set_video depth n) ;;; vmodify (set_vid_play_state v) ;;; mret_ r) s
    (fun _ s' => in_step s').
Proof.
  intros Hs Hx. unfold vmodify. eapply then_nmod; [apply set_video_ends|]. cbv beta.
  intros u s' (a & -> & Ho & Ea). apply (in_step_video s a v); [done|done|by apply Hx].
Qed.
Lemma set_audio_user n v {X} (r : X) (s : N) :
  in_step s ->
  (forall x, x = (if audio_may n (av s) then n else play_state_audio (av s)) ->
    x = AVIA_AV_PLAY_STATE_STOPPED \/ x = AVIA_AV_PLAY_STATE_PLAYING /\ v = AUDIO_PLAYING /\ audio_fed s \/
    x = AVIA_AV_PLAY_STATE_PAUSED /\ v = AUDIO_PAUSED /\ audio_fed s) ->
  ends (call (avia_av_play_state_set_audio depth n) ;;; amodify (set_audio_play_state v) ;;; mret_ r) s
    (fun _ s' => in_step s').
Proof.
  intros Hs Hx. unfold amodify. eapply then_nmod; [apply set_audio_ends|]. cbv beta.
  intros u s' (a & -> & Ho & Ea). apply (in_step_audio s a v); [done|done|by apply Hx].
Qed.

(** ** Each operation *)

Lemma keeps_get_ends {X} (k : N -> M N X) :
  (forall s, in_step s -> ends (k s) s (fun _ s' => in_step s')) -> keeps in_step (mbind_ mget k).
Proof. apply keeps_get_bind. Qed.

Lemma keeps_at {X} (I : N -> Prop) (m : M N X) s : keeps I m -> I s -> ends m s (fun _ s' => I s').
Proof. intros Hm Hs. by apply Hm. Qed.

Lemma keeps_stream_type f : keeps in_step (stream_type_of depth f).
Proof. unfold stream_type_of. keeps_run. Qed.
#[local] Hint Resolve keeps_stream_type : keeps.

Lemma keeps_have_audio : keeps in_step (nmod (W := W) (set_have_audio true)).
Proof.
  apply keeps_modify. intros s [Hv Ha]. split; [exact Hv|]. unfold audio_fed in *. cbn. tauto.
Qed.
Lemma keeps_have_video : keeps in_step (nmod (W := W) (set_have_video true)).
Proof.
  apply keeps_modify. intros s [Hv Ha]. split; [|exact Ha]. unfold video_fed in *. cbn. tauto.
Qed.
#[local] Hint Resolve keeps_have_audio keeps_have_video : keeps.

Lemma keeps_start f : keeps in_step (avia_av_napi_decoder_start depth f).
Proof.
  unfold avia_av_napi_decoder_start. destruct (wrong_feed f); [apply keeps_ret|].
  destruct (pes_type f =? DMX_TS_PES_AUDIO); [|destruct (pes_type f =? DMX_TS_PES_VIDEO); [|apply keeps_ret]].
  - do 2 (apply keeps_bind; [solve [keeps_run]|intros _]). apply keeps_get_ends. intros s Hs.
    destruct (audio_play_state (audiostate s) =? AUDIO_PLAYING) eqn:Ep;
      [|apply keeps_at; [keeps_run|done]].
    eapply then_nmod; [apply set_audio_ends|]. cbv beta. intros u s' (a & -> & Ho & Ea).
    destruct Hs as [Hv Ha]. split; unfold video_fed, audio_fed in *; cbn.
    + destruct Ho as [-> | ->]; [exact Hv|by left].
    + right; left. apply Z.eqb_eq in Ep. auto.
  - do 2 (apply keeps_bind; [solve [keeps_run]|intros _]). apply keeps_get_ends. intros s Hs.
    destruct (vid_play_state (videostate s) =? VIDEO_PLAYING) eqn:Ep;
      [|apply keeps_at; [keeps_run|done]].
    eapply then_nmod; [apply set_video_ends|]. cbv beta. intros u s' (a & -> & Ho & Ea).
    pose proof (video_plays s _ Hs Ea) as Ea'. destruct Hs as [Hv Ha].
    split; unfold video_fed, audio_fed in *; cbn.
    + right; left. apply Z.eqb_eq in Ep. auto.
    + destruct Ho as [-> | ->]; [exact Ha|by left].
Qed.

Lemma keeps_stop f : keeps in_step (avia_av_napi_decoder_stop depth f).
Proof.
  unfold avia_av_napi_decoder_stop. destruct (wrong_feed f); [apply keeps_ret|].
  destruct (pes_type f =? DMX_TS_PES_AUDIO); [|destruct (pes_type f =? DMX_TS_PES_VIDEO); [|apply keeps_ret]];
    intros s Hs.
  - eapply then_nmod; [apply set_audio_ends|]. cbv beta. intros u s' (a & -> & Ho & Ea).
    pose proof (audio_stops s _ Hs Ea) as Ea'. destruct Hs as [Hv _]. split; unfold video_fed in *; cbn; [|by left].
    destruct Ho as [-> | ->]; [exact Hv|by left].
  - eapply then_nmod; [apply set_video_ends|]. cbv beta. intros u s' (a & -> & Ho & Ea).
    pose proof (video_stops s _ Hs Ea) as Ea'. destruct Hs as [_ Ha]. split; unfold audio_fed in *; cbn; [by left|].
    destruct Ho as [-> | ->]; [exact Ha|by left].
Qed.

(** Selecting the source: only while the user's state is stopped, and then the
    decoder is. *)
Definition video_idle (s : N) : Prop := in_step s /\ play_state_video (av s) = AVIA_AV_PLAY_STATE_STOPPED.
Definition audio_idle (s : N) : Prop := in_step s /\ play_state_audio (av s) = AVIA_AV_PLAY_STATE_STOPPED.

Lemma on_gt_ends {X} (m : M (gtdmx * W) X) (s : N) :
  ends (on_gt m) s (fun _ s' => exists g w, s' = set_gt g (set_av (set_world w (av s)) s)).
Proof.
  intros r s' Hr. unfold on_gt in Hr. apply res_bind_Ok in Hr as ([x [g w]] & Hm & Hr). injection Hr as <- <-. eauto.
Qed.
Lemma idle_on_gt {X} (m : M (gtdmx * W) X) : keeps video_idle (on_gt m) /\ keeps audio_idle (on_gt m).
Proof.
  split; intros s [Hs Hi]; (eapply ends_weaken; [apply on_gt_ends|]); cbv beta; intros r s' (g & w & ->);
    destruct Hs as [Hv Ha]; by split.
Qed.

Lemma keeps_video_source arg : keeps in_step (video_select_source (W := W) arg).
Proof.
  unfold video_select_source. apply keeps_get_ends. intros s Hs.
  destruct (negb (vid_play_state (videostate s) =? VIDEO_STOPPED)) eqn:Eu; [by apply ends_ret|].
  apply negb_false_iff, Z.eqb_eq in Eu.
  assert (video_idle s) as Hi.
  { split; [done|]. destruct Hs as [[E|[(_ & E & _)|(_ & E & _)]] _]; [done|rewrite E in Eu; done|rewrite E in Eu; done]. }
  eapply (ends_bind _ _ s (fun _ s' => video_idle s')).
  - apply keeps_at; [|done]. repeat case_match; [apply idle_on_gt|apply idle_on_gt|apply keeps_ret].
  - cbv beta. intros err s1 [[_ Ha] Ev]. destruct (err <? 0); [by apply ends_ret; split; [left|]|].
    intros r s' E. injection E as <- <-. split; [by left|exact Ha].
Qed.
Lemma keeps_audio_source arg : keeps in_step (audio_select_source (W := W) arg).
Proof.
  unfold audio_select_source. apply keeps_get_ends. intros s Hs.
  destruct (negb (audio_play_state (audiostate s) =? AUDIO_STOPPED)) eqn:Eu; [by apply ends_ret|].
  apply negb_false_iff, Z.eqb_eq in Eu.
  assert (audio_idle s) as Hi.
  { split; [done|]. destruct Hs as [_ [E|[(_ & E & _)|(_ & E & _)]]]; [done|rewrite E in Eu; done|rewrite E in Eu; done]. }
  eapply (ends_bind _ _ s (fun _ s' => audio_idle s')).
  - apply keeps_at; [|done]. repeat case_match; [apply idle_on_gt|apply idle_on_gt|apply keeps_ret].
  - cbv beta. intros err s1 [[Hv _] Ea]. destruct (err <? 0); [by apply ends_ret; split; [|left]|].
    intros r s' E. injection E as <- <-. split; [exact Hv|by left].
Qed.
#[local] Hint Resolve keeps_start keeps_stop keeps_video_source keeps_audio_source : keeps.

Lemma keeps_vmodify f : (forall v, vid_play_state (f v) = vid_play_state v) ->
  (forall v, video_stream_source (f v) = video_stream_source v) -> keeps in_step (vmodify (W := W) f).
Proof.
  intros H1 H2. apply keeps_modify. intros s [Hv Ha]. split; [|exact Ha]. unfold video_fed in *. cbn. by rewrite H1, H2.
Qed.
Lemma keeps_amodify f : (forall a, audio_play_state (f a) = audio_play_state a) ->
  (forall a, audio_stream_source (f a) = audio_stream_source a) -> keeps in_step (amodify (W := W) f).
Proof.
  intros H1 H2. apply keeps_modify. intros s [Hv Ha]. split; [exact Hv|]. unfold audio_fed in *. cbn. by rewrite H1, H2.
Qed.
#[local] Hint Extern 1 (keeps in_step (vmodify _)) => (apply keeps_vmodify; done) : keeps.
#[local] Hint Extern 1 (keeps in_step (amodify _)) => (apply keeps_amodify; done) : keeps.
#[local] Hint Extern 1 (keeps in_step (nmod _)) => (apply keeps_modify; same_halves) : keeps.

Lemma keeps_get_event nonblock others :
  keeps in_step others -> keeps in_step (avia_av_napi_video_get_event (W := W) nonblock others).
Proof. intros Ho. unfold avia_av_napi_video_get_event. keeps_run. Qed.

Lemma keeps_video_stop : keeps in_step
  (call (avia_av_play_state_set_video depth AVIA_AV_PLAY_STATE_STOPPED) ;;;
   vmodify (set_vid_play_state VIDEO_STOPPED) ;;; ret (W := W) 0).
Proof. intros s Hs. apply set_video_user; [done|]. intros x Hx. left. by apply (video_stops s). Qed.
Lemma keeps_video_play : keeps in_step
  (let! s := mget in
   (if have_video s || (video_stream_source (videostate s) =? VIDEO_SOURCE_MEMORY)
    then call (avia_av_play_state_set_video depth AVIA_AV_PLAY_STATE_PLAYING) else mret_ tt) ;;;
   vmodify (set_vid_play_state VIDEO_PLAYING) ;;; ret (W := W) 0).
Proof.
  apply keeps_get_ends. intros s Hs. destruct (_ || _) eqn:Ef.
  - apply set_video_user; [done|]. intros x Hx. right; left. rewrite (video_plays s x Hs Hx).
    split; [done|]. split; [done|]. apply orb_true_iff in Ef. unfold video_fed. rewrite Z.eqb_eq in Ef. exact Ef.
  - destruct (not_fed_stopped s Hs) as [[F|F] _].
    { destruct F as [F|F]; rewrite F in Ef; [done|]. by rewrite orb_true_r in Ef. }
    intros r s' E. injection E as <- <-. destruct Hs as [_ Ha]. split; [by left|exact Ha].
Qed.
Lemma keeps_video_freeze : keeps in_step
  (call (avia_av_play_state_set_video depth AVIA_AV_PLAY_STATE_PAUSED) ;;;
   vmodify (set_vid_play_state VIDEO_FREEZED) ;;; ret (W := W) 0).
Proof.
  intros s Hs. apply set_video_user; [done|]. intros x Hx.
  destruct (video_pauses s x Hs Hx) as [->|[-> F]]; auto.
Qed.
(** With a stream, going on is a start. *)
Lemma video_continue s r : in_step s -> video_fed s ->
  ends (avia_av_napi_video_ioctl (W := W) depth false r VIDEO_CONTINUE 0 (mret_ 0)) s (fun _ s' => in_step s').
Proof.
  intros Hs Hf. apply set_video_user; [done|]. intros x Hx. right; left.
  by rewrite (video_plays s x Hs Hx).
Qed.

Lemma keeps_video rdonly nonblock cmd arg others :
  cmd <> VIDEO_CONTINUE -> (cmd = VIDEO_GET_EVENT -> keeps in_step others) ->
  keeps in_step (avia_av_napi_video_ioctl depth rdonly nonblock cmd arg others).
Proof.
  intros Hc Ho. unfold avia_av_napi_video_ioctl. destruct (rdonly && _); [apply keeps_ret|].
  pose proof keeps_video_stop. pose proof keeps_video_play. pose proof keeps_video_freeze.
  assert (cmd = VIDEO_GET_EVENT -> keeps in_step (avia_av_napi_video_get_event nonblock others)) as Hg
    by (intros; by apply keeps_get_event, Ho).
  destruct cmd; try done; try (specialize (Hg eq_refl)); try assumption;
    unfold video_set_display_format, video_set_format, ret; cbv zeta; keeps_run.
Qed.

(** ** Audio *)

Lemma keeps_audio_stop : keeps in_step
  (call (avia_av_play_state_set_audio depth AVIA_AV_PLAY_STATE_STOPPED) ;;;
   amodify (set_audio_play_state AUDIO_STOPPED) ;;; ret (W := W) 0).
Proof. intros s Hs. apply set_audio_user; [done|]. intros x Hx. left. by apply (audio_stops s). Qed.

(** Audio may always be started. *)
Lemma set_audio_playing (s : N) {X} (r : X) (f : N -> N) : in_step s -> audio_fed s ->
  (forall a, in_step (set_audiostate (set_audio_play_state AUDIO_PLAYING (audiostate s)) (set_av a s)) ->
     in_step (f (set_av a s))) ->
  ends (call (avia_av_play_state_set_audio depth AVIA_AV_PLAY_STATE_PLAYING) ;;; nmod f ;;; mret_ r) s
    (fun _ s' => in_step s').
Proof.
  intros Hs Hf Hk. eapply then_nmod; [apply set_audio_ends|]. cbv beta. intros u s' (a & -> & Ho & Ea).
  apply Hk, in_step_audio; [done|done|]. right; left. by rewrite Ea.
Qed.

Lemma keeps_audio_play : keeps in_step
  (let! s := mget in
   (if have_audio s || (audio_stream_source (audiostate s) =? AUDIO_SOURCE_MEMORY)
    then call (avia_av_play_state_set_audio depth AVIA_AV_PLAY_STATE_PLAYING) else mret_ tt) ;;;
   nmod (set_need_audio_pts true) ;;;
   amodify (set_audio_play_state AUDIO_PLAYING) ;;; ret (W := W) 0).
Proof.
  apply keeps_get_ends. intros s Hs. destruct (_ || _) eqn:Ef.
  - eapply ends_bind; [apply set_audio_ends|]. cbv beta. intros u s' (a & -> & Ho & Ea) r s'' E.
    injection E as <- <-.
    destruct (in_step_audio s a AUDIO_PLAYING Hs Ho) as [Hv Ha]; [|by split].
    right; left. split; [exact Ea|]. split; [done|].
    apply orb_true_iff in Ef. unfold audio_fed. rewrite Z.eqb_eq in Ef. exact Ef.
  - destruct (not_fed_stopped s Hs) as [_ [F|F]].
    { destruct F as [F|F]; rewrite F in Ef; [done|]. by rewrite orb_true_r in Ef. }
    intros r s' E. injection E as <- <-. destruct Hs as [Hv _]. split; [exact Hv|by left].
Qed.

Lemma keeps_audio_pause : keeps in_step
  (let! s := mget in
   (if audio_play_state (audiostate s) =? AUDIO_PLAYING then
      call (avia_av_play_state_set_audio depth AVIA_AV_PLAY_STATE_PAUSED) ;;;
      amodify (set_audio_play_state AUDIO_PAUSED)
    else mret_ tt) ;;; ret (W := W) 0).
Proof.
  apply keeps_get_ends. intros s Hs r s'. destruct (_ =? _).
  - rewrite mbind_bind. revert r s'. apply set_audio_user; [done|]. intros x Hx.
    destruct (audio_pauses s x Hs Hx) as [->|[-> F]]; auto.
  - rewrite mret_bind. intros E. by injection E as <- <-.
Qed.

(** What happens when playing goes on. *)
Lemma audio_continue_ends (s : N) : in_step s -> audio_fed s -> ends
  ((if audio_play_state (audiostate s) =? AUDIO_PAUSED then
      call (avia_av_play_state_set_audio depth AVIA_AV_PLAY_STATE_PLAYING) ;;;
      amodify (set_audio_play_state AUDIO_PLAYING)
    else mret_ tt) ;;; ret (W := W) 0) s (fun _ s' => in_step s').
Proof.
  intros Hs Hf r s'. destruct (_ =? _).
  - rewrite mbind_bind. revert r s'. apply set_audio_user; [done|]. intros x ->. auto.
  - rewrite mret_bind. intros E. by injection E as <- <-.
Qed.

Lemma keeps_audio rdonly cmd arg :
  cmd <> AUDIO_CONTINUE -> keeps in_step (avia_av_napi_audio_ioctl depth rdonly cmd arg).
Proof.
  intros Hc. unfold avia_av_napi_audio_ioctl. destruct (rdonly && _); [apply keeps_ret|].
  pose proof keeps_audio_stop. pose proof keeps_audio_play. pose proof keeps_audio_pause.
  destruct cmd; try done; try assumption;
    unfold audio_channel_select, audio_set_mixer, update_register, ret; cbv zeta; keeps_run.
Qed.

(** ** The other files' operations *)

Lemma keeps_pts_loop n buf i bound : keeps in_step (pts_loop (W := W) n buf i bound).
Proof. revert i. induction n; intros i; cbn [pts_loop]; keeps_run. Qed.
Lemma keeps_audio_write rdonly nonblock buf : keeps in_step (avia_av_napi_audio_write (W := W) rdonly nonblock buf).
Proof. unfold avia_av_napi_audio_write. pose proof keeps_pts_loop. keeps_run. Qed.
Lemma keeps_video_write rdonly nonblock buf : keeps in_step (avia_av_napi_video_write (W := W) rdonly nonblock buf).
Proof. unfold avia_av_napi_video_write. keeps_run. Qed.
Lemma keeps_video_release p rdonly nonblock : keeps in_step (avia_av_napi_video_release depth p rdonly nonblock).
Proof.
  unfold avia_av_napi_video_release.
  assert (forall c arg, c <> VIDEO_CONTINUE -> keeps in_step (avia_av_napi_video_ioctl depth rdonly nonblock c arg (mret_ 0)))
    as H by (intros; apply keeps_video; [done|intros; apply keeps_ret]).
  pose proof (H VIDEO_STOP 0 ltac:(done)). pose proof (H VIDEO_SELECT_SOURCE VIDEO_SOURCE_DEMUX ltac:(done)). keeps_run.
Qed.
Lemma keeps_audio_release p rdonly : keeps in_step (avia_av_napi_audio_release depth p rdonly).
Proof.
  unfold avia_av_napi_audio_release.
  pose proof (keeps_audio rdonly AUDIO_STOP 0 ltac:(done)).
  pose proof (keeps_audio rdonly AUDIO_SELECT_SOURCE AUDIO_SOURCE_DEMUX ltac:(done)). keeps_run.
Qed.
Lemma keeps_polls rdonly : keeps in_step (avia_av_napi_video_poll (W := W) rdonly) /\
  keeps in_step (avia_av_napi_audio_poll (W := W)).
Proof. unfold avia_av_napi_video_poll, avia_av_napi_audio_poll, can_write. split; keeps_run. Qed.
Lemma keeps_opens p rdonly : keeps in_step (avia_av_napi_video_open (W := W) p rdonly) /\
  keeps in_step (avia_av_napi_audio_open (W := W) p rdonly).
Proof. unfold avia_av_napi_video_open, avia_av_napi_audio_open. split; keeps_run. Qed.

Lemma keeps_no_result {X} (m : M N X) : keeps in_step m -> keeps in_step (no_result m).
Proof. intros Hm. unfold no_result. keeps_run. Qed.

Lemma ends_no_result {X} (m : M N X) s :
  ends m s (fun _ s' => in_step s') -> ends (no_result m) s (fun _ s' => in_step s').
Proof. intros Hm. eapply ends_bind; [exact Hm|]. intros. by apply ends_ret. Qed.

Lemma step_other op :
  (forall rdonly nonblock cmd arg others, op <> NVideo rdonly nonblock cmd arg others) ->
  (forall rdonly cmd arg, op <> NAudio rdonly cmd arg) -> keeps in_step (napi_step op).
Proof.
  intros Hv Ha. destruct op; cbn [napi_step];
    try solve [by destruct (Hv rdonly nonblock cmd arg others)|by destruct (Ha rdonly cmd arg)];
    first [apply keeps_no_result|idtac].
  - apply keeps_start.
  - apply keeps_stop.
  - apply keeps_video_write.
  - apply keeps_audio_write.
  - apply keeps_opens.
  - apply keeps_opens.
  - apply keeps_video_release.
  - apply keeps_audio_release.
  - apply keeps_polls.
  - apply (keeps_polls false).
  - apply keeps_on_av. intros. apply keeps_interrupt, play_only_closed.
  - apply keeps_on_av. intros. apply keeps_timer_function, play_only_closed.
  - apply keeps_on_av. intros. apply keeps_wdt_turn, play_only_closed.
Qed.

Lemma step_in_step op (s : N) : in_step s -> allowed op s -> ends (napi_step op) s (fun _ s' => in_step s').
Proof.
  intros Hs Hop.
  assert (forall rdonly nonblock arg others, video_fed s ->
    ends (avia_av_napi_video_ioctl depth rdonly nonblock VIDEO_CONTINUE arg others) s (fun _ s' => in_step s')) as Hvc.
  { intros [] nonblock arg others Hf; [by apply ends_ret|]. by apply (video_continue s nonblock). }
  assert (forall rdonly arg, audio_fed s ->
    ends (avia_av_napi_audio_ioctl depth rdonly AUDIO_CONTINUE arg) s (fun _ s' => in_step s')) as Hac.
  { intros [] arg Hf; [by apply ends_ret|]. by apply audio_continue_ends. }
  destruct op; try (apply keeps_at; [by apply step_other|done]); apply ends_no_result.
  - destruct cmd; try (apply keeps_at; [apply keeps_video; done|done]). by apply Hvc.
  - destruct cmd; try (apply keeps_at; [apply keeps_audio; done|done]). by apply Hac.
Qed.

(** Going on without a stream starts the decoder on nothing. *)
Lemma continue_without_stream (s : N) arg others :
  in_step s -> ~ video_fed s ->
  ends (avia_av_napi_video_ioctl depth false true VIDEO_CONTINUE arg others) s (fun _ s' =>
    play_state_video (av s') = AVIA_AV_PLAY_STATE_PLAYING /\ ~ video_fed s').
Proof.
  intros Hs Hf. unfold avia_av_napi_video_ioctl. cbn [andb]. unfold vmodify, ret.
  eapply then_nmod; [apply set_video_ends|]. cbv beta. intros u s' (a & -> & Ho & Ea).
  pose proof (video_plays s _ Hs Ea) as Ea'. split; [exact Ea'|exact Hf].
Qed.

(** C10: In all states that the calls of the device files, the feeds, the
    decoder's interrupts, timer and watchdog can reach, whatever the chips
    answer, as long as nobody asks to go on ([VIDEO_CONTINUE],
    [AUDIO_CONTINUE]) without a stream: the decoder is in step with the users.
    A half of it plays only when its user's state is playing, it pauses only
    when that is frozen or paused, and both only when it is fed, by a feed of
    the demultiplexer or from memory.  The exception is real: in each of these
    states a [VIDEO_CONTINUE] without a stream, if it returns, leaves the
    decoder playing nothing. *)
Theorem decoder_in_step (s : N) : napi_reach s ->
  in_step s /\
  (forall arg others, ~ video_fed s ->
   ends (avia_av_napi_video_ioctl depth false true VIDEO_CONTINUE arg others) s (fun _ s' =>
     play_state_video (av s') = AVIA_AV_PLAY_STATE_PLAYING /\ ~ video_fed s')).
Proof.
  intros H. assert (in_step s) as Hs.
  { induction H as [s Hs|op s u s' _ IH Hop Hstep].
    - unfold stopped in Hs. apply andb_true_iff in Hs as [Hv%Z.eqb_eq Ha%Z.eqb_eq]. by split; left.
    - exact (step_in_step op s IH Hop u s' Hstep). }
  split; [exact Hs|]. intros arg others. by apply continue_without_stream.
Qed.
End Reach.

(** ** Audio from memory *)

(** A PES packet of audio that starts here and has a time stamp, as the driver
    looks for it. *)
Definition pts_header (b : list Z) : bool :=
  (be_value (take 3 b) =? 0x000001) &&
  ((Z.land (at_ b 3) 0xe0 =? 0xc0) || (at_ b 3 =? 0xbd)) &&
  (Z.land (Z.shiftr (at_ b 7) 7) 1 =? 1).

(** The first place where it looks and finds one, or the last place. *)
Fixpoint first_pts (n : nat) (buf : list Z) (i : Z) : Z :=
  match n with
  | O => i
  | S n => if pts_header (drop (Z.to_nat i) buf) then i else first_pts n buf (i + 1)
  end.

Lemma slice_out l off n : 0 <= off -> 0 <= n -> zlen l < off + n -> slice l off n = Fault.
Proof. intros. unfold slice. by rif. Qed.
Lemma rd_out l i : zlen l <= i -> rd l i = Fault.
Proof. intros. unfold rd. by rif. Qed.

Section AudioWrite.
Context {W : Type} {BA : AvBus W} {BG : GtBus W} {A : GtAccel W} {K : GtClients W} {P : NapiPcm W}.
Abbreviation AS := (@av_state (dvb_video_events * W)).
Abbreviation N := (@av_napi W).

Lemma pts_to_stc_short (b : list Z) (a : AS) : zlen b < 14 ->
  avia_av_audio_pts_to_stc b a = Fault \/ avia_av_audio_pts_to_stc b a = Ok (-1, a) /\ 3 <= zlen b.
Proof.
  intros Hb. pose proof (zlen_nonneg b). unfold avia_av_audio_pts_to_stc, word.
  destruct (decide (3 <= zlen b)) as [H3|H3]; [|left; by rewrite slice_out by lia].
  rewrite slice_ok by lia. rewrite mlift_bind. destruct (negb _); [by right|].
  destruct (decide (4 <= zlen b)) as [H4|H4]; [|left; by rewrite rd_out by lia].
  rewrite rd_ok by lia. rewrite mlift_bind. destruct (_ && _); [by right|].
  destruct (decide (8 <= zlen b)) as [H8|H8]; [|left; by rewrite rd_out by lia].
  rewrite rd_ok by lia. rewrite mlift_bind. destruct (negb _); [by right|].
  left. by rewrite slice_out by lia.
Qed.

(** Before the end of such a search the header is read behind the buffer. *)
Lemma pts_loop_overruns n buf i bound (s : N) :
  zlen buf < 14 -> 0 <= i -> zlen buf < bound -> zlen buf - i <= Z.of_nat n -> i <= zlen buf ->
  pts_loop n buf i bound s = Fault.
Proof.
  intros Hb. revert i. induction n as [|n IH]; intros i Hi Hbd Hn Hle; cbn [pts_loop];
    rewrite (proj2 (Z.ltb_lt i bound)) by lia; unfold on_av at 1; unfold mbind_ at 1;
    (destruct (pts_to_stc_short (drop (Z.to_nat i) buf) (av s)) as [->|[-> H3]];
      [rewrite zlen_dropZ by lia; lia|done|]); rewrite zlen_dropZ in H3 by lia; [lia|].
  cbn [res_bind fst snd Z.eqb]. replace (set_av (av s) s) with s by (by destruct s). apply IH; lia.
Qed.

(** Writing fewer bytes than a PES header while the driver looks for a time
    stamp reads behind the buffer: the number of places to look at is the
    unsigned difference of the sizes, which wraps around. *)
Theorem short_audio_write_faults nonblock buf (s : N) :
  zlen buf < pes_header_size -> need_audio_pts s = true ->
  audio_stream_source (audiostate s) = AUDIO_SOURCE_MEMORY ->
  avia_av_napi_audio_write false nonblock buf s = Fault.
Proof.
  intros Hb Hn Hs. pose proof (zlen_nonneg buf). unfold pes_header_size in *.
  unfold avia_av_napi_audio_write. rewrite mget_bind, Hs, Hn.
  change (false || negb _) with false. cbv iota.
  unfold mbind_. rewrite pts_loop_overruns; [done|lia|lia| |unfold zlen; lia|lia].
  { unfold u32. unfold pes_header_size.
    replace (zlen buf - 14) with (zlen buf - 14 + 2 ^ 32 + -1 * 2 ^ 32) by lia.
    rewrite Z.mod_add, Z.mod_small by lia. lia. }
Qed.

Lemma first_pts_spec n buf i : 0 <= i ->
  let j := first_pts n buf i in
  i <= j <= i + Z.of_nat n /\ (forall k, i <= k < j -> pts_header (drop (Z.to_nat k) buf) = false) /\
  (j < i + Z.of_nat n -> pts_header (drop (Z.to_nat j) buf) = true).
Proof.
  revert i. induction n as [|n IH]; intros i Hi; cbn [first_pts]; [split; [lia|]; split; intros; lia|].
  destruct (pts_header (drop (Z.to_nat i) buf)) eqn:E; [split; [lia|]; split; intros; [lia|done]|].
  destruct (IH (i + 1) ltac:(lia)) as (H1 & H2 & H3). cbv zeta in *. split; [lia|]. split.
  - intros k Hk. destruct (decide (k = i)) as [->|]; [done|]. apply H2. lia.
  - intros Hj. apply H3. lia.
Qed.

Lemma no_header b (a : AS) : 14 <= zlen b -> pts_header b = false -> avia_av_audio_pts_to_stc b a = Ok (-1, a).
Proof.
  intros Hb H. unfold avia_av_audio_pts_to_stc, word. rewrite slice_ok by lia. rewrite mlift_bind, drop_0.
  unfold pts_header in H. change (Z.to_nat 3) with 3%nat.
  destruct (be_value (take 3 b) =? 0x000001); cbn [negb andb] in *; [|done].
  rewrite rd_ok by lia. rewrite mlift_bind.
  destruct (Z.land (at_ b 3) 224 =? 192), (at_ b 3 =? 189); cbn [negb andb orb] in *; try done;
    rewrite rd_ok by lia; rewrite mlift_bind; by rewrite H.
Qed.

Lemma header_ends b (a : AS) : 14 <= zlen b -> pts_header b = true ->
  ends (avia_av_audio_pts_to_stc b) a (fun r _ => r = 0).
Proof.
  intros Hb H. unfold pts_header in H. apply andb_true_iff in H as [[H1 H2]%andb_true_iff H3].
  unfold avia_av_audio_pts_to_stc, word. intros r a'. rewrite slice_ok by lia. rewrite mlift_bind, drop_0.
  change (Z.to_nat 3) with 3%nat. rewrite H1. cbn [negb]. rewrite rd_ok by lia. rewrite mlift_bind.
  replace (negb (Z.land (at_ b 3) 224 =? 192) && negb (at_ b 3 =? 189)) with false
    by (by rewrite <- negb_orb, H2).
  rewrite rd_ok by lia. rewrite mlift_bind, H3. cbn [negb]. rewrite slice_ok by lia. rewrite mlift_bind. cbv zeta.
  revert r a'. repeat (eapply (ends_bind _ _ _ (fun _ _ => True)); [easy|]; intros ? ? _). by apply ends_ret.
Qed.

(** What the search does. *)
Definition after_search (buf : list Z) (j last : Z) : M N Z :=
  if j <? last then
    let! _ := on_av (avia_av_audio_pts_to_stc (drop (Z.to_nat j) buf)) in
    nmod (set_need_audio_pts false) ;;; mret_ j
  else mret_ j.

Lemma pts_loop_search n buf i (s : N) : 14 <= zlen buf -> 0 <= i <= zlen buf - 14 ->
  zlen buf - 14 - i <= Z.of_nat n ->
  pts_loop n buf i (zlen buf - 14) s =
    after_search buf (first_pts (Z.to_nat (zlen buf - 14 - i)) buf i) (zlen buf - 14) s.
Proof.
  intros Hb. revert i. induction n as [|n IH]; intros i Hi Hn; cbn [pts_loop].
  - replace (Z.to_nat (zlen buf - 14 - i)) with 0%nat by lia. cbn [first_pts]. unfold after_search. by rif.
  - destruct (Z.ltb_spec i (zlen buf - 14)) as [Hl|Hl].
    2: { replace (Z.to_nat (zlen buf - 14 - i)) with 0%nat by lia. cbn [first_pts]. unfold after_search. by rif. }
    replace (Z.to_nat (zlen buf - 14 - i)) with (Datatypes.S (Z.to_nat (zlen buf - 14 - (i + 1)))) by lia.
    cbn [first_pts]. destruct (pts_header (drop (Z.to_nat i) buf)) eqn:Eh.
    + unfold after_search. rewrite (proj2 (Z.ltb_lt _ _) Hl). unfold on_av, mbind_.
      destruct (avia_av_audio_pts_to_stc (drop (Z.to_nat i) buf) (av s)) as [[r a]| | |] eqn:Er; try done.
      cbn [res_bind fst snd]. apply header_ends in Er; [|by rewrite zlen_dropZ; lia|done]. by subst r.
    + unfold on_av at 1. unfold mbind_ at 1. rewrite no_header by (rewrite ?zlen_dropZ by lia; done || lia).
      cbn [res_bind fst snd Z.eqb]. replace (set_av (av s) s) with s by (by destruct s). apply IH; lia.
Qed.

(** A write that looks for a time stamp finds the first PES header of audio
    that has one, if it starts before the last 14 bytes: the clock is set to it
    and the bytes before it are dropped.  When it finds none the write is only
    of the last 14 bytes. *)
Theorem audio_write_from_pts nonblock buf (s : N) :
  pes_header_size <= zlen buf < 2 ^ 32 -> need_audio_pts s = true ->
  audio_stream_source (audiostate s) = AUDIO_SOURCE_MEMORY ->
  let last := zlen buf - pes_header_size in
  let j := first_pts (Z.to_nat last) buf 0 in
  avia_av_napi_audio_write false nonblock buf s =
    ((if j <? last then
        let! _ := on_av (avia_av_audio_pts_to_stc (drop (Z.to_nat j) buf)) in nmod (set_need_audio_pts false)
      else mret_ tt) ;;;
     on_gt (avia_gt_dmx_queue_write AVIA_GT_DMX_QUEUE_AUDIO (drop (Z.to_nat j) buf) nonblock)) s /\
  0 <= j <= last /\ (forall k, 0 <= k < j -> pts_header (drop (Z.to_nat k) buf) = false) /\
  (j < last -> pts_header (drop (Z.to_nat j) buf) = true).
Proof.
  intros Hb Hn Hs last j. assert (last = zlen buf - 14) as Hlast by done. unfold pes_header_size in Hb. split.
  2: { destruct (first_pts_spec (Z.to_nat last) buf 0 ltac:(lia)) as (H1 & H2 & H3). fold j in H1, H2, H3. clearbody j last.
       split; [lia|]. split; [done|]. intros. apply H3. lia. }
  unfold avia_av_napi_audio_write. rewrite mget_bind, Hs, Hn. change (false || negb _) with false. cbv iota.
  unfold u32. fold last. rewrite Z.mod_small by lia. rewrite Hlast at 1.
  unfold mbind_ at 1. rewrite pts_loop_search by (unfold zlen in *; lia).
  replace (zlen buf - 14 - 0) with last by lia. rewrite <- Hlast. fold j. unfold after_search.
  destruct (j <? last); [|done].
  unfold mbind_. destruct (on_av _ s) as [[r s']| | |]; done.
Qed.
End AudioWrite.

(** ** Size events *)

(** The decoder's chip is the second part of the shared world. *)
#[export] Instance napi_window {W} {B : AvBus W} {L : AvWindow W} : AvWindow (dvb_video_events * W).
Proof.
  refine {| latch w := latch w.2; cell w := cell w.2; plain := plain (W := W) |}.
  - intros i v w j Hi. by apply (out_latch i v w.2).
  - intros i v w m a Hi. by apply (out_cell i v w.2).
  - intros v w m a Hp. by apply (out_word v w.2).
  - intros i w j Hi. by apply (in_latch i w.2).
  - intros i w m a Hi Hp. by apply (in_cell i w.2).
  - intros i w Hi Hp. by apply (in_word i w.2).
Defined.

Definition an_video_event : video_event := mk_video_event 0 0 0 0 0.
Definition vring (ev : dvb_video_events) : Prop := ring_at (vevents ev) (veventw ev) (veventr ev).
Definition vqueue (ev : dvb_video_events) : list video_event :=
  ring_queue an_video_event (vevents ev) (veventw ev) (veventr ev).

(** The event that a place of the ring becomes. *)
Definition size_event (ts w h ratio : Z) : video_event :=
  mk_video_event VIDEO_EVENT_SIZE_CHANGED ts w h (event_ratio ratio).

Lemma add_event_queue_push w h ratio ev : vring ev ->
  exists ts, vring (avia_av_napi_video_add_event w h ratio ev) /\
    vqueue (avia_av_napi_video_add_event w h ratio ev) = push (size_event ts w h ratio) (vqueue ev) /\
    voverflow (avia_av_napi_video_add_event w h ratio ev)
      = voverflow ev || bool_decide (length (vqueue ev) = 7%nat).
Proof.
  intros H. pose proof H as (Hlen & _ & Hw).
  destruct (lookup_lt_is_Some_2 (vevents ev) (Z.to_nat (veventw ev))) as [e He]; [lia|].
  exists (ev_timestamp e). set (e' := size_event (ev_timestamp e) w h ratio).
  assert (alter (fun e => mk_video_event VIDEO_EVENT_SIZE_CHANGED (ev_timestamp e) w h (event_ratio ratio))
    (Z.to_nat (veventw ev)) (vevents ev) = <[Z.to_nat (veventw ev) := e']> (vevents ev)) as Ea.
  { apply list_eq. intros i. destruct (decide (i = Z.to_nat (veventw ev))) as [->|Hne].
    - rewrite list_lookup_alter_eq, He, list_lookup_insert_eq by lia. done.
    - by rewrite list_lookup_alter_ne, list_lookup_insert_ne by done. }
  destruct (ring_put_at an_video_event _ _ _ e' H) as (H1 & H2 & H3).
  unfold avia_av_napi_video_add_event, vring, vqueue, MAX_VIDEO_EVENT.
  destruct (Z.rem (veventw ev + 1) 8 =? veventr ev) eqn:Ew; cbn [vevents veventw veventr voverflow
    set_veventw set_vevents set_veventr set_voverflow]; rewrite Ea; (split; [exact H1|]; split; [exact H2|]).
  - by rewrite <- H3, orb_true_r.
  - by rewrite <- H3, orb_false_r.
Qed.

Section Events.
Context {W : Type} {BA : AvBus W} {L : AvWindow W} {BG : GtBus W} {A : GtAccel W} {K : GtClients W} {P : NapiPcm W}.
Abbreviation AS := (@av_state (dvb_video_events * W)).
Abbreviation N := (@av_napi W).

(** The size that the chip shows. *)
Definition shown (a : AS) : Z * Z * Z :=
  (Z.land (cells a TM_DRAM H_SIZE) 0xffff, Z.land (cells a TM_DRAM V_SIZE) 0xffff,
   Z.land (cells a TM_DRAM ASPECT_RATIO) 0xffff).
Definition known (a : AS) : Z * Z * Z := (video_width a, video_height a, video_aspect_ratio a).

Lemma size_read {X} reg (k : Z -> M AS X) (a : AS) Q :
  aviamem a = true -> plain (W := dvb_video_events * W) TM_DRAM reg = true -> a22 reg = reg ->
  (forall a' v, a' = set_world (world a') a -> (world a').1 = (world a).1 ->
     (forall m b, plain (W := dvb_video_events * W) m b = true -> cells a' m b = cells a m b) ->
     Z.land v 0xffff = Z.land (cells a TM_DRAM reg) 0xffff -> runs (k v) a' Q) ->
  runs (mbind_ (avia_av_dram_read reg) k) a Q.
Proof.
  intros Hm Hp Hreg Hk. destruct (read_run TM_DRAM reg a) as (v & a' & E & Hs & Hv); [by left|done|].
  unfold avia_av_dram_read, runs. rewrite (mbind_Ok _ _ _ _ _ E). apply Hk.
  - apply Hs.
  - revert E. unfold avia_av_read. rewrite !mem_out_bind by done. rewrite !mem_in_bind by done.
    intros [= _ <-]. done.
  - intros. by apply (step_cells _ _ _ _ _ Hs).
  - rewrite Hreg in Hv. rewrite Hv by done. unfold u32. change 0xffff with (Z.ones 16).
    rewrite !Z.land_ones by lia. rewrite Z.mod_mod_divide; [done|]. by exists (2 ^ 16).
Qed.

(** C22: The interrupt for a new sequence tells the video device of the size
    that the chip shows exactly when it is not the one told last: one event is
    added to the queue of the device, which holds seven and drops the oldest
    with the overflow noted; told twice, the same size adds nothing. *)
Theorem size_change_queued (a : AS) :
  aviamem a = true -> video_event_handler a = VIDEO_ADD_EVENT -> vring (world a).1 ->
  Forall (fun reg => plain (W := dvb_video_events * W) TM_DRAM reg = true) [H_SIZE; V_SIZE; ASPECT_RATIO] ->
  runs video_changed a (fun _ a' =>
    known a' = shown a /\ vring (world a').1 /\
    if decide (shown a = known a)
    then (world a').1 = (world a).1
    else exists ts,
      vqueue (world a').1 = push (size_event ts (shown a).1.1 (shown a).1.2 (shown a).2) (vqueue (world a).1) /\
      voverflow (world a').1 = voverflow (world a).1 || bool_decide (length (vqueue (world a).1) = 7%nat)).
Proof.
  intros Hm Hh Hr Hp. apply Forall_cons_iff in Hp as [P1 [P2 [P3 _]%Forall_cons_iff]%Forall_cons_iff].
  unfold video_changed.
  apply size_read; try done. intros a1 v1 E1 R1 C1 V1. assert (aviamem a1 = true) as M1 by (by rewrite E1).
  apply size_read; try done. intros a2 v2 E2 R2 C2 V2. assert (aviamem a2 = true) as M2 by (by rewrite E2).
  apply size_read; try done. intros a3 v3 E3 R3 C3 V3.
  rewrite C2, C1 in V3 by done. rewrite C1 in V2 by done. cbv zeta. rewrite V1, V2, V3.
  assert (a3 = set_world (world a3) a) as E by (by rewrite E3, E2, E1).
  assert ((world a3).1 = (world a).1) as R by congruence. clear E1 E2 E3 R1 R2 R3 M1 M2 C1 C2 C3 a1 a2.
  unfold shown, known. set (w := Z.land (cells a TM_DRAM H_SIZE) 0xffff) in *.
  set (h := Z.land (cells a TM_DRAM V_SIZE) 0xffff) in *.
  set (r := Z.land (cells a TM_DRAM ASPECT_RATIO) 0xffff) in *. clearbody w h r.
  unfold runs. rewrite mget_bind.
  replace (video_event_handler a3) with VIDEO_ADD_EVENT by (by rewrite E).
  replace (video_width a3) with (video_width a) by (by rewrite E).
  replace (video_height a3) with (video_height a) by (by rewrite E).
  replace (video_aspect_ratio a3) with (video_aspect_ratio a) by (by rewrite E). cbn [Z.eqb VIDEO_ADD_EVENT negb andb].
  destruct (decide ((w, h, r) = (video_width a, video_height a, video_aspect_ratio a))) as [[= Ew Eh Er]|Hne].
  - rewrite Ew, Eh, Er, !Z.eqb_refl. cbn [negb orb]. exists tt, a3. split; [done|]. rewrite E. cbn. by rewrite R.
  - replace (negb (w =? video_width a) || negb (h =? video_height a) || negb (r =? video_aspect_ratio a)) with true.
    2: { destruct (Z.eqb_spec w (video_width a)), (Z.eqb_spec h (video_height a)),
           (Z.eqb_spec r (video_aspect_ratio a)); try done. congruence. }
    unfold amod. rewrite mmodify_bind. eexists tt, _. split; [reflexivity|]. cbn.
    destruct (add_event_queue_push w h r (world a3).1) as (ts & H1 & H2 & H3); [by rewrite R|].
    rewrite E. cbn. rewrite R in *. split; [done|]. split; [exact H1|]. by exists ts.
Qed.

(** Reading the events: the overflow is told once, then they come in order. *)
Theorem video_get_event_queue nonblock others (s : N) :
  vring (video_events s) ->
  (voverflow (video_events s) = true -> exists s',
     avia_av_napi_video_get_event nonblock others s = Ok ((- EOVERFLOW, None), s') /\
     video_events s' = set_voverflow false (video_events s)) /\
  (forall e q, voverflow (video_events s) = false -> vqueue (video_events s) = e :: q -> exists s',
     avia_av_napi_video_get_event nonblock others s = Ok ((0, Some e), s') /\
     vqueue (video_events s') = q /\ vring (video_events s')) /\
  (voverflow (video_events s) = false -> vqueue (video_events s) = [] ->
     avia_av_napi_video_get_event true others s = Ok ((- EWOULDBLOCK, None), s)).
Proof.
  intros Hr. unfold avia_av_napi_video_get_event. split; [|split].
  - intros Ho. rewrite mget_bind, Ho. eexists. by split.
  - intros e q Ho Hq. rewrite mget_bind, Ho.
    assert (veventw (video_events s) <> veventr (video_events s)) as Hne.
    { intros E. unfold vqueue in Hq. rewrite (proj1 (ring_empty_at _ _ _ _ Hr) E) in Hq. done. }
    destruct (ring_take_at an_video_event _ _ _ Hr Hne) as (e' & He & Hq' & Hr').
    unfold vqueue in Hq. rewrite Hq' in Hq. injection Hq as -> <-.
    unfold any_video_event. rewrite (proj2 (Z.eqb_neq _ _) Hne). cbn [negb]. rewrite mret_bind.
    cbn [Z.ltb Z.compare]. rewrite mget_bind. cbv zeta. rewrite He. eexists. by split.
  - intros Ho Hq. rewrite mget_bind, Ho. unfold any_video_event.
    rewrite (proj2 (Z.eqb_eq _ _)) by (by apply (ring_empty_at an_video_event _ _ _ Hr)).
    cbn [negb]. by rewrite mret_bind.
Qed.
End Events.

(** ** A receiver

    The chip that answers, beside a demultiplexer whose registers read 0. *)

Abbreviation box := (talker false).
#[export] Instance box_bus : GtBus box := { gt_rd _ w := (0, w); gt_wr _ _ w := w }.
#[export] Instance box_accel : GtAccel box := { acc_rd _ _ := 0; acc_wr _ _ _ w := w }.
#[export] Instance box_clients : GtClients box := { cb_queue _ _ _ s := Ok (tt, s); isr_client _ _ s := Ok (tt, s) }.
#[export] Instance box_pcm : NapiPcm box := { pcm_set_mpeg_attenuation := None }.

Definition empty_ring : dvb_video_events := mk_video_events (replicate 8 an_video_event) 0 0 false.
Definition box_napi (source : Z) (pts : bool) (a : @av_state (dvb_video_events * box)) : @av_napi box :=
  mk_av_napi (mk_audio_status 0 0 AUDIO_PLAYING source AUDIO_STEREO 1 0 0)
    (mk_video_status 0 VIDEO_STOPPED VIDEO_SOURCE_DEMUX VIDEO_FORMAT_4_3 VIDEO_CENTER_CUT_OUT)
    false false pts None None (mk_dvbdev [] false 1) (sample_dmx GTX) a.
Definition box_av : @av_state (dvb_video_events * box) :=
  mk_av_state true 1 0 true 7 0 false 0x64 0x65 3 3 44100 1 1 6 VIDEO_ADD_EVENT 0 0 0 0 0 false 2 String.EmptyString 0 None false
    (empty_ring, @talking false None).
Definition video_feed : dvb_demux_feed :=
  mk_dvb_demux_feed DMX_TYPE_TS 0 0x65 0 0 false false 0 [] 0 0 None 0 false 0 0 TS_DECODER DMX_TS_PES_VIDEO 0 0.

(** A feed is started and the user plays. *)
Definition play_session : M (@av_napi box) unit :=
  napi_step 1 (NStart video_feed) ;;; napi_step 1 (NVideo false true VIDEO_PLAY 0 (mret_ 0)).

Lemma decoder_in_step_witness :
  exists s, play_session (box_napi AUDIO_SOURCE_DEMUX false box_av) = Ok (tt, s) /\ in_step s /\
    play_state_video (av s) = AVIA_AV_PLAY_STATE_PLAYING /\ have_video s = true.
Proof.
  destruct (napi_step 1 (NStart video_feed) (box_napi AUDIO_SOURCE_DEMUX false box_av)) as [[[] s1]| | |] eqn:E1;
    [|vm_compute in E1; discriminate..].
  destruct (napi_step 1 (NVideo false true VIDEO_PLAY 0 (mret_ 0)) s1) as [[[] s2]| | |] eqn:E2.
  2-4: vm_compute in E1; injection E1 as <-; vm_compute in E2; discriminate.
  exists s2. split; [|split].
  - unfold play_session, mbind_. rewrite E1. cbn [res_bind fst snd]. exact E2.
  - apply (decoder_in_step 1). eapply (reach_step 1 (NVideo false true VIDEO_PLAY 0 (mret_ 0)) s1); [|exact I|exact E2].
    eapply (reach_step 1 (NStart video_feed) (box_napi AUDIO_SOURCE_DEMUX false box_av)); [apply reach_stopped; reflexivity|exact I|exact E1].
  - vm_compute in E1. injection E1 as <-. vm_compute in E2. injection E2 as <-. split; reflexivity.
Defined.

Lemma short_audio_write_faults_witness :
  avia_av_napi_audio_write false true [0; 0; 1; 0xc0; 0; 8; 0x80; 0x80; 5; 0x2b]
    (box_napi AUDIO_SOURCE_MEMORY true box_av) = Fault.
Proof. apply short_audio_write_faults; reflexivity. Defined.

Definition two_packets : list Z :=
  [7; 7; 0; 0; 1; 0xc0; 0; 8; 0x80; 0x80; 5; 0x2b; 0x12; 0x35; 0xab; 0xcd; 1; 2; 3].

Lemma audio_write_from_pts_witness :
  avia_av_napi_audio_write false true two_packets (box_napi AUDIO_SOURCE_MEMORY true box_av) =
    ((let! _ := on_av (avia_av_audio_pts_to_stc (drop 2 two_packets)) in nmod (set_need_audio_pts false)) ;;;
     on_gt (avia_gt_dmx_queue_write AVIA_GT_DMX_QUEUE_AUDIO (drop 2 two_packets) true))
      (box_napi AUDIO_SOURCE_MEMORY true box_av).
Proof.
  destruct (audio_write_from_pts true two_packets (box_napi AUDIO_SOURCE_MEMORY true box_av)) as [E _].
  - vm_compute. split; [discriminate|reflexivity].
  - reflexivity.
  - reflexivity.
  - exact E.
Defined.

(** The chip shows 720 by 576 in 4:3. *)
Definition showing (a : @av_state (dvb_video_events * box)) : @av_state (dvb_video_events * box) :=
  let w := (world a).2 in
  set_world ((world a).1,
    mk_talker (mk_avchip (ch_latch (tk w)) (fun m x => if x =? H_SIZE then 720 else if x =? V_SIZE then 576
      else if x =? ASPECT_RATIO then 2 else 0) (ch_time (tk w)) (ch_file (tk w))) (tk_ready w)) a.

Lemma size_change_queued_witness :
  exists a, video_changed (showing box_av) = Ok (tt, a) /\ known a = (720, 576, 2) /\
    exists ts, vqueue (world a).1 = [size_event ts 720 576 2].
Proof.
  destruct (size_change_queued (showing box_av)) as ([] & a & E & Hk & _ & H).
  - reflexivity.
  - reflexivity.
  - vm_compute. repeat split; discriminate.
  - repeat constructor.
  - exists a. split; [exact E|]. split; [exact Hk|].
    destruct (decide _) as [Hd|_]; [vm_compute in Hd; discriminate|]. destruct H as (ts & H & _). exists ts. exact H.
Defined.
