(* ===== verification/TxtCode.v ===== *)
(** * The codes of teletext (libtuxtxt/tuxtxt_common.h)

    Three codes protect a teletext packet: odd parity for text, Hamming 8/4
    for page numbers and control bits, Hamming 24/18 for the triplets of level
    2.5.  This file holds the tables and functions that decode them, the
    bitwise variant of the 24/18 decoder and its test encoder, which the
    source keeps behind [#if], and the table that turns a byte round. *)

From S2P Require Import Prelude.

Open Scope Z_scope.

(** ** Tables *)

(** The four data bits of an 8/4 code word, 0xFF when two bits are wrong. *)
Definition dehamming_table : list Z :=
  [1; 255; 1; 1; 255; 0; 1; 255; 255; 2; 1; 255; 10; 255; 255; 7;
   255; 0; 1; 255; 0; 0; 255; 0; 6; 255; 255; 11; 255; 0; 3; 255;
   255; 12; 1; 255; 4; 255; 255; 7; 6; 255; 255; 7; 255; 7; 7; 7;
   6; 255; 255; 5; 255; 0; 13; 255; 6; 6; 6; 255; 6; 255; 255; 7;
   255; 2; 1; 255; 4; 255; 255; 9; 2; 2; 255; 2; 255; 2; 3; 255;
   8; 255; 255; 5; 255; 0; 3; 255; 255; 2; 3; 255; 3; 255; 3; 3;
   4; 255; 255; 5; 4; 4; 4; 255; 255; 2; 15; 255; 4; 255; 255; 7;
   255; 5; 5; 5; 4; 255; 255; 5; 6; 255; 255; 5; 255; 14; 3; 255;
   255; 12; 1; 255; 10; 255; 255; 9; 10; 255; 255; 11; 10; 10; 10; 255;
   8; 255; 255; 11; 255; 0; 13; 255; 255; 11; 11; 11; 10; 255; 255; 11;
   12; 12; 255; 12; 255; 12; 13; 255; 255; 12; 15; 255; 10; 255; 255; 7;
   255; 12; 13; 255; 13; 255; 13; 13; 6; 255; 255; 11; 255; 14; 13; 255;
   8; 255; 255; 9; 255; 9; 9; 9; 255; 2; 15; 255; 10; 255; 255; 9;
   8; 8; 8; 255; 8; 255; 255; 9; 8; 255; 255; 11; 255; 14; 3; 255;
   255; 12; 15; 255; 4; 255; 255; 9; 15; 255; 15; 15; 255; 14; 15; 255;
   8; 255; 255; 5; 255; 14; 13; 255; 255; 14; 15; 255; 14; 14; 255; 14].

(** The byte without its parity bit; a space where the parity is even. *)
Definition deparity_table : list Z :=
  [32; 1; 2; 32; 4; 32; 32; 7; 8; 32; 32; 11; 32; 13; 14; 32;
   16; 32; 32; 19; 32; 21; 22; 32; 32; 25; 26; 32; 28; 32; 32; 31;
   32; 32; 32; 35; 32; 37; 38; 32; 32; 41; 42; 32; 44; 32; 32; 47;
   32; 49; 50; 32; 52; 32; 32; 55; 56; 32; 32; 59; 32; 61; 62; 32;
   64; 32; 32; 67; 32; 69; 70; 32; 32; 73; 74; 32; 76; 32; 32; 79;
   32; 81; 82; 32; 84; 32; 32; 87; 88; 32; 32; 91; 32; 93; 94; 32;
   32; 97; 98; 32; 100; 32; 32; 103; 104; 32; 32; 107; 32; 109; 110; 32;
   112; 32; 32; 115; 32; 117; 118; 32; 32; 121; 122; 32; 124; 32; 32; 127;
   0; 32; 32; 3; 32; 5; 6; 32; 32; 9; 10; 32; 12; 32; 32; 15;
   32; 17; 18; 32; 20; 32; 32; 23; 24; 32; 32; 27; 32; 29; 30; 32;
   32; 33; 34; 32; 36; 32; 32; 39; 40; 32; 32; 43; 32; 45; 46; 32;
   48; 32; 32; 51; 32; 53; 54; 32; 32; 57; 58; 32; 60; 32; 32; 63;
   32; 65; 66; 32; 68; 32; 32; 71; 72; 32; 32; 75; 32; 77; 78; 32;
   80; 32; 32; 83; 32; 85; 86; 32; 32; 89; 90; 32; 92; 32; 32; 95;
   96; 32; 32; 99; 32; 101; 102; 32; 32; 105; 106; 32; 108; 32; 32; 111;
   32; 113; 114; 32; 116; 32; 32; 119; 120; 32; 32; 123; 32; 125; 126; 32].

Definition hamm24par0 : list Z :=
  [0; 33; 34; 3; 35; 2; 1; 32; 36; 5; 6; 39; 7; 38; 37; 4;
   37; 4; 7; 38; 6; 39; 36; 5; 1; 32; 35; 2; 34; 3; 0; 33;
   38; 7; 4; 37; 5; 36; 39; 6; 2; 35; 32; 1; 33; 0; 3; 34;
   3; 34; 33; 0; 32; 1; 2; 35; 39; 6; 5; 36; 4; 37; 38; 7;
   39; 6; 5; 36; 4; 37; 38; 7; 3; 34; 33; 0; 32; 1; 2; 35;
   2; 35; 32; 1; 33; 0; 3; 34; 38; 7; 4; 37; 5; 36; 39; 6;
   1; 32; 35; 2; 34; 3; 0; 33; 37; 4; 7; 38; 6; 39; 36; 5;
   36; 5; 6; 39; 7; 38; 37; 4; 0; 33; 34; 3; 35; 2; 1; 32;
   40; 9; 10; 43; 11; 42; 41; 8; 12; 45; 46; 15; 47; 14; 13; 44;
   13; 44; 47; 14; 46; 15; 12; 45; 41; 8; 11; 42; 10; 43; 40; 9;
   14; 47; 44; 13; 45; 12; 15; 46; 42; 11; 8; 41; 9; 40; 43; 10;
   43; 10; 9; 40; 8; 41; 42; 11; 15; 46; 45; 12; 44; 13; 14; 47;
   15; 46; 45; 12; 44; 13; 14; 47; 43; 10; 9; 40; 8; 41; 42; 11;
   42; 11; 8; 41; 9; 40; 43; 10; 14; 47; 44; 13; 45; 12; 15; 46;
   41; 8; 11; 42; 10; 43; 40; 9; 13; 44; 47; 14; 46; 15; 12; 45;
   12; 45; 46; 15; 47; 14; 13; 44; 40; 9; 10; 43; 11; 42; 41; 8].

Definition hamm24par1 : list Z :=
  [0; 41; 42; 3; 43; 2; 1; 40; 44; 5; 6; 47; 7; 46; 45; 4;
   45; 4; 7; 46; 6; 47; 44; 5; 1; 40; 43; 2; 42; 3; 0; 41;
   46; 7; 4; 45; 5; 44; 47; 6; 2; 43; 40; 1; 41; 0; 3; 42;
   3; 42; 41; 0; 40; 1; 2; 43; 47; 6; 5; 44; 4; 45; 46; 7;
   47; 6; 5; 44; 4; 45; 46; 7; 3; 42; 41; 0; 40; 1; 2; 43;
   2; 43; 40; 1; 41; 0; 3; 42; 46; 7; 4; 45; 5; 44; 47; 6;
   1; 40; 43; 2; 42; 3; 0; 41; 45; 4; 7; 46; 6; 47; 44; 5;
   44; 5; 6; 47; 7; 46; 45; 4; 0; 41; 42; 3; 43; 2; 1; 40;
   48; 25; 26; 51; 27; 50; 49; 24; 28; 53; 54; 31; 55; 30; 29; 52;
   29; 52; 55; 30; 54; 31; 28; 53; 49; 24; 27; 50; 26; 51; 48; 25;
   30; 55; 52; 29; 53; 28; 31; 54; 50; 27; 24; 49; 25; 48; 51; 26;
   51; 26; 25; 48; 24; 49; 50; 27; 31; 54; 53; 28; 52; 29; 30; 55;
   31; 54; 53; 28; 52; 29; 30; 55; 51; 26; 25; 48; 24; 49; 50; 27;
   50; 27; 24; 49; 25; 48; 51; 26; 30; 55; 52; 29; 53; 28; 31; 54;
   49; 24; 27; 50; 26; 51; 48; 25; 29; 52; 55; 30; 54; 31; 28; 53;
   28; 53; 54; 31; 55; 30; 29; 52; 48; 25; 26; 51; 27; 50; 49; 24].

Definition hamm24par2 : list Z :=
  [63; 14; 13; 60; 12; 61; 62; 15; 11; 58; 57; 8; 56; 9; 10; 59;
   10; 59; 56; 9; 57; 8; 11; 58; 62; 15; 12; 61; 13; 60; 63; 14;
   9; 56; 59; 10; 58; 11; 8; 57; 61; 12; 15; 62; 14; 63; 60; 13;
   60; 13; 14; 63; 15; 62; 61; 12; 8; 57; 58; 11; 59; 10; 9; 56;
   8; 57; 58; 11; 59; 10; 9; 56; 60; 13; 14; 63; 15; 62; 61; 12;
   61; 12; 15; 62; 14; 63; 60; 13; 9; 56; 59; 10; 58; 11; 8; 57;
   62; 15; 12; 61; 13; 60; 63; 14; 10; 59; 56; 9; 57; 8; 11; 58;
   11; 58; 57; 8; 56; 9; 10; 59; 63; 14; 13; 60; 12; 61; 62; 15;
   31; 46; 45; 28; 44; 29; 30; 47; 43; 26; 25; 40; 24; 41; 42; 27;
   42; 27; 24; 41; 25; 40; 43; 26; 30; 47; 44; 29; 45; 28; 31; 46;
   41; 24; 27; 42; 26; 43; 40; 25; 29; 44; 47; 30; 46; 31; 28; 45;
   28; 45; 46; 31; 47; 30; 29; 44; 40; 25; 26; 43; 27; 42; 41; 24;
   40; 25; 26; 43; 27; 42; 41; 24; 28; 45; 46; 31; 47; 30; 29; 44;
   29; 44; 47; 30; 46; 31; 28; 45; 41; 24; 27; 42; 26; 43; 40; 25;
   30; 47; 44; 29; 45; 28; 31; 46; 42; 27; 24; 41; 25; 40; 43; 26;
   43; 26; 25; 40; 24; 41; 42; 27; 31; 46; 45; 28; 44; 29; 30; 47].

Definition hamm24val : list Z :=
  [0; 0; 0; 0; 1; 1; 1; 1; 0; 0; 0; 0; 1; 1; 1; 1;
   2; 2; 2; 2; 3; 3; 3; 3; 2; 2; 2; 2; 3; 3; 3; 3;
   4; 4; 4; 4; 5; 5; 5; 5; 4; 4; 4; 4; 5; 5; 5; 5;
   6; 6; 6; 6; 7; 7; 7; 7; 6; 6; 6; 6; 7; 7; 7; 7;
   8; 8; 8; 8; 9; 9; 9; 9; 8; 8; 8; 8; 9; 9; 9; 9;
   10; 10; 10; 10; 11; 11; 11; 11; 10; 10; 10; 10; 11; 11; 11; 11;
   12; 12; 12; 12; 13; 13; 13; 13; 12; 12; 12; 12; 13; 13; 13; 13;
   14; 14; 14; 14; 15; 15; 15; 15; 14; 14; 14; 14; 15; 15; 15; 15;
   0; 0; 0; 0; 1; 1; 1; 1; 0; 0; 0; 0; 1; 1; 1; 1;
   2; 2; 2; 2; 3; 3; 3; 3; 2; 2; 2; 2; 3; 3; 3; 3;
   4; 4; 4; 4; 5; 5; 5; 5; 4; 4; 4; 4; 5; 5; 5; 5;
   6; 6; 6; 6; 7; 7; 7; 7; 6; 6; 6; 6; 7; 7; 7; 7;
   8; 8; 8; 8; 9; 9; 9; 9; 8; 8; 8; 8; 9; 9; 9; 9;
   10; 10; 10; 10; 11; 11; 11; 11; 10; 10; 10; 10; 11; 11; 11; 11;
   12; 12; 12; 12; 13; 13; 13; 13; 12; 12; 12; 12; 13; 13; 13; 13;
   14; 14; 14; 14; 15; 15; 15; 15; 14; 14; 14; 14; 15; 15; 15; 15].

Definition hamm24err : list Z :=
  [0; -1; -1; -1; -1; -1; -1; -1; -1; -1; -1; -1; -1; -1; -1; -1;
   -1; -1; -1; -1; -1; -1; -1; -1; -1; -1; -1; -1; -1; -1; -1; -1;
   0; 0; 0; 0; 0; 0; 0; 0; 0; 0; 0; 0; 0; 0; 0; 0;
   0; 0; 0; 0; 0; 0; 0; 0; -1; -1; -1; -1; -1; -1; -1; -1].

Definition hamm24cor : list Z :=
  [0; 0; 0; 0; 0; 0; 0; 0;
   0; 0; 0; 0; 0; 0; 0; 0;
   0; 0; 0; 0; 0; 0; 0; 0;
   0; 0; 0; 0; 0; 0; 0; 0;
   0; 0; 0; 1; 0; 2; 4; 8;
   0; 16; 32; 64; 128; 256; 512; 1024;
   0; 2048; 4096; 8192; 16384; 32768; 65536; 131072;
   0; 0; 0; 0; 0; 0; 0; 0].

Definition rev_lut : list Z :=
  [0x00; 0x08; 0x04; 0x0c;
   0x02; 0x0a; 0x06; 0x0e;
   0x01; 0x09; 0x05; 0x0d;
   0x03; 0x0b; 0x07; 0x0f;
   0x00; 0x80; 0x40; 0xc0;
   0x20; 0xa0; 0x60; 0xe0;
   0x10; 0x90; 0x50; 0xd0;
   0x30; 0xb0; 0x70; 0xf0].

(** ** Decoding *)

Definition dehamming (b : Z) : Z := at_ dehamming_table b.

Definition deparity (b : Z) : Z := at_ deparity_table b.

(** The parity checks that a triplet fails. *)
Definition hamm24_e (p0 p1 p2 : Z) : Z :=
  Z.lxor (Z.lxor (at_ hamm24par0 p0) (at_ hamm24par1 p1)) (at_ hamm24par2 p2).

(** The data bits as they were received. *)
Definition hamm24_x (p0 p1 p2 : Z) : Z :=
  at_ hamm24val p0 + Z.land p1 127 * 16 + Z.land p2 127 * 2048.

(** Negative when the errors cannot be corrected. *)
Definition deh24 (p0 p1 p2 : Z) : Z :=
  let e := hamm24_e p0 p1 p2 in
  Z.lor (Z.lxor (hamm24_x p0 p1 p2) (at_ hamm24cor e)) (at_ hamm24err e).

(** A byte with its bits in the opposite order. *)
Definition rev_byte (b : Z) : Z :=
  let upper := Z.land (Z.shiftr b 4) 0xf in
  let lower := Z.land b 0xf in
  Z.lor (at_ rev_lut upper) (at_ rev_lut (lower + 16)).

(** ** The variant without tables, compiled out by [#if 1] *)

Module Serial.

(** [c &= c-1] resets the lowest bit set: at most 32 turns. *)
Fixpoint parity_loop (fuel : nat) (c n : Z) : Z :=
match fuel with
| O => n
| S f => if c =? 0 then n else parity_loop f (Z.land c (c - 1)) (Z.lxor n 1)
end.

Definition parity (c : Z) : Z := parity_loop 32 c 0.

Definition ham24 (v : Z) : Z :=
let val := Z.lor (Z.lor (Z.lor (Z.shiftl (Z.land v 0x000001) 2)
                               (Z.shiftl (Z.land v 0x00000e) 3))
                        (Z.shiftl (Z.land v 0x0007f0) 4))
                 (Z.shiftl (Z.land v 0x03f800) 5) in
let val := Z.lor val (parity (Z.land val 0x555554)) in
let val := Z.lor val (Z.shiftl (parity (Z.land val 0x666664)) 1) in
let val := Z.lor val (Z.shiftl (parity (Z.land val 0x787870)) 3) in
let val := Z.lor val (Z.shiftl (parity (Z.land val 0x007f00)) 7) in
let val := Z.lor val (Z.shiftl (parity (Z.land val 0x7f0000)) 15) in
Z.lor val (Z.shiftl (parity val) 23).

Definition deh24 (p0 p1 p2 : Z) : Z :=
let h24 := Z.lor (Z.lor p0 (Z.shiftl p1 8)) (Z.shiftl p2 16) in
let a := parity (Z.land h24 0x555555) in
let f := Z.lxor (parity (Z.land h24 0xaaaaaa)) a in
let a := Z.lor a
           (Z.lor (Z.lor (Z.lor (Z.shiftl (parity (Z.land h24 0x666666)) 1)
                                (Z.shiftl (parity (Z.land h24 0x787878)) 2))
                         (Z.shiftl (parity (Z.land h24 0x007f80)) 3))
                  (Z.shiftl (parity (Z.land h24 0x7f8000)) 4)) in
let result h24 :=
  Z.lor (Z.lor (Z.lor (Z.shiftr (Z.land h24 0x000004) 2)
                      (Z.shiftr (Z.land h24 0x000070) 3))
               (Z.shiftr (Z.land h24 0x007f00) 4))
        (Z.shiftr (Z.land h24 0x7f0000) 5) in
if negb (a =? 0x1f) then
  if negb (f =? 0) then -1
  else result (Z.lxor h24 (Z.shiftl 1 (Z.lxor a 0x1f - 1)))
else result h24.

End Serial.
