(* ===== verification/TxtCodeSpec.v ===== *)
(** * What the teletext codes promise

    The 8/4 decoder takes a byte to the nearest code word and rejects a byte
    that lies between two.  The 24/18 decoder returns the data of every code
    word, corrects every single error and rejects every double error; its
    bitwise variant agrees with it except on seven syndromes of three and more
    errors.  The decoders are tables: parity is linear ([parity_lxor]), so the
    tables are checked byte by byte and never word by word. *)

From Stdlib Require Import Btauto.
From S2P Require Import Prelude TxtCode.

Open Scope Z_scope.

(** ** Parity is linear *)

(** The sum modulo 2 of the lowest [n] bits. *)
Fixpoint bit_sum (n : nat) (c : Z) : Z :=
  match n with
  | O => 0
  | S k => Z.lxor (c mod 2) (bit_sum k (c / 2))
  end.

Lemma bit_sum_0 n : bit_sum n 0 = 0.
Proof. induction n as [|n IH]; cbn; [done|]. by rewrite Z.mod_0_l, Z.div_0_l, IH by lia. Qed.

Lemma bit_sum_range n c : 0 <= bit_sum n c < 2.
Proof.
  revert c. induction n as [|n IH]; intros c; cbn [bit_sum]; [lia|].
  apply (lxor_bound _ _ 1); [lia| |apply IH]. apply Z.mod_pos_bound. lia.
Qed.

Lemma mod2_lxor a b : Z.lxor a b mod 2 = Z.lxor (a mod 2) (b mod 2).
Proof. rewrite <- !Z.bit0_mod, Z.lxor_spec. by destruct (Z.testbit a 0), (Z.testbit b 0). Qed.

Lemma div2_lxor a b : Z.lxor a b / 2 = Z.lxor (a / 2) (b / 2).
Proof. rewrite <- !Z.div2_div, !Z.div2_spec. apply Z.shiftr_lxor. Qed.

Lemma bit_sum_lxor n a b : bit_sum n (Z.lxor a b) = Z.lxor (bit_sum n a) (bit_sum n b).
Proof.
  revert a b. induction n as [|n IH]; intros a b; cbn [bit_sum]; [done|].
  rewrite mod2_lxor, div2_lxor, IH, !Z.lxor_assoc. f_equal.
  by rewrite <- !Z.lxor_assoc, (Z.lxor_comm (b mod 2)).
Qed.

Lemma land_pred_double k : 0 < k -> Z.land (2 * k) (2 * k - 1) = 2 * Z.land k (k - 1).
Proof.
  intros Hk. apply Z.bits_inj'. intros i Hi.
  replace (2 * k - 1) with (2 * (k - 1) + 1) by lia.
  destruct (Z.eq_dec i 0) as [->|Hn].
  - by rewrite Z.land_spec, !Z.testbit_even_0, andb_false_l.
  - replace i with (Z.succ (i - 1)) by lia.
    by rewrite Z.land_spec, !Z.testbit_even_succ, Z.testbit_odd_succ, Z.land_spec by lia.
Qed.

Lemma land_pred_odd k : 0 <= k -> Z.land (2 * k + 1) (2 * k + 1 - 1) = 2 * k.
Proof.
  intros Hk. apply Z.bits_inj'. intros i Hi. replace (2 * k + 1 - 1) with (2 * k) by lia.
  destruct (Z.eq_dec i 0) as [->|Hn].
  - by rewrite Z.land_spec, Z.testbit_even_0, andb_false_r.
  - replace i with (Z.succ (i - 1)) by lia.
    by rewrite Z.land_spec, Z.testbit_even_succ, Z.testbit_odd_succ, andb_diag by lia.
Qed.

Lemma parity_loop_double f k n : 0 <= k -> Serial.parity_loop f (2 * k) n = Serial.parity_loop f k n.
Proof.
  revert k n. induction f as [|f IH]; intros k n Hk; cbn [Serial.parity_loop]; [done|].
  destruct (Z.eqb_spec k 0) as [->|Hn]; [done|]. rif.
  rewrite land_pred_double by lia. apply IH. apply Z.land_nonneg. lia.
Qed.

Lemma parity_loop_spec n : forall f c acc, (n <= f)%nat -> 0 <= c < 2 ^ Z.of_nat n ->
  Serial.parity_loop f c acc = Z.lxor acc (bit_sum n c).
Proof.
  induction n as [|n IH]; intros f c acc Hf Hc.
  - assert (c = 0) as -> by (cbn in Hc; lia). destruct f; cbn; by rewrite Z.lxor_0_r.
  - rewrite Nat2Z.inj_succ, Z.pow_succ_r in Hc by lia.
    assert (0 <= c / 2 < 2 ^ Z.of_nat n) as Hd.
    { split; [apply Z.div_pos; lia|apply Z.div_lt_upper_bound; lia]. }
    pose proof (Z.div_mod c 2 ltac:(lia)) as He. pose proof (Z.mod_pos_bound c 2 ltac:(lia)) as Hm.
    cbn [bit_sum]. assert (c mod 2 = 0 \/ c mod 2 = 1) as [Hz|Hz] by lia; rewrite Hz in *.
    + rewrite He at 1. rewrite Z.add_0_r, parity_loop_double, Z.lxor_0_l by lia. apply IH; lia.
    + destruct f as [|f]; [lia|]. cbn [Serial.parity_loop]. rif.
      rewrite He at 1 2. rewrite land_pred_odd, parity_loop_double, (IH f), Z.lxor_assoc by lia. done.
Qed.

Lemma parity_spec c : 0 <= c < 2 ^ 32 -> Serial.parity c = bit_sum 32 c.
Proof. intros. unfold Serial.parity. by rewrite (parity_loop_spec 32), Z.lxor_0_l by (cbn; lia). Qed.

(** ** The words of the 24/18 code *)

Definition word24 (p0 p1 p2 : Z) : Z := Z.lxor (Z.lxor p0 (Z.shiftl p1 8)) (Z.shiftl p2 16).

(** The six parity tests of ETS 300 706 8.3, test A in bit 0. *)
Definition tests (w : Z) : Z :=
  fold_right Z.lxor 0
    (imap (fun j m => Z.shiftl (bit_sum 32 (Z.land w m)) (Z.of_nat j))
       [0x555555; 0x666666; 0x787878; 0x007f80; 0x7f8000; 0xffffff]).

(** The 18 data bits of a word. *)
Definition data (w : Z) : Z :=
  Z.lxor (Z.lxor (Z.lxor (Z.shiftr (Z.land w 0x000004) 2) (Z.shiftr (Z.land w 0x000070) 3))
                 (Z.shiftr (Z.land w 0x007f00) 4))
         (Z.shiftr (Z.land w 0x7f0000) 5).

(** All six tests of a code word are odd. *)
Definition is_code (w v : Z) : Prop := 0 <= w < 2 ^ 24 /\ tests w = 63 /\ data w = v.

Lemma land_lxor a b m : Z.land (Z.lxor a b) m = Z.lxor (Z.land a m) (Z.land b m).
Proof.
  apply Z.bits_inj'. intros i Hi. rewrite Z.land_spec, !Z.lxor_spec, !Z.land_spec.
  by destruct (Z.testbit a i), (Z.testbit b i), (Z.testbit m i).
Qed.

(** Equations between sums modulo 2. *)
Ltac xor_ring :=
  apply Z.bits_inj'; let i := fresh "i" in let Hi := fresh "Hi" in
  intros i Hi; rewrite ?Z.lxor_spec, ?Z.bits_0;
  repeat match goal with
         | |- context [Z.testbit ?x i] => generalize (Z.testbit x i); intros ?
         end;
  btauto.

Lemma tests_lxor a b : tests (Z.lxor a b) = Z.lxor (tests a) (tests b).
Proof.
  unfold tests. cbn [imap fold_right compose Z.of_nat Pos.of_succ_nat Pos.succ].
  rewrite !land_lxor, !bit_sum_lxor, !Z.shiftl_lxor. xor_ring.
Qed.

Lemma data_lxor a b : data (Z.lxor a b) = Z.lxor (data a) (data b).
Proof. unfold data. rewrite !land_lxor, !Z.shiftr_lxor. xor_ring. Qed.

(** ** The tables against the definition of the code *)

Lemma at_par0 b : is_byte b -> at_ hamm24par0 b = tests b.
Proof.
  intros Hb. apply Z.eqb_eq.
  apply (forall_range (fun b => at_ hamm24par0 b =? tests b) 256); [by vm_compute|exact Hb].
Qed.

Lemma at_par1 b : is_byte b -> at_ hamm24par1 b = tests (Z.shiftl b 8).
Proof.
  intros Hb. apply Z.eqb_eq.
  apply (forall_range (fun b => at_ hamm24par1 b =? tests (Z.shiftl b 8)) 256); [by vm_compute|exact Hb].
Qed.

Lemma at_par2 b : is_byte b -> at_ hamm24par2 b = Z.lxor 63 (tests (Z.shiftl b 16)).
Proof.
  intros Hb. apply Z.eqb_eq.
  apply (forall_range (fun b => at_ hamm24par2 b =? Z.lxor 63 (tests (Z.shiftl b 16))) 256);
    [by vm_compute|exact Hb].
Qed.

Lemma hamm24_e_spec p0 p1 p2 : is_byte p0 -> is_byte p1 -> is_byte p2 ->
  hamm24_e p0 p1 p2 = Z.lxor 63 (tests (word24 p0 p1 p2)).
Proof.
  intros H0 H1 H2. unfold hamm24_e, word24.
  rewrite at_par0, at_par1, at_par2, !tests_lxor by done. xor_ring.
Qed.

Lemma land_shiftl_0 a b n : 0 <= n -> 0 <= a < 2 ^ n -> Z.land a (Z.shiftl b n) = 0.
Proof.
  intros Hn Ha. apply Z.bits_inj'. intros i Hi. rewrite Z.land_spec, Z.bits_0.
  destruct (Z.lt_ge_cases i n).
  - rewrite Z.shiftl_spec_low by lia. apply andb_false_r.
  - by rewrite (bits_small a n i) by lia.
Qed.

Lemma add_disjoint a b n : 0 <= n -> 0 <= a < 2 ^ n -> a + b * 2 ^ n = Z.lxor a (b * 2 ^ n).
Proof.
  intros Hn Ha. rewrite <- Z.shiftl_mul_pow2 by lia. by apply Z.add_nocarry_lxor, land_shiftl_0.
Qed.

Lemma at_val b : is_byte b -> at_ hamm24val b = data b /\ 0 <= data b < 16.
Proof.
  intros Hb. assert ((at_ hamm24val b =? data b) && (0 <=? data b) && (data b <? 16) = true) as H.
  { apply (forall_range (fun b => (at_ hamm24val b =? data b) && (0 <=? data b) && (data b <? 16)) 256);
      [by vm_compute|exact Hb]. }
  lia.
Qed.

Lemma data_byte1 b : is_byte b -> data (Z.shiftl b 8) = Z.land b 127 * 2 ^ 4.
Proof.
  intros Hb. apply Z.eqb_eq.
  apply (forall_range (fun b => data (Z.shiftl b 8) =? Z.land b 127 * 2 ^ 4) 256); [by vm_compute|exact Hb].
Qed.

Lemma data_byte2 b : is_byte b -> data (Z.shiftl b 16) = Z.land b 127 * 2 ^ 11.
Proof.
  intros Hb. apply Z.eqb_eq.
  apply (forall_range (fun b => data (Z.shiftl b 16) =? Z.land b 127 * 2 ^ 11) 256); [by vm_compute|exact Hb].
Qed.

Lemma land127_range b : 0 <= Z.land b 127 < 128.
Proof. change 127 with (Z.ones 7). rewrite Z.land_ones by lia. apply Z.mod_pos_bound. lia. Qed.

Lemma hamm24_x_spec p0 p1 p2 : is_byte p0 -> is_byte p1 -> is_byte p2 ->
  hamm24_x p0 p1 p2 = data (word24 p0 p1 p2) /\ 0 <= hamm24_x p0 p1 p2 < 2 ^ 18.
Proof.
  intros H0 H1 H2. unfold hamm24_x, word24. destruct (at_val p0 H0) as [-> Hr].
  pose proof (land127_range p1). pose proof (land127_range p2). split; [|lia].
  rewrite !data_lxor, data_byte1, data_byte2 by done.
  change 16 with (2 ^ 4). change 2048 with (2 ^ 11).
  by rewrite (add_disjoint _ _ 11), (add_disjoint _ _ 4) by lia.
Qed.

(** ** The decoder on words *)

Definition byte_of (w k : Z) : Z := Z.land (Z.shiftr w (8 * k)) 0xff.

Definition deh24_word (w : Z) : Z := deh24 (byte_of w 0) (byte_of w 1) (byte_of w 2).

Lemma byte_of_byte w k : is_byte (byte_of w k).
Proof. unfold byte_of. rewrite land_ones_255. apply u8_byte. Qed.

Lemma word24_bytes w : 0 <= w < 2 ^ 24 -> word24 (byte_of w 0) (byte_of w 1) (byte_of w 2) = w.
Proof.
  intros Hw. apply Z.bits_inj'. intros i Hi. unfold word24, byte_of.
  rewrite !land_ones_255, !Z.lxor_spec, !Z.shiftl_spec by lia.
  assert (forall a k, k < 0 -> Z.testbit a k = false) as Hneg by (intros; by apply Z.testbit_neg_r).
  assert (i < 8 \/ 8 <= i < 16 \/ 16 <= i < 24 \/ 24 <= i) as [H|[H|[H|H]]] by lia.
  - rewrite (Hneg _ (i - 8)), (Hneg _ (i - 16)), !xorb_false_r, u8_testbit, Z.shiftr_spec by lia.
    replace (i <? 8) with true by lia. cbn [andb]. f_equal. lia.
  - rewrite (Hneg _ (i - 16)), xorb_false_r, !u8_testbit, !Z.shiftr_spec by lia.
    replace (i <? 8) with false by lia. replace (i - 8 <? 8) with true by lia.
    rewrite andb_false_l, andb_true_l, xorb_false_l. f_equal. lia.
  - rewrite !u8_testbit, !Z.shiftr_spec by lia.
    replace (i <? 8) with false by lia. replace (i - 8 <? 8) with false by lia.
    replace (i - 16 <? 8) with true by lia.
    rewrite !andb_false_l, andb_true_l, xorb_false_l. f_equal. lia.
  - rewrite !u8_testbit by lia.
    replace (i <? 8) with false by lia. replace (i - 8 <? 8) with false by lia.
    replace (i - 16 <? 8) with false by lia. rewrite (bits_small w 24 i) by lia. reflexivity.
Qed.

(** What the decoder makes of the failed tests [e] and the received data [x]. *)
Definition repair (e x : Z) : Z := Z.lor (Z.lxor x (at_ hamm24cor e)) (at_ hamm24err e).

Lemma deh24_spec p0 p1 p2 : is_byte p0 -> is_byte p1 -> is_byte p2 ->
  deh24 p0 p1 p2 = repair (Z.lxor 63 (tests (word24 p0 p1 p2))) (data (word24 p0 p1 p2)).
Proof.
  intros H0 H1 H2. unfold deh24. rewrite hamm24_e_spec by done.
  by destruct (hamm24_x_spec p0 p1 p2 H0 H1 H2) as [-> _].
Qed.

Lemma deh24_word_spec w : 0 <= w < 2 ^ 24 ->
  deh24_word w = repair (Z.lxor 63 (tests w)) (data w).
Proof.
  intros Hw. unfold deh24_word. rewrite deh24_spec by apply byte_of_byte.
  by rewrite word24_bytes.
Qed.

(** Error patterns act on the syndrome alone. *)
Lemma deh24_code_error w v err : is_code w v -> 0 <= err < 2 ^ 24 ->
  deh24_word (Z.lxor w err) = repair (tests err) (Z.lxor v (data err)).
Proof.
  intros (Hw & Ht & <-) He.
  rewrite deh24_word_spec by (apply lxor_bound; lia).
  rewrite tests_lxor, data_lxor, Ht. f_equal. xor_ring.
Qed.

Lemma forall_range_in (P : Z -> bool) (n : nat) z :
  forallb (fun k => P (Z.of_nat k)) (seq 0 n) = true -> 0 <= z < Z.of_nat n -> P z = true.
Proof. intros H. by apply forall_range. Qed.

Lemma single_error i : 0 <= i < 24 ->
  at_ hamm24cor (tests (2 ^ i)) = data (2 ^ i) /\ at_ hamm24err (tests (2 ^ i)) = 0.
Proof.
  intros Hi.
  pose proof (forall_range_in (fun i => (at_ hamm24cor (tests (2 ^ i)) =? data (2 ^ i)) &&
    (at_ hamm24err (tests (2 ^ i)) =? 0)) 24 i ltac:(by vm_compute) Hi) as H.
  cbv beta in H. lia.
Qed.

Lemma double_error i j : 0 <= i < 24 -> 0 <= j < 24 -> i <> j ->
  at_ hamm24err (tests (Z.lxor (2 ^ i) (2 ^ j))) = -1.
Proof.
  intros Hi Hj Hn.
  pose proof (forall_range_in (fun i => forallb (fun j => (i =? Z.of_nat j) ||
    (at_ hamm24err (tests (Z.lxor (2 ^ i) (2 ^ Z.of_nat j))) =? -1)) (seq 0 24)) 24 i
    ltac:(by vm_compute) Hi) as H.
  pose proof (forall_range_in (fun j => (i =? j) ||
    (at_ hamm24err (tests (Z.lxor (2 ^ i) (2 ^ j))) =? -1)) 24 j H Hj) as Hp.
  cbv beta in Hp. lia.
Qed.

Lemma repair_undo e v d : at_ hamm24cor e = d -> at_ hamm24err e = 0 -> repair e (Z.lxor v d) = v.
Proof.
  intros Hc He. unfold repair. by rewrite Hc, He, Z.lor_0_r, Z.lxor_assoc, Z.lxor_nilpotent, Z.lxor_0_r.
Qed.

Lemma repair_reject e x : at_ hamm24err e = -1 -> repair e x = -1.
Proof. intros He. unfold repair. by rewrite He, Z.lor_m1_r. Qed.

Lemma pow2_range i n : 0 <= i < n -> 0 <= 2 ^ i < 2 ^ n.
Proof. intros. split; [lia|]. apply Z.pow_lt_mono_r; lia. Qed.

(** C18: the Hamming 24/18 decoder returns the data of every code word, still
    returns it when any one of the 24 bits arrives inverted, and reports an
    error (a negative number) when any two of them do. *)
Theorem deh24_corrects_and_detects w v i j :
  is_code w v -> 0 <= i < 24 -> 0 <= j < 24 -> i <> j ->
  deh24_word w = v /\
  deh24_word (Z.lxor w (2 ^ i)) = v /\
  deh24_word (Z.lxor w (Z.lxor (2 ^ i) (2 ^ j))) = -1.
Proof.
  intros Hw Hi Hj Hn. pose proof (pow2_range i 24 Hi). pose proof (pow2_range j 24 Hj). split_and!.
  - rewrite <- (Z.lxor_0_r w). rewrite (deh24_code_error w v 0) by (done || lia). by apply repair_undo.
  - rewrite (deh24_code_error w v) by done. by apply repair_undo; apply single_error.
  - rewrite (deh24_code_error w v) by (done || (apply lxor_bound; lia)).
    by apply repair_reject, double_error.
Qed.

(** ** The test encoder *)

(** Functions that commute with the sum modulo 2 are known by their values on
    the powers of two. *)
Lemma additive_ext (f g : Z -> Z) n :
  (forall a b, f (Z.lxor a b) = Z.lxor (f a) (f b)) ->
  (forall a b, g (Z.lxor a b) = Z.lxor (g a) (g b)) ->
  (forall i, 0 <= i < Z.of_nat n -> f (2 ^ i) = g (2 ^ i)) ->
  forall v, 0 <= v < 2 ^ Z.of_nat n -> f v = g v.
Proof.
  intros Hf Hg. assert (f 0 = 0 /\ g 0 = 0) as [Hf0 Hg0].
  { specialize (Hf 0 0). specialize (Hg 0 0). rewrite Z.lxor_0_r, Z.lxor_nilpotent in *. done. }
  induction n as [|n IH]; intros Hb v Hv.
  - assert (v = 0) as -> by (cbn in Hv; lia). by rewrite Hf0, Hg0.
  - rewrite Nat2Z.inj_succ, Z.pow_succ_r in Hv by lia.
    destruct (Z.lt_ge_cases v (2 ^ Z.of_nat n)) as [Hlt|Hge]; [apply IH; [intros; apply Hb|]; lia|].
    assert (v = Z.lxor (v - 2 ^ Z.of_nat n) (2 ^ Z.of_nat n)) as ->.
    { pose proof (add_disjoint (v - 2 ^ Z.of_nat n) 1 (Z.of_nat n)) as H.
      rewrite Z.mul_1_l in H. rewrite <- H by lia. lia. }
    rewrite Hf, Hg, (IH ltac:(intros; apply Hb; lia)) by lia. f_equal. apply Hb. lia.
Qed.

(** The encoder with its disjunctions, which never overlap, written as sums. *)
Definition spread (v : Z) : Z :=
  Z.lxor (Z.lxor (Z.lxor (Z.shiftl (Z.land v 0x000001) 2) (Z.shiftl (Z.land v 0x00000e) 3))
                 (Z.shiftl (Z.land v 0x0007f0) 4))
         (Z.shiftl (Z.land v 0x03f800) 5).

Definition add_check (k m val : Z) : Z := Z.lxor val (Z.shiftl (bit_sum 32 (Z.land val m)) k).

Definition ham24_sum (v : Z) : Z :=
  add_check 23 0x7fffff (add_check 15 0x7f0000 (add_check 7 0x007f00 (add_check 3 0x787870
    (add_check 1 0x666664 (add_check 0 0x555554 (spread v)))))).

Lemma add_check_lxor k m a b : add_check k m (Z.lxor a b) = Z.lxor (add_check k m a) (add_check k m b).
Proof. unfold add_check. rewrite land_lxor, bit_sum_lxor, Z.shiftl_lxor. xor_ring. Qed.

Lemma spread_lxor a b : spread (Z.lxor a b) = Z.lxor (spread a) (spread b).
Proof. unfold spread. rewrite !land_lxor, !Z.shiftl_lxor. xor_ring. Qed.

Lemma ham24_sum_lxor a b : ham24_sum (Z.lxor a b) = Z.lxor (ham24_sum a) (ham24_sum b).
Proof. unfold ham24_sum. by rewrite spread_lxor, !add_check_lxor. Qed.

Lemma lor_disjoint a b : Z.land a b = 0 -> Z.lor a b = Z.lxor a b.
Proof. intros. by rewrite Z.lxor_lor. Qed.

Lemma land_masks a b m n : Z.land m n = 0 -> Z.land (Z.land a m) (Z.land b n) = 0.
Proof.
  intros H. apply Z.bits_inj'. intros i Hi.
  assert (Z.testbit (Z.land m n) i = false) as Hb by (by rewrite H, Z.bits_0).
  rewrite Z.land_spec in Hb. rewrite !Z.land_spec, Z.bits_0.
  by destruct (Z.testbit a i), (Z.testbit b i), (Z.testbit m i), (Z.testbit n i).
Qed.

Lemma spread_lor v :
  Z.lor (Z.lor (Z.lor (Z.shiftl (Z.land v 0x000001) 2) (Z.shiftl (Z.land v 0x00000e) 3))
               (Z.shiftl (Z.land v 0x0007f0) 4))
        (Z.shiftl (Z.land v 0x03f800) 5) = spread v.
Proof.
  unfold spread. rewrite !Z.shiftl_land.
  rewrite (lor_disjoint (Z.land (v ≪ 2) _)) by (by apply land_masks).
  rewrite (lor_disjoint (Z.lxor _ _) (Z.land (v ≪ 4) _)) by (rewrite land_lxor, !land_masks; done).
  by rewrite (lor_disjoint (Z.lxor _ _) (Z.land (v ≪ 5) _)) by (rewrite !land_lxor, !land_masks; done).
Qed.

Lemma bit_testbit p k i : 0 <= p < 2 -> 0 <= k -> 0 <= i -> i <> k -> Z.testbit (Z.shiftl p k) i = false.
Proof.
  intros Hp Hk Hi Hn. rewrite Z.shiftl_spec by lia. destruct (Z.lt_ge_cases i k).
  - apply Z.testbit_neg_r. lia.
  - apply (bits_small p 1); lia.
Qed.

Lemma add_check_testbit k m val i : 0 <= k -> 0 <= i -> i <> k ->
  Z.testbit (add_check k m val) i = Z.testbit val i.
Proof.
  intros. unfold add_check. rewrite Z.lxor_spec, bit_testbit by (done || apply bit_sum_range).
  apply xorb_false_r.
Qed.

Lemma bit_range p k n : 0 <= p < 2 -> 0 <= k < n -> 0 <= Z.shiftl p k < 2 ^ n.
Proof.
  intros Hp Hk. rewrite Z.shiftl_mul_pow2 by lia.
  assert (2 ^ n = 2 ^ k * 2 ^ (n - k)) as -> by (rewrite <- Z.pow_add_r by lia; f_equal; lia).
  assert (2 <= 2 ^ (n - k)) by (change 2 with (2 ^ 1) at 1; apply Z.pow_le_mono_r; lia). nia.
Qed.

Lemma add_check_range k m val n : 0 <= k < n -> 0 <= val < 2 ^ n -> 0 <= add_check k m val < 2 ^ n.
Proof.
  intros. unfold add_check. apply lxor_bound; [lia|done|]. apply bit_range; [apply bit_sum_range|done].
Qed.

Lemma land_bound a m n : 0 <= n -> 0 <= a < 2 ^ n -> 0 <= Z.land a m < 2 ^ n.
Proof.
  intros Hn Ha. replace a with (Z.land a (Z.ones n)) by (rewrite Z.land_ones, Z.mod_small; lia).
  rewrite <- Z.land_assoc, (Z.land_comm (Z.ones n)), Z.land_assoc, Z.land_ones by lia.
  apply Z.mod_pos_bound. lia.
Qed.

Lemma add_check_lor k m val : 0 <= k -> 0 <= val < 2 ^ 24 -> Z.testbit val k = false ->
  Z.lor val (Z.shiftl (Serial.parity (Z.land val m)) k) = add_check k m val.
Proof.
  intros Hk Hv Hb. unfold add_check. pose proof (land_bound val m 24 ltac:(lia) Hv).
  rewrite parity_spec by lia. apply lor_disjoint, Z.bits_inj'. intros i Hi.
  rewrite Z.land_spec, Z.bits_0. destruct (Z.eq_dec i k) as [->|Hn]; [by rewrite Hb|].
  rewrite bit_testbit by (done || apply bit_sum_range). apply andb_false_r.
Qed.

Lemma spread_testbit v i : In i [0; 1; 3; 7; 15; 23] -> 0 <= v < 2 ^ 18 -> Z.testbit (spread v) i = false.
Proof.
  intros Hi Hv. unfold spread. rewrite !Z.lxor_spec, !Z.shiftl_spec, !Z.land_spec
    by (cbn in Hi; intuition lia).
  cbn in Hi. decompose [or] Hi; subst; try done; cbn -[Z.testbit]; rewrite ?andb_false_r;
    try done; rewrite ?(Z.testbit_neg_r v) by lia; try done.
Qed.

Lemma spread_range v : 0 <= v < 2 ^ 18 -> 0 <= spread v < 2 ^ 23.
Proof.
  intros Hv. unfold spread.
  assert (forall m k, 0 <= k <= 5 -> 0 <= Z.shiftl (Z.land v m) k < 2 ^ 23) as H.
  { intros m k Hk. pose proof (land_bound v m 18 ltac:(lia) Hv).
    rewrite Z.shiftl_mul_pow2 by lia.
    assert (2 ^ k <= 2 ^ 5) by (apply Z.pow_le_mono_r; lia). pose proof (Z.pow_pos_nonneg 2 k). nia. }
  repeat (apply lxor_bound; [lia| |apply H; lia]). apply H. lia.
Qed.

Lemma add_check_next k m k' m' v : 0 <= k < 23 -> 0 <= k' < 24 -> k' <> k ->
  0 <= v < 2 ^ 23 -> Z.testbit v k' = false ->
  0 <= add_check k m v < 2 ^ 23 /\ Z.testbit (add_check k m v) k' = false /\
  Z.lor (add_check k m v) (Z.shiftl (Serial.parity (Z.land (add_check k m v) m')) k') =
  add_check k' m' (add_check k m v).
Proof.
  intros Hk Hk' Hn Hv Hb. pose proof (add_check_range k m v 23 Hk Hv).
  assert (Z.testbit (add_check k m v) k' = false) by (by rewrite add_check_testbit by lia).
  split_and!; [lia..|done|]. apply add_check_lor; [lia..|done].
Qed.

Lemma ham24_is_sum v : 0 <= v < 2 ^ 18 -> Serial.ham24 v = ham24_sum v.
Proof.
  intros Hv. unfold Serial.ham24, ham24_sum. cbv zeta. rewrite spread_lor.
  pose proof (spread_range v Hv) as Hr.
  assert (forall k, In k [0; 1; 3; 7; 15; 23] -> Z.testbit (spread v) k = false) as Hb
    by (intros; by apply spread_testbit).
  rewrite <- (Z.shiftl_0_r (Serial.parity (Z.land (spread v) 0x555554))).
  rewrite (add_check_lor 0) by (done || lia || apply Hb; cbn; tauto).
  repeat match goal with
  | |- context [Z.lor (add_check ?k ?m ?x) (Z.shiftl (Serial.parity (Z.land (add_check ?k ?m ?x) ?m')) ?k')] =>
      rewrite (proj2 (proj2 (add_check_next k m k' m' x ltac:(lia) ltac:(lia) ltac:(lia)
        ltac:(repeat (apply add_check_range; [lia|]); done)
        ltac:(rewrite ?add_check_testbit by lia; apply Hb; cbn; tauto))))
  end.
  set (w := add_check 15 _ _).
  assert (0 <= w < 2 ^ 23) as Hw by (repeat (apply add_check_range; [lia|]); done).
  rewrite <- (Z.mod_small w (2 ^ 23)) at 2 by lia. rewrite <- Z.land_ones by lia.
  change (Z.ones 23) with 0x7fffff. apply add_check_lor; [lia..|].
  unfold w. rewrite !add_check_testbit by lia. apply Hb. cbn. tauto.
Qed.

Lemma tests_ham24 v : 0 <= v < 2 ^ 18 -> tests (ham24_sum v) = 0 /\ data (ham24_sum v) = v.
Proof.
  intros Hv. split.
  - apply (additive_ext (fun v => tests (ham24_sum v)) (fun _ => 0) 18); [..|done].
    + intros. by rewrite ham24_sum_lxor, tests_lxor.
    + done.
    + intros i Hi. apply Z.eqb_eq.
      apply (forall_range_in (fun i => tests (ham24_sum (2 ^ i)) =? 0) 18); [by vm_compute|done].
  - apply (additive_ext (fun v => data (ham24_sum v)) (fun v => v) 18); [..|done].
    + intros. by rewrite ham24_sum_lxor, data_lxor.
    + done.
    + intros i Hi. apply Z.eqb_eq.
      apply (forall_range_in (fun i => data (ham24_sum (2 ^ i)) =? 2 ^ i) 18); [by vm_compute|done].
Qed.

Lemma ham24_sum_range v : 0 <= v < 2 ^ 18 -> 0 <= ham24_sum v < 2 ^ 24.
Proof.
  intros Hv. pose proof (spread_range v Hv). unfold ham24_sum.
  repeat (apply add_check_range; [lia|]). lia.
Qed.

(** The encoder writes even parities: the standard's code words differ from
    its words in the five check bits of tests A to E. *)
Definition code24 (v : Z) : Z := Z.lxor (Serial.ham24 v) 0x00808b.

(** for every 18-bit value the word of the test encoder with its check
    bits inverted is the code word of that value, which the decoder decodes;
    the word the encoder itself writes the decoder rejects, for every value. *)
Theorem ham24_roundtrip v :
  0 <= v < 2 ^ 18 ->
  is_code (code24 v) v /\ deh24_word (code24 v) = v /\ deh24_word (Serial.ham24 v) = -1.
Proof.
  intros Hv. destruct (tests_ham24 v Hv) as [Ht Hd]. pose proof (ham24_sum_range v Hv).
  unfold code24. rewrite ham24_is_sum by done.
  assert (is_code (Z.lxor (ham24_sum v) 0x00808b) v) as Hc.
  { split; [apply lxor_bound; lia|split].
    - by rewrite tests_lxor, Ht.
    - rewrite data_lxor, Hd. apply Z.lxor_0_r. }
  split_and!; [done| |].
  - rewrite <- (Z.lxor_0_r (Z.lxor _ _)). rewrite (deh24_code_error _ v 0 Hc) by lia. by apply repair_undo.
  - rewrite deh24_word_spec, Ht by done. by apply repair_reject.
Qed.

(** ** The bitwise decoder *)

Definition serial_repair (t x : Z) : Z :=
  if negb (Z.land t 31 =? 31) then
    if Z.testbit t 5 then -1 else Z.lxor x (data (Z.shiftl 1 (Z.lxor (Z.land t 31) 31 - 1)))
  else x.

Lemma bit_cases n c : bit_sum n c = 0 \/ bit_sum n c = 1.
Proof. pose proof (bit_sum_range n c). lia. Qed.

Lemma bit_sum_masks n w m k : bit_sum n (Z.land w (Z.lxor m k)) =
  Z.lxor (bit_sum n (Z.land w m)) (bit_sum n (Z.land w k)).
Proof. by rewrite !(Z.land_comm w), land_lxor, bit_sum_lxor. Qed.

Lemma word24_lor p0 p1 p2 : is_byte p0 -> is_byte p1 -> is_byte p2 ->
  Z.lor (Z.lor p0 (Z.shiftl p1 8)) (Z.shiftl p2 16) = word24 p0 p1 p2 /\ 0 <= word24 p0 p1 p2 < 2 ^ 24.
Proof.
  unfold is_byte, word24. intros H0 H1 H2.
  rewrite (lor_disjoint p0) by (by apply land_shiftl_0).
  assert (0 <= Z.lxor p0 (Z.shiftl p1 8) < 2 ^ 16).
  { rewrite Z.shiftl_mul_pow2, <- add_disjoint by lia. lia. }
  rewrite lor_disjoint by (by apply land_shiftl_0). split; [done|].
  rewrite (Z.shiftl_mul_pow2 p2), <- add_disjoint by lia. lia.
Qed.

Lemma serial_result h : Z.lor (Z.lor (Z.lor (Z.shiftr (Z.land h 0x000004) 2)
    (Z.shiftr (Z.land h 0x000070) 3)) (Z.shiftr (Z.land h 0x007f00) 4)) (Z.shiftr (Z.land h 0x7f0000) 5)
  = data h.
Proof.
  unfold data. rewrite !Z.shiftr_land.
  rewrite (lor_disjoint (Z.land (h ≫ 2) _)) by (by apply land_masks).
  rewrite (lor_disjoint (Z.lxor _ _) (Z.land (h ≫ 4) _)) by (rewrite land_lxor, !land_masks; done).
  by rewrite (lor_disjoint (Z.lxor _ _) (Z.land (h ≫ 5) _)) by (rewrite !land_lxor, !land_masks; done).
Qed.

(** The tests as the bitwise decoder gathers them. *)
Lemma tests_bits w :
  let p m := bit_sum 32 (Z.land w m) in
  let a := Z.lor (p 0x555555)
             (Z.lor (Z.lor (Z.lor (Z.shiftl (p 0x666666) 1) (Z.shiftl (p 0x787878) 2))
                (Z.shiftl (p 0x007f80) 3)) (Z.shiftl (p 0x7f8000) 4)) in
  Z.land (tests w) 31 = a /\ Z.testbit (tests w) 5 = negb (p 0xffffff =? 0).
Proof.
  unfold tests. cbn [imap fold_right compose Z.of_nat Pos.of_succ_nat Pos.succ].
  destruct (bit_cases 32 (Z.land w 0x555555)) as [-> | ->],
    (bit_cases 32 (Z.land w 0x666666)) as [-> | ->], (bit_cases 32 (Z.land w 0x787878)) as [-> | ->],
    (bit_cases 32 (Z.land w 0x007f80)) as [-> | ->], (bit_cases 32 (Z.land w 0x7f8000)) as [-> | ->],
    (bit_cases 32 (Z.land w 0xffffff)) as [-> | ->]; done.
Qed.

Lemma serial_spec p0 p1 p2 : is_byte p0 -> is_byte p1 -> is_byte p2 ->
  Serial.deh24 p0 p1 p2 = serial_repair (tests (word24 p0 p1 p2)) (data (word24 p0 p1 p2)).
Proof.
  intros H0 H1 H2. unfold Serial.deh24. cbv zeta.
  destruct (word24_lor p0 p1 p2 H0 H1 H2) as [-> Hw]. set (w := word24 p0 p1 p2) in *.
  assert (forall m, Serial.parity (Z.land w m) = bit_sum 32 (Z.land w m)) as Hp.
  { intros m. pose proof (land_bound w m 24 ltac:(lia) Hw). apply parity_spec. lia. }
  rewrite !Hp, !serial_result, data_lxor, <- bit_sum_masks.
  change (Z.lxor 0xaaaaaa 0x555555) with 0xffffff.
  destruct (tests_bits w) as [<- Ht]. cbv zeta in Ht.
  unfold serial_repair. by rewrite Ht.
Qed.

Lemma repair_agrees t x : 0 <= t < 64 ->
  (Z.lxor 63 t < 56 -> repair (Z.lxor 63 t) x = serial_repair t x) /\
  (56 <= Z.lxor 63 t -> repair (Z.lxor 63 t) x = -1 /\ serial_repair t x = x).
Proof.
  intros Ht.
  pose proof (forall_range_in (fun t =>
    let e := Z.lxor 63 t in
    if e <? 56 then
      if negb (Z.land t 31 =? 31) then
        if Z.testbit t 5 then at_ hamm24err e =? -1
        else (at_ hamm24err e =? 0) &&
             (at_ hamm24cor e =? data (Z.shiftl 1 (Z.lxor (Z.land t 31) 31 - 1)))
      else (at_ hamm24err e =? 0) && (at_ hamm24cor e =? 0)
    else (at_ hamm24err e =? -1) && negb (Z.land t 31 =? 31) && negb (Z.testbit t 5) &&
         (data (Z.shiftl 1 (Z.lxor (Z.land t 31) 31 - 1)) =? 0)) 64 t ltac:(by vm_compute) Ht) as H.
  cbv beta zeta in H. unfold serial_repair.
  split; intros He; destruct (Z.ltb_spec (Z.lxor 63 t) 56); try lia.
  - destruct (negb (Z.land t 31 =? 31)).
    + destruct (Z.testbit t 5); [apply repair_reject; lia|]. apply andb_prop in H as [H1 H2].
      unfold repair. apply Z.eqb_eq in H1, H2. by rewrite H1, H2, Z.lor_0_r.
    + apply andb_prop in H as [H1 H2]. unfold repair. apply Z.eqb_eq in H1, H2.
      by rewrite H1, H2, Z.lor_0_r, Z.lxor_0_r.
  - apply andb_prop in H as [H Hd]. apply andb_prop in H as [H Hf]. apply andb_prop in H as [H Ha].
    split; [apply repair_reject; lia|]. rewrite Ha. apply negb_true_iff in Hf. rewrite Hf.
    apply Z.eqb_eq in Hd. by rewrite Hd, Z.lxor_0_r.
Qed.

Lemma tests_range w : 0 <= tests w < 64.
Proof.
  unfold tests. cbn [imap fold_right compose Z.of_nat Pos.of_succ_nat Pos.succ].
  change 64 with (2 ^ 6).
  repeat (apply lxor_bound; [lia|apply bit_range; [apply bit_sum_range|lia]|]). lia.
Qed.

(** C35: the table decoder and the bitwise decoder give the same result on
    every triple of bytes, except where the failed tests (56 to 63) show three
    or more errors: there the table decoder reports an error and the bitwise
    one returns the received data bits, uncorrected and unflagged. *)
Theorem deh24_table_is_serial p0 p1 p2 :
  is_byte p0 -> is_byte p1 -> is_byte p2 ->
  (hamm24_e p0 p1 p2 < 56 -> deh24 p0 p1 p2 = Serial.deh24 p0 p1 p2) /\
  (56 <= hamm24_e p0 p1 p2 ->
     deh24 p0 p1 p2 = -1 /\ Serial.deh24 p0 p1 p2 = hamm24_x p0 p1 p2).
Proof.
  intros H0 H1 H2. rewrite deh24_spec, serial_spec, hamm24_e_spec by done.
  rewrite (proj1 (hamm24_x_spec p0 p1 p2 H0 H1 H2)).
  apply repair_agrees, tests_range.
Qed.

(** A decoded triplet has 18 bits. *)
Lemma deh24_range p0 p1 p2 : is_byte p0 -> is_byte p1 -> is_byte p2 ->
  deh24 p0 p1 p2 = -1 \/ 0 <= deh24 p0 p1 p2 < 2 ^ 18.
Proof.
  intros H0 H1 H2. unfold deh24. cbv zeta. destruct (hamm24_x_spec p0 p1 p2 H0 H1 H2) as [_ Hx].
  assert (0 <= hamm24_e p0 p1 p2 < 64) as He.
  { rewrite hamm24_e_spec by done. apply (lxor_bound _ _ 6); [lia..|apply tests_range]. }
  pose proof (forall_range_in (fun e => ((at_ hamm24err e =? 0) || (at_ hamm24err e =? -1)) &&
    (0 <=? at_ hamm24cor e) && (at_ hamm24cor e <? 2 ^ 18)) 64 _ ltac:(by vm_compute) He) as H.
  cbv beta in H. apply andb_prop in H as [H H4]. apply andb_prop in H as [H H3].
  apply orb_prop in H as [H|H]; apply Z.eqb_eq in H; rewrite H.
  - right. rewrite Z.lor_0_r. apply lxor_bound; lia.
  - left. apply Z.lor_m1_r.
Qed.

(** ** Hamming 8/4 and parity *)

(** The number of bits in which two bytes differ. *)
Definition distance (a b : Z) : Z :=
  Z.of_nat (length (List.filter (Z.testbit (Z.lxor a b)) (seqZ 0 8))).

(** ETS 300 706 8.2: P1 D1 P2 D2 P3 D3 P4 D4, the first bit lowest. *)
Definition ham8 (d : Z) : Z :=
  let b i := Z.testbit d i in
  let p1 := negb (xorb (xorb (b 0) (b 2)) (b 3)) in
  let p2 := negb (xorb (xorb (b 0) (b 1)) (b 3)) in
  let p3 := negb (xorb (xorb (b 0) (b 1)) (b 2)) in
  let p4 := negb (fold_right xorb false [p1; b 0; p2; b 1; p3; b 2; b 3]) in
  fold_right (fun (x : bool) r => c_bool x + 2 * r) 0 [p1; b 0; p2; b 1; p3; b 2; p4; b 3].

(** the Hamming 8/4 table is the nearest-code-word decoder: it takes a
    byte to [d] exactly when the byte is the code word of [d] or differs from
    it in one bit, and to 0xFF when it differs from every code word in two. *)
Theorem dehamming_is_nearest b d :
  0 <= b < 256 -> 0 <= d < 16 ->
  (dehamming b = d <-> distance b (ham8 d) <= 1) /\
  (dehamming b = 0xFF <-> forall d', 0 <= d' < 16 -> 2 <= distance b (ham8 d')).
Proof.
  intros Hb Hd.
  pose proof (forall_range_in (fun b => forallb (fun k =>
      Bool.eqb (dehamming b =? Z.of_nat k) (distance b (ham8 (Z.of_nat k)) <=? 1)) (seq 0 16)) 256 b
    ltac:(by vm_compute) Hb) as H.
  assert (forall d, 0 <= d < 16 -> (dehamming b = d <-> distance b (ham8 d) <= 1)) as Hd'.
  { intros d' Hd'. pose proof (forall_range_in (fun d =>
      Bool.eqb (dehamming b =? d) (distance b (ham8 d) <=? 1)) 16 d' H Hd') as Hk.
    cbv beta in Hk. apply Bool.eqb_prop in Hk. lia. }
  pose proof (forall_range_in (fun b => (dehamming b =? 0xFF) || (0 <=? dehamming b) && (dehamming b <? 16))
    256 b ltac:(by vm_compute) Hb) as Hr. cbv beta in Hr.
  split; [by apply Hd'|]. split.
  - intros He d' Hr'. destruct (Hd' d' Hr') as [_ Hn]. lia.
  - intros Hall. destruct (Z.eq_dec (dehamming b) 0xFF) as [|Hn]; [done|exfalso].
    assert (0 <= dehamming b < 16) as Hr' by lia.
    pose proof (Hall _ Hr'). destruct (Hd' _ Hr') as [Hle _]. specialize (Hle eq_refl). lia.
Qed.

Lemma dehamming_range b : is_byte b -> dehamming b = 0xFF \/ 0 <= dehamming b < 16.
Proof.
  intros Hb. pose proof (forall_range_in (fun b => (dehamming b =? 0xFF) ||
    (0 <=? dehamming b) && (dehamming b <? 16)) 256 b ltac:(by vm_compute) Hb) as H.
  cbv beta in H. lia.
Qed.

(** of a byte with odd parity the table gives the seven low bits, of one
    with even parity a space; turning a byte round exchanges bit [i] and bit
    [7 - i], so that turning it twice gives it back. *)
Theorem deparity_rev_spec b i :
  0 <= b < 256 -> 0 <= i < 8 ->
  deparity b = (if Serial.parity b =? 1 then Z.land b 0x7f else 0x20) /\
  Z.testbit (rev_byte b) i = Z.testbit b (7 - i) /\
  rev_byte (rev_byte b) = b.
Proof.
  intros Hb Hi.
  pose proof (forall_range_in (fun b =>
    (deparity b =? (if Serial.parity b =? 1 then Z.land b 0x7f else 0x20)) &&
    (rev_byte (rev_byte b) =? b) &&
    forallb (fun k => Bool.eqb (Z.testbit (rev_byte b) (Z.of_nat k)) (Z.testbit b (7 - Z.of_nat k)))
      (seq 0 8)) 256 b ltac:(by vm_compute) Hb) as H.
  cbv beta in H. apply andb_prop in H as [H H3]. apply andb_prop in H as [H1 H2].
  pose proof (forall_range_in (fun k => Bool.eqb (Z.testbit (rev_byte b) k) (Z.testbit b (7 - k))) 8 i
    H3 Hi) as Hk.
  cbv beta in Hk. apply Bool.eqb_prop in Hk. split_and!; [lia|done|lia].
Qed.

Lemma deparity_range b : is_byte b -> 0 <= deparity b < 128.
Proof.
  intros Hb. pose proof (forall_range_in (fun b => (0 <=? deparity b) && (deparity b <? 128)) 256 b
    ltac:(by vm_compute) Hb) as H. cbv beta in H. lia.
Qed.

Lemma rev_byte_byte b : is_byte b -> is_byte (rev_byte b).
Proof.
  intros Hb. pose proof (forall_range_in (fun b => (0 <=? rev_byte b) && (rev_byte b <? 256)) 256 b
    ltac:(by vm_compute) Hb) as H. cbv beta in H. unfold is_byte. lia.
Qed.

(** ** At concrete words *)

Lemma deh24_corrects_and_detects_witness :
  deh24_word (code24 0x2a5a5) = 0x2a5a5 /\
  deh24_word (Z.lxor (code24 0x2a5a5) (2 ^ 5)) = 0x2a5a5 /\
  deh24_word (Z.lxor (code24 0x2a5a5) (Z.lxor (2 ^ 5) (2 ^ 17))) = -1.
Proof.
  apply (deh24_corrects_and_detects (code24 0x2a5a5) 0x2a5a5 5 17); [|lia..].
  split; [vm_compute; split; [discriminate|reflexivity]|split; reflexivity].
Defined.

Lemma ham24_roundtrip_witness : deh24_word (code24 0x3ffff) = 0x3ffff.
Proof. apply (ham24_roundtrip 0x3ffff). lia. Defined.

Lemma deh24_table_is_serial_witness : deh24 0x8b 0x80 0x01 = Serial.deh24 0x8b 0x80 0x01.
Proof.
  refine (proj1 (deh24_table_is_serial 0x8b 0x80 0x01 _ _ _) _); vm_compute; try done; split; done.
Defined.

Lemma dehamming_is_nearest_witness : dehamming 0x15 = 0 <-> distance 0x15 (ham8 0) <= 1.
Proof. apply (dehamming_is_nearest 0x15 0); lia. Defined.

Lemma deparity_rev_spec_witness : Z.testbit (rev_byte 0x02) 6 = true.
Proof. rewrite (proj1 (proj2 (deparity_rev_spec 0x02 6 ltac:(lia) ltac:(lia)))). reflexivity. Defined.
