(* ===== verification/TxtCache.v ===== *)
(** * The teletext cache (libtuxtxt/tuxtxt_def.h, tuxtxt_common.h)

    The library keeps every teletext page of a service: a table of pages by
    number (0x100 to 0x8ff) and subpage (0 to 0x7f), the text of each packed
    by a run-length code ([TUXTXT_COMPRESS] 2, the variant for the dbox2), and
    what the TOP and FLOF navigation tables say about them.  This file holds
    the data and the functions around the table; the thread that fills it is
    in TxtThread.v.

    C arrays are lists, read and written with a bounds check ([idx], [upd]).
    The page table is a finite map: a missing key is a null pointer.  Memory
    allocation answers from a list ([heap]: true, the next allocation works;
    an exhausted list, it works), and what a fresh page contains before it is
    cleared is the field [junk].  Locks and messages are left out. *)

From stdpp Require Import gmap.
From S2P Require Import Prelude TxtCode.

Open Scope Z_scope.

(** ** Checked arrays *)

Definition idx {A} (l : list A) (i : Z) : res A :=
  if 0 <=? i then match l !! Z.to_nat i with Some a => Ok a | None => Fault end else Fault.

Definition upd {A} (l : list A) (i : Z) (a : A) : res (list A) :=
  if (0 <=? i) && (i <? zlen l) then Ok (<[Z.to_nat i := a]> l) else Fault.

(** ** Loops with [continue], [break] and [return] *)

Inductive ctl : Type := Next | Break | Return.

Fixpoint mloop {S A} (l : list A) (f : A -> M S ctl) : M S ctl :=
  match l with
  | [] => mret_ Next
  | a :: r =>
      let! c := f a in
      match c with
      | Next => mloop r f
      | Break => mret_ Next
      | Return => mret_ Return
      end
  end.

(** ** Constants *)

Definition FLOFSIZE : Z := 4.
Definition FUNC_GPOP : Z := 2.
Definition FUNC_POP : Z := 3.
Definition FUNC_GDRCS : Z := 4.
Definition FUNC_DRCS : Z := 5.
Definition FUNC_MOT : Z := 6.
(** NAT_UK, NAT_DE, NAT_SW, NAT_IT, NAT_FR, NAT_SP, NAT_CZ, NAT_RO *)
Definition countryconversiontable : list Z := [2; 5; 12; 6; 4; 9; 1; 10].

(** ** Data *)

Record P27 : Type := mkP27 {
  p27_page : Z;
  p27_subpage : Z;
  p27_l25 : bool;
  p27_l35 : bool;
  p27_drcs : bool;
  p27_local : bool
}.

Record ExtData : Type := mkExt {
  p26 : list (option (list Z));   (* 16 designation codes *)
  p27 : option (list P27);        (* 4 links *)
  bgr : list Z;                   (* 16 colours *)
  DefaultCharset : Z;
  LSP : bool;
  SecondCharset : Z;
  RSP : bool;
  DefScreenColor : Z;
  ColorTableRemapping : Z;
  DefRowColor : Z;
  BlackBgSubst : bool;
  SPL25 : bool;
  p28Received : bool;
  LSPColumns : Z
}.
#[export] Instance ExtData_eta : Eta ExtData := fun r => mkExt (p26 r) (p27 r) (bgr r)
  (DefaultCharset r) (LSP r) (SecondCharset r) (RSP r) (DefScreenColor r) (ColorTableRemapping r)
  (DefRowColor r) (BlackBgSubst r) (SPL25 r) (p28Received r) (LSPColumns r).
Definition set_p26 := setter! p26.
Definition set_p27 := setter! p27.
Definition set_bgr := setter! bgr.
Definition set_DefaultCharset := setter! DefaultCharset.
Definition set_LSP := setter! LSP.
Definition set_SecondCharset := setter! SecondCharset.
Definition set_RSP := setter! RSP.
Definition set_DefScreenColor := setter! DefScreenColor.
Definition set_ColorTableRemapping := setter! ColorTableRemapping.
Definition set_DefRowColor := setter! DefRowColor.
Definition set_BlackBgSubst := setter! BlackBgSubst.
Definition set_SPL25 := setter! SPL25.
Definition set_p28Received := setter! p28Received.
Definition set_LSPColumns := setter! LSPColumns.

(** What [calloc] returns. *)
Definition zero_p27 : P27 := mkP27 0 0 false false false false.
Definition zero_ext : ExtData :=
  mkExt (replicate 16 None) None (replicate 16 0) 0 false 0 false 0 0 0 false false false 0.

Record Pageinfo : Type := mkInfo {
  p24 : option (list Z);          (* packets 24 and 25 *)
  ext : option ExtData;
  boxed : bool;
  nationalvalid : bool;
  national : Z;
  function : Z                    (* a field of three bits *)
}.
#[export] Instance Pageinfo_eta : Eta Pageinfo := fun r => mkInfo (p24 r) (ext r) (boxed r)
  (nationalvalid r) (national r) (function r).
Definition set_p24 := setter! p24.
Definition set_ext := setter! ext.
Definition set_boxed := setter! boxed.
Definition set_nationalvalid := setter! nationalvalid.
Definition set_national := setter! national.
Definition set_function := setter! function.
Definition zero_info : Pageinfo := mkInfo None None false false 0 0.

Record CachedPage : Type := mkPage {
  pageinfo : Pageinfo;
  p0 : list Z;                    (* 24 bytes of the headline *)
  pData : option (list Z);        (* packed packets 1 to 23 *)
  bitmask : list Z                (* 23*5 bytes: where a run starts *)
}.
#[export] Instance CachedPage_eta : Eta CachedPage := fun r => mkPage (pageinfo r) (p0 r)
  (pData r) (bitmask r).
Definition set_pageinfo := setter! pageinfo.
Definition set_p0 := setter! p0.
Definition set_pData := setter! pData.
Definition set_bitmask := setter! bitmask.

Record St : Type := mkSt {
  flofpages : list (list Z);      (* 0x900 rows of FLOFSIZE *)
  adip : list (list Z);           (* 0x900 rows of 13 *)
  subpagetable : list Z;
  cached_pages : Z;
  page : Z;                       (* the page on the screen *)
  subpage : Z;
  pageupdate : Z;
  page_receiving : Z;
  current_page : list Z;          (* 9, by magazine *)
  current_subpage : list Z;
  zap_subpage_manual : bool;
  bttok : Z;
  adippg : list Z;                (* 10 *)
  maxadippg : Z;
  basictop : list Z;
  timestring : list Z;
  astP29 : list (option ExtData); (* 9 *)
  astCachetable : gmap (Z * Z) CachedPage;
  vtxtpid : Z;
  subtitlepages : list (Z * Z);   (* 8 pairs of page and language *)
  (* locals of the thread *)
  doupdate : Z;
  pagedata : list (list Z);       (* 9 buffers of 23*40 *)
  (* the allocator *)
  heap : list bool;
  junk : CachedPage
}.
#[export] Instance St_eta : Eta St := fun r => mkSt (flofpages r) (adip r) (subpagetable r)
  (cached_pages r) (page r) (subpage r) (pageupdate r) (page_receiving r) (current_page r)
  (current_subpage r) (zap_subpage_manual r) (bttok r) (adippg r) (maxadippg r) (basictop r)
  (timestring r) (astP29 r) (astCachetable r) (vtxtpid r) (subtitlepages r) (doupdate r)
  (pagedata r) (heap r) (junk r).
Definition set_flofpages := setter! flofpages.
Definition set_adip := setter! adip.
Definition set_subpagetable := setter! subpagetable.
Definition set_cached_pages := setter! cached_pages.
Definition set_subpage := setter! subpage.
Definition set_pageupdate := setter! pageupdate.
Definition set_page_receiving := setter! page_receiving.
Definition set_current_page := setter! current_page.
Definition set_current_subpage := setter! current_subpage.
Definition set_bttok := setter! bttok.
Definition set_adippg := setter! adippg.
Definition set_maxadippg := setter! maxadippg.
Definition set_basictop := setter! basictop.
Definition set_timestring := setter! timestring.
Definition set_astP29 := setter! astP29.
Definition set_astCachetable := setter! astCachetable.
Definition set_vtxtpid := setter! vtxtpid.
Definition set_subtitlepages := setter! subtitlepages.
Definition set_doupdate := setter! doupdate.
Definition set_pagedata := setter! pagedata.
Definition set_heap := setter! heap.

(** ** Memory *)

(** [malloc], [calloc] or [realloc]: whether it returned memory. *)
Definition alloc : M St bool :=
  let! s := mget in
  match heap s with
  | [] => mret_ true
  | b :: r => mput (set_heap r s) ;;; mret_ b
  end.

(** The pointer [astCachetable[p][sp]]. *)
Definition page_at (p sp : Z) : M St (option CachedPage) :=
  let! s := mget in
  if (0 <=? p) && (p <? 0x900) && (0 <=? sp) && (sp <? 0x80)
  then mret_ (astCachetable s !! (p, sp)) else mfault.

(** A write through that pointer. *)
Definition page_mod (p sp : Z) (f : CachedPage -> CachedPage) : M St unit :=
  let! pg := page_at p sp in
  match pg with
  | Some pg => mmodify (fun s => set_astCachetable (<[(p, sp) := f pg]> (astCachetable s)) s)
  | None => mfault
  end.

Definition info_mod (p sp : Z) (f : Pageinfo -> Pageinfo) : M St unit :=
  page_mod p sp (fun pg => set_pageinfo (f (pageinfo pg)) pg).

(** ** Page numbers *)

Definition tuxtxt_next_dec (i : Z) : Z :=
  let i := i + 1 in
  let i := if 0x09 <? Z.land i 0x0F then i + 0x06 else i in
  let i := if 0x90 <? Z.land i 0xF0 then i + 0x60 else i in
  if 0x899 <? i then 0x100 else i.

Definition tuxtxt_prev_dec (i : Z) : Z :=
  let i := i - 1 in
  let i := if 0x09 <? Z.land i 0x0F then i - 0x06 else i in
  let i := if 0x90 <? Z.land i 0xF0 then i - 0x60 else i in
  if i <? 0x100 then 0x899 else i.

Definition tuxtxt_is_dec (i : Z) : bool := (Z.land i 0x00F <=? 9) && (Z.land i 0x0F0 <=? 0x90).

(** The loop of [tuxtxt_next_hex]; [fuel] bounds its turns. *)
Fixpoint next_hex_loop (fuel : nat) (subpages : list Z) (startpage i : Z) : res Z :=
  match fuel with
  | O => Diverge
  | S f =>
      let i := i + 1 in
      let i := if 0x8FF <? i then 0x100 else i in
      if i =? startpage then Ok i
      else
        let? sp := idx subpages i in
        if (sp =? 0xFF) || tuxtxt_is_dec i then next_hex_loop f subpages startpage i else Ok i
  end.

Definition tuxtxt_next_hex (fuel : nat) (i : Z) : M St Z :=
  let startpage := if i <? 0x100 then 0x100 else i in
  let! s := mget in
  mlift (next_hex_loop fuel (subpagetable s) startpage i).

Definition number2char (c : Z) : Z := c + (if c <=? 9 then 48 else 65 - 10).

(** [tuxtxt_hex2str]: the characters it writes, the leftmost first.  An
    unsigned int has at most eight digits. *)
Fixpoint hex2str_loop (fuel : nat) (n : Z) (acc : list Z) : list Z :=
  match fuel with
  | O => acc
  | S f =>
      let acc := number2char (Z.land n 0xF) :: acc in
      let n := Z.shiftr n 4 in
      if n =? 0 then acc else hex2str_loop f n acc
  end.

Definition tuxtxt_hex2str (n : Z) : list Z := hex2str_loop 8 n [].

(** The next cached subpage in the direction of [offset] (1 or -1). *)
Fixpoint GetSubPage_loop (fuel : nat) (pg subpg offset loop : Z) : M St Z :=
  match fuel with
  | O => fun _ => Diverge
  | S f =>
      if loop =? subpg then mret_ subpg
      else
        let loop := if loop <? 0 then 0x79 else if 0x79 <? loop then 0 else loop in
        if loop =? subpg then mret_ subpg
        else
          let! c := page_at pg loop in
          match c with
          | Some _ => mret_ loop
          | None => GetSubPage_loop f pg subpg offset (loop + offset)
          end
  end.

Definition tuxtxt_GetSubPage (fuel : nat) (pg subpg offset : Z) : M St Z :=
  GetSubPage_loop fuel pg subpg offset (subpg + offset).

(** The next or previous block or group page of a TOP service. *)
Fixpoint toptext_loop (fuel : nat) (btt : list Z) (ok : Z) (up findgroup : bool)
    (stoppage current nextgrp nextblk : Z) : res Z :=
  match fuel with
  | O => Diverge
  | S f =>
      let current := if up then tuxtxt_next_dec current else tuxtxt_prev_dec current in
      let? b := idx btt current in
      let next nextgrp nextblk :=
        if negb (current =? stoppage) then toptext_loop f btt ok up findgroup stoppage current nextgrp nextblk
        else if negb (nextgrp =? 0) then Ok nextgrp
        else if negb (nextblk =? 0) then Ok nextblk
        else Ok current in
      if (ok =? 0) || negb (b =? 0) then
        if findgroup && (6 <=? b) && (b <=? 7) then Ok current
        else
          let nextgrp :=
            if findgroup && (nextgrp =? 0) && (Z.land current 0x00F =? 0) then current else nextgrp in
          if (2 <=? b) && (b <=? 5) then Ok current
          else
            let nextblk :=
              if (nextblk =? 0) && (Z.land current 0x0FF =? 0) then current else nextblk in
            next nextgrp nextblk
      else next nextgrp nextblk
  end.

Definition tuxtxt_toptext_getnext (fuel : nat) (startpage : Z) (up findgroup : bool) : M St Z :=
  let stoppage := if tuxtxt_is_dec startpage then startpage else Z.land startpage 0xF00 in
  let! s := mget in
  mlift (toptext_loop fuel (basictop s) (bttok s) up findgroup stoppage startpage 0 0).

(** ** Packing a page *)

Definition TEXT : Z := 23 * 40.

Definition zero_mask : list Z := replicate 115 0.

(** One turn of the packing loop: the mask and the packed bytes so far. *)
Definition compress_step (buffer : list Z) (st : list Z * list Z) (i : Z) : list Z * list Z :=
  let '(mask, cbuf) := st in
  if negb (i =? 0) && (at_ buffer i =? at_ buffer (i - 1)) then (mask, cbuf)
  else (alter (fun b => Z.lor b (Z.shiftr 0x80 (Z.land i 7))) (Z.to_nat (Z.shiftr i 3)) mask,
        cbuf ++ [at_ buffer i]).

Definition pack (buffer : list Z) : list Z * list Z :=
  fold_left (compress_step buffer) (seqZ 0 TEXT) (zero_mask, []).

Definition tuxtxt_compress_page (p sp : Z) (buffer : list Z) : M St unit :=
  let! pg := page_at p sp in
  match pg with
  | None => mret_ tt
  | Some _ =>
      let '(mask, cbuf) := pack buffer in
      page_mod p sp (set_bitmask mask) ;;;
      let! ok := alloc in
      if ok then page_mod p sp (set_pData (Some cbuf))
      else page_mod p sp (fun pg => set_bitmask zero_mask (set_pData None pg))
  end.

(** The unpacking loop from byte [i] on: [n] bytes are left, [j] packed bytes
    are used up and [c] is the current one. *)
Fixpoint unpack_loop (n : nat) (mask data : list Z) (i j c : Z) : res (list Z) :=
  match n with
  | O => Ok []
  | S n =>
      let bit := negb (Z.land (at_ mask (Z.shiftr i 3)) (Z.shiftr 0x80 (Z.land i 7)) =? 0) in
      let? c' := if bit then rd data j else Ok c in
      let? r := unpack_loop n mask data (i + 1) (if bit then j + 1 else j) c' in
      Ok (c' :: r)
  end.

Definition unpack (mask data : list Z) : res (list Z) := unpack_loop (Z.to_nat TEXT) mask data 0 0 0x20.

Definition spaces : list Z := replicate (Z.to_nat TEXT) 0x20.

(** What [tuxtxt_decompress_page] leaves in the buffer. *)
Definition tuxtxt_decompress_page (p sp : Z) : M St (list Z) :=
  let! pg := page_at p sp in
  match pg with
  | None => mret_ spaces
  | Some pg =>
      match pData pg with
      | None => mret_ spaces
      | Some data => mlift (unpack (bitmask pg) data)
      end
  end.

Definition tuxtxt_get_zipsize (p sp : Z) : M St Z :=
  let! pg := page_at p sp in
  match pg with
  | None => mret_ 0
  | Some pg =>
      let bits b := fold_left (fun n j => n + Z.land (Z.shiftr b j) 0x01) (seqZ 0 8) 0 in
      mret_ (fold_left (fun n i => n + bits (at_ (bitmask pg) i)) (seqZ 0 115) 0 + 23 * 5)
  end.

(** ** TOP tables *)

(** [tuxtxt_cache.basictop[current] = b] for the 800 decimal pages.  The
    source marks its copy of the table at an error; the copy is local, so the
    mark is left out. *)
Fixpoint btt_basictop (btt : list Z) (n : nat) (i current : Z) : M St ctl :=
  match n with
  | O => mret_ Next
  | S n =>
      let b := at_ btt i in
      let b1 := if b =? 0x20 then 0 else dehamming b in
      if negb (b =? 0x20) && (b1 =? 0xFF) then mret_ Return
      else
        let! s := mget in
        let! t := mlift (upd (basictop s) current b1) in
        mput (set_basictop t s) ;;;
        btt_basictop btt n (i + 1) (tuxtxt_next_dec current)
  end.

(** One entry of the page linking table. *)
Definition btt_link (btt : list Z) (i : Z) : M St ctl :=
  let h k := dehamming (at_ btt (800 + 8 * i + k)) in
  if h 0 =? 0xE then mret_ Next
  else if h 0 =? 0xF then mret_ Break
  else if negb (h 7 =? 2) then mret_ Next
  else if (h 0 =? 0xFF) || (h 1 =? 0xFF) || (h 2 =? 0xFF) then mret_ Return
  else
    let! s := mget in
    let m := maxadippg s + 1 in
    let! t := mlift (upd (adippg s) m (Z.lor (Z.lor (Z.shiftl (h 0) 8) (Z.shiftl (h 1) 4)) (h 2))) in
    mput (set_adippg t (set_maxadippg m s)) ;;;
    mret_ Next.

Definition tuxtxt_decode_btt : M St unit :=
  let! s := mget in
  let! sp := mlift (idx (subpagetable s) 0x1f0) in
  if sp =? 0xff then mret_ tt
  else
    let! pg := page_at 0x1f0 sp in
    match pg with
    | None => mret_ tt
    | Some _ =>
        let! btt := tuxtxt_decompress_page 0x1f0 sp in
        if at_ btt 799 =? 0x20 then mret_ tt
        else
          let! c := btt_basictop btt 800 0 0x100 in
          match c with
          | Return => mret_ tt
          | _ =>
              mmodify (set_maxadippg (-1)) ;;;
              let! c := mloop (seqZ 0 10) (btt_link btt) in
              match c with
              | Return => mret_ tt
              | _ => mmodify (set_bttok 1)
              end
          end
    end.

(** The title of a page: twelve characters, trailing blanks as zeros. *)
Fixpoint adip_title (padip : list Z) (j : Z) (n : nat) (charfound : bool) (row : list Z) : list Z :=
  match n with
  | O => row
  | S b2 =>
      let b3 := deparity (at_ padip (20 * j + 8 + Z.of_nat b2)) in
      let b3 := if b3 <? 0x20 then 0x20 else b3 in
      if (b3 =? 0x20) && negb charfound
      then adip_title padip j b2 charfound (<[b2 := 0]> row)
      else adip_title padip j b2 true (<[b2 := b3]> row)
  end.

Definition adip_entry (padip : list Z) (j : Z) : M St ctl :=
  let h k := dehamming (at_ padip (20 * j + k)) in
  if h 0 =? 0xE then mret_ Next
  else if h 0 =? 0xF then mret_ Break
  else if (h 0 =? 0xFF) || (h 1 =? 0xFF) || (h 2 =? 0xFF) then mret_ Return
  else if (8 <? h 0) || (9 <? h 1) || (9 <? h 2) then mret_ Next
  else
    let p := Z.lor (Z.lor (Z.shiftl (h 0) 8) (Z.shiftl (h 1) 4)) (h 2) in
    let! s := mget in
    let! row := mlift (idx (adip s) p) in
    let! t := mlift (upd (adip s) p (adip_title padip j 12 false row)) in
    mput (set_adip t s) ;;;
    mret_ Next.

Definition adip_page (i : Z) : M St ctl :=
  let! s := mget in
  let! p := mlift (idx (adippg s) i) in
  if p =? 0 then mret_ Next
  else
    let! sp := mlift (idx (subpagetable s) p) in
    if sp =? 0xff then mret_ Next
    else
      let! pg := page_at p sp in
      match pg with
      | None => mret_ Next
      | Some _ =>
          let! padip := tuxtxt_decompress_page p sp in
          let! c := mloop (seqZ 0 44) (adip_entry padip) in
          match c with
          | Return => mret_ Return
          | _ =>
              let! s := mget in
              let! t := mlift (upd (adippg s) i 0) in
              mput (set_adippg t s) ;;;
              mret_ Next
          end
      end.

(** [while (!adippg[maxadippg] && maxadippg >= 0)]: the table is read before
    the index is tested. *)
Fixpoint adip_shrink (fuel : nat) : M St unit :=
  match fuel with
  | O => fun _ => Diverge
  | S f =>
      let! s := mget in
      let! p := mlift (idx (adippg s) (maxadippg s)) in
      if (p =? 0) && (0 <=? maxadippg s)
      then mput (set_maxadippg (maxadippg s - 1) s) ;;; adip_shrink f
      else mret_ tt
  end.

Definition tuxtxt_decode_adip : M St unit :=
  let! s := mget in
  let! c := mloop (seqZ 0 (maxadippg s + 1)) adip_page in
  match c with
  | Return => mret_ tt
  | _ => adip_shrink 12
  end.

(** ** Clearing, erasing, allocating *)

(** Freed memory is not modelled: the pointers are simply gone. *)
Definition tuxtxt_clear_cache : M St unit :=
  mmodify (fun s =>
    set_maxadippg (-1) (set_bttok 0 (set_cached_pages 0 (set_page_receiving (-1) (set_vtxtpid (-1)
      (set_subpagetable (replicate 0x900%nat 0xFF) (set_basictop (replicate 0x900%nat 0)
        (set_adip (replicate 0x900%nat (replicate 13 0))
          (set_flofpages (replicate 0x900%nat (replicate 4 0)) (set_timestring (replicate 8 0x20)
            (set_subtitlepages (replicate 8 (0, 0)) (set_current_page (replicate 9 (-1))
              (set_current_subpage (replicate 9 (-1)) (set_astCachetable ∅
                (set_astP29 (replicate 9 None) s))))))))))))))).

(** [memset] of the page info, the headline and the mask. *)
Definition erased (pg : CachedPage) : CachedPage :=
  set_bitmask zero_mask (set_p0 (replicate 24 0x20) (set_pageinfo zero_info pg)).

Definition tuxtxt_erase_page (magazine : Z) : M St unit :=
  let! s := mget in
  let! p := mlift (idx (current_page s) magazine) in
  let! sp := mlift (idx (current_subpage s) magazine) in
  let! pg := page_at p sp in
  match pg with
  | None => mret_ tt
  | Some _ => page_mod p sp erased
  end.

Definition tuxtxt_allocate_cache (magazine : Z) : M St unit :=
  let! s := mget in
  let! p := mlift (idx (current_page s) magazine) in
  let! sp := mlift (idx (current_subpage s) magazine) in
  let! pg := page_at p sp in
  match pg with
  | Some _ => mret_ tt
  | None =>
      let! ok := alloc in
      if ok then
        mmodify (fun s => set_astCachetable (<[(p, sp) := set_pData None (junk s)]> (astCachetable s)) s) ;;;
        tuxtxt_erase_page magazine ;;;
        mmodify (fun s => set_cached_pages (cached_pages s + 1) s)
      else mret_ tt
  end.

(** ** Packets 28 and 29 *)

(** [deh24(&row[p])]. *)
Definition deh24_at (row : list Z) (p : Z) : res Z :=
  let? b0 := rd row p in
  let? b1 := rd row (p + 1) in
  let? b2 := rd row (p + 2) in
  Ok (deh24 b0 b1 b2).

(** The loop over the 16 colours: twelve bits each out of triplets of 18. *)
Fixpoint p28_colors (row : list Z) (n : nat) (colorindex t2 bitsleft p : Z) (colors : list Z) :
    res (Z * Z * list Z) :=
  match n with
  | O => Ok (t2, bitsleft, colors)
  | S n =>
      let take_color t2 bitsleft p :=
        let? colors := upd colors colorindex (Z.land t2 0x0fff) in
        p28_colors row n (colorindex + 1) (Z.shiftr t2 12) (bitsleft - 12) p colors in
      if bitsleft <? 12 then
        let? d := deh24_at row p in
        let t2 := Z.lor t2 (Z.shiftl d bitsleft) in
        if t2 <? 0 then Ok (t2, bitsleft, colors)
        else take_color t2 (bitsleft + 18) (p + 3)
      else take_color t2 bitsleft p
  end.

Definition p28_head (t1 t2 : Z) (e : ExtData) : ExtData :=
  set_LSPColumns (Z.land (Z.shiftr t2 6) 0x0f)
    (set_SPL25 (negb (Z.land t2 0x20 =? 0))
      (set_RSP (negb (Z.land t2 0x10 =? 0))
        (set_LSP (negb (Z.land t2 0x08 =? 0))
          (set_SecondCharset (Z.lor (Z.land (Z.shiftr t1 14) 0x0f) (Z.land (Z.shiftl t2 4) 0x70))
            (set_DefaultCharset (Z.land (Z.shiftr t1 7) 0x7f)
              (set_p28Received true e)))))).

Definition p28_tail (t2 : Z) (e : ExtData) : ExtData :=
  let e := set_DefScreenColor (Z.land t2 0x1f) e in
  let t2 := Z.shiftr t2 5 in
  let e := set_BlackBgSubst (negb (Z.land t2 0x20 =? 0)) (set_DefRowColor (Z.land t2 0x1f) e) in
  let t2 := Z.shiftr t2 6 in
  set_ColorTableRemapping (Z.land t2 0x07) e.

(** [*ptExtData] before and after. *)
Definition tuxtxt_decode_p2829 (row : list Z) (ptr : option ExtData) : M St (option ExtData) :=
  let! t1 := mlift (deh24_at row 3) in
  let! t2 := mlift (deh24_at row 6) in
  if (t1 <? 0) || (t2 <? 0) then mret_ ptr
  else
    let! e := match ptr with
              | Some e => mret_ (Some e)
              | None => let! ok := alloc in mret_ (if ok then Some zero_ext else None)
              end in
    match e with
    | None => mret_ None
    | Some e =>
        let e := p28_head t1 t2 e in
        let! r := mlift (p28_colors row 16 0 (Z.shiftr t2 10) 8 9 (bgr e)) in
        let '(t2, bitsleft, colors) := r in
        let e := set_bgr colors e in
        if (t2 <? 0) || negb (bitsleft =? 14) then mret_ (Some (set_p28Received false e))
        else mret_ (Some (p28_tail t2 e))
    end.

(** ** Triplets of an object page *)

(** -1 when the triplet does not exist. *)
Definition tuxtxt_iTripletNumber2Data (iONr : Z) (pg : option CachedPage) (text : list Z) : res Z :=
  match pg with
  | None => Ok (-1)
  | Some pg =>
      if 506 <? iONr then Ok (-1)
      else
        let packet := Z.quot iONr 13 + 3 in
        let packetoffset := 3 * Z.rem iONr 13 in
        if packet <=? 23 then deh24_at text (40 * (packet - 1) + packetoffset + 1)
        else if packet <=? 25 then
          match p24 (pageinfo pg) with
          | None => Ok (-1)
          | Some l => deh24_at l (40 * (packet - 24) + packetoffset + 1)
          end
        else
          match ext (pageinfo pg) with
          | None => Ok (-1)
          | Some e =>
              let? d := idx (p26 e) (packet - 26) in
              match d with
              | None => Ok (-1)
              | Some l => deh24_at l packetoffset
              end
          end
  end.
