(* ===== verification/TxtThread.v ===== *)
(** * The thread that fills the teletext cache (libtuxtxt/tuxtxt_common.h)

    [tuxtxt_CacheThread] reads PES packets of 184 bytes from the demux device;
    each holds four lines of 46 bytes, each line one teletext packet.
    [handle_row] is what the thread does with one packet, [handle_pes] with
    one read.  The loop around the read, its end by [pthread_cancel] and the
    lock are left out.

    A magazine is a number from 1 to 8; the pointer [pageinfo_thread] is the
    key of the page it points into. *)

From stdpp Require Import gmap.
From S2P Require Import Prelude TxtCode TxtCache.

Open Scope Z_scope.

(** A byte of the row through the 8/4 decoder. *)
Definition dh (row : list Z) (i : Z) : Z := dehamming (at_ row i).

(** The two C arrays indexed by magazine. *)
Definition cur (magazine : Z) : M St (Z * Z) :=
  let! s := mget in
  let! p := mlift (idx (current_page s) magazine) in
  let! sp := mlift (idx (current_subpage s) magazine) in
  mret_ (p, sp).

Definition put_current_page (magazine v : Z) : M St unit :=
  let! s := mget in
  let! t := mlift (upd (current_page s) magazine v) in
  mput (set_current_page t s).

Definition put_current_subpage (magazine v : Z) : M St unit :=
  let! s := mget in
  let! t := mlift (upd (current_subpage s) magazine v) in
  mput (set_current_subpage t s).

Definition get_pagedata (magazine : Z) : M St (list Z) :=
  let! s := mget in mlift (idx (pagedata s) magazine).

Definition put_pagedata (magazine : Z) (b : list Z) : M St unit :=
  let! s := mget in
  let! t := mlift (upd (pagedata s) magazine b) in
  mput (set_pagedata t s).

(** Packs the buffer of the magazine into its current page. *)
Definition compress_current (magazine : Z) : M St unit :=
  let! k := cur magazine in
  let! b := get_pagedata magazine in
  tuxtxt_compress_page (fst k) (snd k) b.

(** ** Packet 0: the page header *)

(** The subtitle table: the entry of the page, or the first free one. *)
Fixpoint subtitle_slot (l : list (Z * Z)) (pg i use : Z) : Z * Z :=
  match l with
  | [] => (use, -1)
  | (q, _) :: l =>
      if (use =? -1) && (q =? 0) then subtitle_slot l pg (i + 1) i
      else if q =? pg then (i, i)
      else subtitle_slot l pg (i + 1) use
  end.

Definition note_subtitle (pg language : Z) : M St unit :=
  let! s := mget in
  let '(use, found) := subtitle_slot (subtitlepages s) pg 0 (-1) in
  if use =? -1 then mret_ tt
  else
    let! e := mlift (idx (subtitlepages s) use) in
    let q := if found =? -1 then pg else fst e in
    let! t := mlift (upd (subtitlepages s) use (q, language)) in
    mput (set_subtitlepages t s).

(** What the header says of the page [(p, sp)] once the page is allocated. *)
Definition header_controls (magazine : Z) (row : list Z) (p sp : Z) : M St unit :=
  let! pg := page_at p sp in
  match pg with
  | None => mfault                    (* pageinfo_thread is a null pointer *)
  | Some _ =>
      (if Z.land p 0xff =? 0xfe then info_mod p sp (set_function FUNC_MOT) else mret_ tt) ;;;
      (if negb (Z.land (dh row 5) 8 =? 0) then
         page_mod p sp (set_bitmask zero_mask) ;;; put_pagedata magazine spaces
       else mret_ tt) ;;;
      (if negb (Z.land (dh row 9) 8 =? 0) then mmodify (set_doupdate p) else mret_ tt) ;;;
      info_mod p sp (set_boxed (negb (Z.land (dh row 7) 0x0c =? 0))) ;;;
      (if dh row 9 =? 0xFF then mret_ tt
       else info_mod p sp (fun i => set_national (Z.land (at_ rev_lut (dh row 9)) 0x07)
                                      (set_nationalvalid true i))) ;;;
      (if negb (Z.land (dh row 7) 0x08 =? 0) then
         let! pg := page_at p sp in
         match pg with
         | None => mfault
         | Some pg => note_subtitle p (at_ countryconversiontable (national (pageinfo pg)))
         end
       else mret_ tt) ;;;
      page_mod p sp (set_p0 (map (fun k => deparity (at_ row (10 + k))) (seqZ 0 24)))
  end.

(** [true]: control reaches the update flag at the end of the turn; [false]:
    a [continue] skipped it. *)
Definition packet_0 (magazine : Z) (row : list Z) : M St bool :=
  let b2 := dh row 3 in
  let b3 := dh row 2 in
  if (b2 =? 0xFF) || (b3 =? 0xFF) then
    mmodify (set_page_receiving (-1)) ;;;
    put_current_page magazine (-1) ;;;
    mret_ false
  else
    let p := Z.lor (Z.lor (Z.shiftl magazine 8) (Z.shiftl b2 4)) b3 in
    mmodify (set_page_receiving p) ;;;
    put_current_page magazine p ;;;
    if (b2 =? 0x0f) && (b3 =? 0x0f) then
      put_current_subpage magazine (-1) ;;; mret_ false
    else
      let b1 := dh row 7 in
      let b2 := dh row 6 in
      let b3 := dh row 5 in
      let b4 := dh row 4 in
      if (b1 =? 0xFF) || (b2 =? 0xFF) || (b3 =? 0xFF) || (b4 =? 0xFF) then
        put_current_subpage magazine (-1) ;;; mret_ false
      else
        let sp := if tuxtxt_is_dec p then Z.lor (Z.shiftl (Z.land b3 7) 4) b4 else b4 in
        put_current_subpage magazine sp ;;;
        let! s := mget in
        let! t := mlift (upd (subpagetable s) p sp) in
        mput (set_subpagetable t s) ;;;
        tuxtxt_allocate_cache magazine ;;;
        let! text := tuxtxt_decompress_page p sp in
        put_pagedata magazine text ;;;
        header_controls magazine row p sp ;;;
        if negb (tuxtxt_is_dec p) then mret_ false
        else
          mmodify (set_timestring (map (fun k => deparity (at_ row (34 + k))) (seqZ 0 8))) ;;;
          mret_ true.

(** ** Packets 1 to 25: text *)

(** Forty bytes as the kind of page has them stored. *)
Definition text_row (p : Z) (row : list Z) : list Z :=
  map (fun k =>
    let b := at_ row (2 + k) in
    if tuxtxt_is_dec p then Z.land b 0x7f
    else if Z.land p 0xff =? 0xfe then dehamming b
    else b) (seqZ 0 40).

Definition packet_text (magazine packet_number : Z) (row : list Z) (p sp : Z) : M St unit :=
  if packet_number <? 24 then
    let! b := get_pagedata magazine in
    let! b := mlift (memcpy_to b (40 * (packet_number - 1)) (text_row p row)) in
    put_pagedata magazine b
  else
    let! pg := page_at p sp in
    match pg with
    | None => mfault
    | Some pg =>
        let! l := match p24 (pageinfo pg) with
                  | Some l => mret_ (Some l)
                  | None => let! ok := alloc in mret_ (if ok then Some (replicate 80 0) else None)
                  end in
        match l with
        | None => mret_ tt
        | Some l =>
            let! l := mlift (memcpy_to l ((packet_number - 24) * 40) (text_row p row)) in
            info_mod p sp (set_p24 (Some l))
        end
    end.

(** ** Packet 27/0: FLOF links *)

(** Four links; a link with an error keeps its old value. *)
Definition flof_link (row : list Z) (p byte : Z) : M St ctl :=
  let b1 := Z.land (dh row 0) 7 in
  let b2 := dh row (4 + byte * 6) in
  let b3 := dh row (3 + byte * 6) in
  if negb (b2 =? 0xff) && negb (b3 =? 0xff) then
    let b4 := Z.lor (Z.land (Z.lxor b1 (Z.shiftr (dh row (8 + byte * 6)) 1)) 6)
                    (Z.land (Z.lxor b1 (Z.shiftr (dh row (6 + byte * 6)) 3)) 1) in
    let b4 := if b4 =? 0 then 8 else b4 in
    if (b2 <=? 9) && (b3 <=? 9) then
      let! s := mget in
      let! links := mlift (idx (flofpages s) p) in
      let! links := mlift (upd links byte (Z.lor (Z.lor (Z.shiftl b4 8) (Z.shiftl b2 4)) b3)) in
      let! t := mlift (upd (flofpages s) p links) in
      mput (set_flofpages t s) ;;;
      mret_ Next
    else mret_ Next
  else mret_ Next.

Definition isalnum (c : Z) : bool :=
  (48 <=? c) && (c <=? 57) || (65 <=? c) && (c <=? 90) || (97 <=? c) && (c <=? 122).

(** [for (; l >= 2 && 0 == links[l]; l--)] *)
Fixpoint used_link (fuel : nat) (links : list Z) (l : Z) : Z :=
  match fuel with
  | O => l
  | S f => if (2 <=? l) && (at_ links l =? 0) then used_link f links (l - 1) else l
  end.

(** [for (; e >= 1 && !isalnum(p[e]); e--)] *)
Fixpoint word_end (fuel : nat) (l : list Z) (e : Z) : Z :=
  match fuel with
  | O => e
  | S f => if (1 <=? e) && negb (isalnum (at_ l e)) then word_end f l (e - 1) else e
  end.

(** [for (a = a1 = e - 1; a >= 0 && p[a] >= ' '; a--) if (p[a] > ' ') a1 = a;]
    (char is unsigned on the PowerPC of the dbox2) *)
Fixpoint word_start (fuel : nat) (l : list Z) (a a1 : Z) : Z * Z :=
  match fuel with
  | O => (a, a1)
  | S f =>
      if (0 <=? a) && (0x20 <=? at_ l a)
      then word_start f l (a - 1) (if 0x20 <? at_ l a then a else a1)
      else (a, a1)
  end.

(** The twelve bytes that [strncpy(dst, src, 12)] writes. *)
Fixpoint strncpy_bytes (n : nat) (src : list Z) : list Z :=
  match n, src with
  | O, _ => []
  | S n, [] => 0 :: strncpy_bytes n []
  | S n, c :: r => if c =? 0 then replicate (S n) 0 else c :: strncpy_bytes n r
  end.

(** The titles of the last two links, from line 24; [p] is the page, [l] the
    link, [e] the column from which the search runs to the left. *)
Fixpoint flof_titles (fuel : nat) (p : Z) (text : list Z) (l e : Z) : M St unit :=
  match fuel with
  | O => fun _ => Diverge
  | S f =>
      let! s := mget in
      let! links := mlift (idx (flofpages s) p) in
      let l := used_link 2 links l in
      let e := word_end 39 text e in
      let '(a, a1) := word_start 39 text (e - 1) (e - 1) in
      (if (0 <=? a) && (2 <=? l) then
         let! q := mlift (idx links l) in
         let! title := mlift (idx (adip s) q) in
         let! title := mlift (memcpy_to title 0 (strncpy_bytes 12 (drop (Z.to_nat a1) text))) in
         let! title := (if e - a1 <? 11 then mlift (upd title (e - a1 + 1) 0) else mret_ title) in
         let! t := mlift (upd (adip s) q title) in
         mput (set_adip t s)
       else mret_ tt) ;;;
      if 2 <=? l - 1 then flof_titles f p text (l - 1) (a - 1) else mret_ tt
  end.

Definition packet_27_0 (row : list Z) (p sp : Z) : M St unit :=
  if dh row 0 =? 0xff then mret_ tt
  else
    let! _ := mloop (seqZ 0 FLOFSIZE) (flof_link row p) in
    let! pg := page_at p sp in
    match pg with
    | None => mfault
    | Some pg =>
        match p24 (pageinfo pg) with
        | None => mret_ tt
        | Some l => flof_titles 2 p l 3 39
        end
    end.

(** ** Packet 27/4: links of level 2.5 *)

(** [pageinfo_thread->ext], allocated when it is missing. *)
Definition get_ext (p sp : Z) : M St (option ExtData) :=
  let! pg := page_at p sp in
  match pg with
  | None => mfault
  | Some pg =>
      match ext (pageinfo pg) with
      | Some e => mret_ (Some e)
      | None =>
          let! ok := alloc in
          if ok then info_mod p sp (set_ext (Some zero_ext)) ;;; mret_ (Some zero_ext)
          else mret_ None
      end
  end.

Definition put_ext (p sp : Z) (e : ExtData) : M St unit := info_mod p sp (set_ext (Some e)).

(** The number of the linked page: the magazine is relative to [row[0]],
    which the source does not cut to three bits. *)
Definition p27_number (row : list Z) (d1 : Z) : Z :=
  Z.lxor (Z.lor (Z.lor (Z.shiftr (Z.land d1 0x000003c0) 6) (Z.shiftr (Z.land d1 0x0003c000) 10))
                (Z.shiftr (Z.land d1 0x00003800) 3))
         (Z.shiftl (dh row 0) 8).

(** Link [i] into entry [k] of the table; the result is the next entry. *)
Definition p27_link (row : list Z) (p sp i k : Z) : M St Z :=
  let! d1 := mlift (deh24_at row (6 * i + 3)) in
  let! d2 := mlift (deh24_at row (6 * i + 6)) in
  if (d1 <? 0) || (d2 <? 0) then mret_ k
  else
    let is_local := negb (Z.land i 0x01 =? 0) in
    let is_drcs := negb (Z.land i 0x02 =? 0) in
    let n := p27_number row d1 in
    let n := if n <? 0x100 then n + 0x800 else n in
    let q := if Z.land n 0xff =? 0xff then 0 else n in
    let! e := get_ext p sp in
    match e with
    | None => mfault
    | Some e =>
        match p27 e with
        | None => mfault
        | Some links =>
            let! links := mlift (upd links k
              (mkP27 q (Z.shiftr d2 2) (negb (Z.land d1 0x04 =? 0)) (negb (Z.land d1 0x08 =? 0))
                 is_drcs is_local)) in
            put_ext p sp (set_p27 (Some links) e) ;;;
            if Z.land n 0xff =? 0xff then mret_ (k + 1)
            else if 0x899 <? n then mret_ k
            else
              let! linked := page_at n 0 in
              match linked with
              | None => mret_ (k + 1)
              | Some _ =>
                  info_mod n 0 (set_function
                    (if is_local then (if is_drcs then FUNC_DRCS else FUNC_POP)
                     else (if is_drcs then FUNC_GDRCS else FUNC_GPOP))) ;;;
                  mret_ (k + 1)
              end
        end
    end.

Definition p27_links (row : list Z) (p sp : Z) : M St unit :=
  let! k := p27_link row p sp 0 0 in
  let! k := p27_link row p sp 1 k in
  let! k := p27_link row p sp 2 k in
  let! _ := p27_link row p sp 3 k in
  mret_ tt.

(** [false]: an allocation failed and [continue] leaves the turn. *)
Definition packet_27_4 (row : list Z) (p sp : Z) : M St bool :=
  let! e := get_ext p sp in
  match e with
  | None => mret_ false
  | Some e =>
      match p27 e with
      | Some _ => p27_links row p sp ;;; mret_ true
      | None =>
          let! ok := alloc in
          if ok then
            put_ext p sp (set_p27 (Some (replicate 4 zero_p27)) e) ;;;
            p27_links row p sp ;;;
            mret_ true
          else mret_ false
      end
  end.

Definition packet_27 (row : list Z) (p sp : Z) : M St bool :=
  let descode := dh row 2 in
  if descode =? 0xff then mret_ false
  else if descode =? 0 then packet_27_0 row p sp ;;; mret_ true
  else if descode =? 4 then packet_27_4 row p sp
  else mret_ true.

(** ** Packets 26 and 28 *)

Definition packet_26 (row : list Z) (p sp : Z) : M St bool :=
  let descode := dh row 2 in
  if descode =? 0xff then mret_ false
  else
    let! e := get_ext p sp in
    match e with
    | None => mret_ false
    | Some e =>
        let! d := mlift (idx (p26 e) descode) in
        let! ok := match d with Some _ => mret_ true | None => alloc end in
        if ok then
          let! b := mlift (slice row 3 (13 * 3)) in
          let! t := mlift (upd (p26 e) descode (Some b)) in
          put_ext p sp (set_p26 t e) ;;;
          mret_ true
        else mret_ true
    end.

Definition packet_28 (row : list Z) (p sp : Z) : M St bool :=
  let descode := dh row 2 in
  if descode =? 0xff then mret_ false
  else
    (if negb (descode =? 2) then
       let! t1 := mlift (deh24_at row 3) in
       info_mod p sp (fun i =>
         let i := set_function (Z.land t1 0x0f mod 8) i in
         if nationalvalid i then i
         else set_national (Z.land (Z.shiftr t1 4) 0x07) (set_nationalvalid true i))
     else mret_ tt) ;;;
    if descode =? 0 then
      let! pg := page_at p sp in
      match pg with
      | None => mfault
      | Some pg =>
          let! e := tuxtxt_decode_p2829 row (ext (pageinfo pg)) in
          info_mod p sp (set_ext e) ;;;
          mret_ true
      end
    else mret_ true.

(** ** One packet *)

Definition packet_body (magazine packet_number : Z) (row : list Z) (p sp : Z) : M St bool :=
  if packet_number <=? 25 then packet_text magazine packet_number row p sp ;;; mret_ true
  else if packet_number =? 27 then packet_27 row p sp
  else if packet_number =? 26 then packet_26 row p sp
  else if packet_number =? 28 then packet_28 row p sp
  else mret_ true.

(** The page on the screen was touched: pack it and tell the screen. *)
Definition update_flag (magazine : Z) : M St unit :=
  let! k := cur magazine in
  let! s := mget in
  if (fst k =? page s) && negb (snd k =? -1) then
    compress_current magazine ;;;
    mmodify (fun s =>
      let s := set_pageupdate (1 + c_bool (doupdate s =? page s)) s in
      let s := set_doupdate 0 s in
      if zap_subpage_manual s then s else set_subpage (snd k) s)
  else mret_ tt.

(** [row]: the 42 bytes of a line after its bits were turned round. *)
Definition handle_row (row : list Z) : M St unit :=
  let b1 := dh row 0 in
  let b2 := dh row 1 in
  if (b1 =? 0xFF) || (b2 =? 0xFF) then mret_ tt
  else
    let packet_number := Z.lor (Z.shiftr (Z.land b1 8) 3) (Z.shiftl b2 1) in
    let m := Z.land b1 7 in
    let magazine := if m =? 0 then 8 else m in
    let! k := cur magazine in
    let received := negb (fst k =? -1) && negb (snd k =? -1) in
    (if (packet_number =? 0) && received then compress_current magazine else mret_ tt) ;;;
    let! go :=
      (if packet_number =? 0 then packet_0 magazine row
       else if (packet_number =? 29) && (dh row 2 =? 0) then
         let! s := mget in
         let! ptr := mlift (idx (astP29 s) magazine) in
         let! e := tuxtxt_decode_p2829 row ptr in
         let! s := mget in
         let! t := mlift (upd (astP29 s) magazine e) in
         mput (set_astP29 t s) ;;;
         mret_ true
       else if received then packet_body magazine packet_number row (fst k) (snd k)
       else mret_ true) in
    if go then update_flag magazine else mret_ tt.

(** The row of line [n] of a PES packet, if the line carries teletext. *)
Definition line_row (pes : list Z) (n : Z) : option (list Z) :=
  let b k := at_ pes (n * 0x2e + k) in
  if ((b 0 =? 0x02) || (b 0 =? 0x03)) && (b 1 =? 0x2C)
  then Some (map (fun k => rev_byte (b (4 + k))) (seqZ 0 42))
  else None.

Definition handle_pes (pes : list Z) : M St unit :=
  let! _ := mloop (seqZ 0 4) (fun n =>
    match line_row pes n with
    | Some row => handle_row row ;;; mret_ Next
    | None => mret_ Next
    end) in
  mret_ tt.
