(* ===== verification/TxtControl.v ===== *)
(** * Starting and stopping the teletext thread (libtuxtxt/libtuxtxt.c)

    The calls by which a program starts, stops and closes teletext, with the
    functions of tuxtxt_common.h behind them, and the two steps of the thread:
    its beginning, which sets [receiving] once more, and one turn of its loop.
    What the demux device and the thread library answer is an argument
    ([Answers]).  A call is one step; the thread begins and turns between the
    calls, and a thread that is cancelled before it has begun may still reach
    the assignment of [receiving]. *)

From stdpp Require Import gmap.
From S2P Require Import Prelude TxtCode TxtCache TxtThread.

Open Scope Z_scope.

Record Ctl : Type := mkCtl {
  cache : St;
  dmx : bool;                     (* the device is open: dmx is not -1 *)
  receiving : bool;
  thread_starting : bool;
  thread_id : Z;                  (* 0: none *)
  tuxtxt_initialized : bool;
  (* outside the library *)
  threads : list (Z * bool);      (* the threads that run, and which have begun *)
  filter : option Z               (* the PID that the device delivers *)
}.
#[export] Instance Ctl_eta : Eta Ctl := fun r => mkCtl (cache r) (dmx r) (receiving r)
  (thread_starting r) (thread_id r) (tuxtxt_initialized r) (threads r) (filter r).
Definition set_cache := setter! cache.
Definition set_dmx := setter! dmx.
Definition set_receiving := setter! receiving.
Definition set_thread_starting := setter! thread_starting.
Definition set_thread_id := setter! thread_id.
Definition set_tuxtxt_initialized := setter! tuxtxt_initialized.
Definition set_threads := setter! threads.
Definition set_filter := setter! filter.

(** The fields of the cache that only these calls write. *)
Definition set_page := setter! page.
Definition set_junk_buffers (bufs : list (list Z)) (s : St) : St := set_doupdate 0 (set_pagedata bufs s).

Record Answers : Type := mkAnswers {
  opened : bool;                  (* open *)
  filter_ok : bool;               (* DMX_SET_PES_FILTER, on an open device *)
  created : option Z;             (* pthread_create: the id of the thread *)
  canceled : bool;                (* pthread_cancel *)
  joined : bool;                  (* pthread_join *)
  late : bool                     (* the cancelled thread still begins *)
}.

(** A function of the cache. *)
Definition on_cache {A} (m : M St A) : M Ctl A := fun c =>
  match m (cache c) with
  | Ok (a, s) => Ok (a, set_cache s c)
  | Fault => Fault
  | Block => Block
  | Diverge => Diverge
  end.

Definition mwhen {S} (b : bool) (m : M S unit) : M S unit := if b then m else mret_ tt.

(** ** The demux device and the thread (tuxtxt_common.h) *)

(** The size of the device's buffer is a second call; the caller ignores the
    result of both. *)
Definition tuxtxt_init_demuxer (a : Answers) : M Ctl unit :=
  if opened a then mmodify (fun c => set_filter None (set_dmx true c)) else mret_ tt.

(** The filter and the thread. *)
Definition start_receiving (a : Answers) : M Ctl Z :=
  let! c := mget in
  if negb (dmx c && filter_ok a) then mmodify (set_thread_starting false) ;;; mret_ 0
  else
    mmodify (fun c => set_filter (Some (vtxtpid (cache c))) c) ;;;
    match created a with
    | None => mmodify (fun c => set_thread_id 0 (set_thread_starting false c)) ;;; mret_ 0
    | Some id =>
        mmodify (fun c => set_threads ((id, false) :: threads c) (set_thread_id id c)) ;;;
        mmodify (fun c => set_thread_starting false (set_receiving true c)) ;;;
        mret_ 1
    end.

Definition tuxtxt_start_thread (a : Answers) : M Ctl Z :=
  let! c := mget in
  if vtxtpid (cache c) =? -1 then mret_ 0
  else
    mmodify (set_thread_starting true) ;;;
    let! c := mget in
    mwhen (negb (dmx c)) (tuxtxt_init_demuxer a) ;;;
    start_receiving a.

(** The end of a cancelled thread. *)
Definition thread_ends (a : Answers) (id : Z) : M Ctl unit :=
  let! c := mget in
  mwhen (late a && existsb (fun t => (fst t =? id) && negb (snd t)) (threads c))
    (mmodify (set_receiving true)) ;;;
  mmodify (fun c => set_threads (List.filter (fun t => negb (fst t =? id)) (threads c)) c).

Definition tuxtxt_stop_thread (a : Answers) : M Ctl Z :=
  let! c := mget in
  let! ok := (if thread_id c =? 0 then mret_ true
              else if negb (canceled a) then mret_ false
              else
                thread_ends a (thread_id c) ;;;
                if negb (joined a) then mret_ false
                else mmodify (set_thread_id 0) ;;; mret_ true) in
  if negb ok then mret_ 0
  else
    let! c := mget in
    mwhen (dmx c) (mmodify (set_filter None)) ;;;
    mret_ 1.

(** ** The calls (libtuxtxt.c) *)

(** The memory of a cache that nobody closed is lost. *)
Definition tuxtxt_init : M Ctl Z :=
  let! c := mget in
  if tuxtxt_initialized c then mret_ 0
  else
    mmodify (set_tuxtxt_initialized true) ;;;
    on_cache (mmodify (fun s => set_astP29 (replicate 9 None) (set_astCachetable ∅ s))) ;;;
    on_cache tuxtxt_clear_cache ;;;
    mmodify (fun c => set_thread_starting false (set_receiving false c)) ;;;
    on_cache (mmodify (set_vtxtpid (-1))) ;;;
    mmodify (fun c => set_dmx false (set_thread_id 0 c)) ;;;
    mret_ 1.

Definition tuxtxt_stop (a : Answers) : M Ctl Z :=
  let! c := mget in
  if negb (receiving c) then mret_ 1
  else mmodify (set_receiving false) ;;; tuxtxt_stop_thread a.

Definition tuxtxt_start (a : Answers) (tpid : Z) : M Ctl Z :=
  let! c := mget in
  if negb (vtxtpid (cache c) =? tpid) then
    let! _ := tuxtxt_stop a in
    on_cache tuxtxt_clear_cache ;;;
    on_cache (mmodify (fun s => set_vtxtpid tpid (set_page 0x100 s))) ;;;
    tuxtxt_start_thread a
  else if negb (thread_starting c) && negb (receiving c) then tuxtxt_start_thread a
  else mret_ 1.

Definition tuxtxt_close (a : Answers) : M Ctl unit :=
  let! _ := tuxtxt_stop a in
  mmodify (fun c => set_dmx false (if dmx c then set_filter None c else c)) ;;;
  on_cache tuxtxt_clear_cache ;;;
  mmodify (set_tuxtxt_initialized false).

(** ** The thread *)

(** [bufs]: what its stack holds. *)
Definition thread_begins (id : Z) (bufs : list (list Z)) : M Ctl unit :=
  mmodify (fun c => set_receiving true
    (set_threads (map (fun t => if fst t =? id then (fst t, true) else t) (threads c)) c)) ;;;
  on_cache (mmodify (set_junk_buffers bufs)).

(** One turn of the loop, in which the device returned [pes]. *)
Definition thread_turn (pes : list Z) : M Ctl unit :=
  let! c := mget in
  if negb (receiving c) then mret_ tt
  else if negb (zlen pes =? 184) then mret_ tt
  else on_cache (handle_pes pes).

(** ** Sessions *)

Inductive event : Type :=
  | EInit
  | EStart (a : Answers) (tpid : Z)
  | EStop (a : Answers)
  | EClose (a : Answers)
  | EBegins (bufs : list (list Z))      (* the thread that was created begins *)
  | ETurn (pes : list Z).               (* the thread that has begun reads *)

Definition unbegun (c : Ctl) : option Z :=
  match List.find (fun t => negb (snd t)) (threads c) with Some (id, _) => Some id | None => None end.

Definition run_event (e : event) : M Ctl unit :=
  let! c := mget in
  match e with
  | EInit => let! _ := tuxtxt_init in mret_ tt
  | EStart a tpid => let! _ := tuxtxt_start a tpid in mret_ tt
  | EStop a => let! _ := tuxtxt_stop a in mret_ tt
  | EClose a => tuxtxt_close a
  | EBegins bufs => match unbegun c with Some id => thread_begins id bufs | None => mret_ tt end
  | ETurn pes => if existsb snd (threads c) then thread_turn pes else mret_ tt
  end.

Fixpoint run_events (l : list event) : M Ctl unit :=
  match l with
  | [] => mret_ tt
  | e :: l => run_event e ;;; run_events l
  end.
