(* ===== verification/TxtPageSpec.v ===== *)
(** * Page numbers and searches of the teletext cache

    The 800 decimal pages form one cycle that [tuxtxt_next_dec] and
    [tuxtxt_prev_dec] run through in opposite directions; the searches over
    the page table end ([tuxtxt_next_hex], [tuxtxt_toptext_getnext]) or, for
    five subpages, may not ([tuxtxt_GetSubPage]). *)

From stdpp Require Import gmap.
From S2P Require Import Prelude TxtCode TxtCodeSpec TxtCache.

Open Scope Z_scope.

(** A conjunction of tests that evaluated to true. *)
Ltac split_checks H := repeat (apply andb_prop in H as [H ?]); split_and!.

(** ** The cycle of decimal pages *)

(** The number that a viewer types for decimal page [n] of the 800: 100 to 899. *)
Definition dec_page (n : Z) : Z := Z.lor (Z.lor (Z.shiftl (n / 100 + 1) 8) (Z.shiftl (n / 10 mod 10) 4)) (n mod 10).

Definition in_range (p : Z) : Prop := 0x100 <= p < 0x900.

Lemma dec_page_spec n : 0 <= n < 800 ->
  0x100 <= dec_page n <= 0x899 /\ tuxtxt_is_dec (dec_page n) = true /\
  tuxtxt_next_dec (dec_page n) = dec_page ((n + 1) mod 800) /\
  tuxtxt_prev_dec (dec_page n) = dec_page ((n - 1) mod 800).
Proof.
  intros Hn.
  pose proof (forall_range_in (fun n => (0x100 <=? dec_page n) && (dec_page n <=? 0x899) &&
    tuxtxt_is_dec (dec_page n) && (tuxtxt_next_dec (dec_page n) =? dec_page ((n + 1) mod 800)) &&
    (tuxtxt_prev_dec (dec_page n) =? dec_page ((n - 1) mod 800))) (Z.to_nat 800) n
    ltac:(by vm_compute) ltac:(lia)) as H.
  cbv beta in H. split_checks H; first [done | lia | by apply Z.eqb_eq].
Qed.

(** The decimal pages in the table are these 800. *)
Definition dec_index (p : Z) : Z :=
  (Z.shiftr p 8 - 1) * 100 + Z.land (Z.shiftr p 4) 0xf * 10 + Z.land p 0xf.

Lemma is_dec_page p : in_range p -> tuxtxt_is_dec p = true ->
  0 <= dec_index p < 800 /\ p = dec_page (dec_index p).
Proof.
  unfold in_range. intros Hp Hd.
  pose proof (forall_range_in (fun k => let p := k + 0x100 in
    negb (tuxtxt_is_dec p) || (0 <=? dec_index p) && (dec_index p <? 800) && (dec_page (dec_index p) =? p))
    (Z.to_nat 0x800) (p - 0x100) ltac:(by vm_compute) ltac:(lia)) as H.
  cbv beta zeta in H. replace (p - 0x100 + 0x100) with p in H by lia. rewrite Hd in H. cbn [negb orb] in H.
  split_checks H; first [done | lia | symmetry; by apply Z.eqb_eq].
Qed.

(** From a hexadecimal page the next decimal step lands on a decimal page. *)
Lemma dec_step_range p : in_range p ->
  (0x100 <= tuxtxt_next_dec p <= 0x899 /\ tuxtxt_is_dec (tuxtxt_next_dec p) = true) /\
  (0x100 <= tuxtxt_prev_dec p <= 0x899 /\ tuxtxt_is_dec (tuxtxt_prev_dec p) = true).
Proof.
  unfold in_range. intros Hp.
  pose proof (forall_range_in (fun k => let p := k + 0x100 in
    (0x100 <=? tuxtxt_next_dec p) && (tuxtxt_next_dec p <=? 0x899) && tuxtxt_is_dec (tuxtxt_next_dec p) &&
    (0x100 <=? tuxtxt_prev_dec p) && (tuxtxt_prev_dec p <=? 0x899) && tuxtxt_is_dec (tuxtxt_prev_dec p))
    (Z.to_nat 0x800) (p - 0x100) ltac:(by vm_compute) ltac:(lia)) as H.
  cbv beta zeta in H. replace (p - 0x100 + 0x100) with p in H by lia.
  split_checks H; first [done | lia | symmetry; by apply Z.eqb_eq].
Qed.

Definition dec_step (up : bool) (p : Z) : Z := if up then tuxtxt_next_dec p else tuxtxt_prev_dec p.

Lemma dec_step_page up n : 0 <= n < 800 ->
  dec_step up (dec_page n) = dec_page ((n + if up then 1 else -1) mod 800).
Proof. intros Hn. destruct (dec_page_spec n Hn) as (_ & _ & H1 & H2). by destruct up. Qed.

Lemma iter_dec_step up k n : 0 <= n < 800 ->
  Nat.iter k (dec_step up) (dec_page n) = dec_page ((n + (if up then 1 else -1) * Z.of_nat k) mod 800).
Proof.
  intros Hn. induction k as [|k IH].
  - cbn [Nat.iter nat_rect Z.of_nat]. rewrite Z.mul_0_r, Z.add_0_r. by rewrite Z.mod_small.
  - rewrite Nat.iter_succ, IH, dec_step_page by (apply Z.mod_pos_bound; lia). f_equal.
    rewrite Zplus_mod_idemp_l. f_equal. destruct up; lia.
Qed.

Lemma dec_page_inj n : 0 <= n < 800 -> dec_index (dec_page n) = n.
Proof.
  intros Hn. apply Z.eqb_eq.
  apply (forall_range_in (fun n => dec_index (dec_page n) =? n) (Z.to_nat 800)); [by vm_compute|lia].
Qed.

Lemma iter_dec_step_period up k n : 0 <= n < 800 -> (0 < k <= Z.to_nat 800)%nat ->
  Nat.iter k (dec_step up) (dec_page n) = dec_page n <-> k = Z.to_nat 800.
Proof.
  intros Hn Hk. rewrite iter_dec_step by done.
  set (m := (n + (if up then 1 else -1) * Z.of_nat k) mod 800).
  assert (0 <= m < 800) as Hm by (apply Z.mod_pos_bound; lia).
  assert (m = n <-> k = Z.to_nat 800) as <-.
  { unfold m. clear m Hm. destruct up; Z.to_euclidean_division_equations; lia. }
  split; [|by intros ->]. intros He. by rewrite <- (dec_page_inj m), He, dec_page_inj by done.
Qed.

(** [tuxtxt_next_dec] and [tuxtxt_prev_dec] undo each other on the decimal
    pages, stay on them, and going 800 steps in either direction comes back
    to the start and no fewer steps do. *)
Theorem dec_pages_cycle p k :
  0x100 <= p <= 0x899 -> tuxtxt_is_dec p = true -> (0 < k <= Z.to_nat 800)%nat ->
  tuxtxt_prev_dec (tuxtxt_next_dec p) = p /\
  tuxtxt_next_dec (tuxtxt_prev_dec p) = p /\
  tuxtxt_is_dec (tuxtxt_next_dec p) = true /\
  (Nat.iter k tuxtxt_next_dec p = p <-> k = Z.to_nat 800) /\
  (Nat.iter k tuxtxt_prev_dec p = p <-> k = Z.to_nat 800).
Proof.
  intros Hp Hd Hk. destruct (is_dec_page p) as [Hn He]; [unfold in_range; lia|done|].
  set (n := dec_index p) in *. rewrite He.
  assert (0 <= (n + 1) mod 800 < 800 /\ 0 <= (n - 1) mod 800 < 800) as [Ha Hb]
    by (split; apply Z.mod_pos_bound; lia).
  destruct (dec_page_spec n Hn) as (_ & _ & Hnext & Hprev).
  destruct (dec_page_spec _ Ha) as (_ & Hdec & _ & Hback). destruct (dec_page_spec _ Hb) as (_ & _ & Hfwd & _).
  rewrite Hnext, Hprev, Hback, Hfwd. split_and!.
  - f_equal. rewrite Zminus_mod_idemp_l. rewrite <- (Z.mod_small n 800) at 2 by lia. f_equal. lia.
  - f_equal. rewrite Zplus_mod_idemp_l. rewrite <- (Z.mod_small n 800) at 2 by lia. f_equal. lia.
  - done.
  - by apply (iter_dec_step_period true).
  - by apply (iter_dec_step_period false).
Qed.

(** ** The next cached subpage *)

Definition cached (s : St) (pg sp : Z) : bool :=
  match astCachetable s !! (pg, sp) with Some _ => true | None => false end.

Lemma page_at_run s p sp : 0 <= p < 0x900 -> 0 <= sp < 0x80 ->
  page_at p sp s = Ok (astCachetable s !! (p, sp), s).
Proof.
  intros. unfold page_at. mrun.
  replace ((0 <=? p) && (p <? 0x900) && (0 <=? sp) && (sp <? 0x80)) with true by lia. done.
Qed.

Lemma mbind_run {S A B} (m : M S A) (k : A -> M S B) s a s1 :
  m s = Ok (a, s1) -> mbind_ m k s = k a s1.
Proof. intros H. unfold mbind_. by rewrite H. Qed.

(** The subpages 0 to 0x79 in the order of the search, the start left out. *)
Definition candidates (subpg offset : Z) : list Z :=
  map (fun k => (subpg + offset * k) mod 0x7a) (seqZ 1 0x79).

Definition wrap (l : Z) : Z := if l <? 0 then 0x79 else if 0x79 <? l then 0 else l.

Lemma wrap_step subpg offset k : offset = 1 \/ offset = -1 ->
  wrap ((subpg + offset * k) mod 0x7a + offset) = (subpg + offset * (k + 1)) mod 0x7a.
Proof.
  intros Ho. pose proof (Z.mod_pos_bound (subpg + offset * k) 0x7a ltac:(lia)).
  unfold wrap. destruct Ho as [-> | ->].
  all: repeat case_if; Z.to_euclidean_division_equations; lia.
Qed.

Lemma GetSubPage_turn f pg subpg offset l s :
  0 <= pg < 0x900 -> l <> subpg -> wrap l <> subpg ->
  GetSubPage_loop (S f) pg subpg offset l s =
  if cached s pg (wrap l) then Ok (wrap l, s) else GetSubPage_loop f pg subpg offset (wrap l + offset) s.
Proof.
  intros Hp Hl Hw. cbn [GetSubPage_loop]. rif. change (if l <? 0 then _ else _) with (wrap l).
  replace (wrap l =? subpg) with false by lia.
  assert (0 <= wrap l < 0x80) by (unfold wrap; repeat case_if; lia).
  unfold mbind_ at 1. rewrite page_at_run by lia. cbn [res_bind fst snd].
  unfold cached. by destruct (astCachetable s !! (pg, wrap l)).
Qed.

Lemma GetSubPage_search pg subpg offset s :
  0 <= pg < 0x900 -> 0 <= subpg <= 0x79 -> offset = 1 \/ offset = -1 ->
  forall n k f, (n < f)%nat -> 0 < k -> k + Z.of_nat n = 0x7a ->
  GetSubPage_loop f pg subpg offset ((subpg + offset * (k - 1)) mod 0x7a + offset) s =
  Ok (match List.find (cached s pg) (map (fun k => (subpg + offset * k) mod 0x7a) (seqZ k (Z.of_nat n)))
      with Some r => r | None => subpg end, s).
Proof.
  intros Hp Hs Ho. induction n as [|n IH]; intros k f Hf Hk Hn; destruct f as [|f]; try lia.
  all: pose proof (wrap_step subpg offset (k - 1) Ho) as Hw; replace (k - 1 + 1) with k in Hw by lia.
  - assert (wrap ((subpg + offset * (k - 1)) mod 0x7a + offset) = subpg) as Hr.
    { rewrite Hw. replace k with 0x7a by lia. rewrite Z.mod_add by lia. apply Z.mod_small. lia. }
    cbn [GetSubPage_loop]. case_if; [done|]. change (if _ <? 0 then _ else _) with
      (wrap ((subpg + offset * (k - 1)) mod 0x7a + offset)).
    rewrite Hr. rif. done.
  - rewrite Nat2Z.inj_succ, seqZ_cons, Z.pred_succ by lia. cbn [map List.find].
    assert ((subpg + offset * k) mod 0x7a <> subpg) as Hne.
    { destruct Ho as [-> | ->]; Z.to_euclidean_division_equations; lia. }
    rewrite GetSubPage_turn; [|done| |by rewrite Hw].
    + rewrite Hw. destruct (cached s pg _); [done|].
      replace (Z.succ k) with (k + 1) by lia.
      rewrite <- (IH (k + 1) f) by lia. by replace (k + 1 - 1) with k by lia.
    + intros He. revert Hw. unfold wrap. rewrite He. repeat case_if; lia.
Qed.

(** C31: from a subpage up to 0x79 the search ends and returns the nearest
    cached subpage in its direction, going round from 0x79 to 0 and back, or
    the start when no other subpage is cached. *)
Theorem GetSubPage_finds pg subpg offset s f :
  0 <= pg < 0x900 -> 0 <= subpg <= 0x79 -> offset = 1 \/ offset = -1 -> (0x7a <= f)%nat ->
  tuxtxt_GetSubPage f pg subpg offset s =
  Ok (match List.find (cached s pg) (candidates subpg offset) with Some r => r | None => subpg end, s).
Proof.
  intros Hp Hs Ho Hf. unfold tuxtxt_GetSubPage, candidates.
  pose proof (GetSubPage_search pg subpg offset s Hp Hs Ho 0x79 1 f ltac:(lia) ltac:(lia) ltac:(lia)) as H.
  change (Z.of_nat 0x79) with 0x79 in H. rewrite <- H.
  replace (subpg + offset * (1 - 1)) with subpg by lia. by rewrite Z.mod_small by lia.
Qed.

(** from a subpage that the search never passes (0x7b to 0x7f upwards,
    0x7a to 0x7f downwards) it runs for ever when the page has no subpage up
    to 0x79: no number of turns is enough. *)
Theorem GetSubPage_loops_forever pg subpg offset s f :
  0 <= pg < 0x900 -> (offset = 1 /\ 0x7b <= subpg <= 0x7f) \/ (offset = -1 /\ 0x7a <= subpg <= 0x7f) ->
  (forall sp, 0 <= sp <= 0x79 -> astCachetable s !! (pg, sp) = None) ->
  tuxtxt_GetSubPage f pg subpg offset s = Diverge.
Proof.
  intros Hp Ho Hc. unfold tuxtxt_GetSubPage.
  assert (forall l, l <> subpg -> GetSubPage_loop f pg subpg offset l s = Diverge) as Hl.
  { induction f as [|f IH]; intros l Hl; [done|].
    assert (0 <= wrap l <= 0x79) as Hw by (unfold wrap; repeat case_if; lia).
    rewrite GetSubPage_turn by lia. unfold cached. rewrite Hc by lia. apply IH. lia. }
  apply Hl. lia.
Qed.

(** ** The next hexadecimal page *)

Lemma idx_ok {A} (l : list A) i : 0 <= i < zlen l -> exists a, idx l i = Ok a /\ l !! Z.to_nat i = Some a.
Proof.
  unfold idx, zlen. intros Hi. rif.
  destruct (lookup_lt_is_Some_2 l (Z.to_nat i)) as [a Ha]; [lia|]. rewrite Ha. eauto.
Qed.

Definition hex_page (subpages : list Z) (q : Z) : Prop :=
  tuxtxt_is_dec q = false /\ subpages !! Z.to_nat q <> Some 0xFF.

(** The turns that are left at page [i]. *)
Definition hex_left (start i : Z) : Z := if i <? start then start - i else 0x900 - i + (start - 0x100).

Lemma next_hex_loop_ends subpages start :
  zlen subpages = 0x900 -> 0x100 <= start <= 0x8ff ->
  forall f i, 0 <= i <= 0x8ff -> hex_left start i <= Z.of_nat f ->
  exists r, next_hex_loop f subpages start i = Ok r /\
    (r = start \/ 0 <= r < 0x900 /\ hex_page subpages r) /\
    (r = start -> forall q, in_range q -> (if i <? start then i < q < start else i < q \/ q < start) ->
       ~ hex_page subpages q).
Proof.
  intros Hlen Hst. induction f as [|f IH]; intros i Hi Hf.
  { exfalso. revert Hf. unfold hex_left. case_if; lia. }
  cbn [next_hex_loop]. set (i' := if 0x8FF <? i + 1 then 0x100 else i + 1).
  assert (i' = if i =? 0x8ff then 0x100 else i + 1) as Hi' by (unfold i'; repeat case_if; lia).
  case_if.
  - exists i'. split_and!; [done|by left; lia|]. intros _ q Hq Hr. exfalso. unfold in_range in Hq.
    revert Hi' Hr. repeat case_if; lia.
  - destruct (idx_ok subpages i') as (sp & -> & Hl); [revert Hi'; case_if; lia|]. cbn [res_bind].
    destruct ((sp =? 0xFF) || tuxtxt_is_dec i') eqn:Hc.
    + destruct (IH i') as (r & -> & Hr & Hall).
      { revert Hi'; case_if; lia. }
      { revert Hf Hi'. unfold hex_left. repeat case_if; lia. }
      exists r. split_and!; [done|done|]. intros Hrs q Hq Hin [Hd Hx].
      destruct (Z.eq_dec q i') as [->|Hn].
      { rewrite Hl in Hx. rewrite Hd, orb_false_r in Hc. apply Hx. f_equal. lia. }
      apply (Hall Hrs q Hq); [|by split]. unfold in_range in Hq.
      revert Hi' Hin Hn. repeat case_if; lia.
    + exists i'. apply orb_false_elim in Hc as [Hc Hd]. split_and!; [done| |intros He; exfalso; lia].
      right. split; [revert Hi'; case_if; lia|]. split; [done|]. rewrite Hl. intros [=]. lia.
Qed.

(** from any page of the table [tuxtxt_next_hex] ends; it returns a page
    with a hexadecimal number that has been received, and the page it started
    from only when no other such page has been. *)
Theorem next_hex_ends i s :
  zlen (subpagetable s) = 0x900 -> 0x100 <= i <= 0x8ff ->
  exists r, tuxtxt_next_hex (Z.to_nat 0x800) i s = Ok (r, s) /\
    (r = i \/ 0 <= r < 0x900 /\ hex_page (subpagetable s) r) /\
    (r = i -> forall q, in_range q -> q <> i -> ~ hex_page (subpagetable s) q).
Proof.
  intros Hlen Hi.
  destruct (next_hex_loop_ends (subpagetable s) i Hlen Hi (Z.to_nat 0x800) i) as (r & Hr & H1 & H2).
  { lia. }
  { unfold hex_left. case_if; lia. }
  exists r. unfold tuxtxt_next_hex. replace (i <? 0x100) with false by lia. mrun.
  rewrite Hr. split_and!; [done|done|]. intros He q Hq Hn. apply H2; [done|done|]. case_if; lia.
Qed.

(** ** TOP navigation *)

(** The page starts a block, or a group when groups are sought too. *)
Definition top_target (btt : list Z) (findgroup : bool) (q : Z) : bool :=
  let b := at_ btt q in
  (2 <=? b) && (b <=? 5) || findgroup && (6 <=? b) && (b <=? 7).

Definition dec_in (p : Z) : Prop := 0x100 <= p <= 0x899 /\ tuxtxt_is_dec p = true.

Lemma idx_at l i : 0 <= i < zlen l -> idx l i = Ok (at_ l i).
Proof.
  intros Hi. destruct (idx_ok l i Hi) as (a & -> & Ha). f_equal.
  unfold at_. by rewrite (nth_lookup_Some _ _ _ _ Ha).
Qed.

Lemma toptext_loop_ends btt ok up fg stop :
  zlen btt = 0x900 ->
  forall m f cur grp blk,
  (m < f)%nat -> in_range cur ->
  Nat.iter (S m) (dec_step up) cur = stop ->
  (forall j, (0 < j <= m)%nat -> Nat.iter j (dec_step up) cur <> stop) ->
  grp = 0 \/ dec_in grp -> blk = 0 \/ dec_in blk ->
  exists r, toptext_loop f btt ok up fg stop cur grp blk = Ok r /\ dec_in r /\
    (top_target btt fg r = true \/
     forall j, (0 < j <= S m)%nat -> top_target btt fg (Nat.iter j (dec_step up) cur) = false).
Proof.
  intros Hlen. induction m as [|m IH]; intros f cur grp blk Hf Hc Hstop Hmin Hg Hb;
    (destruct f as [|f]; [lia|]); cbn [toptext_loop].
  all: change (if up then tuxtxt_next_dec cur else tuxtxt_prev_dec cur) with (dec_step up cur).
  all: assert (dec_in (dec_step up cur)) as Hd
         by (destruct (dec_step_range cur Hc) as [? ?]; unfold dec_in; by destruct up).
  all: set (c := dec_step up cur) in *; destruct Hd as [Hr Hdec].
  all: rewrite idx_at by lia; cbn [res_bind].
  all: destruct (top_target btt fg c) eqn:Ht.
  1, 3: exists c; split; [|split; [done|by left]]; unfold top_target in Ht;
    replace ((ok =? 0) || negb (at_ btt c =? 0)) with true by lia;
    destruct (fg && (6 <=? at_ btt c) && (at_ btt c <=? 7)) eqn:Hfg; [done|];
    replace ((2 <=? at_ btt c) && (at_ btt c <=? 5)) with true by lia; done.
  - (* the last page *)
    assert (c = stop) as <- by exact Hstop. rewrite Z.eqb_refl. cbn [negb].
    unfold top_target in Ht. apply orb_false_elim in Ht as [Ht1 Ht2]. rewrite Ht1, Ht2.
    assert (forall g b, g = 0 \/ dec_in g -> b = 0 \/ dec_in b -> exists r,
      (if negb (g =? 0) then Ok g else if negb (b =? 0) then Ok b else Ok c) = Ok r /\ dec_in r) as Hend.
    { intros g b Hg' Hb'. destruct (Z.eqb_spec g 0); cbn [negb].
      - destruct (Z.eqb_spec b 0); cbn [negb]; [by exists c|exists b; intuition].
      - exists g. intuition. }
    assert (forall j, (0 < j <= 1)%nat -> top_target btt fg (Nat.iter j (dec_step up) cur) = false) as Hno.
    { intros j Hj. replace j with 1%nat by lia. cbn. fold c. unfold top_target. by rewrite Ht1, Ht2. }
    destruct ((ok =? 0) || negb (at_ btt c =? 0)).
    + edestruct Hend as (r & -> & Hdr); [| |by exists r; auto].
      * case_if; [by right|done].
      * case_if; [by right|done].
    + destruct (Hend grp blk Hg Hb) as (r & -> & Hdr). by exists r; auto.
  - assert (c <> stop) as Hns by (apply (Hmin 1%nat); lia).
    replace (c =? stop) with false by lia. cbn [negb].
    pose proof Ht as Ht'. unfold top_target in Ht'. apply orb_false_elim in Ht' as [Ht1 Ht2].
    rewrite Ht1, Ht2.
    assert (forall j, Nat.iter j (dec_step up) c = Nat.iter (S j) (dec_step up) cur) as Hit
      by (intros j; unfold c; by rewrite Nat.iter_succ_r).
    assert (forall g b, g = 0 \/ dec_in g -> b = 0 \/ dec_in b -> exists r,
      toptext_loop f btt ok up fg stop c g b = Ok r /\ dec_in r /\
      (top_target btt fg r = true \/
       forall j, (0 < j <= S (S m))%nat -> top_target btt fg (Nat.iter j (dec_step up) cur) = false)) as Hgo.
    { intros g b Hg' Hb'. destruct (IH f c g b) as (r & Hr' & Hdr & Hall); auto.
      - lia.
      - unfold in_range. lia.
      - by rewrite Hit.
      - intros j Hj. rewrite Hit. apply Hmin. lia.
      - exists r. split_and!; [done..|]. destruct Hall as [|Hall]; [by left|right].
        intros [|[|j]] Hj; [lia|exact Ht|]. rewrite <- Hit. apply Hall. lia. }
    destruct ((ok =? 0) || negb (at_ btt c =? 0)); [|by apply Hgo].
    apply Hgo; (case_if; [by right|done]).
Qed.

(** The first turn that reaches the stop page. *)
Lemma top_turns up start : in_range start ->
  let stop := if tuxtxt_is_dec start then start else Z.land start 0xF00 in
  exists m, (m <= 800)%nat /\ Nat.iter (S m) (dec_step up) start = stop /\
    (forall j, (0 < j <= m)%nat -> Nat.iter j (dec_step up) start <> stop) /\
    (tuxtxt_is_dec start = true -> S m = Z.to_nat 800).
Proof.
  intros Hs. destruct (tuxtxt_is_dec start) eqn:Hd.
  - destruct (is_dec_page start Hs Hd) as [Hn He]. set (n := dec_index start) in *.
    exists (Z.to_nat 799). split_and!; [lia| | |by intros; lia].
    + rewrite He. apply iter_dec_step_period; lia.
    + intros j Hj Hc. rewrite He in Hc. apply iter_dec_step_period in Hc; lia.
  - set (stop := Z.land start 0xF00).
    assert (in_range stop /\ tuxtxt_is_dec stop = true) as [Hsr Hsd].
    { unfold in_range in *.
      pose proof (forall_range_in (fun k => let p := Z.land (k + 0x100) 0xF00 in
        (0x100 <=? p) && (p <? 0x900) && tuxtxt_is_dec p) (Z.to_nat 0x800) (start - 0x100)
        ltac:(by vm_compute) ltac:(lia)) as H.
      cbv beta zeta in H. replace (start - 0x100 + 0x100) with start in H by lia. fold stop in H.
      split_checks H; lia || done. }
    assert (dec_in (dec_step up start)) as [Hr1 Hd1]
      by (destruct (dec_step_range start Hs) as [? ?]; unfold dec_in; by destruct up).
    destruct (is_dec_page stop Hsr Hsd) as [Hc Hce]. set (c := dec_index stop) in *.
    destruct (is_dec_page (dec_step up start)) as [Ha Hae]; [unfold in_range; lia|done|].
    set (a := dec_index (dec_step up start)) in *.
    set (d := ((if up then c - a else a - c) mod 800)).
    assert (0 <= d < 800) as Hdr by (apply Z.mod_pos_bound; lia).
    assert (forall j, Nat.iter (S j) (dec_step up) start =
      dec_page ((a + (if up then 1 else -1) * Z.of_nat j) mod 800)) as Hit.
    { intros j. rewrite Nat.iter_succ_r, Hae. by apply iter_dec_step. }
    exists (Z.to_nat d). split_and!; [lia| | |done].
    + rewrite Hit, Hce. f_equal. rewrite Z2Nat.id by lia. unfold d.
      destruct up; Z.to_euclidean_division_equations; lia.
    + intros [|j] Hj Heq; [lia|]. rewrite Hit, Hce in Heq.
      apply (f_equal dec_index) in Heq. rewrite !dec_page_inj in Heq by (try apply Z.mod_pos_bound; lia).
      revert Heq Hj. unfold d. destruct up; Z.to_euclidean_division_equations; lia.
Qed.

(** C32: the TOP search ends from every page of the table, in either
    direction, within 801 turns.  It returns a decimal page; from a decimal
    page, one that starts a block (or a group, when groups are sought) unless
    the table has none. *)
Theorem toptext_getnext_ends start up findgroup s f :
  zlen (basictop s) = 0x900 -> 0x100 <= start < 0x900 -> (801 < f)%nat ->
  exists r, tuxtxt_toptext_getnext f start up findgroup s = Ok (r, s) /\
    0x100 <= r <= 0x899 /\ tuxtxt_is_dec r = true /\
    (tuxtxt_is_dec start = true ->
     top_target (basictop s) findgroup r = true \/
     forall q, 0x100 <= q <= 0x899 -> tuxtxt_is_dec q = true ->
       top_target (basictop s) findgroup q = false).
Proof.
  intros Hlen Hs Hf. destruct (top_turns up start Hs) as (m & Hm & Hstop & Hmin & Hfull).
  destruct (toptext_loop_ends (basictop s) (bttok s) up findgroup _ Hlen m f start 0 0 ltac:(lia) Hs
    Hstop Hmin ltac:(by left) ltac:(by left)) as (r & Hr & [Hrr Hrd] & Hall).
  exists r. unfold tuxtxt_toptext_getnext. mrun. rewrite Hr. split_and!; [done|lia..|done|].
  intros Hd. destruct Hall as [|Hall]; [by left|right]. intros q Hq Hqd.
  destruct (is_dec_page start Hs Hd) as [Hn He]. set (n := dec_index start) in *.
  destruct (is_dec_page q) as [Hk Hke]; [unfold in_range; lia|done|]. set (k := dec_index q) in *.
  set (d := ((if up then k - n else n - k) - 1) mod 800).
  assert (0 <= d < 800) by (apply Z.mod_pos_bound; lia).
  specialize (Hall (S (Z.to_nat d)) ltac:(specialize (Hfull Hd); lia)).
  rewrite He, iter_dec_step in Hall by done. rewrite Hke.
  replace ((n + (if up then 1 else -1) * Z.of_nat (S (Z.to_nat d))) mod 800) with k in Hall; [done|].
  rewrite Nat2Z.inj_succ, Z2Nat.id by lia. unfold d.
  destruct up; Z.to_euclidean_division_equations; lia.
Qed.

(** ** At concrete tables *)

(** Nothing cached, buffers of spaces, page 100 on the screen. *)
Definition start : St :=
  mkSt [] [] [] 0 0x100 0 0 (-1) [] [] false 0 [] (-1) [] [] [] ∅ 0 [] 0 (replicate 9 spaces) []
    (mkPage zero_info [] None []).


Definition blank_page : CachedPage := mkPage zero_info (replicate 24 0x20) None zero_mask.

(** The given pages cached. *)
Definition with_pages (l : list (Z * Z)) : St :=
  set_astCachetable (list_to_map (map (fun k => (k, blank_page)) l)) start.

Lemma dec_pages_cycle_witness : Nat.iter (Z.to_nat 800) tuxtxt_next_dec 0x199 = 0x199.
Proof.
  destruct (dec_pages_cycle 0x199 (Z.to_nat 800)) as (_ & _ & _ & [_ H] & _); [lia|done|lia|]. by apply H.
Defined.

Lemma GetSubPage_finds_witness :
  let s := with_pages [(0x100, 3); (0x100, 0x20)] in
  tuxtxt_GetSubPage (Z.to_nat 0x7a) 0x100 3 (-1) s = Ok (0x20, s).
Proof.
  intros s. rewrite (GetSubPage_finds 0x100 3 (-1) s (Z.to_nat 0x7a)) by (auto || lia).
  by vm_compute.
Defined.

Lemma GetSubPage_loops_forever_witness :
  tuxtxt_GetSubPage (Z.to_nat 100000) 0x100 0x7c 1 (with_pages [(0x100, 0x7c)]) = Diverge.
Proof.
  apply GetSubPage_loops_forever; [lia|left; lia|].
  intros sp Hsp. unfold with_pages. cbn. rewrite lookup_insert_ne by (intros [=]; lia). apply lookup_empty.
Defined.

Lemma next_hex_ends_witness :
  let s := set_subpagetable (<[Z.to_nat 0x1fe := 0]> (replicate (Z.to_nat 0x900) 0xFF)) start in
  exists r, tuxtxt_next_hex (Z.to_nat 0x800) 0x100 s = Ok (r, s).
Proof.
  intros s. destruct (next_hex_ends 0x100 s) as (r & E & _); [by vm_compute|lia|]. by exists r.
Defined.

Lemma toptext_getnext_ends_witness :
  let s := set_bttok 1 (set_basictop (<[Z.to_nat 0x205 := 2]> (replicate (Z.to_nat 0x900) 0)) start) in
  exists r, tuxtxt_toptext_getnext (Z.to_nat 802) 0x100 true false s = Ok (r, s) /\
    top_target (basictop s) false r = true.
Proof.
  intros s. destruct (toptext_getnext_ends 0x100 true false s (Z.to_nat 802)) as (r & E & _ & _ & H);
    [by vm_compute|lia|lia|].
  exists r. split; [done|]. destruct (H eq_refl) as [|Hnone]; [done|].
  exfalso. specialize (Hnone 0x205 ltac:(lia) eq_refl). by vm_compute in Hnone.
Defined.
