(* ===== verification/TxtPackSpec.v ===== *)
(** * Packing a teletext page

    [tuxtxt_compress_page] keeps the first byte of every run of equal bytes
    and one bit per byte that says where a run starts.  Unpacking gives back
    the text, reads no byte behind the packed data, and the size reported is
    115 mask bytes and one byte per run. *)

From stdpp Require Import gmap.
From S2P Require Import Prelude TxtCode TxtCodeSpec TxtCache TxtPageSpec.

Open Scope Z_scope.

(** ** The mask *)

Definition mask_bit (mask : list Z) (i : Z) : bool :=
  negb (Z.land (at_ mask (Z.shiftr i 3)) (Z.shiftr 0x80 (Z.land i 7)) =? 0).

Lemma land_pow2 x k : 0 <= k -> negb (Z.land x (2 ^ k) =? 0) = Z.testbit x k.
Proof.
  intros Hk. destruct (Z.testbit x k) eqn:Hb.
  - apply negb_true_iff, Z.eqb_neq. intros H.
    assert (Z.testbit (Z.land x (2 ^ k)) k = true) by (rewrite Z.land_spec, Hb, Z.pow2_bits_true; done).
    rewrite H, Z.bits_0 in *. done.
  - apply negb_false_iff, Z.eqb_eq, Z.bits_inj'. intros i Hi. rewrite Z.land_spec, Z.bits_0.
    destruct (Z.eq_dec i k) as [->|Hn]; [by rewrite Hb|].
    rewrite Z.pow2_bits_false by lia. apply andb_false_r.
Qed.

(** Bit [i] of the mask is bit [7 - i mod 8] of byte [i / 8]. *)
Lemma shift80 i : 0 <= i -> Z.shiftr 0x80 (Z.land i 7) = 2 ^ (7 - i mod 8).
Proof.
  intros Hi. change 7 with (Z.ones 3) at 1. rewrite Z.land_ones by lia. change (2 ^ 3) with 8.
  pose proof (Z.mod_pos_bound i 8 ltac:(lia)).
  change 0x80 with (2 ^ 7). rewrite Z.shiftr_div_pow2, <- Z.pow_sub_r by lia. done.
Qed.

Lemma shiftr3 i : Z.shiftr i 3 = i / 8.
Proof. by rewrite Z.shiftr_div_pow2 by lia. Qed.

Lemma mask_bit_testbit mask i : 0 <= i -> mask_bit mask i = Z.testbit (at_ mask (i / 8)) (7 - i mod 8).
Proof.
  intros Hi. unfold mask_bit. pose proof (Z.mod_pos_bound i 8 ltac:(lia)).
  by rewrite shift80, shiftr3, land_pow2 by lia.
Qed.

Lemma at_alter (f : Z -> Z) l k j : 0 <= k < zlen l -> 0 <= j ->
  at_ (alter f (Z.to_nat k) l) j = if j =? k then f (at_ l j) else at_ l j.
Proof.
  intros Hk Hj. unfold at_. rewrite !nth_lookup. case_if.
  - replace j with k by lia. rewrite list_lookup_alter_eq.
    destruct (lookup_lt_is_Some_2 l (Z.to_nat k)) as [a Ha]; [unfold zlen in Hk; lia|].
    by rewrite Ha.
  - rewrite list_lookup_alter_ne by lia. done.
Qed.

Definition set_mask_bit (i : Z) (mask : list Z) : list Z :=
  alter (fun b => Z.lor b (Z.shiftr 0x80 (Z.land i 7))) (Z.to_nat (Z.shiftr i 3)) mask.

Lemma set_mask_bit_spec i j mask : 0 <= i < TEXT -> 0 <= j -> zlen mask = 115 ->
  mask_bit (set_mask_bit i mask) j = (j =? i) || mask_bit mask j.
Proof.
  unfold TEXT. intros Hi Hj Hl. rewrite !mask_bit_testbit by done. unfold set_mask_bit.
  rewrite shift80, shiftr3 by lia.
  rewrite at_alter by (Z.to_euclidean_division_equations; lia).
  case_if.
  - rewrite Z.lor_spec, Z.pow2_bits_eqb by (Z.to_euclidean_division_equations; lia).
    rewrite orb_comm. f_equal. Z.to_euclidean_division_equations; lia.
  - replace (j =? i) with false by (symmetry; apply Z.eqb_neq; intros ->; lia). done.
Qed.

Lemma set_mask_bit_zlen i mask : zlen (set_mask_bit i mask) = zlen mask.
Proof. unfold zlen, set_mask_bit. by rewrite length_alter. Qed.

(** ** How many bits are set *)

Definition byte_bits (b : Z) : Z := fold_left (fun n j => n + Z.land (Z.shiftr b j) 0x01) (seqZ 0 8) 0.

Definition mask_bits (mask : list Z) : Z := fold_right (fun b n => byte_bits b + n) 0 mask.

Lemma byte_bits_set b k : is_byte b -> 0 <= k < 8 -> Z.testbit b (7 - k) = false ->
  byte_bits (Z.lor b (2 ^ (7 - k))) = byte_bits b + 1 /\ is_byte (Z.lor b (2 ^ (7 - k))).
Proof.
  intros Hb Hk Ht.
  pose proof (forall_range_in (fun b => forallb (fun k => let k := Z.of_nat k in
    Z.testbit b (7 - k) || ((byte_bits (Z.lor b (2 ^ (7 - k))) =? byte_bits b + 1) &&
      (0 <=? Z.lor b (2 ^ (7 - k))) && (Z.lor b (2 ^ (7 - k)) <? 256))) (seq 0 8)) 256 b
    ltac:(by vm_compute) Hb) as H.
  pose proof (forall_range_in (fun k => Z.testbit b (7 - k) ||
    ((byte_bits (Z.lor b (2 ^ (7 - k))) =? byte_bits b + 1) &&
      (0 <=? Z.lor b (2 ^ (7 - k))) && (Z.lor b (2 ^ (7 - k)) <? 256))) 8 k H Hk) as Hk'.
  cbv beta in Hk'. rewrite Ht in Hk'. cbn [orb] in Hk'. unfold is_byte. split_checks Hk'; lia.
Qed.

Lemma mask_bits_alter (f : Z -> Z) k (mask : list Z) : (k < length mask)%nat ->
  mask_bits (alter f k mask) = mask_bits mask - byte_bits (nth k mask 0) + byte_bits (f (nth k mask 0)).
Proof.
  revert k. induction mask as [|b mask IH]; intros [|k] Hk; cbn in Hk; try lia; cbn.
  - lia.
  - change (list_alter f k mask) with (alter f k mask). fold (mask_bits (alter f k mask)).
    rewrite IH by lia. fold (mask_bits mask). lia.
Qed.

Lemma set_mask_bit_count i mask : 0 <= i < TEXT -> zlen mask = 115 -> bytes mask ->
  mask_bit mask i = false ->
  mask_bits (set_mask_bit i mask) = mask_bits mask + 1 /\ bytes (set_mask_bit i mask).
Proof.
  unfold TEXT. intros Hi Hl Hb Hm. rewrite mask_bit_testbit in Hm by lia.
  unfold set_mask_bit. rewrite shift80, shiftr3 by lia.
  assert (0 <= i / 8 < 115) as Hd by (Z.to_euclidean_division_equations; lia).
  pose proof (bytes_at mask (i / 8) Hb ltac:(lia)) as Hbyte.
  destruct (byte_bits_set (at_ mask (i / 8)) (i mod 8) Hbyte) as [Hc Hby];
    [apply Z.mod_pos_bound; lia|done|].
  split.
  - rewrite mask_bits_alter by (unfold zlen in Hl; lia).
    change (nth (Z.to_nat (i / 8)) mask 0) with (at_ mask (i / 8)). lia.
  - apply Forall_alter; [done|]. intros x Hx.
    replace x with (at_ mask (i / 8)); [done|]. unfold at_. by rewrite (nth_lookup_Some _ _ _ _ Hx).
Qed.

Lemma zipsize_sum (mask : list Z) :
  fold_left (fun n i => n + byte_bits (at_ mask i)) (seqZ 0 (zlen mask)) 0 = mask_bits mask.
Proof.
  assert (forall l k acc pre, mask = pre ++ l -> zlen pre = k ->
    fold_left (fun n i => n + byte_bits (at_ mask i)) (seqZ k (zlen l)) acc = acc + mask_bits l) as H.
  { induction l as [|b l IH]; intros k acc pre Hm Hk; [rewrite zlen_nil, seqZ_nil by lia; cbn; lia|].
    rewrite zlen_cons, seqZ_cons by (pose proof (zlen_nonneg l); lia).
    replace (Z.pred (1 + zlen l)) with (zlen l) by lia. cbn [fold_left].
    rewrite (IH (Z.succ k) _ (pre ++ [b])); [|by rewrite Hm, <- app_assoc|rewrite zlen_app, zlen_cons, zlen_nil; lia].
    rewrite Hm at 1. rewrite at_app_r by lia. replace (k - zlen pre) with 0 by lia.
    rewrite at_cons_0. cbn. fold (mask_bits l). lia. }
  by rewrite (H mask 0 0 []).
Qed.

Lemma seqZ_one m : seqZ m 1 = [m].
Proof. by rewrite seqZ_cons, seqZ_nil by lia. Qed.

(** ** Packing *)

(** Byte [i] starts a run. *)
Definition is_start (buffer : list Z) (i : Z) : bool :=
  (i =? 0) || negb (at_ buffer i =? at_ buffer (i - 1)).

Definition starts (buffer : list Z) (n : Z) : list Z := List.filter (is_start buffer) (seqZ 0 n).

(** The number of runs. *)
Definition runs_of (buffer : list Z) : Z := zlen (starts buffer TEXT).

Lemma starts_succ buffer n : 0 <= n -> starts buffer (n + 1) =
  starts buffer n ++ (if is_start buffer n then [n] else []).
Proof.
  intros Hn. unfold starts. rewrite seqZ_app, Z.add_0_l, seqZ_one, List.filter_app by lia. done.
Qed.

Lemma at_zero_mask i : at_ zero_mask i = 0.
Proof.
  unfold at_, zero_mask. rewrite nth_lookup. destruct (replicate 115 0 !! _) eqn:E; [|done].
  by apply lookup_replicate in E as [-> _].
Qed.

Lemma pack_prefix buffer n : (Z.of_nat n <= TEXT) ->
  let '(mask, cbuf) := fold_left (compress_step buffer) (seqZ 0 (Z.of_nat n)) (zero_mask, []) in
  zlen mask = 115 /\ bytes mask /\
  (forall i, 0 <= i -> mask_bit mask i = (i <? Z.of_nat n) && is_start buffer i) /\
  cbuf = map (at_ buffer) (starts buffer (Z.of_nat n)) /\ mask_bits mask = zlen cbuf.
Proof.
  induction n as [|n IH]; intros Hn.
  - change (Z.of_nat 0) with 0. rewrite seqZ_nil by lia. cbn [fold_left].
    split_and!; [done| |intros i Hi|done|done].
    + apply decide_bytes. done.
    + replace (i <? 0) with false by lia. rewrite mask_bit_testbit by done. cbn [andb].
      rewrite at_zero_mask. apply Z.bits_0.
  - rewrite Nat2Z.inj_succ, <- Z.add_1_r, seqZ_app, Z.add_0_l, seqZ_one, fold_left_app by lia.
    specialize (IH ltac:(lia)).
    destruct (fold_left _ (seqZ 0 (Z.of_nat n)) _) as [mask cbuf].
    destruct IH as (Hl & Hb & Hbits & Hc & Hcount). cbn [fold_left].
    unfold compress_step. rewrite starts_succ by lia.
    assert ((negb (Z.of_nat n =? 0) && (at_ buffer (Z.of_nat n) =? at_ buffer (Z.of_nat n - 1))) =
            negb (is_start buffer (Z.of_nat n))) as ->
      by (unfold is_start; by rewrite negb_orb, negb_involutive).
    destruct (is_start buffer (Z.of_nat n)) eqn:Hs; cbn [negb].
    + fold (set_mask_bit (Z.of_nat n) mask).
      assert (mask_bit mask (Z.of_nat n) = false) as Hclear.
      { rewrite Hbits by lia. by replace (Z.of_nat n <? Z.of_nat n) with false by lia. }
      destruct (set_mask_bit_count (Z.of_nat n) mask) as [Hcnt Hby]; [lia|done..|].
      split_and!; [by rewrite set_mask_bit_zlen|done| | |].
      * intros i Hi. rewrite set_mask_bit_spec, Hbits by (done || lia).
        destruct (Z.eqb_spec i (Z.of_nat n)) as [->|Hne]; cbn [orb].
        -- rewrite Hs. by replace (Z.of_nat n <? Z.of_nat n + 1) with true by lia.
        -- f_equal. lia.
      * by rewrite map_app, <- Hc.
      * rewrite zlen_app, Hcnt, Hcount. done.
    + split_and!; [done..| | |done].
      * intros i Hi. rewrite Hbits by done. destruct (Z.eq_dec i (Z.of_nat n)) as [->|Hne].
        -- by rewrite Hs, !andb_false_r.
        -- f_equal. lia.
      * by rewrite app_nil_r.
Qed.

Lemma pack_spec buffer :
  let '(mask, cbuf) := pack buffer in
  zlen mask = 115 /\ bytes mask /\
  (forall i, 0 <= i < TEXT -> mask_bit mask i = is_start buffer i) /\
  cbuf = map (at_ buffer) (starts buffer TEXT) /\ mask_bits mask = runs_of buffer.
Proof.
  pose proof (pack_prefix buffer (Z.to_nat TEXT) ltac:(done)) as H. unfold pack.
  change (Z.of_nat (Z.to_nat TEXT)) with TEXT in H.
  destruct (fold_left _ (seqZ 0 TEXT) _) as [mask cbuf]. destruct H as (Hl & Hb & Hbits & -> & Hcount).
  split_and!; [done..| |done|].
  - intros i Hi. rewrite Hbits by lia. by replace (i <? TEXT) with true by lia.
  - rewrite Hcount. unfold runs_of, zlen. by rewrite length_map.
Qed.

(** ** Unpacking *)

Lemma at_map (f : Z -> Z) l j : 0 <= j < zlen l -> at_ (map f l) j = f (at_ l j).
Proof.
  intros Hj. destruct (lookup_lt_is_Some_2 l (Z.to_nat j)) as [a Ha]; [unfold zlen in Hj; lia|].
  unfold at_. rewrite (nth_lookup_Some l _ _ _ Ha), !nth_lookup, list_lookup_fmap, Ha. done.
Qed.

Lemma starts_split buffer i : 0 <= i < TEXT ->
  starts buffer TEXT = starts buffer i ++ List.filter (is_start buffer) (seqZ i (TEXT - i)).
Proof.
  intros Hi. unfold starts. rewrite <- List.filter_app. f_equal.
  replace TEXT with (i + (TEXT - i)) at 1 by lia. by rewrite seqZ_app by (unfold TEXT in *; lia).
Qed.

(** Byte [i], when it starts a run, is the next packed byte. *)
Lemma packed_byte buffer i : 0 <= i < TEXT -> is_start buffer i = true ->
  rd (map (at_ buffer) (starts buffer TEXT)) (zlen (starts buffer i)) = Ok (at_ buffer i).
Proof.
  intros Hi Hs. pose proof (zlen_nonneg (starts buffer i)) as Hnn.
  assert (starts buffer TEXT = starts buffer i ++
    i :: List.filter (is_start buffer) (seqZ (i + 1) (TEXT - i - 1))) as He.
  { rewrite (starts_split buffer i Hi). f_equal. rewrite seqZ_cons by lia. cbn [List.filter].
    rewrite Hs. repeat f_equal; lia. }
  assert (zlen (starts buffer i) < zlen (starts buffer TEXT)) as Hlt.
  { rewrite He, zlen_app, zlen_cons. pose proof (zlen_nonneg (List.filter (is_start buffer) (seqZ (i + 1) (TEXT - i - 1)))). lia. }
  rewrite rd_ok by (unfold zlen in *; rewrite length_map; lia). f_equal.
  rewrite at_map by lia. f_equal. rewrite He, at_app_r, Z.sub_diag by lia. by rewrite at_cons_0.
Qed.

(** The byte that the unpacking loop holds when it reaches byte [i]. *)
Definition held (buffer : list Z) (i : Z) : Z := if i =? 0 then 0x20 else at_ buffer (i - 1).

Lemma unpack_suffix buffer mask :
  zlen buffer = TEXT -> (forall i, 0 <= i < TEXT -> mask_bit mask i = is_start buffer i) ->
  forall n i, 0 <= i -> i + Z.of_nat n = TEXT ->
  unpack_loop n mask (map (at_ buffer) (starts buffer TEXT)) i (zlen (starts buffer i)) (held buffer i) =
  Ok (drop (Z.to_nat i) buffer).
Proof.
  intros Hl Hm. induction n as [|n IH]; intros i Hi Hn.
  - cbn. by rewrite drop_ge by (unfold zlen in Hl; lia).
  - cbn [unpack_loop]. fold (mask_bit mask i). rewrite Hm by lia.
    assert ((if is_start buffer i then rd (map (at_ buffer) (starts buffer TEXT)) (zlen (starts buffer i))
             else Ok (held buffer i)) = Ok (at_ buffer i)) as ->.
    { destruct (is_start buffer i) eqn:Hs; [apply packed_byte; [lia|done]|].
      unfold is_start in Hs. apply orb_false_elim in Hs as [H0 He]. unfold held. rewrite H0.
      apply negb_false_iff, Z.eqb_eq in He. by rewrite He. }
    cbn [res_bind].
    replace (if is_start buffer i then zlen (starts buffer i) + 1 else zlen (starts buffer i))
      with (zlen (starts buffer (i + 1))).
    2:{ rewrite starts_succ, zlen_app by lia. destruct (is_start buffer i); rewrite ?zlen_cons, zlen_nil; lia. }
    replace (at_ buffer i) with (held buffer (i + 1)) at 1
      by (unfold held; replace (i + 1 =? 0) with false by lia; f_equal; lia).
    rewrite IH by lia. cbn [res_bind]. f_equal.
    rewrite Z2Nat.inj_add by lia. change (Z.to_nat 1) with 1%nat. rewrite Nat.add_1_r.
    symmetry. apply drop_S, at_lookup. lia.
Qed.

Lemma unpack_pack buffer : zlen buffer = TEXT -> unpack (fst (pack buffer)) (snd (pack buffer)) = Ok buffer.
Proof.
  intros Hl. pose proof (pack_spec buffer) as H. destruct (pack buffer) as [mask cbuf].
  destruct H as (_ & _ & Hm & -> & _). cbn [fst snd]. unfold unpack.
  rewrite <- (drop_0 buffer) at 3. apply (unpack_suffix buffer mask Hl Hm (Z.to_nat TEXT) 0); done.
Qed.

Lemma at_spaces i : 0 <= i < TEXT -> at_ spaces i = 0x20.
Proof. intros Hi. unfold at_, spaces. apply nth_replicate_lt || (rewrite nth_lookup, lookup_replicate_2; [done|unfold TEXT in *; lia]). Qed.

(** A page whose mask is clear reads as spaces, whatever was packed. *)
Lemma unpack_zero_mask data : unpack zero_mask data = Ok spaces.
Proof.
  unfold unpack. assert (forall n i, 0 <= i ->
    unpack_loop n zero_mask data i 0 0x20 = Ok (replicate n 0x20)) as H.
  { induction n as [|n IH]; intros i Hi; [done|]. cbn [unpack_loop]. fold (mask_bit zero_mask i).
    rewrite mask_bit_testbit, at_zero_mask, Z.bits_0 by done. cbn [res_bind].
    rewrite IH by lia. done. }
  by apply H.
Qed.

(** ** The operations on the cache *)

Lemma alloc_run s : alloc s =
  match heap s with [] => Ok (true, s) | b :: r => Ok (b, set_heap r s) end.
Proof. unfold alloc. mrun. by destruct (heap s). Qed.

Lemma page_mod_run s p sp f pg : 0 <= p < 0x900 -> 0 <= sp < 0x80 -> astCachetable s !! (p, sp) = Some pg ->
  page_mod p sp f s = Ok (tt, set_astCachetable (<[(p, sp) := f pg]> (astCachetable s)) s).
Proof.
  intros Hp Hs Hg. unfold page_mod, mbind_. rewrite page_at_run by done. cbn [res_bind].
  by rewrite Hg.
Qed.

Definition alloc_ok (s : St) : bool := match heap s with [] => true | b :: _ => b end.

Lemma alloc_run' s : alloc s = Ok (alloc_ok s, set_heap (tl (heap s)) s).
Proof. rewrite alloc_run. unfold alloc_ok. by destruct s as [? ? ? ? ? ? ? ? ? ? ? ? ? ? ? ? ? ? ? ? ? ? [|? ?] ?]. Qed.

(** The state after [tuxtxt_compress_page]. *)
Definition compressed (s : St) (p sp : Z) (pg : CachedPage) (ok : bool) (buffer : list Z) : St :=
  let pg' := if ok then set_pData (Some (snd (pack buffer))) (set_bitmask (fst (pack buffer)) pg)
             else set_bitmask zero_mask (set_pData None (set_bitmask (fst (pack buffer)) pg)) in
  set_heap (tl (heap s)) (set_astCachetable (<[(p, sp) := pg']> (astCachetable s)) s).

Lemma compress_run s p sp pg buffer : 0 <= p < 0x900 -> 0 <= sp < 0x80 ->
  astCachetable s !! (p, sp) = Some pg ->
  tuxtxt_compress_page p sp buffer s = Ok (tt, compressed s p sp pg (alloc_ok s) buffer).
Proof.
  intros Hp Hs Hg. unfold tuxtxt_compress_page. erewrite mbind_run by by apply page_at_run.
  rewrite Hg, (surjective_pairing (pack buffer)).
  erewrite mbind_run by (eapply page_mod_run; eassumption).
  cbv beta. erewrite mbind_run by apply alloc_run'. cbv beta.
  unfold compressed. change (alloc_ok (set_astCachetable _ s)) with (alloc_ok s). case_if.
  all: rewrite (page_mod_run _ p sp _ (set_bitmask (fst (pack buffer)) pg)) by (done || apply lookup_insert_eq).
  all: destruct s; cbn -[pack zero_mask set_bitmask set_pData]; by rewrite insert_insert_eq.
Qed.

Lemma decompress_compressed s p sp pg ok buffer :
  0 <= p < 0x900 -> 0 <= sp < 0x80 -> zlen buffer = TEXT ->
  tuxtxt_decompress_page p sp (compressed s p sp pg ok buffer) =
  Ok (if ok then buffer else spaces, compressed s p sp pg ok buffer).
Proof.
  intros Hp Hs Hl. unfold tuxtxt_decompress_page. erewrite mbind_run by by apply page_at_run.
  assert (astCachetable (compressed s p sp pg ok buffer) !! (p, sp) =
    Some (if ok then set_pData (Some (snd (pack buffer))) (set_bitmask (fst (pack buffer)) pg)
          else set_bitmask zero_mask (set_pData None (set_bitmask (fst (pack buffer)) pg)))) as ->
    by (cbn; apply lookup_insert_eq).
  destruct ok; [|done]. cbv beta iota. cbn -[unpack pack compressed]. by rewrite unpack_pack.
Qed.

(** C19: packing a page and unpacking it gives the text back, whatever the 920
    bytes are, and changes no other page; the size then reported is 115 mask
    bytes and one byte per run (116 to 1035, so a text without runs grows).
    When the memory for the packed bytes cannot be had, the page reads as
    blank. *)
Theorem compress_decompress s p sp pg buffer :
  0 <= p < 0x900 -> 0 <= sp < 0x80 -> astCachetable s !! (p, sp) = Some pg -> zlen buffer = TEXT ->
  exists s', tuxtxt_compress_page p sp buffer s = Ok (tt, s') /\
    tuxtxt_decompress_page p sp s' = Ok (if alloc_ok s then buffer else spaces, s') /\
    (alloc_ok s = true -> tuxtxt_get_zipsize p sp s' = Ok (runs_of buffer + 115, s')) /\
    1 <= runs_of buffer <= 920 /\
    (forall k, k <> (p, sp) -> astCachetable s' !! k = astCachetable s !! k).
Proof.
  intros Hp Hs Hg Hl. exists (compressed s p sp pg (alloc_ok s) buffer).
  split; [by apply compress_run|].
  assert (astCachetable (compressed s p sp pg (alloc_ok s) buffer) !! (p, sp) =
    Some (if alloc_ok s then set_pData (Some (snd (pack buffer))) (set_bitmask (fst (pack buffer)) pg)
          else set_bitmask zero_mask (set_pData None (set_bitmask (fst (pack buffer)) pg)))) as Hg'
    by (cbn; apply lookup_insert_eq).
  split_and!.
  - by apply decompress_compressed.
  - intros Ha. rewrite Ha in *. unfold tuxtxt_get_zipsize. erewrite mbind_run by by apply page_at_run.
    rewrite Hg'. unfold mret_. f_equal. f_equal.
    assert (bitmask (set_pData (Some (snd (pack buffer))) (set_bitmask (fst (pack buffer)) pg)) =
      fst (pack buffer)) as -> by done.
    pose proof (pack_spec buffer) as H. destruct (pack buffer) as [mask cbuf].
    destruct H as (Hlen & _ & _ & _ & <-). cbn [fst]. rewrite <- zipsize_sum, Hlen. done.
  - unfold runs_of, starts. rewrite seqZ_cons by (unfold TEXT; lia). cbn [List.filter is_start Z.eqb orb].
    rewrite zlen_cons. pose proof (zlen_nonneg (List.filter (is_start buffer) (seqZ (Z.succ 0) (Z.pred TEXT)))). lia.
  - unfold runs_of, starts.
    assert (length (List.filter (is_start buffer) (seqZ 0 TEXT)) <= length (seqZ 0 TEXT))%nat
      by apply List.filter_length_le.
    rewrite length_seqZ in *. unfold zlen, TEXT in *. lia.
  - intros k Hk. cbn. by rewrite lookup_insert_ne.
Qed.

(** A page of one long run and 420 short ones. *)
Lemma compress_decompress_witness :
  let s := with_pages [(0x100, 0)] in
  let text := replicate (Z.to_nat 500) 0x41 ++ map (fun i => i mod 7) (seqZ 0 420) in
  exists s', tuxtxt_compress_page 0x100 0 text s = Ok (tt, s') /\
    tuxtxt_decompress_page 0x100 0 s' = Ok (text, s') /\
    tuxtxt_get_zipsize 0x100 0 s' = Ok (421 + 115, s').
Proof.
  intros s text. destruct (compress_decompress s 0x100 0 blank_page text) as (s' & E1 & E2 & E3 & _);
    [lia|lia|by vm_compute|by vm_compute|].
  exists s'. split; [done|]. split; [done|]. rewrite E3 by done. do 3 f_equal.
Defined.
