(* ===== verification/TxtP28Spec.v ===== *)
(** * Packets X/28 and M/29 of level 2.5

    The thirteen triplets of the packet are one number of 234 bits, and each
    field of [tstExtData] is a range of its bits (ETS 300 706 9.4.2).
    [tuxtxt_decode_p2829] reads it through a window of at most 29 bits; it
    gets every field right, and an error in any triplet invalidates the
    packet. *)

From stdpp Require Import gmap.
From S2P Require Import Prelude TxtCode TxtCodeSpec TxtCache TxtPageSpec TxtPackSpec.

Open Scope Z_scope.

(** Bits [pos] to [pos + w - 1]. *)
Definition field (N pos w : Z) : Z := (N / 2 ^ pos) mod 2 ^ w.

Lemma field_range N pos w : 0 <= w -> 0 <= field N pos w < 2 ^ w.
Proof. intros. apply Z.mod_pos_bound. lia. Qed.

Lemma field_join N pos a b : 0 <= pos -> 0 <= a -> 0 <= b ->
  Z.lor (field N pos a) (Z.shiftl (field N (pos + a) b) a) = field N pos (a + b).
Proof.
  intros Hp Ha Hb. rewrite Z.lor_comm, lor_shiftl_add by (done || by apply field_range).
  unfold field. rewrite !Z.pow_add_r by lia.
  rewrite (Z.rem_mul_r (N / 2 ^ pos)), Z.div_div by lia. lia.
Qed.

Lemma field_low N pos a b : 0 <= pos -> 0 <= b <= a -> Z.land (field N pos a) (Z.ones b) = field N pos b.
Proof.
  intros Hp Hb. rewrite Z.land_ones by lia. unfold field.
  replace (2 ^ a) with (2 ^ b * 2 ^ (a - b)) by (rewrite <- Z.pow_add_r by lia; f_equal; lia).
  rewrite Z.rem_mul_r by lia. rewrite (Z.mul_comm (2 ^ b)), Z.mod_add by lia. apply Z.mod_mod. lia.
Qed.

Lemma field_high N pos a b : 0 <= pos -> 0 <= b <= a -> Z.shiftr (field N pos a) b = field N (pos + b) (a - b).
Proof.
  intros Hp Hb. rewrite Z.shiftr_div_pow2 by lia. unfold field.
  replace (2 ^ a) with (2 ^ b * 2 ^ (a - b)) by (rewrite <- Z.pow_add_r by lia; f_equal; lia).
  rewrite Z.rem_mul_r, Z.pow_add_r, <- Z.div_div by lia.
  rewrite (Z.mul_comm (2 ^ b)), Z.div_add by lia.
  rewrite (Z.div_small (_ mod 2 ^ b)) by (apply Z.mod_pos_bound; lia). lia.
Qed.

(** A flag tested with a mask of one bit. *)
Lemma field_flag N pos a k : 0 <= pos -> 0 <= k < a ->
  negb (Z.land (field N pos a) (2 ^ k) =? 0) = (field N (pos + k) 1 =? 1).
Proof.
  intros Hp Hk. rewrite land_pow2 by lia.
  assert (Z.testbit (field N pos a) k = Z.testbit (field N (pos + k) (a - k)) 0) as ->.
  { rewrite <- field_high, Z.shiftr_spec by lia. done. }
  rewrite Z.bit0_eqb. unfold field at 1.
  replace (2 ^ (a - k)) with (2 * 2 ^ (a - k - 1))
    by (rewrite <- (Z.pow_1_r 2) at 1; rewrite <- Z.pow_add_r by lia; f_equal; lia).
  rewrite Z.rem_mul_r, (Z.mul_comm 2), Z.mod_add, Z.mod_mod by lia. done.
Qed.

Lemma upd_ok {A} (l : list A) i a : 0 <= i < zlen l -> upd l i a = Ok (<[Z.to_nat i := a]> l).
Proof. intros. unfold upd. by replace ((0 <=? i) && (i <? zlen l)) with true by lia. Qed.

Lemma at_insert l i v j : 0 <= i < zlen l -> 0 <= j -> at_ (<[Z.to_nat i := v]> l) j = if j =? i then v else at_ l j.
Proof.
  intros Hi Hj. unfold at_. rewrite !nth_lookup. case_if.
  - replace j with i by lia. by rewrite list_lookup_insert_eq by (unfold zlen in Hi; lia).
  - by rewrite list_lookup_insert_ne by lia.
Qed.

Lemma zlen_insert {A} (l : list A) n a : zlen (<[n := a]> l) = zlen l.
Proof. unfold zlen. by rewrite length_insert. Qed.

(** ** The colours *)

Section stream.
Context (row : list Z) (N : Z).
Context (Htriplets : forall k, 0 <= k < 13 -> deh24_at row (3 + 3 * k) = Ok (field N (18 * k) 18)).

(** After [i] colours the window holds the rest of the [m] triplets read. *)
Lemma p28_colors_spec n i m colors : 0 <= i -> i + Z.of_nat n = 16 ->
  let pos := 28 + 12 * i in
  0 <= 18 * m - pos < 18 -> 0 <= m -> zlen colors = 16 ->
  exists colors',
    p28_colors row n i (field N pos (18 * m - pos)) (18 * m - pos) (3 + 3 * m) colors =
      Ok (field N 220 14, 14, colors') /\
    zlen colors' = 16 /\
    (forall j, 0 <= j < 16 -> at_ colors' j = if j <? i then at_ colors j else field N (28 + 12 * j) 12).
Proof.
  revert i m colors. induction n as [|n IH]; intros i m colors Hi Hn pos Hm Hm0 Hl.
  - assert (i = 16) as -> by lia. assert (m = 13) as -> by (unfold pos in Hm; lia).
    exists colors. split_and!; [done|done|]. intros j Hj. by replace (j <? 16) with true by lia.
  - cbn [p28_colors].
    (* the step with a window of at least twelve bits *)
    assert (forall m, 12 <= 18 * m - pos < 30 -> 0 <= m -> exists colors',
      (let? colors := upd colors i (Z.land (field N pos (18 * m - pos)) 0x0fff) in
       p28_colors row n (i + 1) (Z.shiftr (field N pos (18 * m - pos)) 12) (18 * m - pos - 12)
         (3 + 3 * m) colors) = Ok (field N 220 14, 14, colors') /\
      zlen colors' = 16 /\
      (forall j, 0 <= j < 16 ->
         at_ colors' j = if j <? i then at_ colors j else field N (28 + 12 * j) 12)) as Hstep.
    { clear m Hm Hm0. intros m Hm Hm0. rewrite upd_ok by lia. cbn [res_bind].
      change 0x0fff with (Z.ones 12). rewrite field_low, field_high by (unfold pos; lia).
      destruct (IH (i + 1) m (<[Z.to_nat i := field N pos 12]> colors)) as (c' & Hc & Hl' & Hall);
        [lia..|unfold pos in Hm; lia|done|by rewrite zlen_insert|].
      replace (28 + 12 * (i + 1)) with (pos + 12) in Hc by (unfold pos; lia).
      replace (18 * m - (pos + 12)) with (18 * m - pos - 12) in Hc by lia.
      exists c'. split_and!; [done|done|]. intros j Hj. rewrite Hall by done.
      rewrite at_insert by lia. destruct (Z.ltb_spec j (i + 1)), (Z.ltb_spec j i),
        (Z.eqb_spec j i); try lia; by subst j. }
    case_if.
    + assert (m <= 12) by (unfold pos in *; lia).
      rewrite Htriplets by lia. cbn [res_bind].
      replace (field N (18 * m) 18) with (field N (pos + (18 * m - pos)) 18) by (f_equal; lia).
      rewrite field_join by (unfold pos; lia).
      pose proof (field_range N pos (18 * m - pos + 18) ltac:(lia)). rif.
      destruct (Hstep (m + 1)) as (c' & Hc & Hrest); [lia..|].
      replace (18 * (m + 1) - pos) with (18 * m - pos + 18) in Hc by lia.
      replace (3 + 3 * (m + 1)) with (3 + 3 * m + 3) in Hc by lia.
      exists c'. by split.
    + apply Hstep; lia.
Qed.
End stream.

(** The record that the number [N] describes, over the links and objects of [e]. *)
Definition ext_of (N : Z) (colors : list Z) (e : ExtData) : ExtData :=
  mkExt (p26 e) (p27 e) colors
    (field N 7 7) (field N 21 1 =? 1) (field N 14 7) (field N 22 1 =? 1)
    (field N 220 5) (field N 231 3) (field N 225 5) (field N 230 1 =? 1)
    (field N 23 1 =? 1) true (field N 24 4).

Lemma p28_head_spec N e : p28_head (field N 0 18) (field N 18 18) e =
  mkExt (p26 e) (p27 e) (bgr e) (field N 7 7) (field N 21 1 =? 1) (field N 14 7) (field N 22 1 =? 1)
    (DefScreenColor e) (ColorTableRemapping e) (DefRowColor e) (BlackBgSubst e)
    (field N 23 1 =? 1) true (field N 24 4).
Proof.
  assert (Z.lor (Z.land (Z.shiftr (field N 0 18) 14) 0x0f) (Z.land (Z.shiftl (field N 18 18) 4) 0x70) =
    field N 14 7) as Hsec.
  { change 0x0f with (Z.ones 4). change 0x70 with (Z.shiftl (Z.ones 3) 4).
    rewrite <- Z.shiftl_land, field_high, !field_low by lia. apply (field_join N 14 4 3); lia. }
  unfold p28_head. rewrite Hsec. change (Z.land (field N 18 18) 0x08) with (Z.land (field N 18 18) (2 ^ 3)).
  change (Z.land (field N 18 18) 0x10) with (Z.land (field N 18 18) (2 ^ 4)).
  change (Z.land (field N 18 18) 0x20) with (Z.land (field N 18 18) (2 ^ 5)).
  change 0x0f with (Z.ones 4). change 0x7f with (Z.ones 7).
  rewrite !field_flag, !field_high, !field_low by lia. by destruct e.
Qed.

Lemma p28_tail_spec N e : p28_tail (field N 220 14) e =
  mkExt (p26 e) (p27 e) (bgr e) (DefaultCharset e) (LSP e) (SecondCharset e) (RSP e)
    (field N 220 5) (field N 231 3) (field N 225 5) (field N 230 1 =? 1) (SPL25 e) (p28Received e)
    (LSPColumns e).
Proof.
  unfold p28_tail.
  change 0x1f with (Z.ones 5). change 0x07 with (Z.ones 3).
  rewrite !field_high, !field_low by lia.
  change (Z.land (field N (220 + 5) (14 - 5)) 0x20) with (Z.land (field N (220 + 5) (14 - 5)) (2 ^ 5)).
  rewrite field_flag by lia. by destruct e.
Qed.

(** C24: when the thirteen triplets of the packet decode to the digits of a
    number [N] in base 2^18, every field is its range of the bits of [N]:
    charsets, side panels, sixteen colours of twelve bits, screen and row
    colour, black substitution and colour table mapping. *)
Theorem decode_p2829_fields row N ptr s :
  (forall k, 0 <= k < 13 -> deh24_at row (3 + 3 * k) = Ok (field N (18 * k) 18)) ->
  (forall e, ptr = Some e -> zlen (bgr e) = 16) ->
  (ptr = None -> alloc_ok s = true) ->
  exists colors,
    tuxtxt_decode_p2829 row ptr s =
      Ok (Some (ext_of N colors (default zero_ext ptr)),
          match ptr with Some _ => s | None => set_heap (tl (heap s)) s end) /\
    zlen colors = 16 /\ (forall i, 0 <= i < 16 -> at_ colors i = field N (28 + 12 * i) 12).
Proof.
  intros Ht Hb Ha. set (e := default zero_ext ptr).
  assert (zlen (bgr e) = 16) as Hl by (destruct ptr as [e'|]; [by apply Hb|done]).
  destruct (p28_colors_spec row N Ht 16 0 2 (bgr e)) as (colors & Hc & Hlen & Hall); [lia..|].
  exists colors. split; [|split; [done|]].
  2:{ intros i Hi. rewrite Hall by done. by replace (i <? 0) with false by lia. }
  unfold tuxtxt_decode_p2829.
  pose proof (Ht 0 ltac:(lia)) as H0. pose proof (Ht 1 ltac:(lia)) as H1. cbn [Z.mul Z.add] in H0, H1.
  mrun. change (3 + 3 * 0) with 3 in H0. change (3 + 3 * 1) with 6 in H1. rewrite H0. mrun. rewrite H1. mrun.
  pose proof (field_range N 0 18 ltac:(lia)). pose proof (field_range N 18 18 ltac:(lia)).
  change (18 * 0) with 0. change (18 * 1) with 18.
  replace ((field N 0 18 <? 0) || (field N 18 18 <? 0)) with false by lia.
  assert ((match ptr with
           | Some e => mret_ (Some e)
           | None => let! ok := alloc in mret_ (if ok then Some zero_ext else None)
           end) s = Ok (Some e, match ptr with Some _ => s | None => set_heap (tl (heap s)) s end)) as He.
  { destruct ptr; [done|]. erewrite mbind_run by apply alloc_run'. by rewrite Ha. }
  erewrite mbind_run by exact He. cbv beta iota zeta. rewrite p28_head_spec. cbn [bgr].
  rewrite field_high by lia. change (18 + 10) with 28. change (18 - 10) with 8.
  cbn [Z.mul Z.add Z.sub Z.opp Z.pos_sub Pos.mul Pos.add] in Hc.
  change (28 + 12 * 0) with 28 in Hc. change (18 * 2 - 28) with 8 in Hc. change (3 + 3 * 2) with 9 in Hc.
  erewrite mbind_run by (rewrite Hc; reflexivity).
  pose proof (field_range N 220 14 ltac:(lia)).
  cbv beta iota. replace ((field N 220 14 <? 0) || negb (14 =? 14)) with false by lia.
  unfold mret_. rewrite p28_tail_spec. by destruct e.
Qed.

(** ** Errors *)

Definition row_ok (row : list Z) : Prop := zlen row = 42 /\ bytes row.

(** Triplet [k] of a row. *)
Definition triplet (row : list Z) (k : Z) : Z :=
  deh24 (at_ row (3 + 3 * k)) (at_ row (3 + 3 * k + 1)) (at_ row (3 + 3 * k + 2)).

Lemma deh24_at_ok row p : 0 <= p -> p + 3 <= zlen row -> bytes row -> exists d,
  deh24_at row p = Ok d /\ d = deh24 (at_ row p) (at_ row (p + 1)) (at_ row (p + 2)) /\
  (d = -1 \/ 0 <= d < 2 ^ 18).
Proof.
  intros Hp Hl Hb. unfold deh24_at. rewrite !rd_ok by lia. cbn [res_bind].
  eexists. split_and!; [done|done|]. apply deh24_range; apply bytes_at; done || lia.
Qed.

Lemma window_bound t2 d bl : 0 <= bl -> 0 <= t2 < 2 ^ bl -> 0 <= d < 2 ^ 18 ->
  0 <= Z.lor t2 (Z.shiftl d bl) < 2 ^ (bl + 18).
Proof.
  intros Hb Ht Hd. rewrite Z.lor_comm, lor_shiftl_add, Z.pow_add_r by lia. nia.
Qed.

Lemma shiftr_bound t2 bl : 12 <= bl -> 0 <= t2 < 2 ^ bl -> 0 <= Z.shiftr t2 12 < 2 ^ (bl - 12).
Proof.
  intros Hb Ht. rewrite Z.shiftr_div_pow2 by lia.
  replace (2 ^ bl) with (2 ^ 12 * 2 ^ (bl - 12)) in Ht by (rewrite <- Z.pow_add_r by lia; f_equal; lia).
  split; [apply Z.div_pos; lia|apply Z.div_lt_upper_bound; lia].
Qed.

Lemma p28_colors_total row n i m t2 colors : row_ok row -> 0 <= i -> i + Z.of_nat n = 16 ->
  let bl := 18 * m - (28 + 12 * i) in
  0 <= bl < 18 -> 0 <= m -> 0 <= t2 < 2 ^ bl -> zlen colors = 16 ->
  exists t2' bl' colors', p28_colors row n i t2 bl (3 + 3 * m) colors = Ok (t2', bl', colors') /\
    zlen colors' = 16 /\
    (t2' < 0 \/ 0 <= t2' /\ bl' = 14 /\ forall k, m <= k < 13 -> 0 <= triplet row k).
Proof.
  intros [Hrow Hbytes]. revert i m t2 colors.
  induction n as [|n IH]; intros i m t2 colors Hi Hn bl Hbl Hm Ht Hl.
  - exists t2, bl, colors. cbn [p28_colors]. split_and!; [done|done|right]. unfold bl in *. split_and!; [lia..|].
    intros k Hk. lia.
  - cbn [p28_colors].
    assert (forall m' t2 bl, bl = 18 * m' - (28 + 12 * i) -> 12 <= bl < 30 -> m <= m' ->
      (forall k, m <= k < m' -> 0 <= triplet row k) -> 0 <= t2 < 2 ^ bl ->
      exists t2' bl' colors',
        (let? colors := upd colors i (Z.land t2 0x0fff) in
         p28_colors row n (i + 1) (Z.shiftr t2 12) (bl - 12) (3 + 3 * m') colors) = Ok (t2', bl', colors') /\
        zlen colors' = 16 /\
        (t2' < 0 \/ 0 <= t2' /\ bl' = 14 /\ forall k, m <= k < 13 -> 0 <= triplet row k)) as Hstep.
    { clear t2 Ht bl Hbl. intros m' t2 bl -> Hbl Hmm Htr Ht. rewrite upd_ok by lia. cbn [res_bind].
      pose proof (shiftr_bound _ _ (proj1 Hbl) Ht) as Hs.
      destruct (IH (i + 1) m' (Z.shiftr t2 12) (<[Z.to_nat i := Z.land t2 0x0fff]> colors))
        as (t' & b' & c' & Hc & Hl' & Hor); [lia..| |by rewrite zlen_insert|].
      { replace (18 * m' - (28 + 12 * (i + 1))) with (18 * m' - (28 + 12 * i) - 12) by lia. done. }
      replace (18 * m' - (28 + 12 * (i + 1))) with (18 * m' - (28 + 12 * i) - 12) in Hc by lia.
      exists t', b', c'. split_and!; [done|done|]. destruct Hor as [|(H1 & H2 & H3)]; [by left|right].
      split_and!; [done..|]. intros k Hk. destruct (Z.lt_ge_cases k m'); [apply Htr|apply H3]; lia. }
    case_if.
    + assert (m <= 12) by (unfold bl in *; lia).
      destruct (deh24_at_ok row (3 + 3 * m)) as (d & -> & Hd & Hr); [lia..|done|]. cbn [res_bind].
      destruct Hr as [->|Hr].
      * assert (Z.lor t2 (Z.shiftl (-1) bl) < 0) by (apply Z.lor_neg; right; apply Z.shiftl_neg; lia).
        rif. eexists _, _, colors. split_and!; [done|done|by left].
      * pose proof (window_bound t2 d bl ltac:(lia) Ht Hr). rif.
        replace (3 + 3 * m + 3) with (3 + 3 * (m + 1)) by lia.
        apply Hstep; [unfold bl; lia|lia|lia| |done].
        intros k Hk. replace k with m by lia. unfold triplet. lia.
    + apply Hstep; [done|lia|lia|lia|done].
Qed.

(** What [tuxtxt_decode_p2829] can do with any row of 42 bytes. *)
Lemma decode_p2829_total row ptr s : row_ok row -> (forall e, ptr = Some e -> zlen (bgr e) = 16) ->
  exists r s', tuxtxt_decode_p2829 row ptr s = Ok (r, s') /\ (s' = s \/ s' = set_heap (tl (heap s)) s) /\
    (r = ptr \/ exists e, r = Some e /\ p26 e = p26 (default zero_ext ptr) /\
       p27 e = p27 (default zero_ext ptr) /\ zlen (bgr e) = 16 /\
       (p28Received e = true -> forall k, 0 <= k < 13 -> 0 <= triplet row k)).
Proof.
  intros Hrow Hb. pose proof Hrow as [Hl Hbytes]. unfold tuxtxt_decode_p2829.
  destruct (deh24_at_ok row 3) as (t1 & Ht1 & Hd1 & Hr1); [lia..|done|].
  destruct (deh24_at_ok row 6) as (t2 & Ht2 & Hd2 & Hr2); [lia..|done|].
  rewrite Ht1, Ht2. mrun. case_if; [exists ptr, s; auto|].
  assert (exists s' e, (match ptr with
           | Some e => mret_ (Some e)
           | None => let! ok := alloc in mret_ (if ok then Some zero_ext else None)
           end) s = Ok (e, s') /\ (s' = s \/ s' = set_heap (tl (heap s)) s) /\
           (e = None /\ ptr = None \/ e = Some (default zero_ext ptr))) as (s' & e & He & Hs' & Hor).
  { destruct ptr as [e|]; [exists s, (Some e); auto|].
    erewrite mbind_run by apply alloc_run'.
    exists (set_heap (tl (heap s)) s), (if alloc_ok s then Some zero_ext else None).
    split; [done|]. split; [auto|]. destruct (alloc_ok s); auto. }
  erewrite mbind_run by exact He. destruct Hor as [[-> ->] | ->].
  { exists None, s'. auto. }
  set (e0 := default zero_ext ptr) in *. cbv zeta.
  assert (zlen (bgr e0) = 16) as Hbgr by (destruct ptr as [e'|]; [by apply Hb|done]).
  assert (bgr (p28_head t1 t2 e0) = bgr e0) as -> by done.
  destruct (p28_colors_total row 16 0 2 (Z.shiftr t2 10) (bgr e0)) as (t' & b' & c' & Hc & Hl' & Hres);
    [done|lia..| |done|].
  { destruct Hr2 as [->|Hr2]; [lia|]. change (18 * 2 - (28 + 12 * 0)) with (18 - 10).
    rewrite Z.shiftr_div_pow2 by lia. split; [apply Z.div_pos; lia|apply Z.div_lt_upper_bound; lia]. }
  change (18 * 2 - (28 + 12 * 0)) with 8 in Hc. change (3 + 3 * 2) with 9 in Hc.
  erewrite mbind_run by (rewrite Hc; reflexivity). cbv beta iota.
  case_if.
  - eexists _, s'. split; [reflexivity|]. split; [done|]. right. eexists. split; [done|].
    by destruct e0.
  - eexists _, s'. split; [reflexivity|]. split; [done|]. right. eexists. split; [done|].
    split_and!; [by destruct e0..|by destruct e0|]. intros _ k Hk.
    destruct Hres as [|(_ & _ & Hall)]; [lia|].
    assert (k = 0 \/ k = 1 \/ 2 <= k) as [-> | [-> | Hk2]] by lia.
    + unfold triplet. change (3 + 3 * 0) with 3. rewrite <- Hd1. lia.
    + unfold triplet. change (3 + 3 * 1) with 6. rewrite <- Hd2. lia.
    + apply Hall. lia.
Qed.

(** a packet X/28 or M/29 with an uncorrectable triplet never counts as
    received: either the record stays as it was, or it is marked as not
    received (its colours may then be partly overwritten). *)
Theorem p2829_error_is_not_received row ptr s k :
  row_ok row -> (forall e, ptr = Some e -> zlen (bgr e) = 16) ->
  0 <= k < 13 -> triplet row k = -1 ->
  exists r s', tuxtxt_decode_p2829 row ptr s = Ok (r, s') /\
    (r = ptr \/ exists e, r = Some e /\ p28Received e = false).
Proof.
  intros Hrow Hb Hk He. destruct (decode_p2829_total row ptr s Hrow Hb) as (r & s' & Hrun & _ & Hor).
  exists r, s'. split; [done|]. destruct Hor as [|(e & -> & _ & _ & _ & Hall)]; [by left|right].
  exists e. split; [done|]. destruct (p28Received e); [|done]. specialize (Hall eq_refl k Hk). lia.
Qed.

(** ** At concrete packets *)

(** The thirteen code words of the packet that carries [N]. *)
Definition packet28 (N : Z) : list Z :=
  [0; 0; 0] ++ flat_map (fun k => let w := code24 (field N (18 * k) 18) in [byte_of w 0; byte_of w 1; byte_of w 2])
                 (seqZ 0 13).

Lemma deh24_at_packet28 N (check : forallb (fun k => match deh24_at (packet28 N) (3 + 3 * k) with
    | Ok v => v =? field N (18 * k) 18 | _ => false end) (seqZ 0 13) = true) k :
  0 <= k < 13 -> deh24_at (packet28 N) (3 + 3 * k) = Ok (field N (18 * k) 18).
Proof.
  intros Hk. rewrite forallb_forall in check.
  specialize (check k ltac:(apply list_elem_of_In, elem_of_seqZ; lia)). cbv beta in check.
  destruct (deh24_at _ _); [|done..]. f_equal. lia.
Qed.

Lemma decode_p2829_fields_witness :
  let N := 0x2aaaabbbccc123456789abcdef0123456789abcdef0123456789abcdef in
  exists colors, tuxtxt_decode_p2829 (packet28 N) None start = Ok (Some (ext_of N colors zero_ext), start) /\
    at_ colors 5 = field N 88 12.
Proof.
  intros N.
  destruct (decode_p2829_fields (packet28 N) N None start) as (colors & E & _ & H); [|done|done|].
  - apply deh24_at_packet28. by vm_compute.
  - exists colors. split; [exact E|]. by rewrite H by lia.
Defined.
