(* ===== verification/TxtInv.v ===== *)
(** * The invariant of the teletext cache

    [wf]: the arrays have their declared lengths, what they hold indexes the
    tables they are used on, and every cached page is well formed (its packed
    text is blank or the packing of 920 bytes).  [rel]: what a packet other
    than a header leaves alone.  [safe m s Q]: the code returns from [s], keeps
    both, and establishes [Q].  The lemmas here cover the functions around the
    page table; TxtSafety.v takes them through the thread. *)

From stdpp Require Import gmap.
From S2P Require Import Prelude TxtCode TxtCodeSpec TxtCache TxtThread TxtPageSpec TxtPackSpec TxtP28Spec.

Open Scope Z_scope.

#[local] Opaque pack unpack spaces zero_mask.

(** ** Well-formed data *)

Definition link_ok (q : Z) : Prop := q = 0 \/ dec_in q.

Record ext_ok (e : ExtData) : Prop := mkExtOk {
  ext_p26 : zlen (p26 e) = 16;
  ext_p26_len : Forall (fun o => forall l, o = Some l -> zlen l = 39) (p26 e);
  ext_p27 : forall l, p27 e = Some l -> zlen l = 4;
  ext_bgr : zlen (bgr e) = 16
}.

Record info_ok (i : Pageinfo) : Prop := mkInfoOk {
  info_p24 : forall l, p24 i = Some l -> zlen l = 80;
  info_ext : forall e, ext i = Some e -> ext_ok e
}.

Definition text_ok (pg : CachedPage) : Prop :=
  pData pg = None \/ bitmask pg = zero_mask \/
  exists b, zlen b = TEXT /\ pData pg = Some (snd (pack b)) /\ bitmask pg = fst (pack b).

Record page_ok (pg : CachedPage) : Prop := mkPageOk {
  page_info : info_ok (pageinfo pg);
  page_p0 : zlen (p0 pg) = 24;
  page_text : text_ok pg
}.

Record wf (s : St) : Prop := mkWf {
  wf_flof : zlen (flofpages s) = 0x900 /\ Forall (fun r => zlen r = 4 /\ Forall link_ok r) (flofpages s);
  wf_adip : zlen (adip s) = 0x900 /\ Forall (fun r => zlen r = 13) (adip s);
  wf_subpages : zlen (subpagetable s) = 0x900 /\ Forall (fun v => v = 0xFF \/ 0 <= v < 0x80) (subpagetable s);
  wf_cur : zlen (current_page s) = 9 /\ Forall (fun v => v = -1 \/ in_range v) (current_page s);
  wf_cursub : zlen (current_subpage s) = 9 /\ Forall (fun v => v = -1 \/ 0 <= v < 0x80) (current_subpage s);
  wf_time : zlen (timestring s) = 8;
  wf_p29 : zlen (astP29 s) = 9 /\ Forall (fun o => forall e, o = Some e -> ext_ok e) (astP29 s);
  wf_table : map_Forall (fun k pg => in_range (fst k) /\ 0 <= snd k < 0x80 /\ page_ok pg) (astCachetable s);
  wf_subtitles : zlen (subtitlepages s) = 8;
  wf_pagedata : zlen (pagedata s) = 9 /\ Forall (fun b => zlen b = TEXT) (pagedata s);
  wf_heap : Forall (eq true) (heap s)
}.

Definition present (s : St) (k : Z * Z) : Prop := is_Some (astCachetable s !! k).

Record rel (s s' : St) : Prop := mkRel {
  rel_present : forall k, present s k -> present s' k;
  rel_cur : current_page s' = current_page s;
  rel_cursub : current_subpage s' = current_subpage s;
  rel_page : page s' = page s
}.

#[export] Instance rel_refl : Reflexive rel.
Proof. by constructor. Qed.

#[export] Instance rel_trans : Transitive rel.
Proof. intros a b c [H1 H2 H3 H4] [K1 K2 K3 K4]. constructor; [auto|congruence..]. Qed.

(** ** The logic *)

Definition safe {A} (m : M St A) (s : St) (Q : A -> St -> Prop) : Prop :=
  runs m s (fun a s' => wf s' /\ rel s s' /\ Q a s').

Section logic.
Context {A B : Type}.

Lemma safe_ret (a : A) s (Q : A -> St -> Prop) : wf s -> Q a s -> safe (mret_ a) s Q.
Proof. intros. by apply runs_ret. Qed.

Lemma safe_bind (m : M St A) (k : A -> M St B) s P Q :
  safe m s P -> (forall a s', wf s' -> rel s s' -> P a s' -> safe (k a) s' Q) -> safe (mbind_ m k) s Q.
Proof.
  intros Hm Hk. eapply runs_bind; [exact Hm|]. intros a s' (Hw & Hr & Hp).
  destruct (Hk a s' Hw Hr Hp) as (b & s'' & He & Hw' & Hr' & Hq).
  exists b, s''. split; [done|]. split; [done|]. split; [by etransitivity|done].
Qed.

Lemma safe_weaken (m : M St A) s (P Q : A -> St -> Prop) :
  safe m s P -> (forall a s', wf s' -> rel s s' -> P a s' -> Q a s') -> safe m s Q.
Proof. intros Hm HQ. eapply runs_weaken; [exact Hm|]. intros a s' (H1 & H2 & H3). auto. Qed.

Lemma safe_get (k : St -> M St A) s Q : safe (k s) s Q -> safe (mbind_ mget k) s Q.
Proof. done. Qed.

Lemma safe_lift (r : res B) (k : B -> M St A) s Q b : r = Ok b -> safe (k b) s Q -> safe (mbind_ (mlift r) k) s Q.
Proof. intros -> H. done. Qed.

(** A change of state that keeps the invariant. *)
Lemma safe_put s' (k : unit -> M St A) s Q : rel s s' -> safe (k tt) s' Q -> safe (mbind_ (mput s') k) s Q.
Proof.
  intros Hr (a & s'' & He & Hw & Hr' & Hq). exists a, s''. split; [done|]. split; [done|].
  split; [by etransitivity|done].
Qed.

Lemma safe_put_end s' s (Q : unit -> St -> Prop) : rel s s' -> wf s' -> Q tt s' -> safe (mput s') s Q.
Proof. intros. by exists tt, s'. Qed.

Lemma safe_modify (f : St -> St) (k : unit -> M St A) s Q :
  rel s (f s) -> safe (k tt) (f s) Q -> safe (mbind_ (mmodify f) k) s Q.
Proof. apply (safe_put (f s)). Qed.

Lemma safe_modify_end (f : St -> St) s (Q : unit -> St -> Prop) :
  rel s (f s) -> wf (f s) -> Q tt (f s) -> safe (mmodify f) s Q.
Proof. apply (safe_put_end (f s)). Qed.
End logic.

(** ** Arrays *)

Lemma idx_Forall {A} (P : A -> Prop) l i : Forall P l -> 0 <= i < zlen l -> exists a, idx l i = Ok a /\ P a.
Proof.
  intros Hf Hi. destruct (idx_ok l i Hi) as (a & He & Hl). exists a. split; [done|].
  by eapply Forall_lookup_1.
Qed.

Lemma upd_Forall {A} (P : A -> Prop) l i a : Forall P l -> P a -> 0 <= i < zlen l ->
  exists l', upd l i a = Ok l' /\ zlen l' = zlen l /\ Forall P l'.
Proof.
  intros Hf Ha Hi. exists (<[Z.to_nat i := a]> l). rewrite upd_ok, zlen_insert by done.
  split_and!; [done|done|]. by apply Forall_insert.
Qed.

(** ** The fields of the invariant, one update each *)

Ltac wf_set := intros; repeat match goal with H : wf _ |- _ => destruct H end; constructor; cbn; auto.

Lemma wf_set_flofpages v s : wf s -> zlen v = 0x900 ->
  Forall (fun r => zlen r = 4 /\ Forall link_ok r) v -> wf (set_flofpages v s).
Proof. wf_set. Qed.
Lemma wf_set_adip v s : wf s -> zlen v = 0x900 -> Forall (fun r => zlen r = 13) v -> wf (set_adip v s).
Proof. wf_set. Qed.
Lemma wf_set_subpagetable v s : wf s -> zlen v = 0x900 -> Forall (fun v => v = 0xFF \/ 0 <= v < 0x80) v ->
  wf (set_subpagetable v s).
Proof. wf_set. Qed.
Lemma wf_set_current_page v s : wf s -> zlen v = 9 -> Forall (fun v => v = -1 \/ in_range v) v ->
  wf (set_current_page v s).
Proof. wf_set. Qed.
Lemma wf_set_current_subpage v s : wf s -> zlen v = 9 -> Forall (fun v => v = -1 \/ 0 <= v < 0x80) v ->
  wf (set_current_subpage v s).
Proof. wf_set. Qed.
Lemma wf_set_timestring v s : wf s -> zlen v = 8 -> wf (set_timestring v s).
Proof. wf_set. Qed.
Lemma wf_set_astP29 v s : wf s -> zlen v = 9 -> Forall (fun o => forall e, o = Some e -> ext_ok e) v ->
  wf (set_astP29 v s).
Proof. wf_set. Qed.
Lemma wf_set_subtitlepages v s : wf s -> zlen v = 8 -> wf (set_subtitlepages v s).
Proof. wf_set. Qed.
Lemma wf_set_pagedata v s : wf s -> zlen v = 9 -> Forall (fun b => zlen b = TEXT) v -> wf (set_pagedata v s).
Proof. wf_set. Qed.
Lemma wf_set_heap v s : wf s -> Forall (eq true) v -> wf (set_heap v s).
Proof. wf_set. Qed.
Lemma wf_set_cached_pages v s : wf s -> wf (set_cached_pages v s).
Proof. wf_set. Qed.
Lemma wf_set_subpage v s : wf s -> wf (set_subpage v s).
Proof. wf_set. Qed.
Lemma wf_set_pageupdate v s : wf s -> wf (set_pageupdate v s).
Proof. wf_set. Qed.
Lemma wf_set_page_receiving v s : wf s -> wf (set_page_receiving v s).
Proof. wf_set. Qed.
Lemma wf_set_doupdate v s : wf s -> wf (set_doupdate v s).
Proof. wf_set. Qed.
Lemma wf_set_page k pg s : wf s -> in_range (fst k) -> 0 <= snd k < 0x80 -> page_ok pg ->
  wf (set_astCachetable (<[k := pg]> (astCachetable s)) s).
Proof. wf_set. by apply map_Forall_insert_2. Qed.

Create HintDb txt.
#[export] Hint Resolve wf_set_flofpages wf_set_adip wf_set_subpagetable wf_set_current_page
  wf_set_current_subpage wf_set_timestring wf_set_astP29 wf_set_subtitlepages wf_set_pagedata
  wf_set_heap wf_set_cached_pages wf_set_subpage wf_set_pageupdate wf_set_page_receiving
  wf_set_doupdate wf_set_page : txt.

(** A change that touches neither the table nor the current pages. *)
Ltac rel_set := by constructor.

Lemma rel_insert k pg s : rel s (set_astCachetable (<[k := pg]> (astCachetable s)) s).
Proof.
  constructor; [|done..]. intros k' Hk. unfold present. cbn.
  destruct (decide (k = k')) as [->|]; [by rewrite lookup_insert_eq|by rewrite lookup_insert_ne].
Qed.
Lemma rel_set_heap h s s' : rel s s' -> rel s (set_heap h s').
Proof. intros []; by constructor. Qed.
#[export] Hint Resolve rel_insert rel_set_heap : txt.

(** ** The page table *)

Lemma wf_page s p sp pg : wf s -> astCachetable s !! (p, sp) = Some pg ->
  in_range p /\ 0 <= sp < 0x80 /\ page_ok pg.
Proof. intros Hw Hg. apply (wf_table s Hw (p, sp) pg Hg). Qed.

Lemma safe_page_at {A} s p sp (k : option CachedPage -> M St A) Q :
  wf s -> 0 <= p < 0x900 -> 0 <= sp < 0x80 ->
  safe (k (astCachetable s !! (p, sp))) s Q -> safe (mbind_ (page_at p sp) k) s Q.
Proof. intros Hw Hp Hs H. unfold safe, runs. by rewrite (mbind_run _ _ _ _ _ (page_at_run s p sp Hp Hs)). Qed.

(** The pointer of a page that is there. *)
Lemma safe_page_at_present {A} s p sp (k : option CachedPage -> M St A) Q :
  wf s -> present s (p, sp) ->
  (forall pg, astCachetable s !! (p, sp) = Some pg -> in_range p -> 0 <= sp < 0x80 -> page_ok pg ->
     safe (k (Some pg)) s Q) ->
  safe (mbind_ (page_at p sp) k) s Q.
Proof.
  intros Hw [pg Hg] H. destruct (wf_page s p sp pg Hw Hg) as (Hp & Hs & Hok). unfold in_range in Hp.
  apply safe_page_at; [done|lia|done|]. rewrite Hg. by apply H.
Qed.

Lemma safe_page_mod s p sp f :
  wf s -> present s (p, sp) -> (forall pg, page_ok pg -> page_ok (f pg)) ->
  safe (page_mod p sp f) s (fun _ s' =>
    exists pg, astCachetable s !! (p, sp) = Some pg /\
      s' = set_astCachetable (<[(p, sp) := f pg]> (astCachetable s)) s).
Proof.
  intros Hw [pg Hg] Hf. destruct (wf_page s p sp pg Hw Hg) as (Hp & Hs & Hok). unfold in_range in Hp.
  eexists tt, _. split; [eapply page_mod_run; done || lia|].
  split; [apply wf_set_page; auto; unfold in_range; cbn; lia|]. split; [apply rel_insert|eauto].
Qed.

Lemma page_ok_info f pg : page_ok pg -> (info_ok (pageinfo pg) -> info_ok (f (pageinfo pg))) ->
  page_ok (set_pageinfo (f (pageinfo pg)) pg).
Proof. intros [Hi Hp Ht] Hf. constructor; [by apply Hf|done|done]. Qed.

Lemma safe_info_mod s p sp f :
  wf s -> present s (p, sp) -> (forall i, info_ok i -> info_ok (f i)) ->
  safe (info_mod p sp f) s (fun _ s' =>
    exists pg, astCachetable s !! (p, sp) = Some pg /\
      s' = set_astCachetable (<[(p, sp) := set_pageinfo (f (pageinfo pg)) pg]> (astCachetable s)) s).
Proof. intros Hw Hp Hf. apply safe_page_mod; [done|done|]. intros pg Hok. by apply page_ok_info; auto. Qed.

Lemma alloc_ok_true s : wf s -> alloc_ok s = true.
Proof.
  intros [_ _ _ _ _ _ _ _ _ _ Hh]. unfold alloc_ok. destruct (heap s) as [|b l]; [done|].
  apply Forall_cons_1 in Hh as [<- _]. done.
Qed.

Lemma safe_alloc s : wf s -> safe alloc s (fun b s' => b = true /\ s' = set_heap (tl (heap s)) s).
Proof.
  intros Hw. eexists _, _. split; [apply alloc_run'|]. rewrite alloc_ok_true by done.
  split; [|by split; [rel_set|]]. apply wf_set_heap; [done|].
  destruct Hw as [_ _ _ _ _ _ _ _ _ _ Hh]. destruct (heap s); [done|by apply Forall_cons_1 in Hh as [_ ?]].
Qed.

(** ** Packing *)

Lemma safe_compress s p sp b : wf s -> 0 <= p < 0x900 -> 0 <= sp < 0x80 -> zlen b = TEXT ->
  safe (tuxtxt_compress_page p sp b) s (fun _ s' => pagedata s' = pagedata s).
Proof.
  intros Hw Hp Hs Hb. destruct (astCachetable s !! (p, sp)) as [pg|] eqn:Hg.
  - destruct (wf_page s p sp pg Hw Hg) as (Hr & _ & [Hi Hp0 _]).
    eexists tt, _. split; [by eapply compress_run|]. rewrite alloc_ok_true by done.
    unfold compressed. split; [|split; [|done]].
    + apply wf_set_heap; [apply wf_set_page; auto|].
      * constructor; [done|done|]. right. right. exists b. done.
      * destruct Hw as [_ _ _ _ _ _ _ _ _ _ Hh]. cbn.
        destruct (heap s); [done|by apply Forall_cons_1 in Hh as [_ ?]].
    + apply rel_set_heap, rel_insert.
  - unfold tuxtxt_compress_page. apply safe_page_at; [done..|]. rewrite Hg. by apply safe_ret.
Qed.

Lemma zlen_spaces : zlen spaces = TEXT.
Proof. Transparent spaces. unfold spaces. by rewrite zlen_replicate. Qed.

Lemma text_ok_unpack pg data : text_ok pg -> pData pg = Some data ->
  exists b, unpack (bitmask pg) data = Ok b /\ zlen b = TEXT.
Proof.
  intros [H|[H|(b & Hl & Hd & Hm)]] Hp.
  - congruence.
  - rewrite H, unpack_zero_mask. exists spaces. split; [done|apply zlen_spaces].
  - rewrite Hp in Hd. apply (inj Some) in Hd as ->. rewrite Hm, unpack_pack by done. by exists b.
Qed.

Lemma safe_decompress s p sp : wf s -> 0 <= p < 0x900 -> 0 <= sp < 0x80 ->
  safe (tuxtxt_decompress_page p sp) s (fun b s' => zlen b = TEXT /\ s' = s).
Proof.
  intros Hw Hp Hs. unfold tuxtxt_decompress_page. apply safe_page_at; [done..|].
  pose proof zlen_spaces.
  destruct (astCachetable s !! (p, sp)) as [pg|] eqn:Hg; [|by apply safe_ret; auto].
  destruct (pData pg) as [data|] eqn:Hd; [|by apply safe_ret; auto].
  destruct (wf_page s p sp pg Hw Hg) as (_ & _ & [_ _ Ht]).
  destruct (text_ok_unpack pg data Ht Hd) as (b & -> & Hl). exists b, s. done.
Qed.
