(* ===== verification/TxtSafety.v ===== *)
(** * The thread never leaves its tables

    Whatever bytes arrive, the thread keeps the invariant of TxtInv.v and never
    reads or writes outside an array or through a null pointer, as long as
    memory lasts.  The invariant has one more part here ([curr]): the current
    page of every magazine is in the table. *)

From stdpp Require Import gmap.
From S2P Require Import Prelude TxtCode TxtCodeSpec TxtCache TxtThread TxtPageSpec TxtPackSpec TxtP28Spec TxtInv.

Open Scope Z_scope.

#[local] Opaque pack unpack spaces zero_mask seqZ.

Definition curr (s : St) : Prop :=
  forall m p sp, 1 <= m <= 8 -> current_page s !! Z.to_nat m = Some p ->
    current_subpage s !! Z.to_nat m = Some sp -> p <> -1 -> sp <> -1 -> present s (p, sp).

Lemma curr_rel s s' : curr s -> rel s s' -> curr s'.
Proof.
  intros Hc [Hp H1 H2 _] m p sp Hm. rewrite H1, H2. intros. eapply Hp, Hc; eauto.
Qed.

(** ** Reads of the row *)

Lemma dh_range row i : row_ok row -> 0 <= i < 42 -> dh row i = 0xFF \/ 0 <= dh row i < 16.
Proof. intros [Hl Hb] Hi. apply dehamming_range, bytes_at; [done|lia]. Qed.

(** ** The current page *)

Lemma safe_cur s m : wf s -> 0 <= m < 9 ->
  safe (cur m) s (fun k s' => s' = s /\ current_page s !! Z.to_nat m = Some (fst k) /\
    current_subpage s !! Z.to_nat m = Some (snd k) /\
    (fst k = -1 \/ in_range (fst k)) /\ (snd k = -1 \/ 0 <= snd k < 0x80)).
Proof.
  intros Hw Hm. destruct (wf_cur s Hw) as [L1 F1]. destruct (wf_cursub s Hw) as [L2 F2].
  destruct (idx_ok (current_page s) m) as (p & Hp & Lp); [lia|].
  destruct (idx_ok (current_subpage s) m) as (sp & Hs & Ls); [lia|].
  unfold cur. apply safe_get. eapply safe_lift; [exact Hp|]. eapply safe_lift; [exact Hs|].
  apply safe_ret; [done|]. cbn. split_and!; [done..| |].
  - apply (Forall_lookup_1 _ _ _ _ F1 Lp).
  - apply (Forall_lookup_1 _ _ _ _ F2 Ls).
Qed.

Lemma safe_get_pagedata s m : wf s -> 0 <= m < 9 ->
  safe (get_pagedata m) s (fun b s' => s' = s /\ zlen b = TEXT).
Proof.
  intros Hw Hm. destruct (wf_pagedata s Hw) as [L F].
  destruct (idx_Forall _ _ m F) as (b & Hb & Hl); [lia|].
  unfold get_pagedata. apply safe_get. exists b, s. rewrite Hb. done.
Qed.

Lemma safe_put_pagedata s m b : wf s -> 0 <= m < 9 -> zlen b = TEXT ->
  safe (put_pagedata m b) s (fun _ s' =>
    astCachetable s' = astCachetable s /\ pagedata s' = <[Z.to_nat m := b]> (pagedata s)).
Proof.
  intros Hw Hm Hb. destruct (wf_pagedata s Hw) as [L F].
  unfold put_pagedata. apply safe_get. eapply safe_lift; [apply upd_ok; lia|].
  apply safe_put_end; [rel_set| |done].
  apply wf_set_pagedata; [done|by rewrite zlen_insert|by apply Forall_insert].
Qed.

Lemma safe_compress_current s m : wf s -> curr s -> 1 <= m <= 8 ->
  (forall k, current_page s !! Z.to_nat m = Some (fst k) -> current_subpage s !! Z.to_nat m = Some (snd k) ->
     fst k <> -1 /\ snd k <> -1) ->
  safe (compress_current m) s (fun _ s' => pagedata s' = pagedata s).
Proof.
  intros Hw Hc Hm Hne. unfold compress_current.
  eapply safe_bind; [apply safe_cur; [done|lia]|]. intros k s' Hw' _ (-> & L1 & L2 & Hp & Hs).
  destruct (Hne k L1 L2). eapply safe_bind; [apply safe_get_pagedata; [done|lia]|].
  intros b s' _ _ (-> & Hb). unfold in_range in Hp. apply safe_compress; [done|lia..|done].
Qed.

(** ** Page headers *)

Lemma subtitle_slot_range l pg : forall i use, -1 <= use < i -> 0 <= i ->
  -1 <= fst (subtitle_slot l pg i use) < i + zlen l.
Proof.
  induction l as [|[q lang] l IH]; intros i use Hu Hi; cbn [subtitle_slot]; [rewrite zlen_nil; cbn; lia|].
  rewrite zlen_cons. pose proof (zlen_nonneg l).
  case_if; [|case_if; [cbn; lia|]].
  - specialize (IH (i + 1) i ltac:(lia) ltac:(lia)). lia.
  - specialize (IH (i + 1) use ltac:(lia) ltac:(lia)). lia.
Qed.

Lemma safe_note_subtitle s pg lang : wf s ->
  safe (note_subtitle pg lang) s (fun _ s' =>
    astCachetable s' = astCachetable s /\ pagedata s' = pagedata s).
Proof.
  intros Hw. unfold note_subtitle. apply safe_get. pose proof (wf_subtitles s Hw) as Hl.
  pose proof (subtitle_slot_range (subtitlepages s) pg 0 (-1) ltac:(lia) ltac:(lia)) as Hr.
  destruct (subtitle_slot (subtitlepages s) pg 0 (-1)) as [use found]. cbn [fst] in Hr.
  case_if; [by apply safe_ret|].
  destruct (idx_ok (subtitlepages s) use) as (e & He & _); [lia|].
  eapply safe_lift; [exact He|]. eapply safe_lift; [apply upd_ok; lia|].
  apply safe_put_end; [rel_set| |done]. apply wf_set_subtitlepages; [done|by rewrite zlen_insert].
Qed.

Lemma info_ok_function v i : info_ok i -> info_ok (set_function v i).
Proof. intros []; by constructor. Qed.
Lemma info_ok_boxed v i : info_ok i -> info_ok (set_boxed v i).
Proof. intros []; by constructor. Qed.
Lemma info_ok_national v w i : info_ok i -> info_ok (set_national v (set_nationalvalid w i)).
Proof. intros []; by constructor. Qed.
Lemma info_ok_p24 l i : info_ok i -> zlen l = 80 -> info_ok (set_p24 (Some l) i).
Proof. intros [_ He] Hl. constructor; [by intros ? [= <-]|done]. Qed.
Lemma info_ok_ext o i : info_ok i -> (forall e, o = Some e -> ext_ok e) -> info_ok (set_ext o i).
Proof. intros [Hp _] He. by constructor. Qed.
#[local] Hint Resolve info_ok_function info_ok_boxed info_ok_national info_ok_p24 info_ok_ext : txt.

Lemma page_ok_p0 v pg : zlen v = 24 -> page_ok pg -> page_ok (set_p0 v pg).
Proof. intros Hv [Hi _ Ht]; by constructor. Qed.
Lemma page_ok_blank pg : page_ok pg -> page_ok (set_bitmask zero_mask pg).
Proof. intros [Hi Hp _]. constructor; [done..|]. right. by left. Qed.
#[local] Hint Resolve page_ok_p0 page_ok_blank : txt.

(** A step that may be skipped; the page stays. *)
Lemma safe_if {A} (b : bool) (m : M St A) (k : M St A) s Q :
  (b = true -> safe m s Q) -> (b = false -> safe k s Q) -> safe (if b then m else k) s Q.
Proof. destruct b; auto. Qed.

Lemma zlen_map {A B} (f : A -> B) l : zlen (map f l) = zlen l.
Proof. unfold zlen. by rewrite length_map. Qed.

Lemma zlen_seqZ m n : 0 <= n -> zlen (seqZ m n) = n.
Proof. intros. unfold zlen. rewrite length_seqZ. lia. Qed.

Lemma safe_header_controls s m row p sp : wf s -> 0 <= m < 9 -> present s (p, sp) ->
  safe (header_controls m row p sp) s (fun _ s' =>
    pagedata s' = if negb (Z.land (dh row 5) 8 =? 0) then <[Z.to_nat m := spaces]> (pagedata s)
                  else pagedata s).
Proof.
  intros Hw Hm Hp. unfold header_controls.
  apply safe_page_at_present; [done..|]. intros pg Hg Hr Hs Hok.
  assert (forall s', rel s s' -> present s' (p, sp)) as Hstay by (intros s' [H _ _ _]; auto).
  eapply (safe_bind _ _ _ (fun _ s' => pagedata s' = pagedata s)).
  { apply safe_if; intros _; [|by apply safe_ret].
    eapply safe_weaken; [apply safe_info_mod; auto with txt|]. by intros ? s' _ _ (? & _ & ->). }
  intros ? s1 Hw1 R1 B1. eapply (safe_bind _ _ _ (fun _ s' => pagedata s' =
    if negb (Z.land (dh row 5) 8 =? 0) then <[Z.to_nat m := spaces]> (pagedata s) else pagedata s)).
  { case_if; [|by apply safe_ret].
    eapply safe_bind; [apply safe_page_mod; auto with txt|]. intros ? s' Hw' R' (pg' & _ & ->).
    eapply safe_weaken; [apply safe_put_pagedata; [done|lia|apply zlen_spaces]|].
    intros ? s' _ _ [_ Hd]. rewrite Hd. cbn. by rewrite B1. }
  intros ? s2 Hw2 R2 B2. cbv beta in B2. rewrite <- B2. clear B2.
  eapply (safe_bind _ _ _ (fun _ s' => pagedata s' = pagedata s2)).
  { apply safe_if; intros _; [|by apply safe_ret].
    apply safe_modify_end; [rel_set|by apply wf_set_doupdate|done]. }
  intros ? s3 Hw3 R3 B3. assert (rel s s3) as R by (do 2 (etransitivity; [eassumption|]); done).
  eapply safe_bind; [apply safe_info_mod; auto with txt|]. intros ? s4 Hw4 R4 (pg4 & _ & B4).
  assert (pagedata s4 = pagedata s2) as B4' by (by rewrite B4).
  eapply (safe_bind _ _ _ (fun _ s' => pagedata s' = pagedata s2)).
  { apply safe_if; intros _; [by apply safe_ret|].
    eapply safe_weaken; [apply safe_info_mod|]; [done| |auto with txt|].
    - apply Hstay. by etransitivity.
    - by intros ? s' _ _ (? & _ & ->). }
  intros ? s5 Hw5 R5 B5. assert (rel s s5) as Rs5 by (do 2 (etransitivity; [eassumption|]); done).
  eapply (safe_bind _ _ _ (fun _ s' => pagedata s' = pagedata s2)).
  { apply safe_if; intros _; [|by apply safe_ret].
    apply safe_page_at_present; [done|by apply Hstay|]. intros pg' _ _ _ _.
    eapply safe_weaken; [by apply safe_note_subtitle|]. intros ? s' _ _ [_ Hd]. cbv beta in B5. congruence. }
  intros ? s6 Hw6 R6 B6. eapply safe_weaken; [apply safe_page_mod|]; [done| | |].
  - apply Hstay. by etransitivity.
  - intros pg' Hpg. apply page_ok_p0; [|done]. rewrite zlen_map. by apply zlen_seqZ.
  - intros ? s' _ _ (? & _ & ->). exact B6.
Qed.

(** ** Allocation *)

Lemma page_ok_erased pg : page_ok (erased (set_pData None pg)).
Proof. constructor; [by constructor|done|by left]. Qed.

Lemma table_set t s : astCachetable (set_astCachetable t s) = t.
Proof. done. Qed.

(** A page that is not in the table is put there, blank. *)
Lemma allocate_run s m p sp : idx (current_page s) m = Ok p -> idx (current_subpage s) m = Ok sp ->
  0 <= p < 0x900 -> 0 <= sp < 0x80 -> astCachetable s !! (p, sp) = None ->
  tuxtxt_allocate_cache m s =
  if alloc_ok s
  then Ok (tt, set_cached_pages (cached_pages s + 1)
         (set_astCachetable (<[(p, sp) := erased (set_pData None (junk s))]> (astCachetable s))
           (set_heap (tl (heap s)) s)))
  else Ok (tt, set_heap (tl (heap s)) s).
Proof.
  intros H1 H2 Hp Hs Hg. unfold tuxtxt_allocate_cache. mrun. rewrite H1. mrun. rewrite H2. mrun.
  erewrite mbind_run by by apply page_at_run. rewrite Hg. cbv beta.
  erewrite mbind_run by apply alloc_run'. case_if; [|done]. mrun.
  unfold tuxtxt_erase_page. mrun. cbn [current_page current_subpage set_astCachetable set_heap].
  change (current_page (set_astCachetable _ _)) with (current_page s). rewrite H1. mrun.
  change (current_subpage (set_astCachetable _ _)) with (current_subpage s). rewrite H2. mrun.
  erewrite mbind_run by by apply page_at_run.
  rewrite table_set, lookup_insert_eq.
  erewrite mbind_run by (eapply page_mod_run; [done|done|rewrite table_set; apply lookup_insert_eq]).
  unfold mmodify. destruct s. cbn -[erased]. by rewrite insert_insert_eq.
Qed.

Lemma safe_allocate s m p sp : wf s -> idx (current_page s) m = Ok p -> idx (current_subpage s) m = Ok sp ->
  in_range p -> 0 <= sp < 0x80 ->
  safe (tuxtxt_allocate_cache m) s (fun _ s' => present s' (p, sp)).
Proof.
  intros Hw H1 H2 Hr Hs. unfold in_range in Hr. destruct (astCachetable s !! (p, sp)) as [pg|] eqn:Hg.
  - unfold tuxtxt_allocate_cache. apply safe_get. eapply safe_lift; [exact H1|]. eapply safe_lift; [exact H2|].
    apply safe_page_at; [done|lia..|]. rewrite Hg. apply safe_ret; [done|]. by exists pg.
  - eexists tt, _. split.
    { rewrite (allocate_run s m p sp) by (done || lia). rewrite alloc_ok_true by done. reflexivity. }
    split; [|split].
    + apply wf_set_cached_pages.
      assert (wf (set_heap (tl (heap s)) s)) as Hh by (destruct (safe_alloc s Hw) as (? & ? & _ & ? & _ & _ & ->); done).
      apply (wf_set_page (p, sp) _ _ Hh); [done..|apply page_ok_erased].
    + constructor; [|done..]. intros k Hk. unfold present. cbn.
      destruct (decide ((p, sp) = k)) as [->|]; [by rewrite lookup_insert_eq|by rewrite lookup_insert_ne].
    + unfold present. cbn. by rewrite lookup_insert_eq.
Qed.

(** ** Packet 0 *)

Lemma curr_update s s' m : curr s -> (forall k, present s k -> present s' k) ->
  (forall m', m' <> m -> current_page s' !! m' = current_page s !! m' /\
                         current_subpage s' !! m' = current_subpage s !! m') ->
  (forall p sp, current_page s' !! m = Some p -> current_subpage s' !! m = Some sp ->
     p = -1 \/ sp = -1 \/ present s' (p, sp)) -> curr s'.
Proof.
  intros Hc Hp Hother Hm m' p sp Hr L1 L2 N1 N2.
  destruct (decide (Z.to_nat m' = m)) as [He|Hn].
  - rewrite He in L1, L2. destruct (Hm p sp L1 L2) as [|[|]]; done.
  - destruct (Hother _ Hn) as [E1 E2]. rewrite E1 in L1. rewrite E2 in L2. eapply Hp, Hc; eauto.
Qed.

Lemma put_current_page_run s m v : 0 <= m < zlen (current_page s) ->
  put_current_page m v s = Ok (tt, set_current_page (<[Z.to_nat m := v]> (current_page s)) s).
Proof. intros Hm. unfold put_current_page. mrun. by rewrite upd_ok. Qed.

Lemma put_current_subpage_run s m v : 0 <= m < zlen (current_subpage s) ->
  put_current_subpage m v s = Ok (tt, set_current_subpage (<[Z.to_nat m := v]> (current_subpage s)) s).
Proof. intros Hm. unfold put_current_subpage. mrun. by rewrite upd_ok. Qed.

Lemma page_number_range m b2 b3 : 1 <= m <= 8 -> 0 <= b2 < 16 -> 0 <= b3 < 16 ->
  Z.lor (Z.lor (Z.shiftl m 8) (Z.shiftl b2 4)) b3 = m * 256 + b2 * 16 + b3.
Proof.
  intros Hm H2 H3.
  rewrite Z.shiftl_mul_pow2, <- Z.lor_assoc by lia.
  assert (Z.lor (Z.shiftl b2 4) b3 = b2 * 16 + b3) as -> by (by rewrite lor_shiftl_add by lia).
  rewrite <- Z.shiftl_mul_pow2, lor_shiftl_add by lia. lia.
Qed.

Lemma subpage_range b3 b4 : 0 <= b4 < 16 -> 0 <= Z.lor (Z.shiftl (Z.land b3 7) 4) b4 < 0x80.
Proof.
  intros H4. change 7 with (Z.ones 3). rewrite Z.land_ones by lia.
  pose proof (Z.mod_pos_bound b3 (2 ^ 3) ltac:(lia)). rewrite lor_shiftl_add by lia. lia.
Qed.

(** A header with an error, or one for page ?ff: the magazine has no page. *)
Lemma curr_no_page s m p : curr s -> wf s -> 1 <= m <= 8 -> p = -1 \/ in_range p ->
  let s1 := set_current_page (<[Z.to_nat m := p]> (current_page s)) s in
  wf s1 /\ (p = -1 -> curr s1) /\
  let s2 := set_current_subpage (<[Z.to_nat m := -1]> (current_subpage s1)) s1 in wf s2 /\ curr s2.
Proof.
  intros Hc Hw Hm Hp. destruct (wf_cur s Hw) as [L1 F1]. destruct (wf_cursub s Hw) as [L2 F2]. cbv zeta.
  assert (wf (set_current_page (<[Z.to_nat m := p]> (current_page s)) s)) as Hw1.
  { apply wf_set_current_page; [done|by rewrite zlen_insert|]. by apply Forall_insert. }
  split_and!; [done| | |].
  - intros ->. apply (curr_update s _ (Z.to_nat m)); [done|done| |].
    + intros m' Hn. cbn. by rewrite list_lookup_insert_ne by done.
    + intros q sp Hq _. cbn in Hq. rewrite list_lookup_insert_eq in Hq by (unfold zlen in L1; lia).
      left. congruence.
  - apply wf_set_current_subpage; [done|cbn; by rewrite zlen_insert|]. apply Forall_insert; [done|by left].
  - apply (curr_update s _ (Z.to_nat m)); [done|done| |].
    + intros m' Hn. cbn. by rewrite !list_lookup_insert_ne by done.
    + intros q sp _ Hsp. cbn in Hsp. rewrite list_lookup_insert_eq in Hsp by (unfold zlen in L2; lia).
      right. left. congruence.
Qed.

Lemma curr_ext s s' : curr s -> current_page s' = current_page s -> current_subpage s' = current_subpage s ->
  astCachetable s' = astCachetable s -> curr s'.
Proof. intros Hc H1 H2 H3. unfold curr, present. rewrite H1, H2, H3. exact Hc. Qed.

Lemma runs_run {A B} (m : M St A) (k : A -> M St B) s a s1 Q :
  m s = Ok (a, s1) -> runs (k a) s1 Q -> runs (mbind_ m k) s Q.
Proof. intros H Hk. unfold runs. by rewrite (mbind_run _ _ _ _ _ H). Qed.

(** The page that a header without errors announces. *)
Definition header_key (m : Z) (row : list Z) : option (Z * Z) :=
  if (dh row 3 =? 0xFF) || (dh row 2 =? 0xFF) then None
  else if (dh row 3 =? 0x0f) && (dh row 2 =? 0x0f) then None
  else if (dh row 7 =? 0xFF) || (dh row 6 =? 0xFF) || (dh row 5 =? 0xFF) || (dh row 4 =? 0xFF) then None
  else
    let p := m * 256 + dh row 3 * 16 + dh row 2 in
    Some (p, if tuxtxt_is_dec p then Z.lor (Z.shiftl (Z.land (dh row 5) 7) 4) (dh row 4) else dh row 4).

(** The header's erase bit. *)
Definition erases (row : list Z) : bool := negb (Z.land (dh row 5) 8 =? 0).

Definition header_post (m : Z) (row : list Z) (s' : St) : Prop :=
  match header_key m row with
  | Some (p, sp) =>
      current_page s' !! Z.to_nat m = Some p /\ current_subpage s' !! Z.to_nat m = Some sp /\
      (erases row = true -> pagedata s' !! Z.to_nat m = Some spaces)
  | None => True
  end.

Lemma packet_0_safe s m row : wf s -> curr s -> row_ok row -> 1 <= m <= 8 ->
  runs (packet_0 m row) s (fun _ s' => wf s' /\ curr s' /\ page s' = page s /\ header_post m row s').
Proof.
  intros Hw Hc Hrow Hm. pose proof (wf_cur s Hw) as [L1 F1]. pose proof (wf_cursub s Hw) as [L2 F2].
  pose proof (dh_range row 3 Hrow ltac:(lia)) as D3. pose proof (dh_range row 2 Hrow ltac:(lia)) as D2.
  unfold packet_0, header_post, header_key. case_if.
  { eapply runs_run; [reflexivity|]. eapply runs_run; [apply put_current_page_run; cbn; lia|].
    apply runs_ret.
    destruct (curr_no_page (set_page_receiving (-1) s) m (-1)) as (Hw1 & Hc1 & _);
      [done|by apply wf_set_page_receiving|done|by left|].
    split; [exact Hw1|by split_and!; [apply Hc1|..]]. }
  rewrite page_number_range by lia. cbv zeta. set (p := m * 256 + dh row 3 * 16 + dh row 2).
  assert (in_range p) as Hp by (unfold in_range, p; lia). cbv zeta. eapply runs_run; [reflexivity|].
  eapply runs_run; [apply put_current_page_run; cbn; lia|].
  assert (wf (set_page_receiving p s)) as Hwr by by apply wf_set_page_receiving.
  assert (curr (set_page_receiving p s)) as Hcr by done.
  destruct (curr_no_page (set_page_receiving p s) m p Hcr Hwr Hm ltac:(by right)) as (Hw1 & _ & Hw2 & Hc2).
  set (s1 := set_current_page _ (set_page_receiving p s)) in *.
  assert (forall v, put_current_subpage m v s1 =
    Ok (tt, set_current_subpage (<[Z.to_nat m := v]> (current_subpage s1)) s1)) as Hput.
  { intros v. apply put_current_subpage_run. cbn. lia. }
  case_if.
  { eapply runs_run; [apply Hput|]. by apply runs_ret. }
  pose proof (dh_range row 4 Hrow ltac:(lia)) as D4.
  case_if.
  { eapply runs_run; [apply Hput|]. by apply runs_ret. }
  set (sp := if tuxtxt_is_dec p then _ else _).
  assert (0 <= sp < 0x80) as Hsp.
  { unfold sp. case_if; [apply subpage_range|]; lia. }
  eapply runs_run; [apply Hput|]. set (s2 := set_current_subpage _ s1).
  assert (wf s2) as Hws2.
  { apply wf_set_current_subpage; [done|cbn; by rewrite zlen_insert|]. cbn.
    apply Forall_insert; [done|by right]. }
  destruct (wf_subpages s2 Hws2) as [Ls Fs]. unfold in_range in Hp.
  eapply runs_run; [reflexivity|]. eapply runs_run; [by rewrite upd_ok by lia|]. eapply runs_run; [reflexivity|].
  set (s3 := set_subpagetable (<[Z.to_nat p := sp]> (subpagetable s2)) s2).
  assert (wf s3) as Hws3.
  { apply wf_set_subpagetable; [done|by rewrite zlen_insert|]. apply Forall_insert; [done|lia]. }
  assert (idx (current_page s3) m = Ok p /\ idx (current_subpage s3) m = Ok sp) as [I1 I2].
  { unfold idx. cbn. rewrite !list_lookup_insert_eq by (unfold zlen in *; lia).
    by replace (0 <=? m) with true by lia. }
  (* the rest keeps the current pages *)
  eapply (runs_weaken _ _ (fun _ s' => wf s' /\ rel s3 s' /\ present s' (p, sp) /\
    (erases row = true -> pagedata s' !! Z.to_nat m = Some spaces))).
  { fold s3. eapply safe_bind; [by apply (safe_allocate s3 m p sp)|]. intros [] s4 Hw4 R4 P4. cbv beta in P4.
    assert (forall s', rel s4 s' -> present s' (p, sp)) as Hstay by (intros s' [H _ _ _]; auto).
    eapply safe_bind; [apply safe_decompress; [done|lia..]|]. intros t s5 Hw5 _ [Ht ->].
    eapply safe_bind; [apply safe_put_pagedata; [done|lia|done]|]. intros ? s5 Hw5' R5 _.
    eapply safe_bind; [apply safe_header_controls; [done|lia|auto]|]. intros ? s6 Hw6 R6 B6. cbv beta in B6.
    assert (erases row = true -> pagedata s6 !! Z.to_nat m = Some spaces) as Her.
    { unfold erases. intros He. rewrite He in B6. rewrite B6, list_lookup_insert_eq; [done|].
      destruct (wf_pagedata s5 Hw5') as [L5 _]. unfold zlen in L5. lia. }
    assert (rel s4 s6) as R46 by by etransitivity.
    pose proof (Hstay s6 R46). apply safe_if; intros _; [by apply safe_ret|].
    apply safe_modify; [rel_set|]. apply safe_ret; [|done].
    apply wf_set_timestring; [done|]. rewrite zlen_map. by apply zlen_seqZ. }
  intros b s' (Hw' & [Rp R1 R2 R3] & Hpres & Her). split; [done|]. split; [|split; [exact R3|]].
  2:{ rewrite R1, R2. split_and!; [..|done].
      - cbn. by rewrite list_lookup_insert_eq by (unfold zlen in *; lia).
      - cbn. by rewrite list_lookup_insert_eq by (unfold zlen in *; lia). }
  apply (curr_update s _ (Z.to_nat m)); [done|by intros k Hk; apply Rp| |].
  - intros m' Hn. rewrite R1, R2. cbn. by rewrite !list_lookup_insert_ne by done.
  - intros q r Hq Hr. rewrite R1 in Hq. rewrite R2 in Hr. cbn in Hq, Hr.
    rewrite list_lookup_insert_eq in Hq, Hr by (unfold zlen in *; lia). right. right.
    injection Hq as <-. injection Hr as <-. done.
Qed.

(** ** Packets 1 to 25 *)

Lemma memcpy_to_total dst off src : 0 <= off -> off + zlen src <= zlen dst ->
  exists d, memcpy_to dst off src = Ok d /\ zlen d = zlen dst.
Proof.
  intros Ho Hl. pose proof (memcpy_to_some dst off src Ho Hl) as H. destruct H as [d Hd].
  exists d. split; [done|]. apply memcpy_to_length in Hd. unfold zlen. lia.
Qed.

Lemma zlen_text_row p row : zlen (text_row p row) = 40.
Proof. unfold text_row. rewrite zlen_map. by apply zlen_seqZ. Qed.

Lemma safe_packet_text s m n row p sp : wf s -> 0 <= m < 9 -> 1 <= n <= 25 -> present s (p, sp) ->
  safe (packet_text m n row p sp) s (fun _ _ => True).
Proof.
  intros Hw Hm Hn Hp. unfold packet_text. apply safe_if; intros Hc.
  - eapply safe_bind; [apply safe_get_pagedata; done|]. intros b s' _ _ [-> Hb].
    destruct (memcpy_to_total b (40 * (n - 1)) (text_row p row)) as (d & Hd & Hl);
      [lia|rewrite zlen_text_row; unfold TEXT in Hb; lia|].
    eapply safe_lift; [exact Hd|]. eapply safe_weaken; [apply safe_put_pagedata; [done..|lia]|done].
  - apply safe_page_at_present; [done..|]. intros pg Hg Hr Hs Hok.
    assert (safe (match p24 (pageinfo pg) with
              | Some l => mret_ (Some l)
              | None => let! ok := alloc in mret_ (if ok then Some (replicate 80 0) else None)
              end) s (fun o _ => forall l, o = Some l -> zlen l = 80)) as Hl.
    { destruct (p24 (pageinfo pg)) as [l|] eqn:Hl.
      - apply safe_ret; [done|]. intros ? [= <-]. by apply (info_p24 _ (page_info _ Hok)).
      - eapply safe_bind; [by apply safe_alloc|]. intros b s' Hw' _ [-> _].
        apply safe_ret; [done|]. by intros ? [= <-]. }
    eapply safe_bind; [exact Hl|]. intros [l|] s' Hw' [Hstay _ _ _] Hlen; [|by apply safe_ret].
    specialize (Hlen l eq_refl).
    destruct (memcpy_to_total l ((n - 24) * 40) (text_row p row)) as (d & Hd & Hld);
      [lia|rewrite zlen_text_row; lia|].
    eapply safe_lift; [exact Hd|]. eapply safe_weaken; [apply safe_info_mod|done]; [done|auto|].
    intros i Hi. apply info_ok_p24; [done|lia].
Qed.

(** ** Packet 27/0 *)

Lemma link_range b4 b2 b3 : 0 <= b4 < 8 -> 0 <= b2 <= 9 -> 0 <= b3 <= 9 ->
  link_ok (Z.lor (Z.lor (Z.shiftl (if b4 =? 0 then 8 else b4) 8) (Z.shiftl b2 4)) b3).
Proof.
  intros H4 H2 H3. right. set (m := if b4 =? 0 then 8 else b4).
  assert (1 <= m <= 8) as Hm by (unfold m; case_if; lia).
  pose proof (forall_range_in (fun k => let m := k / 100 + 1 in let b2 := k / 10 mod 10 in let b3 := k mod 10 in
    let q := Z.lor (Z.lor (Z.shiftl m 8) (Z.shiftl b2 4)) b3 in
    (0x100 <=? q) && (q <=? 0x899) && tuxtxt_is_dec q) (Z.to_nat 800) ((m - 1) * 100 + b2 * 10 + b3)
    ltac:(by vm_compute) ltac:(lia)) as H.
  cbv beta zeta in H.
  replace (((m - 1) * 100 + b2 * 10 + b3) / 100 + 1) with m in H by (Z.to_euclidean_division_equations; lia).
  replace (((m - 1) * 100 + b2 * 10 + b3) / 10 mod 10) with b2 in H by (Z.to_euclidean_division_equations; lia).
  replace (((m - 1) * 100 + b2 * 10 + b3) mod 10) with b3 in H by (Z.to_euclidean_division_equations; lia).
  unfold dec_in. split_checks H; lia || done.
Qed.

Lemma flof_magazine_range a b : 0 <= Z.lor (Z.land a 6) (Z.land b 1) < 8.
Proof.
  assert (Z.land (Z.lor (Z.land a 6) (Z.land b 1)) (Z.ones 3) = Z.lor (Z.land a 6) (Z.land b 1)) as <-.
  { rewrite Z.land_lor_distr_l, <- !Z.land_assoc. done. }
  rewrite Z.land_ones by lia. apply Z.mod_pos_bound. lia.
Qed.

Lemma safe_flof_link s row p byte : wf s -> row_ok row -> in_range p -> 0 <= byte < 4 ->
  safe (flof_link row p byte) s (fun _ s' => astCachetable s' = astCachetable s).
Proof.
  intros Hw Hrow Hp Hb. destruct (wf_flof s Hw) as [L F]. unfold in_range in Hp.
  pose proof (dh_range row (4 + byte * 6) Hrow ltac:(lia)) as D2.
  pose proof (dh_range row (3 + byte * 6) Hrow ltac:(lia)) as D3.
  unfold flof_link. apply safe_if; intros Hc; [|by apply safe_ret].
  cbv zeta. apply safe_if; intros Hd; [|by apply safe_ret].
  apply safe_get. destruct (idx_Forall _ _ p F ltac:(lia)) as (r & Hr & Hrl & Hrf).
  eapply safe_lift; [exact Hr|].
  set (b4 := Z.lor (Z.land _ 6) (Z.land _ 1)). pose proof (flof_magazine_range
    (Z.lxor (Z.land (dh row 0) 7) (Z.shiftr (dh row (8 + byte * 6)) 1))
    (Z.lxor (Z.land (dh row 0) 7) (Z.shiftr (dh row (6 + byte * 6)) 3))) as Hb4. fold b4 in Hb4.
  destruct (upd_Forall link_ok r byte (Z.lor (Z.lor (Z.shiftl (if b4 =? 0 then 8 else b4) 8)
    (Z.shiftl (dh row (4 + byte * 6)) 4)) (dh row (3 + byte * 6))) Hrf) as (r' & Hu & Hul & Huf).
  { apply link_range; lia. }
  { lia. }
  eapply safe_lift; [exact Hu|].
  destruct (upd_Forall _ _ p r' F) as (t & Ht & Htl & Htf); [by split; [lia|]|lia|].
  eapply safe_lift; [exact Ht|]. apply safe_put; [rel_set|].
  apply safe_ret; [apply wf_set_flofpages; [done|lia|done]|done].
Qed.

Lemma mloop_safe {A} (l : list A) (f : A -> M St ctl) (J : St -> Prop) s :
  wf s -> J s ->
  (forall a s', In a l -> wf s' -> J s' -> safe (f a) s' (fun _ s'' => J s'')) ->
  safe (mloop l f) s (fun _ s' => J s').
Proof.
  revert s. induction l as [|a l IH]; intros s Hw Hj Hf; cbn [mloop]; [by apply safe_ret|].
  eapply safe_bind; [apply Hf; [by left|done..]|]. intros c s' Hw' R' Hj'.
  destruct c; [|by apply safe_ret..]. apply IH; [done..|]. intros b s'' Hb. apply Hf. by right.
Qed.

Lemma used_link_range f links l : 1 <= l -> 1 <= used_link f links l <= l.
Proof.
  revert l. induction f as [|f IH]; intros l Hl; cbn; [lia|]. case_if; [|lia].
  destruct (Z.eq_dec l 1); [lia|]. specialize (IH (l - 1) ltac:(lia)). lia.
Qed.

Lemma used_link_stop links l : l <= 3 -> 2 <= used_link 2 links l -> at_ links (used_link 2 links l) <> 0.
Proof.
  intros Hl. cbn [used_link]. destruct ((2 <=? l) && (at_ links l =? 0)) eqn:E1; [|lia].
  destruct ((2 <=? l - 1) && (at_ links (l - 1) =? 0)) eqn:E2; [|lia]. lia.
Qed.

Lemma word_end_range f l e : word_end f l e <= e.
Proof. revert e. induction f as [|f IH]; intros e; cbn; [lia|]. case_if; [|lia]. specialize (IH (e - 1)). lia. Qed.

Lemma word_start_range f l : forall a a1, a <= a1 -> -1 <= a \/ a = a1 ->
  fst (word_start f l a a1) <= snd (word_start f l a a1) <= a1 /\
  (0 <= fst (word_start f l a a1) -> 0 <= snd (word_start f l a a1)).
Proof.
  induction f as [|f IH]; intros a a1 Ha Hb; cbn; [lia|]. case_if; [|cbn; lia].
  case_if; [specialize (IH (a - 1) a ltac:(lia) ltac:(lia))|specialize (IH (a - 1) a1 ltac:(lia) ltac:(lia))]; lia.
Qed.

Lemma zlen_strncpy n src : zlen (strncpy_bytes n src) = Z.of_nat n.
Proof.
  revert src. induction n as [|n IH]; intros src; [by destruct src|].
  destruct src as [|c r]; cbn -[replicate].
  - rewrite zlen_cons, IH. lia.
  - case_if; [by rewrite zlen_replicate|]. rewrite zlen_cons, IH. lia.
Qed.

Lemma safe_flof_titles f : forall s p text l e, wf s -> in_range p -> 1 <= l <= 3 -> l - 1 <= Z.of_nat f ->
  e <= 39 -> (0 < f)%nat ->
  safe (flof_titles f p text l e) s (fun _ s' => astCachetable s' = astCachetable s).
Proof.
  induction f as [|f IH]; intros s p text l e Hw Hp Hl Hf He Hpos; [lia|].
  cbn [flof_titles]. apply safe_get. destruct (wf_flof s Hw) as [L F]. unfold in_range in Hp.
  destruct (idx_Forall _ _ p F ltac:(lia)) as (links & Hk & Hkl & Hkf).
  eapply safe_lift; [exact Hk|].
  pose proof (used_link_range 2 links l ltac:(lia)) as Hu.
  pose proof (used_link_stop links l ltac:(lia)) as Hus. set (l' := used_link 2 links l) in *.
  pose proof (word_end_range 39 text e) as Hwe. set (e' := word_end 39 text e) in *.
  pose proof (word_start_range 39 text (e' - 1) (e' - 1) ltac:(lia) ltac:(lia)) as Hws.
  destruct (word_start 39 text (e' - 1) (e' - 1)) as [a a1]. cbn [fst snd] in Hws.
  eapply (safe_bind _ _ _ (fun _ s' => astCachetable s' = astCachetable s)).
  - apply safe_if; intros Hc; [|by apply safe_ret].
    assert (0 <= l' < zlen links) as Hlr by lia.
    destruct (idx_ok links l' Hlr) as (q & Hq & Hql).
    pose proof (Forall_lookup_1 _ _ _ _ Hkf Hql) as Hqok. cbv beta in Hqok.
    assert (q <> 0) as Hq0.
    { specialize (Hus ltac:(lia)). unfold at_ in Hus. by rewrite (nth_lookup_Some _ _ _ _ Hql) in Hus. }
    destruct Hqok as [|[Hqr _]]; [done|]. eapply safe_lift; [exact Hq|].
    destruct (wf_adip s Hw) as [La Fa]. destruct (idx_Forall _ _ q Fa ltac:(lia)) as (t & Ht & Htl).
    eapply safe_lift; [exact Ht|].
    destruct (memcpy_to_total t 0 (strncpy_bytes 12 (drop (Z.to_nat a1) text))) as (t1 & Ht1 & Hl1);
      [lia|rewrite zlen_strncpy; lia|].
    eapply safe_lift; [exact Ht1|].
    eapply (safe_bind _ _ _ (fun r s' => zlen r = 13 /\ s' = s)).
    + apply safe_if; intros Hd; [|apply safe_ret; [done|]; split; [lia|done]].
      exists (<[Z.to_nat (e' - a1 + 1) := 0]> t1), s. rewrite upd_ok by lia.
      split; [done|]. split_and!; [done|done|by rewrite zlen_insert; lia|done].
    + intros r s' _ _ [Hr ->].
      destruct (upd_Forall _ _ q r Fa Hr ltac:(lia)) as (t2 & Ht2 & Hl2 & Hf2).
      eapply safe_lift; [exact Ht2|]. apply safe_put_end; [rel_set|apply wf_set_adip; [done|lia|done]|done].
  - intros _ s' Hw' _ Hs'. apply safe_if; intros Hc; [|by apply safe_ret].
    eapply safe_weaken; [apply IH; [done|done|lia..]|]. cbv beta. intros. congruence.
Qed.

Lemma present_table s s' k : astCachetable s' = astCachetable s -> present s k -> present s' k.
Proof. unfold present. by intros ->. Qed.

Lemma safe_packet_27_0 s row p sp : wf s -> row_ok row -> present s (p, sp) ->
  safe (packet_27_0 row p sp) s (fun _ _ => True).
Proof.
  intros Hw Hrow Hp. destruct Hp as [pg Hg]. destruct (wf_page s p sp pg Hw Hg) as (Hr & _ & _).
  unfold packet_27_0. apply safe_if; intros _; [by apply safe_ret|].
  eapply safe_bind.
  { apply (mloop_safe _ _ (fun s' => astCachetable s' = astCachetable s)); [done|done|].
    intros byte s' Hb Hw' Hs'. apply list_elem_of_In, elem_of_seqZ in Hb. unfold FLOFSIZE in Hb.
    eapply safe_weaken; [apply safe_flof_link; [done..|lia]|]. cbv beta. intros. congruence. }
  intros ? s' Hw' _ Hs'. apply safe_page_at_present; [done|unfold present; rewrite Hs'; by eexists|].
  intros pg' _ _ _ _. destruct (p24 (pageinfo pg')); [|by apply safe_ret].
  eapply safe_weaken; [apply safe_flof_titles; [done|done|lia..]|done].
Qed.

Lemma safe_run {A B} (m : M St A) (k : A -> M St B) s a Q :
  m s = Ok (a, s) -> safe (k a) s Q -> safe (mbind_ m k) s Q.
Proof. apply runs_run. Qed.

(** ** Level 2.5: packets 26, 27/4, 28 *)

Lemma ext_ok_zero : ext_ok zero_ext.
Proof. constructor; [done| |done|done]. cbn. repeat constructor; done. Qed.

(** The extension data of a page. *)
Definition has_ext (s : St) (k : Z * Z) (e : ExtData) : Prop :=
  exists pg, astCachetable s !! k = Some pg /\ ext (pageinfo pg) = Some e.

Lemma safe_get_ext s p sp : wf s -> present s (p, sp) ->
  safe (get_ext p sp) s (fun o s' => forall e, o = Some e -> ext_ok e /\ has_ext s' (p, sp) e).
Proof.
  intros Hw Hp. unfold get_ext. apply safe_page_at_present; [done..|]. intros pg Hg Hr Hs Hok.
  destruct (ext (pageinfo pg)) as [e|] eqn:He.
  - apply safe_ret; [done|]. intros ? [= <-]. split; [by apply (info_ext _ (page_info _ Hok))|by exists pg].
  - eapply safe_bind; [by apply safe_alloc|]. intros b s' Hw' [Hst _ _ _] [-> ->].
    eapply safe_bind; [apply safe_info_mod; [done|by apply Hst|]|].
    { intros i Hi. apply info_ok_ext; [done|]. intros ? [= <-]. apply ext_ok_zero. }
    intros ? s'' Hw'' _ (pg' & Hg' & ->). apply safe_ret; [done|]. intros ? [= <-].
    split; [apply ext_ok_zero|]. eexists. split; [rewrite table_set; apply lookup_insert_eq|done].
Qed.

Lemma safe_put_ext s p sp e : wf s -> present s (p, sp) -> ext_ok e ->
  safe (put_ext p sp e) s (fun _ s' => has_ext s' (p, sp) e).
Proof.
  intros Hw Hp He. eapply safe_weaken; [apply safe_info_mod; [done|done|]|].
  - intros i Hi. apply info_ok_ext; [done|]. by intros ? [= <-].
  - intros ? s' _ _ (pg & Hg & ->). eexists. split; [rewrite table_set; apply lookup_insert_eq|done].
Qed.

(** The page function is no part of the extension data. *)
Lemma has_ext_function s p sp n m v e pg : has_ext s (p, sp) e -> astCachetable s !! (n, m) = Some pg ->
  has_ext (set_astCachetable (<[(n, m) := set_pageinfo (set_function v (pageinfo pg)) pg]> (astCachetable s)) s)
    (p, sp) e.
Proof.
  intros (pg' & Hg & He) Hn. unfold has_ext. rewrite table_set.
  destruct (decide ((n, m) = (p, sp))) as [Heq|Hne].
  - rewrite Heq in *. rewrite Hg in Hn. injection Hn as <-. rewrite lookup_insert_eq. eauto.
  - rewrite lookup_insert_ne by done. eauto.
Qed.

Definition has_links (s : St) (k : Z * Z) : Prop := exists e l, has_ext s k e /\ p27 e = Some l.

Lemma has_ext_present s k e : has_ext s k e -> present s k.
Proof. intros (pg & Hg & _). by exists pg. Qed.

Lemma ext_ok_links e l : ext_ok e -> zlen l = 4 -> ext_ok (set_p27 (Some l) e).
Proof. intros [H1 H2 H3 H4] Hl. constructor; [done..| |done]. by intros ? [= <-]. Qed.

(** A set bit 11 puts the linked page at 0x800 or above; see TxtFindings.v. *)
Lemma p27_number_range row d1 : row_ok row -> 0 <= d1 -> 0 <= p27_number row d1.
Proof.
  intros Hrow Hd. unfold p27_number. apply Z.lxor_nonneg.
  pose proof (dh_range row 0 Hrow ltac:(lia)) as H0.
  assert (forall m k, 0 <= Z.shiftr (Z.land d1 m) k) as Hs by (intros; apply Z.shiftr_nonneg, Z.land_nonneg; lia).
  split; intros _; [apply Z.shiftl_nonneg; lia|].
  apply Z.lor_nonneg. split; [apply Z.lor_nonneg; split|]; apply Hs.
Qed.

Lemma safe_p27_link s row p sp i k : wf s -> row_ok row -> has_links s (p, sp) -> 0 <= i < 4 -> 0 <= k <= i ->
  safe (p27_link row p sp i k) s (fun k' s' => 0 <= k' <= i + 1 /\ has_links s' (p, sp)).
Proof.
  intros Hw Hrow Hl Hi Hk. pose proof Hrow as [Hlen Hb]. unfold p27_link.
  destruct (deh24_at_ok row (6 * i + 3)) as (d1 & Hd1 & _ & Hr1); [lia..|done|].
  destruct (deh24_at_ok row (6 * i + 6)) as (d2 & Hd2 & _ & Hr2); [lia..|done|].
  eapply safe_lift; [exact Hd1|]. eapply safe_lift; [exact Hd2|].
  apply safe_if; intros Hc; [apply safe_ret; [done|split; [lia|done]]|]. cbv zeta.
  pose proof (p27_number_range row d1 Hrow ltac:(lia)) as Hn0.
  set (n := if p27_number row d1 <? 0x100 then p27_number row d1 + 0x800 else p27_number row d1).
  assert (0x100 <= n) as Hn by (unfold n; case_if; lia).
  destruct Hl as (e & l & He & Hp27). pose proof (has_ext_present _ _ _ He) as Hpres.
  (* the extension data is there: get_ext only reads it *)
  assert (get_ext p sp s = Ok (Some e, s)) as Hget.
  { destruct He as (pg & Hg & He). destruct (wf_page s p sp pg Hw Hg) as (Hr & Hs & _). unfold in_range in Hr.
    unfold get_ext. erewrite mbind_run by (apply page_at_run; lia). by rewrite Hg, He. }
  eapply safe_run; [exact Hget|]. cbv beta iota. rewrite Hp27.
  assert (ext_ok e) as Hek.
  { destruct He as (pg & Hg & He). destruct (wf_page s p sp pg Hw Hg) as (_ & _ & [Hin _ _]).
    by apply (info_ext _ Hin). }
  pose proof (ext_p27 e Hek l Hp27) as Hll.
  eapply safe_lift; [apply upd_ok; lia|].
  eapply safe_bind; [apply safe_put_ext; [done|done|apply ext_ok_links; [done|by rewrite zlen_insert]]|].
  intros [] s' Hw' _ Hext. cbv beta in Hext.
  assert (has_links s' (p, sp)) as Hl' by (eexists _, _; split; [exact Hext|by destruct e]).
  apply safe_if; intros _; [apply safe_ret; [done|split; [lia|done]]|].
  apply safe_if; intros Hbig; [apply safe_ret; [done|split; [lia|done]]|].
  apply safe_page_at; [done|lia..|].
  destruct (astCachetable s' !! (n, 0)) as [pg|] eqn:Hg; [|apply safe_ret; [done|split; [lia|done]]].
  eapply safe_bind; [apply safe_info_mod; [done|by exists pg|auto with txt]|].
  intros [] s'' Hw'' _ (pg' & Hg' & ->). apply safe_ret; [done|]. split; [lia|].
  destruct Hl' as (e' & l' & He' & Hp'). exists e', l'. split; [by apply has_ext_function|done].
Qed.

Lemma safe_p27_links s row p sp : wf s -> row_ok row -> has_links s (p, sp) ->
  safe (p27_links row p sp) s (fun _ _ => True).
Proof.
  intros Hw Hrow Hl. unfold p27_links.
  eapply safe_bind; [by apply safe_p27_link; [..|lia|lia]|]. intros k0 s0 W0 _ [K0 L0].
  eapply safe_bind; [by apply safe_p27_link; [..|lia|lia]|]. intros k1 s1 W1 _ [K1 L1].
  eapply safe_bind; [by apply safe_p27_link; [..|lia|lia]|]. intros k2 s2 W2 _ [K2 L2].
  eapply safe_bind; [by apply safe_p27_link; [..|lia|lia]|]. intros k3 s3 W3 _ _.
  by apply safe_ret.
Qed.

Lemma safe_packet_27_4 s row p sp : wf s -> row_ok row -> present s (p, sp) ->
  safe (packet_27_4 row p sp) s (fun _ _ => True).
Proof.
  intros Hw Hrow Hp. unfold packet_27_4. eapply safe_bind; [by apply safe_get_ext|].
  intros [e|] s0 W0 [P0 _ _ _] He; [|by apply safe_ret]. destruct (He e eq_refl) as [Hok Hext].
  destruct (p27 e) as [l|] eqn:Hl.
  - eapply safe_bind; [apply safe_p27_links; [done|done|by exists e, l]|]. intros ? s1 W1 _ _. by apply safe_ret.
  - eapply safe_bind; [by apply safe_alloc|]. intros b s1 W1 [P1 _ _ _] [-> ->].
    eapply safe_bind; [apply safe_put_ext; [done|by apply P1, P0|by apply ext_ok_links]|].
    intros ? s2 W2 _ Hext2. cbv beta in Hext2.
    eapply safe_bind; [apply safe_p27_links; [done|done|by eexists _, _; split; [exact Hext2|destruct e]]|].
    intros ? s3 W3 _ _. by apply safe_ret.
Qed.

Lemma safe_packet_27 s row p sp : wf s -> row_ok row -> present s (p, sp) ->
  safe (packet_27 row p sp) s (fun _ _ => True).
Proof.
  intros Hw Hrow Hp. unfold packet_27. cbv zeta. apply safe_if; intros _; [by apply safe_ret|].
  apply safe_if; intros _.
  - eapply safe_bind; [by apply safe_packet_27_0|]. intros ? s' W _ _. by apply safe_ret.
  - apply safe_if; intros _; [by apply safe_packet_27_4|by apply safe_ret].
Qed.

Lemma safe_packet_26 s row p sp : wf s -> row_ok row -> present s (p, sp) ->
  safe (packet_26 row p sp) s (fun _ _ => True).
Proof.
  intros Hw Hrow Hp. pose proof (dh_range row 2 Hrow ltac:(lia)) as D. unfold packet_26. cbv zeta.
  apply safe_if; intros Hc; [by apply safe_ret|].
  eapply safe_bind; [by apply safe_get_ext|]. intros [e|] s0 W0 [P0 _ _ _] He; [|by apply safe_ret].
  destruct (He e eq_refl) as [Hok Hext]. pose proof (ext_p26 e Hok) as L26. pose proof (ext_p26_len e Hok) as F26.
  destruct (idx_ok (p26 e) (dh row 2)) as (d & Hd & _); [lia|]. eapply safe_lift; [exact Hd|].
  eapply (safe_bind _ _ _ (fun _ _ => True)).
  { destruct d; [by apply safe_ret|]. eapply safe_weaken; [by apply safe_alloc|done]. }
  intros ok s1 W1 [P1 _ _ _] _. apply safe_if; intros _; [|by apply safe_ret].
  destruct Hrow as [Hl Hb].
  eapply safe_lift; [apply slice_ok; lia|].
  set (b := take _ _). assert (zlen b = 39) as Hbl.
  { apply (slice_zlen row 3 39). apply slice_ok; lia. }
  destruct (upd_Forall _ _ (dh row 2) (Some b) F26) as (t & Ht & Htl & Htf); [by intros ? [= <-]|lia|].
  eapply safe_lift; [exact Ht|].
  eapply safe_bind; [apply safe_put_ext; [done|by apply P1, P0|]|].
  { destruct Hok as [_ _ H3 H4]. constructor; [by rewrite <- L26, <- Htl; destruct e|by destruct e|
      by destruct e|by destruct e]. }
  intros ? s2 W2 _ _. by apply safe_ret.
Qed.

Lemma decode_p2829_safe s row ptr : wf s -> row_ok row -> (forall e, ptr = Some e -> ext_ok e) ->
  safe (tuxtxt_decode_p2829 row ptr) s (fun r _ => forall e, r = Some e -> ext_ok e).
Proof.
  intros Hw Hrow Hp. destruct (decode_p2829_total row ptr s Hrow) as (r & s' & Hrun & Hs & Hr).
  { intros e He. apply (ext_bgr e), Hp, He. }
  exists r, s'. split; [done|].
  assert (ext_ok (default zero_ext ptr)) as [H1 H2 H3 H4]
    by (destruct ptr; [by apply Hp|apply ext_ok_zero]).
  assert (wf (set_heap (tl (heap s)) s)) as Hh
    by (destruct (safe_alloc s Hw) as (? & ? & _ & ? & _ & _ & ->); done).
  split; [destruct Hs as [-> | ->]; done|]. split; [destruct Hs as [-> | ->]; rel_set|].
  intros e He. destruct Hr as [-> |(e' & -> & E1 & E2 & E3 & _)]; [by apply Hp|].
  injection He as ->. constructor; [by rewrite E1|by rewrite E1|by rewrite E2|done].
Qed.

Lemma safe_packet_28 s row p sp : wf s -> row_ok row -> present s (p, sp) ->
  safe (packet_28 row p sp) s (fun _ _ => True).
Proof.
  intros Hw Hrow Hp. unfold packet_28. cbv zeta. apply safe_if; intros _; [by apply safe_ret|].
  eapply (safe_bind _ _ _ (fun _ _ => True)).
  { apply safe_if; intros _; [|by apply safe_ret]. pose proof Hrow as [Hl Hb].
    destruct (deh24_at_ok row 3) as (d & Hd & _ & _); [lia..|done|]. eapply safe_lift; [exact Hd|].
    eapply safe_weaken; [apply safe_info_mod; [done..|]|done].
    intros i Hi. case_if; auto with txt. }
  intros ? s0 W0 [P0 _ _ _] _. apply safe_if; intros _; [|by apply safe_ret].
  apply safe_page_at_present; [done|by apply P0|]. intros pg Hg Hr Hs Hok.
  eapply safe_bind; [apply decode_p2829_safe; [done|done|apply (info_ext _ (page_info _ Hok))]|].
  intros e s1 W1 [P1 _ _ _] He.
  eapply safe_bind; [apply safe_info_mod; [done|by apply P1, P0|]|].
  { intros i Hi. by apply info_ok_ext. }
  intros ? s2 W2 _ _. by apply safe_ret.
Qed.

(** ** One packet, one PES packet *)

Lemma safe_packet_body s m n row p sp : wf s -> row_ok row -> 0 <= m < 9 -> 1 <= n -> present s (p, sp) ->
  safe (packet_body m n row p sp) s (fun _ _ => True).
Proof.
  intros Hw Hrow Hm Hn Hp. unfold packet_body.
  apply safe_if; intros H1.
  { eapply safe_bind; [apply safe_packet_text; done || lia|]. intros ? s' W _ _. by apply safe_ret. }
  apply safe_if; intros _; [by apply safe_packet_27|].
  apply safe_if; intros _; [by apply safe_packet_26|].
  apply safe_if; intros _; [by apply safe_packet_28|by apply safe_ret].
Qed.

Lemma safe_update_flag s m : wf s -> curr s -> 1 <= m <= 8 -> page s <> -1 ->
  safe (update_flag m) s (fun _ s' => pagedata s' = pagedata s).
Proof.
  intros Hw Hc Hm Hpg. unfold update_flag.
  eapply safe_bind; [apply safe_cur; [done|lia]|]. intros k s' _ _ (-> & L1 & L2 & _ & _).
  apply safe_get. apply safe_if; intros Hk; [|by apply safe_ret].
  eapply safe_bind.
  { apply safe_compress_current; [done..|]. intros k' K1 K2. rewrite L1 in K1. rewrite L2 in K2.
    injection K1 as <-. injection K2 as <-. lia. }
  intros ? s1 W1 _ Hd. apply safe_modify_end; cbv zeta.
  - case_if; rel_set.
  - case_if; auto with txt.
  - case_if; exact Hd.
Qed.

Definition inv (s : St) : Prop := wf s /\ curr s /\ page s <> -1.


Lemma packet_number_range a b : 0 <= a < 16 -> 0 <= b < 16 -> 0 <= Z.lor (Z.shiftr (Z.land a 8) 3) (Z.shiftl b 1) < 32.
Proof.
  intros Ha Hb. pose proof (forall_range_in (fun a => let x := Z.shiftr (Z.land a 8) 3 in
    (0 <=? x) && (x <? 2)) 16 a ltac:(by vm_compute) Ha) as H. cbv beta zeta in H.
  rewrite Z.lor_comm, lor_shiftl_add by lia. lia.
Qed.

Lemma handle_row_inv s row : inv s -> row_ok row -> runs (handle_row row) s (fun _ s' => inv s').
Proof.
  intros (Hw & Hc & Hpg) Hrow.
  pose proof (dh_range row 0 Hrow ltac:(lia)) as D0. pose proof (dh_range row 1 Hrow ltac:(lia)) as D1.
  unfold handle_row. cbv zeta. case_if; [by apply runs_ret|].
  set (n := Z.lor _ _). assert (0 <= n < 32) as Hn by (apply packet_number_range; lia).
  assert (0 <= Z.land (dh row 0) 7 < 8) as Hland.
  { change 7 with (Z.ones 3). rewrite Z.land_ones by lia. apply Z.mod_pos_bound. lia. }
  set (m := if Z.land (dh row 0) 7 =? 0 then 8 else Z.land (dh row 0) 7).
  assert (1 <= m <= 8) as Hm by (unfold m; case_if; lia).
  destruct (safe_cur s m Hw ltac:(lia)) as (k & ? & Hk & _ & _ & -> & L1 & L2 & Kp & Ks).
  eapply runs_run; [exact Hk|].
  assert (fst k <> -1 -> snd k <> -1 -> present s (fst k, snd k)) as Hpres by (intros; eapply Hc; eauto).
  eapply (runs_bind _ _ _ (fun _ s' => inv s' /\ rel s s')).
  { case_if; [|apply runs_ret; split; [done|reflexivity]].
    destruct (safe_compress_current s m Hw Hc Hm) as (a & s1 & Hr & W1 & R1 & _).
    { intros k' K1 K2. rewrite L1 in K1. rewrite L2 in K2. injection K1 as <-. injection K2 as <-. lia. }
    exists a, s1. split; [done|]. split; [|done]. pose proof R1 as [_ _ _ Rpg].
    split; [done|]. split; [by eapply curr_rel|congruence]. }
  intros ? s1 [(W1 & C1 & G1) [P1 _ _ _]].
  eapply (runs_bind _ _ _ (fun _ s' => inv s')).
  { case_if.
    { eapply runs_weaken; [by apply packet_0_safe|]. intros ? s2 (W2 & C2 & G2 & _). split; [done|]. split; [done|congruence]. }
    assert (forall {A} (mm : M St A), safe mm s1 (fun _ _ => True) -> runs mm s1 (fun _ s' => inv s')) as Hinv.
    { intros A mm Hsafe. eapply runs_weaken; [exact Hsafe|]. intros ? s2 (W2 & R2 & _).
      pose proof R2 as [_ _ _ Rpg]. split; [done|]. split; [by eapply curr_rel|congruence]. }
    case_if.
    { apply Hinv. apply safe_get. destruct (wf_p29 s1 W1) as [Lp Fp].
      destruct (idx_Forall _ _ m Fp ltac:(lia)) as (ptr & Hptr & Hok). eapply safe_lift; [exact Hptr|].
      eapply safe_bind; [by apply decode_p2829_safe|]. intros e s2 W2 _ He. apply safe_get.
      destruct (wf_p29 s2 W2) as [Lp2 Fp2].
      destruct (upd_Forall _ _ m e Fp2 He ltac:(lia)) as (t & Ht & Htl & Htf).
      eapply safe_lift; [exact Ht|]. apply safe_put; [rel_set|].
      apply safe_ret; [apply wf_set_astP29; [done|lia|done]|done]. }
    case_if; [|by apply runs_ret]. apply Hinv.
    apply safe_packet_body; [done|done|lia|lia|]. apply P1, Hpres; lia. }
  intros go s2 (W2 & C2 & G2). case_if; [|by apply runs_ret].
  eapply runs_weaken; [by apply safe_update_flag|]. intros ? s3 (W3 & R3 & _).
  pose proof R3 as [_ _ _ Rpg]. split; [done|]. split; [by eapply curr_rel|congruence].
Qed.

Lemma line_row_ok pes n row : bytes pes -> zlen pes = 184 -> 0 <= n < 4 -> line_row pes n = Some row -> row_ok row.
Proof.
  intros Hb Hl Hn. unfold line_row. case_if; [|done]. intros [= <-]. split.
  - rewrite zlen_map. by apply zlen_seqZ.
  - apply Forall_map, List.Forall_forall. intros k Hk. apply list_elem_of_In, elem_of_seqZ in Hk.
    apply rev_byte_byte, bytes_at; [done|lia].
Qed.

Lemma handle_pes_inv s pes : inv s -> bytes pes -> zlen pes = 184 -> runs (handle_pes pes) s (fun _ s' => inv s').
Proof.
  intros Hi Hb Hl. unfold handle_pes.
  eapply (runs_bind _ _ _ (fun _ s' => inv s')); [|intros ? s' H; by apply runs_ret].
  assert (forall l s, (forall n, In n l -> 0 <= n < 4) -> inv s -> runs (mloop l (fun n =>
    match line_row pes n with
    | Some row => handle_row row ;;; mret_ Next
    | None => mret_ Next
    end)) s (fun _ s' => inv s')) as H.
  { clear s Hi. induction l as [|n l IH]; intros s Hr Hs; cbn [mloop]; [by apply runs_ret|].
    eapply (runs_bind _ _ _ (fun c s' => c = Next /\ inv s')).
    - destruct (line_row pes n) as [row|] eqn:He; [|by apply runs_ret].
      eapply (runs_bind _ _ _ (fun _ s' => inv s')); [|intros ? s' H; by apply runs_ret].
      apply handle_row_inv; [done|]. eapply line_row_ok; [done..|apply Hr; by left|done].
    - intros c s' [-> Hs']. apply IH; [|done]. intros n' Hn'. apply Hr. by right. }
  apply H; [|done]. intros n Hn. apply list_elem_of_In, elem_of_seqZ in Hn. lia.
Qed.

(** ** Any stream *)

(** The thread over a sequence of reads. *)
Fixpoint run_thread (l : list (list Z)) : M St unit :=
  match l with
  | [] => mret_ tt
  | pes :: l => handle_pes pes ;;; run_thread l
  end.

Lemma run_thread_inv l : forall s, inv s -> Forall (fun pes => bytes pes /\ zlen pes = 184) l ->
  runs (run_thread l) s (fun _ s' => inv s').
Proof.
  induction l as [|pes l IH]; intros s Hi Hf; cbn [run_thread]; [by apply runs_ret|].
  apply Forall_cons_1 in Hf as [[Hb Hl] Hf].
  eapply runs_bind; [by apply handle_pes_inv|]. intros ? s' Hs'. by apply IH.
Qed.

Lemma inv_clear s : page s <> -1 -> Forall (eq true) (heap s) -> zlen (pagedata s) = 9 ->
  Forall (fun b => zlen b = TEXT) (pagedata s) ->
  runs tuxtxt_clear_cache s (fun _ s' => inv s').
Proof.
  intros Hp Hh Hl Hf. eexists tt, _. split; [reflexivity|]. split; [|split; [|done]].
  - constructor; cbn -[replicate].
    all: try (split; [apply zlen_replicate|apply Forall_replicate]).
    all: try done.
    + split; [done|]. apply Forall_replicate. by left.
    + by left.
    + by left.
    + by left.
  - intros m p sp Hm Hc _ Hn _. cbn in Hc. apply (lookup_replicate_1 9) in Hc as [-> _]. done.
Qed.

(** whatever teletext data arrives after the cache was cleared, as long as
    memory lasts the thread never reads or writes outside an array, never
    follows a null pointer and never runs for ever, and it keeps the tables
    well formed: link tables hold decimal pages, current pages and subpages
    are in range and cached, every cached text unpacks to 920 bytes. *)
Theorem thread_stays_in_its_tables s l :
  page s <> -1 -> Forall (eq true) (heap s) ->
  zlen (pagedata s) = 9 -> Forall (fun b => zlen b = TEXT) (pagedata s) ->
  Forall (fun pes => bytes pes /\ zlen pes = 184) l ->
  runs (tuxtxt_clear_cache ;;; run_thread l) s (fun _ s' => inv s').
Proof.
  intros Hp Hh Hl Hf Hpes. eapply runs_bind; [by apply inv_clear|].
  intros ? s' Hs'. by apply run_thread_inv.
Qed.

(** ** At concrete packets *)

(** After the cache was cleared. *)
Definition cleared : St := match tuxtxt_clear_cache start with Ok (_, s) => s | _ => start end.

(** Packet [n] of magazine [m] with the given 40 bytes. *)
Definition packet (m n : Z) (l : list Z) : list Z :=
  ham8 (Z.land m 7 + 8 * (n mod 2)) :: ham8 (n / 2) :: l.

(** The header of page [m]:tens:units, subpage 0, with the erase bit. *)
Definition header (m tens units : Z) : list Z :=
  packet m 0 (map ham8 [units; tens; 0; 8; 0; 0; 0; 0] ++ replicate 32 0x20).

Definition bytesb : list Z -> bool := forallb (fun b => (0 <=? b) && (b <? 256)).

Lemma bytesb_ok l : bytesb l = true -> bytes l.
Proof.
  unfold bytesb. rewrite forallb_forall. intros H. apply Forall_forall. intros b Hb.
  specialize (H b Hb). unfold is_byte. lia.
Qed.

Definition row_okb (row : list Z) : bool := (zlen row =? 42) && bytesb row.

Lemma row_okb_ok row : row_okb row = true -> row_ok row.
Proof. unfold row_okb. intros [H1 H2]%andb_prop. split; [lia|by apply bytesb_ok]. Qed.

(** A line of a PES packet that carries a row. *)
Definition line (row : list Z) : list Z := [0x02; 0x2C; 0; 0] ++ map rev_byte row.

Lemma start_ok : page start <> -1 /\ Forall (eq true) (heap start) /\ zlen (pagedata start) = 9 /\
  Forall (fun b => zlen b = TEXT) (pagedata start).
Proof. split_and!; [done..|]. by repeat constructor. Qed.

Lemma inv_cleared : inv cleared.
Proof.
  destruct start_ok as (H1 & H2 & H3 & H4).
  destruct (inv_clear start H1 H2 H3 H4) as (a & s & E & Hi). unfold cleared. by rewrite E.
Qed.

Lemma thread_stays_in_its_tables_witness :
  let pes := mjoin (map line [header 1 0 0; packet 1 1 (replicate 40 0x41); packet 1 27 (replicate 40 0x15);
                              packet 1 28 (replicate 40 0)]) in
  runs (tuxtxt_clear_cache ;;; run_thread [pes; pes]) start (fun _ s' => inv s').
Proof.
  destruct start_ok as (H1 & H2 & H3 & H4).
  intros pes. apply (thread_stays_in_its_tables start [pes; pes] H1 H2 H3 H4).
  assert (bytes pes /\ zlen pes = 184).
  { split; [apply bytesb_ok|]; by vm_compute. }
  by repeat constructor.
Defined.
