(* ===== verification/TxtFrame.v ===== *)
(** * What a packet leaves alone

    A magazine has three variables of its own: its current page, its current
    subpage and its buffer.  A packet of another magazine changes none of the
    three, and neither does a packet of the magazine itself that is not a
    header or a row of text ([handle_row_alone]).  No packet changes the PID of
    the service. *)

From stdpp Require Import gmap.
From S2P Require Import Prelude TxtCode TxtCodeSpec TxtCache TxtThread TxtPageSpec TxtPackSpec TxtP28Spec TxtInv TxtSafety.

Open Scope Z_scope.

(** The variables of magazine [m], and the PID. *)
Definition own (m : Z) (s : St) : option Z * option Z * option (list Z) * Z :=
  (current_page s !! Z.to_nat m, current_subpage s !! Z.to_nat m, pagedata s !! Z.to_nat m, vtxtpid s).

Section frame_rules.
Context (m : Z) (v : option Z * option Z * option (list Z) * Z).

(** If the code returns, the variables are as before. *)
Abbreviation alone := (keeps (fun s => own m s = v)).

Lemma alone_get {A} (k : St -> M St A) : (forall s, own m s = v -> alone (k s)) -> alone (mbind_ mget k).
Proof. intros H. apply keeps_get_bind. intros s Hs a s' E. by eapply H. Qed.

Lemma alone_put s s' : own m s = v -> own m s' = own m s -> alone (mput s').
Proof. intros Hs E s0 _ a s1 [= _ <-]. congruence. Qed.

Lemma alone_mloop {A} (l : list A) (f : A -> M St ctl) : (forall a, alone (f a)) -> alone (mloop l f).
Proof.
  intros Hf. induction l as [|a l IH]; cbn [mloop]; [apply keeps_ret|].
  apply keeps_bind; [done|]. intros []; [done|apply keeps_ret..].
Qed.
End frame_rules.

Create HintDb frame.

(** Runs through code that touches the three variables only where a hypothesis
    or a hint says so. *)
Ltac frame_step :=
  first
    [ solve [eauto with keeps frame]
    | apply alone_get; intros
    | apply alone_mloop; intros
    | apply keeps_modify; intros
    | match goal with
      | H : own ?m ?s = ?v |- keeps _ (mput _) => apply (alone_put m v s); [exact H|done]
      | |- own _ (if ?x then _ else _) = _ => destruct x
      | |- own _ _ = _ => done
      | |- keeps _ (mbind_ _ _) => apply keeps_bind; [|intros]
      | |- keeps _ (let '(_, _) := ?x in _) => destruct x
      | |- keeps _ (match ?x with _ => _ end) => destruct x
      end ].
Ltac frame_run := repeat (cbv beta zeta; frame_step).

Section frame.
Context (m : Z) (v : option Z * option Z * option (list Z) * Z).
Abbreviation alone := (keeps (fun s => own m s = v)).

Lemma alone_alloc : alone alloc.
Proof. unfold alloc. frame_run. Qed.
Lemma alone_page_at p sp : alone (page_at p sp).
Proof. unfold page_at. frame_run. Qed.
Hint Resolve alone_alloc alone_page_at : frame.

Lemma alone_page_mod p sp f : alone (page_mod p sp f).
Proof. unfold page_mod. frame_run. Qed.
Hint Resolve alone_page_mod : frame.

Lemma alone_info_mod p sp f : alone (info_mod p sp f).
Proof. apply alone_page_mod. Qed.
Hint Resolve alone_info_mod : frame.

Lemma alone_compress p sp b : alone (tuxtxt_compress_page p sp b).
Proof. unfold tuxtxt_compress_page. frame_run. Qed.
Lemma alone_decompress p sp : alone (tuxtxt_decompress_page p sp).
Proof. unfold tuxtxt_decompress_page. frame_run. Qed.
Hint Resolve alone_compress alone_decompress : frame.

Lemma alone_cur k : alone (cur k).
Proof. unfold cur. frame_run. Qed.
Lemma alone_get_pagedata k : alone (get_pagedata k).
Proof. unfold get_pagedata. frame_run. Qed.
Hint Resolve alone_cur alone_get_pagedata : frame.

Lemma alone_compress_current k : alone (compress_current k).
Proof. unfold compress_current. frame_run. Qed.
Hint Resolve alone_compress_current : frame.

Lemma alone_erase k : alone (tuxtxt_erase_page k).
Proof. unfold tuxtxt_erase_page. frame_run. Qed.
Hint Resolve alone_erase : frame.
Lemma alone_allocate k : alone (tuxtxt_allocate_cache k).
Proof. unfold tuxtxt_allocate_cache. frame_run. Qed.
Lemma alone_p2829 row ptr : alone (tuxtxt_decode_p2829 row ptr).
Proof. unfold tuxtxt_decode_p2829. frame_run. Qed.
Hint Resolve alone_allocate alone_p2829 : frame.

Lemma alone_note_subtitle pg lang : alone (note_subtitle pg lang).
Proof. unfold note_subtitle. frame_run. Qed.
Lemma alone_flof_link row p byte : alone (flof_link row p byte).
Proof. unfold flof_link. frame_run. Qed.
Hint Resolve alone_note_subtitle alone_flof_link : frame.
Lemma alone_flof_titles f : forall p text l e, alone (flof_titles f p text l e).
Proof. induction f as [|f IH]; intros; cbn [flof_titles]; frame_run. Qed.
Hint Resolve alone_flof_titles : frame.
Lemma alone_packet_27_0 row p sp : alone (packet_27_0 row p sp).
Proof. unfold packet_27_0. frame_run. Qed.
Lemma alone_get_ext p sp : alone (get_ext p sp).
Proof. unfold get_ext. frame_run. Qed.
Lemma alone_put_ext p sp e : alone (put_ext p sp e).
Proof. apply alone_info_mod. Qed.
Hint Resolve alone_packet_27_0 alone_get_ext alone_put_ext : frame.
Lemma alone_p27_link row p sp i k : alone (p27_link row p sp i k).
Proof. unfold p27_link. frame_run. Qed.
Hint Resolve alone_p27_link : frame.
Lemma alone_p27_links row p sp : alone (p27_links row p sp).
Proof. unfold p27_links. frame_run. Qed.
Hint Resolve alone_p27_links : frame.
Lemma alone_packet_27 row p sp : alone (packet_27 row p sp).
Proof. unfold packet_27, packet_27_4. frame_run. Qed.
Lemma alone_packet_26 row p sp : alone (packet_26 row p sp).
Proof. unfold packet_26. frame_run. Qed.
Lemma alone_packet_28 row p sp : alone (packet_28 row p sp).
Proof. unfold packet_28. frame_run. Qed.
Lemma alone_update_flag k : alone (update_flag k).
Proof. unfold update_flag. frame_run. Qed.
Hint Resolve alone_packet_27 alone_packet_26 alone_packet_28 alone_update_flag : frame.

(** Another magazine's variables. *)
Section other.
Context (k : Z) (Hk : k <> m) (Hk0 : 0 <= k) (Hm0 : 0 <= m).

Lemma upd_other {A} (l l' : list A) a : upd l k a = Ok l' -> l' !! Z.to_nat m = l !! Z.to_nat m.
Proof. unfold upd. case_if; [|done]. intros [= <-]. apply list_lookup_insert_ne. lia. Qed.

Lemma alone_upd {A} (get : St -> list A) (set : list A -> St -> St) a :
  (forall l s, l !! Z.to_nat m = get s !! Z.to_nat m -> own m (set l s) = own m s) ->
  alone (let! s := mget in let! t := mlift (upd (get s) k a) in mput (set t s)).
Proof.
  intros Hset s Hs ? s' E. unfold mbind_, mget, mlift, mput in E. cbn in E.
  destruct (upd (get s) k a) as [t| | |] eqn:Hu; try done. injection E as _ <-.
  rewrite Hset; [done|]. by eapply upd_other.
Qed.

Lemma alone_put_page a : alone (put_current_page k a).
Proof. apply (alone_upd current_page set_current_page). intros l s E. unfold own. cbn. by rewrite E. Qed.
Lemma alone_put_subpage a : alone (put_current_subpage k a).
Proof. apply (alone_upd current_subpage set_current_subpage). intros l s E. unfold own. cbn. by rewrite E. Qed.
Lemma alone_put_pagedata b : alone (put_pagedata k b).
Proof. apply (alone_upd pagedata set_pagedata). intros l s E. unfold own. cbn. by rewrite E. Qed.
Hint Resolve alone_put_page alone_put_subpage alone_put_pagedata : frame.

Lemma alone_header_controls row p sp : alone (header_controls k row p sp).
Proof. unfold header_controls. frame_run. Qed.
Hint Resolve alone_header_controls : frame.
Lemma alone_packet_0 row : alone (packet_0 k row).
Proof. unfold packet_0. frame_run. Qed.
Lemma alone_packet_text n row p sp : alone (packet_text k n row p sp).
Proof. unfold packet_text. frame_run. Qed.
End other.

(** Lines 24 and 25 are kept with the page. *)
Lemma alone_packet_text_24 k n row p sp : 24 <= n -> alone (packet_text k n row p sp).
Proof. intros Hn. unfold packet_text. replace (n <? 24) with false by lia. frame_run. Qed.
End frame.
#[export] Hint Resolve alone_alloc alone_page_at alone_page_mod alone_info_mod alone_compress alone_decompress alone_cur alone_get_pagedata alone_compress_current alone_erase alone_allocate alone_p2829 alone_note_subtitle alone_flof_link alone_flof_titles alone_packet_27_0 alone_get_ext alone_put_ext alone_p27_link alone_p27_links alone_packet_27 alone_packet_26 alone_packet_28 alone_update_flag : frame.

(** ** One packet *)

(** The magazine and the packet number of a row without errors there. *)
Definition row_addr (row : list Z) : option (Z * Z) :=
  if (dh row 0 =? 0xFF) || (dh row 1 =? 0xFF) then None
  else
    let m := Z.land (dh row 0) 7 in
    Some (if m =? 0 then 8 else m, Z.lor (Z.shiftr (Z.land (dh row 0) 8) 3) (Z.shiftl (dh row 1) 1)).

Lemma row_addr_magazine row m n : row_addr row = Some (m, n) -> 1 <= m <= 8.
Proof.
  unfold row_addr. case_if; [done|]. intros [= <- _]. change 7 with (Z.ones 3). rewrite Z.land_ones by lia.
  pose proof (Z.mod_pos_bound (dh row 0) (2 ^ 3) ltac:(lia)). case_if; lia.
Qed.


Lemma row_addr_number row m n : row_ok row -> row_addr row = Some (m, n) -> 0 <= n < 32.
Proof.
  intros Hrow. pose proof (dh_range row 0 Hrow ltac:(lia)). pose proof (dh_range row 1 Hrow ltac:(lia)).
  unfold row_addr. case_if; [done|]. intros [= _ <-]. apply packet_number_range; lia.
Qed.

(** [handle_row] after the address was read. *)
Definition handle_packet (magazine packet_number : Z) (row : list Z) : M St unit :=
  let! k := cur magazine in
  let received := negb (fst k =? -1) && negb (snd k =? -1) in
  (if (packet_number =? 0) && received then compress_current magazine else mret_ tt) ;;;
  let! go :=
    (if packet_number =? 0 then packet_0 magazine row
     else if (packet_number =? 29) && (dh row 2 =? 0) then
       let! s := mget in
       let! ptr := mlift (idx (astP29 s) magazine) in
       let! e := tuxtxt_decode_p2829 row ptr in
       let! s := mget in
       let! t := mlift (upd (astP29 s) magazine e) in
       mput (set_astP29 t s) ;;;
       mret_ true
     else if received then packet_body magazine packet_number row (fst k) (snd k)
     else mret_ true) in
  if go then update_flag magazine else mret_ tt.

Lemma handle_row_addr row :
  handle_row row = match row_addr row with Some (m, n) => handle_packet m n row | None => mret_ tt end.
Proof. unfold handle_row, row_addr. cbv zeta. by case_if. Qed.

(** Which packets write the three variables of magazine [m]. *)
Definition touches (m : Z) (row : list Z) : bool :=
  match row_addr row with Some (k, n) => (k =? m) && (n <? 24) | None => false end.

Lemma handle_row_alone m v row : 0 <= m -> touches m row = false ->
  keeps (fun s => own m s = v) (handle_row row).
Proof.
  intros Hm0 Ht. rewrite handle_row_addr. unfold touches in Ht.
  destruct (row_addr row) as [[k n]|] eqn:Ha; [|apply keeps_ret].
  pose proof (row_addr_magazine _ _ _ Ha) as Hk. unfold handle_packet, packet_body.
  destruct (decide (k = m)) as [->|Hne].
  - replace (n =? 0) with false by lia. cbn [andb].
    pose proof (fun p sp => alone_packet_text_24 m v m n row p sp ltac:(lia)).
    frame_run.
  - assert (0 <= k) by lia.
    assert (forall p sp, keeps (fun s => own m s = v) (packet_text k n row p sp)) by
      (intros; apply alone_packet_text; lia).
    assert (keeps (fun s => own m s = v) (packet_0 k row)) by (apply alone_packet_0; lia).
    frame_run.
Qed.

Lemma handle_row_pid v row : keeps (fun s => vtxtpid s = v) (handle_row row).
Proof.
  intros s Hs a s' E.
  assert (exists m, 0 <= m /\ touches m row = false) as (m & Hm & Ht).
  { unfold touches. destruct (row_addr row) as [[k n]|]; [|by exists 1].
    destruct (decide (k = 1)); [exists 2|exists 1]; split; lia. }
  pose proof (handle_row_alone m (own m s) row Hm Ht s eq_refl a s' E) as Hown.
  injection Hown as _ _ _ E4. congruence.
Qed.

Lemma handle_pes_pid v pes : keeps (fun s => vtxtpid s = v) (handle_pes pes).
Proof.
  unfold handle_pes. apply keeps_bind; [|intros; apply keeps_ret].
  generalize (seqZ 0 4). intros l. induction l as [|n l IH]; cbn [mloop]; [apply keeps_ret|].
  apply keeps_bind; [|intros []; [done|apply keeps_ret..]].
  destruct (line_row pes n); [|apply keeps_ret].
  apply keeps_bind; [apply handle_row_pid|intros; apply keeps_ret].
Qed.
