(* ===== verification/TxtControlSpec.v ===== *)
(** * Sessions of teletext

    Whatever a program calls and whatever the device delivers, from the first
    [tuxtxt_init] on the cache keeps its invariant ([session_is_safe]) and at
    most one thread runs.  A call of [tuxtxt_start] that succeeds leaves a
    thread that receives its PID, unless a cancelled thread began late: then
    nothing runs and later calls claim that it does. *)

From stdpp Require Import gmap.
From S2P Require Import Prelude TxtCode TxtCodeSpec TxtCache TxtThread TxtControl TxtPageSpec TxtPackSpec TxtP28Spec TxtInv TxtSafety TxtFrame.

Open Scope Z_scope.

#[local] Opaque replicate.

(** ** What a session keeps *)

Definition buffers_ok (bufs : list (list Z)) : Prop := zlen bufs = 9 /\ Forall (fun b => zlen b = TEXT) bufs.

(** Answers that the thread library gives for a thread of ours, and the
    contents of a stack and of the device. *)
Definition answers_ok (a : Answers) : Prop :=
  canceled a = true /\ joined a = true /\ (forall id, created a = Some id -> id <> 0).

Definition event_ok (e : event) : Prop :=
  match e with
  | EInit => True
  | EStart a _ | EStop a | EClose a => answers_ok a
  | EBegins bufs => buffers_ok bufs
  | ETurn pes => bytes pes
  end.

(** The thread of the cache, if any, is the only one, it receives the PID of
    the cache, and [receiving] says that it runs. *)
Record session (c : Ctl) : Prop := mkSession {
  ses_inv : inv (cache c);
  ses_starting : thread_starting c = false;
  ses_none : thread_id c = 0 -> threads c = [];
  ses_thread : thread_id c <> 0 ->
    (exists b, threads c = [(thread_id c, b)]) /\ receiving c = true /\ dmx c = true /\
    filter c = Some (vtxtpid (cache c)) /\ vtxtpid (cache c) <> -1
}.

(** The converse, which a late beginning breaks. *)
Definition honest (c : Ctl) : Prop := receiving c = true -> thread_id c <> 0.

Lemma runs_run_ctl {A B} {m : M Ctl A} (k : A -> M Ctl B) c a c1 Q :
  m c = Ok (a, c1) -> runs (k a) c1 Q -> runs (mbind_ m k) c Q.
Proof. intros H Hk. unfold runs. by rewrite (mbind_Ok _ _ _ _ _ H). Qed.

Lemma runs_on_cache {A} (m : M St A) c (Q : A -> Ctl -> Prop) :
  runs m (cache c) (fun a s => Q a (set_cache s c)) -> runs (on_cache m) c Q.
Proof. intros (a & s & E & H). exists a, (set_cache s c). split; [|done]. unfold on_cache. by rewrite E. Qed.

Lemma on_cache_run {A} (m : M St A) c a s : m (cache c) = Ok (a, s) -> on_cache m c = Ok (a, set_cache s c).
Proof. intros E. unfold on_cache. by rewrite E. Qed.

Lemma clear_run s : exists s', tuxtxt_clear_cache s = Ok (tt, s') /\ page s' = page s /\ vtxtpid s' = -1 /\
  (Forall (eq true) (heap s) -> buffers_ok (pagedata s) -> page s <> -1 -> inv s').
Proof.
  eexists. split; [reflexivity|]. split; [done|]. split; [done|]. intros Hh [Hl Hf] Hp.
  destruct (inv_clear s Hp Hh Hl Hf) as (a & s' & E & Hi). by injection E as _ <-.
Qed.

Lemma inv_fields s : inv s -> Forall (eq true) (heap s) /\ buffers_ok (pagedata s) /\ page s <> -1.
Proof. intros (Hw & _ & Hp). split; [apply (wf_heap s Hw)|]. split; [apply (wf_pagedata s Hw)|done]. Qed.

Lemma inv_set_pid v w s : inv s -> v <> -1 -> inv (set_vtxtpid w (set_page v s)).
Proof. intros (Hw & Hc & Hp) Hv. split; [by destruct Hw; constructor|]. done. Qed.

Lemma inv_set_vtxtpid w s : inv s -> inv (set_vtxtpid w s).
Proof. intros (Hw & Hc & Hp). split; [by destruct Hw; constructor|]. done. Qed.

Lemma inv_buffers bufs s : inv s -> buffers_ok bufs -> inv (set_junk_buffers bufs s).
Proof. intros (Hw & Hc & Hp) [Hl Hf]. split; [|done]. by apply wf_set_doupdate, wf_set_pagedata. Qed.

(** ** The calls *)

(** A cancelled thread that had not begun begins all the same. *)
Definition begins_late (a : Answers) (c : Ctl) : bool :=
  receiving c && late a && existsb (fun t => negb (snd t)) (threads c).

Lemma session_idle c : inv (cache c) -> thread_starting c = false -> thread_id c = 0 -> threads c = [] -> session c.
Proof. intros. by constructor. Qed.

Lemma stop_run a c : session c -> answers_ok a ->
  exists c', tuxtxt_stop a c = Ok (1, c') /\ cache c' = cache c /\ thread_starting c' = false /\
    thread_id c' = 0 /\ threads c' = [] /\ receiving c' = begins_late a c /\
    tuxtxt_initialized c' = tuxtxt_initialized c /\ (thread_id c <> 0 -> filter c' = None).
Proof.
  intros [Hi Hs Hn Ht] (Ac & Aj & _). unfold tuxtxt_stop, tuxtxt_stop_thread, thread_ends, begins_late.
  destruct c as [s d r st id ini ts fl]. cbn in *.
  destruct r.
  2:{ eexists. split; [reflexivity|]. cbn. destruct (Z.eq_dec id 0) as [->|Hid]; [by rewrite Hn|].
      by destruct (Ht Hid) as (_ & ? & _). }
  destruct (Z.eq_dec id 0) as [->|Hid].
  - rewrite (Hn eq_refl). destruct d; cbn; eexists; (split; [reflexivity|]); cbn; by destruct (late a).
  - destruct (Ht Hid) as ([b ->] & _ & -> & _ & _). clear Hn Ht.
    cbn. replace (id =? 0) with false by lia. cbn. rewrite Ac, Aj.
    unfold mwhen, mbind_, mget, mmodify. cbn. rewrite Z.eqb_refl.
    by destruct (late a), b; eexists; (split; [reflexivity|]); cbn; rewrite ?Z.eqb_refl.
Qed.

(** How a start of the thread ends. *)
Definition started (s : St) (r : bool) (ini : bool) (ret : Z) (c : Ctl) : Prop :=
  session c /\ cache c = s /\ tuxtxt_initialized c = ini /\
  (ret = 1 /\ thread_id c <> 0 \/ ret = 0 /\ thread_id c = 0 /\ receiving c = r).

Lemma start_receiving_run a s d r ini fl : inv s -> vtxtpid s <> -1 -> answers_ok a ->
  runs (start_receiving a) (mkCtl s d r true 0 ini [] fl) (started s r ini).
Proof.
  intros Hi Hp (_ & _ & Acr). unfold start_receiving.
  assert (forall c, cache c = s -> tuxtxt_initialized c = ini -> thread_starting c = false -> thread_id c = 0 ->
    threads c = [] -> receiving c = r -> started s r ini 0 c) as Hidle.
  { intros c E1 E2 E3 E4 E5 E6. unfold started.
    split; [apply session_idle; congruence|]. split_and!; [done..|by right]. }
  destruct (created a) as [id|] eqn:Hc, d, (filter_ok a); eexists _, _; (split; [reflexivity|]);
    try (by apply Hidle).
  specialize (Acr id eq_refl). split; [|split_and!; [done..|by left]].
  constructor; cbn; [done..|]. intros _. split; [by exists false|]. done.
Qed.

Lemma start_thread_run a c : inv (cache c) -> thread_starting c = false -> thread_id c = 0 -> threads c = [] ->
  answers_ok a ->
  runs (tuxtxt_start_thread a) c (started (cache c) (receiving c) (tuxtxt_initialized c)).
Proof.
  intros Hi Hs Hid Hts Ha. destruct c as [s d r st id ini ts fl]. cbn in Hi, Hs, Hid, Hts. subst st id ts.
  unfold tuxtxt_start_thread, tuxtxt_init_demuxer. eapply runs_run_ctl; [reflexivity|]. cbn [cache].
  case_if.
  { apply runs_ret. split; [by apply session_idle|]. split_and!; [done..|by right]. }
  do 2 (eapply runs_run_ctl; [reflexivity|]).
  destruct d; [|destruct (opened a)]; (eapply runs_run_ctl; [reflexivity|]); apply start_receiving_run; done || lia.
Qed.

Lemma init_run c : session c -> (thread_id c <> 0 -> tuxtxt_initialized c = true) ->
  runs tuxtxt_init c (fun _ c' => session c' /\ tuxtxt_initialized c' = true).
Proof.
  intros Hses Hini. unfold tuxtxt_init. eapply runs_run_ctl; [reflexivity|]. cbv beta.
  destruct (tuxtxt_initialized c) eqn:E; [by apply runs_ret|].
  assert (thread_id c = 0) as Hid by (destruct (Z.eq_dec (thread_id c) 0) as [|H]; [done|by specialize (Hini H)]).
  destruct Hses as [Hi Hs Hn _]. destruct (inv_fields _ Hi) as (Hh & Hb & Hp).
  eapply runs_run_ctl; [reflexivity|]. eapply runs_run_ctl; [by apply on_cache_run|].
  destruct (clear_run (set_astP29 (replicate 9 None) (set_astCachetable ∅ (cache c)))) as (s1 & E1 & _ & _ & Hi1).
  eapply runs_run_ctl; [by apply on_cache_run|]. eapply runs_run_ctl; [reflexivity|].
  eapply runs_run_ctl; [by apply on_cache_run|]. eapply runs_run_ctl; [reflexivity|]. apply runs_ret.
  split; [|done]. apply session_idle; [|done|done|by apply Hn]. apply inv_set_vtxtpid. by apply Hi1.
Qed.

(** How a call of [tuxtxt_start] ends. *)
Lemma start_run a tpid c : session c -> answers_ok a ->
  runs (tuxtxt_start a tpid) c (fun ret c' =>
    session c' /\ tuxtxt_initialized c' = tuxtxt_initialized c /\ vtxtpid (cache c') = tpid /\
    (vtxtpid (cache c) <> tpid -> astCachetable (cache c') = ∅) /\
    (ret = 1 /\ thread_id c' <> 0 \/
     ret = 0 /\ thread_id c' = 0 /\ receiving c' = begins_late a c \/
     ret = 1 /\ receiving c = true /\ c' = c)).
Proof.
  intros Hses Ha. pose proof Hses as [Hi Hs Hn Ht]. unfold tuxtxt_start.
  eapply runs_run_ctl; [reflexivity|]. cbv beta. case_if.
  - destruct (stop_run a c Hses Ha) as (c1 & E1 & Ecc1 & Es & Eid & Et & Er & Ei & _).
    eapply runs_run_ctl; [exact E1|]. destruct (inv_fields _ Hi) as (Hh & Hb & Hp).
    destruct (clear_run (cache c1)) as (s2 & E2 & _ & _ & Hi2).
    eapply runs_run_ctl; [by apply on_cache_run|]. eapply runs_run_ctl; [by apply on_cache_run|].
    assert (astCachetable s2 = ∅) as Hempty by by injection E2 as <-.
    eapply runs_weaken.
    { apply start_thread_run; [|done..]. cbn. apply inv_set_pid; [|done]. apply Hi2; by rewrite Ecc1. }
    intros ret c' (Hses' & Ecc & Eini & Hret). cbn in Ecc, Eini, Hret. rewrite Ecc.
    split; [done|]. split; [congruence|]. split; [done|]. split; [done|].
    destruct Hret as [Hret|(-> & -> & Hr)]; [by left|]. right. left. split; [done|]. split; [done|congruence].
  - rewrite Hs. cbn [negb andb]. destruct (receiving c) eqn:Hr; cbn [negb].
    { apply runs_ret. split; [done|]. split; [done|]. split; [lia|]. split; [lia|]. right. by right. }
    assert (thread_id c = 0) as Hid.
    { destruct (Z.eq_dec (thread_id c) 0) as [|Hid]; [done|]. destruct (Ht Hid) as (_ & ? & _). congruence. }
    eapply runs_weaken; [by apply start_thread_run; auto|].
    intros ret c' (Hses' & Ecc & Eini & Hret). rewrite Ecc.
    split; [done|]. split; [done|]. split; [lia|]. split; [lia|].
    destruct Hret as [Hret|(-> & -> & Hr')]; [by left|]. right. left. unfold begins_late. by rewrite Hr', Hr.
Qed.

Lemma close_run a c : session c -> answers_ok a ->
  runs (tuxtxt_close a) c (fun _ c' => session c' /\ thread_id c' = 0).
Proof.
  intros Hses Ha. unfold tuxtxt_close.
  destruct (stop_run a c Hses Ha) as (c1 & E1 & Ec & Es & Eid & Et & Er & _).
  destruct Hses as [Hi _ _ _]. destruct (inv_fields _ Hi) as (Hh & Hb & Hp).
  eapply runs_run_ctl; [exact E1|]. eapply runs_run_ctl; [reflexivity|]. cbv beta.
  set (c2 := set_dmx _ _).
  assert (cache c2 = cache c /\ thread_starting c2 = false /\ thread_id c2 = 0 /\ threads c2 = []) as (E2 & H2).
  { unfold c2. destruct (dmx c1); cbn; auto. }
  destruct (clear_run (cache c2)) as (s3 & E3 & _ & _ & Hi3).
  eapply runs_run_ctl; [by apply on_cache_run|]. exists tt. eexists. split; [reflexivity|].
  destruct H2 as (H2 & H3 & H4). split; [|done]. apply session_idle; [|done..]. apply Hi3; by rewrite E2.
Qed.

(** ** The thread *)

Lemma begins_run bufs c id : session c -> buffers_ok bufs -> unbegun c = Some id ->
  runs (thread_begins id bufs) c (fun _ c' => session c' /\ tuxtxt_initialized c' = tuxtxt_initialized c /\
    thread_id c' = thread_id c).
Proof.
  intros [Hi Hs Hn Ht] Hb Hu. unfold thread_begins. eapply runs_run_ctl; [reflexivity|].
  exists tt. eexists. split; [by apply on_cache_run|]. split; [|done].
  assert (thread_id c <> 0) as Hid by (intros Hid; unfold unbegun in Hu; by rewrite (Hn Hid) in Hu).
  destruct (Ht Hid) as ([b Hth] & Hr & Hd & Hf & Hp).
  constructor; cbn; [by apply inv_buffers|done|done|]. intros _.
  split; [|done]. rewrite Hth. cbn. case_if; eauto.
Qed.

Lemma turn_run pes c : session c -> bytes pes ->
  runs (thread_turn pes) c (fun _ c' => session c' /\ tuxtxt_initialized c' = tuxtxt_initialized c /\
    thread_id c' = thread_id c).
Proof.
  intros Hses Hp. unfold thread_turn. eapply runs_run_ctl; [reflexivity|]. cbv beta.
  case_if; [by apply runs_ret|]. case_if; [by apply runs_ret|]. destruct Hses as [Hi Hs Hn Ht].
  destruct (handle_pes_inv (cache c) pes Hi Hp ltac:(lia)) as (u & s & E & Hi').
  pose proof (handle_pes_pid _ pes _ eq_refl _ _ E) as Hpid.
  exists u. eexists. split; [by apply on_cache_run|]. split; [|done].
  constructor; cbn; [done..|]. by rewrite Hpid.
Qed.

(** ** Any session *)

(** The calls come in order: teletext is started and stopped only between
    [tuxtxt_init] and [tuxtxt_close].  [b]: it is initialised. *)
Fixpoint in_order (b : bool) (l : list event) : Prop :=
  match l with
  | [] => True
  | EInit :: l => in_order true l
  | EClose _ :: l => in_order false l
  | EStart _ _ :: l => b = true /\ in_order b l
  | _ :: l => in_order b l
  end.

Definition session_of (b : bool) (c : Ctl) : Prop :=
  session c /\ (tuxtxt_initialized c = false -> thread_id c = 0) /\ (b = true -> tuxtxt_initialized c = true).

Lemma run_events_session l : forall b c, session_of b c -> in_order b l -> Forall event_ok l ->
  runs (run_events l) c (fun _ c' => session c').
Proof.
  induction l as [|e l IH]; intros b c Hc Ho Hf; cbn [run_events]; [by apply runs_ret; destruct Hc|].
  apply Forall_cons_1 in Hf as [He Hf]. destruct Hc as (Hses & Hi & Hb).
  assert (forall m, runs m c (fun (_ : unit) c' => session c' /\ tuxtxt_initialized c' = tuxtxt_initialized c /\
      (thread_id c' <> 0 -> thread_id c <> 0 \/ b = true)) -> in_order b l ->
    runs (m ;;; run_events l) c (fun _ c' => session c')) as Hstep.
  { intros m Hm Ho'. eapply runs_bind; [exact Hm|]. intros ? c' (H1 & H2 & H3).
    apply (IH b); [|done|done]. split; [done|]. rewrite H2. split; [|auto].
    intros Hini. destruct (Z.eq_dec (thread_id c') 0) as [|Hid]; [done|].
    destruct (H3 Hid) as [H|H]; [by specialize (Hi Hini)|by rewrite (Hb H) in Hini]. }
  destruct e as [|a tpid|a|a|bufs|pes]; cbn [in_order event_ok] in Ho, He.
  - eapply runs_bind; [|intros ? c' Hc'; apply (IH true); [exact Hc'|done|done]].
    unfold run_event. eapply runs_run_ctl; [reflexivity|].
    eapply runs_bind; [apply init_run; [done|]|].
    + intros Hid. destruct (tuxtxt_initialized c); [done|]. by specialize (Hi eq_refl).
    + intros ? c' [H1 H2]. apply runs_ret. split; [done|]. split; [congruence|done].
  - destruct Ho as [Hbt Ho]. apply Hstep; [|done]. unfold run_event. eapply runs_run_ctl; [reflexivity|].
    eapply runs_bind; [by apply start_run|]. intros ? c' (H1 & H2 & _). apply runs_ret. auto.
  - apply Hstep; [|done]. unfold run_event. eapply runs_run_ctl; [reflexivity|].
    destruct (stop_run a c Hses He) as (c1 & E1 & Ec & Es & Eid & Et & Er & Ei & _).
    eapply runs_run_ctl; [exact E1|]. apply runs_ret. rewrite Eid. split; [|done].
    apply session_idle; [|done..]. rewrite Ec. by destruct Hses.
  - eapply runs_bind; [|intros ? c' Hc'; apply (IH false); [exact Hc'|done|done]].
    unfold run_event. eapply runs_run_ctl; [reflexivity|].
    eapply runs_weaken; [by apply close_run|]. intros ? c' [H1 H2]. by split.
  - apply Hstep; [|done]. unfold run_event. eapply runs_run_ctl; [reflexivity|]. cbv beta.
    destruct (unbegun c) as [id|] eqn:Hu; [|by apply runs_ret; auto].
    eapply runs_weaken; [by apply begins_run|]. intros ? c' (H1 & H2 & H3). rewrite H3. auto.
  - apply Hstep; [|done]. unfold run_event. eapply runs_run_ctl; [reflexivity|]. cbv beta. case_if.
    + eapply runs_weaken; [by apply turn_run|]. intros ? c' (H1 & H2 & H3). rewrite H3. auto.
    + apply runs_ret. auto.
Qed.

(** C11: from the first [tuxtxt_init] on, for starts, stops and closes in any
    order but no start between a close and the next [tuxtxt_init], as long as
    every allocation succeeds and [pthread_cancel] and [pthread_join] do what
    they are asked: whatever the demux device and [pthread_create] answer,
    whatever the thread finds on its stack, whenever it begins and whatever it
    reads, no call or turn reads or writes outside an array, follows a null
    pointer or runs for ever; the cache stays well formed, and there is at most
    one thread, which receives the PID of the cache.  (When memory fails:
    [header_without_memory_faults].) *)
Theorem session_is_safe c l :
  tuxtxt_initialized c = false -> thread_id c = 0 -> threads c = [] -> page (cache c) <> -1 ->
  Forall (eq true) (heap (cache c)) -> buffers_ok (pagedata (cache c)) ->
  in_order true l -> Forall event_ok l ->
  runs (run_event EInit ;;; run_events l) c (fun _ c' => session c').
Proof.
  intros Hini Hid Hth Hp Hh Hb Ho Hf. apply (runs_bind _ _ _ (fun _ c' => session_of true c'));
    [|intros ? c' Hc'; by apply (run_events_session l true)].
  unfold run_event, tuxtxt_init. eapply runs_run_ctl; [reflexivity|]. cbv beta.
  apply (runs_bind _ _ _ (fun _ c' => session_of true c')); [|intros; by apply runs_ret].
  eapply runs_run_ctl; [reflexivity|]. cbv beta. rewrite Hini.
  eapply runs_run_ctl; [reflexivity|]. eapply runs_run_ctl; [by apply on_cache_run|].
  destruct (clear_run (set_astP29 (replicate 9 None) (set_astCachetable ∅ (cache c)))) as (s1 & E1 & _ & _ & Hi1).
  eapply runs_run_ctl; [by apply on_cache_run|]. eapply runs_run_ctl; [reflexivity|].
  eapply runs_run_ctl; [by apply on_cache_run|]. eapply runs_run_ctl; [reflexivity|]. apply runs_ret.
  split; [|done]. apply session_idle; [|done..]. apply inv_set_vtxtpid. by apply Hi1.
Qed.

(** C23: in such a session, when [receiving] is set only while there is a
    thread ([honest]), no cancelled thread begins late, and [pthread_cancel]
    and [pthread_join] do what they are asked, a call of [tuxtxt_start] returns 1 exactly when afterwards a thread runs, and
    that thread receives the PID asked for; the pages of another PID are
    gone. *)
Theorem start_runs_thread a tpid c :
  session c -> answers_ok a -> honest c -> begins_late a c = false ->
  runs (tuxtxt_start a tpid) c (fun ret c' =>
    honest c' /\ (ret = 1 <-> thread_id c' <> 0) /\ (ret = 0 <-> thread_id c' = 0) /\
    (thread_id c' <> 0 -> (exists b, threads c' = [(thread_id c', b)]) /\ filter c' = Some tpid) /\
    vtxtpid (cache c') = tpid /\ (vtxtpid (cache c) <> tpid -> astCachetable (cache c') = ∅)).
Proof.
  intros Hses Ha Hh Hl. eapply runs_weaken; [by apply start_run|].
  intros ret c' (H1 & _ & Hv & He & Hret). destruct H1 as [_ _ _ Ht]. rewrite Hv in Ht.
  split; [|split; [|split; [|split; [|done]]]].
  - unfold honest. destruct Hret as [[_ H]|[(_ & _ & H)|(_ & _ & ->)]]; [done|congruence|exact Hh].
  - destruct Hret as [[-> H]|[(-> & -> & _)|(-> & Hr & ->)]]; [done|done|]. split; [by auto|done].
  - destruct Hret as [[-> H]|[(-> & -> & _)|(-> & Hr & ->)]]; [done|done|]. split; [done|]. by intros H%(Hh Hr).
  - intros Hid. destruct (Ht Hid) as (H & _ & _ & Hfl & _). done.
Qed.

(** C39: when the thread is cancelled before it has begun it may still set
    [receiving] after [tuxtxt_stop] cleared it.  Then no thread is left and
    nothing is received, but every later start of the same service returns 1
    and does nothing. *)
Theorem late_thread_blocks_start a c :
  session c -> answers_ok a -> threads c = [(thread_id c, false)] -> thread_id c <> 0 -> late a = true ->
  exists c', tuxtxt_stop a c = Ok (1, c') /\ threads c' = [] /\ filter c' = None /\
    forall a', tuxtxt_start a' (vtxtpid (cache c)) c' = Ok (1, c').
Proof.
  intros Hses Ha Hth Hid Hl. destruct (stop_run a c Hses Ha) as (c' & E & Ec & Es & _ & Et & Er & _ & Hfl).
  destruct Hses as [_ _ _ Ht]. destruct (Ht Hid) as (_ & Hr & _).
  unfold begins_late in Er. rewrite Hr, Hl, Hth in Er. cbn in Er.
  exists c'. split; [done|]. split; [done|]. split; [by apply Hfl|]. intros a'.
  unfold tuxtxt_start. rewrite mget_bind, Ec, Z.eqb_refl, Es, Er. done.
Qed.

(** ** At concrete calls *)

Definition yes (late : bool) : Answers := mkAnswers true true (Some 7) true true late.

Lemma yes_ok b : answers_ok (yes b).
Proof. split; [done|]. split; [done|]. by intros id [= <-]. Qed.

(** Initialised, nothing started. *)
Definition idle : Ctl := mkCtl cleared false false false 0 true [] None.

Lemma idle_session : session idle.
Proof. apply session_idle; [apply inv_cleared|done..]. Qed.

Lemma session_is_safe_witness :
  let pes := mjoin (map line [header 1 0 0; packet 1 1 (replicate 40 0x41); packet 1 27 (replicate 40 0x15);
                              packet 1 28 (replicate 40 0)]) in
  runs (run_event EInit ;;; run_events
    [EStart (yes false) 0x40; EBegins (replicate 9 spaces); ETurn pes; ETurn [0]; EStop (yes false);
     EStart (yes true) 0x40; EStart (yes true) 0x41; EClose (yes false); EInit])
    (mkCtl start false false false 0 false [] None) (fun _ c' => session c').
Proof.
  intros pes. apply session_is_safe; try done.
  - apply start_ok.
  - assert (bytes pes) by (apply bytesb_ok; by vm_compute). assert (bytes [0]) by (apply bytesb_ok; by vm_compute).
    destruct start_ok as (_ & _ & Hb). clearbody pes.
    repeat (apply List.Forall_cons; [first [exact Hb|assumption|apply yes_ok|exact I]|]). apply List.Forall_nil.
Defined.

Lemma start_runs_thread_witness :
  runs (tuxtxt_start (yes false) 0x40) idle (fun ret c' => ret = 1 -> filter c' = Some 0x40).
Proof.
  eapply runs_weaken; [apply (start_runs_thread (yes false) 0x40 idle idle_session (yes_ok false)); done|].
  intros ret c' (_ & H1 & _ & H3 & _) H%H1%H3. apply H.
Defined.

Lemma late_thread_blocks_start_witness :
  let c := mkCtl (set_vtxtpid 0x40 cleared) true true false 7 true [(7, false)] (Some 0x40) in
  exists c', tuxtxt_stop (yes true) c = Ok (1, c') /\ threads c' = [] /\ tuxtxt_start (yes false) 0x40 c' = Ok (1, c').
Proof.
  intros c. destruct (late_thread_blocks_start (yes true) c) as (c' & E & Et & _ & H);
    [|apply yes_ok|done|done|done|].
  - constructor; cbn; [apply inv_set_vtxtpid, inv_cleared|done|done|]. intros _. split; [by exists false|]. done.
  - exists c'. split; [done|]. split; [done|]. apply H.
Defined.
