(* ===== verification/TxtReceive.v ===== *)
(** * Receiving a page

    A header that erases its page, the rows of the page, and what the next
    header of the magazine does first (packing the page away): the cached text
    is then what the rows said, row by row, whatever happened before. *)

From stdpp Require Import gmap.
From S2P Require Import Prelude TxtCode TxtCodeSpec TxtCache TxtThread TxtPageSpec TxtPackSpec TxtP28Spec TxtInv TxtSafety TxtFrame.

Open Scope Z_scope.

#[local] Opaque pack unpack spaces zero_mask seqZ.

(** The page that a magazine is receiving and its text so far. *)
Definition receiving (m p sp : Z) (b : list Z) (s : St) : Prop :=
  inv s /\ current_page s !! Z.to_nat m = Some p /\ current_subpage s !! Z.to_nat m = Some sp /\
  pagedata s !! Z.to_nat m = Some b.

Lemma receiving_rel m p sp b s s' : receiving m p sp b s -> wf s' -> rel s s' -> pagedata s' = pagedata s ->
  receiving m p sp b s'.
Proof.
  intros ((_ & Hc & Hp) & H1 & H2 & H3) Hw Hr Hd. pose proof Hr as [_ R1 R2 R3].
  split; [split; [done|split; [by eapply curr_rel|congruence]]|]. by rewrite R1, R2, Hd.
Qed.

Lemma cur_run s m p sp : 0 <= m -> current_page s !! Z.to_nat m = Some p ->
  current_subpage s !! Z.to_nat m = Some sp -> cur m s = Ok ((p, sp), s).
Proof. intros Hm H1 H2. unfold cur, idx. mrun. rif. by rewrite H1, H2. Qed.

Lemma update_receiving m p sp b s : receiving m p sp b s -> 1 <= m <= 8 ->
  runs (update_flag m) s (fun _ s' => receiving m p sp b s').
Proof.
  intros Hrec Hm. pose proof Hrec as ((Hw & Hc & Hp) & _).
  eapply runs_weaken; [by apply safe_update_flag|]. intros ? s' (W & R & D). by eapply receiving_rel.
Qed.

(** ** The header *)

Lemma header_received s row m p sp : inv s -> row_ok row -> row_addr row = Some (m, 0) ->
  header_key m row = Some (p, sp) -> erases row = true ->
  runs (handle_row row) s (fun _ s' => receiving m p sp spaces s').
Proof.
  intros (Hw & Hc & Hpg) Hrow Ha Hk He. pose proof (row_addr_magazine _ _ _ Ha) as Hm.
  rewrite handle_row_addr, Ha. unfold handle_packet. cbn [Z.eqb andb].
  destruct (safe_cur s m Hw ltac:(lia)) as (k & ? & Hcur & _ & _ & -> & L1 & L2 & _ & _).
  eapply runs_run; [exact Hcur|].
  eapply (runs_bind _ _ _ (fun _ s' => inv s')).
  { case_if; [|by apply runs_ret].
    eapply runs_weaken; [apply safe_compress_current; [done..|]|].
    - intros k' K1 K2. rewrite L1 in K1. rewrite L2 in K2. injection K1 as <-. injection K2 as <-. lia.
    - intros ? s1 (W1 & R1 & _). pose proof R1 as [_ _ _ Rpg]. split; [done|].
      split; [by eapply curr_rel|congruence]. }
  intros ? s1 (W1 & C1 & G1).
  eapply (runs_bind _ _ _ (fun _ s' => receiving m p sp spaces s')).
  { eapply runs_weaken; [by apply packet_0_safe|]. intros ? s2 (W2 & C2 & G2 & Hpost).
    unfold header_post in Hpost. rewrite Hk in Hpost. destruct Hpost as (P1 & P2 & P3).
    split; [split; [done|split; [done|congruence]]|]. by auto. }
  intros go s2 Hrec. case_if; [by apply update_receiving|by apply runs_ret].
Qed.

(** ** The rows *)

Lemma text_received s row m n p sp b b' : receiving m p sp b s -> row_ok row -> row_addr row = Some (m, n) ->
  1 <= n <= 23 -> p <> -1 -> sp <> -1 -> memcpy_to b (40 * (n - 1)) (text_row p row) = Ok b' ->
  runs (handle_row row) s (fun _ s' => receiving m p sp b' s').
Proof.
  intros Hrec Hrow Ha Hn Np Ns Hb'. pose proof Hrec as ((Hw & Hc & Hpg) & L1 & L2 & L3).
  pose proof (row_addr_magazine _ _ _ Ha) as Hm.
  rewrite handle_row_addr, Ha. unfold handle_packet.
  eapply runs_run; [by apply cur_run; [lia|..]|]. cbn [fst snd].
  replace (n =? 0) with false by lia. replace (n =? 29) with false by lia. cbn [andb].
  replace (negb (p =? -1) && negb (sp =? -1)) with true by lia.
  eapply runs_run; [reflexivity|].
  eapply (runs_bind _ _ _ (fun go s' => go = true /\ receiving m p sp b' s')).
  { unfold packet_body. replace (n <=? 25) with true by lia.
    eapply (runs_bind _ _ _ (fun _ s' => receiving m p sp b' s')); [|intros ? s' H; by apply runs_ret].
    unfold packet_text. replace (n <? 24) with true by lia.
    eapply (runs_run _ _ _ b s); [unfold get_pagedata, idx; mrun; rif; by rewrite L3|].
    eapply runs_run; [by rewrite Hb'|].
    destruct (wf_pagedata s Hw) as [Lp Fp].
    assert (zlen b' = TEXT) as Hl.
    { pose proof (Forall_lookup_1 _ _ _ _ Fp L3) as Hbl. cbv beta in Hbl.
      apply memcpy_to_length in Hb'. unfold zlen in *. lia. }
    eapply runs_weaken; [apply safe_put_pagedata; [done|lia|done]|].
    intros ? s' (W & R & _ & D). pose proof R as [_ R1 R2 R3].
    split; [split; [done|split; [by eapply curr_rel|congruence]]|].
    rewrite R1, R2, D. split_and!; [done..|]. apply list_lookup_insert_eq. unfold zlen in Lp. lia. }
  intros go s' [-> Hrec']. by apply update_receiving.
Qed.

Fixpoint handle_rows (rows : list (list Z)) : M St unit :=
  match rows with
  | [] => mret_ tt
  | row :: rows => handle_row row ;;; handle_rows rows
  end.

(** A row of text of the magazine, with its number. *)
Definition text_packet (m : Z) (row : list Z) : option (Z * list Z) :=
  match row_addr row with
  | Some (k, n) => if (k =? m) && (1 <=? n) && (n <? 24) then Some (n, row) else None
  | None => None
  end.

(** Row [n] written over its forty bytes of the text. *)
Definition write_row (p : Z) (b : list Z) (r : Z * list Z) : list Z :=
  take (Z.to_nat (40 * (fst r - 1))) b ++ text_row p (snd r) ++ drop (Z.to_nat (40 * (fst r - 1) + 40)) b.

(** The text after the rows were written over it in turn. *)
Definition overwrite (p : Z) (b : list Z) (rows : list (Z * list Z)) : list Z := fold_left (write_row p) rows b.

Lemma untouched_received m p sp b s row : receiving m p sp b s -> row_ok row -> 0 <= m ->
  touches m row = false -> runs (handle_row row) s (fun _ s' => receiving m p sp b s').
Proof.
  intros (Hi & L1 & L2 & L3) Hrow Hm Ht.
  destruct (handle_row_inv s row Hi Hrow) as (a & s' & E & Hi'). exists a, s'. split; [done|].
  pose proof (handle_row_alone m (own m s) row Hm Ht s eq_refl a s' E) as Hown.
  injection Hown as E1 E2 E3 _. split; [done|]. by rewrite E1, E2, E3.
Qed.

Lemma row_received m p sp b s row : receiving m p sp b s -> 1 <= m <= 8 -> p <> -1 -> sp <> -1 ->
  row_ok row -> row_addr row <> Some (m, 0) ->
  runs (handle_row row) s (fun _ s' =>
    receiving m p sp (match text_packet m row with Some r => write_row p b r | None => b end) s').
Proof.
  intros Hrec Hm Np Ns Hrow Hn0. unfold text_packet.
  destruct (touches m row) eqn:Ht; unfold touches in Ht.
  - destruct (row_addr row) as [[k n]|] eqn:Ha; [|done].
    pose proof (row_addr_number _ _ _ Hrow Ha) as Hn. assert (k = m) as -> by lia.
    assert (n <> 0) by congruence.
    replace ((m =? m) && (1 <=? n) && (n <? 24)) with true by lia.
    eapply text_received; [done|done|done|lia|done|done|]. unfold memcpy_to, write_row. rewrite zlen_text_row.
    assert (zlen b = TEXT) as Hb.
    { destruct Hrec as ((Hw & _) & _ & _ & L3). destruct (wf_pagedata s Hw) as [_ Fp].
      apply (Forall_lookup_1 _ _ _ _ Fp L3). }
    by replace ((0 <=? 40 * (n - 1)) && (40 * (n - 1) + 40 <=? zlen b)) with true by (unfold TEXT in Hb; lia).
  - assert ((match row_addr row with
      | Some (k, n) => if (k =? m) && (1 <=? n) && (n <? 24) then Some (n, row) else None
      | None => None end) = None) as ->.
    { destruct (row_addr row) as [[k n]|]; [|done]. by replace ((k =? m) && (1 <=? n) && (n <? 24)) with false by lia. }
    by apply untouched_received; [..|lia|].
Qed.

Lemma rows_received m p sp rows : 1 <= m <= 8 -> p <> -1 -> sp <> -1 -> forall s b, receiving m p sp b s ->
  Forall (fun row => row_ok row /\ row_addr row <> Some (m, 0)) rows ->
  runs (handle_rows rows) s (fun _ s' => receiving m p sp (overwrite p b (omap (text_packet m) rows)) s').
Proof.
  intros Hm Np Ns. induction rows as [|row rows IH]; intros s b Hrec Hf; cbn [handle_rows]; [by apply runs_ret|].
  apply Forall_cons_1 in Hf as [[Hrow Ha] Hf].
  eapply runs_bind; [by apply row_received|]. cbv beta. intros ? s' Hrec'.
  cbn [omap list_omap]. by destruct (text_packet m row); apply IH.
Qed.

(** Rows 1 to 23 in order write the whole text. *)
Lemma overwrite_all p b rows k : zlen b = TEXT -> 0 <= k -> k + zlen rows <= 23 ->
  fold_left (write_row p) (zip (seqZ (k + 1) (zlen rows)) rows) b =
  take (Z.to_nat (40 * k)) b ++ mjoin (map (text_row p) rows) ++ drop (Z.to_nat (40 * (k + zlen rows))) b.
Proof.
  revert b k. induction rows as [|row rows IH]; intros b k Hb Hk Hr.
  - rewrite zlen_nil, seqZ_nil by lia. cbn [zip zip_with fold_left map mjoin list_join app].
    rewrite Z.add_0_r. by rewrite take_drop.
  - rewrite zlen_cons in *. pose proof (zlen_nonneg rows). rewrite seqZ_cons by lia.
    replace (Z.succ (k + 1)) with (k + 1 + 1) by lia. replace (Z.pred (1 + zlen rows)) with (zlen rows) by lia.
    cbn [zip zip_with fold_left]. unfold write_row at 2. cbn [fst snd].
    replace (40 * (k + 1 - 1)) with (40 * k) by lia.
    assert (zlen (text_row p row) = 40) as Ht by apply zlen_text_row.
    set (t := text_row p row) in *. unfold TEXT in Hb.
    set (b' := take (Z.to_nat (40 * k)) b ++ t ++ drop (Z.to_nat (40 * k + 40)) b).
    assert (length (take (Z.to_nat (40 * k)) b ++ t) = Z.to_nat (40 * (k + 1))) as Hlen.
    { rewrite length_app, length_take. unfold zlen in *. lia. }
    assert (b' = (take (Z.to_nat (40 * k)) b ++ t) ++ drop (Z.to_nat (40 * k + 40)) b) as Eb
      by (unfold b'; by rewrite app_assoc).
    rewrite (IH b' (k + 1)); [| |lia|lia].
    2:{ rewrite Eb, zlen_app. unfold zlen at 1. rewrite Hlen, zlen_dropZ by lia. unfold TEXT. lia. }
    replace (take (Z.to_nat (40 * (k + 1))) b') with (take (Z.to_nat (40 * k)) b ++ t)
      by (rewrite Eb, <- Hlen; symmetry; apply take_app_length).
    replace (drop (Z.to_nat (40 * (k + 1 + zlen rows))) b') with (drop (Z.to_nat (40 * (k + (1 + zlen rows)))) b).
    2:{ rewrite Eb. rewrite drop_app_ge by lia. rewrite Hlen, drop_drop. f_equal. lia. }
    cbn [map mjoin list_join]. fold t. change (mjoin (t :: ?x)) with (t ++ mjoin x).
    by rewrite <- !app_assoc.
Qed.

Lemma overwrite_complete p (mine : list (Z * list Z)) : map fst mine = seqZ 1 23 ->
  overwrite p spaces mine = mjoin (map (text_row p) (map snd mine)).
Proof.
  intros Hfst. assert (zlen mine = 23) as Hl by (rewrite <- (zlen_map fst), Hfst; by apply zlen_seqZ).
  assert (mine = zip (seqZ (0 + 1) (zlen (map snd mine))) (map snd mine)) as Hz.
  { rewrite zlen_map, Hl. change (0 + 1) with 1. rewrite <- Hfst. symmetry. apply zip_fst_snd. }
  rewrite Hz at 1. unfold overwrite. rewrite overwrite_all; [|apply zlen_spaces|lia|rewrite zlen_map; lia].
  change (take (Z.to_nat (40 * 0)) spaces) with (@nil Z).
  rewrite drop_ge, app_nil_r; [done|]. pose proof zlen_spaces as H. rewrite zlen_map. unfold TEXT, zlen in *. lia.
Qed.

(** ** The page *)

Lemma header_key_range row m p sp : row_ok row -> 1 <= m <= 8 -> header_key m row = Some (p, sp) ->
  in_range p /\ 0 <= sp < 0x80.
Proof.
  intros Hrow Hm. unfold header_key, in_range.
  pose proof (dh_range row 3 Hrow ltac:(lia)). pose proof (dh_range row 2 Hrow ltac:(lia)).
  pose proof (dh_range row 4 Hrow ltac:(lia)).
  repeat (case_if; [done|]). intros [= <- <-]. split; [lia|]. case_if; [apply subpage_range|]; lia.
Qed.

(** Packing the buffer away and reading the page back. *)
Lemma packed_away m p sp b s : receiving m p sp b s -> 1 <= m <= 8 -> in_range p -> 0 <= sp < 0x80 ->
  runs (compress_current m ;;; tuxtxt_decompress_page p sp) s (fun text s' => text = b /\ inv s').
Proof.
  intros ((Hw & Hc & Hpg) & L1 & L2 & L3) Hm Hp Hs. unfold in_range in Hp.
  destruct (Hc m p sp) as [pg Hg]; [done..|lia|lia|].
  assert (zlen b = TEXT) as Hb.
  { destruct (wf_pagedata s Hw) as [_ Fp]. apply (Forall_lookup_1 _ _ _ _ Fp L3). }
  assert (compress_current m s = Ok (tt, compressed s p sp pg (alloc_ok s) b)) as Hrun.
  { unfold compress_current. erewrite mbind_run by (apply cur_run; [lia|exact L1|exact L2]).
    cbn [fst snd].
    erewrite (mbind_run _ _ _ b s) by (unfold get_pagedata, idx; mrun; rif; by rewrite L3).
    apply compress_run; [lia|lia|done]. }
  destruct (safe_compress_current s m Hw Hc Hm) as (a & s1 & E1 & W1 & R1 & _).
  { intros k K1 K2. rewrite L1 in K1. rewrite L2 in K2. injection K1 as <-. injection K2 as <-. lia. }
  rewrite Hrun in E1. injection E1 as _ <-.
  eapply runs_run; [exact Hrun|]. eexists _, _. split; [apply decompress_compressed; [lia|lia|done]|].
  rewrite (alloc_ok_true s Hw) in *. split; [done|]. pose proof R1 as [_ _ _ Rpg].
  split; [done|]. split; [by eapply curr_rel|congruence].
Qed.

(** C6: when a header that erases its page is followed by any packets of any
    magazines, none of them a header of this one, as long as memory lasts, and
    the magazine's buffer is then packed, which the next header of the magazine does first, the cached
    page unpacks to blanks with the magazine's rows of text written over them
    in the order they came (seven-bit characters of a decimal page, 8/4 data of
    page ?fe, raw bytes of other hexadecimal pages).  When they came as rows 1
    to 23, that is their text, one after the other. *)
Theorem page_is_received s m p sp header rows :
  inv s -> row_ok header -> row_addr header = Some (m, 0) ->
  header_key m header = Some (p, sp) -> erases header = true ->
  Forall (fun row => row_ok row /\ row_addr row <> Some (m, 0)) rows ->
  let mine := omap (text_packet m) rows in
  runs (handle_row header ;;; handle_rows rows ;;; compress_current m ;;; tuxtxt_decompress_page p sp) s
    (fun text s' => inv s' /\ text = overwrite p spaces mine /\
      (map fst mine = seqZ 1 23 -> text = mjoin (map (text_row p) (map snd mine)))).
Proof.
  intros Hi Hh Ha Hk He Hrows mine. pose proof (row_addr_magazine _ _ _ Ha) as Hm.
  destruct (header_key_range _ _ _ _ Hh Hm Hk) as [Hp Hs]. unfold in_range in Hp.
  eapply runs_bind; [by eapply header_received|]. intros ? s1 Hrec.
  eapply runs_bind; [apply (rows_received m p sp); [done|lia|lia|exact Hrec|done]|]. intros ? s2 Hrec2.
  eapply runs_weaken; [by apply (packed_away m p sp (overwrite p spaces mine))|]. intros text s' [-> Hi'].
  split; [done|]. split; [done|]. intros Hall. by apply overwrite_complete.
Qed.

(** ** At a concrete page *)

(** Page 100 between the rows of another magazine. *)
Definition page_100 : list (list Z) :=
  flat_map (fun n => [packet 1 n (replicate 40 (0x40 + n)); packet 2 n (replicate 40 0x20)]) (seqZ 1 23).

Lemma page_is_received_witness :
  runs (handle_row (header 1 0 0) ;;; handle_rows page_100 ;;; compress_current 1 ;;;
        tuxtxt_decompress_page 0x100 0) cleared
    (fun text _ => text = flat_map (fun n => replicate 40 (0x40 + n)) (seqZ 1 23)).
Proof.
  eapply runs_weaken.
  - apply (page_is_received cleared 1 0x100 0 (header 1 0 0) page_100 inv_cleared).
    + apply row_okb_ok. by vm_compute.
    + by vm_compute.
    + by vm_compute.
    + by vm_compute.
    + apply Forall_forall. intros row Hr.
      assert (forallb (fun row => row_okb row && match row_addr row with Some (1, 0) => false | _ => true end)
        page_100 = true) as Hf by (by vm_compute).
      rewrite forallb_forall in Hf. specialize (Hf row Hr). apply andb_prop in Hf as [H1 H2].
      split; [by apply row_okb_ok|]. intros E. by rewrite E in H2.
  - cbv beta zeta. intros text s' (_ & _ & Hall). rewrite Hall by (by vm_compute). by vm_compute.
Defined.
