(* ===== verification/TxtFindings.v ===== *)
(** * Where the teletext cache goes wrong

    Behaviours that the code does not mean to have, proved of the model: the
    links of level 2.5 lose every magazine but the eighth, the TOP tables lead
    out of the page table, a restarted thread packs an uninitialised buffer,
    and a page that cannot be allocated is written through a null pointer.
    The other findings are properties of the files that model the code. *)

From stdpp Require Import gmap.
From S2P Require Import Prelude TxtCode TxtCodeSpec TxtCache TxtThread TxtPageSpec TxtPackSpec TxtP28Spec TxtInv TxtSafety TxtFrame TxtReceive.

Open Scope Z_scope.

#[local] Opaque pack unpack spaces zero_mask seqZ.

(** ** Links of level 2.5 *)

(** The last two digits of the linked page and its magazine, relative to that
    of the packet. *)
Definition link_digits (d1 : Z) : Z := 16 * field d1 14 4 + field d1 6 4.
Definition link_magazine (d1 : Z) : Z := field d1 11 3.

Lemma shiftr_land_field d a w k : 0 <= a -> 0 <= w -> 0 <= k <= a ->
  Z.shiftr (Z.land d (Z.shiftl (Z.ones w) a)) k = Z.shiftl (field d a w) (a - k).
Proof.
  intros Ha Hw Hk. apply Z.bits_inj'. intros i Hi.
  rewrite Z.shiftr_spec, Z.land_spec, !Z.shiftl_spec by lia.
  unfold field. rewrite <- Z.shiftr_div_pow2, <- Z.land_ones by lia.
  replace (i + k - a) with (i - (a - k)) by lia.
  destruct (Z.lt_ge_cases (i - (a - k)) 0) as [Hlt|Hge].
  - rewrite !(Z.testbit_neg_r _ (i - (a - k))) by lia. apply andb_false_r.
  - rewrite Z.land_spec, Z.shiftr_spec by lia. do 2 f_equal. lia.
Qed.

Lemma p27_number_digits row d1 : p27_number row d1 =
  Z.lxor (link_digits d1 + 256 * link_magazine d1) (Z.shiftl (dh row 0) 8).
Proof.
  unfold p27_number, link_digits, link_magazine. f_equal.
  assert (Z.shiftr (Z.land d1 0x3c0) 6 = field d1 6 4) as -> by (apply (shiftr_land_field d1 6 4 6); lia).
  assert (Z.shiftr (Z.land d1 0x3c000) 10 = Z.shiftl (field d1 14 4) 4) as -> by (apply (shiftr_land_field d1 14 4 10); lia).
  assert (Z.shiftr (Z.land d1 0x3800) 3 = Z.shiftl (field d1 11 3) 8) as -> by (apply (shiftr_land_field d1 11 3 3); lia).
  pose proof (field_range d1 6 4 ltac:(lia)). pose proof (field_range d1 14 4 ltac:(lia)).
  rewrite (Z.lor_comm (field d1 6 4)), lor_shiftl_add, Z.lor_comm, lor_shiftl_add by lia. lia.
Qed.

Lemma lxor_high a g h : 0 <= a < 256 -> Z.lxor (a + 256 * g) (Z.shiftl h 8) = a + 256 * Z.lxor g h.
Proof.
  intros Ha. change 256 with (2 ^ 8). rewrite !(Z.mul_comm (2 ^ 8)), !add_disjoint by lia.
  rewrite Z.lxor_assoc. f_equal. rewrite <- !Z.shiftl_mul_pow2 by lia. by rewrite <- Z.shiftl_lxor.
Qed.

Lemma lxor_odd g m : 0 <= g < 8 -> 0 <= m < 8 -> Z.lxor g (m + 8) = Z.lxor g m + 8 /\ 0 <= Z.lxor g m < 8.
Proof.
  intros Hg Hm.
  pose proof (forall_range_in (fun g => forallb (fun k => let m := Z.of_nat k in
    (Z.lxor g (m + 8) =? Z.lxor g m + 8) && (0 <=? Z.lxor g m) && (Z.lxor g m <? 8)) (seq 0 8)) 8 g
    ltac:(by vm_compute) Hg) as H.
  pose proof (forall_range_in (fun m => (Z.lxor g (m + 8) =? Z.lxor g m + 8) && (0 <=? Z.lxor g m) &&
    (Z.lxor g m <? 8)) 8 m H Hm) as Hk. cbv beta in Hk. lia.
Qed.

(** Packet 27 has an odd number: bit 3 of its first nibble is set. *)
Lemma p27_number_value row d1 m : dh row 0 = m + 8 -> 0 <= m < 8 ->
  p27_number row d1 = 0x800 + 256 * Z.lxor (link_magazine d1) m + link_digits d1 /\
  0 <= link_digits d1 < 256 /\ 0 <= Z.lxor (link_magazine d1) m < 8.
Proof.
  intros Hr Hm. pose proof (field_range d1 6 4 ltac:(lia)). pose proof (field_range d1 14 4 ltac:(lia)).
  pose proof (field_range d1 11 3 ltac:(lia)).
  assert (0 <= link_digits d1 < 256) by (unfold link_digits; lia).
  destruct (lxor_odd (link_magazine d1) m) as [E R]; [unfold link_magazine; lia|done|].
  rewrite p27_number_digits, Hr, lxor_high, E by done. lia.
Qed.

(** C40: in packet 27/4 the magazine of a link is relative to that of the
    packet, but the code takes bit 3 of the packet's first nibble, which is
    part of the odd packet number, for part of it.  A link to a page of
    magazines 1 to 7 therefore becomes a number of 0x900 or more: the link is
    dropped (the next one takes its place), and the entry keeps that number,
    which is outside the page table, with its level 2.5 flag. *)
Theorem p27_drops_magazines row p sp i k e links d1 d2 m s :
  wf s -> has_ext s (p, sp) e -> p27 e = Some links -> 0 <= k < 4 ->
  deh24_at row (6 * i + 3) = Ok d1 -> deh24_at row (6 * i + 6) = Ok d2 -> 0 <= d1 -> 0 <= d2 ->
  dh row 0 = m + 8 -> 0 <= m < 8 ->
  Z.lxor (link_magazine d1) m <> 0 -> link_digits d1 <> 0xff ->
  exists s' e' links' link, p27_link row p sp i k s = Ok (k, s') /\
    has_ext s' (p, sp) e' /\ p27 e' = Some links' /\ links' !! Z.to_nat k = Some link /\
    p27_page link = 0x800 + 256 * Z.lxor (link_magazine d1) m + link_digits d1 /\
    0x900 <= p27_page link /\ p27_l25 link = negb (Z.land d1 0x04 =? 0).
Proof.
  intros Hw Hext Hl Hk E1 E2 P1 P2 Hr Hm Hne Hff.
  destruct (p27_number_value row d1 m Hr Hm) as (En & Hdig & Hmag).
  pose proof Hext as (pg & Hg & He). destruct (wf_page s p sp pg Hw Hg) as (Hpr & Hs & Hok).
  pose proof (info_ext _ (page_info _ Hok) e He) as Hek. pose proof (ext_p27 e Hek links Hl) as Hlen.
  unfold in_range in Hpr.
  set (n := 0x800 + 256 * Z.lxor (link_magazine d1) m + link_digits d1) in *.
  assert (Z.land n 0xff = link_digits d1) as Hlow.
  { change 0xff with (Z.ones 8). rewrite Z.land_ones by lia. unfold n.
    replace (0x800 + 256 * Z.lxor (link_magazine d1) m + link_digits d1)
      with (link_digits d1 + (8 + Z.lxor (link_magazine d1) m) * 2 ^ 8) by lia.
    rewrite Z.mod_add by lia. apply Z.mod_small. lia. }
  assert (get_ext p sp s = Ok (Some e, s)) as Hget.
  { unfold get_ext. erewrite mbind_run by (apply page_at_run; lia). by rewrite Hg, He. }
  unfold p27_link. mrun. rewrite E1. mrun. rewrite E2. mrun.
  replace ((d1 <? 0) || (d2 <? 0)) with false by lia. rewrite En.
  replace (n <? 0x100) with false by lia. rewrite Hlow.
  replace (link_digits d1 =? 0xff) with false by lia. replace (0x899 <? n) with true by lia.
  erewrite mbind_run by exact Hget. cbv beta iota. rewrite Hl. mrun. rewrite upd_ok by lia. mrun.
  unfold put_ext, info_mod.
  erewrite mbind_run by (eapply page_mod_run; [lia|lia|exact Hg]).
  eexists _, _, _, _. split; [reflexivity|].
  split; [eexists; split; [rewrite table_set; apply lookup_insert_eq|reflexivity]|].
  split; [by destruct e|]. split; [apply list_lookup_insert_eq; unfold zlen in Hlen; lia|].
  split; [done|]. split; [cbn; lia|done].
Qed.

(** ** TOP tables *)

(** [tuxtxt_decode_adip] reads the entry before the table of its pages
    when there are none, for example right after the cache was cleared: the
    loop that shrinks the table looks at the entry before it looks at the
    index. *)
Theorem decode_adip_reads_before_table s :
  maxadippg s = -1 -> tuxtxt_decode_adip s = Fault.
Proof.
  intros Hm. unfold tuxtxt_decode_adip. mrun. rewrite Hm, seqZ_nil by lia. cbn [mloop adip_shrink]. mrun.
  by rewrite Hm.
Qed.

(** a link of the page linking table whose first digit is 9 to 13 is
    stored like any other, and decoding the linked page then reads behind the
    table of subpages: the check that a page is cached does not check that it
    can be. *)
Theorem btt_link_leaves_table btt i s m :
  let h k := dehamming (at_ btt (800 + 8 * i + k)) in
  9 <= h 0 <= 13 -> 0 <= h 1 < 16 -> 0 <= h 2 < 16 -> h 7 = 2 ->
  maxadippg s + 1 = m -> 0 <= m < zlen (adippg s) -> zlen (subpagetable s) = 0x900 ->
  exists s', btt_link btt i s = Ok (Next, s') /\ maxadippg s' = m /\
    (exists q, idx (adippg s') m = Ok q /\ 0x900 <= q) /\ adip_page m s' = Fault.
Proof.
  intros h H0 H1 H2 H7 Hm Hr Hl. unfold btt_link. fold (h 0) (h 1) (h 2) (h 7).
  replace (h 0 =? 0xE) with false by lia. replace (h 0 =? 0xF) with false by lia.
  replace (negb (h 7 =? 2)) with false by lia.
  replace ((h 0 =? 0xFF) || (h 1 =? 0xFF) || (h 2 =? 0xFF)) with false by lia.
  set (q := Z.lor (Z.lor (Z.shiftl (h 0) 8) (Z.shiftl (h 1) 4)) (h 2)).
  assert (0x900 <= q) as Hq.
  { unfold q. rewrite <- Z.lor_assoc, (lor_shiftl_add (h 1)) by lia. rewrite lor_shiftl_add by lia. lia. }
  mrun. rewrite Hm, upd_ok by lia. mrun. eexists. split; [reflexivity|].
  set (s' := set_adippg _ _).
  assert (idx (adippg s') m = Ok q) as Hi.
  { unfold idx, s'. cbn. rif. by rewrite list_lookup_insert_eq by (unfold zlen in Hr; lia). }
  split; [done|]. split; [by exists q|].
  unfold adip_page. mrun. rewrite Hi. mrun. replace (q =? 0) with false by lia.
  assert (idx (subpagetable s') q = Fault) as ->; [|done].
  unfold idx. rif. assert (subpagetable s' = subpagetable s) as -> by done.
  rewrite lookup_ge_None_2; [done|]. unfold zlen in Hl. lia.
Qed.

(** ** Allocation and restart *)

Lemma mbind_fault {S A B} (m : M S A) (k : A -> M S B) s : m s = Fault -> mbind_ m k s = Fault.
Proof. intros H. unfold mbind_. by rewrite H. Qed.

(** when the memory for a new page cannot be had, the header is handled
    as if it could: the thread writes through a null pointer. *)
Theorem header_without_memory_faults s row m p sp sp0 r :
  wf s -> row_ok row -> row_addr row = Some (m, 0) -> header_key m row = Some (p, sp) ->
  current_page s !! Z.to_nat m = Some (-1) -> current_subpage s !! Z.to_nat m = Some sp0 ->
  astCachetable s !! (p, sp) = None ->
  handle_row row (set_heap (false :: r) s) = Fault.
Proof.
  intros Hw Hrow Ha Hk L1 L2 Hg. pose proof (row_addr_magazine _ _ _ Ha) as Hm.
  destruct (header_key_range _ _ _ _ Hrow Hm Hk) as [Hp Hs]. unfold in_range in Hp.
  destruct (wf_cur s Hw) as [LC _]. destruct (wf_cursub s Hw) as [LS _].
  destruct (wf_subpages s Hw) as [LT _]. destruct (wf_pagedata s Hw) as [LP _]. clear Hw.
  rename s into s'. set (s := set_heap (false :: r) s'). assert (heap s = false :: r) as Hh by done.
  change (current_page s') with (current_page s) in *. change (current_subpage s') with (current_subpage s) in *.
  change (astCachetable s') with (astCachetable s) in *. change (pagedata s') with (pagedata s) in *.
  change (subpagetable s') with (subpagetable s) in *. clearbody s. clear s'.
  pose proof (dh_range row 3 Hrow ltac:(lia)) as D3. pose proof (dh_range row 2 Hrow ltac:(lia)) as D2.
  rewrite handle_row_addr, Ha. unfold handle_packet. erewrite mbind_run by (apply cur_run; [lia|exact L1|exact L2]).
  cbn [fst snd Z.eqb negb andb]. erewrite mbind_run by reflexivity.
  apply mbind_fault. revert Hk. unfold header_key, packet_0. case_if; [done|].
  rewrite page_number_range by lia. cbv zeta. erewrite mbind_run by reflexivity. cbv beta.
  erewrite mbind_run by (apply put_current_page_run; cbn; lia). cbv beta.
  case_if; [done|]. case_if; [done|]. intros [= Ep Es]. rewrite Ep in *. rewrite Es in *.
  erewrite mbind_run by (apply put_current_subpage_run; cbn; lia). cbv beta.
  set (s2 := set_current_subpage _ _). erewrite (mbind_run mget) by reflexivity. cbv beta.
  erewrite mbind_run by (rewrite upd_ok by (cbn; lia); reflexivity). cbv beta.
  erewrite mbind_run by reflexivity. cbv beta.
  set (s3 := set_subpagetable _ _).
  assert (tuxtxt_allocate_cache m s3 = Ok (tt, set_heap r s3)) as Hal.
  { rewrite (allocate_run s3 m p sp); [unfold alloc_ok, s3, s2; cbn; by rewrite Hh| | |lia|lia|exact Hg].
    all: unfold idx; rif; cbn; by rewrite list_lookup_insert_eq by (unfold zlen in *; lia). }
  erewrite mbind_run by exact Hal. cbv beta.
  assert (forall s', astCachetable s' = astCachetable s -> page_at p sp s' = Ok (None, s')) as Hat.
  { intros s' Es'. by rewrite page_at_run, Es', Hg by lia. }
  assert (tuxtxt_decompress_page p sp (set_heap r s3) = Ok (spaces, set_heap r s3)) as Hdec.
  { unfold tuxtxt_decompress_page. by erewrite mbind_run by by apply Hat. }
  erewrite mbind_run by exact Hdec. cbv beta.
  assert (put_pagedata m spaces (set_heap r s3) =
    Ok (tt, set_pagedata (<[Z.to_nat m := spaces]> (pagedata s)) (set_heap r s3))) as Hput.
  { unfold put_pagedata. mrun. by rewrite upd_ok by (cbn; lia). }
  erewrite mbind_run by exact Hput. cbv beta. apply mbind_fault.
  unfold header_controls. by erewrite mbind_run by by apply Hat.
Qed.

Lemma decompress_table s s' p sp t : astCachetable s' = astCachetable s -> 0 <= p < 0x900 -> 0 <= sp < 0x80 ->
  tuxtxt_decompress_page p sp s = Ok (t, s) -> tuxtxt_decompress_page p sp s' = Ok (t, s').
Proof.
  intros He Hp Hs. unfold tuxtxt_decompress_page.
  erewrite mbind_run by by apply page_at_run. intros H.
  erewrite mbind_run by by apply page_at_run. rewrite He.
  destruct (astCachetable s !! (p, sp)) as [pg|]; [|by injection H as <-].
  destruct (pData pg) as [d|]; [|by injection H as <-].
  destruct (unpack (bitmask pg) d); try done. by injection H as <-.
Qed.

(** a header packs the buffer of its magazine into the page that the
    magazine received last, even when the thread was restarted in between:
    the buffers are locals of the thread that nothing initialises, while the
    current pages survive in the cache.  Whatever bytes [b] the new thread
    finds on its stack become the text of a page of the same service. *)
Theorem restart_packs_stale_buffer s row m p sp b :
  receiving m p sp b s -> row_ok row -> row_addr row = Some (m, 0) ->
  in_range p -> 0 <= sp < 0x80 -> dh row 3 = 0xFF ->
  runs (handle_row row ;;; tuxtxt_decompress_page p sp) s (fun text _ => text = b).
Proof.
  intros Hrec Hrow Ha Hp Hs Herr. pose proof (row_addr_magazine _ _ _ Ha) as Hm. unfold in_range in Hp.
  pose proof Hrec as ((Hw & Hc & Hpg) & L1 & L2 & L3).
  destruct (Hc m p sp) as [pg Hg]; [done..|lia|lia|].
  assert (zlen b = TEXT) as Hb.
  { destruct (wf_pagedata s Hw) as [_ Fp]. apply (Forall_lookup_1 _ _ _ _ Fp L3). }
  destruct (wf_cur s Hw) as [LC _].
  set (s1 := compressed s p sp pg (alloc_ok s) b).
  assert (compress_current m s = Ok (tt, s1)) as Hcomp.
  { unfold compress_current. erewrite mbind_run by (apply cur_run; [lia|exact L1|exact L2]).
    cbn [fst snd].
    erewrite (mbind_run _ _ _ b s) by (unfold get_pagedata, idx; mrun; rif; by rewrite L3).
    apply compress_run; [lia|lia|done]. }
  set (s2 := set_current_page (<[Z.to_nat m := -1]> (current_page s1)) (set_page_receiving (-1) s1)).
  assert (handle_row row s = Ok (tt, s2)) as Hrun.
  { rewrite handle_row_addr, Ha. unfold handle_packet. erewrite mbind_run by (apply cur_run; [lia|exact L1|exact L2]). cbn [fst snd Z.eqb andb].
    replace (negb (p =? -1) && negb (sp =? -1)) with true by lia.
    erewrite mbind_run by exact Hcomp. cbv beta.
    erewrite (mbind_run _ _ _ false s2); [done|].
    unfold packet_0. cbv zeta. rewrite Herr. cbn [Z.eqb Pos.eqb orb].
    erewrite mbind_run by reflexivity. cbv beta.
    erewrite mbind_run by (apply put_current_page_run; cbn; lia). done. }
  eapply runs_run; [exact Hrun|]. exists b, s2. split; [|done].
  apply (decompress_table s1); [done|lia|lia|].
  unfold s1. rewrite decompress_compressed, alloc_ok_true by (done || lia). done.
Qed.

(** ** At concrete packets *)

(** A packet 27/4 of magazine 2 whose first link leads to page 100. *)
Definition link_row : list Z :=
  packet 2 27 (ham8 4 :: flat_map (fun k => let w := code24 (if k =? 0 then 0x1804 else 0x12345) in
    [byte_of w 0; byte_of w 1; byte_of w 2]) (seqZ 0 13)).

(** Page 200 with room for links. *)
Definition linked : St :=
  set_astCachetable (<[(0x200, 0) := set_pageinfo (set_ext (Some (set_p27 (Some (replicate 4 zero_p27)) zero_ext))
    zero_info) blank_page]> (astCachetable cleared)) cleared.

Lemma page_ok_linked : page_ok (set_pageinfo (set_ext
  (Some (set_p27 (Some (replicate 4 zero_p27)) zero_ext)) zero_info) blank_page).
Proof.
  constructor; [|done|right; by left]. apply info_ok_ext; [done|]. intros e [= <-].
  by apply ext_ok_links; [apply ext_ok_zero|].
Qed.

Lemma p27_drops_magazines_witness :
  exists s' e' links' link, p27_link link_row 0x200 0 0 0 linked = Ok (0, s') /\
    has_ext s' (0x200, 0) e' /\ p27 e' = Some links' /\ links' !! Z.to_nat 0 = Some link /\
    p27_page link = 0x900.
Proof.
  destruct (p27_drops_magazines link_row 0x200 0 0 0 (set_p27 (Some (replicate 4 zero_p27)) zero_ext)
    (replicate 4 zero_p27) 0x1804 0x12345 2 linked) as (s' & e' & links' & link & E & H1 & H2 & H3 & H4 & _).
  - apply wf_set_page; [apply inv_cleared|done..|apply page_ok_linked].
  - eexists. split; [unfold linked; rewrite table_set; apply lookup_insert_eq|done].
  - done.
  - lia.
  - by vm_compute.
  - by vm_compute.
  - lia.
  - lia.
  - by vm_compute.
  - lia.
  - by vm_compute.
  - by vm_compute.
  - exists s', e', links', link. split_and!; [done..|]. rewrite H4. by vm_compute.
Defined.

Lemma header_without_memory_faults_witness : handle_row (header 1 0 0) (set_heap [false] cleared) = Fault.
Proof.
  apply (header_without_memory_faults cleared (header 1 0 0) 1 0x100 0 (-1)); [apply inv_cleared|..].
  - apply row_okb_ok. by vm_compute.
  - by vm_compute.
  - by vm_compute.
  - by vm_compute.
  - by vm_compute.
  - by vm_compute.
Defined.
