(* ===== verification/TxtObject.v ===== *)
(** * Objects and enhancements of level 2.5 (libtuxtxt/tuxtxt_common.h)

    A page of level 2.5 carries triplets of 18 bits that change characters and
    attributes of the decoded page: its own (packets 26) and those of objects
    that it invokes, from its own packets or from object pages.  Objects can
    invoke objects.

    [object_loop] is the loop of [tuxtxt_eval_object]; a turn takes one unit
    of fuel, and so does an invocation.  The page on the screen ([Scr]) is two
    arrays of 25 rows of 40; the cache is only read. *)

From stdpp Require Import gmap.
From S2P Require Import Prelude TxtCode TxtCache.

Open Scope Z_scope.

(** ** Constants *)

Definition C_G0P : Z := 0.
Definition C_G0S : Z := 1.
Definition C_G1C : Z := 2.
Definition C_G1S : Z := 3.
Definition C_G2 : Z := 4.
Definition C_G3 : Z := 5.
Definition C_OFFSET_DRCS : Z := 32.
Definition tuxtxt_color_black : Z := 0.
Definition tuxtxt_color_white : Z := 7.
Definition tuxtxt_color_transp : Z := 35.

Inductive tObjType : Type := OBJ_PASSIVE | OBJ_ACTIVE | OBJ_ADAPTIVE.

(** [(tObjType)(n % 3)] *)
Definition obj_type (n : Z) : tObjType :=
  if Z.rem n 3 =? 0 then OBJ_PASSIVE else if Z.rem n 3 =? 1 then OBJ_ACTIVE else OBJ_ADAPTIVE.

(** ** Data *)

Record PageAttr : Type := mkAttr {
  fg : Z;
  bg : Z;
  charset : Z;
  doubleh : bool;
  doublew : bool;
  IgnoreAtBlackBgSubst : bool;
  concealed : bool;
  inverted : bool;
  flashing : Z;
  diacrit : Z;
  underline : bool;
  boxwin : bool;
  setX26 : bool;
  setG0G2 : Z
}.
#[export] Instance PageAttr_eta : Eta PageAttr := fun r => mkAttr (fg r) (bg r) (charset r) (doubleh r)
  (doublew r) (IgnoreAtBlackBgSubst r) (concealed r) (inverted r) (flashing r) (diacrit r) (underline r)
  (boxwin r) (setX26 r) (setG0G2 r).
Definition set_fg := setter! fg.
Definition set_bg := setter! bg.
Definition set_charset := setter! charset.
Definition set_doubleh := setter! doubleh.
Definition set_doublew := setter! doublew.
Definition set_IgnoreAtBlackBgSubst := setter! IgnoreAtBlackBgSubst.
Definition set_concealed := setter! concealed.
Definition set_inverted := setter! inverted.
Definition set_flashing := setter! flashing.
Definition set_diacrit := setter! diacrit.
Definition set_underline := setter! underline.
Definition set_boxwin := setter! boxwin.
Definition set_setX26 := setter! setX26.
Definition set_setG0G2 := setter! setG0G2.

(** The page being decoded and the variables of the cache that decoding writes. *)
Record Scr : Type := mkScr {
  page_char : list Z;             (* 25*40 *)
  page_atrb : list PageAttr;      (* 25*40 *)
  FullRowColor : list Z;          (* 25 *)
  FullScrColor : Z;
  tAPx : Z;                       (* temporary offset of the next object *)
  tAPy : Z
}.
#[export] Instance Scr_eta : Eta Scr := fun r => mkScr (page_char r) (page_atrb r) (FullRowColor r)
  (FullScrColor r) (tAPx r) (tAPy r).
Definition set_page_char := setter! page_char.
Definition set_page_atrb := setter! page_atrb.
Definition set_FullRowColor := setter! FullRowColor.
Definition set_FullScrColor := setter! FullScrColor.
Definition set_tAPx := setter! tAPx.
Definition set_tAPy := setter! tAPy.

(** The variables of one evaluation of an object. *)
Record Loc : Type := mkLoc {
  APx : Z;                        (* active position, relative to the object's origin *)
  APy : Z;
  drcssubp : Z;
  gdrcssubp : Z;
  endcol : Z;
  attrPassive : PageAttr
}.
#[export] Instance Loc_eta : Eta Loc := fun r => mkLoc (APx r) (APy r) (drcssubp r) (gdrcssubp r)
  (endcol r) (attrPassive r).
Definition set_APx := setter! APx.
Definition set_APy := setter! APy.
Definition set_drcssubp := setter! drcssubp.
Definition set_gdrcssubp := setter! gdrcssubp.
Definition set_endcol := setter! endcol.
Definition set_attrPassive := setter! attrPassive.

Definition attr_default (ignore : bool) : PageAttr :=
  mkAttr tuxtxt_color_white tuxtxt_color_black C_G0P false false ignore false false 0 0 false false false 0x3f.

Definition new_loc : Loc := mkLoc 0 0 0 0 (-1) (attr_default true).

(** ** Cells of the page *)

Definition put_char (off c : Z) : M Scr unit :=
  let! s := mget in
  let! t := mlift (upd (page_char s) off c) in
  mput (set_page_char t s).

Definition get_attr (off : Z) : M Scr PageAttr :=
  let! s := mget in mlift (idx (page_atrb s) off).

Definition put_attr (off : Z) (a : PageAttr) : M Scr unit :=
  let! s := mget in
  let! t := mlift (upd (page_atrb s) off a) in
  mput (set_page_atrb t s).

Definition mod_attr (off : Z) (f : PageAttr -> PageAttr) : M Scr unit :=
  let! a := get_attr off in put_attr off (f a).

(** [do { f; p++; c++; } while (c < limit && cond(p));] from cell [off]. *)
Fixpoint attr_run (fuel : nat) (f : PageAttr -> PageAttr) (cond : PageAttr -> bool) (limit off c : Z) : M Scr unit :=
  match fuel with
  | O => fun _ => Diverge
  | S n =>
      mod_attr off f ;;;
      if c + 1 <? limit then
        let! a := get_attr (off + 1) in
        if cond a then attr_run n f cond limit (off + 1) (c + 1) else mret_ tt
      else mret_ tt
  end.

(** ** Column addresses *)

(** A character: a passive object writes its own attributes with it, the
    others change those of the cell. *)
Definition passive_or (off : Z) (passive direct : PageAttr -> PageAttr) (l : Loc) : M Scr Loc :=
  if endcol l <? 0 then
    let a := passive (attrPassive l) in
    put_attr off a ;;; mret_ (set_attrPassive a l)
  else mod_attr off direct ;;; mret_ l.

(** A colour: [get] and [set] are those of the foreground or background. *)
Definition color_triplet (x0 off newcolor : Z) (get : PageAttr -> Z) (passive set : PageAttr -> PageAttr) (l : Loc) :
    M Scr Loc :=
  if endcol l <? 0 then mret_ (set_attrPassive (passive (attrPassive l)) l)
  else if endcol l =? 40 then
    let! a := get_attr off in
    let oldcolor := get a in
    attr_run 256 set (fun a => get a =? oldcolor) 40 off (x0 + APx l) ;;; mret_ l
  else
    attr_run 256 set (fun _ => true) (endcol l + 1) off (APx l) ;;; mret_ l.

(** Separated mosaics or underlined characters. *)
Definition attr_sep (sep : bool) (a : PageAttr) : PageAttr :=
  if sep then (if charset a =? C_G1C then set_charset C_G1S a else set_underline true a)
  else (if charset a =? C_G1S then set_charset C_G1C a else set_underline false a).

Definition attr_conceal (conc : bool) (a : PageAttr) : PageAttr :=
  if conc then set_fg (bg a) (set_concealed true a) else a.

Definition attributes_triplet (x0 off data : Z) (l : Loc) : M Scr Loc :=
  let flag k := negb (Z.land data k =? 0) in
  let inv a := set_inverted (if flag 0x10 then negb (inverted a) else false) a in
  let size a := set_boxwin (flag 0x02) (set_doubleh (flag 0x01) (set_doublew (flag 0x40) a)) in
  let box a := if flag 0x02 then set_IgnoreAtBlackBgSubst false a else a in
  if endcol l <? 0 then
    mret_ (set_attrPassive
      (attr_sep (flag 0x20) (box (size (inv (attr_conceal (flag 0x04) (attrPassive l)))))) l)
  else
    let c := x0 + (if endcol l =? 40 then APx l else 0) in
    attr_run 256 (fun a => box (size (attr_sep (flag 0x20) (attr_conceal (flag 0x04) (inv a)))))
      (fun _ => true) (endcol l) off c ;;;
    mret_ l.

Definition column_triplet (x0 y0 address mode data : Z) (l : Loc) : M Scr Loc :=
  let l := if negb (mode =? 0x06) then set_APx address l else l in
  let off := (y0 + APy l) * 40 + x0 + APx l in
  let char c cs := put_char off c ;;; passive_or off (set_charset cs) (set_charset cs) l in
  if mode =? 0x00 then
    if Z.shiftr data 5 =? 0
    then let c := Z.land data 0x1f in color_triplet x0 off c fg (set_fg c) (set_fg c) l
    else mret_ l
  else if mode =? 0x01 then
    if 0x20 <=? data then
      put_char off data ;;;
      passive_or off (set_charset C_G1C) (fun a => if charset a =? C_G1S then a else set_charset C_G1C a) l
    else mret_ l
  else if (mode =? 0x02) || (mode =? 0x0b) then char data C_G3
  else if mode =? 0x03 then
    if Z.shiftr data 5 =? 0 then
      let c := Z.land data 0x1f in
      color_triplet x0 off c bg (set_bg c)
        (fun a => let a := set_bg c a in if c =? tuxtxt_color_black then set_IgnoreAtBlackBgSubst true a else a) l
    else mret_ l
  else if mode =? 0x07 then
    if Z.land data 0x60 =? 0
    then let f := set_flashing (Z.land data 0x1f) in passive_or off f f l
    else mret_ l
  else if mode =? 0x08 then
    let f := set_setG0G2 (Z.land data 0x3f) in passive_or off f f l
  else if mode =? 0x09 then
    let f a := set_setX26 true (set_charset C_G0P a) in
    put_char off data ;;; passive_or off f f l
  else if mode =? 0x0c then attributes_triplet x0 off data l
  else if mode =? 0x0d then
    char (Z.land data 0x3f)
      (C_OFFSET_DRCS + (if negb (Z.land data 0x40 =? 0) then 0x10 + drcssubp l else gdrcssubp l))
  else if mode =? 0x0f then char data C_G2
  else if 0x10 <=? mode then
    let f a := set_setX26 true (set_diacrit (Z.land mode 0x0f) (set_charset C_G0P a)) in
    put_char off (if (mode =? 0x10) && (data =? 0x2a) then 0x40 else data) ;;;
    passive_or off f f l
  else mret_ l.

(** ** Row addresses *)

Definition RowAddress2Row (row : Z) : Z := if row =? 40 then 24 else row - 40.

(** [for (; row <= maxrow; row++) FullRowColor[row] = color;] *)
Fixpoint row_colors (n : nat) (row color : Z) : M Scr unit :=
  match n with
  | O => mret_ tt
  | S n =>
      let! s := mget in
      let! t := mlift (upd (FullRowColor s) row color) in
      mput (set_FullRowColor t s) ;;;
      row_colors n (row + 1) color
  end.

Definition full_row_color (row data : Z) : M Scr unit :=
  let maxrow :=
    if (row <=? 24) && (Z.shiftr data 5 =? 0) then row
    else if Z.shiftr data 5 =? 3 then 24
    else -1 in
  row_colors (Z.to_nat (maxrow + 1 - row)) row (Z.land data 0x1f).

(** The evaluation of invoked objects, as the triplets call it. *)
Record Invoke : Type := mkInvoke {
  (* page, subpage, packet, triplet, high, origin *)
  inv_numbered : bool -> Z -> Z -> Z -> Z -> Z -> Z -> M Scr unit;
  (* number of the triplet, type, origin *)
  inv_local : Z -> tObjType -> Z -> Z -> M Scr unit
}.

Definition reset_tAP : M Scr unit := mmodify (fun s => set_tAPx 0 (set_tAPy 0 s)).

(** An invocation: objects outside the 40 columns are left out. *)
Definition invoke_triplet (inv : Invoke) (x0 y0 address mode data : Z) (l : Loc) : M Scr unit :=
  let! s := mget in
  let x1 := u8 (x0 + APx l + tAPx s) in
  let y1 := u8 (y0 + APy l + tAPy s) in
  if negb (Z.land address 0x10 =? 0) then
    if x1 <? 40 then
      inv_numbered inv (negb (Z.land address 0x08 =? 0)) (Z.land data 0x0f) (Z.land address 0x03 + 1)
        (3 * Z.land (Z.shiftr data 5) 0x03 + Z.land mode 0x03) (Z.land (Z.shiftr data 4) 0x01) x1 y1
    else mret_ tt
  else if negb (Z.land address 0x08 =? 0) then
    if x1 <? 40 then
      let descode := Z.lor (Z.shiftl (Z.land address 0x01) 3) (Z.shiftr data 4) in
      let triplet := Z.land data 0x0f in
      inv_local inv (13 * 23 + 13 * descode + triplet) (obj_type triplet) x1 y1
    else mret_ tt
  else mret_ tt.

(** [true]: the object goes on. *)
Definition row_triplet (inv : Invoke) (x0 y0 address mode data : Z) (l : Loc) : M Scr (Loc * bool) :=
  if mode =? 0x00 then
    (if Z.shiftr data 5 =? 0 then mmodify (set_FullScrColor (Z.land data 0x1f)) else mret_ tt) ;;;
    reset_tAP ;;; mret_ (l, true)
  else if mode =? 0x01 then
    if endcol l =? 40 then
      let l := set_APy (RowAddress2Row address) l in
      full_row_color (y0 + APy l) data ;;;
      reset_tAP ;;; mret_ (set_endcol (-1) l, true)
    else reset_tAP ;;; mret_ (l, true)
  else if mode =? 0x04 then
    let l := set_APy (RowAddress2Row address) l in
    let l := if data <? 40 then set_APx data l else l in
    reset_tAP ;;; mret_ (set_endcol (-1) l, true)
  else if mode =? 0x07 then
    if address =? 0x3f then
      let l := set_APx 0 (set_APy 0 l) in
      (if endcol l =? 40 then full_row_color y0 data else mret_ tt) ;;;
      reset_tAP ;;; mret_ (set_endcol (-1) l, true)
    else reset_tAP ;;; mret_ (l, true)
  else if mode =? 0x10 then
    mmodify (fun s => set_tAPx data (set_tAPy (address - 40) s)) ;;;
    mret_ (l, true)
  else if (0x11 <=? mode) && (mode <=? 0x13) then
    invoke_triplet inv x0 y0 address mode data l ;;;
    reset_tAP ;;; mret_ (l, true)
  else if (0x15 <=? mode) && (mode <=? 0x17) then
    if Z.land address 0x08 =? 0 then reset_tAP ;;; mret_ (l, true)
    else reset_tAP ;;; mret_ (set_endcol (-1) l, false)
  else if mode =? 0x18 then
    let l := if Z.land data 0x10 =? 0 then l
             else if negb (Z.land data 0x40 =? 0) then set_drcssubp (Z.land data 0x0f) l
             else set_gdrcssubp (Z.land data 0x0f) l in
    reset_tAP ;;; mret_ (l, true)
  else if mode =? 0x1f then reset_tAP ;;; mret_ (set_endcol (-1) l, false)
  else reset_tAP ;;; mret_ (l, true).

Definition tuxtxt_eval_triplet (inv : Invoke) (x0 y0 iOData : Z) (l : Loc) : M Scr (Loc * bool) :=
  let iAddress := Z.land iOData 0x3f in
  let iMode := Z.land (Z.shiftr iOData 6) 0x1f in
  let iData := Z.land (Z.shiftr iOData 11) 0x7f in
  if iAddress <? 40 then
    let! l := column_triplet x0 y0 iAddress iMode iData l in
    reset_tAP ;;; mret_ (l, true)
  else row_triplet inv x0 y0 iAddress iMode iData l.

(** ** Objects *)

(** The last column of an adaptive object in its line, from triplet [i] on. *)
Fixpoint search_endcol (n : nat) (pg : option CachedPage) (text : list Z) (i col : Z) : res Z :=
  match n with
  | O => Ok col
  | S n =>
      let? d := tuxtxt_iTripletNumber2Data i pg text in
      let address := Z.land d 0x3f in
      let mode := Z.land (Z.shiftr d 6) 0x1f in
      if (d <? 0) || (40 <=? address) &&
         ((mode =? 0x01) || (mode =? 0x04) || (0x15 <=? mode) && (mode <=? 0x17) || (mode =? 0x17))
      then Ok col
      else search_endcol n pg text (i + 1)
             (if (address <? 40) && negb (mode =? 0x06) then address else col)
  end.

(** A read of the cache. *)
Definition of_cache {A} (m : M St A) (s : St) : res A := let? r := m s in Ok (fst r).

Section objects.
Context (cache : St) (pop gpop : Z).

(** [tuxtxt_eval_NumberedObject] over the evaluation of an object: the page,
    its text, the origin, the type and the number of the first triplet. *)
Definition numbered_object (eval : option CachedPage -> list Z -> Z -> Z -> tObjType -> Z -> M Scr unit)
    (p s packet triplet high x0 y0 : Z) : M Scr unit :=
  if packet =? 0 then mret_ tt
  else
    let! link := mlift (of_cache (page_at p s) cache) in
    match link with
    | None => mret_ tt
    | Some link =>
        let! pagedata := mlift (of_cache (tuxtxt_decompress_page p s) cache) in
        let! idata := mlift (deh24_at pagedata (40 * (packet - 1) + 1 + 3 * triplet)) in
        if idata <? 0 then mret_ tt
        else
          let iONr := if negb (high =? 0) then Z.shiftr idata 9 else Z.land idata 0x1ff in
          if iONr <=? 506 then eval (Some link) pagedata x0 y0 (obj_type triplet) iONr else mret_ tt
    end.

Fixpoint object_loop (fuel : nat) (pg : option CachedPage) (text : list Z) (x0 y0 : Z) (t : tObjType)
    (first : bool) (iONr : Z) (l : Loc) : M Scr unit :=
  match fuel with
  | O => fun _ => Diverge
  | S f =>
      let! d := mlift (tuxtxt_iTripletNumber2Data iONr pg text) in
      if d <? 0 then mret_ tt
      else
        let! l := (if endcol l <? 0 then
                     match t with
                     | OBJ_PASSIVE => mret_ l
                     | OBJ_ACTIVE => mret_ (set_endcol 40 l)
                     | OBJ_ADAPTIVE =>
                         let! c := mlift (search_endcol (Z.to_nat (507 - iONr)) pg text iONr (endcol l)) in
                         mret_ (set_endcol c l)
                     end
                   else mret_ l) in
        let eval pg text x y t n := object_loop f pg text x y t true n new_loc in
        let inv := mkInvoke
          (fun global subp packet triplet high =>
             numbered_object eval (if global then gpop else pop) subp packet triplet high)
          (fun n t x1 y1 => eval pg text x1 y1 t n) in
        let! r := tuxtxt_eval_triplet inv x0 y0 d l in
        if snd r || first then object_loop f pg text x0 y0 t false (iONr + 1) (fst r) else mret_ tt
  end.

Definition tuxtxt_eval_object (fuel : nat) (iONr : Z) (pg : option CachedPage) (text : list Z) (x0 y0 : Z)
    (t : tObjType) : M Scr unit :=
  object_loop fuel pg text x0 y0 t true iONr new_loc.

Definition tuxtxt_eval_NumberedObject (fuel : nat) : Z -> Z -> Z -> Z -> Z -> Z -> Z -> M Scr unit :=
  numbered_object (fun pg text x y t n => tuxtxt_eval_object fuel n pg text x y t).

End objects.
