(* ===== verification/TxtRow.v ===== *)
(** * Decoding a row of a teletext page (libtuxtxt/tuxtxt_common.h)

    Characters below 0x20 are spacing attributes: they take a cell of the row,
    shown as a space or as the held mosaic, and change how the cells after them
    are shown.  [col_step] is one turn of the loop over the columns of
    [tuxtxt_DecodePage], [control] its switch over the spacing attributes,
    [Sp] the variables that the loop keeps, [decode_rows] the loop over the
    rows. *)

From stdpp Require Import gmap.
From S2P Require Import Prelude TxtCode TxtCache TxtObject.

Open Scope Z_scope.

(** ** Spacing attributes *)

Definition alpha_black : Z := 0x00.
Definition alpha_white : Z := 0x07.
Definition flash : Z := 0x08.
Definition steady : Z := 0x09.
Definition end_box : Z := 0x0A.
Definition start_box : Z := 0x0B.
Definition normal_size : Z := 0x0C.
Definition double_height : Z := 0x0D.
Definition double_width : Z := 0x0E.
Definition double_size : Z := 0x0F.
Definition mosaic_black : Z := 0x10.
Definition mosaic_white : Z := 0x17.
Definition conceal : Z := 0x18.
Definition contiguous_mosaic : Z := 0x19.
Definition separated_mosaic : Z := 0x1A.
Definition esc : Z := 0x1B.
Definition black_background : Z := 0x1C.
Definition new_background : Z := 0x1D.
Definition hold_mosaic : Z := 0x1E.
Definition release_mosaic : Z := 0x1F.

(** The variables of the loop over the columns. *)
Record Sp : Type := mkSp {
  sp_foreground : Z;
  sp_background : Z;
  sp_doubleheight : bool;
  sp_doublewidth : bool;
  sp_charset : Z;
  sp_previous : Z;                (* previous_charset *)
  sp_mosaictype : bool;
  sp_ignore : bool;               (* IgnoreAtBlackBgSubst *)
  sp_concealed : bool;
  sp_flashmode : Z;
  sp_boxwin : bool;
  sp_hold : Z;                    (* 2: released at this cell *)
  sp_held : Z;                    (* held_mosaic *)
  sp_dhset : bool;
  sp_mosaic_pending : bool;
  sp_esc_pending : bool
}.
#[export] Instance Sp_eta : Eta Sp := fun r => mkSp (sp_foreground r) (sp_background r) (sp_doubleheight r)
  (sp_doublewidth r) (sp_charset r) (sp_previous r) (sp_mosaictype r) (sp_ignore r) (sp_concealed r)
  (sp_flashmode r) (sp_boxwin r) (sp_hold r) (sp_held r) (sp_dhset r) (sp_mosaic_pending r) (sp_esc_pending r).
Definition set_sp_foreground := setter! sp_foreground.
Definition set_sp_background := setter! sp_background.
Definition set_sp_doubleheight := setter! sp_doubleheight.
Definition set_sp_doublewidth := setter! sp_doublewidth.
Definition set_sp_charset := setter! sp_charset.
Definition set_sp_previous := setter! sp_previous.
Definition set_sp_mosaictype := setter! sp_mosaictype.
Definition set_sp_ignore := setter! sp_ignore.
Definition set_sp_concealed := setter! sp_concealed.
Definition set_sp_flashmode := setter! sp_flashmode.
Definition set_sp_boxwin := setter! sp_boxwin.
Definition set_sp_hold := setter! sp_hold.
Definition set_sp_held := setter! sp_held.
Definition set_sp_dhset := setter! sp_dhset.
Definition set_sp_mosaic_pending := setter! sp_mosaic_pending.
Definition set_sp_esc_pending := setter! sp_esc_pending.

(** The start of a row; [transp]: of a boxed page, without a box. *)
Definition row_start (transp : bool) : Sp :=
  mkSp (if transp then tuxtxt_color_transp else tuxtxt_color_white)
       (if transp then tuxtxt_color_transp else tuxtxt_color_black)
       false false C_G0P C_G0P false false false 0 false 0 0x20 false false false.

(** The attributes of the next cell. *)
Definition cell_attr (col : Z) (s : Sp) : PageAttr :=
  mkAttr (sp_foreground s) (sp_background s) (sp_charset s) (sp_doubleheight s)
    (if col <? 39 then sp_doublewidth s else false) (sp_ignore s) (sp_concealed s) false
    (sp_flashmode s) 0 false (sp_boxwin s) false 0x3f.

Definition is_G0 (cs : Z) : bool := (cs =? C_G0P) || (cs =? C_G0S).
Definition is_mosaic (cs : Z) : bool := (cs =? C_G1C) || (cs =? C_G1S).

(** From the primary to the secondary set, and back. *)
Definition switch_G0 (s : Sp) : Sp :=
  if sp_charset s =? C_G0P then set_sp_charset C_G0S (set_sp_previous C_G0S s)
  else if sp_charset s =? C_G0S then set_sp_charset C_G0P (set_sp_previous C_G0P s)
  else s.

(** An ESC that waited for a mosaic character. *)
Definition settle_esc (s : Sp) : Sp :=
  if sp_esc_pending s
  then set_sp_esc_pending false (switch_G0 (set_sp_charset (sp_previous s) s))
  else s.

(** Back to the set before the mosaics. *)
Definition leave_mosaic (s : Sp) : Sp :=
  if negb (is_G0 (sp_charset s)) then set_sp_charset (sp_previous s) s else s.

(** The switch: the attributes of the cell itself and those of the next ones. *)
Definition control (hintmode : bool) (row col c : Z) (a : PageAttr) (s : Sp) : PageAttr * Sp :=
  if c <=? alpha_white then
    let s := set_sp_foreground (c - alpha_black + tuxtxt_color_black) (set_sp_concealed false s) in
    (if (col =? 0) && (c =? alpha_white) then set_fg tuxtxt_color_black a else a, leave_mosaic s)
  else if c =? flash then (a, set_sp_flashmode 1 s)
  else if c =? steady then (set_flashing 0 a, set_sp_flashmode 0 s)
  else if c =? end_box then (a, set_sp_ignore false (set_sp_boxwin false s))
  else if c =? start_box then (a, if negb (sp_boxwin s) then set_sp_boxwin true s else s)
  else if c =? normal_size then
    (set_doublew false (set_doubleh false a), set_sp_doublewidth false (set_sp_doubleheight false s))
  else if c =? double_height then
    let s := if row <? 23 then set_sp_dhset true (set_sp_doubleheight true s) else s in
    (a, set_sp_doublewidth false s)
  else if c =? double_width then
    let s := if col <? 39 then set_sp_doublewidth true s else s in
    (a, set_sp_doubleheight false s)
  else if c =? double_size then
    let s := if row <? 23 then set_sp_dhset true (set_sp_doubleheight true s) else s in
    (a, if col <? 39 then set_sp_doublewidth true s else s)
  else if c <=? mosaic_white then
    let s := set_sp_foreground (c - mosaic_black + tuxtxt_color_black) (set_sp_concealed false s) in
    let s := if is_G0 (sp_charset s) then set_sp_previous (sp_charset s) s else s in
    (a, set_sp_mosaic_pending true (set_sp_charset (if sp_mosaictype s then C_G1S else C_G1C) s))
  else if c =? conceal then
    let a := set_concealed true a in
    let s := set_sp_concealed true s in
    if negb hintmode
    then let s := set_sp_foreground (sp_background s) s in (set_fg (sp_foreground s) a, s)
    else (a, s)
  else if c =? contiguous_mosaic then
    let s := set_sp_mosaictype false s in
    if sp_charset s =? C_G1S then (set_charset C_G1C a, set_sp_charset C_G1C s) else (a, s)
  else if c =? separated_mosaic then
    let s := set_sp_mosaictype true s in
    if sp_charset s =? C_G1C then (set_charset C_G1S a, set_sp_charset C_G1S s) else (a, s)
  else if c =? esc then
    (a, if negb (sp_mosaic_pending s) then switch_G0 (leave_mosaic s) else set_sp_esc_pending true s)
  else if c =? black_background then
    let s := set_sp_ignore false (set_sp_background tuxtxt_color_black s) in
    (set_IgnoreAtBlackBgSubst (sp_ignore s) (set_bg (sp_background s) a), s)
  else if c =? new_background then
    let s := set_sp_background (sp_foreground s) s in
    let s := set_sp_ignore (sp_background s =? tuxtxt_color_black) s in
    (set_IgnoreAtBlackBgSubst (sp_ignore s) (set_bg (sp_background s) a), s)
  else if c =? hold_mosaic then (a, set_sp_hold 1 s)
  else (a, set_sp_hold 2 s).

(** ** Columns and rows *)

Definition get_char (off : Z) : M Scr Z :=
  let! s := mget in mlift (idx (page_char s) off).

Definition col_step (hintmode : bool) (row col : Z) (s : Sp) : M Scr Sp :=
  let index := row * 40 + col in
  put_attr index (cell_attr col s) ;;;
  let! c := get_char index in
  let! s := (if c <? 0x20 then
    let '(a, s) := control hintmode row col c (cell_attr col s) (settle_esc s) in
    put_attr index a ;;;
    put_char index (if negb (sp_hold s =? 0) && is_mosaic (charset a) then sp_held s else 0x20) ;;;
    mret_ (if sp_hold s =? 2 then set_sp_hold 0 s else s)
  else
    let s := set_sp_mosaic_pending false s in
    let s := if is_mosaic (sp_charset s) && (Z.land c 0xA0 =? 0x20) then set_sp_held c s else s in
    let! a := get_attr index in
    (if doubleh a then put_char (index + 40) 0xFF else mret_ tt) ;;;
    mret_ s) in
  mret_ (if negb (is_mosaic (sp_charset s)) then set_sp_held 0x20 s else s).

Fixpoint row_loop (n : nat) (hintmode : bool) (row col : Z) (s : Sp) : M Scr Sp :=
  match n with
  | O => mret_ s
  | S n => let! s := col_step hintmode row col s in row_loop n hintmode row (col + 1) s
  end.

(** [for (i = from; ...; i++) f(i)], [n] turns. *)
Fixpoint mfor {S} (n : nat) (i : Z) (f : Z -> M S unit) : M S unit :=
  match n with
  | O => mret_ tt
  | Datatypes.S n => f i ;;; mfor n (i + 1) f
  end.

(** One row; whether it has a double height attribute. *)
Definition decode_row (hintmode boxed : bool) (row : Z) : M Scr bool :=
  let! s := mget in
  let! chars := mlift (slice (page_char s) (row * 40) 40) in
  let transp := boxed && negb (existsb (Z.eqb start_box) chars) in
  let! s := row_loop 40 hintmode row 0 (row_start transp) in
  mret_ (sp_dhset s).

(** The row below one of double height: the attributes [b] of a cell below one
    with the attributes [a]. *)
Definition below (a b : PageAttr) : PageAttr :=
  set_boxwin (boxwin a) (set_concealed false (set_IgnoreAtBlackBgSubst false (set_doublew false
    (set_doubleh false (set_charset C_G0P (set_flashing 0
      (set_fg tuxtxt_color_white (set_bg (bg a) b)))))))).

Definition skip_col (row col : Z) : M Scr unit :=
  let index := row * 40 + col in
  let! a := get_attr index in
  let! b := get_attr (index + 40) in
  (if negb (doubleh a) then put_char (index + 40) 0x20 else mret_ tt) ;;;
  put_attr (index + 40) (below a b).

Definition skip_row (row : Z) : M Scr unit := mfor 40 0 (skip_col row).

Fixpoint decode_rows (fuel : nat) (hintmode boxed : bool) (row rows : Z) : M Scr unit :=
  match fuel with
  | O => fun _ => Diverge
  | S f =>
      if row <? rows then
        let! dhset := decode_row hintmode boxed row in
        if (row <? 23) && dhset
        then skip_row row ;;; decode_rows f hintmode boxed (row + 2) rows
        else decode_rows f hintmode boxed (row + 1) rows
      else mret_ tt
  end.

(** ** Boxes and the transparent colour *)

Definition box_color (boxed boxwin : bool) (row_color screen_color color : Z) : Z :=
  let bitmask := Z.lor (Z.lor (Z.lor (if color =? 0x08 then 0x08 else 0x00) (if row_color =? 0x08 then 0x04 else 0x00))
                              (Z.shiftl (c_bool boxwin) 1)) (c_bool boxed) in
  if existsb (Z.eqb bitmask) [0x08; 0x0b] then
    (if row_color =? 0x08 then screen_color else row_color)
  else if existsb (Z.eqb bitmask) [0x01; 0x05; 0x09; 0x0a; 0x0c; 0x0d; 0x0e; 0x0f] then tuxtxt_color_transp
  else color.

Definition box_cell (boxed : bool) (r c : Z) : M Scr unit :=
  let o := r * 40 + c in
  let! a := get_attr o in
  let! s := mget in
  let! row_color := mlift (idx (FullRowColor s) r) in
  let color := box_color boxed (boxwin a) row_color (FullScrColor s) in
  put_attr o (set_fg (color (fg a)) (set_bg (color (bg a)) a)).

Definition box_page (boxed : bool) : M Scr unit :=
  mfor 25 0 (fun r => mfor 40 0 (box_cell boxed r)).
