(* ===== verification/TxtPage.v ===== *)
(** * Decoding a page (libtuxtxt/tuxtxt_common.h)

    [tuxtxt_DecodePage] copies a cached page to the arrays of the caller,
    writes the header line, interprets the spacing attributes of the rows
    (TxtRow.v), applies the enhancements of level 2.5 ([tuxtxt_eval_l25], with
    the objects of TxtObject.v) and resolves the transparent colour and boxes.

    [Dec] is the state that it reads and writes: the cache, the arrays of the
    caller and the variables of the cache that only decoding uses. *)

From stdpp Require Import gmap.
From S2P Require Import Prelude TxtCode TxtCache TxtObject TxtRow.

Open Scope Z_scope.

(** ** Data *)

Record Dec : Type := mkDec {
  cache : St;
  scr : Scr;
  pop : Z;
  gpop : Z;
  drcs : Z;
  gdrcs : Z;
  national_subset : Z;
  national_subset_secondary : Z;
  colortable : option (list Z)
}.
#[export] Instance Dec_eta : Eta Dec := fun r => mkDec (cache r) (scr r) (pop r) (gpop r) (drcs r) (gdrcs r)
  (national_subset r) (national_subset_secondary r) (colortable r).
Definition set_cache := setter! cache.
Definition set_scr := setter! scr.
Definition set_pop := setter! pop.
Definition set_gpop := setter! gpop.
Definition set_drcs := setter! drcs.
Definition set_gdrcs := setter! gdrcs.
Definition set_national_subset := setter! national_subset.
Definition set_national_subset_secondary := setter! national_subset_secondary.
Definition set_colortable := setter! colortable.

(** Code that works on one of the two parts. *)
Definition on_cache {A} (m : M St A) : M Dec A := fun d =>
  let? r := m (cache d) in Ok (fst r, set_cache (snd r) d).
Definition on_scr {A} (m : M Scr A) : M Dec A := fun d =>
  let? r := m (scr d) in Ok (fst r, set_scr (snd r) d).

(** [memcpy(&page_char[off], l, n)] *)
Definition put_chars (off : Z) (l : list Z) : M Dec unit :=
  on_scr (let! s := mget in
          let! t := mlift (memcpy_to (page_char s) off l) in
          mput (set_page_char t s)).

(** [tuxtxt_hex2str(page_char + off, n)]: [off] is the last digit. *)
Definition put_hex (off n : Z) : M Dec unit :=
  let digits := tuxtxt_hex2str n in put_chars (off + 1 - zlen digits) digits.

(** ** Level 2.5 *)

Definition MapTblFG : list Z := [0; 0; 8; 8; 16; 16; 16].
Definition MapTblBG : list Z := [8; 16; 8; 16; 8; 16; 24].

Definition tuxtxt_setnational (sec : Z) : Z :=
  if sec =? 0x08 then 8
  else if (sec =? 0x16) || (sec =? 0x36) then 13
  else if sec =? 0x1d then 11
  else if sec =? 0x20 then 14
  else if sec =? 0x24 then 15
  else if sec =? 0x25 then 16
  else if sec =? 0x22 then 3
  else if sec =? 0x23 then 7
  else if sec =? 0x37 then 17
  else if sec =? 0x55 then 18
  else if (sec =? 0x47) || (sec =? 0x57) then 19
  else at_ countryconversiontable (Z.land sec 0x07).

(** The defaults of a packet 28/0 or 29/0. *)
Definition use_ext (e : ExtData) : M Dec unit :=
  mmodify (fun d =>
    let s := set_FullScrColor (DefScreenColor e) (set_FullRowColor (replicate 25 (DefRowColor e)) (scr d)) in
    set_national_subset_secondary (tuxtxt_setnational (SecondCharset e))
      (set_national_subset (tuxtxt_setnational (DefaultCharset e))
        (set_colortable (Some (bgr e)) (set_scr s d)))).

(** The links of packets 27/4 and 27/5. *)
Definition use_p27 (l : list P27) : M Dec unit :=
  let link i set := let! k := mlift (idx l i) in
    if p27_l25 k then mmodify (set (p27_page k)) else mret_ tt in
  link 0 set_gpop ;;; link 1 set_pop ;;; link 2 set_gdrcs ;;; link 3 set_drcs.

Definition remap_cell (subst : bool) (fgmap bgmap : Z) (i : Z) : M Scr unit :=
  let! a := get_attr i in
  let a := set_fg (Z.land (fg a + fgmap) 0x3f) a in
  put_attr i
    (if negb subst || negb (bg a =? tuxtxt_color_black) || IgnoreAtBlackBgSubst a
     then set_bg (Z.land (bg a + bgmap) 0x3f) a else a).

(** *** Links of the magazine organization table *)

(** The page of the link at [o], 0 if there is none. *)
Definition mot_page (p : list Z) (o : Z) : res Z :=
  let? a := idx p o in
  let? b := idx p (o + 1) in
  let? c := idx p (o + 2) in
  let v := Z.land (Z.lor (Z.lor (Z.shiftl a 8) (Z.shiftl b 4)) c) 0x7ff in
  Ok (if Z.land v 0xff =? 0xff then 0 else if v <? 0x100 then v + 0x800 else v).

(** A default object: four bytes of [obj]. *)
Record DefObj : Type := mkObj { do_triplet : Z; do_packet : Z; do_subp : Z; do_high : Z }.

Definition zero_obj : list DefObj := replicate 12 (mkObj 0 0 0 0).

(** Default object [ct] of the link at [o], stored [k] entries further. *)
Definition default_object (p : list Z) (o k mask : Z) (obj : list DefObj) (ct : Z) : res (list DefObj) :=
  let? types := idx p (o + 5) in
  let type := Z.land (Z.shiftr types (2 * ct)) 0x03 in
  if type =? 0 then Ok obj
  else
    let? s := idx p (o + 6 + ct * 2) in
    let? t := idx p (o + 7 + ct * 2) in
    upd obj ((type - 1) * 4 + ct + k)
      (mkObj (u8 (3 * Z.land (Z.shiftr t 1) 0x03 + type)) (Z.shiftr (Z.land t 0x08) 3 + 1)
             (Z.land s mask) (Z.land t 0x01)).

Definition default_objects (p : list Z) (o k mask : Z) (obj : list DefObj) : res (list DefObj) :=
  let? obj := default_object p o k mask obj 1 in default_object p o k mask obj 0.

(** A link to object pages: the page it leaves, and the default objects. *)
Definition object_link (p : list Z) (o k mask old : Z) (p26Received : bool) (obj : list DefObj) :
    res (Z * list DefObj) :=
  let? prio := idx p o in
  if (old =? 0) || (Z.land prio 0x08 =? 0) then
    let? v := mot_page p o in
    if (v =? 0) || p26Received then Ok (v, obj)
    else let? obj := default_objects p o k mask obj in Ok (v, obj)
  else Ok (old, obj).

(** A link to pages of characters. *)
Definition drcs_link (p : list Z) (o old : Z) : res Z :=
  let? prio := idx p o in
  if (old =? 0) || (Z.land prio 0x08 =? 0) then mot_page p o else Ok old.

Definition reset_origin : M Dec unit := on_scr reset_tAP.

Section l25.
Context (fuel : nat).

(** Default object [ct], in the order of types. *)
Definition eval_default_object (obj : list DefObj) (ct : Z) : M Dec unit :=
  let! o := mlift (idx obj ct) in
  if negb (do_triplet o =? 0) then
    reset_origin ;;;
    let! d := mget in
    on_scr (tuxtxt_eval_NumberedObject (cache d) (pop d) (gpop d) fuel
      (if 1 <? Z.rem ct 4 then pop d else gpop d) (do_subp o) (do_packet o) (do_triplet o) (do_high o) 0 0)
  else mret_ tt.

(** [astCachetable[p][0]->pageinfo.function = f], if there is such a page. *)
Definition mark_page (p f : Z) : M Dec unit :=
  on_cache (let! pg := page_at p 0 in
            match pg with Some _ => info_mod p 0 (set_function f) | None => mret_ tt end).

Definition eval_mot (pg : Z) (p26Received : bool) (p : list Z) : M Dec unit :=
  let o := 2 * (Z.shiftr (Z.land pg 0xf0) 4 * 10 + Z.land pg 0x0f) in
  let! a := mlift (idx p o) in
  let! b := mlift (idx p (o + 1)) in
  let opop := Z.land a 0x07 in
  let odrcs := Z.land b 0x07 in
  let! obj := (if negb (Z.land a 0x08 =? 0) then
                 let! d := mget in
                 let! r := mlift (object_link p (18 * 40) 0 0x0f (gpop d) p26Received zero_obj) in
                 mmodify (set_gpop (fst r)) ;;; mret_ (snd r)
               else mret_ zero_obj) in
  let! obj := (if negb (opop =? 0) then
                 let! d := mget in
                 let! r := mlift (object_link p (18 * 40 + 10 * opop) 2 0xff (pop d) p26Received obj) in
                 mmodify (set_pop (fst r)) ;;; mret_ (snd r)
               else mret_ obj) in
  mfor 12 0 (eval_default_object obj) ;;;
  (if negb (Z.land b 0x08 =? 0) then
     let! d := mget in
     let! v := mlift (drcs_link p (20 * 40) (gdrcs d)) in mmodify (set_gdrcs v)
   else mret_ tt) ;;;
  (if negb (odrcs =? 0) then
     let! d := mget in
     let! v := mlift (drcs_link p (20 * 40 + 4 * odrcs) (drcs d)) in mmodify (set_drcs v)
   else mret_ tt) ;;;
  let! d := mget in
  mark_page (gpop d) FUNC_GPOP ;;; mark_page (pop d) FUNC_POP ;;;
  mark_page (gdrcs d) FUNC_GDRCS ;;; mark_page (drcs d) FUNC_DRCS.

Definition subst_cell (r c : Z) : M Scr unit :=
  let o := r * 40 + c in
  let! a := get_attr o in
  if (bg a =? tuxtxt_color_black) && negb (IgnoreAtBlackBgSubst a) then
    let! s := mget in
    let! row_color := mlift (idx (FullRowColor s) r) in
    put_attr o (set_bg (if row_color =? 0x08 then FullScrColor s else row_color) a)
  else mret_ tt.

Definition conceal_cell (i : Z) : M Scr unit :=
  let! a := get_attr i in
  if concealed a then put_attr i (set_fg (bg a) a) else mret_ tt.

(** The enhancements of a page with a decimal number; [pi] is its info. *)
Definition eval_normal_page (hintmode : bool) (pg subpg : Z) (pi : Pageinfo) : M Dec unit :=
  let! pmot := on_cache (page_at (Z.lor (Z.land pg 0xf00) 0xfe) 0) in
  mmodify (fun d => set_pop 0 (set_gpop 0 (set_drcs 0 (set_gdrcs 0 d)))) ;;;
  let! p26Received :=
    match ext pi with
    | None => mret_ false
    | Some e => let! x := mlift (idx (p26 e) 0) in mret_ (match x with Some _ => true | None => false end)
    end in
  (* substitution of the black background, number of the mapping of colours *)
  let! use :=
    match ext pi with
    | None => mret_ (false, 0)
    | Some e =>
        match p27 e with Some l => use_p27 l | None => mret_ tt end ;;;
        if p28Received e then use_ext e ;;; mret_ (BlackBgSubst e, ColorTableRemapping e)
        else mret_ (false, 0)
    end in
  let! d := mget in
  let! p29 := mlift (match colortable d with
                     | None => idx (astP29 (cache d)) (Z.shiftr pg 8)
                     | Some _ => Ok None
                     end) in
  let! use :=
    match p29 with
    | Some e => use_ext e ;;; mret_ (BlackBgSubst e, ColorTableRemapping e)
    | None => mret_ use
    end in
  let '(subst, remapping) := use in
  (if negb (remapping =? 0) then
     let! f := mlift (idx MapTblFG (remapping - 1)) in
     let! b := mlift (idx MapTblBG (remapping - 1)) in
     on_scr (mfor 1000 0 (remap_cell subst f b))
   else mret_ tt) ;;;
  match pmot with
  | Some _ =>
      let! p := on_cache (tuxtxt_decompress_page (Z.lor (Z.land pg 0xf00) 0xfe) 0) in
      eval_mot pg p26Received p
  | None => mret_ tt
  end ;;;
  (if p26Received then
     reset_origin ;;;
     let! d := mget in
     let! link := on_cache (page_at pg subpg) in
     on_scr (tuxtxt_eval_object (cache d) (pop d) (gpop d) fuel (13 * (23 - 2 + 2)) link
       (drop 40 (page_char (scr d))) 0 0 OBJ_ACTIVE)
   else mret_ tt) ;;;
  (if subst then on_scr (mfor 25 0 (fun r => mfor 40 0 (subst_cell r))) else mret_ tt) ;;;
  if negb hintmode then on_scr (mfor 1000 0 conceal_cell) else mret_ tt.

Definition tuxtxt_eval_l25 (hintmode : bool) : M Dec unit :=
  mmodify (fun d => set_colortable None
    (set_scr (set_FullScrColor tuxtxt_color_black (set_FullRowColor (replicate 25 0) (scr d))) d)) ;;;
  let! d := mget in
  let pg := page (cache d) in
  let! link := on_cache (page_at pg (subpage (cache d))) in
  match link with
  | None => mret_ tt
  | Some link =>
      if tuxtxt_is_dec pg then eval_normal_page hintmode pg (subpage (cache d)) (pageinfo link) else mret_ tt
  end.

(** ** Pages that are not shown as text *)

Definition plain_attr : PageAttr := attr_default false.

(** The digits of a magazine organization table. *)
Definition mot_char (i : Z) : M Scr unit :=
  let! c := get_char i in put_char i (u8 (number2char c)).

(** A triplet of an object page: mode, address and data. *)
Definition pop_triplet (i : Z) : M Scr unit :=
  let! s := mget in
  let! d := mlift (deh24_at (page_char s) i) in
  if d <? 0 then put_char i 63 ;;; put_char (i + 1) 63 ;;; put_char (i + 2) 63
  else
    put_char i (u8 (number2char (Z.land (Z.shiftr d 6) 0x1f))) ;;;
    put_char (i + 1) (u8 (number2char (Z.land d 0x3f))) ;;;
    put_char (i + 2) (u8 (number2char (Z.land (Z.shiftr d 11) 0x7f))).

Definition pop_row (row : Z) : M Scr unit :=
  put_char (row * 40) (u8 (number2char row)) ;;;
  mfor 13 0 (fun k => pop_triplet (row * 40 + 1 + 3 * k)).

(** [sizeof(page_char)]: the parameter is a pointer, of 32 bits. *)
Definition sizeof_page_char : Z := 4.

(** Parity or Hamming code of the other pages; [n] characters from [i] on. *)
Fixpoint parity_loop (n : nat) (i : Z) (parityerror : bool) : M Dec bool :=
  match n with
  | O => mret_ parityerror
  | S n =>
      on_scr (put_attr i plain_attr) ;;;
      let! c := on_scr (get_char i) in
      let h := dehamming c in
      if parityerror && negb (h =? 0xFF) then put_hex i h ;;; parity_loop n (i + 1) parityerror
      else if (c =? 0x20) || negb (deparity c =? 0x20) then
        on_scr (put_char i (Z.land c 127)) ;;; parity_loop n (i + 1) parityerror
      else
        (if negb (h =? 0xFF) then put_hex i h else on_scr (put_char i 0x20)) ;;;
        parity_loop n (i + 1) true
  end.

(** Pages whose number is not decimal; [true]: they are not interpreted. *)
Definition irregular_page (fn : Z) : M Dec bool :=
  if fn =? FUNC_MOT then
    on_scr (mfor 960 0 (fun i => put_attr i plain_attr)) ;;;
    on_scr (mfor 920 40 mot_char) ;;;
    mret_ true
  else if (fn =? FUNC_GPOP) || (fn =? FUNC_POP) then
    on_scr (mfor 960 0 (fun i => put_attr i plain_attr)) ;;;
    on_scr (mfor 11 1 pop_row) ;;;
    mret_ true
  else if (fn =? FUNC_GDRCS) || (fn =? FUNC_DRCS) then mret_ true
  else
    on_scr (mfor 8 0 (fun i => put_attr i plain_attr)) ;;;
    parity_loop (Z.to_nat (sizeof_page_char - 40)) 40 false.

(** ** [tuxtxt_DecodePage] *)

Definition header_line (boxed : bool) (pg subpg : Z) : M Dec unit :=
  if boxed then put_chars 0 (replicate 40 0x20)
  else
    put_chars 0 (replicate 8 0x20) ;;;
    put_hex 3 pg ;;;
    if negb (subpg =? 0) then
      put_chars 4 [47] ;;; put_chars 5 [48] ;;; put_hex 6 subpg
    else mret_ tt.

(** The rest, for a page that is interpreted. *)
Definition interpret_page (showl25 hintmode boxed : bool) (rows : Z) : M Dec unit :=
  on_scr (decode_rows 26 hintmode boxed 0 rows) ;;;
  on_scr (mmodify (set_FullScrColor tuxtxt_color_black)) ;;;
  (if showl25 then tuxtxt_eval_l25 hintmode else mret_ tt) ;;;
  on_scr (box_page boxed).

(** The result is the page whose info the code returns. *)
Definition tuxtxt_DecodePage (showl25 hintmode showflof : bool) : M Dec (option (Z * Z)) :=
  let! d := mget in
  let pg := page (cache d) in
  let! sp := mlift (idx (subpagetable (cache d)) pg) in
  if sp =? 0xff then mret_ None
  else
    let tmp_subpage := if zap_subpage_manual (cache d) then subpage (cache d) else sp in
    let! link := on_cache (page_at pg tmp_subpage) in
    match link with
    | None => mret_ None
    | Some link =>
        let! text := on_cache (tuxtxt_decompress_page pg tmp_subpage) in
        put_chars 40 text ;;;
        let! head := mlift (slice (p0 link) 0 24) in
        put_chars 8 head ;;;
        let pi := pageinfo link in
        match p24 pi with
        | Some l => let! l := mlift (slice l 0 40) in put_chars (24 * 40) l
        | None => mret_ tt
        end ;;;
        let! time := mlift (slice (timestring (cache d)) 0 8) in
        put_chars 32 time ;;;
        let boxed := TxtCache.boxed pi && tuxtxt_is_dec pg in
        header_line boxed pg (subpage (cache d)) ;;;
        let! stop := (if negb (tuxtxt_is_dec pg) then irregular_page (function pi) else mret_ false) in
        (if stop then mret_ tt
         else interpret_page showl25 hintmode boxed
                (match p24 pi with Some _ => if showflof then 25 else 24 | None => 24 end)) ;;;
        mret_ (Some (pg, tmp_subpage))
    end.

End l25.
