(* ===== verification/TxtObjectSpec.v ===== *)
(** * What enhancements and objects of level 2.5 do to the page

    The page's own enhancements (packets 26) that invoke no object end and
    stay on the page ([x26_stays_on_page]), and a colour runs to the next
    change of the level 1 page ([active_color_spans]).  Objects are not
    confined: one that invokes itself never ends ([local_object_recurses]),
    and one whose origin is low on the page writes behind it
    ([object_leaves_page]). *)

From stdpp Require Import gmap.
From S2P Require Import Prelude TxtCode TxtCodeSpec TxtCache TxtThread TxtObject TxtPageSpec TxtPackSpec TxtP28Spec TxtInv.

Open Scope Z_scope.

(** ** The screen *)

Record scr_ok (s : Scr) : Prop := mkScrOk {
  scr_char : zlen (page_char s) = 1000;
  scr_atrb : zlen (page_atrb s) = 1000;
  scr_rows : zlen (FullRowColor s) = 25
}.

(** The code returns, keeps the sizes and establishes [P]. *)
Definition scr_safe {A} (m : M Scr A) (P : A -> Prop) : Prop :=
  forall s, scr_ok s -> runs m s (fun a s' => scr_ok s' /\ P a).

Section rules.
Context {A B : Type}.

Lemma scr_ret (a : A) (P : A -> Prop) : P a -> scr_safe (mret_ a) P.
Proof. intros H s Hs. by apply runs_ret. Qed.

Lemma scr_bind (m : M Scr A) (k : A -> M Scr B) P Q :
  scr_safe m P -> (forall a, P a -> scr_safe (k a) Q) -> scr_safe (mbind_ m k) Q.
Proof. intros Hm Hk s Hs. eapply runs_bind; [by apply Hm|]. intros a s' [Hs' Hp]. by apply Hk. Qed.

Lemma scr_get (k : Scr -> M Scr A) P :
  (forall s, scr_ok s -> runs (k s) s (fun a s' => scr_ok s' /\ P a)) -> scr_safe (mbind_ mget k) P.
Proof. intros Hk s Hs. by apply Hk. Qed.

Lemma scr_lift (r : res A) (k : A -> M Scr B) a P : r = Ok a -> scr_safe (k a) P -> scr_safe (mbind_ (mlift r) k) P.
Proof. intros -> H. exact H. Qed.

Lemma scr_modify (f : Scr -> Scr) (k : unit -> M Scr A) P :
  (forall s, scr_ok s -> scr_ok (f s)) -> scr_safe (k tt) P -> scr_safe (mbind_ (mmodify f) k) P.
Proof. intros Hf Hk s Hs. apply Hk. by apply Hf. Qed.
End rules.

Lemma scr_weaken {A} (m : M Scr A) (P Q : A -> Prop) : scr_safe m P -> (forall a, P a -> Q a) -> scr_safe m Q.
Proof. intros Hm HQ s Hs. eapply runs_weaken; [by apply Hm|]. intros a s' [H1 H2]. auto. Qed.

Definition on_page (off : Z) : Prop := 0 <= off < 1000.

Lemma put_char_safe off c : on_page off -> scr_safe (put_char off c) (fun _ => True).
Proof.
  intros Ho s [H1 H2 H3]. unfold on_page in Ho. eexists _, _. unfold put_char.
  rewrite mget_bind, upd_ok by lia. split; [reflexivity|]. split; [|done]. by constructor; cbn; rewrite ?zlen_insert.
Qed.

Lemma put_attr_safe off a : on_page off -> scr_safe (put_attr off a) (fun _ => True).
Proof.
  intros Ho s [H1 H2 H3]. unfold on_page in Ho. eexists _, _. unfold put_attr.
  rewrite mget_bind, upd_ok by lia. split; [reflexivity|]. split; [|done]. by constructor; cbn; rewrite ?zlen_insert.
Qed.

Lemma get_attr_safe off : on_page off -> scr_safe (get_attr off) (fun _ => True).
Proof.
  intros Ho s Hs. pose proof Hs as [H1 H2 H3]. unfold on_page in Ho.
  destruct (idx_ok (page_atrb s) off ltac:(lia)) as (a & E & _). exists a, s. unfold get_attr. by rewrite mget_bind, E.
Qed.

Lemma mod_attr_safe off f : on_page off -> scr_safe (mod_attr off f) (fun _ => True).
Proof. intros Ho. eapply scr_bind; [by apply get_attr_safe|]. intros a _. by apply put_attr_safe. Qed.

(** A run of cells that ends at the limit. *)
Lemma attr_run_safe f cond limit n : forall off c, (Z.to_nat (limit - c) < n)%nat -> on_page off ->
  off + (limit - 1 - c) < 1000 -> scr_safe (attr_run n f cond limit off c) (fun _ => True).
Proof.
  induction n as [|n IH]; intros off c Hn Ho Hl; [lia|]. cbn [attr_run]. unfold on_page in Ho.
  eapply scr_bind; [by apply mod_attr_safe|]. intros _ _. case_if; [|by apply scr_ret].
  eapply scr_bind; [apply get_attr_safe; unfold on_page; lia|]. intros a _.
  case_if; [|by apply scr_ret]. apply IH; [lia|unfold on_page; lia|lia].
Qed.

Lemma reset_tAP_safe : scr_safe reset_tAP (fun _ => True).
Proof. intros s [H1 H2 H3]. by exists tt; eexists. Qed.

(** ** The page's own enhancements *)

(** The active position of an active object whose origin is the page's. *)
Record loc_ok (l : Loc) : Prop := mkLocOk {
  loc_x : 0 <= APx l < 40;
  loc_y : 0 <= APy l <= 24;
  loc_end : endcol l = 40 \/ endcol l = -1
}.

Lemma cell_on_page l : loc_ok l -> on_page ((0 + APy l) * 40 + 0 + APx l).
Proof. intros []. unfold on_page. lia. Qed.

Lemma loc_ok_APx x l : loc_ok l -> 0 <= x < 40 -> loc_ok (set_APx x l).
Proof. intros [H1 H2 H3] Hx. by constructor. Qed.
Lemma loc_ok_APy y l : loc_ok l -> 0 <= y <= 24 -> loc_ok (set_APy y l).
Proof. intros [H1 H2 H3] Hx. by constructor. Qed.
Lemma loc_ok_endcol e l : loc_ok l -> e = 40 \/ e = -1 -> loc_ok (set_endcol e l).
Proof. intros [H1 H2 H3] Hx. by constructor. Qed.
Lemma loc_ok_passive a l : loc_ok l -> loc_ok (set_attrPassive a l).
Proof. intros [H1 H2 H3]. by constructor. Qed.
Lemma loc_ok_drcs v l : loc_ok l -> loc_ok (set_drcssubp v l).
Proof. intros [H1 H2 H3]. by constructor. Qed.
Lemma loc_ok_gdrcs v l : loc_ok l -> loc_ok (set_gdrcssubp v l).
Proof. intros [H1 H2 H3]. by constructor. Qed.
Create HintDb loc.
#[export] Hint Resolve loc_ok_APx loc_ok_APy loc_ok_endcol loc_ok_passive loc_ok_drcs loc_ok_gdrcs : loc.

Lemma passive_or_safe off p d l : on_page off -> loc_ok l -> scr_safe (passive_or off p d l) loc_ok.
Proof.
  intros Ho Hl. unfold passive_or. case_if.
  - eapply scr_bind; [by apply put_attr_safe|]. intros _ _. apply scr_ret. auto with loc.
  - eapply scr_bind; [by apply mod_attr_safe|]. intros _ _. by apply scr_ret.
Qed.

Lemma color_safe off c get p d l : off = (0 + APy l) * 40 + 0 + APx l -> loc_ok l ->
  scr_safe (color_triplet 0 off c get p d l) loc_ok.
Proof.
  intros -> Hl. pose proof (cell_on_page l Hl) as Ho. unfold color_triplet.
  case_if; [apply scr_ret; auto with loc|]. pose proof Hl as [Hx Hy [He|He]]; rewrite He in *; [|done].
  cbn [Z.eqb Pos.eqb]. eapply scr_bind; [by apply get_attr_safe|]. intros a _. cbv zeta.
  eapply scr_bind; [apply attr_run_safe; [lia|done|lia]|]. intros _ _. by apply scr_ret.
Qed.

Lemma attributes_safe off d l : off = (0 + APy l) * 40 + 0 + APx l -> loc_ok l ->
  scr_safe (attributes_triplet 0 off d l) loc_ok.
Proof.
  intros -> Hl. pose proof (cell_on_page l Hl) as Ho. unfold attributes_triplet. cbv zeta.
  case_if; [apply scr_ret; auto with loc|]. pose proof Hl as [Hx Hy [He|He]]; rewrite He in *; [|done].
  cbn [Z.eqb Pos.eqb].
  eapply scr_bind; [apply attr_run_safe; [lia|done|lia]|]. intros _ _. by apply scr_ret.
Qed.

Lemma column_safe address mode data l : 0 <= address < 40 -> loc_ok l ->
  scr_safe (column_triplet 0 0 address mode data l) loc_ok.
Proof.
  intros Ha Hl. unfold column_triplet. cbv zeta.
  set (l1 := if negb (mode =? 0x06) then set_APx address l else l).
  assert (loc_ok l1) as Hl1 by (unfold l1; case_if; auto with loc).
  pose proof (cell_on_page l1 Hl1) as Ho.
  assert (forall c p d, scr_safe (put_char ((0 + APy l1) * 40 + 0 + APx l1) c ;;;
    passive_or ((0 + APy l1) * 40 + 0 + APx l1) p d l1) loc_ok) as Hchar.
  { intros c p d. eapply scr_bind; [by apply put_char_safe|]. intros _ _. by apply passive_or_safe. }
  repeat (case_if; [first [apply Hchar | by apply color_safe | by apply attributes_safe | by apply passive_or_safe
    | by apply scr_ret
    | case_if; first [apply Hchar | by apply color_safe | by apply passive_or_safe | by apply scr_ret]]|]).
  by apply scr_ret.
Qed.

Lemma row_colors_safe n : forall row c, 0 <= row -> row + Z.of_nat n <= 25 -> scr_safe (row_colors n row c) (fun _ => True).
Proof.
  induction n as [|n IH]; intros row c Hr Hn; cbn [row_colors]; [by apply scr_ret|].
  intros s Hs. pose proof Hs as [H1 H2 H3].
  unfold runs. rewrite mget_bind, upd_ok, mlift_bind by lia.
  apply (IH (row + 1) c ltac:(lia) ltac:(lia)). by constructor; cbn; rewrite ?zlen_insert.
Qed.

Lemma full_row_color_safe row data : 0 <= row <= 24 -> scr_safe (full_row_color row data) (fun _ => True).
Proof. intros Hr. unfold full_row_color. cbv zeta. apply row_colors_safe; repeat case_if; lia. Qed.

(** A triplet that invokes an object. *)
Definition invokes (d : Z) : bool :=
  let mode := Z.land (Z.shiftr d 6) 0x1f in (40 <=? Z.land d 0x3f) && (0x11 <=? mode) && (mode <=? 0x13).

Lemma reset_ret_safe (l : Loc) (b : bool) (P : Loc * bool -> Prop) : P (l, b) ->
  scr_safe (reset_tAP ;;; mret_ (l, b)) P.
Proof. intros H. eapply scr_bind; [apply reset_tAP_safe|]. intros _ _. by apply scr_ret. Qed.

Lemma row_safe inv address mode data l : 40 <= address < 64 -> 0 <= data -> loc_ok l ->
  (0x11 <=? mode) && (mode <=? 0x13) = false ->
  scr_safe (row_triplet inv 0 0 address mode data l) (fun r => loc_ok (fst r)).
Proof.
  intros Ha Hd Hl Hm. unfold row_triplet. cbv zeta. rewrite Hm.
  assert (0 <= RowAddress2Row address <= 24) as Hrow by (unfold RowAddress2Row; case_if; lia).
  assert (forall d, scr_safe (if Z.shiftr d 5 =? 0 then mmodify (set_FullScrColor (Z.land d 0x1f)) else mret_ tt)
    (fun _ => True)) as Hfull.
  { intros d. case_if; [|by apply scr_ret]. intros s [H1 H2 H3]. by exists tt; eexists. }
  case_if; [eapply scr_bind; [apply Hfull|]; intros _ _; by apply reset_ret_safe|].
  case_if.
  { case_if; [|by apply reset_ret_safe]. eapply scr_bind; [apply full_row_color_safe; cbn; lia|].
    intros _ _. apply reset_ret_safe. cbn. auto with loc. }
  case_if; [apply reset_ret_safe; cbn; case_if; auto 6 with loc lia|].
  case_if.
  { case_if; [|by apply reset_ret_safe].
    eapply (scr_bind _ _ (fun _ => True)); [case_if; [apply full_row_color_safe; lia|by apply scr_ret]|].
    intros _ _. apply reset_ret_safe. cbn. auto 6 with loc lia. }
  case_if.
  { apply scr_modify; [|by apply scr_ret]. intros s [H1 H2 H3]. by constructor. }
  case_if; [case_if; apply reset_ret_safe; cbn; auto with loc|].
  case_if; [apply reset_ret_safe; cbn; repeat case_if; auto with loc|].
  case_if; apply reset_ret_safe; cbn; auto with loc.
Qed.

Lemma land_mask_range x n : 0 <= n -> 0 <= Z.land x (Z.ones n) < 2 ^ n.
Proof. intros Hn. rewrite Z.land_ones by lia. apply Z.mod_pos_bound. lia. Qed.

Lemma triplet_safe inv d l : loc_ok l -> invokes d = false ->
  scr_safe (tuxtxt_eval_triplet inv 0 0 d l) (fun r => loc_ok (fst r)).
Proof.
  intros Hl Hi. unfold tuxtxt_eval_triplet, invokes in *. cbv zeta in *.
  pose proof (land_mask_range d 6 ltac:(lia)) as Ha.
  pose proof (land_mask_range (Z.shiftr d 11) 7 ltac:(lia)) as Hd.
  change (Z.ones 6) with 0x3f in Ha. change (Z.ones 7) with 0x7f in Hd.
  case_if.
  - eapply scr_bind; [apply column_safe; [lia|done]|]. intros l' Hl'. by apply reset_ret_safe.
  - apply row_safe; [lia|lia|done|]. lia.
Qed.

(** Every triplet number of a well-formed page has a value. *)
Lemma triplet_total i pg text : 0 <= i -> page_ok pg -> zlen text = TEXT ->
  exists d, tuxtxt_iTripletNumber2Data i (Some pg) text = Ok d.
Proof.
  intros Hi [[Hp24 Hext] _ _] Ht. unfold tuxtxt_iTripletNumber2Data. cbv zeta.
  case_if; [by eexists|]. rewrite Z.quot_div_nonneg, Z.rem_mod_nonneg by lia.
  assert (forall l p, 0 <= p -> p + 2 < zlen l -> exists d, deh24_at l p = Ok d) as Hdeh.
  { intros l p H0 H1. unfold deh24_at, rd. rif. by eexists. }
  unfold TEXT in Ht. pose proof (Z.div_pos i 13 Hi ltac:(lia)). pose proof (Z.mod_pos_bound i 13 ltac:(lia)).
  assert (i = 13 * (i / 13) + i mod 13) by (apply Z.div_mod; lia).
  set (q := i / 13) in *. set (r := i mod 13) in *. clearbody q r.
  case_if; [apply Hdeh; lia|]. case_if.
  - destruct (p24 (pageinfo pg)) as [l|] eqn:E; [|by eexists]. specialize (Hp24 l eq_refl). apply Hdeh; lia.
  - destruct (ext (pageinfo pg)) as [e|] eqn:E; [|by eexists]. destruct (Hext e eq_refl) as [E1 E2 _ _].
    destruct (idx_Forall _ _ (q + 3 - 26) E2 ltac:(lia)) as (o & -> & Ho). cbn [res_bind].
    destruct o as [l|]; [|by eexists]. specialize (Ho l eq_refl). apply Hdeh; lia.
Qed.

(** The page's own enhancements, when none of their triplets invokes an
    object, are evaluated without an access outside the page, and end within
    one turn for each of the 507 triplets that a page can have. *)
Theorem x26_stays_on_page cache pop gpop pg text i s :
  page_ok pg -> zlen text = TEXT -> 0 <= i <= 507 -> scr_ok s ->
  (forall k d, i <= k -> tuxtxt_iTripletNumber2Data k (Some pg) text = Ok d -> 0 <= d -> invokes d = false) ->
  runs (tuxtxt_eval_object cache pop gpop (Z.to_nat (509 - i)) i (Some pg) text 0 0 OBJ_ACTIVE) s
    (fun _ s' => scr_ok s').
Proof.
  intros Hp Ht Hi Hs Hno. unfold tuxtxt_eval_object.
  assert (forall n first k l, i <= k <= 507 -> loc_ok l -> 508 - k < Z.of_nat n ->
    scr_safe (object_loop cache pop gpop n (Some pg) text 0 0 OBJ_ACTIVE first k l) (fun _ => True)) as H.
  { induction n as [|n IH]; intros first k l Hk Hl Hn; [lia|]. cbn [object_loop].
    destruct (triplet_total k pg text ltac:(lia) Hp Ht) as [d Hd].
    eapply scr_lift; [exact Hd|]. case_if; [by apply scr_ret|].
    eapply (scr_bind _ _ loc_ok). { case_if; apply scr_ret; auto with loc. }
    intros l' Hl'. eapply scr_bind; [apply triplet_safe; [done|apply (Hno k d); lia || done]|].
    intros r Hr. case_if; [|by apply scr_ret]. apply IH; [|done|lia].
    unfold tuxtxt_iTripletNumber2Data in Hd. destruct (506 <? k) eqn:Hk'; [injection Hd as <-; lia|lia]. }
  eapply runs_weaken; [apply H; [lia| |lia|done]|].
  - constructor; cbn; auto with lia.
  - by intros ? s' [H' _].
Qed.

(** ** Colours *)

(** [f] on the [w] cells from [off] on. *)
Definition in_span (off w : Z) (i : nat) : bool := bool_decide (off <= Z.of_nat i < off + w).

Definition span {A} (f : A -> A) (off w : Z) (l : list A) : list A :=
  imap (fun i a => if in_span off w i then f a else a) l.

Lemma span_lookup {A} (f : A -> A) off w (l : list A) i :
  span f off w l !! i = (fun a => if in_span off w i then f a else a) <$> l !! i.
Proof. unfold span. by rewrite list_lookup_imap. Qed.

Lemma span_one {A} (f : A -> A) off a (l : list A) : 0 <= off -> l !! Z.to_nat off = Some a ->
  span f off 1 l = <[Z.to_nat off := f a]> l.
Proof.
  intros Ho Ha. apply list_eq. intros i. rewrite span_lookup. unfold in_span.
  destruct (decide (i = Z.to_nat off)) as [->|Hne].
  - rewrite list_lookup_insert_eq by (by eapply lookup_lt_Some). rewrite Ha. cbn [fmap option_fmap option_map].
    by rewrite bool_decide_eq_true_2 by lia.
  - rewrite list_lookup_insert_ne by done. rewrite bool_decide_eq_false_2 by lia. by destruct (l !! i).
Qed.

Lemma span_app {A} (f : A -> A) off w1 w2 (l : list A) : 0 <= w1 -> 0 <= w2 ->
  span f (off + w1) w2 (span f off w1 l) = span f off (w1 + w2) l.
Proof.
  intros H1 H2. apply list_eq. intros i. rewrite !span_lookup. destruct (l !! i) as [b|]; [|done].
  cbn [fmap option_fmap option_map]. f_equal. unfold in_span.
  repeat case_bool_decide; done || (exfalso; lia).
Qed.

Lemma span_lookup_out {A} (f : A -> A) off w (l : list A) k : 0 <= k -> k < off \/ off + w <= k ->
  span f off w l !! Z.to_nat k = l !! Z.to_nat k.
Proof.
  intros Hk Ho. rewrite span_lookup. unfold in_span. rewrite bool_decide_eq_false_2 by lia. by destruct (l !! Z.to_nat k).
Qed.

(** [attr_run] changes the first cell and those after it up to the limit or
    to the first that does not meet the condition. *)
Lemma attr_run_span f cond limit n : forall off c s, (Z.to_nat (limit - c) < n)%nat -> 0 <= off -> c < limit ->
  off + (limit - c) <= zlen (page_atrb s) ->
  exists w, attr_run n f cond limit off c s = Ok (tt, set_page_atrb (span f off w (page_atrb s)) s) /\
    1 <= w <= limit - c /\
    (forall k a, off < k < off + w -> page_atrb s !! Z.to_nat k = Some a -> cond a = true) /\
    (w = limit - c \/ exists a, page_atrb s !! Z.to_nat (off + w) = Some a /\ cond a = false).
Proof.
  induction n as [|n IH]; intros off c s Hn Ho Hc Hl; [lia|]. cbn [attr_run].
  destruct (idx_ok (page_atrb s) off ltac:(lia)) as (a & Ea & La).
  set (s1 := set_page_atrb (span f off 1 (page_atrb s)) s).
  assert (mod_attr off f s = Ok (tt, s1)) as E1.
  { unfold mod_attr, get_attr, put_attr. mrun. rewrite Ea. mrun. rewrite upd_ok by lia. unfold s1. by erewrite span_one. }
  erewrite mbind_run by exact E1. case_if.
  2:{ exists 1. split; [done|]. split; [lia|]. split; [lia|]. left. lia. }
  destruct (idx_ok (page_atrb s) (off + 1) ltac:(lia)) as (b & Eb & Lb).
  assert (page_atrb s1 !! Z.to_nat (off + 1) = Some b) as Lb1.
  { unfold s1. cbn. rewrite span_lookup_out by lia. done. }
  assert (get_attr (off + 1) s1 = Ok (b, s1)) as E2.
  { unfold get_attr. mrun. unfold idx. rif. by rewrite Lb1. }
  erewrite mbind_run by exact E2. cbv beta. destruct (cond b) eqn:Hb.
  2:{ exists 1. split; [done|]. split; [lia|]. split; [lia|]. right. by exists b. }
  destruct (IH (off + 1) (c + 1) s1 ltac:(lia) ltac:(lia) ltac:(lia)) as (w & E & Hw & Hin & Hend).
  { unfold s1. cbn. unfold span, zlen in *. rewrite length_imap. lia. }
  exists (1 + w). split; [|split; [lia|split]].
  - rewrite E. unfold s1. change (page_atrb (set_page_atrb ?x s)) with x. by rewrite span_app by lia.
  - intros k x Hk Hx. destruct (decide (k = off + 1)) as [->|Hne]; [congruence|].
    apply (Hin k x ltac:(lia)). unfold s1. cbn. by rewrite span_lookup_out by lia.
  - destruct Hend as [->|(x & Hx & Hcx)]; [left; lia|]. right. exists x. split; [|done].
    unfold s1 in Hx. cbn in Hx. rewrite span_lookup_out in Hx by lia. by replace (off + (1 + w)) with (off + 1 + w) by lia.
Qed.

(** A foreground colour of an enhancement or active object colours the
    cell of the active position and those after it in the row, as far as they
    had the same colour: to the next change by the level 1 page or the end of
    the row.  Nothing else of the page changes. *)
Theorem active_color_spans x0 off c l s :
  scr_ok s -> endcol l = 40 -> 0 <= x0 + APx l < 40 -> 0 <= off -> off + (40 - (x0 + APx l)) <= 1000 ->
  exists w a, page_atrb s !! Z.to_nat off = Some a /\
    color_triplet x0 off c fg (set_fg c) (set_fg c) l s =
      Ok (l, set_page_atrb (span (set_fg c) off w (page_atrb s)) s) /\
    1 <= w <= 40 - (x0 + APx l) /\
    (forall k b, off <= k < off + w -> page_atrb s !! Z.to_nat k = Some b -> fg b = fg a) /\
    (w = 40 - (x0 + APx l) \/ exists b, page_atrb s !! Z.to_nat (off + w) = Some b /\ fg b <> fg a).
Proof.
  intros [H1 H2 H3] He Hx Ho Hl. destruct (idx_ok (page_atrb s) off ltac:(lia)) as (a & Ea & La).
  destruct (attr_run_span (set_fg c) (fun b => fg b =? fg a) 40 256 off (x0 + APx l) s) as (w & E & Hw & Hin & Hend);
    [lia|lia|lia|lia|].
  exists w, a. split; [done|]. split; [|split; [done|split]].
  - unfold color_triplet. rewrite He. cbn [Z.ltb Z.compare Z.eqb Pos.eqb]. unfold get_attr. mrun. rewrite Ea. mrun.
    by erewrite mbind_run by exact E.
  - intros k b Hk Hb. destruct (decide (k = off)) as [->|]; [congruence|]. specialize (Hin k b ltac:(lia) Hb). lia.
  - destruct Hend as [|(b & Hb & Hcb)]; [by left|]. right. exists b. split; [done|]. lia.
Qed.

(** ** Objects that do not stay where they are *)

(** A triplet that invokes the local object of number [n]. *)
Definition invokes_local (d n : Z) : Prop :=
  let address := Z.land d 0x3f in
  let mode := Z.land (Z.shiftr d 6) 0x1f in
  let data := Z.land (Z.shiftr d 11) 0x7f in
  40 <= address /\ 0x11 <= mode <= 0x13 /\ Z.land address 0x10 = 0 /\ Z.land address 0x08 <> 0 /\
  Z.rem (Z.land data 0x0f) 3 <> 2 /\
  13 * 23 + 13 * Z.lor (Z.shiftl (Z.land address 0x01) 3) (Z.shiftr data 4) + Z.land data 0x0f = n.

(** A triplet that invokes the object that begins with it is evaluated for
    ever: each evaluation begins with another of the same triplet, at the same
    place, and no number of turns is enough.  (In the program the calls nest
    until the stack is used up; the triplet can be the first of packet 26/0.) *)
Theorem local_object_recurses cache pop gpop pg text n d x0 y0 t s fuel :
  tuxtxt_iTripletNumber2Data n (Some pg) text = Ok d -> 0 <= d -> invokes_local d n ->
  0 <= x0 < 40 -> 0 <= y0 < 256 -> tAPx s = 0 -> tAPy s = 0 -> t <> OBJ_ADAPTIVE ->
  tuxtxt_eval_object cache pop gpop fuel n (Some pg) text x0 y0 t s = Diverge.
Proof.
  intros Hd Hd0 (H1 & H2 & H3 & H4 & H5 & H6) Hx Hy Htx Hty. unfold tuxtxt_eval_object.
  revert t. induction fuel as [|fuel IH]; intros t Ht; [done|]. cbn [object_loop].
  rewrite Hd. mrun. replace (d <? 0) with false by lia. cbn [new_loc endcol Z.ltb Z.compare].
  set (l := match t with OBJ_PASSIVE => new_loc | _ => set_endcol 40 new_loc end).
  assert (forall (k : Loc -> M Scr unit),
    mbind_ (match t with
            | OBJ_PASSIVE => mret_ new_loc
            | OBJ_ACTIVE => mret_ (set_endcol 40 new_loc)
            | OBJ_ADAPTIVE =>
                let! c := mlift (search_endcol (Z.to_nat (507 - n)) (Some pg) text n (-1)) in
                mret_ (set_endcol c new_loc)
            end) k s = k l s) as -> by (intros; unfold l; by destruct t).
  assert (APx l = 0 /\ APy l = 0) as [Lx Ly] by (unfold l; by destruct t).
  unfold tuxtxt_eval_triplet. cbv zeta. replace (Z.land d 0x3f <? 40) with false by lia.
  unfold row_triplet. cbv zeta.
  set (mode := Z.land (Z.shiftr d 6) 0x1f) in *. set (data := Z.land (Z.shiftr d 11) 0x7f) in *.
  rif. unfold invoke_triplet. rewrite !mbind_bind, mget_bind. cbv zeta.
  rewrite Htx, Hty, Lx, Ly. rewrite !Z.add_0_r, !u8_id by (unfold is_byte; lia).
  rewrite H3. cbn [Z.eqb negb]. replace (Z.land (Z.land d 0x3f) 0x08 =? 0) with false by lia. cbn [negb].
  replace (x0 <? 40) with true by lia. cbn [inv_local]. rewrite H6.
  unfold mbind_ at 1. rewrite IH; [done|]. unfold obj_type.
  pose proof (land_mask_range data 4 ltac:(lia)) as Hr. change (Z.ones 4) with 0x0f in Hr.
  pose proof (Z.rem_bound_pos (Z.land data 0x0f) 3 ltac:(lia) ltac:(lia)). repeat case_if; done || lia.
Qed.

(** ** At concrete pages *)

(** A triplet, and a page with the given triplets in packet 26/0, ended by a
    termination marker. *)
Definition triplet_of (address mode data : Z) : Z := address + 64 * mode + 2048 * data.

Definition enhanced_bytes (l : list Z) : list Z :=
  flat_map (fun d => let w := code24 d in [byte_of w 0; byte_of w 1; byte_of w 2])
    (l ++ replicate (13 - length l) (triplet_of 63 0x1f 0)).

Definition enhanced (l : list Z) : CachedPage :=
  set_pageinfo
    (set_ext (Some (set_p26 (<[0%nat := Some (enhanced_bytes l)]> (replicate 16 None)) zero_ext)) zero_info)
    blank_page.

Definition blank_scr : Scr :=
  mkScr (replicate 1000 0x20) (replicate 1000 (attr_default false)) (replicate 25 0) 0 0 0.

Lemma blank_scr_ok : scr_ok blank_scr.
Proof. by constructor. Qed.

Lemma enhanced_ok l : (length l <= 13)%nat -> page_ok (enhanced l).
Proof.
  intros Hl. constructor; [|done|right; by left]. constructor; [done|]. intros e [= <-].
  constructor; [done| |done|done].
  assert (zlen (enhanced_bytes l) = 39) as Hb.
  { unfold enhanced_bytes, zlen. rewrite length_flat_map.
    replace (list_sum _) with (3 * length (l ++ replicate (13 - length l) (triplet_of 63 0x1f 0)))%nat.
    - rewrite length_app, length_replicate. lia.
    - generalize (l ++ replicate (13 - length l) (triplet_of 63 0x1f 0)). intros k.
      induction k as [|d k IH]; [done|]. unfold list_sum in *. cbn in *. lia. }
  cbn. repeat constructor; intros b [=]. subst b. by rewrite Hb.
Qed.

(** A row and a column, an accented letter and a colour. *)
Definition accents : list Z :=
  [triplet_of 45 4 0; triplet_of 3 0x12 0x65; triplet_of 7 0 2; triplet_of 12 0x13 0x61].

Lemma x26_stays_on_page_witness :
  runs (tuxtxt_eval_object start 0 0 (Z.to_nat 210) 299 (Some (enhanced accents)) spaces 0 0 OBJ_ACTIVE) blank_scr
    (fun _ s' => scr_ok s').
Proof.
  apply (x26_stays_on_page start 0 0 (enhanced accents) spaces 299 blank_scr);
    [apply enhanced_ok; cbn; lia|by vm_compute|lia|apply blank_scr_ok|].
  intros k d Hk Hd Hpos.
  destruct (Z.lt_ge_cases 506 k) as [Hbig|Hsmall].
  { unfold tuxtxt_iTripletNumber2Data in Hd. replace (506 <? k) with true in Hd by lia. injection Hd as <-. lia. }
  assert (forallb (fun k => match tuxtxt_iTripletNumber2Data k (Some (enhanced accents)) spaces with
    | Ok d => (d <? 0) || negb (invokes d) | _ => true end) (seqZ 299 208) = true) as Hf by (by vm_compute).
  rewrite forallb_forall in Hf. specialize (Hf k ltac:(apply list_elem_of_In, elem_of_seqZ; lia)).
  cbv beta in Hf. rewrite Hd in Hf. destruct (invokes d); [|done]. cbn in Hf. lia.
Defined.

Lemma active_color_spans_witness :
  let s := set_page_atrb (<[43%nat := set_fg 1 (attr_default false)]> (replicate 1000 (attr_default false))) blank_scr in
  let l := mkLoc 0 1 0 0 40 (attr_default true) in
  exists w, color_triplet 0 40 2 fg (set_fg 2) (set_fg 2) l s =
    Ok (l, set_page_atrb (span (set_fg 2) 40 w (page_atrb s)) s) /\ 1 <= w <= 40.
Proof.
  intros s l. destruct (active_color_spans 0 40 2 l s) as (w & a & _ & E & Hw & _);
    [by constructor|done|cbn; lia|lia|cbn; lia|]. exists w. split; [exact E|]. cbn in Hw. lia.
Defined.

(** One packet 26/0 whose first triplet invokes itself. *)
Lemma local_object_recurses_witness :
  tuxtxt_eval_object start 0 0 (Z.to_nat 100000) 299 (Some (enhanced [triplet_of 40 0x11 0])) spaces 0 0 OBJ_ACTIVE
    blank_scr = Diverge.
Proof.
  apply (local_object_recurses start 0 0 (enhanced [triplet_of 40 0x11 0]) spaces 299 (triplet_of 40 0x11 0));
    [by vm_compute|by vm_compute| |lia|lia|done|done|done].
  vm_compute. repeat split; congruence.
Defined.

(** A local object with its origin below the page writes its first character
    behind the page. *)
Lemma object_leaves_page :
  tuxtxt_eval_object start 0 0 20 299 (Some (enhanced [triplet_of 40 4 0; triplet_of 63 0x10 0;
    triplet_of 40 0x11 4; triplet_of 63 0x1f 0; triplet_of 0 9 0x41])) spaces 0 0 OBJ_ACTIVE blank_scr = Fault.
Proof. by vm_compute. Qed.
