(* ===== verification/TxtRowSpec.v ===== *)
(** * What the rows of a page become

    [scan] is the meaning of a row: it goes once over the 40 characters and
    gives each cell its character and attributes.  Decoding in place computes
    it, and marks the cells below characters of double height
    ([decode_row_is_scan]).  What a row shows has no spacing attributes left
    ([scan_shows]) and no attributes outside those of level 1 ([sp_ok]).
    Decoding the rows of any page ends and stays on the page
    ([decode_rows_ok]). *)

From stdpp Require Import gmap.
From S2P Require Import Prelude TxtCode TxtCodeSpec TxtCache TxtPageSpec TxtPackSpec TxtP28Spec TxtInv TxtObject TxtRow TxtObjectSpec.

Open Scope Z_scope.

(** ** A row as a list *)

(** A cell: its character and attributes, and the state behind it. *)
Definition scan_cell (hintmode : bool) (row col c : Z) (s : Sp) : Z * PageAttr * Sp :=
  let '(ch, a, s) :=
    if c <? 0x20 then
      let '(a, s) := control hintmode row col c (cell_attr col s) (settle_esc s) in
      (if negb (sp_hold s =? 0) && is_mosaic (charset a) then sp_held s else 0x20, a,
       if sp_hold s =? 2 then set_sp_hold 0 s else s)
    else
      (c, cell_attr col s,
       let s := set_sp_mosaic_pending false s in
       if is_mosaic (sp_charset s) && (Z.land c 0xA0 =? 0x20) then set_sp_held c s else s) in
  (ch, a, if negb (is_mosaic (sp_charset s)) then set_sp_held 0x20 s else s).

Fixpoint scan (hintmode : bool) (row col : Z) (s : Sp) (chars : list Z) : list (Z * PageAttr) * Sp :=
  match chars with
  | [] => ([], s)
  | c :: r =>
      let '(ch, a, s) := scan_cell hintmode row col c s in
      let '(cells, s) := scan hintmode row (col + 1) s r in
      ((ch, a) :: cells, s)
  end.

(** ** The attributes of level 1 *)

Definition level1_color (c : Z) : Prop := 0 <= c <= 7 \/ c = tuxtxt_color_transp.

(** In row [row]; double height ends with row 22. *)
Record sp_ok (row : Z) (s : Sp) : Prop := mkSpOk {
  ok_fg : level1_color (sp_foreground s);
  ok_bg : level1_color (sp_background s);
  ok_charset : 0 <= sp_charset s <= 3;
  ok_previous : is_G0 (sp_previous s) = true;
  ok_hold : 0 <= sp_hold s <= 2;
  ok_held : 0x20 <= sp_held s < 256;
  ok_height : sp_doubleheight s = true -> row < 23;
  ok_dhset : sp_doubleheight s = true -> sp_dhset s = true;
  ok_dhrow : sp_dhset s = true -> row < 23
}.

Record level1_attr (row : Z) (a : PageAttr) : Prop := mkLevel1 {
  l1_fg : level1_color (fg a);
  l1_bg : level1_color (bg a);
  l1_charset : 0 <= charset a <= 3;
  l1_height : doubleh a = true -> row < 23;
  l1_l25 : inverted a = false /\ underline a = false /\ diacrit a = 0 /\ setX26 a = false /\ setG0G2 a = 0x3f
}.

Lemma row_start_ok row b : sp_ok row (row_start b).
Proof. unfold row_start, level1_color. constructor; cbn; try done; destruct b; (by left) || by right. Qed.

Lemma cell_attr_ok row col s : sp_ok row s -> level1_attr row (cell_attr col s).
Proof. intros []. by constructor. Qed.

Ltac sp_solve := constructor; cbn; unfold level1_color, is_G0, C_G0P, C_G0S, C_G1C, C_G1S, tuxtxt_color_transp,
  alpha_white, alpha_black, mosaic_white, mosaic_black, tuxtxt_color_black in *; try done; try lia; auto.

Lemma is_G0_range c : is_G0 c = true -> 0 <= c <= 3.
Proof. unfold is_G0, C_G0P, C_G0S. lia. Qed.

Lemma switch_G0_ok row s : sp_ok row s -> sp_ok row (switch_G0 s).
Proof. intros []. unfold switch_G0. repeat case_if; sp_solve. Qed.

Lemma to_previous_ok row s : sp_ok row s -> sp_ok row (set_sp_charset (sp_previous s) s).
Proof. intros []. pose proof (is_G0_range _ ok_previous0). sp_solve. Qed.

Lemma settle_esc_ok row s : sp_ok row s -> sp_ok row (settle_esc s).
Proof.
  intros H. unfold settle_esc. case_if; [|done]. apply to_previous_ok, switch_G0_ok in H. destruct H. sp_solve.
Qed.

Lemma leave_mosaic_ok row s : sp_ok row s -> sp_ok row (leave_mosaic s).
Proof. intros H. unfold leave_mosaic. case_if; [by apply to_previous_ok|done]. Qed.

Ltac codes := unfold alpha_black, alpha_white, flash, steady, end_box, start_box, normal_size, double_height,
  double_width, double_size, mosaic_black, mosaic_white, conceal, contiguous_mosaic, separated_mosaic, esc,
  black_background, new_background, hold_mosaic, release_mosaic in *.

Lemma control_esc hint row col a s : control hint row col esc a s =
  (a, if negb (sp_mosaic_pending s) then switch_G0 (leave_mosaic s) else set_sp_esc_pending true s).
Proof. done. Qed.

Lemma control_ok hint row col c a s : 0 <= c < 0x20 -> sp_ok row s -> level1_attr row a ->
  level1_attr row (fst (control hint row col c a s)) /\ sp_ok row (snd (control hint row col c a s)).
Proof.
  intros Hc Hs Ha. destruct (Z.eq_dec c esc) as [->|He].
  { rewrite control_esc. cbn [fst snd]. split; [done|].
    case_if; [by apply switch_G0_ok, leave_mosaic_ok|destruct Hs; sp_solve]. }
  unfold control. cbv zeta. case_if.
  { cbn [fst snd]. split; [case_if; [|done]; destruct Ha; sp_solve|].
    apply leave_mosaic_ok. destruct Hs. sp_solve. }
  replace (c =? esc) with false by lia. codes.
  destruct Hs, Ha. repeat case_if; cbn [fst snd]; split; sp_solve.
Qed.

Lemma set_held_ok row v s : sp_ok row s -> 0x20 <= v < 256 -> sp_ok row (set_sp_held v s).
Proof. intros [] Hv. by constructor. Qed.

Lemma scan_cell_ok hint row col c s : is_byte c -> sp_ok row s ->
  let '(ch, a, s') := scan_cell hint row col c s in 0x20 <= ch < 256 /\ level1_attr row a /\ sp_ok row s'.
Proof.
  intros Hc Hs. unfold is_byte in Hc. unfold scan_cell.
  assert (forall s, sp_ok row s -> sp_ok row (if negb (is_mosaic (sp_charset s)) then set_sp_held 0x20 s else s)) as Hend.
  { intros s1 H1. case_if; [apply set_held_ok; [done|lia]|done]. }
  case_if.
  - pose proof (control_ok hint row col c (cell_attr col s) (settle_esc s) ltac:(lia) (settle_esc_ok _ _ Hs)
      (cell_attr_ok row col s Hs)) as [Ha H1].
    destruct (control hint row col c (cell_attr col s) (settle_esc s)) as [a s1]. cbn [fst snd] in *.
    split; [case_if; [apply H1|lia]|]. split; [done|]. apply Hend. case_if; [|done]. destruct H1. by constructor.
  - assert (sp_ok row (set_sp_mosaic_pending false s)) as H1 by (destruct Hs; by constructor).
    split; [lia|]. split; [by apply cell_attr_ok|]. apply Hend.
    case_if; [apply set_held_ok; [done|lia]|done].
Qed.

Lemma scan_ok hint row chars : forall col s, bytes chars -> sp_ok row s ->
  Forall (fun cell => 0x20 <= fst cell < 256 /\ level1_attr row (snd cell)) (fst (scan hint row col s chars)) /\
  sp_ok row (snd (scan hint row col s chars)) /\ length (fst (scan hint row col s chars)) = length chars.
Proof.
  induction chars as [|c r IH]; intros col s Hb Hs; cbn [scan]; [by split_and!|].
  inversion Hb as [|? ? Hc Hr]; subst.
  pose proof (scan_cell_ok hint row col c s Hc Hs) as H.
  destruct (scan_cell hint row col c s) as [[ch a] s1]. destruct H as (H1 & H2 & H3).
  specialize (IH (col + 1) s1 Hr H3). destruct (scan hint row (col + 1) s1 r) as [cells s2]. cbn [fst snd] in *.
  destruct IH as (I1 & I2 & I3). split; [by constructor|]. split; [done|]. cbn. by rewrite I3.
Qed.

(** ** Decoding in place *)

(** What one cell does to the arrays. *)
Definition write_cell (index c : Z) (cell : Z * PageAttr) (s : Scr) : Scr :=
  let t := <[Z.to_nat index := fst cell]> (page_char s) in
  let t := if negb (c <? 0x20) && doubleh (snd cell) then <[Z.to_nat (index + 40) := 0xFF]> t else t in
  set_page_atrb (<[Z.to_nat index := snd cell]> (page_atrb s)) (set_page_char t s).

Lemma write_cell_ok index c cell s : scr_ok s -> scr_ok (write_cell index c cell s).
Proof.
  intros [H1 H2 H3]. unfold write_cell. cbv zeta. constructor; cbn; [|by rewrite zlen_insert|done].
  case_if; by rewrite ?zlen_insert.
Qed.

Lemma scr_ok_atrb n a s : scr_ok s -> scr_ok (set_page_atrb (<[n := a]> (page_atrb s)) s).
Proof. intros []. constructor; cbn; by rewrite ?zlen_insert. Qed.

Lemma scr_ok_char n c s : scr_ok s -> scr_ok (set_page_char (<[n := c]> (page_char s)) s).
Proof. intros []. constructor; cbn; by rewrite ?zlen_insert. Qed.

Lemma put_attr_run off a s : scr_ok s -> on_page off ->
  put_attr off a s = Ok (tt, set_page_atrb (<[Z.to_nat off := a]> (page_atrb s)) s).
Proof. intros [] Ho. unfold on_page in Ho. unfold put_attr. mrun. by rewrite upd_ok by lia. Qed.

Lemma put_char_run off c s : scr_ok s -> on_page off ->
  put_char off c s = Ok (tt, set_page_char (<[Z.to_nat off := c]> (page_char s)) s).
Proof. intros [] Ho. unfold on_page in Ho. unfold put_char. mrun. by rewrite upd_ok by lia. Qed.

Lemma get_attr_run off a s : page_atrb s !! Z.to_nat off = Some a -> 0 <= off -> get_attr off s = Ok (a, s).
Proof. intros Ha Ho. unfold get_attr, idx. mrun. rif. by rewrite Ha. Qed.

Lemma get_char_run off s : scr_ok s -> on_page off -> get_char off s = Ok (at_ (page_char s) off, s).
Proof.
  intros [] Ho. unfold on_page in Ho. unfold get_char, idx. mrun. rif. by rewrite at_lookup by lia.
Qed.

Lemma col_step_run hint row col sp s c : scr_ok s -> sp_ok row sp -> 0 <= row <= 24 -> 0 <= col < 40 ->
  at_ (page_char s) (row * 40 + col) = c ->
  let '(cell, sp') := scan_cell hint row col c sp in
  col_step hint row col sp s = Ok (sp', write_cell (row * 40 + col) c cell s).
Proof.
  intros Hs Hp Hr Hc <-. set (index := row * 40 + col). assert (on_page index) as Ho by (unfold on_page; lia).
  unfold scan_cell, col_step. cbv zeta. fold index.
  rewrite (mbind_run _ _ _ _ _ (put_attr_run index _ s Hs Ho)). cbv beta.
  set (s1 := set_page_atrb (<[Z.to_nat index := cell_attr col sp]> (page_atrb s)) s).
  assert (scr_ok s1) as H1 by by apply scr_ok_atrb.
  rewrite (mbind_run _ _ _ _ _ (get_char_run index s1 H1 Ho)). cbv beta. change (page_char s1) with (page_char s).
  set (c := at_ (page_char s) index). destruct (c <? 0x20) eqn:Ec.
  - destruct (control hint row col c (cell_attr col sp) (settle_esc sp)) as [a sp1]. rewrite mbind_bind.
    rewrite (mbind_run _ _ _ _ _ (put_attr_run index a s1 H1 Ho)). cbv beta. rewrite mbind_bind.
    set (s2 := set_page_atrb (<[Z.to_nat index := a]> (page_atrb s1)) s1).
    assert (scr_ok s2) as H2 by by apply scr_ok_atrb.
    rewrite (mbind_run _ _ _ _ _ (put_char_run index _ s2 H2 Ho)).
    mrun. unfold write_cell. rewrite Ec. cbn [negb andb fst snd]. unfold s2, s1.
    cbn [page_atrb page_char set_page_atrb set_page_char]. by rewrite list_insert_insert_eq.
  - pose proof (cell_attr_ok row col sp Hp) as Ha.
    set (a := cell_attr col sp) in *. rewrite mbind_bind.
    assert (page_atrb s1 !! Z.to_nat index = Some a) as La.
    { unfold s1. cbn. apply list_lookup_insert_eq. destruct Hs. unfold zlen, on_page in *. lia. }
    rewrite (mbind_run _ _ _ _ _ (get_attr_run index a s1 La ltac:(unfold on_page in Ho; lia))). cbv beta.
    unfold write_cell. rewrite Ec. cbn [negb andb fst snd].
    assert (<[Z.to_nat index := c]> (page_char s) = page_char s) as Eid.
    { apply list_insert_id. unfold c. apply at_lookup. destruct Hs. unfold on_page in Ho. lia. }
    rewrite Eid, mbind_bind. destruct (doubleh a) eqn:Ed.
    + erewrite mbind_run by (apply put_char_run; [done|unfold on_page; pose proof (l1_height _ _ Ha Ed); lia]).
      mrun. unfold s1. by destruct s.
    + mrun. unfold s1. by destruct s.
Qed.

(** ** The result of a row *)

Definition lookupZ {A} (l : list A) (k : Z) : option A := if 0 <=? k then l !! Z.to_nat k else None.

Lemma lookupZ_cons {A} (x : A) l k : lookupZ (x :: l) k = if k =? 0 then Some x else lookupZ l (k - 1).
Proof.
  unfold lookupZ. repeat case_if; try lia; try done.
  - by replace k with 0 by lia.
  - replace (Z.to_nat k) with (S (Z.to_nat (k - 1))) by lia. done.
Qed.

Lemma lookupZ_neg {A} (l : list A) k : k < 0 -> lookupZ l k = None.
Proof. intros Hk. unfold lookupZ. by rif. Qed.

Lemma lookupZ_insert {A} (l : list A) i (a : A) k : 0 <= i < zlen l ->
  lookupZ (<[Z.to_nat i := a]> l) k = if k =? i then Some a else lookupZ l k.
Proof.
  intros Hi. unfold zlen in Hi. unfold lookupZ. repeat case_if; try lia; try done.
  - replace k with i by lia. apply list_lookup_insert_eq. lia.
  - apply list_lookup_insert_ne. lia.
Qed.

(** A character of double height reaches into the next row. *)
Definition marks (c : Z) (cell : Z * PageAttr) : bool := negb (c <? 0x20) && doubleh (snd cell).

(** The page after the row at [index], which had [chars], has become [cells]. *)
Record row_result (index : Z) (chars : list Z) (cells : list (Z * PageAttr)) (s s' : Scr) : Prop := mkRow {
  row_chars : forall i, lookupZ (page_char s') i =
    match lookupZ cells (i - index) with
    | Some cell => Some (fst cell)
    | None =>
        match lookupZ (zip chars cells) (i - (index + 40)) with
        | Some (c, cell) => if marks c cell then Some 0xFF else lookupZ (page_char s) i
        | None => lookupZ (page_char s) i
        end
    end;
  row_attrs : forall i, lookupZ (page_atrb s') i =
    match lookupZ cells (i - index) with Some cell => Some (snd cell) | None => lookupZ (page_atrb s) i end;
  row_rest : FullRowColor s' = FullRowColor s /\ FullScrColor s' = FullScrColor s
}.

Lemma row_result_nil index s : row_result index [] [] s s.
Proof. constructor; [intros i..|done]; unfold lookupZ; by repeat case_if. Qed.

Lemma row_result_cons index c r cell cells s s' : scr_ok s -> on_page index ->
  (marks c cell = true -> on_page (index + 40)) ->
  row_result (index + 1) r cells (write_cell index c cell s) s' -> row_result index (c :: r) (cell :: cells) s s'.
Proof.
  intros [H1 H2 H3] Ho Hm [Rc Ra [Rr Rs]]. unfold on_page in *.
  constructor; [intros i..|by rewrite Rr, Rs].
  - rewrite Rc. cbn [zip_with]. rewrite !lookupZ_cons. unfold write_cell. cbv zeta.
    cbn [page_char set_page_atrb set_page_char]. fold (marks c cell).
    replace (i - (index + 1)) with (i - index - 1) by lia.
    replace (i - (index + 1 + 40)) with (i - (index + 40) - 1) by lia.
    assert (forall j, lookupZ (if marks c cell then <[Z.to_nat (index + 40) := 0xFF]> (<[Z.to_nat index := fst cell]> (page_char s))
                     else <[Z.to_nat index := fst cell]> (page_char s)) j =
      if marks c cell && (j =? index + 40) then Some 0xFF else if j =? index then Some (fst cell) else lookupZ (page_char s) j)
      as E.
    { intros j. destruct (marks c cell); cbn [andb].
      - specialize (Hm eq_refl). rewrite !lookupZ_insert by (rewrite ?zlen_insert; lia). done.
      - rewrite lookupZ_insert by lia. done. }
    rewrite E. destruct (i - index =? 0) eqn:E0.
    + assert (i = index) as -> by lia. rewrite !(lookupZ_neg _ (_ - _)) by lia.
      replace (index =? index + 40) with false by lia. by rewrite andb_false_r, Z.eqb_refl.
    + destruct (lookupZ cells (i - index - 1)) as [x|] eqn:Ex; [done|]. destruct (i - (index + 40) =? 0) eqn:E1.
      * rewrite lookupZ_neg by lia. destruct (marks c cell); cbn [andb]; rif; done.
      * destruct (lookupZ (zip r cells) _) as [[c' x]|]; [case_if; [done|]|]; rewrite andb_comm; rif; done.
  - rewrite Ra, lookupZ_cons. unfold write_cell. cbv zeta. cbn [page_atrb set_page_atrb set_page_char].
    replace (i - (index + 1)) with (i - index - 1) by lia. rewrite lookupZ_insert by lia.
    case_if; rif; [|done]. unfold lookupZ. rif. done.
Qed.

Lemma at_write_cell index c cell s k : scr_ok s -> on_page index -> 0 <= k -> k <> index -> k <> index + 40 ->
  at_ (page_char (write_cell index c cell s)) k = at_ (page_char s) k.
Proof.
  intros [H1 H2 H3] Ho Hk N1 N2. unfold on_page in Ho. unfold write_cell, at_. cbv zeta.
  cbn [page_char set_page_atrb set_page_char]. rewrite !nth_lookup.
  case_if; rewrite ?list_lookup_insert_ne by lia; done.
Qed.

Lemma row_loop_scan hint row chars : forall col sp s, scr_ok s -> sp_ok row sp -> bytes chars -> 0 <= row <= 24 ->
  0 <= col -> col + zlen chars <= 40 ->
  (forall k, 0 <= k < zlen chars -> at_ (page_char s) (row * 40 + col + k) = at_ chars k) ->
  exists s', row_loop (length chars) hint row col sp s = Ok (snd (scan hint row col sp chars), s') /\ scr_ok s' /\
    row_result (row * 40 + col) chars (fst (scan hint row col sp chars)) s s'.
Proof.
  induction chars as [|c r IH]; intros col sp s Hs Hp Hb Hr Hc Hl Heq.
  { exists s. split; [done|]. split; [done|]. apply row_result_nil. }
  inversion Hb as [|? ? Hc0 Hb']; subst. rewrite zlen_cons in *. pose proof (zlen_nonneg r).
  cbn [row_loop length scan].
  assert (at_ (page_char s) (row * 40 + col) = c) as E0.
  { specialize (Heq 0 ltac:(lia)). by rewrite Z.add_0_r, at_cons_0 in Heq. }
  pose proof (col_step_run hint row col sp s c Hs Hp Hr ltac:(lia) E0) as Hstep.
  pose proof (scan_cell_ok hint row col c sp Hc0 Hp) as Hok.
  destruct (scan_cell hint row col c sp) as [[ch a] sp1]. destruct Hok as (Hch & Ha & Hp1).
  rewrite (mbind_run _ _ _ _ _ Hstep). cbv beta.
  set (s1 := write_cell (row * 40 + col) c (ch, a) s) in *.
  assert (on_page (row * 40 + col)) as Ho by (unfold on_page; lia).
  destruct (IH (col + 1) sp1 s1) as (s' & E & Hs' & Hres); [by apply write_cell_ok|done|done|done|lia|lia| |].
  { intros k Hk. unfold s1. rewrite at_write_cell by (done || lia).
    replace (row * 40 + (col + 1) + k) with (row * 40 + col + (k + 1)) by lia.
    rewrite Heq, at_cons_S by lia. by rewrite Z.add_simpl_r. }
  destruct (scan hint row (col + 1) sp1 r) as [cells sp2]. cbn [fst snd] in *.
  exists s'. split; [done|]. split; [done|].
  apply row_result_cons; [done|done| |by rewrite <- Z.add_assoc].
  unfold marks, on_page. intros Hm. pose proof (l1_height _ _ Ha) as Hh. cbn [snd] in Hm.
  destruct (doubleh a); [specialize (Hh eq_refl); lia|]. by rewrite andb_false_r in Hm.
Qed.

(** ** Double height *)

Lemma switch_G0_dhset s : sp_dhset (switch_G0 s) = sp_dhset s.
Proof. unfold switch_G0. by repeat case_if. Qed.
Lemma settle_esc_dhset s : sp_dhset (settle_esc s) = sp_dhset s.
Proof. unfold settle_esc. case_if; [|done]. exact (switch_G0_dhset (set_sp_charset (sp_previous s) s)). Qed.
Lemma leave_mosaic_dhset s : sp_dhset (leave_mosaic s) = sp_dhset s.
Proof. unfold leave_mosaic. by case_if. Qed.

Lemma control_dhset hint row col c a s :
  (sp_dhset s = true -> sp_dhset (snd (control hint row col c a s)) = true) /\
  (doubleh (fst (control hint row col c a s)) = true -> doubleh a = true).
Proof.
  destruct (Z.eq_dec c esc) as [->|He].
  { rewrite control_esc. cbn [fst snd]. split; [|done]. case_if; [by rewrite switch_G0_dhset, leave_mosaic_dhset|done]. }
  unfold control. cbv zeta. case_if.
  { cbn [fst snd]. rewrite leave_mosaic_dhset. split; [done|]. by case_if. }
  replace (c =? esc) with false by lia. repeat case_if; by cbn.
Qed.

Lemma scan_cell_dhset hint row col c s : sp_ok row s ->
  let '(ch, a, s') := scan_cell hint row col c s in
  (sp_dhset s = true -> sp_dhset s' = true) /\ (doubleh a = true -> sp_dhset s' = true).
Proof.
  intros Hs. unfold scan_cell.
  assert (doubleh (cell_attr col s) = true -> sp_dhset s = true) as Hd by apply Hs.
  assert (forall s1 v, sp_dhset (if negb (is_mosaic (sp_charset s1)) then set_sp_held v s1 else s1) = sp_dhset s1) as Hend
    by (intros; by case_if).
  case_if.
  - pose proof (control_dhset hint row col c (cell_attr col s) (settle_esc s)) as [H1 H2].
    rewrite settle_esc_dhset in H1.
    destruct (control hint row col c (cell_attr col s) (settle_esc s)) as [a s1]. cbn [fst snd] in *.
    rewrite Hend. assert (forall b : bool, sp_dhset (if b then set_sp_hold 0 s1 else s1) = sp_dhset s1) as -> by by intros [].
    split; [done|]. auto.
  - rewrite Hend. cbv zeta. by case_if.
Qed.

Lemma scan_dhset hint row chars : forall col s, bytes chars -> sp_ok row s ->
  (sp_dhset s = true -> sp_dhset (snd (scan hint row col s chars)) = true) /\
  Forall (fun cell => doubleh (snd cell) = true -> sp_dhset (snd (scan hint row col s chars)) = true)
    (fst (scan hint row col s chars)).
Proof.
  induction chars as [|c r IH]; intros col s Hb Hs; cbn [scan]; [by split|].
  inversion Hb as [|? ? Hc Hr]; subst.
  pose proof (scan_cell_ok hint row col c s Hc Hs) as Ho. pose proof (scan_cell_dhset hint row col c s Hs) as H.
  destruct (scan_cell hint row col c s) as [[ch a] s1]. destruct Ho as (_ & _ & H3), H as [H4 H5].
  destruct (IH (col + 1) s1 Hr H3) as [I1 I2]. destruct (scan hint row (col + 1) s1 r) as [cells s2]. cbn [fst snd] in *.
  split; [auto|]. constructor; [auto|done].
Qed.

(** ** A row of the page *)

Definition row_of (row : Z) (s : Scr) : list Z := take 40 (drop (Z.to_nat (row * 40)) (page_char s)).

Definition row_scan (hint boxed : bool) (row : Z) (chars : list Z) : list (Z * PageAttr) * Sp :=
  scan hint row 0 (row_start (boxed && negb (existsb (Z.eqb start_box) chars))) chars.

Lemma row_of_at row s k : 0 <= row -> 0 <= k < 40 -> at_ (row_of row s) k = at_ (page_char s) (row * 40 + k).
Proof. intros Hr Hk. unfold row_of. change 40%nat with (Z.to_nat 40). by rewrite at_take, at_drop by lia. Qed.

Lemma row_of_length row s : scr_ok s -> 0 <= row <= 24 -> length (row_of row s) = 40%nat.
Proof. intros [H _ _] Hr. unfold row_of, zlen in *. rewrite length_take, length_drop. lia. Qed.

(** Decoding a row in place gives its cells what one pass over its characters
    gives them. *)
Lemma decode_row_scan hint boxed row s : scr_ok s -> bytes (page_char s) -> 0 <= row <= 24 ->
  let r := row_scan hint boxed row (row_of row s) in
  exists s', decode_row hint boxed row s = Ok (sp_dhset (snd r), s') /\ scr_ok s' /\
    row_result (row * 40) (row_of row s) (fst r) s s'.
Proof.
  intros Hs Hb Hr. cbv zeta. pose proof (row_of_length row s Hs Hr) as Hl.
  unfold decode_row. rewrite mget_bind. rewrite slice_ok by (destruct Hs; lia).
  rewrite mlift_bind. cbv zeta. change (Z.to_nat 40) with 40%nat. fold (row_of row s).
  set (sp := row_start _). unfold row_scan. fold sp.
  destruct (row_loop_scan hint row (row_of row s) 0 sp s) as (s' & E & Hs' & Hres);
    [done|apply row_start_ok|by apply bytes_take, bytes_drop|done|lia|unfold zlen; lia| |].
  { intros k Hk. unfold zlen in Hk. rewrite row_of_at by lia. f_equal. lia. }
  rewrite Hl in E. rewrite (mbind_run _ _ _ _ _ E). exists s'. split; [done|]. split; [done|].
  by rewrite Z.add_0_r in Hres.
Qed.

(** ** The row below double height *)

Definition within (lo n i : Z) : bool := (lo <=? i) && (i <? lo + n).

(** The [n] cells from [lo] on have been skipped. *)
Record skipped (lo n : Z) (s s' : Scr) : Prop := mkSkipped {
  skip_chars : forall i, lookupZ (page_char s') i =
    if within lo n i
    then (match lookupZ (page_atrb s) (i - 40) with
          | Some a => if doubleh a then lookupZ (page_char s) i else Some 0x20
          | None => None
          end)
    else lookupZ (page_char s) i;
  skip_attrs : forall i, lookupZ (page_atrb s') i =
    if within lo n i
    then (match lookupZ (page_atrb s) (i - 40), lookupZ (page_atrb s) i with
          | Some a, Some b => Some (below a b)
          | _, _ => None
          end)
    else lookupZ (page_atrb s) i;
  skip_rest : FullRowColor s' = FullRowColor s /\ FullScrColor s' = FullScrColor s
}.

Lemma skipped_nil lo s : skipped lo 0 s s.
Proof. constructor; [intros i..|done]; unfold within; by rif. Qed.

Lemma lookupZ_ok {A} (l : list A) i : 0 <= i < zlen l -> exists a, lookupZ l i = Some a.
Proof.
  intros Hi. unfold lookupZ. rif. destruct (l !! Z.to_nat i) as [a|] eqn:E; [by exists a|].
  apply lookup_ge_None in E. unfold zlen in Hi. lia.
Qed.

Lemma get_attr_runZ off a s : lookupZ (page_atrb s) off = Some a -> get_attr off s = Ok (a, s).
Proof.
  unfold lookupZ. destruct (0 <=? off) eqn:E; [|done]. intros H. apply get_attr_run; [done|lia].
Qed.

(** One column. *)
Lemma skip_col_run row col s : scr_ok s -> 0 <= row < 23 -> 0 <= col < 40 ->
  exists s', skip_col row col s = Ok (tt, s') /\ scr_ok s' /\ skipped ((row + 1) * 40 + col) 1 s s'.
Proof.
  intros Hs Hr Hc. set (index := row * 40 + col). replace ((row + 1) * 40 + col) with (index + 40) by lia.
  pose proof Hs as [H1 H2 H3].
  destruct (lookupZ_ok (page_atrb s) index ltac:(lia)) as [a La].
  destruct (lookupZ_ok (page_atrb s) (index + 40) ltac:(lia)) as [b Lb].
  unfold skip_col. cbv zeta. fold index.
  rewrite (mbind_run _ _ _ _ _ (get_attr_runZ _ _ _ La)). cbv beta.
  rewrite (mbind_run _ _ _ _ _ (get_attr_runZ _ _ _ Lb)). cbv beta.
  assert (on_page (index + 40)) as Ho by (unfold on_page; lia).
  set (s1 := if doubleh a then s else set_page_char (<[Z.to_nat (index + 40) := 0x20]> (page_char s)) s).
  assert (scr_ok s1) as Hs1 by (unfold s1; case_if; [done|by apply scr_ok_char]).
  assert ((if negb (doubleh a) then put_char (index + 40) 0x20 else mret_ tt) s = Ok (tt, s1)) as E1.
  { unfold s1. destruct (doubleh a); [done|]. by apply put_char_run. }
  rewrite (mbind_run _ _ _ _ _ E1). cbv beta. rewrite (put_attr_run _ _ _ Hs1 Ho). eexists. split; [reflexivity|].
  split; [by apply scr_ok_atrb|].
  assert (page_atrb s1 = page_atrb s /\ FullRowColor s1 = FullRowColor s /\ FullScrColor s1 = FullScrColor s) as (Ea & Er & Ef)
    by (unfold s1; by case_if).
  constructor; [intros i..|by cbn; rewrite Er, Ef]; unfold within; cbn [page_char page_atrb set_page_atrb].
  - destruct (Z.eq_dec i (index + 40)) as [->|Hne].
    + rif. rewrite Z.add_simpl_r, La. unfold s1. destruct (doubleh a); [done|].
      cbn [page_char set_page_char]. rewrite lookupZ_insert by lia. by rif.
    + rif. unfold s1. destruct (doubleh a); [done|].
      cbn [page_char set_page_char]. rewrite lookupZ_insert by lia. by rif.
  - rewrite Ea, lookupZ_insert by lia. destruct (Z.eq_dec i (index + 40)) as [->|Hne]; rif; [|done].
    by rewrite Z.add_simpl_r, La, Lb.
Qed.

Lemma skipped_cons lo n s s1 s2 : 0 <= n < 40 -> skipped lo 1 s s1 -> skipped (lo + 1) n s1 s2 -> skipped lo (1 + n) s s2.
Proof.
  intros Hn [C1 A1 [R1 F1]] [C2 A2 [R2 F2]]. unfold within in *. constructor; [intros i..|split; congruence].
  - rewrite C2, A1, C1. unfold within. repeat case_if; done || (exfalso; lia) || idtac.
  - rewrite A2, !A1. unfold within. repeat case_if; done || (exfalso; lia) || idtac.
Qed.

Lemma skip_cols_run row n : forall col s, scr_ok s -> 0 <= row < 23 -> 0 <= col -> col + Z.of_nat n <= 40 ->
  exists s', mfor n col (skip_col row) s = Ok (tt, s') /\ scr_ok s' /\
    skipped ((row + 1) * 40 + col) (Z.of_nat n) s s'.
Proof.
  induction n as [|n IH]; intros col s Hs Hr Hc Hn; cbn [mfor]; [exists s; split; [done|split; [done|apply skipped_nil]]|].
  destruct (skip_col_run row col s Hs Hr ltac:(lia)) as (s1 & E1 & Hs1 & K1).
  rewrite (mbind_run _ _ _ _ _ E1). cbv beta.
  destruct (IH (col + 1) s1 Hs1 Hr ltac:(lia) ltac:(lia)) as (s2 & E2 & Hs2 & K2).
  exists s2. split; [done|]. split; [done|]. replace (Z.of_nat (S n)) with (1 + Z.of_nat n) by lia.
  eapply skipped_cons; [lia|exact K1|]. by replace ((row + 1) * 40 + col + 1) with ((row + 1) * 40 + (col + 1)) by lia.
Qed.

(** ** The rows of a page *)

(** What the rows from [row] on become: each is scanned as it was received, in
    the page [s0], and one below a row of double height is skipped. *)
Inductive rows_result (hint boxed : bool) (rows : Z) (s0 : Scr) : Z -> Scr -> Scr -> Prop :=
| rows_end row s : rows <= row -> rows_result hint boxed rows s0 row s s
| rows_single row s s1 s' :
    row < rows ->
    row_result (row * 40) (row_of row s0) (fst (row_scan hint boxed row (row_of row s0))) s s1 ->
    sp_dhset (snd (row_scan hint boxed row (row_of row s0))) = false ->
    rows_result hint boxed rows s0 (row + 1) s1 s' -> rows_result hint boxed rows s0 row s s'
| rows_double row s s1 s2 s' :
    row < rows ->
    row_result (row * 40) (row_of row s0) (fst (row_scan hint boxed row (row_of row s0))) s s1 ->
    sp_dhset (snd (row_scan hint boxed row (row_of row s0))) = true ->
    skipped ((row + 1) * 40) 40 s1 s2 ->
    rows_result hint boxed rows s0 (row + 2) s2 s' -> rows_result hint boxed rows s0 row s s'.

(** Cell [i] of the page [s], which was received as [s0], shows a character or
    is below a spacing attribute in double height. *)
Definition shows (s0 s : Scr) (i : Z) : Prop :=
  0x20 <= at_ (page_char s) i < 256 \/
  (40 <= i /\ at_ (page_char s) i = at_ (page_char s0) i /\ at_ (page_char s0) (i - 40) < 0x20 /\
   exists a, lookupZ (page_atrb s) (i - 40) = Some a /\ doubleh a = true).

(** Up to cell [k] the page is done, behind it as received. *)
Record done_to (k : Z) (s0 s : Scr) : Prop := mkDone {
  done_ok : scr_ok s;
  done_shows : forall i, 0 <= i < k -> shows s0 s i;
  done_rest : forall i, k <= i < 1000 -> at_ (page_char s) i = at_ (page_char s0) i
}.

Lemma lookupZ_at (l : list Z) i v : lookupZ l i = Some v -> at_ l i = v.
Proof.
  unfold lookupZ, at_. destruct (0 <=? i) eqn:E; [|done]. intros H. by rewrite nth_lookup, H.
Qed.

Lemma at_lookupZ (l : list Z) i : 0 <= i < zlen l -> lookupZ l i = Some (at_ l i).
Proof. intros Hi. unfold lookupZ. rif. by apply at_lookup. Qed.

Lemma done_bytes k s0 s : 0 <= k <= 1000 -> bytes (page_char s0) -> zlen (page_char s0) = 1000 ->
  done_to k s0 s -> bytes (page_char s).
Proof.
  intros Hk Hb Hl [[H1 _ _] Hs Hr]. apply list.Forall_lookup. intros j x Hj.
  assert (Z.of_nat j < 1000) as Hlt by (apply lookup_lt_Some in Hj; unfold zlen in H1; lia).
  assert (at_ (page_char s) (Z.of_nat j) = x) as <- by (unfold at_; rewrite Nat2Z.id, nth_lookup, Hj; done).
  assert (is_byte (at_ (page_char s0) (Z.of_nat j))) as Hb0 by (apply bytes_at; [done|lia]).
  destruct (Z.lt_ge_cases (Z.of_nat j) k) as [Hc|Hc]; [|by rewrite Hr by lia].
  destruct (Hs (Z.of_nat j) ltac:(lia)) as [Hx|(_ & -> & _)]; [unfold is_byte; lia|done].
Qed.

Lemma row_of_eq row s0 s : 0 <= row <= 24 -> scr_ok s0 -> done_to (row * 40) s0 s -> row_of row s = row_of row s0.
Proof.
  intros Hr H0 [Hs _ Hrest]. apply list_eq_at.
  - unfold zlen. by rewrite !row_of_length by done.
  - intros k Hk. unfold zlen in Hk. rewrite row_of_length in Hk by done. rewrite !row_of_at by lia. apply Hrest. lia.
Qed.

(** What a scanned row leaves. *)
Section RowDone.
Context (hint boxed : bool) (row : Z) (s0 s s1 : Scr) (Hrow : 0 <= row <= 24).
Context (H0 : scr_ok s0) (Hb0 : bytes (page_char s0)) (Hd : done_to (row * 40) s0 s) (H1 : scr_ok s1).
Let chars := row_of row s.
Let r := row_scan hint boxed row chars.
Context (Hres : row_result (row * 40) chars (fst r) s s1).

Lemma scanned_bytes : bytes (page_char s).
Proof using H0 Hb0 Hd Hrow. apply (done_bytes (row * 40) s0 s); [lia|done|apply H0|done]. Qed.

Lemma scanned_cells : Forall (fun cell => 0x20 <= fst cell < 256 /\ level1_attr row (snd cell)) (fst r) /\
  length (fst r) = 40%nat /\
  Forall (fun cell => doubleh (snd cell) = true -> sp_dhset (snd r) = true) (fst r).
Proof using H0 Hb0 Hd Hrow.
  assert (bytes chars) as Hb by (apply bytes_take, bytes_drop, scanned_bytes).
  unfold r, row_scan. set (sp := row_start _).
  destruct (scan_ok hint row chars 0 sp Hb (row_start_ok _ _)) as (S1 & _ & S2).
  destruct (scan_dhset hint row chars 0 sp Hb (row_start_ok _ _)) as [_ S3].
  split; [done|]. split; [|done]. rewrite S2. apply row_of_length; [apply Hd|done].
Qed.

Lemma cell_of k : 0 <= k < 40 -> exists ch a, lookupZ (fst r) k = Some (ch, a) /\ 0x20 <= ch < 256 /\
  (doubleh a = true -> sp_dhset (snd r) = true).
Proof using H0 Hb0 Hd Hrow.
  intros Hk. destruct scanned_cells as (S1 & S2 & S3).
  destruct (lookupZ_ok (fst r) k ltac:(unfold zlen; lia)) as [[ch a] E]. exists ch, a.
  split; [done|]. unfold lookupZ in E. replace (0 <=? k) with true in E by lia.
  pose proof (Forall_lookup_1 _ _ _ _ S1 E) as [? _]. pose proof (Forall_lookup_1 _ _ _ _ S3 E). done.
Qed.

Lemma scanned_at i : row * 40 <= i < row * 40 + 40 -> 0x20 <= at_ (page_char s1) i < 256 /\
  exists a, lookupZ (page_atrb s1) i = Some a /\ (doubleh a = true -> sp_dhset (snd r) = true).
Proof using H0 Hb0 Hd Hrow Hres.
  intros Hi. destruct (cell_of (i - row * 40) ltac:(lia)) as (ch & a & E & Hch & Hdh). destruct Hres as [Rc Ra _].
  split.
  - specialize (Rc i). rewrite E in Rc. apply lookupZ_at in Rc. by rewrite Rc.
  - exists a. split; [|done]. by rewrite Ra, E.
Qed.

(** The next row: marked below characters of double height, else as it was. *)
Lemma scanned_next i : (row + 1) * 40 <= i < (row + 1) * 40 + 40 -> i < 1000 ->
  at_ (page_char s1) i = 0xFF /\ sp_dhset (snd r) = true \/
  (at_ (page_char s1) i = at_ (page_char s) i /\
   exists a, lookupZ (page_atrb s1) (i - 40) = Some a /\ (doubleh a = true -> at_ (page_char s) (i - 40) < 0x20)).
Proof using H0 Hb0 Hd Hrow Hres.
  intros Hi Hlt. destruct (cell_of (i - (row * 40 + 40)) ltac:(lia)) as (ch & a & E & _ & Hdh). destruct Hres as [Rc Ra _].
  assert (lookupZ (fst r) (i - row * 40) = None) as Hnone.
  { unfold lookupZ. rif. apply lookup_ge_None. destruct scanned_cells as (_ & -> & _). lia. }
  set (k := i - (row * 40 + 40)) in *.
  assert (lookupZ (zip chars (fst r)) k = Some (at_ chars k, (ch, a))) as Ez.
  { unfold lookupZ in *. replace (0 <=? k) with true in * by lia. apply lookup_zip_with_Some.
    exists (at_ chars k), (ch, a). split_and!; [done| |done]. apply at_lookup. unfold zlen.
    unfold chars. rewrite row_of_length by (apply Hd || done). lia. }
  specialize (Rc i). fold k in Rc. rewrite Hnone, Ez in Rc.
  assert (at_ chars k = at_ (page_char s) (i - 40)) as Ec.
  { unfold chars. rewrite row_of_at by lia. f_equal. lia. }
  unfold marks in Rc. cbn [snd] in Rc. rewrite Ec in Rc.
  destruct (negb (at_ (page_char s) (i - 40) <? 0x20) && doubleh a) eqn:Em.
  { left. split; [by apply lookupZ_at|]. apply Hdh. by apply andb_prop in Em as [_ ?]. }
  right.
  destruct Hd as [[D1 _ _] _ _]. rewrite (at_lookupZ (page_char s)) in Rc by lia. apply lookupZ_at in Rc. split; [done|].
  exists a. split; [rewrite Ra; replace (i - 40 - row * 40) with k by lia; by rewrite E|]. intros Hda. rewrite Hda in Em. lia.
Qed.

(** Everything else is as before. *)
Lemma scanned_else i : 0 <= i < 1000 -> i < row * 40 \/ (row + 1) * 40 + 40 <= i ->
  at_ (page_char s1) i = at_ (page_char s) i.
Proof using H0 Hb0 Hd Hrow Hres.
  intros Hi Ho. destruct Hres as [Rc _ _], scanned_cells as (_ & Hlen & _).
  specialize (Rc i).
  assert (lookupZ (fst r) (i - row * 40) = None) as Hn1.
  { unfold lookupZ. case_if; [|done]. apply lookup_ge_None. lia. }
  assert (lookupZ (zip chars (fst r)) (i - (row * 40 + 40)) = None) as Hn2.
  { unfold lookupZ. case_if; [|done]. apply lookup_ge_None. rewrite length_zip_with. lia. }
  rewrite Hn1, Hn2 in Rc. destruct Hd as [[D1 _ _] _ _]. rewrite (at_lookupZ (page_char s)) in Rc by lia. by apply lookupZ_at.
Qed.

Lemma scanned_attr_before i : i < row * 40 -> lookupZ (page_atrb s1) i = lookupZ (page_atrb s) i.
Proof using Hres. intros Hi. destruct Hres as [_ Ra _]. rewrite Ra. by rewrite lookupZ_neg by lia. Qed.

Lemma shows_before i : 0 <= i < row * 40 -> shows s0 s1 i.
Proof using H0 Hb0 Hd Hrow Hres.
  intros Hi. unfold shows. rewrite scanned_else by lia. rewrite scanned_attr_before by lia.
  by apply Hd.
Qed.

Lemma single_done : sp_dhset (snd r) = false -> done_to ((row + 1) * 40) s0 s1.
Proof using H0 Hb0 Hd H1 Hrow Hres.
  intros Hdh. constructor; [done| |].
  - intros i Hi. destruct (Z.lt_ge_cases i (row * 40)); [apply shows_before; lia|].
    left. apply scanned_at. lia.
  - intros i Hi. transitivity (at_ (page_char s) i); [|apply (done_rest _ _ _ Hd); lia].
    destruct (Z.lt_ge_cases i ((row + 1) * 40 + 40)); [|apply scanned_else; lia].
    destruct (scanned_next i ltac:(lia) ltac:(lia)) as [[_ E]|[E _]]; [congruence|done].
Qed.

Lemma double_done s2 : row < 23 -> scr_ok s2 -> skipped ((row + 1) * 40) 40 s1 s2 -> done_to ((row + 2) * 40) s0 s2.
Proof using H0 Hb0 Hd H1 Hrow Hres.
  intros Hr2 H2 [Kc Ka _].
  assert (forall i, 0 <= i < 1000 -> within ((row + 1) * 40) 40 i = false -> at_ (page_char s2) i = at_ (page_char s1) i) as Hout.
  { intros i Hi Hw. specialize (Kc i). rewrite Hw, (at_lookupZ (page_char s1)) in Kc by (destruct H1; lia).
    by apply lookupZ_at. }
  assert (forall i, i < (row + 1) * 40 -> lookupZ (page_atrb s2) i = lookupZ (page_atrb s1) i) as Hattr.
  { intros i Hi. rewrite Ka. unfold within. by rif. }
  unfold within in *. constructor; [done| |].
  - intros i Hi. destruct (Z.lt_ge_cases i (row * 40)).
    { unfold shows. rewrite Hout, Hattr by lia. apply shows_before. lia. }
    destruct (Z.lt_ge_cases i ((row + 1) * 40)).
    { left. rewrite Hout by lia. apply scanned_at. lia. }
    destruct (scanned_at (i - 40) ltac:(lia)) as (_ & a & La & _).
    specialize (Kc i). replace (((row + 1) * 40 <=? i) && (i <? (row + 1) * 40 + 40)) with true in Kc by lia.
    rewrite La in Kc. destruct (doubleh a) eqn:Da; [|left; apply lookupZ_at in Kc; lia].
    rewrite (at_lookupZ (page_char s1)) in Kc by (destruct H1; lia). apply lookupZ_at in Kc. unfold shows. rewrite Kc.
    destruct (scanned_next i ltac:(lia) ltac:(lia)) as [[-> _]|(-> & a' & La' & Hc)]; [left; lia|right].
    rewrite La in La'. injection La' as <-.
    rewrite <- !(done_rest _ _ _ Hd) by lia. split; [lia|]. split; [done|]. split; [auto|].
    exists a. by rewrite Hattr by lia.
  - intros i Hi. rewrite Hout by lia. transitivity (at_ (page_char s) i); [apply scanned_else; lia|].
    apply (done_rest _ _ _ Hd). lia.
Qed.
End RowDone.

(** Double height ends with row 22. *)
Lemma dhset_row hint boxed row chars : bytes chars -> sp_dhset (snd (row_scan hint boxed row chars)) = true -> row < 23.
Proof. intros Hb. apply ok_dhrow. by apply scan_ok; [|apply row_start_ok]. Qed.

Lemma decode_rows_scan hint boxed rows fuel : forall row s0 s, 0 <= row -> 24 <= rows <= 25 -> rows - row < Z.of_nat fuel ->
  scr_ok s0 -> bytes (page_char s0) -> done_to (row * 40) s0 s -> row <= rows ->
  exists s', decode_rows fuel hint boxed row rows s = Ok (tt, s') /\ done_to (rows * 40) s0 s' /\
    rows_result hint boxed rows s0 row s s'.
Proof.
  induction fuel as [|f IH]; intros row s0 s Hr Hrows Hf H0 Hb0 Hd Hle; [lia|]. cbn [decode_rows].
  destruct (row <? rows) eqn:Hlt.
  2:{ assert (row = rows) as -> by lia. exists s. split; [done|]. split; [done|]. by apply rows_end. }
  assert (bytes (page_char s)) as Hb by (apply (done_bytes (row * 40) s0 s); [lia|done|apply H0|done]).
  destruct (decode_row_scan hint boxed row s (done_ok _ _ _ Hd) Hb ltac:(lia)) as (s1 & E1 & H1 & Hres).
  rewrite (mbind_run _ _ _ _ _ E1). cbv beta.
  assert (bytes (row_of row s)) as Hbr by by apply bytes_take, bytes_drop.
  pose proof (row_of_eq row s0 s ltac:(lia) H0 Hd) as Eq.
  destruct (sp_dhset (snd (row_scan hint boxed row (row_of row s)))) eqn:Hdh.
  - pose proof (dhset_row hint boxed row _ Hbr Hdh) as Hr23. replace ((row <? 23) && true) with true by lia.
    destruct (skip_cols_run row 40 0 s1 H1 ltac:(lia) ltac:(lia) ltac:(lia)) as (s2 & E2 & H2 & Hskip).
    rewrite Z.add_0_r in Hskip. unfold skip_row. rewrite (mbind_run _ _ _ _ _ E2). cbv beta.
    destruct (IH (row + 2) s0 s2) as (s' & E & Hd' & Hres'); [lia|lia|lia|done|done| |lia|].
    { apply (double_done hint boxed row s0 s s1); done || lia. }
    exists s'. split; [done|]. split; [done|]. apply (rows_double _ _ _ _ row s s1 s2); rewrite <- ?Eq; done || lia.
  - rewrite andb_false_r.
    destruct (IH (row + 1) s0 s1) as (s' & E & Hd' & Hres'); [lia|lia|lia|done|done| |lia|].
    { apply (single_done hint boxed row s0 s s1); done || lia. }
    exists s'. split; [done|]. split; [done|]. apply (rows_single _ _ _ _ row s s1); rewrite <- ?Eq; done || lia.
Qed.

(** ** Colours *)

(** What a character does to the pair of foreground and background. *)
Definition color_step (hint : bool) (p : Z * Z) (c : Z) : Z * Z :=
  if (0 <=? c) && (c <=? 7) then (c, snd p)
  else if (0x10 <=? c) && (c <=? 0x17) then (c - 0x10, snd p)
  else if (c =? 0x18) && negb hint then (snd p, snd p)
  else if c =? 0x1C then (fst p, 0)
  else if c =? 0x1D then (fst p, fst p)
  else p.

(** The colours before character [k] of a row that starts with [p]. *)
Definition colors (hint : bool) (p : Z * Z) (chars : list Z) (k : nat) : Z * Z :=
  fold_left (color_step hint) (take k chars) p.

(** Foreground takes effect behind its attribute, background at it; concealed
    text has the colour of its background; a row that begins with white has a
    black mark in its first cell. *)
Definition cell_colors (hint : bool) (col c : Z) (p : Z * Z) (a : PageAttr) : Prop :=
  bg a = snd (color_step hint p c) /\
  fg a = if (c =? 0x18) && negb hint then snd p else if (col =? 0) && (c =? 7) then 0 else fst p.

Definition sp_colors (s : Sp) : Z * Z := (sp_foreground s, sp_background s).

Lemma switch_G0_colors s : sp_colors (switch_G0 s) = sp_colors s.
Proof. unfold switch_G0. by repeat case_if. Qed.
Lemma leave_mosaic_colors s : sp_colors (leave_mosaic s) = sp_colors s.
Proof. unfold leave_mosaic. by case_if. Qed.
Lemma settle_esc_colors s : sp_colors (settle_esc s) = sp_colors s.
Proof. unfold settle_esc. case_if; [|done]. exact (switch_G0_colors (set_sp_charset (sp_previous s) s)). Qed.

Lemma control_colors hint row col c a s : 0 <= c < 0x20 -> fg a = sp_foreground s -> bg a = sp_background s ->
  cell_colors hint col c (sp_colors s) (fst (control hint row col c a s)) /\
  sp_colors (snd (control hint row col c a s)) = color_step hint (sp_colors s) c.
Proof.
  intros Hc Hf Hb. destruct (Z.eq_dec c esc) as [->|He].
  { rewrite control_esc. cbn [fst snd]. split; [split; [exact Hb|]|].
    { destruct hint; cbn; by rewrite ?andb_false_r. }
    case_if; [by rewrite switch_G0_colors, leave_mosaic_colors|done]. }
  unfold esc, cell_colors in *.
  assert (forall t, sp_foreground (leave_mosaic t) = sp_foreground t /\ sp_background (leave_mosaic t) = sp_background t) as Hl.
  { intros t. pose proof (leave_mosaic_colors t) as E. by injection E. }
  destruct c as [|p|p]; [|repeat (destruct p as [p|p|]; try lia)|lia];
    unfold control, color_step, sp_colors; cbn -[leave_mosaic]; rewrite ?(proj1 (Hl _)), ?(proj2 (Hl _)); cbn;
    rewrite ?andb_false_r, ?andb_true_r; destruct hint; repeat case_if; cbn;
    try (split; [split|]); congruence || (f_equal; congruence).
Qed.

Lemma color_step_text hint p c : 0x20 <= c -> color_step hint p c = p.
Proof. intros Hc. unfold color_step. by rif. Qed.

Lemma scan_cell_colors hint row col c s : is_byte c ->
  let '(ch, a, s') := scan_cell hint row col c s in
  cell_colors hint col c (sp_colors s) a /\ sp_colors s' = color_step hint (sp_colors s) c.
Proof.
  intros Hc. unfold is_byte in Hc. unfold scan_cell.
  assert (forall s1 v, sp_colors (if negb (is_mosaic (sp_charset s1)) then set_sp_held v s1 else s1) = sp_colors s1) as Hend
    by (intros; by case_if).
  case_if.
  - assert (sp_foreground s = sp_foreground (settle_esc s) /\ sp_background s = sp_background (settle_esc s)) as [Ef Eb].
    { pose proof (settle_esc_colors s) as E. by injection E. }
    destruct (control_colors hint row col c (cell_attr col s) (settle_esc s)) as [H1 H2]; [lia|exact Ef|exact Eb|].
    rewrite settle_esc_colors in H1, H2.
    destruct (control hint row col c (cell_attr col s) (settle_esc s)) as [a s1]. cbn [fst snd] in *.
    rewrite Hend. split; [done|]. rewrite <- H2. by case_if.
  - rewrite Hend. unfold cell_colors. rewrite color_step_text by lia. cbv zeta. split; [|by case_if].
    split; [done|]. by rif.
Qed.

Lemma scan_colors hint row chars : forall col s, bytes chars ->
  forall k c ch a, chars !! k = Some c -> fst (scan hint row col s chars) !! k = Some (ch, a) ->
  cell_colors hint (col + Z.of_nat k) c (colors hint (sp_colors s) chars k) a.
Proof.
  induction chars as [|c0 r IH]; intros col s Hb k c ch a Hk Ha; [done|]. cbn [scan] in Ha.
  inversion Hb as [|? ? Hc Hr]; subst.
  pose proof (scan_cell_colors hint row col c0 s Hc) as H.
  destruct (scan_cell hint row col c0 s) as [[ch0 a0] s1]. destruct H as [H1 H2].
  pose proof (IH (col + 1) s1 Hr) as IH'. destruct (scan hint row (col + 1) s1 r) as [cells s2]. cbn [fst] in *.
  destruct k as [|k]; cbn in Hk, Ha.
  - injection Hk as <-. injection Ha as <- <-. by rewrite Z.add_0_r.
  - specialize (IH' k c ch a Hk Ha). unfold colors in *. cbn [take fold_left]. rewrite <- H2.
    by replace (col + Z.of_nat (S k)) with (col + 1 + Z.of_nat k) by lia.
Qed.

(** C12: the rows of any page, of any bytes, are decoded within the arrays, and
    it ends.  Each row becomes what one pass over its characters, as they were
    received, gives its cells (decoding in place disturbs no row that is still
    to come), and one below a row of double height is skipped.  Afterwards no
    spacing attribute is left in the rows but below another one in double
    height, where what was received stays.  In each decoded row a foreground colour takes effect in
    the cell behind its attribute and a background in the cell of its
    attribute. *)
Theorem page_is_scanned hint boxed rows s :
  scr_ok s -> bytes (page_char s) -> 24 <= rows <= 25 ->
  runs (decode_rows 26 hint boxed 0 rows) s (fun _ s' => scr_ok s' /\
    rows_result hint boxed rows s 0 s s' /\ (forall i, 0 <= i < rows * 40 -> shows s s' i)) /\
  (forall row chars k c ch a, bytes chars -> chars !! k = Some c ->
     fst (row_scan hint boxed row chars) !! k = Some (ch, a) ->
     let start := row_start (boxed && negb (existsb (Z.eqb start_box) chars)) in
     cell_colors hint (Z.of_nat k) c (colors hint (sp_foreground start, sp_background start) chars k) a).
Proof.
  intros Hs Hb Hr. split.
  - destruct (decode_rows_scan hint boxed rows 26 0 s s) as (s' & E & [Hok Hsh _] & Hres);
      [lia|lia|lia|done|done| |lia|exists tt, s'; done].
    constructor; [done|lia|done].
  - intros row chars k c ch a Hbc Hk Ha. cbv zeta. exact (scan_colors hint row chars 0 _ Hbc k c ch a Hk Ha).
Qed.

(** A row of double height with colours and a held mosaic, and rows of text. *)
Definition sample_row : list Z := [0x01; 0x0D; 0x41; 0x1D; 0x07; 0x42; 0x12; 0x1E; 0x35; 0x13; 0x0C] ++ replicate 29 0x20.
Definition sample_page : Scr :=
  mkScr (sample_row ++ replicate 960 0x43) (replicate 1000 (attr_default false)) (replicate 25 0) 0 0 0.

Lemma page_is_scanned_witness :
  match decode_rows 26 false false 0 24 sample_page with
  | Ok (_, s') =>
      map (fun i => at_ (page_char s') i) [2; 5; 8; 9; 42; 45; 50] = [0x41; 0x42; 0x35; 0x35; 0xFF; 0xFF; 0x20] /\
      forall i, 0 <= i < 960 -> shows sample_page s' i
  | _ => False
  end.
Proof.
  destruct (page_is_scanned false false 24 sample_page) as [(u & s' & E & _ & _ & Hsh) _].
  - by constructor.
  - apply decide_bytes. by vm_compute.
  - lia.
  - assert (match decode_rows 26 false false 0 24 sample_page with
            | Ok (_, s') => map (fun i => at_ (page_char s') i) [2; 5; 8; 9; 42; 45; 50]
            | _ => [] end = [0x41; 0x42; 0x35; 0x35; 0xFF; 0xFF; 0x20]) as Hv by (by vm_compute).
    rewrite E in Hv |- *. split; [exact Hv|]. exact Hsh.
Defined.
