(* ===== verification/TxtDecodeSpec.v ===== *)
(** * What [tuxtxt_DecodePage] leaves in the arrays of its caller

    For level 1 ([showl25] clear): decoding any page of a well-formed cache
    returns, stays within the arrays and leaves the cache alone; on a page
    with a decimal number no cell keeps the transparent colour 8, and on a
    boxed page what is outside the boxes is transparent
    ([DecodePage_level1]). *)

From stdpp Require Import gmap.
From S2P Require Import Prelude TxtCode TxtCodeSpec TxtCache TxtPageSpec TxtPackSpec TxtP28Spec TxtInv TxtObject TxtRow TxtPage TxtObjectSpec TxtRowSpec.

Open Scope Z_scope.

#[local] Opaque pack unpack spaces zero_mask.

(** ** Cell by cell *)

(** [f] on the attributes of the [n] cells from [lo] on. *)
Record mapped (lo n : Z) (f : Z -> PageAttr -> PageAttr) (s s' : Scr) : Prop := mkMapped {
  map_ok : scr_ok s';
  map_attrs : forall j, lookupZ (page_atrb s') j =
    if within lo n j then f j <$> lookupZ (page_atrb s) j else lookupZ (page_atrb s) j;
  map_chars : page_char s' = page_char s;
  map_rows : FullRowColor s' = FullRowColor s;
  map_screen : FullScrColor s' = FullScrColor s
}.

Lemma mapped_nil lo f s : scr_ok s -> mapped lo 0 f s s.
Proof. intros Hs. constructor; try done. intros j. unfold within. by rif. Qed.

Lemma mapped_app lo n m f s s1 s2 : 0 <= n -> 0 <= m -> mapped lo n f s s1 -> mapped (lo + n) m f s1 s2 ->
  mapped lo (n + m) f s s2.
Proof.
  intros Hn Hm [_ A1 C1 R1 F1] [H2 A2 C2 R2 F2]. constructor; [done| |congruence..].
  intros j. rewrite A2, A1. unfold within. repeat case_if; done || (exfalso; lia).
Qed.

Lemma mapped_one i f a s : scr_ok s -> lookupZ (page_atrb s) i = Some a -> on_page i ->
  mapped i 1 f s (set_page_atrb (<[Z.to_nat i := f i a]> (page_atrb s)) s).
Proof.
  intros Hs La Ho. constructor; [by apply scr_ok_atrb| |done..]. intros j. cbn [page_atrb set_page_atrb].
  destruct Hs as [_ H _]. unfold on_page in Ho. rewrite lookupZ_insert by lia. unfold within.
  destruct (Z.eq_dec j i) as [->|Hne]; rif; [by rewrite La|done].
Qed.

(** A loop whose turns each change one cell. *)
Lemma mfor_mapped (g : Z -> M Scr unit) f rows screen : forall n lo h s,
  scr_ok s -> 0 <= h + lo -> h + lo + Z.of_nat n <= 1000 -> FullRowColor s = rows -> FullScrColor s = screen ->
  (forall i s a, lo <= i < lo + Z.of_nat n -> scr_ok s -> FullRowColor s = rows -> FullScrColor s = screen ->
     lookupZ (page_atrb s) (h + i) = Some a ->
     g i s = Ok (tt, set_page_atrb (<[Z.to_nat (h + i) := f (h + i) a]> (page_atrb s)) s)) ->
  exists s', mfor n lo g s = Ok (tt, s') /\ mapped (h + lo) (Z.of_nat n) f s s'.
Proof.
  induction n as [|n IH]; intros lo h s Hs H1 H2 Hr Hf Hg; [exists s; split; [done|by apply mapped_nil]|]. cbn [mfor].
  destruct (lookupZ_ok (page_atrb s) (h + lo)) as [a La]; [destruct Hs; lia|].
  rewrite (mbind_run _ _ _ _ _ (Hg lo s a ltac:(lia) Hs Hr Hf La)). cbv beta.
  pose proof (mapped_one (h + lo) f a s Hs La ltac:(unfold on_page; lia)) as M1. set (s1 := set_page_atrb _ s) in *.
  destruct (IH (lo + 1) h s1) as (s2 & E & M2); [apply M1|lia|lia|done|done| |].
  { intros i t b Hi. apply Hg. lia. }
  exists s2. split; [done|]. replace (Z.of_nat (S n)) with (1 + Z.of_nat n) by lia.
  apply (mapped_app _ _ _ _ _ s1); [lia|lia|done|]. by replace (h + lo + 1) with (h + (lo + 1)) by lia.
Qed.

(** ** Boxes *)

Definition box_attr (boxed : bool) (rows : list Z) (screen j : Z) (a : PageAttr) : PageAttr :=
  let color := box_color boxed (boxwin a) (at_ rows (j / 40)) screen in
  set_fg (color (fg a)) (set_bg (color (bg a)) a).

Lemma box_row_run boxed r s : scr_ok s -> 0 <= r < 25 ->
  exists s', mfor 40 0 (box_cell boxed r) s = Ok (tt, s') /\
    mapped (r * 40) 40 (box_attr boxed (FullRowColor s) (FullScrColor s)) s s'.
Proof.
  intros Hs Hr.
  destruct (mfor_mapped (box_cell boxed r) (box_attr boxed (FullRowColor s) (FullScrColor s)) (FullRowColor s)
    (FullScrColor s) 40 0 (r * 40) s) as (s' & E & Hm); [done|lia|lia|done|done| |].
  - intros i t a Hi Ht Er Ef La. unfold box_cell. cbv zeta.
    rewrite (mbind_run _ _ _ _ _ (get_attr_runZ _ _ _ La)). cbv beta. rewrite mget_bind.
    destruct (idx_ok (FullRowColor t) r) as (c & Ec & Lc); [destruct Ht; lia|]. rewrite Ec, mlift_bind.
    rewrite put_attr_run; [|done|unfold on_page; lia]. unfold box_attr. cbv zeta.
    replace ((r * 40 + i) / 40) with r by (apply Z.div_unique with i; lia).
    rewrite <- Er, <- Ef. unfold at_. by rewrite nth_lookup, Lc.
  - exists s'. split; [done|]. by rewrite Z.add_0_r in Hm.
Qed.

Lemma box_page_run boxed s : scr_ok s ->
  exists s', box_page boxed s = Ok (tt, s') /\
    mapped 0 1000 (box_attr boxed (FullRowColor s) (FullScrColor s)) s s'.
Proof.
  intros Hs. unfold box_page.
  assert (forall n r t, scr_ok t -> 0 <= r -> r + Z.of_nat n <= 25 -> FullRowColor t = FullRowColor s ->
    FullScrColor t = FullScrColor s ->
    exists t', mfor n r (fun r => mfor 40 0 (box_cell boxed r)) t = Ok (tt, t') /\
      mapped (r * 40) (Z.of_nat n * 40) (box_attr boxed (FullRowColor s) (FullScrColor s)) t t') as H.
  { induction n as [|n IH]; intros r t Ht H1 H2 Hr Hf; cbn [mfor]; [exists t; split; [done|by apply mapped_nil]|].
    destruct (box_row_run boxed r t Ht ltac:(lia)) as (t1 & E1 & M1). rewrite Hr, Hf in M1.
    rewrite (mbind_run _ _ _ _ _ E1). cbv beta.
    destruct (IH (r + 1) t1) as (t2 & E2 & M2); [apply M1|lia|lia|by rewrite (map_rows _ _ _ _ _ M1)|
      by rewrite (map_screen _ _ _ _ _ M1)|].
    exists t2. split; [done|]. replace (Z.of_nat (S n) * 40) with (40 + Z.of_nat n * 40) by lia.
    apply (mapped_app _ _ _ _ _ t1); [lia|lia|done|]. by replace (r * 40 + 40) with ((r + 1) * 40) by lia. }
  destruct (H 25%nat 0 s Hs) as (s' & E & Hm); [lia|lia|done|done|]. by exists s'.
Qed.

(** The bits are disjoint: the mask is their sum. *)
Lemma box_color_spec boxed boxwin row_color screen color :
  box_color boxed boxwin row_color screen color <> 0x08 /\
  (boxed = true -> boxwin = false -> box_color boxed boxwin row_color screen color = tuxtxt_color_transp).
Proof.
  unfold box_color.
  destruct (color =? 0x08) eqn:Ec, (row_color =? 0x08) eqn:Er, boxed, boxwin;
    match goal with |- context [existsb (Z.eqb ?b) _] => let v := eval vm_compute in b in change b with v end;
    cbn; unfold tuxtxt_color_transp; split; intros; done || lia.
Qed.

(** ** The parts of the page *)

Definition arrays_ok (s : Scr) : Prop := scr_ok s /\ bytes (page_char s).

(** The code returns, leaves the arrays sound and establishes [P]. *)
Definition sound {A} (m : M Scr A) : Prop := forall s, arrays_ok s -> runs m s (fun _ s' => arrays_ok s').

Definition dsound {A} (m : M Dec A) (P : A -> Prop) : Prop := forall d, arrays_ok (scr d) ->
  runs m d (fun a d' => arrays_ok (scr d') /\ cache d' = cache d /\ P a).

Lemma sound_ret {A} (a : A) : sound (mret_ a).
Proof. intros s Hs. by apply runs_ret. Qed.

Lemma sound_bind {A B} (m : M Scr A) (k : A -> M Scr B) : sound m -> (forall a, sound (k a)) -> sound (mbind_ m k).
Proof. intros Hm Hk s Hs. eapply runs_bind; [by apply Hm|]. intros a s' Hs'. by apply Hk. Qed.

Lemma sound_mfor g : forall n lo, (forall i, lo <= i < lo + Z.of_nat n -> sound (g i)) -> sound (mfor n lo g).
Proof.
  induction n as [|n IH]; intros lo Hg; cbn [mfor]; [apply sound_ret|].
  apply sound_bind; [apply Hg; lia|]. intros _. apply IH. intros i Hi. apply Hg. lia.
Qed.

Lemma sound_put_attr i a : on_page i -> sound (put_attr i a).
Proof.
  intros Hi s [Hs Hb]. eexists _, _. rewrite put_attr_run by done. split; [reflexivity|]. split; [by apply scr_ok_atrb|done].
Qed.

Lemma sound_put_char i c : on_page i -> is_byte c -> sound (put_char i c).
Proof.
  intros Hi Hc s [Hs Hb]. eexists _, _. rewrite put_char_run by done. split; [reflexivity|].
  split; [by apply scr_ok_char|]. cbn. by apply Forall_insert.
Qed.

Lemma sound_mot i : on_page i -> sound (mot_char i).
Proof.
  intros Hi s Hs. unfold mot_char, runs. rewrite (mbind_run _ _ _ _ _ (get_char_run i s (proj1 Hs) Hi)).
  by apply sound_put_char.
Qed.

Lemma sound_pop_triplet i : on_page i -> on_page (i + 2) -> sound (pop_triplet i).
Proof.
  intros H1 H2 s Hs. unfold on_page in *. unfold pop_triplet, runs. rewrite mget_bind.
  assert (exists d, deh24_at (page_char s) i = Ok d) as [d ->].
  { destruct Hs as [[H _ _] _]. unfold deh24_at, rd. rif. by eexists. }
  rewrite mlift_bind.
  assert (forall a b c, is_byte a -> is_byte b -> is_byte c ->
    sound (put_char i a ;;; put_char (i + 1) b ;;; put_char (i + 2) c)) as H.
  { intros a b c Ha Hb Hc. apply sound_bind; [by apply sound_put_char|]. intros _.
    apply sound_bind; [by apply sound_put_char; [unfold on_page; lia|]|]. intros _. by apply sound_put_char. }
  case_if; apply H; done || apply u8_byte.
Qed.

(** ** The caller's state *)

Section rules.
Context {A B : Type}.

Lemma dsound_ret (a : A) (P : A -> Prop) : P a -> dsound (mret_ a) P.
Proof. intros H d Hd. by apply runs_ret. Qed.

Lemma dsound_bind (m : M Dec A) (k : A -> M Dec B) P Q :
  dsound m P -> (forall a, P a -> dsound (k a) Q) -> dsound (mbind_ m k) Q.
Proof.
  intros Hm Hk d Hd. eapply runs_bind; [by apply Hm|]. intros a d' (H1 & H2 & H3).
  eapply runs_weaken; [by apply (Hk a H3)|]. intros b d'' (K1 & K2 & K3). split; [done|]. split; [congruence|done].
Qed.

Lemma dsound_scr (m : M Scr A) : sound m -> dsound (on_scr m) (fun _ => True).
Proof.
  intros Hm d Hd. destruct (Hm _ Hd) as (a & s' & E & Hs'). exists a, (set_scr s' d). unfold on_scr. by rewrite E.
Qed.
End rules.

Lemma dsound_put_chars off l : 0 <= off -> off + zlen l <= 1000 -> bytes l -> dsound (put_chars off l) (fun _ => True).
Proof.
  intros Ho Hl Hb. unfold put_chars. apply dsound_scr. intros s [[H1 H2 H3] Hs]. unfold runs. rewrite mget_bind.
  destruct (memcpy_to_some (page_char s) off l) as [t Et]; [lia|lia|]. rewrite Et, mlift_bind.
  eexists _, _. split; [reflexivity|].
  pose proof (memcpy_to_length _ _ _ _ Et) as Hlen. split; [constructor; cbn; [unfold zlen in *; lia|done..]|].
  cbn. rewrite memcpy_to_ok in Et by lia. injection Et as <-. rewrite !bytes_app. auto.
Qed.

Definition digits_ok (n : Z) : bool :=
  let l := tuxtxt_hex2str n in (zlen l <=? 3) && forallb (fun x => (0 <=? x) && (x <? 256)) l.

Lemma digits_all n : 0 <= n < 0x900 -> digits_ok n = true.
Proof. apply (forall_range digits_ok 0x900). by vm_compute. Qed.

Lemma dsound_put_hex off n : 0 <= n < 0x900 -> 2 <= off < 1000 -> dsound (put_hex off n) (fun _ => True).
Proof.
  intros Hn Ho. pose proof (digits_all n Hn) as Hd. unfold digits_ok in Hd. cbv zeta in Hd.
  apply andb_prop in Hd as [Hl Hb]. pose proof (zlen_nonneg (tuxtxt_hex2str n)).
  unfold put_hex. cbv zeta. apply dsound_put_chars; [lia|lia|by apply decide_bytes].
Qed.

Lemma bytes_replicate n x : is_byte x -> bytes (replicate n x).
Proof. intros Hx. by apply Forall_replicate. Qed.

Lemma dsound_header boxed pg subpg : 0 <= pg < 0x900 -> 0 <= subpg < 0x80 ->
  dsound (header_line boxed pg subpg) (fun _ => True).
Proof.
  intros Hp Hs. unfold header_line. case_if; [by apply dsound_put_chars; [lia|rewrite zlen_replicate; lia|apply bytes_replicate]|].
  eapply dsound_bind; [by apply dsound_put_chars; [lia|rewrite zlen_replicate; lia|apply bytes_replicate]|]. intros _ _.
  eapply dsound_bind; [by apply dsound_put_hex; lia|]. intros _ _. case_if; [|by apply dsound_ret].
  eapply dsound_bind; [by apply dsound_put_chars; [lia|by vm_compute|repeat constructor]|]. intros _ _.
  eapply dsound_bind; [by apply dsound_put_chars; [lia|by vm_compute|repeat constructor]|]. intros _ _.
  apply dsound_put_hex; lia.
Qed.

Lemma sound_plain n : 0 <= n <= 1000 -> sound (mfor (Z.to_nat n) 0 (fun i => put_attr i plain_attr)).
Proof. intros Hn. apply sound_mfor. intros i Hi. apply sound_put_attr. unfold on_page. lia. Qed.

Lemma sound_pop_row row : 1 <= row < 12 -> sound (pop_row row).
Proof.
  intros Hr. unfold pop_row. apply sound_bind; [apply sound_put_char; [unfold on_page; lia|apply u8_byte]|].
  intros _. apply sound_mfor. intros i Hi. apply sound_pop_triplet; unfold on_page; lia.
Qed.

Lemma dsound_irregular fn : dsound (irregular_page fn) (fun _ => True).
Proof.
  unfold irregular_page. case_if.
  { eapply dsound_bind; [apply dsound_scr, (sound_plain 960); lia|]. intros _ _.
    eapply dsound_bind; [apply dsound_scr, sound_mfor; intros i Hi; apply sound_mot; unfold on_page; lia|]. intros _ _.
    by apply dsound_ret. }
  case_if.
  { eapply dsound_bind; [apply dsound_scr, (sound_plain 960); lia|]. intros _ _.
    eapply dsound_bind; [apply dsound_scr, sound_mfor; intros i Hi; apply sound_pop_row; lia|]. intros _ _.
    by apply dsound_ret. }
  case_if; [by apply dsound_ret|].
  eapply dsound_bind; [apply dsound_scr, (sound_plain 8); lia|]. intros _ _. by apply dsound_ret.
Qed.

(** ** The page *)

(** No cell has the colour 8; outside the boxes of a boxed page all is
    transparent. *)
Definition resolved (boxed : bool) (s : Scr) : Prop :=
  forall i a, lookupZ (page_atrb s) i = Some a -> fg a <> 0x08 /\ bg a <> 0x08 /\
    (boxed = true -> boxwin a = false -> fg a = tuxtxt_color_transp /\ bg a = tuxtxt_color_transp).

Lemma box_page_sound boxed s : arrays_ok s ->
  runs (box_page boxed) s (fun _ s' => arrays_ok s' /\ resolved boxed s').
Proof.
  intros [Hs Hb]. destruct (box_page_run boxed s Hs) as (s' & E & [Hok Ha Hc _ _]). exists tt, s'.
  split; [done|]. split; [split; [done|by rewrite Hc]|]. intros i a La. rewrite Ha in La.
  assert (0 <= i < 1000) as Hi.
  { assert (exists x, lookupZ (page_atrb s) i = Some x) as [x Lx].
    { case_if_in La; [|by exists a]. destruct (lookupZ (page_atrb s) i) as [x|]; [by exists x|done]. }
    unfold lookupZ in Lx. destruct (0 <=? i) eqn:E0; [|done]. apply lookup_lt_Some in Lx.
    destruct Hs as [_ H _]. unfold zlen in H. lia. }
  unfold within in La. replace ((0 <=? i) && (i <? 0 + 1000)) with true in La by lia.
  destruct (lookupZ (page_atrb s) i) as [x|]; [|done]. injection La as <-. unfold box_attr. cbv zeta. cbn.
  destruct (box_color_spec boxed (boxwin x) (at_ (FullRowColor s) (i / 40)) (FullScrColor s) (fg x)) as [F1 F2].
  destruct (box_color_spec boxed (boxwin x) (at_ (FullRowColor s) (i / 40)) (FullScrColor s) (bg x)) as [B1 B2].
  auto.
Qed.

Lemma sound_rows hint boxed rows : 24 <= rows <= 25 -> sound (decode_rows 26 hint boxed 0 rows).
Proof.
  intros Hr s [Hs Hb].
  assert (done_to (0 * 40) s s) as H0 by (constructor; [done|lia|done]).
  destruct (decode_rows_scan hint boxed rows 26 0 s s) as (s' & E & Hd & _); [lia|lia|lia|done|done|done|lia|].
  exists tt, s'. split; [done|]. split; [apply Hd|]. apply (done_bytes (rows * 40) s s'); [lia|done|apply Hs|done].
Qed.

Lemma interpret_sound fuel hint boxed rows d : 24 <= rows <= 25 -> arrays_ok (scr d) ->
  runs (interpret_page fuel false hint boxed rows) d (fun _ d' =>
    arrays_ok (scr d') /\ cache d' = cache d /\ resolved boxed (scr d')).
Proof.
  intros Hr Hd. unfold interpret_page.
  eapply runs_bind; [by apply (dsound_scr _ (sound_rows hint boxed rows Hr))|]. intros _ d1 (H1 & C1 & _).
  eapply runs_bind.
  { apply (dsound_scr (mmodify (set_FullScrColor tuxtxt_color_black))); [|exact H1].
    intros s [[K1 K2 K3] Hb]. eexists tt, _. split; [reflexivity|]. by split. }
  intros _ d2 (H2 & C2 & _). unfold runs. rewrite mret_bind.
  destruct (box_page_sound boxed (scr d2) H2) as (u & s' & E & Hs' & Hres).
  exists u, (set_scr s' d2). unfold on_scr. rewrite E. split; [done|]. split; [done|]. split; [cbn; congruence|done].
Qed.

(** The page that is shown: the received subpage, or the chosen one. *)
Definition shown (s : St) : option (Z * Z) :=
  let sp := at_ (subpagetable s) (page s) in
  if sp =? 0xff then None
  else
    let k := (page s, if zap_subpage_manual s then subpage s else sp) in
    match astCachetable s !! k with Some _ => Some k | None => None end.

(** All that is copied to the page are bytes. *)
Definition page_bytes (s : St) : Prop :=
  bytes (timestring s) /\
  forall k pg, shown s = Some k -> astCachetable s !! k = Some pg ->
    bytes (p0 pg) /\ (forall l, p24 (pageinfo pg) = Some l -> bytes l) /\
    (forall b s', tuxtxt_decompress_page (fst k) (snd k) s = Ok (b, s') -> bytes b).

(** One step of the call, from a state with the cache [s]. *)
Lemma step_sound {A B} (m : M Dec A) (k : A -> M Dec B) s d P Q : arrays_ok (scr d) -> cache d = s -> dsound m P ->
  (forall a d', arrays_ok (scr d') -> cache d' = s -> P a -> runs (k a) d' Q) -> runs (mbind_ m k) d Q.
Proof. intros Hd Hc Hm Hk. eapply runs_bind; [by apply Hm|]. intros a d' (H1 & H2 & H3). apply Hk; congruence || done. Qed.

Lemma step_slice {B} l off n (k : list Z -> M Dec B) d Q : 0 <= off -> 0 <= n -> off + n <= zlen l -> bytes l ->
  (forall x, zlen x = n -> bytes x -> runs (k x) d Q) -> runs (mbind_ (mlift (slice l off n)) k) d Q.
Proof.
  intros Ho Hn Hl Hb Hk. unfold runs. rewrite slice_ok by lia. rewrite mlift_bind.
  apply Hk; [|by apply bytes_take, bytes_drop]. apply (slice_zlen l off n). by rewrite slice_ok.
Qed.

Lemma step_cache {A B} (m : M St A) (k : A -> M Dec B) d a Q : m (cache d) = Ok (a, cache d) ->
  runs (k a) d Q -> runs (mbind_ (on_cache m) k) d Q.
Proof. intros E Hk. unfold runs, mbind_, on_cache. rewrite E. cbn. by destruct d. Qed.

(** What is copied and written before the rows are interpreted. *)
Lemma copied {B} pg sp link s text boxed (k : unit -> M Dec B) d Q :
  page_ok link -> zlen (timestring s) = 8 -> bytes (timestring s) ->
  bytes (p0 link) -> (forall l, p24 (pageinfo link) = Some l -> bytes l) ->
  zlen text = TEXT -> bytes text -> 0 <= pg < 0x900 -> 0 <= sp < 0x80 ->
  arrays_ok (scr d) -> cache d = s ->
  (forall d', arrays_ok (scr d') -> cache d' = s -> runs (k tt) d' Q) ->
  runs (put_chars 40 text ;;;
     let! head := mlift (slice (p0 link) 0 24) in
     put_chars 8 head ;;;
     match p24 (pageinfo link) with
     | Some l => let! l := mlift (slice l 0 40) in put_chars (24 * 40) l
     | None => mret_ tt
     end ;;;
     let! time := mlift (slice (timestring s) 0 8) in
     put_chars 32 time ;;;
     mbind_ (header_line boxed pg sp) k) d Q.
Proof.
  intros [[Hp24 _] Hp0 _] Ht Hbt Hb0 Hb24 Hlen Hbx Hpg Hsp Hd Hc Hk. unfold TEXT in Hlen.
  eapply step_sound; [done..|by apply dsound_put_chars; [lia|lia|]|]. intros _ d1 H1 C1 _.
  apply step_slice; [lia|lia|lia|done|]. intros head Lh Bh.
  eapply step_sound; [done..|by apply dsound_put_chars; [lia|lia|]|]. intros _ d2 H2 C2 _.
  eapply (step_sound _ _ _ _ (fun _ => True)); [done|done| |].
  { destruct (p24 (pageinfo link)) as [l|]; [|by apply dsound_ret].
    intros e He. apply step_slice; [lia|lia|rewrite (Hp24 l eq_refl); lia|by apply Hb24|]. intros x Lx Bx.
    by apply dsound_put_chars; [lia|lia| |]. }
  intros _ d3 H3 C3 _. apply step_slice; [lia|lia|lia|done|]. intros time Lt Bt.
  eapply step_sound; [done..|by apply dsound_put_chars; [lia|lia|]|]. intros _ d4 H4 C4 _.
  eapply step_sound; [done..|by apply dsound_header|]. intros [] d5 H5 C5 _. by apply Hk.
Qed.

(** Decoding a page for level 1, whatever it contains: the call returns, with
    the page that the cache has for the screen or nothing, keeps the arrays
    sound and leaves the cache alone.  On a page with a decimal number no cell
    keeps the transparent colour 8, and if it is a newsflash or subtitle all
    outside its boxes is transparent. *)
Theorem DecodePage_level1 fuel hint flof d :
  wf (cache d) -> in_range (page (cache d)) -> 0 <= subpage (cache d) < 0x80 -> page_bytes (cache d) ->
  arrays_ok (scr d) ->
  runs (tuxtxt_DecodePage fuel false hint flof) d (fun r d' =>
    arrays_ok (scr d') /\ cache d' = cache d /\ r = shown (cache d) /\
    forall k pg, r = Some k -> astCachetable (cache d) !! k = Some pg -> tuxtxt_is_dec (page (cache d)) = true ->
      resolved (boxed (pageinfo pg)) (scr d')).
Proof.
  intros Hw Hp Hsub [Hbt Hby] Hd. unfold in_range in Hp. unfold tuxtxt_DecodePage, runs. rewrite mget_bind. cbv zeta.
  set (s := cache d) in *.
  destruct (wf_subpages s Hw) as [Hl Hf].
  destruct (idx_Forall _ _ (page s) Hf ltac:(lia)) as (sp & Esp & Hsp). rewrite Esp, mlift_bind.
  assert (at_ (subpagetable s) (page s) = sp) as Eat.
  { unfold idx in Esp. unfold at_. rewrite nth_lookup. replace (0 <=? page s) with true in Esp by lia.
    destruct (subpagetable s !! Z.to_nat (page s)); [by injection Esp|done]. }
  unfold shown in *. rewrite Eat in *. destruct (sp =? 0xff) eqn:Eff; [by apply runs_ret|].
  set (tmp := if zap_subpage_manual s then subpage s else sp) in *.
  assert (0 <= tmp < 0x80) as Htmp by (unfold tmp; case_if; lia).
  pose proof (page_at_run s (page s) tmp ltac:(lia) Htmp) as Eat'.
  destruct (astCachetable s !! (page s, tmp)) as [link|] eqn:Elink;
    (eapply step_cache; [exact Eat'|]; cbv beta iota); [|by apply runs_ret].
  destruct (wf_page s _ _ _ Hw Elink) as (_ & _ & Hok).
  destruct (Hby _ link eq_refl Elink) as (Hb0 & Hb24 & Htext).
  destruct (safe_decompress s (page s) tmp Hw ltac:(lia) Htmp) as (text & s1 & Etext & _ & _ & Lt & ->).
  eapply step_cache; [exact Etext|]. cbv beta.
  apply copied; try done; [by apply wf_time|by eapply Htext|lia|]. intros d1 H1 C1.
  destruct (tuxtxt_is_dec (page s)) eqn:Edec; cbn [negb].
  - unfold runs. rewrite mret_bind. eapply runs_bind.
    { apply (interpret_sound fuel hint _ _ d1); [|done]. destruct (p24 (pageinfo link)), flof; lia. }
    intros u d2 (H2 & C2 & Hres). apply runs_ret. split; [done|]. split; [congruence|]. split; [done|].
    intros k pg [= <-] Hk _. rewrite Elink in Hk. injection Hk as <-. by rewrite andb_true_r in Hres.
  - eapply step_sound; [done..|apply dsound_irregular|]. intros stop d2 H2 C2 _.
    eapply (runs_bind _ _ _ (fun _ d' => arrays_ok (scr d') /\ cache d' = s)).
    + destruct stop; [by apply runs_ret|]. eapply runs_weaken.
      { apply (interpret_sound fuel hint _ _ d2); [|done]. destruct (p24 (pageinfo link)), flof; lia. }
      intros u d3 (H3 & C3 & _). split; [done|congruence].
    + intros u d3 [H3 C3]. apply runs_ret. by split_and!.
Qed.
